(* ===== verification/_CoqProject ===== *)
-Q . S2P
Prelude.v
GoStd.v
Nostr.v
Model.v
OnBehalf.v
Filters.v
Subscription.v
Matcher.v
StateFSM.v
Content.v
Validator.v
TagRules.v
Rules.v
Attestation.v
Community.v
Replies.v
Membership.v
Badges.v
Posts.v
Total.v
Validate.v
QueryFilter.v
QueryBuilder.v
QuerySafety.v
QueryDependency.v
QueryDelete.v
Connector.v
Masters.v
Statements.v
Credentials.v
Startup.v
Rows.v
Status.v
Selection.v
Store.v
Rollback.v
Cascade.v
Consensus.v
Agreement.v
Auth.v
HttpAuth.v
Files.v
FileServer.v
FileAccess.v
Prices.v
Jobs.v
JobLaws.v
Fcm.v
Devices.v
Push.v
PushLaws.v
Handler.v
Forwarding.v
Delivery.v
Broadcaster.v
Preview.v
Senders.v
Info.v
Cdn.v
Queue.v
Frames.v
Transport.v
Downloads.v
Main.v
