(* ===== verification/Prelude.v ===== *)
(** * subzero: a verification library for the core of the relay

    subzero is a Nostr relay of a network of relays: users are served by several of
    them, sign events with the keys of devices they attest, and publish posts,
    communities, badges, payments, files and jobs.  This library models the Go code
    that decides what a relay accepts, stores, forwards, serves and undoes, and
    proves what makes these decisions right.  Every definition that translates code
    has a comment [src: file lines] in front of it (paths are relative to src/) and
    keeps the name of the source.

    ** The program and the files

    An event comes in over a connection (server/ws), is validated (validation),
    stored (database/query), agreed on with the other relays of its owner
    (database/command), and handed to live subscriptions (event-matcher,
    model/subscription.go), to jobs (dvm), to devices (push-notifications) and to the
    relays of the users it concerns (server/broadcaster).  Files are served beside the
    events (storage, server/http).  The callbacks that tie these together are
    registered by cmd/subzero-ion-connect.

    - This file and [GoStd]: errors as sets of sentinels, [outcome] (a result, an
      error, a panic, or fuel that ran out), the state monad [ST] that keeps the
      state when a call fails, [runs] (a computation that does not exhaust fuel) and
      [maintains] (a run that keeps a property of the state) with their hint bases
      and tactics; strings, numbers, paths, hex and base64 of Go's library.
    - [Nostr] is the interface to go-nostr: its data types, a class of its
      operations and a class of what they are documented to do.
    - Package model: [Model] (kinds, tags, addresses, signatures with two
      algorithms, batches, embeddings), [OnBehalf] (onbehalf.go: attestations and
      access), [Filters] (filter.go, reference.go, relay.go, context.go),
      [Subscription] (subscription.go), [Content] (content.go).
    - Package eventmatcher: [Matcher].  Package statefsm: [StateFSM].
    - Package validation: [Validator] (config.go, validator.go: what a rule
      receives), [TagRules] and [Rules] (tables of tags and rules of one event),
      [Attestation], [Community], [Replies], [Membership], [Badges], [Posts] (rules
      that read the database), [Validate] (validate.go: the dispatch and the events
      an event embeds) and [Total] (no rule exhausts fuel).
    - Package query: [QueryFilter] (the language of the search field),
      [QueryBuilder] (statements), [Connector] (errors of the driver, retries),
      [Masters] (pools of connections, the switch to another master), [Statements] (how
      a statement is run), [Credentials] (what is masked in messages), [Startup]
      (configuration, self-test, periodic work), [Rows] (an event as a row), [Status]
      (health), [Selection] (rows to events), [Store]
      (storing, deleting, rolling back), [Prices] (subscriptions to prices).
    - Package command: [Consensus].  Package main: [Main], the callbacks it registers
      over the parts of the program, and the end of the program (appcontext).
    - Packages server/auth and server/ws: [Auth] (AUTH messages, access of devices),
      [Handler] (every other message, broadcasts to subscriptions, limits),
      [Transport] (the writers and readers of connections) and [Frames] (compressed
      frames, with the pool of package pool).
    - Package broadcaster: [Broadcaster].  Package rq: [Queue], the jobs in
      PostgreSQL.
    - Files over HTTP: [HttpAuth] (nip98), [Files] (package storage), [FileServer]
      (nip96 and resumable uploads), [Downloads] (the goroutine of the queue of
      downloads, the events of torrents) and [Cdn] (copies on a CDN).
    - Other endpoints and services: [Preview] (previews of events), [Info] (the
      information document of nip11 and the state of the system), [Senders] (reports
      of hashtags, contents and followers; identity keys).
    - Package dvm: [Jobs].  Package pushnotifications: [Fcm] (the client of
      Firebase), [Devices] (registrations, lookups, counters), [Push] (who is
      notified, batches, jobs between relays).

    A file without theorems of its own is followed by one that has them: [QuerySafety],
    [QueryDependency] and [QueryDelete] (over QueryBuilder), [Rollback] and [Cascade]
    (over Store and Connector), [Agreement] (over Consensus and Store), [FileAccess]
    (over Files and FileServer), [JobLaws], [PushLaws], [Forwarding] and [Delivery]
    (over Handler, Matcher and Subscription).  A Module called [...Witness] at the end
    of a file applies the theorems to concrete inputs.

    ** State and steps

    Code that changes shared objects is a state monad over a record with the fields
    of the Go struct; a pointer that is shared is a number under which a map holds
    the object ([Handler], [Files]).  [sync.Map], mutexes and channels make the
    operations under them atomic steps.  Where interleaving matters it is modelled:
    [Delivery] has a step relation of a REQ that goes live beside broadcasts,
    [Rollback] runs of accept, commit and roll back in any order, [JobLaws] and
    [PushLaws] the reachable states of a relay, [Attestation] the transitions of a
    key, [Masters] the goroutines around the active pool between their switches and
    sleeps, [Transport] senders beside the writer of a connection, [Frames] the
    goroutines that share compressors, [Downloads] the queue between the events of
    torrents, [Broadcaster] the connections over a run.  Every other handler runs alone: what two goroutines do to each other
    between the steps of one handler is not shown.

    ** What the theorems show

    - Validation: an accepted event has the identifier, signature, tags and rules of
      its kind, and so have the events it embeds ([Validate.validate_sound]);
      validation ends ([validate_terminates]); attestations follow the state machine
      and decide access ([validateAttestationEvent_Ok], [ParseAttestationTags_refines],
      [ValidateUserAccess_granted]); a community is its newest definition with the
      later changes of those allowed to make them
      ([getCommunityDefinition_current]) and posts are deleted by those who rank above
      ([validateKindDeletionEvent_Ok]).
    - Queries: no string of a client reaches the text of a statement
      ([BuildWhere_no_injection]), except through the comment of a dependency (file
      QueryDependency); what a deletion without targets deletes
      ([targetless_deletion]).
    - Storage: what is kept to undo a batch ([client_refines]); the active master is
      open and current ([master_available]), the preferred one is regained
      ([preferred_regained]) and statements run on open pools
      ([statements_on_open_pools]); users and passwords in a
      message that is logged are masked up to their first space
      ([sanitizeDSN_masks]); a push to the job queue ends and says what happened
      ([Push_ends]).
    - Agreement: transactions carry their events ([mapEventsToTXs_carries]), a batch
      has one owner ([broadcast_single_owner]), what is announced was kept first
      ([announced_when_kept]), and what is refused afterwards stays stored
      ([refused_but_stored]); connections to other relays are the
      ones that are kept ([connections_kept]).
    - Connections: a connection keeps the key it proved ([handleAuth_sound]); a new
      event reaches exactly the subscriptions it may ([BroadcastNewEvents_safe]); the
      index refines a map of filters ([Storage_refines], [registered_value_found]), the
      queue of a subscription an association list ([Subscription_refines]), and no
      broadcast is lost or doubled but in one race ([broadcast_accounted]); messages
      are written in their order ([written_in_order]) and read as they were written
      ([webtransport_roundtrip]); when a compressed frame is what was compressed, and
      when another message takes its place ([payload_kept], [payload_lost]).
    - Files: who changes them ([files_changed_by_owner], [upload_path]), bounds of listings ([ListFiles_bounds]) and of downloads
      ([downloads_bounded]), whose bag a torrent becomes ([header_decides_owner]), what
      a malformed node does ([malformed_bootstrap_ends]), headers that are accepted
      ([generated_header_accepted]).
    - Jobs and devices: counts count ([countBasedOnGroups_counts]); the devices found are the
      registrations that are kept and match ([devices_found]), whom a batch notifies
      ([notified_devices]).
    - Every file proves more than this: what a profile's name needs, the events a
      query yields, the rows of a batch and its undoing, what a self-test closes, that
      every subscriber to a price is queued once, the relays files are copied from, the end of cascading deletions, every way a broadcast
      between relays ends, the end of the program, uploads, the order of masters, the least latency, the
      bandwidth that is shown, verified badges, names of queues, the CDN's health.

    ** Fuel and bounds

    Recursion that is not structural takes fuel, and running out of it is an outcome
    of its own, [OutOfFuel], that no theorem takes for a result.  Validation: the
    nesting of the embedded documents (class [Nesting] of Validate; JSON text is
    finite), shown enough by [validate_terminates].  The search language: the length
    of the search.  Pages of gift wraps: the events that are stored ([Delivery]; with
    more than a page in one second the code itself does not end).  Rounds of
    deletions: the events that depend on one another ([Cascade]).  Retries: the
    attempts the elapsed time allows, a parameter.  Batches of prices and of
    registrations: the rows that are left.  A push ([Queue]): the half seconds up to
    the end of its context, shown enough by [Push_ends].  A round of downloads: the
    items that are queued.  Integers that can overflow are kept at their width:
    [int64] here, 32-bit sizes in [Files], 64-bit counters in [Devices], [Info] (the
    bandwidth) and [Masters] (turns of the replicas); timestamps are instants of
    go-nostr.

    ** Parameters

    Code that is not under src/ is a parameter, as a class: [Nostr], [GoText]
    (Unicode case tables, net/url), [GoJSON], [GoGJSON], [Crypto] (SHA-256,
    Ed25519), [RichText] (Quill, HTML), [Env] (the request and the clock), [Nesting],
    [Tokenizer], [TagMaps] and [EventText] (orders of ranges over maps, printing),
    [Unicode], [RowText] (xxh3, emojis), [Nip42], [CometBFT], [HttpText],
    [StorageWorld] and [StorageText] (torrents, key-value store, file system, CDN),
    [Decimal], [DVMWorld] and [DVMText], [Nip44], [PushWorld], [PushClient] and
    [PushText], [PoolWorld] (pgx), [Sqlx] (sqlx, scany), [PgURL]
    (URLs of databases), [TestWorld] (what the self-test reads and writes), [Parts] (the
    parts main ties together, implemented by the database and the files), [QueueWorld] (River), [RelayWorld] and
    [BroadcastJSON] (connections to relays), [Flate] (compress/flate, wsflate),
    [CDNWorld] (the CDN's HTTP interface), [DownloadWorld] (torrents that download),
    [PreviewJSON], [InfoJSON], [SystemWorld] (the machine), [FetchWorld] (a cache
    with expiry), [Services] (HTTP of other services).  Classes named [...Spec] hold what is relied on: documented facts,
    such as that a signature that was made verifies, or that a range visits every
    key once.  The witnesses instantiate all of them with concrete functions.

    ** Not modelled

    Reading configuration files and command lines, and the order in which main starts
    the parts; TLS, HTTP/2, HTTP/3 and the upgrade of connections (server,
    server/ws/internal): calls into libraries; the tables and triggers of the database
    (SQL); telemetry and logging, which no command initialises; the statistics of
    storage, which go to the log; load tests, generators and fixtures. *)

From stdpp Require Export base tactics decidable option list strings gmap sets.
From Stdlib Require Export ZArith Lia ZifyBool.
From Stdlib Require Export Ascii.
#[export] Set Warnings "-clear-no-such-hyp".
#[global] Open Scope string_scope.
#[global] Open Scope list_scope.
#[global] Open Scope Z_scope.

(** stdpp never unfolds [String.append]; here literals should compute. *)
#[global] Arguments String.append !_ _ / : simpl nomatch.

(** ** Errors

    The code compares errors only with [errors.Is] / [errors.IsAny] against
    the exported sentinel values.  An [error] is therefore its set of
    sentinels, in wrapping order: [errors.Wrap]/[Wrapf] add a message only
    (and keep the chain), [errors.Join] concatenates the chains, and an error
    made by [errors.Errorf] or by a library has no sentinel. *)

Inductive sentinel : Set :=
  (* model *)
  | ErrUnsupportedAlg | ErrOnBehalfAccessDenied | ErrNotAuthorized
  | ErrAttestationRecordNotFound | ErrAttestationRecordExpired
  | ErrAttestationRecordRevoked | ErrAttestationRecordIsNotActive
  (* validation *)
  | ErrWrongEventParams | ErrPollTTLExpired | ErrUnsupportedTag | ErrUnsupportedJob
  | ErrUnsupportedKind | ErrActionForbidden | ErrEphemeralForbidden | ErrNotFound
  | ErrContentEmpty | ErrContentNotEmpty | ErrEventInvalidID | ErrEventInvalidSign
  | ErrSignatureByIONIdentityRequired | ErrWalletRequired
  | ErrUserIsNotPresentedOnRelay | ErrUsernameProofOfOwnershipFailed
  | ErrAttestationUnknownAction | ErrAttestationInvalidFormat
  | ErrAttestationInvalidTransition | ErrAttestationInvalidTemporalOrder
  | ErrAttestationInvalidPubkey | ErrDeviceIdentificationProofFailed
  (* server/auth *)
  | ErrRelayNotAuthoritative | ErrRelayAuthoritative
  (* database/query *)
  | ErrRaceCondition | ErrUnexpectedRowsAffected | ErrAttestationUpdateRejected
  | ErrRepostOfDeletedPost | ErrInvalidEvent | ErrInvalidRequest | ErrForbidden
  | errUnsupportedCombination
  (* database/query/internal/connector; its ErrNotFound is [ErrNoRecord] *)
  | ErrReadOnly | ErrNoRecord | ErrRelationNotFound | ErrRelationInUse | ErrDuplicate
  | ErrCheckFailed | ErrSerializationFailure | ErrTxAborted | ErrExclusionViolation
  | ErrOperatorError | ErrException | ErrInvalidData | ErrInternal
  (* database/command *)
  | ErrMultipleMasterKeys
  (* server/ws *)
  | errAuthRequired | errRelayReadOnly | errDuplicate
  (* server/http/nip98 *)
  | ErrTokenExpired | ErrTokenInvalid
  (* storage; its ErrNotFound is [ErrFileNotExist], its ErrForbidden [ErrFileForbidden] *)
  | ErrFileNotExist | ErrFileForbidden | ErrNoRelays | ErrFileTooBig | ErrValidationFailed
  | errLatestBagNotDownloadedYet
  (* os, encoding/json *)
  | ErrNotExist | SyntaxError.

#[export] Instance sentinel_eq_dec : EqDecision sentinel.
Proof. solve_decision. Defined.

Record error : Set := MkError { chain : list sentinel }.

#[export] Instance error_eq_dec : EqDecision error.
Proof. solve_decision. Defined.

(** An error without a sentinel: [errors.Errorf], [errors.New], library errors. *)
Definition opaque_error : error := MkError [].

Definition err (s : sentinel) : error := MkError [s].

(** [errors.Join] of two non-nil errors. *)
Definition join_error (e1 e2 : error) : error := MkError (chain e1 ++ chain e2).

(** [errors.Is]. *)
Definition error_is (e : error) (s : sentinel) : bool := bool_decide (s ∈ chain e).

(** ** Outcomes of Go calls

    [Ok] a normal return, [Err] a non-nil error, [Panic] a run-time panic
    (index or slice out of range, nil dereference), [OutOfFuel] the fuel of
    a recursive definition ran out (never a behaviour of the code: see the
    termination theorems). *)

Inductive outcome (A : Type) : Type :=
  | Ok (a : A)
  | Err (e : error)
  | Panic
  | OutOfFuel.
Arguments Ok {A} a.
Arguments Err {A} e.
Arguments Panic {A}.
Arguments OutOfFuel {A}.

#[export] Instance outcome_eq_dec {A} `{EqDecision A} : EqDecision (outcome A).
Proof. solve_decision. Defined.

#[export] Instance outcome_ret : MRet outcome := fun A a => Ok a.
#[export] Instance outcome_bind : MBind outcome := fun A B f m =>
  match m with
  | Ok a => f a
  | Err e => Err e
  | Panic => Panic
  | OutOfFuel => OutOfFuel
  end.

Declare Scope go_scope.
Delimit Scope go_scope with go.
#[global] Open Scope go_scope.

(** [if c { return e }; k] *)
Notation "'reject' e 'when' c ;; k" := (if c then Err e else k)
  (at level 10, e at level 9, c at level 99, k at level 200,
   format "'[v' 'reject'  e  'when'  c  ;; '/' k ']'") : go_scope.

(** [if err := m; err != nil { return err }; k] *)
Notation "'try' m ;; k" := (mbind (M := outcome) (fun _ : unit => k) m)
  (at level 10, m at level 99, k at level 200,
   format "'[v' 'try'  m  ;; '/' k ']'") : go_scope.

(** [if x, err := m; err != nil { return err }; k] *)
Notation "'let!' x ':=' m 'in' k" := (mbind (M := outcome) (fun x => k) m)
  (at level 10, x pattern, m at level 99, k at level 200,
   format "'[v' 'let!'  x  ':='  m  'in' '/' k ']'") : go_scope.

Notation "a =s? b" := (String.eqb a b) (at level 70) : go_scope.
Notation "a ≠s? b" := (negb (String.eqb a b)) (at level 70) : go_scope.

(** ** Outcomes over a state

    Code that reads and changes a state and may fail: the state it reached is kept
    whatever the outcome is. *)

Definition ST (S A : Type) : Type := S -> S * outcome A.
#[export] Instance ST_ret {S} : MRet (ST S) := fun A a s => (s, Ok a).
#[export] Instance ST_bind {S} : MBind (ST S) := fun A B f m s =>
  match m s with
  | (s, Ok a) => f a s
  | (s, Err x) => (s, Err x)
  | (s, Panic) => (s, Panic)
  | (s, OutOfFuel) => (s, OutOfFuel)
  end.
Definition lift_st {S A} (m : outcome A) : ST S A := fun s => (s, m).
(** The error of a call as a value. *)
Definition attempt_st {S A} (m : ST S A) : ST S (A + error) := fun s =>
  match m s with
  | (s, Ok a) => (s, Ok (inl a))
  | (s, Err x) => (s, Ok (inr x))
  | (s, Panic) => (s, Panic)
  | (s, OutOfFuel) => (s, OutOfFuel)
  end.

(** Replace the error of an outcome, keeping [Ok] and [Panic]:
    [if err != nil { return f(err) }]. *)
Definition map_error {A} (f : error -> error) (m : outcome A) : outcome A :=
  match m with
  | Err e => Err (f e)
  | m => m
  end.

(** A Go function that returns only an [error]. *)
Abbreviation check := (outcome unit).
Abbreviation pass := (Ok tt).

(** [for _, x := range l { if err := f(x); err != nil { return err } }] *)
Fixpoint for_each {A} (l : list A) (f : A -> check) : check :=
  match l with
  | [] => pass
  | x :: l => try f x ;; for_each l f
  end.

(** The same loop threading the variables it assigns. *)
Fixpoint for_state {A S} (l : list A) (s : S) (f : S -> A -> outcome S) : outcome S :=
  match l with
  | [] => Ok s
  | x :: l => let! s := f s x in for_state l s f
  end.

(** [l[i]]: panics out of range. *)
Definition index {A} (l : list A) (i : nat) : outcome A :=
  match l !! i with
  | Some x => Ok x
  | None => Panic
  end.

(** ** Machine integers *)

(** Two's complement wrap-around of a 64-bit signed integer. *)
Definition int64 (z : Z) : Z := (z + 2 ^ 63) `mod` 2 ^ 64 - 2 ^ 63.
Definition max_int64 : Z := 2 ^ 63 - 1.
Definition min_int64 : Z := - 2 ^ 63.

Definition is_int64 (z : Z) : Prop := min_int64 <= z <= max_int64.

(** ** Generic lemmas *)

Lemma int64_id z : is_int64 z -> int64 z = z.
Proof.
  unfold is_int64, min_int64, max_int64, int64. intros H.
  rewrite Z.mod_small; lia.
Qed.

Lemma int64_range z : is_int64 (int64 z).
Proof.
  unfold is_int64, min_int64, max_int64, int64.
  pose proof (Z.mod_pos_bound (z + 2 ^ 63) (2 ^ 64)). lia.
Qed.

Lemma bind_Ok {A B} (m : outcome A) (f : A -> outcome B) b :
  mbind f m = Ok b <-> exists a, m = Ok a /\ f a = Ok b.
Proof. destruct m; cbn; split; naive_solver. Qed.

Lemma bind_Ok_unit {B} (m : check) (k : outcome B) b :
  (try m ;; k) = Ok b <-> m = pass /\ k = Ok b.
Proof. rewrite bind_Ok. split; [intros ([] & ? & ?) | intros []]; eauto. Qed.

Lemma reject_Ok {A} (c : bool) e (k : outcome A) a :
  (reject e when c ;; k) = Ok a <-> c = false /\ k = Ok a.
Proof. destruct c; naive_solver. Qed.

Lemma map_error_Ok {A} f (m : outcome A) a : map_error f m = Ok a <-> m = Ok a.
Proof. destruct m; naive_solver. Qed.

Lemma for_each_Ok {A} (l : list A) f :
  for_each l f = pass <-> Forall (fun x => f x = pass) l.
Proof.
  induction l as [|x l IH]; cbn [for_each].
  - split; auto.
  - rewrite bind_Ok_unit, Forall_cons, IH. done.
Qed.

Lemma for_each_ext {A} (l : list A) f g :
  (forall x, x ∈ l -> f x = g x) -> for_each l f = for_each l g.
Proof.
  induction l as [|x l IH]; cbn; intros H; [done|]. rewrite (H x ltac:(left)).
  destruct (g x); cbn; [|done..]. apply IH. intros y Hy. apply H. by right.
Qed.

Lemma for_each_app {A} (l1 l2 : list A) f :
  for_each (l1 ++ l2) f = (try for_each l1 f ;; for_each l2 f).
Proof. induction l1 as [|x l1 IH]; cbn; [done|]. destruct (f x); cbn; auto. Qed.

Lemma for_each_no_panic {A} (l : list A) f :
  (forall x, x ∈ l -> f x ≠ Panic) -> for_each l f ≠ Panic.
Proof.
  induction l as [|x l IH]; cbn; intros H; [done|].
  pose proof (H x (list_elem_of_here _ _)).
  destruct (f x); cbn; [|done..]. apply IH. intros y Hy. apply H. by right.
Qed.

(** A loop whose body fails with one error only. *)
Lemma for_each_either {A} (l : list A) f e :
  (forall x, f x = pass \/ f x = Err e) -> for_each l f = pass \/ for_each l f = Err e.
Proof.
  intros H. induction l as [|x l IH]; cbn; [auto|]. destruct (H x) as [-> | ->]; cbn; auto.
Qed.

Lemma for_state_app {A S} (l1 l2 : list A) (s : S) f :
  for_state (l1 ++ l2) s f = (let! s := for_state l1 s f in for_state l2 s f).
Proof.
  revert s. induction l1 as [|x l1 IH]; intros s; cbn; [done|].
  destruct (f s x); cbn; auto.
Qed.

(** An invariant of the loop body is an invariant of the loop. *)
Lemma for_state_invariant {A S} (I : list A -> S -> Prop) (f : S -> A -> outcome S) l s s' :
  I [] s ->
  (forall pre x s s', pre ++ [x] `prefix_of` l -> I pre s -> f s x = Ok s' -> I (pre ++ [x]) s') ->
  for_state l s f = Ok s' -> I l s'.
Proof.
  intros H0 Hstep. enough (forall pre suf s s',
    pre ++ suf = l -> I pre s -> for_state suf s f = Ok s' -> I l s') as Hgen.
  { intros Hl. by apply (Hgen [] l s s'). }
  clear s s' H0. intros pre suf. revert pre.
  induction suf as [|x suf IH]; intros pre s s' Heq HI Hrun; cbn in Hrun.
  - rewrite app_nil_r in Heq. by simplify_eq.
  - apply bind_Ok in Hrun as (s1 & Hf & Hrest).
    apply (IH (pre ++ [x]) s1 s'); [by rewrite <- app_assoc| |done].
    apply (Hstep pre x s s1); [|done..].
    exists suf. by rewrite <- app_assoc.
Qed.

(** Equivalences under a conjunction or a quantifier. *)
Lemma and_iff_compat_l_weak (A B C : Prop) : (A -> (B <-> C)) -> (A /\ B <-> A /\ C).
Proof. tauto. Qed.

Lemma and_iff_compat_weak (A A' B C : Prop) : (A <-> A') -> (A -> (B <-> C)) -> (A /\ B <-> A' /\ C).
Proof. tauto. Qed.

Lemma exist_proper {A} (P Q : A -> Prop) : (forall x, P x <-> Q x) -> (exists x, P x) <-> (exists x, Q x).
Proof. firstorder. Qed.

(** ** Runs that do not exhaust their fuel *)

Definition runs {A} (m : outcome A) : Prop := m ≠ OutOfFuel.

Lemma runs_Ok {A} (a : A) : runs (Ok a). Proof. done. Qed.
Lemma runs_Err {A} e : runs (@Err A e). Proof. done. Qed.
Lemma runs_Panic {A} : runs (@Panic A). Proof. done. Qed.

Lemma runs_bind {A B} (m : outcome A) (f : A -> outcome B) :
  runs m -> (forall a, runs (f a)) -> runs (mbind f m).
Proof. intros Hm Hf. by destruct m; cbn. Qed.

Lemma runs_bind_Ok {A B} (m : outcome A) (f : A -> outcome B) :
  runs m -> (forall a, m = Ok a -> runs (f a)) -> runs (mbind f m).
Proof. intros Hm Hf. destruct m; cbn; [by apply Hf|done..]. Qed.

Lemma runs_map_error {A} f (m : outcome A) : runs m -> runs (map_error f m).
Proof. by destruct m. Qed.

Lemma runs_for_each_in {A} (l : list A) f :
  (forall x, x ∈ l -> runs (f x)) -> runs (for_each l f).
Proof.
  induction l as [|x l IH]; cbn; intros H; [done|].
  apply runs_bind; [apply H; left|]. intros _. apply IH. intros y Hy. apply H. by right.
Qed.

Lemma runs_for_each {A} (l : list A) f : (forall x, runs (f x)) -> runs (for_each l f).
Proof. intros H. apply runs_for_each_in. auto. Qed.

Lemma runs_for_state {A S} (l : list A) (s : S) f :
  (forall s x, runs (f s x)) -> runs (for_state l s f).
Proof.
  intros H. revert s. induction l as [|x l IH]; intros s; cbn; [done|].
  apply runs_bind; auto.
Qed.

Lemma runs_index {A} (l : list A) i : runs (index l i).
Proof. unfold index. by destruct (l !! i). Qed.

Create HintDb runs.
#[export] Hint Resolve @runs_Ok @runs_Err @runs_Panic @runs_index : runs.

(** One step towards [runs m], by the shape of [m]; the functions [m] calls
    are resolved by the hints of [runs]. *)
Ltac runs_step :=
  match goal with
  | |- forall _, _ => intros ?
  | |- runs (mbind _ _) => apply runs_bind
  | |- runs (map_error _ _) => apply runs_map_error
  | |- runs (for_each _ _) => apply runs_for_each
  | |- runs (for_state _ _ _) => apply runs_for_state
  | |- runs (match ?x with _ => _ end) => destruct x eqn:?
  | |- runs ((match ?x with _ => _ end) _) => destruct x eqn:?
  | |- runs _ => solve [eauto with runs]
  end.
Ltac solve_runs := cbv zeta; repeat (runs_step; cbv beta zeta).

(** A computation that returned went through all its steps. *)
Lemma bind_st_Ok {S A B} (m : ST S A) (f : A -> ST S B) s s' b :
  mbind f m s = (s', Ok b) -> exists s1 a, m s = (s1, Ok a) /\ f a s1 = (s', Ok b).
Proof. unfold mbind, ST_bind. destruct (m s) as [s1 [a| | |]]; [eauto|done..]. Qed.

Lemma attempt_st_Ok {S A} (m : ST S A) s s' r :
  attempt_st m s = (s', Ok r) -> match r with inl a => m s = (s', Ok a) | inr x => m s = (s', Err x) end.
Proof. unfold attempt_st. destruct (m s) as [s1 [a| | |]]; by intros [= <- <-]. Qed.

(** ** Runs that keep a property of the state *)

Section Maintains.
Context {S : Type} (P : S -> Prop).
Definition maintains {A} (m : ST S A) : Prop := forall s, P s -> P (m s).1.

Lemma maintains_ret {A} (a : A) : maintains (mret a). Proof. by intros s. Qed.
Lemma maintains_lift {A} (m : outcome A) : maintains (lift_st m). Proof. by intros s. Qed.
Lemma maintains_bind {A B} (m : ST S A) (k : A -> ST S B) : maintains m -> (forall a, maintains (k a)) -> maintains (mbind k m).
Proof.
  intros Hm Hk s Hs. specialize (Hm s Hs). unfold mbind, ST_bind.
  destruct (m s) as [s' [a|x| |]]; [by apply Hk|done..].
Qed.
Lemma maintains_attempt {A} (m : ST S A) : maintains m -> maintains (attempt_st m).
Proof. intros Hm s Hs. specialize (Hm s Hs). unfold attempt_st. by destruct (m s) as [s' [a|x| |]]. Qed.
End Maintains.

Create HintDb maintains.
#[export] Hint Resolve maintains_ret maintains_lift maintains_attempt : maintains.
(** Follows the text of a run. *)
Ltac maintain :=
  repeat match goal with
  | |- forall _, _ => intros ?
  | |- maintains _ (mbind _ _) => apply maintains_bind; [|intros ?]
  | |- maintains _ (attempt_st _) => apply maintains_attempt
  | |- maintains _ (match ?x with _ => _ end) => destruct x
  | |- maintains _ (let _ := _ in _) => cbv zeta
  | |- maintains _ _ => solve [eauto 3 with maintains]
  end.

Lemma index_Ok {A} (l : list A) i x : index l i = Ok x <-> l !! i = Some x.
Proof. unfold index. destruct (l !! i); naive_solver. Qed.

Lemma index_lt {A} (l : list A) i : (i < length l)%nat -> exists x, index l i = Ok x.
Proof. intros [x Hx]%lookup_lt_is_Some. exists x. by apply index_Ok. Qed.

Lemma index_ge {A} (l : list A) i : (length l <= i)%nat -> index l i = Panic.
Proof. intros H%lookup_ge_None. unfold index. by rewrite H. Qed.

Lemma error_is_err s s' : error_is (err s) s' = bool_decide (s' = s).
Proof.
  unfold error_is, err. cbn. apply bool_decide_ext.
  rewrite list_elem_of_singleton. done.
Qed.

Lemma error_is_join e1 e2 s :
  error_is (join_error e1 e2) s = error_is e1 s || error_is e2 s.
Proof.
  unfold error_is, join_error. cbn.
  destruct (decide (s ∈ chain e1)), (decide (s ∈ chain e2));
    rewrite ?(bool_decide_eq_true_2 (s ∈ chain e1)),
            ?(bool_decide_eq_true_2 (s ∈ chain e2)),
            ?(bool_decide_eq_false_2 (s ∈ chain e1)),
            ?(bool_decide_eq_false_2 (s ∈ chain e2)) by done; cbn;
    first [apply bool_decide_eq_true_2 | apply bool_decide_eq_false_2];
    rewrite elem_of_app; tauto.
Qed.

(** ** Automation *)

(** [simplify_go]: turn the boolean tests and successful runs among the
    hypotheses into propositions. *)
Ltac simplify_go_step :=
  match goal with
  | H : _ && _ = true |- _ => apply andb_true_iff in H as [? ?]
  | H : _ || _ = false |- _ => apply orb_false_iff in H as [? ?]
  | H : negb _ = true |- _ => apply negb_true_iff in H
  | H : negb _ = false |- _ => apply negb_false_iff in H
  | H : String.eqb _ _ = true |- _ => apply String.eqb_eq in H
  | H : String.eqb _ _ = false |- _ => apply String.eqb_neq in H
  | H : Z.eqb _ _ = true |- _ => apply Z.eqb_eq in H
  | H : Z.eqb _ _ = false |- _ => apply Z.eqb_neq in H
  | H : Z.ltb _ _ = true |- _ => apply Z.ltb_lt in H
  | H : Z.ltb _ _ = false |- _ => apply Z.ltb_ge in H
  | H : Z.leb _ _ = true |- _ => apply Z.leb_le in H
  | H : Z.leb _ _ = false |- _ => apply Z.leb_gt in H
  | H : Nat.ltb _ _ = true |- _ => apply Nat.ltb_lt in H
  | H : Nat.ltb _ _ = false |- _ => apply Nat.ltb_ge in H
  | H : Nat.leb _ _ = true |- _ => apply Nat.leb_le in H
  | H : Nat.leb _ _ = false |- _ => apply Nat.leb_gt in H
  | H : Nat.eqb _ _ = true |- _ => apply Nat.eqb_eq in H
  | H : Nat.eqb _ _ = false |- _ => apply Nat.eqb_neq in H
  | H : bool_decide _ = true |- _ => apply bool_decide_eq_true_1 in H
  | H : bool_decide _ = false |- _ => apply bool_decide_eq_false_1 in H
  | H : (reject _ when _ ;; _) = Ok _ |- _ => apply reject_Ok in H as [? ?]
  | H : (try _ ;; _) = Ok _ |- _ => apply bind_Ok_unit in H as [? ?]
  | H : mbind _ _ = Ok _ |- _ => apply bind_Ok in H as (? & ? & ?)
  | H : map_error _ _ = Ok _ |- _ => apply map_error_Ok in H
  | H : index _ _ = Ok _ |- _ => apply index_Ok in H
  | H : for_each _ _ = pass |- _ => apply for_each_Ok in H
  end.
Ltac simplify_go := repeat (simplify_go_step; simplify_eq).

(** Case split on the scrutinee of an outcome or a conditional of the goal. *)
Ltac case_go :=
  match goal with
  | |- context [if ?c then _ else _] => destruct c eqn:?
  | |- context [match ?m with Ok _ => _ | Err _ => _ | Panic => _ | OutOfFuel => _ end] =>
      destruct m eqn:?
  | |- context [mbind _ ?m] => destruct m eqn:?; cbn
  end.

(** Decide a proposition on concrete data, such as membership in a list. *)
Ltac decide_in := by apply (bool_decide_eq_true_1 _).

Create HintDb go.
Create Rewrite HintDb go.
#[export] Hint Resolve int64_range : go.
#[export] Hint Rewrite @bind_Ok_unit @bind_Ok @reject_Ok @map_error_Ok @for_each_Ok @index_Ok : go.
