(* ===== verification/GoStd.v ===== *)
(** * The parts of Go's standard library the modelled code uses

    Strings are byte strings ([string], one [ascii] per byte).  [strings.Split]
    and [strings.SplitN] are used by the program with one-byte separators only
    and are defined for those; [strings.IndexRune] is used with ASCII runes,
    for which it is a byte index.  [strings.ToLower], [strings.EqualFold] and
    [net/url] depend on tables that are not modelled: they are parameters
    (class [GoText]). *)

From Stdlib Require Import Sorting.Sorted.
From S2P Require Import Prelude.

Module Strings.

Abbreviation byte := ascii.

Fixpoint take (n : nat) (s : string) : string :=
  match n, s with
  | S n, String c s => String c (take n s)
  | _, _ => ""
  end.

Fixpoint drop (n : nat) (s : string) : string :=
  match n, s with
  | S n, String _ s => drop n s
  | _, _ => s
  end.

Abbreviation len := String.length.

(** [s[i:j]] of a Go string: panics unless [i <= j <= len(s)]. *)
Definition slice (s : string) (i j : Z) : outcome string :=
  if (0 <=? i) && (i <=? j) && (j <=? Z.of_nat (len s))
  then Ok (take (Z.to_nat (j - i)) (drop (Z.to_nat i) s))
  else Panic.

(** [strings.IndexRune(s, c)]; [None] is -1. *)
Fixpoint IndexRune (s : string) (c : byte) : option nat :=
  match s with
  | "" => None
  | String d s => if Ascii.eqb c d then Some 0%nat else S <$> IndexRune s c
  end.

Definition HasPrefix (s p : string) : bool := String.prefix p s.

Definition TrimPrefix (s p : string) : string :=
  if HasPrefix s p then drop (len p) s else s.

(** [strings.CutPrefix]: the string after the prefix and whether it was there. *)
Definition CutPrefix (s p : string) : string * bool :=
  if HasPrefix s p then (drop (len p) s, true) else (s, false).

Definition Contains (s sub : string) : bool :=
  match String.index 0 sub s with Some _ => true | None => false end.

Fixpoint in_string (c : byte) (s : string) : bool :=
  match s with
  | "" => false
  | String d s => Ascii.eqb c d || in_string c s
  end.

(** [strings.Split(s, sep)], one-byte [sep]. *)
Fixpoint Split (s : string) (sep : byte) : list string :=
  match s with
  | "" => [""]
  | String c s' =>
      if Ascii.eqb sep c then "" :: Split s' sep
      else match Split s' sep with
           | p :: ps => String c p :: ps
           | [] => [String c ""]
           end
  end.

(** [strings.SplitN(s, sep, 2)], one-byte [sep]. *)
Definition SplitN2 (s : string) (sep : byte) : list string :=
  match IndexRune s sep with
  | None => [s]
  | Some i => [take i s; drop (S i) s]
  end.

(** [strings.Join]. *)
Fixpoint Join (ps : list string) (sep : string) : string :=
  match ps with
  | [] => ""
  | [p] => p
  | p :: ps => p +:+ sep +:+ Join ps sep
  end.

(** The UTF-8 encodings of the runes [unicode.IsSpace] accepts. *)
Definition bytes (l : list nat) : string :=
  String.string_of_list_ascii (Ascii.ascii_of_nat <$> l).
Definition space_encodings : list string :=
  bytes <$> ([[9]; [10]; [11]; [12]; [13]; [32]; [194; 133]; [194; 160]; [225; 154; 128];
    [226; 128; 168]; [226; 128; 169]; [226; 128; 175]; [226; 129; 159]; [227; 128; 128]]
    ++ ((fun i => [226; 128; i]%nat) <$> seq 128 11))%nat.

Fixpoint strip_space (encs : list string) (s : string) : option string :=
  match encs with
  | [] => None
  | e :: encs => if HasPrefix s e then Some (drop (len e) s) else strip_space encs s
  end.

Fixpoint trim_left (fuel : nat) (encs : list string) (s : string) : string :=
  match fuel with
  | O => s
  | S fuel => match strip_space encs s with
              | Some s' => trim_left fuel encs s'
              | None => s
              end
  end.

Definition rev_string (s : string) : string :=
  String.string_of_list_ascii (reverse (String.list_ascii_of_string s)).

(** [strings.TrimSpace]: every step removes at least one byte, so the length
    of the string is enough fuel. *)
Definition TrimSpace (s : string) : string :=
  let l := trim_left (len s) space_encodings s in
  rev_string (trim_left (len l) (rev_string <$> space_encodings) (rev_string l)).

(** ** Lemmas *)

Lemma len_app s t : len (s +:+ t) = (len s + len t)%nat.
Proof. induction s; cbn; congruence. Qed.

Lemma app_nil_r s : s +:+ "" = s.
Proof. induction s; cbn; congruence. Qed.

Lemma app_assoc s t u : (s +:+ t) +:+ u = s +:+ t +:+ u.
Proof. induction s; cbn; congruence. Qed.

Lemma app_inj_l s t u : s +:+ t = s +:+ u -> t = u.
Proof. induction s; cbn; [done|]. intros [=]. auto. Qed.

Lemma take_drop n s : take n s +:+ drop n s = s.
Proof. revert s. induction n; intros []; cbn; try done. by rewrite IHn. Qed.

Lemma len_take n s : len (take n s) = Nat.min n (len s).
Proof. revert s. induction n; intros []; cbn; congruence. Qed.

Lemma len_drop n s : len (drop n s) = (len s - n)%nat.
Proof. revert s. induction n; intros []; cbn; auto. Qed.

Lemma take_ge n s : (len s <= n)%nat -> take n s = s.
Proof.
  revert s. induction n; intros [] H; cbn in *; try done; [lia|]. rewrite IHn; [done|lia].
Qed.

Lemma take_app s t : take (len s) (s +:+ t) = s.
Proof. induction s; cbn; [by destruct t|]. congruence. Qed.

Lemma drop_app s t : drop (len s) (s +:+ t) = t.
Proof. induction s; cbn; [by destruct t|]. congruence. Qed.

Lemma slice_app a b c i j :
  i = Z.of_nat (len a) -> j = Z.of_nat (len a + len b) -> slice (a +:+ b +:+ c) i j = Ok b.
Proof.
  intros -> ->. unfold slice. rewrite !len_app.
  rewrite (proj2 (andb_true_iff _ _)) by (rewrite andb_true_iff; lia).
  rewrite Nat2Z.id, drop_app.
  replace (Z.to_nat _) with (len b) by lia. by rewrite take_app.
Qed.

Lemma drop_S_app s c t : drop (S (len s)) (s +:+ String c t) = t.
Proof. induction s as [|d s IH]; [by destruct t|]. exact IH. Qed.

Lemma slice_full s n : n = Z.of_nat (len s) -> slice s 0 n = Ok s.
Proof.
  intros ->. unfold slice. rewrite Z.sub_0_r, Nat2Z.id.
  replace (_ && _) with true by lia. cbn. by rewrite take_ge.
Qed.

Lemma HasPrefix_app p s : HasPrefix (p +:+ s) p = true.
Proof. unfold HasPrefix. induction p; cbn; [by destruct s|]. by destruct ascii_dec. Qed.

Lemma HasPrefix_spec s p : HasPrefix s p = true <-> exists t, s = p +:+ t.
Proof.
  split; [|intros [t ->]; apply HasPrefix_app]. unfold HasPrefix.
  revert s. induction p as [|c p IH]; intros s H; [by exists s|].
  destruct s as [|d s]; [done|]. cbn in H. destruct ascii_dec as [->|]; [|done].
  destruct (IH s H) as [t ->]. by exists t.
Qed.

Lemma CutPrefix_app p s : CutPrefix (p +:+ s) p = (s, true).
Proof. unfold CutPrefix. by rewrite HasPrefix_app, drop_app. Qed.

Lemma TrimPrefix_app p s : TrimPrefix (p +:+ s) p = s.
Proof. unfold TrimPrefix. by rewrite HasPrefix_app, drop_app. Qed.

Lemma IndexRune_spec s c i :
  IndexRune s c = Some i ->
  s = take i s +:+ String c (drop (S i) s) /\ in_string c (take i s) = false.
Proof.
  revert i. induction s as [|d s IH]; intros i H; cbn in H; [done|].
  destruct (Ascii.eqb_spec c d) as [->|Hne]; simplify_eq; [done|].
  apply fmap_Some in H as (j & Hj & ->). destruct (IH j Hj) as [H1 H2]. cbn -[drop].
  destruct (Ascii.eqb_spec c d); [done|]. split; [|done]. by rewrite H1 at 1.
Qed.

Lemma IndexRune_None s c : IndexRune s c = None <-> in_string c s = false.
Proof.
  induction s as [|d s IH]; cbn; [done|].
  destruct (Ascii.eqb_spec c d); cbn; [done|]. rewrite <- IH. destruct (IndexRune s c); done.
Qed.

Lemma IndexRune_app s c t :
  in_string c s = false -> IndexRune (s +:+ String c t) c = Some (len s).
Proof.
  induction s as [|d s IH]; cbn; intros H.
  - by rewrite Ascii.eqb_refl.
  - apply orb_false_iff in H as [-> H]. by rewrite IH.
Qed.

Lemma in_string_app c s t : in_string c (s +:+ t) = in_string c s || in_string c t.
Proof. induction s; cbn; [done|]. by rewrite IHs, orb_assoc. Qed.

Lemma Split_ne s sep : Split s sep ≠ [].
Proof. destruct s; cbn; [done|]. destruct Ascii.eqb; [done|]. by destruct Split. Qed.

Lemma Split_no_sep s sep : in_string sep s = false -> Split s sep = [s].
Proof.
  induction s as [|c s IH]; cbn; [done|]. intros [-> H]%orb_false_iff. by rewrite IH.
Qed.

Lemma Split_app s sep t :
  in_string sep s = false -> Split (s +:+ String sep t) sep = s :: Split t sep.
Proof.
  induction s as [|c s IH]; cbn.
  - by rewrite Ascii.eqb_refl.
  - intros [-> H]%orb_false_iff. by rewrite IH.
Qed.

(** [strings.Join(strings.Split(s, sep), sep) == s]. *)
Lemma Join_Split s sep : Join (Split s sep) (String sep "") = s.
Proof.
  induction s as [|c s IH]; cbn; [done|].
  destruct (Ascii.eqb_spec sep c) as [<-|]; pose proof (Split_ne s sep) as Hne;
    destruct (Split s sep) as [|p [|q ps]] eqn:Hs; cbn in *; congruence.
Qed.

Lemma Split_parts s sep : Forall (fun p => in_string sep p = false) (Split s sep).
Proof.
  induction s as [|c s IH]; cbn; [by repeat constructor|].
  destruct (Ascii.eqb sep c) eqn:E; [by constructor|].
  destruct (Split s sep) as [|p ps]; [by repeat constructor; cbn; rewrite E|].
  inversion IH; subst. constructor; [|done]. cbn. by rewrite E.
Qed.

(** A list of parts without the separator is what splitting its join gives. *)
Lemma Split_Join ps sep :
  ps ≠ [] -> Forall (fun p => in_string sep p = false) ps ->
  Split (Join ps (String sep "")) sep = ps.
Proof.
  intros Hne H. induction H as [|p ps Hp Hps IH]; [done|].
  destruct ps as [|q ps]; [by apply Split_no_sep|].
  change (Join (p :: q :: ps) (String sep ""))
    with (p +:+ String sep "" +:+ Join (q :: ps) (String sep "")).
  change (String sep "" +:+ ?x) with (String sep x).
  rewrite Split_app by done. by rewrite IH.
Qed.

(** [strings.Compare(a, b) <= 0]: the order of the bytes. *)
Definition compare_le (a b : string) : bool := match String.compare a b with Gt => false | _ => true end.

Lemma ascii_compare_lt a b : Ascii.compare a b = Lt <-> (N_of_ascii a < N_of_ascii b)%N.
Proof. apply N.compare_lt_iff. Qed.

Lemma compare_le_total a b : compare_le a b = true \/ compare_le b a = true.
Proof. unfold compare_le. rewrite (String.compare_antisym a b). destruct (String.compare b a); auto. Qed.

Lemma compare_le_antisym a b : compare_le a b = true -> compare_le b a = true -> a = b.
Proof.
  unfold compare_le. rewrite (String.compare_antisym a b). destruct (String.compare b a) eqn:Hc; try done.
  by apply String.compare_eq_iff in Hc.
Qed.

Lemma compare_le_cons c a d b :
  compare_le (String c a) (String d b) = true <->
  (N_of_ascii c < N_of_ascii d)%N \/ c = d /\ compare_le a b = true.
Proof.
  unfold compare_le. cbn. destruct (Ascii.compare c d) eqn:Hc.
  - apply Ascii.compare_eq_iff in Hc as ->. split; [intros H; right; by split|]. intros [?|[_ ?]]; [lia|done].
  - apply ascii_compare_lt in Hc. split; [by left|done].
  - split; [done|]. intros [H|[-> _]].
    + apply ascii_compare_lt in H. congruence.
    + unfold Ascii.compare in Hc. by rewrite N.compare_refl in Hc.
Qed.

Lemma compare_le_trans a b c : compare_le a b = true -> compare_le b c = true -> compare_le a c = true.
Proof.
  revert b c. induction a as [|x a IH]; intros [|y b] [|z c]; try done.
  rewrite !compare_le_cons. intros [H1|[-> H1]] [H2|[-> H2]]; [left; lia|left; lia|left; lia|right; eauto].
Qed.

End Strings.

Module Strconv.
Import Strings.

Definition digit (c : ascii) : option Z :=
  let n := Z.of_nat (nat_of_ascii c) in
  if (48 <=? n) && (n <=? 57) then Some (n - 48) else None.

(** The digits of [ParseUint(s, 10, _)], before the range check. *)
Fixpoint parse_digits (acc : Z) (s : string) : option Z :=
  match s with
  | "" => Some acc
  | String c s => d ← digit c; parse_digits (acc * 10 + d) s
  end.

(** [strconv.ParseUint(s, 10, bits)]; [None] is a non-nil error. *)
Definition ParseUint (s : string) (bits : Z) : option Z :=
  match s with
  | "" => None
  | _ => n ← parse_digits 0 s; if n <? 2 ^ bits then Some n else None
  end.

(** [strconv.ParseInt(s, 10, bits)]; [None] is a non-nil error. *)
Definition ParseInt (s : string) (bits : Z) : option Z :=
  let '(neg, body) :=
    match s with
    | String c rest => if Ascii.eqb c "-" then (true, rest)
                       else if Ascii.eqb c "+" then (false, rest) else (false, s)
    | "" => (false, "")
    end in
  match body with
  | "" => None
  | _ => un ← parse_digits 0 body;
         let n := if (neg : bool) then - un else un in
         if (- 2 ^ (bits - 1) <=? n) && (n <? 2 ^ (bits - 1)) then Some n else None
  end.

(** [strconv.Atoi] on a 64-bit platform. *)
Definition Atoi (s : string) : option Z := ParseInt s 64.

(** [strconv.ParseBool]. *)
Definition ParseBool (s : string) : option bool :=
  if bool_decide (s ∈ ["1"; "t"; "T"; "true"; "TRUE"; "True"]) then Some true
  else if bool_decide (s ∈ ["0"; "f"; "F"; "false"; "FALSE"; "False"]) then Some false
  else None.

Definition digit_char (d : Z) : ascii := ascii_of_nat (Z.to_nat (48 + d)).

Fixpoint format_uint (fuel : nat) (n : Z) (acc : string) : string :=
  match fuel with
  | O => acc
  | S fuel =>
      let acc := String (digit_char (n `mod` 10)) acc in
      if n <? 10 then acc else format_uint fuel (n / 10) acc
  end.

(** [strconv.Itoa]: 20 decimal digits cover the 64-bit integers. *)
Definition Itoa (n : Z) : string :=
  if n <? 0 then String "-" (format_uint 20 (- n) "") else format_uint 20 n "".

Lemma digit_digit_char d : 0 <= d < 10 -> digit (digit_char d) = Some d.
Proof.
  intros H. unfold digit, digit_char. rewrite nat_ascii_embedding by lia.
  rewrite Z2Nat.id by lia. replace ((48 <=? 48 + d) && _) with true by lia.
  f_equal. lia.
Qed.

Lemma parse_digits_snoc acc s c d :
  digit c = Some d ->
  parse_digits acc (s +:+ String c "") = (fun n => n * 10 + d) <$> parse_digits acc s.
Proof.
  intros Hd. revert acc. induction s as [|c' s IH]; intros acc; cbn.
  - by rewrite Hd.
  - destruct (digit c'); cbn; auto.
Qed.

Lemma format_uint_acc fuel n acc :
  format_uint fuel n acc = format_uint fuel n "" +:+ acc.
Proof.
  revert n acc. induction fuel as [|fuel IH]; intros n acc; cbn; [done|].
  destruct (n <? 10); [done|].
  rewrite IH, (IH _ (String _ "")), Strings.app_assoc. done.
Qed.

Lemma parse_format_uint fuel n :
  0 <= n < 10 ^ Z.of_nat fuel -> (0 < fuel)%nat ->
  parse_digits 0 (format_uint fuel n "") = Some n.
Proof.
  revert n. induction fuel as [|fuel IH]; intros n Hn Hf; [lia|]. cbn [format_uint].
  assert (Hd : digit (digit_char (n `mod` 10)) = Some (n `mod` 10))
    by (apply digit_digit_char, Z.mod_pos_bound; lia).
  destruct (Z.ltb_spec n 10).
  - cbn. rewrite Hd. cbn. f_equal. rewrite Z.mod_small; lia.
  - rewrite Nat2Z.inj_succ, Z.pow_succ_r in Hn by lia.
    rewrite format_uint_acc, (parse_digits_snoc _ _ _ _ Hd), IH; cbn.
    + f_equal. rewrite Z.mul_comm, <- Z.div_mod; lia.
    + split; [apply Z.div_pos; lia|]. apply Z.div_lt_upper_bound; lia.
    + destruct fuel; [cbn in Hn; lia|lia].
Qed.

Lemma format_uint_head fuel n acc :
  (0 < fuel)%nat -> 0 <= n -> exists d s, 0 <= d < 10 /\ format_uint fuel n acc = String (digit_char d) s.
Proof.
  revert n acc. induction fuel as [|fuel IH]; intros n acc Hf Hn; [lia|]. cbn.
  destruct (Z.ltb_spec n 10).
  - eexists _, _. split; [|done]. by apply Z.mod_pos_bound.
  - destruct fuel; [eexists _, _; split; [|done]; by apply Z.mod_pos_bound|].
    apply IH; [lia|]. apply Z.div_pos; lia.
Qed.

(** [strconv.Atoi(strconv.Itoa(n)) == n] for every [int]. *)
Lemma Atoi_Itoa n : is_int64 n -> Atoi (Itoa n) = Some n.
Proof.
  unfold is_int64, min_int64, max_int64, Itoa. intros H.
  destruct (Z.ltb_spec n 0).
  - unfold Atoi, ParseInt. cbn -[format_uint parse_digits Z.pow].
    destruct (format_uint_head 20 (- n) "") as (d & s & Hd & Hs); [lia..|].
    rewrite Hs, <- Hs, parse_format_uint by lia. cbn -[Z.pow].
    rewrite Z.opp_involutive. by replace (_ && _) with true by lia.
  - destruct (format_uint_head 20 n "") as (d & s & Hd & Hs); [lia..|].
    unfold Atoi, ParseInt. rewrite Hs.
    assert (Hnosign : digit_char d ≠ "-"%char /\ digit_char d ≠ "+"%char).
    { split; intros E; apply (f_equal digit) in E;
        rewrite digit_digit_char in E by lia; vm_compute in E; congruence. }
    rewrite (proj2 (Ascii.eqb_neq _ _) (proj1 Hnosign)),
            (proj2 (Ascii.eqb_neq _ _) (proj2 Hnosign)).
    rewrite <- Hs, parse_format_uint by lia. cbn -[Z.pow].
    by replace (_ && _) with true by lia.
Qed.

Lemma parse_digits_in_string acc s n c :
  parse_digits acc s = Some n -> digit c = None -> in_string c s = false.
Proof.
  revert acc. induction s as [|d s IH]; intros acc H Hc; cbn in *; [done|].
  apply bind_Some in H as (x & Hd & H).
  destruct (Ascii.eqb_spec c d) as [->|]; cbn; [congruence|eauto].
Qed.

(** A formatted integer has only digits and a leading minus. *)
Lemma Itoa_no_char n c :
  is_int64 n -> digit c = None -> c ≠ "-"%char -> in_string c (Itoa n) = false.
Proof.
  unfold is_int64, min_int64, max_int64, Itoa. intros H Hc Hm.
  assert (Hf : forall m, 0 <= m <= 2 ^ 63 -> in_string c (format_uint 20 m "") = false).
  { intros m Hm'. eapply parse_digits_in_string; [|done]. apply (parse_format_uint 20); lia. }
  destruct (Z.ltb_spec n 0); cbn [in_string]; rewrite ?Hf by lia; [|done].
  by rewrite (proj2 (Ascii.eqb_neq _ _) Hm).
Qed.

Lemma ParseInt_range s bits n :
  ParseInt s bits = Some n -> - 2 ^ (bits - 1) <= n < 2 ^ (bits - 1).
Proof.
  unfold ParseInt. destruct (match s with "" => _ | _ => _ end) as [neg body].
  destruct body; [done|]. intros (un & _ & H)%bind_Some. destruct (_ && _) eqn:E; [|done].
  simplify_eq. lia.
Qed.

End Strconv.

Module Hex.

Definition hex_digit (n : nat) : ascii :=
  if (n <? 10)%nat then ascii_of_nat (48 + n) else ascii_of_nat (87 + n).

Definition from_hex (c : ascii) : option nat :=
  let n := nat_of_ascii c in
  if (48 <=? n)%nat && (n <=? 57)%nat then Some (n - 48)%nat
  else if (97 <=? n)%nat && (n <=? 102)%nat then Some (n - 87)%nat
  else if (65 <=? n)%nat && (n <=? 70)%nat then Some (n - 55)%nat
  else None.

(** [hex.EncodeToString]. *)
Fixpoint EncodeToString (s : string) : string :=
  match s with
  | "" => ""
  | String c s =>
      let n := nat_of_ascii c in
      String (hex_digit (n / 16)) (String (hex_digit (n mod 16)) (EncodeToString s))
  end.

(** [hex.DecodeString]; [None] is a non-nil error. *)
Fixpoint DecodeString (s : string) : option string :=
  match s with
  | "" => Some ""
  | String _ "" => None
  | String a (String b s) =>
      x ← from_hex a; y ← from_hex b; String (ascii_of_nat (x * 16 + y)) <$> DecodeString s
  end.

Lemma from_hex_digit n : (n < 16)%nat -> from_hex (hex_digit n) = Some n.
Proof. intros H. do 16 (destruct n as [|n]; [reflexivity|]). lia. Qed.

Lemma Decode_Encode s : DecodeString (EncodeToString s) = Some s.
Proof.
  induction s as [|c s IH]; [done|]. cbn -[Nat.div Nat.modulo].
  pose proof (nat_ascii_bounded c) as Hc.
  rewrite !from_hex_digit
    by first [apply Nat.Div0.div_lt_upper_bound; lia | apply Nat.mod_upper_bound; lia].
  cbn -[Nat.div Nat.modulo].
  rewrite IH. cbn -[Nat.div Nat.modulo]. do 2 f_equal.
  rewrite Nat.mul_comm, <- Nat.div_mod_eq. apply ascii_nat_embedding.
Qed.

Lemma Encode_no_char c s :
  from_hex c = None -> Strings.in_string c (EncodeToString s) = false.
Proof.
  intros Hc.
  assert (Hd : forall n, (n < 16)%nat -> Ascii.eqb c (hex_digit n) = false).
  { intros n Hn. apply Ascii.eqb_neq. intros ->. by rewrite from_hex_digit in Hc. }
  induction s as [|d s IH]; cbn -[Nat.div Nat.modulo]; [done|].
  pose proof (nat_ascii_bounded d).
  rewrite !Hd, IH
    by first [apply Nat.Div0.div_lt_upper_bound; lia | apply Nat.mod_upper_bound; lia].
  done.
Qed.

End Hex.

(** [base64.StdEncoding]. *)
Module Base64.
Import Strings.

Definition b64_digit (n : Z) : ascii :=
  ascii_of_nat (Z.to_nat (if n <? 26 then 65 + n else if n <? 52 then 71 + n else if n <? 62 then n - 4
                          else if n =? 62 then 43 else 47)).

Definition from_b64 (c : ascii) : option Z :=
  let n := Z.of_nat (nat_of_ascii c) in
  if (65 <=? n) && (n <=? 90) then Some (n - 65)
  else if (97 <=? n) && (n <=? 122) then Some (n - 71)
  else if (48 <=? n) && (n <=? 57) then Some (n + 4)
  else if n =? 43 then Some 62 else if n =? 47 then Some 63 else None.

Definition byte_of (z : Z) : ascii := ascii_of_nat (Z.to_nat (z `mod` 256)).
Definition code (c : ascii) : Z := Z.of_nat (nat_of_ascii c).

(** Three bytes are four digits; the last group is padded. *)
Fixpoint EncodeToString (s : string) : string :=
  match s with
  | String a (String b (String c s)) =>
      String (b64_digit (code a / 4)) (String (b64_digit ((code a `mod` 4) * 16 + code b / 16))
        (String (b64_digit ((code b `mod` 16) * 4 + code c / 64)) (String (b64_digit (code c `mod` 64)) (EncodeToString s))))
  | String a (String b "") =>
      String (b64_digit (code a / 4)) (String (b64_digit ((code a `mod` 4) * 16 + code b / 16))
        (String (b64_digit ((code b `mod` 16) * 4)) "="))
  | String a "" => String (b64_digit (code a / 4)) (String (b64_digit ((code a `mod` 4) * 16)) "==")
  | "" => ""
  end.

(** The decoder ignores line ends; its digits come in fours. *)
Fixpoint strip_newlines (s : string) : string :=
  match s with
  | "" => ""
  | String c s => if (code c =? 10) || (code c =? 13) then strip_newlines s else String c (strip_newlines s)
  end.

Fixpoint decode_groups (s : string) : option string :=
  match s with
  | "" => Some ""
  | String a (String b (String c (String d s))) =>
      x ← from_b64 a; y ← from_b64 b;
      if Ascii.eqb d "=" then
        if negb (s =? "")%string then None
        else if Ascii.eqb c "=" then Some (String (byte_of (x * 4 + y / 16)) "")
        else z ← from_b64 c; Some (String (byte_of (x * 4 + y / 16)) (String (byte_of (y * 16 + z / 4)) ""))
      else
        z ← from_b64 c; w ← from_b64 d; r ← decode_groups s;
        Some (String (byte_of (x * 4 + y / 16)) (String (byte_of (y * 16 + z / 4)) (String (byte_of (z * 64 + w)) r)))
  | _ => None
  end.

(** [DecodeString]; [None] is a non-nil error. *)
Definition DecodeString (s : string) : option string := decode_groups (strip_newlines s).

Lemma code_range c : 0 <= code c < 256.
Proof. unfold code. pose proof (nat_ascii_bounded c). lia. Qed.

Lemma byte_of_code c z : z `mod` 256 = code c -> byte_of z = c.
Proof. intros H. unfold byte_of, code in *. by rewrite H, Nat2Z.id, ascii_nat_embedding. Qed.

Lemma digits_spec n : 0 <= n < 64 ->
  from_b64 (b64_digit n) = Some n /\ Ascii.eqb (b64_digit n) "=" = false /\
  (code (b64_digit n) =? 10) || (code (b64_digit n) =? 13) = false.
Proof.
  intros H. rewrite <- (Z2Nat.id n) by lia. assert (Hn : (Z.to_nat n < 64)%nat) by lia. revert Hn. generalize (Z.to_nat n). clear.
  intros n Hn. do 64 (destruct n as [|n]; [by vm_compute|]). lia.
Qed.

Lemma from_b64_digit n : 0 <= n < 64 -> from_b64 (b64_digit n) = Some n.
Proof. intros H. apply (digits_spec n H). Qed.
Lemma pad_digit n : 0 <= n < 64 -> Ascii.eqb (b64_digit n) "=" = false.
Proof. intros H. apply (digits_spec n H). Qed.
Lemma strip_digit n s : 0 <= n < 64 -> strip_newlines (String (b64_digit n) s) = String (b64_digit n) (strip_newlines s).
Proof. intros H. cbn. by destruct (digits_spec n H) as (_ & _ & ->). Qed.

Ltac b64 := pose proof code_range; repeat match goal with c : ascii |- _ =>
  match goal with H : 0 <= code c < 256 |- _ => fail 1 | _ => pose proof (code_range c) end end;
  Z.to_euclidean_division_equations; lia.

(** Decoding what was encoded. *)
Lemma Decode_Encoded s : DecodeString (EncodeToString s) = Some s.
Proof.
  unfold DecodeString. enough (forall n s, (len s <= n)%nat -> decode_groups (strip_newlines (EncodeToString s)) = Some s) as H by exact (H _ s (le_n _)).
  clear s. induction n as [|n IH]; intros [|a [|b [|c s]]] Hs; cbn [EncodeToString]; cbn [String.length] in Hs; try done; try lia;
    repeat (rewrite strip_digit by b64).
  - change (strip_newlines "==") with "==". cbn [decode_groups]. rewrite !from_b64_digit by b64.
    change (Some (String (byte_of (code a / 4 * 4 + code a `mod` 4 * 16 / 16)) "") = Some (String a "")).
    do 2 f_equal. apply byte_of_code. b64.
  - change (strip_newlines "=") with "=". cbn [decode_groups]. rewrite Ascii.eqb_refl, String.eqb_refl, pad_digit by b64.
    cbn [negb]. rewrite !from_b64_digit by b64. cbn [mbind option_bind].
    do 2 f_equal; [|f_equal]; apply byte_of_code; b64.
  - cbn [decode_groups]. rewrite pad_digit by b64. rewrite !from_b64_digit by b64. cbn [mbind option_bind].
    rewrite IH by lia. cbn [mbind option_bind]. do 2 f_equal; [|f_equal; [|f_equal]]; apply byte_of_code; b64.
Qed.
End Base64.

(** [path/filepath] on a system whose separator is a slash. *)
Module Filepath.
Import Strings.

(** The elements of a path, [..] resolved against those before it. *)
Fixpoint clean_parts (rooted : bool) (stack : list string) (parts : list string) : list string :=
  match parts with
  | [] => reverse stack
  | p :: ps =>
      if (p =? "")%string || (p =? ".")%string then clean_parts rooted stack ps
      else if (p =? "..")%string then
        match stack with
        | t :: st => if (t =? "..")%string then clean_parts rooted (p :: stack) ps else clean_parts rooted st ps
        | [] => if rooted then clean_parts rooted [] ps else clean_parts rooted [p] ps
        end
      else clean_parts rooted (p :: stack) ps
  end.

(** [filepath.Clean] *)
Definition Clean (path : string) : string :=
  if (path =? "")%string then "."
  else
    let rooted := HasPrefix path "/" in
    let body := Strings.Join (clean_parts rooted [] (Split path "/")) "/" in
    if rooted then "/" +:+ body else if (body =? "")%string then "." else body.

(** [filepath.Join] *)
Fixpoint Join (elem : list string) : string :=
  match elem with
  | [] => ""
  | e :: es => if (e =? "")%string then Join es else Clean (Strings.Join (e :: es) "/")
  end.

(** [filepath.Ext]: from the last dot of the last element. *)
Fixpoint ext_of (best : string) (s : string) : string :=
  match s with
  | "" => best
  | String c s' => ext_of (if Ascii.eqb c "." then s else if Ascii.eqb c "/" then "" else best) s'
  end.
Definition Ext (path : string) : string := ext_of "" path.

(** [filepath.IsLocal] *)
Definition IsLocal (path : string) : bool :=
  negb (path =? "")%string && negb (HasPrefix path "/")
  && negb (Clean path =? "..")%string && negb (HasPrefix (Clean path) "../").

(** [filepath.Dir] *)
Fixpoint dir_of (seen : string) (best : string) (s : string) : string :=
  match s with
  | "" => best
  | String c s' => let seen := seen +:+ String c "" in dir_of seen (if Ascii.eqb c "/" then seen else best) s'
  end.
Definition Dir (path : string) : string := Clean (dir_of "" "" path).

Example clean_examples :
  Clean "a//b/../c/." = "a/c" /\ Clean "../x" = "../x" /\ Clean "/../x" = "/x" /\ Join ["/root"; "user"; ".."] = "/root"
  /\ Ext "a.b/c" = "" /\ Ext "x.tar.gz" = ".gz" /\ Dir "/a/b" = "/a" /\ Dir "x" = "." /\ IsLocal "a/../../b" = false.
Proof. by vm_compute. Qed.
End Filepath.

(** [slices]: stable sorting. *)
Module Slices.
Section Sort.
Context {A : Type} (le : A -> A -> bool).

(** [slices.SortStableFunc(l, cmp)], with [le a b] for [cmp(a, b) <= 0]. *)
Fixpoint insert_stable (x : A) (l : list A) : list A :=
  match l with
  | [] => [x]
  | y :: l' => if le x y then x :: l else y :: insert_stable x l'
  end.
Definition SortStableFunc (l : list A) : list A := fold_right insert_stable [] l.

Lemma insert_stable_perm x l : insert_stable x l ≡ₚ x :: l.
Proof.
  induction l as [|y l IH]; cbn; [done|]. destruct (le x y); [done|]. rewrite IH. apply Permutation_swap.
Qed.

Lemma SortStableFunc_perm l : SortStableFunc l ≡ₚ l.
Proof. induction l as [|x l IH]; cbn; [done|]. by rewrite insert_stable_perm, IH. Qed.

Context (total : forall a b, le a b = true \/ le b a = true).
Context (trans : forall a b c, le a b = true -> le b c = true -> le a c = true).

Lemma insert_stable_sorted x l :
  Sorted.StronglySorted (fun a b => le a b = true) l -> Sorted.StronglySorted (fun a b => le a b = true) (insert_stable x l).
Proof.
  induction 1 as [|y l Hs IH Hy]; cbn; [by repeat constructor|]. destruct (le x y) eqn:Hle.
  - constructor; [by constructor|]. constructor; [done|]. eapply Forall_impl; [exact Hy|]. intros z Hz. by eapply trans.
  - constructor; [done|]. rewrite insert_stable_perm. constructor; [|done]. destruct (total x y); congruence.
Qed.

Lemma SortStableFunc_sorted l : Sorted.StronglySorted (fun a b => le a b = true) (SortStableFunc l).
Proof. induction l as [|x l IH]; cbn; [constructor|]. by apply insert_stable_sorted. Qed.

(** Elements of one class keep their order. *)
Lemma SortStableFunc_class l a :
  filter (fun x => le a x = true /\ le x a = true) (SortStableFunc l) =
  filter (fun x => le a x = true /\ le x a = true) l.
Proof.
  assert (Hins : forall x l, filter (fun x => le a x = true /\ le x a = true) (insert_stable x l) =
    filter (fun x => le a x = true /\ le x a = true) (x :: l)).
  { clear l. intros x l. induction l as [|y l IH]; cbn [insert_stable]; [done|]. destruct (le x y) eqn:Hxy; [done|].
    rewrite filter_cons, IH, !filter_cons. case_decide as Hy; [|done]. case_decide as Hx; [|done].
    exfalso. rewrite (trans x a y) in Hxy; [done|apply Hx|apply Hy]. }
  induction l as [|x l IH]; [done|]. change (SortStableFunc (x :: l)) with (insert_stable x (SortStableFunc l)).
  by rewrite Hins, !filter_cons, IH.
Qed.

(** A sorted list is determined by its classes, so sorting only depends on
    them. *)
Lemma sorted_classes l1 l2 :
  Sorted.StronglySorted (fun a b => le a b = true) l1 -> Sorted.StronglySorted (fun a b => le a b = true) l2 ->
  (forall a, filter (fun x => le a x = true /\ le x a = true) l1 = filter (fun x => le a x = true /\ le x a = true) l2) ->
  l1 = l2.
Proof.
  assert (refl : forall a, le a a = true) by (intros a; by destruct (total a a)).
  intros H1. revert l2. induction H1 as [|x l1 H1 IH Hx]; intros l2 H2 Hc.
  - destruct l2 as [|y l2]; [done|]. specialize (Hc y). rewrite filter_cons, decide_True in Hc by auto. done.
  - destruct H2 as [|y l2 H2 Hy].
    + specialize (Hc x). rewrite filter_cons, decide_True in Hc by auto. done.
    + assert (Hmem : forall a, a ∈ filter (fun z => le a z = true /\ le z a = true) (x :: l1) <->
        a ∈ filter (fun z => le a z = true /\ le z a = true) (y :: l2)) by (intros a; by rewrite Hc).
      assert (Hyx : le y x = true).
      { destruct (Hmem x) as [Hm _]. rewrite !list_elem_of_filter in Hm. destruct Hm as [_ [<-|Hin]%elem_of_cons]; [|done|].
        { split; [auto|left]. } rewrite Forall_forall in Hy. by apply Hy. }
      assert (Hxy : le x y = true).
      { destruct (Hmem y) as [_ Hm]. rewrite !list_elem_of_filter in Hm. destruct Hm as [_ [<-|Hin]%elem_of_cons]; [|done|].
        { split; [auto|left]. } rewrite Forall_forall in Hx. by apply Hx. }
      pose proof (Hc x) as Hh. rewrite !filter_cons, !decide_True in Hh by auto. injection Hh as -> _. f_equal.
      apply IH; [done|]. intros a. specialize (Hc a). rewrite !filter_cons in Hc.
      case_decide; [by injection Hc|done].
Qed.

Lemma SortStableFunc_classes l1 l2 :
  (forall a, filter (fun x => le a x = true /\ le x a = true) l1 = filter (fun x => le a x = true /\ le x a = true) l2) ->
  SortStableFunc l1 = SortStableFunc l2.
Proof.
  intros Hc. apply sorted_classes; [apply SortStableFunc_sorted..|]. intros a. by rewrite !SortStableFunc_class.
Qed.
End Sort.
End Slices.

(** [time]: an instant is a number of nanoseconds since the Unix epoch. *)
Module Time.

Definition Before (t u : Z) : bool := t <? u.
Definition After (t u : Z) : bool := u <? t.

End Time.

(** ** Parameters: standard-library code that rests on large tables *)

Record URL : Type := MkURL { Scheme : string; Path : string; Hostname : string; Port : string }.

Class GoText := {
  ToLower : string -> string;
  EqualFold : string -> string -> bool;
  url_Parse : string -> option URL;
  (** [u.Host = u.Hostname(); u.String()] *)
  url_without_port : string -> string
}.

(** Documented behaviour the theorems rely on. *)
Class GoTextSpec `{GoText} : Prop := {
  EqualFold_refl : forall s, EqualFold s s = true;
  EqualFold_sym : forall s t, EqualFold s t = EqualFold t s;
  ToLower_idemp : forall s, ToLower (ToLower s) = ToLower s
}.

#[export] Hint Rewrite Strings.len_app Strings.app_nil_r Strings.app_assoc Strings.take_app
  Strings.drop_app Strings.HasPrefix_app Strings.CutPrefix_app Strings.TrimPrefix_app
  Hex.Decode_Encode : go.

(** ** A concrete instance: case folding of ASCII letters, no URL parser *)
Module AsciiText.
Definition lower (c : ascii) : ascii :=
  let n := nat_of_ascii c in
  if ((65 <=? n) && (n <=? 90))%nat then ascii_of_nat (n + 32) else c.
Fixpoint to_lower (s : string) : string :=
  match s with
  | EmptyString => EmptyString
  | String c s => String (lower c) (to_lower s)
  end.

Lemma lower_idemp c : lower (lower c) = lower c.
Proof. by destruct c as [[] [] [] [] [] [] [] []]. Qed.

#[export] Instance G : GoText := {|
  ToLower := to_lower; EqualFold s t := String.eqb (to_lower s) (to_lower t);
  url_Parse s := None; url_without_port s := s |}.

#[export] Instance GS : GoTextSpec.
Proof.
  constructor; cbn.
  - intros s. apply String.eqb_refl.
  - intros s t. apply String.eqb_sym.
  - intros s. induction s as [|c s IH]; cbn; [done|]. by rewrite lower_idemp, IH.
Qed.
End AsciiText.
