(* ===== verification/Nostr.v ===== *)
(** * The interface to go-nostr

    The data types of [github.com/nbd-wtf/go-nostr] the program stores and
    passes around, the operations of that library (and of google/uuid) it
    calls, as the parameter class [Nostr], and the documented behaviour of
    those operations that theorems rely on, as the class [NostrSpec].  The
    library is not part of the repository: nothing here is a definition of
    it.  [Reference] instantiates the class with concrete functions, for the
    concrete inputs at which the theorems are exercised. *)

From S2P Require Import Prelude GoStd.

Abbreviation Tag := (list string).
Abbreviation Tags := (list (list string)).
Abbreviation Timestamp := Z.

#[local] Set Warnings "-register-all".

(** [model.Event]: [nostr.Event] embedded, with the previous version. *)
Inductive Event : Type := MkEvent {
  Previous : option Event;
  ID : string;
  PubKey : string;
  CreatedAt : Timestamp;
  Kind : Z;
  EvTags : Tags;
  Content : string;
  Sig : string
}.

Definition with_Tags (e : Event) (ts : Tags) : Event :=
  MkEvent (Previous e) (ID e) (PubKey e) (CreatedAt e) (Kind e) ts (Content e) (Sig e).
Definition with_ID (e : Event) (id : string) : Event :=
  MkEvent (Previous e) id (PubKey e) (CreatedAt e) (Kind e) (EvTags e) (Content e) (Sig e).
Definition with_PubKey (e : Event) (pk : string) : Event :=
  MkEvent (Previous e) (ID e) pk (CreatedAt e) (Kind e) (EvTags e) (Content e) (Sig e).
Definition with_Sig (e : Event) (sig : string) : Event :=
  MkEvent (Previous e) (ID e) (PubKey e) (CreatedAt e) (Kind e) (EvTags e) (Content e) sig.

(** [nostr.TagValues] is [[]*string]; a nil pointer matches anything. *)
Abbreviation TagValues := (list (option string)).
Abbreviation TagMap := (gmap string (list TagValues)).

(** [nostr.Filter]; [None] is a nil slice, map or pointer. *)
Record Filter : Type := MkFilter {
  IDs : option (list string);
  Kinds : option (list Z);
  Authors : option (list string);
  Addresses : option (list string);
  FTags : option TagMap;
  Since : option Timestamp;
  Until : option Timestamp;
  Limit : Z;
  Search : string
}.

Definition empty_filter : Filter := MkFilter None None None None None None None 0 "".

(** [range] over a slice that may be nil. *)
Definition elems {A} (o : option (list A)) : list A := default [] o.

(** [len(x)] of a Go value, as an [int]. *)
Definition zlen {A} (l : list A) : Z := Z.of_nat (length l).

Class Nostr := {
  (* kinds *)
  KindProfileMetadata : Z; KindTextNote : Z; KindFollowList : Z; KindDirectMessage : Z;
  KindDeletion : Z; KindRepost : Z; KindReaction : Z; KindBadgeAward : Z; KindSeal : Z;
  KindGenericRepost : Z; KindReactionToWebsite : Z; KindGiftWrap : Z; KindReporting : Z;
  KindLabel : Z; KindJobFeedback : Z;
  KindMuteList : Z; KindPinList : Z; KindRelayListMetadata : Z; KindBookmarkList : Z;
  KindCommunityList : Z; KindPublicChatList : Z; KindBlockedRelayList : Z;
  KindSearchRelayList : Z; KindSimpleGroupList : Z; KindInterestList : Z; KindEmojiList : Z;
  KindDMRelayList : Z; KindGoodWikiAuthorList : Z; KindGoodWikiRelayList : Z;
  KindCategorizedPeopleList : Z; KindRelaySets : Z; KindBookmarkSets : Z; KindCuratedSets : Z;
  KindCuratedVideoSets : Z; KindMuteSets : Z; KindProfileBadges : Z; KindBadgeDefinition : Z;
  KindInterestSets : Z; KindArticle : Z; KindDraftArticle : Z; KindEmojiSets : Z;
  KindReleaseArtifactSets : Z; KindVideoEvent : Z; KindShortVideoEvent : Z; KindFileStorageServerList : Z;
  IsReplaceableKind : Z -> bool;
  IsAddressableKind : Z -> bool;
  IsRegularKind : Z -> bool;
  IsEphemeralKind : Z -> bool;
  (* Tag, Tags *)
  Key : Tag -> string;
  Value : Tag -> string;
  GetD : Tags -> string;
  GetAll : Tags -> list string -> Tags;
  GetFirst : Tags -> list string -> option Tag;
  AppendUnique : Tags -> Tag -> Tags;
  (* Timestamp *)
  (** [t.Time()], in nanoseconds since the Unix epoch, and [nostr.Now()] at an
      instant *)
  TsTime : Timestamp -> Z;
  Now : Z -> Timestamp;
  TsBefore : Timestamp -> Timestamp -> bool;
  TsAfter : Timestamp -> Timestamp -> bool;
  TsEqual : Timestamp -> Timestamp -> bool;
  ParseTimestamp : string -> option Timestamp;
  (* Event *)
  CheckID : Event -> bool;
  Serialize : Event -> string;
  UnmarshalJSON : string -> option Event;
  (** [nostr.Event.Sign] and [nostr.Event.CheckSignature] (schnorr) *)
  nostr_Sign : string -> Event -> outcome Event;
  nostr_CheckSignature : Event -> outcome bool;
  (* TagMap, Filter *)
  SetLiterals : TagMap -> string -> list string -> TagMap;
  TagMap_Set : TagMap -> string -> list (option string) -> TagMap;
  TagMap_Append : TagMap -> string -> list (option string) -> TagMap;
  MatchesTags : Filter -> Tags -> bool;
  (* the rest *)
  IsValidRelayURL : string -> bool;
  nip13_Check : string -> Z -> check;
  (** google/uuid: the version of a parsed UUID, [None] a parse error *)
  uuid_Version : string -> option Z
}.

(** Behaviour documented by go-nostr and the NIPs. *)
Class NostrSpec (N : Nostr) : Prop := {
  (** the kind numbers of the NIPs *)
  kinds_spec :
    [KindProfileMetadata; KindTextNote; KindFollowList; KindDirectMessage; KindDeletion; KindRepost;
     KindReaction; KindBadgeAward; KindSeal; KindGenericRepost; KindReactionToWebsite; KindGiftWrap;
     KindReporting; KindLabel; KindJobFeedback; KindMuteList; KindPinList; KindRelayListMetadata;
     KindBookmarkList; KindCommunityList; KindPublicChatList; KindBlockedRelayList;
     KindSearchRelayList; KindSimpleGroupList; KindInterestList; KindEmojiList; KindDMRelayList;
     KindGoodWikiAuthorList; KindGoodWikiRelayList; KindCategorizedPeopleList; KindRelaySets;
     KindBookmarkSets; KindCuratedSets; KindCuratedVideoSets; KindMuteSets; KindProfileBadges;
     KindBadgeDefinition; KindInterestSets; KindArticle; KindDraftArticle; KindEmojiSets;
     KindReleaseArtifactSets; KindVideoEvent; KindShortVideoEvent] =
    [0; 1; 3; 4; 5; 6; 7; 8; 13; 16; 17; 1059; 1984; 1985; 7000; 10000; 10001; 10002; 10003; 10004;
     10005; 10006; 10007; 10009; 10015; 10030; 10050; 10101; 10102; 30000; 30002; 30003; 30004;
     30005; 30007; 30008; 30009; 30015; 30023; 30024; 30030; 30063; 34235; 34236];
  Key_spec : forall t, Key t = default "" (t !! 0%nat);
  Value_spec : forall t, Value t = default "" (t !! 1%nat);
  (** the value of the first [d] tag that has one *)
  GetD_spec : forall ts,
    GetD ts = default "" (t ← list_find (fun t => Key t = "d" /\ (2 <= length t)%nat) ts;
                          snd t !! 1%nat);
  (** [GetAll] / [GetFirst] match a prefix of the tag; the last element of
      the prefix is itself compared as a string prefix *)
  GetAll_key : forall ts k, GetAll ts [k] = filter (fun t => Strings.HasPrefix (Key t) k = true /\ t ≠ []) ts;
  GetFirst_key : forall ts k, GetFirst ts [k] = head (GetAll ts [k]);
  AppendUnique_present : forall ts t, t ∈ ts -> AppendUnique ts t = ts;
  AppendUnique_cases : forall ts t, AppendUnique ts t = ts \/ AppendUnique ts t = ts ++ [t];
  (** uniqueness is that of the key and the value *)
  AppendUnique_absent : forall ts t, GetFirst ts (take 2 t) = None -> AppendUnique ts t = ts ++ [t];
  (** ICIP-01 (.ion-connect-protocol/ICIP-01.md, "Better precision for event
      created_at"): the precision of a timestamp, from seconds to nanoseconds,
      is told by its number of digits; timestamps are compared as instants *)
  TsTime_seconds : forall t, 0 <= t < 10000000000 -> TsTime t = t * 1000000000;
  TsTime_nano : forall t, 1000000000000000000 <= t <= max_int64 -> TsTime t = t;
  TsBefore_spec : forall a b, TsBefore a b = (TsTime a <? TsTime b);
  TsAfter_spec : forall a b, TsAfter a b = (TsTime b <? TsTime a);
  TsEqual_spec : forall a b, TsEqual a b = (TsTime a =? TsTime b);
  ParseTimestamp_spec : forall s, ParseTimestamp s = Strconv.ParseInt s 64;
  (** the library's checks return *)
  nostr_CheckSignature_runs : forall e, runs (nostr_CheckSignature e);
  nip13_Check_runs : forall id n, runs (nip13_Check id n);
  (** and their errors carry no sentinel of the program *)
  nostr_CheckSignature_error : forall e x, nostr_CheckSignature e = Err x -> chain x = [];
  (** NIP-01: the ranges of kinds *)
  IsReplaceableKind_spec : forall k,
    IsReplaceableKind k = (k =? 0) || (k =? 3) || ((10000 <=? k) && (k <? 20000));
  IsAddressableKind_spec : forall k, IsAddressableKind k = (30000 <=? k) && (k <? 40000);
  IsEphemeralKind_spec : forall k, IsEphemeralKind k = (20000 <=? k) && (k <? 30000);
  (** NIP-01: an event id is the hash of the serialisation, which covers
      neither the id nor the signature *)
  Serialize_ID : forall e id, Serialize (with_ID e id) = Serialize e;
  Serialize_Sig : forall e s, Serialize (with_Sig e s) = Serialize e;
  (** a tag filter holds when, for each key, one of its value tuples matches
      the values of a tag with that key position by position *)
  MatchesTags_spec : forall f ts m, FTags f = Some m -> MatchesTags f ts = true ->
    forall k vss, m !! k = Some vss -> vss ≠ [] ->
      exists vs t, vs ∈ vss /\ t ∈ ts /\ head t = Some k /\
        forall i v, vs !! i = Some (Some v) -> t !! S i = Some v;
  MatchesTags_sufficient : forall f ts m, FTags f = Some m ->
    (forall k vss, m !! k = Some vss ->
      exists vs t, vs ∈ vss /\ t ∈ ts /\ head t = Some k /\
        forall i v, vs !! i = Some (Some v) -> t !! S i = Some v) ->
    MatchesTags f ts = true
}.

Section Laws.
Context `{NS : NostrSpec}.

Lemma Key_cons k t : Key (k :: t) = k.
Proof. by rewrite Key_spec. Qed.
Lemma Key_nil : Key [] = "".
Proof. by rewrite Key_spec. Qed.
Lemma Value_cons k v t : Value (k :: v :: t) = v.
Proof. by rewrite Value_spec. Qed.
Lemma Value_nil : Value [] = "".
Proof. by rewrite Value_spec. Qed.
Lemma Value_short k : Value [k] = "".
Proof. by rewrite Value_spec. Qed.

Lemma TsTime_0 : TsTime 0 = 0.
Proof. by rewrite TsTime_seconds. Qed.

Lemma Key_nonempty t k : Key t = k -> k ≠ "" -> exists t', t = k :: t'.
Proof. rewrite Key_spec. destruct t; cbn; naive_solver. Qed.

Lemma Value_nonempty t v : Value t = v -> v ≠ "" -> exists k t', t = k :: v :: t'.
Proof. rewrite Value_spec. destruct t as [|k [|w t]]; cbn; naive_solver. Qed.
End Laws.

#[export] Hint Resolve nostr_CheckSignature_runs nip13_Check_runs : runs.
#[export] Hint Rewrite @Key_cons @Key_nil @Value_cons @Value_nil @Value_short
  @TsBefore_spec @TsAfter_spec @TsEqual_spec @ParseTimestamp_spec using typeclasses eauto : go.

(** ** A concrete instance *)
Module Reference.

Definition key (t : Tag) : string := default "" (t !! 0%nat).
Definition value (t : Tag) : string := default "" (t !! 1%nat).

Fixpoint starts_with (t prefix : list string) : bool :=
  match prefix, t with
  | [], _ => true
  | [p], x :: _ => Strings.HasPrefix x p
  | p :: ps, x :: t => (p =s? x) && starts_with t ps
  | _ :: _, [] => false
  end.

Lemma HasPrefix_self s : Strings.HasPrefix s s = true.
Proof. apply Strings.HasPrefix_spec. exists "". by rewrite Strings.app_nil_r. Qed.

Definition get_all (ts : Tags) (p : list string) : Tags :=
  filter (fun t => starts_with t p = true) ts.

Definition get_d (ts : Tags) : string :=
  default "" (t ← list_find (fun t => key t = "d" /\ (2 <= length t)%nat) ts; snd t !! 1%nat).

Fixpoint tuple_matches (vs : TagValues) (t : list string) : bool :=
  match vs, t with
  | [], _ => true
  | None :: vs, t => tuple_matches vs (tail t)
  | Some v :: vs, x :: t => (v =s? x) && tuple_matches vs t
  | Some _ :: _, [] => false
  end.

Definition matches_tags (f : Filter) (ts : Tags) : bool :=
  match FTags f with
  | None => true
  | Some m =>
      bool_decide (map_Forall (fun k vss =>
        vss = [] \/ Exists (fun vs => Exists (fun t =>
          head t = Some k /\ tuple_matches vs (tail t) = true) ts) vss) m)
  end.

(** Injective in everything the serialisation covers is not needed: any
    function of those fields will do. *)
Definition serialize (e : Event) : string :=
  PubKey e +:+ "|" +:+ Strconv.Itoa (CreatedAt e) +:+ "|" +:+ Strconv.Itoa (Kind e)
  +:+ "|" +:+ Strings.Join ((fun t => Strings.Join t ",") <$> EvTags e) ";" +:+ "|" +:+ Content e.

Definition instant (t : Timestamp) : Z :=
  if t <? 10000000000 then t * 1000000000
  else if t <? 10000000000000 then t * 1000000
  else if t <? 10000000000000000 then t * 1000
  else t.

Definition nostr (unmarshal : string -> option Event) (check_sig : Event -> outcome bool) : Nostr := {|
  KindProfileMetadata := 0; KindTextNote := 1; KindFollowList := 3; KindDirectMessage := 4;
  KindDeletion := 5; KindRepost := 6; KindReaction := 7; KindBadgeAward := 8; KindSeal := 13;
  KindGenericRepost := 16; KindReactionToWebsite := 17; KindGiftWrap := 1059;
  KindReporting := 1984; KindLabel := 1985; KindJobFeedback := 7000;
  KindMuteList := 10000; KindPinList := 10001; KindRelayListMetadata := 10002;
  KindBookmarkList := 10003; KindCommunityList := 10004; KindPublicChatList := 10005;
  KindBlockedRelayList := 10006; KindSearchRelayList := 10007; KindSimpleGroupList := 10009;
  KindInterestList := 10015; KindEmojiList := 10030; KindDMRelayList := 10050;
  KindGoodWikiAuthorList := 10101; KindGoodWikiRelayList := 10102;
  KindCategorizedPeopleList := 30000; KindRelaySets := 30002; KindBookmarkSets := 30003;
  KindCuratedSets := 30004; KindCuratedVideoSets := 30005; KindMuteSets := 30007;
  KindProfileBadges := 30008; KindBadgeDefinition := 30009; KindInterestSets := 30015;
  KindArticle := 30023; KindDraftArticle := 30024; KindEmojiSets := 30030;
  KindReleaseArtifactSets := 30063; KindVideoEvent := 34235; KindShortVideoEvent := 34236; KindFileStorageServerList := 10096;
  IsReplaceableKind k := (k =? 0) || (k =? 3) || ((10000 <=? k) && (k <? 20000));
  IsAddressableKind k := (30000 <=? k) && (k <? 40000);
  IsRegularKind k := ((1000 <=? k) && (k <? 10000)) || ((4 <=? k) && (k <? 45)) || (k =? 1) || (k =? 2);
  IsEphemeralKind k := (20000 <=? k) && (k <? 30000);
  Key := key; Value := value; GetD := get_d; GetAll := get_all;
  GetFirst ts p := head (get_all ts p);
  AppendUnique ts t := if bool_decide (t ∈ ts) then ts else ts ++ [t];
  TsTime := instant; Now t := t / 1000000000;
  TsBefore a b := instant a <? instant b; TsAfter a b := instant b <? instant a; TsEqual a b := instant a =? instant b;
  ParseTimestamp s := Strconv.ParseInt s 64;
  CheckID e := true; Serialize := serialize; UnmarshalJSON := unmarshal;
  nostr_Sign sk e := Ok (with_Sig e sk); nostr_CheckSignature := check_sig;
  SetLiterals m k vs := <[k := [Some <$> vs]]> m;
  TagMap_Set m k vs := <[k := [vs]]> m;
  TagMap_Append m k vs := <[k := default [] (m !! k) ++ [vs]]> m;
  MatchesTags := matches_tags;
  IsValidRelayURL s := Strings.HasPrefix s "wss://" || Strings.HasPrefix s "ws://";
  nip13_Check _ _ := pass;
  uuid_Version s := if (String.length s =? 36)%nat then Some 7 else None
|}.

Lemma tuple_matches_spec vs t :
  tuple_matches vs t = true -> forall i v, vs !! i = Some (Some v) -> t !! i = Some v.
Proof.
  revert t. induction vs as [|[w|] vs IH]; intros t H i v Hi; [done| |].
  - destruct t as [|x t]; cbn in H; [done|]. simplify_go.
    destruct i as [|i]; cbn in *; [congruence|eauto].
  - destruct i as [|i]; cbn in *; [done|]. destruct t as [|x t]; cbn in *.
    + apply (IH [] H i v) in Hi. by rewrite lookup_nil in Hi.
    + eauto.
Qed.

Lemma tuple_matches_complete vs t :
  (forall i v, vs !! i = Some (Some v) -> t !! i = Some v) -> tuple_matches vs t = true.
Proof.
  revert t. induction vs as [|[w|] vs IH]; intros t H; cbn; [done| |].
  - pose proof (H 0%nat w eq_refl) as H0. destruct t as [|x t]; [done|]. cbn in H0.
    simplify_eq. rewrite String.eqb_refl. cbn. apply IH. intros i v Hi. by apply (H (S i)).
  - apply IH. intros i v Hi. destruct t; apply (H (S i) v Hi).
Qed.

#[export] Instance nostr_spec um cs (Hcs : forall e, cs e = Ok true \/ cs e = Ok false) :
  NostrSpec (nostr um cs).
Proof.
  constructor; try done.
  - intros ts k. cbn. unfold get_all. apply list_filter_iff. intros [|x t]; cbn.
    + split; [done|]. by intros [].
    + split; [by split|]. by intros [].
  - intros ts t H. cbn. by rewrite bool_decide_eq_true_2.
  - intros ts t. cbn. case_bool_decide; auto.
  - intros ts t H. cbn in *. rewrite bool_decide_eq_false_2; [done|]. intros Hin.
    assert (t ∈ get_all ts (take 2 t)) as Hget.
    { apply list_elem_of_filter. split; [|done]. destruct t as [|x [|y t]]; cbn; [done|..].
      - by rewrite HasPrefix_self.
      - by rewrite String.eqb_refl, HasPrefix_self. }
    destruct (get_all ts (take 2 t)); [by apply elem_of_nil in Hget|done].
  - intros t Ht. cbn. unfold instant. by rewrite (proj2 (Z.ltb_lt _ _)) by lia.
  - intros t Ht. cbn. unfold instant, max_int64 in *. by rewrite !(proj2 (Z.ltb_ge _ _)) by lia.
  - intros e. cbn. by destruct (Hcs e) as [-> | ->].
  - intros e x. cbn. by destruct (Hcs e) as [-> | ->].
  - intros f ts m Hm H k vss Hk Hne. cbn in H. unfold matches_tags in H. rewrite Hm in H.
    apply bool_decide_eq_true_1 in H. destruct (H k vss Hk) as [|Hex]; [done|].
    apply Exists_exists in Hex as (vs & Hvs & Hex).
    apply Exists_exists in Hex as (t & Ht & Hhd & Htm).
    exists vs, t. split_and!; [done..|]. intros i v Hi.
    destruct t as [|x t]; [done|]. cbn. by apply (tuple_matches_spec vs).
  - intros f ts m Hm H. cbn. unfold matches_tags. rewrite Hm.
    apply bool_decide_eq_true_2. intros k vss Hk. right.
    destruct (H k vss Hk) as (vs & t & Hvs & Ht & Hhd & Hall).
    apply Exists_exists. exists vs. split; [done|].
    apply Exists_exists. exists t. split; [done|]. split; [done|].
    destruct t as [|x t]; [done|]. by apply tuple_matches_complete.
Qed.

(** No embedded events; every signature but one verifies. *)
Definition verify (e : Event) : outcome bool := Ok (Sig e ≠s? "bad0").
Lemma verify_total e : verify e = Ok true \/ verify e = Ok false.
Proof. unfold verify. destruct (Sig e ≠s? "bad0"); auto. Qed.
Definition plain : Nostr := nostr (fun _ => None) verify.

End Reference.

(** The reference instance without embedded events, for import at the
    concrete inputs. *)
Module Plain.
#[export] Instance N : Nostr := Reference.plain.
#[export] Instance NS : NostrSpec N := Reference.nostr_spec _ _ Reference.verify_total.
End Plain.
