(* ===== verification/Model.v ===== *)
(** * Package model: constants, events, tags, signatures

    src/model/model.go, event.go, imeta.go, communities.go, keys.go.
    A [src:] comment in front of a definition gives the Go lines it
    translates. *)

From S2P Require Import Prelude GoStd Nostr.
Import Strings.

(** ** model.go: constants *)

(* src: model/model.go 39+ *)
Definition CustomIONKindPollVote : Z := 1754.
Definition CustomIONKindFundReceive : Z := 1755.
Definition CustomIONKindFundSendNotify : Z := 1756.
Definition CustomIONKindUserBlock : Z := 1757.
Definition CustomIONKindArchiveConversation : Z := 2175.
Definition CustomIONKindMute : Z := 3175.
Definition CustomIONKindBlockchainActivityConsent : Z := 4175.
Definition CustomIONKindDVMJobRequestPriceChange : Z := 5176.
Definition CustomIONKindDVMJobResponsePriceChange : Z := CustomIONKindDVMJobRequestPriceChange + 1000.
Definition CustomIONKindAttestation : Z := 10100.
Definition CustomIONKindRelayListMetadata : Z := 20002.
Definition CustomIONKindEphemeralEmbedding : Z := 21750.
Definition CustomIONKindDirectMessage : Z := 30014.
Definition CustomIONKindEditableTextNote : Z := 30175.
Definition CustomIONKindDeviceRegistration : Z := 31751.
Definition CustomIONKindTokenizedCommunityDefinition : Z := 31175.
Definition CustomIONKindTokenizedCommunityAction : Z := 1175.
Definition KindDVMCountResponse : Z := 6400.
(* src: model/model.go 58+ *)
Definition CustomIONKindRepostOfArticle : Z := 1630023.
Definition CustomIONKindRepostOfEditableTextNote : Z := 1630175.
Definition CustomIONKindRepostOfTokenizedCommunityDefinition : Z := 1631175.
Definition CustomIONKindRepostOfTokenizedCommunityAction : Z := 161175.
(* src: model/model.go 64 *)
Definition CustomIONSystemMessage : Z := 999999.
(* src: model/model.go 66 *)
Definition KindAny : Z := 65535.
(* src: model/model.go 70+ *)
Definition CustomIONTagOnBehalfOf : string := "b".
Definition CustomIONTagPoll : string := "poll".
Definition CustomIONTagAddressableQ : string := "Q".
Definition CustomIONTagCommunity : string := "h".
Definition CustomIONTagRichText : string := "rich_text".
Definition CustomIONTagPMO : string := "pmo".
(* src: model/model.go 79+ *)
Definition CustomIONAttestationKindActive : string := "active".
Definition CustomIONAttestationKindRevoked : string := "revoked".
Definition CustomIONAttestationKindInactive : string := "inactive".
(* src: model/model.go 85+ *)
Definition TagMarkerReply : string := "reply".
Definition TagMarkerRoot : string := "root".
Definition TagMarkerMention : string := "mention".
(* src: model/model.go 89+ *)
Definition TagReportTypeNudity : string := "nudity".
Definition TagReportTypeMalware : string := "malware".
Definition TagReportTypeProfanity : string := "profanity".
Definition TagReportTypeIllegal : string := "illegal".
Definition TagReportTypeSpam : string := "spam".
Definition TagReportTypeImpersonation : string := "impersonation".
Definition TagReportTypeOther : string := "other".
(* src: model/model.go 97+ *)
Definition RelayListReadMarker : string := "read".
Definition RelayListWriteMarker : string := "write".
(* src: model/model.go 100+ *)
Definition UserGeneratedContentNamespace : string := "ugc".
Definition ProfileBadgesIdentifier : string := "profile_badges".
(* src: model/model.go 103+ *)
Definition CommentsEnabledSettings : string := "comments_enabled".
Definition RoleRequiredForPostingSettings : string := "role_required_for_posting".
Definition WhoCanReplySettings : string := "who_can_reply".
(* src: model/model.go 107+ *)
Definition FollowingWhoCanReplySettings : string := "following".
Definition MentionWhoCanReplySettings : string := "mentioned".
Definition BadgeWhoCanReplySettingsPrefix : string := "badge".
(* src: model/model.go 111 *)
Definition ExtensionTextMRF : string := "most relevant followers".
(* src: model/model.go 113 *)
Definition TagSuffixUsernameProof : string := "username_proof_of_ownership".
(* src: model/model.go 115 *)
Definition QuillDeltaProtocol : string := "quill_delta".
(* src: model/model.go 119+ *)
Definition KindJobTextExtraction : Z := 5000.
Definition KindJobSummarization : Z := 5001.
Definition KindJobTranslation : Z := 5002.
Definition KindJobTextGeneration : Z := 5050.
Definition KindJobImageGeneration : Z := 5100.
Definition KindJobVideoConversion : Z := 5200.
Definition KindJobVideoTranslation : Z := 5201.
Definition KindJobImageToVideoConversion : Z := 5202.
Definition KindJobTextToSpeechGeneration : Z := 5250.
Definition KindJobNostrContentDiscovery : Z := 5300.
Definition KindJobNostrPeopleDiscovery : Z := 5301.
Definition KindJobNostrContentSearch : Z := 5302.
Definition KindJobNostrPeopleSearch : Z := 5303.
Definition KindJobNostrEventCount : Z := 5400.
Definition KindJobMalwareScanning : Z := 5500.
Definition KindJobNostrEventTimeStamping : Z := 5900.
Definition KindJobOpReturnCreation : Z := 5901.
Definition KindJobNostrEventPublishSchedule : Z := 5905.
(* src: model/model.go 138+ *)
Definition JobFeedbackStatusPaymentRequired : string := "payment-required".
Definition JobFeedbackStatusProcessing : string := "processing".
Definition JobFeedbackStatusError : string := "error".
Definition JobFeedbackStatusSuccess : string := "success".
Definition JobFeedbackStatusPartial : string := "partial".
(* src: model/model.go 150+ *)
Definition DeviceTokenOSAndroid : string := "android".
Definition DeviceTokenOSIOS : string := "ios".
Definition DeviceTokenOSWeb : string := "web".

(* src: model/model.go 175-178 *)
Record IONContentNFTCollectionMetadata : Type := MkCollection {
  Address_ : string;
  CreatedBy : string
}.

(** The fields of [ProfileMetadataContent] the modelled code reads; the maps
    are association lists in the (unspecified) iteration order. *)
(* src: model/model.go 158-173 *)
Record ProfileMetadataContent : Type := MkProfile {
  IONContentNFTCollections : list (string * IONContentNFTCollectionMetadata);
  Wallets : list (string * string);
  Name : string;
  Picture : string;
  DisplayName : string
}.

(** Decoding by [encoding/json] of the documents the program reads: a
    parameter, [None] being a decoding error. *)
Class GoJSON := {
  json_Valid : string -> bool;
  json_profile : string -> option ProfileMetadataContent;
  json_strings : string -> option (list string);
  json_ints : string -> option (list Z);
  json_event : string -> option Event;
  (** the [from] / [to] field of an object, "" when absent *)
  json_from : string -> option string;
  json_to : string -> option string
}.

(** Signatures and hashes ([crypto/ed25519], [crypto/sha256]). *)
Class Crypto := {
  sha256_Sum256 : string -> string;
  ed25519_sign : string -> string -> string;
  ed25519_verify : string -> string -> string -> bool;
  (** a 64-byte private key whose second half is its public key *)
  ed25519_valid_key : string -> Prop
}.

Class CryptoSpec `{Crypto} : Prop := {
  ed25519_correct : forall sk msg, ed25519_valid_key sk -> len sk = 64%nat ->
    ed25519_verify (drop 32 sk) msg (ed25519_sign sk msg) = true
}.

Section Event.
Context {N : Nostr}.

(** [cmp.Or] *)
Definition cmp_Or (a b : string) : string := if a =s? "" then b else a.

(** ** event.go: tags *)

(** A nil tag is the empty list: a tag found by a non-empty key is not empty. *)
(* src: model/event.go 170-178 *)
Fixpoint GetTag_loop (ts : Tags) (tagName : string) : Tag :=
  match ts with
  | [] => []
  | tag :: ts => if Key tag =s? tagName then tag else GetTag_loop ts tagName
  end.
(* src: model/event.go 170-178 [GetTag] *)
Definition GetTag (e : Event) (tagName : string) : Tag := GetTag_loop (EvTags e) tagName.

Definition is_nil {A} (t : list A) : bool := match t with [] => true | _ => false end.

(* src: model/event.go 180-188 *)
Definition GetTags (e : Event) (tagName : string) : Tags :=
  filter (fun tag => Key tag = tagName) (EvTags e).

(* src: model/event.go 190-192 *)
Definition GetMasterPublicKey (e : Event) : string :=
  cmp_Or (Value (GetTag e CustomIONTagOnBehalfOf)) (PubKey e).

(* src: model/event.go 194-196 *)
Definition GetHTag (e : Event) : string :=
  cmp_Or (Value (GetTag e CustomIONTagCommunity)) (ID e).

(* src: model/event.go 198-200 *)
Definition IsReplaceable (e : Event) : bool := IsReplaceableKind (Kind e).
(* src: model/event.go 202-204 *)
Definition IsAddressable (e : Event) : bool := IsAddressableKind (Kind e).
(* src: model/event.go 206-208 *)
Definition IsRegular (e : Event) : bool := IsRegularKind (Kind e).
(* src: model/event.go 210-212 *)
Definition IsEphemeral (e : Event) : bool := IsEphemeralKind (Kind e).
(* src: model/event.go 214-216 *)
Definition IsJobRequest (e : Event) : bool := (5000 <=? Kind e) && (Kind e <? 6000).
(* src: model/event.go 218-220 *)
Definition IsJobResponse (e : Event) : bool := (6000 <=? Kind e) && (Kind e <? KindJobFeedback).

(* src: model/event.go 222-232 *)
Definition Address (e : Event) : string :=
  if IsAddressable e then
    Strconv.Itoa (Kind e) +:+ ":" +:+ GetMasterPublicKey e +:+ ":" +:+ GetD (EvTags e)
  else if IsReplaceable e then
    Strconv.Itoa (Kind e) +:+ ":" +:+ GetMasterPublicKey e +:+ ":"
  else ID e.

(** ** event.go: proof of work, signatures *)

(* src: model/event.go 43-61 *)
Definition CheckNIP13Difficulty (e : Event) (minLeadingZeroBits : Z) : check :=
  if minLeadingZeroBits =? 0 then pass
  else if (6000 <=? Kind e) && (Kind e <=? KindJobFeedback) then pass
  else nip13_Check (ID e) minLeadingZeroBits.

(* src: model/event.go 36 *)
Definition SignAlgSchnorr : string := "schnorr".
(* src: model/event.go 37 *)
Definition SignAlgEDDSA : string := "eddsa".
(* src: model/event.go 39 *)
Definition KeyAlgSecp256k1 : string := "secp256k1".
(* src: model/event.go 40 *)
Definition KeyAlgCurve25519 : string := "curve25519".

Context {C : Crypto}.

(** [pk.Public()] copies [pk[32:]]; [ed25519.Sign] and [ed25519.Verify] panic
    on a key of the wrong length. *)
Definition ed25519_Public (pk : string) : outcome string :=
  if (len pk <? 32)%nat then Panic else Ok (take 32 (drop 32 pk)).
Definition ed25519_Sign (pk msg : string) : outcome string :=
  if (len pk =? 64)%nat then Ok (ed25519_sign pk msg) else Panic.
Definition ed25519_Verify (pk msg sig : string) : outcome bool :=
  if (len pk =? 32)%nat then Ok (ed25519_verify pk msg sig) else Panic.

(* src: model/event.go 78-113 *)
Definition SignWithAlg (e : Event) (privateKey signAlg keyAlg : string) : outcome Event :=
  reject (err ErrUnsupportedAlg)
    when ((signAlg =s? "") && (keyAlg ≠s? "")) || ((signAlg ≠s? "") && (keyAlg =s? "")) ;;
  match Hex.DecodeString privateKey with
  | None => Err opaque_error
  | Some privKey =>
      if ((signAlg =s? "") && (keyAlg =s? ""))
         || ((signAlg =s? SignAlgSchnorr) && (keyAlg =s? KeyAlgSecp256k1))
      then nostr_Sign privateKey e
      else if (signAlg =s? SignAlgEDDSA) && (keyAlg =s? KeyAlgCurve25519) then
        let! pub := ed25519_Public privKey in
        let e := with_PubKey e (Hex.EncodeToString pub) in
        let headerSum := sha256_Sum256 (Serialize e) in
        let! sign := ed25519_Sign privKey headerSum in
        let e := with_ID e (Hex.EncodeToString headerSum) in
        Ok (with_Sig e (signAlg +:+ "/" +:+ keyAlg +:+ ":" +:+ Hex.EncodeToString sign))
      else Err (err ErrUnsupportedAlg)
  end.

(* src: model/event.go 115-139 *)
Definition ExtractSignature (e : Event) : outcome (string * string * string) :=
  match IndexRune (Sig e) ":" with
  | None => Ok ("", "", Sig e)
  | Some extensionEnd =>
      match IndexRune (take extensionEnd (Sig e)) "/" with
      | None => Err (err ErrUnsupportedAlg)
      | Some keyStart =>
          let signAlg := take keyStart (Sig e) in
          let! keyAlg := slice (Sig e) (Z.of_nat (S keyStart)) (Z.of_nat extensionEnd) in
          reject (err ErrUnsupportedAlg) when (signAlg =s? "") || (keyAlg =s? "") ;;
          Ok (signAlg, keyAlg, drop (S extensionEnd) (Sig e))
      end
  end.

(* src: model/event.go 141-168 *)
Definition CheckSignature (e : Event) : outcome bool :=
  let! (signAlg, keyAlg, sign) := ExtractSignature e in
  match Hex.DecodeString (PubKey e) with
  | None => Err opaque_error
  | Some pk =>
      match Hex.DecodeString sign with
      | None => Err opaque_error
      | Some signBytes =>
          let hash := sha256_Sum256 (Serialize e) in
          if (signAlg =s? SignAlgEDDSA) && (keyAlg =s? KeyAlgCurve25519)
          then ed25519_Verify pk hash signBytes
          else if ((signAlg =s? "") && (keyAlg =s? ""))
                  || ((signAlg =s? SignAlgSchnorr) && (keyAlg =s? KeyAlgSecp256k1))
          then nostr_CheckSignature e
          else Err (err ErrUnsupportedAlg)
      end
  end.

(** ** keys.go *)

(* src: model/keys.go 28-42 *)
Definition GetPublicKey (pk : string) : outcome string :=
  match Hex.DecodeString pk with
  | None => Err opaque_error
  | Some privateKey =>
      reject opaque_error when negb (len privateKey =? 64)%nat ;;
      Ok (Hex.EncodeToString (take 32 (drop 32 privateKey)))
  end.

(** ** imeta.go *)

(* src: model/imeta.go 14-22 [ParseIMeta] *)
Fixpoint ParseIMeta_loop (vals : list string) (values : gmap string string) :
    outcome (gmap string string) :=
  match vals with
  | [] => Ok values
  | val :: vals =>
      match Split val " " with
      | k :: v :: _ =>
          reject opaque_error when bool_decide (is_Some (values !! k)) ;;
          ParseIMeta_loop vals (<[k := v]> values)
      | _ => Err opaque_error
      end
  end.

(* src: model/imeta.go 11-24 *)
Definition ParseIMeta (tag : Tag) : outcome (gmap string string) :=
  match tag with
  | [] => Panic
  | _ :: vals => ParseIMeta_loop vals ∅
  end.

(** ** communities.go *)

Abbreviation Role := string.
(* src: model/communities.go 6+ *)
Definition ModeratorRole : Role := "moderator".
Definition AdminRole : Role := "admin".
Definition OwnerRole : Role := "owner".
Definition RegularRole : Role := "".
(* src: model/communities.go 11+ *)
Definition CustomIONKindCommunityJoin : Z := 1750.
Definition CustomIONKindCommunityOwnershipTransferring : Z := 1751.
Definition CustomIONKindCommunityBanUser : Z := 1752.
Definition CustomIONKindCommunityChangeDefinition : Z := 1753.
Definition CustomIONKindCommunityDefinition : Z := 31750.

(* src: model/communities.go 22-32 [GetCommunityRoleByPubkey] *)
Fixpoint role_of (pTags : Tags) (pubkey : string) : Role :=
  match pTags with
  | [] => RegularRole
  | pTag :: pTags =>
      if (Key pTag =s? "p") && (3 <? length pTag)%nat && (Value pTag =s? pubkey)
      then default "" (pTag !! 3%nat)
      else role_of pTags pubkey
  end.

(* src: model/communities.go 18-33 *)
Definition GetCommunityRoleByPubkey (pubkey : string) (def : Event) : Role :=
  if GetMasterPublicKey def =s? pubkey then OwnerRole
  else role_of (GetAll (EvTags def) ["p"]) pubkey.

(** ** event.go: classification of posts *)

(** [tag.Key() == k && len(tag) > 3 && tag[3] == "root"] *)
(* src: model/event.go 355-388 [IsComment] *)
Definition is_root_marker (k : string) (tag : Tag) : bool :=
  (Key tag =s? k) && (3 <? length tag)%nat && (default "" (tag !! 3%nat) =s? TagMarkerRoot).

(* src: model/event.go 355-388 *)
Definition IsComment (e : Event) : bool :=
  if (Kind e =? KindTextNote) || (Kind e =? KindRepost) then
    existsb (is_root_marker "e") (EvTags e)
  else if Kind e =? CustomIONKindEditableTextNote then
    existsb (is_root_marker "a") (EvTags e)
  else if Kind e =? KindGenericRepost then
    let kTag := GetTag e "k" in
    if is_nil kTag then false
    else match Strconv.Atoi (Value kTag) with
         | None => false
         | Some kTagInt =>
             if negb (kTagInt =? CustomIONKindEditableTextNote) then false
             else existsb (is_root_marker "a") (EvTags e)
         end
  else false.

(* src: model/event.go 390-406 *)
Definition IsCommunityPost (e : Event) : bool :=
  let hTag := GetHTag e in
  if (hTag =s? "") || (hTag =s? ID e) then false
  else if (Kind e =? KindTextNote) || (Kind e =? KindArticle) || (Kind e =? KindRepost)
          || (Kind e =? CustomIONKindEditableTextNote) then true
  else if Kind e =? KindGenericRepost then
    let kTag := GetTag e "k" in
    if is_nil kTag then false
    else match Strconv.Atoi (Value kTag) with
         | Some kValue => (kValue =? CustomIONKindEditableTextNote) || (kValue =? KindArticle)
         | None => false
         end
  else false.

(* src: model/event.go 408-425 *)
Definition IsStory (e : Event) : bool :=
  if is_nil (GetTag e "expiration") then false
  else if (Kind e =? KindTextNote) || (Kind e =? KindRepost)
          || (Kind e =? CustomIONKindEditableTextNote) then true
  else if Kind e =? KindGenericRepost then
    let kTag := GetTag e "k" in
    if is_nil kTag then false
    else match Strconv.Atoi (Value kTag) with
         | Some kValue => kValue =? CustomIONKindEditableTextNote
         | None => false
         end
  else false.

(* src: model/event.go 427-442 *)
Definition HasVideoIMeta (e : Event) : bool :=
  existsb (fun imetaTag =>
    match ParseIMeta imetaTag with
    | Ok values => match values !! "m" with
                   | Some mimeType => HasPrefix mimeType "video"
                   | None => false
                   end
    | _ => false
    end) (GetTags e "imeta").

(* src: model/event.go 345-353 *)
Definition CollectRelaysFromRelayEvent (ev : Event) : list string :=
  Value <$> filter (fun tag => Key tag = "r") (EvTags ev).

(** [map[string]struct{}] of the values of the [p] tags. *)
(* src: model/event.go 450-453 [GetNewlyFollowedPubkeys] *)
Definition pubkey_set (tags : Tags) : gset string := list_to_set (Value <$> tags).

(** The result is a slice in map iteration order: its set of elements. *)
(* src: model/event.go 444-477 *)
Definition GetNewlyFollowedPubkeys (event : Event) (oldEvent : option Event) : gset string :=
  let currentPTags := GetTags event "p" in
  if is_nil currentPTags then ∅
  else
    let currentPubKeys := pubkey_set currentPTags in
    match oldEvent with
    | None => currentPubKeys
    | Some old => filter (fun pubKey => pubKey ∉ pubkey_set (GetTags old "p")) currentPubKeys
    end.

(** ** event.go: ephemeral embeddings *)

(* src: model/event.go 29-32 *)
Record EphemeralEmbeddingEvent : Type := MkEmbedding {
  ContentEvent : Event;
  EmbeddingEvent : Event
}.

(* src: model/event.go 321-343 *)
Definition ParseEphemeralEmbeddingEventRef (ev : Event) : outcome (list string * Event) :=
  match UnmarshalJSON (Content ev) with
  | None => Err opaque_error
  | Some content =>
      let keys := filter (fun v => v ≠ "")
        (Value <$> filter (fun tag => Key tag = "e" \/ Key tag = "a") (EvTags ev)) in
      reject opaque_error when is_nil keys ;;
      Ok (keys, content)
  end.

Abbreviation embeddings := (gmap string (list EphemeralEmbeddingEvent)).

Definition add_embedding (emb : EphemeralEmbeddingEvent) (m : embeddings) (ref : string) : embeddings :=
  <[ref := default [] (m !! ref) ++ [emb]]> m.

(* src: model/event.go 301-319 *)
Definition ParseEphemeralEmbeddingEvents (events : list Event) : outcome embeddings :=
  for_state events ∅ (fun m ev =>
    if negb (Kind ev =? CustomIONKindEphemeralEmbedding) then Ok m
    else
      let! (refs, content) := ParseEphemeralEmbeddingEventRef ev in
      Ok (fold_left (add_embedding (MkEmbedding content ev)) refs m)).

End Event.

(** ** event.go: slices *)

Section Slices.
Context {T H : Type} `{Countable H}.

(** The loop of [DeduplicateSlice] at index [i]: [s] is the backing array it
    rewrites in place, [j] the number of elements kept. *)
(* src: model/event.go 269-277 [DeduplicateSlice] *)
Fixpoint dedup_loop (key : T -> H) (n : nat) (i j : nat) (s : list T) (seen : gset H) :
    list T * nat :=
  match n with
  | O => (s, j)
  | S n =>
      match s !! i with
      | None => (s, j)
      | Some v =>
          if bool_decide (key v ∈ seen) then dedup_loop key n (S i) j s seen
          else dedup_loop key n (S i) (S j) (<[j := v]> s) ({[key v]} ∪ seen)
      end
  end.

(* src: model/event.go 266-280 *)
Definition DeduplicateSlice (s : list T) (key : T -> H) : list T :=
  let '(s', j) := dedup_loop key (length s) 0 0 s ∅ in list.take j s'.

(** The specification: keep the first element of each key. *)
Fixpoint first_occurrences (key : T -> H) (seen : gset H) (s : list T) : list T :=
  match s with
  | [] => []
  | v :: s => if bool_decide (key v ∈ seen) then first_occurrences key seen s
              else v :: first_occurrences key ({[key v]} ∪ seen) s
  end.

(* src: model/event.go 294-299 *)
Fixpoint SplitBatch (fuel : nat) (slice : list T) (batchSize : Z) (batches : list (list T)) :
    outcome (list (list T)) :=
  match fuel with
  | O => OutOfFuel
  | S fuel =>
      if batchSize <? zlen slice then
        if batchSize <? 0 then Panic
        else SplitBatch fuel (list.drop (Z.to_nat batchSize) slice) batchSize
               (batches ++ [list.take (Z.to_nat batchSize) slice])
      else Ok (batches ++ [slice])
  end.
End Slices.

(* src: model/event.go 282-286 *)
Definition DeduplicateStringSlice (s : list string) : list string := DeduplicateSlice s (fun elem => elem).
(* src: model/event.go 288-292 *)
Definition DeduplicateIntSlice (s : list Z) : list Z := DeduplicateSlice s (fun elem => elem).

(** ** Theorems *)

Section SliceTheorems.
Context {T H : Type} `{Countable H} (key : T -> H).

Lemma dedup_loop_spec n i j (s : list T) seen :
  (j <= i)%nat -> (n + i = length s)%nat ->
  let '(s', j') := dedup_loop key n i j s seen in
  list.take j' s' = list.take j s ++ first_occurrences key seen (list.drop i s).
Proof.
  revert i j s seen. induction n as [|n IH]; intros i j s seen Hj Hn; cbn.
  - rewrite drop_ge by lia. cbn. by rewrite List.app_nil_r.
  - destruct (lookup_lt_is_Some_2 s i) as [v Hv]; [lia|]. rewrite Hv.
    rewrite (drop_S s v i Hv). cbn. case_bool_decide as Hin.
    + specialize (IH (S i) j s seen). destruct dedup_loop. apply IH; lia.
    + specialize (IH (S i) (S j) (<[j:=v]> s) ({[key v]} ∪ seen)).
      destruct dedup_loop. rewrite IH by (rewrite ?length_insert; lia).
      rewrite drop_insert_lt by lia.
      rewrite (take_S_r (<[j:=v]> s) j v) by (apply list_lookup_insert_eq; lia).
      rewrite take_insert_ge by lia. by rewrite <- List.app_assoc.
Qed.

Lemma first_occurrences_keys seen (s : list T) k :
  k ∈ key <$> first_occurrences key seen s <-> k ∈ key <$> s /\ k ∉ seen.
Proof.
  revert seen. induction s as [|v s IH]; intros seen; cbn; [set_solver|].
  case_bool_decide; cbn; rewrite ?elem_of_cons, IH, ?elem_of_union, ?elem_of_singleton;
    destruct (decide (k = key v)) as [->|]; tauto.
Qed.

Lemma first_occurrences_NoDup seen (s : list T) : NoDup (key <$> first_occurrences key seen s).
Proof.
  revert seen. induction s as [|v s IH]; intros seen; cbn; [constructor|].
  case_bool_decide; cbn; [done|]. constructor; [|done].
  rewrite first_occurrences_keys. set_solver.
Qed.

Lemma first_occurrences_sublist seen (s : list T) : first_occurrences key seen s `sublist_of` s.
Proof.
  revert seen. induction s as [|v s IH]; intros seen; cbn; [done|].
  case_bool_decide; constructor; auto.
Qed.

(** [DeduplicateSlice], which compacts the slice it is given in place,
    computes the sub-slice of the first elements of each key: no key occurs
    twice in the result, every key of the input occurs, and the order of the
    elements is kept. *)
Lemma DeduplicateSlice_correct (s : list T) :
  DeduplicateSlice s key = first_occurrences key ∅ s /\
  NoDup (key <$> DeduplicateSlice s key) /\
  (forall k, k ∈ key <$> DeduplicateSlice s key <-> k ∈ key <$> s) /\
  DeduplicateSlice s key `sublist_of` s.
Proof.
  assert (Heq : DeduplicateSlice s key = first_occurrences key ∅ s).
  { unfold DeduplicateSlice. pose proof (dedup_loop_spec (length s) 0 0 s ∅) as HL.
    destruct dedup_loop. rewrite HL by lia. done. }
  rewrite Heq. split_and!; [done|apply first_occurrences_NoDup| |apply first_occurrences_sublist].
  intros k. rewrite first_occurrences_keys. set_solver.
Qed.

Lemma SplitBatch_spec fuel (s : list T) b acc :
  0 < b -> (length s < fuel)%nat ->
  exists full last, SplitBatch fuel s b acc = Ok (acc ++ full ++ [last]) /\
    concat full ++ last = s /\ Forall (fun p => zlen p = b) full /\ zlen last <= b /\
    (s ≠ [] -> last ≠ []).
Proof.
  intros Hb. revert s acc. induction fuel as [|fuel IH]; intros s acc Hf; [lia|]. cbn.
  destruct (Z.ltb_spec b (zlen s)) as [Hlt|Hge].
  - rewrite (proj2 (Z.ltb_ge b 0)) by lia. unfold zlen in Hlt.
    destruct (IH (list.drop (Z.to_nat b) s) (acc ++ [list.take (Z.to_nat b) s]))
      as (full & last & Hrun & Hcat & Hfull & Hlast & Hne); [rewrite length_drop; lia|].
    exists (list.take (Z.to_nat b) s :: full), last. split_and!.
    + rewrite Hrun. f_equal. by rewrite <- !List.app_assoc.
    + cbn. by rewrite <- List.app_assoc, Hcat, list.take_drop.
    + constructor; [|done]. unfold zlen. rewrite length_take. lia.
    + done.
    + intros _. apply Hne. intros Hd. apply (f_equal length) in Hd.
      rewrite length_drop in Hd. cbn in Hd. lia.
  - exists [], s. split_and!; try done.
Qed.

(** For a positive batch size [SplitBatch] returns: the batches
    concatenate to the slice, every batch but the last has exactly the batch
    size, and the last is no longer and not empty unless the slice is. *)
Lemma SplitBatch_terminates (s : list T) (batchSize : Z) :
  0 < batchSize ->
  exists full last, SplitBatch (S (length s)) s batchSize [] = Ok (full ++ [last]) /\
    concat full ++ last = s /\ Forall (fun p => zlen p = batchSize) full /\
    zlen last <= batchSize /\ (s ≠ [] -> last ≠ []).
Proof. intros Hb. apply SplitBatch_spec; [done|lia]. Qed.

(** Outside that domain [SplitBatch] never returns: on a non-empty
    slice a zero batch size loops for ever, and a negative one panics. *)
Lemma SplitBatch_bad_size (s : list T) :
  (s ≠ [] -> forall fuel acc, SplitBatch fuel s 0 acc = OutOfFuel) /\
  (forall fuel b acc, b < 0 -> SplitBatch (S fuel) s b acc = Panic).
Proof.
  split.
  - intros Hne fuel. induction fuel as [|fuel IH]; intros acc; cbn [SplitBatch]; [done|].
    destruct s as [|x s']; [done|].
    rewrite (proj2 (Z.ltb_lt 0 (zlen (x :: s')))) by (unfold zlen; cbn [length]; lia).
    apply IH.
  - intros fuel b acc Hb. cbn.
    rewrite (proj2 (Z.ltb_lt b (zlen s))) by (unfold zlen; lia).
    by rewrite (proj2 (Z.ltb_lt b 0)).
Qed.
End SliceTheorems.

Lemma SplitBatch_terminates_witness :
  exists full last, SplitBatch 6 [1; 2; 3; 4; 5] 2 [] = Ok (full ++ [last]) /\
    concat full ++ last = [1; 2; 3; 4; 5] /\ Forall (fun p => zlen p = 2) full /\
    zlen last <= 2 /\ ([1; 2; 3; 4; 5] ≠ [] -> last ≠ []).
Proof. apply (SplitBatch_terminates [1; 2; 3; 4; 5] 2). lia. Defined.

Lemma SplitBatch_bad_size_witness :
  SplitBatch 9 [1; 2] 0 [] = OutOfFuel /\ SplitBatch 1 [1; 2] (-1) [] = Panic.
Proof.
  split; [apply (proj1 (SplitBatch_bad_size [1; 2])); done|].
  apply (proj2 (SplitBatch_bad_size [1; 2])). lia.
Defined.

Section SignatureTheorems.
Context {N : Nostr} {C : Crypto}.

(** [ExtractSignature] recovers what [SignWithAlg] put together. *)
Lemma ExtractSignature_format e signAlg keyAlg sign :
  Sig e = signAlg +:+ "/" +:+ keyAlg +:+ ":" +:+ sign ->
  in_string ":" signAlg = false -> in_string ":" keyAlg = false ->
  in_string "/" signAlg = false -> signAlg ≠ "" -> keyAlg ≠ "" ->
  ExtractSignature e = Ok (signAlg, keyAlg, sign).
Proof.
  intros Hsig Hs1 Hk1 Hs2 Hs Hk. unfold ExtractSignature. rewrite Hsig.
  set (pre := signAlg +:+ "/" +:+ keyAlg).
  replace (signAlg +:+ "/" +:+ keyAlg +:+ ":" +:+ sign) with (pre +:+ String ":" sign)
    by (unfold pre; rewrite !app_assoc; done).
  assert (Hpre : in_string ":" pre = false)
    by (unfold pre; rewrite in_string_app, Hs1; cbn; done).
  assert (Hfull : pre +:+ String ":" sign = signAlg +:+ String "/" (keyAlg +:+ String ":" sign))
    by (unfold pre; rewrite app_assoc; done).
  assert (Hlen : len pre = (S (len signAlg) + len keyAlg)%nat)
    by (unfold pre; rewrite !len_app; cbn; lia).
  rewrite IndexRune_app, take_app by done.
  replace (IndexRune pre "/") with (Some (len signAlg))
    by (symmetry; apply (IndexRune_app signAlg "/" keyAlg Hs2)).
  unfold slice. rewrite len_app, Nat2Z.id. cbn [String.length].
  replace (_ && _) with true by lia.
  replace (Z.to_nat (Z.of_nat (len pre) - Z.of_nat (S (len signAlg)))) with (len keyAlg) by lia.
  rewrite (drop_S_app pre), Hfull, drop_S_app, !take_app. cbn.
  by rewrite (proj2 (String.eqb_neq _ _) Hs), (proj2 (String.eqb_neq _ _) Hk).
Qed.

(** What [SignWithAlg] makes of an event and a valid key. *)
Lemma SignWithAlg_spec `{!CryptoSpec} `{!NostrSpec N} e sk skHex :
  Hex.DecodeString skHex = Some sk -> len sk = 64%nat -> ed25519_valid_key sk ->
  exists e', SignWithAlg e skHex SignAlgEDDSA KeyAlgCurve25519 = Ok e' /\
    CheckSignature e' = Ok true /\ PubKey e' = Hex.EncodeToString (drop 32 sk) /\
    Content e' = Content e /\ EvTags e' = EvTags e /\ Kind e' = Kind e /\ CreatedAt e' = CreatedAt e.
Proof.
  intros Hhex Hlen Hvalid. unfold SignWithAlg. rewrite Hhex. cbn [String.eqb negb andb orb].
  unfold ed25519_Public, ed25519_Sign. rewrite Hlen. cbn -[drop take].
  assert (Hpub : take 32 (drop 32 sk) = drop 32 sk)
    by (apply take_ge; rewrite len_drop; lia).
  rewrite Hpub. set (e1 := with_PubKey e _). eexists. split; [done|].
  split; [|done]. unfold CheckSignature.
  erewrite (ExtractSignature_format _ SignAlgEDDSA KeyAlgCurve25519); [|done..].
  cbn -[drop]. rewrite !Hex.Decode_Encode. cbn -[drop].
  unfold ed25519_Verify. rewrite len_drop, Hlen. cbn -[drop].
  rewrite Serialize_Sig, Serialize_ID. by rewrite ed25519_correct.
Qed.

(** An event signed by [SignWithAlg] with the [eddsa]/[curve25519]
    algorithms and a valid 64-byte key passes [CheckSignature]: the algorithm
    prefix is parsed back, the hexadecimal encodings round-trip, and the hash
    that is verified is the one that was signed, although [ID] and [Sig] were
    set after the hash was taken. *)
Lemma SignWithAlg_CheckSignature `{!CryptoSpec} `{!NostrSpec N} e sk skHex :
  Hex.DecodeString skHex = Some sk -> len sk = 64%nat -> ed25519_valid_key sk ->
  exists e', SignWithAlg e skHex SignAlgEDDSA KeyAlgCurve25519 = Ok e' /\
    CheckSignature e' = Ok true /\ PubKey e' = Hex.EncodeToString (drop 32 sk) /\
    Content e' = Content e /\ EvTags e' = EvTags e.
Proof.
  intros Hhex Hlen Hvalid. destruct (SignWithAlg_spec e sk skHex Hhex Hlen Hvalid) as (e' & Hs & Hc & Hp & Hco & Ht & _).
  by exists e'.
Qed.

(** [CheckSignature] panics exactly on an event whose signature names
    [eddsa]/[curve25519] while its public key is valid hexadecimal of a length
    other than 32 bytes (or when the schnorr library call panics): the length
    that [ed25519.Verify] requires is not checked first. *)
Lemma CheckSignature_panics e :
  CheckSignature e = Panic <->
  exists signAlg keyAlg sign pk signBytes,
    ExtractSignature e = Ok (signAlg, keyAlg, sign) /\
    Hex.DecodeString (PubKey e) = Some pk /\ Hex.DecodeString sign = Some signBytes /\
    ((signAlg = SignAlgEDDSA /\ keyAlg = KeyAlgCurve25519 /\ len pk ≠ 32%nat) \/
     (((signAlg = "" /\ keyAlg = "") \/ (signAlg = SignAlgSchnorr /\ keyAlg = KeyAlgSecp256k1)) /\
      nostr_CheckSignature e = Panic)).
Proof.
  assert (Hext : ExtractSignature e ≠ Panic).
  { unfold ExtractSignature. destruct (IndexRune (Sig e) ":") as [i|] eqn:Hi; [|done].
    destruct (IndexRune (take i (Sig e)) "/") as [j|] eqn:Hj; [|done].
    apply IndexRune_spec in Hi as [Hi _]. apply IndexRune_spec in Hj as [Hj _].
    apply (f_equal String.length) in Hi, Hj.
    rewrite !len_app, ?len_take in *. cbn in Hi, Hj. unfold slice.
    replace (_ && _) with true by lia. cbn. destruct (_ || _); done. }
  unfold CheckSignature. destruct (ExtractSignature e) as [[[sa ka] sg]|er| |]; cbn.
  2-4: split; [done|]; naive_solver.
  destruct (Hex.DecodeString (PubKey e)) as [pk|]; [|split; [done|]; naive_solver].
  destruct (Hex.DecodeString sg) as [sb|] eqn:Hsg; [|split; [done|]; naive_solver].
  unfold ed25519_Verify.
  destruct (_ && _) eqn:E1; simplify_go.
  - destruct (len pk =? 32)%nat eqn:E; simplify_go; split; try done; [|eauto 20].
    intros (?&?&?&?&?&?&?&?&[(?&?&?)|[[[]|[]] ?]]); simplify_eq; done.
  - destruct (_ || _) eqn:E2.
    + split.
      * intros Hp. do 5 eexists. split_and!; [done..|]. right. split; [|done].
        apply orb_true_iff in E2 as [|]; simplify_go; auto.
      * intros (?&?&?&?&?&?&?&?&[(?&?&?)|[? ?]]); simplify_eq; done.
    + split; [done|]. intros (?&?&?&?&?&?&?&?&[(?&?&?)|[[[]|[]] ?]]); simplify_eq; done.
Qed.
End SignatureTheorems.

Module SignatureWitness.
Import Plain.
(** A toy scheme: the signature of a message is the message. *)
#[local] Instance C : Crypto := {|
  sha256_Sum256 s := s; ed25519_sign sk msg := msg;
  ed25519_verify pk msg sig := msg =s? sig; ed25519_valid_key sk := True |}.
#[local] Instance CS : CryptoSpec.
Proof. constructor. intros. cbn. apply String.eqb_refl. Qed.

Definition key : string := Strings.bytes (repeat 7%nat 64).
Definition note : Event := MkEvent None "" "" 10 1 [] "hi" "".

Lemma SignWithAlg_CheckSignature_witness :
  exists e', SignWithAlg note (Hex.EncodeToString key) SignAlgEDDSA KeyAlgCurve25519 = Ok e' /\
    CheckSignature e' = Ok true /\ PubKey e' = Hex.EncodeToString (drop 32 key) /\
    Content e' = Content note /\ EvTags e' = EvTags note.
Proof. apply (SignWithAlg_CheckSignature note key); [vm_compute; reflexivity|reflexivity|exact I]. Defined.

Example short_key_panics :
  CheckSignature (MkEvent None "" "00" 10 1 [] "hi" "eddsa/curve25519:00") = Panic.
Proof. reflexivity. Qed.
End SignatureWitness.
