(* ===== verification/OnBehalf.v ===== *)
(** * Package model: acting on behalf of a master key

    src/model/onbehalf.go: attestation strings, the access records built from
    the [p] tags of an attestation event, and the access decision. *)

From S2P Require Import Prelude GoStd Nostr Model.
Import Strings.

(* src: model/onbehalf.go 15-20 *)
Record OnBehalfAccessEntry : Type := MkEntry {
  Start : option Timestamp;
  End_ : option Timestamp;
  Revoked : option Timestamp;
  EKinds : list Z
}.

(** [OnBehalfAccessEntries.Records], public key to entry.  The entries are
    reached through this map only. *)
Abbreviation OnBehalfAccessEntries := (gmap string OnBehalfAccessEntry).

#[export] Instance OnBehalfAccessEntry_eq_dec : EqDecision OnBehalfAccessEntry.
Proof. solve_decision. Defined.

(* src: model/onbehalf.go 27+ *)
Definition TagAttestationName : string := "p".
Definition TagAttestationValueIndexPubkey : nat := 1.
Definition TagAttestationValueIndexRelay : nat := 2.
Definition TagAttestationValueIndexAction : nat := 3.

(* src: model/onbehalf.go 62-71 [ParseAttestationString] *)
Fixpoint parse_kinds (tokens : list string) : option (list Z) :=
  match tokens with
  | [] => Some []
  | t :: ts => k ← Strconv.Atoi t; ks ← parse_kinds ts; Some (k :: ks)
  end.

(* src: model/onbehalf.go 40-74 *)
Definition ParseAttestationString (s : string) : outcome (string * Timestamp * list Z) :=
  match IndexRune s ":" with
  | None => Err opaque_error
  | Some actionEnd =>
      let tsStr := drop (S actionEnd) s in
      let action := take actionEnd s in
      let tsStrEnd := default (len tsStr) (IndexRune tsStr ":") in
      match Strconv.ParseInt (take tsStrEnd tsStr) 64 with
      | None => Err opaque_error
      | Some ts =>
          if (tsStrEnd =? len tsStr)%nat then Ok (action, ts, [])
          else match parse_kinds (Split (drop (S tsStrEnd) tsStr) ",") with
               | None => Err opaque_error
               | Some kinds => Ok (action, ts, kinds)
               end
      end
  end.

Section OnBehalf.
Context {N : Nostr}.

(** [new(OnBehalfAccessEntry)] *)
(* src: model/onbehalf.go 90-96 [ParseAttestationTags] *)
Definition zero_entry : OnBehalfAccessEntry := MkEntry None None None [].

(** The effect of one attestation on the entry of its key. *)
(* src: model/onbehalf.go 103-115 [ParseAttestationTags] *)
Definition apply_action (entry : OnBehalfAccessEntry) (action : string) (ts : Timestamp)
    (kinds : list Z) : OnBehalfAccessEntry :=
  if action =s? CustomIONAttestationKindRevoked then
    MkEntry (Start entry) (End_ entry) (Some ts) (EKinds entry)
  else if action =s? CustomIONAttestationKindActive then
    MkEntry (Some ts) None (Revoked entry) kinds
  else if action =s? CustomIONAttestationKindInactive then
    MkEntry (Start entry) (Some ts) (Revoked entry) (EKinds entry)
  else entry.

(** The body of the loop over the tags. *)
(* src: model/onbehalf.go 79-116 [ParseAttestationTags] *)
Definition attestation_step (entries : OnBehalfAccessEntries) (tag : Tag) :
    outcome OnBehalfAccessEntries :=
  if (length tag <? 4)%nat || (Key tag ≠s? TagAttestationName) then Ok entries
  else
    let! pubkey := index tag TagAttestationValueIndexPubkey in
    let entry := default zero_entry (entries !! pubkey) in
    let! s := index tag TagAttestationValueIndexAction in
    let! (action, ts, kinds) := ParseAttestationString s in
    Ok (<[pubkey := apply_action entry action ts kinds]> entries).

(* src: model/onbehalf.go 76-119 *)
Definition ParseAttestationTags (tags : Tags) : outcome OnBehalfAccessEntries :=
  for_state tags ∅ attestation_step.

(* src: model/onbehalf.go 123-132 *)
Definition AllowedKinds (r : OnBehalfAccessEntries) (deviceKey : string) : list Z :=
  match r !! deviceKey with
  | None => []
  | Some entry => EKinds entry
  end.

(* src: model/onbehalf.go 146-155 [IsAccessAllowed] *)
Definition is_some_and {A} (o : option A) (p : A -> bool) : bool :=
  match o with Some x => p x | None => false end.

(* src: model/onbehalf.go 135-164 *)
Definition IsAccessAllowed (r : OnBehalfAccessEntries) (deviceKey : string) (kind : Z)
    (now : Timestamp) : outcome bool :=
  if kind =? CustomIONKindAttestation then Ok false
  else
    match r !! deviceKey with
    | None => Err (err ErrAttestationRecordNotFound)
    | Some record =>
        reject (err ErrAttestationRecordRevoked)
          when is_some_and (Revoked record) (fun t => negb (TsBefore now t)) ;;
        reject (err ErrAttestationRecordExpired)
          when is_some_and (End_ record) (fun t => TsAfter now t) ;;
        match Start record with
        | None => Err (err ErrAttestationRecordNotFound)
        | Some start =>
            reject (err ErrAttestationRecordIsNotActive) when TsBefore now start ;;
            if (0 <=? kind) && (0 <? zlen (EKinds record))
               && negb (bool_decide (kind ∈ EKinds record))
            then Ok false
            else Ok true
        end
    end.

(* src: model/onbehalf.go 166-173 *)
Definition OnBehalfIsAccessAllowed (masterTags : Tags) (onBehalfPubkey : string) (kind : Z)
    (now : Timestamp) : outcome bool :=
  let! entries := ParseAttestationTags masterTags in
  IsAccessAllowed entries onBehalfPubkey kind now.

(** ** Specification: the history of one key *)

(** The attestations a list of tags contains for a key, in order; [None] when
    one of its attestation strings does not parse. *)
Fixpoint history (pubkey : string) (tags : Tags) : option (list (string * Timestamp * list Z)) :=
  match tags with
  | [] => Some []
  | tag :: tags =>
      match tag with
      | k :: pk :: _ :: s :: _ =>
          if (k =s? TagAttestationName) && (pk =s? pubkey) then
            match ParseAttestationString s with
            | Ok a => (fun h => a :: h) <$> history pubkey tags
            | _ => None
            end
          else history pubkey tags
      | _ => history pubkey tags
      end
  end.

Definition is_action (a : string) (x : string * Timestamp * list Z) : bool := x.1.1 =s? a.

(** What the history means: the last revocation, the last activation with its
    kinds, and the last deactivation that no activation follows. *)
Definition entry_of (h : list (string * Timestamp * list Z)) : OnBehalfAccessEntry :=
  let last_of a := last (filter (fun x => is_action a x = true) h) in
  let active := last_of CustomIONAttestationKindActive in
  MkEntry
    ((fun x => x.1.2) <$> active)
    (match last (filter (fun x => is_action CustomIONAttestationKindActive x = true
                               \/ is_action CustomIONAttestationKindInactive x = true) h) with
     | Some x => if is_action CustomIONAttestationKindInactive x then Some x.1.2 else None
     | None => None
     end)
    ((fun x => x.1.2) <$> last_of CustomIONAttestationKindRevoked)
    (default [] ((fun x => x.2) <$> active)).

(** ** The textual format *)

Definition format_attestation (action : string) (ts : Timestamp) (kinds : list Z) : string :=
  action +:+ ":" +:+ Strconv.Itoa ts +:+
  match kinds with
  | [] => ""
  | _ => ":" +:+ Join (Strconv.Itoa <$> kinds) ","
  end.

(** ** Theorems *)

Lemma parse_kinds_Itoa kinds :
  Forall is_int64 kinds -> parse_kinds (Strconv.Itoa <$> kinds) = Some kinds.
Proof.
  induction 1 as [|k ks Hk _ IH]; [done|].
  cbn [fmap list_fmap parse_kinds]. rewrite Strconv.Atoi_Itoa by done. cbn.
  by rewrite IH.
Qed.

(** [ParseAttestationString] inverts the format
    "action:timestamp[:kind,kind,...]": for an action without a colon and
    64-bit integers it returns exactly the components. *)
Lemma ParseAttestationString_format action ts kinds :
  in_string ":" action = false -> is_int64 ts -> Forall is_int64 kinds ->
  ParseAttestationString (format_attestation action ts kinds) = Ok (action, ts, kinds).
Proof.
  intros Ha Hts Hk. unfold ParseAttestationString, format_attestation.
  assert (Hd : in_string ":" (Strconv.Itoa ts) = false) by by apply Strconv.Itoa_no_char.
  set (rest := match kinds with [] => "" | _ => _ end).
  change (":" +:+ ?x) with (String ":" x).
  rewrite IndexRune_app, drop_S_app, take_app by done.
  assert (Hp : Strconv.ParseInt (Strconv.Itoa ts) 64 = Some ts) by by apply Strconv.Atoi_Itoa.
  destruct kinds as [|k ks]; subst rest.
  - rewrite app_nil_r. rewrite (proj2 (IndexRune_None _ _) Hd). cbn [from_option]. unfold id.
    rewrite take_ge by done. by rewrite Hp, Nat.eqb_refl.
  - change (":" +:+ ?x) with (String ":" x). rewrite IndexRune_app by done. cbn [from_option]. unfold id.
    rewrite take_app, Hp, len_app. cbn [String.length].
    rewrite (proj2 (Nat.eqb_neq _ _)) by lia.
    rewrite drop_S_app. change "," with (String "," ""). rewrite Split_Join; [|done|].
    + by rewrite parse_kinds_Itoa.
    + apply Forall_fmap. eapply Forall_impl; [exact Hk|]. intros z Hz.
      by apply Strconv.Itoa_no_char.
Qed.

Context {NS : NostrSpec N}.

Lemma IsAccessAllowed_spec r deviceKey kind now :
  IsAccessAllowed r deviceKey kind now = Ok true <->
  kind ≠ CustomIONKindAttestation /\
  exists entry start, r !! deviceKey = Some entry /\
    (forall t, Revoked entry = Some t -> TsTime now < TsTime t) /\
    (forall t, End_ entry = Some t -> TsTime now <= TsTime t) /\
    Start entry = Some start /\ TsTime start <= TsTime now /\
    (kind < 0 \/ EKinds entry = [] \/ kind ∈ EKinds entry).
Proof.
  unfold IsAccessAllowed. destruct (Z.eqb_spec kind CustomIONKindAttestation); [naive_solver|].
  destruct (r !! deviceKey) as [[st en rv ks]|]; [|naive_solver]. cbn.
  assert (Hk : (0 <=? kind) && (0 <? zlen ks) && negb (bool_decide (kind ∈ ks)) = false
    <-> kind < 0 \/ ks = [] \/ kind ∈ ks).
  { unfold zlen. case_bool_decide; cbn; [rewrite andb_false_r; tauto|].
    destruct ks as [|k0 ks]; cbn [length]; [split; auto; by rewrite andb_false_r|].
    destruct (Z.leb_spec 0 kind), (Z.ltb_spec 0 (Z.of_nat (S (length ks)))); cbn;
      split; try done; try lia; intros [?|[?|?]]; done || lia. }
  rewrite !reject_Ok.
  destruct st as [st|]; [|naive_solver]. rewrite reject_Ok.
  rewrite !TsBefore_spec.
  split.
  - intros (Hrv & Hen & Hst & Hfin). split; [done|]. eexists _, st. split; [done|]. cbn.
    split_and!; [| |done|lia|].
    + intros t ->. cbn in Hrv. rewrite TsBefore_spec in Hrv. lia.
    + intros t ->. cbn in Hen. rewrite TsAfter_spec in Hen. lia.
    + apply Hk. by destruct (_ && _ && _).
  - intros (_ & entry & start & [= <-] & Hrv & Hen & [= ->] & Hst & Hkk). cbn in *. split_and!.
    + destruct rv as [t|]; cbn; [|done]. rewrite TsBefore_spec. specialize (Hrv t eq_refl). lia.
    + destruct en as [t|]; cbn; [|done]. rewrite TsAfter_spec. specialize (Hen t eq_refl). lia.
    + lia.
    + apply Hk in Hkk. by rewrite Hkk.
Qed.

(** The complete access decision: access is granted exactly for a
    known key, a kind other than the attestation kind, before any revocation,
    not after the deactivation, from the activation on, and for a kind among
    the attested ones (a negative kind and an empty list stand for any). *)
Lemma IsAccessAllowed_true r deviceKey kind now :
  IsAccessAllowed r deviceKey kind now = Ok true <->
  kind ≠ CustomIONKindAttestation /\
  exists entry start, r !! deviceKey = Some entry /\
    (forall t, Revoked entry = Some t -> TsTime now < TsTime t) /\
    (forall t, End_ entry = Some t -> TsTime now <= TsTime t) /\
    Start entry = Some start /\ TsTime start <= TsTime now /\
    (kind < 0 \/ EKinds entry = [] \/ kind ∈ EKinds entry).
Proof. apply IsAccessAllowed_spec. Qed.

Lemma history_app pk t1 t2 :
  history pk (t1 ++ t2) = (h1 ← history pk t1; h2 ← history pk t2; Some (h1 ++ h2)).
Proof.
  induction t1 as [|tag t1 IH]; cbn.
  - by destruct (history pk t2).
  - destruct tag as [|k [|p [|r [|s t]]]]; try done.
    destruct (_ && _); [|done]. destruct (ParseAttestationString s); try done.
    rewrite IH. destruct (history pk t1); cbn; [|done]. by destruct (history pk t2).
Qed.

Lemma entry_of_snoc h a : entry_of (h ++ [a]) = apply_action (entry_of h) a.1.1 a.1.2 a.2.
Proof.
  destruct a as [[a ts] ks]. unfold entry_of, apply_action. cbn.
  rewrite !filter_app, !filter_cons, !filter_nil. unfold is_action. cbn.
  destruct (String.eqb_spec a CustomIONAttestationKindRevoked) as [->|Hr];
    [|destruct (String.eqb_spec a CustomIONAttestationKindActive) as [->|Ha];
      [|destruct (String.eqb_spec a CustomIONAttestationKindInactive) as [->|Hi]]];
    repeat case_decide; cbn in *; rewrite ?List.app_nil_r, ?last_snoc; cbn;
    first [done | exfalso; naive_solver].
Qed.

(** The records a history gives: no entry without an attestation. *)
Definition record_of (h : list (string * Timestamp * list Z)) : option OnBehalfAccessEntry :=
  match h with [] => None | _ => Some (entry_of h) end.

Lemma record_of_snoc h a :
  record_of (h ++ [a]) = Some (apply_action (default zero_entry (record_of h)) a.1.1 a.1.2 a.2).
Proof.
  unfold record_of at 1. destruct (h ++ [a]) eqn:E; [by destruct h|]. rewrite <- E.
  rewrite entry_of_snoc. by destruct h.
Qed.

(** One tag: skipped, or an attestation of the key at index 1. *)
Lemma attestation_step_cases r tag :
  (attestation_step r tag = Ok r /\ forall pk, history pk [tag] = Some []) \/
  (exists pk s, (forall pk', history pk' [tag] =
        if pk =s? pk' then match ParseAttestationString s with Ok a => Some [a] | _ => None end
        else Some []) /\
     attestation_step r tag = (let! (action, ts, kinds) := ParseAttestationString s in
        Ok (<[pk := apply_action (default zero_entry (r !! pk)) action ts kinds]> r))).
Proof.
  unfold attestation_step. destruct tag as [|k [|pk [|rl [|s t]]]]; [by left..|].
  rewrite Key_cons. cbn [length Nat.ltb Nat.leb orb history].
  destruct (k =s? TagAttestationName) eqn:Hk; cbn; [right|left; done].
  exists pk, s. split; [|done]. intros pk'.
  destruct (pk =s? pk'); [|done]. by destruct (ParseAttestationString s).
Qed.

Lemma ParseAttestationString_total s :
  ParseAttestationString s ≠ Panic /\ ParseAttestationString s ≠ OutOfFuel.
Proof. unfold ParseAttestationString. repeat case_match; done. Qed.

Lemma ParseAttestationTags_spec tags :
  match ParseAttestationTags tags with
  | Ok r => forall pk, exists h, history pk tags = Some h /\ r !! pk = record_of h
  | Err _ => exists pk, history pk tags = None
  | Panic | OutOfFuel => False
  end.
Proof.
  induction tags as [|tag tags IH] using rev_ind; [by eexists|].
  unfold ParseAttestationTags in *. rewrite for_state_app.
  assert (Happ : forall pk, history pk tags = None -> history pk (tags ++ [tag]) = None).
  { intros pk Hpk. by rewrite history_app, Hpk. }
  destruct (for_state tags ∅ attestation_step) as [r|e| |]; cbn; [|naive_solver|done..].
  destruct (attestation_step_cases r tag) as [[-> Hh]|(pk & s & Hh & ->)]; cbn.
  - intros pk'. destruct (IH pk') as (h & Hpk' & Hr).
    exists h. rewrite history_app, Hpk', Hh. cbn. by rewrite List.app_nil_r.
  - destruct (ParseAttestationString_total s) as [Hp Hf].
    destruct (ParseAttestationString s) as [[[action ts] kinds]|e| |] eqn:Hs; try done; cbn.
    + intros pk'. destruct (IH pk') as (h & Hpk' & Hr).
      rewrite history_app, Hpk', Hh. cbn.
      destruct (String.eqb_spec pk pk') as [->|Hne]; cbn.
      * eexists. split; [done|]. by rewrite lookup_insert_eq, Hr, record_of_snoc.
      * eexists. split; [done|]. by rewrite lookup_insert_ne, List.app_nil_r.
    + exists pk. destruct (IH pk) as (h & Hpk & _). rewrite history_app, Hpk, Hh.
      cbn. by rewrite String.eqb_refl.
Qed.

(** C2: [ParseAttestationTags] refines the history of each key: it fails
    exactly when an attestation string of some key does not parse, and
    otherwise the record of a key is determined by that key's own attestations
    alone - the last activation with its kinds, the deactivation that follows
    it, the last revocation - and absent when there are none. *)
Theorem ParseAttestationTags_refines tags :
  match ParseAttestationTags tags with
  | Ok r => forall pk, exists h, history pk tags = Some h /\ r !! pk = record_of h
  | Err _ => exists pk, history pk tags = None
  | Panic | OutOfFuel => False
  end.
Proof. apply ParseAttestationTags_spec. Qed.
End OnBehalf.

Lemma ParseAttestationString_format_witness :
  ParseAttestationString (format_attestation "active" 1700000000 [1; 30175]) =
  Ok ("active", 1700000000, [1; 30175]).
Proof.
  apply (ParseAttestationString_format "active" 1700000000 [1; 30175]); [reflexivity| |];
    repeat constructor; discriminate.
Defined.

Module OnBehalfWitness.
Import Plain.

Lemma IsAccessAllowed_true_witness :
  let r := {["dev" := MkEntry (Some 10) None None [1]]} : OnBehalfAccessEntries in
  IsAccessAllowed r "dev" 1 20 = Ok true <->
  1 ≠ CustomIONKindAttestation /\
  exists entry start, r !! "dev" = Some entry /\
    (forall t, Revoked entry = Some t -> TsTime 20 < TsTime t) /\
    (forall t, End_ entry = Some t -> TsTime 20 <= TsTime t) /\
    Start entry = Some start /\ TsTime start <= TsTime 20 /\
    (1 < 0 \/ EKinds entry = [] \/ 1 ∈ EKinds entry).
Proof.
  exact (IsAccessAllowed_true
    {["dev" := MkEntry (Some 10) None None [1]]} "dev" 1 20).
Defined.

Definition tags : Tags :=
  [["p"; "dev"; ""; "active:10:1,7"]; ["b"; "x"]; ["p"; "dev"; ""; "inactive:30"]].

Lemma ParseAttestationTags_refines_witness :
  match ParseAttestationTags tags with
  | Ok r => forall pk, exists h, history pk tags = Some h /\ r !! pk = record_of h
  | Err _ => exists pk, history pk tags = None
  | Panic | OutOfFuel => False
  end.
Proof. exact (ParseAttestationTags_refines tags). Defined.

Example tags_allowed : OnBehalfIsAccessAllowed tags "dev" 7 20 = Ok true.
Proof. vm_compute. reflexivity. Qed.
End OnBehalfWitness.
