(* ===== verification/Filters.v ===== *)
(** * Package model: filters, references, user data

    src/model/filter.go, reference.go, relay.go, context.go: matching events
    against subscription filters, the references an event makes to others,
    relay URL comparison and the per-connection user data. *)

From S2P Require Import Prelude GoStd Nostr Model.
Import Strings.

Section Filters.
Context {N : Nostr}.

(** ** filter.go *)

(* src: model/filter.go 28-46 *)
Definition filterMatchAuthors (f : Filter) (event : Event)
    (currentMasterKey currentDeviceKey : string) : bool :=
  let eventMasterKey := GetMasterPublicKey event in
  existsb (fun author =>
    if (author =s? PubKey event) || (author =s? eventMasterKey) then true
    else if (author =s? currentDeviceKey) || (author =s? currentMasterKey) then
      (PubKey event =s? currentDeviceKey) || (eventMasterKey =s? currentDeviceKey)
      || (PubKey event =s? currentMasterKey) || (eventMasterKey =s? currentMasterKey)
    else false) (elems (Authors f)).

(* src: model/filter.go 49-54 *)
Definition repostOfKinds (k : Z) : option Z :=
  if k =? CustomIONKindRepostOfArticle then Some KindArticle
  else if k =? CustomIONKindRepostOfEditableTextNote then Some CustomIONKindEditableTextNote
  else if k =? CustomIONKindRepostOfTokenizedCommunityDefinition then
    Some CustomIONKindTokenizedCommunityDefinition
  else if k =? CustomIONKindRepostOfTokenizedCommunityAction then
    Some CustomIONKindTokenizedCommunityAction
  else None.

(** [ev] is a generic repost whose [k] tag names the kind [k] stands for. *)
(* src: model/filter.go 69-76 [filterMatchKind] *)
Definition repost_matches (k : Z) (ev : Event) : bool :=
  (Kind ev =? KindGenericRepost) &&
  match Strconv.Atoi (Value (GetTag ev "k")) with
  | Some val =>
      (0 <? val) && match repostOfKinds k with Some orig => val =? orig | None => false end
  | None => false
  end.

(** The loop over [filter.Kinds]: its first decisive kind wins. *)
(* src: model/filter.go 60-81 [filterMatchKind] *)
Fixpoint filterMatchKind_loop (kinds : list Z) (ev : Event) : bool :=
  match kinds with
  | [] => false
  | k :: kinds =>
      if k =? Kind ev then true
      else if k =? int64 (- Kind ev) then false
      else if repost_matches k ev then true
      else filterMatchKind_loop kinds ev
  end.

(* src: model/filter.go 48-82 *)
Definition filterMatchKind (f : Filter) (ev : Event) : bool :=
  match elems (Kinds f) with
  | [] => true
  | kinds => filterMatchKind_loop kinds ev
  end.

(* src: model/filter.go 84-93 *)
Definition filterMatchAddresses (f : Filter) (event : Event) : bool :=
  let addr := Address event in
  existsb (fun a => (a =s? addr) || (a =s? ID event)) (elems (Addresses f)).

(** [p != nil && !c] *)
(* src: model/filter.go 96-122 [FilterMatch] *)
Definition refused {A} (p : option A) (c : bool) : bool :=
  match p with Some _ => negb c | None => false end.

(* src: model/filter.go 95-125 *)
Definition FilterMatch (f : Filter) (event : Event)
    (currentMasterKey currentDeviceKey : string) : bool :=
  if match Since f with Some s => TsBefore (CreatedAt event) s | None => false end then false
  else if match Until f with Some u => TsAfter (CreatedAt event) u | None => false end then false
  else if refused (IDs f) (bool_decide (ID event ∈ elems (IDs f))) then false
  else if refused (Kinds f) (filterMatchKind f event) then false
  else if refused (Authors f) (filterMatchAuthors f event currentMasterKey currentDeviceKey)
  then false
  else if refused (Addresses f) (filterMatchAddresses f event) then false
  else if refused (FTags f) (MatchesTags f (EvTags event)) then false
  else true.

(* src: model/filter.go 127-137 *)
Definition FiltersMatch (filters : list Filter) (event : Event)
    (currentMasterKey currentDeviceKey : string) : bool :=
  match filters with
  | [] => true
  | _ => existsb (fun f => FilterMatch f event currentMasterKey currentDeviceKey) filters
  end.

(** ** filter.go: decoding a list of filters mixed with data *)

(** A JSON value as tidwall/gjson presents it. *)
Record gjson_item : Type := MkItem {
  Raw : string;
  has_field : string -> bool;
  string_keys : list string
}.

(* src: model/filter.go 145-153 [UnmarshalJSON] *)
Definition filter_fields : list string :=
  ["ids"; "authors"; "kinds"; "addresses"; "since"; "until"; "limit"; "search"].

(* src: model/filter.go 145-163 [UnmarshalJSON] *)
Definition is_filter_item (item : gjson_item) : bool :=
  existsb (has_field item) filter_fields || existsb (fun k => HasPrefix k "#") (string_keys item).

(* src: model/filter.go 20-23 *)
Record FiltersWithData (T : Type) : Type := MkFiltersWithData {
  FiltersOf : list Filter;
  DataOf : list T
}.
Arguments MkFiltersWithData {T}.
Arguments FiltersOf {T}.
Arguments DataOf {T}.

(* src: model/filter.go 139-181 *)
Definition FiltersWithData_UnmarshalJSON {T} (gjson_array : string -> list gjson_item)
    (unmarshal_filter : string -> option Filter) (unmarshal_data : string -> option T)
    (f : FiltersWithData T) (data : string) : outcome (FiltersWithData T) :=
  for_state (gjson_array data) f (fun f item =>
    if is_filter_item item then
      match unmarshal_filter (Raw item) with
      | None => Err opaque_error
      | Some x => Ok (MkFiltersWithData (FiltersOf f ++ [x]) (DataOf f))
      end
    else
      match unmarshal_data (Raw item) with
      | None => Err opaque_error
      | Some d => Ok (MkFiltersWithData (FiltersOf f) (DataOf f ++ [d]))
      end).

(** ** reference.go *)

(* src: model/model.go 19-29 *)
Inductive EventReference : Type :=
  | ReplaceableEventReference (RKind : Z) (RPubKey DTag : string)
  | PlainEventReference (EventIDs : list string).

(* src: model/reference.go 14-38 [ParseEventReference] *)
Definition reference_step (st : list EventReference * list string) (tag : Tag) :
    outcome (list EventReference * list string) :=
  let '(refs, plainEvents) := st in
  if Key tag =s? "e" then
    if Value tag ≠s? "" then Ok (refs, plainEvents ++ [Value tag]) else Ok st
  else if Key tag =s? "a" then
    match Split (Value tag) ":" with
    | [k; pubkey; dtag] =>
        match Strconv.ParseInt k 64 with
        | None => Err opaque_error
        | Some kind => Ok (refs ++ [ReplaceableEventReference kind pubkey dtag], plainEvents)
        end
    | _ => Err opaque_error
    end
  else Ok st.

(* src: model/reference.go 12-43 *)
Definition ParseEventReference (tags : Tags) : outcome (list EventReference) :=
  let! (refs, plainEvents) := for_state tags ([], []) reference_step in
  Ok (refs ++ match plainEvents with [] => [] | _ => [PlainEventReference plainEvents] end).

(* src: model/reference.go 45-60 *)
Definition reference_filter (r : EventReference) : Filter :=
  match r with
  | PlainEventReference ids =>
      MkFilter (Some ids) None None None None None None 0 ""
  | ReplaceableEventReference kind pubkey dtag =>
      MkFilter None (Some [kind]) (Some [pubkey]) None
        (if dtag =s? "" then None else Some {["d" := [[Some dtag]]]}) None None 0 ""
  end.

(** ** relay.go *)

Context {G : GoText}.

(* src: model/relay.go 11-25 *)
Definition CompareRelaysURLs (relay1 relay2 : string) : bool :=
  if EqualFold relay1 relay2 then true
  else match url_Parse relay1, url_Parse relay2 with
       | Some parsed1, Some parsed2 =>
           EqualFold (Scheme parsed1) (Scheme parsed2) && EqualFold (Path parsed1) (Path parsed2)
           && EqualFold (Hostname parsed1) (Hostname parsed2)
       | _, _ => false
       end.

(** ** context.go *)

(* src: model/context.go 10-17 *)
Record UserDataContext : Type := MkUserData {
  UKinds : gset Z;
  UPublicKey : string;
  MasterPublicKey : string;
  UserAgent : string;
  Authenticated : bool;
  Authoritative : bool
}.

(** The zero value, when the context carries none. *)
(* src: model/context.go 25-30 [GetUserDataFromContext] *)
Definition no_user : UserDataContext := MkUserData ∅ "" "" "" false false.

(* src: model/context.go 37-39 [IsKindAllowed] *)
Definition no_kinds (u : UserDataContext) : bool := bool_decide (UKinds u = ∅).

(* src: model/context.go 36-43 *)
Definition IsKindAllowed (u : UserDataContext) (kind : Z) : bool :=
  no_kinds u || bool_decide (kind ∈ UKinds u).

(* src: model/context.go 45-58 *)
Definition IsFilterAllowed (u : UserDataContext) (filters : list Filter) : bool :=
  no_kinds u ||
  forallb (fun f => forallb (fun kind => bool_decide (kind ∈ UKinds u)) (elems (Kinds f))) filters.

(* src: model/context.go 60-71 *)
Definition IsEventAllowed (u : UserDataContext) (events : list Event) : bool :=
  no_kinds u || forallb (fun e => bool_decide (Kind e ∈ UKinds u)) events.

(** ** Theorems *)

Lemma refused_false {A} (p : option A) c : refused p c = false <-> (is_Some p -> c = true).
Proof.
  destruct p as [a|]; cbn; [|split; [intros _ [? ?]|]; done].
  rewrite negb_false_iff. split; [done|]. intros H. apply H. by exists a.
Qed.

Lemma FilterMatch_true f e mk dk :
  FilterMatch f e mk dk = true <->
  (forall s, Since f = Some s -> TsBefore (CreatedAt e) s = false) /\
  (forall u, Until f = Some u -> TsAfter (CreatedAt e) u = false) /\
  (is_Some (IDs f) -> ID e ∈ elems (IDs f)) /\
  (is_Some (Kinds f) -> filterMatchKind f e = true) /\
  (is_Some (Authors f) -> filterMatchAuthors f e mk dk = true) /\
  (is_Some (Addresses f) -> filterMatchAddresses f e = true) /\
  (is_Some (FTags f) -> MatchesTags f (EvTags e) = true).
Proof.
  assert (HI : (is_Some (IDs f) -> ID e ∈ elems (IDs f)) <->
    refused (IDs f) (bool_decide (ID e ∈ elems (IDs f))) = false)
    by by rewrite refused_false, bool_decide_eq_true.
  rewrite HI, <- !refused_false. clear HI. unfold FilterMatch.
  destruct (Since f) as [s|]; [destruct (TsBefore (CreatedAt e) s) eqn:?|];
    (destruct (Until f) as [u|]; [destruct (TsAfter (CreatedAt e) u) eqn:?|]);
    repeat (destruct (refused _ _)); naive_solver.
Qed.

(** A filter that lists negative kinds only, to exclude them, matches
    no live event at all, whatever its kind. *)
Lemma FilterMatch_negative_kinds f e mk dk kinds :
  Kinds f = Some kinds -> kinds ≠ [] -> Forall (fun k => k < 0) kinds -> 0 <= Kind e ->
  FilterMatch f e mk dk = false.
Proof.
  intros Hk Hne Hneg He. apply not_true_iff_false. rewrite FilterMatch_true.
  intros (_ & _ & _ & HK & _). rewrite Hk in HK. specialize (HK (mk_is_Some _ _ eq_refl)).
  unfold filterMatchKind in HK. rewrite Hk in HK.
  destruct kinds as [|k0 ks]; [done|]. cbn -[filterMatchKind_loop] in HK. revert HK. clear Hk Hne. revert Hneg.
  generalize (k0 :: ks) as l. intros l Hneg. induction Hneg as [|k l Hk _ IH]; cbn; [done|].
  destruct (Z.eqb_spec k (Kind e)); [lia|]. destruct (k =? _); [done|].
  unfold repost_matches, repostOfKinds.
  destruct (Kind e =? KindGenericRepost); cbn; [|exact IH].
  destruct (Strconv.Atoi _) as [v|]; [|exact IH].
  assert (Hpos : forall c, 0 <= c -> (k =? c) = false) by lia.
  rewrite !Hpos by done. rewrite andb_false_r. exact IH.
Qed.

Context {NS : NostrSpec N}.

Lemma GetD_tag ts : GetD ts ≠ "" -> exists t, t ∈ ts /\ head t = Some "d" /\ t !! 1%nat = Some (GetD ts).
Proof.
  rewrite GetD_spec. destruct (list_find _ ts) as [[i t]|] eqn:Hf; cbn; [|done].
  apply list_find_Some in Hf as (Hi & [Hk Hlen] & _). intros Hd.
  exists t. split; [by eapply list_elem_of_lookup_2|].
  rewrite Key_spec in Hk. destruct t as [|k [|v t]]; cbn in *; [lia|lia|].
  by rewrite Hk.
Qed.

(** An addressable or replaceable event is found again by its own
    address: parsing the address in an [a] tag gives its kind, master key and
    [d] value, and the filter of that reference matches the event. *)
Lemma Address_reference e mk dk :
  is_int64 (Kind e) -> IsAddressable e || IsReplaceable e = true ->
  in_string ":" (GetMasterPublicKey e) = false -> in_string ":" (GetD (EvTags e)) = false ->
  exists d, ParseEventReference [["a"; Address e]]
      = Ok [ReplaceableEventReference (Kind e) (GetMasterPublicKey e) d] /\
    (d = "" \/ d = GetD (EvTags e)) /\
    FilterMatch (reference_filter (ReplaceableEventReference (Kind e) (GetMasterPublicKey e) d))
      e mk dk = true.
Proof.
  intros Hint Hkind Hmaster Hd.
  assert (Hparse : forall d, in_string ":" d = false ->
    ParseEventReference
      [["a"; Strconv.Itoa (Kind e) +:+ ":" +:+ GetMasterPublicKey e +:+ ":" +:+ d]]
      = Ok [ReplaceableEventReference (Kind e) (GetMasterPublicKey e) d]).
  { intros d Hd'. unfold ParseEventReference. cbn [for_state]. unfold reference_step.
    rewrite Key_cons, Value_cons.
    assert (HS : Split (Strconv.Itoa (Kind e) +:+ ":" +:+ GetMasterPublicKey e +:+ ":" +:+ d) ":"
      = [Strconv.Itoa (Kind e); GetMasterPublicKey e; d]).
    { apply (Split_Join [Strconv.Itoa (Kind e); GetMasterPublicKey e; d] ":"); [done|].
      repeat constructor; try done. by apply Strconv.Itoa_no_char. }
    rewrite HS. cbn -[Strconv.ParseInt]. change (Strconv.ParseInt ?s 64) with (Strconv.Atoi s).
    by rewrite Strconv.Atoi_Itoa. }
  assert (Hmatch : forall d, d = "" \/ d = GetD (EvTags e) ->
    FilterMatch (reference_filter (ReplaceableEventReference (Kind e) (GetMasterPublicKey e) d))
      e mk dk = true).
  { intros d Hdd. apply FilterMatch_true. cbn. split_and!; try done; try by intros [? ?].
    - intros _. unfold filterMatchKind. cbn. by rewrite Z.eqb_refl.
    - intros _. unfold filterMatchAuthors. cbn. by rewrite String.eqb_refl, orb_true_r.
    - destruct (String.eqb_spec d ""); [by intros [? ?]|]. intros _.
      destruct Hdd as [->|Hdd]; [done|].
      destruct (GetD_tag (EvTags e)) as (t & Ht & Hhd & H1); [congruence|].
      eapply MatchesTags_sufficient; [reflexivity|].
      intros k vss Hk. apply lookup_singleton_Some in Hk as [<- <-].
      exists [Some d], t. split_and!; [by left|done|done|].
      intros i v Hi. destruct i as [|i]; cbn in *; simplify_eq; done. }
  destruct (IsAddressable e) eqn:HA.
  - exists (GetD (EvTags e)). unfold Address. rewrite HA. auto.
  - exists "". unfold Address. rewrite HA. cbn in Hkind. rewrite Hkind.
    split; [|auto]. rewrite <- (Hparse "") by done. by rewrite app_nil_r.
Qed.

(** Relay URL comparison is reflexive and symmetric, as the callers
    that compare "own" and "found" URLs in either order assume. *)
Lemma CompareRelaysURLs_sym `{!GoTextSpec} r1 r2 :
  CompareRelaysURLs r1 r1 = true /\ CompareRelaysURLs r1 r2 = CompareRelaysURLs r2 r1.
Proof.
  unfold CompareRelaysURLs. rewrite EqualFold_refl. split; [done|].
  rewrite (EqualFold_sym r2 r1). destruct (EqualFold r1 r2); [done|].
  destruct (url_Parse r1) as [u1|], (url_Parse r2) as [u2|]; try done.
  by rewrite (EqualFold_sym (Scheme u2)), (EqualFold_sym (Path u2)), (EqualFold_sym (Hostname u2)).
Qed.
End Filters.

Arguments MkFiltersWithData {T}.
Arguments FiltersOf {T}.
Arguments DataOf {T}.

Module FiltersWitness.
Import Plain AsciiText.

Definition article : Event := MkEvent None "id1" "alice" 100 30023 [["d"; "intro"]] "text" "".
Definition not_notes : Filter := MkFilter None (Some [-1]) None None None None None 0 "".

Lemma FilterMatch_negative_kinds_witness : FilterMatch not_notes article "" "" = false.
Proof.
  apply (FilterMatch_negative_kinds not_notes article "" "" [-1]);
    [done|done|by repeat constructor|done].
Defined.

Lemma Address_reference_witness :
  exists d, ParseEventReference [["a"; Address article]]
      = Ok [ReplaceableEventReference (Kind article) (GetMasterPublicKey article) d] /\
    (d = "" \/ d = GetD (EvTags article)) /\
    FilterMatch (reference_filter
      (ReplaceableEventReference (Kind article) (GetMasterPublicKey article) d))
      article "" "" = true.
Proof. apply (Address_reference article "" ""); [by split|reflexivity..]. Defined.

Example article_address : Address article = "30023:alice:intro".
Proof. reflexivity. Qed.

Lemma CompareRelaysURLs_sym_witness :
  CompareRelaysURLs "wss://a" "wss://a" = true /\
  CompareRelaysURLs "wss://a" "wss://b" = CompareRelaysURLs "wss://b" "wss://a".
Proof. apply (CompareRelaysURLs_sym "wss://a" "wss://b"). Defined.
End FiltersWitness.
