(* ===== verification/Subscription.v ===== *)
(** * Package model: live subscriptions

    src/model/subscription.go: the queue of events that arrive for a
    subscription while its stored events are still being sent.  The queue
    keeps at most one event per address, the last one pushed, at the position
    of the first.  The mutex makes every operation one atomic step. *)

From S2P Require Import Prelude GoStd Nostr Model.

Section Subscription.
Context {N : Nostr}.

(** [addresses] maps an address to its position in [pending]. *)
(* src: model/subscription.go 14-23 *)
Record Subscription : Type := MkSubscription {
  addresses : gmap string nat;
  reduce : option (Event -> bool);
  SubID : string;
  SubFilters : list Filter;
  pending : list Event;
  live : bool;
  OneShot : bool
}.

(* src: model/subscription.go 26-38 *)
Definition NewSubscription (id : string) (filters : list Filter) : outcome Subscription :=
  if id =s? "" then Panic else Ok (MkSubscription ∅ None id filters [] false false).

(* src: model/subscription.go 40-43 *)
Definition WithReduce (s : Subscription) (f : Event -> bool) : Subscription :=
  MkSubscription (addresses s) (Some f) (SubID s) (SubFilters s) (pending s) (live s) (OneShot s).

(* src: model/subscription.go 45-50 *)
Definition Reduce (s : Subscription) (event : Event) : bool :=
  match reduce s with None => false | Some f => f event end.

Definition with_queue (s : Subscription) (addrs : gmap string nat) (q : list Event) : Subscription :=
  MkSubscription addrs (reduce s) (SubID s) (SubFilters s) q (live s) (OneShot s).

(** [s.pending[idx] = event] panics when [idx] is out of range. *)
(* src: model/subscription.go 52-70 *)
Definition Push (s : Subscription) (event : Event) : outcome Subscription :=
  if Reduce s event then Ok s
  else
    let addr := Address event in
    match addresses s !! addr with
    | Some idx =>
        if (idx <? length (pending s))%nat
        then Ok (with_queue s (addresses s) (<[idx := event]> (pending s)))
        else Panic
    | None =>
        let q := pending s ++ [event] in
        Ok (with_queue s (<[addr := (length q - 1)%nat]> (addresses s)) q)
    end.

(* src: model/subscription.go 72-74 *)
Definition IsLive (s : Subscription) : bool := live s.

(* src: model/subscription.go 76-78 *)
Definition SetLive (s : Subscription) : Subscription :=
  MkSubscription (addresses s) (reduce s) (SubID s) (SubFilters s) (pending s) true (OneShot s).

(* src: model/subscription.go 80-88 *)
Definition GetPending (s : Subscription) : list Event * Subscription :=
  (pending s, with_queue s ∅ []).

(** ** Specification *)

(** The position map is exactly the index of the queue by address. *)
Definition queue_wf (s : Subscription) : Prop :=
  forall a i, addresses s !! a = Some i <->
    exists e, pending s !! i = Some e /\ Address e = a.

(** The queue as an abstract ordered map: replace in place or append. *)
Fixpoint upsert (q : list Event) (event : Event) : list Event :=
  match q with
  | [] => [event]
  | e :: q => if Address e =s? Address event then event :: q else e :: upsert q event
  end.

(** The operations of a subscription, and a run of them: the delivered
    batches, in order, and the final state. *)
Inductive sub_op : Type :=
  | OpPush (e : Event)
  | OpGetPending
  | OpSetLive.

Fixpoint run (ops : list sub_op) (s : Subscription) : outcome (list (list Event) * Subscription) :=
  match ops with
  | [] => Ok ([], s)
  | OpPush e :: ops => let! s := Push s e in run ops s
  | OpGetPending :: ops =>
      let '(q, s) := GetPending s in
      let! (out, s) := run ops s in Ok (q :: out, s)
  | OpSetLive :: ops => run ops (SetLive s)
  end.

(** The abstract run: only the queue. *)
Fixpoint spec_run (skip : Event -> bool) (ops : list sub_op) (q : list Event) :
    list (list Event) * list Event :=
  match ops with
  | [] => ([], q)
  | OpPush e :: ops => spec_run skip ops (if skip e then q else upsert q e)
  | OpGetPending :: ops =>
      let '(out, q') := spec_run skip ops [] in (q :: out, q')
  | OpSetLive :: ops => spec_run skip ops q
  end.

(** ** Theorems *)

Lemma upsert_absent q e :
  (forall e', e' ∈ q -> Address e' ≠ Address e) -> upsert q e = q ++ [e].
Proof.
  induction q as [|e' q IH]; intros H; cbn; [done|].
  assert (Address e' ≠ Address e) as Hne by exact (H e' (list_elem_of_here _ _)).
  rewrite (proj2 (String.eqb_neq _ _) Hne).
  f_equal. apply IH. intros e'' He. apply H. by right.
Qed.

Lemma upsert_present q i e e' :
  NoDup (Address <$> q) -> q !! i = Some e' -> Address e' = Address e ->
  upsert q e = <[i := e]> q.
Proof.
  revert i. induction q as [|d q IH]; intros i Hnd Hi Ha; cbn; [done|].
  inversion Hnd as [|? ? Hnotin Hnd']; subst. destruct i as [|i]; cbn in *.
  - simplify_eq. by rewrite Ha, String.eqb_refl.
  - rewrite (proj2 (String.eqb_neq _ _)); [f_equal; by eapply IH|].
    rewrite <- Ha. intros Heq. apply Hnotin. rewrite Heq.
    apply list_elem_of_fmap. exists e'. split; [congruence|]. exact (list_elem_of_lookup_2 _ _ _ Hi).
Qed.

Lemma upsert_Address q e :
  Address <$> upsert q e =
  if bool_decide (Address e ∈ Address <$> q) then Address <$> q else (Address <$> q) ++ [Address e].
Proof.
  induction q as [|d q IH]; cbn; [done|].
  destruct (String.eqb_spec (Address d) (Address e)) as [Heq|Hne]; cbn.
  - rewrite Heq. by rewrite bool_decide_eq_true_2 by left.
  - rewrite IH. repeat case_bool_decide; rewrite ?elem_of_cons in *; try done; naive_solver.
Qed.

Lemma queue_wf_NoDup s : queue_wf s -> NoDup (Address <$> pending s).
Proof.
  intros Hwf. apply NoDup_alt. intros i j a Hi Hj.
  rewrite list_lookup_fmap in Hi, Hj.
  apply fmap_Some in Hi as (ei & Hi & ->). apply fmap_Some in Hj as (ej & Hj & Hji).
  pose proof (proj2 (Hwf (Address ei) i) (ex_intro _ ei (conj Hi eq_refl))).
  pose proof (proj2 (Hwf (Address ei) j) (ex_intro _ ej (conj Hj (eq_sym Hji)))). congruence.
Qed.

Lemma queue_wf_empty s : addresses s = ∅ -> pending s = [] -> queue_wf s.
Proof.
  intros Ha Hp a i. rewrite Ha, Hp, lookup_empty. split; [done|]. intros (e & He & _).
  by rewrite lookup_nil in He.
Qed.

Lemma Push_refines s e :
  queue_wf s ->
  exists s', Push s e = Ok s' /\ queue_wf s' /\ reduce s' = reduce s /\
    pending s' = if Reduce s e then pending s else upsert (pending s) e.
Proof.
  intros Hwf. pose proof (queue_wf_NoDup s Hwf) as Hnd.
  unfold Push. destruct (Reduce s e); [by exists s|].
  destruct (addresses s !! Address e) as [i|] eqn:Ha.
  - pose proof (proj1 (Hwf _ _) Ha) as (e' & Hi & He').
    pose proof (lookup_lt_Some _ _ _ Hi) as Hlt.
    rewrite (proj2 (Nat.ltb_lt _ _) Hlt). eexists. split; [done|].
    split; [|split; [done|]]; cbn; [|by rewrite (upsert_present _ i _ e')].
    intros a j. cbn. rewrite (Hwf a j).
    destruct (decide (i = j)) as [<-|Hne].
    + rewrite list_lookup_insert_eq by done. rewrite Hi. naive_solver.
    + by rewrite list_lookup_insert_ne.
  - assert (Habs : forall e', e' ∈ pending s -> Address e' ≠ Address e).
    { intros e' [j Hj]%list_elem_of_lookup Heq.
      pose proof (proj2 (Hwf (Address e) j) (ex_intro _ e' (conj Hj Heq))). congruence. }
    eexists. split; [done|]. split; [|split; [done|]]; cbn; [|by rewrite upsert_absent].
    intros a j. cbn. rewrite length_app. cbn.
    replace (length (pending s) + 1 - 1)%nat with (length (pending s)) by lia.
    destruct (decide (a = Address e)) as [->|Hne].
    + rewrite lookup_insert_eq. split.
      * intros [= <-]. exists e. by rewrite lookup_app_r, Nat.sub_diag.
      * intros (e' & Hj & He'). apply lookup_snoc_Some in Hj as [[Hlt Hj]|[-> ->]]; [|done].
        by eapply list_elem_of_lookup_2, Habs in Hj.
    + rewrite lookup_insert_ne, (Hwf a j) by done. split; intros (e' & Hj & He').
      * exists e'. by rewrite lookup_app_l by (by eapply lookup_lt_Some).
      * apply lookup_snoc_Some in Hj as [[Hlt Hj]|[-> ->]]; [by eexists|congruence].
Qed.

Lemma GetPending_wf s : queue_wf (GetPending s).2.
Proof. by apply queue_wf_empty. Qed.

(** C16: in every sequence of pushes, deliveries and state changes starting
    from a fresh subscription, no push panics on a stale position and the
    delivered batches are those of the ordered map that keeps, per address,
    the position of the first event and the value of the last. *)
Theorem Subscription_refines id filters ops s0 :
  NewSubscription id filters = Ok s0 ->
  exists s', run ops s0 = Ok ((spec_run (Reduce s0) ops []).1, s') /\
    pending s' = (spec_run (Reduce s0) ops []).2 /\ queue_wf s'.
Proof.
  unfold NewSubscription. intros Hs0. destruct (id =s? ""); [done|].
  assert (Hwf : queue_wf s0) by (apply queue_wf_empty; by simplify_eq).
  assert (Hp : pending s0 = []) by by simplify_eq. rewrite <- Hp. clear Hs0 Hp.
  revert s0 Hwf. induction ops as [|[e| |] ops IH]; intros s Hwf; cbn.
  - by exists s.
  - destruct (Push_refines s e Hwf) as (s' & Hpush & Hwf' & Hred & Hpend).
    rewrite Hpush. cbn. destruct (IH s' Hwf') as (s'' & Hrun & Hq & Hwf'').
    assert (HR : Reduce s' = Reduce s) by (unfold Reduce; by rewrite Hred).
    rewrite HR, Hpend in Hrun, Hq. eauto.
  - destruct (IH (with_queue s ∅ []) (GetPending_wf s)) as (s' & Hrun & Hq & Hwf').
    rewrite Hrun. cbn in *. change (Reduce (with_queue s ∅ [])) with (Reduce s) in *.
    destruct (spec_run (Reduce s) ops []) as [out q]. cbn in *. eauto.
  - apply (IH (SetLive s)). exact Hwf.
Qed.

(** Pushed and not yet delivered events have pairwise different
    addresses, and each address pushed since the last delivery is pending. *)
Lemma pending_addresses q es :
  NoDup (Address <$> q) ->
  let q' := fold_left upsert es q in
  NoDup (Address <$> q') /\
  (forall a, a ∈ Address <$> q' <-> a ∈ Address <$> q \/ a ∈ Address <$> es).
Proof.
  revert q. induction es as [|e es IH]; intros q Hnd; cbn.
  - split; [done|]. intros a. rewrite elem_of_nil. tauto.
  - assert (Hnd' : NoDup (Address <$> upsert q e)).
    { rewrite upsert_Address. case_bool_decide as Hin; [done|].
      apply NoDup_app. split_and!; [done| |apply NoDup_singleton].
      intros a Ha ->%list_elem_of_singleton. done. }
    destruct (IH _ Hnd') as [H1 H2]. split; [exact H1|]. intros a. rewrite H2, upsert_Address.
    rewrite elem_of_cons. case_bool_decide as Hin; rewrite ?elem_of_app, ?list_elem_of_singleton.
    + split; [tauto|]. intros [?|[->|?]]; auto.
    + tauto.
Qed.
End Subscription.

Module SubscriptionWitness.
Import Plain.
Definition ev (id pk : string) (k t : Z) : Event := MkEvent None id pk t k [] "" "".
Definition ops : list sub_op :=
  [OpPush (ev "1" "a" 0 5); OpPush (ev "2" "b" 1 6); OpPush (ev "3" "a" 0 7); OpGetPending;
   OpPush (ev "4" "a" 0 8)].
Definition fresh : Subscription := MkSubscription ∅ None "s" [] [] false false.

Lemma Subscription_refines_witness :
  exists s', run ops fresh = Ok ((spec_run (Reduce fresh) ops []).1, s') /\
    pending s' = (spec_run (Reduce fresh) ops []).2 /\ queue_wf s'.
Proof. apply (Subscription_refines "s" [] ops fresh). reflexivity. Defined.

Example delivered :
  map (map ID) (spec_run (Reduce fresh) ops []).1 = [["3"; "2"]].
Proof. reflexivity. Qed.

Lemma pending_addresses_witness :
  let q' := fold_left upsert [ev "1" "a" 0 5; ev "3" "a" 0 7] [] in
  NoDup (Address <$> q') /\
  (forall a, a ∈ Address <$> q' <->
     a ∈ Address <$> ([] : list Event) \/ a ∈ Address <$> [ev "1" "a" 0 5; ev "3" "a" 0 7]).
Proof. apply (pending_addresses [] [ev "1" "a" 0 5; ev "3" "a" 0 7]). constructor. Defined.
End SubscriptionWitness.
