(* ===== verification/Matcher.v ===== *)
(** * Package eventmatcher: the index of live subscriptions

    src/event-matcher/event.go ([parseEvent]), filter.go ([parseFilters]),
    matcher.go (the matcher: values by hash, and for every index key the set
    of hashes indexed under it) and storage.go (the shards).  [Lookup] is a
    prefilter: it yields every value one of whose index keys is a key of the
    event.  Every operation is one atomic step here; the bitmaps of the code
    are sets of hashes and the pool they are drawn from hands out empty ones. *)

From stdpp Require Import sorting.
From S2P Require Import Prelude GoStd Nostr Model Filters.

(** ** Index keys *)

(* src: event-matcher/matcher.go 55-62 *)
Inductive dimension : Set := dimNone | dimAuthor | dimTagP | dimTagUpperQ | dimTagLowerQ | dimTagK.

#[export] Instance dimension_eq_dec : EqDecision dimension.
Proof. solve_decision. Defined.

Definition dimension_nat (d : dimension) : nat :=
  match d with
  | dimNone => 0 | dimAuthor => 1 | dimTagP => 2 | dimTagUpperQ => 3 | dimTagLowerQ => 4 | dimTagK => 5
  end.
Definition dimension_of (n : nat) : option dimension :=
  [dimNone; dimAuthor; dimTagP; dimTagUpperQ; dimTagLowerQ; dimTagK] !! n.

#[export] Instance dimension_countable : Countable dimension.
Proof. apply (inj_countable dimension_nat dimension_of). by intros []. Defined.

(* src: event-matcher/matcher.go 34-38 *)
Record indexKey : Set := MkKey { KeyValue : string; KeyKind : Z; Dimension : dimension }.

#[export] Instance indexKey_eq_dec : EqDecision indexKey.
Proof. solve_decision. Defined.
#[export] Instance indexKey_countable : Countable indexKey.
Proof.
  apply (inj_countable' (fun k => (KeyValue k, KeyKind k, Dimension k))
    (fun '(v, k, d) => MkKey v k d)). by intros [].
Defined.

(* src: event-matcher/matcher.go 19 *)
Definition indexCartesianLimit : nat := 100.
(* src: event-matcher/matcher.go 20 *)
Definition anyKind : Z := -1.

(** What a key selects besides the kind. *)
Definition target : Type := dimension * string.
Definition key_of (kind : Z) (t : target) : indexKey := MkKey t.2 kind t.1.
Definition no_target : target := (dimNone, "").

Section Keys.
Context {N : Nostr}.

(** The dimension and the value of a tag, if it is tracked. *)
(* src: event-matcher/event.go 27-59 [parseEvent] *)
Definition event_target (tag : Tag) : option target :=
  match tag with
  | k :: v :: rest =>
      let t := if k =s? "p" then Some (dimTagP, v)
               else if k =s? "k" then Some (dimTagK, v)
               else if (k =s? CustomIONTagAddressableQ) || (k =s? "q") then
                 match rest with
                 | _ :: x :: _ => Some (if k =s? "q" then dimTagLowerQ else dimTagUpperQ, x)
                 | _ => None
                 end
               else None in
      match t with Some (d, x) => if x ≠s? "" then Some (d, x) else None | None => None end
  | _ => None
  end.

(** The key of any kind and that of the event's kind. *)
Definition both_keys (ev : Event) (t : target) : list indexKey := [key_of anyKind t; key_of (Kind ev) t].

(* src: event-matcher/event.go 10-62 *)
Definition parseEvent (ev : Event) (buf : list indexKey) : list indexKey :=
  buf ++ both_keys ev no_target ++ both_keys ev (dimAuthor, PubKey ev) ++
  (let m := GetMasterPublicKey ev in
   if (m ≠s? "") && (m ≠s? PubKey ev) then both_keys ev (dimAuthor, m) else []) ++
  concat (map (both_keys ev) (omap event_target (EvTags ev))).

(** ** Filters *)

(* src: event-matcher/filter.go 12-17 *)
Definition repostKinds : gset Z :=
  {[CustomIONKindRepostOfArticle; CustomIONKindRepostOfEditableTextNote;
    CustomIONKindRepostOfTokenizedCommunityDefinition; CustomIONKindRepostOfTokenizedCommunityAction]}.

(* src: event-matcher/filter.go 20-30 *)
Definition hasSpecialKinds (kinds : list Z) : bool :=
  existsb (fun kind => bool_decide (kind ∈ repostKinds) || (kind <? 0)) kinds.

(** The target of a tuple of values of the tag filter [k]. *)
(* src: event-matcher/filter.go 46-73 [parseFilters] *)
Definition filter_target (k : string) (values : TagValues) : option target :=
  let t := if (k =s? "p") || (k =s? "k") then
             match values with
             | Some v :: _ => Some (if k =s? "p" then dimTagP else dimTagK, v)
             | _ => None
             end
           else if (k =s? CustomIONTagAddressableQ) || (k =s? "q") then
             match values with
             | [_; _; Some v] => Some (if k =s? "q" then dimTagLowerQ else dimTagUpperQ, v)
             | _ => None
             end
           else None in
  match t with Some (d, x) => if x ≠s? "" then Some (d, x) else None | None => None end.

(* src: event-matcher/filter.go 39-74 [parseFilters] *)
Definition filter_targets (f : Filter) : list target :=
  map (pair dimAuthor) (elems (Authors f)) ++
  concat (map (fun kv : string * list TagValues => omap (filter_target kv.1) kv.2)
            (map_to_list (default ∅ (FTags f)))).

(** The kinds a filter is indexed under. *)
(* src: event-matcher/filter.go 80-98 [parseFilters] *)
Fixpoint index_kinds (kinds : list Z) (hadRepost : bool) : list Z :=
  match kinds with
  | [] => []
  | kind :: kinds =>
      if kind <? 0 then index_kinds kinds hadRepost
      else if bool_decide (kind ∈ repostKinds) then
        if hadRepost then index_kinds kinds hadRepost
        else KindGenericRepost :: index_kinds kinds true
      else kind :: index_kinds kinds hadRepost
  end.

(** The keys of the combinations, or of the targets alone when they are too
    many. *)
(* src: event-matcher/filter.go 101-136 [parseFilters] *)
Definition combine_keys (kinds : list Z) (targets : list target) : list indexKey :=
  let combinations := (Nat.max 1 (length kinds) * Nat.max 1 (length targets))%nat in
  if (combinations <=? indexCartesianLimit)%nat then
    if is_nil kinds && is_nil targets then [key_of anyKind no_target]
    else if is_nil targets then (fun k => key_of k no_target) <$> kinds
    else if is_nil kinds then key_of anyKind <$> targets
    else concat (map (fun k => key_of k <$> targets) kinds)
  else if negb (is_nil targets) then key_of anyKind <$> targets
  else (fun k => key_of k no_target) <$> kinds.

(* src: event-matcher/filter.go 38-137 [parseFilters] *)
Definition filter_keys (f : Filter) : list indexKey :=
  let targets := filter_targets f in
  let kinds := elems (Kinds f) in
  if hasSpecialKinds kinds then
    (if existsb (fun kind => kind <? 0) kinds then [key_of anyKind no_target] else []) ++
    combine_keys (index_kinds kinds false) targets
  else combine_keys kinds targets.

(** The unique keys, in an unspecified order. *)
(* src: event-matcher/filter.go 32-145 *)
Definition parseFilters (filters : list Filter) : list indexKey :=
  if is_nil filters then [key_of anyKind no_target]
  else elements (list_to_set (concat (map filter_keys filters)) : gset indexKey).
End Keys.

(** ** The matcher *)

Section Matcher.
Context {N : Nostr} {V : Type}.

(* src: event-matcher/matcher.go 41-44 *)
Record entry : Type := MkEntry { EntryValue : V; RoutingKeys : list indexKey }.

(* src: event-matcher/matcher.go 47-52 *)
Record matcher : Type := MkMatcher {
  Values : gmap Z entry;
  Indexes : gmap indexKey (gset Z)
}.

(* src: event-matcher/matcher.go 64-79 *)
Definition newEventMatcher : matcher := MkMatcher ∅ ∅.

(* src: event-matcher/matcher.go 100-107 [Index] *)
Definition add_key (hash : Z) (m : gmap indexKey (gset Z)) (key : indexKey) : gmap indexKey (gset Z) :=
  <[key := {[hash]} ∪ default ∅ (m !! key)]> m.

(* src: event-matcher/matcher.go 114-127 [removeEntry] *)
Definition remove_key (hash : Z) (m : gmap indexKey (gset Z)) (key : indexKey) : gmap indexKey (gset Z) :=
  match m !! key with
  | None => m
  | Some bm =>
      let bm := bm ∖ {[hash]} in
      if decide (bm = ∅) then delete key m else <[key := bm]> m
  end.

(* src: event-matcher/matcher.go 110-128 *)
Definition removeEntry (s : matcher) (hash : Z) (keys : list indexKey) : matcher :=
  MkMatcher (Values s) (fold_left (remove_key hash) keys (Indexes s)).

(** [Hash] is the method of the value. *)
Context (Hash : V -> Z).

(* src: event-matcher/matcher.go 82-108 *)
Definition Index (s : matcher) (rawFilters : list Filter) (v : V) : matcher :=
  let hash := Hash v in
  let keys := parseFilters rawFilters in
  let oldValue := Values s !! hash in
  let s := MkMatcher (<[hash := MkEntry v keys]> (Values s)) (Indexes s) in
  let s := match oldValue with Some old => removeEntry s hash (RoutingKeys old) | None => s end in
  MkMatcher (Values s) (fold_left (add_key hash) keys (Indexes s)).

(* src: event-matcher/matcher.go 131-140 *)
Definition RemoveByHash (s : matcher) (hash : Z) : matcher * option V :=
  match Values s !! hash with
  | Some old => (removeEntry (MkMatcher (delete hash (Values s)) (Indexes s)) hash (RoutingKeys old),
                 Some (EntryValue old))
  | None => (s, None)
  end.

(* src: event-matcher/matcher.go 143-146 *)
Definition Remove (s : matcher) (v : V) : matcher * bool :=
  let '(s, r) := RemoveByHash s (Hash v) in (s, bool_decide (is_Some r)).

(* src: event-matcher/matcher.go 149-151 *)
Definition Size (s : matcher) : nat := size (Values s).

(* src: event-matcher/matcher.go 154-159 *)
Definition IndexSize (s : matcher) : nat := size (Indexes s).

(** The hashes indexed under one of the keys of the event. *)
(* src: event-matcher/matcher.go 178-185 [Lookup] *)
Definition candidates (s : matcher) (ev : Event) : gset Z :=
  ⋃ ((fun key => default ∅ (Indexes s !! key)) <$> parseEvent ev []).

(** The iterator of a bitmap goes up. *)
Definition ascending (hashes : gset Z) : list Z := merge_sort Z.le (elements hashes).

(** What [Lookup] passes to a callback that never stops it, which is what
    [Get] collects. *)
(* src: event-matcher/matcher.go 162-201 *)
Definition Get (s : matcher) (ev : Event) : list V :=
  omap (fun hash => EntryValue <$> Values s !! hash) (ascending (candidates s ev)).

(** The callback answers whether to go on. *)
(* src: event-matcher/matcher.go 188-200 [Lookup] *)
Fixpoint until_stopped {S} (vs : list V) (cb : S -> V -> S * bool) (st : S) : S :=
  match vs with
  | [] => st
  | v :: vs => let '(st, go_on) := cb st v in if go_on : bool then until_stopped vs cb st else st
  end.

(* src: event-matcher/matcher.go 172-201 *)
Definition Lookup {S} (s : matcher) (ev : Event) (cb : S -> V -> S * bool) (st : S) : S :=
  until_stopped (Get s ev) cb st.
End Matcher.
Arguments entry : clear implicits.
Arguments matcher : clear implicits.

(** ** The storage: shards of matchers *)

Section Storage.
Context {N : Nostr} {V : Type} (Hash : V -> Z).

(* src: event-matcher/storage.go 12-17 *)
Record Storage : Type := MkStorage { shards : list (matcher V) }.

(** [NumCPU] is [runtime.NumCPU()]. *)
(* src: event-matcher/storage.go 20-32 *)
Definition NewMatcherStorage (NumCPU numShards : nat) : Storage :=
  let numShards := if (numShards =? 0)%nat then Nat.min NumCPU 4 else numShards in
  MkStorage (replicate numShards newEventMatcher).

(** The position of the shard of a hash; without shards the division panics. *)
(* src: event-matcher/storage.go 34-36 *)
Definition getMatcherFor (s : Storage) (hash : Z) : outcome nat :=
  if is_nil (shards s) then Panic else Ok (Z.to_nat (hash `mod` zlen (shards s))).

Definition shard_index (fs : list Filter) (v : V) (m : matcher V) : matcher V := Index Hash m fs v.

(* src: event-matcher/storage.go 39-41 *)
Definition StorageIndex (s : Storage) (rawFilters : list Filter) (v : V) : outcome Storage :=
  let! i := getMatcherFor s (Hash v) in
  Ok (MkStorage (alter (shard_index rawFilters v) i (shards s))).

(* src: event-matcher/storage.go 49-51 *)
Definition StorageRemoveByHash (s : Storage) (hash : Z) : outcome (Storage * option V) :=
  let! i := getMatcherFor s hash in
  let! m := index (shards s) i in
  let '(m, r) := RemoveByHash m hash in
  Ok (MkStorage (<[i := m]> (shards s)), r).

(* src: event-matcher/storage.go 44-46 *)
Definition StorageRemove (s : Storage) (v : V) : outcome (Storage * bool) :=
  let! (s, r) := StorageRemoveByHash s (Hash v) in Ok (s, bool_decide (is_Some r)).

(* src: event-matcher/storage.go 54-59 *)
Definition StorageSize (s : Storage) : nat := sum_list (Size <$> shards s).

(* src: event-matcher/storage.go 93-98 *)
Definition StorageIndexSize (s : Storage) : nat := sum_list (IndexSize <$> shards s).

(** The shards in turn, until the callback stops the iteration. *)
(* src: event-matcher/storage.go 64-75 [Lookup] *)
Fixpoint lookup_shards {S} (ms : list (matcher V)) (ev : Event) (yield : S -> V -> S * bool) (st : S) : S :=
  match ms with
  | [] => st
  | m :: ms =>
      let '(st, shouldContinue) :=
        Lookup m ev (fun '(st, _) v => let '(st, b) := yield st v in ((st, b), b)) (st, true) in
      if shouldContinue : bool then lookup_shards ms ev yield st else st
  end.

(* src: event-matcher/storage.go 62-77 [Lookup] *)
Definition StorageLookup {S} (s : Storage) (ev : Event) (yield : S -> V -> S * bool) (st : S) : S :=
  lookup_shards (shards s) ev yield st.
End Storage.
Arguments Storage : clear implicits.

(** ** Lemmas: the index of a matcher *)

Section MatcherLemmas.
Context {N : Nostr} {V : Type}.

Abbreviation hashes m key := (default (∅ : gset Z) (m !! key)).

Lemma add_keys hash keys (m : gmap indexKey (gset Z)) key h :
  h ∈ hashes (fold_left (add_key hash) keys m) key <-> h ∈ hashes m key \/ (h = hash /\ key ∈ keys).
Proof.
  revert m. induction keys as [|k keys IH]; intros m; cbn [fold_left].
  - set_solver.
  - rewrite IH, elem_of_cons. unfold add_key. destruct (decide (k = key)) as [->|Hne].
    + rewrite lookup_insert_eq. set_solver.
    + rewrite lookup_insert_ne by done. set_solver.
Qed.

Lemma remove_keys hash keys (m : gmap indexKey (gset Z)) key h :
  h ∈ hashes (fold_left (remove_key hash) keys m) key <-> h ∈ hashes m key /\ ~ (h = hash /\ key ∈ keys).
Proof.
  revert m. induction keys as [|k keys IH]; intros m; cbn [fold_left].
  - set_solver.
  - rewrite IH, elem_of_cons.
    assert (h ∈ hashes (remove_key hash m k) key <-> h ∈ hashes m key /\ ~ (h = hash /\ key = k)) as ->; [|tauto].
    unfold remove_key. destruct (m !! k) as [bm|] eqn:Hbm.
    + destruct (decide (k = key)) as [->|Hne].
      * rewrite Hbm. cbn. case_decide as Hb; rewrite ?lookup_delete_eq, ?lookup_insert_eq; set_solver.
      * case_decide; rewrite ?lookup_delete_ne, ?lookup_insert_ne by done; set_solver.
    + destruct (decide (k = key)) as [->|Hne]; [rewrite Hbm; set_solver|set_solver].
Qed.

Definition no_empty (m : gmap indexKey (gset Z)) : Prop := forall key bm, m !! key = Some bm -> bm ≠ ∅.

Lemma add_keys_no_empty hash keys m : no_empty m -> no_empty (fold_left (add_key hash) keys m).
Proof.
  revert m. induction keys as [|k keys IH]; intros m Hm; cbn; [done|]. apply IH.
  intros key bm. unfold add_key. rewrite lookup_insert_Some. intros [[<- <-]|[_ H]]; [set_solver|by eapply Hm].
Qed.

Lemma remove_keys_no_empty hash keys m : no_empty m -> no_empty (fold_left (remove_key hash) keys m).
Proof.
  revert m. induction keys as [|k keys IH]; intros m Hm; cbn; [done|]. apply IH.
  intros key bm. unfold remove_key. destruct (m !! k) as [b|]; [|by apply Hm]. case_decide.
  - rewrite lookup_delete_Some. intros [_ H']. by eapply Hm.
  - rewrite lookup_insert_Some. intros [[_ <-]|[_ H']]; [done|by eapply Hm].
Qed.

(** ** The abstract index: which filters and which value a hash stands for *)

Abbreviation registry := (gmap Z (list Filter * V)).

Definition entry_of (r : list Filter * V) : entry V := MkEntry r.2 (parseFilters r.1).

(** A matcher implements a registry: it keeps its values, a hash is indexed
    exactly under the keys of its filters, and no bitmap is empty. *)
Record implements (s : matcher V) (reg : registry) : Prop := {
  im_values : Values s = entry_of <$> reg;
  im_index : forall key h, h ∈ hashes (Indexes s) key <->
    exists r, reg !! h = Some r /\ key ∈ parseFilters r.1;
  im_no_empty : no_empty (Indexes s)
}.

Lemma new_implements : implements newEventMatcher ∅.
Proof.
  split; [by rewrite fmap_empty| |by intros key bm H].
  intros key h. change (hashes (Indexes (newEventMatcher (V := V))) key) with (hashes (∅ : gmap indexKey (gset Z)) key).
  rewrite lookup_empty. split; [set_solver|].
  intros (r & Hr & _). by rewrite lookup_empty in Hr.
Qed.

Lemma removeEntry_implements (s : matcher V) reg vals h keys :
  implements s reg -> (forall r, reg !! h = Some r -> keys = parseFilters r.1) ->
  vals = entry_of <$> delete h reg ->
  is_Some (reg !! h) ->
  implements (removeEntry (MkMatcher vals (Indexes s)) h keys) (delete h reg).
Proof.
  intros [Hv Hi Hn] Hkeys -> [r0 Hr0]. split; [done| |by apply remove_keys_no_empty].
  intros key h'. cbn. rewrite remove_keys, Hi. setoid_rewrite lookup_delete_Some. split.
  - intros [(r & Hr & Hk) Hnot]. exists r. split; [|done]. split; [|done].
    intros ->. apply Hnot. split; [done|]. by rewrite (Hkeys r Hr).
  - intros (r & [Hne Hr] & Hk). split; [by exists r|]. intros [-> _]. done.
Qed.

Lemma RemoveByHash_implements s reg h :
  implements s reg ->
  implements (fst (RemoveByHash s h)) (delete h reg) /\ snd (RemoveByHash s h) = snd <$> reg !! h.
Proof.
  intros Hs. pose proof Hs as [Hv Hi Hn]. unfold RemoveByHash. rewrite Hv, lookup_fmap.
  destruct (reg !! h) as [r|] eqn:Hr; cbn.
  - split; [|done]. apply removeEntry_implements; [done|by intros r' [= <-]%(eq_trans (eq_sym Hr))| |by eexists].
    by rewrite fmap_delete.
  - split; [|done]. by rewrite delete_id.
Qed.

Context (Hash : V -> Z).

Lemma Index_implements s reg fs v :
  implements s reg -> implements (Index Hash s fs v) (<[Hash v := (fs, v)]> reg).
Proof.
  intros Hs. pose proof Hs as [Hv Hi Hn]. unfold Index. cbv zeta.
  set (s1 := match Values s !! Hash v with Some _ => _ | None => _ end).
  assert (Values s1 = entry_of <$> <[Hash v := (fs, v)]> reg) as Hv1.
  { unfold s1. rewrite fmap_insert, <- Hv. by destruct (Values s !! Hash v). }
  assert (no_empty (Indexes s1) /\ forall key h, h ∈ hashes (Indexes s1) key <->
    h ≠ Hash v /\ exists r, reg !! h = Some r /\ key ∈ parseFilters r.1) as [Hn1 Hi1].
  { unfold s1. rewrite Hv, lookup_fmap. destruct (reg !! Hash v) as [r0|] eqn:Hr0; cbn.
    - split; [by apply remove_keys_no_empty|]. intros key h. rewrite remove_keys, Hi. split.
      + intros [(r & Hr & Hk) Hnot]. split; [|by exists r]. intros ->. apply Hnot. split; [done|]. congruence.
      + intros (Hne & r & Hr & Hk). split; [by exists r|]. by intros [-> _].
    - split; [done|]. intros key h. rewrite Hi. split; [|by intros [_ ?]].
      intros (r & Hr & Hk). split; [congruence|by exists r]. }
  split; [done| |by apply add_keys_no_empty]. intros key h. cbn. rewrite add_keys, Hi1. split.
  - intros [(Hne & r & Hr & Hk)|[-> Hk]].
    + exists r. by rewrite lookup_insert_ne.
    + exists (fs, v). by rewrite lookup_insert_eq.
  - intros (r & Hr & Hk). apply lookup_insert_Some in Hr as [[<- <-]|[Hne Hr]]; [by right|left].
    split; [done|by exists r].
Qed.

(** A registered value is found exactly when its filters and the event have a
    key in common. *)
Lemma Get_spec s reg ev v :
  implements s reg ->
  v ∈ Get s ev <-> exists h r, reg !! h = Some r /\ r.2 = v /\
    exists key, key ∈ parseFilters r.1 /\ key ∈ parseEvent ev [].
Proof.
  intros [Hv Hi _]. unfold Get, ascending, candidates. rewrite list_elem_of_omap.
  setoid_rewrite (merge_sort_Permutation Z.le). setoid_rewrite elem_of_elements.
  setoid_rewrite elem_of_union_list. rewrite Hv. setoid_rewrite lookup_fmap. split.
  - intros (h & (bm & Hbm & Hh) & Hval). apply list_elem_of_fmap in Hbm as (key & -> & Hkey).
    apply Hi in Hh as (r & Hr & Hk). rewrite Hr in Hval. cbn in Hval. exists h, r. naive_solver.
  - intros (h & r & Hr & <- & key & Hk & Hkey). exists h. rewrite Hr. split; [|done].
    exists (hashes (Indexes s) key). split; [apply list_elem_of_fmap; by exists key|]. apply Hi. eauto.
Qed.
End MatcherLemmas.

(** ** Lemmas: the shards *)

Section StorageLemmas.
Context {N : Nostr} {V : Type} (Hash : V -> Z).

Abbreviation registry := (gmap Z (list Filter * V)).

Definition shard_of (n : nat) (h : Z) : nat := Z.to_nat (h `mod` Z.of_nat n).

(** The part of a registry that one shard keeps. *)
Definition part (n i : nat) (reg : registry) : registry := filter (fun kv => shard_of n kv.1 = i) reg.

Lemma part_lookup n i reg h r : part n i reg !! h = Some r <-> reg !! h = Some r /\ shard_of n h = i.
Proof. apply map_lookup_filter_Some. Qed.

Lemma part_insert n i reg h r :
  part n i (<[h := r]> reg) = if decide (shard_of n h = i) then <[h := r]> (part n i reg) else part n i reg.
Proof.
  apply map_eq. intros h'. apply option_eq. intros r'. rewrite part_lookup. case_decide as Hi.
  - rewrite !lookup_insert_Some, part_lookup. naive_solver.
  - rewrite lookup_insert_Some, part_lookup. naive_solver.
Qed.

Lemma part_delete n i reg h :
  part n i (delete h reg) = if decide (shard_of n h = i) then delete h (part n i reg) else part n i reg.
Proof.
  apply map_eq. intros h'. apply option_eq. intros r'. rewrite part_lookup. case_decide as Hi.
  - rewrite !lookup_delete_Some, part_lookup. naive_solver.
  - rewrite lookup_delete_Some, part_lookup. naive_solver.
Qed.

(** A storage implements a registry: it has shards, and each implements the
    part of the registry that is its. *)
Definition implemented (s : Storage V) (reg : registry) : Prop :=
  shards s ≠ [] /\ forall i m, shards s !! i = Some m -> implements m (part (length (shards s)) i reg).

Lemma new_implemented NumCPU n : (0 < NumCPU)%nat -> implemented (NewMatcherStorage NumCPU n) ∅.
Proof.
  intros Hcpu. split.
  - cbn. intros H%(f_equal length). rewrite length_replicate in H. cbn in H.
    destruct (Nat.eqb_spec n 0); lia.
  - cbn. intros i m [-> _]%lookup_replicate_1.
    replace (part _ i ∅) with (∅ : registry); [apply new_implements|].
    symmetry. apply map_eq. intros h. apply option_eq. intros r. rewrite part_lookup. naive_solver.
Qed.

Lemma getMatcherFor_spec (s : Storage V) h :
  shards s ≠ [] -> exists m, getMatcherFor s h = Ok (shard_of (length (shards s)) h) /\
    shards s !! shard_of (length (shards s)) h = Some m.
Proof.
  intros Hne. unfold getMatcherFor, shard_of, zlen. destruct (shards s) as [|m0 ms] eqn:Hs; [done|]. cbn [is_nil].
  destruct (lookup_lt_is_Some_2 (m0 :: ms) (Z.to_nat (h `mod` Z.of_nat (length (m0 :: ms))))) as [m Hm].
  - pose proof (Z.mod_pos_bound h (Z.of_nat (length (m0 :: ms)))). cbn [length] in *. lia.
  - by exists m.
Qed.

Lemma StorageIndex_implemented s reg fs v :
  implemented s reg ->
  exists s', StorageIndex Hash s fs v = Ok s' /\ implemented s' (<[Hash v := (fs, v)]> reg).
Proof.
  intros [Hne Hs]. unfold StorageIndex. destruct (getMatcherFor_spec s (Hash v) Hne) as (m0 & -> & Hm0).
  eexists. split; [reflexivity|]. split; cbn [shards]; rewrite ?length_alter.
  - intros H%(f_equal length). rewrite length_alter in H. by destruct (shards s).
  - intros i m Hm. rewrite part_insert. case_decide as Hi.
    + rewrite <- Hi in Hm |- *. rewrite list_lookup_alter_eq, Hm0 in Hm. injection Hm as <-.
      apply Index_implements, Hs, Hm0.
    + rewrite list_lookup_alter_ne in Hm by done. by apply Hs.
Qed.

Lemma StorageRemoveByHash_implemented s reg h :
  implemented s reg ->
  exists s', StorageRemoveByHash s h = Ok (s', snd <$> reg !! h) /\ implemented s' (delete h reg).
Proof.
  intros [Hne Hs]. unfold StorageRemoveByHash.
  destruct (getMatcherFor_spec s h Hne) as (m0 & Hget & Hm0). rewrite Hget. cbn [mbind outcome_bind].
  rewrite (proj2 (index_Ok _ _ _) Hm0). cbn [mbind outcome_bind].
  destruct (RemoveByHash_implements m0 _ h (Hs _ _ Hm0)) as [Him Hr].
  destruct (RemoveByHash m0 h) as [m1 r]. cbn [fst snd] in *.
  assert (r = snd <$> reg !! h) as ->.
  { rewrite Hr. f_equal. apply option_eq. intros x. rewrite part_lookup. naive_solver. }
  eexists. split; [reflexivity|]. split; cbn [shards]; rewrite ?length_insert.
  - intros H%(f_equal length). rewrite length_insert in H. by destruct (shards s).
  - intros i m Hm. rewrite part_delete. case_decide as Hi.
    + rewrite <- Hi in Hm |- *. rewrite list_lookup_insert_eq in Hm by by eapply lookup_lt_Some.
      by injection Hm as <-.
    + rewrite list_lookup_insert_ne in Hm by done. by apply Hs.
Qed.

(** What the iteration yields when it is not stopped. *)
Definition found (s : Storage V) (ev : Event) : list V := concat ((fun m => Get m ev) <$> shards s).

Lemma until_stopped_app {S} (l1 l2 : list V) (cb : S -> V -> S * bool) st :
  until_stopped (l1 ++ l2) cb st =
  let '(st, b) := until_stopped l1 (fun '(st, _) v => let '(st, b) := cb st v in ((st, b), b)) (st, true) in
  if b : bool then until_stopped l2 cb st else st.
Proof.
  revert st. induction l1 as [|v l1 IH]; intros st; cbn; [done|]. destruct (cb st v) as [st' []]; [apply IH|done].
Qed.

Lemma StorageLookup_found {S} (s : Storage V) ev (yield : S -> V -> S * bool) st :
  StorageLookup s ev yield st = until_stopped (found s ev) yield st.
Proof.
  unfold StorageLookup, found. generalize (shards s). intros ms. revert st.
  induction ms as [|m ms IH]; intros st; cbn; [done|]. rewrite until_stopped_app. unfold Lookup.
  destruct (until_stopped _ _ _) as [st' []]; [apply IH|done].
Qed.

Lemma in_concat_elem {A} (ls : list (list A)) x : x ∈ concat ls <-> exists l, x ∈ l /\ l ∈ ls.
Proof.
  rewrite list_elem_of_In, in_concat. setoid_rewrite list_elem_of_In. naive_solver.
Qed.

Lemma found_spec s reg ev v :
  implemented s reg ->
  v ∈ found s ev <-> exists h r, reg !! h = Some r /\ r.2 = v /\
    exists key, key ∈ parseFilters r.1 /\ key ∈ parseEvent ev [].
Proof.
  intros [Hne Hs]. unfold found. rewrite in_concat_elem. setoid_rewrite list_elem_of_fmap. split.
  - intros (l & Hv & m & -> & [i Hm]%list_elem_of_lookup).
    apply (Get_spec Hash _ (part (length (shards s)) i reg)) in Hv; [|by apply Hs].
    destruct Hv as (h & r & [Hr _]%part_lookup & Hv). by exists h, r.
  - intros (h & r & Hr & Hv). destruct (getMatcherFor_spec s h Hne) as (m & _ & Hm).
    exists (Get m ev). split; [|exists m; split; [done|by eapply list_elem_of_lookup_2]].
    apply (Get_spec Hash _ (part (length (shards s)) (shard_of (length (shards s)) h) reg)); [by apply Hs|]. exists h, r. split; [|done]. by apply part_lookup.
Qed.
End StorageLemmas.

Lemma is_nil_true {A} (l : list A) : is_nil l = true <-> l = [].
Proof. by destruct l. Qed.

(** ** Completeness of the keys *)

Section Prefilter.
Context {N : Nostr} {NS : NostrSpec N}.

(** What the keys ask of a filter to be complete: the values of a tag are all
    tracked or none is, and the keys of the connection are asked for only
    about events of their own. *)
Definition uniform_tags (f : Filter) : Prop :=
  forall m k vss, FTags f = Some m -> m !! k = Some vss ->
    Forall (fun vs => filter_target k vs = None) vss \/ Forall (fun vs => is_Some (filter_target k vs)) vss.

Definition own_keys_only (f : Filter) (ev : Event) (currentMasterKey currentDeviceKey : string) : Prop :=
  forall a, a ∈ elems (Authors f) -> a = currentMasterKey \/ a = currentDeviceKey ->
    a = PubKey ev \/ a = GetMasterPublicKey ev.

(** A kind that is not a pseudo-kind of the filters. *)
Definition event_kind (ev : Event) : Prop := 0 <= Kind ev <= 65535.

Lemma repostKinds_big k : k ∈ repostKinds -> 65535 < k.
Proof.
  unfold repostKinds, CustomIONKindRepostOfArticle, CustomIONKindRepostOfEditableTextNote,
    CustomIONKindRepostOfTokenizedCommunityDefinition, CustomIONKindRepostOfTokenizedCommunityAction.
  set_unfold. lia.
Qed.

Lemma parseEvent_none ev k : k = anyKind \/ k = Kind ev -> key_of k no_target ∈ parseEvent ev [].
Proof. intros [-> | ->]; [left|right; left]. Qed.

Lemma parseEvent_author ev a k :
  a = PubKey ev \/ a = GetMasterPublicKey ev -> k = anyKind \/ k = Kind ev ->
  key_of k (dimAuthor, a) ∈ parseEvent ev [].
Proof.
  intros Ha Hk. unfold parseEvent. cbn [app]. apply elem_of_app. right.
  destruct (decide (a = PubKey ev)) as [->|Hne].
  - apply elem_of_app. left. destruct Hk as [-> | ->]; [left|right; left].
  - destruct Ha as [?|Ha]; [done|]. apply elem_of_app. right. apply elem_of_app. left. cbv zeta.
    rewrite <- Ha. rewrite (proj2 (String.eqb_neq a (PubKey ev)) Hne).
    destruct (String.eqb_spec a "") as [Hempty|_].
    + exfalso. apply Hne. rewrite Ha in Hempty. unfold GetMasterPublicKey, cmp_Or in Hempty.
      destruct (String.eqb_spec (Value (GetTag ev CustomIONTagOnBehalfOf)) ""); [|done].
      rewrite Ha. unfold GetMasterPublicKey, cmp_Or. by rewrite e, String.eqb_refl.
    + destruct Hk as [-> | ->]; [left|right; left].
Qed.

Lemma parseEvent_tag ev tag t k :
  tag ∈ EvTags ev -> event_target tag = Some t -> k = anyKind \/ k = Kind ev ->
  key_of k t ∈ parseEvent ev [].
Proof.
  intros Hin Ht Hk. unfold parseEvent. rewrite !elem_of_app. do 4 right.
  apply in_concat_elem. exists (both_keys ev t). split.
  - destruct Hk as [-> | ->]; [left|right; left].
  - apply list_elem_of_In, in_map, list_elem_of_In, list_elem_of_omap. eauto.
Qed.

(** A tag the values of a filter match has the target of these values. *)
Lemma filter_event_target k vs tag t :
  filter_target k vs = Some t -> head tag = Some k ->
  (forall i v, vs !! i = Some (Some v) -> tag !! S i = Some v) -> event_target tag = Some t.
Proof.
  intros Ht Hk Hv. destruct tag as [|k' tag]; [done|]. cbn in Hk. injection Hk as ->.
  unfold filter_target, event_target in *.
  assert (Hfirst : forall v vs', vs = Some v :: vs' -> exists tag', tag = v :: tag').
  { intros v vs' ->. pose proof (Hv 0%nat v eq_refl) as H0. destruct tag as [|x tag]; [done|].
    cbn in H0. injection H0 as ->. eauto. }
  destruct (k =s? "p") eqn:Hp, (k =s? "k") eqn:Hkk; cbn [orb] in *.
  1-3: destruct vs as [|[v|] vs]; [done| |done]; destruct (Hfirst v vs eq_refl) as [tag' ->]; exact Ht.
  destruct ((k =s? CustomIONTagAddressableQ) || (k =s? "q")); [|done].
  destruct vs as [|v0 [|v1 [|[v2|] [|v3 vs]]]]; try done.
  pose proof (Hv 2%nat v2 eq_refl) as H2.
  destruct tag as [|x [|y [|z tag]]]; try done. cbn in H2. by injection H2 as ->.
Qed.

Lemma FilterMatch_parts f ev m d :
  FilterMatch f ev m d = true ->
  (forall ks, Kinds f = Some ks -> filterMatchKind f ev = true) /\
  (forall a, Authors f = Some a -> filterMatchAuthors f ev m d = true) /\
  (forall t, FTags f = Some t -> MatchesTags f (EvTags ev) = true).
Proof.
  unfold FilterMatch, refused. intros H.
  repeat match type of H with (if ?c then _ else _) = true => destruct c eqn:?; [done|] end.
  split_and!; intros x Hx; rewrite Hx in *; by apply negb_false_iff.
Qed.

(** Either a filter has no target, or one of its targets is a key of every
    event it matches. *)
Lemma targets_complete f ev m d :
  FilterMatch f ev m d = true -> uniform_tags f -> own_keys_only f ev m d ->
  filter_targets f = [] \/
  exists t, t ∈ filter_targets f /\ forall k, k = anyKind \/ k = Kind ev -> key_of k t ∈ parseEvent ev [].
Proof.
  intros (_ & Ha & Ht)%FilterMatch_parts Hu Hown. unfold filter_targets.
  destruct (elems (Authors f)) as [|a0 l] eqn:Hauth.
  - cbn [map app]. destruct (concat _) as [|t0 ts] eqn:Hts; [by left|right].
    assert (Hin0 : t0 ∈ t0 :: ts) by left. rewrite <- Hts in Hin0 |- *.
    apply in_concat_elem in Hin0 as (l0 & Hl0 & Hin). apply list_elem_of_In, in_map_iff in Hin as ([k vss] & <- & Hkv).
    cbn [fst snd] in *. apply list_elem_of_In, elem_of_map_to_list in Hkv.
    destruct (FTags f) as [mp|] eqn:Hf; cbn in Hkv; [|by rewrite lookup_empty in Hkv].
    apply list_elem_of_omap in Hl0 as (vs0 & Hvs0 & Ht0).
    destruct (Hu mp k vss Hf Hkv) as [Hnone|Hall].
    { rewrite Forall_forall in Hnone. specialize (Hnone _ Hvs0). congruence. }
    destruct (MatchesTags_spec f (EvTags ev) mp Hf (Ht _ eq_refl) k vss Hkv) as (vs & tag & Hvs & Htag & Hhd & Hpos);
      [intros ->; by apply elem_of_nil in Hvs0|].
    rewrite Forall_forall in Hall. destruct (Hall vs Hvs) as [t Htgt]. exists t. split.
    + apply in_concat_elem. exists (omap (filter_target k) vss). split; [apply list_elem_of_omap; eauto|].
      apply list_elem_of_In, in_map_iff. exists (k, vss). split; [done|].
      by apply list_elem_of_In, elem_of_map_to_list.
    + intros kd Hkd. eapply parseEvent_tag; [exact Htag| |done]. by eapply filter_event_target.
  - right. destruct (Authors f) as [l'|] eqn:Hl'; [|done]. cbn in Hauth. subst l'.
    specialize (Ha _ eq_refl). unfold filterMatchAuthors in Ha. rewrite Hl' in Ha. cbn [elems] in Ha.
    apply existsb_exists in Ha as (a & Hin & Hcond). apply list_elem_of_In in Hin.
    assert (a = PubKey ev \/ a = GetMasterPublicKey ev) as Hkey.
    { destruct ((a =s? PubKey ev) || (a =s? GetMasterPublicKey ev)) eqn:Hdirect.
      - apply orb_true_iff in Hdirect as [H%String.eqb_eq|H%String.eqb_eq]; auto.
      - destruct ((a =s? d) || (a =s? m)) eqn:Hcur; [|done]. apply Hown; [by rewrite Hl'|].
        apply orb_true_iff in Hcur as [H%String.eqb_eq|H%String.eqb_eq]; auto. }
    exists (dimAuthor, a). split.
    + apply elem_of_app. left. by apply list_elem_of_In, in_map, list_elem_of_In.
    + intros k Hk. by apply parseEvent_author.
Qed.

Lemma repostOfKinds_repost k orig : repostOfKinds k = Some orig -> k ∈ repostKinds.
Proof.
  unfold repostOfKinds, repostKinds. intros H.
  repeat match type of H with (if Z.eqb ?a ?b then _ else _) = _ => destruct (Z.eqb_spec a b) as [->|_] end;
    set_solver.
Qed.

Lemma matched_kind kinds ev :
  filterMatchKind_loop kinds ev = true ->
  exists k, k ∈ kinds /\ (k = Kind ev \/ Kind ev = KindGenericRepost /\ k ∈ repostKinds).
Proof.
  induction kinds as [|k kinds IH]; cbn [filterMatchKind_loop]; [done|].
  destruct (Z.eqb_spec k (Kind ev)); [exists k; split; [left|by left]|].
  destruct (k =? int64 (- Kind ev)); [done|]. destruct (repost_matches k ev) eqn:Hr.
  - intros _. exists k. split; [left|right]. unfold repost_matches in Hr. apply andb_true_iff in Hr as [Hg Hr].
    split; [lia|]. destruct (Strconv.Atoi _); [|done]. apply andb_true_iff in Hr as [_ Hr].
    destruct (repostOfKinds k) eqn:Ho; [|done]. by eapply repostOfKinds_repost.
  - intros (k' & Hin & H)%IH. exists k'. split; [by right|done].
Qed.

Lemma index_kinds_plain kinds b k : k ∈ kinds -> 0 <= k -> k ∉ repostKinds -> k ∈ index_kinds kinds b.
Proof.
  intros Hk Hpos Hr. revert b. induction kinds as [|k' kinds IH]; intros b; [by apply elem_of_nil in Hk|].
  cbn. apply elem_of_cons in Hk as [<-|Hk].
  - rewrite (proj2 (Z.ltb_ge k 0)), bool_decide_eq_false_2 by done. left.
  - destruct (k' <? 0), (bool_decide (k' ∈ repostKinds)), b; rewrite ?elem_of_cons; auto.
Qed.

Lemma index_kinds_repost kinds k : k ∈ kinds -> k ∈ repostKinds -> KindGenericRepost ∈ index_kinds kinds false.
Proof.
  intros Hk Hr. pose proof (repostKinds_big k Hr).
  induction kinds as [|k' kinds IH]; [by apply elem_of_nil in Hk|]. cbn.
  apply elem_of_cons in Hk as [<-|Hk].
  - rewrite (proj2 (Z.ltb_ge k 0)), bool_decide_eq_true_2 by (done || lia). left.
  - destruct (k' <? 0), (bool_decide (k' ∈ repostKinds)); rewrite ?elem_of_cons; auto.
Qed.

Lemma kinds_complete f ev m d :
  FilterMatch f ev m d = true -> event_kind ev ->
  let ks := if hasSpecialKinds (elems (Kinds f)) then index_kinds (elems (Kinds f)) false else elems (Kinds f) in
  elems (Kinds f) = [] \/ Kind ev ∈ ks.
Proof.
  intros (Hk & _ & _)%FilterMatch_parts Hev ks. destruct (elems (Kinds f)) as [|k0 kinds] eqn:Hkinds; [by left|right].
  destruct (Kinds f) as [l|] eqn:Hl; [|done]. specialize (Hk _ eq_refl). unfold filterMatchKind in Hk.
  rewrite Hl in Hk. cbn in Hkinds. subst l. cbn [elems default] in Hk. change (elems _) with (k0 :: kinds) in Hk.
  apply matched_kind in Hk as (k & Hin & Hcase). unfold ks. destruct (hasSpecialKinds (k0 :: kinds)) eqn:Hs.
  - destruct Hcase as [->|[-> Hr]]; [|by eapply index_kinds_repost].
    apply index_kinds_plain; [done|apply Hev|]. intros Hr%repostKinds_big. destruct Hev. lia.
  - destruct Hcase as [->|[_ Hr]]; [done|]. exfalso. unfold hasSpecialKinds in Hs.
    apply not_true_iff_false in Hs. apply Hs, existsb_exists. exists k. split; [by apply list_elem_of_In|].
    by rewrite bool_decide_eq_true_2.
Qed.

Lemma combine_complete ev ks ts t :
  ks = [] \/ Kind ev ∈ ks -> ts = [] \/ t ∈ ts ->
  exists k, (k = anyKind \/ k = Kind ev) /\
    key_of k (if is_nil ts then no_target else t) ∈ combine_keys ks ts.
Proof.
  intros Hk Ht. unfold combine_keys. destruct (is_nil ts) eqn:Hts, (is_nil ks) eqn:Hks.
  - exists anyKind. split; [by left|]. apply is_nil_true in Hts as ->, Hks as ->. left.
  - exists (Kind ev). split; [by right|]. destruct Hk as [->|Hk]; [done|].
    cbn [andb negb]. case_match; by apply list_elem_of_fmap; exists (Kind ev).
  - destruct Ht as [->|Ht]; [done|]. exists anyKind. split; [by left|].
    cbn [andb negb]. case_match; by apply list_elem_of_fmap; exists t.
  - destruct Hk as [->|Hk]; [done|]. destruct Ht as [->|Ht]; [done|]. cbn [andb negb]. case_match.
    + exists (Kind ev). split; [by right|]. apply in_concat_elem. exists (key_of (Kind ev) <$> ts).
      split; [by apply list_elem_of_fmap; exists t|].
      apply list_elem_of_In, in_map_iff. exists (Kind ev). split; [done|by apply list_elem_of_In].
    + exists anyKind. split; [by left|]. by apply list_elem_of_fmap; exists t.
Qed.

Lemma filter_keys_complete f ev m d :
  FilterMatch f ev m d = true -> uniform_tags f -> own_keys_only f ev m d -> event_kind ev ->
  exists key, key ∈ filter_keys f /\ key ∈ parseEvent ev [].
Proof.
  intros Hm Hu Hown Hev.
  assert (Hks : forall ks, ks = [] \/ Kind ev ∈ ks ->
    exists key, key ∈ combine_keys ks (filter_targets f) /\ key ∈ parseEvent ev []).
  { intros ks Hk. destruct (targets_complete f ev m d Hm Hu Hown) as [Hts|(t & Hin & Hkeys)].
    - destruct (combine_complete ev ks (filter_targets f) no_target Hk (or_introl Hts)) as (k & Hkk & Hin).
      rewrite Hts in Hin |- *. eexists. split; [exact Hin|]. by apply parseEvent_none.
    - destruct (combine_complete ev ks (filter_targets f) t Hk (or_intror Hin)) as (k & Hkk & Hcomb).
      destruct (filter_targets f) as [|t0 ts]; [by apply elem_of_nil in Hin|].
      eexists. split; [exact Hcomb|]. by apply Hkeys. }
  pose proof (kinds_complete f ev m d Hm Hev) as Hk. cbv zeta in Hk. unfold filter_keys. cbv zeta.
  destruct (hasSpecialKinds (elems (Kinds f))).
  - destruct (Hks (index_kinds (elems (Kinds f)) false)) as (key & Hin & He).
    { destruct Hk as [->|]; [by left|by right]. }
    exists key. split; [|done]. apply elem_of_app. by right.
  - by apply Hks.
Qed.

(** The index is a complete prefilter: a value whose filters match an
    event has an index key in common with the event, when the kind of the
    event is a kind an event can have, the values of a tag in a filter are all
    tracked or none is, and the keys of the connection are only asked for
    about its own events. *)
Lemma prefilter_complete filters ev m d :
  FiltersMatch filters ev m d = true -> event_kind ev ->
  (forall f, f ∈ filters -> uniform_tags f /\ own_keys_only f ev m d) ->
  exists key, key ∈ parseFilters filters /\ key ∈ parseEvent ev [].
Proof.
  intros Hm Hev Hf. unfold parseFilters. destruct filters as [|f0 fs].
  { exists (key_of anyKind no_target). split; [left|]. apply parseEvent_none. by left. }
  change (FiltersMatch (f0 :: fs) ev m d) with (existsb (fun f => FilterMatch f ev m d) (f0 :: fs)) in Hm.
  cbn [is_nil]. generalize dependent (f0 :: fs). intros filters Hm Hf.
  apply existsb_exists in Hm as (f & Hin%list_elem_of_In & Hm). destruct (Hf f Hin) as [Hu Hown].
  destruct (filter_keys_complete f ev m d Hm Hu Hown Hev) as (key & Hk & He). exists key. split; [|done].
  apply elem_of_elements, elem_of_list_to_set, in_concat_elem. exists (filter_keys f). split; [done|].
  by apply list_elem_of_In, in_map, list_elem_of_In.
Qed.
End Prefilter.

(** ** Theorems *)

Section StorageTheorems.
Context {N : Nostr} {V : Type} (Hash : V -> Z).

Inductive storage_op : Type := OpIndex (fs : list Filter) (v : V) | OpRemove (hash : Z).

Definition run_op (s : Storage V) (op : storage_op) : outcome (Storage V) :=
  match op with
  | OpIndex fs v => StorageIndex Hash s fs v
  | OpRemove hash => let! (s, _) := StorageRemoveByHash s hash in Ok s
  end.

(** The registry: the last filters and value indexed under a hash. *)
Definition register (reg : gmap Z (list Filter * V)) (op : storage_op) : gmap Z (list Filter * V) :=
  match op with
  | OpIndex fs v => <[Hash v := (fs, v)]> reg
  | OpRemove hash => delete hash reg
  end.

Lemma run_implemented ops s reg :
  implemented s reg ->
  exists s', for_state ops s run_op = Ok s' /\ implemented s' (fold_left register ops reg).
Proof.
  revert s reg. induction ops as [|op ops IH]; intros s reg Hs; [by exists s|]. cbn [for_state fold_left].
  assert (exists s1, run_op s op = Ok s1 /\ implemented s1 (register reg op)) as (s1 & -> & Hs1).
  { destruct op as [fs v|h]; cbn.
    - by apply StorageIndex_implemented.
    - destruct (StorageRemoveByHash_implemented s reg h Hs) as (s1 & -> & Hs1). by exists s1. }
  cbn. by apply IH.
Qed.

(** C8: whatever values are indexed and removed, with any number of shards,
    the storage behaves as one registry of values by hash: a lookup goes
    through the registered values whose filters have an index key in common
    with the event, until it is stopped, and a removal answers with the
    registered value. *)
Theorem Storage_refines NumCPU numShards ops :
  (0 < NumCPU)%nat ->
  let reg := fold_left register ops ∅ in
  exists s, for_state ops (NewMatcherStorage NumCPU numShards) run_op = Ok s /\
    (forall ev, exists vs,
       (forall S (yield : S -> V -> S * bool) st, StorageLookup s ev yield st = until_stopped vs yield st) /\
       forall v, v ∈ vs <-> exists h r, reg !! h = Some r /\ r.2 = v /\
         exists key, key ∈ parseFilters r.1 /\ key ∈ parseEvent ev []) /\
    (forall h, exists s', StorageRemoveByHash s h = Ok (s', snd <$> reg !! h)).
Proof.
  intros Hcpu reg. destruct (run_implemented ops _ ∅ (new_implemented NumCPU numShards Hcpu)) as (s & Hrun & Hs).
  exists s. split; [done|]. split.
  - intros ev. exists (found s ev). split; [intros; by apply StorageLookup_found|].
    intros v. by apply found_spec.
  - intros h. destruct (StorageRemoveByHash_implemented s reg h Hs) as (s' & Hr & _). by exists s'.
Qed.

(** C17: the lookup of an event goes through every value registered with
    filters that match the event, when the kind of the event is a kind an
    event can have, the values of a tag in a filter are all tracked or none
    is, and the keys of the connection are only asked for about its own
    events. *)
Theorem registered_value_found `{!NostrSpec N} NumCPU numShards ops s h r ev m d :
  (0 < NumCPU)%nat ->
  for_state ops (NewMatcherStorage NumCPU numShards) run_op = Ok s ->
  fold_left register ops ∅ !! h = Some r ->
  FiltersMatch r.1 ev m d = true -> event_kind ev ->
  (forall f, f ∈ r.1 -> uniform_tags f /\ own_keys_only f ev m d) ->
  exists vs, r.2 ∈ vs /\
    forall S (yield : S -> V -> S * bool) st, StorageLookup s ev yield st = until_stopped vs yield st.
Proof.
  intros Hcpu Hrun Hr Hm Hev Hf.
  destruct (run_implemented ops _ ∅ (new_implemented NumCPU numShards Hcpu)) as (s' & Hrun' & Hs).
  assert (s' = s) as -> by congruence. exists (found s ev). split.
  - apply (found_spec Hash s _ ev _ Hs). exists h, r. split_and!; [done..|]. by eapply prefilter_complete.
  - intros. by apply StorageLookup_found.
Qed.
End StorageTheorems.
Arguments storage_op : clear implicits.

(** ** Concrete inputs *)
Module MatcherWitness.
Import Plain.

(** Values that are their own hashes. *)
Definition tagged (t : TagMap) (kinds : option (list Z)) : Filter :=
  MkFilter None kinds None None (Some t) None None 0 "".
Definition about (pk : string) : Filter := tagged {["p" := [[Some pk]]]} (Some [1; 1630023]).
Definition mention : Event := MkEvent None "1" "bob" 10 1 [["p"; "ann"]] "" "".
Definition ops : list (storage_op Z) := [OpIndex [about "ann"] 7; OpIndex [about "eve"] 8; OpIndex [] 9; OpRemove 9].
Definition stored : outcome (Storage Z) := for_state ops (NewMatcherStorage 8 0) (run_op (fun v => v)).

Lemma Storage_refines_witness :
  let reg := fold_left (register (fun v => v)) ops ∅ in
  exists s, for_state ops (NewMatcherStorage 8 0) (run_op (fun v => v)) = Ok s /\
    (forall ev, exists vs,
       (forall S (yield : S -> Z -> S * bool) st, StorageLookup s ev yield st = until_stopped vs yield st) /\
       forall v, v ∈ vs <-> exists h r, reg !! h = Some r /\ r.2 = v /\
         exists key, key ∈ parseFilters r.1 /\ key ∈ parseEvent ev []) /\
    (forall h, exists s', StorageRemoveByHash s h = Ok (s', snd <$> reg !! h)).
Proof. apply (Storage_refines (fun v => v) 8 0 ops). lia. Defined.

Example mention_found : (s ← match stored with Ok s => Some s | _ => None end; Some (found s mention)) = Some [7].
Proof. vm_compute. reflexivity. Qed.

Lemma registered_value_found_witness :
  exists s, stored = Ok s /\ exists vs, 7 ∈ vs /\
    forall S (yield : S -> Z -> S * bool) st, StorageLookup s mention yield st = until_stopped vs yield st.
Proof.
  eexists. split; [vm_compute; reflexivity|].
  apply (registered_value_found (fun v => v) 8 0 ops _ 7 ([about "ann"], 7) mention "" "").
  - lia.
  - vm_compute. reflexivity.
  - vm_compute. reflexivity.
  - vm_compute. reflexivity.
  - split; vm_compute; discriminate.
  - intros f Hf. apply list_elem_of_singleton in Hf as ->. split.
    + intros m k vss [= <-] Hk. apply lookup_singleton_Some in Hk as [<- <-]. right. repeat constructor. by eexists.
    + intros a Ha. by apply elem_of_nil in Ha.
Defined.

(** Of two tuples for [p] the second matches any value, and is not tracked. *)
Definition mixed : Filter := tagged {["p" := [[Some "eve"]; [None]]]} None.
Example mixed_missed :
  FiltersMatch [mixed] mention "" "" = true /\
  forallb (fun key => negb (bool_decide (key ∈ parseEvent mention []))) (parseFilters [mixed]) = true.
Proof. vm_compute. done. Qed.
End MatcherWitness.
