(* ===== verification/StateFSM.v ===== *)
(** * Package statefsm: the health of a peer from its successes and failures

    src/tracing/statefsm/fsm.go.  The optional mutex makes every operation one
    atomic step; an instant is its number of nanoseconds since the zero time
    [time.Time{}], so that the zero time is 0. *)

From S2P Require Import Prelude GoStd Nostr.

(** [time.Time.Sub]: the difference saturates at the bounds of a duration. *)
Definition Sub (t u : Z) : Z := Z.max min_int64 (Z.min max_int64 (t - u)).

(* src: tracing/statefsm/fsm.go 75-76 [Push] *)
Definition MaxUint32 : Z := 4294967295.

(* src: tracing/statefsm/fsm.go 28-31 *)
Inductive state : Set := stateHealthy | stateUnhealthy.
#[export] Instance state_eq_dec : EqDecision state.
Proof. solve_decision. Defined.

(* src: tracing/statefsm/fsm.go 14-22 *)
Record FSM : Set := MkFSM {
  startTime : Z;
  windowSize : Z;
  threshold : Z;
  okCounter : Z;
  errCounter : Z;
  currentState : state
}.

(* src: tracing/statefsm/fsm.go 40-58 *)
Definition New (consecutiveWindow consecutiveOperationThreshold : Z) : outcome FSM :=
  if consecutiveWindow <=? 0 then Panic
  else if consecutiveOperationThreshold =? 0 then Panic
  else Ok (MkFSM 0 consecutiveWindow consecutiveOperationThreshold 0 0 stateHealthy).

(* src: tracing/statefsm/fsm.go 157-159 *)
Definition OperationThreshold (s : FSM) : Z := threshold s.

(* src: tracing/statefsm/fsm.go 109-111 *)
Definition inError (s : FSM) : bool := bool_decide (currentState s = stateUnhealthy).
(* src: tracing/statefsm/fsm.go 114-120 *)
Definition InError (s : FSM) : bool := inError s.
(* src: tracing/statefsm/fsm.go 139-145 *)
Definition CurrentErrors (s : FSM) : Z := errCounter s.
(* src: tracing/statefsm/fsm.go 148-154 *)
Definition CurrentSuccesses (s : FSM) : Z := okCounter s.

(** [if c < math.MaxUint32 { c++ }] *)
(* src: tracing/statefsm/fsm.go 75-77 [Push] *)
Definition saturating_incr (c : Z) : Z := if c <? MaxUint32 then c + 1 else c.

(* src: tracing/statefsm/fsm.go 74 [Push] *)
Definition in_window (s : FSM) (currentTime : Z) : bool :=
  Sub currentTime (startTime s) <=? windowSize s.

(* src: tracing/statefsm/fsm.go 67-95 [Push] *)
Definition push_error (s : FSM) (currentTime : Z) : FSM :=
  let '(errs, start) :=
    if errCounter s =? 0 then (1, currentTime)
    else if in_window s currentTime then (saturating_incr (errCounter s), startTime s)
    else ((if inError s then saturating_incr (errCounter s) else 1), currentTime) in
  MkFSM start (windowSize s) (threshold s) 0 errs
    (if OperationThreshold s <=? errs then stateUnhealthy else currentState s).

(* src: tracing/statefsm/fsm.go 96-105 [Push] *)
Definition push_success (s : FSM) : FSM :=
  let oks := saturating_incr (okCounter s) in
  if inError s && (OperationThreshold s <=? oks)
  then MkFSM 0 (windowSize s) (threshold s) oks 0 stateHealthy
  else MkFSM (startTime s) (windowSize s) (threshold s) oks (errCounter s) (currentState s).

(* src: tracing/statefsm/fsm.go 61-107 *)
Definition Push (s : FSM) (hasError : bool) (currentTime : Z) : FSM * bool :=
  let s := if hasError then push_error s currentTime else push_success s in (s, inError s).

(** ** Theorems *)

(** The reachable states of a machine of the given window and threshold. *)
Record wf (w t : Z) (s : FSM) : Prop := {
  wf_window : windowSize s = w;
  wf_threshold : threshold s = t;
  wf_errors : 0 <= errCounter s <= MaxUint32;
  wf_successes : 0 <= okCounter s <= MaxUint32;
  wf_state : if inError s then t <= errCounter s /\ okCounter s < t else errCounter s < t
}.

Definition valid_threshold (t : Z) : Prop := 0 < t <= MaxUint32.

Lemma incr_bounds c : 0 <= c <= MaxUint32 -> c <= saturating_incr c <= MaxUint32 /\ 1 <= saturating_incr c.
Proof. unfold saturating_incr, MaxUint32. destruct (Z.ltb_spec c 4294967295); lia. Qed.

Lemma inError_make a b c d e (s : state) : inError (MkFSM a b c d e s) = bool_decide (s = stateUnhealthy).
Proof. done. Qed.

Lemma push_error_wf w t s now : valid_threshold t -> wf w t s -> wf w t (push_error s now).
Proof.
  intros Ht [Hw Hth He Hk Hs]. unfold push_error. set (p := if errCounter s =? 0 then _ else _).
  assert (1 <= p.1 <= MaxUint32 /\ (inError s = true -> t <= p.1)) as (Hb & Hge).
  { pose proof (incr_bounds _ He). unfold valid_threshold in Ht. subst p.
    destruct (Z.eqb_spec (errCounter s) 0) as [H0|H0]; cbn; [|destruct (in_window s now); cbn];
      (split; [destruct (inError s); unfold MaxUint32 in *; lia|]); intros Hin; rewrite Hin in Hs; rewrite ?Hin; lia. }
  destruct p as [errs start]. cbn in *. unfold OperationThreshold. rewrite Hth. unfold valid_threshold in Ht.
  split; cbn; [done|done|lia|unfold MaxUint32; lia|]. rewrite inError_make.
  destruct (Z.leb_spec t errs); [rewrite bool_decide_eq_true_2 by done; lia|]. fold (inError s).
  destruct (inError s); [specialize (Hge eq_refl); lia|lia].
Qed.

Lemma push_success_wf w t s : valid_threshold t -> wf w t s -> wf w t (push_success s).
Proof.
  intros Ht [Hw Hth He Hk Hs]. unfold push_success, OperationThreshold. rewrite Hth.
  pose proof (incr_bounds _ Hk). unfold valid_threshold in Ht.
  destruct (inError s && (t <=? saturating_incr (okCounter s))) eqn:Hc.
  - split; cbn; [done|done|unfold MaxUint32; lia|lia|]. rewrite inError_make, bool_decide_eq_false_2 by done. lia.
  - split; cbn; [done|done|done|lia|]. rewrite inError_make. fold (inError s).
    destruct (inError s); [|done]. cbn in Hc. lia.
Qed.

(** The machine driven by a sequence of results. *)
Definition run (s : FSM) (ops : list (bool * Z)) : FSM :=
  fold_left (fun s '(hasError, currentTime) => fst (Push s hasError currentTime)) ops s.

Lemma run_error s u ops : run s ((true, u) :: ops) = run (push_error s u) ops.
Proof. done. Qed.
Lemma run_success s u ops : run s ((false, u) :: ops) = run (push_success s) ops.
Proof. done. Qed.

Lemma run_app s ops1 ops2 : run s (ops1 ++ ops2) = run (run s ops1) ops2.
Proof. apply fold_left_app. Qed.

Lemma run_wf_from w t s ops : valid_threshold t -> wf w t s -> wf w t (run s ops).
Proof.
  intros Ht. revert s. induction ops as [|[[] now] ops IH]; intros s Hs; [done|..].
  - rewrite run_error. by apply IH, push_error_wf.
  - rewrite run_success. by apply IH, push_success_wf.
Qed.

Lemma New_wf w t s : New w t = Ok s -> 0 <= t <= MaxUint32 -> valid_threshold t /\ wf w t s.
Proof.
  unfold New. destruct (Z.leb_spec w 0); [done|]. destruct (Z.eqb_spec t 0); [done|]. intros [= <-] Ht.
  split; [unfold valid_threshold; lia|]. split; cbn; try done; [unfold MaxUint32; lia..|]. rewrite inError_make, bool_decide_eq_false_2 by done. lia.
Qed.

(** Whatever results a machine sees, its counters stay 32-bit numbers,
    it is unhealthy exactly with at least the threshold of counted errors, and
    then with fewer than the threshold of successes since the last error. *)
Lemma run_invariant w t s ops :
  New w t = Ok s -> 0 <= t <= MaxUint32 ->
  let s' := run s ops in
  0 <= CurrentErrors s' <= MaxUint32 /\ 0 <= CurrentSuccesses s' <= MaxUint32 /\
  (InError s' = true <-> t <= CurrentErrors s') /\
  (InError s' = true -> CurrentSuccesses s' < t).
Proof.
  intros Hnew Hb s'. destruct (New_wf w t s Hnew Hb) as [Ht Hs].
  destruct (run_wf_from w t s ops Ht Hs) as [_ _ He Hk Hst]. fold s' in He, Hk, Hst.
  unfold CurrentErrors, CurrentSuccesses, InError. destruct (inError s'); split_and!; try done; try lia; split; (done || lia).
Qed.

(** ** Recovery *)

Lemma successes_run w t s n now :
  valid_threshold t -> wf w t s -> inError s = true -> okCounter s + Z.of_nat n < t ->
  inError (run s (replicate n (false, now))) = true /\
  okCounter (run s (replicate n (false, now))) = okCounter s + Z.of_nat n /\
  wf w t (run s (replicate n (false, now))).
Proof.
  intros Ht. revert s. induction n as [|n IH]; intros s Hs Herr Hn; [cbn; split_and!; [done|lia|done]|].
  pose proof (push_success_wf w t s Ht Hs) as Hs1. pose proof Hs as [Hw Hth He Hk Hst].
  change (replicate (S n) (false, now)) with ((false, now) :: replicate n (false, now)). rewrite run_success.
  assert (push_success s = MkFSM (startTime s) (windowSize s) (threshold s) (okCounter s + 1) (errCounter s)
    (currentState s)) as Heq.
  { unfold push_success, OperationThreshold. rewrite Herr, Hth. unfold saturating_incr, valid_threshold in *.
    rewrite (proj2 (Z.ltb_lt _ _)) by lia. cbn [andb]. rewrite (proj2 (Z.leb_gt _ _)) by lia. done. }
  rewrite Heq in *. destruct (IH _ Hs1) as (H1 & H2 & H3); [done|cbn; lia|].
  split_and!; [done| |done]. rewrite H2. cbn. lia.
Qed.

(** After a failure an unhealthy machine recovers with exactly the
    threshold of successes in a row, and then has no errors. *)
Lemma recovers w t s ops now n :
  New w t = Ok s -> 0 <= t <= MaxUint32 ->
  let s1 := fst (Push (run s ops) true now) in
  InError s1 = true ->
  (Z.of_nat n < t -> InError (run s1 (replicate n (false, now))) = true) /\
  (Z.of_nat n = t -> InError (run s1 (replicate n (false, now))) = false /\
     CurrentErrors (run s1 (replicate n (false, now))) = 0).
Proof.
  intros Hnew Hb s1 Herr. destruct (New_wf w t s Hnew Hb) as [Ht Hs].
  assert (wf w t s1) as Hs1 by (apply push_error_wf, run_wf_from; done).
  assert (okCounter s1 = 0) as Hk0 by (unfold s1, Push, push_error; by destruct (if errCounter _ =? 0 then _ else _)).
  split.
  - intros Hn. apply (successes_run w t s1 n now); [done..|lia].
  - intros Hn. destruct n as [|n]; [unfold valid_threshold in Ht; lia|].
    destruct (successes_run w t s1 n now Ht Hs1 Herr) as (Hin & Hok & [_ Hth _ _ _]); [lia|].
    replace (S n) with (n + 1)%nat by lia. rewrite replicate_add, run_app. change (replicate 1 (false, now)) with [(false, now)].
    rewrite run_success. set (s2 := run s1 (replicate n (false, now))) in *. cbn [run fold_left].
    unfold push_success, OperationThreshold, InError, CurrentErrors. rewrite Hin, Hth. unfold saturating_incr.
    unfold valid_threshold in Ht. rewrite (proj2 (Z.ltb_lt _ _)) by lia.
    cbn [andb]. rewrite (proj2 (Z.leb_le _ _)) by lia. done.
Qed.

(** ** Failure *)

Definition failures (ops : list (bool * Z)) : Z := zlen (filter (fun op => op.1 = true) ops).

(** While the failures stay within the window of the first and below the
    threshold, they are counted, and successes change nothing. *)
Lemma failures_run w t s t0 ops :
  valid_threshold t -> wf w t s -> inError s = false -> startTime s = t0 -> 1 <= errCounter s ->
  (forall u, (true, u) ∈ ops -> Sub u t0 <= w) -> errCounter s + failures ops < t ->
  inError (run s ops) = false /\ errCounter (run s ops) = errCounter s + failures ops /\
  startTime (run s ops) = t0 /\ wf w t (run s ops).
Proof.
  intros Ht. revert s. induction ops as [|[[] u] ops IH]; intros s Hs Herr Hst He Hwin Hn.
  - cbn. split_and!; [done|unfold failures, zlen; cbn; lia|done|done].
  - assert (failures ((true, u) :: ops) = 1 + failures ops) as Hf
      by (unfold failures, zlen; rewrite filter_cons_True by done; cbn [length]; lia).
    assert (0 <= failures ops) by (unfold failures, zlen; lia).
    pose proof (push_error_wf w t s u Ht Hs) as Hs1. pose proof Hs as [Hw Hth Hb _ _].
    rewrite run_error.
    assert (push_error s u = MkFSM t0 (windowSize s) (threshold s) 0 (errCounter s + 1) (currentState s)) as Heq.
    { unfold push_error, in_window, OperationThreshold, saturating_incr. rewrite (proj2 (Z.eqb_neq _ _)), Hst by lia.
      rewrite Hw, (proj2 (Z.leb_le _ _)) by (apply Hwin; left). unfold valid_threshold in Ht.
      rewrite (proj2 (Z.ltb_lt _ _)) by lia. rewrite Hth, (proj2 (Z.leb_gt _ _)) by lia. done. }
    rewrite Heq in *. destruct (IH _ Hs1) as (H1 & H2 & H3 & H4); cbn; [done|done|lia| |lia|].
    { intros u' Hu. apply Hwin. by right. }
    split_and!; [done| |done|done]. rewrite H2. cbn. lia.
  - assert (failures ((false, u) :: ops) = failures ops) as Hf
      by (unfold failures; by rewrite filter_cons_False).
    pose proof (push_success_wf w t s Ht Hs) as Hs1.
    rewrite run_success.
    assert (push_success s = MkFSM (startTime s) (windowSize s) (threshold s) (saturating_incr (okCounter s))
      (errCounter s) (currentState s)) as Heq by (unfold push_success; by rewrite Herr).
    rewrite Heq in *. rewrite Hf in Hn |- *. apply (IH _ Hs1); try done. intros u' Hu. apply Hwin. by right.
Qed.

(** A new machine becomes unhealthy with the failure that reaches the
    threshold within the window of the first one, not before, however many
    successes come in between. *)
Lemma trips w t s t0 ops now :
  New w t = Ok s -> 1 < t <= MaxUint32 -> (forall u, (true, u) ∈ ops -> Sub u t0 <= w) ->
  let s1 := run s ((true, t0) :: ops) in
  (1 + failures ops < t -> InError s1 = false /\ CurrentErrors s1 = 1 + failures ops) /\
  (2 + failures ops = t -> Sub now t0 <= w -> InError (fst (Push s1 true now)) = true).
Proof.
  intros Hnew Hb Hwin s1. destruct (New_wf w t s Hnew ltac:(lia)) as [Ht Hs].
  assert (Hpush : push_error s t0 = MkFSM t0 w t 0 1 stateHealthy).
  { unfold New in Hnew. destruct (w <=? 0); [done|]. destruct (t =? 0); [done|]. injection Hnew as <-.
    unfold push_error, OperationThreshold. cbn. by rewrite (proj2 (Z.leb_gt t 1)) by lia. }
  assert (Hs0 : wf w t (push_error s t0)) by by apply push_error_wf.
  assert (Hrun : 1 + failures ops < t -> inError s1 = false /\ errCounter s1 = 1 + failures ops /\
    startTime s1 = t0 /\ wf w t s1).
  { intros Hn. unfold s1. rewrite run_error, Hpush. rewrite Hpush in Hs0.
    apply (failures_run w t _ t0 ops Ht Hs0); cbn; done || lia. }
  split; [intros Hn; by destruct (Hrun Hn) as (? & ? & _)|].
  intros Hn Hnow. destruct (Hrun ltac:(lia)) as (Hin & He & Hst & [Hw Hth _ _ _]).
  assert (0 <= failures ops) by (unfold failures, zlen; lia).
  unfold InError, Push, push_error, in_window, OperationThreshold, saturating_incr. cbn [fst].
  rewrite (proj2 (Z.eqb_neq _ _)), Hst, Hw, (proj2 (Z.leb_le _ _)), He, Hth by lia.
  rewrite (proj2 (Z.ltb_lt _ _)) by lia. rewrite inError_make, (proj2 (Z.leb_le _ _)) by lia. done.
Qed.

(** ** Concrete inputs *)
Module StateFSMWitness.
Definition second : Z := 1000000000.
Definition fsm : FSM := MkFSM 0 (60 * second) 3 0 0 stateHealthy.
Definition mixed : list (bool * Z) := [(true, second); (false, 2 * second); (true, 3 * second)].

Lemma run_invariant_witness :
  let s' := run fsm mixed in
  0 <= CurrentErrors s' <= MaxUint32 /\ 0 <= CurrentSuccesses s' <= MaxUint32 /\
  (InError s' = true <-> 3 <= CurrentErrors s') /\ (InError s' = true -> CurrentSuccesses s' < 3).
Proof. apply (run_invariant (60 * second) 3 fsm mixed); [reflexivity|unfold MaxUint32; lia]. Defined.

Lemma recovers_witness :
  let s1 := fst (Push (run fsm mixed) true (4 * second)) in
  (Z.of_nat 2 < 3 -> InError (run s1 (replicate 2 (false, 4 * second))) = true) /\
  (Z.of_nat 2 = 3 -> InError (run s1 (replicate 2 (false, 4 * second))) = false /\
     CurrentErrors (run s1 (replicate 2 (false, 4 * second))) = 0).
Proof.
  apply (recovers (60 * second) 3 fsm mixed (4 * second) 2); [reflexivity|unfold MaxUint32; lia|vm_compute; reflexivity].
Defined.

Lemma trips_witness :
  let s1 := run fsm ((true, second) :: [(false, 2 * second); (true, 3 * second)]) in
  (1 + failures [(false, 2 * second); (true, 3 * second)] < 3 ->
     InError s1 = false /\ CurrentErrors s1 = 1 + failures [(false, 2 * second); (true, 3 * second)]) /\
  (2 + failures [(false, 2 * second); (true, 3 * second)] = 3 -> Sub (4 * second) second <= 60 * second ->
     InError (fst (Push s1 true (4 * second))) = true).
Proof.
  apply (trips (60 * second) 3 fsm second [(false, 2 * second); (true, 3 * second)] (4 * second));
    [reflexivity|unfold MaxUint32; lia|].
  intros u Hu. set_unfold in Hu. destruct Hu as [[=]|[[= ->]|[]]]. vm_compute. discriminate.
Defined.
End StateFSMWitness.
