(* ===== verification/Content.v ===== *)
(** * Package model: content

    src/model/content.go: plain text and mentions of rich text, and the
    replacement of the ranges named by [pmo] tags. *)

From Stdlib Require Import Sorted.
From S2P Require Import Prelude GoStd Nostr Model.
Import Strings.

(* src: model/content.go 22-25 *)
Record deltaOperation : Type := MkDelta {
  Attributes : option (gmap string string);
  Insert : string
}.

(* src: model/content.go 26-31 *)
Record deltaInsertObject : Type := MkInsert {
  TextEditorProfile : string;
  TextEditorCode : string;
  TextEditorSeparator : string;
  TextEditorSingleImage : string
}.

(** Libraries: [encoding/json] on the delta documents, the quill renderer,
    the HTML sanitizer, bech32 entities. *)
Class RichText := {
  json_delta : string -> option (list deltaOperation);
  json_delta_Marshal : list deltaOperation -> option string;
  json_insert : string -> option deltaInsertObject;
  json_string : string -> option string;
  json_string_Marshal : string -> string;
  quill_Render : string -> option string;
  bluemonday_Sanitize : string -> string;
  html_UnescapeString : string -> string;
  (** the prefix and, for a [ProfilePointer], its public key *)
  nip19_Decode : string -> option (string * option string)
}.

Section Content.
Context {N : Nostr} {R : RichText}.

(** ** Plain text *)

(* src: model/content.go 155-160 *)
Definition isAnyCustomTextEditorElement (element : deltaInsertObject) : bool :=
  (TextEditorSeparator element ≠s? "") || (TextEditorSingleImage element ≠s? "")
  || (TextEditorCode element ≠s? "") || (TextEditorProfile element ≠s? "").

(* src: model/content.go 111-120 *)
Definition extractUsefulContentFromCustomElement (element : deltaInsertObject) : string :=
  if TextEditorCode element ≠s? "" then TextEditorCode element
  else if TextEditorProfile element ≠s? "" then TextEditorProfile element
  else "".

(* src: model/content.go 97-109 *)
Definition extractUsefulCustomElementsContentFromParsed (delta : list deltaOperation) : string :=
  Join (omap (fun op =>
    match json_insert (Insert op) with
    | None => None
    | Some insertObj =>
        let text := extractUsefulContentFromCustomElement insertObj in
        if text ≠s? "" then Some text else None
    end) delta) " ".

(* src: model/content.go 125-126 [removeCustomElementsFromParsedDelta] *)
Definition is_custom (op : deltaOperation) : bool :=
  match json_insert (Insert op) with
  | Some insertObj => isAnyCustomTextEditorElement insertObj
  | None => false
  end.

(* src: model/content.go 122-136 *)
Definition removeCustomElementsFromParsedDelta (delta : list deltaOperation) : list deltaOperation :=
  filter (fun op => is_custom op = false) delta.

(** [strings.HasSuffix] *)
Definition HasSuffix (s p : string) : bool := HasPrefix (rev_string s) (rev_string p).
Definition newline : string := bytes [10%nat].

(* src: model/content.go 138-153 *)
Definition ensureDeltaEndsWithNewline (delta : list deltaOperation) : list deltaOperation :=
  match last delta with
  | None => delta
  | Some lastOp =>
      match json_string (Insert lastOp) with
      | Some insertStr =>
          if HasSuffix insertStr newline then delta
          else <[(length delta - 1)%nat :=
                 MkDelta (Attributes lastOp) (json_string_Marshal (insertStr +:+ newline))]> delta
      | None => delta
      end
  end.

(** [\s] of RE2: tab, newline, form feed, carriage return, space. *)
(* src: model/content.go 168 [htmlToPlainText] *)
Definition is_space (c : ascii) : bool :=
  bool_decide (nat_of_ascii c ∈ [9; 10; 12; 13; 32]%nat).

(** [strings.ReplaceAll(text, "\n", " ")] *)
(* src: model/content.go 167 [htmlToPlainText] *)
Fixpoint newlines_to_spaces (s : string) : string :=
  match s with
  | EmptyString => EmptyString
  | String c s =>
      String (if (nat_of_ascii c =? 10)%nat then " "%char else c) (newlines_to_spaces s)
  end.

(** [\s+] replaced by one space; [after] is true inside a run. *)
(* src: model/content.go 168 [htmlToPlainText] *)
Fixpoint collapse_spaces (after : bool) (s : string) : string :=
  match s with
  | EmptyString => EmptyString
  | String c s =>
      if is_space c then (if after then collapse_spaces true s else String " " (collapse_spaces true s))
      else String c (collapse_spaces false s)
  end.

(* src: model/content.go 162-171 *)
Definition htmlToPlainText (htmlStr : string) : string :=
  let text := html_UnescapeString (bluemonday_Sanitize htmlStr) in
  TrimSpace (collapse_spaces false (newlines_to_spaces text)).

(* src: model/content.go 63-95 *)
Definition parseQuillDeltaToPlainText (deltaJSON : string) : string :=
  match json_delta deltaJSON with
  | None => ""
  | Some delta =>
      let customElementsText := extractUsefulCustomElementsContentFromParsed delta in
      let cleanedDelta := ensureDeltaEndsWithNewline (removeCustomElementsFromParsedDelta delta) in
      match json_delta_Marshal cleanedDelta with
      | None => ""
      | Some cleanedJSON =>
          match quill_Render cleanedJSON with
          | None => ""
          | Some htmlBytes =>
              let plainText := htmlToPlainText htmlBytes in
              TrimSpace (Join (filter (fun s => s ≠ "") [plainText; customElementsText]) " ")
          end
      end
  end.

(* src: model/content.go 38-49 *)
Definition ExtractRichTextContent (ev : Event) : string :=
  match GetTag ev CustomIONTagRichText with
  | _ :: protocol :: text :: _ =>
      if protocol ≠s? QuillDeltaProtocol then "" else parseQuillDeltaToPlainText text
  | _ => ""
  end.

(** ** Mentions *)

(* src: model/content.go 211-226 *)
Definition decodePubkeyFromNprofile (nprofileMatch : string) : string :=
  let '(nprofileStr, ok) := CutPrefix nprofileMatch "nostr:" in
  let nprofileStr := if ok then nprofileStr else TrimPrefix nprofileMatch "ion:" in
  match nip19_Decode nprofileStr with
  | Some (prefix, Some pubkey) => if prefix =s? "nprofile" then pubkey else ""
  | _ => ""
  end.

(** [[a-z0-9]] *)
(* src: model/content.go 35 [nprofileRegex] *)
Definition is_bech32 (c : ascii) : bool :=
  let n := nat_of_ascii c in
  ((97 <=? n) && (n <=? 122) || (48 <=? n) && (n <=? 57))%nat.

(* src: model/content.go 35 [nprofileRegex] *)
Fixpoint bech32_run (s : string) : nat :=
  match s with
  | String c s => if is_bech32 c then S (bech32_run s) else 0%nat
  | EmptyString => 0%nat
  end.

(** The length of the match of [nprofileRegex] at the start of [s]. *)
(* src: model/content.go 35 [nprofileRegex] *)
Definition nprofile_match (s : string) : option nat :=
  foldr (fun p found =>
    let prefix := p +:+ "nprofile1" in
    let run := bech32_run (drop (len prefix) s) in
    if HasPrefix s prefix && (0 <? run)%nat then Some (len prefix + run)%nat else found)
    None ["nostr:"; "ion:"; ""].

(** [FindAllString(content, -1)]: leftmost matches, then from their ends. *)
(* src: model/content.go 175 [extractPubkeysFromContent] *)
Fixpoint FindAllString (fuel : nat) (s : string) : list string :=
  match fuel, s with
  | S fuel, String _ s' =>
      match nprofile_match s with
      | Some n => take n s :: FindAllString fuel (drop n s)
      | None => FindAllString fuel s'
      end
  | _, _ => []
  end.

(* src: model/content.go 173-183 *)
Definition extractPubkeysFromContent (content : string) : list string :=
  filter (fun pubkey => pubkey ≠ "")
    (decodePubkeyFromNprofile <$> FindAllString (len content) content).

(* src: model/content.go 185-209 *)
Definition extractPubkeysFromRichText (e : Event) : list string :=
  match GetTag e CustomIONTagRichText with
  | k :: v :: text :: rest =>
      if Value (k :: v :: text :: rest) ≠s? QuillDeltaProtocol then []
      else match json_delta text with
           | None => []
           | Some delta =>
               filter (fun pubkey => pubkey ≠ "")
                 (omap (fun op =>
                    attributes ← Attributes op;
                    mentionData ← attributes !! "mention";
                    mentionStr ← json_string mentionData;
                    Some (decodePubkeyFromNprofile mentionStr)) delta)
           end
  | _ => []
  end.

(** The error is always nil. *)
(* src: model/content.go 51-61 *)
Definition ExtractMentionedPubkeys (e : Event) : outcome (list string) :=
  if Content e ≠s? "" then Ok (extractPubkeysFromContent (Content e))
  else Ok (extractPubkeysFromRichText e).

(** ** Replacement of [pmo] ranges *)

(* src: model/content.go 235-239 *)
Record override : Type := MkOverride { text : string; start : Z; end_ : Z }.

(* src: model/content.go 242-264 *)
Definition parse_override (content : string) (pmo : Tag) : outcome override :=
  if (length pmo <? 3)%nat then Err opaque_error
  else match Split (Value pmo) ":" with
       | [p0; p1] =>
           match Strconv.Atoi p0 with
           | None => Err opaque_error
           | Some s =>
               match Strconv.Atoi p1 with
               | None => Err opaque_error
               | Some e =>
                   reject opaque_error
                     when (s <? 0) || (e <? s) || (Z.of_nat (len content) <? s)
                          || (Z.of_nat (len content) <? e) ;;
                   let! t := index pmo 2 in
                   Ok (MkOverride t s e)
               end
           end
       | _ => Err opaque_error
       end.

(* src: model/content.go 241-264 *)
Definition parse_overrides (content : string) (pmos : Tags) : outcome (list override) :=
  for_state pmos [] (fun acc pmo => let! o := parse_override content pmo in Ok (acc ++ [o])).

(* src: model/content.go 271-280 *)
Definition apply_override (replace : string -> string -> bool * string) (result : string)
    (o : override) : outcome string :=
  let! orig := slice result (start o) (end_ o) in
  let '(ok, newReplacement) := replace orig (text o) in
  if negb ok then Ok result
  else
    let t := if newReplacement ≠s? "" then newReplacement else text o in
    let! before := slice result 0 (start o) in
    let! after := slice result (end_ o) (Z.of_nat (len result)) in
    Ok (before +:+ t +:+ after).

(** [sort.Slice] by descending start, an unstable sort: the order it gives
    to equal starts is a parameter. *)
Variable sort_overrides : list override -> list override.

(* src: model/content.go 228-283 *)
Definition ReplacePMO (ev : Event) (replace : string -> string -> bool * string) : outcome string :=
  let content := Content ev in
  let pmos := GetAll (EvTags ev) ["pmo"] in
  if is_nil pmos then Ok content
  else
    let! overrides := parse_overrides content pmos in
    for_state (sort_overrides overrides) content (apply_override replace).

(** *** Specification

    Ranges in ascending order, none starting before the previous one ends,
    all between [pos] and [hi]; their simultaneous replacement. *)

Fixpoint chained (pos : Z) (l : list override) (hi : Z) : Prop :=
  match l with
  | [] => pos <= hi
  | o :: l => pos <= start o /\ start o <= end_ o /\ chained (end_ o) l hi
  end.

Definition substring (s : string) (i j : Z) : string :=
  take (Z.to_nat (j - i)) (drop (Z.to_nat i) s).

Definition replaced (replace : string -> string -> bool * string) (content : string)
    (o : override) : string :=
  let orig := substring content (start o) (end_ o) in
  let '(ok, newReplacement) := replace orig (text o) in
  if negb ok then orig
  else if newReplacement ≠s? "" then newReplacement else text o.

Fixpoint splice (replace : string -> string -> bool * string) (content : string) (pos : Z)
    (l : list override) : string :=
  match l with
  | [] => drop (Z.to_nat pos) content
  | o :: l => substring content pos (start o) +:+ replaced replace content o
              +:+ splice replace content (end_ o) l
  end.

(** Two ranges that do not overlap and do not start together. *)
Definition disjoint_ranges (o1 o2 : override) : Prop :=
  start o1 < start o2 /\ end_ o1 <= start o2 \/ start o2 < start o1 /\ end_ o2 <= start o1.

(** What [sort.Slice] promises. *)
Definition sorts : Prop := forall l,
  sort_overrides l ≡ₚ l /\ Sorted.StronglySorted (fun a b => start b <= start a) (sort_overrides l).

(** ** Theorems *)

Lemma split_at s i :
  0 <= i <= Z.of_nat (len s) -> exists a b, s = a +:+ b /\ i = Z.of_nat (len a).
Proof.
  intros H. exists (take (Z.to_nat i) s), (drop (Z.to_nat i) s).
  rewrite take_drop, len_take. split; [done|lia].
Qed.

Lemma substring_app a b c i j :
  i = Z.of_nat (len a) -> j = Z.of_nat (len a + len b) -> substring (a +:+ b +:+ c) i j = b.
Proof.
  intros -> ->. unfold substring. rewrite Nat2Z.id, drop_app.
  replace (Z.to_nat _) with (len b) by lia. by rewrite take_app.
Qed.

Lemma take_nat_app a b i : i = Z.of_nat (len a) -> take (Z.to_nat i) (a +:+ b) = a.
Proof. intros ->. by rewrite Nat2Z.id, take_app. Qed.

Lemma drop_nat_app a b i : i = Z.of_nat (len a) -> drop (Z.to_nat i) (a +:+ b) = b.
Proof. intros ->. by rewrite Nat2Z.id, drop_app. Qed.

Lemma apply_override_spec replace content pos o tail :
  0 <= pos <= start o -> start o <= end_ o <= Z.of_nat (len content) ->
  apply_override replace (take (Z.to_nat (end_ o)) content +:+ tail) o =
  Ok (take (Z.to_nat pos) content +:+ substring content pos (start o)
      +:+ replaced replace content o +:+ tail).
Proof.
  intros Hpos Hend.
  destruct (split_at content (end_ o)) as (abc & d & -> & He); [lia|].
  destruct (split_at abc (start o)) as (ab & c & -> & Hs); [lia|].
  destruct (split_at ab pos) as (a & b & -> & Hp); [lia|].
  rewrite !len_app in He. rewrite len_app in Hs. rewrite !len_app in Hend. unfold apply_override, replaced.
  assert (Hc : substring (((a +:+ b) +:+ c) +:+ d) (start o) (end_ o) = c).
  { rewrite (app_assoc (a +:+ b)). apply substring_app; rewrite len_app; lia. }
  assert (Hb : substring (((a +:+ b) +:+ c) +:+ d) pos (start o) = b).
  { rewrite !app_assoc. apply substring_app; lia. }
  rewrite Hb, Hc. rewrite (take_nat_app ((a +:+ b) +:+ c) d) by (rewrite !len_app; lia).
  assert (Hrun : slice (((a +:+ b) +:+ c) +:+ tail) (start o) (end_ o) = Ok c).
  { rewrite (app_assoc (a +:+ b)). apply slice_app; rewrite len_app; lia. }
  assert (Hbefore : slice (((a +:+ b) +:+ c) +:+ tail) 0 (start o) = Ok (a +:+ b)).
  { rewrite (app_assoc (a +:+ b)). apply (slice_app ""); cbn [len]; rewrite ?len_app; lia. }
  assert (Hafter : slice (((a +:+ b) +:+ c) +:+ tail) (end_ o)
    (Z.of_nat (len (((a +:+ b) +:+ c) +:+ tail))) = Ok tail).
  { rewrite <- (app_nil_r tail) at 1. apply slice_app; rewrite !len_app; lia. }
  rewrite Hrun. cbn [mbind outcome_bind].
  destruct (replace c (text o)) as [[] t]; cbn [negb].
  - rewrite Hbefore. cbn [mbind outcome_bind]. rewrite Hafter. cbn.
    by rewrite !app_assoc, (take_nat_app a) by done.
  - by rewrite !app_assoc, (take_nat_app a) by done.
Qed.

Lemma chained_bounds pos l hi : chained pos l hi -> pos <= hi.
Proof. revert pos. induction l as [|o l IH]; cbn; [done|]. intros pos (? & ? & ?%IH). lia. Qed.

Lemma chained_snoc pos l o hi :
  chained pos (l ++ [o]) hi <-> chained pos l (start o) /\ start o <= end_ o <= hi.
Proof. revert pos. induction l as [|o' l IH]; intros pos; cbn; [lia|]. rewrite IH. tauto. Qed.

Lemma apply_chained replace content pos l :
  0 <= pos -> chained pos l (Z.of_nat (len content)) ->
  for_state (rev l) content (apply_override replace) =
  Ok (take (Z.to_nat pos) content +:+ splice replace content pos l).
Proof.
  revert pos. induction l as [|o l IH]; intros pos Hpos; cbn.
  - intros _. by rewrite take_drop.
  - intros (Hs & He & Hch). pose proof (chained_bounds _ _ _ Hch).
    rewrite for_state_app, (IH (end_ o)) by (done || lia). cbn.
    by rewrite (apply_override_spec _ _ pos) by lia.
Qed.

Lemma disjoint_ranges_perm l l' :
  l ≡ₚ l' -> ForallOrdPairs disjoint_ranges l -> ForallOrdPairs disjoint_ranges l'.
Proof.
  induction 1 as [|o l l' Hp IH|o1 o2 l|l1 l2 l3 _ IH1 _ IH2]; [done| | |by auto].
  - intros Hd. inversion Hd as [|? ? Hall Hrest]; subst. constructor; [|auto].
    by rewrite <- Hp.
  - intros Hd. inversion Hd as [|? ? Hall Hrest]; subst.
    inversion Hall as [|? ? H12 Hall1]; subst. inversion Hrest as [|? ? Hall2 Hrest']; subst.
    constructor; [constructor; [|done]|constructor; done].
    unfold disjoint_ranges in *. tauto.
Qed.

Lemma descending_chained d hi :
  Sorted.StronglySorted (fun a b => start b <= start a) d ->
  ForallOrdPairs disjoint_ranges d ->
  Forall (fun o => 0 <= start o <= end_ o /\ end_ o <= hi) d -> 0 <= hi ->
  chained 0 (rev d) hi.
Proof.
  revert hi. induction d as [|o d IH]; intros hi Hs Hd Hall Hhi; cbn; [done|].
  inversion Hs as [|? ? Hs' Hfirst]; subst. inversion Hd as [|? ? Hdis Hd']; subst.
  inversion Hall as [|? ? Ho Hall']; subst.
  apply chained_snoc. split; [|lia]. apply IH; [done..| |lia].
  apply Forall_forall. intros o' Ho'. rewrite Forall_forall in Hfirst, Hdis, Hall'.
  specialize (Hfirst o' Ho'). specialize (Hdis o' Ho'). specialize (Hall' o' Ho').
  unfold disjoint_ranges in Hdis. lia.
Qed.

Lemma parse_override_bounds content pmo o :
  parse_override content pmo = Ok o ->
  0 <= start o <= end_ o /\ end_ o <= Z.of_nat (len content).
Proof.
  unfold parse_override. destruct (_ <? _)%nat; [done|].
  destruct (Split _ _) as [|p0 [|p1 []]]; try done.
  destruct (Strconv.Atoi p0) as [s|]; [|done]. destruct (Strconv.Atoi p1) as [e|]; [|done].
  intros H. simplify_go. cbn. lia.
Qed.

Lemma parse_overrides_bounds content pmos os :
  parse_overrides content pmos = Ok os ->
  Forall (fun o => 0 <= start o <= end_ o /\ end_ o <= Z.of_nat (len content)) os.
Proof.
  unfold parse_overrides. apply (for_state_invariant (fun _ => Forall _)); [done|].
  intros pre pmo acc acc' _ Hacc Hstep. simplify_go.
  apply Forall_app. split; [done|]. constructor; [by eapply parse_override_bounds|done].
Qed.

(** For [pmo] tags whose ranges parse and do not overlap (and do not
    start at the same byte), in whatever order the tags come and however the
    unstable sort behaves, [ReplacePMO] does not panic and returns the content
    with every range replaced simultaneously; the untouched bytes are kept. *)
Lemma ReplacePMO_splice ev replace os :
  sorts ->
  parse_overrides (Content ev) (GetAll (EvTags ev) ["pmo"]) = Ok os ->
  ForallOrdPairs disjoint_ranges os ->
  exists l, l ≡ₚ os /\ chained 0 l (Z.of_nat (len (Content ev))) /\
    ReplacePMO ev replace = Ok (splice replace (Content ev) 0 l).
Proof.
  intros Hsort Hparse Hdis. destruct (Hsort os) as [Hperm Hsorted].
  exists (rev (sort_overrides os)).
  assert (Hch : chained 0 (rev (sort_overrides os)) (Z.of_nat (len (Content ev)))).
  { apply descending_chained; [done| | |lia].
    - by apply (disjoint_ranges_perm os).
    - rewrite Hperm. by eapply parse_overrides_bounds. }
  split; [|split; [done|]].
  { by rewrite <- Permutation_rev. }
  unfold ReplacePMO. destruct (GetAll (EvTags ev) ["pmo"]) as [|pmo pmos] eqn:Htags.
  - cbn in Hparse |- *. simplify_eq. apply Permutation_nil_r in Hperm. by rewrite Hperm.
  - cbn [is_nil]. rewrite Hparse. cbn [mbind outcome_bind].
    pose proof (apply_chained replace (Content ev) 0 _ ltac:(lia) Hch) as Hrun.
    rewrite rev_involutive in Hrun. exact Hrun.
Qed.

Lemma parse_override_format `{!NostrSpec N} content k a b t rest :
  0 <= a <= b -> b <= Z.of_nat (len content) -> is_int64 b ->
  parse_override content (k :: (Strconv.Itoa a +:+ ":" +:+ Strconv.Itoa b) :: t :: rest) =
  Ok (MkOverride t a b).
Proof.
  intros Hab Hb Hint. unfold parse_override. cbn [length Nat.ltb Nat.leb].
  rewrite Value_cons. change (":" +:+ Strconv.Itoa b) with (String ":" (Strconv.Itoa b)).
  assert (Hno : forall z, 0 <= z <= b -> in_string ":" (Strconv.Itoa z) = false).
  { intros z Hz. apply Strconv.Itoa_no_char; [|done..].
    unfold is_int64, min_int64, max_int64 in *. lia. }
  rewrite Split_app by (apply Hno; lia). rewrite Split_no_sep by (apply Hno; lia).
  rewrite !Strconv.Atoi_Itoa by (unfold is_int64, min_int64, max_int64 in *; lia).
  replace (_ || _) with false by lia. done.
Qed.

Lemma sorts_two o1 o2 : sorts -> start o1 < start o2 -> sort_overrides [o1; o2] = [o2; o1].
Proof.
  intros Hsort Hlt. destruct (Hsort [o1; o2]) as [Hperm Hs].
  symmetry in Hperm. apply Permutation_length_2_inv in Hperm as [Heq|Heq]; rewrite Heq in *; [|done].
  inversion Hs as [|? ? _ Hall]; subst. inversion Hall; subst. lia.
Qed.

(** Overlapping [pmo] ranges, which the tag checks accept, make
    [ReplacePMO] panic: two ranges that end with the content, of which the
    inner one is replaced by a shorter text. *)
Lemma ReplacePMO_overlap_panics `{!NostrSpec N} ev a b t1 t2 :
  sorts -> let n := Z.of_nat (len (Content ev)) in
  GetAll (EvTags ev) ["pmo"] =
    [["pmo"; Strconv.Itoa a +:+ ":" +:+ Strconv.Itoa n; t1];
     ["pmo"; Strconv.Itoa b +:+ ":" +:+ Strconv.Itoa n; t2]] ->
  0 <= a < b -> b <= n -> is_int64 n -> Z.of_nat (len t2) < n - b ->
  ReplacePMO ev (fun _ _ => (true, "")) = Panic.
Proof.
  intros Hsort n Htags Ha Hb Hn Ht. unfold ReplacePMO. rewrite Htags. cbn [is_nil].
  unfold parse_overrides. cbn [for_state].
  rewrite !parse_override_format by (done || lia). cbn [mbind outcome_bind app for_state].
  rewrite sorts_two by (done || cbn; lia). cbn [for_state].
  replace (Content ev) with (take (Z.to_nat n) (Content ev) +:+ "") at 1
    by (rewrite app_nil_r, take_ge; [done|lia]).
  pose proof (apply_override_spec (fun _ _ => (true, "")) (Content ev) 0 (MkOverride t2 b n) "") as Happ.
  cbn [start end_ text] in Happ. rewrite Happ by lia. cbn [mbind outcome_bind].
  unfold apply_override at 1. cbn [start end_]. unfold slice.
  rewrite !len_app. unfold substring. rewrite !len_take, len_drop. cbn.
  replace ((0 <=? a) && _ && _) with false; [done|]. lia.
Qed.
End Content.

Module ContentWitness.
Import Plain.

(** Insertion sort, as [sort.Slice] on short slices. *)
Fixpoint insert (o : override) (l : list override) : list override :=
  match l with
  | [] => [o]
  | o' :: l' => if start o' <=? start o then o :: l else o' :: insert o l'
  end.
Definition isort (l : list override) : list override := fold_right insert [] l.

Lemma insert_perm o l : insert o l ≡ₚ o :: l.
Proof.
  induction l as [|o' l IH]; cbn; [done|]. destruct (_ <=? _); [done|]. rewrite IH. constructor.
Qed.

Lemma insert_sorted o l :
  Sorted.StronglySorted (fun a b => start b <= start a) l ->
  Sorted.StronglySorted (fun a b => start b <= start a) (insert o l).
Proof.
  induction 1 as [|o' l Hs IH Hall]; cbn; [repeat constructor|].
  destruct (Z.leb_spec (start o') (start o)).
  - constructor; [by constructor|]. constructor; [done|].
    eapply Forall_impl; [exact Hall|]. cbn. lia.
  - constructor; [done|]. rewrite insert_perm. constructor; [lia|done].
Qed.

Lemma isort_sorts : sorts isort.
Proof.
  intros l. induction l as [|o l [Hp Hs]]; cbn; [repeat constructor|]. split.
  - by rewrite insert_perm, Hp.
  - by apply insert_sorted.
Qed.

Definition ev (tags : Tags) : Event := MkEvent None "1" "a" 0 1 tags "hello world" "".
Definition bold : Event := ev [["pmo"; "0:5"; "**hello**"]; ["pmo"; "6:11"; "__world__"]].
Definition keep : string -> string -> bool * string := fun _ _ => (true, "").
Definition bold_ranges : list override := [MkOverride "**hello**" 0 5; MkOverride "__world__" 6 11].

Lemma ReplacePMO_splice_witness :
  exists l, l ≡ₚ bold_ranges /\ chained 0 l 11 /\
    ReplacePMO isort bold keep = Ok (splice keep "hello world" 0 l).
Proof.
  apply (ReplacePMO_splice isort bold keep bold_ranges isort_sorts); [vm_compute; reflexivity|].
  repeat constructor; cbn; lia.
Defined.

Example bold_replaced : ReplacePMO isort bold keep = Ok "**hello** __world__".
Proof. vm_compute. reflexivity. Qed.

Lemma ReplacePMO_overlap_panics_witness :
  ReplacePMO isort (ev [["pmo"; "0:11"; "x"]; ["pmo"; "6:11"; "y"]]) keep = Panic.
Proof.
  apply (ReplacePMO_overlap_panics isort (ev [["pmo"; "0:11"; "x"]; ["pmo"; "6:11"; "y"]])
    0 6 "x" "y" isort_sorts); vm_compute; intuition congruence.
Defined.
End ContentWitness.
