(* ===== verification/Validator.v ===== *)
(** * Package validation: the validator, its configuration and rules

    src/validation/config.go, validator.go: what every rule receives. *)

From S2P Require Import Prelude GoStd Nostr Model Filters.

(** The parts of the request context and of the clock the rules read: the
    user data and one reading of [time.Now()] (an instant in nanoseconds)
    for the whole validation. *)
Class Env := {
  user : UserDataContext;
  now : Z
}.

(** [model.KindAny] and [math.MaxUint16] *)
Definition MaxUint16 : Z := 65535.

(* src: validation/config.go 12-18 *)
Record Config : Type := MkConfig {
  MaxContentSizes : gmap Z Z;
  RelayURL : string;
  IONIdentityBaseURL : string;
  MaxWrappedEventExpiration : Z;  (* nanoseconds *)
  NIP13MinLeadingZeroBits : Z
}.

(** [query.EventIterator]: the pairs the iterator yields. *)
Abbreviation EventIterator := (list (option Event * option error)).

(** [QueryFunc] is the database at the time of the validation and
    [IONIdentityPublicKeys] the keys known then. *)
(* src: validation/validator.go 24-28 *)
Record eventValidator : Type := MkValidator {
  VConfig : option Config;
  QueryFunc : list Filter -> EventIterator;
  IONIdentityPublicKeys : list string
}.

(* src: validation/validator.go 29-35 *)
Record ruleSet : Type := MkRules {
  SkipKindProfileProofEventsVerify : bool;
  SkipKindAttestationProofDevicesVerify : bool;
  SkipRootContentNFTCollectionsValidation : bool;
  SkipRootContentReplyValidation : bool;
  BroadcastMode : bool
}.

(** The zero value. *)
Definition no_rules : ruleSet := MkRules false false false false false.

(* src: validation/validator.go 18 *)
Definition Rule : Type := ruleSet -> ruleSet.

(* src: validation/validator.go 38-43 *)
Definition Configure (r : ruleSet) (rules : list Rule) : ruleSet :=
  fold_left (fun r rule => rule r) rules r.

(* src: validation/validator.go 74-78 *)
Definition RuleWithBroadcastMode : Rule := fun v =>
  MkRules (SkipKindProfileProofEventsVerify v) (SkipKindAttestationProofDevicesVerify v)
    (SkipRootContentNFTCollectionsValidation v) (SkipRootContentReplyValidation v) true.
(* src: validation/validator.go 80-84 *)
Definition RuleWithSkipProfileMetadataProofEventsVerify : Rule := fun v =>
  MkRules true (SkipKindAttestationProofDevicesVerify v)
    (SkipRootContentNFTCollectionsValidation v) (SkipRootContentReplyValidation v)
    (BroadcastMode v).
(* src: validation/validator.go 86-90 *)
Definition RuleWithSkipDeviceIdentificationProofEventsVerify : Rule := fun v =>
  MkRules (SkipKindProfileProofEventsVerify v) true
    (SkipRootContentNFTCollectionsValidation v) (SkipRootContentReplyValidation v)
    (BroadcastMode v).
(* src: validation/validator.go 92-96 *)
Definition RuleWithSkipRootContentNFTCollectionsValidation : Rule := fun v =>
  MkRules (SkipKindProfileProofEventsVerify v) (SkipKindAttestationProofDevicesVerify v)
    true (SkipRootContentReplyValidation v) (BroadcastMode v).
(* src: validation/validator.go 98-102 *)
Definition RuleWithSkipRootContentReplyValidation : Rule := fun v =>
  MkRules (SkipKindProfileProofEventsVerify v) (SkipKindAttestationProofDevicesVerify v)
    (SkipRootContentNFTCollectionsValidation v) true (BroadcastMode v).

(* src: validation/validator.go 17 *)
Definition Option : Type := eventValidator -> eventValidator.

(* src: validation/validator.go 63-67 *)
Definition WithQueryFunc (f : list Filter -> EventIterator) : Option := fun v =>
  MkValidator (VConfig v) f (IONIdentityPublicKeys v).
(* src: validation/validator.go 68-72 *)
Definition WithIONIdentityPublicKeys (f : list string) : Option := fun v =>
  MkValidator (VConfig v) (QueryFunc v) f.

Section Config.
Context {G : GoText}.

(* src: validation/config.go 21-28 *)
Definition MaxContentSizeOf (c : option Config) (kind : Z) : Z :=
  match c with
  | Some c => default 0 (MaxContentSizes c !! kind)
  | None => 0
  end.

(* src: validation/config.go 30-36 *)
Definition EqualRelayURL (c : option Config) (relayURL : string) : bool :=
  match c with
  | None => true
  | Some c => if RelayURL c =s? "" then true else CompareRelaysURLs (RelayURL c) relayURL
  end.
End Config.

(** ** Iterating a query *)

(** A use of an event the iterator yielded: a nil pointer panics. *)
Definition deref {A} (e : option A) : outcome A :=
  match e with Some e => Ok e | None => Panic end.

(** [for ev, err := range it { if err != nil { return err }; all = append(all, ev) }] *)
Fixpoint collect (it : EventIterator) : outcome (list Event) :=
  match it with
  | [] => Ok []
  | (_, Some x) :: _ => Err x
  | (ev, None) :: it => let! ev := deref ev in let! all := collect it in Ok (ev :: all)
  end.

(* src: validation/validation_nip_58.go 261-271 [getEvent] *)
Fixpoint first_event (it : EventIterator) : outcome (option Event) :=
  match it with
  | [] => Ok None
  | (_, Some x) :: _ => Err x
  | (Some e, None) :: _ => Ok (Some e)
  | (None, None) :: it => first_event it
  end.

(* src: validation/validation_nip_58.go 261-271 *)
Definition getEvent (v : eventValidator) (address : string) : outcome (option Event) :=
  first_event (QueryFunc v [MkFilter None None None (Some [address]) None None None 0 ""]).

(** Queries that answer with events only. *)
Definition answers (it : EventIterator) (evs : list Event) : Prop :=
  it = (fun e => (Some e, None)) <$> evs.

Lemma collect_answers it evs : answers it evs -> collect it = Ok evs.
Proof. intros ->. induction evs as [|e evs IH]; cbn; [done|]. by rewrite IH. Qed.

Lemma collect_Ok it evs : collect it = Ok evs <-> answers it evs.
Proof.
  split; [|apply collect_answers]. revert evs.
  induction it as [|[[e|] [x|]] it IH]; intros evs H; cbn in *; try done.
  - by simplify_eq.
  - apply bind_Ok in H as (all & Hc & [= <-]). by rewrite (IH _ Hc).
Qed.
#[export] Hint Resolve collect_answers : go.
