(* ===== verification/TagRules.v ===== *)
(** * Package validation: tag tables and tag values

    src/validation/validate.go (the tag table of a kind, its builder,
    [validateEventTags], [Execute]), validation_nip_92.go, validation_icip_5000.go
    ([validatePollTag]) and validation_icip_4000.go ([validateSettingsTag]). *)

From S2P Require Import Prelude GoStd Nostr Model Validator.
Import Strings.

(** ** The tag table of a kind *)

(** The first two constants of the block take the [iota] values 0 and 1. *)
(* src: validation/validate.go 21+ *)
Definition maxLabelSymbolLength : nat := 100.
Definition maxTagsCount : Z := 30000.

(* src: validation/validate.go 37 *)
Definition tagState : Set := Z.
(* src: validation/validate.go 24+ *)
Definition tagStateOptional : tagState := 2.
Definition tagStateRequired : tagState := 3.
Definition tagStateRequiredWith : tagState := 4.
Definition tagStateForbidden : tagState := 5.
Definition tagStateOneOf : tagState := 6.
Definition tagStateOneOfSingle : tagState := 7.
(* src: validation/validate.go 31+ *)
Definition kindValidatorFlagContentRequired : Z := Z.shiftl 1 0.
Definition kindValidatorFlagIONIdentityKeySignatureRequired : Z := Z.shiftl 1 1.
Definition kindValidatorFlagContentEmpty : Z := Z.shiftl 1 2.

(* src: validation/validate.go 38-43 *)
Record tagData : Type := MkTagData { DTags : list string; State : tagState }.

(** [Validate] holds the additional functions of the kind. *)
(* src: validation/validate.go 44-51 *)
Record kindValidator : Type := MkKindValidator {
  KTags : gmap string tagData;
  KValidate : list (eventValidator -> Event -> ruleSet -> check);
  Flags : Z
}.

(** The zero value, of a kind without a table. *)
Definition zero_validator : kindValidator := MkKindValidator ∅ [] 0.

(* src: validation/validate.go 70-80 *)
Definition CommonTags : list string :=
  ["t"; "l"; "L"; "nonce"; "imeta"; "expiration"; CustomIONTagOnBehalfOf; "settings"; "encrypted"].

(** The builder; its methods mutate the validator and return it. *)
(* src: validation/validate.go 679-681 *)
Record kindValidatorBuilder : Type := MkBuilder { Validator : kindValidator }.

Definition set_tags (t : kindValidatorBuilder) (f : gmap string tagData -> gmap string tagData) :
    kindValidatorBuilder :=
  MkBuilder (MkKindValidator (f (KTags (Validator t))) (KValidate (Validator t)) (Flags (Validator t))).
Definition set_flag (t : kindValidatorBuilder) (flag : Z) : kindValidatorBuilder :=
  MkBuilder (MkKindValidator (KTags (Validator t)) (KValidate (Validator t))
    (Z.lor (Flags (Validator t)) flag)).
Definition set_all (tags : list string) (data : tagData) (m : gmap string tagData) :
    gmap string tagData :=
  fold_left (fun m tag => <[tag := data]> m) tags m.

(* src: validation/validate.go 691-697 *)
Definition newKindValidatorBuilderEmpty : kindValidatorBuilder := MkBuilder zero_validator.
(* src: validation/validate.go 699-702 *)
Definition ContentNotEmpty (t : kindValidatorBuilder) := set_flag t kindValidatorFlagContentRequired.
(* src: validation/validate.go 704-707 *)
Definition ContentEmpty (t : kindValidatorBuilder) := set_flag t kindValidatorFlagContentEmpty.
(* src: validation/validate.go 709-712 *)
Definition RequireIONIdentitySignature (t : kindValidatorBuilder) :=
  set_flag t kindValidatorFlagIONIdentityKeySignatureRequired.
(* src: validation/validate.go 714-719 *)
Definition Optional (tags : list string) (t : kindValidatorBuilder) : kindValidatorBuilder :=
  set_tags t (set_all tags (MkTagData [] tagStateOptional)).
(* src: validation/validate.go 721-726 *)
Definition Required (tags : list string) (t : kindValidatorBuilder) : kindValidatorBuilder :=
  set_tags t (set_all tags (MkTagData [] tagStateRequired)).
(* src: validation/validate.go 732-737 *)
Definition Forbidden (tags : list string) (t : kindValidatorBuilder) : kindValidatorBuilder :=
  set_tags t (set_all tags (MkTagData [] tagStateForbidden)).
(* src: validation/validate.go 728-730 *)
Definition NoExpiration (t : kindValidatorBuilder) : kindValidatorBuilder := Forbidden ["expiration"] t.
(* src: validation/validate.go 739-743 *)
Definition RequiredWith (root : string) (tags : list string) (t : kindValidatorBuilder) :
    kindValidatorBuilder :=
  Optional tags (set_tags t (insert root (MkTagData tags tagStateRequiredWith))).
(* src: validation/validate.go 745-751 *)
Definition OneOf (tags : list string) (t : kindValidatorBuilder) : kindValidatorBuilder :=
  set_tags t (set_all tags (MkTagData tags tagStateOneOf)).
(* src: validation/validate.go 753-759 *)
Definition OneOfSingle (tags : list string) (t : kindValidatorBuilder) : kindValidatorBuilder :=
  set_tags t (set_all tags (MkTagData tags tagStateOneOfSingle)).
(* src: validation/validate.go 761-764 [Validate] *)
Definition WithValidate (f : eventValidator -> Event -> ruleSet -> check) (t : kindValidatorBuilder) :
    kindValidatorBuilder :=
  MkBuilder (MkKindValidator (KTags (Validator t)) (KValidate (Validator t) ++ [f])
    (Flags (Validator t))).
(* src: validation/validate.go 766-768 *)
Definition Build (t : kindValidatorBuilder) : kindValidator := Validator t.
(* src: validation/validate.go 683-689 *)
Definition newKindValidatorBuilder : kindValidatorBuilder :=
  fold_left (fun t tag => Optional [tag] t) CommonTags newKindValidatorBuilderEmpty.
(* src: validation/validate.go 675-677 *)
Definition tagsTable (tags : list string) : kindValidator :=
  Build (Optional tags newKindValidatorBuilder).

(** [errors.Join] where either error may be nil. *)
Definition join_opt (a b : option error) : option error :=
  match a, b with
  | Some a, Some b => Some (join_error a b)
  | Some a, None => Some a
  | None, b => b
  end.

Definition of_error (e : option error) : check :=
  match e with Some e => Err e | None => pass end.

(* src: validation/validate.go 770-784 *)
Definition Execute (v : kindValidator) (ev : eventValidator) (e : Event) (rules : ruleSet) : check :=
  let has flag := negb (Z.land (Flags v) flag =? 0) in
  let err0 := if has kindValidatorFlagContentRequired && (Content e =s? "")
              then Some (err ErrContentEmpty) else None in
  let err1 := if has kindValidatorFlagContentEmpty && (Content e ≠s? "")
              then join_opt err0 (Some (err ErrContentNotEmpty)) else err0 in
  let err2 := if has kindValidatorFlagIONIdentityKeySignatureRequired
                 && negb (bool_decide (PubKey e ∈ IONIdentityPublicKeys ev))
              then join_opt err1 (Some (err ErrSignatureByIONIdentityRequired)) else err1 in
  let! err3 := for_state (KValidate v) err2 (fun acc f =>
    match f ev e rules with
    | Ok _ => Ok acc
    | Err x => Ok (join_opt acc (Some x))
    | Panic => Panic
    | OutOfFuel => OutOfFuel
    end) in
  of_error err3.

Abbreviation wrong := (err ErrWrongEventParams).

Section TagValues.
Context {N : Nostr} {G : GoText} {J : GoJSON} {E : Env}.

(** ** NIP-92: media attachments *)

(* src: validation/validation_nip_92.go 15-29 *)
Definition supportedIMetaKeys : gmap string tagState := list_to_map [
  ("url", tagStateRequired); ("m", tagStateRequired); ("ox", tagStateOptional);
  ("size", tagStateOptional); ("dim", tagStateOptional); ("magnet", tagStateOptional);
  ("blurhash", tagStateOptional); ("thumb", tagStateOptional); ("image", tagStateOptional);
  ("summary", tagStateOptional); ("alt", tagStateRequired); ("fallback", tagStateOptional);
  ("duration", tagStateOptional)].

(** [values[key]] *)
Definition get (values : gmap string string) (key : string) : string := default "" (values !! key).

(* src: validation/validation_nip_92.go 53-81 *)
Definition check_imeta (values : gmap string string) (kv : string * string) : check :=
  let '(key, value) := kv in
  reject wrong when bool_decide (supportedIMetaKeys !! key = None) ;;
  if (key =s? "x") || (key =s? "ox") then
    match Hex.DecodeString value with Some _ => pass | None => Err wrong end
  else if key =s? "url" then
    reject wrong when negb (HasPrefix value "http") ;; pass
  else if key =s? "m" then
    if ToLower value ≠s? value then Err wrong
    else if HasPrefix value "video" then
      for_each ["thumb"; "image"; "dim"] (fun videoKey =>
        reject wrong when get values videoKey =s? "" ;; pass)
    else pass
  else if key =s? "dim" then
    reject wrong when negb (length (Split value "x") =? 2)%nat ;; pass
  else pass.

(* src: validation/validation_nip_92.go 31-84 *)
Definition validateIMetaTag (tag : Tag) : check :=
  if is_nil tag then pass
  else
    let! values := map_error (fun _ => wrong) (ParseIMeta tag) in
    try for_each (map_to_list supportedIMetaKeys) (fun '(key, state) =>
          reject wrong when (state =? tagStateRequired) && (get values key =s? "") ;; pass) ;;
    reject wrong when (get values "x" =s? "") && (get values "ox" =s? "") ;;
    for_each (map_to_list values) (check_imeta values).

(** ** Addressable references *)

(* src: validation/validate.go 324-347 *)
Definition validateAddressableTag (e : Event) (tagName : string) (expectedKinds : list Z) : check :=
  for_each (GetTags e tagName) (fun tag =>
    reject wrong when Value tag =s? "" ;;
    match Split (Value tag) ":" with
    | [p0; _; _] =>
        match Strconv.ParseInt p0 64 with
        | None => Err wrong
        | Some kind =>
            reject wrong when (0 <? zlen expectedKinds) && negb (bool_decide (kind ∈ expectedKinds)) ;;
            pass
        end
    | _ => Err wrong
    end).

(* src: validation/validate.go 320-322 *)
Definition validateATags (e : Event) (expectedKinds : list Z) : check :=
  validateAddressableTag e "a" expectedKinds.

(** [for _, part := range parts]: the first part with the given key. *)
(* src: validation/validate.go 354-365 [extractTagValueFromPairs] *)
Fixpoint find_pair (parts : list string) (key : string) : outcome string :=
  match parts with
  | [] => Err wrong
  | part :: parts =>
      match SplitN2 part " " with
      | [k; v] => if key =s? TrimSpace k then Ok (TrimSpace v) else find_pair parts key
      | _ => Err wrong
      end
  end.

(* src: validation/validate.go 349-366 *)
Definition extractTagValueFromPairs (tag : Tag) (key : string) : outcome string :=
  match tag with
  | _ :: (_ :: _) as parts => find_pair (tail tag) key
  | _ => Err wrong
  end.

(** ** ICIP-5000: polls *)

(* src: validation/validation_icip_5000.go 24-59 *)
Definition poll_part (counts : gmap string nat) (part : string) : outcome (gmap string nat) :=
  match SplitN2 part " " with
  | [k; v] =>
      let key := TrimSpace k in
      let value := TrimSpace v in
      try (if key =s? "type" then
             reject wrong when (value ≠s? "single") && (value ≠s? "multi") ;; pass
           else if key =s? "ttl" then
             match ParseTimestamp value with
             | None => Err wrong
             | Some v =>
                 reject wrong when v <? 0 ;;
                 reject (join_error (err ErrPollTTLExpired) wrong)
                   when (0 <? v) && Time.Before (TsTime v) now ;;
                 pass
             end
           else if key =s? "title" then pass
           else if key =s? "options" then
             match json_strings value with
             | None => Err wrong
             | Some options => reject wrong when zlen options =? 0 ;; pass
             end
           else Err wrong) ;;
      Ok (<[key := S (default 0%nat (counts !! key))]> counts)
  | _ => Err wrong
  end.

(* src: validation/validation_icip_5000.go 18-66 *)
Definition validatePollTag (tag : Tag) : check :=
  match tag with
  | [] => Panic
  | _ :: parts =>
      let! counts := for_state parts
        (list_to_map [("type", 0%nat); ("ttl", 0%nat); ("options", 0%nat)]) poll_part in
      for_each (map_to_list counts) (fun '(_, count) =>
        reject wrong when (count =? 0)%nat ;; pass)
  end.

(** ** ICIP-4000: settings *)

(* src: validation/validation_icip_4000.go 509-522 *)
Definition hasReplyTag (e : Event) : bool :=
  existsb (fun tag => (4 <=? length tag)%nat && (default "" (tag !! 3%nat) =s? TagMarkerReply))
    (GetTags e "e" ++ GetTags e "a").

(* src: validation/validation_icip_4000.go 467 [validateSettingsTag] *)
Definition is_community_kind (kind : Z) : bool :=
  (kind =? CustomIONKindCommunityDefinition) || (kind =? CustomIONKindCommunityChangeDefinition).

(* src: validation/validation_icip_4000.go 451-507 *)
Definition validateSettingsTag (e : Event) (tag : Tag) : check :=
  reject wrong when hasReplyTag e ;;
  match tag with
  | _ :: settingType :: value :: timestamp :: _ =>
      reject opaque_error when bool_decide (ParseTimestamp timestamp = None) ;;
      if settingType =s? CommentsEnabledSettings then
        reject wrong when negb (is_community_kind (Kind e)) ;;
        reject wrong when (value ≠s? "true") && (value ≠s? "false") ;; pass
      else if settingType =s? RoleRequiredForPostingSettings then
        reject wrong when negb (is_community_kind (Kind e)) ;;
        reject wrong when (value ≠s? AdminRole) && (value ≠s? ModeratorRole) && (value ≠s? "") ;; pass
      else if settingType =s? WhoCanReplySettings then
        reject wrong when negb (bool_decide (Kind e ∈
          [KindTextNote; KindArticle; KindDraftArticle; CustomIONKindEditableTextNote])) ;;
        for_each (Split value ",") (fun v =>
          reject wrong
            when negb (HasPrefix v "following") && negb (HasPrefix v "mentioned")
                 && negb (HasPrefix v "badge|") ;;
          reject wrong when HasPrefix v "badge|" && negb (length (Split v "|") =? 2)%nat ;;
          pass)
      else Err (err ErrUnsupportedTag)
  | _ => Err wrong
  end.

(** ** [validateEventTags] *)

(** The variables the loop over the tags assigns. *)
(* src: validation/validate.go 537-539 [validateEventTags] *)
Record tagCounts : Type := MkCounts {
  bTag : string;
  currentTags : gmap string nat;
  pTags : gmap string nat
}.

(* src: validation/validate.go 599-601 [validateEventTags] *)
Definition bump (k : string) (m : gmap string nat) : gmap string nat :=
  <[k := S (default 0%nat (m !! k))]> m.

(* src: validation/validate.go 314-317 *)
Definition kindAllowMultipleTagsP : gset Z := {[CustomIONKindAttestation]}.

(* src: validation/validate.go 542-551 *)
Definition check_tag_allowed (rules : gmap Z kindValidator) (e : Event) (tag : Tag) : check :=
  let known := bool_decide (is_Some (rules !! Kind e)) in
  let kv := default zero_validator (rules !! Kind e) in
  match KTags kv !! Key tag with
  | None =>
      if known then
        if (Key tag =s? "d") && IsAddressable e then pass else Err (err ErrUnsupportedTag)
      else pass
  | Some data => reject (err ErrUnsupportedTag) when State data =? tagStateForbidden ;; pass
  end.

(* src: validation/validate.go 553-592 *)
Definition check_tag_value (e : Event) (tag : Tag) : check :=
  let key := Key tag in
  if key =s? "imeta" then
    map_error (join_error (err ErrUnsupportedTag)) (validateIMetaTag tag)
  else if (key =s? "a") || (key =s? CustomIONTagAddressableQ) then
    validateAddressableTag e key []
  else if key =s? CustomIONTagCommunity then
    if negb (Kind e =? CustomIONKindTokenizedCommunityDefinition) then
      match uuid_Version (Value tag) with
      | None => Err wrong
      | Some version => reject wrong when negb (version =? 7) ;; pass
      end
    else pass
  else if key =s? CustomIONTagPoll then validatePollTag tag
  else if (key =s? "expiration") || (key =s? "published_at") || (key =s? "editing_ended_at") then
    match ParseTimestamp (Value tag) with
    | None => Err wrong
    | Some v => reject wrong when v <? 0 ;; pass
    end
  else if key =s? "settings" then
    map_error (join_error (err ErrUnsupportedTag)) (validateSettingsTag e tag)
  else if key =s? "k" then
    match Strconv.Atoi (Value tag) with
    | None => Err wrong
    | Some kValue => reject wrong when (kValue <? 0) || (MaxUint16 <? kValue) ;; pass
    end
  else pass.

(* src: validation/validate.go 541-602 *)
Definition count_tag (rules : gmap Z kindValidator) (e : Event) (s : tagCounts) (tag : Tag) :
    outcome tagCounts :=
  try check_tag_allowed rules e tag ;;
  try check_tag_value e tag ;;
  let! s := (if Key tag =s? CustomIONTagOnBehalfOf then
               reject wrong when bTag s ≠s? "" ;;
               Ok (MkCounts (Value tag) (currentTags s) (pTags s))
             else if Key tag =s? "p" then
               Ok (MkCounts (bTag s) (currentTags s) (bump (Value tag) (pTags s)))
             else Ok s) in
  Ok (MkCounts (bTag s) (bump (Key tag) (currentTags s)) (pTags s)).

(* src: validation/validate.go 615-624 [validateEventTags] *)
Definition present (counts : gmap string nat) (k : string) : bool :=
  bool_decide (is_Some (counts !! k)).

(** [found]: the set of tags of the group that occur. *)
(* src: validation/validate.go 628-633 [validateEventTags] *)
Definition found_tags (counts : gmap string nat) (tags : list string) : gset string :=
  list_to_set (filter (fun tag => present counts tag = true) tags).

(* src: validation/validate.go 612-666 *)
Definition check_state (counts : gmap string nat) (kd : string * tagData) : check :=
  let '(key, data) := kd in
  let found := found_tags counts (DTags data) in
  if State data =? tagStateRequiredWith then
    if negb (present counts key) then pass
    else for_each (DTags data) (fun dependentTag =>
           reject wrong when negb (present counts dependentTag) ;; pass)
  else if State data =? tagStateRequired then
    reject wrong when negb (present counts key) ;; pass
  else if State data =? tagStateOneOfSingle then
    reject wrong when (size found =? 0)%nat ;;
    reject wrong when (1 <? size found)%nat ;;
    for_each (elements found) (fun tag =>
      reject wrong when (1 <? default 0%nat (counts !! tag))%nat ;; pass)
  else if State data =? tagStateOneOf then
    reject wrong when (size found =? 0)%nat ;;
    reject wrong when (1 <? size found)%nat ;; pass
  else pass.

(* src: validation/validate.go 536-673 *)
Definition validateEventTags (e : Event) (rules : gmap Z kindValidator) : check :=
  let kv := default zero_validator (rules !! Kind e) in
  let! s := for_state (EvTags e) (MkCounts "" ∅ ∅) (count_tag rules e) in
  try (if bool_decide (Kind e ∈ kindAllowMultipleTagsP) then pass
       else for_each (map_to_list (pTags s)) (fun '(_, count) =>
              reject wrong when (1 <? count)%nat ;; pass)) ;;
  try for_each (map_to_list (KTags kv)) (check_state (currentTags s)) ;;
  reject wrong when IsAddressable e && (Value (GetTag e "d") =s? "") ;;
  pass.
End TagValues.

(** ** Specification of [validateEventTags] *)

Section TagTheorems.
Context {N : Nostr} {G : GoText} {J : GoJSON} {E : Env}.

(** How often a key occurs. *)
Definition occurrences (tags : Tags) (k : string) : nat :=
  length (filter (fun t => Key t = k) tags).

Definition tag_allowed (rules : gmap Z kindValidator) (e : Event) (tag : Tag) : Prop :=
  match rules !! Kind e with
  | None => True
  | Some kv =>
      match KTags kv !! Key tag with
      | Some data => State data ≠ tagStateForbidden
      | None => Key tag = "d" /\ IsAddressable e = true
      end
  end.

(** Exactly one tag of the group occurs. *)
Definition one_of (tags : list string) (count : string -> nat) (n : nat -> Prop) : Prop :=
  exists t, t ∈ tags /\ n (count t) /\ forall t', t' ∈ tags -> (0 < count t')%nat -> t' = t.

Definition state_holds (count : string -> nat) (key : string) (data : tagData) : Prop :=
  (State data = tagStateRequiredWith -> (0 < count key)%nat ->
     forall t, t ∈ DTags data -> (0 < count t)%nat) /\
  (State data = tagStateRequired -> (0 < count key)%nat) /\
  (State data = tagStateOneOfSingle -> one_of (DTags data) count (fun n => n = 1%nat)) /\
  (State data = tagStateOneOf -> one_of (DTags data) count (fun n => (0 < n)%nat)).

Record valid_tags (rules : gmap Z kindValidator) (e : Event) : Prop := {
  vt_allowed : forall t, t ∈ EvTags e -> tag_allowed rules e t;
  vt_value : forall t, t ∈ EvTags e -> check_tag_value e t = pass;
  vt_on_behalf : forall i j t1 t2, EvTags e !! i = Some t1 -> EvTags e !! j = Some t2 ->
    (i < j)%nat -> Key t1 = CustomIONTagOnBehalfOf -> Key t2 = CustomIONTagOnBehalfOf ->
    Value t1 = "";
  vt_p : Kind e ≠ CustomIONKindAttestation -> NoDup (Value <$> GetTags e "p");
  vt_state : forall key data,
    KTags (default zero_validator (rules !! Kind e)) !! key = Some data ->
    state_holds (occurrences (EvTags e)) key data;
  vt_d : IsAddressable e = true -> Value (GetTag e "d") ≠ ""
}.

(** ** Lemmas *)

Definition count_keys (f : Tag -> string) (tags : Tags) (m : gmap string nat) : gmap string nat :=
  fold_left (fun m t => bump (f t) m) tags m.

Lemma bump_lookup k k' m :
  bump k m !! k' = if bool_decide (k = k') then Some (S (default 0%nat (m !! k))) else m !! k'.
Proof.
  unfold bump. case_bool_decide as Hk; [by subst; rewrite lookup_insert_eq|].
  by rewrite lookup_insert_ne.
Qed.

Lemma count_keys_cons f t tags m : count_keys f (t :: tags) m = count_keys f tags (bump (f t) m).
Proof. done. Qed.

Definition positive (m : gmap string nat) : Prop := forall k n, m !! k = Some n -> (0 < n)%nat.

Lemma count_keys_positive f tags m : positive m -> positive (count_keys f tags m).
Proof.
  revert m. induction tags as [|t tags IH]; intros m Hm; cbn; [done|].
  apply IH. intros k n. rewrite bump_lookup. case_bool_decide; [intros [= <-]; lia|]. apply Hm.
Qed.

Lemma count_keys_lookup f tags m k :
  default 0%nat (count_keys f tags m !! k) =
  (default 0%nat (m !! k) + length (filter (fun t => f t = k) tags))%nat.
Proof.
  revert m. induction tags as [|t tags IH]; intros m; [cbn; lia|].
  rewrite count_keys_cons, IH, bump_lookup, filter_cons. repeat (case_bool_decide || case_decide); simplify_eq; cbn; lia.
Qed.

Lemma count_keys_some f tags k n :
  count_keys f tags ∅ !! k = Some n -> n = length (filter (fun t => f t = k) tags).
Proof.
  intros H. pose proof (count_keys_lookup f tags ∅ k) as Hc.
  rewrite H, lookup_empty in Hc. exact Hc.
Qed.

Lemma count_keys_present f tags k :
  present (count_keys f tags ∅) k = (0 <? length (filter (fun t => f t = k) tags))%nat.
Proof.
  pose proof (count_keys_lookup f tags ∅ k) as Hc. rewrite lookup_empty in Hc. cbn in Hc.
  unfold present. destruct (count_keys f tags ∅ !! k) as [n|] eqn:Hk; cbn in Hc.
  - assert (0 < n)%nat by (eapply (count_keys_positive f tags ∅); [by intros ? ?|done]).
    rewrite bool_decide_eq_true_2 by done. symmetry. apply Nat.ltb_lt. lia.
  - rewrite bool_decide_eq_false_2 by (by intros [? ?]). symmetry. apply Nat.ltb_ge. lia.
Qed.

(** At most the last [b] tag has a value, [b] the value so far. *)
Fixpoint b_once (b : string) (tags : Tags) : Prop :=
  match tags with
  | [] => True
  | t :: tags => if Key t =s? CustomIONTagOnBehalfOf then b = "" /\ b_once (Value t) tags
                 else b_once b tags
  end.

Fixpoint b_last (b : string) (tags : Tags) : string :=
  match tags with
  | [] => b
  | t :: tags => b_last (if Key t =s? CustomIONTagOnBehalfOf then Value t else b) tags
  end.

Lemma b_once_spec b tags :
  b_once b tags <->
  (forall j t, tags !! j = Some t -> Key t = CustomIONTagOnBehalfOf -> b = "") /\
  (forall i j t1 t2, tags !! i = Some t1 -> tags !! j = Some t2 -> (i < j)%nat ->
     Key t1 = CustomIONTagOnBehalfOf -> Key t2 = CustomIONTagOnBehalfOf -> Value t1 = "").
Proof.
  revert b. induction tags as [|t tags IH]; intros b; cbn [b_once].
  - split; [|done]. intros _. split; intros *; rewrite lookup_nil; done.
  - destruct (String.eqb_spec (Key t) CustomIONTagOnBehalfOf) as [Ht|Ht]; rewrite IH.
    + split.
      * intros (-> & H1 & H2). split; [done|].
        intros [|i] [|j] t1 t2 Hi Hj Hij ? ?; cbn in *; try lia; simplify_eq; [by eapply H1|].
        apply (H2 i j t1 t2); [done|done|lia|done..].
      * intros [H1 H2]. split; [by apply (H1 0%nat t)|]. split.
        -- intros j t2 Hj Hk. apply (H2 0%nat (S j) t t2); [done|done|lia|done..].
        -- intros i j t1 t2 Hi Hj Hij ? ?.
           apply (H2 (S i) (S j) t1 t2); [done|done|lia|done..].
    + split; intros [H1 H2]; split.
      * intros [|j] t2 Hj; cbn in *; [by simplify_eq|]. by eapply H1.
      * intros [|i] [|j] t1 t2 Hi Hj Hij ? ?; cbn in *; try lia; simplify_eq.
        apply (H2 i j t1 t2); [done|done|lia|done..].
      * intros j t2 Hj. by apply (H1 (S j)).
      * intros i j t1 t2 Hi Hj Hij ? ?. apply (H2 (S i) (S j) t1 t2); [done|done|lia|done..].
Qed.

Lemma check_tag_allowed_Ok rules e tag :
  check_tag_allowed rules e tag = pass <-> tag_allowed rules e tag.
Proof.
  unfold check_tag_allowed, tag_allowed. destruct (rules !! Kind e) as [kv|] eqn:Hk; cbn.
  - destruct (KTags kv !! Key tag) as [data|].
    + rewrite reject_Ok. unfold tagStateForbidden. rewrite Z.eqb_neq. naive_solver.
    + destruct (String.eqb_spec (Key tag) "d"), (IsAddressable e); cbn; naive_solver.
  - by rewrite lookup_empty.
Qed.

Lemma count_tag_Ok rules e s t s' :
  count_tag rules e s t = Ok s' <->
  (tag_allowed rules e t /\ check_tag_value e t = pass) /\
  (Key t = CustomIONTagOnBehalfOf -> bTag s = "") /\
  s' = MkCounts (if Key t =s? CustomIONTagOnBehalfOf then Value t else bTag s)
         (bump (Key t) (currentTags s))
         (if Key t =s? "p" then bump (Value t) (pTags s) else pTags s).
Proof.
  unfold count_tag. rewrite !bind_Ok_unit, bind_Ok, check_tag_allowed_Ok.
  destruct (String.eqb_spec (Key t) CustomIONTagOnBehalfOf) as [Hb|Hb].
  - rewrite Hb. setoid_rewrite reject_Ok. cbn [String.eqb].
    setoid_rewrite negb_false_iff. setoid_rewrite String.eqb_eq. naive_solver.
  - destruct (String.eqb_spec (Key t) "p") as [Hp|Hp]; naive_solver.
Qed.

(** The loop over the tags. *)
Lemma count_loop rules e tags s s' :
  for_state tags s (count_tag rules e) = Ok s' <->
  Forall (fun t => tag_allowed rules e t /\ check_tag_value e t = pass) tags /\
  b_once (bTag s) tags /\
  s' = MkCounts (b_last (bTag s) tags) (count_keys Key tags (currentTags s))
         (count_keys Value (filter (fun t => Key t = "p") tags) (pTags s)).
Proof.
  revert s. induction tags as [|t tags IH]; intros s; cbn [for_state].
  - cbn. destruct s. split; [intros [= <-]; by split_and!|by intros (_ & _ & ->)].
  - rewrite bind_Ok, Forall_cons, filter_cons. setoid_rewrite count_tag_Ok.
    setoid_rewrite IH. cbn [b_once b_last].
    destruct (String.eqb_spec (Key t) CustomIONTagOnBehalfOf) as [Hb|Hb];
      destruct (String.eqb_spec (Key t) "p") as [Hp|Hp]; try (by rewrite Hb in Hp);
      [rewrite decide_False by done|rewrite decide_True by done|rewrite decide_False by done];
      (split;
        [intros (s1 & (Ha & Hbt & ->) & Hall & Hb1 & ->); cbn in *; naive_solver
        |intros ([Ha Hall] & Hb1 & ->); eexists; cbn in *; naive_solver]).
Qed.

Lemma found_one_of counts tags (n : nat -> Prop) :
  (forall m, n m -> (0 < m)%nat) ->
  let count k := default 0%nat (counts !! k) in
  (forall k, present counts k = (0 <? count k)%nat) ->
  (size (found_tags counts tags) ≠ 0%nat /\ (size (found_tags counts tags) <= 1)%nat /\
   (forall t, t ∈ found_tags counts tags -> n (count t))) <-> one_of tags count n.
Proof.
  intros Hn count Hpres.
  assert (Hin : forall t, t ∈ found_tags counts tags <-> t ∈ tags /\ (0 < count t)%nat).
  { intros t. unfold found_tags. rewrite elem_of_list_to_set, list_elem_of_filter, Hpres.
    rewrite Nat.ltb_lt. tauto. }
  split.
  - intros (H0 & H1 & Hall). assert (size (found_tags counts tags) = 1%nat) as Hs by lia.
    apply size_1_elem_of in Hs as [t Ht]. exists t.
    assert (t ∈ found_tags counts tags) as Hfound by set_solver.
    split; [by apply Hin|]. split; [by apply Hall|]. intros t' Ht' Hc.
    assert (t' ∈ found_tags counts tags) by by apply Hin. set_solver.
  - intros (t & Ht & Hnt & Huniq).
    assert (found_tags counts tags ≡ {[t]}) as Heq.
    { intros t'. rewrite Hin, elem_of_singleton. split.
      - intros []. by apply Huniq.
      - intros ->. eauto. }
    rewrite Heq, size_singleton. split_and!; [done..|]. intros t' Ht'. by set_solver.
Qed.

Lemma check_state_Ok tags key data :
  check_state (count_keys Key tags ∅) (key, data) = pass <->
  state_holds (occurrences tags) key data.
Proof.
  assert (Hp : forall k, present (count_keys Key tags ∅) k = (0 <? occurrences tags k)%nat)
    by exact (count_keys_present Key tags).
  assert (Hc : forall k, default 0%nat (count_keys Key tags ∅ !! k) = occurrences tags k).
  { intros k. rewrite count_keys_lookup, lookup_empty. done. }
  assert (Hext : forall n, one_of (DTags data) (fun k => default 0%nat (count_keys Key tags ∅ !! k)) n
    <-> one_of (DTags data) (occurrences tags) n).
  { intros n. unfold one_of. setoid_rewrite Hc. done. }
  pose proof (found_one_of (count_keys Key tags ∅) (DTags data) (fun n => n = 1%nat)
    ltac:(cbn; lia) ltac:(intros; cbn; by rewrite Hc, Hp)) as Hsingle.
  pose proof (found_one_of (count_keys Key tags ∅) (DTags data) (fun n => (0 < n)%nat)
    ltac:(done) ltac:(intros; cbn; by rewrite Hc, Hp)) as Hone.
  rewrite Hext in Hsingle, Hone. unfold check_state, state_holds. rewrite Hp, <- Hsingle, <- Hone.
  destruct (Z.eqb_spec (State data) tagStateRequiredWith) as [->|H1].
  { destruct (Nat.ltb_spec 0 (occurrences tags key)); cbn [negb].
    - rewrite for_each_Ok, Forall_forall. setoid_rewrite reject_Ok. setoid_rewrite Hp.
      setoid_rewrite negb_false_iff. setoid_rewrite Nat.ltb_lt. split; [|naive_solver].
      intros Hall. split_and!; [intros; by apply Hall|discriminate..].
    - split; [|done]. intros _. split_and!; [lia|discriminate..]. }
  destruct (Z.eqb_spec (State data) tagStateRequired) as [->|H2].
  { rewrite reject_Ok, negb_false_iff, Nat.ltb_lt.
    split; [intros [Hk _]; split_and!; done|naive_solver]. }
  destruct (Z.eqb_spec (State data) tagStateOneOfSingle) as [->|H3].
  { rewrite !reject_Ok, for_each_Ok, Forall_forall, Nat.eqb_neq, Nat.ltb_ge.
    setoid_rewrite elem_of_elements. setoid_rewrite reject_Ok. setoid_rewrite Nat.ltb_ge.
    split.
    - intros (Hs0 & Hs1 & Hall). split_and!; try done. intros _. split_and!; [done..|].
      intros t Ht. destruct (Hall t Ht) as [Hle _]. unfold found_tags in Ht.
      rewrite elem_of_list_to_set, list_elem_of_filter, Hp, Nat.ltb_lt in Ht.
      rewrite Hc in *. lia.
    - intros (_ & _ & Hs & _). destruct (Hs eq_refl) as (Hs0 & Hs1 & Hall).
      split_and!; [done..|]. intros t Ht. rewrite (Hall t Ht). split; [lia|done]. }
  destruct (Z.eqb_spec (State data) tagStateOneOf) as [->|H4].
  { rewrite !reject_Ok, Nat.eqb_neq, Nat.ltb_ge. split; [|naive_solver].
    intros (Hs0 & Hs1 & _). split_and!; try done. intros _. split_and!; [done..|].
    intros t Ht. unfold found_tags in Ht.
    rewrite elem_of_list_to_set, list_elem_of_filter, Hp, Nat.ltb_lt in Ht. rewrite Hc. by destruct Ht. }
  split; [|done]. intros _. by split_and!.
Qed.

Lemma length_filter_fmap {A} (f : A -> string) (l : list A) x :
  length (filter (fun y => y = x) (f <$> l)) = length (filter (fun a => f a = x) l).
Proof.
  induction l as [|a l IH]; [done|]. rewrite fmap_cons, !filter_cons.
  case_decide; cbn; congruence.
Qed.

Lemma count_zero (l : list string) x : x ∉ l -> length (filter (fun y => y = x) l) = 0%nat.
Proof.
  induction l as [|a l IH]; [done|]. rewrite not_elem_of_cons, filter_cons. intros [Hx Hl].
  rewrite decide_False by done. auto.
Qed.

Lemma NoDup_count (l : list string) :
  NoDup l <-> forall x, (length (filter (fun y => y = x) l) <= 1)%nat.
Proof.
  induction l as [|a l IH].
  - split; [intros _ x; cbn; lia|constructor].
  - rewrite NoDup_cons, IH. split.
    + intros [Ha Hl] x. rewrite filter_cons. case_decide as Hx; [subst|apply Hl].
      cbn. by rewrite count_zero.
    + intros H. split.
      * specialize (H a). rewrite filter_cons_True in H by done. cbn in H.
        apply (filter_nil_not_elem_of (fun y => y = a)); [|done].
        apply nil_length_inv. lia.
      * intros x. specialize (H x). rewrite filter_cons in H. case_decide; cbn in H; lia.
Qed.

(** The values of the [p] tags, counted. *)
Lemma check_p_Ok e :
  (if bool_decide (Kind e ∈ kindAllowMultipleTagsP) then pass
   else for_each (map_to_list (count_keys Value (filter (fun t => Key t = "p") (EvTags e)) ∅))
          (fun '(_, count) => reject wrong when (1 <? count)%nat ;; pass)) = pass <->
  (Kind e ≠ CustomIONKindAttestation -> NoDup (Value <$> GetTags e "p")).
Proof.
  unfold kindAllowMultipleTagsP. case_bool_decide as Hk; rewrite elem_of_singleton in Hk.
  { split; [|done]. intros _ []. done. }
  rewrite for_each_Ok, Forall_forall, NoDup_count. fold (GetTags e "p").
  set (m := count_keys Value (GetTags e "p") ∅). split.
  - intros Hall _ x. rewrite length_filter_fmap. destruct (m !! x) as [n|] eqn:Hm.
    + pose proof (proj2 (elem_of_map_to_list m x n) Hm) as Hin.
      apply Hall, reject_Ok in Hin as [Hin%Nat.ltb_ge _].
      by rewrite <- (count_keys_some _ _ _ _ Hm).
    + pose proof (count_keys_lookup Value (GetTags e "p") ∅ x) as Hc. fold m in Hc.
      rewrite Hm, lookup_empty in Hc. cbn in *. lia.
  - intros Hnd [x n] Hin%elem_of_map_to_list. apply reject_Ok. split; [|done].
    apply Nat.ltb_ge. rewrite (count_keys_some _ _ _ _ Hin).
    specialize (Hnd Hk x). by rewrite length_filter_fmap in Hnd.
Qed.

Lemma validateEventTags_spec e rules :
  validateEventTags e rules = pass <-> valid_tags rules e.
Proof.
  unfold validateEventTags. rewrite bind_Ok. setoid_rewrite count_loop.
  setoid_rewrite bind_Ok_unit. setoid_rewrite bind_Ok_unit. setoid_rewrite reject_Ok.
  setoid_rewrite for_each_Ok. cbn [bTag currentTags KTags].
  split.
  - intros (s & (Hall & Hb & ->) & Hpt & Hst & Hd & _). cbn in *.
    apply b_once_spec in Hb as [_ Hb]. rewrite Forall_forall in Hall. constructor.
    + intros t Ht. by apply Hall.
    + intros t Ht. by apply Hall.
    + done.
    + by apply check_p_Ok.
    + intros key data Hkd. rewrite Forall_forall in Hst. apply check_state_Ok, Hst.
      by apply elem_of_map_to_list.
    + intros Ha Hv. rewrite Ha, Hv in Hd. done.
  - intros [Ha Hv Hb Hpt Hst Hd]. eexists. split.
    { split; [|split; [|done]]; cbn.
      - apply Forall_forall. intros t Ht. auto.
      - apply b_once_spec. split; [done|exact Hb]. }
    cbn. split; [by apply check_p_Ok|]. split.
    { apply Forall_forall. intros [key data] Hkd%elem_of_map_to_list.
      apply check_state_Ok. by apply Hst. }
    split; [|done]. destruct (IsAddressable e); [|done]. cbn.
    apply String.eqb_neq. auto.
Qed.

(** [validateEventTags] accepts an event exactly when every tag is in
    the table of its kind and not forbidden there (a kind without a table
    accepts any key, an addressable event a [d] tag), every value passes the
    check of its key, at most the last [b] tag has a value, [p] values are
    distinct (attestations apart), the required, required-with, one-of and
    one-of-single states hold of the occurrences, and an addressable event
    has a [d] value. *)
Lemma validateEventTags_Ok e rules :
  validateEventTags e rules = pass <-> valid_tags rules e.
Proof. apply validateEventTags_spec. Qed.

(** ** Media attachments *)

Record valid_imeta (values : gmap string string) : Prop := {
  vi_supported : forall k v, values !! k = Some v -> is_Some (supportedIMetaKeys !! k);
  vi_url : HasPrefix (get values "url") "http" = true;
  vi_mime : get values "m" ≠ "" /\ ToLower (get values "m") = get values "m";
  vi_video : HasPrefix (get values "m") "video" = true ->
    get values "thumb" ≠ "" /\ get values "image" ≠ "" /\ get values "dim" ≠ "";
  vi_alt : get values "alt" ≠ "";
  vi_ox : get values "ox" ≠ "" /\ is_Some (Hex.DecodeString (get values "ox"));
  vi_dim : forall v, values !! "dim" = Some v -> length (Split v "x") = 2%nat
}.

Lemma get_nonempty values k : get values k ≠ "" -> values !! k = Some (get values k).
Proof. unfold get. by destruct (values !! k). Qed.

#[local] Opaque supportedIMetaKeys.
Lemma check_imeta_Ok values k v :
  check_imeta values (k, v) = pass <->
  is_Some (supportedIMetaKeys !! k) /\
  (k = "x" \/ k = "ox" -> is_Some (Hex.DecodeString v)) /\
  (k = "url" -> HasPrefix v "http" = true) /\
  (k = "m" -> ToLower v = v /\ (HasPrefix v "video" = true ->
     get values "thumb" ≠ "" /\ get values "image" ≠ "" /\ get values "dim" ≠ "")) /\
  (k = "dim" -> length (Split v "x") = 2%nat).
Proof.
  unfold check_imeta. rewrite reject_Ok, bool_decide_eq_false, <- not_eq_None_Some.
  destruct (String.eqb_spec k "x") as [->|].
  { destruct (Hex.DecodeString v); intuition (discriminate || eauto). }
  destruct (String.eqb_spec k "ox") as [->|].
  { destruct (Hex.DecodeString v); intuition (discriminate || eauto). all: exfalso; by eapply is_Some_None. }
  destruct (String.eqb_spec k "url") as [->|]; cbv match.
  { cbn. rewrite reject_Ok, negb_false_iff. intuition discriminate. }
  destruct (String.eqb_spec k "m") as [->|]; cbv match.
  { cbn -[for_each]. destruct (String.eqb_spec (ToLower v) v); cbn [negb]; [|intuition discriminate].
    destruct (HasPrefix v "video"); [|intuition discriminate].
    rewrite for_each_Ok, !Forall_cons, !reject_Ok, !String.eqb_neq. intuition (discriminate || constructor). }
  destruct (String.eqb_spec k "dim") as [->|]; cbn; [|intuition congruence].
  rewrite reject_Ok, negb_false_iff, Nat.eqb_eq. intuition discriminate.
Qed.

#[local] Transparent supportedIMetaKeys.
Lemma required_imeta_keys k state :
  supportedIMetaKeys !! k = Some state ->
  state = tagStateRequired <-> k = "url" \/ k = "m" \/ k = "alt".
Proof.
  intros H. apply elem_of_list_to_map_2 in H.
  repeat (apply elem_of_cons in H as [H|H]; [injection H as -> ->; naive_solver|]).
  by apply not_elem_of_nil in H.
Qed.

Lemma check_required_imeta values :
  Forall (fun kv => (let '(key, state) := kv in
    reject wrong when (state =? tagStateRequired) && (get values key =s? "") ;; pass) = pass)
    (map_to_list supportedIMetaKeys) <->
  get values "url" ≠ "" /\ get values "m" ≠ "" /\ get values "alt" ≠ "".
Proof.
  rewrite Forall_forall. split.
  - intros H. split_and!; intros Hv;
      match type of Hv with get _ ?k = _ =>
        assert (Hin : (k, tagStateRequired) ∈ map_to_list supportedIMetaKeys)
          by (apply elem_of_map_to_list; vm_compute; reflexivity) end;
      apply H in Hin; by rewrite Hv in Hin.
  - intros (Hu & Hm & Ha) [k state] Hin%elem_of_map_to_list.
    apply reject_Ok. split; [|done]. destruct (Z.eqb_spec state tagStateRequired) as [Hs|]; [|done].
    apply (required_imeta_keys _ _ Hin) in Hs. cbn. apply String.eqb_neq. naive_solver.
Qed.

Lemma imeta_x_unsupported : supportedIMetaKeys !! "x" = None.
Proof. reflexivity. Qed.
#[local] Opaque supportedIMetaKeys.

Lemma check_imeta_valid values :
  (get values "url" ≠ "" /\ get values "m" ≠ "" /\ get values "alt" ≠ "") /\
  (get values "x" =s? "") && (get values "ox" =s? "") = false /\
  Forall (fun kv => check_imeta values kv = pass) (map_to_list values) <->
  valid_imeta values.
Proof.
  rewrite Forall_forall. split.
  - intros ((Hu & Hm & Ha) & Hx & Hall).
    assert (Hkv : forall k v, values !! k = Some v -> check_imeta values (k, v) = pass)
      by (intros k v Hk; apply Hall; by apply elem_of_map_to_list).
    setoid_rewrite check_imeta_Ok in Hkv.
    assert (Hnox : values !! "x" = None).
    { destruct (values !! "x") as [v|] eqn:Hv; [|done].
      destruct (Hkv _ _ Hv) as (Hs & _). rewrite imeta_x_unsupported in Hs. by destruct Hs. }
    unfold get at 1 in Hx. rewrite Hnox in Hx. cbn in Hx. apply String.eqb_neq in Hx.
    destruct (Hkv _ _ (get_nonempty _ _ Hu)) as (_ & _ & Hurl & _).
    destruct (Hkv _ _ (get_nonempty _ _ Hm)) as (_ & _ & _ & Hmime & _).
    destruct (Hkv _ _ (get_nonempty _ _ Hx)) as (_ & Hox & _).
    destruct (Hmime eq_refl) as [Hlow Hvid].
    constructor; auto.
    + intros k v Hk. by apply (Hkv k v).
    + intros v Hv. by apply (Hkv _ _ Hv).
  - intros [Hsup Hu [Hm Hl] Hvid Ha [Hox Hhex] Hdim]. split; [split_and!; [|done..]|split].
    + intros Hu0. by rewrite Hu0 in Hu.
    + rewrite (proj2 (String.eqb_neq _ _) Hox). apply andb_false_r.
    + intros [k v] Hk%elem_of_map_to_list. apply check_imeta_Ok.
      assert (Hget : get values k = v) by (unfold get; by rewrite Hk).
      split; [by eapply Hsup|]. split.
      { intros [-> | ->]; [|by subst v]. pose proof (Hsup "x" v Hk) as Hs.
        rewrite imeta_x_unsupported in Hs. by destruct Hs. }
      split_and!; intros ->; subst v; auto.
Qed.

(** The checks fail with one error only. *)
Lemma validateIMetaTag_either tag values :
  ParseIMeta tag = Ok values -> validateIMetaTag tag = pass \/ validateIMetaTag tag = Err wrong.
Proof.
  unfold validateIMetaTag. destruct tag as [|t0 vs]; [auto|]. cbn [is_nil]. intros ->.
  cbn [map_error mbind outcome_bind].
  destruct (for_each_either (map_to_list supportedIMetaKeys) (fun '(key, state) =>
    reject wrong when (state =? tagStateRequired) && (get values key =s? "") ;; pass) wrong)
    as [-> | ->]; [intros []; case_match; auto| |by right].
  cbn [mbind outcome_bind]. case_match; [by right|].
  apply for_each_either. intros [? v]. unfold check_imeta. repeat case_match; auto.
  apply for_each_either. intros ?. case_match; auto.
Qed.

(** A media attachment is accepted exactly with supported keys only, a
    URL, a lower-case mime type (with thumb, image and dim for a video), an
    alt text, a well-formed dim if there is one, and the hash of the original
    file under [ox].  The key [x], which the code's comment offers as the
    alternative to [ox], is never accepted: it is not a supported key. *)
Lemma validateIMetaTag_Ok tag values :
  tag ≠ [] -> ParseIMeta tag = Ok values ->
  (validateIMetaTag tag = pass <-> valid_imeta values) /\
  (is_Some (values !! "x") -> validateIMetaTag tag = Err wrong).
Proof.
  intros Hne Hparse. assert (Hiff : validateIMetaTag tag = pass <-> valid_imeta values).
  { unfold validateIMetaTag. destruct tag as [|t0 vs]; [done|]. cbn [is_nil]. rewrite Hparse.
    cbn [map_error mbind outcome_bind].
    by rewrite bind_Ok_unit, reject_Ok, !for_each_Ok, check_required_imeta, <- check_imeta_valid. }
  split; [done|]. intros [x Hx].
  destruct (validateIMetaTag_either tag values Hparse) as [Hok|]; [|done].
  apply Hiff in Hok as [Hsup _ _ _ _ _ _]. pose proof (Hsup "x" x Hx) as Hs.
  rewrite imeta_x_unsupported in Hs. by destruct Hs.
Qed.
End TagTheorems.

(** ** The additional checks of a kind *)

Definition flagged (kv : kindValidator) (flag : Z) : bool := negb (Z.land (Flags kv) flag =? 0).

Lemma collect_errors_Ok ev e rules (fs : list (eventValidator -> Event -> ruleSet -> check)) acc :
  (let! err := for_state fs acc (fun acc f =>
     match f ev e rules with
     | Ok _ => Ok acc
     | Err x => Ok (join_opt acc (Some x))
     | Panic => Panic
     | OutOfFuel => OutOfFuel
     end) in of_error err) = pass <->
  acc = None /\ Forall (fun f => f ev e rules = pass) fs.
Proof.
  revert acc. induction fs as [|f fs IH]; intros acc; cbn [for_state].
  - cbn. destruct acc; cbn; [naive_solver|]. split; [by split|done].
  - rewrite Forall_cons. destruct (f ev e rules) as [[]|x| |]; cbn [mbind outcome_bind].
    + rewrite IH. tauto.
    + rewrite IH. destruct acc; cbn; naive_solver.
    + naive_solver.
    + naive_solver.
Qed.

Lemma Execute_spec kv ev e rules :
  Execute kv ev e rules = pass <->
  (flagged kv kindValidatorFlagContentRequired = true -> Content e ≠ "") /\
  (flagged kv kindValidatorFlagContentEmpty = true -> Content e = "") /\
  (flagged kv kindValidatorFlagIONIdentityKeySignatureRequired = true ->
     PubKey e ∈ IONIdentityPublicKeys ev) /\
  Forall (fun f => f ev e rules = pass) (KValidate kv).
Proof.
  unfold Execute. cbv zeta. rewrite collect_errors_Ok. fold (flagged kv kindValidatorFlagContentRequired).
  fold (flagged kv kindValidatorFlagContentEmpty).
  fold (flagged kv kindValidatorFlagIONIdentityKeySignatureRequired).
  rewrite !(assoc and). apply and_iff_compat_r. rewrite <- !(assoc and).
  destruct (String.eqb_spec (Content e) ""), (bool_decide_reflect (PubKey e ∈ IONIdentityPublicKeys ev)),
    (flagged kv kindValidatorFlagContentRequired), (flagged kv kindValidatorFlagContentEmpty),
    (flagged kv kindValidatorFlagIONIdentityKeySignatureRequired); cbn; intuition congruence.
Qed.

(** The additional checks of a kind accept an event exactly when its
    content is there or missing as the kind requires, its signer is an ION
    identity key where the kind requires one, and every additional function
    accepts it: the code collects all errors but loses none. *)
Lemma Execute_Ok kv ev e rules :
  Execute kv ev e rules = pass <->
  (flagged kv kindValidatorFlagContentRequired = true -> Content e ≠ "") /\
  (flagged kv kindValidatorFlagContentEmpty = true -> Content e = "") /\
  (flagged kv kindValidatorFlagIONIdentityKeySignatureRequired = true ->
     PubKey e ∈ IONIdentityPublicKeys ev) /\
  Forall (fun f => f ev e rules = pass) (KValidate kv).
Proof. apply Execute_spec. Qed.

Module TagRulesWitness.
Import Plain AsciiText.
#[local] Instance J : GoJSON := {|
  json_Valid _ := false; json_profile _ := None; json_strings _ := Some ["a"; "b"];
  json_ints _ := None; json_event _ := None; json_from _ := None; json_to _ := None |}.
#[local] Instance E : Env := {| user := Filters.no_user; now := 0 |}.

Definition picture : Tag := ["imeta"; "url https://x"; "m image/png"; "alt a"; "ox ff"].
Definition picture_values : gmap string string :=
  {["url" := "https://x"; "m" := "image/png"; "alt" := "a"; "ox" := "ff"]}.

Lemma validateIMetaTag_Ok_witness :
  (validateIMetaTag picture = pass <-> valid_imeta picture_values) /\
  (is_Some (picture_values !! "x") -> validateIMetaTag picture = Err wrong).
Proof. apply (validateIMetaTag_Ok picture picture_values); [done|vm_compute; reflexivity]. Defined.

Example picture_accepted : validateIMetaTag picture = pass.
Proof. vm_compute. reflexivity. Qed.

(** With the key [x] in addition to [ox]: refused. *)
Example x_refused : validateIMetaTag (picture ++ ["x ff"]) = Err wrong.
Proof. vm_compute. reflexivity. Qed.

(** A table with a required, a forbidden and a one-of state. *)
Definition table : gmap Z kindValidator :=
  {[1 := Build (Required ["k"] (OneOfSingle ["e"; "a"] (NoExpiration newKindValidatorBuilder)))]}.
Definition reply (tags : Tags) : Event := MkEvent None "1" "a" 0 1 tags "" "".

Example reply_tags_accepted : validateEventTags (reply [["k"; "1"]; ["e"; "x"]; ["t"; "y"]]) table = pass.
Proof. vm_compute. reflexivity. Qed.
Example missing_k : validateEventTags (reply [["e"; "x"]]) table = Err wrong.
Proof. vm_compute. reflexivity. Qed.
Example two_e : validateEventTags (reply [["k"; "1"]; ["e"; "x"]; ["e"; "y"]]) table = Err wrong.
Proof. vm_compute. reflexivity. Qed.
Example expires : validateEventTags (reply [["k"; "1"]; ["e"; "x"]; ["expiration"; "5"]]) table
  = Err (err ErrUnsupportedTag).
Proof. vm_compute. reflexivity. Qed.
End TagRulesWitness.
