(* ===== verification/Rules.v ===== *)
(** * Package validation: rules of single kinds

    The functions that look only at the event (and the request): follow
    lists, deletions' shape, reactions to websites, labels, reports, gift
    wraps, relay lists, jobs, wallets, tokenized communities; and the table
    of tags of every kind ([KindSupportedTags]) with its additional checks. *)

From S2P Require Import Prelude GoStd Nostr Model OnBehalf Validator TagRules.
Import Strings.

Section Rules.
Context {N : Nostr} {G : GoText} {J : GoJSON} {E : Env}.

(** ** NIP-02, NIP-25, NIP-32, NIP-56, NIP-65 *)

(* src: validation/validation_nip_02.go 11-26 *)
Definition validateFollowListEvent (e : Event) : check :=
  let master := GetMasterPublicKey e in
  for_each (GetTags e "p") (fun tag =>
    let v := Value tag in
    reject wrong when v =s? "" ;;
    reject wrong when (v =s? master) || (v =s? PubKey e) ;;
    pass).

(* src: validation/validation_nip_25.go 18-27 *)
Definition validateKindReactionToWebsiteEvent (e : Event) : check :=
  reject wrong when (Content e ≠s? "+") && (Content e ≠s? "-") && (Content e ≠s? "") ;;
  reject wrong when Value (GetTag e "r") =s? "" ;;
  pass.

(* src: validation/validation_nip_32.go 21-41 *)
Definition validateLabelTags (e : Event) : check :=
  match GetFirst (EvTags e) ["l"], GetFirst (EvTags e) ["L"] with
  | None, None => if negb (Kind e =? KindLabel) then pass else Err wrong
  | None, _ => Err wrong
  | Some labelTag, labelNamespaceTag =>
      reject wrong when (length labelTag <? 3)%nat ;;
      reject wrong when (maxLabelSymbolLength <? len (Value labelTag))%nat ;;
      let! l2 := index labelTag 2 in
      match labelNamespaceTag with
      | None => reject wrong when l2 ≠s? UserGeneratedContentNamespace ;; pass
      | Some ns =>
          let! n1 := index ns 1 in
          reject wrong when l2 ≠s? n1 ;; pass
      end
  end.

(* src: validation/validation_nip_32.go 13-19 [validateKindLabelingEvent] *)
Definition has_first (e : Event) (k : string) : bool :=
  bool_decide (is_Some (GetFirst (EvTags e) [k])).

(* src: validation/validation_nip_32.go 12-19 *)
Definition validateKindLabelingEvent (e : Event) : check :=
  reject wrong when negb (has_first e "e") && negb (has_first e "p") && negb (has_first e "a")
                    && negb (has_first e "r") && negb (has_first e "t") ;;
  validateLabelTags e.

(* src: validation/validation_nip_56.go 30-34 *)
Definition reportTypeSupported (reportType : string) : bool :=
  (reportType =s? "") || (reportType =s? TagReportTypeNudity) || (reportType =s? TagReportTypeMalware)
  || (reportType =s? TagReportTypeProfanity) || (reportType =s? TagReportTypeIllegal)
  || (reportType =s? TagReportTypeSpam) || (reportType =s? TagReportTypeImpersonation)
  || (reportType =s? TagReportTypeOther).

(** [len(tag) < 3 || !reportTypeSupported(tag[2])] *)
(* src: validation/validation_nip_56.go 20-24 [validateKindReportEvent] *)
Definition bad_report_type (tag : Tag) : bool :=
  match tag !! 2%nat with Some t => negb (reportTypeSupported t) | None => true end.

(* src: validation/validation_nip_56.go 11-28 *)
Definition validateKindReportEvent (e : Event) : check :=
  try map_error (fun _ => wrong) (validateLabelTags e) ;;
  match GetFirst (EvTags e) ["p"] with
  | None => Err wrong
  | Some pTag =>
      reject wrong when Value pTag =s? "" ;;
      match GetFirst (EvTags e) ["e"] with
      | Some eTag => reject wrong when bad_report_type eTag || (2 <? length pTag)%nat ;; pass
      | None => reject wrong when bad_report_type pTag ;; pass
      end
  end.

(* src: validation/validation_nip_65.go 11-26 *)
Definition validateKindRelayListMetadataEvent (e : Event) : check :=
  let rTags := GetAll (EvTags e) ["r"] in
  reject wrong when is_nil rTags ;;
  reject wrong when Content e ≠s? "" ;;
  for_each rTags (fun tag =>
    match tag with
    | _ :: _ :: marker :: _ =>
        reject wrong when (marker ≠s? "") && (marker ≠s? RelayListReadMarker)
                          && (marker ≠s? RelayListWriteMarker) ;; pass
    | _ :: _ :: _ => pass
    | _ => Err wrong
    end).

(** ** NIP-59: gift wraps *)

(* src: validation/validation_nip_59.go 17-23 *)
Definition subkindNoExpiration : gset Z :=
  {[CustomIONKindUserBlock; CustomIONKindFundReceive; CustomIONKindFundSendNotify;
    CustomIONKindArchiveConversation; CustomIONKindMute]}.

(* src: validation/validation_nip_59.go 16-44 *)
Definition validateKindGiftWrapEvent (v : eventValidator) (e : Event) (_ : ruleSet) : check :=
  match Strconv.ParseInt (Value (GetTag e "k")) 64 with
  | None => Err wrong
  | Some subkind =>
      let expiresAt := Value (GetTag e "expiration") in
      if expiresAt ≠s? "" then
        match ParseTimestamp expiresAt with
        | None => Err wrong
        | Some ts =>
            reject wrong when
              match VConfig v with
              | Some c => (0 <? MaxWrappedEventExpiration c)
                          && Time.After (TsTime ts) (now + MaxWrappedEventExpiration c)
              | None => false
              end ;;
            pass
        end
      else reject wrong when negb (bool_decide (subkind ∈ subkindNoExpiration)) ;; pass
  end.

(** ** NIP-90: jobs *)

(* src: validation/validation_nip_90.go 13-19 *)
Definition jobFeedbackStatusValues : gset string :=
  {[JobFeedbackStatusPaymentRequired; JobFeedbackStatusProcessing; JobFeedbackStatusError;
    JobFeedbackStatusSuccess; JobFeedbackStatusPartial]}.

Abbreviation unsupported_job := (Err (err ErrUnsupportedJob)).

(* src: validation/validation_nip_90.go 22-24 *)
Definition validateKindTextExtractionJob (e : Event) : check := unsupported_job.
(* src: validation/validation_nip_90.go 26-28 *)
Definition validateKindSummarizationJob (e : Event) : check := unsupported_job.
(* src: validation/validation_nip_90.go 30-32 *)
Definition validateKindTranslationJob (e : Event) : check := unsupported_job.
(* src: validation/validation_nip_90.go 34-36 *)
Definition validateKindTextGenerationJob (e : Event) : check := unsupported_job.
(* src: validation/validation_nip_90.go 38-40 *)
Definition validateKindImageGenerationJob (e : Event) : check := unsupported_job.
(* src: validation/validation_nip_90.go 42-44 *)
Definition validateKindVideoConversionJob (e : Event) : check := unsupported_job.
(* src: validation/validation_nip_90.go 46-48 *)
Definition validateKindVideoTranslationJob (e : Event) : check := unsupported_job.
(* src: validation/validation_nip_90.go 50-52 *)
Definition validateKindImageToVideoConversionJob (e : Event) : check := unsupported_job.
(* src: validation/validation_nip_90.go 54-56 *)
Definition validateKindTextToSpeechGenerationJob (e : Event) : check := unsupported_job.
(* src: validation/validation_nip_90.go 58-60 *)
Definition validateKindNostrContentDiscoveryJob (e : Event) : check := unsupported_job.
(* src: validation/validation_nip_90.go 62-64 *)
Definition validateKindNostrPeopleDiscoveryJob (e : Event) : check := unsupported_job.
(* src: validation/validation_nip_90.go 66-68 *)
Definition validateKindNostrContentSearchJob (e : Event) : check := unsupported_job.
(* src: validation/validation_nip_90.go 70-72 *)
Definition validateKindNostrPeopleSearchJob (e : Event) : check := unsupported_job.
(* src: validation/validation_nip_90.go 90-92 *)
Definition validateKindMalwareScanningJob (e : Event) : check := unsupported_job.
(* src: validation/validation_nip_90.go 94-96 *)
Definition validateKindNostrEventTimeStampingJob (e : Event) : check := unsupported_job.
(* src: validation/validation_nip_90.go 98-100 *)
Definition validateKindOpReturnCreationJob (e : Event) : check := unsupported_job.
(* src: validation/validation_nip_90.go 102-104 *)
Definition validateKindNostrEventPublishScheduleJob (e : Event) : check := unsupported_job.

(* src: validation/validation_nip_90.go 74-88 *)
Definition validateKindNostrEventCountJob (e : Event) : check :=
  reject wrong when is_nil (EvTags e) ;;
  reject wrong when Content e =s? "" ;;
  for_each (EvTags e) (fun tag =>
    if (Key tag =s? "param") && (Value tag =s? "relay") then
      let! url := index tag 2 in
      reject wrong when negb (IsValidRelayURL url) ;; pass
    else pass).

(* src: validation/validation_nip_90.go 106-121 *)
Definition validateKindJobResult (e : Event) : check :=
  reject wrong when Content e =s? "" ;;
  reject wrong when Value (GetTag e "request") =s? "" ;;
  reject wrong when Value (GetTag e "e") =s? "" ;;
  reject wrong when Value (GetTag e "p") =s? "" ;;
  pass.

(* src: validation/validation_nip_90.go 131-138 [validateKindFeedbackJob] *)
Definition has_two (t : option Tag) : bool :=
  match t with Some t => (length t =? 2)%nat | None => false end.

(* src: validation/validation_nip_90.go 123-141 *)
Definition validateKindFeedbackJob (e : Event) : check :=
  let statusTag := Value (GetTag e "status") in
  reject wrong when statusTag =s? "" ;;
  reject wrong when negb (bool_decide (statusTag ∈ jobFeedbackStatusValues)) ;;
  reject wrong when negb (has_two (GetFirst (EvTags e) ["e"])) ;;
  reject wrong when negb (has_two (GetFirst (EvTags e) ["p"])) ;;
  pass.

(** ** ICIP-6000: wallets *)

(** [addr := e.GetTag("l")] against the address in the content. *)
(* src: validation/validation_icip_6000.go 21-33 [validateKindFundReceive] *)
Definition check_wallet_label (e : Event) (address : option string) : check :=
  reject opaque_error when Value (GetTag e "L") ≠s? "wallet.address" ;;
  match address with
  | None => Err opaque_error
  | Some a =>
      reject opaque_error when a =s? "" ;;
      let addr := GetTag e "l" in
      reject opaque_error when a ≠s? Value addr ;;
      reject opaque_error
        when match addr !! 2%nat with Some x => x ≠s? "wallet.address" | None => true end ;;
      pass
  end.

(* src: validation/validation_icip_6000.go 13-36 *)
Definition validateKindFundReceive (e : Event) : check :=
  if Value (GetTag e "p") ≠s? "" then pass else check_wallet_label e (json_from (Content e)).

(* src: validation/validation_icip_6000.go 38-61 *)
Definition validateKindFundSendNotify (e : Event) : check :=
  if Value (GetTag e "p") ≠s? "" then pass else check_wallet_label e (json_to (Content e)).

(** ** ICIP-11000: tokenized communities *)

(* src: validation/validation_icip_11000.go 16-23 *)
Definition validateInternalTopicTC (_ : eventValidator) (event : Event) (_ : ruleSet) : check :=
  if existsb (fun tag => (Key tag =s? "t") && (Value tag =s? "community_token")) (EvTags event)
  then pass else Err opaque_error.

(** The events of the query: the last that is not a profile, the last
    profile. *)
(* src: validation/validation_icip_11000.go 46-60 *)
Definition split_profile (it : EventIterator) : outcome (option Event * option Event) :=
  for_state it (None, None) (fun '(tokenized, profile) '(ev, x) =>
    match x with
    | Some x => Err x
    | None =>
        let! ev := deref ev in
        if Kind ev =? KindProfileMetadata then Ok (tokenized, Some ev) else Ok (Some ev, profile)
    end).

Fixpoint bsc_wallet (wallets : list (string * string)) : string :=
  match wallets with
  | [] => ""
  | (network, walletAddr) :: wallets =>
      if EqualFold network "bsc" || EqualFold network "bsctestnet" then walletAddr
      else bsc_wallet wallets
  end.

(* src: validation/validation_icip_11000.go 25-98 *)
Definition validateTokenizedCommunityFirstBuy (v : eventValidator) (firstBuy : Event)
    (rules : ruleSet) : check :=
  if BroadcastMode rules then pass
  else if Value (GetTag firstBuy "p") =s? "" then pass
  else
    let tcEventAddress := cmp_Or (Value (GetTag firstBuy "a")) (Value (GetTag firstBuy "e")) in
    if tcEventAddress =s? "" then pass
    else
      let! (tokenized, profile) := split_profile (QueryFunc v
        [MkFilter None None None (Some [tcEventAddress]) None None None 1
           ("include:dependencies:kind" +:+ Strconv.Itoa KindAny +:+ ">kind0")]) in
      let tokenized :=
        match tokenized, profile with
        | None, Some p => if Address p =s? tcEventAddress then Some p else None
        | t, _ => t
        end in
      match tokenized with
      | None => Err (err ErrNotFound)
      | Some tokenizedEvent =>
          if GetMasterPublicKey tokenizedEvent =s? GetMasterPublicKey firstBuy then pass
          else match profile with
               | None => Err (err ErrNotFound)
               | Some creatorProfileEvent =>
                   match json_profile (Content creatorProfileEvent) with
                   | None => Err opaque_error
                   | Some meta =>
                       reject (err ErrWalletRequired) when bsc_wallet (Wallets meta) =s? "" ;; pass
                   end
               end
      end.

(** ** The additional checks in the table *)

(* src: validation/validate.go 92-105 [KindSupportedTags] *)
Definition validateReaction (_ : eventValidator) (e : Event) (_ : ruleSet) : check :=
  match Strconv.Atoi (Value (GetTag e "k")) with
  | None => Err wrong
  | Some kValue =>
      if bool_decide (kValue ∈ [KindTextNote; KindArticle; CustomIONKindEditableTextNote]) then
        reject wrong when Content e ≠s? "+" ;; pass
      else pass
  end.

(* src: validation/validate.go 264-304 [KindSupportedTags] *)
Definition price_change_tag (found : bool * bool) (tag : Tag) : outcome (bool * bool) :=
  let '(hasTimeWindow, hasDeltaPercentage) := found in
  if Key tag =s? "param" then
    match tag with
    | _ :: name :: value :: _ =>
        if ToLower (Value tag) =s? "timewindow" then
          match Strconv.ParseInt value 32 with
          | None => Err wrong
          | Some n =>
              reject wrong when n <=? 0 ;;
              reject wrong when 31622400 <? n ;;
              Ok (true, hasDeltaPercentage)
          end
        else if ToLower (Value tag) =s? "deltapercentage" then
          match Strconv.ParseInt value 32 with
          | None => Err wrong
          | Some n =>
              reject wrong when (n <? -100) || (100 <? n) || (n =? 0) ;;
              Ok (hasTimeWindow, true)
          end
        else if ToLower (Value tag) =s? "token" then
          reject wrong when value =s? "" ;;
          reject wrong when (length (Split value ":") <? 3)%nat ;;
          Ok found
        else Ok found
    | _ => Err wrong
    end
  else if Key tag =s? "output" then
    reject wrong when negb (EqualFold (Value tag) "application/json") ;; Ok found
  else if Key tag =s? "i" then
    reject wrong when negb (EqualFold (Value tag) "priceChange") ;; Ok found
  else Ok found.

(* src: validation/validate.go 261-310 [KindSupportedTags] *)
Definition validatePriceChangeRequest (_ : eventValidator) (e : Event) (_ : ruleSet) : check :=
  let! (hasTimeWindow, hasDeltaPercentage) := for_state (EvTags e) (false, false) price_change_tag in
  reject wrong when negb hasTimeWindow || negb hasDeltaPercentage ;; pass.

(** ** The table

    The builder calls in the order of the code, innermost first.  A Go map
    literal has one entry per kind. *)

(* src: validation/validate.go 83-109 [KindSupportedTags] *)
Definition notes_table : list (Z * kindValidator) :=
  [(KindProfileMetadata, tagsTable ["e"; "p"; "a"; "alt"]);
   (KindTextNote, tagsTable ["e"; "p"; "q"; CustomIONTagPMO; CustomIONTagPoll;
     CustomIONTagCommunity; CustomIONTagRichText]);
   (KindDirectMessage, tagsTable [CustomIONTagPoll; CustomIONTagRichText]);
   (KindFollowList, tagsTable ["p"]);
   (KindReactionToWebsite, tagsTable ["r"]);
   (KindDeletion, Build (Optional ["e"; "p"; "a"; "k"; "nonce"; CustomIONTagOnBehalfOf]
     newKindValidatorBuilderEmpty));
   (KindRepost, Build (OneOf ["e"; "a"] (Required ["p"] (Optional [CustomIONTagCommunity; "k"]
     newKindValidatorBuilder))));
   (KindReaction, Build (WithValidate validateReaction (OneOf ["e"; "a"] (Required ["p"; "k"]
     newKindValidatorBuilder))));
   (KindBadgeAward, Build (RequireIONIdentitySignature (Optional ["a"; "p"]
     newKindValidatorBuilder)));
   (KindGenericRepost, Build (OneOf ["e"; "a"] (Required ["p"; "k"] (Optional
     [CustomIONTagCommunity] newKindValidatorBuilder))))].

(* src: validation/validate.go 110-142 [KindSupportedTags] *)
Definition lists_table : list (Z * kindValidator) :=
  [(KindMuteList, tagsTable ["p"; "t"; "word"; "e"]);
   (KindPinList, tagsTable ["e"]);
   (KindBookmarkList, tagsTable ["e"; "a"; "t"; "r"]);
   (KindCommunityList, tagsTable ["a"]);
   (KindPublicChatList, tagsTable ["e"]);
   (KindBlockedRelayList, tagsTable ["relay"; "r"]);
   (KindSearchRelayList, tagsTable ["relay"; "r"]);
   (KindSimpleGroupList, tagsTable ["group"]);
   (KindInterestList, tagsTable ["t"; "a"]);
   (KindEmojiList, tagsTable ["emoji"; "a"]);
   (KindDMRelayList, tagsTable ["relay"; "r"]);
   (KindGoodWikiAuthorList, tagsTable ["p"]);
   (KindGoodWikiRelayList, tagsTable ["relay"; "r"]);
   (KindCategorizedPeopleList, tagsTable ["p"; "d"; "title"; "image"; "description"]);
   (KindRelaySets, tagsTable ["relay"; "r"; "d"; "title"; "image"; "description"]);
   (KindBookmarkSets, tagsTable ["e"; "a"; "t"; "r"; "d"; "title"; "image"; "description";
     CustomIONTagCommunity]);
   (KindCuratedSets, tagsTable ["a"; "e"; "d"; "title"; "image"; "description"]);
   (KindCuratedVideoSets, tagsTable ["a"; "d"; "title"; "image"; "description"]);
   (KindMuteSets, tagsTable ["p"; "d"; "title"; "image"; "description"]);
   (KindInterestSets, tagsTable ["t"; "d"; "title"; "image"; "description"]);
   (KindEmojiSets, tagsTable ["emoji"; "d"; "title"; "image"; "description"]);
   (KindReleaseArtifactSets, tagsTable ["e"; "i"; "version"; "d"; "title"; "image"; "description"]);
   (KindLabel, tagsTable ["e"; "p"; "a"; "r"; "t"]);
   (KindRelayListMetadata, tagsTable ["r"]);
   (KindProfileBadges, tagsTable ["d"; "a"; "e"]);
   (KindArticle, tagsTable ["p"; "a"; "d"; "e"; "t"; "title"; "image"; "summary";
     "editing_ended_at"; "published_at"; CustomIONTagPMO; CustomIONTagRichText;
     CustomIONTagAddressableQ; CustomIONTagPoll; CustomIONTagCommunity]);
   (KindDraftArticle, tagsTable ["p"; "a"; "d"; "e"; "t"; "title"; "image"; "summary";
     "editing_ended_at"; "published_at"; CustomIONTagPMO; CustomIONTagRichText;
     CustomIONTagAddressableQ; CustomIONTagPoll; CustomIONTagCommunity]);
   (KindGiftWrap, Build (WithValidate validateKindGiftWrapEvent (Optional ["expiration";
     "payload-compression"] (Required ["p"; "k"] newKindValidatorBuilder))));
   (KindBadgeDefinition, Build (RequireIONIdentitySignature (Optional ["d"; "p"; "name"; "image";
     "description"; "thumb"] newKindValidatorBuilder)))].

(* src: validation/validate.go 145-163 [KindSupportedTags] *)
Definition jobs_table : list (Z * kindValidator) :=
  [(KindJobTextExtraction, tagsTable ["i"; "output"; "param"; "bid"; "relays"; "p"]);
   (KindJobSummarization, tagsTable ["i"; "output"; "param"; "bid"; "relays"; "p"]);
   (KindJobTranslation, tagsTable ["i"; "output"; "param"; "bid"; "relays"; "p"]);
   (KindJobTextGeneration, tagsTable ["i"; "output"; "param"; "bid"; "relays"; "p"]);
   (KindJobImageGeneration, tagsTable ["i"; "output"; "param"; "bid"; "relays"; "p"]);
   (KindJobVideoConversion, tagsTable ["i"; "output"; "param"; "bid"; "relays"; "p"]);
   (KindJobVideoTranslation, tagsTable ["i"; "output"; "param"; "bid"; "relays"; "p"]);
   (KindJobImageToVideoConversion, tagsTable ["i"; "output"; "param"; "bid"; "relays"; "p"]);
   (KindJobTextToSpeechGeneration, tagsTable ["i"; "output"; "param"; "bid"; "relays"; "p"]);
   (KindJobNostrContentDiscovery, tagsTable ["i"; "output"; "param"; "bid"; "relays"; "p"]);
   (KindJobNostrPeopleDiscovery, tagsTable ["i"; "output"; "param"; "bid"; "relays"; "p"]);
   (KindJobNostrContentSearch, tagsTable ["i"; "output"; "param"; "bid"; "relays"; "p"]);
   (KindJobNostrPeopleSearch, tagsTable ["i"; "output"; "param"; "bid"; "relays"; "p"]);
   (KindJobNostrEventCount, tagsTable ["i"; "output"; "param"; "bid"; "relays"; "p"]);
   (KindJobMalwareScanning, tagsTable ["i"; "output"; "param"; "bid"; "relays"; "p"]);
   (KindJobNostrEventTimeStamping, tagsTable ["i"; "output"; "param"; "bid"; "relays"; "p"]);
   (KindJobOpReturnCreation, tagsTable ["i"; "output"; "param"; "bid"; "relays"; "p"]);
   (KindJobNostrEventPublishSchedule, tagsTable ["i"; "output"; "param"; "bid"; "relays"; "p";
     "encrypted"]);
   (KindJobFeedback, tagsTable ["status"; "amount"; "e"; "p"])].

(* src: validation/validate.go 166-170 [KindSupportedTags] *)
Definition community_table : list (Z * kindValidator) :=
  [(CustomIONKindCommunityDefinition, tagsTable [CustomIONTagCommunity; "d"; "name";
     "description"; "public"; "private"; "open"; "closed"; "p"; "a"]);
   (CustomIONKindCommunityOwnershipTransferring, tagsTable [CustomIONTagCommunity; "a"; "p"]);
   (CustomIONKindCommunityJoin, tagsTable [CustomIONTagCommunity; "p"; "authorization"]);
   (CustomIONKindCommunityBanUser, tagsTable [CustomIONTagCommunity; "p"]);
   (CustomIONKindCommunityChangeDefinition, tagsTable [CustomIONTagCommunity; "name";
     "description"; "public"; "private"; "open"; "closed"; "p"])].

(* src: validation/validate.go 172-256 [KindSupportedTags] *)
Definition ion_table : list (Z * kindValidator) :=
  [(CustomIONKindEditableTextNote, Build (Required ["published_at"] (Optional ["a"; "e"; "d"; "p";
     "q"; "p"; "editing_ended_at"; CustomIONTagPMO; CustomIONTagPoll; CustomIONTagCommunity;
     CustomIONTagAddressableQ; CustomIONTagRichText] newKindValidatorBuilder)));
   (CustomIONKindPollVote, Build (NoExpiration (OneOfSingle ["e"; "a"] newKindValidatorBuilder)));
   (CustomIONKindFundReceive, Build (WithValidate (fun _ e _ => validateKindFundReceive e)
     (RequiredWith "l" ["L"] (Required [CustomIONTagOnBehalfOf; "network"; "asset_class"]
     (OneOf ["p"; "l"] (Optional ["asset_address"] (ContentNotEmpty
     newKindValidatorBuilderEmpty)))))));
   (CustomIONKindFundSendNotify, Build (WithValidate (fun _ e _ => validateKindFundSendNotify e)
     (RequiredWith "l" ["L"] (Required ["network"; "asset_class"] (OneOf ["p"; "l"] (Optional
     [CustomIONTagOnBehalfOf; "request"; "asset_address"] (ContentNotEmpty
     newKindValidatorBuilderEmpty)))))));
   (CustomIONKindDeviceRegistration, Build (Optional ["t"; "token"] (Required ["relay"]
     (ContentNotEmpty newKindValidatorBuilder))));
   (CustomIONKindAttestation, Build (Optional ["nonce"] (Required [TagAttestationName]
     newKindValidatorBuilderEmpty)));
   (CustomIONKindTokenizedCommunityDefinition, Build (WithValidate
     validateTokenizedCommunityFirstBuy (WithValidate validateInternalTopicTC (ContentEmpty
     (NoExpiration (Required ["k"] (Optional ["p"; "platform"] (OneOfSingle ["e"; "a"; "h"]
     newKindValidatorBuilder))))))));
   (CustomIONKindTokenizedCommunityAction, Build (WithValidate validateInternalTopicTC
     (ContentEmpty (NoExpiration (Optional ["k"; "token_symbol"] (Optional ["p"] (Required
     ["network"; "bonding_curve_address"; "token_address"; "tx_address"; "tx_type";
     "tx_amount"] (OneOfSingle ["e"; "a"] newKindValidatorBuilder))))))));
   (CustomIONKindBlockchainActivityConsent, Build (ContentEmpty (NoExpiration (Required ["k"]
     (OneOfSingle ["e"; "a"] newKindValidatorBuilder)))));
   (CustomIONKindDVMJobRequestPriceChange, Build (WithValidate validatePriceChangeRequest
     (NoExpiration (ContentEmpty (Optional ["output"] (Required ["i"; "param"]
     newKindValidatorBuilder))))))].

(* src: validation/validate.go 82-312 *)
Definition KindSupportedTags : gmap Z kindValidator :=
  list_to_map (notes_table ++ lists_table ++ jobs_table ++ community_table ++ ion_table).
End Rules.
