(* ===== verification/Attestation.v ===== *)
(** * Package validation: attestations

    src/validation/validation_icip_2000.go: the state machine of the
    attestations of a device key, and the identification proofs of devices. *)

From S2P Require Import Prelude GoStd Nostr Model OnBehalf Validator TagRules.
Import Strings.

Section Attestation.
Context {N : Nostr} {E : Env}.

(* src: validation/validation_icip_2000.go 19-29 *)
Definition attestationStateMap : gmap string (gset string) := list_to_map [
  (CustomIONAttestationKindActive,
    {[CustomIONAttestationKindRevoked; CustomIONAttestationKindInactive]});
  (CustomIONAttestationKindInactive,
    {[CustomIONAttestationKindActive; CustomIONAttestationKindRevoked]});
  (CustomIONAttestationKindRevoked, ∅)].

(* src: validation/validation_icip_2000.go 40 *)
Definition deviceIdentificationProof : string := "device_identification_proof".

(* src: validation/validation_icip_2000.go 44-47 *)
Record attestationState : Type := MkState { SName : string; STimestamp : Timestamp }.

(* src: validation/validation_icip_2000.go 49-80 *)
Definition attestation_transition (e : Event) (keys : gmap string attestationState) (tag : Tag) :
    outcome (gmap string attestationState) :=
  if Key tag ≠s? TagAttestationName then Ok keys
  else
    reject (err ErrAttestationInvalidFormat) when (length tag <? 4)%nat ;;
    let! pubkey := index tag TagAttestationValueIndexPubkey in
    reject (err ErrAttestationInvalidPubkey) when pubkey =s? "" ;;
    reject (err ErrAttestationInvalidPubkey) when PubKey e =s? pubkey ;;
    let! s := index tag TagAttestationValueIndexAction in
    let! (action, ts, _) := ParseAttestationString s in
    reject (err ErrAttestationUnknownAction)
      when bool_decide (attestationStateMap !! action = None) ;;
    try match keys !! pubkey with
        | None => pass
        | Some prevState =>
            reject (err ErrAttestationInvalidTransition)
              when negb (bool_decide (action ∈ default ∅ (attestationStateMap !! SName prevState))) ;;
            reject (err ErrAttestationInvalidTemporalOrder)
              when TsAfter (STimestamp prevState) ts ;;
            pass
        end ;;
    Ok (<[pubkey := MkState action ts]> keys).

(* src: validation/validation_icip_2000.go 43-82 *)
Definition validateAttestationEvent (e : Event) : check :=
  let! _ := for_state (EvTags e) ∅ (attestation_transition e) in pass.

(** ** Device identification *)

(* src: validation/validation_icip_2000.go 186-211 *)
Definition extractPubkeyFromDeviceIdentificationProof (ev : Event) : string * string :=
  let prefix := deviceIdentificationProof +:+ "~" in
  if Kind ev =? KindBadgeAward then
    let aTag := GetTag ev "a" in
    if (2 <=? length aTag)%nat then
      match Split (Value aTag) ":" with
      | _ :: p1 :: p2 :: _ =>
          if HasPrefix p2 prefix then
            let devicePubkey := TrimPrefix p2 prefix in
            if (devicePubkey ≠s? "") && (p1 =s? PubKey ev) then (PubKey ev, devicePubkey)
            else ("", "")
          else ("", "")
      | _ => ("", "")
      end
    else ("", "")
  else if Kind ev =? KindBadgeDefinition then
    let dTag := GetTag ev "d" in
    if (2 <=? length dTag)%nat && HasPrefix (Value dTag) prefix then
      let devicePubkey := TrimPrefix (Value dTag) prefix in
      if devicePubkey ≠s? "" then (PubKey ev, devicePubkey) else ("", "")
    else ("", "")
  else ("", "").

(** [slices.IndexFunc(batch, ...)] and the element there. *)
(* src: validation/validation_icip_2000.go 126-131 [checkDeviceIdentificationProofs] *)
Definition find_kind (batch : list Event) (kind : Z) : option Event :=
  snd <$> list_find (fun e => Kind e = kind) batch.

Abbreviation proof_failed := (err ErrDeviceIdentificationProofFailed).

(* src: validation/validation_icip_2000.go 125-184 *)
Definition checkDeviceIdentificationProofs (ev : eventValidator) (batch : list Event)
    (userMasterKey devicePubkey : string) : check :=
  match find_kind batch KindBadgeDefinition, find_kind batch KindBadgeAward with
  | Some badgeDefinition, Some badgeAward =>
      let '(issuer, badgeDefinitionTargetPubkey) :=
        extractPubkeyFromDeviceIdentificationProof badgeDefinition in
      reject proof_failed when badgeDefinitionTargetPubkey =s? "" ;;
      reject proof_failed when badgeDefinitionTargetPubkey ≠s? devicePubkey ;;
      reject proof_failed when issuer ≠s? PubKey badgeDefinition ;;
      reject proof_failed when negb (bool_decide (issuer ∈ IONIdentityPublicKeys ev)) ;;
      let '(awardIssuer, badgeAwardTargetPubkey) :=
        extractPubkeyFromDeviceIdentificationProof badgeAward in
      reject proof_failed when badgeAwardTargetPubkey =s? "" ;;
      reject proof_failed when badgeAwardTargetPubkey ≠s? devicePubkey ;;
      let pTag := GetTag badgeAward "p" in
      reject proof_failed when is_nil pTag || (Value pTag =s? "") ;;
      reject proof_failed when Value pTag ≠s? devicePubkey ;;
      reject proof_failed when Value pTag =s? userMasterKey ;;
      reject proof_failed when awardIssuer ≠s? PubKey badgeAward ;;
      reject proof_failed when awardIssuer ≠s? issuer ;;
      let aTag := GetTag badgeAward "a" in
      reject proof_failed when is_nil aTag || (Value aTag =s? "") ;;
      reject proof_failed when Value aTag ≠s? Address badgeDefinition ;;
      reject proof_failed when negb (bool_decide (awardIssuer ∈ IONIdentityPublicKeys ev)) ;;
      pass
  | _, _ => Err proof_failed
  end.

(** Whether the old attestation has a tag for the key; [break] at the first
    one, so a short tag after it is not read. *)
(* src: validation/validation_icip_2000.go 105-115 [validateDevices] *)
Fixpoint attested_before (oldTags : Tags) (pubkey : string) : outcome bool :=
  match oldTags with
  | [] => Ok false
  | oldTag :: oldTags =>
      if Key oldTag ≠s? TagAttestationName then attested_before oldTags pubkey
      else
        let! pk := index oldTag TagAttestationValueIndexPubkey in
        if pk =s? pubkey then Ok true else attested_before oldTags pubkey
  end.

(** When the old attestation cannot be fetched the code wraps its own [err],
    which is nil at that point: the error is lost. *)
(* src: validation/validation_icip_2000.go 91-123 *)
Definition validateDevices (ev : eventValidator) (rules : ruleSet) (batch : list Event)
    (newAttestationEvent : Event) : check :=
  if SkipKindAttestationProofDevicesVerify rules then pass
  else
    match getEvent ev (Strconv.Itoa CustomIONKindAttestation +:+ ":"
                       +:+ GetMasterPublicKey newAttestationEvent +:+ ":") with
    | Err _ => pass
    | Panic => Panic
    | OutOfFuel => OutOfFuel
    | Ok oldAttestation =>
        let! e := for_state (S := option error) (EvTags newAttestationEvent) None (fun acc tag =>
          if Key tag ≠s? TagAttestationName then Ok acc
          else
            let! pubkey := index tag TagAttestationValueIndexPubkey in
            let! known := match oldAttestation with
                          | None => Ok false
                          | Some old => attested_before (EvTags old) pubkey
                          end in
            if known : bool then Ok acc
            else match checkDeviceIdentificationProofs ev batch
                         (GetMasterPublicKey newAttestationEvent) pubkey with
                 | Ok _ => Ok acc
                 | Err deviceErr => Ok (join_opt acc (Some deviceErr))
                 | Panic => Panic
                 | OutOfFuel => OutOfFuel
                 end) in
        of_error e
    end.

(* src: validation/validation_icip_2000.go 84-89 *)
Definition validateKindAttestationEvent (ev : eventValidator) (rules : ruleSet)
    (batch : list Event) (e : Event) : check :=
  try validateAttestationEvent e ;;
  validateDevices ev rules batch e.

(** ** Specification: the life of a device key *)

Abbreviation attestation := (string * Timestamp * list Z)%type.

(** The transitions between attestation states. *)
Inductive transition : string -> string -> Prop :=
  | revoke_active : transition CustomIONAttestationKindActive CustomIONAttestationKindRevoked
  | deactivate : transition CustomIONAttestationKindActive CustomIONAttestationKindInactive
  | reactivate : transition CustomIONAttestationKindInactive CustomIONAttestationKindActive
  | revoke_inactive : transition CustomIONAttestationKindInactive CustomIONAttestationKindRevoked.

Definition known_action (a : string) : Prop :=
  a = CustomIONAttestationKindActive \/ a = CustomIONAttestationKindInactive
  \/ a = CustomIONAttestationKindRevoked.

(** A history of attestations of one key: any known first state, then
    transitions in temporal order. *)
Inductive lifecycle : list attestation -> Prop :=
  | lc_nil : lifecycle []
  | lc_first x : known_action x.1.1 -> lifecycle [x]
  | lc_step h x y : lifecycle (h ++ [x]) -> transition x.1.1 y.1.1 -> TsTime x.1.2 <= TsTime y.1.2 ->
      lifecycle ((h ++ [x]) ++ [y]).

(** The attestation tags are complete and name another key. *)
Definition well_formed_attestation (e : Event) (tag : Tag) : Prop :=
  Key tag = TagAttestationName ->
  exists k pk rl s t, tag = k :: pk :: rl :: s :: t /\ pk ≠ "" /\ pk ≠ PubKey e.

Definition valid_attestations (e : Event) (tags : Tags) : Prop :=
  (forall tag, tag ∈ tags -> well_formed_attestation e tag) /\
  forall pk, exists h, history pk tags = Some h /\ lifecycle h.

(** ** Lemmas *)

Lemma attestationStateMap_known a :
  attestationStateMap !! a = None <-> ~ known_action a.
Proof.
  unfold attestationStateMap, known_action. split.
  - intros Hn%not_elem_of_list_to_map_2 Ha. apply Hn. cbn. rewrite !elem_of_cons. tauto.
  - intros Hn. apply not_elem_of_list_to_map_1. intros Hin. apply Hn. cbn in Hin.
    rewrite !elem_of_cons, elem_of_nil in Hin. tauto.
Qed.

Lemma attestationStateMap_transition a b :
  b ∈ default ∅ (attestationStateMap !! a) <-> transition a b.
Proof.
  split.
  - destruct (attestationStateMap !! a) as [s|] eqn:Ha; [|set_solver].
    apply elem_of_list_to_map_2 in Ha.
    repeat (apply elem_of_cons in Ha as [Ha|Ha];
      [injection Ha as -> ->; cbn; rewrite ?elem_of_union, ?elem_of_singleton;
       first [intros [-> | ->]; constructor | intros H; by apply elem_of_empty in H]|]).
    by apply not_elem_of_nil in Ha.
  - intros []; vm_compute; set_solver.
Qed.

Definition state_of (x : attestation) : attestationState := MkState x.1.1 x.1.2.

Lemma lifecycle_snoc h x y :
  lifecycle (h ++ [x]) ->
  (lifecycle ((h ++ [x]) ++ [y]) <-> transition x.1.1 y.1.1 /\ TsTime x.1.2 <= TsTime y.1.2).
Proof.
  intros Hl. split; [|intros []; by constructor].
  intros Hy. inversion Hy as [Hnil|z Hz Hone|h' x' y' Hl' Ht Hts Heq].
  - by destruct h.
  - by destruct h as [|? []].
  - apply app_inj_tail in Heq as [Heq ->]. by apply app_inj_tail in Heq as [_ ->].
Qed.

Lemma lifecycle_prefix h y : lifecycle (h ++ [y]) -> lifecycle h.
Proof.
  intros Hy. inversion Hy as [Hnil|z Hz Hone|h' x' y' Hl' Ht Hts Heq].
  - by destruct h.
  - destruct h as [|? []]; [constructor|done|done].
  - by apply app_inj_tail in Heq as [<- _].
Qed.

Lemma lifecycle_one y : lifecycle [y] <-> known_action y.1.1.
Proof.
  split; [|by constructor]. intros Hy.
  inversion Hy as [Hnil|z Hz Hone|h' x' y' Hl' Ht Hts Heq]; subst; [done|].
  by destruct h' as [|? []].
Qed.

Lemma history_one pk tag h : history pk [tag] = Some h -> h = [] \/ exists x, h = [x].
Proof.
  destruct tag as [|k [|p [|rl [|s t]]]]; cbn; try (intros [= <-]; by left).
  destruct (_ && _); [|intros [= <-]; by left].
  destruct (ParseAttestationString s); [|done..]. intros [= <-]. right. by eexists.
Qed.

(** The history of a prefix is a prefix of the history. *)
Lemma valid_attestations_snoc e tags tag :
  valid_attestations e (tags ++ [tag]) -> valid_attestations e tags.
Proof.
  intros [Hwf Hh]. split.
  - intros t Ht. apply Hwf, elem_of_app. by left.
  - intros pk. destruct (Hh pk) as (h & Hpk & Hl). rewrite history_app in Hpk.
    apply bind_Some in Hpk as (h1 & H1 & Hpk). apply bind_Some in Hpk as (h2 & H2 & [= <-]).
    exists h1. split; [done|].
    destruct (history_one _ _ _ H2) as [-> | [x ->]]; [by rewrite List.app_nil_r in Hl|].
    by eapply lifecycle_prefix.
Qed.

Context {NS : NostrSpec N}.

(** The state the loop keeps: per key, the last attestation. *)
Definition tracks (tags : Tags) (keys : gmap string attestationState) : Prop :=
  forall pk h, history pk tags = Some h -> keys !! pk = state_of <$> last h.

(** One complete attestation of [pk]. *)
Lemma history_complete pk' k pk rl s t x :
  k = TagAttestationName -> ParseAttestationString s = Ok x ->
  history pk' [k :: pk :: rl :: s :: t] = Some (if pk =s? pk' then [x] else []).
Proof. intros -> Hs. cbn. destruct (pk =s? pk'); [|done]. by rewrite Hs. Qed.

Lemma history_other pk tag : Key tag ≠ TagAttestationName -> history pk [tag] = Some [].
Proof.
  destruct tag as [|k [|p [|rl [|s t]]]]; try done. rewrite Key_cons. intros Hk. cbn.
  by rewrite (proj2 (String.eqb_neq _ _) Hk).
Qed.

Lemma valid_attestations_other e tags keys tag :
  Key tag ≠ TagAttestationName -> valid_attestations e tags -> tracks tags keys ->
  valid_attestations e (tags ++ [tag]) /\ tracks (tags ++ [tag]) keys.
Proof.
  intros Hk [Hwf Hh] Ht.
  assert (Happ : forall pk, history pk (tags ++ [tag]) = history pk tags).
  { intros pk. rewrite history_app, history_other by done.
    destruct (history pk tags); cbn; by rewrite ?List.app_nil_r. }
  split; [split|].
  - intros t [Hin | ->%list_elem_of_singleton]%elem_of_app; [auto|]. by intros ?.
  - intros pk. by rewrite Happ.
  - intros pk h. rewrite Happ. apply Ht.
Qed.

(** Whether the next attestation of a key continues its life cycle. *)
Definition continues (prev : option attestationState) (x : attestation) : Prop :=
  known_action x.1.1 /\
  forall s, prev = Some s -> transition (SName s) x.1.1 /\ TsTime (STimestamp s) <= TsTime x.1.2.

Lemma transition_known a b : transition a b -> known_action b.
Proof. unfold known_action. destruct 1; auto. Qed.

Lemma lifecycle_continues h x :
  lifecycle h -> (lifecycle (h ++ [x]) <-> continues (state_of <$> last h) x).
Proof.
  intros Hl. unfold continues. destruct h as [|y h _] using rev_ind.
  - cbn. rewrite lifecycle_one. naive_solver.
  - rewrite last_snoc, lifecycle_snoc by done. cbn. split.
    + intros [Ht Hts]. split; [by eapply transition_known|]. by intros s [= <-].
    + intros [_ Hs]. by apply (Hs _ eq_refl).
Qed.

Lemma valid_attestations_complete e tags keys k pk rl s t x :
  k = TagAttestationName -> pk ≠ "" -> pk ≠ PubKey e -> ParseAttestationString s = Ok x ->
  valid_attestations e tags -> tracks tags keys ->
  let tag := k :: pk :: rl :: s :: t in
  (valid_attestations e (tags ++ [tag]) <-> continues (keys !! pk) x) /\
  tracks (tags ++ [tag]) (<[pk := state_of x]> keys).
Proof.
  intros Hk Hne Hpk Hs [Hwf Hh] Ht tag.
  assert (Happ : forall pk' h, history pk' tags = Some h ->
    history pk' (tags ++ [tag]) = Some (h ++ if pk =s? pk' then [x] else [])).
  { intros pk' h Hpk'. rewrite history_app, Hpk'. subst tag.
    by rewrite (history_complete _ _ _ _ _ _ x). }
  destruct (Hh pk) as (h & Hhpk & Hl). rewrite (Ht _ _ Hhpk). split.
  - rewrite <- (lifecycle_continues h x Hl). split.
    + intros [_ Hh']. destruct (Hh' pk) as (h' & Hpk' & Hl').
      rewrite (Happ _ _ Hhpk), String.eqb_refl in Hpk'. by simplify_eq.
    + intros Hl'. split.
      * intros tg [Hin | ->%list_elem_of_singleton]%elem_of_app; [auto|].
        intros _. by eexists _, _, _, _, _.
      * intros pk'. destruct (Hh pk') as (h1 & Hpk1 & Hl1). eexists.
        split; [by apply Happ|]. destruct (String.eqb_spec pk pk') as [<-|].
        -- by simplify_eq.
        -- by rewrite List.app_nil_r.
  - intros pk' h'. destruct (Hh pk') as (h1 & Hpk1 & Hl1). rewrite (Happ _ _ Hpk1).
    intros [= <-]. destruct (String.eqb_spec pk pk') as [<-|].
    + by rewrite lookup_insert_eq, last_snoc.
    + rewrite lookup_insert_ne, List.app_nil_r by done. by apply Ht.
Qed.

Lemma attestation_transition_step e tags keys tag :
  valid_attestations e tags -> tracks tags keys ->
  (exists keys', attestation_transition e keys tag = Ok keys' /\
     valid_attestations e (tags ++ [tag]) /\ tracks (tags ++ [tag]) keys') \/
  (exists x, attestation_transition e keys tag = Err x /\ ~ valid_attestations e (tags ++ [tag])).
Proof.
  intros Hv Ht. unfold attestation_transition.
  destruct (String.eqb_spec (Key tag) TagAttestationName) as [Hk|Hk]; cbn [negb];
    [|left; eexists; split; [done|by apply valid_attestations_other]].
  assert (Hbad : ~ (exists k pk rl s t, tag = k :: pk :: rl :: s :: t /\ pk ≠ "" /\ pk ≠ PubKey e) ->
    ~ valid_attestations e (tags ++ [tag])).
  { intros Hn [Hwf _]. apply Hn, (Hwf tag); [|done]. apply elem_of_app. right. left. }
  destruct tag as [|k [|pk [|rl [|s t]]]];
    [right; eexists; split; [done|apply Hbad; naive_solver]..|].
  cbn [length Nat.ltb Nat.leb index lookup list_lookup TagAttestationValueIndexPubkey
       TagAttestationValueIndexAction mbind outcome_bind].
  rewrite Key_cons in Hk.
  destruct (String.eqb_spec pk "") as [->|Hne]; [right; eexists; split; [done|apply Hbad; naive_solver]|].
  destruct (String.eqb_spec (PubKey e) pk) as [Hpk|Hpk];
    [right; eexists; split; [done|apply Hbad; naive_solver]|].
  destruct (ParseAttestationString_total s) as [Hp Hf].
  destruct (ParseAttestationString s) as [x|er| |] eqn:Hs; [|right|done..]; cbn [mbind outcome_bind].
  2: { eexists. split; [done|]. intros [_ Hh]. destruct (Hh pk) as (h & Hpk' & _).
       rewrite history_app in Hpk'. apply bind_Some in Hpk' as (h1 & _ & Hpk').
       apply bind_Some in Hpk' as (h2 & H2 & _). cbn in H2.
       by rewrite Hk, !String.eqb_refl, Hs in H2. }
  destruct (valid_attestations_complete e tags keys k pk rl s t x) as [Hiff Htr]; [done..|].
  cbv zeta in *. setoid_rewrite Hiff. clear Hiff. destruct x as [[action ts] ks]. unfold continues in *. cbn [fst snd] in *.
  case_bool_decide as Hkn; [right; eexists; split; [done|]; rewrite attestationStateMap_known in Hkn; tauto|].
  assert (Hknown : known_action action).
  { destruct (attestationStateMap !! action) eqn:Hm; [|done].
    unfold attestationStateMap in Hm. apply elem_of_list_to_map_2 in Hm.
    unfold known_action. cbn in Hm. rewrite !elem_of_cons, elem_of_nil in Hm. naive_solver. }
  destruct (keys !! pk) as [prev|] eqn:Hprev; cbn [mbind outcome_bind].
  2: { left. eexists. split; [done|]. split; [|done]. naive_solver. }
  case_bool_decide as Htrans; rewrite attestationStateMap_transition in Htrans; cbn [negb].
  2: { right. eexists. split; [done|]. naive_solver. }
  rewrite TsAfter_spec. destruct (Z.ltb_spec (TsTime ts) (TsTime (STimestamp prev))); cbn [mbind outcome_bind].
  - right. eexists. split; [done|]. intros [_ Hc]. destruct (Hc _ eq_refl). lia.
  - left. eexists. split; [done|]. split; [|done]. split; [done|]. by intros ? [= <-].
Qed.

Lemma validateAttestationEvent_spec e :
  validateAttestationEvent e = pass <-> valid_attestations e (EvTags e).
Proof.
  unfold validateAttestationEvent.
  enough (forall tags,
    (exists keys, for_state tags ∅ (attestation_transition e) = Ok keys /\
       valid_attestations e tags /\ tracks tags keys) \/
    (exists x, for_state tags ∅ (attestation_transition e) = Err x /\
       ~ valid_attestations e tags)) as H.
  { destruct (H (EvTags e)) as [(keys & -> & ? & _)|(x & -> & ?)]; cbn; naive_solver. }
  intros tags. induction tags as [|tag tags IH] using rev_ind.
  { left. exists ∅. split_and!; [done|split|].
    - intros t Ht. by apply elem_of_nil in Ht.
    - intros pk. exists []. split; [done|constructor].
    - intros pk h [= <-]. apply lookup_empty. }
  rewrite for_state_app. destruct IH as [(keys & -> & Hv & Ht)|(x & -> & Hv)]; cbn.
  - destruct (attestation_transition_step e tags keys tag Hv Ht) as [(keys' & -> & ?)|(x & -> & ?)];
      cbn; [left|right]; eauto.
  - right. exists x. split; [done|]. intros H. by apply valid_attestations_snoc in H.
Qed.


(** The entry that the last state of a life cycle gives. *)
Definition entry_in_state (x : attestation) (entry : OnBehalfAccessEntry) : Prop :=
  let '(action, t, ks) := x in
  (action = CustomIONAttestationKindActive /\ entry = MkEntry (Some t) None None ks) \/
  (action = CustomIONAttestationKindInactive /\ Revoked entry = None /\ End_ entry = Some t) \/
  (action = CustomIONAttestationKindRevoked /\ Revoked entry = Some t).

Lemma entry_of_lifecycle h x : lifecycle (h ++ [x]) -> entry_in_state x (entry_of (h ++ [x])).
Proof.
  revert x. induction h as [|y h IH] using rev_ind; intros [[a t] ks] Hl.
  - apply lifecycle_one in Hl. cbn in Hl. rewrite entry_of_snoc. unfold entry_in_state, apply_action.
    destruct Hl as [-> | [-> | ->]]; cbn; auto.
  - pose proof (lifecycle_prefix _ _ Hl) as Hy. apply lifecycle_snoc in Hl as [Ht _]; [|done].
    specialize (IH y Hy). rewrite entry_of_snoc. set (en := entry_of (h ++ [y])) in *. clearbody en. destruct y as [[ay ty] ky]. cbn in Ht.
    unfold entry_in_state, apply_action in *.
    inversion Ht; subst; cbn in *;
      destruct IH as [[Ha IH]|[(Ha & Hr & He)|[Ha Hr]]]; try discriminate Ha; rewrite ?IH, ?Hr; cbn; auto 6.
Qed.

(** An accepted attestation event always parses into access records,
    and the record of a key is that of its last attestation: an active key has
    its kinds and neither end nor revocation; a deactivated key ends at the
    deactivation; and a revocation is final - from its time on the access
    decision is "revoked" for every kind. *)
Lemma accepted_attestation_access e :
  validateAttestationEvent e = pass ->
  exists r, ParseAttestationTags (EvTags e) = Ok r /\
    forall pk h, history pk (EvTags e) = Some h ->
      match last h with
      | None => r !! pk = None
      | Some x => exists entry, r !! pk = Some entry /\ entry_in_state x entry /\
          (x.1.1 = CustomIONAttestationKindRevoked ->
             forall kind now, kind ≠ CustomIONKindAttestation -> TsTime x.1.2 <= TsTime now ->
               IsAccessAllowed r pk kind now = Err (err ErrAttestationRecordRevoked))
      end.
Proof.
  intros [_ Hh]%validateAttestationEvent_spec.
  pose proof (ParseAttestationTags_spec (EvTags e)) as Hp.
  destruct (ParseAttestationTags (EvTags e)) as [r|x| |]; [|exfalso|done..].
  2: { destruct Hp as [pk Hpk]. destruct (Hh pk) as (h & Hpk' & _). congruence. }
  exists r. split; [done|]. intros pk h Hpk.
  destruct (Hp pk) as (h' & Hpk' & Hr). destruct (Hh pk) as (h'' & Hpk'' & Hl).
  rewrite Hpk in Hpk', Hpk''. injection Hpk' as <-. injection Hpk'' as <-.
  destruct h as [|x h _] using rev_ind; [done|]. rewrite last_snoc.
  pose proof (entry_of_lifecycle h x Hl) as Hst.
  assert (Hrec : r !! pk = Some (entry_of (h ++ [x]))) by (rewrite Hr; by destruct h).
  eexists. split; [exact Hrec|]. split; [exact Hst|]. intros Hrev kind now Hk Hnow.
  destruct x as [[a t] ks]. cbn in Hrev, Hnow. subst a.
  destruct Hst as [[Ha _]|[[Ha _]|[_ Hrv]]]; [discriminate Ha|discriminate Ha|].
  unfold IsAccessAllowed. rewrite (proj2 (Z.eqb_neq _ _) Hk), Hrec, Hrv. cbn.
  rewrite TsBefore_spec. by rewrite (proj2 (Z.ltb_ge _ _)).
Qed.
End Attestation.

Module AttestationWitness.
Import Plain.
Definition attested : Event := MkEvent None "1" "master" 0 10100
  [["p"; "dev"; ""; "active:10:1,7"]; ["p"; "old"; ""; "active:5"]; ["p"; "old"; ""; "revoked:20"]]
  "" "".


Lemma accepted_attestation_access_witness :
  exists r, ParseAttestationTags (EvTags attested) = Ok r /\
    forall pk h, history pk (EvTags attested) = Some h ->
      match last h with
      | None => r !! pk = None
      | Some x => exists entry, r !! pk = Some entry /\ entry_in_state x entry /\
          (x.1.1 = CustomIONAttestationKindRevoked ->
             forall kind now, kind ≠ CustomIONKindAttestation -> TsTime x.1.2 <= TsTime now ->
               IsAccessAllowed r pk kind now = Err (err ErrAttestationRecordRevoked))
      end.
Proof. apply (accepted_attestation_access attested). vm_compute. reflexivity. Defined.

Definition revive : Tags := [["p"; "old"; ""; "revoked:20"]; ["p"; "old"; ""; "active:30"]].
Example no_revival :
  validateAttestationEvent (with_Tags attested revive) = Err (err ErrAttestationInvalidTransition).
Proof. vm_compute. reflexivity. Qed.
End AttestationWitness.
