(* ===== verification/Community.v ===== *)
(** * Package validation: communities

    src/validation/validation_icip_4000.go: the current definition of a
    community (the latest definition event with the patches applied), bans,
    membership, posting, replying and deleting in a community. *)

From S2P Require Import Prelude GoStd Nostr Model Content Validator TagRules.
From Stdlib Require Import Sorting.Sorted.
Import Strings.

Section Community.
Context {N : Nostr} {R : RichText} {E : Env}.

(** A filter with kinds and tags only. *)
(* src: validation/validation_icip_4000.go 331-337 [getCommunityDefinition] *)
Definition kinds_tags (kinds : list Z) (tags : TagMap) : Filter :=
  MkFilter None (Some kinds) None None (Some tags) None None 0 "".

(** ** The definition of a community *)

(* src: validation/validation_icip_4000.go 441-449 *)
Fixpoint removeTag (tags : Tags) (tag : Tag) : Tags :=
  match tags with
  | [] => []
  | t :: ts => if (Key t =s? Key tag) && (Value t =s? Value tag) then ts
               else t :: removeTag ts tag
  end.

(** [if t := tags.GetFirst([]string{k}); t != nil { tags = removeTag(tags, t) }] *)
(* src: validation/validation_icip_4000.go 390-392 [applyChangeCommunityPatch] *)
Definition remove_first (tags : Tags) (k : string) : Tags :=
  match GetFirst tags [k] with
  | Some t => removeTag tags t
  | None => tags
  end.

(** [a[2] != b[2] || a[3] != b[3]] *)
(* src: validation/validation_icip_4000.go 421 [applyChangeCommunityPatch] *)
Definition roles_differ (a b : Tag) : outcome bool :=
  let! a2 := index a 2 in
  let! b2 := index b 2 in
  if a2 ≠s? b2 then Ok true
  else
    let! a3 := index a 3 in
    let! b3 := index b 3 in
    Ok (a3 ≠s? b3).

(* src: validation/validation_icip_4000.go 418-429 *)
Definition patch_member (tags : Tags) (patchTag : Tag) : outcome Tags :=
  let! (tags, found) := for_state (GetAll tags ["p"]) (tags, false)
    (fun '(tags, found) existingPTag =>
       if (Key existingPTag =s? "p") && (Value existingPTag =s? Value patchTag) then
         let! differ := roles_differ existingPTag patchTag in
         Ok (if differ : bool then (removeTag tags existingPTag ++ [patchTag], true)
             else (tags, found))
       else Ok (tags, found)) in
  Ok (if found : bool then tags else tags ++ [patchTag]).

(* src: validation/validation_icip_4000.go 387-434 *)
Definition patch_tag (tags : Tags) (patchTag : Tag) : outcome Tags :=
  let key := Key patchTag in
  if key =s? "public" then Ok (AppendUnique (remove_first tags "private") ["public"])
  else if key =s? "private" then Ok (AppendUnique (remove_first tags "public") ["private"])
  else if key =s? "open" then Ok (AppendUnique (remove_first tags "closed") ["open"])
  else if key =s? "closed" then Ok (AppendUnique (remove_first tags "open") ["closed"])
  else if key =s? "name" then Ok (AppendUnique (remove_first tags "name") patchTag)
  else if key =s? "description" then Ok (AppendUnique (remove_first tags "description") patchTag)
  else if key =s? "p" then patch_member tags patchTag
  else if key ≠s? CustomIONTagCommunity then Ok (tags ++ [patchTag])
  else Ok tags.

(** [slices.SortStableFunc] by creation time. *)
(* src: validation/validation_icip_4000.go 374-383 [applyChangeCommunityPatch] *)
Fixpoint insert_by_time (e : Event) (l : list Event) : list Event :=
  match l with
  | [] => [e]
  | x :: l' => if TsAfter (CreatedAt e) (CreatedAt x) then x :: insert_by_time e l' else e :: l
  end.
(* src: validation/validation_icip_4000.go 374-383 [applyChangeCommunityPatch] *)
Definition sort_by_time (l : list Event) : list Event := fold_right insert_by_time [] l.

(** The code rewrites the slice of tags of the definition in place; nothing
    else refers to it and the result replaces it, so the value is passed on. *)
(* src: validation/validation_icip_4000.go 370-439 *)
Definition applyChangeCommunityPatch (patches : list Event) (communityDefEvent : Event) :
    outcome Tags :=
  for_state (sort_by_time patches) (EvTags communityDefEvent)
    (fun tags patch => for_state (EvTags patch) tags patch_tag).

(* src: validation/validation_icip_4000.go 340-357 *)
Definition pick_definition (s : option Event * list Event) (item : option Event * option error) :
    outcome (option Event * list Event) :=
  let '(lastDefinitionEvent, patches) := s in
  match item with
  | (_, Some x) => Err x
  | (ev, None) =>
      let! ev := deref ev in
      if Kind ev =? CustomIONKindCommunityChangeDefinition then
        Ok (lastDefinitionEvent, patches ++ [ev])
      else match lastDefinitionEvent with
           | None => Ok (Some ev, patches)
           | Some last =>
               if TsAfter (CreatedAt ev) (CreatedAt last) then Ok (Some ev, patches)
               else Ok (Some last, patches)
           end
  end.

(* src: validation/validation_icip_4000.go 330-368 *)
Definition getCommunityDefinition (v : eventValidator) (hTag : string) : outcome Event :=
  let it := QueryFunc v [kinds_tags
    [CustomIONKindCommunityDefinition; CustomIONKindCommunityChangeDefinition]
    (SetLiterals ∅ CustomIONTagCommunity [hTag])] in
  let! (lastDefinitionEvent, patches) := for_state it (None, []) pick_definition in
  match lastDefinitionEvent with
  | None => Err (err ErrNotFound)
  | Some def =>
      if is_nil patches then Ok def
      else let! tags := applyChangeCommunityPatch patches def in Ok (with_Tags def tags)
  end.

(** ** Bans and membership *)

(* src: validation/validation_icip_4000.go 248-262 *)
Definition IsUserBanned (v : eventValidator) (pubkey communityID : string) : check :=
  match QueryFunc v [kinds_tags [CustomIONKindCommunityBanUser]
          (SetLiterals (SetLiterals ∅ "p" [pubkey]) CustomIONTagCommunity [communityID])] with
  | [] => pass
  | (_, Some x) :: _ => Err x
  | (_, None) :: _ => Err (err ErrActionForbidden)
  end.

Definition has_tag (e : Event) (k : string) : bool := negb (is_nil (GetTag e k)).

(* src: validation/validation_icip_4000.go 270-283 [IsUserPartOfCommunity] *)
Fixpoint accepted_join (def : Event) (it : EventIterator) : check :=
  match it with
  | [] => Err (err ErrActionForbidden)
  | (_, Some x) :: _ => Err x
  | (ev, None) :: it =>
      if has_tag def "open" then pass
      else if has_tag def "closed" then
        let! ev := deref ev in
        if has_tag ev "authorization" then pass else accepted_join def it
      else accepted_join def it
  end.

(* src: validation/validation_icip_4000.go 264-284 *)
Definition IsUserPartOfCommunity (v : eventValidator) (communityDefinitionEvent : Event)
    (masterPubkey : string) : check :=
  accepted_join communityDefinitionEvent
    (QueryFunc v [kinds_tags [CustomIONKindCommunityJoin]
      (SetLiterals (SetLiterals ∅ "p" [masterPubkey]) CustomIONTagCommunity
         [GetHTag communityDefinitionEvent])]).

(** ** Settings *)

(* src: validation/validation_icip_4000.go 286-307 *)
Definition getLatestSettingsTag (event : Event) (settingsName : string) : Tag :=
  fst (fold_left (fun '(latestSettingsTag, latestTimestamp) tag =>
    if (Value tag =s? settingsName) && (3 <? length tag)%nat then
      match ParseTimestamp (default "" (tag !! 3%nat)) with
      | None => (latestSettingsTag, latestTimestamp)
      | Some timestamp =>
          if TsAfter timestamp latestTimestamp then (tag, timestamp)
          else (latestSettingsTag, latestTimestamp)
      end
    else (latestSettingsTag, latestTimestamp)) (GetAll (EvTags event) ["settings"]) ([], 0)).

(* src: validation/validation_icip_4000.go 309-320 *)
Definition isCommunityCommentsEnabled (event : Event) : bool :=
  match getLatestSettingsTag event "comments_enabled" with
  | _ :: _ :: value :: _ :: _ => default false (Strconv.ParseBool value)
  | _ => true
  end.

(* src: validation/validation_icip_4000.go 322-328 *)
Definition roleRequiredForPosting (event : Event) : string :=
  match getLatestSettingsTag event RoleRequiredForPostingSettings with
  | _ :: _ :: role :: _ :: _ =>
      if (role =s? AdminRole) || (role =s? ModeratorRole) then role else ""
  | _ => ""
  end.

(** ** Posting and deleting in a community *)

(* src: validation/validation_icip_4000.go 166-198 *)
Definition validatePostCommunityEvent (v : eventValidator) (incomingEvent : Event) : check :=
  let hTag := GetTag incomingEvent CustomIONTagCommunity in
  if is_nil hTag then pass
  else
    let! def := getCommunityDefinition v (Value hTag) in
    try IsUserBanned v (GetMasterPublicKey incomingEvent) (Value hTag) ;;
    let requiredRole := roleRequiredForPosting def in
    let replyRole := GetCommunityRoleByPubkey (GetMasterPublicKey incomingEvent) def in
    try (if (requiredRole =s? ModeratorRole)
            && ((replyRole ≠s? AdminRole) && (replyRole ≠s? OwnerRole) && (replyRole ≠s? ModeratorRole))
         then Err (err ErrActionForbidden)
         else if (requiredRole =s? AdminRole) && (replyRole ≠s? OwnerRole) && (replyRole ≠s? AdminRole)
         then Err (err ErrActionForbidden)
         else if (requiredRole =s? RegularRole) && (replyRole =s? RegularRole)
         then IsUserPartOfCommunity v def (GetMasterPublicKey incomingEvent)
         else pass) ;;
    if (Kind incomingEvent =? KindRepost) || (Kind incomingEvent =? KindGenericRepost) then
      reject (err ErrActionForbidden) when negb (isCommunityCommentsEnabled def) ;; pass
    else pass.

(* src: validation/validation_icip_4000.go 228-246 *)
Definition validateCommunityDeleteEvent (v : eventValidator) (event deleteEvent : Event) : check :=
  let! def := getCommunityDefinition v (Value (GetTag event CustomIONTagCommunity)) in
  let communityEventRole := GetCommunityRoleByPubkey (GetMasterPublicKey event) def in
  let issuerRole := GetCommunityRoleByPubkey (GetMasterPublicKey deleteEvent) def in
  if issuerRole =s? ModeratorRole then
    reject (err ErrActionForbidden)
      when (communityEventRole =s? AdminRole) || (communityEventRole =s? OwnerRole) ;; pass
  else if (issuerRole =s? AdminRole) && (communityEventRole =s? OwnerRole) then
    Err (err ErrActionForbidden)
  else if (issuerRole =s? RegularRole)
          && (GetMasterPublicKey event ≠s? GetMasterPublicKey deleteEvent) then
    Err (err ErrActionForbidden)
  else pass.

(* src: validation/validation_icip_4000.go 200-226 *)
Definition validateDeleteCommunityEvents (v : eventValidator) (e : Event) : check :=
  let ids := Value <$> GetTags e "e" in
  if is_nil ids then pass
  else
    let! communityEventsToCheck := collect (QueryFunc v
      [MkFilter (Some ids) None None None (Some (SetLiterals ∅ CustomIONTagCommunity []))
         None None 0 ""]) in
    for_each communityEventsToCheck (fun event => validateCommunityDeleteEvent v event e).

(* src: validation/validation_nip_09.go 13-28 *)
Definition validateKindDeletionEvent (v : eventValidator) (e : Event) : check :=
  if is_nil (EvTags e) then pass
  else
    reject wrong when negb (length (GetTags e "e") =? length (GetTags e "k"))%nat ;;
    validateDeleteCommunityEvents v e.
End Community.

(** ** Lemmas: patches and the tags they leave alone *)

Section Patches.
Context {N : Nostr} {NS : NostrSpec N}.

(** The tags whose key satisfies [p]. *)
Definition keyed (p : string -> bool) (tags : Tags) : Tags := filter (fun t => p (Key t) = true) tags.

Lemma keyed_app p ts1 ts2 : keyed p (ts1 ++ ts2) = keyed p ts1 ++ keyed p ts2.
Proof. apply filter_app. Qed.

Lemma keyed_one p t : keyed p [t] = if p (Key t) then [t] else [].
Proof. unfold keyed. cbn. unfold filter, list_filter. cbn. by destruct (p (Key t)). Qed.

Lemma filter_removeTag (P : Tag -> Prop) `{forall t, Decision (P t)} tags x :
  (forall t, Key t = Key x -> Value t = Value x -> ~ P t) -> filter P (removeTag tags x) = filter P tags.
Proof.
  intros Hx. induction tags as [|t tags IH]; [done|]. cbn [removeTag].
  destruct ((Key t =s? Key x) && (Value t =s? Value x)) eqn:Ht; rewrite !filter_cons.
  - simplify_go. by rewrite decide_False by eauto.
  - by rewrite IH.
Qed.

Lemma keyed_removeTag p tags x : p (Key x) = false -> keyed p (removeTag tags x) = keyed p tags.
Proof. intros Hx. apply filter_removeTag. intros t -> _. congruence. Qed.

Lemma GetFirst_Some tags k t : GetFirst tags [k] = Some t -> HasPrefix (Key t) k = true /\ t ∈ tags.
Proof.
  rewrite GetFirst_key, GetAll_key. intros H.
  apply head_Some_elem_of, list_elem_of_filter in H. naive_solver.
Qed.

Lemma keyed_remove_first p tags k :
  (forall s, HasPrefix s k = true -> p s = false) -> keyed p (remove_first tags k) = keyed p tags.
Proof.
  intros Hk. unfold remove_first. destruct (GetFirst tags [k]) as [t|] eqn:Ht; [|done].
  apply keyed_removeTag, Hk. by apply GetFirst_Some in Ht as [? _].
Qed.

Lemma keyed_AppendUnique p tags t : p (Key t) = false -> keyed p (AppendUnique tags t) = keyed p tags.
Proof.
  intros Ht. destruct (AppendUnique_cases tags t) as [-> | ->]; [done|].
  by rewrite keyed_app, keyed_one, Ht, List.app_nil_r.
Qed.

Lemma keyed_patch_member p tags t tags' :
  p "p" = false -> Key t = "p" -> patch_member tags t = Ok tags' -> keyed p tags' = keyed p tags.
Proof.
  intros Hp Ht H. unfold patch_member in H. apply bind_Ok in H as ([tags1 found] & Hrun & [= <-]).
  assert (keyed p tags1 = keyed p tags) as Heq.
  { refine (for_state_invariant (fun _ (s : Tags * bool) => keyed p s.1 = keyed p tags)
      _ _ (tags, false) (tags1, found) eq_refl _ Hrun).
    intros pre x [ts f] s' _ Hs Hstep. cbn in *.
    destruct (_ && _) eqn:Hx; [|by simplify_eq]. destruct (roles_differ x t) as [[]| | |]; cbn in Hstep;
      simplify_go; [|done]. cbn [fst].
    rewrite keyed_app, keyed_one, keyed_removeTag by congruence.
    by rewrite Ht, Hp, List.app_nil_r. }
  destruct found; [done|]. by rewrite keyed_app, keyed_one, Ht, Hp, List.app_nil_r.
Qed.

(** Two strings that begin differently are not both prefixes. *)
Lemma HasPrefix_exclusive c1 c2 x1 x2 s :
  c1 ≠ c2 -> HasPrefix s (String c1 x1) = true -> HasPrefix s (String c2 x2) = false.
Proof.
  intros Hc [t ->]%HasPrefix_spec. unfold HasPrefix. cbn. by destruct ascii_dec.
Qed.

(** The keys whose tags a tag of a patch rewrites. *)
Definition rewritten (k : string) : list string :=
  if bool_decide (k ∈ ["public"; "private"]) then ["public"; "private"]
  else if bool_decide (k ∈ ["open"; "closed"]) then ["open"; "closed"]
  else if bool_decide (k ∈ ["name"; "description"]) then [k]
  else [].

Lemma rewritten_long key k s :
  k ∈ rewritten key -> HasPrefix s k = true -> s ∈ ["p"; CustomIONTagOnBehalfOf] -> False.
Proof.
  intros Hk Hs Hin. unfold rewritten in Hk.
  repeat case_bool_decide; repeat match goal with
  | H : _ ∈ _ :: _ |- _ => apply elem_of_cons in H as [H|H]
  | H : _ ∈ [] |- _ => by apply elem_of_nil in H
  end; by subst.
Qed.

(** The tags no patch rewrites are those of the definition followed by those
    of the patch. *)
Lemma keyed_patch_tag p tags t tags' :
  (forall k s, k ∈ rewritten (Key t) -> HasPrefix s k = true -> p s = false) ->
  (Key t = "p" -> p "p" = false) -> (Key t = CustomIONTagCommunity -> p CustomIONTagCommunity = false) ->
  patch_tag tags t = Ok tags' -> keyed p tags' = keyed p tags ++ keyed p [t].
Proof.
  intros Hr Hp Hh H.
  assert (Hself : forall k, k ∈ rewritten (Key t) -> p k = false)
    by (intros k Hk; eapply Hr; [done|apply Reference.HasPrefix_self]).
  assert (Hstep : forall u u', u ∈ rewritten (Key t) -> p (Key u') = false ->
    keyed p (AppendUnique (remove_first tags u) u') = keyed p tags).
  { intros u u' Hu Hu'. rewrite keyed_AppendUnique by done. apply keyed_remove_first. eauto. }
  rewrite keyed_one. unfold patch_tag in H. cbv zeta in H.
  repeat match type of H with
  | (if Key t =s? ?k then _ else _) = _ => destruct (String.eqb_spec (Key t) k) as [Hk|_]
  end; simplify_eq.
  7: rewrite Hk, Hp, List.app_nil_r by done; eapply keyed_patch_member; eauto.
  7: { destruct (String.eqb_spec (Key t) CustomIONTagCommunity) as [Hk|_]; cbn in H; simplify_eq.
       - by rewrite Hk, Hh, List.app_nil_r.
       - by rewrite keyed_app, keyed_one. }
  all: rewrite Hk in *; rewrite Hself, List.app_nil_r by decide_in.
  all: apply Hstep; [decide_in|]; rewrite ?Key_cons, ?Hk; apply Hself; decide_in.
Qed.

(** ** Modes *)

Definition mode_key (a b s : string) : bool := HasPrefix s a || HasPrefix s b.

(** The tags of a mode: one bare tag at most. *)
Definition mode_ok (a b : string) (tags : Tags) : Prop :=
  keyed (mode_key a b) tags = [] \/ keyed (mode_key a b) tags = [[a]] \/
  keyed (mode_key a b) tags = [[b]].

Definition mode_step (a b : string) (m : Tags) (t : Tag) : Tags :=
  if Key t =s? a then [[a]] else if Key t =s? b then [[b]] else m.

(** No tag whose key merely begins with the name of a mode. *)
Definition plain_mode (a b : string) (t : Tag) : Prop :=
  mode_key a b (Key t) = true -> Key t = a \/ Key t = b.

Lemma removeTag_keyed p tags x : p (Key x) = true -> keyed p (removeTag tags x) = removeTag (keyed p tags) x.
Proof.
  intros Hx. unfold keyed. induction tags as [|t tags IH]; [done|]. cbn [removeTag].
  destruct ((Key t =s? Key x) && (Value t =s? Value x)) eqn:Ht; rewrite !filter_cons.
  - apply andb_true_iff in Ht as [Hk Hv]. pose proof Hk as ->%String.eqb_eq%(f_equal p)%(fun H => eq_trans H Hx).
    rewrite decide_True by done. cbn [removeTag]. by rewrite Hk, Hv.
  - case_decide; cbn [removeTag]; rewrite ?Ht; by rewrite ?IH.
Qed.

Lemma GetAll_keyed p tags k :
  (forall s, HasPrefix s k = true -> p s = true) -> GetAll (keyed p tags) [k] = GetAll tags [k].
Proof.
  intros Hk. rewrite !GetAll_key. unfold keyed. rewrite list_filter_filter.
  apply list_filter_iff. intros t. naive_solver.
Qed.

Lemma remove_first_keyed p tags k :
  (forall s, HasPrefix s k = true -> p s = true) -> keyed p (remove_first tags k) = remove_first (keyed p tags) k.
Proof.
  intros Hk. unfold remove_first. rewrite !GetFirst_key, GetAll_keyed by done.
  rewrite <- !GetFirst_key.
  destruct (GetFirst tags [k]) as [t|] eqn:Ht; [|done]. apply removeTag_keyed, Hk.
  by apply GetFirst_Some in Ht as [? _].
Qed.

Lemma remove_first_one a b : HasPrefix a b = false -> remove_first [[a]] b = [[a]].
Proof.
  intros H. unfold remove_first. rewrite GetFirst_key, GetAll_key, filter_cons, Key_cons, H. done.
Qed.
Lemma remove_first_self b : remove_first [[b]] b = [].
Proof.
  unfold remove_first. rewrite GetFirst_key, GetAll_key, filter_cons, Key_cons, Reference.HasPrefix_self.
  rewrite decide_True by done. cbn. by rewrite !String.eqb_refl.
Qed.
Lemma remove_first_nil b : remove_first [] b = [].
Proof. unfold remove_first. by rewrite GetFirst_key, GetAll_key. Qed.

(** Setting the mode [a] instead of [b]. *)
Lemma set_mode a b c d tags :
  HasPrefix a b = false -> (forall s, mode_key c d s = mode_key a b s) -> a ≠ "" ->
  keyed (mode_key c d) tags ∈ [[]; [[a]]; [[b]]] ->
  keyed (mode_key c d) (AppendUnique (remove_first tags b) [a]) = [[a]].
Proof.
  intros Hab Hkey Ha Hok. set (p := mode_key c d).
  assert (Hpa : forall s, HasPrefix s a = true -> p s = true)
    by (intros s Hs; unfold p; rewrite Hkey; unfold mode_key; by rewrite Hs).
  assert (Hpb : forall s, HasPrefix s b = true -> p s = true)
    by (intros s Hs; unfold p; rewrite Hkey; unfold mode_key; rewrite Hs; apply orb_true_r).
  pose proof (remove_first_keyed p tags b Hpb) as Hrm. fold p in Hok.
  set (ts := remove_first tags b) in *.
  assert (keyed p ts = [] \/ keyed p ts = [[a]]) as [Hts|Hts].
  { rewrite Hrm. rewrite !elem_of_cons, elem_of_nil in Hok.
    destruct Hok as [-> |[-> |[-> |[]]]].
    - left. apply remove_first_nil.
    - right. by apply remove_first_one.
    - left. apply remove_first_self. }
  - rewrite AppendUnique_absent.
    + by rewrite keyed_app, Hts, keyed_one, Key_cons, Hpa by apply Reference.HasPrefix_self.
    + cbn. rewrite GetFirst_key, <- (GetAll_keyed p) by done. rewrite Hts, GetAll_key. done.
  - rewrite AppendUnique_present; [done|].
    assert ([a] ∈ keyed p ts) as Hin by (rewrite Hts; left). by apply list_elem_of_filter in Hin as [_ ?].
Qed.

(** The tags a patch leaves alone are those of other keys. *)
Lemma other_mode a b t :
  (a, b) = ("public", "private") \/ (a, b) = ("open", "closed") ->
  Key t ≠ a -> Key t ≠ b -> forall k s, k ∈ rewritten (Key t) -> HasPrefix s k = true ->
  mode_key a b s = false.
Proof.
  intros Hab Ha Hb k s Hk Hs. unfold rewritten in Hk. unfold mode_key.
  repeat case_bool_decide; repeat match goal with
  | H : _ ∈ [] |- _ => by apply elem_of_nil in H
  | H : _ ∈ _ :: _ |- _ => apply elem_of_cons in H as [H|H]
  end; destruct Hab as [[= -> ->]|[= -> ->]]; subst; try congruence.
  all: try match goal with H : Key _ = _ |- _ => rewrite H in * end.
  all: apply orb_false_iff; split; (eapply HasPrefix_exclusive; [|exact Hs]; done).
Qed.
Lemma patch_tag_mode a b tags t tags' :
  (a, b) = ("public", "private") \/ (a, b) = ("open", "closed") ->
  mode_ok a b tags -> plain_mode a b t -> patch_tag tags t = Ok tags' ->
  keyed (mode_key a b) tags' = mode_step a b (keyed (mode_key a b) tags) t /\ mode_ok a b tags'.
Proof.
  intros Hab Hok Hplain H.
  assert (Hab' : HasPrefix a b = false /\ HasPrefix b a = false /\ a ≠ "" /\ b ≠ "" /\
    patch_tag tags t = (if Key t =s? a then Ok (AppendUnique (remove_first tags b) [a])
                        else if Key t =s? b then Ok (AppendUnique (remove_first tags a) [b])
                        else patch_tag tags t)).
  { unfold patch_tag. destruct Hab as [[= -> ->]|[= -> ->]]; split_and!; try done; cbv zeta.
    - by destruct (String.eqb_spec (Key t) "public"), (String.eqb_spec (Key t) "private").
    - destruct (String.eqb_spec (Key t) "open") as [->|]; [done|].
      by destruct (String.eqb_spec (Key t) "closed") as [->|]. }
  destruct Hab' as (Hpab & Hpba & Ha & Hb & Heq). rewrite Heq in H. clear Heq.
  assert (keyed (mode_key a b) tags' = mode_step a b (keyed (mode_key a b) tags) t) as Hstep.
  { unfold mode_step. destruct (String.eqb_spec (Key t) a) as [_|Hka]; simplify_eq.
    { apply set_mode; [done..|]. unfold mode_ok in Hok. set_solver. }
    destruct (String.eqb_spec (Key t) b) as [_|Hkb]; simplify_eq.
    { apply set_mode; [done| |done|unfold mode_ok in Hok; set_solver].
      intros s. unfold mode_key. apply orb_comm. }
    erewrite keyed_patch_tag; [| | | |exact H]; [|by eapply other_mode|..].
    - rewrite keyed_one. destruct (mode_key a b (Key t)) eqn:Hm; [|apply List.app_nil_r].
      by destruct (Hplain Hm).
    - intros _. by destruct Hab as [[= -> ->]|[= -> ->]].
    - intros _. by destruct Hab as [[= -> ->]|[= -> ->]]. }
  split; [done|]. unfold mode_ok in *. rewrite Hstep. unfold mode_step.
  destruct (Key t =s? a), (Key t =s? b); auto.
Qed.

(** ** Members *)

Definition names (pk : string) (t : Tag) : Prop := Key t = "p" /\ Value t = pk.
#[local] Instance names_dec pk t : Decision (names pk t).
Proof. unfold names. apply _. Defined.

(** The members of a definition: complete tags, and the tags that name the
    same key agree on its relay and role. *)
Definition members_agree (tags : Tags) : Prop :=
  forall t t', t ∈ tags -> t' ∈ tags -> Key t = "p" -> Key t' = "p" -> Value t = Value t' ->
    (4 <= length t)%nat /\ t !! 2%nat = t' !! 2%nat /\ t !! 3%nat = t' !! 3%nat.

Lemma role_of_names tags pk :
  members_agree tags ->
  role_of (GetAll tags ["p"]) pk = default "" (head (filter (names pk) tags) ≫= (.!! 3%nat)).
Proof.
  rewrite GetAll_key. intros Hm.
  assert (Hlen : forall t, t ∈ tags -> Key t = "p" -> (4 <= length t)%nat) by (intros; by apply (Hm t t)).
  clear Hm. induction tags as [|t tags IH]; [done|].
  assert (role_of (filter (fun t => HasPrefix (Key t) "p" = true /\ t ≠ []) tags) pk =
    default "" (head (filter (names pk) tags) ≫= (.!! 3%nat))) as IH'
    by (apply IH; intros; apply Hlen; [by right|done]).
  rewrite (filter_cons (names pk)). destruct (decide (names pk t)) as [[Hk Hv]|Hn].
  - rewrite filter_cons_True; [|rewrite Hk; split; [done|]; intros ->; by rewrite Key_nil in Hk].
    pose proof (Hlen t ltac:(left) Hk). cbn [role_of head].
    rewrite Hk, Hv, String.eqb_refl, (proj2 (Nat.ltb_lt _ _)) by lia. rewrite String.eqb_refl. done.
  - rewrite filter_cons. case_decide; [|done]. cbn [role_of].
    destruct (String.eqb_spec (Key t) "p"), (String.eqb_spec (Value t) pk);
      [by destruct Hn|..]; by rewrite ?andb_false_r.
Qed.

Lemma removeTag_names pk tags x : names pk x -> filter (names pk) (removeTag tags x) = tail (filter (names pk) tags).
Proof.
  intros [Hk Hv]. induction tags as [|t tags IH]; [done|]. cbn [removeTag]. rewrite Hk, Hv, (filter_cons _ t).
  destruct (decide (names pk t)) as [[Hk' Hv']|Hn].
  - by rewrite Hk', Hv', !String.eqb_refl.
  - destruct (String.eqb_spec (Key t) "p"), (String.eqb_spec (Value t) pk); cbn [andb];
      [by destruct Hn|..]; rewrite filter_cons_False by done; by rewrite IH.
Qed.

Lemma GetAll_names pk tags : filter (names pk) (GetAll tags ["p"]) = filter (names pk) tags.
Proof.
  rewrite GetAll_key, list_filter_filter. apply list_filter_iff. intros t. split; [naive_solver|].
  intros [Hk Hv]. split; [done|]. rewrite Hk. split; [done|]. intros ->. by rewrite Key_nil in Hk.
Qed.

Lemma roles_differ_spec a b a2 a3 b2 b3 :
  a !! 2%nat = Some a2 -> a !! 3%nat = Some a3 -> b !! 2%nat = Some b2 -> b !! 3%nat = Some b3 ->
  roles_differ a b = Ok ((a2 ≠s? b2) || (a3 ≠s? b3)).
Proof.
  intros H1 H2 H3 H4. unfold roles_differ. rewrite (proj2 (index_Ok a _ _) H1), (proj2 (index_Ok b _ _) H3).
  cbn. destruct (a2 =s? b2); cbn; [|done].
  by rewrite (proj2 (index_Ok a _ _) H2), (proj2 (index_Ok b _ _) H4).
Qed.
(** The loop over the members a patch names: none is replaced when they agree
    with the patch, all are when they do not. *)
Section PatchMember.
Context (t : Tag) (Hkt : Key t = "p").

Definition patch_member_body : Tags * bool -> Tag -> outcome (Tags * bool) :=
  fun '(tags, found) existingPTag =>
    if (Key existingPTag =s? "p") && (Value existingPTag =s? Value t) then
      let! differ := roles_differ existingPTag t in
      Ok (if differ : bool then (removeTag tags existingPTag ++ [t], true) else (tags, found))
    else Ok (tags, found).

Lemma patch_member_body_cases tags found x :
  (names (Value t) x -> exists b, roles_differ x t = Ok b) ->
  patch_member_body (tags, found) x =
    Ok (if decide (names (Value t) x /\ roles_differ x t = Ok true)
        then (removeTag tags x ++ [t], true) else (tags, found)).
Proof.
  intros Hx. cbn. destruct (String.eqb_spec (Key x) "p") as [Hk|Hk]; cbn [andb];
    [|rewrite decide_False; [done|]; by intros [[] _]].
  destruct (String.eqb_spec (Value x) (Value t)) as [Hv|Hv];
    [|rewrite decide_False; [done|]; by intros [[] _]].
  destruct Hx as [[] Hb]; [by split|..]; rewrite Hb; cbn.
  - by rewrite decide_True.
  - rewrite decide_False; [done|]. by intros [_ [=]].
Qed.

Lemma patch_member_same l s :
  (forall x, x ∈ l -> names (Value t) x -> roles_differ x t = Ok false) ->
  for_state l s patch_member_body = Ok s.
Proof.
  induction l as [|x l IH]; intros Hl; [done|]. cbn [for_state]. destruct s as [tags found].
  rewrite patch_member_body_cases by (intros Hx; exists false; apply Hl; [left|done]).
  rewrite decide_False.
  - apply IH. intros y Hy. apply Hl. by right.
  - intros [Hx Hd]. rewrite Hl in Hd; [done|left|done].
Qed.

Lemma patch_member_differ l tags found :
  (forall x, x ∈ l -> names (Value t) x -> roles_differ x t = Ok true) ->
  (length (filter (names (Value t)) l) <= length (filter (names (Value t)) tags))%nat ->
  exists tags', for_state l (tags, found) patch_member_body =
    Ok (tags', found || negb (is_nil (filter (names (Value t)) l))) /\
    (forall pk, pk ≠ Value t -> filter (names pk) tags' = filter (names pk) tags) /\
    filter (names (Value t)) tags' =
      skipn (length (filter (names (Value t)) l)) (filter (names (Value t)) tags)
      ++ replicate (length (filter (names (Value t)) l)) t.
Proof.
  revert tags found. induction l as [|x l IH]; intros tags found Hl Hn.
  { exists tags. cbn. by rewrite orb_false_r, List.app_nil_r. }
  cbn [for_state]. rewrite patch_member_body_cases by (intros Hx; exists true; apply Hl; [left|done]).
  assert (Hl' : forall y, y ∈ l -> names (Value t) y -> roles_differ y t = Ok true)
    by (intros y Hy; apply Hl; by right).
  rewrite (filter_cons _ x) in *. destruct (decide (names (Value t) x)) as [Hx|Hx].
  - rewrite decide_True by (split; [done|apply Hl; [left|done]]). cbn [mbind outcome_bind length] in *.
    destruct (filter (names (Value t)) tags) as [|m M] eqn:HM; [cbn in Hn; lia|].
    assert (HM' : filter (names (Value t)) (removeTag tags x ++ [t]) = M ++ [t]).
    { rewrite filter_app, removeTag_names, HM by done. by rewrite filter_cons_True. }
    destruct (IH (removeTag tags x ++ [t]) true) as (tags' & Hrun & Hother & Hsame); [done| |].
    { rewrite HM', length_app. cbn in *. lia. }
    exists tags'. rewrite Hrun. split; [by rewrite orb_true_r|]. split.
    + intros pk Hpk. rewrite Hother, filter_app by done. destruct Hx as [Hkx Hvx].
      rewrite filter_removeTag by (rewrite Hvx; intros ? _ Hv [_ Hv']; congruence).
      rewrite filter_cons_False by (intros [_ Hv]; congruence). by rewrite List.app_nil_r.
    + rewrite Hsame, HM'. cbn [skipn replicate]. cbn in Hn.
      rewrite drop_app_le by lia. by rewrite <- (assoc_L (++)).
  - rewrite decide_False by (by intros []). by apply IH.
Qed.
End PatchMember.

(** What a member tag of a patch does to the members. *)
Lemma patch_member_spec tags t :
  members_agree tags -> Key t = "p" -> (4 <= length t)%nat ->
  exists tags', patch_member tags t = Ok tags' /\
    (forall pk, pk ≠ Value t -> filter (names pk) tags' = filter (names pk) tags) /\
    filter (names (Value t)) tags' ≠ [] /\
    forall x, x ∈ filter (names (Value t)) tags' ->
      (4 <= length x)%nat /\ x !! 2%nat = t !! 2%nat /\ x !! 3%nat = t !! 3%nat.
Proof.
  intros Hm Hk Hlen. set (M := filter (names (Value t)) tags).
  destruct (lookup_lt_is_Some_2 t 2) as [t2 Ht2]; [lia|].
  destruct (lookup_lt_is_Some_2 t 3) as [t3 Ht3]; [lia|].
  assert (Hself : filter (names (Value t)) [t] = [t]) by (by rewrite filter_cons_True).
  assert (HM : forall x, x ∈ M <-> names (Value t) x /\ x ∈ tags) by (intros x; apply list_elem_of_filter).
  assert (Hsnoc : (forall pk, pk ≠ Value t -> filter (names pk) (tags ++ [t]) = filter (names pk) tags)).
  { intros pk Hpk. rewrite filter_app, (filter_cons_False _ t) by (intros [_ ?]; congruence).
    by rewrite List.app_nil_r. }
  unfold patch_member. change (fun '(tags, found) existingPTag => _) with (patch_member_body t).
  assert (Hin : forall x, x ∈ GetAll tags ["p"] -> names (Value t) x -> x ∈ M).
  { intros x Hx Hn. unfold M. rewrite <- GetAll_names. by apply list_elem_of_filter. }
  destruct (decide (Forall (fun x => x !! 2%nat = t !! 2%nat /\ x !! 3%nat = t !! 3%nat) M)) as [Hall|Hall].
  - rewrite Forall_forall in Hall. rewrite patch_member_same.
    2: { intros x Hx Hn. destruct (Hall x (Hin x Hx Hn)) as [H2 H3].
         rewrite Ht2 in H2. rewrite Ht3 in H3.
         by rewrite (roles_differ_spec x t t2 t3 t2 t3), !String.eqb_refl. }
    cbn. exists (tags ++ [t]). split; [done|]. split; [done|]. rewrite filter_app, Hself. fold M. split.
    + by destruct M.
    + intros x [Hx|Hx]%elem_of_app.
      * split; [|by apply Hall]. apply HM in Hx as [[Hkx _] Hx]. by destruct (Hm x x Hx Hx).
      * by apply list_elem_of_singleton in Hx as ->.
  - destruct (patch_member_differ t Hk (GetAll tags ["p"]) tags false) as (tags' & Hrun & Hother & Hsame).
    { intros x Hx Hn. pose proof (Hin x Hx Hn) as HxM. apply HM in HxM as [[Hkx Hvx] Hxt].
      destruct (Hm x x Hxt Hxt Hkx Hkx eq_refl) as [Hlx _].
      destruct (lookup_lt_is_Some_2 x 2) as [x2 Hx2]; [lia|].
      destruct (lookup_lt_is_Some_2 x 3) as [x3 Hx3]; [lia|].
      rewrite (roles_differ_spec x t x2 x3 t2 t3) by done. f_equal.
      destruct (String.eqb_spec x2 t2) as [->|]; [|done].
      destruct (String.eqb_spec x3 t3) as [->|]; [|done]. cbn. destruct Hall.
      apply Forall_forall. intros y Hy. apply HM in Hy as [[Hky Hvy] Hyt].
      destruct (Hm y x Hyt Hxt Hky Hkx) as (_ & -> & ->); [congruence|].
      by rewrite Hx2, Hx3, Ht2, Ht3. }
    { by rewrite GetAll_names. }
    rewrite Hrun, GetAll_names in *. fold M in Hsame |- *. cbn [mbind outcome_bind orb].
    assert (M ≠ []) as HMne by (intros HM0; apply Hall; rewrite HM0; constructor).
    destruct M as [|m M'] eqn:HMeq; [done|]. cbn [is_nil negb].
    rewrite List.skipn_all in Hsame. exists tags'. split; [done|]. split; [done|]. rewrite Hsame. split; [done|].
    intros x [-> _]%elem_of_replicate. done.
Qed.
Lemma members_agree_names tags :
  members_agree tags <->
  forall pk x y, x ∈ filter (names pk) tags -> y ∈ filter (names pk) tags ->
    (4 <= length x)%nat /\ x !! 2%nat = y !! 2%nat /\ x !! 3%nat = y !! 3%nat.
Proof.
  split.
  - intros Hm pk x y [[Hkx Hvx] Hx]%list_elem_of_filter [[Hky Hvy] Hy]%list_elem_of_filter.
    apply Hm; congruence.
  - intros Hm x y Hx Hy Hkx Hky Hv. apply (Hm (Value y)); apply list_elem_of_filter; by split.
Qed.

Lemma filter_names_keyed pk tags :
  filter (names pk) tags = filter (fun t => Value t = pk) (keyed (fun s => s =s? "p") tags).
Proof.
  unfold keyed. rewrite list_filter_filter. apply list_filter_iff. intros t. unfold names.
  rewrite String.eqb_eq. tauto.
Qed.

(** The role a sequence of tags leaves to a key that had role [r]. *)
Definition role_step (pk : string) (r : string) (t : Tag) : string :=
  if decide (names pk t) then default "" (t !! 3%nat) else r.

Definition complete_member (t : Tag) : Prop := Key t = "p" -> (4 <= length t)%nat.

Lemma patch_tag_members tags t :
  members_agree tags -> complete_member t ->
  exists tags', patch_tag tags t = Ok tags' /\ members_agree tags' /\
    forall pk, role_of (GetAll tags' ["p"]) pk = role_step pk (role_of (GetAll tags ["p"]) pk) t.
Proof.
  intros Hm Ht. destruct (decide (Key t = "p")) as [Hk|Hk].
  - destruct (patch_member_spec tags t Hm Hk (Ht Hk)) as (tags' & Hrun & Hother & Hne & Hsame).
    exists tags'. split; [unfold patch_tag; by rewrite Hk|].
    assert (members_agree tags') as Hm'.
    { apply members_agree_names. intros pk x y. destruct (decide (pk = Value t)) as [->|Hpk].
      - intros (Hlx & Hx2 & Hx3)%Hsame (Hly & Hy2 & Hy3)%Hsame. split_and!; [done|congruence..].
      - rewrite Hother by done. by apply members_agree_names. }
    split; [done|]. intros pk. rewrite !role_of_names by done. unfold role_step. case_decide as Hpk.
    + destruct Hpk as [_ <-]. destruct (filter (names (Value t)) tags') as [|x M]; [done|].
      cbn. destruct (Hsame x ltac:(left)) as (_ & _ & ->). done.
    + rewrite Hother; [done|]. intros ->. by apply Hpk.
  - assert (exists tags', patch_tag tags t = Ok tags') as [tags' Hrun].
    { unfold patch_tag. cbv zeta. repeat case_match; eauto; simplify_go; done. }
    exists tags'. split; [done|].
    assert (Hkeep : forall pk, filter (names pk) tags' = filter (names pk) tags).
    { intros pk. rewrite !filter_names_keyed.
      erewrite (keyed_patch_tag _ tags t); [| | | |exact Hrun]; [|..]; [|try done..].
      - rewrite keyed_one. cbv beta. rewrite (proj2 (String.eqb_neq _ _)), List.app_nil_r by done. done.
      - intros k s Hks Hs. apply String.eqb_neq. intros ->.
        eapply rewritten_long; [exact Hks|exact Hs|decide_in]. }
    assert (members_agree tags') as Hm'.
    { apply members_agree_names. intros pk x y. rewrite Hkeep. by apply members_agree_names. }
    split; [done|]. intros pk. rewrite !role_of_names, Hkeep by done. unfold role_step.
    rewrite decide_False; [done|]. by intros [].
Qed.

(** ** The patches of a definition *)

(** The tags of the changes, in chronological order. *)
Definition patch_tags (patches : list Event) : Tags := concat (EvTags <$> sort_by_time patches).

Lemma applyChangeCommunityPatch_tags patches def :
  applyChangeCommunityPatch patches def = for_state (patch_tags patches) (EvTags def) patch_tag.
Proof.
  unfold applyChangeCommunityPatch, patch_tags. generalize (EvTags def).
  induction (sort_by_time patches) as [|p l IH]; intros tags; cbn; [done|].
  rewrite for_state_app. destruct (for_state (EvTags p) tags patch_tag); cbn; auto.
Qed.

Lemma patches_roles l tags :
  members_agree tags -> Forall complete_member l ->
  exists tags', for_state l tags patch_tag = Ok tags' /\ members_agree tags' /\
    forall pk, role_of (GetAll tags' ["p"]) pk =
      fold_left (role_step pk) l (role_of (GetAll tags ["p"]) pk).
Proof.
  intros Hm Hl. revert tags Hm. induction Hl as [|t l Ht Hl IH]; intros tags Hm; [by exists tags|].
  destruct (patch_tag_members tags t Hm Ht) as (tags1 & Hrun & Hm1 & Hr).
  destruct (IH tags1 Hm1) as (tags' & Hrun' & Hm' & Hr').
  exists tags'. cbn. rewrite Hrun. split_and!; [done..|]. intros pk. by rewrite Hr', Hr.
Qed.

(** With complete member tags, the definition patched by its changes
    exists, and gives every key the role of the last member tag, in the order
    of the creation of the changes, that names it; a key no change names keeps
    its role. *)
Lemma applyChangeCommunityPatch_roles patches def :
  members_agree (EvTags def) -> Forall complete_member (patch_tags patches) ->
  exists tags, applyChangeCommunityPatch patches def = Ok tags /\
    forall pk, role_of (GetAll tags ["p"]) pk =
      fold_left (role_step pk) (patch_tags patches) (role_of (GetAll (EvTags def) ["p"]) pk).
Proof.
  intros Hm Hl. rewrite applyChangeCommunityPatch_tags.
  destruct (patches_roles _ _ Hm Hl) as (tags & Hrun & _ & Hr). eauto.
Qed.

Lemma patches_mode a b l tags tags' :
  (a, b) = ("public", "private") \/ (a, b) = ("open", "closed") ->
  mode_ok a b tags -> Forall (plain_mode a b) l -> for_state l tags patch_tag = Ok tags' ->
  keyed (mode_key a b) tags' = fold_left (mode_step a b) l (keyed (mode_key a b) tags) /\ mode_ok a b tags'.
Proof.
  intros Hab Hok Hl. revert tags Hok.
  induction Hl as [|t l Ht Hl IH]; intros tags Hok Hrun; cbn in Hrun; [by simplify_eq|].
  apply bind_Ok in Hrun as (tags1 & Hstep & Hrun).
  destruct (patch_tag_mode a b tags t tags1 Hab Hok Ht Hstep) as [Hkey Hok1].
  destruct (IH tags1 Hok1 Hrun) as [-> Hok']. by rewrite Hkey.
Qed.

(** A patched definition keeps one mode of access and one of joining:
    the one the last change that sets it sets, else the definition's own. *)
Lemma applyChangeCommunityPatch_modes a b patches def tags :
  (a, b) = ("public", "private") \/ (a, b) = ("open", "closed") ->
  mode_ok a b (EvTags def) -> Forall (plain_mode a b) (patch_tags patches) ->
  applyChangeCommunityPatch patches def = Ok tags ->
  mode_ok a b tags /\
  keyed (mode_key a b) tags =
    fold_left (mode_step a b) (patch_tags patches) (keyed (mode_key a b) (EvTags def)).
Proof.
  intros Hab Hok Hl. rewrite applyChangeCommunityPatch_tags. intros Hrun.
  destruct (patches_mode a b _ _ _ Hab Hok Hl Hrun). done.
Qed.

Lemma GetTag_keyed k ts : GetTag_loop ts k = default [] (head (keyed (fun s => s =s? k) ts)).
Proof.
  unfold keyed. induction ts as [|t ts IH]; [done|].
  cbn [GetTag_loop]. rewrite filter_cons, IH. by destruct (Key t =s? k).
Qed.

Lemma patches_on_behalf l tags tags' :
  for_state l tags patch_tag = Ok tags' ->
  keyed (fun s => s =s? CustomIONTagOnBehalfOf) tags' =
    keyed (fun s => s =s? CustomIONTagOnBehalfOf) tags ++ keyed (fun s => s =s? CustomIONTagOnBehalfOf) l.
Proof.
  revert tags. induction l as [|t l IH]; intros tags Hrun; cbn in Hrun.
  { simplify_eq. by rewrite List.app_nil_r. }
  apply bind_Ok in Hrun as (tags1 & Hstep & Hrun). rewrite (IH tags1 Hrun).
  erewrite (keyed_patch_tag _ tags t); [| | | |exact Hstep]; [|..].
  - rewrite <- (assoc_L (++)). f_equal. change (t :: l) with ([t] ++ l). by rewrite keyed_app.
  - intros k s Hks Hs. apply String.eqb_neq. intros ->.
    eapply rewritten_long; [exact Hks|exact Hs|decide_in].
  - done.
  - done.
Qed.

(** A definition published on behalf of a key stays that key's,
    whatever its changes; one signed by the owner itself becomes, by a change
    published on behalf of another key, that key's community. *)
Lemma applyChangeCommunityPatch_owner patches def tags :
  applyChangeCommunityPatch patches def = Ok tags ->
  let b := CustomIONTagOnBehalfOf in
  (has_tag def b = true -> GetTag (with_Tags def tags) b = GetTag def b) /\
  (has_tag def b = false -> GetTag (with_Tags def tags) b = GetTag_loop (patch_tags patches) b) /\
  (has_tag def b = false -> Value (GetTag_loop (patch_tags patches) b) ≠ "" ->
     GetCommunityRoleByPubkey (Value (GetTag_loop (patch_tags patches) b)) (with_Tags def tags) = OwnerRole).
Proof.
  rewrite applyChangeCommunityPatch_tags. intros Hrun b. pose proof (patches_on_behalf _ _ _ Hrun) as Hkey.
  fold b in Hkey.
  assert (Hcase : GetTag (with_Tags def tags) b =
    match keyed (fun s => s =s? b) (EvTags def) with
    | t :: _ => t | [] => GetTag_loop (patch_tags patches) b end).
  { unfold GetTag. cbn. rewrite !GetTag_keyed, Hkey. by destruct (keyed _ (EvTags def)). }
  assert (Hempty : has_tag def b = false -> keyed (fun s => s =s? b) (EvTags def) = []).
  { unfold has_tag, GetTag. rewrite GetTag_keyed. intros H.
    destruct (keyed _ (EvTags def)) as [|t ts] eqn:Ht; [done|]. cbn in H.
    destruct t; [|done]. assert ([] ∈ keyed (fun s => s =s? b) (EvTags def)) as Hin by (rewrite Ht; left).
    apply list_elem_of_filter in Hin as [Hb _]. by rewrite Key_nil in Hb. }
  assert (Hnone : has_tag def b = false -> GetTag (with_Tags def tags) b = GetTag_loop (patch_tags patches) b)
    by (intros H; by rewrite Hcase, Hempty).
  split_and!; [|done|].
  - intros H. rewrite Hcase. unfold has_tag, GetTag in *. rewrite (GetTag_keyed b (EvTags def)) in *.
    by destruct (keyed (fun s => s =s? b) (EvTags def)).
  - intros H Hv. unfold GetCommunityRoleByPubkey, GetMasterPublicKey, cmp_Or. fold b.
    rewrite Hnone by done. rewrite (proj2 (String.eqb_neq _ _) Hv), String.eqb_refl. done.
Qed.
(** ** Sorting the changes *)

Lemma insert_by_time_perm e l : insert_by_time e l ≡ₚ e :: l.
Proof. induction l as [|x l IH]; cbn; [done|]. case_match; [|done]. rewrite IH. apply Permutation_swap. Qed.

Lemma sort_by_time_perm l : sort_by_time l ≡ₚ l.
Proof. induction l as [|e l IH]; cbn; [done|]. by rewrite insert_by_time_perm, IH. Qed.

Definition older (a b : Event) : Prop := TsTime (CreatedAt a) <= TsTime (CreatedAt b).

Lemma insert_by_time_sorted e l : Sorted older l -> Sorted older (insert_by_time e l).
Proof.
  induction 1 as [|x l Hs IH Hx]; cbn; [by repeat constructor|]. rewrite TsAfter_spec.
  destruct (Z.ltb_spec (TsTime (CreatedAt x)) (TsTime (CreatedAt e))).
  - constructor; [done|]. destruct l as [|y l]; cbn; [constructor; unfold older; lia|].
    rewrite TsAfter_spec. inversion Hx. case_match; constructor; unfold older in *; lia.
  - repeat (constructor; try done). 
Qed.

Lemma sort_by_time_sorted l : Sorted older (sort_by_time l).
Proof. induction l as [|e l IH]; cbn; [constructor|]. by apply insert_by_time_sorted. Qed.

(** Changes created at the same time stay in the order of the query. *)
Lemma sort_by_time_stable l t :
  filter (fun e => TsTime (CreatedAt e) = t) (sort_by_time l) = filter (fun e => TsTime (CreatedAt e) = t) l.
Proof.
  induction l as [|e l IH]; [done|]. cbn [sort_by_time fold_right]. rewrite filter_cons, <- IH.
  fold (sort_by_time l). generalize (sort_by_time l). clear -NS. intros l.
  induction l as [|x l IH]; cbn [insert_by_time]; [by rewrite filter_cons|].
  rewrite TsAfter_spec. destruct (Z.ltb_spec (TsTime (CreatedAt x)) (TsTime (CreatedAt e))); rewrite !filter_cons; [|done].
  rewrite IH. repeat case_decide; try done. lia.
Qed.

(** ** The current definition *)

Definition is_change (e : Event) : Prop := Kind e = CustomIONKindCommunityChangeDefinition.
Definition changes (evs : list Event) : list Event :=
  filter (fun e => Kind e = CustomIONKindCommunityChangeDefinition) evs.
Definition definitions (evs : list Event) : list Event :=
  filter (fun e => Kind e ≠ CustomIONKindCommunityChangeDefinition) evs.

(** The first of the definitions created last. *)
Definition latest (defs : list Event) (d : Event) : Prop :=
  exists pre post, defs = pre ++ d :: post /\
    (forall x, x ∈ pre -> TsTime (CreatedAt x) < TsTime (CreatedAt d)) /\ (forall x, x ∈ post -> TsTime (CreatedAt x) <= TsTime (CreatedAt d)).

Definition picked (evs : list Event) (s : option Event * list Event) : Prop :=
  s.2 = changes evs /\
  match s.1 with None => definitions evs = [] | Some d => latest (definitions evs) d end.

Lemma pick_definition_step evs s e s' :
  picked evs s -> pick_definition s (Some e, None) = Ok s' -> picked (evs ++ [e]) s'.
Proof.
  destruct s as [last patches]. intros [Hp Hl] H. cbn in *. subst.
  unfold picked, changes, definitions in *. rewrite !filter_app.
  destruct (Z.eqb_spec (Kind e) CustomIONKindCommunityChangeDefinition) as [Hk|Hk]; simplify_eq; cbn [fst snd].
  { rewrite filter_cons_True, filter_cons_False, List.app_nil_r by auto. done. }
  rewrite filter_cons_False, filter_cons_True by done. cbn [filter list_filter]. rewrite List.app_nil_r.
  destruct last as [d|]; simplify_eq; cbn [fst snd] in *.
  - rewrite TsAfter_spec in H. destruct Hl as (pre & post & Heq & Hpre & Hpost). rewrite Heq.
    destruct (Z.ltb_spec (TsTime (CreatedAt d)) (TsTime (CreatedAt e))); simplify_eq; cbn; (split; [done|]).
    + exists (pre ++ d :: post), []. split; [done|]. split; [|intros x Hx; by apply elem_of_nil in Hx].
      intros x [Hx|[->|Hx]%elem_of_cons]%elem_of_app; [|done|].
      * specialize (Hpre x Hx). lia.
      * specialize (Hpost x Hx). lia.
    + exists pre, (post ++ [e]). split; [by rewrite <- (assoc_L (++))|]. split; [done|].
      intros x [Hx|Hx]%elem_of_app; [by apply Hpost|].
      by apply list_elem_of_singleton in Hx as ->.
  - split; [done|]. rewrite Hl. exists [], []. split_and!; [done|..]; intros x Hx; by apply elem_of_nil in Hx.
Qed.

Lemma pick_definitions it evs :
  answers it evs -> exists s, for_state it (None, []) pick_definition = Ok s /\ picked evs s.
Proof.
  intros ->. enough (forall suf pre s, picked pre s ->
    exists s', for_state ((fun e => (Some e, None)) <$> suf) s pick_definition = Ok s' /\
      picked (pre ++ suf) s') as Hgen by by apply (Hgen evs []).
  induction suf as [|e suf IH]; intros pre s Hs; [exists s; by rewrite List.app_nil_r|].
  change (e :: suf) with ([e] ++ suf) at 2. rewrite (assoc_L (++)). rewrite fmap_cons. cbn [for_state].
  destruct (pick_definition s (Some e, None)) as [s1| | |] eqn:Hstep;
    [|exfalso; destruct s as [[d|] ps]; cbn in Hstep; repeat case_match; done..].
  cbn. apply IH. by eapply pick_definition_step.
Qed.

Lemma patch_tag_no_error tags t x : patch_tag tags t ≠ Err x /\ patch_tag tags t ≠ OutOfFuel.
Proof.
  assert (forall l s, for_state l s (patch_member_body t) ≠ Err x /\
    for_state l s (patch_member_body t) ≠ OutOfFuel) as Hloop.
  { induction l as [|y l IH]; intros [ts f]; [done|]. cbn.
    destruct (_ && _); [|apply IH]. unfold roles_differ, index. repeat (case_match; cbn; try done; try apply IH). }
  unfold patch_tag. cbv zeta. repeat (case_match; try done).
  unfold patch_member. change (fun '(tags, found) existingPTag => _) with (patch_member_body t).
  pose proof (Hloop (GetAll tags ["p"]) (tags, false)) as [Hl1 Hl2].
  destruct (for_state _ _ (patch_member_body t)) as [[ts f]| | |]; cbn; split; congruence.
Qed.

Lemma patches_no_error l tags x :
  for_state l tags patch_tag ≠ Err x /\ for_state l tags patch_tag ≠ OutOfFuel.
Proof.
  revert tags. induction l as [|t l IH]; intros tags; cbn; [done|].
  pose proof (patch_tag_no_error tags t x) as [H1 H2].
  destruct (patch_tag tags t); cbn; [apply IH|split; congruence..].
Qed.

(** The changes in the order they apply: by creation, then as queried. *)
Definition chronological (cs evs : list Event) : Prop :=
  cs ≡ₚ changes evs /\ Sorted older cs /\
  forall t, filter (fun e => TsTime (CreatedAt e) = t) cs = filter (fun e => TsTime (CreatedAt e) = t) (changes evs).

(** C15: the current definition of a community is the first of the definitions
    created last, its tags patched by every change in chronological order;
    there is none exactly when no definition is stored, and the patches fail
    only by panicking on a member tag that is too short. *)
Theorem getCommunityDefinition_current v h evs :
  answers (QueryFunc v [kinds_tags
    [CustomIONKindCommunityDefinition; CustomIONKindCommunityChangeDefinition]
    (SetLiterals ∅ CustomIONTagCommunity [h])]) evs ->
  match getCommunityDefinition v h with
  | Ok def => exists d cs, latest (definitions evs) d /\ chronological cs evs /\
      for_state (concat (EvTags <$> cs)) (EvTags d) patch_tag = Ok (EvTags def) /\
      def = with_Tags d (EvTags def)
  | Err x => x = err ErrNotFound /\ definitions evs = []
  | Panic => exists d, latest (definitions evs) d /\
      ~ (members_agree (EvTags d) /\ Forall complete_member (patch_tags (changes evs)))
  | OutOfFuel => False
  end.
Proof.
  intros Hq. unfold getCommunityDefinition. cbv zeta.
  destruct (pick_definitions _ _ Hq) as ([last ps] & -> & Hps & Hlast). cbn in *. subst ps.
  destruct last as [d|]; [|done].
  assert (Hchron : chronological (sort_by_time (changes evs)) evs)
    by (split_and!; [apply sort_by_time_perm|apply sort_by_time_sorted|apply sort_by_time_stable]).
  destruct (changes evs) as [|c cs] eqn:Hcs.
  { cbn. exists d, []. split_and!; [done|exact Hchron|done|by destruct d]. }
  rewrite <- Hcs in *. cbn [is_nil]. replace (is_nil (changes evs)) with false by by rewrite Hcs.
  rewrite applyChangeCommunityPatch_tags.
  destruct (for_state _ _ _) as [tags|x| |] eqn:Hrun; cbn.
  - exists d, (sort_by_time (changes evs)). done.
  - by apply patches_no_error in Hrun.
  - exists d. split; [done|]. intros [Hm Hl].
    destruct (patches_roles _ _ Hm Hl) as (tags & Hok & _). congruence.
  - by apply (patches_no_error _ _ opaque_error) in Hrun.
Qed.
End Patches.

(** ** Lemmas: roles *)

Section Roles.
Context {N : Nostr} {NS : NostrSpec N}.

(** The roles a definition may give, which its own validation enforces. *)
Definition standard_roles (def : Event) : Prop :=
  forall t role, t ∈ EvTags def -> Key t = "p" -> t !! 3%nat = Some role ->
    role ∈ [ModeratorRole; AdminRole; RegularRole].

(** The authority of a role, and of a key in a community. *)
Definition rank (role : string) : Z :=
  if role =s? OwnerRole then 3 else if role =s? AdminRole then 2
  else if role =s? ModeratorRole then 1 else 0.

Definition authority (def : Event) (pk : string) : Z := rank (GetCommunityRoleByPubkey pk def).

Lemma role_of_cases ts pk :
  role_of ts pk = RegularRole \/
  exists t role, t ∈ ts /\ Key t = "p" /\ t !! 3%nat = Some role /\ role_of ts pk = role.
Proof.
  induction ts as [|t ts IH]; cbn [role_of]; [by left|].
  destruct (_ && _) eqn:Ht.
  - simplify_go. destruct (lookup_lt_is_Some_2 t 3) as [role Hr]; [done|]. right. exists t, role.
    rewrite Hr. split_and!; [left|done..].
  - destruct IH as [IH|(t' & role & Hin & ?)]; [by left|right]. exists t', role. split; [by right|done].
Qed.

Lemma standard_role def pk :
  standard_roles def -> GetCommunityRoleByPubkey pk def ∈ [OwnerRole; AdminRole; ModeratorRole; RegularRole].
Proof.
  intros Hs. unfold GetCommunityRoleByPubkey. case_match; [left|].
  destruct (role_of_cases (GetAll (EvTags def) ["p"]) pk) as [-> |(t & role & Hin & Hk & Hr & ->)]; [decide_in|].
  rewrite GetAll_key in Hin. apply list_elem_of_filter in Hin as [_ Hin].
  specialize (Hs t role Hin Hk Hr). set_solver.
Qed.

Lemma role_cases (P : string -> Prop) r :
  P OwnerRole -> P AdminRole -> P ModeratorRole -> P RegularRole ->
  r ∈ [OwnerRole; AdminRole; ModeratorRole; RegularRole] -> P r.
Proof. intros ???? H. set_unfold in H. naive_solver. Qed.

Lemma reject_pass (c : bool) e (k : check) : (reject e when c ;; k) = pass <-> c = false /\ k = pass.
Proof. apply reject_Ok. Qed.

(** ** Deletion *)

(** Who may delete: the staff of a community what keys of no more authority
    than theirs published, the others what they published themselves. *)
Definition may_delete (def e event : Event) : Prop :=
  authority def (GetMasterPublicKey event) <= authority def (GetMasterPublicKey e) /\
  (authority def (GetMasterPublicKey e) = 0 -> GetMasterPublicKey event = GetMasterPublicKey e).

Lemma validateCommunityDeleteEvent_spec v event e :
  (forall def, getCommunityDefinition v (Value (GetTag event CustomIONTagCommunity)) = Ok def ->
     standard_roles def) ->
  validateCommunityDeleteEvent v event e = pass <->
  exists def, getCommunityDefinition v (Value (GetTag event CustomIONTagCommunity)) = Ok def /\
    may_delete def e event.
Proof.
  unfold validateCommunityDeleteEvent. intros Hs.
  destruct (getCommunityDefinition _ _) as [def| | |]; cbn; try naive_solver.
  specialize (Hs def eq_refl). transitivity (may_delete def e event); [|naive_solver].
  unfold may_delete, authority.
  assert (Hsame : GetMasterPublicKey event = GetMasterPublicKey e ->
    GetCommunityRoleByPubkey (GetMasterPublicKey event) def =
    GetCommunityRoleByPubkey (GetMasterPublicKey e) def) by congruence.
  destruct (String.eqb_spec (GetMasterPublicKey event) (GetMasterPublicKey e)) as [Hkey|Hkey].
  - rewrite Hsame by done. clear Hsame. pose proof (standard_role def (GetMasterPublicKey e) Hs) as Hi.
    revert Hi. generalize (GetCommunityRoleByPubkey (GetMasterPublicKey e) def). intros i Hi.
    set_unfold in Hi. destruct Hi as [-> |[-> |[-> |[-> |[]]]]]; cbn; (split; [split; [lia|done]|done]).
  - clear Hsame. pose proof (standard_role def (GetMasterPublicKey event) Hs) as Ha.
    pose proof (standard_role def (GetMasterPublicKey e) Hs) as Hi.
    revert Ha Hi. generalize (GetCommunityRoleByPubkey (GetMasterPublicKey event) def).
    generalize (GetCommunityRoleByPubkey (GetMasterPublicKey e) def). intros i a Ha Hi.
    set_unfold in Ha. set_unfold in Hi.
    destruct Ha as [-> |[-> |[-> |[-> |[]]]]], Hi as [-> |[-> |[-> |[-> |[]]]]]; cbn;
      (split; [intros H; split; [try lia|try lia]|intros [Hr Hr']; try done; try lia]); try done.
    all: by destruct (Hkey (Hr' eq_refl)).
Qed.


(** ** Posting *)

Lemma roleRequiredForPosting_cases def :
  roleRequiredForPosting def ∈ [AdminRole; ModeratorRole; RegularRole].
Proof.
  unfold roleRequiredForPosting. repeat case_match; try decide_in.
  destruct (String.eqb_spec s1 AdminRole) as [->|]; [decide_in|].
  destruct (String.eqb_spec s1 ModeratorRole) as [->|]; [decide_in|done].
Qed.

(** A member of a community: any join makes one of an open community, an
    authorized join of a closed one. *)
Definition joined (def : Event) (joins : list Event) : Prop :=
  if has_tag def "open" then joins ≠ []
  else has_tag def "closed" = true /\ Exists (fun j => has_tag j "authorization" = true) joins.

Lemma accepted_join_spec def it joins : answers it joins -> accepted_join def it = pass <-> joined def joins.
Proof.
  intros ->. unfold joined. induction joins as [|j joins IH]; cbn.
  - destruct (has_tag def "open"); [done|]. split; [done|]. by intros [_ H%Exists_nil].
  - destruct (has_tag def "open"); [done|]. destruct (has_tag def "closed"); [|naive_solver].
    rewrite Exists_cons. destruct (has_tag j "authorization"); naive_solver.
Qed.

Definition bans_filter (pk h : string) : Filter :=
  kinds_tags [CustomIONKindCommunityBanUser] (SetLiterals (SetLiterals ∅ "p" [pk]) CustomIONTagCommunity [h]).
Definition joins_filter (def : Event) (pk : string) : Filter :=
  kinds_tags [CustomIONKindCommunityJoin]
    (SetLiterals (SetLiterals ∅ "p" [pk]) CustomIONTagCommunity [GetHTag def]).

(** Who may post: a key with the required authority, which in a community
    without a required role is a member's. *)
Definition may_post (v : eventValidator) (def : Event) (pk : string) : Prop :=
  rank (roleRequiredForPosting def) <= authority def pk /\
  (roleRequiredForPosting def = RegularRole -> authority def pk = 0 ->
     exists joins, answers (QueryFunc v [joins_filter def pk]) joins /\ joined def joins).

Lemma role_check_spec v def pk :
  standard_roles def -> (exists joins, answers (QueryFunc v [joins_filter def pk]) joins) ->
  (let requiredRole := roleRequiredForPosting def in
   let replyRole := GetCommunityRoleByPubkey pk def in
   (if (requiredRole =s? ModeratorRole)
       && ((replyRole ≠s? AdminRole) && (replyRole ≠s? OwnerRole) && (replyRole ≠s? ModeratorRole))
    then Err (err ErrActionForbidden)
    else if (requiredRole =s? AdminRole) && (replyRole ≠s? OwnerRole) && (replyRole ≠s? AdminRole)
    then Err (err ErrActionForbidden)
    else if (requiredRole =s? RegularRole) && (replyRole =s? RegularRole)
    then IsUserPartOfCommunity v def pk
    else pass) = pass) <-> may_post v def pk.
Proof.
  intros Hs [joins Hj]. unfold may_post, authority. cbv zeta.
  pose proof (roleRequiredForPosting_cases def) as Hq. pose proof (standard_role def pk Hs) as Hr.
  revert Hq Hr. generalize (roleRequiredForPosting def), (GetCommunityRoleByPubkey pk def). intros q r Hq Hr.
  set_unfold in Hq. set_unfold in Hr.
  destruct Hq as [-> |[-> |[-> |[]]]], Hr as [-> |[-> |[-> |[-> |[]]]]]; cbn;
    try (split; [intros H|intros [H H']]; (done || lia || (split; [lia|done]))).
  unfold IsUserPartOfCommunity. fold (joins_filter def pk). rewrite (accepted_join_spec _ _ _ Hj).
  split; [intros H; split; [lia|eauto]|]. intros [_ H]. destruct (H eq_refl eq_refl) as (js & Hjs & Hjoined).
  unfold answers in Hj, Hjs. rewrite Hj in Hjs. apply list_fmap_eq_inj in Hjs as <-; [done|]. by intros ?? [=].
Qed.

(** An event of a community is accepted exactly when its author is not
    banned, has the authority the community requires (membership where it
    requires none), and it is not a repost in a community with comments
    disabled. *)
Lemma validatePostCommunityEvent_Ok v e :
  (forall h def, getCommunityDefinition v h = Ok def -> standard_roles def) ->
  (forall f, exists evs, answers (QueryFunc v [f]) evs) ->
  let h := GetTag e CustomIONTagCommunity in
  let pk := GetMasterPublicKey e in
  h ≠ [] ->
  validatePostCommunityEvent v e = pass <->
  exists def, getCommunityDefinition v (Value h) = Ok def /\
    QueryFunc v [bans_filter pk (Value h)] = [] /\ may_post v def pk /\
    (Kind e = KindRepost \/ Kind e = KindGenericRepost -> isCommunityCommentsEnabled def = true).
Proof.
  intros Hs Hq h pk Hh. unfold validatePostCommunityEvent. fold h pk. cbv zeta.
  destruct h as [|hk hv] eqn:Heq; [done|]. rewrite <- Heq. replace (is_nil h) with false by by rewrite Heq.
  rewrite bind_Ok. setoid_rewrite bind_Ok_unit. setoid_rewrite bind_Ok_unit.
  assert (Hban : IsUserBanned v pk (Value h) = pass <-> QueryFunc v [bans_filter pk (Value h)] = []).
  { unfold IsUserBanned. fold (bans_filter pk (Value h)).
    destruct (QueryFunc v [bans_filter pk (Value h)]) as [|[? []] ?]; done. }
  assert (Hrepost : forall def,
    (if (Kind e =? KindRepost) || (Kind e =? KindGenericRepost)
     then reject (err ErrActionForbidden) when negb (isCommunityCommentsEnabled def) ;; pass else pass) = pass <->
    (Kind e = KindRepost \/ Kind e = KindGenericRepost -> isCommunityCommentsEnabled def = true)).
  { intros def. rewrite <- !Z.eqb_eq, <- orb_true_iff.
    destruct (_ || _); [|naive_solver]. destruct (isCommunityCommentsEnabled def); naive_solver. }
  split; intros (def & Hdef & Hrest); exists def; (split; [done|]).
  - rewrite Hban, (role_check_spec v def pk), Hrepost in Hrest; eauto.
  - rewrite Hban, (role_check_spec v def pk), Hrepost; eauto.
Qed.
End Roles.

(** ** Concrete inputs *)
Module CommunityWitness.
Import Plain.
#[local] Instance E : Env := {| user := Filters.no_user; now := 100 |}.

(** A store that selects by id and kind. *)
Definition select (evs : list Event) (fs : list Filter) : EventIterator :=
  (fun e => (Some e, None)) <$> filter (fun e => existsb (fun f =>
    match Kinds f with Some ks => bool_decide (Kind e ∈ ks) | None => true end
    && match IDs f with Some ids => bool_decide (ID e ∈ ids) | None => true end) fs = true) evs.

Definition event (id author : string) (created kind : Z) (tags : Tags) : Event :=
  MkEvent None id author created kind (["h"; "com"] :: tags) "" "".

Definition def0 := event "d0" "owner" 5 31750 [["private"]].
Definition def1 := event "d1" "owner" 10 31750
  [["public"]; ["open"]; ["p"; "mod"; ""; "moderator"]; ["p"; "adm"; ""; "admin"]].
(** Stored out of order. *)
Definition change2 := event "c2" "adm" 30 1753 [["private"]; ["p"; "bob"; ""; "admin"]; ["name"; "N"]].
Definition change1 := event "c1" "owner" 20 1753 [["closed"]; ["p"; "bob"; ""; "moderator"]].
Definition join_bob := event "j1" "ann" 25 1750 [["p"; "ann"]; ["authorization"; "{}"]].
Definition note := event "n1" "bob" 40 1 [].
Definition store : list Event := [def0; def1; change2; change1; join_bob; note].
Definition v : eventValidator := MkValidator None (select store) [].

Lemma members : members_agree (EvTags def1).
Proof.
  intros x y Hx Hy. cbn in Hx, Hy.
  repeat match goal with
  | H : _ ∈ [] |- _ => by apply elem_of_nil in H
  | H : _ ∈ _ :: _ |- _ => apply elem_of_cons in H as [->|H]
  end; cbn; intros; (discriminate || (split; [lia|done])).
Qed.

Lemma applyChangeCommunityPatch_roles_witness :
  exists tags, applyChangeCommunityPatch [change2; change1] def1 = Ok tags /\
    forall pk, role_of (GetAll tags ["p"]) pk =
      fold_left (role_step pk) (patch_tags [change2; change1]) (role_of (GetAll (EvTags def1) ["p"]) pk).
Proof.
  apply (applyChangeCommunityPatch_roles [change2; change1] def1); [exact members|].
  unfold complete_member. decide_in.
Defined.

Definition patched : Tags :=
  [["h"; "com"]; ["p"; "mod"; ""; "moderator"]; ["p"; "adm"; ""; "admin"]; ["closed"];
   ["private"]; ["p"; "bob"; ""; "admin"]; ["name"; "N"]].

Lemma applyChangeCommunityPatch_modes_witness :
  mode_ok "public" "private" patched /\
  keyed (mode_key "public" "private") patched =
    fold_left (mode_step "public" "private") (patch_tags [change2; change1])
      (keyed (mode_key "public" "private") (EvTags def1)).
Proof.
  apply (applyChangeCommunityPatch_modes "public" "private" [change2; change1] def1 patched).
  - by left.
  - right. left. vm_compute. reflexivity.
  - unfold plain_mode. decide_in.
  - vm_compute. reflexivity.
Defined.

(** The change of an administrator published on behalf of a master key. *)
Definition takeover := event "c3" "device" 50 1753 [["b"; "adm"]; ["name"; "mine"]].

Lemma applyChangeCommunityPatch_owner_witness :
  let tags := EvTags def1 ++ [["b"; "adm"]; ["name"; "mine"]] in
  let b := CustomIONTagOnBehalfOf in
  (has_tag def1 b = true -> GetTag (with_Tags def1 tags) b = GetTag def1 b) /\
  (has_tag def1 b = false -> GetTag (with_Tags def1 tags) b = GetTag_loop (patch_tags [takeover]) b) /\
  (has_tag def1 b = false -> Value (GetTag_loop (patch_tags [takeover]) b) ≠ "" ->
     GetCommunityRoleByPubkey (Value (GetTag_loop (patch_tags [takeover]) b)) (with_Tags def1 tags) = OwnerRole).
Proof.
  intros tags. apply (applyChangeCommunityPatch_owner [takeover] def1 tags). vm_compute. reflexivity.
Defined.

Example taken_over : GetCommunityRoleByPubkey "owner" (with_Tags def1 (EvTags def1 ++ [["b"; "adm"]])) = RegularRole.
Proof. vm_compute. reflexivity. Qed.

Lemma getCommunityDefinition_current_witness :
  match getCommunityDefinition v "com" with
  | Ok def => exists d cs, latest (definitions [def0; def1; change2; change1]) d /\
      chronological cs [def0; def1; change2; change1] /\
      for_state (concat (EvTags <$> cs)) (EvTags d) patch_tag = Ok (EvTags def) /\
      def = with_Tags d (EvTags def)
  | Err x => x = err ErrNotFound /\ definitions [def0; def1; change2; change1] = []
  | Panic => exists d, latest (definitions [def0; def1; change2; change1]) d /\
      ~ (members_agree (EvTags d) /\ Forall complete_member (patch_tags (changes [def0; def1; change2; change1])))
  | OutOfFuel => False
  end.
Proof.
  apply (getCommunityDefinition_current v "com" [def0; def1; change2; change1]). vm_compute. reflexivity.
Defined.

Example current : getCommunityDefinition v "com" = Ok (with_Tags def1 patched).
Proof. vm_compute. reflexivity. Qed.

Lemma current_any h : getCommunityDefinition v h = Ok (with_Tags def1 patched).
Proof. reflexivity. Qed.

Lemma standard : forall h def, getCommunityDefinition v h = Ok def -> standard_roles def.
Proof.
  intros h def. rewrite current_any. intros [= <-] t role Hin Hk Hr. cbn in Hin.
  set_unfold in Hin. decompose [or] Hin; subst; cbn in *; simplify_eq; decide_in.
Qed.

(** A deletion by the new administrator of the note of a member. *)
Definition deletion (author : string) : Event := MkEvent None "x" author 60 5 [["e"; "n1"]; ["k"; "1"]] "" "".


Example admin_deletes : validateKindDeletionEvent v (deletion "adm") = pass.
Proof. vm_compute. reflexivity. Qed.
Example moderator_does_not : validateKindDeletionEvent v (deletion "mod") = Err (err ErrActionForbidden).
Proof. vm_compute. reflexivity. Qed.

Lemma validatePostCommunityEvent_Ok_witness :
  validatePostCommunityEvent v note = pass <->
  exists def, getCommunityDefinition v (Value (GetTag note CustomIONTagCommunity)) = Ok def /\
    QueryFunc v [bans_filter (GetMasterPublicKey note) (Value (GetTag note CustomIONTagCommunity))] = [] /\
    may_post v def (GetMasterPublicKey note) /\
    (Kind note = KindRepost \/ Kind note = KindGenericRepost -> isCommunityCommentsEnabled def = true).
Proof.
  apply (validatePostCommunityEvent_Ok v note); [exact standard| |done].
  intros f. eexists. reflexivity.
Defined.

Example bob_posts : validatePostCommunityEvent v note = pass.
Proof. vm_compute. reflexivity. Qed.
End CommunityWitness.
