(* ===== verification/Replies.v ===== *)
(** * Package validation: who can reply

    src/validation/validation_icip_4000.go: the root post of a reply, its
    [who_can_reply] settings, and the badges that grant a reply. *)

From S2P Require Import Prelude GoStd Nostr Model Content Filters Validator TagRules Community.
Import Strings.

Section Replies.
Context {N : Nostr} {R : RichText} {E : Env}.

(** ** The root post *)

(* src: validation/validation_icip_4000.go 162-164 *)
Definition isRootTag (tag : Tag) : bool :=
  (4 <=? length tag)%nat && (default "" (tag !! 3%nat) =s? TagMarkerRoot).

(* src: validation/validation_icip_4000.go 129-160 *)
Definition createRootPostFilter (e : Event) : outcome (option Filter) :=
  match filter (fun tag => isRootTag tag = true) (GetTags e "a") with
  | tag :: _ =>
      match Split (Value tag) ":" with
      | [p0; p1; p2] =>
          match Strconv.Atoi p0 with
          | None => Err opaque_error
          | Some kind =>
              Ok (Some (MkFilter None (Some [kind]) (Some [p1]) None
                (Some (SetLiterals ∅ "d" [p2])) None None 0 ""))
          end
      | _ => Err wrong
      end
  | [] =>
      match filter (fun tag => isRootTag tag = true) (GetTags e "e") with
      | tag :: _ =>
          Ok (Some (MkFilter (Some [Value tag])
            (Some [KindTextNote; KindArticle; KindDraftArticle; KindRepost;
                   CustomIONKindEditableTextNote]) None None None None None 0 ""))
      | [] => Ok None
      end
  end.

(* src: validation/validation_icip_4000.go 117-126 [findRootPost] *)
Fixpoint first_of_kind (it : EventIterator) (kind : Z) : outcome (option Event) :=
  match it with
  | [] => Ok None
  | (_, Some x) :: _ => Err x
  | (ev, None) :: it =>
      let! ev := deref ev in
      if kind =? Kind ev then Ok (Some ev) else first_of_kind it kind
  end.

(* src: validation/validation_icip_4000.go 108-127 *)
Definition findRootPost (v : eventValidator) (e : Event) : outcome (option Event) :=
  let! filter := createRootPostFilter e in
  match filter with
  | None => Ok None
  | Some f => first_of_kind (QueryFunc v [f]) (Kind e)
  end.

(** ** Badges *)

Definition badge_ref (badgePubkey badgeDTag : string) : string :=
  Strconv.Itoa KindBadgeDefinition +:+ ":" +:+ badgePubkey +:+ ":" +:+ badgeDTag.

(** [len(tag) >= 2 && tag[1] == v] *)
Definition second_is (v : string) (tag : Tag) : bool :=
  match tag with _ :: x :: _ => x =s? v | _ => false end.

(** The scan stops once both are found. *)
(* src: validation/validation_icip_4000.go 546-588 [checkBadgeInEphemeralEvents] *)
Fixpoint check_acks (badgePubkey badgeDTag userPubkey : string) (found award : bool)
    (acks : list EphemeralEmbeddingEvent) : bool :=
  match acks with
  | [] => found && award
  | ack :: acks =>
      let ev := ContentEvent ack in
      let found' := (Kind ev =? KindBadgeDefinition)
        && ((GetMasterPublicKey ev =s? badgePubkey) && (GetD (EvTags ev) =s? badgeDTag)) in
      let award' := negb (Kind ev =? KindBadgeDefinition) && (Kind ev =? KindBadgeAward)
        && existsb (second_is (badge_ref badgePubkey badgeDTag)) (GetTags ev "a")
        && existsb (second_is userPubkey) (GetTags ev "p") in
      if (found || found') && (award || award') then true
      else check_acks badgePubkey badgeDTag userPubkey (found || found') (award || award') acks
  end.

(** [ContentEvent] is never nil here: the embeddings come from
    [ParseEphemeralEmbeddingEvents], which always sets it. *)
(* src: validation/validation_icip_4000.go 539-589 *)
Definition checkBadgeInEphemeralEvents (acks : list EphemeralEmbeddingEvent)
    (badgePubkey badgeDTag userPubkey : string) : bool :=
  if is_nil acks then false else check_acks badgePubkey badgeDTag userPubkey false false acks.

(** [for ev, err := range it { if err != nil { return false }; if p(ev) { found; break } }] *)
(* src: validation/validation_icip_4000.go 600-610 [hasUserBadge] *)
Fixpoint any_event (p : Event -> bool) (it : EventIterator) : outcome bool :=
  match it with
  | [] => Ok false
  | (_, Some _) :: _ => Ok false
  | (ev, None) :: it => let! ev := deref ev in if p ev then Ok true else any_event p it
  end.

(* src: validation/validation_icip_4000.go 591-638 *)
Definition hasUserBadge (v : eventValidator) (badgePubkey badgeDTag userPubkey : string) :
    outcome bool :=
  let! badgeDefinitionFound := any_event (fun badgeDefinition =>
      (Kind badgeDefinition =? KindBadgeDefinition)
      && (GetMasterPublicKey badgeDefinition =s? badgePubkey)
      && (GetD (EvTags badgeDefinition) =s? badgeDTag))
    (QueryFunc v [MkFilter None (Some [KindBadgeDefinition]) (Some [badgePubkey]) None
       (Some (SetLiterals ∅ "d" [badgeDTag])) None None 1 ""]) in
  if negb badgeDefinitionFound then Ok false
  else
    let ref := badge_ref badgePubkey badgeDTag in
    any_event (fun badgeAward =>
        (Kind badgeAward =? KindBadgeAward)
        && (has_tag badgeAward "a" && (Value (GetTag badgeAward "a") =s? ref))
        && (has_tag badgeAward "p" && (Value (GetTag badgeAward "p") =s? userPubkey)))
      (QueryFunc v [MkFilter None (Some [KindBadgeAward]) (Some [badgePubkey]) None
         (Some (SetLiterals (SetLiterals ∅ "a" [ref]) "p" [userPubkey])) None None 1 ""]).

(* src: validation/validation_icip_4000.go 649-671 [checkReplyPermissions] *)
Fixpoint check_badge_settings (v : eventValidator) (userPubkey : string)
    (acks : list EphemeralEmbeddingEvent) (settings : list string) : check :=
  match settings with
  | [] => Err opaque_error
  | setting :: settings =>
      if HasPrefix setting BadgeWhoCanReplySettingsPrefix then
        let badgeRef := TrimPrefix (TrimPrefix setting BadgeWhoCanReplySettingsPrefix) "badge|" in
        match Split badgeRef ":" with
        | [_; badgePubkey; dtag] =>
            if negb (is_nil acks) && checkBadgeInEphemeralEvents acks badgePubkey dtag userPubkey
            then pass
            else
              let! has := hasUserBadge v badgePubkey dtag userPubkey in
              if has : bool then pass else check_badge_settings v userPubkey acks settings
        | _ => check_badge_settings v userPubkey acks settings
        end
      else check_badge_settings v userPubkey acks settings
  end.

(* src: validation/validation_icip_4000.go 640-672 *)
Definition checkReplyPermissions (v : eventValidator) (settingsTag : Tag) (e : Event)
    (acks : list EphemeralEmbeddingEvent) : check :=
  match settingsTag with
  | _ :: _ :: settingsConfig :: _ =>
      check_badge_settings v (GetMasterPublicKey e) acks (Split settingsConfig ",")
  | _ => Err opaque_error
  end.

(* src: validation/validation_icip_4000.go 524-537 *)
Definition handleTextNoteVerifiedOnlyReply (v : eventValidator) (batch : list Event) (e : Event)
    (settingsTag : Tag) : check :=
  let! ephemeralAckEvents := ParseEphemeralEmbeddingEvents batch in
  checkReplyPermissions v settingsTag e (default [] (ephemeralAckEvents !! Address e)).

(** ** The settings of the root post *)

(* src: validation/validation_icip_4000.go 79-92 *)
Definition checkFollowingWhoCanReplySettings (v : eventValidator) (rootPost e : Event) : outcome bool :=
  match QueryFunc v [MkFilter None (Some [KindFollowList]) (Some [GetMasterPublicKey rootPost]) None
          (Some (SetLiterals ∅ "p" [GetMasterPublicKey e])) None None 0 ""] with
  | [] => Ok false
  | (_, Some x) :: _ => Err x
  | (_, None) :: _ => Ok true
  end.

(* src: validation/validation_icip_4000.go 94-106 *)
Definition checkMentionWhoCanReplySettings (rootPost e : Event) : outcome bool :=
  let! mentionedPubkeys := ExtractMentionedPubkeys rootPost in
  Ok (bool_decide (GetMasterPublicKey e ∈ mentionedPubkeys)).

(* src: validation/validation_icip_4000.go 51-77 *)
Definition checkWhoCanReplySettings (v : eventValidator) (batch : list Event) (e : Event)
    (value : string) (rootPost : Event) (settingsTag : Tag) : outcome bool :=
  if value =s? FollowingWhoCanReplySettings then checkFollowingWhoCanReplySettings v rootPost e
  else if value =s? MentionWhoCanReplySettings then checkMentionWhoCanReplySettings rootPost e
  else if HasPrefix value BadgeWhoCanReplySettingsPrefix then
    try handleTextNoteVerifiedOnlyReply v batch e settingsTag ;; Ok true
  else Ok false.

(** The loop stops at the first value that passes, and fails at the first
    that fails. *)
(* src: validation/validation_icip_4000.go 34-43 *)
Fixpoint any_setting (v : eventValidator) (batch : list Event) (e rootPost : Event)
    (settingsTag : Tag) (values : list string) : outcome bool :=
  match values with
  | [] => Ok false
  | value :: values =>
      let! passed := checkWhoCanReplySettings v batch e value rootPost settingsTag in
      if passed : bool then Ok true else any_setting v batch e rootPost settingsTag values
  end.

(* src: validation/validation_icip_4000.go 20-49 *)
Definition validateWhoCanReplySettings (v : eventValidator) (batch : list Event) (e : Event) : check :=
  let! rootPost := findRootPost v e in
  match rootPost with
  | None => pass
  | Some rootPost =>
      if GetMasterPublicKey rootPost =s? GetMasterPublicKey e then pass
      else
        let settingsTag := getLatestSettingsTag rootPost WhoCanReplySettings in
        if is_nil settingsTag then pass
        else
          let! s1 := index settingsTag 1 in
          if s1 ≠s? WhoCanReplySettings then pass
          else
            let! s2 := index settingsTag 2 in
            let! passed := any_setting v batch e rootPost settingsTag (Split s2 ",") in
            reject (err ErrActionForbidden) when negb passed ;; pass
  end.
End Replies.

(** ** Theorems *)

Section Theorems.
Context {N : Nostr} {NS : NostrSpec N} {R : RichText}.

(** The timestamp of a setting, when it can be chosen. *)
Definition setting_time (name : string) (tag : Tag) (t : Z) : Prop :=
  Value tag = name /\ exists s, tag !! 3%nat = Some s /\ ParseTimestamp s = Some t.

(** A choice among the settings seen so far: the first of those whose
    timestamp is positive and the latest. *)
Definition newest_setting (name : string) (tags : Tags) (choice : Tag * Z) : Prop :=
  (choice = ([], 0) /\ forall tag t, tag ∈ tags -> setting_time name tag t -> TsTime t <= 0) \/
  (choice.1 ∈ tags /\ setting_time name choice.1 choice.2 /\ 0 < TsTime choice.2 /\
   forall tag t, tag ∈ tags -> setting_time name tag t -> TsTime t <= TsTime choice.2).

Lemma getLatestSettingsTag_spec e name :
  exists t, newest_setting name (GetAll (EvTags e) ["settings"]) (getLatestSettingsTag e name, t).
Proof.
  unfold getLatestSettingsTag. set (step := fun '(latestSettingsTag, latestTimestamp) tag => _).
  enough (forall suf pre s, newest_setting name pre s ->
    newest_setting name (pre ++ suf) (fold_left step suf s)) as Hgen.
  { specialize (Hgen (GetAll (EvTags e) ["settings"]) [] ([], 0)). cbn [app] in Hgen.
    destruct (fold_left step (GetAll (EvTags e) ["settings"]) ([], 0)) as [tag t]. exists t. apply Hgen.
    left. split; [done|]. intros ? ? H. by apply elem_of_nil in H. }
  induction suf as [|tag suf IH]; intros pre s Hs; [by rewrite List.app_nil_r|].
  change (tag :: suf) with ([tag] ++ suf) at 1. rewrite (assoc_L (++)). cbn [fold_left].
  apply IH. clear IH suf. destruct s as [best bt]. cbn [step].
  assert (Hkeep : (forall t, setting_time name tag t -> TsTime t <= TsTime bt) -> newest_setting name (pre ++ [tag]) (best, bt)).
  { intros Ht. destruct Hs as [[[= -> ->] Hall]|(Hin & Hst & Hpos & Hall)]; [left|right]; rewrite ?TsTime_0 in Ht.
    - split; [done|]. intros tag' t [H|H]%elem_of_app; [|apply list_elem_of_singleton in H as ->]; eauto.
    - cbn in *. split_and!; [apply elem_of_app; by left|done..|].
      intros tag' t [H|H]%elem_of_app; [|apply list_elem_of_singleton in H as ->]; eauto. }
  destruct ((Value tag =s? name) && (3 <? length tag)%nat) eqn:Hc.
  - simplify_go. destruct (lookup_lt_is_Some_2 tag 3) as [s Hs3]; [done|]. rewrite Hs3. cbn [default].
    unfold default. cbn. destruct (ParseTimestamp s) as [t|] eqn:Hp.
    2: { apply Hkeep. intros t (_ & s' & Hs' & Hp'). congruence. }
    rewrite TsAfter_spec. destruct (Z.ltb_spec (TsTime bt) (TsTime t)).
    + right. cbn. split_and!; [apply elem_of_app; right; left|by split; eauto| |].
      * destruct Hs as [[[= _ ->] _]|(_ & _ & Hpos & _)]; cbn in *; rewrite ?TsTime_0 in *; lia.
      * assert (forall tag' t', tag' ∈ pre -> setting_time (Value tag) tag' t' -> TsTime t' <= TsTime bt) as Hbt
          by (destruct Hs as [[[= -> ->] Hall]|(_ & _ & _ & Hall)]; rewrite ?TsTime_0; done).
        intros tag' t' [Hin|Hin]%elem_of_app Hst; [|apply list_elem_of_singleton in Hin as ->].
        -- specialize (Hbt _ _ Hin Hst). lia.
        -- destruct Hst as (_ & s' & Hs' & Hp'). replace t' with t by congruence; lia.
    + apply Hkeep. intros t' (_ & s' & Hs' & Hp'). replace t' with t by congruence; lia.
  - apply Hkeep. intros t (Hv & s & Hs3 & _). apply lookup_lt_Some in Hs3.
    rewrite Hv, String.eqb_refl, andb_true_l in Hc. apply Nat.ltb_ge in Hc. lia.
Qed.

(** A setting that was found carries its name and a value. *)
Lemma latest_setting_shape e name :
  name ≠ "" -> getLatestSettingsTag e name ≠ [] ->
  index (getLatestSettingsTag e name) 1 = Ok name /\
  exists s2, index (getLatestSettingsTag e name) 2 = Ok s2 /\ getLatestSettingsTag e name !! 2%nat = Some s2.
Proof.
  intros Hname Hne. destruct (getLatestSettingsTag_spec e name) as [t [[[= H _] _]|(_ & [Hv (s3 & Hs3 & _)] & _)]];
    [done|]. cbn in *. rewrite Value_spec in Hv. revert Hv Hs3.
  generalize (getLatestSettingsTag e name). intros [|k [|v1 [|v2 tag]]]; cbn; try done.
  intros -> _. eauto.
Qed.

Lemma any_setting_Ok v batch e root tag values :
  any_setting v batch e root tag values = Ok true <->
  exists pre value post, values = pre ++ value :: post /\
    (forall x, x ∈ pre -> checkWhoCanReplySettings v batch e x root tag = Ok false) /\
    checkWhoCanReplySettings v batch e value root tag = Ok true.
Proof.
  induction values as [|value values IH]; cbn.
  - split; [done|]. intros ([|] & ? & ? & ? & _); done.
  - rewrite bind_Ok. split.
    + intros ([] & Hc & Hrest).
      * exists [], value, values. split_and!; [done| |done]. intros x Hx. by apply elem_of_nil in Hx.
      * apply IH in Hrest as (pre & w & post & -> & Hpre & Hw). exists (value :: pre), w, post.
        split_and!; [done| |done]. intros x [->|Hx]%elem_of_cons; auto.
    + intros ([|x pre] & w & post & Heq & Hpre & Hw); cbn in Heq; simplify_eq.
      * exists true. done.
      * exists false. split; [apply Hpre; left|]. apply IH. exists pre, w, post. split_and!; [done| |done].
        intros y Hy. apply Hpre. by right.
Qed.

Lemma validateWhoCanReplySettings_values v batch e root s2 :
  let tag := getLatestSettingsTag root WhoCanReplySettings in
  findRootPost v e = Ok (Some root) -> GetMasterPublicKey root ≠ GetMasterPublicKey e ->
  tag ≠ [] -> tag !! 2%nat = Some s2 ->
  validateWhoCanReplySettings v batch e =
    (let! passed := any_setting v batch e root tag (Split s2 ",") in
     reject (err ErrActionForbidden) when negb passed ;; pass).
Proof.
  intros tag Hroot Hother Hne Hs2. unfold validateWhoCanReplySettings. rewrite Hroot. cbn [mbind outcome_bind].
  rewrite (proj2 (String.eqb_neq _ _) Hother). cbv zeta. fold tag.
  destruct (latest_setting_shape root WhoCanReplySettings ltac:(done) Hne) as (H1 & x & H2 & Hx).
  fold tag in H1, H2, Hx. rewrite H1, H2. cbn [mbind outcome_bind]. rewrite String.eqb_refl. cbn [negb].
  replace (is_nil tag) with false by by destruct tag. congruence.
Qed.

(** A reply to a post of somebody else that restricts replies is accepted
    exactly when one of the values of the latest setting admits it and the
    check of every earlier value returned without an error. *)
Lemma validateWhoCanReplySettings_Ok v batch e root :
  let tag := getLatestSettingsTag root WhoCanReplySettings in
  findRootPost v e = Ok (Some root) -> GetMasterPublicKey root ≠ GetMasterPublicKey e ->
  validateWhoCanReplySettings v batch e = pass <->
  tag = [] \/
  exists s2 pre value post, tag !! 2%nat = Some s2 /\ Split s2 "," = pre ++ value :: post /\
    (forall x, x ∈ pre -> checkWhoCanReplySettings v batch e x root tag = Ok false) /\
    checkWhoCanReplySettings v batch e value root tag = Ok true.
Proof.
  intros tag Hroot Hother. destruct (decide (tag = [])) as [Hnil|Hne].
  { split; [by left|]. intros _. unfold validateWhoCanReplySettings. rewrite Hroot. cbn [mbind outcome_bind].
    rewrite (proj2 (String.eqb_neq _ _) Hother). cbv zeta. fold tag. by rewrite Hnil. }
  destruct (latest_setting_shape root WhoCanReplySettings ltac:(done) Hne) as (_ & s2 & _ & Hs2). fold tag in Hs2.
  rewrite (validateWhoCanReplySettings_values v batch e root s2) by done. fold tag.
  transitivity (any_setting v batch e root tag (Split s2 ",") = Ok true).
  { rewrite bind_Ok. split; [intros ([] & Hp & H); done|]. intros Hp. by exists true. }
  rewrite any_setting_Ok. split.
  - intros (pre & value & post & H). right. exists s2, pre, value, post. done.
  - intros [|(s2' & pre & value & post & Hs2' & H)]; [done|].
    assert (s2' = s2) as -> by congruence. exists pre, value, post. done.
Qed.

(** A badge as the first value decides alone: the values after it, which
    might admit the reply, are never consulted. *)
Lemma badge_setting_decides v batch e root s2 value rest :
  let tag := getLatestSettingsTag root WhoCanReplySettings in
  findRootPost v e = Ok (Some root) -> GetMasterPublicKey root ≠ GetMasterPublicKey e ->
  tag !! 2%nat = Some s2 -> Split s2 "," = value :: rest ->
  HasPrefix value BadgeWhoCanReplySettingsPrefix = true ->
  validateWhoCanReplySettings v batch e = handleTextNoteVerifiedOnlyReply v batch e tag.
Proof.
  intros tag Hroot Hother Hs2 Hsplit Hb.
  assert (tag ≠ []) as Hne by (intros H; by rewrite H in Hs2).
  rewrite (validateWhoCanReplySettings_values v batch e root s2) by done. fold tag. rewrite Hsplit.
  cbn [any_setting]. unfold checkWhoCanReplySettings.
  destruct (String.eqb_spec value FollowingWhoCanReplySettings) as [->|_]; [done|].
  destruct (String.eqb_spec value MentionWhoCanReplySettings) as [->|_]; [done|].
  rewrite Hb. by destruct (handleTextNoteVerifiedOnlyReply v batch e tag) as [[]| | |].
Qed.
End Theorems.

(** ** Concrete inputs *)
Module RepliesWitness.
Import Plain.
#[local] Instance R : RichText := {|
  json_delta _ := None; json_delta_Marshal _ := None; json_insert _ := None; json_string _ := None;
  json_string_Marshal s := s; quill_Render _ := None; bluemonday_Sanitize s := s;
  html_UnescapeString s := s; nip19_Decode _ := None |}.

Definition root (values : string) : Event := MkEvent None "r1" "ann" 10 1
  [["settings"; "who_can_reply"; "mentioned"; "5"]; ["settings"; "who_can_reply"; values; "10"]] "hi" "".
Definition follows : Event := MkEvent None "f1" "ann" 5 3 [["p"; "bob"]] "" "".
Definition reply : Event := MkEvent None "e1" "bob" 20 1 [["e"; "r1"; ""; "root"]] "yes" "".
Definition v (values : string) : eventValidator :=
  MkValidator None (CommunityWitness.select [root values; follows]) [].

Lemma validateWhoCanReplySettings_Ok_witness :
  let tag := getLatestSettingsTag (root "mentioned,following") WhoCanReplySettings in
  let v := v "mentioned,following" in
  validateWhoCanReplySettings v [] reply = pass <->
  tag = [] \/
  exists s2 pre value post, tag !! 2%nat = Some s2 /\ Split s2 "," = pre ++ value :: post /\
    (forall x, x ∈ pre -> checkWhoCanReplySettings v [] reply x (root "mentioned,following") tag = Ok false) /\
    checkWhoCanReplySettings v [] reply value (root "mentioned,following") tag = Ok true.
Proof.
  apply (validateWhoCanReplySettings_Ok (v "mentioned,following") [] reply (root "mentioned,following"));
    [vm_compute; reflexivity|done].
Defined.
Example follower_replies :
  validateWhoCanReplySettings (v "mentioned,following") [] reply = pass.
Proof. vm_compute. reflexivity. Qed.

Definition badge_first : string := "badge|30009:iss:vip,following".
Lemma badge_setting_decides_witness :
  validateWhoCanReplySettings (v badge_first) [] reply =
  handleTextNoteVerifiedOnlyReply (v badge_first) [] reply
    (getLatestSettingsTag (root badge_first) WhoCanReplySettings).
Proof.
  apply (badge_setting_decides (v badge_first) [] reply (root badge_first) badge_first
    "badge|30009:iss:vip" ["following"]); [vm_compute; reflexivity|done|vm_compute; reflexivity..].
Defined.
Example follower_refused : validateWhoCanReplySettings (v badge_first) [] reply = Err opaque_error.
Proof. vm_compute. reflexivity. Qed.
End RepliesWitness.
