(* ===== verification/Membership.v ===== *)
(** * Package validation: community events

    src/validation/validation_icip_3000.go: definitions and their changes,
    joins, transfers of ownership and bans.  These rules consult the global
    validator (global.go), here the argument [global]. *)

From S2P Require Import Prelude GoStd Nostr Model Content Validator TagRules Community.
Import Strings.

Abbreviation forbidden := (err ErrActionForbidden).

Section Membership.
Context {N : Nostr} {R : RichText} {E : Env} {J : GoJSON} {C : Crypto}.
Context (global : eventValidator).

(* src: validation/global.go 30-32 *)
Definition GetCommunityDefinition (hTag : string) : outcome Event :=
  getCommunityDefinition global hTag.

(** [tag[3] != moderator && tag[3] != admin && tag[3] != ""], or too short *)
(* src: validation/validation_icip_3000.go 25-29 [validateCustomIONKindCommunityDefinitionEvent] *)
Definition bad_role (tag : Tag) : bool :=
  match tag !! 3%nat with
  | None => true
  | Some role => (role ≠s? ModeratorRole) && (role ≠s? AdminRole) && (role ≠s? "")
  end.

(** The [p] tags a moderator may not change. *)
(* src: validation/validation_icip_3000.go 72-83 *)
Definition moderator_member_check (def : Event) (pTags : Tags) : check :=
  for_each pTags (fun pTag =>
    if Key pTag =s? "p" then
      let! role := index pTag 3 in
      reject forbidden when role =s? AdminRole ;;
      for_each (GetAll (EvTags def) ["p"]) (fun tag =>
        if (Key tag =s? "p") && (Value tag =s? Value pTag) then
          let! r := index tag 3 in
          reject forbidden when r =s? AdminRole ;; pass
        else pass)
    else pass).

(** Whether the slice that [GetAll] returns is nil, which the code tests. *)
Context (GetAll_is_nil : Tags -> list string -> bool).

(* src: validation/validation_icip_3000.go 71-108 *)
Definition moderator_check (def e : Event) : check :=
  try moderator_member_check def (GetTags e "p") ;;
  reject forbidden when has_tag e "name" ;;
  reject forbidden when has_tag e "description" ;;
  reject forbidden when has_tag e "closed" ;;
  reject forbidden when has_tag e "open" ;;
  reject forbidden when has_tag e "public" ;;
  reject forbidden when has_tag e "private" ;;
  reject forbidden when has_tag e "imeta" ;;
  reject forbidden when negb (GetAll_is_nil (EvTags e) ["settings"]) ;;
  pass.

(* src: validation/validation_icip_3000.go 19-111 *)
Definition validateCustomIONKindCommunityDefinitionEvent (e : Event) : check :=
  let hTag := GetTag e CustomIONTagCommunity in
  reject wrong when is_nil hTag ;;
  let pTags := GetTags e "p" in
  try for_each pTags (fun tag => reject wrong when bad_role tag ;; pass) ;;
  reject wrong when has_tag e "open" && has_tag e "closed" ;;
  reject wrong when has_tag e "public" && has_tag e "private" ;;
  try for_each (GetTags e "a") (fun aTag =>
        match Split (Value aTag) ":" with
        | [p0; _; _] =>
            reject wrong when p0 ≠s? Strconv.Itoa CustomIONKindCommunityDefinition ;; pass
        | _ => Err wrong
        end) ;;
  if Kind e =? CustomIONKindCommunityDefinition then
    match GetCommunityDefinition (Value hTag) with
    | Ok def =>
        reject forbidden when GetMasterPublicKey def ≠s? GetMasterPublicKey e ;; pass
    | Err x => if error_is x ErrNotFound then pass else Err x
    | Panic => Panic
    | OutOfFuel => OutOfFuel
    end
  else
    let! def := GetCommunityDefinition (Value hTag) in
    let authorRole := GetCommunityRoleByPubkey (GetMasterPublicKey e) def in
    reject forbidden when authorRole =s? RegularRole ;;
    if authorRole =s? ModeratorRole then moderator_check def e else pass.

(** The authorization carried by a join: [err.Error()] is called on the nil
    error of a signature that is only wrong. *)
(* src: validation/validation_icip_3000.go 121-143 *)
Definition check_authorization (authorizationTag : Tag) : check :=
  match json_event (Value authorizationTag) with
  | None => Err wrong
  | Some parsedContent =>
      reject wrong when negb (Kind parsedContent =? CustomIONKindCommunityJoin) ;;
      let expirationTag := Value (GetTag parsedContent "expiration") in
      reject wrong when expirationTag =s? "" ;;
      match ParseTimestamp expirationTag with
      | None => Err wrong
      | Some expirationTime =>
          reject wrong when Time.Before (TsTime expirationTime) now ;;
          match CheckSignature parsedContent with
          | Ok true => pass
          | Ok false => Panic
          | Err _ => Err wrong
          | Panic => Panic
          | OutOfFuel => OutOfFuel
          end
      end
  end.

(** [Validate] of global.go on the batch of the one event. *)
Context (Validate : Event -> check).

(* src: validation/validation_icip_3000.go 113-173 *)
Definition validateCustomIONKindCommunityJoinEvent (e : Event) : check :=
  let hTag := GetTag e CustomIONTagCommunity in
  let authorizationTag := GetTag e "authorization" in
  reject wrong when is_nil hTag ;;
  try (if is_nil authorizationTag then pass else check_authorization authorizationTag) ;;
  let! def := GetCommunityDefinition (Value hTag) in
  reject wrong when has_tag def "open" && has_tag def "public" && has_tag e "authorization" ;;
  if has_tag def "closed" then
    if GetCommunityRoleByPubkey (GetMasterPublicKey e) def ≠s? RegularRole then pass
    else
      reject forbidden when is_nil authorizationTag ;;
      match json_event (Value authorizationTag) with
      | None => Err forbidden
      | Some parsedAuthorizationEvent =>
          try Validate parsedAuthorizationEvent ;;
          reject forbidden
            when GetCommunityRoleByPubkey (GetMasterPublicKey parsedAuthorizationEvent) def
                 =s? RegularRole ;;
          pass
      end
  else pass.

(* src: validation/validation_icip_3000.go 175-215 *)
Definition validateCustomIONKindCommunityOwnershipTransferringEvent (e : Event) : check :=
  let hTag := GetTag e CustomIONTagCommunity in
  let expirationTag := Value (GetTag e "expiration") in
  try for_each (GetAll (EvTags e) ["a"]) (fun aTag =>
        reject wrong when (length aTag <? 2)%nat ;;
        match Split (Value aTag) ":" with
        | [p0; _; _] =>
            reject wrong when p0 ≠s? Strconv.Itoa CustomIONKindCommunityDefinition ;; pass
        | _ => Err wrong
        end) ;;
  reject wrong when is_nil hTag ;;
  reject wrong when is_nil (GetAll (EvTags e) ["p"]) ;;
  reject wrong when expirationTag =s? "" ;;
  match ParseTimestamp expirationTag with
  | None => Err wrong
  | Some expirationTime =>
      reject wrong when Time.Before (TsTime expirationTime) now ;;
      let! def := GetCommunityDefinition (Value hTag) in
      reject forbidden
        when GetCommunityRoleByPubkey (GetMasterPublicKey e) def ≠s? OwnerRole ;;
      pass
  end.

(* src: validation/validation_icip_3000.go 236-249 *)
Definition check_ban (e def : Event) (authorRole : string) (pTag : Tag) : check :=
  if Key pTag =s? "p" then
    reject forbidden when Value pTag =s? GetMasterPublicKey e ;;
    reject forbidden when Value pTag =s? GetMasterPublicKey def ;;
    reject forbidden
      when (GetCommunityRoleByPubkey (Value pTag) def =s? AdminRole)
           && (authorRole =s? ModeratorRole) ;;
    pass
  else pass.

(* src: validation/validation_icip_3000.go 217-252 *)
Definition validateCustomIONKindCommunityBanUserEvent (e : Event) : check :=
  let hTag := GetTag e CustomIONTagCommunity in
  let pTags := GetAll (EvTags e) ["p"] in
  reject wrong when is_nil hTag ;;
  reject wrong when is_nil pTags ;;
  let! def := GetCommunityDefinition (Value hTag) in
  let authorRole := GetCommunityRoleByPubkey (GetMasterPublicKey e) def in
  reject forbidden when authorRole =s? RegularRole ;;
  for_each pTags (check_ban e def authorRole).
End Membership.

(** ** Theorems *)

Section Theorems.
Context {N : Nostr} {NS : NostrSpec N} {R : RichText} {E : Env} {J : GoJSON} {C : Crypto}.
Context (global : eventValidator).
(** The stored definitions give the roles their own validation allows. *)
Context (Hstandard : forall h def, GetCommunityDefinition global h = Ok def -> standard_roles def).

Lemma is_nil_false {A} (l : list A) : is_nil l = false <-> l ≠ [].
Proof. by destruct l. Qed.

Lemma regular_authority def pk :
  standard_roles def -> (GetCommunityRoleByPubkey pk def =s? RegularRole) = false <-> 0 < authority def pk.
Proof.
  intros Hs. unfold authority. pattern (GetCommunityRoleByPubkey pk def).
  apply role_cases; [cbn..|by apply standard_role]; by split.
Qed.

Lemma check_ban_spec e def t :
  standard_roles def -> 0 < authority def (GetMasterPublicKey e) ->
  check_ban e def (GetCommunityRoleByPubkey (GetMasterPublicKey e) def) t = pass <->
  (Key t = "p" ->
   Value t ≠ GetMasterPublicKey e /\ Value t ≠ GetMasterPublicKey def /\
   authority def (Value t) <= authority def (GetMasterPublicKey e)).
Proof.
  intros Hs Hpos. unfold check_ban. destruct (String.eqb_spec (Key t) "p") as [Hk|Hk]; [|tauto].
  rewrite !reject_pass, !String.eqb_neq.
  assert (Value t ≠ GetMasterPublicKey def ->
    (GetCommunityRoleByPubkey (Value t) def =s? AdminRole)
    && (GetCommunityRoleByPubkey (GetMasterPublicKey e) def =s? ModeratorRole) = false <->
    authority def (Value t) <= authority def (GetMasterPublicKey e)) as Hrank; [|tauto].
  intros Hne. unfold authority in *.
  assert (GetCommunityRoleByPubkey (Value t) def ∈ [AdminRole; ModeratorRole; RegularRole]) as Ht.
  { unfold GetCommunityRoleByPubkey. rewrite (proj2 (String.eqb_neq _ _)) by congruence.
    destruct (role_of_cases (GetAll (EvTags def) ["p"]) (Value t)) as [-> |(m & role & Hin & Hm & Hr & ->)];
      [decide_in|]. rewrite GetAll_key in Hin. apply list_elem_of_filter in Hin as [_ Hin].
    specialize (Hs m role Hin Hm Hr). set_solver. }
  pose proof (standard_role def (GetMasterPublicKey e) Hs) as He. revert Ht He Hpos.
  generalize (GetCommunityRoleByPubkey (Value t) def), (GetCommunityRoleByPubkey (GetMasterPublicKey e) def).
  intros a b Ha Hb. set_unfold in Ha. set_unfold in Hb.
  destruct Ha as [-> |[-> |[-> |[]]]], Hb as [-> |[-> |[-> |[-> |[]]]]]; cbn; split; (done || lia).
Qed.

(** A ban is accepted exactly when the staff of the community issues it
    and every key it names is neither the issuer nor the owner, and has no
    more authority than the issuer. *)
Lemma validateCustomIONKindCommunityBanUserEvent_Ok e :
  validateCustomIONKindCommunityBanUserEvent global e = pass <->
  GetTag e CustomIONTagCommunity ≠ [] /\ GetAll (EvTags e) ["p"] ≠ [] /\
  exists def, GetCommunityDefinition global (Value (GetTag e CustomIONTagCommunity)) = Ok def /\
    0 < authority def (GetMasterPublicKey e) /\
    forall t, t ∈ EvTags e -> Key t = "p" ->
      Value t ≠ GetMasterPublicKey e /\ Value t ≠ GetMasterPublicKey def /\
      authority def (Value t) <= authority def (GetMasterPublicKey e).
Proof.
  unfold validateCustomIONKindCommunityBanUserEvent. cbv zeta.
  rewrite !reject_pass, !is_nil_false, bind_Ok. do 2 apply and_iff_compat_l.
  apply exist_proper; intros def. apply and_iff_compat_l_weak. intros Hdef.
  pose proof (Hstandard _ _ Hdef) as Hs.
  rewrite reject_pass, regular_authority, for_each_Ok, Forall_forall by done.
  apply and_iff_compat_l_weak. intros Hpos. split; intros H t Hin.
  - intros Hk. apply (check_ban_spec e def t Hs Hpos); [|done]. apply H.
    rewrite GetAll_key. apply list_elem_of_filter. rewrite Hk. split; [|done]. split; [done|].
    intros ->. by rewrite Key_nil in Hk.
  - apply (check_ban_spec e def t Hs Hpos). rewrite GetAll_key in Hin.
    apply list_elem_of_filter in Hin as [_ Hin]. by apply H.
Qed.

(** ** Definitions and changes *)

Lemma authority_moderator def pk :
  standard_roles def -> (GetCommunityRoleByPubkey pk def =s? ModeratorRole) = true <-> authority def pk = 1.
Proof.
  intros Hs. unfold authority. pattern (GetCommunityRoleByPubkey pk def).
  apply role_cases; [cbn..|by apply standard_role]; by split.
Qed.

Lemma role_of_admin ts pk :
  role_of ts pk = AdminRole ->
  exists t, t ∈ ts /\ Key t = "p" /\ Value t = pk /\ t !! 3%nat = Some AdminRole.
Proof.
  induction ts as [|t ts IH]; cbn [role_of]; [done|]. destruct (_ && _) eqn:Ht.
  - simplify_go. intros Hr. exists t. split_and!; [left|done..|].
    destruct (t !! 3%nat); cbn in Hr; [by subst|done].
  - intros (t' & Hin & ?)%IH. exists t'. split; [by right|done].
Qed.

Lemma moderator_member_check_spec def pTags t :
  moderator_member_check def pTags = pass -> t ∈ pTags -> Key t = "p" ->
  (exists role, t !! 3%nat = Some role /\ role ≠ AdminRole) /\
  GetCommunityRoleByPubkey (Value t) def ≠ AdminRole.
Proof.
  unfold moderator_member_check. rewrite for_each_Ok, Forall_forall. intros H Hin Hk.
  specialize (H t Hin). cbv beta in H. rewrite Hk, String.eqb_refl, bind_Ok in H.
  destruct H as (role & Hr%index_Ok & H). rewrite reject_pass, String.eqb_neq, for_each_Ok, Forall_forall in H.
  destruct H as [Hne Hall]. split; [by exists role|]. unfold GetCommunityRoleByPubkey. case_match; [done|].
  intros (m & Hm & Hmk & Hmv & Hmr)%role_of_admin. specialize (Hall m Hm). cbv beta in Hall.
  rewrite Hmk, Hmv, !String.eqb_refl in Hall. cbn [andb] in Hall. rewrite (proj2 (index_Ok m 3 _) Hmr) in Hall. done.
Qed.

Context (GetAll_is_nil : Tags -> list string -> bool).

(** The tags only the owner and the administrators change. *)
Definition restricted_tags : list string :=
  ["name"; "description"; "closed"; "open"; "public"; "private"; "imeta"].

Lemma moderator_check_spec def e :
  moderator_check GetAll_is_nil def e = pass ->
  moderator_member_check def (GetTags e "p") = pass /\
  (forall k, k ∈ restricted_tags -> has_tag e k = false) /\ GetAll_is_nil (EvTags e) ["settings"] = true.
Proof.
  unfold moderator_check. rewrite bind_Ok_unit, !reject_pass, negb_false_iff.
  intros (Hm & Hname & Hdesc & Hclosed & Hopen & Hpublic & Hprivate & Himeta & Hs & _).
  split_and!; [done| |done]. intros k Hk. unfold restricted_tags in Hk. set_unfold in Hk. naive_solver.
Qed.

(** An accepted definition creates a community or is its owner's; an
    accepted change is the staff's, and a moderator's neither sets the name,
    the description, the picture, the modes or the settings of the community,
    nor names an administrator, nor makes one. *)
Lemma accepted_definition e :
  validateCustomIONKindCommunityDefinitionEvent global GetAll_is_nil e = pass ->
  let h := Value (GetTag e CustomIONTagCommunity) in
  let pk := GetMasterPublicKey e in
  if Kind e =? CustomIONKindCommunityDefinition then
    (exists def, GetCommunityDefinition global h = Ok def /\ GetMasterPublicKey def = pk) \/
    (exists x, GetCommunityDefinition global h = Err x /\ error_is x ErrNotFound = true)
  else exists def, GetCommunityDefinition global h = Ok def /\ 0 < authority def pk /\
    (authority def pk = 1 ->
       (forall k, k ∈ restricted_tags -> has_tag e k = false) /\
       GetAll_is_nil (EvTags e) ["settings"] = true /\
       forall t, t ∈ EvTags e -> Key t = "p" ->
         t !! 3%nat ∈ [Some ModeratorRole; Some RegularRole] /\ authority def (Value t) ≠ 2).
Proof.
  unfold validateCustomIONKindCommunityDefinitionEvent. cbv zeta.
  rewrite reject_pass, bind_Ok_unit, !reject_pass, bind_Ok_unit, for_each_Ok, Forall_forall.
  intros (_ & Hroles & _ & _ & _ & H). destruct (Kind e =? CustomIONKindCommunityDefinition).
  - destruct (GetCommunityDefinition global _) as [def|x| |]; [|..]; [left|right|done..].
    + exists def. rewrite reject_pass, negb_false_iff, String.eqb_eq in H. by destruct H.
    + exists x. split; [done|]. by destruct (error_is x ErrNotFound).
  - rewrite bind_Ok in H. destruct H as (def & Hdef & H). exists def. pose proof (Hstandard _ _ Hdef) as Hs.
    rewrite reject_pass, regular_authority in H by done. destruct H as [Hpos H]. do 2 (split; [done|]).
    intros Hmod. apply authority_moderator in Hmod; [|done]. rewrite Hmod in H.
    apply moderator_check_spec in H as (Hm & Hrestricted & Hset). do 2 (split; [done|]). intros t Hin Hk.
    assert (t ∈ GetTags e "p") as Hin' by by apply list_elem_of_filter.
    destruct (moderator_member_check_spec def _ t Hm Hin' Hk) as [(role & Hr & Hna) Hnadmin]. split.
    + specialize (Hroles t Hin'). cbv beta in Hroles. rewrite reject_pass in Hroles.
      destruct Hroles as [Hbad _]. unfold bad_role in Hbad. rewrite Hr in Hbad |- *.
      destruct (String.eqb_spec role ModeratorRole) as [Hr1|_]; [rewrite Hr1; left|].
      destruct (String.eqb_spec role AdminRole) as [Hr2|_]; [done|].
      destruct (String.eqb_spec role "") as [Hr3|_]; [rewrite Hr3; right; left|done].
    + unfold authority. revert Hnadmin. apply (role_cases (fun r => r ≠ AdminRole -> rank r ≠ 2));
        [done..|by apply standard_role].
Qed.

(** ** Joining *)

Context (Validate : Event -> check).

(** What the code asks of an authorization before it consults the community. *)
Definition authorization (auth : Event) : Prop :=
  Kind auth = CustomIONKindCommunityJoin /\ Value (GetTag auth "expiration") ≠ "" /\
  exists t, ParseTimestamp (Value (GetTag auth "expiration")) = Some t /\
    Time.Before (TsTime t) now = false.

Lemma check_authorization_spec tag auth :
  json_event (Value tag) = Some auth ->
  (check_authorization tag = pass <-> authorization auth /\ CheckSignature auth = Ok true) /\
  (authorization auth -> CheckSignature auth = Ok false -> check_authorization tag = Panic).
Proof.
  intros Ha. unfold check_authorization. rewrite Ha. unfold authorization.
  destruct (Z.eqb_spec (Kind auth) CustomIONKindCommunityJoin) as [Hk|Hk]; cbn [negb];
    [|split; [split; [done|tauto]|tauto]].
  destruct (String.eqb_spec (Value (GetTag auth "expiration")) "") as [Hx|Hx];
    [split; [split; [done|tauto]|tauto]|].
  destruct (ParseTimestamp _) as [t|].
  2: { split; [split; [done|intros [(_ & _ & t & [=] & _) _]]|intros (_ & _ & t & [=] & _)]. }
  destruct (Time.Before (TsTime t) now) eqn:Hb.
  { split; [split; [done|intros [(_ & _ & t' & [= <-] & Hb') _]]|intros (_ & _ & t' & [= <-] & Hb')]; congruence. }
  assert (Kind auth = CustomIONKindCommunityJoin /\ Value (GetTag auth "expiration") ≠ "" /\
    exists t', Some t = Some t' /\ Time.Before (TsTime t') now = false) as Hok by eauto.
  destruct (CheckSignature auth) as [[]|x| |]; split; try split; try done; intros [_ [=]].
Qed.

(** A key without authority joins a closed community exactly with an
    unexpired, signed and valid authorization by the staff of the community;
    the event that joins and the community it joins are not asked to be the
    ones the authorization is for. *)
Lemma validateCustomIONKindCommunityJoinEvent_closed e def :
  GetTag e CustomIONTagCommunity ≠ [] ->
  GetCommunityDefinition global (Value (GetTag e CustomIONTagCommunity)) = Ok def ->
  has_tag def "closed" = true -> has_tag def "open" = false ->
  authority def (GetMasterPublicKey e) = 0 ->
  validateCustomIONKindCommunityJoinEvent global Validate e = pass <->
  has_tag e "authorization" = true /\
  exists auth, json_event (Value (GetTag e "authorization")) = Some auth /\
    authorization auth /\ CheckSignature auth = Ok true /\ Validate auth = pass /\
    0 < authority def (GetMasterPublicKey auth).
Proof.
  intros Hh Hdef Hclosed Hopen Hreg. pose proof (Hstandard _ _ Hdef) as Hs.
  unfold validateCustomIONKindCommunityJoinEvent. cbv zeta. rewrite Hdef. cbn [mbind outcome_bind].
  rewrite Hclosed, Hopen. cbn [andb].
  rewrite reject_pass, is_nil_false, bind_Ok_unit.
  replace (GetCommunityRoleByPubkey (GetMasterPublicKey e) def ≠s? RegularRole) with false
    by (pose proof (regular_authority def (GetMasterPublicKey e) Hs) as Hr; destruct (_ =s? _); [done|]; 
        destruct (proj1 Hr eq_refl); lia).
  unfold has_tag at 1. destruct (is_nil (GetTag e "authorization")); cbn [negb]; [naive_solver|].
  destruct (json_event (Value (GetTag e "authorization"))) as [auth|] eqn:Ha.
  - destruct (check_authorization_spec _ auth Ha) as [Hc _].
    rewrite Hc, bind_Ok_unit, reject_pass, regular_authority by done. naive_solver.
  - unfold check_authorization at 1. rewrite Ha. naive_solver.
Qed.

(** An authorization whose signature is wrong makes the validation of
    the join panic instead of refusing it. *)
Lemma join_bad_signature_panics e auth :
  GetTag e CustomIONTagCommunity ≠ [] -> has_tag e "authorization" = true ->
  json_event (Value (GetTag e "authorization")) = Some auth ->
  authorization auth -> CheckSignature auth = Ok false ->
  validateCustomIONKindCommunityJoinEvent global Validate e = Panic.
Proof.
  intros Hh Hauth Ha Hok Hsig. unfold validateCustomIONKindCommunityJoinEvent. cbv zeta.
  apply is_nil_false in Hh. rewrite Hh. unfold has_tag in Hauth. apply negb_true_iff in Hauth. rewrite Hauth.
  destruct (check_authorization_spec _ auth Ha) as [_ Hp]. by rewrite Hp.
Qed.
End Theorems.

(** ** Concrete inputs *)
Module MembershipWitness.
Import Plain.
#[local] Instance E : Env := {| user := Filters.no_user; now := 100 |}.
#[local] Instance C : Crypto := {|
  sha256_Sum256 s := s; ed25519_sign sk msg := msg;
  ed25519_verify pk msg sig := msg =s? sig; ed25519_valid_key sk := True |}.

Definition event := CommunityWitness.event.
Definition approval (sig : string) : Event :=
  MkEvent None "a1" "ab" 90 1750 [["h"; "com"]; ["b"; "mod"]; ["expiration"; "200"]] "" sig.
#[local] Instance J : GoJSON := {|
  json_Valid _ := false; json_profile _ := None; json_strings _ := None; json_ints _ := None;
  json_event s := Some (approval s); json_from _ := None; json_to _ := None |}.

Definition global := CommunityWitness.v.
Lemma global_standard : forall h def, GetCommunityDefinition global h = Ok def -> standard_roles def.
Proof. exact CommunityWitness.standard. Qed.
Definition definition : Event := with_Tags CommunityWitness.def1 CommunityWitness.patched.

Definition ban := event "b1" "mod" 50 1752 [["p"; "ann"]].
Lemma validateCustomIONKindCommunityBanUserEvent_Ok_witness :
  validateCustomIONKindCommunityBanUserEvent global ban = pass <->
  GetTag ban CustomIONTagCommunity ≠ [] /\ GetAll (EvTags ban) ["p"] ≠ [] /\
  exists def, GetCommunityDefinition global (Value (GetTag ban CustomIONTagCommunity)) = Ok def /\
    0 < authority def (GetMasterPublicKey ban) /\
    forall t, t ∈ EvTags ban -> Key t = "p" ->
      Value t ≠ GetMasterPublicKey ban /\ Value t ≠ GetMasterPublicKey def /\
      authority def (Value t) <= authority def (GetMasterPublicKey ban).
Proof. exact (validateCustomIONKindCommunityBanUserEvent_Ok global global_standard ban). Defined.
Example moderator_bans : validateCustomIONKindCommunityBanUserEvent global ban = pass.
Proof. vm_compute. reflexivity. Qed.

Definition change := event "c9" "mod" 50 1753 [["p"; "ann"; ""; "moderator"]].
Lemma accepted_definition_witness :
  exists def, GetCommunityDefinition global "com" = Ok def /\ 0 < authority def "mod" /\
    (authority def "mod" = 1 ->
       (forall k, k ∈ restricted_tags -> has_tag change k = false) /\
       true = true /\
       forall t, t ∈ EvTags change -> Key t = "p" ->
         t !! 3%nat ∈ [Some ModeratorRole; Some RegularRole] /\ authority def (Value t) ≠ 2).
Proof. apply (accepted_definition global global_standard (fun _ _ => true) change). vm_compute. reflexivity. Defined.

(** [GetAll] returning a slice that is never nil. *)
Example never_nil : validateCustomIONKindCommunityDefinitionEvent global (fun _ _ => false) change = Err forbidden.
Proof. vm_compute. reflexivity. Qed.

Definition join (authorization : string) := event "j2" "ann" 95 1750 [["authorization"; authorization]].
Lemma validateCustomIONKindCommunityJoinEvent_closed_witness :
  validateCustomIONKindCommunityJoinEvent global (fun _ => pass) (join "00") = pass <->
  has_tag (join "00") "authorization" = true /\
  exists auth, json_event (Value (GetTag (join "00") "authorization")) = Some auth /\
    authorization auth /\ CheckSignature auth = Ok true /\ pass = pass /\
    0 < authority definition (GetMasterPublicKey auth).
Proof.
  apply (validateCustomIONKindCommunityJoinEvent_closed global global_standard (fun _ => pass) (join "00") definition);
    [done|vm_compute; reflexivity..].
Defined.
Example authorized_join : validateCustomIONKindCommunityJoinEvent global (fun _ => pass) (join "00") = pass.
Proof. vm_compute. reflexivity. Qed.

Lemma join_bad_signature_panics_witness :
  validateCustomIONKindCommunityJoinEvent global (fun _ => pass) (join "bad0") = Panic.
Proof.
  apply (join_bad_signature_panics global (fun _ => pass) (join "bad0") (approval "bad0"));
    [done|vm_compute; reflexivity..| |vm_compute; reflexivity].
  split; [done|]. split; [done|]. exists 200. split; vm_compute; reflexivity.
Defined.
End MembershipWitness.
