(* ===== verification/Badges.v ===== *)
(** * Package validation: badges and profiles

    src/validation/validation_nip_58.go, validation_nip_25.go (name changes)
    and validation_nip_01_icip_01_nip_24.go (profile metadata). *)

From S2P Require Import Prelude GoStd Nostr Model Validator TagRules Attestation.
Import Strings.

Section Badges.
Context {N : Nostr} {G : GoText} {J : GoJSON} {E : Env}.

Abbreviation not_presented := (err ErrUserIsNotPresentedOnRelay).

(* src: validation/validation_nip_58.go 21-27 *)
Definition validateKindBadgeDefinitionEvent (e : Event) : check :=
  reject wrong when GetD (EvTags e) =s? "" ;; pass.

(** The definition a batch carries, plainly or in an ephemeral embedding. *)
(* src: validation/validation_nip_58.go 154-169 *)
Definition defines_badge (author dTag : string) (event : Event) : bool :=
  let is_def ev := (Kind ev =? KindBadgeDefinition) && (GetMasterPublicKey ev =s? author)
                   && (GetD (EvTags ev) =s? dTag) in
  if Kind event =? KindBadgeDefinition then is_def event
  else if Kind event =? CustomIONKindEphemeralEmbedding then
    match UnmarshalJSON (Content event) with
    | Some nestedEvent => is_def nestedEvent
    | None => false
    end
  else false.

(* src: validation/validation_nip_58.go 178-190 [validateKindBadgeAwardOwnership] *)
Fixpoint stored_definition (it : EventIterator) : outcome bool :=
  match it with
  | [] => Ok false
  | (_, Some x) :: _ => Err x
  | (ev, None) :: it =>
      let! ev := deref ev in
      if Kind ev =? KindBadgeDefinition then Ok true else stored_definition it
  end.

(* src: validation/validation_nip_58.go 141-201 *)
Definition validateKindBadgeAwardOwnership (v : eventValidator) (batch : list Event) (e : Event) : check :=
  let aTag := GetTag e "a" in
  reject not_presented when is_nil aTag || (Value aTag =s? "") ;;
  match Split (Value aTag) ":" with
  | _ :: expectedBadgeAuthor :: badgeDTag :: _ =>
      reject not_presented when GetMasterPublicKey e ≠s? expectedBadgeAuthor ;;
      try (if existsb (defines_badge expectedBadgeAuthor badgeDTag) batch then pass
           else
             let! found := stored_definition (QueryFunc v
               [MkFilter None (Some [KindBadgeDefinition]) (Some [expectedBadgeAuthor]) None
                  (Some (SetLiterals ∅ "d" [badgeDTag])) None None 1 ""]) in
             reject not_presented when negb found ;; pass) ;;
      let pTag := GetTag e "p" in
      reject not_presented when is_nil pTag || (Value pTag =s? "") ;;
      pass
  | _ => Err not_presented
  end.

(* src: validation/validation_nip_58.go 29-68 *)
Definition validateKindBadgeAwardEvent (v : eventValidator) (batch : list Event) (e : Event) : check :=
  reject wrong when is_nil (GetAll (EvTags e) ["a"]) ;;
  let aTag := GetTag e "a" in
  reject wrong when is_nil aTag || (Value aTag =s? "") ;;
  try match Split (Value aTag) ":" with
      | [p0; _; p2] =>
          if Contains p2 "username_proof_of_ownership~" then
            match Strconv.ParseInt p0 64 with
            | None => Err wrong
            | Some kind => reject wrong when negb (kind =? KindBadgeDefinition) ;; pass
            end
          else validateATags e [KindBadgeDefinition]
      | _ => validateATags e [KindBadgeDefinition]
      end ;;
  reject wrong when is_nil (GetAll (EvTags e) ["p"]) ;;
  validateKindBadgeAwardOwnership v batch e.

(* src: validation/validation_nip_58.go 203-209 *)
Definition extractUsernameProofFromAddressTag (tag : Tag) : string * bool :=
  match Split (Value tag) ":" with
  | _ :: _ :: p2 :: _ => CutPrefix p2 (TagSuffixUsernameProof +:+ "~")
  | _ => ("", false)
  end.

(* src: validation/validation_nip_58.go 211-222 *)
Definition extractUsernameFromProofBadge (ev : Event) : string * bool :=
  if Kind ev =? KindBadgeAward then extractUsernameProofFromAddressTag (GetTag ev "a")
  else if Kind ev =? KindBadgeDefinition then
    let dTag := GetTag ev "d" in
    if (2 <=? length dTag)%nat then CutPrefix (Value dTag) (TagSuffixUsernameProof +:+ "~")
    else ("", false)
  else ("", false).

Abbreviation ownership_failed := (err ErrUsernameProofOfOwnershipFailed).

(* src: validation/validation_nip_58.go 224-259 *)
Definition checkProofOfOwnershipBadges (batch : list Event) (username masterKey : string) : check :=
  match find_kind batch KindBadgeDefinition, find_kind batch KindBadgeAward with
  | Some badgeDefinition, Some badgeAward =>
      let badgeUsername := fst (extractUsernameFromProofBadge badgeDefinition) in
      reject ownership_failed when badgeUsername =s? "" ;;
      reject ownership_failed when badgeUsername ≠s? username ;;
      let badgeUsername := fst (extractUsernameFromProofBadge badgeAward) in
      reject ownership_failed when badgeUsername =s? "" ;;
      reject ownership_failed when badgeUsername ≠s? username ;;
      let pTag := GetTag badgeAward "p" in
      reject ownership_failed when is_nil pTag || (Value pTag =s? "") ;;
      reject ownership_failed when Value pTag ≠s? masterKey ;;
      pass
  | _, _ => Err ownership_failed
  end.

(** The award an entry of the profile badges refers to. *)
(* src: validation/validation_nip_58.go 276-283 [validateProfileBadgeAward] *)
Definition check_award (badgeRef : string) (userPubkeys : list string) (event : Event) : check :=
  reject not_presented when Value (GetTag event "a") ≠s? badgeRef ;;
  reject not_presented when negb (bool_decide (Value (GetTag event "p") ∈ userPubkeys)) ;;
  pass.

(* src: validation/validation_nip_58.go 286-309 [validateProfileBadgeAward] *)
Fixpoint stored_award (badgeRef badgeAwardID : string) (userPubkeys : list string)
    (it : EventIterator) : check :=
  match it with
  | [] => Err not_presented
  | (_, Some x) :: _ => Err x
  | (ev, None) :: it =>
      let! event := deref ev in
      if (Kind event =? KindBadgeAward) && (ID event =s? badgeAwardID)
      then check_award badgeRef userPubkeys event
      else stored_award badgeRef badgeAwardID userPubkeys it
  end.

(* src: validation/validation_nip_58.go 273-310 *)
Definition validateProfileBadgeAward (v : eventValidator) (batch : list Event)
    (badgeRef badgeAwardID : string) (userPubkeys : list string) : check :=
  match filter (fun event => Kind event = KindBadgeAward /\ ID event = badgeAwardID) batch with
  | event :: _ => check_award badgeRef userPubkeys event
  | [] => stored_award badgeRef badgeAwardID userPubkeys (QueryFunc v
            [MkFilter (Some [badgeAwardID]) (Some [KindBadgeAward]) None None None None None 1 ""])
  end.

(** One username proof at most among the [a] tags. *)
(* src: validation/validation_nip_58.go 81-95 *)
Definition check_single_proof (e : Event) : check :=
  let! _ := for_state (EvTags e) "" (fun usernameOwnersip tag =>
    if Key tag =s? "a" then
      let '(username, found) := extractUsernameProofFromAddressTag tag in
      if found && (username ≠s? "") then
        reject wrong when usernameOwnersip ≠s? "" ;; Ok username
      else Ok usernameOwnersip
    else Ok usernameOwnersip) in
  pass.

(** The keys an award may name. *)
(* src: validation/validation_nip_58.go 112-127 *)
Definition award_keys (batch : list Event) (e : Event) (p2 : string) : list string :=
  if HasPrefix p2 "device_identification_proof~" then
    PubKey e :: concat ((fun ev => Value <$> GetAll (EvTags ev) ["p"])
                        <$> filter (fun ev => Kind ev = CustomIONKindAttestation) batch)
  else [GetMasterPublicKey e].

(* src: validation/validation_nip_58.go 103-136 *)
Definition check_badge (v : eventValidator) (batch : list Event) (e : Event) (eTags : Tags)
    (ia : nat * Tag) : check :=
  let '(i, aTag) := ia in
  match aTag with
  | _ :: badgeRef :: _ =>
      match Split badgeRef ":" with
      | _ :: _ :: p2 :: _ =>
          match eTags !! i with
          | Some (_ :: badgeAwardID :: _) =>
              if badgeAwardID ≠s? "" then
                validateProfileBadgeAward v batch badgeRef badgeAwardID (award_keys batch e p2)
              else pass
          | _ => pass
          end
      | _ => Err wrong
      end
  | _ => pass
  end.

(* src: validation/validation_nip_58.go 70-139 *)
Definition validateKindProfileBadgesEvent (v : eventValidator) (batch : list Event) (e : Event) : check :=
  reject wrong when GetD (EvTags e) ≠s? ProfileBadgesIdentifier ;;
  try validateATags e [KindBadgeDefinition] ;;
  try check_single_proof e ;;
  let aTags := GetTags e "a" in
  let eTags := GetTags e "e" in
  reject wrong when negb (length aTags =? length eTags)%nat ;;
  for_each (zip (seq 0 (length aTags)) aTags) (check_badge v batch e eTags).

(** ** Profile metadata *)

(* src: validation/validation_nip_25.go 29-50 *)
Definition validateProfileMetadataNameChange (v : eventValidator) (e : Event) : outcome (bool * string) :=
  let! oldProfile := getEvent v (Address e) in
  let old := match oldProfile with
             | Some o => if ID o ≠s? ID e then Some o else None
             | None => None
             end in
  let! oldName := match old with
                  | None => Ok None
                  | Some o => match json_profile (Content o) with
                              | None => Err opaque_error
                              | Some m => Ok (Some (Name m))
                              end
                  end in
  match json_profile (Content e) with
  | None => Err opaque_error
  | Some newProfileMetadata =>
      match oldName with
      | Some n => if n ≠s? Name newProfileMetadata then Ok (true, Name newProfileMetadata)
                  else Ok (false, "")
      | None => Ok (true, Name newProfileMetadata)
      end
  end.

(* src: validation/validation_nip_01_icip_01_nip_24.go 14-50 *)
Definition validateKindProfileMetadataEvent (v : eventValidator) (rules : ruleSet)
    (batch : list Event) (e : Event) : check :=
  match json_profile (Content e) with
  | None => Err wrong
  | Some parsedContent =>
      reject wrong when Name parsedContent =s? "" ;;
      try for_each (IONContentNFTCollections parsedContent) (fun '(collectionName, meta) =>
            reject wrong when collectionName =s? "" ;;
            reject wrong when Address_ meta =s? "" ;;
            reject wrong when CreatedBy meta =s? "" ;;
            pass) ;;
      if SkipKindProfileProofEventsVerify rules then pass
      else
        let! (nameChanged, username) := validateProfileMetadataNameChange v e in
        if negb nameChanged then pass
        else checkProofOfOwnershipBadges batch username (GetMasterPublicKey e)
  end.
End Badges.

(** ** Theorems *)

Section Theorems.
Context {N : Nostr} {NS : NostrSpec N} {G : GoText} {J : GoJSON} {E : Env}.

Lemma find_kind_Some batch kind e : find_kind batch kind = Some e -> e ∈ batch /\ Kind e = kind.
Proof.
  unfold find_kind. intros ([i e'] & Hf & ->)%fmap_Some. apply list_find_Some in Hf as (Hl & Hk & _).
  split; [by eapply list_elem_of_lookup_2|done].
Qed.

Definition proof_prefix : string := TagSuffixUsernameProof +:+ "~".

(** The user name an identifier of a badge stands for: what follows the
    prefix of user name proofs, or the whole identifier without it. *)
Definition proves_name (identifier name : string) : Prop :=
  identifier = proof_prefix +:+ name \/ HasPrefix identifier proof_prefix = false /\ identifier = name.

Lemma CutPrefix_name x name : fst (CutPrefix x proof_prefix) = name <-> proves_name x name.
Proof.
  unfold CutPrefix, proves_name. destruct (HasPrefix x proof_prefix) eqn:Hp.
  - apply HasPrefix_spec in Hp as [t ->]. rewrite drop_app. cbn [fst]. split; [intros ->; by left|].
    intros [H|[H _]]; [|done]. by apply app_inj_l in H.
  - cbn [fst]. split; [by right|]. intros [-> |[_ ->]]; [|done]. by rewrite HasPrefix_app in Hp.
Qed.

(** The identifiers of a badge definition and of the badge an award is for. *)
Definition definition_identifier (e : Event) : string := Value (GetTag e "d").
Definition award_identifier (e : Event) (id : string) : Prop :=
  exists p0 p1 rest, Split (Value (GetTag e "a")) ":" = p0 :: p1 :: id :: rest.

Lemma badge_kinds_differ : KindBadgeDefinition ≠ KindBadgeAward.
Proof. pose proof kinds_spec as K. injection K. intros. congruence. Qed.

Lemma definition_name e name :
  Kind e = KindBadgeDefinition -> name ≠ "" ->
  fst (extractUsernameFromProofBadge e) = name <-> proves_name (definition_identifier e) name.
Proof.
  intros Hk Hn. unfold extractUsernameFromProofBadge, definition_identifier. rewrite Hk.
  rewrite (proj2 (Z.eqb_neq _ _) badge_kinds_differ), Z.eqb_refl. cbv zeta.
  destruct (Nat.leb_spec 2 (length (GetTag e "d"))); [apply CutPrefix_name|].
  assert (Value (GetTag e "d") = "") as ->.
  { rewrite Value_spec. by rewrite lookup_ge_None_2 by lia. }
  rewrite <- CutPrefix_name. cbn. naive_solver.
Qed.

Lemma award_name e name :
  Kind e = KindBadgeAward -> name ≠ "" ->
  fst (extractUsernameFromProofBadge e) = name <-> exists id, award_identifier e id /\ proves_name id name.
Proof.
  intros Hk Hn. unfold extractUsernameFromProofBadge, award_identifier, extractUsernameProofFromAddressTag.
  rewrite Hk, Z.eqb_refl. destruct (Split (Value (GetTag e "a")) ":") as [|p0 [|p1 [|p2 rest]]].
  1-3: cbn; split; [naive_solver|by intros (? & (? & ? & ? & ?) & _)].
  fold proof_prefix. rewrite CutPrefix_name. split.
  - intros H. exists p2. eauto.
  - intros (id & (q0 & q1 & rest' & Heq) & Hp). by simplify_eq.
Qed.

Lemma checkProofOfOwnershipBadges_spec batch username masterKey :
  checkProofOfOwnershipBadges batch username masterKey = pass <->
  username ≠ "" /\ masterKey ≠ "" /\
  exists def award id,
    find_kind batch KindBadgeDefinition = Some def /\ find_kind batch KindBadgeAward = Some award /\
    proves_name (definition_identifier def) username /\
    award_identifier award id /\ proves_name id username /\
    Value (GetTag award "p") = masterKey.
Proof.
  unfold checkProofOfOwnershipBadges.
  destruct (find_kind batch KindBadgeDefinition) as [def|] eqn:Hd.
  2: { split; [done|]. by intros (_ & _ & ? & ? & ? & [=] & _). }
  destruct (find_kind batch KindBadgeAward) as [award|] eqn:Ha.
  2: { split; [done|]. by intros (_ & _ & ? & ? & ? & _ & [=] & _). }
  pose proof Hd as [_ Hdk]%find_kind_Some. pose proof Ha as [_ Hak]%find_kind_Some.
  cbv zeta. rewrite !reject_Ok, !negb_false_iff, !String.eqb_eq, !String.eqb_neq, orb_false_iff, String.eqb_neq.
  split.
  - intros (Hne & H1 & _ & H2 & [_ Hp] & Hm & _).
    assert (username ≠ "") as Hu by congruence. split; [done|]. split; [congruence|].
    apply (definition_name def username) in H1; [|done..].
    apply (award_name award username) in H2 as (id & H2 & H3); [|done..]. by exists def, award, id.
  - intros (Hu & Hm & d & a & id & [= <-] & [= <-] & H1 & H2 & H3 & H4).
    assert (fst (extractUsernameFromProofBadge def) = username) as Hn1 by by apply definition_name.
    assert (fst (extractUsernameFromProofBadge award) = username) as Hn2 by (apply award_name; eauto).
    split_and!; [congruence|done|congruence|done| |congruence|done|done].
    destruct (GetTag award "p"); [|done]. rewrite Value_nil in H4. congruence.
Qed.

(** The proofs of a user name hold exactly when the first badge
    definition and the first badge award of the batch are both for that name,
    and the award is the profile owner's. *)
Lemma checkProofOfOwnershipBadges_Ok batch username masterKey :
  checkProofOfOwnershipBadges batch username masterKey = pass <->
  username ≠ "" /\ masterKey ≠ "" /\
  exists def award id,
    find_kind batch KindBadgeDefinition = Some def /\ find_kind batch KindBadgeAward = Some award /\
    proves_name (definition_identifier def) username /\
    award_identifier award id /\ proves_name id username /\
    Value (GetTag award "p") = masterKey.
Proof. apply checkProofOfOwnershipBadges_spec. Qed.

(** ** Profiles *)

Definition complete_collection (c : string * IONContentNFTCollectionMetadata) : Prop :=
  c.1 ≠ "" /\ Address_ c.2 ≠ "" /\ CreatedBy c.2 ≠ "".

(** The stored profile under another id already has the name. *)
Definition keeps_name (old : option Event) (e : Event) (name : string) : Prop :=
  exists o m, old = Some o /\ ID o ≠ ID e /\ json_profile (Content o) = Some m /\ Name m = name.

(** There is no such profile, or it has another name. *)
Definition changes_name (old : option Event) (e : Event) (name : string) : Prop :=
  forall o, old = Some o -> ID o ≠ ID e -> exists m, json_profile (Content o) = Some m /\ Name m ≠ name.

Lemma validateKindProfileMetadataEvent_spec v rules batch e old :
  SkipKindProfileProofEventsVerify rules = false -> getEvent v (Address e) = Ok old ->
  validateKindProfileMetadataEvent v rules batch e = pass <->
  exists m, json_profile (Content e) = Some m /\ Name m ≠ "" /\
    Forall complete_collection (IONContentNFTCollections m) /\
    (keeps_name old e (Name m) \/
     changes_name old e (Name m) /\ checkProofOfOwnershipBadges batch (Name m) (GetMasterPublicKey e) = pass).
Proof.
  intros Hskip Hold. unfold validateKindProfileMetadataEvent, validateProfileMetadataNameChange.
  rewrite Hskip, Hold. destruct (json_profile (Content e)) as [m|]; [|naive_solver].
  rewrite reject_Ok, String.eqb_neq, bind_Ok_unit, for_each_Ok. cbn [mbind outcome_bind]. cbv zeta.
  assert (Hcoll : Forall (fun c => (let '(collectionName, meta) := c in
      reject wrong when collectionName =s? "" ;; reject wrong when Address_ meta =s? "" ;;
      reject wrong when CreatedBy meta =s? "" ;; pass) = pass) (IONContentNFTCollections m) <->
    Forall complete_collection (IONContentNFTCollections m)).
  { apply Forall_proper; [|done]. intros [n c]. unfold complete_collection. cbn.
    rewrite !reject_Ok, !String.eqb_neq. tauto. }
  assert (Hname : (let! (nameChanged, username) :=
      (let! oldName := match (match old with Some o => if ID o ≠s? ID e then Some o else None | None => None end) with
                       | None => Ok None
                       | Some o => match json_profile (Content o) with
                                   | None => Err opaque_error
                                   | Some m => Ok (Some (Name m))
                                   end
                       end in
       match oldName with
       | Some n => if n ≠s? Name m then Ok (true, Name m) else Ok (false, "")
       | None => Ok (true, Name m)
       end) in
      if negb nameChanged then pass else checkProofOfOwnershipBadges batch username (GetMasterPublicKey e)) = pass <->
    (keeps_name old e (Name m) \/
     changes_name old e (Name m) /\ checkProofOfOwnershipBadges batch (Name m) (GetMasterPublicKey e) = pass)).
  { unfold keeps_name, changes_name. destruct old as [o|]; cbn.
    2: { split; [intros H; right; split; [by intros ? [=]|done]|by intros [(? & ? & [=] & _)|[_ H]]]. }
    destruct (String.eqb_spec (ID o) (ID e)) as [Hid|Hid]; cbn.
    { split; [intros H; right; split; [by intros ? [= <-] []|done]|].
      intros [(? & ? & [= <-] & [] & _)|[_ H]]; done. }
    destruct (json_profile (Content o)) as [mo|] eqn:Ho; cbn.
    2: { split; [done|]. intros [(o' & m' & [= <-] & _ & Hj & _)|[H _]]; [congruence|].
         destruct (H o eq_refl Hid) as (m' & Hj & _). congruence. }
    destruct (String.eqb_spec (Name mo) (Name m)) as [Hn|Hn]; cbn.
    - split; [intros _; left; by exists o, mo|done].
    - split; [intros H; right; split; [|done]; intros ? [= <-] _; by exists mo|].
      intros [(o' & m' & [= <-] & _ & Hj & Hm')|[_ H]]; [congruence|done]. }
  split.
  - intros (Hne & Hc & Hn). exists m. rewrite <- Hcoll, <- Hname. done.
  - intros (m' & [= <-] & Hne & Hc & Hn). rewrite Hcoll, Hname. done.
Qed.

(** Profile metadata is accepted exactly when it has a name, its
    collections are complete, and the name is the stored one or the batch
    proves that the owner holds it. *)
Lemma validateKindProfileMetadataEvent_Ok v rules batch e old :
  SkipKindProfileProofEventsVerify rules = false -> getEvent v (Address e) = Ok old ->
  validateKindProfileMetadataEvent v rules batch e = pass <->
  exists m, json_profile (Content e) = Some m /\ Name m ≠ "" /\
    Forall complete_collection (IONContentNFTCollections m) /\
    (keeps_name old e (Name m) \/
     changes_name old e (Name m) /\ checkProofOfOwnershipBadges batch (Name m) (GetMasterPublicKey e) = pass).
Proof. apply validateKindProfileMetadataEvent_spec. Qed.

(** ** Awards *)

(** The stored definitions of a badge. *)
Definition stored_badge (v : eventValidator) (author dTag : string) : EventIterator :=
  QueryFunc v [MkFilter None (Some [KindBadgeDefinition]) (Some [author]) None
    (Some (SetLiterals ∅ "d" [dTag])) None None 1 ""].

Lemma stored_definition_answers it evs :
  answers it evs -> stored_definition it = Ok (existsb (fun e => Kind e =? KindBadgeDefinition) evs).
Proof.
  intros ->. induction evs as [|e evs IH]; cbn; [done|]. by destruct (Kind e =? KindBadgeDefinition).
Qed.

(** The ownership of an award holds exactly when its author is the one
    of the badge it names, that badge is defined in the batch or stored, and
    somebody receives it. *)
Lemma validateKindBadgeAwardOwnership_Ok v batch e :
  (forall author dTag, exists evs, answers (stored_badge v author dTag) evs) ->
  validateKindBadgeAwardOwnership v batch e = pass <->
  exists k dTag rest, Split (Value (GetTag e "a")) ":" = k :: GetMasterPublicKey e :: dTag :: rest /\
    Value (GetTag e "a") ≠ "" /\ Value (GetTag e "p") ≠ "" /\
    (Exists (fun d => defines_badge (GetMasterPublicKey e) dTag d = true) batch \/
     exists evs d, answers (stored_badge v (GetMasterPublicKey e) dTag) evs /\ d ∈ evs /\
       Kind d = KindBadgeDefinition).
Proof.
  intros Hq. unfold validateKindBadgeAwardOwnership.
  assert (Hnil : forall k, is_nil (GetTag e k) || (Value (GetTag e k) =s? "") = false <-> Value (GetTag e k) ≠ "").
  { intros k. rewrite orb_false_iff, String.eqb_neq. split; [by intros []|]. intros H. split; [|done].
    destruct (GetTag e k); [by rewrite Value_nil in H|done]. }
  cbv zeta. rewrite reject_Ok, Hnil.
  destruct (Split (Value (GetTag e "a")) ":") as [|k [|author [|dTag rest]]].
  1-3: split; [by intros [_ ?]|by intros (? & ? & ? & ? & _)].
  rewrite reject_Ok, negb_false_iff, String.eqb_eq, bind_Ok_unit, reject_Ok, Hnil. fold (stored_badge v author dTag).
  assert (Hdef : (if existsb (defines_badge author dTag) batch then pass
    else let! found := stored_definition (stored_badge v author dTag) in
         reject (err ErrUserIsNotPresentedOnRelay) when negb found ;; pass) = pass <->
    (Exists (fun d => defines_badge author dTag d = true) batch \/
     exists evs d, answers (stored_badge v author dTag) evs /\ d ∈ evs /\ Kind d = KindBadgeDefinition)).
  { assert (existsb (defines_badge author dTag) batch = true <->
      Exists (fun d => defines_badge author dTag d = true) batch) as Hex.
    { rewrite existsb_exists, Exists_exists. by setoid_rewrite list_elem_of_In. }
    destruct (existsb (defines_badge author dTag) batch); [split; [intros _; left; by apply Hex|done]|].
    destruct (Hq author dTag) as [evs Hevs]. rewrite (stored_definition_answers _ _ Hevs). cbn.
    rewrite reject_Ok, negb_false_iff, existsb_exists. split.
    - intros [(d & Hin & Hk) _]. right. exists evs, d. split_and!; [done|by apply list_elem_of_In|lia].
    - intros [H|(evs' & d & Hevs' & Hin & Hk)]; [by apply Hex in H|]. split; [|done].
      unfold answers in Hevs, Hevs'. rewrite Hevs in Hevs'. apply list_fmap_eq_inj in Hevs' as <-.
      + exists d. split; [by apply list_elem_of_In|lia].
      + by intros ?? [=]. }
  rewrite Hdef. split.
  - intros (Ha & -> & Hd & Hp & _). by exists k, dTag, rest.
  - intros (k' & d' & r' & Heq & Ha & Hp & Hd). injection Heq as -> -> -> ->. done.
Qed.
End Theorems.

(** ** Concrete inputs *)
Module BadgesWitness.
Import Plain AsciiText.
#[local] Instance J : GoJSON := {|
  json_Valid _ := false;
  json_profile s := if s =s? "alice" then Some (MkProfile [] [] "alice" "" "")
                    else if s =s? "bob" then Some (MkProfile [] [] "bob" "" "") else None;
  json_strings _ := None; json_ints _ := None; json_event _ := None; json_from _ := None; json_to _ := None |}.

Definition definition (d : string) : Event := MkEvent None "d1" "ion" 10 30009 [["d"; d]] "" "".
Definition award (d : string) : Event :=
  MkEvent None "a1" "ion" 10 8 [["a"; "30009:ion:" +:+ d]; ["p"; "owner"]] "" "".
Definition proofs : list Event :=
  [definition "username_proof_of_ownership~alice"; award "username_proof_of_ownership~alice"].

Lemma checkProofOfOwnershipBadges_Ok_witness :
  checkProofOfOwnershipBadges proofs "alice" "owner" = pass <->
  "alice" ≠ "" /\ "owner" ≠ "" /\
  exists def award id,
    find_kind proofs KindBadgeDefinition = Some def /\ find_kind proofs KindBadgeAward = Some award /\
    proves_name (definition_identifier def) "alice" /\
    award_identifier award id /\ proves_name id "alice" /\ Value (GetTag award "p") = "owner".
Proof. exact (checkProofOfOwnershipBadges_Ok proofs "alice" "owner"). Defined.
Example proved : checkProofOfOwnershipBadges proofs "alice" "owner" = pass.
Proof. vm_compute. reflexivity. Qed.
(** Badges of another purpose whose identifier is the name. *)
Example unrelated_badges : checkProofOfOwnershipBadges [definition "alice"; award "alice"] "alice" "owner" = pass.
Proof. vm_compute. reflexivity. Qed.

Definition profile (id content : string) : Event := MkEvent None id "owner" 20 0 [] content "".
Definition v : eventValidator := MkValidator None (fun _ => [(Some (profile "old" "bob"), None)]) [].

Lemma validateKindProfileMetadataEvent_Ok_witness :
  validateKindProfileMetadataEvent v no_rules proofs (profile "new" "alice") = pass <->
  exists m, json_profile (Content (profile "new" "alice")) = Some m /\ Name m ≠ "" /\
    Forall complete_collection (IONContentNFTCollections m) /\
    (keeps_name (Some (profile "old" "bob")) (profile "new" "alice") (Name m) \/
     changes_name (Some (profile "old" "bob")) (profile "new" "alice") (Name m) /\
     checkProofOfOwnershipBadges proofs (Name m) (GetMasterPublicKey (profile "new" "alice")) = pass).
Proof.
  apply (validateKindProfileMetadataEvent_Ok v no_rules proofs (profile "new" "alice") (Some (profile "old" "bob")));
    reflexivity.
Defined.
Example renamed : validateKindProfileMetadataEvent v no_rules proofs (profile "new" "alice") = pass.
Proof. vm_compute. reflexivity. Qed.
Example unproved :
  validateKindProfileMetadataEvent v no_rules [] (profile "new" "alice") = Err (err ErrUsernameProofOfOwnershipFailed).
Proof. vm_compute. reflexivity. Qed.

Lemma validateKindBadgeAwardOwnership_Ok_witness :
  validateKindBadgeAwardOwnership v proofs (award "vip") = pass <->
  exists k dTag rest, Split (Value (GetTag (award "vip") "a")) ":" =
      k :: GetMasterPublicKey (award "vip") :: dTag :: rest /\
    Value (GetTag (award "vip") "a") ≠ "" /\ Value (GetTag (award "vip") "p") ≠ "" /\
    (Exists (fun d => defines_badge (GetMasterPublicKey (award "vip")) dTag d = true) proofs \/
     exists evs d, answers (stored_badge v (GetMasterPublicKey (award "vip")) dTag) evs /\ d ∈ evs /\
       Kind d = KindBadgeDefinition).
Proof.
  apply (validateKindBadgeAwardOwnership_Ok v proofs (award "vip")).
  intros author dTag. exists [profile "old" "bob"]. reflexivity.
Defined.
End BadgesWitness.
