(* ===== verification/Posts.v ===== *)
(** * Package validation: posts and votes

    src/validation/validation_nip_01_nip_10_nip_32.go, validation_nip_01_icip_7000.go
    and validation_icip_5000.go ([validatePollVote]). *)

From S2P Require Import Prelude GoStd Nostr Model Content Filters Validator TagRules Rules Community Replies.
Import Strings.

Section Posts.
Context {N : Nostr} {R : RichText} {E : Env} {J : GoJSON}.

(* src: validation/validation_nip_01_nip_10_nip_32.go 14-55 *)
Definition validateKindTextNoteEvent (v : eventValidator) (batch : list Event) (e : Event) : check :=
  reject wrong when json_Valid (Content e) ;;
  try validateLabelTags e ;;
  let pTags := GetTags e "p" in
  let eTags := GetTags e "e" in
  try for_each eTags (fun tag =>
        reject wrong when (length tag <? 2)%nat ;;
        if (3 <=? length tag)%nat then
          let! marker := index tag 3 in
          reject wrong when (marker ≠s? TagMarkerRoot) && (marker ≠s? TagMarkerReply)
                            && (marker ≠s? TagMarkerMention) ;; pass
        else pass) ;;
  try (if is_nil pTags then pass
       else
         reject wrong when is_nil eTags ;;
         for_each pTags (fun tag => reject wrong when (length tag =? 1)%nat ;; pass)) ;;
  try validatePostCommunityEvent v e ;;
  validateWhoCanReplySettings v batch e.

(** The profile metadata among the embedded events of a batch.  A Go map is
    traversed in an unspecified order; [embeddings_of] lists the values. *)
Definition embeddings_of (m : gmap string (list EphemeralEmbeddingEvent)) :
    list EphemeralEmbeddingEvent :=
  concat (snd <$> map_to_list m).

(* src: validation/validation_nip_01_icip_7000.go 84-96 [validateRootContentNFTCollections] *)
Definition embedded_profile (master : string) (acks : list EphemeralEmbeddingEvent) : option Event :=
  head (filter (fun ev => Kind ev = KindProfileMetadata /\ GetMasterPublicKey ev = master)
          (ContentEvent <$> acks)).

(* src: validation/validation_nip_01_icip_7000.go 53-116 *)
Definition validateRootContentNFTCollections (v : eventValidator) (batch : list Event) (e : Event) : check :=
  if IsComment e || IsStory e || IsCommunityPost e then pass
  else if negb (Kind e =? KindTextNote) && negb (Kind e =? KindArticle)
          && negb (Kind e =? CustomIONKindEditableTextNote) then pass
  else
    let! stored := first_event (QueryFunc v
      [MkFilter None (Some [KindProfileMetadata]) (Some [GetMasterPublicKey e]) None None None None 1 ""]) in
    let! profileMetadata :=
      match stored with
      | Some p => Ok (Some p)
      | None =>
          if Authoritative user then Ok None
          else
            let! acks := ParseEphemeralEmbeddingEvents batch in
            Ok (embedded_profile (GetMasterPublicKey e) (embeddings_of acks))
      end in
    match profileMetadata with
    | None => Err (err ErrActionForbidden)
    | Some p =>
        match json_profile (Content p) with
        | None => Err wrong
        | Some parsedContent =>
            reject (err ErrActionForbidden) when is_nil (IONContentNFTCollections parsedContent) ;; pass
        end
    end.

(* src: validation/validation_nip_01_icip_7000.go 21-33 *)
Definition check_soft_delete (e : Event) : check :=
  match ParseTimestamp (Value (GetTag e "published_at")) with
  | None => Err wrong
  | Some val =>
      reject wrong when TsEqual val (CreatedAt e) ;;
      for_each (EvTags e) (fun tag =>
        reject wrong when negb (bool_decide (Key tag ∈
          ["a"; CustomIONTagOnBehalfOf; "d"; "e"; "published_at"; CustomIONTagAddressableQ])) ;; pass)
  end.

(* src: validation/validation_nip_01_icip_7000.go 15-51 *)
Definition validateTextNote (v : eventValidator) (rules : ruleSet) (batch : list Event) (e : Event) : check :=
  let rich := has_tag e CustomIONTagRichText in
  reject wrong when rich && (0 <? len (Content e))%nat ;;
  if (len (Content e) =? 0)%nat && negb rich then check_soft_delete e
  else
    try validatePostCommunityEvent v e ;;
    try (if SkipRootContentReplyValidation rules then pass
         else validateWhoCanReplySettings v batch e) ;;
    if SkipRootContentNFTCollectionsValidation rules then pass
    else validateRootContentNFTCollections v batch e.

(** ** Votes *)

(** [choises[option]++; choises[option] > 1] *)
(* src: validation/validation_icip_5000.go 128-134 [validatePollVote] *)
Fixpoint check_distinct (seen : gset Z) (options : list Z) : check :=
  match options with
  | [] => pass
  | o :: options => reject wrong when bool_decide (o ∈ seen) ;; check_distinct ({[o]} ∪ seen) options
  end.

(** The errors of [extractTagValueFromPairs] are ignored: the value is "". *)
(* src: validation/validation_icip_5000.go 92-113 [validatePollVote] *)
Definition pair_value (tag : Tag) (key : string) : string :=
  match extractTagValueFromPairs tag key with Ok v => v | _ => "" end.

(* src: validation/validation_icip_5000.go 74-83 *)
Fixpoint last_event (it : EventIterator) (poll : option Event) : outcome (option Event) :=
  match it with
  | [] => Ok poll
  | (_, Some x) :: _ => Err x
  | (ev, None) :: it => last_event it ev
  end.

(* src: validation/validation_icip_5000.go 88-136 *)
Definition check_vote (poll e : Event) : check :=
  let pollTag := GetTag poll CustomIONTagPoll in
  reject wrong when is_nil pollTag ;;
  match ParseTimestamp (pair_value pollTag "ttl") with
  | None => Err wrong
  | Some deadline =>
      reject wrong when Time.Before (TsTime deadline) now ;;
      match json_ints (Content e) with
      | None => Err wrong
      | Some options =>
          reject wrong when is_nil options ;;
          match json_strings (pair_value pollTag "options") with
          | None => Err wrong
          | Some pollOptions =>
              try for_each options (fun option =>
                    reject wrong when (option <? 0) || (zlen pollOptions <=? option) ;; pass) ;;
              reject wrong when (pair_value pollTag "type" =s? "single") && (1 <? zlen options) ;;
              check_distinct ∅ options
          end
      end
  end.

(* src: validation/validation_icip_5000.go 68-137 *)
Definition validatePollVote (v : eventValidator) (e : Event) : check :=
  let pollAddress := cmp_Or (Value (GetTag e "e")) (Value (GetTag e "a")) in
  reject wrong when pollAddress =s? "" ;;
  let! poll := last_event (QueryFunc v
    [MkFilter None None None (Some [pollAddress]) None None None 1 ""]) None in
  match poll with
  | None => Err wrong
  | Some poll => check_vote poll e
  end.
End Posts.

(** ** Theorems *)

Section Theorems.
Context {N : Nostr} {NS : NostrSpec N} {R : RichText} {E : Env} {J : GoJSON}.

Lemma check_distinct_spec seen options :
  check_distinct seen options = pass <-> NoDup options /\ forall o, o ∈ options -> o ∉ seen.
Proof.
  revert seen. induction options as [|o options IH]; intros seen; cbn.
  - split; [intros _|done]. split; [constructor|]. intros o Ho. by apply elem_of_nil in Ho.
  - rewrite reject_Ok, bool_decide_eq_false, IH, NoDup_cons. set_solver.
Qed.

(** A vote on a poll: the poll is open, and the options chosen are options of
    the poll, distinct, and one only for a single choice. *)
Definition valid_vote (pollTag : Tag) (options : list Z) : Prop :=
  (exists deadline, ParseTimestamp (pair_value pollTag "ttl") = Some deadline /\
     now <= TsTime deadline) /\
  options ≠ [] /\ NoDup options /\
  (exists pollOptions, json_strings (pair_value pollTag "options") = Some pollOptions /\
     forall o, o ∈ options -> 0 <= o < zlen pollOptions) /\
  (pair_value pollTag "type" = "single" -> length options = 1%nat).

Lemma check_vote_spec poll e :
  check_vote poll e = pass <->
  GetTag poll CustomIONTagPoll ≠ [] /\
  exists options, json_ints (Content e) = Some options /\ valid_vote (GetTag poll CustomIONTagPoll) options.
Proof.
  unfold check_vote, valid_vote. cbv zeta. generalize (GetTag poll CustomIONTagPoll). intros pollTag.
  rewrite reject_Ok. apply and_iff_compat_weak; [by destruct pollTag|]. intros _.
  destruct (ParseTimestamp _) as [deadline|]; [|naive_solver].
  rewrite reject_Ok. unfold Time.Before. rewrite Z.ltb_ge.
  destruct (json_ints (Content e)) as [options|]; [|naive_solver]. rewrite reject_Ok.
  destruct (json_strings _) as [pollOptions|]; [|naive_solver].
  rewrite bind_Ok_unit, for_each_Ok, Forall_forall, reject_Ok, check_distinct_spec.
  assert (Hone : options ≠ [] ->
    (pair_value pollTag "type" =s? "single") && (1 <? zlen options) = false <->
    (pair_value pollTag "type" = "single" -> length options = 1%nat)).
  { intros Hne. rewrite andb_false_iff, String.eqb_neq, Z.ltb_ge. unfold zlen.
    destruct options as [|o os]; [done|]. cbn [length].
    destruct (decide (pair_value pollTag "type" = "single")); intuition lia. }
  assert (Hin : (forall o, o ∈ options -> (reject wrong when (o <? 0) || (zlen pollOptions <=? o) ;; pass) = pass) <->
    (forall o, o ∈ options -> 0 <= o < zlen pollOptions)).
  { split; intros H o Ho; specialize (H o Ho).
    - rewrite reject_Ok in H. lia.
    - rewrite reject_Ok. split; [lia|done]. }
  rewrite Hin. assert (is_nil options = false <-> options ≠ []) as -> by by destruct options.
  split.
  - intros (Hd & Hne & Hr & Ht & Hnd & _). exists options.
    split_and!; [done|eauto..|]. by apply Hone.
  - intros (os & [= <-] & (d & [= <-] & Hd) & Hne & Hnd & (p & [= <-] & Hr) & Ht).
    split_and!; [done..|by apply Hone|done|]. intros o _. set_solver.
Qed.

(** A vote is accepted exactly when it refers to a stored poll that is
    still open and chooses distinct options of it, one for a single choice. *)
Lemma validatePollVote_Ok v e polls :
  let address := cmp_Or (Value (GetTag e "e")) (Value (GetTag e "a")) in
  answers (QueryFunc v [MkFilter None None None (Some [address]) None None None 1 ""]) polls ->
  validatePollVote v e = pass <->
  address ≠ "" /\ exists poll options, last polls = Some poll /\ GetTag poll CustomIONTagPoll ≠ [] /\
    json_ints (Content e) = Some options /\ valid_vote (GetTag poll CustomIONTagPoll) options.
Proof.
  intros address Hq. unfold validatePollVote. fold address. cbv zeta. rewrite reject_Ok, String.eqb_neq.
  apply and_iff_compat_l. rewrite Hq.
  assert (forall init, last_event ((fun e => (Some e, None)) <$> polls) init =
    Ok (match last polls with Some p => Some p | None => init end)) as Hlast.
  { clear. induction polls as [|p polls IH]; intros init; [done|].
    rewrite last_cons. cbn. rewrite IH. by destruct (last polls). }
  rewrite Hlast. cbn. destruct (last polls) as [poll|]; [|naive_solver].
  rewrite check_vote_spec. naive_solver.
Qed.

(** A poll whose time to live is 0 can be published but never voted on:
    a vote on it is refused as soon as the clock is past 1970. *)
Lemma zero_ttl_refused poll e :
  pair_value (GetTag poll CustomIONTagPoll) "ttl" = "0" -> 0 < now -> check_vote poll e = Err wrong.
Proof.
  intros Httl Hnow. unfold check_vote. cbv zeta. rewrite Httl, ParseTimestamp_spec.
  destruct (is_nil _); [done|]. change (Strconv.ParseInt "0" 64) with (Some 0). cbn beta iota.
  unfold Time.Before. rewrite TsTime_0. by rewrite (proj2 (Z.ltb_lt 0 now) Hnow).
Qed.

(** A text note whose first event reference has three elements (a relay
    but no marker) makes its validation panic: the code reads the fourth
    element of tags of three. *)
Lemma text_note_unmarked_panics v batch e k id relay :
  json_Valid (Content e) = false -> validateLabelTags e = pass ->
  head (GetTags e "e") = Some [k; id; relay] ->
  validateKindTextNoteEvent v batch e = Panic.
Proof.
  intros Hj Hl He. unfold validateKindTextNoteEvent. rewrite Hj, Hl. cbn.
  destruct (GetTags e "e") as [|t ts]; [done|]. cbn in He. by simplify_eq.
Qed.
End Theorems.

(** ** Concrete inputs *)
Module PostsWitness.
Import Plain.
#[local] Instance E : Env := {| user := Filters.no_user; now := 100000000000 |}.
#[local] Instance R : RichText := {|
  json_delta _ := None; json_delta_Marshal _ := None; json_insert _ := None; json_string _ := None;
  json_string_Marshal s := s; quill_Render _ := None; bluemonday_Sanitize s := s;
  html_UnescapeString s := s; nip19_Decode _ := None |}.
#[local] Instance J : GoJSON := {|
  json_Valid _ := false; json_profile _ := None;
  json_strings s := if s =s? "[A,B,C]" then Some ["A"; "B"; "C"] else None;
  json_ints s := if s =s? "[0,2]" then Some [0; 2] else if s =s? "[1]" then Some [1] else None;
  json_event _ := None; json_from _ := None; json_to _ := None |}.

Definition poll (ttl type : string) : Event := MkEvent None "p1" "ann" 10 1
  [["poll"; "type " +:+ type; "ttl " +:+ ttl; "options [A,B,C]"]] "?" "".
Definition vote (content : string) : Event := MkEvent None "v1" "bob" 50 1754 [["e"; "p1"]] content "".
Definition v : eventValidator := MkValidator None (fun _ => [(Some (poll "200" "multi"), None)]) [].

Lemma validatePollVote_Ok_witness :
  validatePollVote v (vote "[0,2]") = pass <->
  "p1" ≠ "" /\ exists poll' options, last [poll "200" "multi"] = Some poll' /\
    GetTag poll' CustomIONTagPoll ≠ [] /\ json_ints (Content (vote "[0,2]")) = Some options /\
    valid_vote (GetTag poll' CustomIONTagPoll) options.
Proof. exact (validatePollVote_Ok v (vote "[0,2]") [poll "200" "multi"] eq_refl). Defined.

Example vote_accepted : validatePollVote v (vote "[0,2]") = pass.
Proof. vm_compute. reflexivity. Qed.
Example single_choice : check_vote (poll "200" "single") (vote "[0,2]") = Err wrong.
Proof. vm_compute. reflexivity. Qed.
Example closed_poll : check_vote (poll "99" "multi") (vote "[1]") = Err wrong.
Proof. vm_compute. reflexivity. Qed.

Lemma zero_ttl_refused_witness : check_vote (poll "0" "multi") (vote "[1]") = Err wrong.
Proof. apply (zero_ttl_refused (poll "0" "multi") (vote "[1]")); [vm_compute; reflexivity|done]. Defined.
Example zero_ttl_published : validatePollTag (GetTag (poll "0" "multi") "poll") = pass.
Proof. vm_compute. reflexivity. Qed.

Definition unmarked : Event := MkEvent None "n1" "bob" 50 1 [["e"; "x"; "wss://relay"]] "hi" "".
Lemma text_note_unmarked_panics_witness : validateKindTextNoteEvent v [] unmarked = Panic.
Proof. apply (text_note_unmarked_panics v [] unmarked "e" "x" "wss://relay"); vm_compute; reflexivity. Defined.
End PostsWitness.
