(* ===== verification/Total.v ===== *)
(** * The rules return

    No rule of a single event exhausts fuel: each is a total function of the
    event, the request and the database.  Used for the termination of
    [Validate.validate]. *)

From S2P Require Import Prelude GoStd Nostr Model Content OnBehalf Filters Validator TagRules Rules Attestation Community Replies Membership Badges Posts.

Section Total.
Context {N : Nostr} {NS : NostrSpec N} {G : GoText} {J : GoJSON} {C : Crypto} {R : RichText} {E : Env}.

(** ** Model *)

Lemma ParseIMeta_runs tag : runs (ParseIMeta tag).
Proof.
  destruct tag as [|k vals]; [done|]. cbn. generalize (∅ : gmap string string).
  induction vals as [|v vals IH]; intros m; cbn; solve_runs.
Qed.
Hint Resolve ParseIMeta_runs : runs.

Lemma ParseAttestationString_runs s : runs (ParseAttestationString s).
Proof. apply ParseAttestationString_total. Qed.
Hint Resolve ParseAttestationString_runs : runs.

Lemma CheckSignature_runs e : runs (CheckSignature e).
Proof.
  unfold CheckSignature, ExtractSignature, ed25519_Verify, Strings.slice.
  pose proof nostr_CheckSignature_runs. solve_runs.
Qed.
Lemma CheckNIP13Difficulty_runs e n : runs (CheckNIP13Difficulty e n).
Proof. unfold CheckNIP13Difficulty. pose proof nip13_Check_runs. solve_runs. Qed.
Lemma ParseAttestationTags_runs tags : runs (ParseAttestationTags tags).
Proof. unfold ParseAttestationTags, attestation_step. solve_runs. Qed.
Lemma IsAccessAllowed_runs r k kind t : runs (IsAccessAllowed r k kind t).
Proof. unfold IsAccessAllowed. solve_runs. Qed.
Lemma ParseEphemeralEmbeddingEvents_runs evs : runs (ParseEphemeralEmbeddingEvents evs).
Proof. unfold ParseEphemeralEmbeddingEvents, ParseEphemeralEmbeddingEventRef. solve_runs. Qed.
Lemma ExtractMentionedPubkeys_runs e : runs (ExtractMentionedPubkeys e).
Proof. unfold ExtractMentionedPubkeys. solve_runs. Qed.
Lemma FiltersWithData_UnmarshalJSON_runs {T} ga uf ud (f : FiltersWithData T) d :
  runs (FiltersWithData_UnmarshalJSON ga uf ud f d).
Proof. unfold FiltersWithData_UnmarshalJSON. solve_runs. Qed.
Hint Resolve CheckSignature_runs CheckNIP13Difficulty_runs ParseAttestationTags_runs
  IsAccessAllowed_runs ParseEphemeralEmbeddingEvents_runs ExtractMentionedPubkeys_runs
  FiltersWithData_UnmarshalJSON_runs : runs.

(** ** Queries *)

Lemma deref_runs {A} (o : option A) : runs (deref o).
Proof. by destruct o. Qed.
Lemma of_error_runs o : runs (of_error o).
Proof. by destruct o. Qed.
Hint Resolve deref_runs of_error_runs : runs.
Lemma collect_runs it : runs (collect it).
Proof. induction it as [|[] it IH]; cbn; solve_runs. Qed.
Lemma first_event_runs it : runs (first_event it).
Proof. induction it as [|[[] []] it IH]; cbn; solve_runs. Qed.
Lemma last_event_runs it p : runs (last_event it p).
Proof. revert p. induction it as [|[e []] it IH]; intros p; cbn; solve_runs. Qed.
Lemma first_of_kind_runs it k : runs (first_of_kind it k).
Proof. induction it as [|[e []] it IH]; cbn; solve_runs. Qed.
Lemma any_event_runs p it : runs (any_event p it).
Proof. induction it as [|[e []] it IH]; cbn; solve_runs. Qed.
Lemma stored_definition_runs it : runs (stored_definition it).
Proof. induction it as [|[e []] it IH]; cbn; solve_runs. Qed.
Lemma accepted_join_runs def it : runs (accepted_join def it).
Proof. induction it as [|[e []] it IH]; cbn; solve_runs. Qed.
Lemma stored_award_runs r i u it : runs (stored_award r i u it).
Proof. unfold stored_award, check_award. induction it as [|[e []] it IH]; solve_runs. Qed.
Hint Resolve collect_runs first_event_runs last_event_runs first_of_kind_runs any_event_runs
  stored_definition_runs accepted_join_runs stored_award_runs : runs.
Lemma getEvent_runs v a : runs (getEvent v a).
Proof. unfold getEvent. solve_runs. Qed.
Hint Resolve getEvent_runs : runs.

(** ** Tags *)

Lemma find_pair_runs parts key : runs (find_pair parts key).
Proof. induction parts as [|p parts IH]; cbn; solve_runs. Qed.
Hint Resolve find_pair_runs : runs.
Lemma validateAddressableTag_runs e k ks : runs (validateAddressableTag e k ks).
Proof. unfold validateAddressableTag. solve_runs. Qed.
Lemma validateATags_runs e ks : runs (validateATags e ks).
Proof. apply validateAddressableTag_runs. Qed.
Lemma validateIMetaTag_runs tag : runs (validateIMetaTag tag).
Proof. unfold validateIMetaTag, check_imeta. solve_runs. Qed.
Lemma validatePollTag_runs tag : runs (validatePollTag tag).
Proof. unfold validatePollTag, poll_part. solve_runs. Qed.
Lemma validateSettingsTag_runs e tag : runs (validateSettingsTag e tag).
Proof. unfold validateSettingsTag. solve_runs. Qed.
Hint Resolve validateAddressableTag_runs validateATags_runs validateIMetaTag_runs
  validatePollTag_runs validateSettingsTag_runs : runs.
Lemma check_tag_value_runs e tag : runs (check_tag_value e tag).
Proof. unfold check_tag_value. solve_runs. Qed.
Hint Resolve check_tag_value_runs : runs.
Lemma validateEventTags_runs e rules : runs (validateEventTags e rules).
Proof. unfold validateEventTags, count_tag, check_tag_allowed, check_state. solve_runs. Qed.
Hint Resolve validateEventTags_runs : runs.

(** ** Rules of single kinds *)

Lemma validateLabelTags_runs e : runs (validateLabelTags e).
Proof. unfold validateLabelTags. solve_runs. Qed.
Hint Resolve validateLabelTags_runs : runs.
Lemma validateFollowListEvent_runs e : runs (validateFollowListEvent e).
Proof. unfold validateFollowListEvent. solve_runs. Qed.
Lemma validateKindReactionToWebsiteEvent_runs e : runs (validateKindReactionToWebsiteEvent e).
Proof. unfold validateKindReactionToWebsiteEvent. solve_runs. Qed.
Lemma validateKindLabelingEvent_runs e : runs (validateKindLabelingEvent e).
Proof. unfold validateKindLabelingEvent. solve_runs. Qed.
Lemma validateKindReportEvent_runs e : runs (validateKindReportEvent e).
Proof. unfold validateKindReportEvent. solve_runs. Qed.
Lemma validateKindRelayListMetadataEvent_runs e : runs (validateKindRelayListMetadataEvent e).
Proof. unfold validateKindRelayListMetadataEvent. solve_runs. Qed.
Lemma validateKindJobResult_runs e : runs (validateKindJobResult e).
Proof. unfold validateKindJobResult. solve_runs. Qed.
Lemma validateKindFeedbackJob_runs e : runs (validateKindFeedbackJob e).
Proof. unfold validateKindFeedbackJob. solve_runs. Qed.
Lemma validateKindNostrEventCountJob_runs e : runs (validateKindNostrEventCountJob e).
Proof. unfold validateKindNostrEventCountJob. solve_runs. Qed.
Hint Resolve validateFollowListEvent_runs validateKindReactionToWebsiteEvent_runs
  validateKindLabelingEvent_runs validateKindReportEvent_runs
  validateKindRelayListMetadataEvent_runs validateKindJobResult_runs
  validateKindFeedbackJob_runs validateKindNostrEventCountJob_runs : runs.

Definition hook_runs (f : eventValidator -> Event -> ruleSet -> check) : Prop :=
  forall v e rules, runs (f v e rules).

Lemma hooks_run kind kv : KindSupportedTags !! kind = Some kv -> Forall hook_runs (KValidate kv).
Proof.
  assert (Hall : Forall (fun kkv : Z * kindValidator => Forall hook_runs (KValidate (snd kkv)))
    (notes_table ++ lists_table ++ jobs_table ++ community_table ++ ion_table)).
  { repeat (apply Forall_cons; split);
      repeat match goal with
      | |- Forall hook_runs ?l => let l' := eval hnf in l in
          change (Forall hook_runs l'); first [apply Forall_nil; exact I | apply Forall_cons; split]
      end; try apply Forall_nil; try exact I; intros v e rules.
    all: unfold validateReaction, validateKindGiftWrapEvent, validateKindFundReceive,
      validateKindFundSendNotify, check_wallet_label, validateTokenizedCommunityFirstBuy,
      split_profile, validateInternalTopicTC, validatePriceChangeRequest, price_change_tag; solve_runs. }
  intros H. apply elem_of_list_to_map_2 in H. rewrite Forall_forall in Hall. by apply (Hall _ H).
Qed.

Lemma Execute_runs kind kv v e rules :
  KindSupportedTags !! kind = Some kv -> runs (Execute kv v e rules).
Proof.
  intros Hk%hooks_run. unfold Execute. cbv zeta. apply runs_bind; [|solve_runs].
  match goal with |- runs (for_state _ ?acc ?f) => generalize acc; set (step := f) end.
  induction Hk as [|f fs Hf _ IH]; intros acc; cbn; [done|].
  apply runs_bind; [|auto]. unfold step. specialize (Hf v e rules). by destruct (f v e rules).
Qed.
Hint Resolve Execute_runs : runs.

(** ** Communities, replies, posts *)

Lemma roles_differ_runs a b : runs (roles_differ a b).
Proof. unfold roles_differ. solve_runs. Qed.
Hint Resolve roles_differ_runs : runs.
Lemma patch_tag_runs tags t : runs (patch_tag tags t).
Proof. unfold patch_tag, patch_member. solve_runs. Qed.
Hint Resolve patch_tag_runs : runs.
Lemma getCommunityDefinition_runs v h : runs (getCommunityDefinition v h).
Proof. unfold getCommunityDefinition, pick_definition, applyChangeCommunityPatch. solve_runs. Qed.
Lemma IsUserBanned_runs v pk c : runs (IsUserBanned v pk c).
Proof. unfold IsUserBanned. solve_runs. Qed.
Lemma IsUserPartOfCommunity_runs v def pk : runs (IsUserPartOfCommunity v def pk).
Proof. apply accepted_join_runs. Qed.
Hint Resolve getCommunityDefinition_runs IsUserBanned_runs IsUserPartOfCommunity_runs : runs.
Lemma validatePostCommunityEvent_runs v e : runs (validatePostCommunityEvent v e).
Proof. unfold validatePostCommunityEvent. solve_runs. Qed.
Lemma validateKindDeletionEvent_runs v e : runs (validateKindDeletionEvent v e).
Proof.
  unfold validateKindDeletionEvent, validateDeleteCommunityEvents, validateCommunityDeleteEvent.
  solve_runs.
Qed.
Hint Resolve validatePostCommunityEvent_runs validateKindDeletionEvent_runs : runs.

Lemma hasUserBadge_runs v a b c : runs (hasUserBadge v a b c).
Proof. unfold hasUserBadge. solve_runs. Qed.
Hint Resolve hasUserBadge_runs : runs.
Lemma check_badge_settings_runs v u acks l : runs (check_badge_settings v u acks l).
Proof. induction l as [|s l IH]; cbn; solve_runs. Qed.
Hint Resolve check_badge_settings_runs : runs.
Lemma checkWhoCanReplySettings_runs v b e x r t : runs (checkWhoCanReplySettings v b e x r t).
Proof.
  unfold checkWhoCanReplySettings, checkFollowingWhoCanReplySettings,
    checkMentionWhoCanReplySettings, handleTextNoteVerifiedOnlyReply, checkReplyPermissions.
  solve_runs.
Qed.
Hint Resolve checkWhoCanReplySettings_runs : runs.
Lemma any_setting_runs v b e r t l : runs (any_setting v b e r t l).
Proof. induction l as [|x l IH]; cbn; solve_runs. Qed.
Hint Resolve any_setting_runs : runs.
Lemma findRootPost_runs v e : runs (findRootPost v e).
Proof. unfold findRootPost, createRootPostFilter. solve_runs. Qed.
Hint Resolve findRootPost_runs : runs.
Lemma validateWhoCanReplySettings_runs v b e : runs (validateWhoCanReplySettings v b e).
Proof. unfold validateWhoCanReplySettings. solve_runs. Qed.
Hint Resolve validateWhoCanReplySettings_runs : runs.

Lemma validateKindTextNoteEvent_runs v b e : runs (validateKindTextNoteEvent v b e).
Proof. unfold validateKindTextNoteEvent. solve_runs. Qed.
Lemma validateRootContentNFTCollections_runs v b e : runs (validateRootContentNFTCollections v b e).
Proof. unfold validateRootContentNFTCollections. solve_runs. Qed.
Hint Resolve validateKindTextNoteEvent_runs validateRootContentNFTCollections_runs : runs.
Lemma validateTextNote_runs v rules b e : runs (validateTextNote v rules b e).
Proof. unfold validateTextNote, check_soft_delete. solve_runs. Qed.
Lemma check_distinct_runs l s : runs (check_distinct s l).
Proof. revert s. induction l as [|o l IH]; intros s; cbn; solve_runs. Qed.
Hint Resolve check_distinct_runs : runs.
Lemma validatePollVote_runs v e : runs (validatePollVote v e).
Proof. unfold validatePollVote, check_vote. solve_runs. Qed.
Hint Resolve validateTextNote_runs validatePollVote_runs : runs.

(** ** Attestations, badges, profiles *)

Lemma attested_before_runs l pk : runs (attested_before l pk).
Proof. induction l as [|t l IH]; cbn; solve_runs. Qed.
Hint Resolve attested_before_runs : runs.
Lemma checkDeviceIdentificationProofs_runs v b m d :
  runs (checkDeviceIdentificationProofs v b m d).
Proof. unfold checkDeviceIdentificationProofs. solve_runs. Qed.
Hint Resolve checkDeviceIdentificationProofs_runs : runs.
Lemma validateKindAttestationEvent_runs v rules b e : runs (validateKindAttestationEvent v rules b e).
Proof.
  unfold validateKindAttestationEvent, validateAttestationEvent, attestation_transition, validateDevices.
  pose proof (getEvent_runs v) as Hg. pose proof (checkDeviceIdentificationProofs_runs v b) as Hd.
  solve_runs; congruence.
Qed.
Lemma check_award_runs r u e : runs (check_award r u e).
Proof. unfold check_award. solve_runs. Qed.
Hint Resolve check_award_runs : runs.
Lemma validateProfileBadgeAward_runs v b r i u : runs (validateProfileBadgeAward v b r i u).
Proof. unfold validateProfileBadgeAward. solve_runs. Qed.
Hint Resolve validateProfileBadgeAward_runs : runs.
Lemma validateKindProfileBadgesEvent_runs v b e : runs (validateKindProfileBadgesEvent v b e).
Proof. unfold validateKindProfileBadgesEvent, check_single_proof, check_badge. solve_runs. Qed.
Lemma validateKindBadgeAwardEvent_runs v b e : runs (validateKindBadgeAwardEvent v b e).
Proof. unfold validateKindBadgeAwardEvent, validateKindBadgeAwardOwnership. solve_runs. Qed.
Lemma validateKindBadgeDefinitionEvent_runs e : runs (validateKindBadgeDefinitionEvent e).
Proof. unfold validateKindBadgeDefinitionEvent. solve_runs. Qed.
Lemma checkProofOfOwnershipBadges_runs b u m : runs (checkProofOfOwnershipBadges b u m).
Proof. unfold checkProofOfOwnershipBadges. solve_runs. Qed.
Hint Resolve checkProofOfOwnershipBadges_runs : runs.
Lemma validateKindProfileMetadataEvent_runs v rules b e :
  runs (validateKindProfileMetadataEvent v rules b e).
Proof. unfold validateKindProfileMetadataEvent, validateProfileMetadataNameChange. solve_runs. Qed.

(** ** Community events *)

Lemma check_authorization_runs t : runs (check_authorization t).
Proof.
  unfold check_authorization. pose proof CheckSignature_runs as Hc. solve_runs.
  exfalso. by eapply Hc.
Qed.
Hint Resolve check_authorization_runs : runs.
Lemma validateCustomIONKindCommunityDefinitionEvent_runs g gn e :
  runs (validateCustomIONKindCommunityDefinitionEvent g gn e).
Proof.
  unfold validateCustomIONKindCommunityDefinitionEvent, moderator_check, moderator_member_check,
    GetCommunityDefinition.
  pose proof (getCommunityDefinition_runs g) as Hg. solve_runs. exfalso. by eapply Hg.
Qed.
Lemma validateCustomIONKindCommunityOwnershipTransferringEvent_runs g e :
  runs (validateCustomIONKindCommunityOwnershipTransferringEvent g e).
Proof.
  unfold validateCustomIONKindCommunityOwnershipTransferringEvent, GetCommunityDefinition. solve_runs.
Qed.
Lemma validateCustomIONKindCommunityBanUserEvent_runs g e :
  runs (validateCustomIONKindCommunityBanUserEvent g e).
Proof.
  unfold validateCustomIONKindCommunityBanUserEvent, check_ban, GetCommunityDefinition. solve_runs.
Qed.
End Total.

#[export] Hint Resolve CheckSignature_runs CheckNIP13Difficulty_runs ParseAttestationTags_runs
  IsAccessAllowed_runs FiltersWithData_UnmarshalJSON_runs deref_runs validateATags_runs
  validateEventTags_runs Execute_runs getCommunityDefinition_runs check_authorization_runs
  validatePostCommunityEvent_runs validateWhoCanReplySettings_runs : runs.
#[export] Hint Resolve validateKindAttestationEvent_runs validateKindProfileMetadataEvent_runs
  validateKindTextNoteEvent_runs validateKindDeletionEvent_runs validateFollowListEvent_runs
  validateKindBadgeAwardEvent_runs validateKindReactionToWebsiteEvent_runs validatePollVote_runs
  validateKindReportEvent_runs validateKindLabelingEvent_runs validateKindFeedbackJob_runs
  validateKindNostrEventCountJob_runs validateKindRelayListMetadataEvent_runs
  validateKindProfileBadgesEvent_runs validateKindBadgeDefinitionEvent_runs validateTextNote_runs
  validateCustomIONKindCommunityDefinitionEvent_runs
  validateCustomIONKindCommunityOwnershipTransferringEvent_runs
  validateCustomIONKindCommunityBanUserEvent_runs validateKindJobResult_runs : runs.
