(* ===== verification/Validate.v ===== *)
(** * Package validation: the validation of an event and of a batch

    src/validation/validate.go ([validate]), validation_nip_18.go (reposts),
    validation_icip_8000.go (device registrations), validation_icip_2000.go
    ([IsRelayAuthoritativeForUser]) and validator.go ([Validate]).

    An event may embed events (reposts, ephemeral embeddings, device
    registrations, authorizations to join), which are validated in turn:
    [validate] is the fixpoint of [validate_body] up to a nesting given as
    fuel; [validate_terminates] shows that fuel above the nesting of the
    embedded documents is enough. *)

From S2P Require Import Prelude GoStd Nostr Model Content OnBehalf Filters Validator TagRules Rules Attestation Community Replies Membership Badges Posts Total.
Import Strings.

(** Decoding of the content of a device registration. *)
Class GoGJSON := {
  gjson_array : string -> list gjson_item;
  json_filter : string -> option Filter;
  (** into a pointer to an event: the document [null] gives a nil pointer *)
  json_event_ptr : string -> option (option Event)
}.

Section Validate.
Context {N : Nostr} {G : GoText} {J : GoJSON} {C : Crypto} {R : RichText} {E : Env} {GJ : GoGJSON}.
Context (GetAll_is_nil : Tags -> list string -> bool).
(** The global validator of global.go. *)
Context (global : eventValidator).

(** ** Relays and devices *)

(* src: validation/validation_icip_2000.go 242-253 *)
Definition user_events (it : EventIterator) : outcome (option Event * option Event) :=
  for_state it (None, None) (fun '(attestationEvent, relayListEvent) '(ev, x) =>
    match x with
    | Some x => Err x
    | None =>
        let! ev := deref ev in
        if Kind ev =? CustomIONKindAttestation then Ok (Some ev, relayListEvent)
        else if Kind ev =? KindRelayListMetadata then Ok (attestationEvent, Some ev)
        else Ok (attestationEvent, relayListEvent)
    end).

(* src: validation/validation_icip_2000.go 215-279 *)
Definition IsRelayAuthoritativeForUser (v : eventValidator) (relayURL masterKey deviceKey : string) :
    outcome (bool * list Z) :=
  let relayTag := TagMap_Set ∅ "r" [Some relayURL] in
  let relayTag := match url_Parse relayURL with
                  | Some u => if Port u ≠s? ""
                              then TagMap_Append relayTag "r" [Some (url_without_port relayURL)]
                              else relayTag
                  | None => relayTag
                  end in
  let deviceTag := if deviceKey ≠s? "" then TagMap_Set ∅ "p" [Some deviceKey] else ∅ in
  let! (attestationEvent, relayListEvent) := user_events (QueryFunc v
    [MkFilter None (Some [CustomIONKindAttestation]) (Some [masterKey]) None (Some deviceTag) None None 1 "";
     MkFilter None (Some [KindRelayListMetadata]) (Some [masterKey]) None (Some relayTag) None None 1 ""]) in
  match relayListEvent, attestationEvent with
  | Some _, Some attestation =>
      let! records := ParseAttestationTags (EvTags attestation) in
      if deviceKey =s? "" then Ok (true, [])
      else
        let! allowed := IsAccessAllowed records deviceKey (-1) (Now now) in
        reject opaque_error when negb allowed ;;
        Ok (true, AllowedKinds records deviceKey)
  | _, _ => Ok (false, [])
  end.

(* src: validation/validation_icip_8000.go 16-33 *)
Definition validateKindDeviceRegistrationAuthoritative (v : eventValidator) (e : Event) : check :=
  reject wrong when Value (GetTag e "token") =s? "" ;;
  reject wrong when negb (bool_decide (ToLower (Value (GetTag e "t")) ∈
    [DeviceTokenOSAndroid; DeviceTokenOSIOS; DeviceTokenOSWeb])) ;;
  let relayTag := Value (GetTag e "relay") in
  reject wrong
    when match VConfig v with
         | Some c => (RelayURL c ≠s? "") && negb (EqualRelayURL (Some c) relayTag)
         | None => false
         end ;;
  pass.

(** The validation of an embedded event. *)
Definition validation : Type := eventValidator -> ruleSet -> list Event -> Event -> check.

(** The d tag of the form [master_device]: [dtagValues[1]] is not empty. *)
(* src: validation/validation_icip_8000.go 55-83 *)
Definition check_registration_owner (v : eventValidator) (e : Event) : check :=
  let by_owner :=
    if Authoritative user && (MasterPublicKey user =s? GetMasterPublicKey e)
    then validateKindDeviceRegistrationAuthoritative v e
    else Err wrong in
  match SplitN2 (GetD (EvTags e)) "_" with
  | dtagMasterKey :: device :: _ =>
      if device ≠s? "" then
        match VConfig v with
        | None => Panic
        | Some c =>
            let! (authoritative, _) := IsRelayAuthoritativeForUser v (RelayURL c) dtagMasterKey "" in
            if authoritative && (dtagMasterKey ≠s? GetMasterPublicKey e) then
              for_each (EvTags e) (fun tag =>
                if Key tag =s? "relay" then
                  reject wrong when (Value tag =s? "") || negb (IsValidRelayURL (Value tag)) ;; pass
                else pass)
            else Err wrong
        end
      else by_owner
  | _ => by_owner
  end.

(** The batch of the embedded events is [filters.Data] itself; its nil
    pointers are left out of the batch here, each of them panics when its own
    turn comes. *)
(* src: validation/validation_icip_8000.go 35-84 *)
Definition validateKindDeviceRegistration (rec : validation) (v : eventValidator) (e : Event)
    (rules : ruleSet) : check :=
  let! filters := map_error (fun _ => wrong)
    (FiltersWithData_UnmarshalJSON gjson_array json_filter json_event_ptr
       (MkFiltersWithData [] []) (Content e)) in
  let data := DataOf filters in
  try for_each data (fun event =>
        let! event := deref event in
        try rec v rules (omap (fun x => x) data) event ;;
        reject wrong when GetMasterPublicKey event ≠s? GetMasterPublicKey e ;;
        pass) ;;
  if BroadcastMode rules then pass else check_registration_owner v e.

(** ** Embedded events *)

(* src: validation/validate.go 368-381 *)
Definition validateKindEphemeralEmbeddingEvent (rec : validation) (v : eventValidator)
    (rules : ruleSet) (batch : list Event) (e : Event) : check :=
  reject (err ErrEphemeralForbidden) when Authoritative user ;;
  match UnmarshalJSON (Content e) with
  | None => Err opaque_error
  | Some wrappedEvent => rec v rules batch wrappedEvent
  end.

(* src: validation/validation_nip_18.go 34-58 *)
Definition check_repost_tags (e repostedEvent : Event) : check :=
  try (if Kind e =? KindRepost then
         reject wrong when negb (Kind repostedEvent =? KindTextNote) ;; pass
       else
         reject wrong when Value (GetTag e "k") ≠s? Strconv.Itoa (Kind repostedEvent) ;; pass) ;;
  try (if IsAddressable repostedEvent || IsReplaceable repostedEvent then
         reject wrong when Value (GetTag e "a") ≠s? Address repostedEvent ;; pass
       else reject wrong when Value (GetTag e "e") ≠s? ID repostedEvent ;; pass) ;;
  reject wrong when Value (GetTag e "p") ≠s? GetMasterPublicKey repostedEvent ;;
  pass.

(* src: validation/validation_nip_18.go 21-29 *)
Definition repost_rules (rules : ruleSet) : ruleSet :=
  MkRules (SkipKindProfileProofEventsVerify rules) (SkipKindAttestationProofDevicesVerify rules)
    true (SkipRootContentReplyValidation rules) (BroadcastMode rules).

(* src: validation/validation_nip_18.go 15-67 *)
Definition validateKindRepostEvent (rec : validation) (v : eventValidator) (rules : ruleSet)
    (batch : list Event) (e : Event) : check :=
  match UnmarshalJSON (Content e) with
  | None => Err wrong
  | Some repostedEvent =>
      try match rec v (repost_rules rules) batch repostedEvent with
          | Err x => if error_is x ErrPollTTLExpired then pass else Err wrong
          | m => m
          end ;;
      try check_repost_tags e repostedEvent ;;
      try validatePostCommunityEvent v e ;;
      validateWhoCanReplySettings v batch e
  end.

(* src: validation/validate.go 517-525 *)
Definition wrapped_rules (rules : ruleSet) : ruleSet :=
  MkRules true (SkipKindAttestationProofDevicesVerify rules)
    (SkipRootContentNFTCollectionsValidation rules) (SkipRootContentReplyValidation rules)
    (BroadcastMode rules).

(** ** The validation of one event *)

(* src: validation/validate.go 406-414 *)
Definition content_too_long (v : eventValidator) (e : Event) : bool :=
  let contentSize := if Content e ≠s? "" then Z.of_nat (len (Content e))
                     else Z.of_nat (len (ExtractRichTextContent e)) in
  let maxSize := MaxContentSizeOf (VConfig v) (Kind e) in
  (0 <? maxSize) && (maxSize <? contentSize).

(** The checks of every kind. *)
(* src: validation/validate.go 384-419 *)
Definition check_event (v : eventValidator) (rules : ruleSet) (e : Event) : check :=
  reject (err ErrEventInvalidID) when negb (CheckID e) ;;
  let! ok := CheckSignature e in
  reject (err ErrEventInvalidSign) when negb ok ;;
  try match VConfig v with
      | Some c => if 0 <? NIP13MinLeadingZeroBits c
                  then CheckNIP13Difficulty e (NIP13MinLeadingZeroBits c) else pass
      | None => pass
      end ;;
  reject (err ErrUnsupportedKind) when (Kind e <? 0) || (MaxUint16 <? Kind e) ;;
  reject wrong when maxTagsCount <? zlen (EvTags e) ;;
  try validateEventTags e KindSupportedTags ;;
  reject wrong when content_too_long v e ;;
  match KindSupportedTags !! Kind e with
  | Some kv => map_error (fun _ => wrong) (Execute kv v e rules)
  | None => pass
  end.

(** The jobs the relay does not run. *)
(* src: validation/validate.go 459-494 *)
Definition check_job (e : Event) : option check :=
  let jobs := [(KindJobTextExtraction, validateKindTextExtractionJob);
    (KindJobSummarization, validateKindSummarizationJob);
    (KindJobTranslation, validateKindTranslationJob);
    (KindJobTextGeneration, validateKindTextGenerationJob);
    (KindJobImageGeneration, validateKindImageGenerationJob);
    (KindJobVideoConversion, validateKindVideoConversionJob);
    (KindJobVideoTranslation, validateKindVideoTranslationJob);
    (KindJobImageToVideoConversion, validateKindImageToVideoConversionJob);
    (KindJobTextToSpeechGeneration, validateKindTextToSpeechGenerationJob);
    (KindJobNostrContentDiscovery, validateKindNostrContentDiscoveryJob);
    (KindJobNostrPeopleDiscovery, validateKindNostrPeopleDiscoveryJob);
    (KindJobNostrContentSearch, validateKindNostrContentSearchJob);
    (KindJobNostrPeopleSearch, validateKindNostrPeopleSearchJob);
    (KindJobNostrEventCount, validateKindNostrEventCountJob);
    (KindJobMalwareScanning, validateKindMalwareScanningJob);
    (KindJobNostrEventTimeStamping, validateKindNostrEventTimeStampingJob);
    (KindJobOpReturnCreation, validateKindOpReturnCreationJob);
    (KindJobNostrEventPublishSchedule, validateKindNostrEventPublishScheduleJob)] in
  (fun f => f e) <$> ((list_to_map jobs : gmap Z (Event -> check)) !! Kind e).

(** [validate], the validations of embedded events being [rec]. *)
(* src: validation/validate.go 420-533 *)
Definition check_kind (rec : validation) (v : eventValidator) (rules : ruleSet) (batch : list Event)
    (e : Event) : check :=
  let k := Kind e in
  if k =? CustomIONKindAttestation then validateKindAttestationEvent v rules batch e
  else if k =? KindProfileMetadata then validateKindProfileMetadataEvent v rules batch e
  else if k =? KindTextNote then validateKindTextNoteEvent v batch e
  else if k =? KindDeletion then validateKindDeletionEvent v e
  else if (k =? KindRepost) || (k =? KindGenericRepost) then
    validateKindRepostEvent rec v rules batch e
  else if k =? KindFollowList then validateFollowListEvent e
  else if k =? KindBadgeAward then validateKindBadgeAwardEvent v batch e
  else if (k =? KindDirectMessage) || (k =? KindSeal) then Err (err ErrUnsupportedKind)
  else if k =? KindReactionToWebsite then validateKindReactionToWebsiteEvent e
  else if k =? CustomIONKindPollVote then validatePollVote v e
  else if k =? KindCommunityList then validateATags e [CustomIONKindCommunityDefinition]
  else if k =? KindInterestList then validateATags e [KindInterestSets]
  else if k =? KindEmojiList then validateATags e [KindEmojiSets]
  else if k =? KindBookmarkSets then validateATags e []
  else if k =? KindCuratedSets then validateATags e [KindArticle; KindTextNote]
  else if k =? KindCuratedVideoSets then validateATags e [KindVideoEvent; KindShortVideoEvent]
  else if k =? KindReporting then validateKindReportEvent e
  else if k =? KindLabel then validateKindLabelingEvent e
  else match check_job e with
  | Some r => r
  | None =>
  if k =? KindJobFeedback then validateKindFeedbackJob e
  else if k =? CustomIONKindDeviceRegistration then validateKindDeviceRegistration rec v e rules
  else if k =? KindRelayListMetadata then validateKindRelayListMetadataEvent e
  else if k =? KindProfileBadges then validateKindProfileBadgesEvent v batch e
  else if k =? KindBadgeDefinition then validateKindBadgeDefinitionEvent e
  else if (k =? KindArticle) || (k =? KindDraftArticle) || (k =? CustomIONKindEditableTextNote) then
    validateTextNote v rules batch e
  else if is_community_kind k then
    validateCustomIONKindCommunityDefinitionEvent global GetAll_is_nil e
  else if k =? CustomIONKindCommunityJoin then
    validateCustomIONKindCommunityJoinEvent global
      (fun auth => rec global (RuleWithSkipDeviceIdentificationProofEventsVerify no_rules) [auth] auth) e
  else if k =? CustomIONKindCommunityOwnershipTransferring then
    validateCustomIONKindCommunityOwnershipTransferringEvent global e
  else if k =? CustomIONKindCommunityBanUser then
    validateCustomIONKindCommunityBanUserEvent global e
  else if k =? CustomIONKindEphemeralEmbedding then
    validateKindEphemeralEmbeddingEvent rec v (wrapped_rules rules) batch e
  else if IsJobResponse e then validateKindJobResult e
  else pass
  end.

(* src: validation/validate.go 383-534 *)
Definition validate_body (rec : validation) : validation := fun v rules batch e =>
  try check_event v rules e ;;
  check_kind rec v rules batch e.

(* src: validation/validate.go 383-534 *)
Fixpoint validate (fuel : nat) : validation := fun v rules batch e =>
  match fuel with
  | O => OutOfFuel
  | S fuel => validate_body (validate fuel) v rules batch e
  end.

(** [Validate] always skips the identification proofs of devices. *)
(* src: validation/validator.go 45-61 *)
Definition Validate (fuel : nat) (v : eventValidator) (batch : list Event) (rules : list Rule) : check :=
  let ruleSet := RuleWithSkipDeviceIdentificationProofEventsVerify (Configure no_rules rules) in
  for_each batch (validate fuel v ruleSet batch).

(** ** Embedded documents *)

(** The documents of an event that may embed events: its content and its
    authorization to join. *)
Definition documents (e : Event) : list string := [Content e; Value (GetTag e "authorization")].

(** [depth] measures how deeply documents embed events: an embedded event is
    a string inside its document, so its own documents are nested less deeply.
    Documented behaviour of the JSON decoders. *)
Class Nesting (depth : string -> nat) : Prop := {
  nested_event : forall s e d, UnmarshalJSON s = Some e -> d ∈ documents e -> (depth d < depth s)%nat;
  nested_json : forall s e d, json_event s = Some e -> d ∈ documents e -> (depth d < depth s)%nat;
  nested_item : forall s item e d, item ∈ gjson_array s -> json_event_ptr (Raw item) = Some (Some e) ->
    d ∈ documents e -> (depth d < depth s)%nat
}.

Definition nesting (depth : string -> nat) (e : Event) : nat :=
  Nat.max (depth (Content e)) (depth (Value (GetTag e "authorization"))).

(** ** Lemmas: what the validation of an event calls *)

Section Lemmas.
Context {NS : NostrSpec N}.

Lemma IsRelayAuthoritativeForUser_runs v r m d : runs (IsRelayAuthoritativeForUser v r m d).
Proof. unfold IsRelayAuthoritativeForUser, user_events. solve_runs. Qed.
Hint Resolve IsRelayAuthoritativeForUser_runs : runs.

Lemma check_registration_owner_runs v e : runs (check_registration_owner v e).
Proof.
  unfold check_registration_owner, validateKindDeviceRegistrationAuthoritative. solve_runs.
Qed.
Hint Resolve check_registration_owner_runs : runs.

Lemma check_event_runs v rules e : runs (check_event v rules e).
Proof. unfold check_event. solve_runs. Qed.

Lemma check_job_runs e r : check_job e = Some r -> runs r.
Proof.
  unfold check_job. cbv zeta. intros (f & Hf & ->)%fmap_Some.
  apply elem_of_list_to_map_2 in Hf.
  repeat (apply elem_of_cons in Hf as [Hf|Hf]; [injection Hf as _ ->; try done; eauto with runs|]).
  by apply not_elem_of_nil in Hf.
Qed.

(** The data a device registration carries come from the items of its
    content. *)
Lemma registration_data (e : Event) f ev :
  FiltersWithData_UnmarshalJSON gjson_array json_filter json_event_ptr (MkFiltersWithData [] [])
    (Content e) = Ok f ->
  ev ∈ DataOf f -> exists item, item ∈ gjson_array (Content e) /\ json_event_ptr (Raw item) = Some ev.
Proof.
  unfold FiltersWithData_UnmarshalJSON. intros Hrun. revert ev.
  refine (for_state_invariant (fun pre (f : FiltersWithData (option Event)) => forall ev, ev ∈ DataOf f ->
    exists item, item ∈ pre /\ json_event_ptr (Raw item) = Some ev) _ _ _ _ _ _ Hrun).
  - intros ev H. by apply elem_of_nil in H.
  - intros pre item s s' _ Hs Hstep ev Hev.
    assert (Hold : ev ∈ DataOf s -> exists item0, item0 ∈ pre ++ [item] /\
      json_event_ptr (Raw item0) = Some ev).
    { intros H. destruct (Hs ev H) as (it & Hin & Hj). exists it. split; [|done].
      apply elem_of_app. by left. }
    destruct (is_filter_item item).
    + destruct (json_filter (Raw item)); [|done]. simplify_eq. by apply Hold.
    + destruct (json_event_ptr (Raw item)) as [d|] eqn:Hd; [|done]. simplify_eq. cbn in Hev.
      apply elem_of_app in Hev as [|Hev]; [by apply Hold|].
      apply list_elem_of_singleton in Hev as ->. exists item. split; [|done].
      apply elem_of_app. right. by left.
Qed.

(** Two validations that agree on the events nested in [e] agree on [e], and
    one that returns on them returns on [e]. *)
Definition embedded (depth : string -> nat) (e e' : Event) : Prop :=
  (nesting depth e' < nesting depth e)%nat.

Lemma embedded_by `{!Nesting depth} e e' d :
  d ∈ documents e -> (forall d', d' ∈ documents e' -> (depth d' < depth d)%nat) ->
  embedded depth e e'.
Proof.
  intros Hd Hd'. unfold embedded, nesting.
  pose proof (Hd' (Content e') ltac:(left)). pose proof (Hd' _ ltac:(right; left)).
  apply elem_of_cons in Hd as [->|Hd]; [lia|].
  apply list_elem_of_singleton in Hd as ->. lia.
Qed.

Section Embedded.
Context (depth : string -> nat) {ND : Nesting depth}.

Lemma unmarshal_embedded e e' : UnmarshalJSON (Content e) = Some e' -> embedded depth e e'.
Proof. intros H. apply (embedded_by _ _ (Content e)); [left|]. intros d'. by apply nested_event. Qed.

Lemma authorization_embedded e e' :
  json_event (Value (GetTag e "authorization")) = Some e' -> embedded depth e e'.
Proof.
  intros H. apply (embedded_by _ _ (Value (GetTag e "authorization"))); [right; left|].
  intros d'. by apply nested_json.
Qed.

Lemma registration_embedded e f e' :
  FiltersWithData_UnmarshalJSON gjson_array json_filter json_event_ptr (MkFiltersWithData [] [])
    (Content e) = Ok f ->
  Some e' ∈ DataOf f -> embedded depth e e'.
Proof.
  intros Hf He. destruct (registration_data e f _ Hf He) as (item & Hin & Hj).
  apply (embedded_by _ _ (Content e)); [left|]. intros d'. by eapply nested_item.
Qed.

Context (e : Event).

Section Ext.
Context (rec1 rec2 : validation).
Context (Hext : forall v rules batch e', embedded depth e e' ->
  rec1 v rules batch e' = rec2 v rules batch e').

Lemma repost_ext v rules batch :
  validateKindRepostEvent rec1 v rules batch e = validateKindRepostEvent rec2 v rules batch e.
Proof.
  unfold validateKindRepostEvent. destruct (UnmarshalJSON (Content e)) as [e'|] eqn:He; [|done].
  by rewrite Hext by by apply unmarshal_embedded.
Qed.

Lemma ephemeral_ext v rules batch :
  validateKindEphemeralEmbeddingEvent rec1 v rules batch e =
  validateKindEphemeralEmbeddingEvent rec2 v rules batch e.
Proof.
  unfold validateKindEphemeralEmbeddingEvent. destruct (Authoritative user); [done|].
  destruct (UnmarshalJSON (Content e)) as [e'|] eqn:He; [|done].
  apply Hext. by apply unmarshal_embedded.
Qed.

Lemma registration_ext v rules :
  validateKindDeviceRegistration rec1 v e rules = validateKindDeviceRegistration rec2 v e rules.
Proof.
  unfold validateKindDeviceRegistration.
  destruct (FiltersWithData_UnmarshalJSON _ _ _ _ _) as [f|x| |] eqn:Hf; try done.
  cbn [map_error mbind outcome_bind]. f_equal. apply for_each_ext. intros [e'|] He'; [|done].
  cbn [deref mbind outcome_bind]. rewrite Hext; [done|]. by eapply registration_embedded.
Qed.

Lemma join_ext rules batch :
  let val rec auth := rec global (rules : ruleSet) (batch auth) auth in
  validateCustomIONKindCommunityJoinEvent global (val rec1) e =
  validateCustomIONKindCommunityJoinEvent global (val rec2) e.
Proof.
  cbv zeta. unfold validateCustomIONKindCommunityJoinEvent. case_match; [done|]. f_equal.
  destruct (GetCommunityDefinition global _) as [def|x| |]; try done. cbn.
  case_match; [done|]. case_match; [|done]. case_match; [done|]. case_match; [done|].
  destruct (json_event _) as [auth|] eqn:Ha; [|done].
  rewrite Hext; [done|]. by apply authorization_embedded.
Qed.

Lemma validate_body_ext v rules batch :
  validate_body rec1 v rules batch e = validate_body rec2 v rules batch e.
Proof.
  unfold validate_body, check_kind.
  pose proof (join_ext (RuleWithSkipDeviceIdentificationProofEventsVerify no_rules)
    (fun auth => [auth])) as Hj. cbv zeta beta in Hj.
  rewrite repost_ext, registration_ext, ephemeral_ext, Hj. reflexivity.
Qed.
End Ext.

Section Runs.
Context (rec : validation).
Context (Hrec : forall v rules batch e', embedded depth e e' -> runs (rec v rules batch e')).

Lemma repost_runs v rules batch : runs (validateKindRepostEvent rec v rules batch e).
Proof.
  unfold validateKindRepostEvent. destruct (UnmarshalJSON _) as [e'|] eqn:He; [|done].
  pose proof (Hrec v (repost_rules rules) batch e' (unmarshal_embedded _ _ He)).
  unfold check_repost_tags. solve_runs.
Qed.

Lemma ephemeral_runs v rules batch : runs (validateKindEphemeralEmbeddingEvent rec v rules batch e).
Proof.
  unfold validateKindEphemeralEmbeddingEvent. destruct (Authoritative user); [done|].
  destruct (UnmarshalJSON _) as [e'|] eqn:He; [|done]. by apply Hrec, unmarshal_embedded.
Qed.

Lemma registration_runs v rules : runs (validateKindDeviceRegistration rec v e rules).
Proof.
  unfold validateKindDeviceRegistration.
  destruct (FiltersWithData_UnmarshalJSON gjson_array json_filter json_event_ptr _ _)
    as [f|x| |] eqn:Hf; [cbn [map_error mbind outcome_bind]|done..|].
  - cbv zeta. apply runs_bind; [|solve_runs].
    apply runs_for_each_in. intros [e'|] He'; [|done]. cbn [deref mbind outcome_bind].
    apply runs_bind; [|solve_runs]. by eapply Hrec, registration_embedded.
  - by apply FiltersWithData_UnmarshalJSON_runs in Hf.
Qed.

Lemma join_runs rules (batch : Event -> list Event) :
  runs (validateCustomIONKindCommunityJoinEvent global (fun auth => rec global rules (batch auth) auth) e).
Proof.
  unfold validateCustomIONKindCommunityJoinEvent, GetCommunityDefinition. solve_runs.
  by apply Hrec, authorization_embedded.
Qed.
Hint Resolve repost_runs ephemeral_runs registration_runs join_runs : runs.

Lemma validate_body_runs v rules batch : runs (validate_body rec v rules batch e).
Proof.
  unfold validate_body. apply runs_bind; [apply check_event_runs|intros _].
  unfold check_kind. pose proof check_job_runs as Hjob.
  repeat (case_match; eauto with runs).
Qed.
End Runs.
End Embedded.
End Lemmas.

(** ** Dispatch on kinds *)

(** Replace the kinds of go-nostr by their numbers and decide the
    comparisons of numbers. *)
Ltac number_kinds :=
  let K := fresh in pose proof kinds_spec as K; injection K; clear K; intros;
  repeat match goal with H : @eq Z ?k ?n |- _ =>
    lazymatch k with Kind _ => fail | _ => rewrite H in *; clear H end end.
Ltac decide_kinds :=
  repeat match goal with
  | |- context [Z.eqb ?a ?b] =>
      let v := eval vm_compute in (Z.eqb a b) in
      lazymatch v with true => idtac | false => idtac end;
      change (Z.eqb a b) with v; cbv iota; cbn [orb andb]
  end.

Section Dispatch.
Context {NS : NostrSpec N}.
Context (rec : validation) (v : eventValidator) (rules : ruleSet) (batch : list Event) (e : Event).

Lemma check_kind_repost :
  Kind e = KindRepost \/ Kind e = KindGenericRepost ->
  check_kind rec v rules batch e = validateKindRepostEvent rec v rules batch e.
Proof.
  intros Hk. unfold check_kind. number_kinds. destruct Hk as [-> | ->]; decide_kinds; done.
Qed.

Lemma check_kind_ephemeral :
  Kind e = CustomIONKindEphemeralEmbedding ->
  check_kind rec v rules batch e =
  validateKindEphemeralEmbeddingEvent rec v (wrapped_rules rules) batch e.
Proof.
  intros Hk. unfold check_kind. number_kinds. rewrite Hk.
  assert (check_job e = None) as -> by (unfold check_job; rewrite Hk; reflexivity).
  unfold IsJobResponse, is_community_kind. decide_kinds. done.
Qed.

Lemma check_kind_registration :
  Kind e = CustomIONKindDeviceRegistration ->
  check_kind rec v rules batch e = validateKindDeviceRegistration rec v e rules.
Proof.
  intros Hk. unfold check_kind. number_kinds. rewrite Hk.
  assert (check_job e = None) as -> by (unfold check_job; rewrite Hk; reflexivity).
  decide_kinds. done.
Qed.

Lemma check_kind_attestation :
  Kind e = CustomIONKindAttestation ->
  check_kind rec v rules batch e = validateKindAttestationEvent v rules batch e.
Proof. intros Hk. unfold check_kind. rewrite Hk. done. Qed.

(** The kinds of jobs without an implementation. *)
Definition unsupported_jobs : list Z :=
  [KindJobTextExtraction; KindJobSummarization; KindJobTranslation; KindJobTextGeneration;
   KindJobImageGeneration; KindJobVideoConversion; KindJobVideoTranslation;
   KindJobImageToVideoConversion; KindJobTextToSpeechGeneration; KindJobNostrContentDiscovery;
   KindJobNostrPeopleDiscovery; KindJobNostrContentSearch; KindJobNostrPeopleSearch;
   KindJobMalwareScanning; KindJobNostrEventTimeStamping; KindJobOpReturnCreation;
   KindJobNostrEventPublishSchedule].

Lemma check_kind_unsupported :
  Kind e = KindDirectMessage \/ Kind e = KindSeal \/ Kind e ∈ unsupported_jobs ->
  exists s, check_kind rec v rules batch e = Err (err s).
Proof.
  intros Hk. unfold check_kind. number_kinds. unfold unsupported_jobs in Hk.
  rewrite !elem_of_cons, elem_of_nil in Hk.
  repeat destruct Hk as [Hk|Hk]; try done.
  all: try (rewrite Hk; decide_kinds; by eexists).
  all: assert (check_job e = Some (Err (err ErrUnsupportedJob))) as -> by (unfold check_job; rewrite Hk; reflexivity);
    rewrite Hk; decide_kinds; by eexists.
Qed.
End Dispatch.

(** ** Theorems *)

Section Theorems.
Context {NS : NostrSpec N}.

(** What every accepted event satisfies. *)
Record checked (v : eventValidator) (rules : ruleSet) (e : Event) : Prop := {
  ck_id : CheckID e = true;
  ck_signature : CheckSignature e = Ok true;
  ck_kind : 0 <= Kind e <= MaxUint16;
  ck_count : zlen (EvTags e) <= maxTagsCount;
  ck_tags : valid_tags KindSupportedTags e;
  ck_size : content_too_long v e = false;
  ck_table : forall kv, KindSupportedTags !! Kind e = Some kv -> Execute kv v e rules = pass
}.

Lemma check_event_checked v rules e : check_event v rules e = pass -> checked v rules e.
Proof.
  unfold check_event. rewrite reject_Ok, bind_Ok. intros (Hid & ok & Hok & H).
  rewrite reject_Ok, bind_Ok_unit, !reject_Ok, bind_Ok_unit, reject_Ok in H.
  destruct H as (Hsig & _ & Hk & Hn & Ht & Hc & Hx).
  apply negb_false_iff in Hid, Hsig. subst ok. apply validateEventTags_spec in Ht.
  constructor; try done; try lia. intros kv Hkv. rewrite Hkv in Hx. by apply map_error_Ok in Hx.
Qed.

Lemma validate_pass fuel v rules batch e :
  validate fuel v rules batch e = pass ->
  exists fuel', fuel = S fuel' /\ checked v rules e /\
    check_kind (validate fuel') v rules batch e = pass.
Proof.
  destruct fuel as [|fuel]; [done|]. cbn. unfold validate_body. rewrite bind_Ok_unit.
  intros [He Hk]. exists fuel. split; [done|]. split; [by apply check_event_checked|done].
Qed.

(** C1: an accepted event has the id of its content and a valid signature,
    a 16-bit kind, at most 30000 tags, the tags its kind's table allows and
    requires, content within the configured size, and passes the additional
    checks of its kind; direct messages, seals and the jobs the relay does
    not run are never accepted. *)
Theorem validate_sound fuel v rules batch e :
  validate fuel v rules batch e = pass ->
  checked v rules e /\
  Kind e ≠ KindDirectMessage /\ Kind e ≠ KindSeal /\ Kind e ∉ unsupported_jobs.
Proof.
  intros (fuel' & -> & Hck & Hkind)%validate_pass. split; [done|].
  pose proof (check_kind_unsupported (validate fuel') v rules batch e) as Hun.
  rewrite Hkind in Hun. naive_solver.
Qed.

Lemma CheckSignature_error e x : CheckSignature e = Err x -> error_is x ErrPollTTLExpired = false.
Proof.
  unfold CheckSignature, ExtractSignature, ed25519_Verify, Strings.slice.
  intros H. repeat (case_match || simplify_eq || (cbn in H)); try done.
  all: apply nostr_CheckSignature_error in H; unfold error_is; rewrite H; done.
Qed.

(** A validation that fails because a poll has expired got past the id and the
    signature. *)
Lemma expired_poll_signed fuel v rules batch e x :
  validate fuel v rules batch e = Err x -> error_is x ErrPollTTLExpired = true ->
  CheckID e = true /\ CheckSignature e = Ok true.
Proof.
  destruct fuel as [|fuel]; [done|]. cbn [validate]. unfold validate_body, check_event.
  destruct (CheckID e); cbn [negb]; [|intros [= <-]; done].
  destruct (CheckSignature e) as [[]|y| |] eqn:Hs; cbn; [done|intros [= <-]; done| |done..].
  intros [= <-]. by rewrite (CheckSignature_error _ _ Hs).
Qed.

(** An accepted repost carries an event that was itself accepted under
    the rules of reposts (without the collections of the author's profile), or
    whose only defect found first is an expired poll, and that in any case has
    its own id and a valid signature; and the repost refers to it: its kind,
    its address or id, and its master key. *)
Lemma accepted_repost fuel v rules batch e :
  validate (S fuel) v rules batch e = pass ->
  Kind e = KindRepost \/ Kind e = KindGenericRepost ->
  exists e', UnmarshalJSON (Content e) = Some e' /\
    (validate fuel v (repost_rules rules) batch e' = pass \/
     exists x, validate fuel v (repost_rules rules) batch e' = Err x /\
       error_is x ErrPollTTLExpired = true) /\
    CheckID e' = true /\ CheckSignature e' = Ok true /\
    (Kind e = KindRepost -> Kind e' = KindTextNote) /\
    (Kind e = KindGenericRepost -> Value (GetTag e "k") = Strconv.Itoa (Kind e')) /\
    (if IsAddressable e' || IsReplaceable e' then Value (GetTag e "a") = Address e'
     else Value (GetTag e "e") = ID e') /\
    Value (GetTag e "p") = GetMasterPublicKey e'.
Proof.
  intros (fuel' & [= <-] & _ & Hkind)%validate_pass Hk. rewrite check_kind_repost in Hkind by done.
  unfold validateKindRepostEvent in Hkind. destruct (UnmarshalJSON _) as [e'|]; [|done].
  exists e'. split; [done|]. rewrite !bind_Ok_unit in Hkind. destruct Hkind as (Hrec & Hrefs & _).
  assert (Hcases : validate fuel v (repost_rules rules) batch e' = pass \/
    exists x, validate fuel v (repost_rules rules) batch e' = Err x /\
      error_is x ErrPollTTLExpired = true).
  { destruct (validate fuel v (repost_rules rules) batch e') as [[]|x| |]; try done; [by left|right].
    exists x. by destruct (error_is x ErrPollTTLExpired). }
  split; [done|].
  assert (CheckID e' = true /\ CheckSignature e' = Ok true) as [Hid Hsig].
  { destruct Hcases as [Hok|(x & Hx & Hp)]; [|by eapply expired_poll_signed].
    apply validate_pass in Hok as (? & _ & [] & _). done. }
  do 2 (split; [done|]). unfold check_repost_tags in Hrefs. rewrite !bind_Ok_unit, reject_Ok in Hrefs.
  destruct Hrefs as (Hkk & Href & Hp & _). apply negb_false_iff, String.eqb_eq in Hp.
  assert (KindRepost ≠ KindGenericRepost) by (number_kinds; lia).
  split_and!; [| | |done].
  - intros Hr. rewrite Hr, Z.eqb_refl, reject_Ok in Hkk. destruct Hkk as [Hkk _]. lia.
  - intros Hr. rewrite Hr, (proj2 (Z.eqb_neq _ _)), reject_Ok in Hkk by done.
    destruct Hkk as [Hkk _]. by apply negb_false_iff, String.eqb_eq in Hkk.
  - destruct (_ || _); rewrite reject_Ok in Href; destruct Href as [Href _];
      by apply negb_false_iff, String.eqb_eq in Href.
Qed.

(** On a connection of an authoritative relay an ephemeral embedding is
    never accepted; on another one it is accepted exactly when it passes the
    checks of every event and the event it embeds is accepted, without the
    proofs of the profile's name. *)
Lemma ephemeral_embedding fuel v rules batch e :
  Kind e = CustomIONKindEphemeralEmbedding ->
  validate (S fuel) v rules batch e = pass <->
  check_event v rules e = pass /\ Authoritative user = false /\
  exists e', UnmarshalJSON (Content e) = Some e' /\
    validate fuel v (wrapped_rules rules) batch e' = pass.
Proof.
  intros Hk. cbn [validate]. unfold validate_body.
  rewrite bind_Ok_unit, check_kind_ephemeral by done.
  unfold validateKindEphemeralEmbeddingEvent. rewrite reject_Ok.
  destruct (UnmarshalJSON _); naive_solver.
Qed.

Lemma validate_stable depth `{!Nesting depth} n e :
  (nesting depth e < n)%nat ->
  (forall f1 f2 v rules batch, (nesting depth e < f1)%nat -> (nesting depth e < f2)%nat ->
     validate f1 v rules batch e = validate f2 v rules batch e) /\
  (forall f v rules batch, (nesting depth e < f)%nat -> runs (validate f v rules batch e)).
Proof.
  revert e. induction n as [|n IH]; intros e He; [lia|]. unfold embedded in *. split.
  - intros [|f1] [|f2] v rules batch H1 H2; [lia..|]. cbn [validate].
    apply (validate_body_ext depth). unfold embedded. intros. apply IH; lia.
  - intros [|f] v rules batch Hf; [lia|]. cbn [validate].
    apply (validate_body_runs depth). unfold embedded. intros. apply IH; lia.
Qed.

(** C23: validation terminates: fuel above the nesting of the embedded
    documents gives a result of the code, the same for any such fuel. *)
Theorem validate_terminates depth `{!Nesting depth} v rules batch e :
  exists r, runs r /\
    forall fuel, (nesting depth e < fuel)%nat -> validate fuel v rules batch e = r.
Proof.
  exists (validate (S (nesting depth e)) v rules batch e).
  destruct (validate_stable depth (S (nesting depth e)) e ltac:(lia)) as [Heq Hrun].
  split; [apply Hrun; lia|]. intros fuel Hf. apply Heq; lia.
Qed.

(** A batch is accepted exactly when each of its events is, under the
    configured rules and without the identification proofs of devices; a
    rejected batch fails with the error of its first rejected event. *)
Lemma Validate_batch fuel v batch rules :
  let rs := RuleWithSkipDeviceIdentificationProofEventsVerify (Configure no_rules rules) in
  (Validate fuel v batch rules = pass <->
     forall e, e ∈ batch -> validate fuel v rs batch e = pass) /\
  (forall x, Validate fuel v batch rules = Err x <->
     exists pre e post, batch = pre ++ e :: post /\
       (forall e', e' ∈ pre -> validate fuel v rs batch e' = pass) /\
       validate fuel v rs batch e = Err x).
Proof.
  intros rs. unfold Validate. fold rs. split.
  { by rewrite for_each_Ok, Forall_forall. }
  intros x. generalize (validate fuel v rs batch). intros f.
  induction batch as [|e batch IH]; cbn.
  - split; [done|]. intros (pre & e & post & H & _). by destruct pre.
  - destruct (f e) as [[]|y| |] eqn:He; cbn.
    + rewrite IH. split.
      * intros (pre & e1 & post & -> & Hpre & He1). exists (e :: pre), e1, post.
        split_and!; [done| |done]. intros e' [->|H]%elem_of_cons; auto.
      * intros ([|e0 pre] & e1 & post & Heq & Hpre & He1); cbn in Heq; simplify_eq; [congruence|].
        exists pre, e1, post. split_and!; [done| |done]. intros e' H. apply Hpre. by right.
    + split.
      * intros [= <-]. exists [], e, batch. split_and!; [done| |done]. intros e' H. by apply elem_of_nil in H.
      * intros ([|e0 pre] & e1 & post & Heq & Hpre & He1); cbn in Heq; simplify_eq; [congruence|].
        rewrite Hpre in He by (by left). done.
    + split; [done|]. intros ([|e0 pre] & e1 & post & Heq & Hpre & He1); cbn in Heq; simplify_eq;
        [congruence|]. rewrite Hpre in He by (by left). done.
    + split; [done|]. intros ([|e0 pre] & e1 & post & Heq & Hpre & He1); cbn in Heq; simplify_eq;
        [congruence|]. rewrite Hpre in He by (by left). done.
Qed.

(** ** Badges, and the names they prove *)

(** No kind has two tables. *)
Lemma supported_kinds_NoDup :
  NoDup (fst <$> (notes_table ++ lists_table ++ jobs_table ++ community_table ++ ion_table)).
Proof.
  unfold notes_table, lists_table, jobs_table, community_table, ion_table.
  cbn [app fmap list_fmap fst]. number_kinds. decide_in.
Qed.

Lemma badge_tables k :
  k = KindBadgeAward \/ k = KindBadgeDefinition ->
  exists kv, KindSupportedTags !! k = Some kv /\
    flagged kv kindValidatorFlagIONIdentityKeySignatureRequired = true.
Proof.
  intros Hk. unfold KindSupportedTags.
  enough (exists kv, (k, kv) ∈ notes_table ++ lists_table ++ jobs_table ++ community_table ++ ion_table /\
    flagged kv kindValidatorFlagIONIdentityKeySignatureRequired = true) as (kv & Hin & Hf).
  { exists kv. split; [|done]. apply elem_of_list_to_map_1; [apply supported_kinds_NoDup|done]. }
  destruct Hk as [-> | ->]; eexists; (split; [|shelve]); rewrite !elem_of_app.
  - left. unfold notes_table. repeat (first [by left|right]).
  - right. left. unfold lists_table. repeat (first [by left|right]).
  Unshelve. all: reflexivity.
Qed.

Lemma accepted_badge_signer_spec fuel v rules batch e :
  validate fuel v rules batch e = pass -> Kind e = KindBadgeAward \/ Kind e = KindBadgeDefinition ->
  PubKey e ∈ IONIdentityPublicKeys v.
Proof.
  intros (fuel' & -> & Hck & _)%validate_pass (kv & Hkv & Hf)%badge_tables.
  apply (ck_table _ _ _ Hck), Execute_spec in Hkv as (_ & _ & Hion & _). by apply Hion.
Qed.

(** An accepted badge definition or award is signed by an ION identity
    key. *)
Lemma accepted_badge_signer fuel v rules batch e :
  validate fuel v rules batch e = pass -> Kind e = KindBadgeAward \/ Kind e = KindBadgeDefinition ->
  PubKey e ∈ IONIdentityPublicKeys v.
Proof. apply accepted_badge_signer_spec. Qed.

Lemma check_kind_profile rec v rules batch e :
  Kind e = KindProfileMetadata ->
  check_kind rec v rules batch e = validateKindProfileMetadataEvent v rules batch e.
Proof. intros Hk. unfold check_kind. number_kinds. rewrite Hk. decide_kinds. done. Qed.

(** In an accepted batch whose profile proofs are not skipped, a profile
    that takes a new name comes with a badge definition and an award, both
    signed by ION identity keys, that give the name to the profile's owner. *)
Lemma accepted_profile_name fuel v batch rules e old m :
  Validate fuel v batch rules = pass -> SkipKindProfileProofEventsVerify (Configure no_rules rules) = false ->
  e ∈ batch -> Kind e = KindProfileMetadata -> getEvent v (Address e) = Ok old ->
  json_profile (Content e) = Some m -> ~ keeps_name old e (Name m) ->
  exists def award id, def ∈ batch /\ award ∈ batch /\
    PubKey def ∈ IONIdentityPublicKeys v /\ PubKey award ∈ IONIdentityPublicKeys v /\
    proves_name (definition_identifier def) (Name m) /\
    award_identifier award id /\ proves_name id (Name m) /\
    Value (GetTag award "p") = GetMasterPublicKey e.
Proof.
  unfold Validate. rewrite for_each_Ok, Forall_forall. intros Hall Hskip Hin Hk Hold Hm Hnew.
  destruct (validate_pass _ _ _ _ _ (Hall e Hin)) as (fuel' & -> & _ & Hkind).
  rewrite check_kind_profile in Hkind by done.
  apply (validateKindProfileMetadataEvent_spec _ _ _ _ old) in Hkind as (m' & Hm' & _ & _ & Hname);
    [|done..]. assert (m' = m) as -> by congruence.
  destruct Hname as [|[_ (_ & _ & def & award & id & Hd & Ha & H1 & H2 & H3 & H4)%checkProofOfOwnershipBadges_spec]];
    [done|]. apply find_kind_Some in Hd as [Hd Hdk], Ha as [Ha Hak].
  exists def, award, id. split_and!; try done.
  - apply (accepted_badge_signer_spec _ _ _ _ _ (Hall def Hd)). by right.
  - apply (accepted_badge_signer_spec _ _ _ _ _ (Hall award Ha)). by left.
Qed.

(** A device registration whose content lists the document [null] makes
    the validation panic: its nil event is dereferenced. *)
Lemma registration_null_panics fuel v rules batch e f rest :
  Kind e = CustomIONKindDeviceRegistration -> check_event v rules e = pass ->
  FiltersWithData_UnmarshalJSON gjson_array json_filter json_event_ptr (MkFiltersWithData [] [])
    (Content e) = Ok f ->
  DataOf f = None :: rest ->
  validate (S fuel) v rules batch e = Panic.
Proof.
  intros Hk Hck Hf Hnil. cbn [validate]. unfold validate_body. rewrite Hck, check_kind_registration by done.
  unfold validateKindDeviceRegistration. cbn [mbind outcome_bind]. rewrite Hf. cbn [map_error mbind outcome_bind].
  cbv zeta. by rewrite Hnil.
Qed.

End Theorems.
End Validate.

(** ** Concrete inputs *)
Module ValidateWitness.
Import AsciiText.

(** The documents of the concrete inputs are names of events. *)
Definition note (id : string) : Event := MkEvent None id "aa" 10 1 [] "hello" "00".
Definition documents_of (s : string) : option Event := if s =s? "n1" then Some (note "n1") else None.
#[local] Instance N : Nostr := Reference.nostr documents_of Reference.verify.
#[local] Instance NS : NostrSpec N := Reference.nostr_spec _ _ Reference.verify_total.
#[local] Instance C : Crypto := {|
  sha256_Sum256 s := s; ed25519_sign sk msg := msg;
  ed25519_verify pk msg sig := String.eqb msg sig; ed25519_valid_key sk := True |}.
#[local] Instance R : RichText := {|
  json_delta _ := None; json_delta_Marshal _ := None; json_insert _ := None; json_string _ := None;
  json_string_Marshal s := s; quill_Render _ := None; bluemonday_Sanitize s := s;
  html_UnescapeString s := s; nip19_Decode _ := None |}.
#[local] Instance J : GoJSON := {|
  json_Valid _ := false;
  json_profile s := if s =s? "alice" then Some (MkProfile [] [] "alice" "" "") else None;
  json_strings _ := None; json_ints _ := None; json_event _ := None;
  json_from _ := None; json_to _ := None |}.
#[local] Instance GJ : GoGJSON := {|
  gjson_array s := if s =s? "[null]" then [MkItem "null" (fun _ => false) []] else [];
  json_filter _ := None; json_event_ptr s := if s =s? "null" then Some None else None |}.
#[local] Instance E : Env := {| user := Filters.no_user; now := 100 |}.

Definition v : eventValidator := MkValidator None (fun _ => []) ["aa"].
#[local] Abbreviation validate := (validate (fun _ _ => true) v).

Definition repost : Event := MkEvent None "r1" "bb" 20 6 [["e"; "n1"]; ["p"; "aa"]] "n1" "00".
Definition wrapper : Event := MkEvent None "w1" "bb" 20 21750 [] "n1" "00".
Definition registration : Event :=
  MkEvent None "d1" "bb" 20 31751 [["d"; "x"]; ["t"; "ios"]; ["token"; "t"]; ["relay"; "wss://r"]] "[null]" "00".

Lemma validate_sound_witness :
  checked v no_rules repost /\ Kind repost ≠ KindDirectMessage /\ Kind repost ≠ KindSeal /\
  Kind repost ∉ unsupported_jobs.
Proof.
  apply (validate_sound (fun _ _ => true) v 2 v no_rules [] repost). vm_compute. reflexivity.
Defined.

Lemma accepted_repost_witness :
  exists e', UnmarshalJSON (Content repost) = Some e' /\
    (validate 1 v (repost_rules no_rules) [] e' = pass \/
     exists x, validate 1 v (repost_rules no_rules) [] e' = Err x /\ error_is x ErrPollTTLExpired = true) /\
    CheckID e' = true /\ CheckSignature e' = Ok true /\
    (Kind repost = KindRepost -> Kind e' = KindTextNote) /\
    (Kind repost = KindGenericRepost -> Value (GetTag repost "k") = Strconv.Itoa (Kind e')) /\
    (if IsAddressable e' || IsReplaceable e' then Value (GetTag repost "a") = Address e'
     else Value (GetTag repost "e") = ID e') /\
    Value (GetTag repost "p") = GetMasterPublicKey e'.
Proof.
  apply (accepted_repost (fun _ _ => true) v 1 v no_rules [] repost); [vm_compute; reflexivity|by left].
Defined.

Lemma ephemeral_embedding_witness :
  validate 2 v no_rules [] wrapper = pass <->
  check_event v no_rules wrapper = pass /\ Authoritative user = false /\
  exists e', UnmarshalJSON (Content wrapper) = Some e' /\ validate 1 v (wrapped_rules no_rules) [] e' = pass.
Proof. apply (ephemeral_embedding (fun _ _ => true) v 1 v no_rules [] wrapper). reflexivity. Defined.
Example embedded_note : validate 2 v no_rules [] wrapper = pass.
Proof. vm_compute. reflexivity. Qed.

Definition depth (s : string) : nat := if s =s? "n1" then 1 else 0.
#[local] Instance nesting_depth : Nesting depth.
Proof.
  constructor; [|done|].
  - intros s e d. cbn. unfold documents_of. destruct (String.eqb_spec s "n1") as [->|]; [|done].
    intros [= <-] Hd. cbn in Hd. set_unfold in Hd. destruct Hd as [-> |[-> |[]]]; vm_compute; lia.
  - intros s item e d _ H. cbn in H. by destruct (Raw item =s? "null").
Qed.

Lemma validate_terminates_witness :
  exists r, runs r /\
    forall fuel, (nesting depth repost < fuel)%nat -> validate fuel v no_rules [] repost = r.
Proof. exact (validate_terminates (fun _ _ => true) v depth v no_rules [] repost). Defined.

Definition badge (kind : Z) (tags : Tags) : Event := MkEvent None "b" "aa" 10 kind tags "" "00".
Definition profile : Event := MkEvent None "p1" "bb" 20 0 [] "alice" "00".
Definition signup : list Event :=
  [badge 30009 [["d"; "username_proof_of_ownership~alice"]];
   badge 8 [["a"; "30009:aa:username_proof_of_ownership~alice"]; ["p"; "bb"]]; profile].

Lemma accepted_badge_signer_witness :
  PubKey (badge 30009 [["d"; "vip"]]) ∈ IONIdentityPublicKeys v.
Proof.
  apply (accepted_badge_signer (fun _ _ => true) v 1 v no_rules [] (badge 30009 [["d"; "vip"]]));
    [vm_compute; reflexivity|by right].
Defined.

Lemma accepted_profile_name_witness :
  exists def award id, def ∈ signup /\ award ∈ signup /\
    PubKey def ∈ IONIdentityPublicKeys v /\ PubKey award ∈ IONIdentityPublicKeys v /\
    proves_name (definition_identifier def) "alice" /\
    award_identifier award id /\ proves_name id "alice" /\
    Value (GetTag award "p") = GetMasterPublicKey profile.
Proof.
  apply (accepted_profile_name (fun _ _ => true) v 1 v signup [] profile None (MkProfile [] [] "alice" "" ""));
    [vm_compute; reflexivity|reflexivity|right; right; left|reflexivity..|].
  by intros (o & m & [=] & _).
Defined.

Lemma registration_null_panics_witness : validate 1 v no_rules [] registration = Panic.
Proof.
  apply (registration_null_panics (fun _ _ => true) v 0 v no_rules [] registration
    (MkFiltersWithData [] [None]) []); vm_compute; reflexivity.
Defined.

Lemma Validate_batch_witness :
  let rs := RuleWithSkipDeviceIdentificationProofEventsVerify (Configure no_rules []) in
  (Validate (fun _ _ => true) v 2 v [repost; wrapper] [] = pass <->
     forall e, e ∈ [repost; wrapper] -> validate 2 v rs [repost; wrapper] e = pass) /\
  (forall x, Validate (fun _ _ => true) v 2 v [repost; wrapper] [] = Err x <->
     exists pre e post, [repost; wrapper] = pre ++ e :: post /\
       (forall e', e' ∈ pre -> validate 2 v rs [repost; wrapper] e' = pass) /\
       validate 2 v rs [repost; wrapper] e = Err x).
Proof. exact (Validate_batch (fun _ _ => true) v 2 v [repost; wrapper] []). Defined.
End ValidateWitness.
