(* ===== verification/QueryFilter.v ===== *)
(** * Package query: the search extensions of a filter

    src/database/query/query_where_builder_filter.go (flags, tag markers,
    dependencies, quoted text and ranks in the [search] field of a filter) and
    src/database/query/query_where_dependencies_parser.go (the expressions of
    dependencies).  Offsets are integers and every slice expression panics out
    of range, as in the code; a loop has the length of the search as fuel. *)

From S2P Require Import Prelude GoStd Nostr Model.
Import Strings.

(** ** Strings *)

(** [strings.Index(s, sub)], [sub] not empty; [None] is -1. *)
Definition Index (s sub : string) : option nat := String.index 0 sub s.

(** [strings.LastIndex(s, c)] of one byte. *)
Definition LastIndex (s : string) (c : ascii) : option nat :=
  (fun i => len s - 1 - i)%nat <$> IndexRune (rev_string s) c.

Definition zlen_s (s : string) : Z := Z.of_nat (len s).

(** [s[i:]] and [s[:i]] *)
Definition slice_from (s : string) (i : Z) : outcome string := slice s i (zlen_s s).
Definition slice_to (s : string) (i : Z) : outcome string := slice s 0 i.

(** [s[i]], a byte *)
Definition byte_at (s : string) (i : Z) : outcome ascii :=
  if 0 <=? i then match String.get (Z.to_nat i) s with Some c => Ok c | None => Panic end else Panic.

(** ** The tokenizer (github.com/bzick/tokenizer) *)

(* src: database/query/query_where_dependencies_parser.go 38-58 *)
Inductive token : Set :=
  | tokenSearchExpr | tokenCondDetail | tokenCondInclude
  | tokenLiteralKind | tokenLiteralProfileBadges | tokenLiteralGroup | tokenLiteralContent
  | tokenLiteralReply | tokenLiteralTagQ | tokenLiteralGroupTagDetailP | tokenLiteralDetailTagE
  | tokenLiteralDetailTagP | tokenLiteralDetailExpiration | tokenLiteralPipe
  (* the tokenizer's own *)
  | TokenKeyword | TokenString | TokenUndef.
#[export] Instance token_eq_dec : EqDecision token.
Proof. solve_decision. Defined.

(** The literals given to [DefineTokens]. *)
(* src: database/query/query_where_dependencies_parser.go 67-84 *)
Definition parserTokens (t : token) : list string :=
  match t with
  | tokenSearchExpr => [">"]
  | tokenCondDetail => ["+"]
  | tokenCondInclude => ["@"]
  | tokenLiteralKind => ["kind"]
  | tokenLiteralGroup => ["group"]
  | tokenLiteralContent => ["content"]
  | tokenLiteralProfileBadges => ["profile_badges"]
  | tokenLiteralReply => ["reply"; "root"]
  | tokenLiteralDetailExpiration => ["+expiration"]
  | tokenLiteralDetailTagE => ["+e"]
  | tokenLiteralDetailTagP => ["+p+"]
  | tokenLiteralTagQ => ["q"]
  | tokenLiteralGroupTagDetailP => ["group+p"]
  | _ => []
  end.

(** A stream of tokens as the library presents it. *)
Class Tokenizer := {
  Stream : Type;
  Token : Type;
  ParseString : string -> Stream;
  IsValid : Stream -> bool;
  CurrentToken : Stream -> Token;
  PrevToken : Stream -> Token;
  NextToken : Stream -> Token;
  GoNext : Stream -> Stream;
  IsNextSequence : Stream -> list token -> bool;
  Is : Token -> token -> bool;
  ValueString : Token -> string;
  ValueUnescapedString : Token -> string
}.

Section Stream.
Context `{T : Tokenizer}.
Definition advance (n : nat) (s : Stream) : Stream := Nat.iter n GoNext s.
End Stream.

(** Documented behaviour of the library. *)
Class TokenizerSpec (T : Tokenizer) : Prop := {
  (** a matched sequence is the sequence of the next tokens *)
  next_sequence : forall s ks i k, IsNextSequence s ks = true -> ks !! i = Some k ->
    Is (CurrentToken (advance (S i) s)) k = true;
  (** a token of some key other than undefined is within the stream *)
  token_valid : forall s k, Is (CurrentToken s) k = true -> k ≠ TokenUndef -> IsValid s = true;
  (** the value of a token with defined literals is one of them *)
  token_literal : forall t k, Is t k = true -> parserTokens k ≠ [] -> ValueString t ∈ parserTokens k
}.

(** ** Dependencies *)

(* src: database/query/query_where_dependencies_parser.go 16-20 *)
Record filterDependencyStart : Type := MkStart {
  StartTag : string;
  StartKind : Z;
  ProfileBadges : bool
}.

(* src: database/query/query_where_dependencies_parser.go 22-29 *)
Record filterDependencyReduce : Type := MkReduce {
  Author : string;
  ReduceTag : string;
  RContext : string;
  RKinds : list Z;
  Group : bool;
  RExpiration : bool
}.

(* src: database/query/query_where_dependencies_parser.go 31-35 *)
Record filterDependency : Type := MkDependency {
  Expr : string;
  DStart : filterDependencyStart;
  DReduce : filterDependencyReduce
}.

(* src: database/query/query_where_dependencies_parser.go 288-290 *)
Definition KindIn (s : filterDependencyStart) (kinds : list Z) : bool :=
  bool_decide (StartKind s ∈ kinds).

(* src: database/query/query_where_dependencies_parser.go 86-264 *)
Definition parserKnownSequences : list (list token) := [
  (* kindXXX>kind30008+profile_badges>kind30009>kind8 *)
  [tokenLiteralKind; TokenKeyword; tokenSearchExpr; tokenLiteralKind; TokenKeyword; tokenCondDetail;
   tokenLiteralProfileBadges; tokenSearchExpr; tokenLiteralKind; TokenKeyword; tokenSearchExpr;
   tokenLiteralKind; TokenKeyword; TokenUndef];
  (* kind30008+profile_badges>kind30009>kind8 *)
  [tokenLiteralKind; TokenKeyword; tokenCondDetail; tokenLiteralProfileBadges; tokenSearchExpr;
   tokenLiteralKind; TokenKeyword; tokenSearchExpr; tokenLiteralKind; TokenKeyword; TokenUndef];
  (* kind1+q>kind10002 *)
  [tokenLiteralKind; TokenKeyword; tokenCondDetail; tokenLiteralTagQ; tokenSearchExpr; tokenLiteralKind;
   TokenKeyword; TokenUndef];
  (* kind1>$logged_in_user_pubkey@kind1+e+root/reply *)
  [tokenLiteralKind; TokenKeyword; tokenSearchExpr; TokenKeyword; tokenCondInclude; tokenLiteralKind;
   TokenKeyword; tokenLiteralDetailTagE; tokenCondDetail; tokenLiteralReply; TokenUndef];
  (* kind1>$logged_in_user_pubkey@kind1+q *)
  [tokenLiteralKind; TokenKeyword; tokenSearchExpr; TokenKeyword; tokenCondInclude; tokenLiteralKind;
   TokenKeyword; tokenCondDetail; tokenLiteralTagQ; TokenUndef];
  (* kind1>$logged_in_user_pubkey@kind6 *)
  [tokenLiteralKind; TokenKeyword; tokenSearchExpr; TokenKeyword; tokenCondInclude; tokenLiteralKind;
   TokenKeyword; TokenUndef];
  (* kind1>kind6400+kind1+group+root/reply *)
  [tokenLiteralKind; TokenKeyword; tokenSearchExpr; tokenLiteralKind; TokenKeyword; tokenCondDetail;
   tokenLiteralKind; TokenKeyword; tokenCondDetail; tokenLiteralGroup; tokenCondDetail; tokenLiteralReply;
   TokenUndef];
  (* kind1>kind6400+kind6+group+e *)
  [tokenLiteralKind; TokenKeyword; tokenSearchExpr; tokenLiteralKind; TokenKeyword; tokenCondDetail;
   tokenLiteralKind; TokenKeyword; tokenCondDetail; tokenLiteralGroup; tokenLiteralDetailTagE; TokenUndef];
  (* kind1>kind6400+kind1+group+q *)
  [tokenLiteralKind; TokenKeyword; tokenSearchExpr; tokenLiteralKind; TokenKeyword; tokenCondDetail;
   tokenLiteralKind; TokenKeyword; tokenCondDetail; tokenLiteralGroup; tokenCondDetail; tokenLiteralTagQ;
   TokenUndef];
  (* kind0>kind6400+kind3+group+p *)
  [tokenLiteralKind; TokenKeyword; tokenSearchExpr; tokenLiteralKind; TokenKeyword; tokenCondDetail;
   tokenLiteralKind; TokenKeyword; tokenCondDetail; tokenLiteralGroupTagDetailP; TokenUndef];
  (* kind1>kind6400+kind7+group+content *)
  [tokenLiteralKind; TokenKeyword; tokenSearchExpr; tokenLiteralKind; TokenKeyword; tokenCondDetail;
   tokenLiteralKind; TokenKeyword; tokenCondDetail; tokenLiteralGroup; tokenCondDetail;
   tokenLiteralContent; TokenUndef];
  (* kind1>kind0 *)
  [tokenLiteralKind; TokenKeyword; tokenSearchExpr; tokenLiteralKind; TokenKeyword; TokenUndef];
  (* kind1/30023>kind6400+kind1754+group+content *)
  [tokenLiteralKind; TokenKeyword; tokenSearchExpr; tokenLiteralKind; TokenKeyword; tokenCondDetail;
   tokenLiteralKind; TokenKeyword; tokenCondDetail; tokenLiteralGroup; tokenCondDetail;
   tokenLiteralContent; TokenUndef];
  (* kindXXX>kind6400+kind30175+expiration *)
  [tokenLiteralKind; TokenKeyword; tokenSearchExpr; tokenLiteralKind; TokenKeyword; tokenCondDetail;
   tokenLiteralKind; TokenKeyword; tokenLiteralDetailExpiration; TokenUndef];
  (* kind3>kind0+p+|key1,key2,keyN| *)
  [tokenLiteralKind; TokenKeyword; tokenSearchExpr; tokenLiteralKind; TokenKeyword;
   tokenLiteralDetailTagP; TokenString; TokenUndef]].

Section Dependencies.
Context `{T : Tokenizer}.

(** The variables of the loop of [Parse]. *)
Record parse_state : Type := MkParse {
  PStart : filterDependencyStart;
  PReduce : filterDependencyReduce;
  start : bool;
  stream : Stream
}.

Definition set_start (p : parse_state) (s : filterDependencyStart) : parse_state :=
  MkParse s (PReduce p) (start p) (stream p).
Definition set_reduce (p : parse_state) (r : filterDependencyReduce) : parse_state :=
  MkParse (PStart p) r (start p) (stream p).
Definition set_Author (p : parse_state) (a : string) : parse_state :=
  let r := PReduce p in
  set_reduce p (MkReduce a (ReduceTag r) (RContext r) (RKinds r) (Group r) (RExpiration r)).
Definition set_ReduceTag (p : parse_state) (t : string) : parse_state :=
  let r := PReduce p in
  set_reduce p (MkReduce (Author r) t (RContext r) (RKinds r) (Group r) (RExpiration r)).
Definition set_Context (p : parse_state) (c : string) : parse_state :=
  let r := PReduce p in
  set_reduce p (MkReduce (Author r) (ReduceTag r) c (RKinds r) (Group r) (RExpiration r)).
Definition add_Kind (p : parse_state) (k : Z) : parse_state :=
  let r := PReduce p in
  set_reduce p (MkReduce (Author r) (ReduceTag r) (RContext r) (RKinds r ++ [k]) (Group r) (RExpiration r)).
Definition set_Group (p : parse_state) : parse_state :=
  let r := PReduce p in
  set_reduce p (MkReduce (Author r) (ReduceTag r) (RContext r) (RKinds r) true (RExpiration r)).
Definition set_Expiration (p : parse_state) : parse_state :=
  let r := PReduce p in
  set_reduce p (MkReduce (Author r) (ReduceTag r) (RContext r) (RKinds r) (Group r) true).

(** The switch over the token at the head of the stream. *)
(* src: database/query/query_where_dependencies_parser.go 320-370 [Parse] *)
Definition parse_token (p : parse_state) (tok : token) : outcome parse_state :=
  let current := ValueString (CurrentToken (stream p)) in
  match tok with
  | tokenLiteralContent | tokenLiteralReply => Ok (set_Context p current)
  | tokenLiteralDetailTagE | tokenLiteralTagQ =>
      let! c := byte_at current 0 in
      let! val := if Ascii.eqb c "+" then slice_from current 1 else Ok current in
      Ok (if start p then set_start p (MkStart val (StartKind (PStart p)) (ProfileBadges (PStart p)))
          else set_ReduceTag p val)
  | tokenLiteralGroupTagDetailP => Ok (set_Group (set_ReduceTag p "p"))
  | tokenLiteralGroup => Ok (set_Group p)
  | tokenLiteralDetailExpiration => Ok (set_Expiration p)
  | tokenSearchExpr => Ok (MkParse (PStart p) (PReduce p) false (stream p))
  | TokenString => Ok (set_Author p (ValueUnescapedString (CurrentToken (stream p))))
  | TokenKeyword =>
      Ok (if Is (PrevToken (stream p)) tokenLiteralKind then p else set_Author p current)
  | tokenLiteralProfileBadges =>
      Ok (set_start p (MkStart (StartTag (PStart p)) (StartKind (PStart p)) true))
  | tokenLiteralKind =>
      match Strconv.ParseInt (ValueString (NextToken (stream p))) 64 with
      | None => Err opaque_error
      | Some val =>
          Ok (if start p then set_start p (MkStart (StartTag (PStart p)) val (ProfileBadges (PStart p)))
              else add_Kind p val)
      end
  | _ => Ok p
  end.

(* src: database/query/query_where_dependencies_parser.go 315-373 [Parse] *)
Definition parse_step (p : parse_state) (tok : token) : outcome parse_state :=
  if negb (Is (CurrentToken (stream p)) tok) || negb (IsValid (stream p)) then Panic
  else
    let! p := parse_token p tok in
    Ok (MkParse (PStart p) (PReduce p) (start p) (GoNext (stream p))).

(** [s] is nil when no sequence matched. *)
(* src: database/query/query_where_dependencies_parser.go 302-376 *)
Definition Parse (s : option (list token)) (st : Stream) :
    outcome (filterDependencyStart * filterDependencyReduce) :=
  match s with
  | None => Err opaque_error
  | Some tokens =>
      match last tokens with
      | None => Panic
      | Some l =>
          let tokens := if decide (l = TokenUndef) then removelast tokens else tokens in
          let! p := for_state tokens
            (MkParse (MkStart "" 0 false) (MkReduce "" "" "" [] false false) true st) parse_step in
          Ok (PStart p, PReduce p)
      end
  end.

(** The first known sequence the stream starts with; [seq.Tokens[0]] panics on
    an empty sequence. *)
(* src: database/query/query_where_dependencies_parser.go 386-395 [parseDepRequest] *)
Fixpoint find_sequence (seqs : list (list token)) (st : Stream) : outcome (option (list token)) :=
  match seqs with
  | [] => Ok None
  | [] :: _ => Panic
  | (t :: ts) :: seqs =>
      if Is (CurrentToken st) t && IsNextSequence st ts then Ok (Some (t :: ts))
      else find_sequence seqs st
  end.

(* src: database/query/query_where_dependencies_parser.go 378-405 *)
Definition parseDepRequest (input : string) : outcome filterDependency :=
  let st := ParseString input in
  reject opaque_error when negb (IsValid st) ;;
  let! currentSequence := find_sequence parserKnownSequences st in
  let! (s, r) := Parse currentSequence st in
  Ok (MkDependency input s r).
End Dependencies.

(** ** The search filter *)

(* src: database/query/query_where_builder.go 101-105 *)
Record databaseFilterMarker : Type := MkMarker { MTag : string; Marker : string; Exclude : bool }.

(* src: database/query/query_where_builder.go 31-35 *)
Inductive rank : Set := rankUndef | rankTOP | rankTrending.

(** The optional flags of a search. *)
(* src: database/query/query_where_builder_filter.go 13-23 [parseNostrFilterFlags] *)
Inductive flag : Set := FExpiration | FVideos | FImages | FQuotes | FReferences | FMedia.
#[export] Instance flag_eq_dec : EqDecision flag.
Proof. solve_decision. Defined.

(** The flags are the pointers to booleans of the record. *)
(* src: database/query/query_where_builder.go 79-94 *)
Record databaseFilterSearch : Type := MkSearch {
  Flag : flag -> option bool;
  CurrentUserPubkey : option string;
  FID : string;
  SearchText : string;
  SFilter : Filter;
  TagMarkers : list databaseFilterMarker;
  Dependencies : list filterDependency;
  Extra : list string;
  Rank : rank
}.

Definition FSearch (f : databaseFilterSearch) : string := Search (SFilter f).
Definition with_search (f : databaseFilterSearch) (s : string) : databaseFilterSearch :=
  let m := SFilter f in
  MkSearch (Flag f) (CurrentUserPubkey f) (FID f) (SearchText f)
    (MkFilter (IDs m) (Kinds m) (Authors m) (Addresses m) (FTags m) (Since m) (Until m) (Limit m) s)
    (TagMarkers f) (Dependencies f) (Extra f) (Rank f).
Definition with_flag (f : databaseFilterSearch) (fl : flag) (v : bool) : databaseFilterSearch :=
  MkSearch (fun x => if decide (x = fl) then Some v else Flag f x) (CurrentUserPubkey f) (FID f)
    (SearchText f) (SFilter f) (TagMarkers f) (Dependencies f) (Extra f) (Rank f).
Definition with_text (f : databaseFilterSearch) (t : string) : databaseFilterSearch :=
  MkSearch (Flag f) (CurrentUserPubkey f) (FID f) t (SFilter f) (TagMarkers f) (Dependencies f)
    (Extra f) (Rank f).
Definition add_marker (f : databaseFilterSearch) (m : databaseFilterMarker) : databaseFilterSearch :=
  MkSearch (Flag f) (CurrentUserPubkey f) (FID f) (SearchText f) (SFilter f) (TagMarkers f ++ [m])
    (Dependencies f) (Extra f) (Rank f).
Definition add_dependency (f : databaseFilterSearch) (d : filterDependency) : databaseFilterSearch :=
  MkSearch (Flag f) (CurrentUserPubkey f) (FID f) (SearchText f) (SFilter f) (TagMarkers f)
    (Dependencies f ++ [d]) (Extra f) (Rank f).
Definition with_rank (f : databaseFilterSearch) (r : rank) : databaseFilterSearch :=
  MkSearch (Flag f) (CurrentUserPubkey f) (FID f) (SearchText f) (SFilter f) (TagMarkers f)
    (Dependencies f) (Extra f) r.

(** [&databaseFilterSearch{Filter: filter}] *)
(* src: database/query/query_where_builder_filter.go 155-157 [parseNostrFilter] *)
Definition new_search (filter : Filter) : databaseFilterSearch :=
  MkSearch (fun _ => None) None "" "" filter [] [] [] rankUndef.

(* src: database/query/query_where_builder_filter.go 13-23 [parseNostrFilterFlags] *)
Definition flags : list (string * flag) :=
  [("expiration", FExpiration); ("videos", FVideos); ("images", FImages); ("quotes", FQuotes);
   ("references", FReferences); ("media", FMedia)].

(* src: database/query/query_where_builder_filter.go 38-47 [parseNostrFilterFlags] *)
Definition flag_value (value : string) : option bool :=
  if bool_decide (value ∈ ["true"; "1"; "on"; "yes"]) then Some true
  else if bool_decide (value ∈ ["false"; "0"; "off"; "no"]) then Some false
  else None.

(** The end of the word that starts at [i]: the next space, or the end. *)
(* src: database/query/query_where_builder_filter.go 31-36 [parseNostrFilterFlags] *)
Definition word_end (s : string) (i : Z) : outcome Z :=
  let! rest := slice_from s i in
  Ok (match Index rest " " with None => zlen_s s | Some e => Z.of_nat e + i end).

Section Search.
Context {G : GoText}.

(* src: database/query/query_where_builder_filter.go 25-51 [parseNostrFilterFlags] *)
Definition flag_step (f : databaseFilterSearch) (fl : string * flag) : outcome databaseFilterSearch :=
  let '(name, fl) := fl in
  match Index (ToLower (FSearch f)) (name +:+ ":") with
  | None => Ok f
  | Some i =>
      let flagStart := Z.of_nat i in
      let! flagEnd := word_end (FSearch f) flagStart in
      let! raw := slice (FSearch f) (flagStart + zlen_s name + 1) flagEnd in
      match flag_value (ToLower raw) with
      | None => Ok f
      | Some v =>
          let! before := slice_to (FSearch f) flagStart in
          let! after := slice_from (FSearch f) flagEnd in
          Ok (with_search (with_flag f fl v) (TrimSpace (before +:+ after)))
      end
  end.

(* src: database/query/query_where_builder_filter.go 12-55 *)
Definition parseNostrFilterFlags (f : databaseFilterSearch) : outcome databaseFilterSearch :=
  for_state flags f flag_step.

(* src: database/query/query_where_builder_filter.go 61 [parseNostrFilterTagMarkers] *)
Definition tagMarker : string := "marker:".

(** One iteration: [None] when the loop ends. *)
(* src: database/query/query_where_builder_filter.go 65-92 [parseNostrFilterTagMarkers] *)
Definition marker_step (f : databaseFilterSearch) (offset : Z) :
    outcome (option (databaseFilterSearch * Z)) :=
  let! rest := slice_from (FSearch f) offset in
  match Index rest tagMarker with
  | None => Ok None
  | Some i =>
      let start := Z.of_nat i in
      if start <? 1 then Ok None
      else
        let! after := slice_from (FSearch f) (offset + start + zlen_s tagMarker) in
        let end_ := match Index after " " with
                    | None => zlen_s rest
                    | Some O => 0
                    | Some e => Z.of_nat e + start + zlen_s tagMarker
                    end in
        let! x := slice (FSearch f) (offset + start - 1) (offset + start) in
        if TrimSpace x ≠s? "" then
          let! exclude :=
            if 0 <? offset + start - 1 then
              let! c := byte_at (FSearch f) (offset + start - 2) in Ok (Ascii.eqb c "!")
            else Ok false in
          let! marker := slice (FSearch f) (offset + start + zlen_s tagMarker) (offset + end_) in
          let f' := add_marker f (MkMarker (TrimSpace x) marker exclude) in
          let end_ := if end_ <? zlen_s (FSearch f) then end_ + 1 else end_ in
          let! before := slice_to (FSearch f) (start - 1 - (if exclude then 1 else 0)) in
          let! tail := slice_from (FSearch f) end_ in
          Ok (Some (with_search f' (TrimSpace (before +:+ tail)), offset))
        else Ok (Some (f, offset + start + zlen_s tagMarker))
  end.

(* src: database/query/query_where_builder_filter.go 64-93 [parseNostrFilterTagMarkers] *)
Fixpoint marker_loop (fuel : nat) (f : databaseFilterSearch) (offset : Z) : outcome databaseFilterSearch :=
  match fuel with
  | O => OutOfFuel
  | S fuel =>
      let! r := marker_step f offset in
      match r with
      | None => Ok f
      | Some (f, offset) => marker_loop fuel f offset
      end
  end.

(* src: database/query/query_where_builder_filter.go 57-95 *)
Definition parseNostrFilterTagMarkers (f : databaseFilterSearch) : outcome databaseFilterSearch :=
  marker_loop (S (len (FSearch f))) f 0.

Context `{T : Tokenizer}.

(* src: database/query/query_where_builder_filter.go 98 [parseNostrFilterDependencies] *)
Definition dependenciesPrefix : string := "include:dependencies:".

(* src: database/query/query_where_builder_filter.go 99-117 [parseNostrFilterDependencies] *)
Fixpoint dependency_loop (fuel : nat) (f : databaseFilterSearch) : outcome databaseFilterSearch :=
  match fuel with
  | O => OutOfFuel
  | S fuel =>
      match Index (FSearch f) dependenciesPrefix with
      | None => Ok f
      | Some i =>
          let depStrStart := Z.of_nat i in
          let! depStrEnd := word_end (FSearch f) depStrStart in
          let! expr := slice (FSearch f) (depStrStart + zlen_s dependenciesPrefix) depStrEnd in
          let! dep := parseDepRequest expr in
          let! before := slice_to (FSearch f) depStrStart in
          let! after := slice_from (FSearch f) depStrEnd in
          dependency_loop fuel (with_search (add_dependency f dep) (TrimSpace (before +:+ after)))
      end
  end.

(* src: database/query/query_where_builder_filter.go 97-118 *)
Definition parseNostrFilterDependencies (f : databaseFilterSearch) : outcome databaseFilterSearch :=
  dependency_loop (S (len (FSearch f))) f.

(** [strconv.Unquote]; [None] is an error *)
Context (Unquote : string -> option string).

(* src: database/query/query_where_builder_filter.go 120-134 *)
Definition parseNostrFilterText (f : databaseFilterSearch) : outcome databaseFilterSearch :=
  match IndexRune (FSearch f) (ascii_of_nat 34), LastIndex (FSearch f) (ascii_of_nat 34) with
  | Some quoteStart, Some quoteEnd =>
      if (quoteStart <? quoteEnd)%nat then
        let! raw := slice (FSearch f) (Z.of_nat quoteStart + 1) (Z.of_nat quoteEnd) in
        let s := default raw (Unquote raw) in
        let! before := slice_to (FSearch f) (Z.of_nat quoteStart) in
        let! after := slice_from (FSearch f) (Z.of_nat quoteEnd + 1) in
        Ok (with_search (with_text f (TrimSpace s)) (TrimSpace (before +:+ after)))
      else Ok f
  | _, _ => Ok f
  end.

(* src: database/query/query_where_builder_filter.go 139-150 [parseRank] *)
Definition rank_step (f : databaseFilterSearch) (r : string * rank) : outcome databaseFilterSearch :=
  match Index (FSearch f) r.1 with
  | None => Ok f
  | Some i =>
      let! before := slice_to (FSearch f) (Z.of_nat i) in
      let! after := slice_from (FSearch f) (Z.of_nat i + zlen_s r.1) in
      Ok (with_search (with_rank f r.2) (TrimSpace (before +:+ after)))
  end.

(* src: database/query/query_where_builder_filter.go 136-152 *)
Definition parseRank (f : databaseFilterSearch) : outcome databaseFilterSearch :=
  for_state [("top", rankTOP); ("trending", rankTrending)] (with_rank f rankUndef) rank_step.

(* src: database/query/query_where_builder_filter.go 154-170 *)
Definition parseNostrFilter (filter : Filter) : outcome databaseFilterSearch :=
  let! f := parseNostrFilterText (new_search filter) in
  let! f := parseNostrFilterFlags f in
  let! f := parseNostrFilterTagMarkers f in
  let! f := parseNostrFilterDependencies f in
  let! f := parseRank f in
  Ok (with_search f (TrimSpace (FSearch f))).
End Search.

(** ** Strings: positions and slices *)

Lemma Index_spec s sub i :
  sub ≠ "" -> Index s sub = Some i -> exists pre post, s = pre +:+ sub +:+ post /\ len pre = i.
Proof.
  intros Hne. unfold Index. revert i. induction s as [|c s IH]; intros i; [by destruct sub|].
  change (String.index 0 sub (String c s)) with
    (if String.prefix sub (String c s) then Some 0%nat else
       match String.index 0 sub s with Some n => Some (S n) | None => None end).
  destruct (String.prefix sub (String c s)) eqn:Hp.
  - intros [= <-]. destruct (proj1 (HasPrefix_spec _ _) Hp) as [post ->]. by exists "", post.
  - destruct (String.index 0 sub s) as [n|]; [|done]. intros [= <-].
    destruct (IH n eq_refl) as (pre & post & -> & Hl). exists (String c pre), post.
    split; [done|]. cbn. by rewrite Hl.
Qed.

Lemma slice_from_app a b i : i = zlen_s a -> slice_from (a +:+ b) i = Ok b.
Proof.
  intros ->. unfold slice_from. rewrite <- (app_nil_r b) at 1. apply slice_app; [done|].
  unfold zlen_s. rewrite len_app. lia.
Qed.

Lemma slice_to_app a b i : i = zlen_s a -> slice_to (a +:+ b) i = Ok a.
Proof. intros ->. by apply (slice_app "" a b). Qed.

Lemma slice_Ok s i j t : slice s i j = Ok t -> 0 <= i <= j /\ j <= zlen_s s /\ zlen_s t = j - i.
Proof.
  unfold slice, zlen_s. destruct (_ && _) eqn:H; [|done]. intros [= <-].
  rewrite len_take, len_drop. lia.
Qed.

Lemma slice_in s i j : 0 <= i <= j -> j <= zlen_s s -> exists t, slice s i j = Ok t /\ zlen_s t = j - i.
Proof.
  intros Hi Hj. assert (exists t, slice s i j = Ok t) as [t Ht].
  { unfold slice, zlen_s in *. replace (_ && _) with true by lia. by eexists. }
  exists t. split; [done|]. apply slice_Ok in Ht. lia.
Qed.

Lemma slice_runs s i j : runs (slice s i j).
Proof. unfold slice. by destruct (_ && _). Qed.
Lemma slice_from_runs s i : runs (slice_from s i). Proof. apply slice_runs. Qed.
Lemma slice_to_runs s i : runs (slice_to s i). Proof. apply slice_runs. Qed.
Lemma byte_at_runs s i : runs (byte_at s i).
Proof. unfold byte_at. destruct (0 <=? i); [|done]. by destruct (String.get _ _). Qed.
Lemma word_end_runs s i : runs (word_end s i).
Proof. unfold word_end. apply runs_bind; [apply slice_from_runs|done]. Qed.
#[export] Hint Resolve slice_runs slice_from_runs slice_to_runs byte_at_runs word_end_runs : runs.

Lemma trim_left_len fuel encs s : (len (trim_left fuel encs s) <= len s)%nat.
Proof.
  revert s. induction fuel as [|fuel IH]; intros s; cbn; [lia|].
  destruct (strip_space encs s) as [s'|] eqn:Hs; [|lia]. rewrite IH. clear IH. revert Hs.
  induction encs as [|e encs IH]; cbn; [done|]. destruct (HasPrefix s e); [|done].
  intros [= <-]. rewrite len_drop. lia.
Qed.

Lemma len_rev_string s : len (rev_string s) = len s.
Proof.
  assert (forall l, len (String.string_of_list_ascii l) = length l) as Hl
    by (induction l; cbn; congruence).
  assert (length (String.list_ascii_of_string s) = len s) as Hs by (induction s; cbn; congruence).
  unfold rev_string. by rewrite Hl, length_reverse, Hs.
Qed.

Lemma TrimSpace_len s : zlen_s (TrimSpace s) <= zlen_s s.
Proof.
  unfold TrimSpace, zlen_s. rewrite len_rev_string.
  set (l := trim_left (len s) _ s). pose proof (trim_left_len (len s) space_encodings s). fold l in H.
  pose proof (trim_left_len (len l) (rev_string <$> space_encodings) (rev_string l)).
  rewrite len_rev_string in H0. lia.
Qed.

(** A search from which the part between [i] and [j] is cut is shorter. *)
Lemma cut_len s i j before after :
  slice_to s i = Ok before -> slice_from s j = Ok after -> i < j ->
  zlen_s (TrimSpace (before +:+ after)) < zlen_s s.
Proof.
  intros (_ & _ & Hb)%slice_Ok (_ & _ & Ha)%slice_Ok Hij.
  pose proof (TrimSpace_len (before +:+ after)) as Ht. unfold zlen_s in *. rewrite len_app in Ht. lia.
Qed.

Lemma Index_bound s sub i : sub ≠ "" -> Index s sub = Some i -> Z.of_nat i + zlen_s sub <= zlen_s s.
Proof.
  intros Hne (pre & post & -> & <-)%Index_spec; [|done]. unfold zlen_s. rewrite !len_app. lia.
Qed.

(** ** Termination *)

Section Termination.
Context {G : GoText} `{T : Tokenizer}.

Lemma marker_step_decreases f offset f' offset' :
  marker_step f offset = Ok (Some (f', offset')) ->
  zlen_s (FSearch f') - offset' < zlen_s (FSearch f) - offset.
Proof.
  unfold marker_step. intros (rest & Hrest & H)%bind_Ok. cbv zeta in H.
  destruct (Index rest tagMarker) as [i|] eqn:Hi; [|done].
  destruct (Z.ltb_spec (Z.of_nat i) 1); [done|].
  apply bind_Ok in H as (after & Hafter & H). apply bind_Ok in H as (x & Hx & H).
  destruct (TrimSpace x ≠s? ""); [|injection H as <- <-; unfold zlen_s, tagMarker; cbn; lia].
  apply bind_Ok in H as (exclude & _ & H). apply bind_Ok in H as (marker & Hmarker & H).
  apply bind_Ok in H as (before & Hb & H). apply bind_Ok in H as (tail & Ht & H).
  injection H as <- <-. apply slice_Ok in Hmarker as (Hlo & _ & _).
  assert (zlen_s tagMarker = 7) as Hm by done. rewrite Hm in *.
  change (FSearch (with_search ?g ?s)) with s. enough (zlen_s (TrimSpace (before +:+ tail)) < zlen_s (FSearch f)) by lia.
  eapply cut_len; [exact Hb|exact Ht|]. destruct exclude, (_ <? zlen_s (FSearch f)); lia.
Qed.

Lemma marker_step_runs f offset : runs (marker_step f offset).
Proof. unfold marker_step. solve_runs. Qed.

(** An iteration needs a marker after the offset. *)
Lemma marker_step_pos f offset r : marker_step f offset = Ok (Some r) -> 1 <= zlen_s (FSearch f) - offset.
Proof.
  unfold marker_step. intros (rest & Hrest & H)%bind_Ok. cbv zeta in H.
  destruct (Index rest tagMarker) as [i|] eqn:Hi; [|done].
  apply Index_bound in Hi; [|done]. apply slice_Ok in Hrest as (_ & _ & Hl).
  assert (zlen_s tagMarker = 7) as Hm by done. lia.
Qed.

Lemma marker_loop_runs fuel f offset :
  (0 < fuel)%nat -> zlen_s (FSearch f) - offset < Z.of_nat fuel -> runs (marker_loop fuel f offset).
Proof.
  revert f offset. induction fuel as [|fuel IH]; intros f offset Hpos Hf; [lia|].
  cbn [marker_loop]. destruct (marker_step f offset) as [[[f' offset']|]|e| |] eqn:Hs; cbn; try done.
  - pose proof (marker_step_pos _ _ _ Hs). pose proof (marker_step_decreases _ _ _ _ Hs). apply IH; lia.
  - by apply marker_step_runs in Hs.
Qed.

Lemma parseNostrFilterTagMarkers_runs f : runs (parseNostrFilterTagMarkers f).
Proof. apply marker_loop_runs; unfold zlen_s; lia. Qed.

Lemma Parse_runs s st : runs (Parse s st).
Proof.
  unfold Parse, parse_step, parse_token. solve_runs.
Qed.
Hint Resolve Parse_runs : runs.

Lemma find_sequence_runs seqs st : runs (find_sequence seqs st).
Proof. induction seqs as [|[|t ts] seqs IH]; cbn; [done..|]. by destruct (_ && _). Qed.
Hint Resolve find_sequence_runs : runs.

Lemma parseDepRequest_runs s : runs (parseDepRequest s).
Proof. unfold parseDepRequest. solve_runs. Qed.

Lemma dependency_loop_runs fuel f : zlen_s (FSearch f) < Z.of_nat fuel -> runs (dependency_loop fuel f).
Proof.
  revert f. induction fuel as [|fuel IH]; intros f Hf; [unfold zlen_s in Hf; lia|].
  cbn [dependency_loop]. destruct (Index (FSearch f) dependenciesPrefix) as [i|] eqn:Hi; [|done].
  apply runs_bind_Ok; [apply word_end_runs|]. intros depStrEnd _.
  apply runs_bind_Ok; [apply slice_runs|]. intros expr Hexpr.
  apply runs_bind_Ok; [apply parseDepRequest_runs|]. intros dep _.
  apply runs_bind_Ok; [apply slice_to_runs|]. intros before Hb.
  apply runs_bind_Ok; [apply slice_from_runs|]. intros after Ha.
  apply IH. change (FSearch (with_search ?g ?s)) with s. apply slice_Ok in Hexpr as (Hlo & _ & _).
  pose proof (cut_len _ _ _ _ _ Hb Ha). assert (zlen_s dependenciesPrefix = 21) as Hl by done. lia.
Qed.

Lemma parseNostrFilter_runs unquote filter : runs (parseNostrFilter unquote filter).
Proof.
  unfold parseNostrFilter. apply runs_bind; [unfold parseNostrFilterText; solve_runs|]. intros f1.
  apply runs_bind; [apply runs_for_state; intros ? [? ?]; unfold flag_step; solve_runs|]. intros f2.
  apply runs_bind; [apply parseNostrFilterTagMarkers_runs|]. intros f3.
  apply runs_bind; [apply dependency_loop_runs; unfold zlen_s; lia|]. intros f4.
  apply runs_bind; [apply runs_for_state; intros ? ?; unfold rank_step; solve_runs|]. done.
Qed.
End Termination.

(** ** The expressions of dependencies *)

(** The kinds to the right of the first [>]. *)
Fixpoint reduce_kinds (start : bool) (ts : list token) : nat :=
  match ts with
  | [] => 0
  | tokenSearchExpr :: ts => reduce_kinds false ts
  | tokenLiteralKind :: ts => if start then reduce_kinds start ts else S (reduce_kinds start ts)
  | _ :: ts => reduce_kinds start ts
  end%nat.

(** What every dependency the parser returns satisfies: only the author is free text. *)
Record restricted (s : filterDependencyStart) (r : filterDependencyReduce) : Prop := {
  rd_start_tag : StartTag s ∈ ["q"; "e"; ""];
  rd_start_kind : is_int64 (StartKind s);
  rd_tag : ReduceTag r ∈ ["q"; "e"; "p"; ""];
  rd_context : RContext r ∈ ["content"; "reply"; "root"; ""];
  rd_kinds : Forall is_int64 (RKinds r)
}.

Definition well_formed_sequence (ts : list token) : Prop :=
  last ts = Some TokenUndef /\ Forall (.≠ TokenUndef) (removelast ts) /\
  (1 <= reduce_kinds true (removelast ts) <= 3)%nat.

Lemma known_sequences : Forall well_formed_sequence parserKnownSequences.
Proof.
  unfold parserKnownSequences, well_formed_sequence.
  repeat (constructor; [split; [reflexivity|]; split; [by repeat constructor|cbn; lia]|]). constructor.
Qed.

Section DependencySpec.
Context `{TS : TokenizerSpec}.

Lemma literal_value t k l : Is t k = true -> parserTokens k = l -> l ≠ [] -> ValueString t ∈ l.
Proof. intros H <- Hne. by apply token_literal. Qed.

Lemma ParseInt_int64 s n : Strconv.ParseInt s 64 = Some n -> is_int64 n.
Proof. intros H%Strconv.ParseInt_range. unfold is_int64, min_int64, max_int64. cbn in H. lia. Qed.

Lemma parse_token_spec p tok :
  Is (CurrentToken (stream p)) tok = true -> restricted (PStart p) (PReduce p) ->
  match parse_token p tok with
  | Ok p' => restricted (PStart p') (PReduce p') /\ stream p' = stream p /\
      (forall ts, length (RKinds (PReduce p')) + reduce_kinds (start p') ts =
                  length (RKinds (PReduce p)) + reduce_kinds (start p) (tok :: ts))%nat
  | Err x => chain x = []
  | Panic | OutOfFuel => False
  end.
Proof.
  intros His Hr. pose proof Hr as [H1 H2 H3 H4 H5].
  assert (Hval : forall l, parserTokens tok = l -> l ≠ [] -> ValueString (CurrentToken (stream p)) ∈ l).
  { intros l Hl Hne. by apply (literal_value _ tok). }
  destruct (start p) eqn:Hst; destruct tok; cbn -[Strconv.ParseInt]; rewrite ?Hst;
    try (specialize (Hval _ eq_refl ltac:(done)); set_unfold in Hval; destruct_or? Hval; try done;
         rewrite ?Hval; cbn -[Strconv.ParseInt]; rewrite ?Hst);
    try (destruct (Strconv.ParseInt _ 64) as [k|] eqn:Hk; [apply ParseInt_int64 in Hk; cbn|done]);
    try (destruct (Is (PrevToken _) _));
    (split_and!; [|done|intros ts; cbn; rewrite ?Hst, ?length_app; cbn; lia]);
    constructor; cbn; try done; solve [apply Forall_app; by auto|set_unfold; tauto].
Qed.

Lemma parse_tokens_spec ts p :
  (forall i k, ts !! i = Some k -> Is (CurrentToken (advance i (stream p))) k = true /\ k ≠ TokenUndef) ->
  restricted (PStart p) (PReduce p) ->
  match for_state ts p parse_step with
  | Ok p' => restricted (PStart p') (PReduce p') /\
      (length (RKinds (PReduce p')) = length (RKinds (PReduce p)) + reduce_kinds (start p) ts)%nat
  | Err x => chain x = []
  | Panic | OutOfFuel => False
  end.
Proof.
  revert p. induction ts as [|tok ts IH]; intros p Hts Hr; cbn [for_state].
  { split; [done|]. cbn. lia. }
  destruct (Hts 0%nat tok eq_refl) as [His Hne]. cbn in His.
  assert (parse_step p tok = (let! p := parse_token p tok in
    Ok (MkParse (PStart p) (PReduce p) (start p) (GoNext (stream p))))) as ->
    by (unfold parse_step; by rewrite His, (token_valid _ _ His Hne)).
  pose proof (parse_token_spec p tok His Hr) as Hstep.
  destruct (parse_token p tok) as [p'|x| |]; cbn; [|done..]. destruct Hstep as (Hr' & Hst & Hk).
  assert (IHp := IH (MkParse (PStart p') (PReduce p') (start p') (GoNext (stream p')))). cbn in IHp.
  ospecialize* IHp; [|done|].
  { intros i k Hi. rewrite Hst. destruct (Hts (S i) k Hi) as [H1 H2]. split; [|done].
    unfold advance in *. by rewrite Nat.iter_succ_r in H1. }
  destruct (for_state ts _ parse_step) as [p''|x| |]; try done. destruct IHp as [IH1 IH2].
  split; [done|]. rewrite IH2. apply (Hk ts).
Qed.

Lemma find_sequence_spec seqs st :
  Forall (.≠ []) seqs ->
  exists r, find_sequence seqs st = Ok r /\
    forall seq, r = Some seq -> seq ∈ seqs /\
      (forall i k, removelast seq !! i = Some k -> Is (CurrentToken (advance i st)) k = true).
Proof.
  induction 1 as [|[|t ts] seqs Hne _ IH]; cbn [find_sequence]; [by exists None|done|].
  destruct (Is (CurrentToken st) t && IsNextSequence st ts) eqn:Hm.
  - eexists. split; [done|]. intros seq [= <-]. split; [by left|].
    apply andb_true_iff in Hm as [H0 Hn]. intros i k Hi.
    assert ((t :: ts) !! i = Some k) as Hi'.
    { rewrite (List.removelast_firstn_len (t :: ts)) in Hi. apply lookup_take_Some in Hi as [Hi _]. done. }
    destruct i as [|i]; cbn in Hi'; [by simplify_eq|]. by apply (next_sequence st ts).
  - destruct IH as (r & -> & Hr). eexists. split; [done|]. intros seq Hs. destruct (Hr seq Hs).
    split; [by right|done].
Qed.

Lemma parseDepRequest_spec input :
  match parseDepRequest input with
  | Ok d => Expr d = input /\ restricted (DStart d) (DReduce d) /\ (1 <= length (RKinds (DReduce d)) <= 3)%nat
  | Err x => chain x = []
  | Panic | OutOfFuel => False
  end.
Proof.
  unfold parseDepRequest. destruct (IsValid _); cbn [negb]; [|done].
  destruct (find_sequence_spec parserKnownSequences (ParseString input)) as (r & -> & Hr).
  { unfold parserKnownSequences. by repeat constructor. }
  cbn [mbind outcome_bind]. unfold Parse. destruct r as [seq|]; [|done].
  destruct (Hr seq eq_refl) as [Hin His]. pose proof known_sequences as Hk. rewrite Forall_forall in Hk.
  destruct (Hk seq Hin) as (Hlast & Hund & Hcount). rewrite Hlast, decide_True by done.
  pose proof (parse_tokens_spec (removelast seq)
    (MkParse (MkStart "" 0 false) (MkReduce "" "" "" [] false false) true (ParseString input))) as Hp.
  cbn in Hp. ospecialize* Hp.
  { intros i k Hi. split; [by apply His|]. rewrite Forall_forall in Hund. apply Hund. by eapply list_elem_of_lookup_2. }
  { constructor; cbn; unfold is_int64, min_int64, max_int64; try lia; try done; set_unfold; tauto. }
  destruct (for_state _ _ _) as [p|x| |]; cbn; try done. destruct Hp as [Hp1 Hp2]. split_and!; [done|done|lia..].
Qed.
End DependencySpec.

(** ** ASCII searches *)

Definition is_ascii (s : string) : Prop := forall c, in_string c s = true -> (nat_of_ascii c < 128)%nat.

(** Lower-casing ASCII text, as documented. *)
Class LowerSpec `{GoText} : Prop := {
  ToLower_ascii : forall s, is_ascii s -> ToLower s = AsciiText.to_lower s
}.

Lemma is_ascii_app a b : is_ascii (a +:+ b) <-> is_ascii a /\ is_ascii b.
Proof.
  unfold is_ascii. setoid_rewrite in_string_app. setoid_rewrite orb_true_iff. split; [|naive_solver].
  intros H. split; auto.
Qed.

Lemma in_string_take c n s : in_string c (take n s) = true -> in_string c s = true.
Proof. rewrite <- (take_drop n s) at 2. rewrite in_string_app. intros ->. done. Qed.
Lemma in_string_drop c n s : in_string c (drop n s) = true -> in_string c s = true.
Proof. rewrite <- (take_drop n s) at 2. rewrite in_string_app. intros ->. apply orb_true_r. Qed.

Lemma in_string_list c s : in_string c s = true <-> c ∈ String.list_ascii_of_string s.
Proof.
  induction s as [|d s IH]; cbn; [by rewrite elem_of_nil|].
  rewrite orb_true_iff, Ascii.eqb_eq, elem_of_cons, IH. done.
Qed.

Lemma in_string_rev c s : in_string c (rev_string s) = true <-> in_string c s = true.
Proof.
  unfold rev_string. rewrite !in_string_list, String.list_ascii_of_string_of_list_ascii.
  apply elem_of_reverse.
Qed.

Lemma in_string_trim_left c fuel encs s : in_string c (trim_left fuel encs s) = true -> in_string c s = true.
Proof.
  revert s. induction fuel as [|fuel IH]; intros s; cbn; [done|].
  destruct (strip_space encs s) as [s'|] eqn:Hs; [|done]. intros Hin%IH. revert Hs Hin. clear IH.
  induction encs as [|e encs IH]; cbn; [done|]. destruct (HasPrefix s e); [|done].
  intros [= <-]. apply in_string_drop.
Qed.

Lemma is_ascii_TrimSpace s : is_ascii s -> is_ascii (TrimSpace s).
Proof.
  intros Hs c. unfold TrimSpace. rewrite in_string_rev. intros H%in_string_trim_left.
  rewrite in_string_rev in H. by apply in_string_trim_left, Hs in H.
Qed.

Lemma is_ascii_slice s i j t : is_ascii s -> slice s i j = Ok t -> is_ascii t.
Proof.
  unfold slice. destruct (_ && _); [|done]. intros Hs [= <-] c H%in_string_take%in_string_drop. auto.
Qed.

Lemma is_ascii_cut s i j before after :
  is_ascii s -> slice_to s i = Ok before -> slice_from s j = Ok after -> is_ascii (TrimSpace (before +:+ after)).
Proof.
  intros Hs Hb Ha. apply is_ascii_TrimSpace, is_ascii_app.
  split; [exact (is_ascii_slice _ _ _ _ Hs Hb)|exact (is_ascii_slice _ _ _ _ Hs Ha)].
Qed.

Lemma to_lower_app a b : AsciiText.to_lower (a +:+ b) = AsciiText.to_lower a +:+ AsciiText.to_lower b.
Proof. induction a; cbn; congruence. Qed.
Lemma to_lower_take n s : AsciiText.to_lower (take n s) = take n (AsciiText.to_lower s).
Proof. revert s. induction n; intros []; cbn; congruence. Qed.
Lemma to_lower_drop n s : AsciiText.to_lower (drop n s) = drop n (AsciiText.to_lower s).
Proof. revert s. induction n; intros []; cbn; auto. Qed.
Lemma len_to_lower s : len (AsciiText.to_lower s) = len s.
Proof. induction s; cbn; congruence. Qed.

Lemma to_lower_space s : in_string " " (AsciiText.to_lower s) = in_string " " s.
Proof.
  induction s as [|c s IH]; cbn; [done|]. rewrite IH. f_equal. clear.
  by destruct c as [[] [] [] [] [] [] [] []].
Qed.

(** The word starting with [b], which has no space, ends after [b]. *)
Lemma word_end_spec a b c :
  in_string " " b = false ->
  exists e, word_end (a +:+ b +:+ c) (zlen_s a) = Ok e /\ zlen_s a + zlen_s b <= e <= zlen_s (a +:+ b +:+ c).
Proof.
  intros Hb. unfold word_end. rewrite slice_from_app by done. cbn [mbind outcome_bind].
  destruct (Index (b +:+ c) " ") as [i|] eqn:Hi; eexists; (split; [done|]).
  - apply Index_spec in Hi as (pre & post & Heq & <-); [|done].
    assert (len b <= len pre)%nat as Hle.
    { destruct (Nat.le_gt_cases (len b) (len pre)); [done|]. exfalso.
      assert (b = pre +:+ drop (len pre) b) as Hpre.
      { rewrite <- (take_drop (len pre) b) at 1. f_equal.
        apply (f_equal (take (len pre))) in Heq. rewrite take_app in Heq. rewrite <- Heq. clear -H.
        revert pre H. induction b as [|x b IH]; intros [|y pre] H; cbn in *; try done; try lia.
        f_equal. apply IH. lia. }
      rewrite Hpre, app_assoc in Heq. apply app_inj_l in Heq.
      destruct (drop (len pre) b) as [|d rest] eqn:Hd.
      - rewrite app_nil_r in Hpre. apply (f_equal len) in Hpre. lia.
      - cbn in Heq. injection Heq as -> _. rewrite Hpre, in_string_app in Hb. cbn in Hb. by rewrite orb_true_r in Hb. }
    apply (f_equal len) in Heq. unfold zlen_s. rewrite !len_app in *. cbn in Heq. lia.
  - unfold zlen_s. rewrite !len_app. lia.
Qed.

Section Panics.
Context {G : GoText} `{T : Tokenizer}.

Lemma flag_step_ascii `{!LowerSpec} f fl :
  fl ∈ flags -> is_ascii (FSearch f) -> exists f', flag_step f fl = Ok f' /\ is_ascii (FSearch f').
Proof.
  intros Hfl Hs. destruct fl as [name fl]. unfold flag_step. rewrite ToLower_ascii by done.
  assert (in_string " " (name +:+ ":") = false /\ name +:+ ":" ≠ "") as [Hsp Hne].
  { unfold flags in Hfl. set_unfold in Hfl. destruct_or! Hfl; simplify_eq; done. }
  destruct (Index (AsciiText.to_lower (FSearch f)) (name +:+ ":")) as [i|] eqn:Hi; [|by eexists].
  apply Index_spec in Hi as (pre & post & Heq & <-); [|done].
  set (s := FSearch f) in *. set (b := take (len (name +:+ ":")) (drop (len pre) s)).
  assert (Hb : AsciiText.to_lower b = name +:+ ":").
  { unfold b. by rewrite to_lower_take, to_lower_drop, Heq, drop_app, take_app. }
  assert (Hsplit : s = take (len pre) s +:+ b +:+ drop (len (name +:+ ":")) (drop (len pre) s)).
  { unfold b. by rewrite !take_drop. }
  assert (Hpl : len (take (len pre) s) = len pre).
  { rewrite len_take. rewrite <- (len_to_lower s), Heq, len_app. lia. }
  destruct (word_end_spec (take (len pre) s) b (drop (len (name +:+ ":")) (drop (len pre) s))) as (e & He & Hbnd).
  { by rewrite <- to_lower_space, Hb. }
  rewrite <- Hsplit in He, Hbnd. unfold zlen_s in He at 1. rewrite Hpl in He. cbv zeta. rewrite He. cbn [mbind outcome_bind].
  assert (zlen_s b = zlen_s name + 1) as Hbl.
  { unfold zlen_s. rewrite <- (len_to_lower b), Hb, len_app. cbn. lia. }
  unfold zlen_s in Hbnd at 1. rewrite Hpl, Hbl in Hbnd.
  destruct (slice_in s (Z.of_nat (len pre) + zlen_s name + 1) e) as (raw & -> & _); [unfold zlen_s in *; lia..|].
  cbn [mbind outcome_bind]. destruct (flag_value _); [|by eexists].
  destruct (slice_in s 0 (Z.of_nat (len pre))) as (before & Hbe & _); [lia|unfold zlen_s in *; lia|].
  destruct (slice_in s e (zlen_s s)) as (after & Haf & _); [unfold zlen_s in *; lia..|].
  unfold slice_to, slice_from. rewrite Hbe, Haf. cbn [mbind outcome_bind]. eexists. split; [done|].
  exact (is_ascii_cut s _ e before after Hs Hbe Haf).
Qed.

Lemma parseNostrFilterFlags_ascii `{!LowerSpec} f :
  is_ascii (FSearch f) -> exists f', parseNostrFilterFlags f = Ok f' /\ is_ascii (FSearch f').
Proof.
  unfold parseNostrFilterFlags. enough (forall l, Forall (.∈ flags) l -> forall f, is_ascii (FSearch f) ->
    exists f', for_state l f flag_step = Ok f' /\ is_ascii (FSearch f')) as Hgen.
  { apply Hgen. by apply Forall_forall. }
  clear f. induction 1 as [|fl l Hfl _ IH]; intros f Hs; cbn [for_state]; [by eexists|].
  destruct (flag_step_ascii f fl Hfl Hs) as (f' & -> & Hs'). by apply IH.
Qed.

Lemma cut_in s i j :
  0 <= i -> i <= zlen_s s -> 0 <= j -> j <= zlen_s s ->
  exists before after, slice_to s i = Ok before /\ slice_from s j = Ok after.
Proof.
  intros. destruct (slice_in s 0 i) as (before & Hb & _); [lia..|].
  destruct (slice_in s j (zlen_s s)) as (after & Ha & _); [lia..|]. by exists before, after.
Qed.

Lemma IndexRune_bound s c i : IndexRune s c = Some i -> (i < len s)%nat.
Proof.
  intros [H _]%IndexRune_spec. apply (f_equal len) in H. rewrite len_app, len_take in H. cbn in H. lia.
Qed.

Lemma parseNostrFilterText_ascii unquote f :
  is_ascii (FSearch f) -> exists f', parseNostrFilterText unquote f = Ok f' /\ is_ascii (FSearch f').
Proof.
  intros Hs. unfold parseNostrFilterText.
  destruct (IndexRune (FSearch f) _) as [i|] eqn:Hi; [|by eexists].
  destruct (LastIndex (FSearch f) _) as [j|] eqn:Hj; [|by eexists].
  destruct (Nat.ltb_spec i j); [|by eexists]. apply IndexRune_bound in Hi.
  unfold LastIndex in Hj. apply fmap_Some in Hj as (k & Hk%IndexRune_bound & ->). rewrite len_rev_string in Hk.
  destruct (slice_in (FSearch f) (Z.of_nat i + 1) (Z.of_nat (len (FSearch f) - 1 - k))) as (raw & -> & _);
    [lia|unfold zlen_s; lia|]. cbn [mbind outcome_bind].
  destruct (cut_in (FSearch f) (Z.of_nat i) (Z.of_nat (len (FSearch f) - 1 - k) + 1)) as (b & a & Hb & Ha);
    [unfold zlen_s; lia..|]. rewrite Hb, Ha. cbn [mbind outcome_bind]. eexists. split; [done|].
  exact (is_ascii_cut _ _ _ _ _ Hs Hb Ha).
Qed.

Lemma dependency_loop_total `{!TokenizerSpec T} fuel f : dependency_loop fuel f ≠ Panic.
Proof.
  revert f. induction fuel as [|fuel IH]; intros f; cbn [dependency_loop]; [done|].
  destruct (Index (FSearch f) dependenciesPrefix) as [i|] eqn:Hi; [|done].
  pose proof Hi as (pre & post & Heq & <-)%Index_spec; [|done].
  destruct (word_end_spec pre dependenciesPrefix post) as (e & He & Hbnd); [done|].
  rewrite <- Heq in He, Hbnd. cbv zeta. unfold zlen_s in He at 1. rewrite He. cbn [mbind outcome_bind].
  destruct (slice_in (FSearch f) (Z.of_nat (len pre) + zlen_s dependenciesPrefix) e) as (expr & -> & _);
    [unfold zlen_s in *; lia..|]. cbn [mbind outcome_bind].
  pose proof (parseDepRequest_spec expr) as Hd. destruct (parseDepRequest expr) as [d|x| |]; cbn [mbind outcome_bind]; try done.
  destruct (cut_in (FSearch f) (Z.of_nat (len pre)) e) as (b & a & -> & ->); [unfold zlen_s in *; lia..|].
  cbn [mbind outcome_bind]. apply IH.
Qed.

Lemma parseRank_total f : exists f', parseRank f = Ok f'.
Proof.
  unfold parseRank. enough (forall l, Forall (fun r => r.1 ≠ "") l -> forall f, exists f', for_state l f rank_step = Ok f') as H.
  { apply H. by repeat constructor. }
  clear f. induction 1 as [|r l Hr _ IH]; intros f; cbn [for_state]; [by eexists|].
  assert (exists f', rank_step f r = Ok f') as [f' ->]; [|apply IH].
  unfold rank_step. destruct (Index (FSearch f) r.1) as [i|] eqn:Hi; [|by eexists].
  apply Index_bound in Hi; [|done]. assert (0 <= zlen_s r.1) by (unfold zlen_s; lia).
  destruct (cut_in (FSearch f) (Z.of_nat i) (Z.of_nat i + zlen_s r.1)) as (b & a & -> & ->); [lia..|]. by eexists.
Qed.

Lemma parseNostrFilter_panics_spec `{!LowerSpec, !TokenizerSpec T} unquote filter :
  is_ascii (Search filter) ->
  runs (parseNostrFilter unquote filter) /\
  exists f, (let! f := parseNostrFilterText unquote (new_search filter) in parseNostrFilterFlags f) = Ok f /\
    (parseNostrFilter unquote filter = Panic <-> parseNostrFilterTagMarkers f = Panic).
Proof.
  intros Hs. split; [apply parseNostrFilter_runs|].
  destruct (parseNostrFilterText_ascii unquote (new_search filter) Hs) as (f1 & H1 & Hs1).
  destruct (parseNostrFilterFlags_ascii f1 Hs1) as (f2 & H2 & Hs2). exists f2.
  unfold parseNostrFilter. rewrite H1. cbn [mbind outcome_bind]. rewrite H2. split; [done|]. cbn [mbind outcome_bind].
  destruct (parseNostrFilterTagMarkers f2) as [f3|x| |]; cbn [mbind outcome_bind]; [|done..].
  split; [|done]. intros Hp. exfalso. unfold parseNostrFilterDependencies in Hp.
  pose proof (dependency_loop_total (S (len (FSearch f3))) f3) as Hd.
  destruct (dependency_loop _ f3) as [f4|x| |]; cbn [mbind outcome_bind] in Hp; try done.
  destruct (parseRank_total f4) as [f5 Hf5]. by rewrite Hf5 in Hp.
Qed.

(** The parser of search extensions returns for every filter, and on an
    ASCII search it panics only where the tag markers panic: quoted text,
    flags, dependencies and ranks slice within their bounds. *)
Lemma parseNostrFilter_panics `{!LowerSpec, !TokenizerSpec T} unquote filter :
  is_ascii (Search filter) ->
  runs (parseNostrFilter unquote filter) /\
  exists f, (let! f := parseNostrFilterText unquote (new_search filter) in parseNostrFilterFlags f) = Ok f /\
    (parseNostrFilter unquote filter = Panic <-> parseNostrFilterTagMarkers f = Panic).
Proof. apply parseNostrFilter_panics_spec. Qed.

(** Every dependency a client can ask for names one to three kinds to
    load, and its tags and its context are among the literals of the grammar:
    only the author is free text.  The parser never panics. *)
Lemma parseDepRequest_restricted `{!TokenizerSpec T} input :
  match parseDepRequest input with
  | Ok d => Expr d = input /\ restricted (DStart d) (DReduce d) /\ (1 <= length (RKinds (DReduce d)) <= 3)%nat
  | Err x => chain x = []
  | Panic | OutOfFuel => False
  end.
Proof. apply parseDepRequest_spec. Qed.

(** A flag found in the lower-cased search at a position after the end of the
    search itself panics: lower-casing can lengthen a text. *)
Lemma flag_misaligned_panics f name fl i :
  Index (ToLower (FSearch f)) (name +:+ ":") = Some i -> (len (FSearch f) < i)%nat ->
  flag_step f (name, fl) = Panic.
Proof.
  intros Hi Hlt. unfold flag_step. rewrite Hi. unfold word_end.
  assert (slice_from (FSearch f) (Z.of_nat i) = Panic) as ->; [|done].
  unfold slice_from, slice, zlen_s. destruct (_ && _) eqn:E; [lia|done].
Qed.

(** ** Tag markers *)

(** The shape of a marker in a search: its tag is one byte. *)
Definition marker_prefix (exclude : bool) (tag : ascii) : string :=
  (if exclude then "!" else "") +:+ String tag tagMarker.

(** The first marker of a search, none overlapping it from the left. *)
Definition first_marker (search before : string) (exclude : bool) (tag : ascii) (rest : string) : Prop :=
  search = before +:+ marker_prefix exclude tag +:+ rest /\
  Index search tagMarker = Some (len before + (if exclude then 2 else 1))%nat /\
  TrimSpace (String tag "") = String tag "" /\
  (exclude = false -> forall b, before ≠ b +:+ "!").

Lemma get_app_len s c t : String.get (len s) (s +:+ String c t) = Some c.
Proof. induction s as [|d s IH]; [done|]. exact IH. Qed.

Lemma byte_at_app s c t i : i = zlen_s s -> byte_at (s +:+ String c t) i = Ok c.
Proof.
  intros ->. unfold byte_at, zlen_s. rewrite (proj2 (Z.leb_le _ _)) by lia. by rewrite Nat2Z.id, get_app_len.
Qed.

(** The byte before the tag: the exclamation mark, or another one. *)
Lemma exclude_byte search before exclude tag rest :
  first_marker search before exclude tag rest ->
  (let start := Z.of_nat (len before + (if exclude then 2 else 1)) in
   if 0 <? 0 + start - 1 then let! c := byte_at search (0 + start - 2) in Ok (Ascii.eqb c "!") else Ok false)
  = Ok exclude.
Proof.
  intros (-> & _ & _ & Hnot). unfold marker_prefix. destruct exclude; cbv zeta.
  - rewrite (proj2 (Z.ltb_lt _ _)) by lia.
    change (("!" +:+ ?x) +:+ rest) with (String "!" (x +:+ rest)).
    rewrite byte_at_app by (unfold zlen_s; lia). done.
  - destruct (Z.ltb_spec 0 (0 + Z.of_nat (len before + 1) - 1)); [|done].
    destruct before as [|c0 before0]; [cbn in H; lia|].
    assert (exists b c, String c0 before0 = b +:+ String c "") as (b & c & Hbc).
    { clear. revert c0. induction before0 as [|d s IH]; intros c0; [by exists "", c0|].
      destruct (IH d) as (b & c & Heq). exists (String c0 b), c. by rewrite Heq. }
    rewrite Hbc in *. rewrite app_assoc. change (String c "" +:+ ?x) with (String c x).
    rewrite byte_at_app by (unfold zlen_s; rewrite len_app; cbn; lia). cbn.
    destruct (Ascii.eqb_spec c "!") as [->|]; [|done]. by destruct (Hnot eq_refl b).
Qed.

(** The first iteration, up to the slice of the marker's value. *)
Lemma marker_step_first f before exclude tag rest :
  first_marker (FSearch f) before exclude tag rest ->
  marker_step f 0 =
    (let start := zlen_s before + (if exclude then 2 else 1) in
     let end_ := match Index rest " " with
                 | None => zlen_s (FSearch f) | Some O => 0 | Some e => Z.of_nat e + start + 7 end in
     let! marker := slice (FSearch f) (start + 7) end_ in
     let e := if end_ <? zlen_s (FSearch f) then end_ + 1 else end_ in
     let! tail := slice_from (FSearch f) e in
     Ok (Some (with_search (add_marker f (MkMarker (String tag "") marker exclude)) (TrimSpace (before +:+ tail)), 0))).
Proof.
  intros Hm. pose proof (exclude_byte _ _ _ _ _ Hm) as Hex. destruct Hm as (Heq & Hi & Htag & Hnot).
  assert (Hrest : slice_from (FSearch f) 0 = Ok (FSearch f)) by (apply slice_full; done).
  unfold marker_step. rewrite Hrest. cbn [mbind outcome_bind]. rewrite Hi. cbv zeta in *.
  rewrite (proj2 (Z.ltb_ge _ _)) by (destruct exclude; lia).
  set (start := Z.of_nat (len before + (if exclude then 2 else 1))) in *.
  assert (Hstart : start = zlen_s before + (if exclude then 2 else 1)) by (unfold start, zlen_s; destruct exclude; lia).
  change (zlen_s tagMarker) with 7.
  assert (Hsplit : FSearch f = (before +:+ marker_prefix exclude tag) +:+ rest) by by rewrite app_assoc.
  assert (Hpl : zlen_s (before +:+ marker_prefix exclude tag) = start + 7).
  { rewrite Hstart. unfold zlen_s, marker_prefix, tagMarker. rewrite !len_app. destruct exclude; cbn; lia. }
  assert (Hafter : slice_from (FSearch f) (0 + start + 7) = Ok rest) by (rewrite Hsplit; apply slice_from_app; lia).
  rewrite Hafter. cbn [mbind outcome_bind].
  assert (Hx : slice (FSearch f) (0 + start - 1) (0 + start) = Ok (String tag "")).
  { rewrite Heq. unfold marker_prefix. rewrite app_assoc.
    replace (before +:+ (if exclude then "!" else "") +:+ String tag tagMarker +:+ rest)
      with ((before +:+ (if exclude then "!" else "")) +:+ String tag "" +:+ tagMarker +:+ rest) by by rewrite app_assoc.
    apply slice_app; rewrite Hstart; unfold zlen_s; rewrite !len_app; destruct exclude; cbn; lia. }
  rewrite Hx. cbn [mbind outcome_bind]. rewrite Htag. cbn [String.eqb negb]. rewrite Hex. cbn [mbind outcome_bind].
  replace (0 + start + 7) with (zlen_s before + (if exclude then 2 else 1) + 7) by lia. rewrite Hstart, !Z.add_0_l.
  destruct (slice (FSearch f) _ _) as [marker|x| |]; cbn [mbind outcome_bind]; try done.
  assert (slice_to (FSearch f) (zlen_s before + (if exclude then 2 else 1) - 1 - (if exclude then 1 else 0)) = Ok before)
    as -> by (rewrite Heq; apply slice_to_app; destruct exclude; lia). done.
Qed.

(** A tag marker that a space follows directly makes the parser panic:
    the end of its empty value is taken to be the start of the search. *)
Lemma empty_marker_panics f before exclude tag rest :
  first_marker (FSearch f) before exclude tag (" " +:+ rest) -> parseNostrFilterTagMarkers f = Panic.
Proof.
  intros Hm. unfold parseNostrFilterTagMarkers. cbn [marker_loop]. rewrite (marker_step_first _ _ _ _ _ Hm). cbv zeta.
  assert (Index (" " +:+ rest) " " = Some 0%nat) as -> by by destruct rest. cbv iota.
  assert (forall i, 0 < i -> slice (FSearch f) i 0 = Panic) as ->; [|done|unfold zlen_s; destruct exclude; lia].
  intros i Hi. unfold slice. destruct (_ && _) eqn:E; [lia|done].
Qed.

(** A tag marker with a value is read and cut out: the rest of the search
    is parsed with the marker recorded, [!] excluding. *)
Lemma marker_parsed f before exclude tag value rest :
  first_marker (FSearch f) before exclude tag (value +:+ " " +:+ rest) ->
  value ≠ "" -> in_string " " value = false ->
  marker_step f 0 = Ok (Some (with_search (add_marker f (MkMarker (String tag "") value exclude))
    (TrimSpace (before +:+ rest)), 0)).
Proof.
  intros Hm Hne Hsp. rewrite (marker_step_first _ _ _ _ _ Hm). cbv zeta.
  assert (Hi : Index (value +:+ " " +:+ rest) " " = Some (len value)).
  { clear -Hsp. unfold Index. induction value as [|c s IH]; [by destruct rest|]. cbn in Hsp.
    apply orb_false_iff in Hsp as [Hc Hs]. specialize (IH Hs). change (String c s +:+ ?x) with (String c (s +:+ x)).
    change (String.index 0 " " (String c ?x)) with
      (if String.prefix " " (String c x) then Some 0%nat else
         match String.index 0 " " x with Some n => Some (S n) | None => None end).
    rewrite IH. destruct (String.prefix " " _) eqn:Hp; [|done]. exfalso.
    apply HasPrefix_spec in Hp as [t Ht]. injection Ht as -> _. done. }
  rewrite Hi. destruct Hm as (Heq & _). destruct value as [|v0 value0]; [done|]. cbn [len]. set (value := String v0 value0) in *.
  change (S (len value0)) with (len value).
  set (start := zlen_s before + (if exclude then 2 else 1)).
  assert (Hpl : zlen_s (before +:+ marker_prefix exclude tag) = start + 7).
  { unfold start, zlen_s, marker_prefix, tagMarker. rewrite !len_app. destruct exclude; cbn; lia. }
  assert (Hs1 : FSearch f = (before +:+ marker_prefix exclude tag) +:+ value +:+ " " +:+ rest) by by rewrite Heq, !app_assoc.
  assert (Hs2 : FSearch f = ((before +:+ marker_prefix exclude tag) +:+ value +:+ " ") +:+ rest) by by rewrite Hs1, !app_assoc.
  assert (Hv : slice (FSearch f) (start + 7) (Z.of_nat (len value) + start + 7) = Ok value).
  { rewrite Hs1. apply slice_app; unfold zlen_s in *; lia. }
  rewrite Hv. cbn [mbind outcome_bind].
  assert (Hlen : zlen_s (FSearch f) = start + 7 + Z.of_nat (len value) + 1 + zlen_s rest).
  { rewrite Hs2. unfold zlen_s in *. rewrite !len_app in *. cbn [len] in *. lia. }
  rewrite (proj2 (Z.ltb_lt _ _)) by (unfold zlen_s in *; lia).
  assert (Ht : slice_from (FSearch f) (Z.of_nat (len value) + start + 7 + 1) = Ok rest).
  { rewrite Hs2. apply slice_from_app. unfold zlen_s in *. rewrite !len_app in *. cbn [len] in *. lia. }
  rewrite Ht. done.
Qed.
End Panics.

(** ** Concrete inputs *)
Module QueryFilterWitness.
Import AsciiText.

(** A stream: the tokens before the current one, in reverse, and the rest. *)
Definition lexeme : Type := token * string.
Definition undef : lexeme := (TokenUndef, "").
Definition is_lexeme (t : lexeme) (k : token) : bool :=
  bool_decide (t.1 = k) && (bool_decide (parserTokens k = []) || bool_decide (t.2 ∈ parserTokens k)).
Fixpoint matches (l : list lexeme) (ks : list token) : bool :=
  match ks with
  | [] => true
  | k :: ks => is_lexeme (default undef (head l)) k && matches (tail l) ks
  end.
Definition go_next (s : list lexeme * list lexeme) : list lexeme * list lexeme :=
  match s.2 with x :: l => (x :: s.1, l) | [] => s end.

Definition lex (s : string) : list lexeme :=
  if s =s? "kind1>kind6400" then
    [(tokenLiteralKind, "kind"); (TokenKeyword, "1"); (tokenSearchExpr, ">"); (tokenLiteralKind, "kind");
     (TokenKeyword, "6400")]
  else if HasPrefix s "kind3>kind0+p+|" then
    [(tokenLiteralKind, "kind"); (TokenKeyword, "3"); (tokenSearchExpr, ">"); (tokenLiteralKind, "kind");
     (TokenKeyword, "0"); (tokenLiteralDetailTagP, "+p+"); (TokenString, take (len s - 16) (drop 15 s))]
  else [].

#[export] Instance tokens : Tokenizer := {|
  Stream := list lexeme * list lexeme; Token := lexeme;
  ParseString s := ([], lex s); IsValid s := match s.2 with [] => false | _ => true end;
  CurrentToken s := default undef (head s.2); PrevToken s := default undef (head s.1);
  NextToken s := default undef (head (tail s.2)); GoNext := go_next;
  IsNextSequence s ks := matches (tail s.2) ks;
  Is := is_lexeme; ValueString := snd; ValueUnescapedString := snd |}.

Lemma advance_rest n s : (advance n s).2 = list.drop n s.2.
Proof.
  revert s. induction n as [|n IH]; intros [p l]; [done|]. unfold advance in *. rewrite Nat.iter_succ_r.
  rewrite IH. destruct l as [|x l]; cbn; [by rewrite drop_nil|done].
Qed.

#[export] Instance tokens_spec : TokenizerSpec tokens.
Proof.
  split.
  - intros [p l] ks i k Hm Hi.
    change (is_lexeme (default undef (head (advance (S i) (p, l)).2)) k = true). rewrite advance_rest. cbn [snd].
    change (matches (tail l) ks = true) in Hm. revert l Hm i k Hi.
    induction ks as [|k0 ks IH]; intros l Hm i k Hi; [done|]. cbn [matches] in Hm.
    apply andb_true_iff in Hm as [H0 Hm]. destruct i as [|i]; cbn in Hi.
    + simplify_eq. destruct l as [|x [|y l]]; exact H0.
    + destruct l as [|x l]; [|exact (IH l Hm i k Hi)].
      specialize (IH [] Hm i k Hi). exact IH.
  - intros [p [|x l]] k; cbn; [|done]. unfold is_lexeme. cbn. intros [H _]%andb_true_iff Hne.
    by apply bool_decide_eq_true_1 in H.
  - intros t k H Hne. cbn in *. unfold is_lexeme in H. apply andb_true_iff in H as [_ H].
    apply orb_true_iff in H as [H|H]; by apply bool_decide_eq_true_1 in H.
Qed.

#[export] Instance lower_spec : LowerSpec.
Proof. constructor. done. Qed.

Definition unquote (s : string) : option string := None.
Definition query (search : string) : Filter := MkFilter None None None None None None None 0 search.

Lemma is_ascii_dec s : forallb (fun c => (nat_of_ascii c <? 128)%nat) (String.list_ascii_of_string s) = true -> is_ascii s.
Proof. rewrite forallb_forall. intros H c Hc%in_string_list%list_elem_of_In%H. by apply Nat.ltb_lt. Qed.

Definition search : string := "cats VIDEOS:yes !emarker:reply include:dependencies:kind1>kind6400 top".

Lemma parseNostrFilter_panics_witness :
  runs (parseNostrFilter unquote (query search)) /\
  exists f, (let! f := parseNostrFilterText unquote (new_search (query search)) in parseNostrFilterFlags f) = Ok f /\
    (parseNostrFilter unquote (query search) = Panic <-> parseNostrFilterTagMarkers f = Panic).
Proof. apply (parseNostrFilter_panics unquote (query search)). apply is_ascii_dec. vm_compute. reflexivity. Defined.

Example parsed :
  (f ← match parseNostrFilter unquote (query search) with Ok f => Some f | _ => None end;
   Some (Flag f FVideos, TagMarkers f, map Expr (Dependencies f), Rank f, FSearch f)) =
  Some (Some true, [MkMarker "e" "reply" true], ["kind1>kind6400"], rankTOP, "cats").
Proof. vm_compute. reflexivity. Qed.

Lemma parseDepRequest_restricted_witness :
  match parseDepRequest "kind1>kind6400" with
  | Ok d => Expr d = "kind1>kind6400" /\ restricted (DStart d) (DReduce d) /\ (1 <= length (RKinds (DReduce d)) <= 3)%nat
  | Err x => chain x = []
  | Panic | OutOfFuel => False
  end.
Proof. exact (parseDepRequest_restricted "kind1>kind6400"). Defined.

Lemma empty_marker_panics_witness : parseNostrFilterTagMarkers (new_search (query "emarker: cats")) = Panic.
Proof.
  apply (empty_marker_panics (new_search (query "emarker: cats")) "" false "e" "cats").
  split_and!; [reflexivity..|]. intros _ b Hb. apply (f_equal len) in Hb. rewrite len_app in Hb. cbn in Hb. lia.
Defined.

Lemma marker_parsed_witness :
  marker_step (new_search (query "!emarker:reply cats")) 0 =
  Ok (Some (with_search (add_marker (new_search (query "!emarker:reply cats")) (MkMarker "e" "reply" true))
    (TrimSpace ("" +:+ "cats")), 0)).
Proof.
  apply (marker_parsed (new_search (query "!emarker:reply cats")) "" true "e" "reply" "cats"); [|done|reflexivity].
  split_and!; [reflexivity..|done].
Defined.

(** A library that lower-cases U+023A (bytes 200 186) to U+2C65 (bytes 226 177 165). *)
Definition a_stroke : string := bytes [200; 186]%nat.
Fixpoint unicode_lower (s : string) : string :=
  match s with
  | "" => ""
  | String c s =>
      (if Ascii.eqb c (ascii_of_nat 200) then bytes [226; 177]%nat
       else if Ascii.eqb c (ascii_of_nat 186) then bytes [165]%nat
       else String (lower c) "") +:+ unicode_lower s
  end.
Example misaligned :
  let G : GoText := {| ToLower := unicode_lower; EqualFold := String.eqb; url_Parse _ := None; url_without_port s := s |} in
  @parseNostrFilterFlags G (new_search (query (Join (repeat a_stroke 9) "" +:+ "media:1"))) = Panic.
Proof. vm_compute. reflexivity. Qed.
End QueryFilterWitness.
