(* ===== verification/QueryBuilder.v ===== *)
(** * Package query: building the statement of a query

    src/database/query/query_where_builder.go.  The builder is a text that only
    grows and a map of named parameters; a name occurs in the text behind a
    colon and its value is sent apart from it.  The functions are written in a
    state monad over the builder.  [model.DeduplicateSlice] rewrites its slice in
    place; the slices it is given are read again for their set of elements
    only. *)

From S2P Require Import Prelude GoStd Nostr Model Filters Validator QueryFilter.
Import Strings.

(** ** The builder *)

(** The types of parameter values ([any]). *)
Inductive any : Type :=
  | AString (s : string) | AInt (n : Z) | ABool (b : bool) | AStrings (l : list string) | AInts (l : list Z)
  | ANullString (o : option string) | ANullInt (o : option Z) | ATags (ts : Tags).

(* src: database/query/query_where_builder.go 60-63 *)
Record queryBuilder : Type := MkBuilder { Params : gmap string any; text : string }.

(* src: database/query/query_where_builder.go 142-146 *)
Definition newQueryBuilder : queryBuilder := MkBuilder ∅ "".

Definition B (A : Type) : Type := queryBuilder -> outcome (A * queryBuilder).
#[export] Instance B_ret : MRet B := fun A a b => Ok (a, b).
#[export] Instance B_bind : MBind B := fun A A' f m b => let! (a, b) := m b in f a b.

Definition skip : B unit := mret ().
Definition lift {A} (m : outcome A) : B A := fun b => let! a := m in Ok (a, b).
(** [b.String()], [b.Params], [b.Len()] *)
Definition String_ : B string := fun b => Ok (text b, b).
Definition Params_ : B (gmap string any) := fun b => Ok (Params b, b).
Definition Len : B Z := fun b => Ok (zlen_s (text b), b).
Definition WriteString (s : string) : B unit := fun b => Ok ((), MkBuilder (Params b) (text b +:+ s)).
Definition Reset : B unit := fun b => Ok ((), MkBuilder (Params b) "").

(** [for _, x := range l { ... }] over the builder and a variable. *)
Fixpoint for_b {A S} (l : list A) (s : S) (f : S -> A -> B S) : B S :=
  match l with
  | [] => mret s
  | x :: l => s ← f s x; for_b l s f
  end.
(** The same with the index of the element. *)
Fixpoint for_i {A} (i : nat) (l : list A) (f : nat -> A -> B unit) : B unit :=
  match l with
  | [] => skip
  | x :: l => f i x ;; for_i (S i) l f
  end.

(* src: database/query/query_where_builder.go 148-153 *)
Definition PushValue (filterID name : string) (value : any) : B string := fun b =>
  Ok (filterID +:+ name, MkBuilder (<[filterID +:+ name := value]> (Params b)) (text b)).

(* src: database/query/query_where_builder.go 155-162 *)
Definition WriteFields (fields : list string) : B unit :=
  for_i 0 fields (fun i field => (if (0 <? i)%nat then WriteString "," else skip) ;; WriteString field).

(* src: database/query/query_where_builder.go 191-193 *)
Definition WriteValue (filterID name : string) (value : any) : B unit :=
  key ← PushValue filterID name value; WriteString key.

(* src: database/query/query_where_builder.go 195-201 *)
Definition WriteTypedValue (filterID name castTo : string) (value : any) : B unit :=
  WriteString "cast(:" ;; WriteValue filterID name value ;; WriteString " as " ;; WriteString castTo ;;
  WriteString ")".

(* src: database/query/query_where_builder.go 69-74 *)
Record queryBuilderValue : Type := MkValue { QValue : any; QName : string; CastTo : string; Func : string }.

(* src: database/query/query_where_builder.go 164-189 *)
Definition WriteValues (filterID : string) (values : list queryBuilderValue) : B unit :=
  match values with
  | [] => skip
  | _ =>
      WriteString "(" ;;
      for_i 0 values (fun i v =>
        (if (0 <? i)%nat then WriteString ", " else skip) ;;
        (if Func v ≠s? "" then WriteString (Func v) ;; WriteString "(" else skip) ;;
        (if CastTo v ≠s? "" then WriteTypedValue filterID (QName v) (CastTo v) (QValue v)
         else WriteString ":" ;; WriteValue filterID (QName v) (QValue v)) ;;
        (if Func v ≠s? "" then WriteString ")" else skip)) ;;
      WriteString ")"
  end.

(* src: database/query/query_where_builder.go 273-281 *)
Definition IsOnBegin : B bool :=
  l ← Len; s ← String_;
  if (l =? 1) && (s =s? "(") then mret true
  else
    c ← lift (byte_at s (l - 1));
    if Ascii.eqb c "(" then mret true
    else t ← lift (slice_from s (l - 2)); mret (t =s? "( ").

(* src: database/query/query_where_builder.go 283-289 *)
Definition MaybeAND : B unit :=
  l ← Len; if l =? 0 then skip else
  on ← IsOnBegin; if (on : bool) then skip else WriteString " AND ".

(* src: database/query/query_where_builder.go 291-297 *)
Definition MaybeOR : B unit :=
  l ← Len; if l =? 0 then skip else
  on ← IsOnBegin; if (on : bool) then skip else WriteString " OR ".

(* src: database/query/query_where_builder.go 37-41 *)
Inductive sqlOpCode : Set := sqlOpCodeNONE | sqlOpCodeAND | sqlOpCodeOR.

(* src: database/query/query_where_builder.go 203-211 *)
Definition MaybeOP (op : sqlOpCode) : B unit :=
  match op with
  | sqlOpCodeNONE => skip
  | sqlOpCodeAND => MaybeAND
  | sqlOpCodeOR => MaybeOR
  end.

(** A slice of strings or of integers. *)
Class Elem (T : Type) := { elem_any : T -> any; slice_any : list T -> any }.
#[export] Instance string_elem : Elem string := {| elem_any := AString; slice_any := AStrings |}.
#[export] Instance int_elem : Elem Z := {| elem_any := AInt; slice_any := AInts |}.

Section SliceBuilder.
Context {T : Type} `{Countable T} `{!Elem T}.

(* src: database/query/query_where_builder.go 213-218 *)
Record sliceBuilder : Type := MkSlice { ParamName : string; Slice : list T; Op : sqlOpCode; Negative : bool }.

(* src: database/query/query_where_builder.go 220-254 [Build] *)
Definition BuildSlice (s : sliceBuilder) (filterID name : string) : B unit :=
  match Slice s with
  | [] => skip
  | _ =>
      let param := if ParamName s =s? "" then name else ParamName s in
      MaybeOP (Op s) ;; WriteString name ;;
      WriteString (if Negative s then " != " else " = ") ;;
      match DeduplicateSlice (Slice s) (fun elem => elem) with
      | [x] => WriteString ":" ;; key ← PushValue filterID param (elem_any x); WriteString key
      | l =>
          WriteString (if Negative s then "ALL(:" else "ANY(:") ;;
          key ← PushValue filterID param (slice_any l); WriteString key ;; WriteString ")"
      end
  end.

(* src: database/query/query_where_builder.go 256-262 *)
Definition buildFromSlice (op : sqlOpCode) (filterID : string) (s : list T) (name paramName : string) : B unit :=
  BuildSlice (MkSlice paramName s op false) filterID name.

(* src: database/query/query_where_builder.go 264-271 *)
Definition buildFromSliceNegative (op : sqlOpCode) (filterID : string) (s : list T) (name paramName : string) :
    B unit :=
  BuildSlice (MkSlice paramName s op true) filterID name.
End SliceBuilder.

(** ** Parameters *)

(** Tag maps (go-nostr). *)
Class TagMaps := {
  HasValues : TagMap -> string -> bool;
  All : TagMap -> string -> list string;
  Empty : TagValues -> bool;
  (** the order in which a range visits the keys of a map *)
  range_keys : TagMap -> list string
}.

(** [strings.Map] keeping letters, digits, spaces and marks (tables of
    package unicode). *)
Class Unicode := { keep_text : string -> string }.

(** [t.Time().UnixNano()] *)
Definition UnixNano `{Nostr} (t : Timestamp) : Z := int64 (TsTime t).

Definition tags_of (f : Filter) : TagMap := default ∅ (FTags f).

Section Where.
Context {N : Nostr} {G : GoText} {E : Env} {TM : TagMaps} {U : Unicode}.

(** ** The where clause of a filter *)

(* src: model/model.go 117 *)
Definition LangISO : string := "ISO-639-1".
(* src: database/query/query.go 31 *)
Definition maxTagValues : nat := 5.
(* src: database/query/query_where_builder.go 23+ *)
Definition whereBuilderDefaultWhere : string := "e.hidden=false".
Definition whereBuilderCommunityFilter : string :=
  "(case when e.kind in (1, 30023, 30175) then e.id = e.h_tag else true end)".
Definition whereBuilderNoSoftDeleted : string := "e.deleted=false".
Definition whereBuilderDefaultOrderBy : string := "lookup_created_at DESC".
(* src: database/query/query_where_builder.go 28 *)
Definition whereBuilderDefaultLimit : Z := 300.

(* src: database/query/query_where_builder.go 299-323 *)
Definition ApplyFilterTagMarkers (filterID : string) (markers : list databaseFilterMarker) : B unit :=
  for_i 0 markers (fun id marker =>
    let id := Strconv.Itoa (Z.of_nat id) in
    MaybeAND ;;
    if ((MTag marker =s? "a") || (MTag marker =s? "e")) && (Marker marker =s? TagMarkerReply) then
      WriteString "e.is_reply = :" ;; WriteValue filterID ("mtagvalue" +:+ id) (ABool (negb (Exclude marker)))
    else
      (if Exclude marker then WriteString "NOT " else skip) ;;
      WriteString "EXISTS (select true from event_tags where event_id in (e.id, e.reference_id) AND event_tag_key = :" ;;
      WriteValue filterID ("mtagname" +:+ id) (AString (MTag marker)) ;;
      WriteString " AND event_tag_value3 = :" ;;
      WriteValue filterID ("mtagvalue" +:+ id) (AString (Marker marker)) ;;
      WriteString ")").

(** The only value of the only tag of a filter, a [d] tag. *)
(* src: database/query/query_where_builder.go 330-337 [ApplyFilterTags] *)
Definition single_d_tag (tags : TagMap) : option string :=
  match tags !! "d" with
  | Some [[Some d]] => if (size tags =? 1)%nat then Some d else None
  | _ => None
  end.

(** [["en", "ISO-639-1"]]: a language, not a label. *)
(* src: database/query/query_where_builder.go 380-386 [ApplyFilterTags] *)
Definition is_language (values : TagValues) : bool :=
  match values with
  | [Some _; Some iso] => EqualFold iso LangISO
  | _ => false
  end.

(** The conditions on the values of one tuple; [tagValue] numbers them. *)
(* src: database/query/query_where_builder.go 419-431 [ApplyFilterTags] *)
Fixpoint apply_values (filterID : string) (j : nat) (values : TagValues) (tagValue : Z) : B Z :=
  match values with
  | [] => mret tagValue
  | None :: values => apply_values filterID (S j) values tagValue
  | Some v :: values =>
      WriteString " AND " ;; WriteString "event_tag_value" ;;
      WriteString (Strconv.Itoa (Z.of_nat (S j))) ;; WriteString " = :" ;;
      WriteValue filterID ("tagvalue" +:+ Strconv.Itoa tagValue) (AString v) ;;
      apply_values filterID (S j) values (tagValue + 1)
  end.

(* src: database/query/query_where_builder.go 375-433 [ApplyFilterTags] *)
Definition apply_tuple (filterID tagName tagParam : string) (exclude : bool) (tagValue : Z) (values : TagValues) :
    B Z :=
  if Empty values then mret tagValue
  else if (tagName =s? "l") && is_language values then mret tagValue
  else
    let values := if (maxTagValues <? length values)%nat then list.take maxTagValues values else values in
    MaybeOR ;; (if exclude then WriteString "NOT " else skip) ;;
    WriteString "EXISTS (select event_id from event_tags where event_id = e.id AND event_tag_key = :" ;;
    WriteString tagParam ;;
    tagValue ← apply_values filterID 0 values tagValue;
    WriteString ")" ;; mret tagValue.

(** The name of a tag without the exclamation mark that excludes it. *)
(* src: database/query/query_where_builder.go 350-355 [ApplyFilterTags] *)
Definition query_tag (tagName : string) : bool * string :=
  match tagName with
  | String c rest => if Ascii.eqb c "!" then (true, rest) else (false, tagName)
  | "" => (false, "")
  end.

(* src: database/query/query_where_builder.go 344-438 [ApplyFilterTags] *)
Definition apply_tag (filterID : string) (tags : TagMap) (st : Z * Z) (tagName : string) : B (Z * Z) :=
  let '(tagID, tagValue) := st in
  let tagID := tagID + 1 in
  if (tagName =s? "t") || (tagName =s? "!t") then mret (tagID, tagValue)
  else
    let '(exclude, queryTagName) := query_tag tagName in
    MaybeAND ;;
    tagParam ← PushValue filterID ("tag" +:+ Strconv.Itoa tagID) (AString queryTagName);
    if negb (HasValues tags tagName) then
      (if (exclude : bool) then WriteString "NOT " else skip) ;;
      WriteString "EXISTS (select event_id from event_tags where event_id = e.id AND event_tag_key = :" ;;
      WriteString tagParam ;; WriteString ")" ;; mret (tagID, tagValue)
    else
      WriteString "(" ;;
      beforeTagLoopBufLen ← Len;
      tagValue ← for_b (default [] (tags !! tagName)) tagValue (apply_tuple filterID tagName tagParam exclude);
      l ← Len;
      (if l =? beforeTagLoopBufLen then WriteString "1=1" else skip) ;;
      WriteString ")" ;; mret (tagID, tagValue).

(* src: database/query/query_where_builder.go 325-438 *)
Definition ApplyFilterTags (filterID : string) (tags : TagMap) : B unit :=
  if (size tags =? 0)%nat then skip
  else match single_d_tag tags with
  | Some d => MaybeAND ;; WriteString "e.d_tag = :" ;; WriteValue filterID "dtag" (AString d)
  | None => for_b (range_keys tags) (0, 0) (apply_tag filterID tags) ;; skip
  end.

(* src: database/query/query_where_builder.go 440-456 *)
Definition isFilterEmpty (f : databaseFilterSearch) : bool :=
  let m := SFilter f in
  is_nil (elems (IDs m)) && is_nil (elems (Kinds m)) && is_nil (elems (Authors m)) &&
  (size (tags_of m) =? 0)%nat && is_nil (TagMarkers f) && is_nil (elems (Addresses m)) &&
  negb (bool_decide (is_Some (Since m))) && negb (bool_decide (is_Some (Until m))) &&
  forallb (fun fl => negb (bool_decide (is_Some (Flag f fl))))
    [FExpiration; FVideos; FQuotes; FReferences; FImages; FMedia] &&
  (SearchText f =s? "").

(* src: database/query/query_where_builder.go 474-486 [ApplyTimeRange] *)
Definition apply_bound (filterID name sql : string) (t : option Timestamp) : B unit :=
  match t with
  | Some t => if 0 <? t then MaybeAND ;; WriteString sql ;; WriteValue filterID name (AInt (UnixNano t)) else skip
  | None => skip
  end.

(* src: database/query/query_where_builder.go 458-489 *)
Definition ApplyTimeRange (filterID : string) (since until : option Timestamp) : B unit :=
  let bounds :=
    apply_bound filterID "since" "e.lookup_created_at >= :" since ;;
    apply_bound filterID "until" "e.lookup_created_at <= :" until in
  match since, until with
  | Some s, Some u =>
      if s =? u then
        MaybeAND ;; WriteString "e.lookup_created_at = :" ;; WriteValue filterID "timestamp" (AInt (UnixNano s))
      else if TsAfter s u then lift (Err opaque_error)
      else bounds
  | _, _ => bounds
  end.

(* src: database/query/query_where_builder.go 491-511 *)
Definition ApplyFilterLang (f : databaseFilterSearch) : B unit :=
  match tags_of (SFilter f) !! "l" with
  | None => skip
  | Some values =>
      let langs := omap (fun v => match v with
        | [Some lang; Some iso] => if EqualFold iso LangISO then Some lang else None
        | _ => None
        end) values in
      if is_nil langs then skip else buildFromSlice sqlOpCodeAND (FID f) langs "e.lang" "langs"
  end.

(* src: database/query/query_where_builder.go 513-533 *)
Definition applyFilterTtags (f : databaseFilterSearch) (exclude : bool) (values : list string) : B unit :=
  if is_nil values then skip
  else
    MaybeAND ;;
    (if exclude then WriteString "(NOT " else skip) ;;
    WriteString "(e.t_tags && " ;;
    WriteTypedValue (FID f) (if exclude then "ttags_exclude" else "ttags") "text[]" (AStrings values) ;;
    WriteString ")" ;;
    (if exclude then WriteString ")" else skip).

(* src: database/query/query_where_builder.go 535-543 *)
Definition ApplyFilterTtags (f : databaseFilterSearch) : B unit :=
  (let values := All (tags_of (SFilter f)) "!t" in
   if is_nil values then skip else applyFilterTtags f true values) ;;
  (let values := All (tags_of (SFilter f)) "t" in
   if is_nil values then skip else applyFilterTtags f false values).

(* src: database/query/query_where_builder.go 561-571 [ApplyFilterForExtensions] *)
Definition apply_flag (f : databaseFilterSearch) (fl : flag) (sql name : string) : B unit :=
  match Flag f fl with
  | Some v => MaybeAND ;; WriteString sql ;; WriteValue (FID f) name (ABool v)
  | None => skip
  end.

(* src: database/query/query_where_builder.go 545-597 *)
Definition ApplyFilterForExtensions (f : databaseFilterSearch) : B unit :=
  match Flag f FMedia with
  | Some media =>
      MaybeAND ;; WriteString "(e.has_videos=:" ;; WriteValue (FID f) "media" (ABool media) ;;
      WriteString (if media then " OR " else " AND ") ;;
      WriteString "e.has_images=:" ;; WriteValue (FID f) "media" (ABool media) ;; WriteString ")"
  | None =>
      apply_flag f FVideos "e.has_videos=:" "videos" ;;
      apply_flag f FImages "e.has_images=:" "images"
  end ;;
  apply_flag f FQuotes "e.is_quote=:" "quote" ;;
  match Flag f FExpiration with
  | Some expiration =>
      MaybeAND ;;
      if (expiration : bool) then
        WriteString "(e.expiration > " ;; WriteTypedValue (FID f) "expiration_after" "bigint" (AInt now) ;; WriteString ")"
      else WriteString "(e.expiration is null)"
  | None => skip
  end ;;
  match Flag f FReferences with
  | Some references =>
      MaybeAND ;; WriteString "(case when e.reference_id is not null then true else e.has_references=:" ;; WriteValue (FID f) "references" (ABool references) ;; WriteString " end)"
  | None => skip
  end.

(* src: database/query/query_where_builder.go 599-607 *)
Definition ApplyFilterGiftWrap (f : databaseFilterSearch) : B unit :=
  MaybeAND ;; WriteString "(e.gift_receiver_pubkey is null" ;;
  match CurrentUserPubkey f with
  | Some pk => WriteString " OR e.gift_receiver_pubkey = :" ;; WriteValue (FID f) "gift_receiver_pubkey" (AString pk)
  | None => skip
  end ;;
  WriteString ")".

(* src: database/query/query_where_builder.go 609-619 *)
Definition ApplyFilterSoftDeleted (f : databaseFilterSearch) : B unit :=
  let m := SFilter f in
  if negb (is_nil (elems (Kinds m))) && negb (is_nil (elems (Authors m))) && HasValues (tags_of m) "d" then skip
  else if is_nil (elems (IDs m)) then MaybeAND ;; WriteString whereBuilderNoSoftDeleted
  else skip.

(* src: database/query/query_where_builder.go 621-633 *)
Definition replaceSpecialChars (input : string) : string := if input =s? "" then "" else keep_text input.

(* src: database/query/query_where_builder.go 635-646 *)
Definition ApplyTextSearch (f : databaseFilterSearch) : B unit :=
  if SearchText f =s? "" then skip
  else
    MaybeAND ;; WriteString "(e.lookup ILIKE :" ;;
    WriteValue (FID f) "fts" (AString ("%" +:+ replaceSpecialChars (SearchText f) +:+ "%")) ;;
    WriteString ")".

(* src: database/query/query_where_builder.go 648-661 *)
Definition MaybeApplyTextSearch (f : databaseFilterSearch) : B unit :=
  let skips :=
    match elems (Kinds (SFilter f)) with
    | [k] => (k =? KindFollowList) &&
        existsb (fun d => (StartKind (DStart d) =? KindFollowList) &&
          match RKinds (DReduce d) with r :: _ => r =? KindProfileMetadata | [] => false end) (Dependencies f)
    | _ => false
    end in
  if skips then skip else ApplyTextSearch f.

(** The kind a kind of repost stands for. *)
(* src: database/query/query_where_builder.go 668-686 [ApplySpecialKinds] *)
Definition repost_kind (kind : Z) : option string :=
  if kind =? CustomIONKindRepostOfEditableTextNote then Some (Strconv.Itoa CustomIONKindEditableTextNote)
  else if kind =? CustomIONKindRepostOfArticle then Some (Strconv.Itoa KindArticle)
  else if kind =? CustomIONKindRepostOfTokenizedCommunityDefinition then
    Some (Strconv.Itoa CustomIONKindTokenizedCommunityDefinition)
  else if kind =? CustomIONKindRepostOfTokenizedCommunityAction then
    Some (Strconv.Itoa CustomIONKindTokenizedCommunityAction)
  else None.

(* src: database/query/query_where_builder.go 663-701 *)
Definition ApplySpecialKinds (f : databaseFilterSearch) : B (list Z) :=
  let requested := elems (Kinds (SFilter f)) in
  if bool_decide (KindGenericRepost ∈ requested) then mret requested
  else
    let repostKinds := omap repost_kind requested in
    let kinds := filter (fun kind => repost_kind kind = None) requested in
    if is_nil repostKinds then mret kinds
    else
      MaybeAND ;; WriteString "(case when e.kind = 16
		then
			exists (select true from event_tags rk where event_id = e.id AND rk.event_tag_key = 'k' and " ;;
      buildFromSlice sqlOpCodeNONE (FID f) repostKinds "rk.event_tag_value1" "repost_kind" ;;
      WriteString ") else true end)" ;; mret (kinds ++ [KindGenericRepost]).

(* src: database/query/query_where_builder.go 703-723 *)
Definition ApplyFilterKinds (f : databaseFilterSearch) (kinds : list Z) : B unit :=
  if is_nil kinds then skip
  else
    let negative := (fun k => int64 (- k)) <$> filter (fun k => k < 0) kinds in
    let positive := filter (fun k => ~ k < 0) kinds in
    buildFromSlice sqlOpCodeAND (FID f) positive "e.kind" "kind_positive" ;;
    if is_nil positive then buildFromSliceNegative sqlOpCodeAND (FID f) negative "e.kind" "kind_negative"
    else skip.

(* src: database/query/query_where_builder.go 725-745 *)
Definition ApplyFilterAddresses (f : databaseFilterSearch) : B unit :=
  let all := elems (Addresses (SFilter f)) in
  if is_nil all then skip
  else
    let addresses := filter (fun addr => Contains addr ":" = true) all in
    let ids := filter (fun addr => Contains addr ":" = false) all in
    MaybeAND ;; WriteString "(" ;;
    buildFromSlice sqlOpCodeNONE (FID f) addresses "e.address" "address_full" ;;
    buildFromSlice sqlOpCodeOR (FID f) ids "e.id" "address_id" ;;
    WriteString ")".

(* src: database/query/query_where_builder.go 747-782 *)
Definition ApplyFilter (f : databaseFilterSearch) : B unit :=
  let m := SFilter f in
  if isFilterEmpty f then skip
  else
    WriteString "(" ;;
    buildFromSlice sqlOpCodeNONE (FID f) (elems (IDs m)) "e.id" "" ;;
    ApplyFilterAddresses f ;;
    kinds ← ApplySpecialKinds f; ApplyFilterKinds f kinds ;;
    ApplyFilterForExtensions f ;;
    ApplyFilterTtags f ;;
    ApplyFilterLang f ;;
    (if is_nil (elems (Authors m)) then skip
     else
       MaybeAND ;; WriteString "(" ;;
       buildFromSlice sqlOpCodeNONE (FID f) (elems (Authors m)) "e.pubkey" "" ;;
       WriteString " and e.hidden=false OR " ;;
       buildFromSlice sqlOpCodeNONE (FID f) (elems (Authors m)) "e.master_pubkey" "e.pubkey" ;;
       WriteString " and e.hidden=false)") ;;
    ApplyTimeRange (FID f) (Since m) (Until m) ;;
    ApplyFilterTags (FID f) (tags_of m) ;;
    ApplyFilterTagMarkers (FID f) (TagMarkers f) ;;
    ApplyFilterSoftDeleted f ;;
    MaybeApplyTextSearch f ;;
    (if bool_decide (is_Some (tags_of m !! CustomIONTagCommunity)) then skip
     else MaybeAND ;; WriteString whereBuilderCommunityFilter) ;;
    WriteString ")".

(* src: database/query/query_where_builder.go 1719-1732 *)
Definition BuildWhere (f : databaseFilterSearch) : B unit :=
  ApplyFilter f ;;
  for_i 0 (Extra f) (fun _ extra => MaybeAND ;; WriteString extra) ;;
  MaybeAND ;; WriteString whereBuilderDefaultWhere ;;
  ApplyFilterGiftWrap f.

(** ** Dependencies of a filter *)

(* src: database/query/query_where_builder.go 54-56 *)
Definition maskKindEphemeralEmbedding : string := "|0x20000 as kind".

(** [mask] is the flag [writeFieldFlagMaskKindEphemeralEmbedding]. *)
(* src: database/query/query_where_builder.go 1562-1603 *)
Definition fieldsNames (table origin : string) (mask : bool) : list string :=
  let fields := ["kind"; "created_at"; "lookup_created_at"; "id"; "address"; "pubkey"; "master_pubkey"; "sig";
    "content"; "d_tag"; "h_tag"; "tags"] ++ (if origin =s? "" then ["origin"] else []) in
  if table =s? "" then fields
  else
    ((fun field => table +:+ "." +:+ field +:+
        (if (field =s? "kind") && mask then maskKindEphemeralEmbedding else "")) <$> fields)
    ++ (if origin ≠s? "" then ["'" +:+ origin +:+ "' as origin"] else []).

(* src: database/query/query_where_builder.go 784-811 *)
Definition BuildQueryForDependencyStart (filterID cteName field : string) (f : filterDependencyStart) : B string :=
  kind ← (if StartKind f =? KindAny then mret "1=1"
          else key ← PushValue filterID "kind" (AInt (StartKind f)); mret (cteName +:+ ".kind = :" +:+ key));
  tag ← (if StartTag f =s? "" then mret ""
         else key ← PushValue filterID "tag" (AString (StartTag f));
              mret (" AND EXISTS (select 42 from event_tags where event_id = " +:+ cteName +:+
                    ".id AND event_tag_key = :" +:+ key +:+ ")"));
  mret ("select " +:+ field +:+ " from " +:+ cteName +:+ " where " +:+ kind +:+
        (if ProfileBadges f then " AND d_tag='profile_badges'" else "") +:+ tag).

(* src: database/query/query_where_builder.go 813-858 *)
Definition CountVotesOf (filterID cteName : string) (d : filterDependency) : B unit :=
  WriteString "
union all
select
	6400,
	cast (EXTRACT(EPOCH FROM CURRENT_TIMESTAMP) as bigint) as created_at,
	to_timestamp_nano(cast (EXTRACT(EPOCH FROM CURRENT_TIMESTAMP) as bigint)) as lookup_created_at,
	'' as id,
	'' as address,
	mainev.pubkey,
	mainev.master_pubkey,
	'' as sig,
	CAST(
		COALESCE(
			jsonb_object_agg(
				ec.reference_type,
				ec.value
			) FILTER (WHERE ec.kind IS NOT NULL),
			CAST('{}' AS jsonb)
		)
	AS text) as content,
	cast(jsonb_build_array(jsonb_build_object(
		'kinds', jsonb_build_array(1754),
		subzero_nostr_get_event_address_tag(mainev.kind), jsonb_build_array(mainev.address))
	) as text) as d_tag,
	mainev.h_tag,
	jsonb_build_array(
		jsonb_build_array('output', 'JSON'),
		jsonb_build_array('param', 'group', 'content')
	) as tags,
	:" ;; WriteValue filterID "poll_origin" (AString filterID) ;;
  WriteString " as origin
from " ;; WriteString cteName ;; WriteString " mainev
	left join event_counters ec
		ON ec.reference_id = mainev.address AND ec.kind = 1754
	where
		exists (select true from event_tags WHERE event_id = mainev.id AND event_tag_key = 'poll')
		and mainev.kind = :" ;;
  WriteValue filterID "kind" (AInt (StartKind (DStart d))) ;; WriteString "
	group by mainev.id, mainev.pubkey, mainev.master_pubkey, mainev.kind, mainev.h_tag, mainev.d_tag, mainev.address
".

(* src: database/query/query_where_builder.go 860-907 *)
Definition CountStoriesOf (filterID cteName : string) (d : filterDependency) : B unit :=
  kind ← lift (index (RKinds (DReduce d)) 1);
  WriteString "
union all
select
	6400 as kind,
	cast (EXTRACT(EPOCH FROM CURRENT_TIMESTAMP) as bigint) as created_at,
	to_timestamp_nano(cast (EXTRACT(EPOCH FROM CURRENT_TIMESTAMP) as bigint)) as lookup_created_at,
	'' as id,
	'' as address,
	t.pubkey,
	t.master_pubkey,
	'' as sig,
	cast(coalesce(t.c, 0) as text) as content,
	cast(jsonb_build_array(jsonb_build_object(
		'search', 'expiration::true',
		'kinds', jsonb_build_array(cast(:" ;; WriteValue filterID "reduce_kind" (AInt kind) ;;
  WriteString " as int)),
		'authors', jsonb_build_array(t.master_pubkey))
	) as text) as d_tag,
	'' as h_tag,
	jsonb_build_array(
		jsonb_build_array('output', 'JSON')
	) as tags,
	:" ;; WriteValue filterID "story_origin" (AString filterID) ;;
  WriteString " as origin
from (
	select
		(select count(id) from events cev where
			cev.kind = :" ;; WriteValue filterID "reduce_kind" (AInt kind) ;;
  WriteString "
			and cev.expiration is not null
			and cev.expiration > :" ;; WriteValue filterID "story_now" (AInt now) ;;
  WriteString "
			and ((cev.pubkey = ev_source.pubkey and cev.hidden=false) or (cev.master_pubkey = ev_source.master_pubkey and cev.hidden=false))
			and cev.hidden=false
		) as c,
		ev_source.pubkey,
		ev_source.master_pubkey
	from " ;; WriteString cteName ;; WriteString " ev_source where kind = :" ;;
  WriteValue filterID "start_kind" (AInt (StartKind (DStart d))) ;; WriteString " ) t".

(* src: database/query/query_where_builder.go 909-960 *)
Definition BuildForMostRelevantFollowers (filterID : string) (f : databaseFilterSearch) (d : filterDependency) :
    B unit :=
  let limit := Limit (SFilter f) in
  let limit := if (limit <=? 0) || (whereBuilderDefaultLimit <? limit) then whereBuilderDefaultLimit else limit in
  let authors := Split (Author (DReduce d)) "," in
  WriteString "
	union all
	select
		coalesce(e.kind, 0) as kind,
		coalesce(e.created_at, cast(EXTRACT(EPOCH FROM CURRENT_TIMESTAMP) as bigint)) as created_at,
		coalesce(e.lookup_created_at, 0) as lookup_created_at,
		coalesce(e.id, '') as id,
		coalesce(e.address, '') as address,
		coalesce(e.pubkey, t.master_pubkey) as pubkey,
		coalesce(e.master_pubkey, t.master_pubkey) as master_pubkey,
		coalesce(e.sig, 'ENRICH') as sig,
		coalesce(e.content, '') as content,
		coalesce(e.d_tag, '') as d_tag,
		coalesce(e.h_tag, '') as h_tag,
		coalesce(e.tags, jsonb_build_array()) as tags,
		:" ;; WriteValue filterID "profile_origin" (AString filterID) ;; WriteString " as origin" ;;
  WriteString " FROM
	(
		SELECT DISTINCT e_inner.master_pubkey
		FROM events e_inner
		WHERE e_inner.kind = 3
			AND e_inner.hidden = FALSE
			AND EXISTS (
				SELECT 1
				FROM event_tags et
				WHERE et.event_id = e_inner.id
					AND et.event_tag_key = 'p'
					AND " ;; buildFromSlice sqlOpCodeNONE filterID authors "et.event_tag_value1" "mrf" ;;
  WriteString "
			)
			AND EXISTS (
				SELECT 1
				FROM event_tags et
				INNER JOIN filter0_events_cte em ON et.event_id = em.id
				WHERE et.event_tag_key = 'p'
					AND et.event_tag_value1 = e_inner.master_pubkey
			)
			AND " ;; buildFromSliceNegative sqlOpCodeNONE filterID authors "e_inner.master_pubkey" "mrf" ;;
  WriteString " limit :" ;; WriteValue filterID "mrf_limit" (AInt limit) ;; WriteString ") AS t LEFT JOIN events e ON t.master_pubkey = e.master_pubkey AND e.kind = 0 AND e.hidden = FALSE".

(* src: database/query/query_where_builder.go 962-1003 *)
Definition BuildForTCDataFromAction (filterID cteName : string) : B unit :=
  WriteString " union all select " ;; WriteFields (fieldsNames "tc" "" true) ;;
  WriteString (" from (
	with tc_definitions as (
		select e.*
		from " +:+ cteName +:+ " r
		inner join event_tags et on r.id = et.event_id
		inner join events e on e.address = et.event_tag_value1
		where
			r.kind = 1175
			and et.event_tag_key IN ('e', 'a')
			and e.kind = 31175
			and e.hidden = false
	)
	select ") ;;
  WriteFields (fieldsNames "tc_definitions" (filterID +:+ "tc_def_action") false) ;;
  WriteString " from tc_definitions
	union all
	select " ;; WriteFields (fieldsNames "e" (filterID +:+ "first_1175_action") false) ;;
  WriteString (" from (
		select distinct e.*
		from events e
		inner join " +:+ cteName +:+ " r ON r.first_1175_address = e.id and r.kind = 1175
		where
			e.hidden = false
			and e.kind = 1175
	) e
	where not exists (select 1 from " +:+ cteName +:+ " r2 where r2.id = e.id)
	union all --- Append the original posts
	select ") ;;
  WriteFields (fieldsNames "e" (filterID +:+ "tc_post_action") false) ;;
  WriteString "
	from tc_definitions td
	inner join event_tags et ON td.id = et.event_id
	inner join events e ON e.address = et.event_tag_value1
	where
		et.event_tag_key IN ('e', 'a')
		and e.hidden = false
	) tc".

(* src: database/query/query_where_builder.go 1005-1056 *)
Definition BuildForTCDataFromPost (filterID cteName : string) (d : filterDependency) : B unit :=
  WriteString " union all (select " ;; WriteFields (fieldsNames "tc" "" true) ;;
  startKind ← PushValue filterID "startKind" (AInt (StartKind (DStart d)));
  let existsCondition :=
    if KindIn (DStart d) [KindRepost; KindGenericRepost]
    then "select original_event.master_pubkey from " +:+ cteName +:+ " r
				inner join events original_event on original_event.id = r.reference_id
				inner join event_tags et on et.event_id = e.id
				where
					et.event_tag_value1 = original_event.address
					and et.event_tag_key in ('e', 'a')
					and r.kind = :" +:+ startKind
    else "select r.master_pubkey from event_tags et
				inner join " +:+ cteName +:+ " r on et.event_tag_value1 = r.address
				where
					et.event_id = e.id
					and et.event_tag_key in ('e', 'a')
					and r.kind = :" +:+ startKind in
  WriteString (" from (
	with tc_definitions as (
		select e.*
		from events e
		where
			e.kind = 31175
			and e.hidden = false
			and exists (" +:+ existsCondition +:+ ")
			and not (e.t_tags && cast(array['community_token_action'] as text[]))
	),
	tc_definitions_first_buy as (
		select e.*
		from events e
		where
			e.hidden = false
			and e.kind = 31175
			and exists (select 1 from event_tags et where et.event_id = e.id and et.event_tag_key = 'p' and et.event_tag_value1 in (" +:+ existsCondition +:+ "))
			and e.t_tags && cast(array['community_token_action'] as text[])
	)
	select ") ;;
  WriteFields (fieldsNames "tc_definitions" (filterID +:+ "tc_def") false) ;;
  WriteString " from tc_definitions union all select " ;; WriteFields (fieldsNames "tc_definitions_first_buy" (filterID +:+ "first_31175") false) ;;
  WriteString " from tc_definitions_first_buy) tc)".

Definition newline : string := bytes [10]%nat.

(* src: database/query/query_where_builder.go 1058-1065 *)
Definition BuildDependencyMetadata (d : filterDependency) : B unit :=
  WriteString newline ;; WriteString "---- dependency ----" ;; WriteString newline ;;
  WriteString "---- " ;; WriteString (Expr d) ;; WriteString newline.

(** The query of the counters. *)
(* src: database/query/query_where_builder.go 1080-1142 [BuildDependency] *)
Definition build_counters (filterID cteName : string) (r : filterDependencyReduce) : B unit :=
  WriteString "
union all
select
	6400 as kind,
	cast (EXTRACT(EPOCH FROM CURRENT_TIMESTAMP) as bigint) as created_at,
	to_timestamp_nano(cast (EXTRACT(EPOCH FROM CURRENT_TIMESTAMP) as bigint)) as lookup_created_at,
	'' as address,
	case when counters.kind = 3 then '' else counters.reference_id end as id,
	coalesce(evr.pubkey, '') as pubkey,
	coalesce(evr.master_pubkey, '') as master_pubkey,
	'' as sig,
" ;;
  (if Group r && match RKinds r with _ :: k :: _ => k =? KindReaction | _ => false end
   then WriteString "text(jsonb_object_agg(coalesce(nullif(counters.reference_type, ''), '+'), counters.value)) as content," else WriteString "cast(counters.value as text) as content,") ;;
  WriteString ("
	text(jsonb_build_array(
		jsonb_build_object(
				'kinds', jsonb_build_array(cast(:" +:+ (filterID +:+ "fkind") +:+ " as int)),
				case when :" +:+ (filterID +:+ "ftagname") +:+ " = 'lookup' then
					subzero_nostr_get_event_address_tag(evr.kind)
				else
					:" +:+
    (filterID +:+ "ftagname") +:+ " end,
				jsonb_build_array(jsonb_build_array(
						case when :" +:+ (filterID +:+ "ftagname") +:+ " = 'lookup' then
							evr.address
						else
							counters.reference_id
						end") ;;
  (if (RContext r =s? "root") || (RContext r =s? "reply")
   then WriteString (", null, text(:" +:+ filterID +:+ "context" +:+ ")") else skip) ;;
  WriteString ("))))) as d_tag,
	evr.h_tag,
	case when
		counters.kind = 7 then
			jsonb_build_array(
				jsonb_build_array('output', 'JSON'),
				jsonb_build_array('param', 'group', text(:" +:+ (filterID +:+ "context") +:+ ")
			))
		else
			jsonb_build_array()
		end as tags,
		'' as origin
from
	" +:+ cteName +:+ " evr
left join lateral (
	select ec.kind, ec.value, ec.reference_type, ec.reference_id
	from event_counters ec
	where evr.kind = :" +:+
    (filterID +:+ "kind") +:+ "
		and ec.kind = 3
		and ec.reference_id in (evr.master_pubkey, evr.pubkey)
	union all
	select ec.kind, ec.value, ec.reference_type, ec.reference_id
	from event_counters ec
	where evr.kind = :" +:+ (filterID +:+ "kind") +:+ "
	and ec.reference_id = evr.address
) counters on true
where
	exists (select 1 FROM " +:+ cteName +:+ " ) AND
").

(** The query of the events a dependency loads. *)
(* src: database/query/query_where_builder.go 1157-1175 [BuildDependency] *)
Definition build_events (filterID cteName : string) (r : filterDependencyReduce) : B unit :=
  let masked := match RKinds r with
                | k :: _ => (k =? CustomIONKindTokenizedCommunityAction) || (k =? CustomIONKindTokenizedCommunityDefinition)
                | [] => false end in
  WriteString " union all select " ;;
  for_i 0 (fieldsNames "e" filterID false) (fun i field =>
    (if (0 <? i)%nat then WriteString ", " else skip) ;;
    WriteString (if (field =s? "e.kind") && masked then field +:+ maskKindEphemeralEmbedding else field)) ;;
  WriteString " from events e" ;;
  WriteString (" where exists (select 1 FROM " +:+ cteName +:+ " ) AND e.id not in (select ") ;; WriteString cteName ;; WriteString ".id from " ;;
  WriteString cteName ;; WriteString ") AND ".

(* src: database/query/query_where_builder.go 1179-1215 [BuildDependency] *)
Definition build_references (filterID cteName : string) (r : filterDependencyReduce) (kind : Z) : B unit :=
  WriteString " e.id in (select (select mctx.event_id from event_tags mctx inner join events et ON mctx.event_id = et.id and et.deleted = false " ;;
  (if Author r ≠s? "" then
     WriteString " and ((et.pubkey = :" ;; WriteValue filterID "rauthor" (AString (Author r)) ;;
     WriteString " and et.hidden = false) or (et.master_pubkey = :" ;;
     WriteValue filterID "rauthor" (AString (Author r)) ;; WriteString " and et.hidden = false))"
   else skip) ;;
  WriteString " where mctx.event_tag_key " ;;
  (if ReduceTag r =s? "q" then WriteString " in ('q', 'Q')"
   else if (ReduceTag r =s? "") || (ReduceTag r =s? "e") then WriteString " in ('e', 'a')"
   else WriteString " = :" ;; WriteValue filterID "rtag" (AString (ReduceTag r))) ;;
  WriteString " and et.kind = :" ;; WriteValue filterID "rkind" (AInt kind) ;;
  WriteString " and mctx.event_tag_value1 = em.address" ;;
  (if RContext r ≠s? "" then
     WriteString " and mctx.event_tag_value3 = :" ;; WriteValue filterID "rcontext" (AString (RContext r)) ;;
     (if RContext r =s? "root" then WriteString " and NOT EXISTS (select true from event_tags rctx where rctx.event_id = et.id AND et.deleted = false AND rctx.event_tag_key = mctx.event_tag_key and rctx.event_tag_value3 = 'reply')" else skip)
   else skip) ;;
  WriteString (" LIMIT 1) FROM " +:+ cteName +:+ " em) AND e.hidden = FALSE AND e.deleted = FALSE").

(* src: database/query/query_where_builder.go 1217-1227 [BuildDependency] *)
Definition build_tc_definition (filterID cteName : string) (d : filterDependency) (kind : Z) : B unit :=
  reduceKindParam ← PushValue filterID "rkind" (AInt kind);
  WriteString "e.kind = :" ;; WriteString reduceKindParam ;; WriteString " AND e.hidden = false AND e.id IN (
		select et.event_id
		from event_tags et
		where et.event_tag_key IN ('e', 'a')
			AND et.event_tag_value1 IN (" ;;
  q ← BuildQueryForDependencyStart filterID cteName "address" (DStart d); WriteString q ;;
  WriteString "))".

(* src: database/query/query_where_builder.go 1229-1260 [BuildDependency] *)
Definition build_tc_action (filterID cteName : string) (d : filterDependency) (kind : Z) : B unit :=
  if KindIn (DStart d) [KindProfileMetadata; KindTextNote; KindArticle; CustomIONKindEditableTextNote] then
    WriteString " e.id IN (
				SELECT DISTINCT ON (tc_def.id) act.id
				FROM (
					SELECT def.address AS def_address, def.id
					FROM events def
					INNER JOIN event_tags et ON def.id = et.event_id
					WHERE def.kind = 31175
						AND def.hidden = false
						AND et.event_tag_key IN ('e', 'a')
						AND et.event_tag_value1 IN (" ;;
    q ← BuildQueryForDependencyStart filterID cteName "address" (DStart d); WriteString q ;;
    WriteString ")
				) tc_def
				INNER JOIN event_tags act_et ON act_et.event_tag_value1 = tc_def.def_address
				INNER JOIN events act ON act.id = act_et.event_id
				WHERE act.kind = :" ;; WriteValue filterID "rkind" (AInt kind) ;; WriteString "
					AND act.hidden = false
					AND act.first_1175_address IS NULL
					AND act_et.event_tag_key IN ('e', 'a')
			) AND e.hidden = false"
  else skip.

(* src: database/query/query_where_builder.go 1262-1312 [BuildDependency] *)
Definition build_profile_badges (filterID cteName : string) (d : filterDependency) : B unit :=
  if ProfileBadges (DStart d) &&
     bool_decide (RKinds (DReduce d) = [KindProfileBadges; KindBadgeDefinition; KindBadgeAward])
  then
    kind ← PushValue filterID "start_kind" (AInt (StartKind (DStart d)));
    let usersWithBadges := "e.kind = 30008 AND e.d_tag='profile_badges'
AND (
	(e.master_pubkey = ANY(ARRAY(
		select
			distinct (mk.master_pubkey)
		from " +:+ cteName +:+ " mk
		where
			mk.kind =:" +:+ kind +:+ "
		)) and e.hidden=false)
	OR
	(e.pubkey = ANY(ARRAY(
		select
			distinct (pubkey)
		from " +:+ cteName +:+ " pk
		where
			pk.kind =:" +:+ kind +:+ "
		)) and e.hidden=false)
)
AND e.hidden=false" in
    WriteString usersWithBadges ;; WriteString " union select " ;;
    for_i 0 (fieldsNames "en" filterID false) (fun i field =>
      (if (0 <? i)%nat then WriteString ", " else skip) ;; WriteString field) ;;
    WriteString ("
from
	events en
where
	en.kind in (8, 30009)
	AND en.address in (
			select
				et.event_tag_value1
			from
				event_tags et
			where
				et.event_id in (select e.id from events e where " +:+ usersWithBadges +:+ ")
				AND et.event_tag_key in ('e', 'a')
	) and en.hidden=false")
  else skip.

(* src: database/query/query_where_builder.go 1314-1322 [BuildDependency] *)
Definition build_badge_definition (filterID cteName : string) (d : filterDependency) : B unit :=
  startFilter ← BuildQueryForDependencyStart filterID cteName "id" (DStart d);
  WriteString "e.id in ((select event_tag_value1 from event_tags where event_id in (" ;; WriteString startFilter ;;
  WriteString ") and event_tag_key = 'e')" ;; WriteString " UNION ALL " ;;
  WriteString "(select ee.id from (select subzero_nostr_tag_a_get_pk(event_tag_value1) as pk, subzero_nostr_tag_a_get_dtag(event_tag_value1) as name from event_tags where event_id in (" ;; WriteString startFilter ;;
  WriteString ") and event_tag_key = 'a') badge, events ee where badge.pk = ANY(ARRAY[ee.pubkey, ee.master_pubkey]) and ee.d_tag = badge.name and ee.kind = 30009 and hidden = false)) AND e.hidden=false".

(* src: database/query/query_where_builder.go 1324-1373 [BuildDependency] *)
Definition build_lists (filterID cteName : string) (d : filterDependency) (kind : Z) : B unit :=
  reduceKindParam ← PushValue filterID "rkind" (AInt kind);
  WriteString "e.kind = :" ;; WriteString reduceKindParam ;; WriteString " AND e.hidden = false AND (e.master_pubkey = ANY(ARRAY(" ;;
  q ← BuildQueryForDependencyStart filterID cteName "DISTINCT master_pubkey" (DStart d); WriteString q ;;
  WriteString ")) OR e.pubkey = ANY(ARRAY(" ;;
  q ← BuildQueryForDependencyStart filterID cteName "DISTINCT pubkey" (DStart d); WriteString q ;;
  WriteString ")))" ;; WriteString "
union all
select
	20002,
	cast (EXTRACT(EPOCH FROM CURRENT_TIMESTAMP) as bigint) as created_at,
	to_timestamp_nano(cast (EXTRACT(EPOCH FROM CURRENT_TIMESTAMP) as bigint)) as lookup_created_at,
	'' as id,
	'' as address,
	e.pubkey,
	e.master_pubkey,
	'' as sig,
	'' as content,
	'' as d_tag,
	'' as h_tag,
	'[]' as tags,
	'' as origin
from
	events e
inner join " ;; WriteString cteName ;; WriteString " on e.id = " ;;
  WriteString cteName ;; WriteString (".id where exists (select 1 FROM " +:+ cteName +:+ " ) AND e.kind =:") ;;
  WriteValue filterID "kind" (AInt (StartKind (DStart d))) ;;
  (if StartTag (DStart d) ≠s? "" then
     WriteString " AND EXISTS (select true from event_tags where event_id = " ;; WriteString cteName ;;
     WriteString ".id AND event_tag_key = :" ;; WriteValue filterID "tag" (AString (StartTag (DStart d))) ;;
     WriteString ")"
   else skip) ;;
  WriteString (" AND
not exists (select true from events subev where subev.kind = :" +:+ reduceKindParam +:+ " and
(
	subev.pubkey = ANY(ARRAY[e.master_pubkey, e.pubkey])
	or
	subev.master_pubkey = ANY(ARRAY[e.master_pubkey, e.pubkey])
) and subev.hidden=false)
and e.hidden=false
group by e.master_pubkey, e.pubkey").

(* src: database/query/query_where_builder.go 1374-1385 [BuildDependency] *)
Definition build_profiles (filterID cteName : string) (f : databaseFilterSearch) (d : filterDependency) (kind : Z) :
    B unit :=
  WriteString "e.kind = :" ;; WriteValue filterID "rkind" (AInt kind) ;; ApplyTextSearch f ;;
  (if Author (DReduce d) =s? "" then
     WriteString " AND (e.master_pubkey = ANY(ARRAY(" ;;
     q ← BuildQueryForDependencyStart filterID cteName "DISTINCT master_pubkey" (DStart d); WriteString q ;;
     WriteString ")) OR e.pubkey = ANY(ARRAY(" ;;
     q ← BuildQueryForDependencyStart filterID cteName "DISTINCT pubkey" (DStart d); WriteString q ;;
     WriteString ")))"
   else skip) ;;
  WriteString " and e.hidden=false".

(* src: database/query/query_where_builder.go 1387-1426 [BuildDependency] *)
Definition build_count (filterID cteName : string) (d : filterDependency) : B unit :=
  let r := DReduce d in
  kind ← lift (index (RKinds r) 1);
  WriteString "counters.kind = :" ;; WriteValue filterID "rkind" (AInt kind) ;;
  PushValue filterID "ftagname" (AString "lookup") ;;
  PushValue filterID "fkind" (AInt kind) ;;
  refType ←
    (if EqualFold (ReduceTag r) "q" then
       PushValue filterID "ftagname" (AString "#q") ;;
       PushValue filterID "context" (AString (ReduceTag r)) ;; mret "quote"
     else if (RContext r =s? "content") || (ReduceTag r =s? "e") then
       PushValue filterID "context" (AString (cmp_Or (RContext r) (ReduceTag r))) ;; mret ""
     else if (RContext r =s? "root") || (RContext r =s? "reply") then
       PushValue filterID "context" (AString "reply") ;; mret (RContext r)
     else if ReduceTag r =s? "p" then
       PushValue filterID "ftagname" (AString "#p") ;;
       PushValue filterID "context" (AString (ReduceTag r)) ;; mret "follower"
     else mret "");
  (if refType ≠s? "" then
     WriteString " AND counters.reference_type = :" ;;
     key ← PushValue filterID "rref" (AString refType); WriteString key
   else skip) ;;
  WriteString " AND counters.reference_id IN (" ;;
  (if kind =? KindFollowList then
     q ← BuildQueryForDependencyStart filterID cteName "pubkey" (DStart d); WriteString q ;;
     WriteString " UNION ALL " ;;
     q ← BuildQueryForDependencyStart filterID cteName "master_pubkey" (DStart d); WriteString q
   else q ← BuildQueryForDependencyStart filterID cteName "address" (DStart d); WriteString q) ;;
  WriteString ")" ;;
  (if Group r && (kind =? KindReaction) then
     WriteString " GROUP BY counters.reference_id, counters.kind, evr.pubkey, evr.master_pubkey, evr.h_tag, evr.id, evr.kind, evr.master_pubkey, evr.d_tag, evr.address"
   else skip).

(** The switch over the kind to load; [Kinds[0]] panics without one. *)
(* src: database/query/query_where_builder.go 1178-1430 [BuildDependency] *)
Definition build_reduce (filterID cteName : string) (f : databaseFilterSearch) (d : filterDependency) : B unit :=
  kind ← lift (index (RKinds (DReduce d)) 0);
  if bool_decide (kind ∈ [KindTextNote; KindRepost; KindReaction; KindArticle; KindGenericRepost;
    CustomIONKindEditableTextNote; CustomIONKindPollVote]) then build_references filterID cteName (DReduce d) kind
  else if kind =? CustomIONKindTokenizedCommunityDefinition then build_tc_definition filterID cteName d kind
  else if kind =? CustomIONKindTokenizedCommunityAction then build_tc_action filterID cteName d kind
  else if kind =? KindProfileBadges then build_profile_badges filterID cteName d
  else if kind =? KindBadgeDefinition then build_badge_definition filterID cteName d
  else if (kind =? KindMuteList) || (kind =? KindRelayListMetadata) then build_lists filterID cteName d kind
  else if (kind =? KindProfileMetadata) || (kind =? CustomIONKindAttestation) || (kind =? KindFollowList) then
    build_profiles filterID cteName f d kind
  else if kind =? KindDVMCountResponse then build_count filterID cteName d
  else skip.

(** What is written behind the comment. *)
(* src: database/query/query_where_builder.go 1069-1176 [BuildDependency] *)
Definition dependency_query (filterID cteName : string) (f : databaseFilterSearch) (d : filterDependency) : B unit :=
  let r := DReduce d in
  match RKinds r with
  | k :: ks =>
      if k =? KindDVMCountResponse then
        if match ks with k1 :: _ => (k1 =? CustomIONKindPollVote) && Group r | [] => false end
        then CountVotesOf filterID cteName d
        else if match ks with [_] => RExpiration r | _ => false end
        then CountStoriesOf filterID cteName d
        else build_counters filterID cteName r ;; build_reduce filterID cteName f d
      else if (k =? KindProfileMetadata) && (Author r ≠s? "") then
        BuildForMostRelevantFollowers filterID f d
      else if k =? CustomIONKindTokenizedCommunityDefinition then
        if KindIn (DStart d) [KindProfileMetadata; KindTextNote; KindRepost; KindGenericRepost; KindArticle;
          CustomIONKindEditableTextNote] then BuildForTCDataFromPost filterID cteName d
        else if StartKind (DStart d) =? CustomIONKindTokenizedCommunityAction then
          BuildForTCDataFromAction filterID cteName
        else build_reduce filterID cteName f d
      else build_events filterID cteName r ;; build_reduce filterID cteName f d
  | [] => build_events filterID cteName r ;; build_reduce filterID cteName f d
  end.

(* src: database/query/query_where_builder.go 1067-1431 *)
Definition BuildDependency (filterID cteName : string) (f : databaseFilterSearch) (d : filterDependency) : B unit :=
  BuildDependencyMetadata d ;; dependency_query filterID cteName f d.

(** ** Deletion *)

(* src: database/query/query_where_builder.go 95-100 *)
Record databaseFilterDelete : Type := MkDelete {
  DAuthor : string;
  DIDs : list string;
  DAddresses : list string;
  AccountDelete : bool
}.

(** The non-empty values of the tags of a key. *)
(* src: database/query/query_where_builder.go 119-131 [parseEventAsFilterForDelete] *)
Definition deleted_values (key : string) (tags : Tags) : list string :=
  filter (.≠ "") (Value <$> filter (fun tag => Key tag = key) tags).

(* src: database/query/query_where_builder.go 114-140 *)
Definition parseEventAsFilterForDelete (e : Event) : databaseFilterDelete :=
  let ids := deleted_values "e" (EvTags e) in
  let addresses := deleted_values "a" (EvTags e) in
  MkDelete (GetMasterPublicKey e) ids addresses
    (is_nil ids && is_nil addresses && (GetMasterPublicKey e =s? PubKey e)).

(* src: database/query/query_where_builder.go 1734-1760 *)
Definition BuildForAccountDelete (masterKey : string) : B unit :=
  masterValueName ← PushValue "accountdelete" "master_pubkey" (AString masterKey);
  WriteString ("e.id in (
		select
			ev.id
		from
			events ev
		where
			ev.master_pubkey = :" +:+ masterValueName +:+ "
			and ev.hidden=false
			and ev.kind not in (1175, 31175)
		union all
		select
			badges.id
		from
			event_tags et
		inner join events badges on et.event_id = badges.id
		where
			badges.kind in (30009, 8)
			and badges.pubkey = badges.master_pubkey
			and badges.hidden=false
			and et.event_tag_key = 'p'
			and et.event_tag_value1 = :" +:+ masterValueName +:+ "
		)
	").

(** The events a deletion asks for. *)
(* src: database/query/query_where_builder.go 1774-1784 [ApplyDeleteFilter] *)
Definition delete_targets (filterID : string) (f : databaseFilterDelete) : B unit :=
  if is_nil (DIDs f) && is_nil (DAddresses f) then skip
  else
    WriteString "(" ;; buildFromSlice sqlOpCodeNONE filterID (DIDs f) "id" "" ;;
    for_i 0 (DAddresses f) (fun i address =>
      MaybeOR ;; WriteString "(address = :" ;;
      WriteValue filterID ("address" +:+ Strconv.Itoa (Z.of_nat i)) (AString address) ;; WriteString ")") ;;
    WriteString ") AND ".

(** The events the author may delete. *)
(* src: database/query/query_where_builder.go 1787-1799 [ApplyDeleteFilter] *)
Definition delete_access (filterID : string) (f : databaseFilterDelete) : B unit :=
  owner ← PushValue filterID "pubkey" (AString (DAuthor f));
  WriteString "((pubkey = :" ;; WriteString owner ;;
  WriteString " AND hidden=false) OR (master_pubkey = :" ;; WriteString owner ;;
  WriteString " AND hidden=false) OR ((master_pubkey = :" ;; WriteString owner ;;
  WriteString " AND pubkey != master_pubkey AND " ;;
  WriteString "subzero_nostr_onbehalf_is_allowed_on_time(jsonb(coalesce((select p.tags from events p where p.master_pubkey = master_pubkey and p.kind = 10100 and hidden=false limit 1), '[]')), :" ;;
  WriteString owner ;; WriteString ", kind, :" ;;
  WriteValue filterID "current_timestamp_nano" (AInt now) ;; WriteString ")))))".

(* src: database/query/query_where_builder.go 1762-1800 *)
Definition ApplyDeleteFilter (idx : nat) (f : databaseFilterDelete) : B unit :=
  let filterID := "deletefilter" +:+ Strconv.Itoa (Z.of_nat idx) +:+ "_" in
  WriteString "(" ;; delete_targets filterID f ;; delete_access filterID f.

(** The text after the filters of [BuildForDelete]. *)
(* src: database/query/query_where_builder.go 1816-1850 [BuildForDelete] *)
Definition delete_guard : string :=
  " AND " +:+ whereBuilderDefaultWhere +:+ " AND kind not in (1175)" +:+ " AND (
		case
			when e.kind = 31175 then
				NOT EXISTS (
					select 1
					from events tc_def
					inner join event_tags et on tc_def.id = et.event_id
					where
						et.event_tag_key IN ('e', 'a')
						and et.event_tag_value1 = e.address
						and tc_def.kind = 1175
						and tc_def.hidden = false
				)
			when e.kind in (0, 1, 30023, 30175) then
				NOT EXISTS (
					select 1
					from events tc_def
					inner join event_tags et on tc_def.id = et.event_id
					where
						et.event_tag_key IN ('e', 'a')
						and et.event_tag_value1 = e.address
						and tc_def.kind = 31175
						and tc_def.hidden = false
				)
			else
				true
		end)".

(* src: database/query/query_where_builder.go 1802-1853 *)
Definition BuildForDelete (filters : list databaseFilterDelete) : B unit :=
  match match filters with [f] => if AccountDelete f then Some (DAuthor f) else None | _ => None end with
  | Some author => BuildForAccountDelete author
  | None =>
      for_i 0 filters (fun idx f => MaybeOR ;; ApplyDeleteFilter idx f) ;;
      l ← Len;
      if l =? 0 then lift (Err opaque_error) else WriteString delete_guard
  end.

(** ** Counters *)

(* src: database/query/query_where_builder.go 1855-1864 *)
Definition collectValuesFromTagMap (values : list TagValues) : list string := omap id (concat values).

(* src: database/query/query_where_builder.go 1876-1887 [isValidPrecalculatedCounterFilter] *)
Fixpoint first_reference (supportedTags : list string) (tags : TagMap) : list string :=
  match supportedTags with
  | [] => []
  | tag :: supportedTags =>
      match tags !! tag with
      | Some values => collectValuesFromTagMap values
      | None => first_reference supportedTags tags
      end
  end.

(* src: database/query/query_where_builder.go 1892-1902 [isValidPrecalculatedCounterFilter] *)
Definition counted_kinds : list Z :=
  [KindReaction; KindFollowList; KindTextNote; KindRepost; KindArticle; KindGenericRepost;
   CustomIONKindEditableTextNote; CustomIONKindCommunityJoin; CustomIONKindTokenizedCommunityDefinition].

(* src: database/query/query_where_builder.go 1866-1910 *)
Definition isValidPrecalculatedCounterFilter (f : Filter) : option (list string) :=
  if negb (is_nil (elems (IDs f))) || negb (is_nil (elems (Authors f))) || bool_decide (is_Some (Since f))
     || bool_decide (is_Some (Until f)) || (Search f ≠s? "") then None
  else if negb (size (tags_of f) =? 1)%nat then None
  else
    let references := first_reference ["a"; "q"; "Q"; "e"; "p"; "h"] (tags_of f) in
    if is_nil references then None
    else if forallb (fun kind => bool_decide (kind ∈ counted_kinds)) (elems (Kinds f)) then Some references
    else None.

(* src: database/query/query_where_builder.go 1912-1919 *)
Fixpoint getReplyTypeFromValues (values : list TagValues) : string :=
  match values with
  | [] => ""
  | v :: values => match v with
                   | _ :: _ :: Some t :: _ => t
                   | _ => getReplyTypeFromValues values
                   end
  end.

(* src: database/query/query_where_builder.go 1921-1928 *)
Definition tagsHasQuote (m : TagMap) : bool :=
  bool_decide (is_Some (m !! "q")) || bool_decide (is_Some (m !! "Q")).

(* src: database/query/query_where_builder.go 1955-1977 [BuildForPrecalculatedCounters] *)
Definition counter_reference (tags : TagMap) (kind : Z) : string :=
  if kind =? KindReaction then ""
  else if kind =? KindFollowList then "follower"
  else if bool_decide (kind ∈ [KindTextNote; KindRepost; KindArticle; KindGenericRepost;
    CustomIONKindTokenizedCommunityDefinition; CustomIONKindEditableTextNote]) then
    if tagsHasQuote tags then "quote"
    else match tags !! "e" with
         | Some values => getReplyTypeFromValues values
         | None => match tags !! "a" with Some values => getReplyTypeFromValues values | None => "" end
         end
  else if kind =? CustomIONKindCommunityJoin then "members"
  else "".

(* src: database/query/query_where_builder.go 1936-1990 [BuildForPrecalculatedCounters] *)
Definition build_counter_filter (idx : nat) (f : Filter) : B unit :=
  match isValidPrecalculatedCounterFilter f with
  | None => lift (Err (err errUnsupportedCombination))
  | Some refs =>
      let filterID := "eventcounter" +:+ Strconv.Itoa (Z.of_nat idx) +:+ "_" in
      MaybeOR ;;
      startLen ← Len;
      WriteString "(" ;;
      (if is_nil (elems (Kinds f)) then skip
       else
         WriteString "(" ;;
         for_i 0 (DeduplicateSlice (elems (Kinds f)) (fun k => k)) (fun i kind =>
           MaybeOR ;; WriteString "kind = :" ;;
           WriteValue filterID ("kind" +:+ Strconv.Itoa (Z.of_nat i)) (AInt kind) ;;
           let referenceType := counter_reference (tags_of f) kind in
           if referenceType ≠s? "" then
             WriteString " AND reference_type = :" ;;
             WriteValue filterID ("reference_type" +:+ Strconv.Itoa (Z.of_nat i)) (AString referenceType)
           else skip) ;;
         WriteString ")") ;;
      buildFromSlice sqlOpCodeAND filterID refs "reference_id" "" ;;
      l ← Len;
      if l =? startLen + 1 then lift (Err (err errUnsupportedCombination)) else WriteString ")"
  end.

(* src: database/query/query_where_builder.go 1930-1994 *)
Definition BuildForPrecalculatedCounters (filters : list Filter) : B unit :=
  match filters with
  | [] => lift (Err opaque_error)
  | _ => for_i 0 filters build_counter_filter
  end.

(** ** The statement of a list of filters *)

Definition with_limit (f : databaseFilterSearch) (l : Z) : databaseFilterSearch :=
  let m := SFilter f in
  MkSearch (Flag f) (CurrentUserPubkey f) (FID f) (SearchText f)
    (MkFilter (IDs m) (Kinds m) (Authors m) (Addresses m) (FTags m) (Since m) (Until m) l (Search m))
    (TagMarkers f) (Dependencies f) (Extra f) (Rank f).

(* src: database/query/query_where_builder.go 106-111 *)
Record databaseCTE : Type := MkCTE {
  CFilter : databaseFilterSearch;
  CName : string;
  Body : string;
  OrderBy : string
}.

(* src: database/query/query_where_builder.go 1605-1618 *)
Definition shouldApplyVerifiedFirst (f : databaseFilterSearch) : bool :=
  let m := SFilter f in let tags := tags_of m in
  HasValues tags "t"
  || (HasValues tags "!t" && bool_decide (All tags "!t" = ["unclassified"]))
  || ((Limit m =? 1) && negb (is_nil (elems (Kinds m))) && is_nil (elems (Authors m)) && is_nil (elems (IDs m))).

(** The query of follow lists whose large tags are not loaded. *)
(* src: database/query/query_where_builder.go 1632-1641 [BuildCTE] *)
Definition exclude_kind3 (f : databaseFilterSearch) : bool :=
  let m := SFilter f in
  match elems (Kinds m), Dependencies f, default [] (tags_of m !! "p") with
  | [k], [d], [_] => (k =? KindFollowList) && (StartKind (DStart d) =? KindFollowList) &&
      match RKinds (DReduce d) with [r] => r =? KindProfileMetadata | _ => false end
  | _, _, _ => false
  end.

(* src: database/query/query_where_builder.go 1669-1680 [BuildCTE] *)
Definition exclude_field (field : string) : string :=
  if field =s? "e.tags" then "jsonb_build_array(jsonb_build_array('b', e.master_pubkey)) as tags" else if field =s? "e.sig" then "'PACK' as sig" else field.

(* src: database/query/query_where_builder.go 1620-1717 *)
Definition BuildCTE (f : databaseFilterSearch) : B databaseCTE := fun b =>
  let! (_, w) := BuildWhere f (MkBuilder (Params b) "") in
  let b := MkBuilder (Params w) (text b) in
  let f := if Limit (SFilter f) =? 0 then with_limit f whereBuilderDefaultLimit else f in
  let name := FID f +:+ "events_cte" in
  let fields := fieldsNames "e" name false in
  let ranked := ["r.event_verified as verified"; "r.score"] in
  let! (rank, b) :=
    match Rank f with
    | rankTOP => (mret (" inner join ranked_events r on e.id = r.event_id", "verified desc, score desc", fields ++ ranked) : B (string * string * list string)) b
    | rankTrending =>
        (key ← PushValue (FID f) "trending_since" (AInt (now - 86400000000000));
         mret (" inner join ranked_events r on e.id = r.event_id and e.lookup_created_at > :" +:+ key, "verified desc, score desc", fields ++ ranked)) b
    | rankUndef => Ok ("", "", fields, b)
    end in
  let '(joinString, orderBy, fields) := rank in
  let '(orderBy, fields) :=
    if (orderBy =s? "") && shouldApplyVerifiedFirst f
    then ("verified desc, " +:+ whereBuilderDefaultOrderBy, fields ++ ["verified"]) else (orderBy, fields) in
  let fields := if exclude_kind3 f then exclude_field <$> fields else fields in
  let fields := fields ++ ["first_1175_address"; "reference_id"] in
  let! (limit, b) :=
    (if 0 <? Limit (SFilter f)
     then key ← PushValue (FID f) "limit" (AInt (Limit (SFilter f))); mret (" limit :" +:+ key)
     else mret "" : B string) b in
  Ok (MkCTE f name
       ("( select " +:+ Join fields ", " +:+ " from events e " +:+ joinString +:+ " where " +:+ text w +:+ " order by " +:+
        cmp_Or orderBy whereBuilderDefaultOrderBy +:+ limit +:+ ")") orderBy, b).

Context `{T : Tokenizer} (Unquote : string -> option string).
(** [base64] of the filters' JSON *)
Context (filters_base64 : list Filter -> string).

Definition with_identity (f : databaseFilterSearch) (id : string) (pk : option string) : databaseFilterSearch :=
  MkSearch (Flag f) pk id (SearchText f) (SFilter f) (TagMarkers f) (Dependencies f) (Extra f) (Rank f).

(* src: database/query/query_where_builder.go 1434-1438 [ParseFilters] *)
Definition currentUserPubkey : option string :=
  if Authenticated user && (UPublicKey user ≠s? "") then Some (UPublicKey user) else None.

(* src: database/query/query_where_builder.go 1448-1457 [ParseFilters] *)
Fixpoint parse_filters (i : nat) (filters : list Filter) : outcome (list databaseFilterSearch) :=
  match filters with
  | [] => Ok []
  | filter :: filters =>
      let! f := parseNostrFilter Unquote filter in
      let! out := parse_filters (S i) filters in
      Ok (with_identity f ("filter" +:+ Strconv.Itoa (Z.of_nat i) +:+ "_") currentUserPubkey :: out)
  end.

(* src: database/query/query_where_builder.go 1433-1460 *)
Definition ParseFilters (filters : list Filter) : outcome (list databaseFilterSearch) :=
  match filters with
  | [] => Ok [MkSearch (fun _ => None) currentUserPubkey "empty" "" empty_filter [] []
               [whereBuilderCommunityFilter; whereBuilderNoSoftDeleted] rankUndef]
  | _ => parse_filters 0 filters
  end.

(* src: database/query/query_where_builder.go 1462-1480 *)
Definition BuildSingleWhere (filters : list Filter) : B unit :=
  databaseFilters ← lift (ParseFilters filters);
  for_i 0 databaseFilters (fun i f =>
    (if (0 <? i)%nat then WriteString " OR " else skip) ;;
    WriteString "(" ;; BuildWhere f ;; WriteString ")").

(* src: database/query/query_where_builder.go 75-78 *)
Record databaseFilterTree : Type := MkTree { Root : databaseFilterSearch; Leafs : gmap string filterDependency }.

(* src: database/query/query_where_builder.go 64-68 *)
Record queryBuildResult : Type := MkResult {
  ResultParams : gmap string any;
  Filters_ : gmap string databaseFilterTree;
  Statement : string
}.

(* src: database/query/query_where_builder.go 1537-1547 [Build] *)
Definition dep_name (cte : databaseCTE) (j : nat) : string := CName cte +:+ "_dep" +:+ Strconv.Itoa (Z.of_nat j).

(* src: database/query/query_where_builder.go 1493-1496,1539 [Build] *)
Definition filters_tree (ctes : list databaseCTE) : gmap string databaseFilterTree :=
  fold_left (fun m cte => <[CName cte :=
    MkTree (CFilter cte) (list_to_map (imap (fun j d => (dep_name cte j, d)) (Dependencies (CFilter cte))))]> m) ctes ∅.

(* src: database/query/query_where_builder.go 1520-1548 [Build] *)
Definition build_select (i : nat) (cte : databaseCTE) : B unit :=
  (if (0 <? i)%nat then WriteString (" UNION ALL " +:+ newline) else skip) ;;
  WriteString " (SELECT " ;;
  for_i 0 (fieldsNames (CName cte) "" false) (fun x field =>
    (if (0 <? x)%nat then WriteString ", " else skip) ;; WriteString field) ;;
  WriteString " FROM " ;; WriteString (CName cte) ;;
  (if OrderBy cte ≠s? "" then WriteString " ORDER BY " ;; WriteString (OrderBy cte) else skip) ;;
  WriteString " ) " ;;
  for_i 0 (Dependencies (CFilter cte)) (fun j d => BuildDependency (dep_name cte j) (CName cte) (CFilter cte) d).

(* src: database/query/query_where_builder.go 1482-1560 *)
Definition Build (filters : list Filter) : B queryBuildResult :=
  databaseFilters ← lift (ParseFilters filters);
  ctes ← for_b databaseFilters [] (fun ctes f => cte ← BuildCTE f; mret (ctes ++ [cte]));
  Reset ;;
  WriteString ("--- Filters section begin ---" +:+ newline +:+ "--- ") ;;
  WriteString (filters_base64 filters) ;;
  WriteString (newline +:+ "--- Filters section end ---" +:+ newline) ;;
  WriteString "WITH " ;;
  for_i 0 ctes (fun i cte =>
    (if (0 <? i)%nat then WriteString ("," +:+ newline) else skip) ;;
    WriteString (CName cte) ;; WriteString " AS " ;; WriteString (Body cte)) ;;
  WriteString " (" ;;
  for_i 0 ctes build_select ;;
  WriteString " )" ;;
  (if existsb (fun cte => OrderBy cte ≠s? "") ctes then skip
   else WriteString " ORDER BY " ;; WriteString whereBuilderDefaultOrderBy) ;;
  statement ← String_; params ← Params_;
  mret (MkResult params (filters_tree ctes) statement).
End Where.
