(* ===== verification/QuerySafety.v ===== *)
(** * Package query: what a statement depends on

    Theorems about src/database/query/query_where_builder.go: the text of a
    where clause is a function of the shape of a filter, never of the strings a
    client chose; every named parameter has a value; which inputs panic. *)

From S2P Require Import Prelude GoStd Nostr Model Filters Validator QueryFilter QueryBuilder.
Import Strings.

(** ** The end of a text *)

(** What [IsOnBegin] finds. *)
Definition on_begin (s : string) : outcome bool :=
  if (zlen_s s =? 1) && (s =s? "(") then Ok true
  else
    let! c := byte_at s (zlen_s s - 1) in
    if Ascii.eqb c "(" then Ok true else let! t := slice_from s (zlen_s s - 2) in Ok (t =s? "( ").

Lemma IsOnBegin_eq b : IsOnBegin b = (let! r := on_begin (text b) in Ok (r, b)).
Proof.
  unfold IsOnBegin, on_begin, Len, String_, lift, mbind, B_bind. cbn. destruct (_ && _); [done|].
  destruct (byte_at _ _) as [c| | |]; cbn; try done. destruct (Ascii.eqb _ _); [done|]. by destruct (slice_from _ _).
Qed.

Lemma byte_at_suffix p s k : 0 <= k < zlen_s s -> byte_at (p +:+ s) (zlen_s (p +:+ s) - 1 - k) = byte_at s (zlen_s s - 1 - k).
Proof.
  unfold byte_at, zlen_s. rewrite len_app. intros Hk.
  rewrite !(proj2 (Z.leb_le _ _)) by lia.
  replace (Z.to_nat (Z.of_nat (len p + len s) - 1 - k)) with (len p + Z.to_nat (Z.of_nat (len s) - 1 - k))%nat by lia.
  assert (forall n, String.get (len p + n) (p +:+ s) = String.get n s) as ->; [|done].
  intros n. induction p as [|c p IH]; [done|exact IH].
Qed.

Lemma slice_suffix p s : 2 <= zlen_s s -> slice_from (p +:+ s) (zlen_s (p +:+ s) - 2) = slice_from s (zlen_s s - 2).
Proof.
  unfold slice_from, slice, zlen_s. rewrite len_app. intros Hs.
  rewrite (proj2 (andb_true_iff _ _)) by lia. rewrite (proj2 (andb_true_iff (_ && _) _)) by lia. do 2 f_equal; [lia|].
  replace (Z.to_nat (Z.of_nat (len p + len s) - 2)) with (len p + Z.to_nat (Z.of_nat (len s) - 2))%nat by lia.
  induction p as [|c p IH]; [done|exact IH].
Qed.

(** The last two bytes decide. *)
Lemma on_begin_suffix p s : (2 <= len s)%nat ->
  on_begin (p +:+ s) =
    (let! c := byte_at s (zlen_s s - 1) in
     if Ascii.eqb c "(" then Ok true else let! t := slice_from s (zlen_s s - 2) in Ok (t =s? "( ")).
Proof.
  intros Hl. unfold on_begin. assert ((zlen_s (p +:+ s) =? 1) = false) as -> by (unfold zlen_s; rewrite len_app; lia).
  cbn [andb]. pose proof (byte_at_suffix p s 0) as H. rewrite !Z.sub_0_r in H. rewrite H by (unfold zlen_s; lia).
  by rewrite slice_suffix by (unfold zlen_s; lia).
Qed.

Lemma on_begin_newline p : p ≠ "" -> on_begin (p +:+ newline) = Ok false.
Proof.
  intros Hp. assert (exists q c, p = q +:+ String c "") as (q & c & ->).
  { induction p as [|c p IH]; [done|]. destruct p as [|d p]; [by exists "", c|].
    destruct IH as (q & e & Heq); [done|]. exists (String c q), e. cbn. by rewrite Heq. }
  rewrite app_assoc, on_begin_suffix by (cbn; lia). destruct c as [[] [] [] [] [] [] [] []]; reflexivity.
Qed.

(** ** Builders that agree on everything but values *)

Section Same.
(** The texts before; what is written behind them is compared. *)
Context (p1 p2 : string).

(** The end of the text [s] decides what is written next. *)
Definition closed (s : string) : Prop :=
  p1 = p2 \/ (2 <= len s)%nat \/
  exists q1 q2, p1 = q1 +:+ newline /\ p2 = q2 +:+ newline /\ q1 ≠ "" /\ q2 ≠ "".

Record agree (b1 b2 : queryBuilder) : Prop := {
  agree_text : exists s, text b1 = p1 +:+ s /\ text b2 = p2 +:+ s /\ closed s;
  agree_names : dom (Params b1) = dom (Params b2)
}.

(** Two programs that behave alike from agreeing builders. *)
Definition same {A} (m1 m2 : B A) : Prop := forall b1 b2, agree b1 b2 ->
  match m1 b1, m2 b2 with
  | Ok (a1, b1'), Ok (a2, b2') => a1 = a2 /\ agree b1' b2'
  | Err _, Err _ | Panic, Panic | OutOfFuel, OutOfFuel => True
  | _, _ => False
  end.

Lemma same_ret {A} (a : A) : same (mret a) (mret a).
Proof. done. Qed.
Lemma same_skip : same skip skip.
Proof. done. Qed.
Lemma same_lift {A} (m : outcome A) : same (lift m) (lift m).
Proof. intros b1 b2 Hb. unfold lift. by destruct m. Qed.
Lemma same_WriteString s : same (WriteString s) (WriteString s).
Proof.
  intros b1 b2 [(t & Ht1 & Ht2 & Hl) Hn]. split; [done|]. constructor; [|done].
  exists (t +:+ s). cbn. rewrite Ht1, Ht2, !app_assoc. split_and!; [done..|]. unfold closed. rewrite len_app.
  destruct Hl as [?|[?|?]]; [by left|right; left; lia|by do 2 right].
Qed.
Lemma same_PushValue id name v1 v2 : same (PushValue id name v1) (PushValue id name v2).
Proof. intros b1 b2 [Ht Hn]. cbn. split; [done|]. constructor; [done|]. cbn. by rewrite !dom_insert_L, Hn. Qed.

Lemma same_bind {A A'} (m1 m2 : B A) (f1 f2 : A -> B A') :
  same m1 m2 -> (forall a, same (f1 a) (f2 a)) -> same (mbind f1 m1) (mbind f2 m2).
Proof.
  intros Hm Hf b1 b2 Hb. specialize (Hm b1 b2 Hb). unfold mbind, B_bind. cbn.
  destruct (m1 b1) as [[a1 b1']|x1| |], (m2 b2) as [[a2 b2']|x2| |]; cbn; try done.
  destruct Hm as [-> Hb']. by apply Hf.
Qed.

Lemma same_for_b {A S} (l1 l2 : list A) (s : S) f1 f2 (R : A -> A -> Prop) :
  Forall2 R l1 l2 -> (forall s x y, R x y -> same (f1 s x) (f2 s y)) -> same (for_b l1 s f1) (for_b l2 s f2).
Proof.
  intros Hl Hf. revert s. induction Hl as [|x y l1 l2 Hxy _ IH]; intros s; cbn [for_b]; [done|].
  apply same_bind; [by apply Hf|done].
Qed.

Lemma same_for_i {A} i (l1 l2 : list A) f1 f2 (R : A -> A -> Prop) :
  Forall2 R l1 l2 -> (forall i x y, R x y -> same (f1 i x) (f2 i y)) -> same (for_i i l1 f1) (for_i i l2 f2).
Proof.
  intros Hl Hf. revert i. induction Hl as [|x y l1 l2 Hxy _ IH]; intros i; cbn [for_i]; [done|].
  apply same_bind; [by apply Hf|done].
Qed.

Lemma same_IsOnBegin : same IsOnBegin IsOnBegin.
Proof.
  intros b1 b2 Hb. pose proof Hb as [(s & Ht1 & Ht2 & Hl) _]. rewrite !IsOnBegin_eq, Ht1, Ht2.
  assert (on_begin (p1 +:+ s) = on_begin (p2 +:+ s)) as ->; [|by destruct (on_begin _)].
  destruct Hl as [->|[Hl|(q1 & q2 & -> & -> & H1 & H2)]]; [done|by rewrite !on_begin_suffix|].
  destruct s as [|c s]; [by rewrite !app_nil_r, !on_begin_newline|]. rewrite !app_assoc, !on_begin_suffix; [done|cbn; lia..].
Qed.
End Same.

Lemma Forall2_eq_refl {A} (l : list A) : Forall2 eq l l.
Proof. by induction l; constructor. Qed.

(** Behind the same text the whole texts agree. *)
Lemma same_String p : same p p String_ String_.
Proof. intros b1 b2 [(s & Ht1 & Ht2 & Hl) Hn]. split; [congruence|]. constructor; [by exists s|done]. Qed.
Lemma same_Len p : same p p Len Len.
Proof.
  intros b1 b2 [(s & Ht1 & Ht2 & Hl) Hn]. cbn. split; [congruence|]. constructor; [by exists s|done].
Qed.

(** [MaybeAND] and [MaybeOR] look at the end of the text only. *)
Lemma same_maybe p1 p2 (m : B unit) :
  same p1 p2 m m ->
  same p1 p2 (l ← Len; if l =? 0 then skip else m) (l ← Len; if l =? 0 then skip else m).
Proof.
  intros Hm b1 b2 Hb. pose proof Hb as [(s & Ht1 & Ht2 & Hl) _]. unfold Len, mbind, B_bind. cbn. rewrite Ht1, Ht2.
  assert ((zlen_s (p1 +:+ s) =? 0) = (zlen_s (p2 +:+ s) =? 0)) as ->.
  { unfold zlen_s. rewrite !len_app. destruct Hl as [->|[Hl|(q1 & q2 & -> & -> & _)]]; [done|lia|].
    rewrite !len_app. cbn. lia. }
  destruct (_ =? 0); [done|by apply Hm].
Qed.

#[local] Opaque same.
Create HintDb same.
#[export] Hint Resolve same_ret same_skip same_lift same_String same_Len same_WriteString same_PushValue
  same_IsOnBegin : same.

(** One structural step towards [same p1 p2 m1 m2]. *)
Ltac same_step :=
  match goal with
  | |- forall _, _ => intros ?
  | |- same _ _ (mbind _ _) (mbind _ _) => apply same_bind
  | |- same _ _ (match ?x with _ => _ end) (match ?x with _ => _ end) => destruct x
  | |- same _ _ _ _ => solve [eauto with same]
  end.
Ltac solve_same := cbv zeta; repeat (same_step; cbv beta zeta).

Section Writers.
Context (p1 p2 : string).
#[local] Abbreviation same := (same p1 p2).

Lemma same_MaybeAND : same MaybeAND MaybeAND.
Proof. apply same_maybe. solve_same. Qed.
Lemma same_MaybeOR : same MaybeOR MaybeOR.
Proof. apply same_maybe. solve_same. Qed.
Hint Resolve same_MaybeAND same_MaybeOR : same.
Lemma same_MaybeOP op : same (MaybeOP op) (MaybeOP op).
Proof. unfold MaybeOP. solve_same. Qed.
Hint Resolve same_MaybeOP : same.
Lemma same_WriteValue id name v1 v2 : same (WriteValue id name v1) (WriteValue id name v2).
Proof. unfold WriteValue. solve_same. Qed.
Hint Resolve same_WriteValue : same.
Lemma same_WriteTypedValue id name c v1 v2 : same (WriteTypedValue id name c v1) (WriteTypedValue id name c v2).
Proof. unfold WriteTypedValue. solve_same. Qed.

(** ** The shape of a filter *)

(** Slices the builder cannot tell apart: empty, of one element, or of more. *)
Definition alike {T} `{Countable T} (l1 l2 : list T) : Prop :=
  is_nil l1 = is_nil l2 /\
  (length (DeduplicateSlice l1 (fun x => x)) = 1%nat <-> length (DeduplicateSlice l2 (fun x => x)) = 1%nat).

Lemma same_BuildSlice {T} `{Countable T} `{!Elem T} p l1 l2 op neg id name :
  alike l1 l2 -> same (BuildSlice (MkSlice p l1 op neg) id name) (BuildSlice (MkSlice p l2 op neg) id name).
Proof.
  intros [Hn Hl]. unfold BuildSlice. cbn [Slice ParamName Op Negative].
  destruct l1 as [|x1 l1], l2 as [|x2 l2]; [solve_same|done..|].
  destruct (DeduplicateSlice (x1 :: l1) _) as [|y1 [|z1 d1]], (DeduplicateSlice (x2 :: l2) _) as [|y2 [|z2 d2]];
    cbn in Hl; try (exfalso; lia); solve_same.
Qed.
Lemma same_buildFromSlice {T} `{Countable T} `{!Elem T} op id (l1 l2 : list T) name p :
  alike l1 l2 -> same (buildFromSlice op id l1 name p) (buildFromSlice op id l2 name p).
Proof. apply same_BuildSlice. Qed.
Lemma same_buildFromSliceNegative {T} `{Countable T} `{!Elem T} op id (l1 l2 : list T) name p :
  alike l1 l2 -> same (buildFromSliceNegative op id l1 name p) (buildFromSliceNegative op id l2 name p).
Proof. apply same_BuildSlice. Qed.
End Writers.
#[export] Hint Resolve same_MaybeAND same_MaybeOR same_MaybeOP same_WriteValue same_WriteTypedValue
  same_buildFromSlice same_buildFromSliceNegative : same.

#[export] Instance alike_equivalence {T} `{Countable T} : Equivalence (alike (T := T)).
Proof.
  split; [by split|intros ?? []; split; [done|by symmetry]|].
  intros ??? [H1 H2] [H3 H4]. split; [congruence|by etrans].
Qed.
#[export] Hint Extern 1 (alike ?l ?l) => reflexivity : same.

(** ** The builder does not panic *)

(** [IsOnBegin] looks at the last two bytes: the text is a parenthesis or has
    two bytes. *)
Definition started (b : queryBuilder) : Prop := text b = "(" \/ (2 <= len (text b))%nat.
Definition total {A} (m : B A) : Prop := forall b, started b -> exists a b', m b = Ok (a, b') /\ started b'.

Lemma total_ret {A} (a : A) : total (mret a).
Proof. intros b Hb. by exists a, b. Qed.
Lemma total_skip : total skip.
Proof. apply total_ret. Qed.
Lemma total_Len : total Len.
Proof. intros b Hb. by eexists _, b. Qed.
Lemma total_WriteString s : total (WriteString s).
Proof.
  intros b Hb. eexists _, _. split; [done|]. unfold started in *. cbn [text]. rewrite len_app.
  destruct Hb as [->|Hb]; [|right; lia]. destruct s as [|c s]; [by left|right; cbn; lia].
Qed.
Lemma total_PushValue id name v : total (PushValue id name v).
Proof. intros b Hb. by eexists _, _. Qed.
Lemma total_bind {A A'} (m : B A) (f : A -> B A') : total m -> (forall a, total (f a)) -> total (mbind f m).
Proof.
  intros Hm Hf b Hb. destruct (Hm b Hb) as (a & b' & Hr & Hb'). unfold mbind, B_bind. rewrite Hr. by apply Hf.
Qed.
Lemma total_for_b {A S} (l : list A) (s : S) f : (forall s x, total (f s x)) -> total (for_b l s f).
Proof.
  intros Hf. revert s. induction l as [|x l IH]; intros s; cbn [for_b]; [apply total_ret|].
  apply total_bind; [apply Hf|done].
Qed.
Lemma total_for_i {A} i (l : list A) f : (forall i x, total (f i x)) -> total (for_i i l f).
Proof.
  intros Hf. revert i. induction l as [|x l IH]; intros i; cbn [for_i]; [apply total_skip|].
  apply total_bind; [apply Hf|done].
Qed.
Lemma total_IsOnBegin : total IsOnBegin.
Proof.
  intros b Hb. unfold IsOnBegin, Len, String_, lift, mbind, B_bind. cbn.
  destruct Hb as [Hb|Hb]; [rewrite Hb; exists true, b; split; [done|by left]|].
  assert (exists c, byte_at (text b) (zlen_s (text b) - 1) = Ok c) as [c ->].
  { unfold byte_at, zlen_s. rewrite (proj2 (Z.leb_le _ _)) by lia.
    destruct (String.get _ _) as [c|] eqn:Hg; [by exists c|].
    assert (forall s n, String.get n s = None -> (len s <= n)%nat) as Hlen.
    { intros s. induction s as [|x s IH]; intros [|n] Hn; cbn in *; try lia; [done|]. apply IH in Hn. lia. }
    apply Hlen in Hg. lia. }
  assert (exists t, slice_from (text b) (zlen_s (text b) - 2) = Ok t) as [t ->].
  { unfold slice_from, slice, zlen_s. rewrite (proj2 (andb_true_iff _ _)); [by eexists|].
    split; [apply andb_true_iff; split|]; lia. }
  cbn. destruct (_ && _); [by exists true, b; split; [|right]|].
  destruct (Ascii.eqb _ _); [by exists true, b; split; [|right]|]. by eexists _, b; split; [|right].
Qed.

#[local] Opaque total.
Create HintDb total.
#[export] Hint Resolve total_ret total_skip total_Len total_WriteString total_PushValue total_IsOnBegin : total.
Ltac total_step :=
  match goal with
  | |- forall _, _ => intros ?
  | |- total (mbind _ _) => apply total_bind
  | |- total (match ?x with _ => _ end) => destruct x
  | |- total (for_b _ _ _) => apply total_for_b
  | |- total (for_i _ _ _) => apply total_for_i
  | |- total _ => solve [eauto with total]
  end.
Ltac solve_total := cbv zeta; repeat (total_step; cbv beta zeta).

Lemma total_MaybeAND : total MaybeAND.
Proof. unfold MaybeAND. solve_total. Qed.
Lemma total_MaybeOR : total MaybeOR.
Proof. unfold MaybeOR. solve_total. Qed.
#[export] Hint Resolve total_MaybeAND total_MaybeOR : total.
Lemma total_MaybeOP op : total (MaybeOP op).
Proof. unfold MaybeOP. solve_total. Qed.
Lemma total_WriteValue id name v : total (WriteValue id name v).
Proof. unfold WriteValue. solve_total. Qed.
#[export] Hint Resolve total_MaybeOP total_WriteValue : total.
Lemma total_WriteTypedValue id name c v : total (WriteTypedValue id name c v).
Proof. unfold WriteTypedValue. solve_total. Qed.
Lemma total_BuildSlice {T} `{Countable T} `{!Elem T} (s : sliceBuilder (T := T)) id name : total (BuildSlice s id name).
Proof. unfold BuildSlice. solve_total. Qed.
Lemma total_buildFromSlice {T} `{Countable T} `{!Elem T} op id (l : list T) name p :
  total (buildFromSlice op id l name p).
Proof. apply total_BuildSlice. Qed.
Lemma total_buildFromSliceNegative {T} `{Countable T} `{!Elem T} op id (l : list T) name p :
  total (buildFromSliceNegative op id l name p).
Proof. apply total_BuildSlice. Qed.
#[export] Hint Resolve total_WriteTypedValue total_buildFromSlice total_buildFromSliceNegative : total.
Section Shape.
Context {N : Nostr} {G : GoText} {E : Env} {TM : TagMaps} {U : Unicode}.

#[local] Abbreviation same := (same "" "").

Definition reply_marker (m : databaseFilterMarker) : bool :=
  ((MTag m =? "a") || (MTag m =? "e"))%string && (Marker m =s? TagMarkerReply).
Definition marker_like (m1 m2 : databaseFilterMarker) : Prop :=
  Exclude m1 = Exclude m2 /\ reply_marker m1 = reply_marker m2.

Definition values_like (v1 v2 : TagValues) : Prop :=
  Empty v1 = Empty v2 /\ is_language v1 = is_language v2 /\ Forall2 (fun a b => is_Some a <-> is_Some b) v1 v2.

Definition languages (t : TagMap) : list string :=
  omap (fun v => match v with
    | [Some lang; Some iso] => if EqualFold iso LangISO then Some lang else None
    | _ => None
    end) (default [] (t !! "l")).

Record tags_like (t1 t2 : TagMap) : Prop := {
  tl_keys : range_keys t1 = range_keys t2;
  tl_size : size t1 = size t2;
  tl_d : is_Some (single_d_tag t1) <-> is_Some (single_d_tag t2);
  tl_has : forall k, HasValues t1 k = HasValues t2 k;
  tl_community : is_Some (t1 !! CustomIONTagCommunity) <-> is_Some (t2 !! CustomIONTagCommunity);
  tl_all : forall k, is_nil (All t1 k) = is_nil (All t2 k);
  tl_languages : alike (languages t1) (languages t2);
  tl_values : forall k, Forall2 values_like (default [] (t1 !! k)) (default [] (t2 !! k))
}.

Definition dependency_kinds (d : filterDependency) : Z * list Z := (StartKind (DStart d), RKinds (DReduce d)).

(** Filters of one shape: the strings of a client may differ. *)
Record similar (f1 f2 : databaseFilterSearch) : Prop := {
  sim_id : FID f1 = FID f2;
  sim_flags : forall fl, Flag f1 fl = Flag f2 fl;
  sim_user : is_Some (CurrentUserPubkey f1) <-> is_Some (CurrentUserPubkey f2);
  sim_text : SearchText f1 = "" <-> SearchText f2 = "";
  sim_ids : alike (elems (IDs (SFilter f1))) (elems (IDs (SFilter f2)));
  sim_kinds : elems (Kinds (SFilter f1)) = elems (Kinds (SFilter f2));
  sim_authors : alike (elems (Authors (SFilter f1))) (elems (Authors (SFilter f2)));
  sim_addresses : forall b, alike
    (filter (fun a => Contains a ":" = b) (elems (Addresses (SFilter f1))))
    (filter (fun a => Contains a ":" = b) (elems (Addresses (SFilter f2))));
  sim_since : Since (SFilter f1) = Since (SFilter f2);
  sim_until : Until (SFilter f1) = Until (SFilter f2);
  sim_markers : Forall2 marker_like (TagMarkers f1) (TagMarkers f2);
  sim_tags : tags_like (tags_of (SFilter f1)) (tags_of (SFilter f2));
  sim_dependencies : dependency_kinds <$> Dependencies f1 = dependency_kinds <$> Dependencies f2;
  sim_extra : Extra f1 = Extra f2
}.

(** ** The functions of the where clause *)

Lemma is_Some_match {A B'} (o1 o2 : option A) (a b : B') :
  (is_Some o1 <-> is_Some o2) ->
  match o1 with Some _ => a | None => b end = match o2 with Some _ => a | None => b end.
Proof. intros H. destruct o1, o2; try done; exfalso; rewrite !is_Some_alt in H; tauto. Qed.

(** Two options that are set together. *)
Lemma option_cases {A} (o1 o2 : option A) :
  (is_Some o1 <-> is_Some o2) -> (o1 = None /\ o2 = None) \/ (exists x y, o1 = Some x /\ o2 = Some y).
Proof.
  intros H. destruct o1 as [x|], o2 as [y|]; [right; by exists x, y| | |by left]; exfalso; rewrite !is_Some_alt in H; tauto.
Qed.

Lemma same_ApplyFilterTagMarkers id ms1 ms2 :
  Forall2 marker_like ms1 ms2 -> same (ApplyFilterTagMarkers id ms1) (ApplyFilterTagMarkers id ms2).
Proof.
  intros H. unfold ApplyFilterTagMarkers. eapply same_for_i; [exact H|].
  intros i m1 m2 [He Hr]. unfold reply_marker in Hr. cbv zeta. rewrite He. apply same_bind; [auto with same|]. intros _.
  rewrite Hr. solve_same.
Qed.

Lemma same_apply_values id j v1 v2 n :
  Forall2 (fun a b : option string => is_Some a <-> is_Some b) v1 v2 ->
  same (apply_values id j v1 n) (apply_values id j v2 n).
Proof.
  intros H. revert j n. induction H as [|a b v1 v2 Hab _ IH]; intros j n; cbn [apply_values]; [solve_same|].
  destruct (option_cases _ _ Hab) as [[-> ->]|(x & y & -> & ->)]; solve_same.
Qed.

Lemma same_apply_tuple id name param ex n v1 v2 :
  values_like v1 v2 -> same (apply_tuple id name param ex n v1) (apply_tuple id name param ex n v2).
Proof.
  intros (He & Hl & Hv). unfold apply_tuple. rewrite He, Hl. destruct (Empty v2); [solve_same|].
  destruct (_ && _); [solve_same|]. cbv zeta. rewrite (Forall2_length _ _ _ Hv).
  do 4 (apply same_bind; [solve_same|intros _]).
  apply same_bind; [|solve_same]. apply same_apply_values.
  destruct (_ <? _)%nat; [by apply Forall2_take|done].
Qed.

Lemma same_apply_tag id t1 t2 st k : tags_like t1 t2 -> same (apply_tag id t1 st k) (apply_tag id t2 st k).
Proof.
  intros Ht. unfold apply_tag. destruct st as [tagID tagValue]. cbv zeta. rewrite (tl_has _ _ Ht).
  destruct (_ || _); [solve_same|]. destruct (query_tag k) as [ex q].
  apply same_bind; [solve_same|]. intros _. apply same_bind; [solve_same|]. intros param.
  destruct (negb _); [solve_same|]. apply same_bind; [solve_same|]. intros _.
  apply same_bind; [solve_same|]. intros l. apply same_bind; [|intros n; solve_same].
  eapply same_for_b; [exact (tl_values _ _ Ht k)|]. intros s x y Hxy. by apply same_apply_tuple.
Qed.

Lemma same_ApplyFilterTags id t1 t2 : tags_like t1 t2 -> same (ApplyFilterTags id t1) (ApplyFilterTags id t2).
Proof.
  intros Ht. unfold ApplyFilterTags. rewrite (tl_size _ _ Ht), (tl_keys _ _ Ht).
  destruct (size t2 =? 0)%nat; [solve_same|].
  destruct (option_cases _ _ (tl_d _ _ Ht)) as [[-> ->]|(x & y & -> & ->)]; [|solve_same].
  apply same_bind; [|solve_same]. apply (same_for_b _ _ _ _ _ _ _ eq); [apply Forall2_eq_refl|].
  intros s k ? <-. by apply same_apply_tag.
Qed.

Lemma same_apply_bound id name sql t : same (apply_bound id name sql t) (apply_bound id name sql t).
Proof. unfold apply_bound. solve_same. Qed.
Hint Resolve same_apply_bound : same.
Lemma same_ApplyTimeRange id s u : same (ApplyTimeRange id s u) (ApplyTimeRange id s u).
Proof. unfold ApplyTimeRange. solve_same. Qed.
Hint Resolve same_ApplyTimeRange : same.

Lemma same_apply_flag f1 f2 fl sql name :
  FID f1 = FID f2 -> Flag f1 fl = Flag f2 fl -> same (apply_flag f1 fl sql name) (apply_flag f2 fl sql name).
Proof. intros Hi Hf. unfold apply_flag. rewrite Hi, Hf. solve_same. Qed.

Section Similar.
Context (f1 f2 : databaseFilterSearch) (Hsim : similar f1 f2).

Lemma same_ApplyFilterLang : same (ApplyFilterLang f1) (ApplyFilterLang f2).
Proof.
  pose proof (tl_languages _ _ (sim_tags _ _ Hsim)) as Hl. unfold languages in Hl.
  assert (Heq : forall f, ApplyFilterLang f =
    let langs := languages (tags_of (SFilter f)) in
    if is_nil langs then skip else buildFromSlice sqlOpCodeAND (FID f) langs "e.lang" "langs").
  { intros f. unfold ApplyFilterLang, languages. by destruct (tags_of (SFilter f) !! "l"). }
  rewrite !Heq. cbv zeta. rewrite (sim_id _ _ Hsim). fold (languages (tags_of (SFilter f1))) in Hl.
  fold (languages (tags_of (SFilter f2))) in Hl. rewrite (proj1 Hl). destruct (is_nil _); [solve_same|].
  by apply same_buildFromSlice.
Qed.

Lemma same_ApplyFilterTtags : same (ApplyFilterTtags f1) (ApplyFilterTtags f2).
Proof.
  unfold ApplyFilterTtags, applyFilterTtags. cbv zeta.
  rewrite !(tl_all _ _ (sim_tags _ _ Hsim)), (sim_id _ _ Hsim). solve_same.
Qed.

Lemma same_ApplyFilterForExtensions : same (ApplyFilterForExtensions f1) (ApplyFilterForExtensions f2).
Proof.
  unfold ApplyFilterForExtensions, apply_flag. rewrite !(sim_flags _ _ Hsim), (sim_id _ _ Hsim). solve_same.
Qed.

Lemma same_ApplyFilterGiftWrap : same (ApplyFilterGiftWrap f1) (ApplyFilterGiftWrap f2).
Proof.
  unfold ApplyFilterGiftWrap. rewrite (sim_id _ _ Hsim).
  destruct (option_cases _ _ (sim_user _ _ Hsim)) as [[-> ->]|(x & y & -> & ->)]; solve_same.
Qed.

Lemma same_ApplyFilterSoftDeleted : same (ApplyFilterSoftDeleted f1) (ApplyFilterSoftDeleted f2).
Proof.
  unfold ApplyFilterSoftDeleted. cbv zeta.
  rewrite (sim_kinds _ _ Hsim), (proj1 (sim_authors _ _ Hsim)), (proj1 (sim_ids _ _ Hsim)),
    (tl_has _ _ (sim_tags _ _ Hsim)). solve_same.
Qed.

Lemma same_ApplyTextSearch : same (ApplyTextSearch f1) (ApplyTextSearch f2).
Proof.
  unfold ApplyTextSearch. rewrite (sim_id _ _ Hsim). pose proof (sim_text _ _ Hsim) as Ht.
  destruct (String.eqb_spec (SearchText f1) ""), (String.eqb_spec (SearchText f2) ""); try tauto; solve_same.
Qed.

Lemma existsb_kinds p (l1 l2 : list filterDependency) :
  dependency_kinds <$> l1 = dependency_kinds <$> l2 ->
  existsb (fun d => p (dependency_kinds d)) l1 = existsb (fun d => p (dependency_kinds d)) l2.
Proof.
  revert l2. induction l1 as [|d1 l1 IH]; intros [|d2 l2] H; cbn in *; try done.
  injection H as H1 H2 H3. rewrite (IH l2 H3). unfold dependency_kinds. by rewrite H1, H2.
Qed.

Lemma same_MaybeApplyTextSearch : same (MaybeApplyTextSearch f1) (MaybeApplyTextSearch f2).
Proof.
  unfold MaybeApplyTextSearch. cbv zeta. rewrite (sim_kinds _ _ Hsim).
  pose proof (existsb_kinds (fun p => (p.1 =? KindFollowList) &&
    match p.2 with r :: _ => r =? KindProfileMetadata | [] => false end) _ _ (sim_dependencies _ _ Hsim)) as Hd.
  cbn in Hd. rewrite Hd.
  destruct (match elems _ with [] => _ | _ => _ end); [solve_same|]. apply same_ApplyTextSearch.
Qed.

Lemma same_ApplySpecialKinds : same (ApplySpecialKinds f1) (ApplySpecialKinds f2).
Proof. unfold ApplySpecialKinds. cbv zeta. rewrite (sim_kinds _ _ Hsim), (sim_id _ _ Hsim). solve_same. Qed.

Lemma same_ApplyFilterKinds kinds : same (ApplyFilterKinds f1 kinds) (ApplyFilterKinds f2 kinds).
Proof. unfold ApplyFilterKinds. cbv zeta. rewrite (sim_id _ _ Hsim). solve_same. Qed.

(** A list is empty when both parts of it are. *)
Lemma is_nil_parts (l : list string) (p : string -> bool) :
  is_nil l = is_nil (filter (fun a => p a = true) l) && is_nil (filter (fun a => p a = false) l).
Proof.
  destruct l as [|a l]; [done|]. cbn [is_nil]. rewrite !filter_cons.
  destruct (p a) eqn:Hp; [rewrite decide_True by done|rewrite decide_False, decide_True by congruence]; cbn; [done|].
  by rewrite andb_false_r.
Qed.

Lemma addresses_nil : is_nil (elems (Addresses (SFilter f1))) = is_nil (elems (Addresses (SFilter f2))).
Proof.
  rewrite (is_nil_parts (elems (Addresses (SFilter f1))) (fun a => Contains a ":")),
    (is_nil_parts (elems (Addresses (SFilter f2))) (fun a => Contains a ":")).
  by rewrite !(proj1 (sim_addresses _ _ Hsim _)).
Qed.

Lemma same_ApplyFilterAddresses : same (ApplyFilterAddresses f1) (ApplyFilterAddresses f2).
Proof.
  unfold ApplyFilterAddresses. cbv zeta. rewrite addresses_nil, (sim_id _ _ Hsim).
  pose proof (sim_addresses _ _ Hsim). destruct (is_nil _); solve_same.
Qed.

Lemma isFilterEmpty_similar : isFilterEmpty f1 = isFilterEmpty f2.
Proof.
  unfold isFilterEmpty. cbv zeta.
  rewrite (proj1 (sim_ids _ _ Hsim)), (sim_kinds _ _ Hsim), (proj1 (sim_authors _ _ Hsim)),
    (tl_size _ _ (sim_tags _ _ Hsim)), addresses_nil, (sim_since _ _ Hsim), (sim_until _ _ Hsim).
  assert (is_nil (TagMarkers f1) = is_nil (TagMarkers f2)) as -> by by destruct (sim_markers _ _ Hsim).
  cbn [forallb]. rewrite !(sim_flags _ _ Hsim). f_equal. apply eq_bool_prop_intro.
  rewrite !Is_true_true, !String.eqb_eq. exact (sim_text _ _ Hsim).
Qed.

Lemma same_ApplyFilter : same (ApplyFilter f1) (ApplyFilter f2).
Proof.
  unfold ApplyFilter. cbv zeta. rewrite isFilterEmpty_similar. destruct (isFilterEmpty f2); [solve_same|].
  rewrite (sim_id _ _ Hsim), (proj1 (sim_authors _ _ Hsim)), (sim_since _ _ Hsim), (sim_until _ _ Hsim).
  pose proof (sim_ids _ _ Hsim). pose proof (sim_authors _ _ Hsim).
  rewrite (bool_decide_ext _ _ (tl_community _ _ (sim_tags _ _ Hsim))).
  repeat match goal with |- same (mbind _ _) (mbind _ _) => apply same_bind; [|intros ?] end;
    auto using same_ApplyFilterAddresses, same_ApplySpecialKinds,
    same_ApplyFilterKinds, same_ApplyFilterForExtensions, same_ApplyFilterTtags, same_ApplyFilterLang,
    same_ApplyFilterSoftDeleted, same_MaybeApplyTextSearch with same.
  - solve_same.
  - apply same_ApplyFilterTags. apply (sim_tags _ _ Hsim).
  - apply same_ApplyFilterTagMarkers. apply (sim_markers _ _ Hsim).
  - solve_same.
Qed.

Lemma same_BuildWhere : same (BuildWhere f1) (BuildWhere f2).
Proof.
  unfold BuildWhere. rewrite (sim_extra _ _ Hsim). apply same_bind; [apply same_ApplyFilter|]. intros _.
  apply same_bind; [|intros _; apply same_bind; [solve_same|]; intros _; apply same_bind; [solve_same|];
    intros _; apply same_ApplyFilterGiftWrap].
  apply (same_for_i _ _ _ _ _ _ _ eq); [apply Forall2_eq_refl|]. intros i x ? <-. solve_same.
Qed.
End Similar.

(** ** The where clause does not panic *)

Lemma total_apply_values id j vs n : total (apply_values id j vs n).
Proof. revert j n. induction vs as [|[v|] vs IH]; intros j n; cbn [apply_values]; solve_total; apply IH. Qed.
Hint Resolve total_apply_values : total.
Lemma total_apply_tag id t st k : total (apply_tag id t st k).
Proof. unfold apply_tag, apply_tuple. destruct st, (query_tag k). solve_total. Qed.
Hint Resolve total_apply_tag : total.
Lemma total_ApplyFilterTags id t : total (ApplyFilterTags id t).
Proof. unfold ApplyFilterTags. solve_total. Qed.
Lemma total_ApplyFilterTagMarkers id ms : total (ApplyFilterTagMarkers id ms).
Proof. unfold ApplyFilterTagMarkers. solve_total. Qed.
Hint Resolve total_ApplyFilterTags total_ApplyFilterTagMarkers : total.

(** A range of time that holds no instant. *)
Definition bad_range (m : Filter) : bool :=
  match Since m, Until m with
  | Some s, Some u => negb (s =? u) && TsAfter s u
  | _, _ => false
  end.

Lemma total_ApplyTimeRange id m : bad_range m = false -> total (ApplyTimeRange id (Since m) (Until m)).
Proof.
  unfold bad_range, ApplyTimeRange, apply_bound. intros Hr.
  destruct (Since m), (Until m); solve_total; done.
Qed.

(** Programs that end in an error. *)
Definition fails {A} (m : B A) : Prop := forall b, started b -> exists e, m b = Err e.

Lemma fails_later {A A'} (m : B A) (f : A -> B A') : total m -> (forall a, fails (f a)) -> fails (mbind f m).
Proof.
  intros Hm Hf b Hb. destruct (Hm b Hb) as (a & b' & Hr & Hb'). unfold mbind, B_bind. rewrite Hr. by apply Hf.
Qed.
Lemma fails_now {A A'} (m : B A) (f : A -> B A') : fails m -> fails (mbind f m).
Proof. intros Hm b Hb. destruct (Hm b Hb) as [e Hr]. exists e. unfold mbind, B_bind. by rewrite Hr. Qed.

Lemma fails_ApplyTimeRange id m : bad_range m = true -> fails (ApplyTimeRange id (Since m) (Until m)).
Proof.
  unfold bad_range, ApplyTimeRange. intros Hr b Hb. destruct (Since m), (Until m); try done.
  destruct (_ =? _); [done|]. destruct (TsAfter _ _); [|done]. by eexists.
Qed.

Section Functions.
Context (f : databaseFilterSearch).

Lemma total_ApplyFilterAddresses : total (ApplyFilterAddresses f).
Proof. unfold ApplyFilterAddresses. solve_total. Qed.
Lemma total_ApplySpecialKinds : total (ApplySpecialKinds f).
Proof. unfold ApplySpecialKinds. solve_total. Qed.
Lemma total_ApplyFilterKinds kinds : total (ApplyFilterKinds f kinds).
Proof. unfold ApplyFilterKinds. solve_total. Qed.
Lemma total_ApplyFilterForExtensions : total (ApplyFilterForExtensions f).
Proof. unfold ApplyFilterForExtensions, apply_flag. solve_total. Qed.
Lemma total_ApplyFilterTtags : total (ApplyFilterTtags f).
Proof. unfold ApplyFilterTtags, applyFilterTtags. solve_total. Qed.
Lemma total_ApplyFilterLang : total (ApplyFilterLang f).
Proof. unfold ApplyFilterLang. solve_total. Qed.
Lemma total_ApplyFilterSoftDeleted : total (ApplyFilterSoftDeleted f).
Proof. unfold ApplyFilterSoftDeleted. solve_total. Qed.
Lemma total_ApplyTextSearch : total (ApplyTextSearch f).
Proof. unfold ApplyTextSearch. solve_total. Qed.
Lemma total_MaybeApplyTextSearch : total (MaybeApplyTextSearch f).
Proof. unfold MaybeApplyTextSearch. pose proof total_ApplyTextSearch. solve_total. Qed.
Lemma total_ApplyFilterGiftWrap : total (ApplyFilterGiftWrap f).
Proof. unfold ApplyFilterGiftWrap. solve_total. Qed.
End Functions.
Hint Resolve total_ApplyFilterAddresses total_ApplySpecialKinds total_ApplyFilterKinds
  total_ApplyFilterForExtensions total_ApplyFilterTtags total_ApplyFilterLang total_ApplyFilterSoftDeleted
  total_MaybeApplyTextSearch total_ApplyFilterGiftWrap : total.

Lemma bind_run {A A'} (m : B A) (k : A -> B A') b a b' : m b = Ok (a, b') -> (mbind k m) b = k a b'.
Proof. intros Hr. unfold mbind, B_bind. by rewrite Hr. Qed.

(** The opening parenthesis starts the builder. *)
Lemma opened : exists b, WriteString "(" newQueryBuilder = Ok ((), b) /\ started b.
Proof. eexists. split; [done|by left]. Qed.

(** Where the clause of a filter ends: in an error for an empty range of time. *)
Definition where_fails (f : databaseFilterSearch) : bool := negb (isFilterEmpty f) && bad_range (SFilter f).

Lemma ApplyFilter_spec f b :
  b = newQueryBuilder -> isFilterEmpty f = false ->
  if bad_range (SFilter f) then exists e, ApplyFilter f b = Err e
  else exists b', ApplyFilter f b = Ok ((), b') /\ started b'.
Proof.
  intros -> He. unfold ApplyFilter. cbv zeta. rewrite He. destruct opened as (b & Hw & Hb).
  erewrite !bind_run by exact Hw. destruct (bad_range (SFilter f)) eqn:Hr.
  - match goal with |- exists e, ?m b = Err e => enough (fails m) as H; [exact (H b Hb)|] end.
    pose proof (fails_ApplyTimeRange (FID f) (SFilter f) Hr).
    repeat first [apply fails_now; solve [eauto] | apply fails_later; [solve_total|intros ?] | progress cbv beta zeta].
  - match goal with |- exists b', ?m b = _ /\ _ => enough (total m) as H; [destruct (H b Hb) as ([] & b' & ? & ?); by exists b'|] end.
    pose proof (total_ApplyTimeRange (FID f) (SFilter f) Hr). solve_total.
Qed.

Lemma BuildWhere_spec f :
  Forall (fun x => 2 <= len x)%nat (Extra f) ->
  if where_fails f then exists e, BuildWhere f newQueryBuilder = Err e
  else exists b, BuildWhere f newQueryBuilder = Ok ((), b).
Proof.
  intros Hx. unfold where_fails. destruct (isFilterEmpty f) eqn:He; cbn [negb andb].
  - assert (Hr : ApplyFilter f newQueryBuilder = Ok ((), newQueryBuilder)) by (unfold ApplyFilter; cbv zeta; by rewrite He).
    unfold BuildWhere. erewrite bind_run by exact Hr. destruct (Extra f) as [|x xs].
    + enough (total (ApplyFilterGiftWrap f)) as H; [|solve_total].
      destruct (H (MkBuilder ∅ ("" +:+ whereBuilderDefaultWhere))) as ([] & b & Hg & _); [right; cbn; lia|].
      exists b. exact Hg.
    + apply Forall_cons in Hx as [Hx _].
      match goal with |- exists b, (mbind ?k ?m) ?b0 = _ => enough (total (for_i 1 xs (fun _ extra => MaybeAND ;; WriteString extra)
        ;; MaybeAND ;; WriteString whereBuilderDefaultWhere ;; ApplyFilterGiftWrap f)) as H end; [|solve_total].
      destruct (H (MkBuilder ∅ ("" +:+ x))) as ([] & b & Hg & _); [right; exact Hx|]. exists b. exact Hg.
  - pose proof (ApplyFilter_spec f _ eq_refl He) as Hf. destruct (bad_range _).
    + destruct Hf as [e Hf]. exists e. unfold BuildWhere, mbind, B_bind. by rewrite Hf.
    + destruct Hf as (b & Hf & Hb). unfold BuildWhere. erewrite bind_run by exact Hf.
      match goal with |- exists b', ?m b = _ => enough (total m) as H; [|solve_total] end.
      destruct (H b Hb) as ([] & b' & Hr & _). by exists b'.
Qed.

(** ** The filters of a query add no conditions of their own *)

Context `{T : Tokenizer} (Unquote : string -> option string).

Definition keeps (x : list string) (m : outcome databaseFilterSearch) : Prop := forall f, m = Ok f -> Extra f = x.

Lemma keeps_ret x f : Extra f = x -> keeps x (Ok f).
Proof. by intros ? ? [= <-]. Qed.
Lemma keeps_Err x e : keeps x (Err e).
Proof. done. Qed.
Lemma keeps_bind {A} x (m : outcome A) k : (forall a, keeps x (k a)) -> keeps x (mbind k m).
Proof. intros Hk f (a & _ & Hf)%bind_Ok. exact (Hk a f Hf). Qed.
Lemma keeps_then x m k : keeps x m -> (forall f, Extra f = x -> keeps x (k f)) -> keeps x (mbind k m).
Proof. intros Hm Hk f (a & Ha & Hf)%bind_Ok. exact (Hk a (Hm a Ha) f Hf). Qed.
Lemma keeps_for_state {A} (l : list A) x f g :
  Extra f = x -> (forall f a, Extra f = x -> keeps x (g f a)) -> keeps x (for_state l f g).
Proof.
  intros Hf Hg. revert f Hf. induction l as [|a l IH]; intros f Hf; cbn [for_state]; [by apply keeps_ret|].
  apply keeps_then; [by apply Hg|done].
Qed.

Ltac solve_keeps :=
  repeat match goal with
  | |- forall _, _ => intros ?
  | |- keeps _ (Ok _) => apply keeps_ret; done
  | |- keeps _ (mbind _ _) => apply keeps_bind
  | |- keeps _ (match ?x with _ => _ end) => destruct x
  | |- keeps _ _ => cbv zeta beta
  end.

Lemma marker_loop_keeps fuel f offset : keeps (Extra f) (marker_loop fuel f offset).
Proof.
  revert f offset. induction fuel as [|fuel IH]; intros f offset; cbn [marker_loop]; [done|].
  intros f' ([[g o]|] & Hs & Hf)%bind_Ok; [|by injection Hf as <-].
  apply IH in Hf. rewrite Hf. clear Hf. revert Hs. unfold marker_step.
  intros (? & _ & Hs)%bind_Ok. cbv zeta in Hs. destruct (Index _ _); [|done]. destruct (_ <? 1); [done|].
  apply bind_Ok in Hs as (? & _ & Hs). apply bind_Ok in Hs as (? & _ & Hs).
  destruct (_ ≠s? _); [|by injection Hs as <- <-].
  repeat (apply bind_Ok in Hs as (? & _ & Hs)). by injection Hs as <- <-.
Qed.

Lemma dependency_loop_keeps fuel f : keeps (Extra f) (dependency_loop fuel f).
Proof.
  revert f. induction fuel as [|fuel IH]; intros f; cbn [dependency_loop]; [done|].
  destruct (Index _ _); [|by apply keeps_ret]. repeat (apply keeps_bind; intros ?). cbv zeta.
  repeat (apply keeps_bind; intros ?). match goal with |- keeps _ (dependency_loop _ ?g) => exact (IH g) end.
Qed.

Lemma parseNostrFilter_extra filter f : parseNostrFilter Unquote filter = Ok f -> Extra f = [].
Proof.
  revert f. change (keeps [] (parseNostrFilter Unquote filter)). unfold parseNostrFilter.
  apply keeps_then; [unfold parseNostrFilterText; solve_keeps|]. intros f1 H1.
  apply keeps_then; [apply keeps_for_state; [done|]; intros f [name fl] <-; unfold flag_step; solve_keeps|].
  intros f2 H2. apply keeps_then; [rewrite <- H2; apply marker_loop_keeps|]. intros f3 H3.
  apply keeps_then; [rewrite <- H3; apply dependency_loop_keeps|]. intros f4 H4.
  apply keeps_then; [apply keeps_for_state; [done|]; intros f r <-; unfold rank_step; solve_keeps|].
  intros f5 H5. by apply keeps_ret.
Qed.

Lemma parse_filters_extra i filters fs : parse_filters Unquote i filters = Ok fs -> Forall (fun f => Extra f = []) fs.
Proof.
  revert i fs. induction filters as [|m filters IH]; intros i fs; cbn [parse_filters]; [intros [= <-]; constructor|].
  intros (f & Hf & (rest & Hr & [= <-])%bind_Ok)%bind_Ok. constructor; [|by eapply IH].
  by apply parseNostrFilter_extra in Hf.
Qed.

Lemma ParseFilters_extra filters fs :
  ParseFilters Unquote filters = Ok fs -> Forall (fun f => Forall (fun x => 2 <= len x)%nat (Extra f)) fs.
Proof.
  unfold ParseFilters. destruct filters as [|m filters].
  - intros [= <-]. repeat constructor.
  - intros H%parse_filters_extra. eapply Forall_impl; [exact H|]. by intros f ->.
Qed.

(** ** Theorems *)

(** The where clause of a parsed filter is always built: it is an error
    exactly when the filter is not empty and its range of time is, and no
    filter makes the builder panic. *)
Lemma BuildWhere_total filters fs f :
  ParseFilters Unquote filters = Ok fs -> In f fs ->
  if where_fails f then exists e, BuildWhere f newQueryBuilder = Err e
  else exists b, BuildWhere f newQueryBuilder = Ok ((), b).
Proof.
  intros H%ParseFilters_extra Hin%list_elem_of_In. rewrite Forall_forall in H. by apply BuildWhere_spec, H.
Qed.

End Shape.

(** ** Concrete inputs *)
Module QueryPlain.
Export Plain AsciiText.
#[export] Instance environment : Env := {| user := Filters.no_user; now := 100 |}.
#[export] Instance tag_maps : TagMaps := {|
  HasValues t k := negb (is_nil (default [] (t !! k)));
  All t k := omap id (concat (default [] (t !! k)));
  Empty vs := forallb (fun v => bool_decide (v = None)) vs;
  range_keys t := (map_to_list t).*1 |}.
#[export] Instance unicode : Unicode := {| keep_text s := s |}.
End QueryPlain.

Module QuerySafetyWitness.
Import QueryPlain QueryFilterWitness.

Definition tagged (search tag : string) : Filter :=
  MkFilter None (Some [1]) None None (Some {[ "x" := [[Some tag]] ]}) None None 0 search.

Definition search_of (search tag : string) : databaseFilterSearch :=
  match ParseFilters unquote [tagged search tag] with Ok (f :: _) => f | _ => new_search empty_filter end.

Lemma BuildWhere_total_witness :
  if where_fails (search_of "cats videos:yes" "1") then
    exists e, BuildWhere (search_of "cats videos:yes" "1") newQueryBuilder = Err e
  else exists b, BuildWhere (search_of "cats videos:yes" "1") newQueryBuilder = Ok ((), b).
Proof.
  apply (BuildWhere_total unquote [tagged "cats videos:yes" "1"] [search_of "cats videos:yes" "1"]);
    [vm_compute; reflexivity|by left].
Defined.

(** A tag value with quotes of SQL. *)
Definition hostile : string := "' OR 1=1 --".

Lemma tags_like_singleton k v w : Some v ≠ None -> k ≠ "d" -> k ≠ "l" -> k ≠ CustomIONTagCommunity ->
  tags_like {[ k := [[Some v]] ]} {[ k := [[Some w]] ]}.
Proof.
  intros _ Hd Hl Hh. split.
  - cbn [range_keys tag_maps]. by rewrite !map_to_list_singleton.
  - by rewrite !map_size_singleton.
  - unfold single_d_tag. by rewrite !lookup_singleton_ne by done.
  - intros x. cbn [HasValues All tag_maps]. destruct (decide (k = x)) as [->|Hx]; [by rewrite !lookup_singleton_eq|by rewrite !lookup_singleton_ne by done].
  - by rewrite !lookup_singleton_ne by done.
  - intros x. cbn [HasValues All tag_maps]. destruct (decide (k = x)) as [->|Hx]; [by rewrite !lookup_singleton_eq|by rewrite !lookup_singleton_ne].
  - unfold languages. by rewrite !lookup_singleton_ne by done.
  - intros x. cbv beta. destruct (decide (k = x)) as [->|Hx]; [rewrite !lookup_singleton_eq|rewrite !lookup_singleton_ne by done; constructor].
    constructor; [|constructor]. split_and!; [done..|]. constructor; [|constructor]. split; intros _; by eexists.
Qed.

End QuerySafetyWitness.
