(* ===== verification/QueryDependency.v ===== *)
(** * Package query: the dependencies of a filter

    Theorems about [BuildDependency] of
    src/database/query/query_where_builder.go: what a dependency writes, and
    which dependencies panic. *)

From S2P Require Import Prelude GoStd Nostr Model Filters Validator QueryFilter QueryBuilder QuerySafety.
Import Strings.

(** Dependencies that differ in their text and in who their author is. *)
Record similar_dependency (d1 d2 : filterDependency) : Prop := {
  sd_start : DStart d1 = DStart d2;
  sd_tag : ReduceTag (DReduce d1) = ReduceTag (DReduce d2);
  sd_context : RContext (DReduce d1) = RContext (DReduce d2);
  sd_kinds : RKinds (DReduce d1) = RKinds (DReduce d2);
  sd_group : Group (DReduce d1) = Group (DReduce d2);
  sd_expiration : RExpiration (DReduce d1) = RExpiration (DReduce d2);
  sd_author : Author (DReduce d1) = "" <-> Author (DReduce d2) = "";
  sd_authors : alike (Split (Author (DReduce d1)) ",") (Split (Author (DReduce d2)) ",")
}.

(** The line of a comment that holds the expression, and what is before it. *)
Definition comment (d : filterDependency) : string :=
  newline +:+ "---- dependency ----" +:+ newline +:+ "---- " +:+ Expr d.

Section Dependency.
Context {N : Nostr} {G : GoText} {E : Env} {TM : TagMaps} {U : Unicode}.
Context (filterID cteName : string) (f : databaseFilterSearch).

Lemma same_for_fields p1 p2 (l : list string) (k : nat -> string -> B unit) :
  (forall i x, same p1 p2 (k i x) (k i x)) -> same p1 p2 (for_i 0 l k) (for_i 0 l k).
Proof.
  intros Hk. eapply (same_for_i _ _ _ _ _ _ _ eq); [apply Forall2_eq_refl|]. intros i x ? <-. apply Hk.
Qed.
Lemma same_WriteFields p1 p2 l : same p1 p2 (WriteFields l) (WriteFields l).
Proof. apply same_for_fields. intros i x. solve_same. Qed.
#[local] Hint Resolve same_WriteFields : same.
Ltac solve_fields := solve_same; repeat (apply same_for_fields; solve_same).

Section Similar.
Context (p1 p2 : string) (d1 d2 : filterDependency) (Hd : similar_dependency d1 d2).
#[local] Abbreviation same := (same p1 p2).

Lemma same_start field s : same (BuildQueryForDependencyStart filterID cteName field s)
  (BuildQueryForDependencyStart filterID cteName field s).
Proof. unfold BuildQueryForDependencyStart. solve_same. Qed.
Hint Resolve same_start : same.

Lemma author_empty : (Author (DReduce d1) =s? "") = (Author (DReduce d2) =s? "").
Proof. apply eq_bool_prop_intro. rewrite !Is_true_true, !String.eqb_eq. exact (sd_author _ _ Hd). Qed.

(** Only the author and the text of the dependencies differ. *)
Ltac equal_fields :=
  rewrite ?author_empty, ?(sd_start _ _ Hd), ?(sd_tag _ _ Hd), ?(sd_context _ _ Hd), ?(sd_kinds _ _ Hd),
    ?(sd_group _ _ Hd), ?(sd_expiration _ _ Hd).

Lemma same_references kind : same (build_references filterID cteName (DReduce d1) kind)
  (build_references filterID cteName (DReduce d2) kind).
Proof. unfold build_references. equal_fields. solve_fields. Qed.
Lemma same_counters : same (build_counters filterID cteName (DReduce d1)) (build_counters filterID cteName (DReduce d2)).
Proof. unfold build_counters. equal_fields. solve_fields. Qed.
Lemma same_events : same (build_events filterID cteName (DReduce d1)) (build_events filterID cteName (DReduce d2)).
Proof. unfold build_events. equal_fields. solve_fields. Qed.
Lemma same_followers : same (BuildForMostRelevantFollowers filterID f d1) (BuildForMostRelevantFollowers filterID f d2).
Proof. unfold BuildForMostRelevantFollowers. pose proof (sd_authors _ _ Hd). solve_same. Qed.
Lemma same_tc_definition kind : same (build_tc_definition filterID cteName d1 kind) (build_tc_definition filterID cteName d2 kind).
Proof. unfold build_tc_definition. equal_fields. solve_same. Qed.
Lemma same_tc_action kind : same (build_tc_action filterID cteName d1 kind) (build_tc_action filterID cteName d2 kind).
Proof. unfold build_tc_action. equal_fields. solve_same. Qed.
Lemma same_profile_badges : same (build_profile_badges filterID cteName d1) (build_profile_badges filterID cteName d2).
Proof. unfold build_profile_badges. equal_fields. solve_fields. Qed.
Lemma same_badge_definition : same (build_badge_definition filterID cteName d1) (build_badge_definition filterID cteName d2).
Proof. unfold build_badge_definition. equal_fields. solve_same. Qed.
Lemma same_lists kind : same (build_lists filterID cteName d1 kind) (build_lists filterID cteName d2 kind).
Proof. unfold build_lists. equal_fields. solve_same. Qed.
Lemma same_profiles kind : same (build_profiles filterID cteName f d1 kind) (build_profiles filterID cteName f d2 kind).
Proof. unfold build_profiles, ApplyTextSearch. equal_fields. solve_same. Qed.
Lemma same_count : same (build_count filterID cteName d1) (build_count filterID cteName d2).
Proof. unfold build_count. equal_fields. solve_same. Qed.
Lemma same_votes : same (CountVotesOf filterID cteName d1) (CountVotesOf filterID cteName d2).
Proof. unfold CountVotesOf. equal_fields. solve_same. Qed.
Lemma same_stories : same (CountStoriesOf filterID cteName d1) (CountStoriesOf filterID cteName d2).
Proof. unfold CountStoriesOf. equal_fields. solve_same. Qed.
Lemma same_from_post : same (BuildForTCDataFromPost filterID cteName d1) (BuildForTCDataFromPost filterID cteName d2).
Proof. unfold BuildForTCDataFromPost. equal_fields. solve_same. Qed.
Lemma same_from_action : same (BuildForTCDataFromAction filterID cteName) (BuildForTCDataFromAction filterID cteName).
Proof. unfold BuildForTCDataFromAction. solve_same. Qed.
#[local] Hint Resolve same_references same_counters same_events same_followers same_tc_definition same_tc_action
  same_profile_badges same_badge_definition same_lists same_profiles same_count same_votes same_stories
  same_from_post same_from_action : same.

Lemma same_reduce : same (build_reduce filterID cteName f d1) (build_reduce filterID cteName f d2).
Proof. unfold build_reduce. equal_fields. solve_same. Qed.
#[local] Hint Resolve same_reduce : same.

Lemma same_query : same (dependency_query filterID cteName f d1) (dependency_query filterID cteName f d2).
Proof. unfold dependency_query. equal_fields. solve_same. Qed.
End Similar.

(** ** What a dependency writes, and which ones panic *)

(** An expression without a kind to load, or with the kind of a counter and
    nothing to count. *)
Definition dependency_panics (d : filterDependency) : bool :=
  match RKinds (DReduce d) with
  | [] => true
  | [k] => k =? KindDVMCountResponse
  | _ => false
  end.

Definition panics {A} (m : B A) : Prop := forall b, started b -> m b = Panic.
Lemma panics_now {A A'} (m : B A) (k : A -> B A') : panics m -> panics (mbind k m).
Proof. intros Hm b Hb. unfold mbind, B_bind. by rewrite (Hm b Hb). Qed.
Lemma panics_later {A A'} (m : B A) (k : A -> B A') : total m -> (forall a, panics (k a)) -> panics (mbind k m).
Proof. intros Hm Hk b Hb. destruct (Hm b Hb) as (a & b' & Hr & Hb'). erewrite bind_run by exact Hr. by apply Hk. Qed.
Lemma index_run {A A'} (l : list A) i x (k : A -> B A') b :
  l !! i = Some x -> (mbind k (lift (index l i))) b = k x b.
Proof. intros Hi. apply bind_run. unfold lift, index. by rewrite Hi. Qed.
Lemma total_index {A A'} (l : list A) i x (k : A -> B A') :
  l !! i = Some x -> total (k x) -> total (mbind k (lift (index l i))).
Proof. intros Hi Hk b Hb. erewrite index_run by exact Hi. by apply Hk. Qed.
Lemma panics_index {A} (l : list A) i : l !! i = None -> panics (lift (index l i)).
Proof. intros Hi b Hb. unfold lift, index. by rewrite Hi. Qed.

Lemma total_ext {A} (m1 m2 : B A) : (forall b, m1 b = m2 b) -> total m2 -> total m1.
Proof. intros He H b Hb. rewrite He. by apply H. Qed.

(** The kind of counters is none of the other kinds. *)
Lemma reduce_counter `{NS : !NostrSpec N} d ks b :
  RKinds (DReduce d) = KindDVMCountResponse :: ks -> build_reduce filterID cteName f d b = build_count filterID cteName d b.
Proof.
  intros Hk. unfold build_reduce. erewrite index_run by (by rewrite Hk). pose proof kinds_spec as Hs.
  injection Hs; intros. clear Hs.
  repeat match goal with H : _ = Zpos _ |- _ => rewrite ?H; clear H | H : _ = 0 |- _ => rewrite ?H; clear H end.
  done.
Qed.

#[local] Opaque total.
Lemma total_start field s : total (BuildQueryForDependencyStart filterID cteName field s).
Proof. unfold BuildQueryForDependencyStart. solve_total. Qed.
#[local] Hint Resolve total_start : total.
Lemma total_WriteFields l : total (WriteFields l).
Proof. unfold WriteFields. solve_total. Qed.
#[local] Hint Resolve total_WriteFields : total.
Lemma total_counters r : total (build_counters filterID cteName r).
Proof. unfold build_counters. solve_total. Qed.
Lemma total_events r : total (build_events filterID cteName r).
Proof. unfold build_events. solve_total. Qed.
Lemma total_metadata d : total (BuildDependencyMetadata d).
Proof. unfold BuildDependencyMetadata. solve_total. Qed.
#[local] Hint Resolve total_counters total_events total_metadata : total.
Lemma total_votes d : total (CountVotesOf filterID cteName d).
Proof. unfold CountVotesOf. solve_total. Qed.
Lemma total_followers d : total (BuildForMostRelevantFollowers filterID f d).
Proof. unfold BuildForMostRelevantFollowers. solve_total. Qed.
Lemma total_from_post d : total (BuildForTCDataFromPost filterID cteName d).
Proof. unfold BuildForTCDataFromPost. solve_total. Qed.
Lemma total_from_action : total (BuildForTCDataFromAction filterID cteName).
Proof. unfold BuildForTCDataFromAction. solve_total. Qed.
#[local] Hint Resolve total_votes total_followers total_from_post total_from_action : total.

Lemma total_stories d k0 k1 ks : RKinds (DReduce d) = k0 :: k1 :: ks -> total (CountStoriesOf filterID cteName d).
Proof. intros Hk. unfold CountStoriesOf. eapply total_index; [by rewrite Hk|]. solve_total. Qed.
Lemma total_count d k0 k1 ks : RKinds (DReduce d) = k0 :: k1 :: ks -> total (build_count filterID cteName d).
Proof. intros Hk. unfold build_count. eapply total_index; [by rewrite Hk|]. solve_total. Qed.

(** Only a counter looks further than the first kind. *)
Lemma total_reduce `{NS : !NostrSpec N} d k ks :
  RKinds (DReduce d) = k :: ks -> (k = KindDVMCountResponse -> ks ≠ []) -> total (build_reduce filterID cteName f d).
Proof.
  intros Hk Hne. destruct (Z.eqb_spec k KindDVMCountResponse) as [He|Hk6].
  - specialize (Hne He). destruct ks as [|k1 ks]; [done|]. subst k.
    eapply total_ext; [intros b; by eapply reduce_counter|by eapply total_count].
  - apply Z.eqb_neq in Hk6. unfold build_reduce. eapply total_index; [by rewrite Hk|]. cbv beta. rewrite Hk6.
    unfold build_references, build_tc_definition, build_tc_action, build_profile_badges, build_badge_definition,
      build_lists, build_profiles, ApplyTextSearch. solve_total.
Qed.

Lemma panics_reduce `{NS : !NostrSpec N} d : RKinds (DReduce d) = [KindDVMCountResponse] -> panics (build_reduce filterID cteName f d).
Proof.
  intros Hk b Hb. erewrite reduce_counter by exact Hk. unfold build_count, lift, index, mbind, B_bind. by rewrite Hk.
Qed.

Lemma panics_reduce_nil d : RKinds (DReduce d) = [] -> panics (build_reduce filterID cteName f d).
Proof. intros Hk. unfold build_reduce. apply panics_now, panics_index. by rewrite Hk. Qed.

Lemma dependency_query_spec `{NS : !NostrSpec N} d :
  if dependency_panics d then panics (dependency_query filterID cteName f d) else total (dependency_query filterID cteName f d).
Proof.
  unfold dependency_panics, dependency_query. cbv zeta.
  destruct (RKinds (DReduce d)) as [|k [|k1 ks]] eqn:Hk.
  - apply panics_later; [auto with total|intros _]. by apply panics_reduce_nil.
  - destruct (Z.eqb_spec k KindDVMCountResponse) as [->|Hne].
    + apply panics_later; [auto with total|intros _]. by apply panics_reduce.
    + pose proof (total_reduce d k [] Hk ltac:(done)). solve_total.
  - pose proof (total_reduce d k (k1 :: ks) Hk ltac:(done)). pose proof (total_stories d k k1 ks Hk). solve_total.
Qed.

Lemma dependency_result `{NS : !NostrSpec N} d b :
  started b ->
  if dependency_panics d then BuildDependency filterID cteName f d b = Panic
  else exists b', BuildDependency filterID cteName f d b = Ok ((), b').
Proof.
  intros Hb. pose proof (dependency_query_spec d) as Hq. unfold BuildDependency. destruct (dependency_panics d).
  - by apply panics_later; [auto with total|intros _|].
  - destruct (total_bind (BuildDependencyMetadata d) (fun _ => dependency_query filterID cteName f d)
      (total_metadata d) (fun _ => Hq) b Hb) as ([] & b' & Hr & _). by exists b'.
Qed.

(** A dependency behind the start of a statement panics exactly when it
    has no kind to load, or asks for a counter (kind 6400) without saying of
    what; otherwise its query is written.  (The grammar of dependencies allows
    [kind1>kind6400].) *)
Lemma BuildDependency_panics `{NS : !NostrSpec N} d b :
  started b ->
  if dependency_panics d then BuildDependency filterID cteName f d b = Panic
  else exists b', BuildDependency filterID cteName f d b = Ok ((), b').
Proof. apply dependency_result. Qed.

Lemma metadata_run d b : BuildDependencyMetadata d b = Ok ((), MkBuilder (Params b) (text b +:+ comment d +:+ newline)).
Proof.
  unfold BuildDependencyMetadata, WriteString, mbind, B_bind. cbn -[String.append newline]. unfold comment.
  by rewrite !app_assoc.
Qed.

(** The builders behind the comments of two dependencies. *)
Lemma agree_comments b d1 d2 :
  let p d := text b +:+ comment d +:+ newline in
  agree (p d1) (p d2) (MkBuilder (Params b) (p d1)) (MkBuilder (Params b) (p d2)).
Proof.
  intros p. constructor; [|done]. exists "". cbn. rewrite !app_nil_r. split_and!; [done..|]. do 2 right.
  exists (text b +:+ comment d1), (text b +:+ comment d2). unfold p. rewrite !app_assoc.
  split_and!; [done..| |]; intros Hn%(f_equal len); rewrite len_app in Hn; cbn in Hn; lia.
Qed.

(** Of the strings of a dependency only its expression is written into
    the statement, in a comment that the next line break ends: behind the
    comments of two dependencies that differ in their expressions and authors
    comes the same text, over the same parameter names; they panic together. *)
Lemma BuildDependency_comment `{NS : !NostrSpec N} d1 d2 b :
  started b -> similar_dependency d1 d2 ->
  match BuildDependency filterID cteName f d1 b, BuildDependency filterID cteName f d2 b with
  | Ok (_, b1), Ok (_, b2) =>
      (exists s, text b1 = text b +:+ comment d1 +:+ newline +:+ s /\
                 text b2 = text b +:+ comment d2 +:+ newline +:+ s) /\
      dom (Params b1) = dom (Params b2)
  | Panic, Panic => dependency_panics d1 = true
  | _, _ => False
  end.
Proof.
  intros Hb Hd. pose proof (dependency_result d1 b Hb) as Hr1. revert Hr1. unfold BuildDependency.
  rewrite !(bind_run _ _ _ _ _ (metadata_run _ b)). intros Hr1.
  pose proof (same_query _ _ d1 d2 Hd _ _ (agree_comments b d1 d2)) as Hs.
  destruct (dependency_query _ _ _ d1 _) as [[[] b1]|?| |], (dependency_query _ _ _ d2 _) as [[[] b2]|?| |]; try done;
    destruct (dependency_panics d1); try done; try (by destruct Hr1 as [? ?]).
  destruct Hs as (_ & (s & -> & -> & _) & Hn). split; [|done]. exists s. by rewrite !app_assoc.
Qed.
End Dependency.

(** ** Concrete inputs *)
Module QueryDependencyWitness.
Import QueryPlain.

Definition start3 : filterDependencyStart := MkStart "" 3 false.
Definition behind : queryBuilder := MkBuilder ∅ "WITH filter0_events_cte".
Definition followed_by (expr author : string) : filterDependency :=
  MkDependency expr start3 (MkReduce author "p" "" [0] false false).
Definition counter : filterDependency := MkDependency "kind1>kind6400" (MkStart "" 1 false) (MkReduce "" "" "" [6400] false false).

Lemma behind_started : started behind.
Proof. right. cbn. lia. Qed.

Lemma BuildDependency_panics_witness :
  if dependency_panics counter then BuildDependency "d0" "cte" (new_search empty_filter) counter behind = Panic
  else exists b', BuildDependency "d0" "cte" (new_search empty_filter) counter behind = Ok ((), b').
Proof. exact (BuildDependency_panics "d0" "cte" (new_search empty_filter) counter behind behind_started). Defined.

(** The second expression breaks the line of the comment. *)
Definition plain_author : filterDependency := followed_by "kind3>kind0+p+|alice|" "alice".
Definition broken_author : filterDependency :=
  followed_by ("kind3>kind0+p+|x" +:+ newline +:+ "union all select null|") ("x" +:+ newline +:+ "union all select null").

Lemma BuildDependency_comment_witness :
  match BuildDependency "d0" "cte" (new_search empty_filter) plain_author behind,
        BuildDependency "d0" "cte" (new_search empty_filter) broken_author behind with
  | Ok (_, b1), Ok (_, b2) =>
      (exists s, text b1 = text behind +:+ comment plain_author +:+ newline +:+ s /\
                 text b2 = text behind +:+ comment broken_author +:+ newline +:+ s) /\
      dom (Params b1) = dom (Params b2)
  | Panic, Panic => dependency_panics plain_author = true
  | _, _ => False
  end.
Proof.
  apply (BuildDependency_comment "d0" "cte" (new_search empty_filter) plain_author broken_author behind behind_started).
  split; done.
Defined.
End QueryDependencyWitness.
