(* ===== verification/QueryDelete.v ===== *)
(** * Package query: deletions

    Theorems about [parseEventAsFilterForDelete] and [BuildForDelete] of
    src/database/query/query_where_builder.go, and how they meet the validation
    of deletion events (validation_nip_09.go). *)

From S2P Require Import Prelude GoStd Nostr Model Filters Validator Community QueryFilter QueryBuilder QuerySafety.
Import Strings.

Section Deletion.
Context {N : Nostr} {E : Env}.

(** An [e] or [a] tag with a value. *)
Definition target (t : Tag) : bool := ((Key t =s? "e") || (Key t =s? "a")) && (Value t ≠s? "").
Definition has_target (e : Event) : bool := existsb target (EvTags e).

Lemma deleted_values_nil key tags :
  is_nil (deleted_values key tags) = negb (existsb (fun t => (Key t =s? key) && (Value t ≠s? "")) tags).
Proof.
  unfold deleted_values. induction tags as [|t tags IH]; [done|]. cbn [existsb]. rewrite filter_cons.
  destruct (String.eqb_spec (Key t) key) as [Hk|Hk].
  - rewrite decide_True by done. cbn [fmap list_fmap]. rewrite filter_cons. cbn [andb].
    destruct (String.eqb_spec (Value t) "") as [Hv|Hv]; [rewrite decide_False by tauto; exact IH|by rewrite decide_True by done].
  - rewrite decide_False by done. exact IH.
Qed.

Lemma existsb_target tags :
  existsb target tags = existsb (fun t => (Key t =s? "e") && (Value t ≠s? "")) tags || existsb (fun t => (Key t =s? "a") && (Value t ≠s? "")) tags.
Proof.
  induction tags as [|t tags IH]; [done|]. cbn [existsb]. rewrite IH. unfold target.
  destruct (Key t =s? "e"), (Key t =s? "a"), (Value t ≠s? ""); cbn; rewrite ?orb_true_r; done.
Qed.

Lemma no_targets e :
  is_nil (DIDs (parseEventAsFilterForDelete e)) && is_nil (DAddresses (parseEventAsFilterForDelete e)) = negb (has_target e).
Proof.
  unfold has_target. rewrite existsb_target, negb_orb. unfold parseEventAsFilterForDelete. cbn [DIDs DAddresses].
  by rewrite !deleted_values_nil.
Qed.

(** What the owner of a deletion may delete. *)
Definition access_clause (owner : string) : string :=
  "((pubkey = :" +:+ owner +:+ " AND hidden=false) OR (master_pubkey = :" +:+ owner +:+ " AND hidden=false) OR ((master_pubkey = :"
  +:+ owner +:+ " AND pubkey != master_pubkey AND "
  +:+ "subzero_nostr_onbehalf_is_allowed_on_time(jsonb(coalesce((select p.tags from events p where p.master_pubkey = master_pubkey and p.kind = 10100 and hidden=false limit 1), '[]')), :"
  +:+ owner +:+ ", kind, :" +:+ "deletefilter0_current_timestamp_nano" +:+ ")))))".

Lemma delete_access_run f b :
  delete_access "deletefilter0_" f b =
  Ok ((), MkBuilder (<["deletefilter0_current_timestamp_nano" := AInt now]> (<["deletefilter0_pubkey" := AString (DAuthor f)]> (Params b)))
                    (text b +:+ access_clause "deletefilter0_pubkey")).
Proof.
  unfold delete_access, access_clause, WriteValue, WriteString, PushValue, mbind, B_bind. cbn -[String.append].
  by rewrite !app_assoc.
Qed.

(** What is written behind the parenthesis that opens the targets. *)
Definition inner_targets (id : string) (f : databaseFilterDelete) : B unit :=
  buildFromSlice sqlOpCodeNONE id (DIDs f) "id" "" ;;
  for_i 0 (DAddresses f) (fun i address =>
    MaybeOR ;; WriteString "(address = :" ;;
    WriteValue id ("address" +:+ Strconv.Itoa (Z.of_nat i)) (AString address) ;; WriteString ")") ;;
  WriteString ") AND ".

Lemma inner_same p id f : same p p (inner_targets id f) (inner_targets id f).
Proof.
  unfold inner_targets. apply same_bind; [by apply same_buildFromSlice|intros _]. apply same_bind; [|solve_same].
  eapply (same_for_i _ _ _ _ _ _ _ eq); [apply Forall2_eq_refl|]. intros i x ? <-. solve_same.
Qed.

#[local] Opaque total.
Lemma inner_total id f : total (inner_targets id f).
Proof. unfold inner_targets. solve_total. Qed.
#[local] Transparent total.

(** The conditions on ids and addresses: none without targets. *)
Lemma targets_run f b : started b ->
  exists s b', delete_targets "deletefilter0_" f b = Ok ((), b') /\ text b' = text b +:+ s /\
    (s = "" <-> is_nil (DIDs f) && is_nil (DAddresses f) = true).
Proof.
  intros Hb. unfold delete_targets. destruct (_ && _) eqn:He; [exists "", b; by rewrite app_nil_r|].
  fold (inner_targets "deletefilter0_" f). set (c := MkBuilder (Params b) (text b +:+ "(")).
  assert (Hc : started c) by (right; unfold c; cbn; rewrite len_app; destruct Hb as [->|?]; cbn; lia).
  destruct (inner_total "deletefilter0_" f c Hc) as ([] & b' & Hr & _).
  assert (Ha : agree (text c) (text c) c c) by (constructor; [exists ""; rewrite app_nil_r; split_and!; [done..|by left]|done]).
  pose proof (inner_same (text c) "deletefilter0_" f c c Ha) as Hs. rewrite Hr in Hs.
  destruct Hs as (_ & (s & Hs & _) & _). exists ("(" +:+ s), b'. split_and!; [exact Hr| |done].
  rewrite Hs. unfold c. cbn. by rewrite app_assoc.
Qed.

Lemma ApplyDeleteFilter_run f :
  exists targets b, ApplyDeleteFilter 0 f newQueryBuilder = Ok ((), b) /\
    text b = "(" +:+ targets +:+ access_clause "deletefilter0_pubkey" /\
    (targets = "" <-> is_nil (DIDs f) && is_nil (DAddresses f) = true) /\
    Params b !! "deletefilter0_pubkey" = Some (AString (DAuthor f)).
Proof.
  destruct (targets_run f (MkBuilder ∅ ("" +:+ "("))) as (s & b' & Hr & Ht & Hn); [by left|].
  eexists s, _. split; [|split; [|split; [exact Hn|]]].
  - unfold ApplyDeleteFilter. erewrite bind_run by reflexivity. erewrite bind_run by exact Hr. apply delete_access_run.
  - cbn -[access_clause]. by rewrite Ht.
  - cbn. by rewrite lookup_insert_ne, lookup_insert_eq.
Qed.

Lemma BuildForDelete_run f : AccountDelete f = false ->
  exists targets b, BuildForDelete [f] newQueryBuilder = Ok ((), b) /\
    text b = "(" +:+ targets +:+ access_clause "deletefilter0_pubkey" +:+ delete_guard /\
    (targets = "" <-> is_nil (DIDs f) && is_nil (DAddresses f) = true) /\
    Params b !! "deletefilter0_pubkey" = Some (AString (DAuthor f)).
Proof.
  intros Hf. destruct (ApplyDeleteFilter_run f) as (s & b & Hr & Ht & Hn & Hp).
  exists s, (MkBuilder (Params b) (text b +:+ delete_guard)). split; [|split; [|done]].
  - unfold BuildForDelete. rewrite Hf. erewrite bind_run.
    2:{ cbn [for_i]. erewrite bind_run; [reflexivity|]. erewrite bind_run by reflexivity. exact Hr. }
    cbv beta. erewrite bind_run by reflexivity.
    assert ((zlen_s (text b) =? 0) = false) as ->; [|done]. rewrite Ht. unfold zlen_s. rewrite len_app. cbn [len]. lia.
  - cbn -[access_clause delete_guard]. by rewrite Ht, !app_assoc.
Qed.

(** The statement of a deletion that is not one of an account is bound
    to the owner of the deletion event, and has a condition on ids and
    addresses exactly when a tag names one: without a target the condition is
    the owner's alone. *)
Lemma BuildForDelete_scope e :
  AccountDelete (parseEventAsFilterForDelete e) = false ->
  exists targets b, BuildForDelete [parseEventAsFilterForDelete e] newQueryBuilder = Ok ((), b) /\
    text b = "(" +:+ targets +:+ access_clause "deletefilter0_pubkey" +:+ delete_guard /\
    (targets = "" <-> has_target e = false) /\
    Params b !! "deletefilter0_pubkey" = Some (AString (GetMasterPublicKey e)).
Proof.
  intros Ha. destruct (BuildForDelete_run _ Ha) as (s & b & Hr & Ht & Hn & Hp). exists s, b. split_and!; [done..| |done].
  rewrite Hn, no_targets. by destruct (has_target e).
Qed.

(** C22: the validation of deletions accepts an event made on behalf of an
    account whose tags name no target at all, and its statement deletes
    whatever the owner of the account may delete: the condition on ids and
    addresses is missing. *)
Theorem targetless_deletion v e :
  existsb (fun t => bool_decide (Key t ∈ ["e"; "a"; "k"])) (EvTags e) = false ->
  GetMasterPublicKey e ≠ PubKey e ->
  validateKindDeletionEvent v e = pass /\
  exists b, BuildForDelete [parseEventAsFilterForDelete e] newQueryBuilder = Ok ((), b) /\
    text b = "(" +:+ access_clause "deletefilter0_pubkey" +:+ delete_guard.
Proof.
  intros Hk Hm.
  assert (Hget : forall k, k ∈ ["e"; "a"; "k"] -> GetTags e k = []).
  { intros k Hin. unfold GetTags. induction (EvTags e) as [|t tags IH]; [done|]. cbn [existsb] in Hk.
    apply orb_false_iff in Hk as [Ht Hk]. rewrite filter_cons, decide_False; [auto|].
    intros Heq. apply bool_decide_eq_false_1 in Ht. rewrite Heq in Ht. by apply Ht. }
  split.
  - unfold validateKindDeletionEvent, validateDeleteCommunityEvents. destruct (is_nil _); [done|].
    rewrite !Hget by decide_in. done.
  - assert (Hnt : has_target e = false).
    { clear Hget. unfold has_target. induction (EvTags e) as [|t tags IH]; [done|]. cbn [existsb] in Hk |- *.
      apply orb_false_iff in Hk as [Ht Hk]. rewrite IH by done. unfold target. apply bool_decide_eq_false_1 in Ht.
      destruct (String.eqb_spec (Key t) "e") as [He|]; [by exfalso; apply Ht; rewrite He; decide_in|].
      destruct (String.eqb_spec (Key t) "a") as [He|]; [by exfalso; apply Ht; rewrite He; decide_in|]. done. }
    destruct (BuildForDelete_run (parseEventAsFilterForDelete e)) as (s & b & Hr & Ht & Hn & _).
    { unfold parseEventAsFilterForDelete. cbn. apply andb_false_iff. right. by apply String.eqb_neq. }
    exists b. split; [done|]. rewrite Ht. rewrite no_targets, Hnt in Hn. by rewrite (proj2 Hn).
Qed.
End Deletion.

(** ** Concrete inputs *)
Module QueryDeleteWitness.
Import QueryPlain.

(** A device deletes on behalf of the account; the tags name nothing. *)
Definition targetless : Event := MkEvent None "x" "device" 60 5 [["b"; "master"]] "" "".
Definition targeted : Event := MkEvent None "x" "device" 60 5 [["b"; "master"]; ["e"; "n1"]; ["k"; "1"]] "" "".
Definition v : eventValidator := MkValidator None (fun _ => []) [].

Lemma BuildForDelete_scope_witness :
  exists targets b, BuildForDelete [parseEventAsFilterForDelete targeted] newQueryBuilder = Ok ((), b) /\
    text b = "(" +:+ targets +:+ access_clause "deletefilter0_pubkey" +:+ delete_guard /\
    (targets = "" <-> has_target targeted = false) /\
    Params b !! "deletefilter0_pubkey" = Some (AString (GetMasterPublicKey targeted)).
Proof. apply (BuildForDelete_scope targeted). reflexivity. Defined.

Lemma targetless_deletion_witness :
  validateKindDeletionEvent v targetless = pass /\
  exists b, BuildForDelete [parseEventAsFilterForDelete targetless] newQueryBuilder = Ok ((), b) /\
    text b = "(" +:+ access_clause "deletefilter0_pubkey" +:+ delete_guard.
Proof. apply (targetless_deletion v targetless); [reflexivity|discriminate]. Defined.
End QueryDeleteWitness.
