(* ===== verification/Connector.v ===== *)
(** * Package connector: errors of the database and retries

    src/database/query/internal/connector.  The driver (pgx, pgconn), the
    scanner (scany), the pools and the time between attempts are not part of
    the repository: a statement is run by a function of the environment, the
    error it returns is a [driverError], and the number of attempts the
    elapsed time allows is a parameter.  The texts of errors are not kept,
    except those the code reads. *)

From S2P Require Import Prelude GoStd.
Import Strings.

(** ** Errors of the driver *)

(** [pgconn.PgError] *)
Record PgError : Type := MkPg {
  SQLState : string;
  Message : string;
  Detail : string;
  TableName : string;
  ConstraintName : string
}.

(** What [errors.Is] and [errors.As] tell about an error of the driver: no rows, an
    error of PostgreSQL, a failure of the network or of a connection attempt. *)
Inductive driverError : Type :=
  | NoRows
  | PgErr (e : PgError)
  | NetOp
  | Connect (net : bool)
  | OtherError (e : error).

(** An error of the connector: its sentinels, and what is found in its chain.
    [duplicate] is the constraint of a [DuplicateError], which chains hold by
    value. *)
Record dbError : Type := MkDbError {
  sentinels : error;
  pg : option PgError;
  duplicate : option string;
  net_op : bool;
  connect : bool
}.
Definition plain_error (s : sentinel) : dbError := MkDbError (err s) None None false false.
Definition with_driver (e : error) (d : option PgError) : dbError := MkDbError e d None false false.
(** [errors.Join] *)
Definition join_db (a b : dbError) : dbError :=
  MkDbError (join_error (sentinels a) (sentinels b))
    (match pg a with Some x => Some x | None => pg b end)
    (match duplicate a with Some x => Some x | None => duplicate b end)
    (net_op a || net_op b) (connect a || connect b).
Definition db_is (e : dbError) (s : sentinel) : bool := error_is (sentinels e) s.

(** [errors.As] of a [*DuplicateError]: a value of the chain is not assignable to
    a pointer, and no pointer is ever put into one. *)
Definition as_duplicate_pointer (e : dbError) : option string := None.

(** The codes of pgerrcode (PostgreSQL, appendix A). *)
Definition UniqueViolation : string := "23505".
Definition ForeignKeyViolation : string := "23503".
Definition CheckViolation : string := "23514".
Definition SerializationFailure : string := "40001".
Definition DeadlockDetected : string := "40P01".
Definition InFailedSQLTransaction : string := "25P02".
Definition AmbiguousFunction : string := "42725".
Definition AmbiguousColumn : string := "42702".
Definition InvalidParameterValue : string := "22023".
Definition UndefinedTable : string := "42P01".
Definition UndefinedColumn : string := "42703".
Definition ExclusionViolation : string := "23P01".
Definition RaiseException : string := "P0001".
Definition CharacterNotInRepertoire : string := "22021".
Definition SyntaxError : string := "42601".
Definition ReadOnlySQLTransaction : string := "25006".
Definition FeatureNotSupported : string := "0A000".

Definition in_codes (code : string) (l : list string) : bool := bool_decide (code ∈ l).

(* src: database/query/internal/connector/errors.go 93-139 [parseError] *)
Definition parse_pg (e : PgError) : dbError :=
  let code := SQLState e in
  if code =s? UniqueViolation then
    MkDbError (err ErrDuplicate) (Some e) (Some (ConstraintName e)) false false
  else if code =s? ForeignKeyViolation then
    plain_error (if Contains (Detail e) "is still referenced from table" then ErrRelationInUse else ErrRelationNotFound)
  else if code =s? CheckViolation then plain_error ErrCheckFailed
  else if in_codes code [SerializationFailure; DeadlockDetected] then plain_error ErrSerializationFailure
  else if code =s? InFailedSQLTransaction then plain_error ErrTxAborted
  else if in_codes code [AmbiguousFunction; AmbiguousColumn; InvalidParameterValue] then plain_error ErrOperatorError
  else if code =s? UndefinedTable then plain_error ErrRelationNotFound
  else if code =s? ExclusionViolation then plain_error ErrExclusionViolation
  else if code =s? RaiseException then with_driver (err ErrException) (Some e)
  else if code =s? CharacterNotInRepertoire then plain_error ErrInvalidData
  else if code =s? SyntaxError then plain_error ErrInternal
  else if in_codes code [ReadOnlySQLTransaction; FeatureNotSupported] then plain_error ErrReadOnly
  else with_driver opaque_error (Some e).

(* src: database/query/internal/connector/errors.go 84-143 *)
Definition parseError (e : driverError) : dbError :=
  match e with
  | NoRows => plain_error ErrNoRecord
  | PgErr e => parse_pg e
  | NetOp => MkDbError opaque_error None None true false
  | Connect net => MkDbError opaque_error None None net true
  | OtherError e => with_driver e None
  end.

(* src: database/query/internal/connector/api.go 229-238 *)
Definition IsUnexpected (e : option dbError) : bool :=
  match e with
  | None => false
  | Some e =>
      match pg e with
      | Some p => (SQLState p ≠s? SyntaxError) && (SQLState p ≠s? UndefinedColumn)
      | None => net_op e || db_is e ErrSerializationFailure
      end
  end.

(** The class of a code: connection exceptions, system and internal errors,
    errors of the configuration file, operator intervention (pgerrcode). *)
Definition dead_class (code : string) : bool :=
  existsb (HasPrefix code) ["08"; "58"; "XX"; "F0"; "57"].

(* src: database/query/internal/connector/api.go 240-261 *)
Definition isInstanceDead (e : option dbError) : bool :=
  match e with
  | None => false
  | Some e => net_op e || connect e || match pg e with Some p => dead_class (SQLState p) | None => false end
  end.

(* src: database/query/internal/connector/api.go 90-92 *)
Definition shouldRetryTransaction (e : option dbError) : bool :=
  match e with Some e => db_is e ErrSerializationFailure || db_is e ErrTxAborted | None => false end.

(** ** Statements and retries *)

Section Retry.
(** The state of the world a statement changes. *)
Context {S : Type}.

(** [backoff.Retry]: an error it is told to stop at, or the last error when no
    time is left; [attempts] is the number of attempts the time allows. *)
Inductive attempt_result (A : Type) : Type :=
  | Done (a : A) (e : option dbError)
  | Again (a : A) (e : dbError).
#[global] Arguments Done {A}.
#[global] Arguments Again {A}.

(* src: database/query/internal/connector/retry.go 18-33 *)
Fixpoint withRetry {A} (attempts : nat) (op : S -> S * attempt_result A) (s : S) : S * (A * option dbError) :=
  match op s with
  | (s, Done a e) => (s, (a, e))
  | (s, Again a e) => match attempts with O => (s, (a, Some e)) | Datatypes.S n => withRetry n op s end
  end.

Context (attempts : nat).

(** Reads. *)
(* src: database/query/internal/connector/api.go 94-102 [Get] *)
Definition read_retried {A} (op : S -> S * (A * option driverError)) (none : A) (s : S) : S * (A * option dbError) :=
  withRetry attempts (fun s =>
    let '(s, (a, e)) := op s in
    match parseError <$> e with
    | Some x => if IsUnexpected (Some x) then (s, Again none x) else (s, Done none (Some x))
    | None => (s, Done a None)
    end) s.

(** Writes: a dead master is switched, whose own error is joined. *)
(* src: database/query/internal/connector/api.go 189-199 [ExecMany] *)
Definition exec_retried {A} (switch : S -> S * option dbError) (op : S -> S * (A * option driverError)) (none : A) (s : S) :
    S * (A * option dbError) :=
  withRetry attempts (fun s =>
    let '(s, (a, e)) := op s in
    match parseError <$> e with
    | Some x =>
        if isInstanceDead (Some x) then
          let '(s, y) := switch s in (s, Again none (match y with Some y => join_db x y | None => x end))
        else if IsUnexpected (Some x) then (s, Again none x)
        else (s, Done none (Some x))
    | None => (s, Done a None)
    end) s.

(* src: database/query/internal/connector/api.go 201-214 [ExecManyWithCustomRetry] *)
Definition exec_custom {A} (retryIf : dbError -> bool) (switch : S -> S * option dbError)
    (op : S -> S * (A * option driverError)) (none : A) (s : S) : S * (A * option dbError) :=
  withRetry attempts (fun s =>
    let '(s, (a, e)) := op s in
    match parseError <$> e with
    | None => (s, Done a None)
    | Some x =>
        if isInstanceDead (Some x) then
          let '(s, y) := switch s in (s, Again none (match y with Some y => join_db x y | None => x end))
        else if retryIf x then (s, Again none x)
        else (s, Done none (Some x))
    end) s.
End Retry.

(** ** Lemmas *)

Section RetryLemmas.
Context {S : Type} (attempts : nat) {A : Type}.

(** A read keeps what every run of the statement keeps, and its error is that of
    a run. *)
Lemma read_retried_inv (P : S -> Prop) (Q : driverError -> Prop) op (none : A) s :
  (forall s, P s -> P (op s).1 /\ forall e, (op s).2.2 = Some e -> Q e) -> P s ->
  P (read_retried attempts op none s).1 /\
  forall x, (read_retried attempts op none s).2.2 = Some x -> exists e, x = parseError e /\ Q e.
Proof.
  intros Hop. unfold read_retried. revert s. induction attempts as [|n IH]; intros s Hs; cbn [withRetry];
    destruct (Hop s Hs) as [H1 H2]; destruct (op s) as [s1 [a e]]; cbn in H1, H2.
  all: destruct e as [e|]; cbn [fmap option_fmap option_map]; [destruct (IsUnexpected _)|]; cbn; try done.
  all: try (by split; [done|]; intros x [= <-]; eauto).
  by apply IH.
Qed.
End RetryLemmas.
