(* ===== verification/Masters.v ===== *)
(** * Package connector: masters and replicas

    src/database/query/internal/connector/storage.go: the pools of connections to the
    masters and to the replicas, the switch to another master when one fails, and the
    goroutines that lead back to the preferred one.  pgx is a parameter: a pool is a
    number, opened for a connection string.  The lock makes a switch one step; a
    goroutine runs without interruption up to the next switch or sleep, and a switch
    may compare with an active pool that was loaded any time before.  The migrator
    of tern is an operation of the world; logging is left out. *)

From S2P Require Import Prelude GoStd Connector.
Import Strings.

(** ** Pools *)

(** The settings of a pool that the package changes; durations in seconds. *)
Record PoolConfig : Type := MkPoolConfig {
  StatementCacheCapacity : Z; DescriptionCacheCapacity : Z; ConnectTimeout : Z; MaxConnIdleTime : Z; HealthCheckPeriod : Z;
  MaxConnLifetimeJitter : Z; MaxConnLifetime : Z; MinConns : Z; AfterConnect : option string
}.

Class PoolWorld (W : Type) := {
  ParseConfig : string -> outcome PoolConfig;
  NewWithConfig : string -> PoolConfig -> ST W nat;
  (** the time an answer took, in nanoseconds *)
  PoolPing : nat -> ST W Z;
  PoolClose : nat -> W -> W;
  PoolReset : nat -> W -> W;
  (** some connections are in use *)
  PoolBusy : nat -> W -> bool;
  (** a connection: a statement, and the rows of a query *)
  ConnExec : nat -> string -> ST W unit;
  ConnQuery : nat -> string -> ST W (list (string * string));
  (** a connection is taken out of a pool and put back *)
  Acquire : nat -> W -> W * (nat + driverError);
  Release : nat -> W -> W;
  (** the migrator of a connection: it is made, reads the migrations, asks for the
      version, and runs *)
  NewMigrator : nat -> W -> W * option driverError;
  LoadMigrations : nat -> W -> W * option driverError;
  GetCurrentVersion : nat -> W -> W;
  Migrate : nat -> W -> W * option driverError
}.

Definition stmtTimeoutRegular : string := "30s".
(* src: database/query/internal/connector/storage.go 37 *)
Definition stmtTimeoutMigration : string := "0".

(** strings.ReplaceAll(s, "0000", "0s") *)
Fixpoint replace_zeros (s : string) : string :=
  match s with
  | String "0" (String "0" (String "0" (String "0" rest))) => "0s" +:+ replace_zeros rest
  | String c rest => String c (replace_zeros rest)
  | "" => ""
  end.

(* src: database/query/internal/connector/storage.go 346-354 [connSetSessionParameters] *)
Definition customConnectionParameters (timeout : string) : list (string * string) :=
  [("statement_timeout", timeout); ("idle_in_transaction_session_timeout", timeout); ("lock_timeout", timeout);
   ("enable_partitionwise_join", "on"); ("enable_partitionwise_aggregate", "on")].

Section Pools.
Context {G : GoText} {W : Type} {PW : PoolWorld W}.

Fixpoint set_parameters (conn : nat) (parameters : list (string * string)) : ST W unit :=
  match parameters with
  | [] => mret ()
  | (name, setting) :: parameters => ConnExec conn ("SET " +:+ name +:+ " = '" +:+ setting +:+ "'") ;; set_parameters conn parameters
  end.

(** The parameters are set in the order of the map and read back. *)
(* src: database/query/internal/connector/storage.go 345-382 *)
Definition connSetSessionParameters (conn : nat) (timeout : string) (range : list (string * string) -> list (string * string)) : ST W unit :=
  let parameters := range (customConnectionParameters timeout) in
  set_parameters conn parameters ;;
  rows ← ConnQuery conn ("SELECT name, setting
							FROM pg_settings
							WHERE name IN (" +:+ Join (map (fun p => "'" +:+ p.1 +:+ "'") parameters) "," +:+ ")");
  if bool_decide ((list_to_map (map (fun row => (row.1, replace_zeros row.2)) rows) : gmap string string) = list_to_map (customConnectionParameters timeout))
  then mret () else lift_st (Err opaque_error).

Definition asked {A} (f : W -> W * A) : ST W A := fun w => let '(w, a) := f w in (w, Ok a).

(** The session is set back when the function returns, once it was set. *)
(* src: database/query/internal/connector/storage.go 233-269 [runMigrations] *)
Definition migrate_with (conn : nat) (range1 range2 : list (string * string) -> list (string * string)) : ST W (option driverError) :=
  m ← asked (NewMigrator conn);
  match m with
  | Some e => mret (Some e)
  | None =>
      loaded ← asked (LoadMigrations conn);
      match loaded with
      | Some e => mret (Some e)
      | None =>
          asked (fun w => (GetCurrentVersion conn w, tt)) ;;
          set ← attempt_st (connSetSessionParameters conn stmtTimeoutMigration range1);
          match set with
          | inr e => mret (Some (OtherError e))
          | inl _ =>
              e ← asked (Migrate conn);
              reset ← attempt_st (connSetSessionParameters conn stmtTimeoutRegular range2);
              mret e
          end
      end
  end.

(* src: database/query/internal/connector/storage.go 224-270 *)
Definition runMigrations (pool : nat) (range1 range2 : list (string * string) -> list (string * string)) : ST W (option driverError) :=
  acquired ← asked (Acquire pool);
  match acquired with
  | inr e => mret (Some e)
  | inl conn =>
      e ← migrate_with conn range1 range2;
      asked (fun w => (Release conn w, tt)) ;;
      mret e
  end.

Definition mentions (connectionString key : string) : bool := Contains (ToLower connectionString) key.

(* src: database/query/internal/connector/storage.go 317-343 *)
Definition poolConnect (connectionString : string) : ST W nat :=
  conf ← lift_st (ParseConfig connectionString);
  NewWithConfig connectionString
    (MkPoolConfig 1024 1024 30
       (if mentions connectionString "pool_max_conn_idle_time" then MaxConnIdleTime conf else 60)
       (if mentions connectionString "pool_health_check_period" then HealthCheckPeriod conf else 30)
       600 86400
       (if mentions connectionString "pool_min_conns" then MinConns conf else 1)
       (Some stmtTimeoutRegular)).

(** ** The fastest master *)

Definition max_duration : Z := max_int64.
(* src: database/query/internal/connector/storage.go 109-113 [detectMinLatencyMaster] *)
Record connectionLatency : Type := MkLatency { conn : option nat; latency : Z; idx : nat }.

(** The goroutine of one master. *)
(* src: database/query/internal/connector/storage.go 118-147 [detectMinLatencyMaster] *)
Definition measure (urls : list string) (i : nat) : ST W connectionLatency :=
  connectionString ← lift_st (index urls i);
  connected ← attempt_st (poolConnect connectionString);
  match connected with
  | inr _ => mret (MkLatency None max_duration i)
  | inl c =>
      pinged ← attempt_st (PoolPing c);
      mret (MkLatency (Some c) (match pinged with inl t => t | inr _ => max_duration end) i)
  end.

Fixpoint measure_all (urls : list string) (arrival : list nat) : ST W (list connectionLatency) :=
  match arrival with
  | [] => mret []
  | i :: arrival => l ← measure urls i; ls ← measure_all urls arrival; mret (l :: ls)
  end.

Definition close_pool (c : option nat) : ST W unit := fun w => (match c with Some c => PoolClose c w | None => w end, Ok ()).

(** What was found so far: whether all answered, the least latency, its master, its
    pool. *)
Record found : Type := MkFound { allAvailable : bool; minLatency : Z; minLatencyIdx : Z; minLatencyConn : option nat }.
(* src: database/query/internal/connector/storage.go 151-173 [detectMinLatencyMaster] *)
Fixpoint least_latency (f : found) (ls : list connectionLatency) : ST W found :=
  match ls with
  | [] => mret f
  | l :: ls =>
      let all := allAvailable f && negb (latency l =? max_duration) in
      if latency l <? minLatency f then
        close_pool (minLatencyConn f) ;;
        least_latency (MkFound all (latency l) (Z.of_nat (idx l)) (conn l)) ls
      else
        close_pool (conn l) ;;
        least_latency (MkFound all (minLatency f) (minLatencyIdx f) (minLatencyConn f)) ls
  end.

(** The masters answer in the order [arrival]. *)
(* src: database/query/internal/connector/storage.go 105-175 *)
Definition detectMinLatencyMaster (arrival : list nat) (urls : list string) : ST W found :=
  latencies ← measure_all urls arrival;
  least_latency (MkFound true max_duration (-1) None) latencies.
End Pools.

(** ** The connector *)

(* src: database/query/internal/connector/contract.go 52-55 *)
Record readLB : Type := MkReadLB { Replicas : list nat; ReadIndex : Z }.

(** [Cancel]: the context that [CancelPreferredMasterSwitch] cancels. *)
(* src: database/query/internal/connector/contract.go 56-63 *)
Record writeLB : Type := MkWriteLB {
  Active : option nat; Cancel : option nat; Masters : list string; PreferredUrl : nat; CurrentIndex : nat
}.

(** The goroutines: those that wait for the preferred master, each with its context,
    the master and its successful pings; those that wait until a pool is free, with
    the context they were started with ([None]: that of the program); switches that were
    decided on; and the one that looks for a faster master. *)
Record waiter : Type := MkWaiter { w_ctx : nat; w_idx : nat; successfulPings : nat }.
Record tasks : Type := MkTasks {
  contexts : nat; cancelled : gset nat;
  waiters : list waiter; draining : list (option nat * nat); assigning : list (nat * nat); postponed : bool
}.

(* src: database/query/internal/connector/contract.go 38-45 *)
Record DB (W : Type) : Type := MkDB { write : writeLB; read : readLB; going : tasks; outer : W }.
Arguments MkDB {W}. Arguments write {W}. Arguments read {W}. Arguments going {W}. Arguments outer {W}.

(* src: database/query/internal/connector/contract.go 67-67 *)
Definition pingsForPreferredMasterSwitch : nat := 6.

Section Connector.
Context {G : GoText} {W : Type} {PW : PoolWorld W}.
Abbreviation M := (ST (DB W)).

Definition outside {A} (m : ST W A) : M A := fun db => let '(w, r) := m (outer db) in (MkDB (write db) (read db) (going db) w, r).
Definition gets {A} (f : DB W -> A) : M A := fun db => (db, Ok (f db)).
Definition set_write (f : writeLB -> writeLB) : M unit := fun db => (MkDB (f (write db)) (read db) (going db) (outer db), Ok ()).
Definition set_going (f : tasks -> tasks) : M unit := fun db => (MkDB (write db) (read db) (f (going db)) (outer db), Ok ()).
Definition fail {A} (e : error) : M A := lift_st (Err e).

Definition with_cancelled (c : option nat) (t : tasks) : tasks :=
  MkTasks (contexts t) (match c with Some c => {[c]} ∪ cancelled t | None => cancelled t end) (waiters t) (draining t) (assigning t) (postponed t).
Definition with_waiters (ws : list waiter) (t : tasks) : tasks := MkTasks (contexts t) (cancelled t) ws (draining t) (assigning t) (postponed t).
Definition with_draining (ds : list (option nat * nat)) (t : tasks) : tasks := MkTasks (contexts t) (cancelled t) (waiters t) ds (assigning t) (postponed t).
Definition with_assigning (l : list (nat * nat)) (t : tasks) : tasks := MkTasks (contexts t) (cancelled t) (waiters t) (draining t) l (postponed t).
Definition with_postponed (b : bool) (t : tasks) : tasks := MkTasks (contexts t) (cancelled t) (waiters t) (draining t) (assigning t) b.

(* src: database/query/internal/connector/storage.go 434-440 *)
Definition CalculateConnectOrder (addresses : list string) (currentIndex : nat) : outcome (list nat) :=
  let all := seq 0 (length addresses) in
  if (currentIndex <? length addresses)%nat
  then Ok (list.drop (S currentIndex) all ++ list.take currentIndex all) else Panic.

(** The first of the other masters a pool is opened for. *)
(* src: database/query/internal/connector/storage.go 458-479 [switchMaster] *)
Fixpoint first_connection (masters : list string) (order : list nat) : ST W (option (nat * nat)) :=
  match order with
  | [] => mret None
  | i :: order =>
      url ← lift_st (index masters i);
      connected ← attempt_st (poolConnect url);
      match connected with
      | inl c => mret (Some (i, c))
      | inr _ => first_connection masters order
      end
  end.

(** *** Switching *)

(** A goroutine is started that waits for the preferred master, instead of the one
    that waits for it now. *)
(* src: database/query/internal/connector/storage.go 494-499 [switchMaster] *)
Definition await_preferred (preferred : nat) : M unit :=
  db ← gets id;
  let t := with_cancelled (Cancel (write db)) (going db) in
  set_going (fun _ => MkTasks (S (contexts t)) (cancelled t) (waiters t ++ [MkWaiter (contexts t) preferred 0]) (draining t) (assigning t) (postponed t)) ;;
  set_write (fun lb => MkWriteLB (Active lb) (Some (contexts t)) (Masters lb) (PreferredUrl lb) (CurrentIndex lb)).

(** The pool of a master becomes the active one.  The pool that was active is closed,
    or, when the preferred master is back, left to a goroutine that closes it when it
    is free. *)
(* src: database/query/internal/connector/storage.go 487-510 [switchMaster] *)
Definition install (ctx : option nat) (available : bool) (i c : nat) : M unit :=
  lb ← gets write;
  set_write (fun lb => MkWriteLB (Some c) (Cancel lb) (Masters lb) (PreferredUrl lb) i) ;;
  match Active lb with
  | None => fail opaque_error
  | Some oldMaster =>
      (if (CurrentIndex lb =? PreferredUrl lb)%nat then await_preferred (CurrentIndex lb) else mret ()) ;;
      if available then set_going (fun t => with_draining (draining t ++ [(ctx, oldMaster)]) t)
      else outside (close_pool (Some oldMaster))
  end.

(** [ctx] is the context of the caller, [seen] the active pool loaded before the lock
    was taken, [available] tells that the reason is that the preferred master is back,
    [preferred] is its index with a pool. *)
(* src: database/query/internal/connector/storage.go 442-511 *)
Definition switchMaster (ctx seen : option nat) (available : bool) (preferred : option (nat * nat)) : M unit :=
  lb ← gets write;
  if bool_decide (Masters lb = []) then fail (err ErrReadOnly)
  else if bool_decide (is_Some seen) && negb (bool_decide (seen = Active lb)) then mret ()
  else
    match preferred with
    | None =>
        order ← lift_st (CalculateConnectOrder (Masters lb) (CurrentIndex lb));
        target ← outside (first_connection (Masters lb) order);
        match target with
        | None => fail opaque_error
        | Some (i, c) => install ctx available i c
        end
    | Some (i, c) => install ctx available i c
    end.

Definition is_cancelled (ctx : option nat) (t : tasks) : bool := match ctx with Some c => bool_decide (c ∈ cancelled t) | None => false end.

(** One round of a goroutine that waits for a pool to be free: when it is, or when the
    context of the goroutine has ended, whatever [CancelPreferredMasterSwitch] cancels
    now is cancelled and the pool is closed. *)
(* src: database/query/internal/connector/storage.go 513-529 [waitPoolFreeToClose] *)
Definition drain_round (k : nat) : M unit :=
  db ← gets id;
  match draining (going db) !! k with
  | None => mret ()
  | Some (ctx, oldMaster) =>
      if negb (is_cancelled ctx (going db)) && PoolBusy oldMaster (outer db) then mret ()
      else
        set_going (fun t => with_cancelled (Cancel (write db)) (with_draining (delete k (draining t)) t)) ;;
        outside (close_pool (Some oldMaster))
  end.

(** One round of a goroutine that waits for the preferred master: after six pings in
    a row it is switched to. *)
(* src: database/query/internal/connector/storage.go 533-582 [connectToPreferredMasterOnceAvailable] *)
Definition waiter_round (k : nat) (seen : option nat) : M unit :=
  db ← gets id;
  match waiters (going db) !! k with
  | None => mret ()
  | Some (MkWaiter ctx preferredIdx pings) =>
      let stop := set_going (fun t => with_waiters (delete k (waiters t)) t) in
      let again pings := set_going (fun t => with_waiters (<[k := MkWaiter ctx preferredIdx pings]> (waiters t)) t) in
      if is_cancelled (Some ctx) (going db) then stop
      else
        url ← lift_st (index (Masters (write db)) preferredIdx);
        connected ← attempt_st (outside (poolConnect url));
        match connected with
        | inr _ => mret ()
        | inl c =>
            pinged ← attempt_st (outside (PoolPing c));
            match pinged with
            | inr _ => outside (close_pool (Some c)) ;; again 0%nat
            | inl _ =>
                if (pingsForPreferredMasterSwitch <=? S pings)%nat then
                  stop ;;
                  r ← attempt_st (switchMaster (Some ctx) seen true (Some (preferredIdx, c)));
                  match r with inl _ => mret () | inr _ => outside (close_pool (Some c)) end
                else outside (close_pool (Some c)) ;; again (S pings)
            end
        end
  end.

(** *** The fastest master, later *)

(** A faster master is switched to, in a second step. *)
(* src: database/query/internal/connector/storage.go 80-84 [assignPreferredMaster] *)
Definition assignPreferredMaster (newIdx newConn : nat) : M unit :=
  lb ← gets write;
  if (newIdx =? CurrentIndex lb)%nat then mret ()
  else
    set_write (fun lb => MkWriteLB (Active lb) (Cancel lb) (Masters lb) newIdx (CurrentIndex lb)) ;;
    set_going (fun t => with_assigning (assigning t ++ [(newIdx, newConn)]) t).

(* src: database/query/internal/connector/storage.go 85-99 [assignPreferredMaster] *)
Definition assign_switch (k : nat) (seen : option nat) : M unit :=
  t ← gets going;
  match assigning t !! k with
  | None => mret ()
  | Some (newIdx, newConn) =>
      set_going (fun t => with_assigning (delete k (assigning t)) t) ;;
      r ← attempt_st (switchMaster None seen true (Some (newIdx, newConn)));
      match r with inl _ => mret () | inr _ => outside (close_pool (Some newConn)) end
  end.

(** One round of the goroutine that runs until all masters answer. *)
(* src: database/query/internal/connector/storage.go 66-77 [postponeMinLatencyDetection] *)
Definition postponed_round (arrival : list nat) : M unit :=
  db ← gets id;
  if negb (postponed (going db)) then mret ()
  else
    f ← outside (detectMinLatencyMaster arrival (Masters (write db)));
    match minLatencyConn f with
    | Some c =>
        if allAvailable f && (0 <=? minLatencyIdx f) then
          set_going (with_postponed false) ;; assignPreferredMaster (Z.to_nat (minLatencyIdx f)) c
        else mret ()
    | None => mret ()
    end.

(** *** Start and end *)

(* src: database/query/internal/connector/storage.go 40-60 *)
Definition WithWriteURLs (arrival : list nat) (urls : list string) : M unit :=
  f ← outside (detectMinLatencyMaster arrival urls);
  set_going (with_postponed (negb (allAvailable f))) ;;
  set_write (fun lb => MkWriteLB (minLatencyConn f) (Cancel lb) urls
    (if 0 <=? minLatencyIdx f then Z.to_nat (minLatencyIdx f) else PreferredUrl lb) (CurrentIndex lb)) ;;
  match minLatencyConn f with
  | Some _ =>
      if bool_decide (urls = []) || (minLatencyIdx f =? -1) then fail opaque_error
      else set_write (fun lb => MkWriteLB (Active lb) (Cancel lb) (Masters lb) (PreferredUrl lb) (Z.to_nat (minLatencyIdx f)))
  | None => fail opaque_error
  end.

(* src: database/query/internal/connector/storage.go 177-189 *)
Fixpoint WithReadURLs (urls : list string) : M unit :=
  match urls with
  | [] => mret ()
  | connectionString :: urls =>
      c ← outside (poolConnect connectionString);
      (fun db => (MkDB (write db) (MkReadLB (Replicas (read db) ++ [c]) (ReadIndex (read db))) (going db) (outer db), Ok ())) ;;
      WithReadURLs urls
  end.

Definition new_DB (w : W) : DB W := MkDB (MkWriteLB None None [] 0 0) (MkReadLB [] 0) (MkTasks 0 ∅ [] [] [] false) w.

Fixpoint apply_options (opts : list (M unit)) : M unit := match opts with [] => mret () | opt :: opts => opt ;; apply_options opts end.

(** The options in turn, then the migrations, if any: a database that is read-only is
    left as it is. *)
(* src: database/query/internal/connector/storage.go 272-315 *)
Definition New (ddl : bool) (range1 range2 : list (string * string) -> list (string * string)) (opts : list (M unit)) : M unit :=
  apply_options opts ;;
  lb ← gets write;
  if ddl && negb (bool_decide (Masters lb = [])) then
    match Active lb with
    | None => lift_st Panic
    | Some pool =>
        e ← outside (runMigrations pool range1 range2);
        match parseError <$> e with
        | Some e => if db_is e ErrReadOnly then mret () else fail (sentinels e)
        | None => mret ()
        end
    end
  else mret ().

(* src: database/query/internal/connector/storage.go 384-395 *)
Definition Close : M unit :=
  db ← gets id;
  set_write (fun lb => MkWriteLB None (Cancel lb) (Masters lb) (PreferredUrl lb) (CurrentIndex lb)) ;;
  outside (fun w => (fold_left (fun w c => PoolClose c w) (option_list (Active (write db)) ++ Replicas (read db)) w, Ok ())).

(* src: database/query/internal/connector/storage.go 397-404 *)
Definition Reset : M unit :=
  db ← gets id;
  outside (fun w => (fold_left (fun w c => PoolReset c w) (Replicas (read db) ++ option_list (Active (write db))) w, Ok ())).

(** The errors of all pools, in the order they arrive. *)
Fixpoint ping_all (cs : list nat) (errs : option error) : ST W unit :=
  match cs with
  | [] => match errs with None => mret () | Some e => lift_st (Err e) end
  | c :: cs =>
      r ← attempt_st (PoolPing c);
      ping_all cs (match r with inl _ => errs | inr e => Some (match errs with Some x => join_error x e | None => e end) end)
  end.
(* src: database/query/internal/connector/storage.go 406-432 *)
Definition Ping (arrival : list nat -> list nat) : M unit :=
  db ← gets id;
  outside (ping_all (arrival (option_list (Active (write db)) ++ Replicas (read db))) None).

(** *** Where statements go *)

(** [None]: no pool, though masters are configured. *)
Inductive target : Type := readOnlyDB | pool_of (c : option nat).
(* src: database/query/internal/connector/storage.go 585-590 *)
Definition primary (db : DB W) : target := if bool_decide (Masters (write db) = []) then readOnlyDB else pool_of (Active (write db)).

(** The counter is a 64-bit word. *)
(* src: database/query/internal/connector/storage.go 608-615 *)
Definition Next (r : readLB) : readLB * option nat :=
  match Replicas r with
  | [] => (r, None)
  | replicas =>
      let current := (ReadIndex r + 1) `mod` 2 ^ 64 in
      (MkReadLB replicas current, replicas !! Z.to_nat (current `mod` Z.of_nat (length replicas)))
  end.

(* src: database/query/internal/connector/storage.go 592-598 *)
Definition replica (db : DB W) : DB W * target :=
  let '(r, next) := Next (read db) in
  let db := MkDB (write db) r (going db) (outer db) in
  (db, match next with Some c => pool_of (Some c) | None => primary db end).

(** A statement that failed on a dead master. *)
(* src: database/query/internal/connector/api.go 263-269 [switchMaster] *)
Definition switch_dead (db : DB W) : DB W * option dbError :=
  match switchMaster None (Active (write db)) false None db with
  | (db, Err e) => (db, Some (with_driver e None))
  | (db, _) => (db, None)
  end.

Context (attempts : nat).

(** A transaction on the master; [run] is its function with the statements that begin
    and end it. *)
(* src: database/query/internal/connector/api.go 64-88 *)
Definition executeTransaction (run : DB W -> DB W * option driverError) (db : DB W) : DB W * option dbError :=
  let '(db, (_, e)) := withRetry attempts (fun db =>
    let '(db, e) := run db in
    match parseError <$> e with
    | None => (db, Done tt None)
    | Some x =>
        if db_is x ErrReadOnly then (db, Done tt (Some x))
        else if isInstanceDead (Some x) then
          let '(db, y) := switch_dead db in (db, Again tt (match y with Some y => join_db x y | None => x end))
        else if IsUnexpected (Some x) then (db, Again tt x)
        else (db, Done tt (Some x))
    end) db in
  (db, e).

(** Run again after a conflict, up to the end of the context, whose error is the
    last. *)
(* src: database/query/internal/connector/api.go 36-62 *)
Fixpoint DoInTransaction (rounds : nat) (run : DB W -> DB W * option driverError) (db : DB W) : DB W * option dbError :=
  match rounds with
  | O => (db, Some (with_driver opaque_error None))
  | S rounds =>
      let '(db, e) := executeTransaction run db in
      if shouldRetryTransaction e then DoInTransaction rounds run db else (db, e)
  end.
End Connector.

(** ** Theorems *)

(** Which pools are open, each for a connection string. *)
Class PoolWorldSpec (W : Type) `{PoolWorld W} : Type := {
  open : W -> gmap nat string;
  ParseConfig_returns : forall url, match ParseConfig url with Ok _ | Err _ => True | _ => False end;
  NewWithConfig_spec : forall url conf w, match NewWithConfig url conf w with
    | (w', Ok c) => open w !! c = None /\ open w' = <[c := url]> (open w)
    | (w', Err _) => open w' = open w
    | _ => False
    end;
  PoolPing_spec : forall c w, open (PoolPing c w).1 = open w /\ match (PoolPing c w).2 with Ok _ | Err _ => True | _ => False end;
  PoolClose_spec : forall c w, open (PoolClose c w) = delete c (open w)
}.

(** *** The order of the masters *)

(** When a master fails the others are tried in the order of their numbers,
    beginning after it and going round, each once and never the one that failed. *)
Lemma CalculateConnectOrder_others addresses i : (i < length addresses)%nat ->
  exists order, CalculateConnectOrder addresses i = Ok order /\ order ++ [i] ≡ₚ seq 0 (length addresses) /\ (i ∉ order) /\
    forall k j, order !! k = Some j -> j = Nat.modulo (i + 1 + k) (length addresses).
Proof.
  intros Hi. unfold CalculateConnectOrder. rewrite (proj2 (Nat.ltb_lt _ _) Hi). eexists. split; [done|].
  set (n := length addresses) in *. rewrite !take_seq, !drop_seq. replace (i `min` n)%nat with i by lia. split_and!.
  - transitivity (seq 0 i ++ i :: seq (S i) (n - S i)); [by rewrite <- List.app_assoc, (Permutation_app_comm (seq (0 + S i) _)), <- List.app_assoc|].
    replace (i :: seq (S i) (n - S i)) with (seq (0 + i) (n - i)); [|by replace (n - i)%nat with (S (n - S i)) by lia].
    rewrite <- seq_app. by replace (i + (n - i))%nat with n by lia.
  - rewrite elem_of_app, !elem_of_seq. lia.
  - intros k j [Hk|[Hlen Hk]]%lookup_app_Some.
    + apply lookup_seq in Hk as [-> Hlt]. rewrite Nat.mod_small; lia.
    + rewrite length_seq in Hlen, Hk. apply lookup_seq in Hk as [-> Hlt].
      replace (i + 1 + k)%nat with ((k - (n - S i)) + 1 * n)%nat by lia. rewrite Nat.Div0.mod_add, Nat.mod_small; lia.
Qed.

(** *** Replicas *)

Fixpoint nexts (n : nat) (r : readLB) : list (option nat) :=
  match n with O => [] | S n => let '(r, c) := Next r in c :: nexts n r end.

Lemma Next_some replicas i : replicas ≠ [] ->
  Next (MkReadLB replicas i) =
    (MkReadLB replicas ((i + 1) `mod` 2 ^ 64), replicas !! Z.to_nat (((i + 1) `mod` 2 ^ 64) `mod` Z.of_nat (length replicas))).
Proof. by destruct replicas. Qed.

Lemma Next_index replicas i : replicas ≠ [] -> 0 <= i -> i + 1 < 2 ^ 64 ->
  Next (MkReadLB replicas i) = (MkReadLB replicas (i + 1), replicas !! Nat.modulo (Z.to_nat (i + 1)) (length replicas)).
Proof.
  intros Hne Hi Hlt. rewrite Next_some, Z.mod_small by (done || lia). do 2 f_equal.
  rewrite Z2Nat.inj_mod by lia. by rewrite Nat2Z.id.
Qed.

Lemma nexts_rotation replicas k i : replicas ≠ [] -> 0 <= i -> i + Z.of_nat k < 2 ^ 64 ->
  nexts k (MkReadLB replicas i) = map (fun j => replicas !! Nat.modulo j (length replicas)) (seq (Z.to_nat (i + 1)) k).
Proof.
  intros Hne. revert i. induction k as [|k IH]; intros i Hi Hlt; [done|]. cbn [nexts]. rewrite Next_index by (done || lia). cbn [seq map]. f_equal.
  rewrite IH by lia. do 2 f_equal. lia.
Qed.

Lemma mod_seq_perm a n : (0 < n)%nat -> map (fun j => (j mod n)%nat) (seq a n) ≡ₚ seq 0 n.
Proof.
  intros Hn. apply NoDup_Permutation.
  - apply NoDup_fmap_2_strong, NoDup_seq. intros x y Hx Hy Hxy. apply elem_of_seq in Hx. apply elem_of_seq in Hy.
    rewrite (Nat.div_mod_eq x n), (Nat.div_mod_eq y n), Hxy. do 2 f_equal.
    assert (Hmx := Nat.mod_upper_bound x n). assert (Hmy := Nat.mod_upper_bound y n).
    assert (Hx' := Nat.div_mod_eq x n). assert (Hy' := Nat.div_mod_eq y n). nia.
  - apply NoDup_seq.
  - intros x. rewrite elem_of_seq. split.
    + intros [y [-> _]]%list_elem_of_fmap. assert (Hy := Nat.mod_upper_bound y n). lia.
    + intros Hx. apply list_elem_of_fmap. set (d := ((x + (n - 1) * a) mod n)%nat). exists (a + d)%nat. split.
      * unfold d. rewrite Nat.Div0.add_mod_idemp_r. replace (a + (x + (n - 1) * a))%nat with (x + a * n)%nat by nia.
        rewrite Nat.Div0.mod_add, Nat.mod_small; lia.
      * apply elem_of_seq. assert (d < n)%nat by (apply Nat.mod_upper_bound; lia). lia.
Qed.

Lemma lookups_all {A} (l : list A) : map (fun j => l !! j) (seq 0 (length l)) = map Some l.
Proof.
  apply list_eq. intros j. change (map ?f ?x) with (f <$> x). rewrite !list_lookup_fmap. destruct (l !! j) as [x|] eqn:Hj; cbn.
  - rewrite (proj2 (lookup_seq 0 (length l) j j)); [cbn; by rewrite Hj|]. split; [lia|]. by eapply lookup_lt_Some.
  - rewrite lookup_seq_ge; [done|]. by apply lookup_ge_None.
Qed.

(** Every read is given one of the replicas, also when the 64-bit counter wraps;
    as many reads in a row as there are replicas, while it does not, are given each of
    them once. *)
Lemma Next_turns r : Replicas r ≠ [] -> 0 <= ReadIndex r < 2 ^ 64 ->
  (forall n, Forall (fun c => exists x, c = Some x /\ x ∈ Replicas r) (nexts n r)) /\
  (ReadIndex r + Z.of_nat (length (Replicas r)) < 2 ^ 64 -> nexts (length (Replicas r)) r ≡ₚ map Some (Replicas r)).
Proof.
  destruct r as [replicas i]. cbn [Replicas ReadIndex]. intros Hne Hi. split.
  - intros n. revert i Hi. induction n as [|n IH]; intros i Hi; [constructor|]. cbn [nexts]. rewrite Next_some by done.
    assert (Hlen : (0 < length replicas)%nat) by (destruct replicas; [done|cbn; lia]).
    constructor; [|apply IH, Z.mod_pos_bound; lia].
    destruct (lookup_lt_is_Some_2 replicas (Z.to_nat (((i + 1) `mod` 2 ^ 64) `mod` Z.of_nat (length replicas)))) as [x Hx].
    { pose proof (Z.mod_pos_bound ((i + 1) `mod` 2 ^ 64) (Z.of_nat (length replicas)) ltac:(lia)). lia. }
    exists x. split; [done|]. by eapply list_elem_of_lookup_2.
  - intros Hlt. rewrite nexts_rotation by (done || lia).
    transitivity (map (fun j => replicas !! j) (map (fun j => Nat.modulo j (length replicas)) (seq (Z.to_nat (i + 1)) (length replicas)))); [by rewrite List.map_map|].
    rewrite mod_seq_perm by (destruct replicas; [done|cbn; lia]). by rewrite lookups_all.
Qed.

(** *** The fastest master *)

Section PoolLaws.
Context {G : GoText} {W : Type} {PW : PoolWorld W} {PS : PoolWorldSpec W}.

Lemma poolConnect_spec url w : match poolConnect url w with
  | (w', Ok c) => open w !! c = None /\ open w' = <[c := url]> (open w)
  | (w', Err _) => open w' = open w
  | _ => False
  end.
Proof.
  unfold poolConnect, mbind, ST_bind, lift_st. pose proof (ParseConfig_returns url) as Hp. destruct (ParseConfig url) as [conf|x| |]; try done.
  cbv beta iota. apply NewWithConfig_spec.
Qed.

(** The pools of the answers. *)
Fixpoint pools_of (urls : list string) (ls : list connectionLatency) : gmap nat string :=
  match ls with
  | [] => ∅
  | l :: ls => match conn l, urls !! idx l with Some c, Some url => <[c := url]> (pools_of urls ls) | _, _ => pools_of urls ls end
  end.

(** The answers have pools of their own, opened for their masters and new. *)
Fixpoint new_pools (urls : list string) (base : gmap nat string) (ls : list connectionLatency) : Prop :=
  match ls with
  | [] => True
  | l :: ls =>
      (exists url, urls !! idx l = Some url) /\
      (conn l = None -> latency l = max_duration) /\
      (forall c, conn l = Some c -> base !! c = None /\ pools_of urls ls !! c = None) /\ new_pools urls base ls
  end.

Lemma new_pools_weaken urls base base' ls : (forall c, base !! c = None -> base' !! c = None) -> new_pools urls base ls -> new_pools urls base' ls.
Proof. intros Hb. induction ls as [|l ls IH]; [done|]. cbn. intros (Hu & Hd & Hc & Hn). split_and!; [done|done| |by apply IH]. intros c Hl. destruct (Hc c Hl). eauto. Qed.

Lemma pools_of_fresh urls base ls c url : new_pools urls base ls -> pools_of urls ls !! c = Some url -> base !! c = None.
Proof.
  induction ls as [|l ls IH]; [done|]. cbn. intros (Hu & Hd & Hc & Hn).
  destruct (conn l) as [c'|], (urls !! idx l) as [u|]; [|by apply IH..].
  intros [[-> _]|[_ Hl]]%lookup_insert_Some; [by apply Hc|by apply IH].
Qed.

(** One master is asked. *)
Lemma measure_spec urls i w : match measure urls i w with
  | (w', Ok l) => new_pools urls (open w) [l] /\ idx l = i /\ open w' = pools_of urls [l] ∪ open w
  | (w', _) => open w' = open w /\ ~ (i < length urls)%nat
  end.
Proof.
  unfold measure. unfold mbind at 1, ST_bind at 1, lift_st at 1. unfold index. destruct (urls !! i) as [url|] eqn:Hi.
  2:{ split; [done|]. by apply Nat.nlt_ge, lookup_ge_None. }
  unfold mbind at 1, ST_bind at 1, attempt_st. pose proof (poolConnect_spec url w) as Hc.
  destruct (poolConnect url w) as [w1 [c|x| |]]; [|cbn|done..].
  - destruct Hc as [Hnew Hopen]. unfold mbind, ST_bind, attempt_st. pose proof (PoolPing_spec c w1) as [Hp Hr].
    destruct (PoolPing c w1) as [w2 [t|x| |]]; cbn [fst snd] in Hp, Hr; try done; cbn; rewrite Hi, Hp, Hopen;
      (split_and!; [eauto|done|by intros ? [= <-]|done|done|by rewrite <- insert_union_l, map_empty_union]).
  - rewrite Hi. split_and!; [eauto|done|done|done|done|by rewrite Hc, map_empty_union].
Qed.

(** Masters are asked in turn: nothing is closed. *)
Lemma measure_all_spec urls arrival w : match measure_all urls arrival w with
  | (w', Ok ls) => new_pools urls (open w) ls /\ map idx ls = arrival /\ open w' = pools_of urls ls ∪ open w
  | (w', _) => open w ⊆ open w' /\ ~ Forall (fun i => (i < length urls)%nat) arrival
  end.
Proof.
  revert w. induction arrival as [|i arrival IH]; intros w; cbn [measure_all]; [cbn; split_and!; [done|done|by rewrite map_empty_union]|].
  unfold mbind at 1, ST_bind at 1. pose proof (measure_spec urls i w) as Hm. destruct (measure urls i w) as [w1 [l|x| |]].
  2-4: destruct Hm as [-> Hi]; split; [done|]; by inversion 1.
  destruct Hm as (Hl & Hi & Hw1). unfold mbind, ST_bind. specialize (IH w1). destruct (measure_all urls arrival w1) as [w2 [ls|x| |]].
  2-4: destruct IH as [Hsub Hno]; split; [|by inversion 1]; rewrite Hw1 in Hsub; etransitivity; [|exact Hsub];
    apply map_union_subseteq_r, map_disjoint_spec; intros c u1 u2 H1 H2; by rewrite (pools_of_fresh _ _ _ _ _ Hl H1) in H2.
  destruct IH as (Hls & Hidx & Hw2). split_and!; [|cbn; by rewrite Hi, Hidx|].
  - destruct Hl as (Hu & Hd & Hc & _). cbn. split_and!; [done|done| |].
    + intros c Hlc. destruct (Hc c Hlc) as [Hb _]. split; [done|]. destruct (pools_of urls ls !! c) as [u|] eqn:Hpc; [|done].
      apply (pools_of_fresh _ _ _ _ _ Hls) in Hpc. rewrite Hw1 in Hpc. cbn in Hpc. destruct Hu as [url Hu]. rewrite Hlc, Hu in Hpc.
      by rewrite lookup_union, lookup_insert_eq in Hpc; destruct (open w !! c).
    + eapply new_pools_weaken, Hls. intros c. rewrite Hw1, lookup_union. by destruct (pools_of urls [l] !! c), (open w !! c).
  - rewrite Hw2, Hw1. cbn. destruct Hl as ([url Hu] & Hd & Hc & _). rewrite Hu. destruct (conn l) as [c|] eqn:Hlc; [|by rewrite map_empty_union].
    destruct (Hc c eq_refl) as [Hb _].
    assert (Hpc : pools_of urls ls !! c = None).
    { destruct (pools_of urls ls !! c) as [u|] eqn:Hpc; [|done]. apply (pools_of_fresh _ _ _ _ _ Hls) in Hpc. rewrite Hw1 in Hpc. cbn in Hpc.
      rewrite Hlc, Hu in Hpc. by rewrite lookup_union, lookup_insert_eq in Hpc; destruct (open w !! c). }
    rewrite <- (insert_union_l ∅ (open w)), map_empty_union. rewrite <- insert_union_r by done. by rewrite insert_union_l.
Qed.

(** What was found so far has a pool of its own. *)
Definition found_ok (urls : list string) (base : gmap nat string) (f : found) : Prop :=
  minLatency f <= max_duration /\
  match minLatencyConn f with
  | Some c => 0 <= minLatencyIdx f /\ base !! c = None /\ exists url, urls !! Z.to_nat (minLatencyIdx f) = Some url
  | None => minLatencyIdx f = -1 /\ minLatency f = max_duration
  end.
Definition with_found (urls : list string) (f : found) (m : gmap nat string) : gmap nat string :=
  match minLatencyConn f, urls !! Z.to_nat (minLatencyIdx f) with Some c, Some url => <[c := url]> m | _, _ => m end.

(** The pool with the least latency stays open, every other one is closed. *)
Lemma least_latency_spec urls base ls : forall f w,
  found_ok urls base f -> new_pools urls base ls -> (forall c, minLatencyConn f = Some c -> pools_of urls ls !! c = None) ->
  open w = with_found urls f (pools_of urls ls ∪ base) ->
  exists w' f', least_latency f ls w = (w', Ok f') /\ found_ok urls base f' /\ open w' = with_found urls f' base /\
    minLatency f' <= minLatency f /\ Forall (fun l => minLatency f' <= latency l) ls /\
    ((minLatencyConn f' = minLatencyConn f /\ minLatencyIdx f' = minLatencyIdx f /\ minLatency f' = minLatency f) \/
     exists l, l ∈ ls /\ conn l = minLatencyConn f' /\ Z.of_nat (idx l) = minLatencyIdx f' /\ latency l = minLatency f').
Proof.
  induction ls as [|l ls IH]; intros f w Hf Hn Hfc Hw.
  { exists w, f. cbn in Hw. rewrite map_empty_union in Hw. cbn [least_latency]. split_and!; try done. by left. }
  destruct Hn as ([url Hu] & Hd & Hc & Hn). cbn [least_latency pools_of] in *. rewrite Hu in Hw, Hfc.
  set (m := pools_of urls ls ∪ base) in *.
  assert (Hm : forall c, conn l = Some c -> m !! c = None).
  { intros c Hlc. destruct (Hc c Hlc) as [Hb Hp]. unfold m. by rewrite lookup_union, Hb, Hp. }
  assert (Hw' : open w = with_found urls f (match conn l with Some c => <[c := url]> m | None => m end)).
  { rewrite Hw. unfold m. destruct (conn l); [by rewrite insert_union_l|done]. } clear Hw.
  pose proof Hf as [Hmax Hfound]. unfold mbind, ST_bind, close_pool.
  destruct (Z.ltb_spec (latency l) (minLatency f)) as [Hlt|Hge].
  - destruct (conn l) as [c|] eqn:Hlc; [|rewrite (Hd eq_refl) in Hlt; lia]. destruct (Hc c eq_refl) as [Hb Hp].
    set (w1 := match minLatencyConn f with Some c0 => PoolClose c0 w | None => w end).
    assert (Hw1 : open w1 = <[c := url]> m).
    { unfold w1. unfold with_found in Hw'. destruct (minLatencyConn f) as [c0|]; [|done]. destruct Hfound as (_ & Hb0 & [u0 Hu0]). rewrite Hu0 in Hw'.
      rewrite PoolClose_spec, Hw'. apply delete_insert_id. specialize (Hfc c0 eq_refl). apply lookup_insert_None in Hfc as [Hp0 Hne].
      apply lookup_insert_None. split; [|done]. unfold m. by rewrite lookup_union, Hp0, Hb0. }
    set (f1 := MkFound (allAvailable f && negb (latency l =? max_duration)) (latency l) (Z.of_nat (idx l)) (Some c)).
    destruct (IH f1 w1) as (w' & f' & Hrun & Hok & Ho & Hle & Hall & Hfrom); [|done|by intros ? [= <-]| |].
    + split; cbn [minLatency minLatencyConn minLatencyIdx f1]; [lia|]. rewrite Nat2Z.id. eauto with lia.
    + unfold with_found. cbn [minLatencyConn minLatencyIdx f1]. by rewrite Nat2Z.id, Hu.
    + exists w', f'. split_and!; [done..|cbn in Hle; lia|by constructor|]. right. destruct Hfrom as [(H1 & H2 & H3)|(l' & Hin & Hl')].
      * exists l. rewrite Hlc. split_and!; [by left|done..].
      * exists l'. split; [by right|done].
  - set (w1 := match conn l with Some c => PoolClose c w | None => w end).
    assert (Hw1 : open w1 = with_found urls f m).
    { unfold w1. destruct (conn l) as [c|]; [|done]. rewrite PoolClose_spec, Hw'. unfold with_found in *.
      destruct (minLatencyConn f) as [c0|]; [|by apply delete_insert_id, Hm]. destruct Hfound as (_ & Hb0 & [u0 Hu0]). rewrite Hu0.
      specialize (Hfc c0 eq_refl). apply lookup_insert_None in Hfc as [_ Hne]. rewrite delete_insert_ne by done. by rewrite delete_insert_id by (by apply Hm). }
    set (f1 := MkFound (allAvailable f && negb (latency l =? max_duration)) (minLatency f) (minLatencyIdx f) (minLatencyConn f)).
    destruct (IH f1 w1) as (w' & f' & Hrun & Hok & Ho & Hle & Hall & Hfrom); [done|done| |done|].
    + intros c0 Hc0. specialize (Hfc c0 Hc0). destruct (conn l); [by apply lookup_insert_None in Hfc as [? _]|done].
    + exists w', f'. split_and!; [done..|constructor; [cbn in Hle; lia|done]|]. destruct Hfrom as [?|(l' & Hin & Hl')]; [by left|]. right. exists l'. split; [by right|done].
Qed.

(** Looking for the fastest master leaves one new pool open, that of the master
    whose answer came soonest, and closes every other pool it opened; no master is
    found only when none answered. *)
Lemma detect_least urls arrival w w' f : detectMinLatencyMaster arrival urls w = (w', Ok f) ->
  exists w1 ls, measure_all urls arrival w = (w1, Ok ls) /\ Forall (fun l => minLatency f <= latency l) ls /\
    match minLatencyConn f with
    | Some c => exists l url, l ∈ ls /\ conn l = Some c /\ latency l = minLatency f /\ minLatencyIdx f = Z.of_nat (idx l) /\
                  urls !! idx l = Some url /\ open w !! c = None /\ open w' = <[c := url]> (open w)
    | None => minLatencyIdx f = -1 /\ Forall (fun l => max_duration <= latency l) ls /\ open w' = open w
    end.
Proof.
  unfold detectMinLatencyMaster. intros (w1 & ls & Hm & Hl)%bind_st_Ok. exists w1, ls. split; [done|].
  pose proof (measure_all_spec urls arrival w) as Hs. rewrite Hm in Hs. destruct Hs as (Hn & Hidx & Hw1).
  destruct (least_latency_spec urls (open w) ls (MkFound true max_duration (-1) None) w1) as (w2 & f' & Hrun & [Hmax Hok] & Ho & _ & Hall & Hfrom); try done.
  rewrite Hl in Hrun. injection Hrun as <- <-. split; [done|]. unfold with_found in Ho.
  destruct (minLatencyConn f) as [c|].
  - destruct Hok as (H0 & Hb & [url Hu]). rewrite Hu in Ho. destruct Hfrom as [(Hno & _)|(l & Hin & Hlc & Hli & Hll)]; [done|].
    exists l, url. rewrite <- Hli, Nat2Z.id in Hu. by split_and!.
  - destruct Hok as [-> Heq]. by rewrite Heq in Hall.
Qed.

(** What a search leaves open. *)
Lemma detect_open urls arrival w : match detectMinLatencyMaster arrival urls w with
  | (w', Ok f) =>
      match minLatencyConn f with
      | Some c => open w !! c = None /\ 0 <= minLatencyIdx f /\
                  exists url, urls !! Z.to_nat (minLatencyIdx f) = Some url /\ open w' = <[c := url]> (open w)
      | None => open w' = open w
      end
  | (w', _) => open w ⊆ open w'
  end.
Proof.
  destruct (detectMinLatencyMaster arrival urls w) as [w' [f|x| |]] eqn:Hd.
  { apply detect_least in Hd as (_ & ls & _ & _ & Hf). destruct (minLatencyConn f) as [c|]; [|by destruct Hf as (_ & _ & ?)].
    destruct Hf as (l & url & _ & _ & _ & -> & Hu & Hb & Ho). rewrite Nat2Z.id. split_and!; [done|lia|eauto]. }
  all: unfold detectMinLatencyMaster, mbind, ST_bind in Hd; pose proof (measure_all_spec urls arrival w) as Hs;
    destruct (measure_all urls arrival w) as [w1 [ls|y| |]]; [|by simplify_eq; destruct Hs..].
  all: destruct Hs as (Hn & _ & Hw1); destruct (least_latency_spec urls (open w) ls (MkFound true max_duration (-1) None) w1) as (w2 & f' & Hrun & _);
    try done; rewrite Hrun in Hd; discriminate.
Qed.
End PoolLaws.

(** *** The active master *)

Section ConnectorLaws.
Context {G : GoText} {W : Type} {PW : PoolWorld W} {PS : PoolWorldSpec W}.

(** The pools the connector answers for. *)
Definition owned (db : DB W) : list nat :=
  option_list (Active (write db)) ++ (assigning (going db)).*2 ++ (draining (going db)).*2 ++ Replicas (read db).

(** The active pool is open and was opened for the master that is current; so are the
    pools of switches that were decided on, for their masters; pools that wait to be
    free and those of the replicas are open and are others. *)
Record sound (db : DB W) : Prop := {
  sound_active : exists c url, Active (write db) = Some c /\ Masters (write db) !! CurrentIndex (write db) = Some url /\ open (outer db) !! c = Some url;
  sound_assigning : forall i c, (i, c) ∈ assigning (going db) -> exists url, Masters (write db) !! i = Some url /\ open (outer db) !! c = Some url;
  sound_draining : forall ctx c, (ctx, c) ∈ draining (going db) -> is_Some (open (outer db) !! c);
  sound_replicas : forall c, c ∈ Replicas (read db) -> is_Some (open (outer db) !! c);
  sound_owned : NoDup (owned db);
  sound_waiters : Forall (fun w => (w_idx w < length (Masters (write db)))%nat) (waiters (going db))
}.

Lemma owned_open db c : sound db -> c ∈ owned db -> is_Some (open (outer db) !! c).
Proof.
  intros [(a & url & Ha & _ & Ho) Hassign Hdrain Hrep _ _]. unfold owned. rewrite Ha, !elem_of_app. intros [Hc|[Hc|[Hc|Hc]]]; [..|by apply Hrep].
  - cbn in Hc. apply list_elem_of_singleton in Hc as ->. eauto.
  - apply list_elem_of_fmap in Hc as ([i c'] & -> & Hi). destruct (Hassign _ _ Hi) as (u & _ & Hu). eauto.
  - apply list_elem_of_fmap in Hc as ([ctx c'] & -> & Hi). eauto.
Qed.

(** More pools may be open. *)
Lemma sound_outer db w : sound db -> open (outer db) ⊆ open w -> sound (MkDB (write db) (read db) (going db) w).
Proof.
  intros [(a & url & Ha & Hm & Ho) Hassign Hdrain Hrep Hnd Hw] Hsub. split; cbn [write read going outer]; [|intros i c Hi|intros ctx c Hi|intros c Hi|done|done].
  - exists a, url. split_and!; [done..|]. by eapply lookup_weaken.
  - destruct (Hassign i c Hi) as (u & Hu & Hc). exists u. split; [done|]. by eapply lookup_weaken.
  - destruct (Hdrain ctx c Hi) as [u Hu]. exists u. by eapply lookup_weaken.
  - destruct (Hrep c Hi) as [u Hu]. exists u. by eapply lookup_weaken.
Qed.

(** A pool nothing answers for is closed. *)
Lemma sound_close db c : sound db -> c ∉ owned db -> sound (MkDB (write db) (read db) (going db) (PoolClose c (outer db))).
Proof.
  intros Hs Hc. pose proof Hs as [(a & url & Ha & Hm & Ho) Hassign Hdrain Hrep Hnd Hw]. unfold owned in Hc. rewrite Ha, !elem_of_app in Hc.
  split; cbn [write read going outer]; [|intros i c' Hi|intros ctx c' Hi|intros c' Hi|done|done]; rewrite PoolClose_spec.
  - exists a, url. split_and!; [done..|]. rewrite lookup_delete_ne; [done|]. intros ->. apply Hc. left. by left.
  - destruct (Hassign i c' Hi) as (u & Hu & Hc'). exists u. split; [done|]. rewrite lookup_delete_ne; [done|]. intros ->. apply Hc. right. left.
    apply list_elem_of_fmap. by exists (i, c').
  - rewrite lookup_delete_ne; [by eapply Hdrain|]. intros ->. apply Hc. right. right. left. apply list_elem_of_fmap. by exists (ctx, c').
  - rewrite lookup_delete_ne; [by apply Hrep|]. intros ->. apply Hc. by do 3 right.
Qed.

(** Another pool takes the place of the active one, which nothing answers for then. *)
Lemma sound_swap db i c url a cancel t : sound db -> Active (write db) = Some a ->
  Masters (write db) !! i = Some url -> open (outer db) !! c = Some url -> c ∉ owned db ->
  assigning t = assigning (going db) -> draining t = draining (going db) ->
  Forall (fun w => (w_idx w < length (Masters (write db)))%nat) (waiters t) ->
  let db' := MkDB (MkWriteLB (Some c) cancel (Masters (write db)) (PreferredUrl (write db)) i) (read db) t (outer db) in
  sound db' /\ (a ∉ owned db') /\ is_Some (open (outer db) !! a).
Proof.
  intros Hs Ha Hi Hc Hnot Has Hdr Hw. pose proof Hs as [(a' & url' & Ha' & Hm & Ho) Hassign Hdrain Hrep Hnd _].
  rewrite Ha in Ha'. injection Ha' as <-. unfold owned in Hnot, Hnd. rewrite Ha in Hnot, Hnd. cbn in Hnot, Hnd.
  apply NoDup_cons in Hnd as [Hanot Hnd]. apply not_elem_of_cons in Hnot as [Hne Hnot]. cbv zeta. split_and!.
  - split; cbn [write read going outer Masters Active CurrentIndex]; rewrite ?Has, ?Hdr; [eauto|done|done|done| |done].
    unfold owned. cbn [write read going Active]. rewrite Has, Hdr. cbn. by constructor.
  - unfold owned. cbn [write read going Active]. rewrite Has, Hdr. cbn. rewrite not_elem_of_cons. done.
  - eauto.
Qed.

Lemma install_sound ctx available i c url db : sound db -> Masters (write db) !! i = Some url -> open (outer db) !! c = Some url -> c ∉ owned db ->
  exists db', install ctx available i c db = (db', Ok ()) /\ sound db' /\
    Active (write db') = Some c /\ CurrentIndex (write db') = i /\ Masters (write db') = Masters (write db).
Proof.
  intros Hs Hi Hc Hnot. pose proof Hs as [(a & url' & Ha & Hm & Ho) _ _ _ _ Hw].
  assert (Hlt : (CurrentIndex (write db) < length (Masters (write db)))%nat) by (by eapply lookup_lt_Some).
  unfold install. cbv [mbind ST_bind gets set_write]. cbn [write going read outer]. rewrite Ha.
  match goal with |- context [match ?m with (_, _) => _ end] => match m with context [await_preferred] => set (started := m) end end.
  assert (Hst : exists cancel t, started = (MkDB (MkWriteLB (Some c) cancel (Masters (write db)) (PreferredUrl (write db)) i) (read db) t (outer db), Ok ()) /\
      assigning t = assigning (going db) /\ draining t = draining (going db) /\
      Forall (fun w => (w_idx w < length (Masters (write db)))%nat) (waiters t)).
  { unfold started. destruct (_ =? _)%nat; [|by exists (Cancel (write db)), (going db)].
    unfold await_preferred. cbv [mbind ST_bind gets set_write set_going id]. cbn [write going read outer Cancel Masters Active PreferredUrl CurrentIndex].
    eexists _, _. split; [done|]. cbn. split_and!; [done..|]. apply Forall_app. split; [done|]. by constructor. }
  destruct Hst as (cancel & t & -> & Has & Hdr & Hwt).
  destruct (sound_swap db i c url a cancel t Hs Ha Hi Hc Hnot Has Hdr Hwt) as (Hs' & Hnot' & Hopen).
  destruct available; cbv [set_going outside close_pool]; cbn [write going read outer]; eexists; (split; [done|]); cbn [write Active CurrentIndex Masters]; [|split_and!; [exact (sound_close _ a Hs' Hnot')|done..]].
  split_and!; [|done..]. destruct Hs' as [Hact Hassign Hdrain Hrep Hnd Hws]. split; cbn [write read going outer]; [done|done| |done| |done].
  - intros ctx' c' [Hin|[= -> ->]%list_elem_of_singleton]%elem_of_app; [by eapply Hdrain|done].
  - unfold owned in *. cbn [write read going assigning draining with_draining Active] in *. rewrite fmap_app. cbn [fmap list_fmap snd].
    rewrite <- !List.app_assoc. cbn [app]. rewrite <- !Permutation_middle. by constructor.
Qed.

Lemma first_connection_spec masters order w : match first_connection masters order w with
  | (w', Ok (Some (i, c))) => exists url, masters !! i = Some url /\ open w !! c = None /\ open w' = <[c := url]> (open w)
  | (w', _) => open w' = open w
  end.
Proof.
  revert w. induction order as [|i order IH]; intros w; cbn [first_connection]; [done|].
  unfold mbind, ST_bind, lift_st, index, attempt_st. destruct (masters !! i) as [url|] eqn:Hi; [|done].
  pose proof (poolConnect_spec url w) as Hc. destruct (poolConnect url w) as [w1 [c|x| |]]; [|specialize (IH w1); rewrite <- Hc|done..]; [by exists url|].
  destruct (first_connection masters order w1) as [w2 [[[j c]|]|y| |]]; [|done..]. destruct IH as (u & Hu & Hn & Ho). by exists u.
Qed.

Lemma sound_fresh db c : sound db -> open (outer db) !! c = None -> c ∉ owned db.
Proof. intros Hs Hc Hin. apply (owned_open db) in Hin as [? Ho]; [|done]. by rewrite Hc in Ho. Qed.

(** A new pool is open. *)
Lemma sound_new db w c url : sound db -> open (outer db) !! c = None -> open w = <[c := url]> (open (outer db)) ->
  sound (MkDB (write db) (read db) (going db) w) /\ c ∉ owned db.
Proof. intros Hs Hc Hw. split; [|by apply sound_fresh]. apply sound_outer; [done|]. rewrite Hw. by apply insert_subseteq. Qed.

Lemma switch_fails_sound ctx seen available : maintains sound (switchMaster ctx seen available None).
Proof.
  intros db Hs. unfold switchMaster. cbv [mbind ST_bind gets lift_st fail mret ST_ret]. destruct (bool_decide _); [done|]. destruct (_ && _); [done|].
  destruct (CalculateConnectOrder _ _) as [order|x| |]; [|done..]. unfold outside.
  pose proof (first_connection_spec (Masters (write db)) order (outer db)) as Hf.
  destruct (first_connection _ _ _) as [w [[[i c]|]|x| |]]; [|by apply sound_outer; [|rewrite Hf]..].
  destruct Hf as (url & Hu & Hc & Hw). destruct (sound_new db w c url Hs Hc Hw) as [Hs1 Hnot].
  destruct (install_sound ctx available i c url (MkDB (write db) (read db) (going db) w)) as (db' & -> & Hs' & _); try done.
  cbn [outer]. by rewrite Hw, lookup_insert_eq.
Qed.

(** The preferred master takes over, unless the master was switched in between. *)
Lemma switch_back_sound ctx seen i c url db : sound db -> Masters (write db) !! i = Some url -> open (outer db) !! c = Some url -> c ∉ owned db ->
  exists db', switchMaster ctx seen true (Some (i, c)) db = (db', Ok ()) /\ sound db' /\
    (seen = Active (write db) -> CurrentIndex (write db') = i /\ Active (write db') = Some c).
Proof.
  intros Hs Hi Hc Hnot. destruct (install_sound ctx true i c url db Hs Hi Hc Hnot) as (db' & Hin & Hs' & Ha & Hcur & _).
  unfold switchMaster. cbv [mbind ST_bind gets]. rewrite bool_decide_eq_false_2 by (by intros Hm; rewrite Hm in Hi).
  destruct (decide (is_Some seen /\ seen ≠ Active (write db))) as [[Hsome Hne]|Heq].
  - rewrite bool_decide_eq_true_2, bool_decide_eq_false_2 by done. exists db. by split_and!.
  - destruct (_ && _) eqn:Hb; [|by exists db']. exfalso. apply Heq. apply andb_true_iff in Hb as [H1%bool_decide_eq_true H2].
    by apply negb_true_iff, bool_decide_eq_false in H2.
Qed.

Lemma sound_tasks db t : sound db -> assigning t ≡ₚ assigning (going db) -> draining t ≡ₚ draining (going db) ->
  Forall (fun w => (w_idx w < length (Masters (write db)))%nat) (waiters t) -> sound (MkDB (write db) (read db) t (outer db)).
Proof.
  intros [Ha Has Hdr Hrep Hnd _] H1 H2 Hw. split; cbn [write read going outer]; [done| | |done| |done].
  - intros i c. rewrite H1. apply Has.
  - intros ctx c. rewrite H2. apply Hdr.
  - unfold owned in *. cbn [write read going]. by rewrite H1, H2.
Qed.

Lemma drain_round_sound k : maintains sound (drain_round k).
Proof.
  intros db Hs. unfold drain_round. cbv [mbind ST_bind gets id]. destruct (draining (going db) !! k) as [[ctx c]|] eqn:Hk; [|done].
  destruct (_ && _); [done|]. cbv [set_going outside close_pool]. cbn [write going read outer].
  set (t := with_cancelled (Cancel (write db)) (with_draining (delete k (draining (going db))) (going db))).
  pose proof (delete_Permutation _ _ _ Hk) as Hp. pose proof Hs as [Ha Has Hdr Hrep Hnd Hw].
  assert (Hperm : owned db ≡ₚ c :: owned (MkDB (write db) (read db) t (outer db))).
  { unfold owned, t. cbn [write read going assigning draining with_cancelled with_draining]. rewrite Hp at 1. cbn [fmap list_fmap snd app]. by rewrite <- !Permutation_middle. }
  rewrite Hperm in Hnd. apply NoDup_cons in Hnd as [Hnot Hnd].
  refine (sound_close (MkDB (write db) (read db) t (outer db)) c _ Hnot). split; cbn [write read going outer]; [done|done| |done|done|done].
  intros ctx' c' Hin. apply (Hdr ctx'). rewrite Hp. by right.
Qed.

Lemma waiter_round_sound k seen : maintains sound (waiter_round k seen).
Proof.
  intros db Hs. unfold waiter_round. cbv [mbind ST_bind gets id]. destruct (waiters (going db) !! k) as [[ctx p pings]|] eqn:Hk; [|done].
  assert (Hp : (p < length (Masters (write db)))%nat) by exact (proj1 (Forall_lookup _ _) (sound_waiters db Hs) k _ Hk).
  assert (Hstop : forall db, sound db -> sound (MkDB (write db) (read db) (with_waiters (delete k (waiters (going db))) (going db)) (outer db))).
  { intros db1 Hs1. apply sound_tasks; [done..|]. apply Forall_delete, Hs1. }
  assert (Hagain : forall db n, sound db -> (p < length (Masters (write db)))%nat ->
    sound (MkDB (write db) (read db) (with_waiters (<[k := MkWaiter ctx p n]> (waiters (going db))) (going db)) (outer db))).
  { intros db1 n Hs1 Hp1. apply sound_tasks; [done..|]. apply Forall_insert; [apply Hs1|done]. }
  destruct (is_cancelled _ _); [by apply Hstop|]. destruct (lookup_lt_is_Some_2 _ _ Hp) as [url Hurl].
  cbv [lift_st index attempt_st outside]. rewrite Hurl. pose proof (poolConnect_spec url (outer db)) as Hc.
  destruct (poolConnect url (outer db)) as [w1 [c|x| |]]; [|by apply sound_outer; [|rewrite Hc]|done..]. destruct Hc as [Hnew Hw1].
  destruct (sound_new db w1 c url Hs Hnew Hw1) as [_ Hnot]. cbn [outer write read going].
  pose proof (PoolPing_spec c w1) as [Hw2 Hr]. destruct (PoolPing c w1) as [w2 [t|x| |]]; cbn [fst snd] in Hw2, Hr; try done.
  all: assert (Hs2 : sound (MkDB (write db) (read db) (going db) w2)) by (apply sound_outer; [done|]; rewrite Hw2, Hw1; by apply insert_subseteq).
  all: pose proof (sound_close _ c Hs2 Hnot) as Hs3.
  - destruct (_ <=? _)%nat.
    + unfold set_going. cbn [write read going outer].
      destruct (switch_back_sound (Some ctx) seen p c url _ (Hstop _ Hs2)) as (db' & Hsw & Hs' & _); [done| |done|].
      { cbn [outer]. by rewrite Hw2, Hw1, lookup_insert_eq. }
      cbn [write read going outer] in Hsw. by rewrite Hsw.
    + unfold close_pool, set_going. cbn [write read going outer]. exact (Hagain _ (S pings) Hs3 Hp).
  - unfold close_pool, set_going. cbn [write read going outer]. exact (Hagain _ 0%nat Hs3 Hp).
Qed.

Lemma assign_switch_sound k seen : maintains sound (assign_switch k seen).
Proof.
  intros db Hs. unfold assign_switch. cbv [mbind ST_bind gets]. destruct (assigning (going db) !! k) as [[i c]|] eqn:Hk; [|done].
  cbv [set_going attempt_st]. set (t := with_assigning (delete k (assigning (going db))) (going db)).
  pose proof (delete_Permutation _ _ _ Hk) as Hp. pose proof Hs as [Ha Has Hdr Hrep Hnd Hw].
  destruct (Has i c) as (url & Hu & Ho); [rewrite Hp; by left|].
  assert (Hperm : owned db ≡ₚ c :: owned (MkDB (write db) (read db) t (outer db))).
  { unfold owned, t. cbn [write read going assigning draining with_assigning]. rewrite Hp at 1. cbn [fmap list_fmap snd app]. by rewrite <- Permutation_middle. }
  rewrite Hperm in Hnd. apply NoDup_cons in Hnd as [Hnot Hnd].
  assert (Hs1 : sound (MkDB (write db) (read db) t (outer db))).
  { split; cbn [write read going outer]; [done| |done|done|done|done]. intros i' c' Hin. apply Has. rewrite Hp. by right. }
  destruct (switch_back_sound None seen i c url _ Hs1 Hu Ho Hnot) as (db' & -> & Hs' & _). done.
Qed.

Lemma postponed_round_sound arrival : maintains sound (postponed_round arrival).
Proof.
  intros db Hs. unfold postponed_round. cbv [mbind ST_bind gets id]. destruct (negb _); [done|]. unfold outside.
  pose proof (detect_open (Masters (write db)) arrival (outer db)) as Hd.
  destruct (detectMinLatencyMaster _ _ _) as [w [f|x| |]]; [|by apply sound_outer..].
  destruct (minLatencyConn f) as [c|]; [|apply (sound_outer db w Hs); by rewrite Hd]. destruct Hd as (Hnew & Hi & url & Hu & Hw).
  destruct (sound_new db w c url Hs Hnew Hw) as [Hs1 Hnot]. destruct (_ && _); [|done].
  cbv [set_going]. unfold assignPreferredMaster. cbv [mbind ST_bind gets set_write set_going]. cbn [write going read outer].
  assert (Hs2 : sound (MkDB (write db) (read db) (with_postponed false (going db)) w)) by (by apply (sound_tasks (MkDB (write db) (read db) (going db) w)); [..|apply Hs1]).
  destruct (_ =? _)%nat; [done|]. destruct Hs2 as [Ha Has Hdr Hrep Hnd Hws]. split; cbn [write read going outer Active Masters CurrentIndex]; [done| |done|done| |done].
  - intros i c' [Hin|[= -> ->]%list_elem_of_singleton]%elem_of_app; [by apply Has|]. exists url. split; [done|]. cbn [outer fst]. by rewrite Hw, lookup_insert_eq.
  - unfold owned in *. cbn [write read going assigning draining with_assigning with_postponed Active fst] in *.
    rewrite fmap_app. cbn [fmap list_fmap snd]. rewrite <- !List.app_assoc. cbn [app]. rewrite <- !Permutation_middle. by constructor.
Qed.

Lemma WithReadURLs_sound urls : maintains sound (WithReadURLs urls).
Proof.
  induction urls as [|url urls IH]; cbn [WithReadURLs]; [maintain|]. intros db Hs. unfold mbind at 1, ST_bind at 1, outside at 1.
  pose proof (poolConnect_spec url (outer db)) as Hc.
  destruct (poolConnect url (outer db)) as [w [c|x| |]]; [|apply (sound_outer db w Hs); by rewrite Hc|done..].
  destruct Hc as [Hnew Hw]. destruct (sound_new db w c url Hs Hnew Hw) as [[Ha Has Hdr Hrep Hnd Hws] Hnot].
  unfold mbind, ST_bind. apply IH. split; cbn [write read going outer] in *; [done..| | |done].
  - cbn [Replicas]. intros c' [Hin| ->%list_elem_of_singleton]%elem_of_app; [by apply Hrep|]. by rewrite Hw, lookup_insert_eq.
  - unfold owned in *. cbn [write read going Replicas] in *. rewrite !List.app_assoc. apply NoDup_app. rewrite <- !List.app_assoc. split; [done|].
    split; [|by apply NoDup_singleton]. by intros x Hx ->%list_elem_of_singleton.
Qed.

Lemma WithWriteURLs_sound w arrival urls db : WithWriteURLs arrival urls (new_DB w) = (db, Ok ()) -> sound db.
Proof.
  unfold WithWriteURLs. intros (db1 & f & Hd & Hrest)%bind_st_Ok. unfold outside in Hd.
  pose proof (detect_open urls arrival w) as Hs. cbn [new_DB outer] in Hd. destruct (detectMinLatencyMaster arrival urls w) as [w1 [f1|x| |]]; [|done..].
  injection Hd as <- <-. revert Hrest. cbv [set_going set_write mbind ST_bind fail lift_st]. cbn [write going read outer].
  destruct (minLatencyConn f1) as [c|]; [|done]. destruct (_ || _); [done|]. intros [= <-]. destruct Hs as (Hnew & Hi & url & Hu & Hw).
  split; cbn; [|by intros ? ? ?%not_elem_of_nil..|by intros ? ?%not_elem_of_nil|by repeat constructor; intros ?%not_elem_of_nil|constructor].
  exists c, url. by rewrite Hw, lookup_insert_eq.
Qed.

Lemma replica_sound db : sound db -> sound (replica db).1.
Proof.
  intros [Ha Has Hdr Hrep Hnd Hw]. unfold replica. assert (Hr : Replicas (Next (read db)).1 = Replicas (read db)) by (unfold Next; by destruct (Replicas (read db)) eqn:?).
  destruct (Next (read db)) as [r c]. cbn [fst] in *. split; cbn [write read going outer]; [done..| | |done]; [|unfold owned; cbn [write read going]]; by rewrite Hr.
Qed.

(** The states of a connector that has started: statements fail on the master, the
    goroutines go their rounds, reads take their turns, and pools are used.  [seen] is
    the pool that was active at some time before a switch. *)
Inductive running : DB W -> Prop :=
| starts w arrival urls db : WithWriteURLs arrival urls (new_DB w) = (db, Ok ()) -> running db
| adds db urls : running db -> running (WithReadURLs urls db).1
| fails db seen : running db -> running (switchMaster None seen false None db).1
| waits db k seen : running db -> running (waiter_round k seen db).1
| drains db k : running db -> running (drain_round k db).1
| redetects db arrival : running db -> running (postponed_round arrival db).1
| assigns db k seen : running db -> running (assign_switch k seen db).1
| reads db : running db -> running (replica db).1
| moves db w : running db -> open w = open (outer db) -> running (MkDB (write db) (read db) (going db) w).

Lemma running_sound db : running db -> sound db.
Proof.
  induction 1 as [w arrival urls db Hs|db urls _ IH|db seen _ IH|db k seen _ IH|db k _ IH|db arrival _ IH|db k seen _ IH|db _ IH|db w _ IH Hw].
  - by eapply WithWriteURLs_sound.
  - by apply WithReadURLs_sound.
  - by apply switch_fails_sound.
  - by apply waiter_round_sound.
  - by apply drain_round_sound.
  - by apply postponed_round_sound.
  - by apply assign_switch_sound.
  - by apply replica_sound.
  - apply sound_outer; [done|]. by rewrite Hw.
Qed.

(** C10: however failures, switches and the goroutines interleave, the active pool is
    open and was opened for the master that is current, and no goroutine is about to
    close it. *)
Theorem master_available db : running db ->
  exists c url, Active (write db) = Some c /\ Masters (write db) !! CurrentIndex (write db) = Some url /\ open (outer db) !! c = Some url /\
    forall ctx d, (ctx, d) ∈ draining (going db) -> d ≠ c.
Proof.
  intros [(c & url & Ha & Hm & Ho) _ _ _ Hnd _]%running_sound. exists c, url. split_and!; [done..|]. intros ctx d Hin ->.
  unfold owned in Hnd. rewrite Ha in Hnd. cbn in Hnd. apply NoDup_cons in Hnd as [Hnot _]. apply Hnot, elem_of_app. right. apply elem_of_app. left.
  apply list_elem_of_fmap. by exists (ctx, c).
Qed.

(** *** The way back *)

Fixpoint rounds (n k : nat) (db : DB W) : DB W :=
  match n with O => db | S n => rounds n k (waiter_round k (Active (write db)) db).1 end.

(** The master of a connection string answers, as long as a property of the world holds
    that its answers keep. *)
Record answering (url : string) (up : W -> Prop) : Prop := {
  answering_connects : forall w, up w -> exists w' c, poolConnect url w = (w', Ok c) /\ up w';
  answering_pings : forall c w, up w -> exists w' t, PoolPing c w = (w', Ok t) /\ up w';
  answering_closes : forall c w, up w -> up (PoolClose c w)
}.

(** A round while the preferred master answers. *)
Lemma waiter_round_answered url up db k ctx p n : sound db -> waiters (going db) !! k = Some (MkWaiter ctx p n) -> ctx ∉ cancelled (going db) ->
  Masters (write db) !! p = Some url -> answering url up -> up (outer db) ->
  let db' := (waiter_round k (Active (write db)) db).1 in
  if (pingsForPreferredMasterSwitch <=? S n)%nat then CurrentIndex (write db') = p
  else write db' = write db /\ cancelled (going db') = cancelled (going db) /\ waiters (going db') !! k = Some (MkWaiter ctx p (S n)) /\ up (outer db').
Proof.
  intros Hs Hk Hctx Hurl [Hconn Hping Hclose] Hup. unfold waiter_round. cbv [mbind ST_bind gets id]. rewrite Hk.
  unfold is_cancelled. rewrite bool_decide_eq_false_2 by done. cbv [lift_st index attempt_st outside]. rewrite Hurl.
  pose proof (poolConnect_spec url (outer db)) as Hc. destruct (Hconn (outer db) Hup) as (w1 & c & Heq & Hup1). rewrite Heq in *. destruct Hc as [Hnew Hw1].
  pose proof (PoolPing_spec c w1) as [Hw2 _]. destruct (Hping c w1 Hup1) as (w2 & t & Heq2 & Hup2). cbn [outer write read going]. rewrite Heq2 in *. cbn [fst] in Hw2.
  destruct (_ <=? _)%nat; cbv zeta; unfold set_going, close_pool; cbn [write read going outer fst].
  - assert (Hs2 : sound (MkDB (write db) (read db) (with_waiters (delete k (waiters (going db))) (going db)) w2)).
    { apply (sound_tasks (MkDB (write db) (read db) (going db) w2)); [|done|done|apply Forall_delete, Hs].
      apply sound_outer; [done|]. rewrite Hw2, Hw1. by apply insert_subseteq. }
    destruct (switch_back_sound (Some ctx) (Active (write db)) p c url _ Hs2 Hurl) as (db' & -> & _ & Hcur).
    + cbn [outer]. by rewrite Hw2, Hw1, lookup_insert_eq.
    + exact (sound_fresh db c Hs Hnew).
    + cbn [fst]. by apply Hcur.
  - cbn [fst write going cancelled waiters with_waiters outer]. split_and!; [done..| |by apply Hclose]. apply list_lookup_insert_eq. by eapply lookup_lt_Some.
Qed.

Lemma rounds_answered url up m : answering url up -> forall db k ctx p n, running db -> waiters (going db) !! k = Some (MkWaiter ctx p n) -> ctx ∉ cancelled (going db) ->
  Masters (write db) !! p = Some url -> up (outer db) ->
  (n + S m = pingsForPreferredMasterSwitch)%nat -> CurrentIndex (write (rounds (S m) k db)) = p.
Proof.
  intros Hans. induction m as [|m IH]; intros db k ctx p n Hr Hk Hctx Hurl Hup Hn; cbn [rounds];
    pose proof (waiter_round_answered url up db k ctx p n (running_sound db Hr) Hk Hctx Hurl Hans Hup) as Hstep; cbv zeta in Hstep.
  - by rewrite (proj2 (Nat.leb_le _ _)) in Hstep by lia.
  - rewrite (proj2 (Nat.leb_gt _ _)) in Hstep by lia. destruct Hstep as (Hw & Hc & Hk' & Hup').
    eapply (IH _ k ctx p (S n)); [by apply waits|done|by rewrite Hc|by rewrite Hw|done|lia].
Qed.

(** C19: while the preferred master answers, the goroutine that waits for it brings it
    back in six rounds, when no one has cancelled it. *)
Theorem preferred_regained url up db k ctx p : running db -> waiters (going db) !! k = Some (MkWaiter ctx p 0) -> ctx ∉ cancelled (going db) ->
  Masters (write db) !! p = Some url -> answering url up -> up (outer db) ->
  CurrentIndex (write (rounds pingsForPreferredMasterSwitch k db)) = p.
Proof. intros Hr Hk Hctx Hurl Hans Hup. by apply (rounds_answered url up 5 Hans db k ctx p 0). Qed.
End ConnectorLaws.

(** ** Concrete inputs *)
Module MastersWitness.
Import AsciiText.

(** Servers, some of them down; an older pool answers sooner, and some are in use. *)
Record servers : Type := MkServers { opened : gmap nat string; down : list string; in_use : bool }.
Definition plain_config : PoolConfig := MkPoolConfig 512 0 0 300 60 0 3600 0 None.
#[local] Instance servers_world : PoolWorld servers := {|
  ParseConfig _ := Ok plain_config;
  NewWithConfig url _ w := if bool_decide (url ∈ down w) then (w, Err opaque_error)
                           else (MkServers (<[fresh (dom (opened w)) := url]> (opened w)) (down w) (in_use w), Ok (fresh (dom (opened w))));
  PoolPing c w := (w, Ok (Z.of_nat c)); PoolClose c w := MkServers (delete c (opened w)) (down w) (in_use w); PoolReset _ w := w;
  PoolBusy _ w := in_use w; ConnExec _ _ w := (w, Ok ());
  ConnQuery _ _ w := (w, Ok [("statement_timeout", "30000"); ("idle_in_transaction_session_timeout", "30000"); ("lock_timeout", "30000");
                             ("enable_partitionwise_join", "on"); ("enable_partitionwise_aggregate", "on")]);
  Acquire c w := (w, inl c); Release _ w := w; NewMigrator _ w := (w, None); LoadMigrations _ w := (w, None); GetCurrentVersion _ w := w;
  Migrate _ w := (w, None) |}.
#[local] Instance servers_spec : PoolWorldSpec servers.
Proof.
  refine {| open := opened |}; [done| |done|done].
  intros url conf w. cbn. destruct (bool_decide (url ∈ down w)); [done|]. split; [apply not_elem_of_dom, is_fresh|done].
Defined.

(** The settings of a connection are read back as milliseconds. *)
Example session_set w : (connSetSessionParameters 0 stmtTimeoutRegular id w).2 = Ok (). Proof. vm_compute. reflexivity. Qed.

Definition up : servers := MkServers ∅ [] true.
Definition begun : DB servers := (WithWriteURLs [0; 1]%nat ["m0"; "m1"] (new_DB up)).1.
Definition world_is (ds : list string) (db : DB servers) : DB servers := MkDB (write db) (read db) (going db) (MkServers (opened (outer db)) ds true).
Definition failed (db : DB servers) : DB servers := (switchMaster None (Active (write db)) false None db).1.
(** The first master fails and comes back. *)
Definition switched : DB servers := world_is [] (failed (world_is ["m0"] begun)).

Lemma begun_running : running begun.
Proof. apply (starts up [0; 1]%nat ["m0"; "m1"]). vm_compute. reflexivity. Qed.
Lemma switched_running : running switched.
Proof. apply (moves _ (outer switched)); [apply fails, (moves _ (outer (world_is ["m0"] begun))); [apply begun_running|]|]; vm_compute; reflexivity. Qed.

Example begun_first : (CurrentIndex (write begun), open (outer begun)) = (0%nat, {[0%nat := "m0"]}). Proof. vm_compute. reflexivity. Qed.
Example switched_second : (CurrentIndex (write switched), waiters (going switched)) = (1%nat, [MkWaiter 0 0 0]). Proof. vm_compute. reflexivity. Qed.

Lemma CalculateConnectOrder_others_witness : exists order, CalculateConnectOrder ["a"; "b"; "c"; "d"] 2 = Ok order /\ order ++ [2%nat] ≡ₚ [0; 1; 2; 3]%nat /\ (2%nat ∉ order) /\
  (forall k j, order !! k = Some j -> j = Nat.modulo (2 + 1 + k) 4).
Proof. apply (CalculateConnectOrder_others ["a"; "b"; "c"; "d"] 2). cbn. lia. Defined.

Lemma Next_turns_witness : nexts 3 (MkReadLB [7; 8; 9]%nat 4) ≡ₚ [Some 7; Some 8; Some 9]%nat.
Proof. apply (Next_turns (MkReadLB [7; 8; 9]%nat 4)); cbn; [discriminate|lia|lia]. Defined.
(** The counter wraps: a replica is read twice in a row. *)
Example Next_wraps : nexts 3 (MkReadLB [7; 8; 9]%nat (2 ^ 64 - 2)) = [Some 7; Some 7; Some 8]%nat. Proof. vm_compute. reflexivity. Qed.

Definition search : servers * outcome found := detectMinLatencyMaster [1; 0]%nat ["m0"; "m1"] up.
Lemma detect_least_witness : exists w1 ls, measure_all ["m0"; "m1"] [1; 0]%nat up = (w1, Ok ls) /\ Forall (fun l => 0 <= latency l) ls /\
  exists l url, l ∈ ls /\ conn l = Some 0%nat /\ latency l = 0 /\ 1 = Z.of_nat (idx l) /\ ["m0"; "m1"] !! idx l = Some url /\ open up !! 0%nat = None /\ open search.1 = <[0%nat := url]> (open up).
Proof. apply (detect_least ["m0"; "m1"] [1; 0]%nat up search.1 (MkFound true 0 1 (Some 0%nat))). vm_compute. reflexivity. Defined.

Lemma master_available_witness : exists c url, Active (write switched) = Some c /\ ["m0"; "m1"] !! 1%nat = Some url /\ open (outer switched) !! c = Some url /\
  (forall ctx d, (ctx, d) ∈ draining (going switched) -> d ≠ c).
Proof. apply (master_available switched switched_running). Defined.

Lemma up_answers : answering "m0" (fun w : servers => down w = []).
Proof.
  split.
  - intros [o d b] Hd. cbn in Hd. subst d. cbv [poolConnect mbind ST_bind lift_st ParseConfig NewWithConfig servers_world]. cbn. eauto.
  - intros c w Hw. exists w, (Z.of_nat c). done.
  - done.
Qed.
Lemma preferred_regained_witness : CurrentIndex (write (rounds pingsForPreferredMasterSwitch 0 switched)) = 0%nat.
Proof.
  apply (preferred_regained "m0" (fun w => down w = []) switched 0 0 0 switched_running);
    [vm_compute; reflexivity|apply (bool_decide_unpack _); vm_compute; exact I|reflexivity|exact up_answers|reflexivity].
Defined.

(** The goroutine that frees the pool of the second master ends when the first fails
    again, and takes the new goroutine that waits for the first with it: the first
    master is not returned to. *)
Definition regained : DB servers := rounds 6 0 switched.
Definition failed_again : DB servers := world_is [] (failed (world_is ["m0"] regained)).
Definition freed : DB servers := (drain_round 0 failed_again).1.
Example waiter_lost : (waiters (going failed_again), waiters (going (rounds 7 0 freed)), CurrentIndex (write (rounds 7 0 freed)), PreferredUrl (write freed)) =
  ([MkWaiter 1 0 0], [], 1%nat, 0%nat).
Proof. vm_compute. reflexivity. Qed.

(** While a master is down, every search for the fastest leaves a pool open that
    nothing answers for. *)
Definition one_down : DB servers := (WithWriteURLs [0; 1]%nat ["m0"; "m1"] (new_DB (MkServers ∅ ["m1"] true))).1.
Fixpoint searches (n : nat) (db : DB servers) : DB servers := match n with O => db | S n => searches n (postponed_round [0; 1]%nat db).1 end.
Example pools_leak : map (fun n => size (open (outer (searches n one_down)))) [0; 1; 2; 10]%nat = [1; 2; 3; 11]%nat.
Proof. vm_compute. reflexivity. Qed.
End MastersWitness.
