(* ===== verification/Statements.v ===== *)
(** * Package connector: statements

    src/database/query/internal/connector: api.go, named.go, iterator.go and
    storage_readonly.go.  A statement is run by the scanner (scany) on a pool or on the
    connection of a transaction; the scanner, sqlx and the rows of a query are
    parameters.  What is generic over the type of the rows in the source is here, too.
    Which statements are tried again is in file Connector, the pools are in file
    Masters.  The log of slow statements is left out but for what it needs. *)

From S2P Require Import Prelude GoStd Connector Masters.
Import Strings.

(** ** Data *)

(** Who runs a statement: the connector, or the connection of a transaction. *)
Inductive querier : Type := TheDB | OnTx (tx : nat).

(** What the rows of a query are read to: for each row its value, and the error of
    reading it; the error of the rows. *)
Record Rows (T : Type) : Type := MkRows { scanned : list (T * option driverError); rows_Err : option driverError }.
Arguments MkRows {T}. Arguments scanned {T}. Arguments rows_Err {T}.

(** sqlx: a statement with named parameters becomes one with a list of arguments. *)
Class Sqlx := {
  Arg : Type;
  BindNamed : string -> list (string * Arg) -> option (string * list Arg)
}.

(** A statement with its arguments, run on a pool or a transaction. *)
Inductive place : Type := Pool (c : nat) | Tx (tx : nat).

(** ** Errors of a connector without masters *)

Definition read_only : driverError := OtherError (err ErrReadOnly).
(* src: database/query/internal/connector/storage_readonly.go 19-21 [readOnlyDB.Exec] *)
Definition readOnly_Exec : option driverError := Some read_only.
(* src: database/query/internal/connector/storage_readonly.go 23-25 [readOnlyDB.Query] *)
Definition readOnly_Query : option driverError := Some read_only.
(* src: database/query/internal/connector/storage_readonly.go 27-29 [readOnlyDB.BeginTx] *)
Definition readOnly_BeginTx : option driverError := Some read_only.

Section Statements.
Context {G : GoText} {W : Type} {PW : PoolWorld W} {SX : Sqlx}.
Context (attempts : nat).

(** The outcome of one run: a panic ends the retries. *)
Abbreviation run A := (DB W -> DB W * (outcome A * option driverError)).
Abbreviation call A := (DB W -> DB W * (outcome A * option dbError)).

(** A statement runs on what was chosen: a nil pool is dereferenced. *)
Definition on_target {A} (none : A) (t : target) (ask : place -> W -> W * (A * option driverError)) : run A := fun db =>
  match t with
  | readOnlyDB => (db, (Ok none, readOnly_Query))
  | pool_of None => (db, (Panic, None))
  | pool_of (Some c) =>
      let '(w, (a, e)) := ask (Pool c) (outer db) in
      (MkDB (write db) (read db) (going db) w, match e with None => (Ok a, None) | Some e => (Ok none, Some e) end)
  end.

Definition on_tx {A} (none : A) (tx : nat) (ask : place -> W -> W * (A * option driverError)) : run A := fun db =>
  let '(w, (a, e)) := ask (Tx tx) (outer db) in
  (MkDB (write db) (read db) (going db) w, match e with None => (Ok a, None) | Some e => (Ok none, Some e) end).

(** Reads take turns on the replicas; writes go to the master. *)
Definition read_from {A} (none : A) (q : querier) (ask : place -> W -> W * (A * option driverError)) : run A := fun db =>
  match q with
  | TheDB => let '(db, t) := replica db in on_target none t ask db
  | OnTx tx => on_tx none tx ask db
  end.
Definition write_to {A} (none : A) (q : querier) (ask : place -> W -> W * (A * option driverError)) : run A := fun db =>
  match q with TheDB => on_target none (primary db) ask db | OnTx tx => on_tx none tx ask db end.

(** Only the connector itself has a master to switch. *)
(* src: database/query/internal/connector/api.go 263-269 *)
Definition switchMaster (q : querier) (db : DB W) : DB W * option dbError :=
  match q with TheDB => switch_dead db | OnTx _ => (db, None) end.

(** ** One value, all rows, the number of rows *)

Section Typed.
Context {T : Type}.
(** The scanner: one row, or all of them. *)
Context (scan_Get : string -> list Arg -> place -> W -> W * (option T * option driverError)).
Context (scan_Select : string -> list Arg -> place -> W -> W * (list T * option driverError)).
(** [Query] of a pool: its rows, which are read while the world goes on. *)
Context (pool_Query : string -> list Arg -> place -> W -> W * (Rows T * option driverError)).

(** The errors of [get], [selectInternal], [execOne], [execMany] and [exec] are parsed
    by the retries. *)
(* src: database/query/internal/connector/api.go 104-115 *)
Definition get (q : querier) (sql : string) (args : list Arg) : run (option T) := read_from None q (scan_Get sql args).
(* src: database/query/internal/connector/api.go 94-102 *)
Definition Get (q : querier) (sql : string) (args : list Arg) : call (option T) := read_retried attempts (get q sql args) (Ok None).

(* src: database/query/internal/connector/api.go 127-138 *)
Definition selectInternal (q : querier) (sql : string) (args : list Arg) : run (list T) := read_from [] q (scan_Select sql args).
(* src: database/query/internal/connector/api.go 117-125 *)
Definition Select (q : querier) (sql : string) (args : list Arg) : call (list T) := read_retried attempts (selectInternal q sql args) (Ok []).

(* src: database/query/internal/connector/api.go 176-187 *)
Definition execOne (q : querier) (sql : string) (args : list Arg) : run (option T) := write_to None q (scan_Get sql args).
(* src: database/query/internal/connector/api.go 164-174 *)
Definition ExecOne (q : querier) (sql : string) (args : list Arg) : call (option T) :=
  exec_retried attempts (switchMaster q) (execOne q sql args) (Ok None).

(* src: database/query/internal/connector/api.go 216-227 *)
Definition execMany (q : querier) (sql : string) (args : list Arg) : run (list T) := write_to [] q (scan_Select sql args).
(* src: database/query/internal/connector/api.go 189-199 *)
Definition ExecMany (q : querier) (sql : string) (args : list Arg) : call (list T) :=
  exec_retried attempts (switchMaster q) (execMany q sql args) (Ok []).
(* src: database/query/internal/connector/api.go 201-214 *)
Definition ExecManyWithCustomRetry (retryIf : dbError -> bool) (q : querier) (sql : string) (args : list Arg) : call (list T) :=
  exec_custom attempts retryIf (switchMaster q) (execMany q sql args) (Ok []).

(** ** Iterators *)

(** What is yielded, row after row, up to the end of the context: a row that cannot be
    read is yielded with its error and the next one is read.  [ended n]: the context
    has ended when [n] rows were read. *)
Fixpoint yields (ended : nat -> bool) (n : nat) (rows : list (T * option driverError)) : list (option T * option dbError) :=
  match rows with
  | [] => []
  | (data, e) :: rows => if ended n then [] else (Some data, parseError <$> e) :: yields ended (S n) rows
  end.

(** The error at the end: that of the rows, or that of the context. *)
Definition end_error (ended : bool) (rows : Rows T) : option dbError :=
  match rows_Err rows with
  | Some e => Some (parseError e)
  | None => if ended then Some (parseError (OtherError opaque_error)) else None
  end.

(** The rows that are read before the context ends. *)
Definition rows_read (ended : nat -> bool) (rows : Rows T) : nat := length (yields ended 0 (scanned rows)).

(** All that is yielded; who stops earlier gets a part of it from the front. *)
(* src: database/query/internal/connector/iterator.go 12-33 *)
Definition iteratorInternal (ended : nat -> bool) (rows : Rows T) : list (option T * option dbError) :=
  yields ended 0 (scanned rows) ++
  match end_error (ended (rows_read ended rows)) rows with Some e => [(None, Some e)] | None => [] end.

(** A query that is iterated is not tried again. *)
Definition iterated (ended : nat -> bool) (op : run (Rows T)) (db : DB W) : DB W * outcome (list (option T * option dbError) + dbError) :=
  match op db with
  | (db, (_, Some e)) => (db, Ok (inr (parseError e)))
  | (db, (r, None)) => (db, let! rows := r in Ok (inl (iteratorInternal ended rows)))
  end.
Definition no_rows : Rows T := MkRows [] None.
(* src: database/query/internal/connector/iterator.go 35-41 *)
Definition SelectIterator (ended : nat -> bool) (q : querier) (sql : string) (args : list Arg) : DB W -> DB W * outcome (list (option T * option dbError) + dbError) :=
  iterated ended (read_from no_rows q (pool_Query sql args)).
(* src: database/query/internal/connector/iterator.go 43-49 *)
Definition ExecIterator (ended : nat -> bool) (q : querier) (sql : string) (args : list Arg) : DB W -> DB W * outcome (list (option T * option dbError) + dbError) :=
  iterated ended (write_to no_rows q (pool_Query sql args)).

(** ** Named parameters *)

(* src: database/query/internal/connector/named.go 17-23 *)
Definition bindNamed (stmt : string) (params : list (string * Arg)) : (string * list Arg) + error :=
  match BindNamed stmt params with Some q => inl q | None => inr opaque_error end.

Definition bound {A} (stmt : string) (params : list (string * Arg)) (k : string -> list Arg -> call A) (none : A) : call A := fun db =>
  match bindNamed stmt params with
  | inr e => (db, (Ok none, Some (with_driver e None)))
  | inl (query, argList) => k query argList db
  end.

(* src: database/query/internal/connector/named.go 25-31 *)
Definition SelectNamedIterator (ended : nat -> bool) (q : querier) (stmt : string) (params : list (string * Arg)) (db : DB W) :
    DB W * outcome (list (option T * option dbError) + dbError) :=
  match bindNamed stmt params with
  | inr e => (db, Ok (inr (with_driver e None)))
  | inl (query, argList) => SelectIterator ended q query argList db
  end.
(* src: database/query/internal/connector/named.go 33-40 *)
Definition GetNamed (q : querier) (stmt : string) (params : list (string * Arg)) : call (option T) := bound stmt params (Get q) None.
(* src: database/query/internal/connector/named.go 42-49 *)
Definition SelectNamed (q : querier) (stmt : string) (params : list (string * Arg)) : call (list T) := bound stmt params (Select q) [].
(* src: database/query/internal/connector/named.go 51-57 *)
Definition ExecNamedIterator (ended : nat -> bool) (q : querier) (stmt : string) (params : list (string * Arg)) (db : DB W) :
    DB W * outcome (list (option T * option dbError) + dbError) :=
  match bindNamed stmt params with
  | inr e => (db, Ok (inr (with_driver e None)))
  | inl (query, argList) => ExecIterator ended q query argList db
  end.
(* src: database/query/internal/connector/named.go 59-66 *)
Definition ExecNamed (q : querier) (stmt : string) (params : list (string * Arg)) : call (list T) := bound stmt params (ExecMany q) [].

(** A slow statement is logged with the pool that is active then: a transaction is not
    a connector, and a pool that is gone is dereferenced. *)
Definition slow_logged (q : querier) (db : DB W) : bool := match q, Active (write db) with TheDB, Some _ => true | _, _ => false end.
(* src: database/query/internal/connector/named.go 68-101 *)
Definition ExecNamedManyWithCustomRetry (slow : bool) (retryIf : dbError -> bool) (q : querier) (stmt : string) (params : list (string * Arg)) : call (list T) :=
  bound stmt params (fun query argList db =>
    let '(db, (res, e)) := ExecManyWithCustomRetry retryIf q query argList db in
    if slow && negb (slow_logged q db) then (db, (match res with Ok _ => Panic | r => r end, None)) else (db, (res, e))) [].
End Typed.

(** The number of rows a statement changed. *)
Section Affected.
Context (pool_Exec : string -> list Arg -> place -> W -> W * (Z * option driverError)).
(* src: database/query/internal/connector/api.go 152-162 *)
Definition exec (q : querier) (sql : string) (args : list Arg) : run Z := write_to 0 q (pool_Exec sql args).
(* src: database/query/internal/connector/api.go 140-150 *)
Definition Exec (q : querier) (sql : string) (args : list Arg) : call Z := exec_retried attempts (switchMaster q) (exec q sql args) (Ok 0).
End Affected.
End Statements.

(** ** Theorems *)

Section Laws.
Context {G : GoText} {W : Type} {PW : PoolWorld W} {PS : PoolWorldSpec W} {SX : Sqlx}.
Context (attempts : nat).

(** Retries of two operations that agree as long as an invariant holds, which both the
    operation and the switch keep. *)
Section Agree.
Context {S A : Type} (P : S -> Prop) (good : A -> Prop).

Definition result {B} (r : attempt_result B) : B := match r with Done a _ | Again a _ => a end.

Lemma withRetry_agree n (f f' : S -> S * attempt_result A) :
  (forall s, P s -> f s = f' s /\ P (f s).1 /\ good (result (f s).2)) ->
  forall s, P s -> withRetry n f s = withRetry n f' s /\ P (withRetry n f s).1 /\ good (withRetry n f s).2.1.
Proof.
  intros Hf. induction n as [|n IH]; intros s Hs; cbn [withRetry]; destruct (Hf s Hs) as (<- & Hp & Hg); destruct (f s) as [s1 [a e|a e]]; cbn in *;
    try (by split_and!). by apply IH.
Qed.

Context (op op' : S -> S * (A * option driverError)) (none : A).
Hypothesis op_agree : forall s, P s -> op s = op' s /\ P (op s).1 /\ good (op s).2.1.
Hypothesis none_good : good none.

Lemma read_retried_agree s : P s -> read_retried attempts op none s = read_retried attempts op' none s /\
  P (read_retried attempts op none s).1 /\ good (read_retried attempts op none s).2.1.
Proof.
  apply withRetry_agree. intros s1 Hs. destruct (op_agree s1 Hs) as (<- & Hp & Hg). destruct (op s1) as [s2 [a [e|]]]; cbn [fmap option_fmap option_map fst snd result] in *; [|done].
  destruct (IsUnexpected _); by split_and!.
Qed.

Context (switch : S -> S * option dbError).
Hypothesis switch_keeps : forall s, P s -> P (switch s).1.

Lemma exec_retried_agree s : P s -> exec_retried attempts switch op none s = exec_retried attempts switch op' none s /\
  P (exec_retried attempts switch op none s).1 /\ good (exec_retried attempts switch op none s).2.1.
Proof.
  apply withRetry_agree. intros s1 Hs. destruct (op_agree s1 Hs) as (<- & Hp & Hg). destruct (op s1) as [s2 [a [e|]]]; cbn [fmap option_fmap option_map fst snd result] in *; [|done].
  destruct (isInstanceDead _); [pose proof (switch_keeps s2 Hp) as Hk; destruct (switch s2)|destruct (IsUnexpected _)]; by split_and!.
Qed.

Lemma exec_custom_agree retryIf s : P s -> exec_custom attempts retryIf switch op none s = exec_custom attempts retryIf switch op' none s /\
  P (exec_custom attempts retryIf switch op none s).1 /\ good (exec_custom attempts retryIf switch op none s).2.1.
Proof.
  apply withRetry_agree. intros s1 Hs. destruct (op_agree s1 Hs) as (<- & Hp & Hg). destruct (op s1) as [s2 [a [e|]]]; cbn [fmap option_fmap option_map fst snd result] in *; [|done].
  destruct (isInstanceDead _); [pose proof (switch_keeps s2 Hp) as Hk; destruct (switch s2)|destruct (retryIf _)]; by split_and!.
Qed.
End Agree.

Lemma switch_dead_running db : running db -> running (switchMaster TheDB db).1.
Proof. intros Hr. pose proof (fails db (Active (write db)) Hr) as Hf. cbn. unfold switch_dead. by destruct (Masters.switchMaster _ _ _ _ db) as [db' [| | |]]. Qed.

Section Asked.
Context {A : Type} (none : A) (ask ask' : place -> W -> W * (A * option driverError)).
Hypothesis ask_open : forall p w, open (ask p w).1 = open w.
Hypothesis ask_agree : forall c w, is_Some (open w !! c) -> ask (Pool c) w = ask' (Pool c) w.

Definition returns (r : outcome A) : Prop := exists a, r = Ok a.

Lemma on_open_pool db c : running db -> is_Some (open (outer db) !! c) ->
  on_target none (pool_of (Some c)) ask db = on_target none (pool_of (Some c)) ask' db /\
  running (on_target none (pool_of (Some c)) ask db).1 /\ returns (on_target none (pool_of (Some c)) ask db).2.1.
Proof.
  intros Hr Hc. cbn [on_target]. rewrite <- (ask_agree c) by done. split; [done|]. pose proof (ask_open (Pool c) (outer db)) as Ho.
  destruct (ask (Pool c) (outer db)) as [w [a e]]. cbn [fst] in *. split; [by apply moves|]. destruct e; cbn; by eexists.
Qed.

Lemma write_to_agree db : running db -> write_to none TheDB ask db = write_to none TheDB ask' db /\
  running (write_to none TheDB ask db).1 /\ returns (write_to none TheDB ask db).2.1.
Proof.
  intros Hr. destruct (sound_active db (running_sound db Hr)) as (c & url & Ha & Hm & Ho). unfold write_to, primary.
  rewrite bool_decide_eq_false_2 by (intros Hn; by rewrite Hn in Hm). rewrite Ha. apply on_open_pool; eauto.
Qed.

Lemma read_from_agree db : running db -> read_from none TheDB ask db = read_from none TheDB ask' db /\
  running (read_from none TheDB ask db).1 /\ returns (read_from none TheDB ask db).2.1.
Proof.
  intros Hr. pose proof (running_sound db Hr) as Hs. pose proof (reads db Hr) as Hr'. unfold read_from, replica in *.
  destruct (Next (read db)) as [r [c|]] eqn:Hn; cbn [fst] in Hr'.
  - apply on_open_pool; [done|]. cbn [outer]. apply (sound_replicas db Hs). unfold Next in Hn. destruct (Replicas (read db)) as [|x l]; [done|].
    injection Hn as _ Hn. by eapply list_elem_of_lookup_2.
  - exact (write_to_agree _ Hr').
Qed.
End Asked.

End Laws.

(** ** Concrete inputs *)
Module StatementsWitness.
Import AsciiText MastersWitness.
#[local] Existing Instance servers_world.
#[local] Existing Instance servers_spec.
#[local] Instance sqlx : Sqlx := {| Arg := string; BindNamed stmt params := if stmt =s? "" then None else Some (stmt, map snd params) |}.

(** A master that is down breaks the connection; a pool that was closed answers what
    it is told to. *)
Definition asked_of (closed : string) (sql : string) (args : list Arg) (p : place) (w : servers) : servers * (list string * option driverError) :=
  (w, match p with
      | Pool c => match opened w !! c with Some url => if bool_decide (url ∈ down w) then ([], Some NetOp) else ([url], None) | None => ([closed], None) end
      | Tx _ => ([], Some NetOp)
      end).
Definition failing : DB servers := world_is ["m0"] begun.
Lemma failing_running : running failing.
Proof. apply (moves begun (outer failing)); [apply begun_running|reflexivity]. Qed.


(** A write goes to the second master when the first is down; a read without replicas
    is tried on the first until no time is left. *)
Example write_switched : (ExecMany 3 (asked_of "") TheDB "DELETE" [] failing).2.1 = Ok ["m1"]. Proof. vm_compute. reflexivity. Qed.
Example read_stays : is_Some (Select 3 (asked_of "") TheDB "SELECT" [] failing).2.2. Proof. vm_compute. by eexists. Qed.
(** In a transaction nothing is switched. *)
Example tx_stays : let '(db, (_, e)) := ExecMany 3 (asked_of "") (OnTx 0) "DELETE" [] failing in Active (write db) = Active (write failing) /\ is_Some e.
Proof. vm_compute. split; [done|by eexists]. Qed.
(** A slow statement in a transaction panics when it is logged. *)
Example slow_tx : (ExecNamedManyWithCustomRetry 3 (asked_of "") true (fun _ => false) (OnTx 0) "INSERT" [] failing).2 = (Panic, None).
Proof. vm_compute. reflexivity. Qed.
(** Without masters a write is refused at once. *)
Example refused : ((ExecMany 3 (asked_of "") TheDB "DELETE" [] (new_DB up)).2.2 ≫= fun e => Some (db_is e ErrReadOnly)) = Some true. Proof. vm_compute. reflexivity. Qed.
(** A row that cannot be read does not end the rows; the error of the rows is last. *)
Example rows_go_on : map (fun x => (x.1, bool_decide (is_Some x.2))) (iteratorInternal (fun _ => false) (MkRows [("a", None); ("b", Some NetOp); ("c", None)] (Some NetOp))) =
  [(Some "a", false); (Some "b", true); (Some "c", false); (None, true)].
Proof. vm_compute. reflexivity. Qed.
Example ended_early : map fst (iteratorInternal (fun n => (2 <=? n)%nat) (MkRows [("a", None); ("b", None); ("c", None)] None)) = [Some "a"; Some "b"; None].
Proof. vm_compute. reflexivity. Qed.
End StatementsWitness.
