(* ===== verification/Credentials.v ===== *)
(** * Package connector: credentials in messages

    src/database/query/internal/connector/errors.go: what is taken out of the texts of
    errors before they are logged.  A regular expression is a function that matches at
    the start of a string, as long as the expression says; [ReplaceAll] is
    [regexp.ReplaceAllString] for a replacement without [$].  The classes of the
    expressions are of ASCII characters, so that bytes do for runes. *)

From S2P Require Import Prelude GoStd.
Import Strings.

(** ** Regular expressions *)

(** A matcher: one less than the length of a match at the start. *)
Abbreviation matcher := (string -> option nat).

(** The leftmost match is replaced, and the search goes on behind it; [skip] characters
    are still part of a match. *)
Fixpoint ReplaceAll (m : matcher) (repl : string) (skip : nat) (s : string) : string :=
  match s with
  | "" => ""
  | String c s' =>
      match skip with
      | S skip => ReplaceAll m repl skip s'
      | O => match m s with Some n => repl +:+ ReplaceAll m repl n s' | None => String c (ReplaceAll m repl 0 s') end
      end
  end.

(** [[^\s`]] *)
Definition value_char (c : ascii) : bool :=
  negb (bool_decide (c ∈ ["009"%char; "010"%char; "012"%char; "013"%char; " "%char; "`"%char])).
Fixpoint values (s : string) : nat := match s with String c s => if value_char c then S (values s) else 0%nat | "" => 0%nat end.

(** A key and at least one character of a value. *)
(* src: database/query/internal/connector/errors.go 26-29 [rePassword] *)
Definition re_key (key : string) : matcher := fun s =>
  if HasPrefix s key then match values (drop (len key) s) with O => None | S n => Some (len key + n)%nat end else None.

(** Where the last [@] is before a slash, but for a first one; [i] characters are
    before. *)
Fixpoint last_at (i : nat) (s : string) : option nat :=
  match s with
  | "" => None
  | String c s =>
      if Ascii.eqb c "/" then None
      else match last_at (S i) s with
           | Some k => Some k
           | None => if Ascii.eqb c "@" && (1 <=? i)%nat then Some i else None
           end
  end.
(* src: database/query/internal/connector/errors.go 30 *)
Definition reURIUserInfo : matcher := fun s =>
  if HasPrefix s "://" then match last_at 0 (drop 3 s) with Some k => Some (3 + k)%nat | None => None end else None.

(** ** Messages *)

(* src: database/query/internal/connector/errors.go 71-82 *)
Definition sanitizeDSN (s : string) : string :=
  if s =s? "" then s
  else
    let s := ReplaceAll (re_key "user=") "user=***" 0 s in
    let s := ReplaceAll (re_key "database=") "database=***" 0 s in
    let s := ReplaceAll (re_key "dbname=") "dbname=***" 0 s in
    let s := ReplaceAll (re_key "password=") "password=***" 0 s in
    ReplaceAll reURIUserInfo "://***@" 0 s.

Section Errors.
(** An error has a text. *)
Context {E : Type} (Error : E -> string).

(** What is logged: the error, or one that wraps it with another text. *)
(* src: database/query/internal/connector/errors.go 20-23 [sanitizedError] *)
Inductive sanitized : Type := Unchanged (e : E) | sanitizedError (Original : E) (Message : string).
(* src: database/query/internal/connector/errors.go 48 [sanitizedError.Error] *)
Definition sanitized_Error (e : sanitized) : string := match e with Unchanged e => Error e | sanitizedError _ m => m end.
(* src: database/query/internal/connector/errors.go 49 [sanitizedError.Unwrap] *)
Definition sanitized_Unwrap (e : sanitized) : option E := match e with Unchanged _ => None | sanitizedError o _ => Some o end.

(* src: database/query/internal/connector/errors.go 63-69 *)
Definition sanitizeError (e : option E) : string := match e with None => "" | Some e => sanitizeDSN (Error e) end.

(* src: database/query/internal/connector/errors.go 51-61 *)
Definition sanitizeErr (e : option E) : option sanitized :=
  match e with
  | None => None
  | Some e' => let msg := sanitizeError e in Some (if msg =s? Error e' then Unchanged e' else sanitizedError e' msg)
  end.

(* src: database/query/internal/connector/errors.go 14-18 *)
Record DuplicateError : Type := MkDuplicate { Original : E; Constraint : string; Object : string }.
(* src: database/query/internal/connector/errors.go 33-44 [DuplicateError.Error] *)
Definition duplicate_Error (e : DuplicateError) : string :=
  "duplicate value violates unique constraint" +:+
  (if Constraint e =s? "" then "" else ": " +:+ Constraint e) +:+
  (if Object e =s? "" then "" else " (object: " +:+ Object e +:+ ")").
End Errors.

(** ** Theorems *)

(** What may follow a key: nothing, stars, or what is not part of a value. *)
Definition masked (post : string) : bool :=
  HasPrefix post "***" || match post with "" => true | String c _ => negb (value_char c) end.

(** Every occurrence of a key is followed so. *)
Fixpoint all_masked (key s : string) : bool :=
  match s with
  | "" => true
  | String _ s' => (if HasPrefix s key then masked (drop (len key) s) else true) && all_masked key s'
  end.

(** *** Replacements *)

(** A key and a replacement that could overlap. *)
Definition clash (k repl : string) : bool := HasPrefix repl k || HasPrefix k repl.
Fixpoint clash_free (k repl : string) : bool :=
  match k with "" => true | String _ k' => negb (clash k repl) && clash_free k' repl end.

Lemma HasPrefix_cons c s d p : HasPrefix (String c s) (String d p) = true <-> c = d /\ HasPrefix s p = true.
Proof. unfold HasPrefix. cbn. destruct (ascii_dec d c) as [->|Hne]; [naive_solver|]. split; [done|]. by intros [-> _]. Qed.

Lemma HasPrefix_replaced k repl r : HasPrefix (repl +:+ r) k = true -> clash k repl = true.
Proof.
  unfold clash. revert k. induction repl as [|c repl IH]; intros k; [intros _; apply orb_true_iff; right; unfold HasPrefix; by destruct k|].
  destruct k as [|d k]; [done|]. intros [<- Hk]%HasPrefix_cons. apply IH in Hk. rewrite orb_true_iff in *. by rewrite !HasPrefix_cons; naive_solver.
Qed.

Section Replaced.
Context (m : matcher) (repl : string).

Lemma ReplaceAll_skip n s : ReplaceAll m repl n s = ReplaceAll m repl 0 (drop n s).
Proof. revert n. induction s as [|c s IH]; intros [|n]; cbn; [done..|apply IH]. Qed.

(** A key that is found in the result, away from replacements, was there before. *)
Lemma ReplaceAll_copied k s : clash_free k repl = true -> HasPrefix (ReplaceAll m repl 0 s) k = true ->
  HasPrefix s k = true /\ ReplaceAll m repl 0 s = k +:+ ReplaceAll m repl 0 (drop (len k) s).
Proof.
  revert s. induction k as [|d k IH]; intros s; [intros _ _; by destruct s|]. cbn [clash_free]. intros [Hc Hf]%andb_true_iff. apply negb_true_iff in Hc.
  destruct s as [|c s]; [done|]. cbn [ReplaceAll]. destruct (m (String c s)) as [n|].
  - intros Hp%HasPrefix_replaced. by rewrite Hp in Hc.
  - intros [-> Hp]%HasPrefix_cons. destruct (IH s Hf Hp) as [Hs Heq]. split; [by apply HasPrefix_cons|]. cbn. by rewrite Heq.
Qed.

(** The matcher matches neither stars nor what is not part of a value. *)
Hypothesis m_value : forall c s, is_Some (m (String c s)) -> value_char c = true /\ c <> "*"%char.

Lemma ReplaceAll_other c s : value_char c = false \/ c = "*"%char -> ReplaceAll m repl 0 (String c s) = String c (ReplaceAll m repl 0 s).
Proof. intros Hc. cbn. destruct (m (String c s)) as [n|] eqn:Hm; [|done]. destruct (m_value c s) as [Hv Hn]; [by rewrite Hm|]. destruct Hc; congruence. Qed.

Lemma ReplaceAll_masked t : masked t = true -> masked (ReplaceAll m repl 0 t) = true.
Proof.
  unfold masked. intros [Ht|Ht]%orb_true_iff.
  - apply HasPrefix_spec in Ht as [r ->]. cbn [String.append]. rewrite !ReplaceAll_other by auto. apply orb_true_iff. left. apply (HasPrefix_app "***").
  - destruct t as [|c t]; [done|]. apply negb_true_iff in Ht. rewrite ReplaceAll_other by auto. cbn. by rewrite Ht, orb_true_r.
Qed.

(** Where the matcher leaves a key alone, it is masked. *)
Fixpoint left_masked (key s : string) : Prop :=
  (m s = None -> HasPrefix s key = true -> masked (drop (len key) s) = true) /\ match s with "" => True | String _ s => left_masked key s end.

Lemma ReplaceAll_all_masked k0 key s n : let k := String k0 key in
  clash_free key repl = true -> (forall r, all_masked k r = true -> all_masked k (repl +:+ r) = true) -> left_masked k s ->
  all_masked k (ReplaceAll m repl n s) = true.
Proof.
  intros k Hc Hr. revert n. induction s as [|c s IH]; intros n; [by destruct n|]. intros [Hm Hs]. change (left_masked k s) in Hs. cbn [ReplaceAll].
  destruct n as [|n]; [|exact (IH n Hs)]. destruct (m (String c s)) as [n|]; [by apply Hr, IH|]. cbn [all_masked]. apply andb_true_iff. split; [|by apply IH].
  destruct (HasPrefix (String c (ReplaceAll m repl 0 s)) k) eqn:Hp; [|done]. apply HasPrefix_cons in Hp as [-> Hp]. destruct (ReplaceAll_copied key s Hc Hp) as [Hk Heq].
  rewrite Heq. unfold k. cbn [String.length drop]. rewrite drop_app. apply ReplaceAll_masked, (Hm eq_refl). by apply HasPrefix_cons.
Qed.

Lemma all_masked_left key s : key <> "" -> all_masked key s = true -> left_masked key s.
Proof.
  intros Hk. induction s as [|c s IH]; intros Ha; [split; [|done]; by destruct key|]. cbn [all_masked] in Ha.
  apply andb_true_iff in Ha as [Hp Ha]. split; [|by apply IH]. intros _ Hpre. by rewrite Hpre in Hp.
Qed.
End Replaced.

(** *** Keys *)

Lemma values_spec s : values s = 0%nat <-> match s with "" => True | String c _ => value_char c = false end.
Proof. destruct s as [|c s]; [done|]. cbn. by destruct (value_char c). Qed.

(** The keys of connection strings that are masked; [k] starts none of the characters
    that are not part of a value. *)
Definition keys : list string := ["user="; "database="; "dbname="; "password="].

Lemma re_key_value k0 key c s : value_char k0 = true -> k0 <> "*"%char -> is_Some (re_key (String k0 key) (String c s)) -> value_char c = true /\ c <> "*"%char.
Proof. unfold re_key. intros Hv Hn. destruct (HasPrefix _ _) eqn:Hp; [|by intros [? ?]]. by apply HasPrefix_cons in Hp as [-> _]. Qed.

(** A key that is not replaced has no value. *)
Lemma re_key_left key s : key <> "" -> left_masked (re_key key) key s.
Proof.
  intros Hk. assert (Hm : forall s, re_key key s = None -> HasPrefix s key = true -> masked (drop (len key) s) = true).
  { intros t. unfold re_key. intros Hn Hp. rewrite Hp in Hn. destruct (values (drop (len key) t)) eqn:Hv; [|done]. apply values_spec in Hv.
    unfold masked. apply orb_true_iff. right. destruct (drop (len key) t) as [|c r]; [done|]. by rewrite Hv. }
  induction s as [|c s IH]; split; [apply Hm|done|apply Hm|exact IH].
Qed.

(** Replacing the values of one key masks it, and leaves the others masked. *)
Lemma key_masked key s : key ∈ keys -> all_masked key (ReplaceAll (re_key key) (key +:+ "***") 0 s) = true.
Proof.
  unfold keys. rewrite !elem_of_cons, !elem_of_nil. intros [->|[->|[->|[->|[]]]]];
    (apply ReplaceAll_all_masked; [intros c t; by apply re_key_value|done|intros [|? r] Hr; exact Hr|by apply re_key_left]).
Qed.

Lemma other_masked key key' s : key ∈ keys -> key' ∈ keys -> key <> key' -> all_masked key s = true ->
  all_masked key (ReplaceAll (re_key key') (key' +:+ "***") 0 s) = true.
Proof.
  unfold keys. rewrite !elem_of_cons, !elem_of_nil. intros [->|[->|[->|[->|[]]]]] [->|[->|[->|[->|[]]]]] Hne Ha; try done;
    (apply ReplaceAll_all_masked; [intros c t; by apply re_key_value|done|intros [|? r] Hr; exact Hr|by apply all_masked_left]).
Qed.

Lemma masks_all l key s : Forall (fun k => k ∈ keys) l -> key ∈ keys -> key ∈ l \/ all_masked key s = true ->
  all_masked key (foldl (fun s key => ReplaceAll (re_key key) (key +:+ "***") 0 s) s l) = true.
Proof.
  intros Hl Hk. revert s. induction Hl as [|k l Hin _ IH]; intros s; [by intros [?%not_elem_of_nil|]|]. rewrite elem_of_cons. intros H. cbn [foldl]. apply IH.
  destruct (decide (key = k)) as [->|Hne]; [right; by apply key_masked|]. destruct H as [[?|?]|?]; [done|by left|right; by apply other_masked].
Qed.

(** *** Addresses *)

Lemma last_at_slash i s : last_at i (String "/" s) = None. Proof. done. Qed.

(** A stretch without slash up to an [@] has a last one. *)
Lemma last_at_found i u post : in_string "/" u = false -> (1 <= i + len u)%nat -> last_at i (u +:+ "@" +:+ post) <> None.
Proof.
  revert i. induction u as [|c u IH]; intros i; cbn [in_string String.append last_at].
  - intros _ Hi. cbn in Hi. destruct i as [|i]; [lia|]. cbn. by destruct (last_at _ post).
  - intros [Hc Hu]%orb_false_iff _. rewrite Ascii.eqb_sym, Hc. specialize (IH (S i) Hu ltac:(lia)). by destruct (last_at _ _).
Qed.

(** Whether there is an [@] does not depend on what is in front of it. *)
Lemma last_at_none i j s : last_at (S i) s = None -> last_at (S j) s = None.
Proof.
  revert i j. induction s as [|c s IH]; intros i j; cbn [last_at]; [done|]. destruct (Ascii.eqb c "/"); [done|].
  destruct (last_at (S (S i)) s) eqn:Hl; [done|]. rewrite (IH _ _ Hl). cbn. by destruct (Ascii.eqb c "@").
Qed.

(** Behind the last [@] there is no other. *)
Lemma last_at_rest i j s k : last_at i s = Some k -> (i <= k)%nat /\ last_at (S j) (drop (S (k - i)) s) = None.
Proof.
  revert i. induction s as [|c s IH]; intros i; cbn [last_at]; [done|]. destruct (Ascii.eqb c "/") eqn:Hc; [done|].
  destruct (last_at (S i) s) as [k'|] eqn:Hl.
  - intros [= <-]. destruct (IH _ Hl) as [Hle Hr]. split; [lia|]. replace (k' - i)%nat with (S (k' - S i)) by lia. exact Hr.
  - destruct (_ && _); [|done]. intros [= <-]. split; [done|]. rewrite Nat.sub_diag. cbn [drop]. by apply (last_at_none i).
Qed.

Abbreviation hide := (ReplaceAll reURIUserInfo "://***@").

(** Addresses whose users are hidden. *)
Definition user_hidden (t : string) : Prop := last_at 0 t = None \/ exists t', t = "***@" +:+ t' /\ last_at 1 t' = None.
Fixpoint users_hidden (s : string) : Prop :=
  match s with "" => True | String _ s' => (HasPrefix s "://" = true -> user_hidden (drop 3 s)) /\ users_hidden s' end.

Lemma hide_here c s : hide 0 (String c s) = String c (hide 0 s) \/ exists k, last_at 0 (drop 2 s) = Some k /\ hide 0 (String c s) = "://***@" +:+ hide (3 + k) s.
Proof.
  cbn [ReplaceAll]. destruct (reURIUserInfo (String c s)) as [n|] eqn:Hm; [right|by left]. unfold reURIUserInfo in Hm.
  destruct (HasPrefix _ _); [|done]. change (drop 3 (String c s)) with (drop 2 s) in Hm. destruct (last_at 0 (drop 2 s)) as [k|]; [|done]. injection Hm as <-. by exists k.
Qed.

Lemma hide_no_at i s : last_at (S i) s = None -> last_at (S i) (hide 0 s) = None.
Proof.
  revert i. induction s as [|c s IH]; intros i; [done|]. intros Hl. destruct (hide_here c s) as [->|(k & _ & ->)]; [|done]. revert Hl. cbn [last_at].
  destruct (Ascii.eqb c "/"); [done|]. destruct (last_at (S (S i)) s) eqn:Hs; [done|]. by rewrite (IH _ Hs).
Qed.

Lemma hide_no_user s : last_at 0 s = None -> last_at 0 (hide 0 s) = None.
Proof.
  destruct s as [|c s]; [done|]. intros Hl. destruct (hide_here c s) as [->|(k & _ & ->)]; [|done]. revert Hl. cbn [last_at].
  destruct (Ascii.eqb c "/"); [done|]. destruct (last_at 1 s) eqn:Hs; [done|]. by rewrite (hide_no_at _ _ Hs).
Qed.

Lemma drop_add n k s : drop n (drop k s) = drop (k + n) s.
Proof. revert s. induction k as [|k IH]; intros s; [done|]. destruct s as [|c s]; [by destruct n|]. apply IH. Qed.

Lemma hide_hidden s n : users_hidden (hide n s).
Proof.
  revert n. induction s as [|c s IH]; intros n; [by destruct n|]. destruct n as [|n]; [|apply IH]. cbn [ReplaceAll].
  destruct (reURIUserInfo (String c s)) as [n|] eqn:Hm.
  - cbn [String.append users_hidden]. split; [|by split_and!]. intros _. right. exists (hide n s). split; [done|].
    unfold reURIUserInfo in Hm. destruct (HasPrefix _ _) eqn:Hp; [|done]. change (drop 3 (String c s)) with (drop 2 s) in Hm. destruct (last_at 0 (drop 2 s)) as [k|] eqn:Hk; [|done].
    injection Hm as <-. rewrite ReplaceAll_skip. apply hide_no_at. apply (last_at_rest 0 0) in Hk as [_ Hk]. rewrite Nat.sub_0_r, drop_add in Hk.
    by replace (3 + k)%nat with (2 + S k)%nat by lia.
  - cbn [users_hidden]. split; [|apply IH]. intros [-> Hp]%HasPrefix_cons. destruct (ReplaceAll_copied reURIUserInfo "://***@" "//" s eq_refl Hp) as [Hs Heq].
    left. rewrite Heq. cbn [String.append drop]. apply hide_no_user. unfold reURIUserInfo in Hm. rewrite (proj2 (HasPrefix_cons ":" s ":" "//") (conj eq_refl Hs)) in Hm.
    change (drop 3 (String ":" s)) with (drop 2 s) in Hm. change (drop (len "//") s) with (drop 2 s). by destruct (last_at 0 (drop 2 s)).
Qed.

Lemma hide_keeps key s : key ∈ keys -> all_masked key s = true -> all_masked key (hide 0 s) = true.
Proof.
  unfold keys. rewrite !elem_of_cons, !elem_of_nil.
  assert (Hv : forall c t, is_Some (reURIUserInfo (String c t)) -> value_char c = true /\ c <> "*"%char).
  { intros c t [n Hn]. unfold reURIUserInfo in Hn. destruct (HasPrefix _ _) eqn:Hp; [|done]. by apply HasPrefix_cons in Hp as [-> _]. }
  intros [->|[->|[->|[->|[]]]]] Ha; (apply ReplaceAll_all_masked; [exact Hv|done|intros [|? r] Hr; exact Hr|by apply all_masked_left]).
Qed.

(** *** Messages *)

Lemma all_masked_spec key pre post : all_masked key (pre +:+ key +:+ post) = true -> key <> "" -> masked post = true.
Proof.
  intros Ha Hk. induction pre as [|c pre IH]; cbn [String.append] in Ha.
  - destruct key as [|k0 key]; [done|]. change (String k0 key +:+ post) with (String k0 (key +:+ post)) in Ha. cbn [all_masked] in Ha.
    apply andb_true_iff in Ha as [Ha _]. change (String k0 (key +:+ post)) with (String k0 key +:+ post) in Ha. by rewrite HasPrefix_app, drop_app in Ha.
  - cbn [all_masked] in Ha. apply andb_true_iff in Ha as [_ Ha]. by apply IH.
Qed.

Lemma users_hidden_spec pre t : users_hidden (pre +:+ "://" +:+ t) -> user_hidden t.
Proof. induction pre as [|c pre IH]; intros H; [destruct H as [H _]; apply H, (HasPrefix_app "://")|apply IH, H]. Qed.


(** ** Concrete inputs *)
Module CredentialsWitness.
Definition message : string := "cannot connect: host=db user=bob password=s3cret dbname=events (postgres://bob:s3cret@db/events)".


(** A quoted value is masked up to its first space, a value after a space not at all, and
    an address whose password holds a slash is left as it is. *)
Example quoted_shown : sanitizeDSN "password='my secret'" = "password=*** secret'". Proof. vm_compute. reflexivity. Qed.
Example spaced_shown : sanitizeDSN "password = secret" = "password = secret". Proof. vm_compute. reflexivity. Qed.
Example slash_shown : sanitizeDSN "postgres://bob:se/cret@db" = "postgres://bob:se/cret@db". Proof. vm_compute. reflexivity. Qed.
Example message_kept : sanitizeErr (fun e => e) (Some "timeout") = Some (Unchanged "timeout"). Proof. vm_compute. reflexivity. Qed.
Example message_wrapped : sanitizeErr (fun e => e) (Some "user=bob") = Some (sanitizedError "user=bob" "user=***"). Proof. vm_compute. reflexivity. Qed.
Example duplicate_shown : duplicate_Error (MkDuplicate tt "events_pkey" "Key (id)") = "duplicate value violates unique constraint: events_pkey (object: Key (id))". Proof. reflexivity. Qed.
End CredentialsWitness.
