(* ===== verification/Startup.v ===== *)
(** * Package query: start, self-test and periodic work

    src/database/query: global.go, the start of client.go, and the self-test at the end of
    query.go.  The configuration and its merging, the client over the connector of file
    Masters, the test that writes events to every master and reads them from every
    database, and the goroutines that delete expired events and measure the database.
    Reading the configuration file, its validation by tags and logging are left out; a
    fatal message ends the program, as a panic does. *)

From S2P Require Import Prelude GoStd Nostr Model Connector Masters.
Import Strings.

(** ** Configuration *)

(* src: database/query/global.go 30-40 *)
Record Config : Type := MkConfig {
  Username : string; Password : string; PrivateKey : string; RelayURL : string;
  WriteURLs : list string; ReadURLs : list string; PeriodicSelfTestInterval : Z;
  RunDDL : bool; DisableSelfTest : bool
}.
Definition no_config : Config := MkConfig "" "" "" "" [] [] 0 false false.

Definition given (new old : string) : string := if new =s? "" then old else new.
Definition given_list (new old : list string) : list string := if is_nil new then old else new.

(** The two flags are taken whatever they are. *)
(* src: database/query/global.go 45-74 *)
Definition WithConfig (cfg : option Config) (in_ : Config) : Config :=
  match cfg with
  | None => in_
  | Some cfg =>
      MkConfig (given (Username cfg) (Username in_)) (given (Password cfg) (Password in_))
        (given (PrivateKey cfg) (PrivateKey in_)) (given (RelayURL cfg) (RelayURL in_))
        (given_list (WriteURLs cfg) (WriteURLs in_)) (given_list (ReadURLs cfg) (ReadURLs in_))
        (if PeriodicSelfTestInterval cfg =? 0 then PeriodicSelfTestInterval in_ else PeriodicSelfTestInterval cfg)
        (RunDDL cfg) (DisableSelfTest cfg)
  end.

(** net/url: [url.Parse], the name of the user, the same URL with a user, its text. *)
Class PgURL := {
  pg_url : Type;
  pg_Parse : string -> option pg_url;
  pg_Username : pg_url -> string;
  pg_UserPassword : string -> string -> pg_url -> pg_url;
  pg_String : pg_url -> string
}.

Definition minute : Z := 60 * 1000000000.

Section Configuration.
Context {PU : PgURL}.

(* src: database/query/global.go 76-91 *)
Definition createPgURL (username password target : string) : outcome string :=
  let target := if negb (HasPrefix target "postgres://") && negb (HasPrefix target "postgresql://") then "postgres://" +:+ target else target in
  match pg_Parse target with
  | None => Err opaque_error
  | Some parsed => Ok (pg_String (if pg_Username parsed =s? "" then pg_UserPassword username password parsed else parsed))
  end.

Fixpoint create_urls (username password : string) (urls : list string) : outcome (list string) :=
  match urls with
  | [] => Ok []
  | u :: urls =>
      match createPgURL username password u with
      | Ok u => let! us := create_urls username password urls in Ok (u :: us)
      | _ => Panic
      end
  end.

(** The result of the validation is only logged, by an event that is never sent. *)
(* src: database/query/global.go 93-128 *)
Definition mustLoadConfig (loaded : option Config) (opts : list (Config -> Config)) : outcome Config :=
  let conf := fold_left (fun c opt => opt c) opts (default no_config loaded) in
  let interval := if PeriodicSelfTestInterval conf =? 0 then minute else PeriodicSelfTestInterval conf in
  let! writes := create_urls (Username conf) (Password conf) (WriteURLs conf) in
  let! rs := create_urls (Username conf) (Password conf) (ReadURLs conf) in
  if is_nil writes && is_nil rs then Panic
  else Ok (MkConfig (Username conf) (Password conf) (PrivateKey conf) (RelayURL conf) writes rs interval (RunDDL conf) (DisableSelfTest conf)).
End Configuration.

(** ** The client *)

(** The fields of [dbClient] that are set at the start; its record of batches to undo is
    that of file Store. *)
(* src: database/query/client.go 22-29 [dbClient] *)
Record dbClient (W : Type) : Type := MkClient { db : DB W; relayPrivateKey : string; relayURL : string; hasReadURLs : bool }.
Arguments MkClient {W}. Arguments db {W}. Arguments relayPrivateKey {W}. Arguments relayURL {W}. Arguments hasReadURLs {W}.

Section Client.
Context {G : GoText} {W : Type} {PW : PoolWorld W}.
(** The orders of the answers of masters and of ranges over maps. *)
Context (arrival : list nat) (range1 range2 : list (string * string) -> list (string * string)).

(* src: database/query/client.go 65-93 *)
Definition openDatabase (writeURLs readURLs : list string) (runDDL : bool) (w : W) : outcome (dbClient W) :=
  let options := (if is_nil writeURLs then [] else [WithWriteURLs arrival writeURLs]) ++
                 (if is_nil readURLs then [] else [WithReadURLs readURLs]) in
  match New runDDL range1 range2 options (new_DB w) with
  | (d, Ok _) => Ok (MkClient d "" "" (negb (is_nil readURLs)))
  | _ => Panic
  end.

(* src: database/query/client.go 107-111 *)
Definition WithRelayURL (url : string) (c : dbClient W) : dbClient W := MkClient (db c) (relayPrivateKey c) url (hasReadURLs c).
(* src: database/query/client.go 113-120 *)
Definition WithPrivateKey (key : string) (c : dbClient W) : outcome (dbClient W) :=
  if key =s? "" then Panic else Ok (MkClient (db c) key (relayURL c) (hasReadURLs c)).

(* src: database/query/global.go 139-142 [MustInit] *)
Definition open_configured (conf : Config) (w : W) : outcome (dbClient W) :=
  let! c := openDatabase (WriteURLs conf) (ReadURLs conf) (RunDDL conf) w in
  let! c := WithPrivateKey (PrivateKey conf) c in
  Ok (WithRelayURL (RelayURL conf) c).

(** Expired events are deleted by an instance that does not prefer reads. *)
(* src: database/query/global.go 154-158 [MustInit] *)
Definition cleans_up (c : dbClient W) : bool := negb (hasReadURLs c).
End Client.

(** ** The self-test *)

(** What the loop of the test wakes up for. *)
Inductive wake : Set := Cancelled | TimedOut | Check_.

Class TestWorld (W : Type) := {
  (** clients of one URL, to write or to read *)
  client_open : bool -> string -> W -> W * nat;
  client_Accept : nat -> Event -> ST W unit;
  client_Select : nat -> list string -> W -> W * list (Event + error);
  client_Close : nat -> W -> W;
  await : W -> W * wake
}.

Section SelfTest.
Context {N : Nostr} {W : Type} {TW : TestWorld W}.

(** The clients that write: when one cannot, those that were opened stay open, since
    they are closed by a function that is deferred later. *)
(* src: database/query/query.go 1577-1587 [doSelfTest] *)
Fixpoint write_clients (urls : list string) (events : list Event) (clients : list nat) : ST W (list nat) :=
  match urls, events with
  | url :: urls, e :: events =>
      c ← (fun w => let '(w, c) := client_open true url w in (w, Ok c));
      client_Accept c e ;;
      write_clients urls events (clients ++ [c])
  | [], _ => mret clients
  | _ :: _, [] => lift_st Panic
  end.

(* src: database/query/query.go 1590-1594 [doSelfTest] *)
Fixpoint read_clients (urls : list string) (clients : list nat) : ST W (list nat) :=
  match urls with
  | [] => mret clients
  | url :: urls =>
      c ← (fun w => let '(w, c) := client_open false url w in (w, Ok c));
      read_clients urls (clients ++ [c])
  end.

(** The events of one client, unless there is an error among them. *)
Fixpoint all_events (items : list (Event + error)) : option (list Event) :=
  match items with
  | [] => Some []
  | inl e :: items => (fun es => e :: es) <$> all_events items
  | inr _ :: _ => None
  end.
(* src: database/query/query.go 1643-1671 [doSelfTest] *)
Fixpoint read_all (ids : list string) (clients : list nat) (readEvents : list Event) : ST W (list Event) :=
  match clients with
  | [] => mret readEvents
  | c :: clients =>
      items ← (fun w => let '(w, items) := client_Select c ids w in (w, Ok items));
      read_all ids clients (readEvents ++ default [] (all_events items))
  end.

(** The checks, up to the end of the context or the time of the test. *)
(* src: database/query/query.go 1624-1682 [doSelfTest] *)
Fixpoint checks (fuel : nat) (events : list Event) (clients : list nat) : ST W unit :=
  match fuel with
  | O => lift_st OutOfFuel
  | S fuel =>
      woken ← (fun w => let '(w, x) := await w in (w, Ok x));
      match woken with
      | Cancelled | TimedOut => lift_st (Err opaque_error)
      | Check_ =>
          readEvents ← read_all (map ID events) clients [];
          if (length readEvents =? length clients * length events)%nat then mret () else checks fuel events clients
      end
  end.

(** The events are made before; [fuel] bounds the checks. *)
(* src: database/query/query.go 1550-1683 *)
Definition doSelfTest (fuel : nat) (events : list Event) (writeURLs readURLs : list string) : ST W unit :=
  clients ← write_clients writeURLs events [];
  clients ← read_clients readURLs clients;
  ((fun w => let '(w, r) := checks fuel events clients w in (fold_left (fun w c => client_Close c w) clients w, r)) : ST W unit).

(** A ticker ticks until it is stopped. *)
Record Ticker : Type := MkTicker { Stopped : bool }.
(** The ticker is stopped when the function returns, before the goroutine it starts has
    seen a tick. *)
(* src: database/query/query.go 1685-1708 *)
Definition startPeriodicSelfTest : Ticker := MkTicker true.
(** The goroutine when the interval has passed: whether the program is ended. *)
(* src: database/query/query.go 1693-1706 [startPeriodicSelfTest] *)
Definition periodic_round (t : Ticker) (test : ST W unit) : ST W bool := fun w =>
  if Stopped t then (w, Ok false)
  else match test w with (w, Ok _) => (w, Ok false) | (w, Err _) => (w, Ok true) | (w, Panic) => (w, Panic) | (w, OutOfFuel) => (w, OutOfFuel) end.
End SelfTest.

(** ** Periodic work *)

(** A channel of one tick, and the worker that reads it. *)
Record worker : Type := MkWorker { queued : bool; working : bool; ended : bool }.
Inductive beat : Type := TickerFires | WorkerTakes | WorkerEnds (e : option error).

(** The deletion of expired events: a tick is skipped while one waits; a database that
    is read-only ends the work. *)
(* src: database/query/global.go 203-244 [StartExpiredEventsCleanup] *)
Definition cleanup (s : worker) (b : beat) : worker :=
  if ended s then s
  else
    match b with
    | TickerFires => MkWorker true (working s) false
    | WorkerTakes => if queued s && negb (working s) then MkWorker false true false else s
    | WorkerEnds e => if working s then MkWorker (queued s) false (match e with Some e => error_is e ErrReadOnly | None => false end) else s
    end.
Definition cleanup_start : worker := MkWorker false false false.

(** The measurement of the database begins at once and stores what it finds. *)
(* src: database/query/global.go 246-277 [StartCollectingUsedDatabaseStorage] *)
Definition collect (x : worker * Z) (b : beat) (measured : option Z) : worker * Z :=
  let '(s, used) := x in
  match b with
  | TickerFires => (MkWorker true (working s) false, used)
  | WorkerTakes => (if queued s && negb (working s) then MkWorker false true false else s, used)
  | WorkerEnds _ => if working s then (MkWorker (queued s) false false, default used measured) else x
  end.
Definition collect_start : worker * Z := (MkWorker true false false, 0).

(** ** Theorems *)

(** *** The configuration *)

Section Urls.
Context {PU : PgURL}.

(** What net/url is documented to do: the text of a URL is parsed to it, and the URL of a
    database keeps its scheme and the user it is given. *)
Record url_laws : Prop := {
  pg_scheme : forall t u, (HasPrefix t "postgres://" || HasPrefix t "postgresql://") = true -> pg_Parse t = Some u ->
    forall name password, (HasPrefix (pg_String u) "postgres://" || HasPrefix (pg_String u) "postgresql://") = true /\
      (HasPrefix (pg_String (pg_UserPassword name password u)) "postgres://" || HasPrefix (pg_String (pg_UserPassword name password u)) "postgresql://") = true;
  pg_text : forall u, pg_Parse (pg_String u) = Some u;
  pg_user : forall u name password, pg_Username (pg_UserPassword name password u) = name
}.

(** An address that was completed is completed to itself: the configuration may be
    loaded again, though the addresses are changed in place. *)
Lemma createPgURL_stable name password target t : url_laws -> name <> "" -> createPgURL name password target = Ok t ->
  createPgURL name password t = Ok t.
Proof.
  intros [Hs Ht Hu] Hn. unfold createPgURL. set (full := if negb (HasPrefix target "postgres://") && negb (HasPrefix target "postgresql://") then "postgres://" +:+ target else target).
  assert (Hf : (HasPrefix full "postgres://" || HasPrefix full "postgresql://") = true).
  { subst full. destruct (HasPrefix target "postgres://") eqn:H1; cbn [negb andb]; [by rewrite H1|].
    destruct (HasPrefix target "postgresql://") eqn:H2; cbn [negb]; [by rewrite H1, H2|]. by rewrite (HasPrefix_app "postgres://" target). }
  destruct (pg_Parse full) as [u|] eqn:Hp; [|done]. intros [= <-]. destruct (Hs full u Hf Hp name password) as [H1 H2].
  assert (Hne : (name =s? "") = false) by (by apply String.eqb_neq).
  destruct (pg_Username u =s? "") eqn:He; rewrite <- negb_orb; [rewrite H2|rewrite H1]; cbn [negb]; rewrite Ht, ?Hu, ?Hne, ?He; done.
Qed.
End Urls.

(** *** The client *)

Section Opened.
Context {G : GoText} {W : Type} {PW : PoolWorld W} {PS : PoolWorldSpec W}.
Context (arrival : list nat) (range1 range2 : list (string * string) -> list (string * string)).

(** What the migrations do to the pools: nothing. *)
Hypothesis migrations_open : forall c w, open (runMigrations c range1 range2 w).1 = open w.

(** A client that was opened for masters is in a state of the connector that runs:
    its active pool is open and was opened for a master, its replicas are open. *)
Lemma opened_runs writeURLs readURLs runDDL w c : writeURLs <> [] -> openDatabase arrival range1 range2 writeURLs readURLs runDDL w = Ok c ->
  running (db c) /\ hasReadURLs c = negb (is_nil readURLs).
Proof.
  intros Hw. unfold openDatabase. destruct writeURLs as [|u us]; [done|]. cbn [is_nil app].
  destruct (New _ _ _ _ _) as [d [[]| | |]] eqn:Hn; try done. intros [= <-]. split; [|done]. cbn [db]. unfold New in Hn.
  apply bind_st_Ok in Hn as (d1 & [] & Ho & Hrest). cbn [apply_options] in Ho. apply bind_st_Ok in Ho as (d0 & [] & Hwr & Ho).
  assert (Hr1 : running d1).
  { pose proof (starts w arrival (u :: us) d0 Hwr) as Hr0. destruct (is_nil readURLs); cbn [apply_options app] in Ho.
    - by injection Ho as <-.
    - apply bind_st_Ok in Ho as (d2 & [] & Hre & Ho). injection Ho as <-. pose proof (adds d0 readURLs Hr0) as Ha. by rewrite Hre in Ha. }
  revert Hrest. cbv [mbind ST_bind gets]. destruct (_ && _); [|by intros [= <-]]. destruct (Active (write d1)) as [c|]; [|done].
  unfold outside. pose proof (migrations_open c (outer d1)) as Hm. destruct (runMigrations c range1 range2 (outer d1)) as [w' [e| | |]]; [|done..].
  cbn [fst] in Hm. pose proof (moves d1 w' Hr1 Hm) as Hr. destruct (parseError <$> e) as [x|]; [destruct (db_is x ErrReadOnly); [|done]|]; by intros [= <-].
Qed.
End Opened.

(** *** The self-test *)

(** The clients that are open. *)
Class TestWorldSpec (W : Type) `{TestWorld W} : Type := {
  live : W -> gset nat;
  client_open_spec : forall b url w, live (client_open b url w).1 = {[(client_open b url w).2]} ∪ live w /\ ((client_open b url w).2 ∉ live w);
  client_Accept_spec : forall c e w, live (client_Accept c e w).1 = live w /\ match (client_Accept c e w).2 with Ok _ | Err _ => True | _ => False end;
  client_Select_spec : forall c ids w, live (client_Select c ids w).1 = live w;
  client_Close_spec : forall c w, live (client_Close c w) = live w ∖ {[c]};
  await_spec : forall w, live (await w).1 = live w
}.

Section SelfTestLaws.
Context {N : Nostr} {W : Type} {TW : TestWorld W} {TS : TestWorldSpec W}.

Lemma write_clients_live urls : forall events cs w, match write_clients urls events cs w with
  | (w', Ok cs') => exists new, cs' = cs ++ new /\ live w' = list_to_set new ∪ live w /\ (list_to_set new : gset nat) ## live w
  | (w', Err _) => live w ⊂ live w'
  | (w', _) => (length events < length urls)%nat
  end.
Proof.
  induction urls as [|url urls IH]; intros events cs w; cbn [write_clients].
  { exists []. cbn. rewrite List.app_nil_r. split_and!; [done|set_solver|set_solver]. }
  destruct events as [|e events]; [cbn; lia|]. unfold mbind at 1, ST_bind at 1. destruct (client_open_spec true url w) as [Ho Hf].
  destruct (client_open true url w) as [w1 c]. cbn [fst snd] in *. unfold mbind at 1, ST_bind at 1. destruct (client_Accept_spec c e w1) as [Ha Hr].
  destruct (client_Accept c e w1) as [w2 [u|x| |]]; cbn [fst snd] in *; [|rewrite Ha, Ho; set_solver|done..].
  specialize (IH events (cs ++ [c]) w2). destruct (write_clients urls events (cs ++ [c]) w2) as [w3 [cs'|x| |]]; [|rewrite Ha, Ho in IH; set_solver|cbn; lia..].
  destruct IH as (new & -> & Hl & Hd). exists (c :: new). rewrite <- List.app_assoc. cbn [list_to_set foldr]. rewrite Hl, Ha, Ho in *. split_and!; [done|set_solver|set_solver].
Qed.

Lemma read_clients_live urls : forall cs w, exists w' new, read_clients urls cs w = (w', Ok (cs ++ new)) /\
  live w' = list_to_set new ∪ live w /\ (list_to_set new : gset nat) ## live w.
Proof.
  induction urls as [|url urls IH]; intros cs w; cbn [read_clients]; [exists w, []; cbn; rewrite List.app_nil_r; split_and!; [done|set_solver|set_solver]|].
  unfold mbind, ST_bind. destruct (client_open_spec false url w) as [Ho Hf]. destruct (client_open false url w) as [w1 c]. cbn [fst snd] in *.
  destruct (IH (cs ++ [c]) w1) as (w' & new & Hr & Hl & Hd). exists w', (c :: new). rewrite Hr, <- List.app_assoc. cbn [list_to_set foldr]. rewrite Hl, Ho in *.
  split_and!; [done|set_solver|set_solver].
Qed.

Lemma read_all_live ids clients : forall read w, exists w' es, read_all ids clients read w = (w', Ok es) /\ live w' = live w.
Proof.
  induction clients as [|c clients IH]; intros read w; cbn [read_all]; [by eexists _, _|]. unfold mbind, ST_bind. pose proof (client_Select_spec c ids w) as Hs.
  destruct (client_Select c ids w) as [w1 items]. cbn [fst] in Hs. destruct (IH (read ++ default [] (all_events items)) w1) as (w' & es & Hr & Hl). exists w', es. by rewrite Hr, Hl.
Qed.

Lemma checks_live fuel events clients : forall w, live (checks fuel events clients w).1 = live w.
Proof.
  induction fuel as [|fuel IH]; intros w; cbn [checks]; [done|]. unfold mbind at 1, ST_bind at 1. pose proof (await_spec w) as Ha.
  destruct (await w) as [w1 [| |]]; cbn [fst] in Ha; [done|done|]. unfold mbind, ST_bind. destruct (read_all_live (map ID events) clients [] w1) as (w2 & es & Hr & Hl).
  rewrite Hr. destruct (_ =? _)%nat; [cbn; congruence|]. rewrite IH. congruence.
Qed.

Lemma close_all_live cs : forall w, live (fold_left (fun w c => client_Close c w) cs w) = live w ∖ list_to_set cs.
Proof. induction cs as [|c cs IH]; intros w; cbn [fold_left list_to_set foldr]; [set_solver|]. rewrite IH, client_Close_spec. set_solver. Qed.

(** A self-test closes the clients it opens, unless an event cannot be written to a
    master: then they all stay open. *)
Lemma self_test_closes fuel events writeURLs readURLs w : length events = length writeURLs ->
  match write_clients writeURLs events [] w with
  | (_, Ok _) => live (doSelfTest fuel events writeURLs readURLs w).1 = live w
  | (w1, r) => (exists x, r = Err x) /\ doSelfTest fuel events writeURLs readURLs w = (w1, match r with Err x => Err x | _ => Panic end) /\ live w ⊂ live w1
  end.
Proof.
  intros Hlen. pose proof (write_clients_live writeURLs events [] w) as Hw. unfold doSelfTest. unfold mbind at 1 2 3, ST_bind at 1 2 3.
  destruct (write_clients writeURLs events [] w) as [w1 [cs|x| |]]; [|by split_and!; [eexists|..]|lia..].
  destruct Hw as (new & -> & Hl1 & Hd1). destruct (read_clients_live readURLs ([] ++ new) w1) as (w2 & new2 & -> & Hl2 & Hd2).
  pose proof (checks_live fuel events (([] ++ new) ++ new2) w2) as Hc. destruct (checks _ _ _ w2) as [w3 r]. cbn [fst] in *.
  rewrite close_all_live, Hc, Hl2, Hl1 in *. cbn [app]. rewrite list_to_set_app_L. set_solver.
Qed.
End SelfTestLaws.

(** *** Periodic work *)

(** The periodic self-test never runs. *)
Lemma periodic_never {W} (test : ST W unit) w : periodic_round startPeriodicSelfTest test w = (w, Ok false).
Proof. done. Qed.

(** The deletion of expired events goes on after any error but one. *)
Lemma cleanup_goes_on s e : ended s = false -> (forall x, e = Some x -> error_is x ErrReadOnly = false) -> ended (cleanup s (WorkerEnds e)) = false.
Proof. intros Hs He. unfold cleanup. rewrite Hs. destruct (working s); cbn; [|done]. destruct e as [x|]; [by apply He|done]. Qed.

(** ** Concrete inputs *)
Module StartupWitness.
Import AsciiText MastersWitness.
#[local] Existing Instance servers_world.
#[local] Existing Instance servers_spec.

Definition client_of : dbClient servers :=
  match openDatabase [0; 1]%nat id id ["m0"; "m1"] ["r0"] false up with Ok c => c | _ => MkClient (new_DB up) "" "" false end.
Lemma migrations_quiet (c : nat) (w : servers) : open (runMigrations c id id w).1 = open w.
Proof. vm_compute. reflexivity. Qed.
Lemma opened_runs_witness : running (db client_of) /\ hasReadURLs client_of = negb (is_nil ["r0"]).
Proof.
  apply (opened_runs [0; 1]%nat id id migrations_quiet ["m0"; "m1"] ["r0"] false up); [discriminate|vm_compute; reflexivity].
Defined.
Example opened_pools : (CurrentIndex (write (db client_of)), Replicas (read (db client_of)), cleans_up client_of) = (0%nat, [1%nat], false).
Proof. vm_compute. reflexivity. Qed.

(** Databases that are all written to and read from, but for one. *)
#[local] Instance nostr : Nostr := Reference.nostr (fun _ => None) (fun _ => Ok false).
Record bench : Type := MkBench { clients : gset nat; made : nat; broken : string; refusing : gset nat }.
#[local] Instance bench_world : TestWorld bench := {|
  client_open _ url w := (MkBench ({[fresh (clients w)]} ∪ clients w) (S (made w)) (broken w)
                            (if url =s? broken w then {[fresh (clients w)]} ∪ refusing w else refusing w), fresh (clients w));
  client_Accept c e w := (w, if bool_decide (c ∈ refusing w) then Err opaque_error else Ok ());
  client_Select c ids w := (w, map (fun id => inl (MkEvent None id "" 0 1059 [] "" "")) ids);
  client_Close c w := MkBench (clients w ∖ {[c]}) (made w) (broken w) (refusing w);
  await w := (w, Check_) |}.
#[local] Instance bench_spec : TestWorldSpec bench.
Proof.
  refine {| live := clients |}; intros; cbn; [split; [done|apply is_fresh]| |done|done|done]. split; [done|]. by destruct (bool_decide _).
Defined.
Definition event (id : string) : Event := MkEvent None id "" 0 1059 [] "" "".
Definition test (broken : string) : bench * check := doSelfTest 1 [event "t0"; event "t1"] ["m0"; "m1"] ["r0"] (MkBench ∅ 0 broken ∅).

Lemma self_test_closes_witness : live (test "").1 = live (MkBench ∅ 0 "" ∅).
Proof.
  pose proof (self_test_closes 1 [event "t0"; event "t1"] ["m0"; "m1"] ["r0"] (MkBench ∅ 0 "" ∅) eq_refl) as H.
  assert (Hw : bool_decide (is_Some (match (write_clients ["m0"; "m1"] [event "t0"; event "t1"] [] (MkBench ∅ 0 "" ∅)).2 with Ok c => Some c | _ => None end)) = true)
    by (vm_compute; reflexivity).
  destruct (write_clients _ _ _ _) as [w [cs|x| |]]; [exact H|discriminate Hw..].
Defined.
Example test_passes : (test "").2 = Ok () /\ made (test "").1 = 3%nat. Proof. vm_compute. done. Qed.
Example test_leaks : (test "m1").2 = Err opaque_error /\ size (clients (test "m1").1) = 2%nat. Proof. vm_compute. done. Qed.

(** Settings that are not empty win, but the flags win always. *)
Example merged : WithConfig (Some (MkConfig "" "" "k" "" ["w"] [] 0 false false)) (MkConfig "u" "p" "old" "wss://me" ["x"] ["r"] 5 true true) =
  MkConfig "u" "p" "k" "wss://me" ["w"] ["r"] 5 false false.
Proof. reflexivity. Qed.
(** While a deletion runs one tick waits, the others are skipped. *)
Example one_waits : fold_left cleanup [TickerFires; WorkerTakes; TickerFires; TickerFires; WorkerEnds None; WorkerTakes; WorkerTakes] cleanup_start = MkWorker false true false.
Proof. reflexivity. Qed.
Example read_only_ends : ended (fold_left cleanup [TickerFires; WorkerTakes; WorkerEnds (Some (err ErrReadOnly))] cleanup_start) = true. Proof. reflexivity. Qed.
End StartupWitness.
