(* ===== verification/Rows.v ===== *)
(** * Package query: events as rows

    src/database/query/query.go (the part that turns an event into a row),
    query_text_search.go.  A [databaseEvent] is an event with the columns
    derived from it; the columns [FromTags] fills are a record of their own.
    Pointers and [sql.Null...] values are options.  The third-party digest
    (xxh3), the library that removes emojis and the JSON decoder of the
    anonymous struct of a profile are parameters. *)

From S2P Require Import Prelude GoStd Nostr Model Content Filters QueryBuilder.
Import Strings.

(** ** Columns *)

(** The columns [FromTags] fills. *)
(* src: database/query/query.go 65-93 [databaseEvent] *)
Record tagColumns : Type := MkColumns {
  Ttags : list string;
  GiftReceiver : option string;
  HasImages : bool;
  HasVideos : bool;
  Expiration : option Z;
  HasReferences : bool;
  IsReply : bool;
  IsRootReply : bool;
  IsQuote : bool;
  Lang : string
}.
Definition no_columns : tagColumns := MkColumns [] None false false None false false false false "".

Definition set_Ttags v c := MkColumns v (GiftReceiver c) (HasImages c) (HasVideos c) (Expiration c) (HasReferences c)
  (IsReply c) (IsRootReply c) (IsQuote c) (Lang c).
Definition set_GiftReceiver v c := MkColumns (Ttags c) v (HasImages c) (HasVideos c) (Expiration c) (HasReferences c)
  (IsReply c) (IsRootReply c) (IsQuote c) (Lang c).
Definition set_media i v c := MkColumns (Ttags c) (GiftReceiver c) i v (Expiration c) (HasReferences c)
  (IsReply c) (IsRootReply c) (IsQuote c) (Lang c).
Definition set_Expiration v c := MkColumns (Ttags c) (GiftReceiver c) (HasImages c) (HasVideos c) v (HasReferences c)
  (IsReply c) (IsRootReply c) (IsQuote c) (Lang c).
Definition set_references c := MkColumns (Ttags c) (GiftReceiver c) (HasImages c) (HasVideos c) (Expiration c) true
  (IsReply c) (IsRootReply c) (IsQuote c) (Lang c).
Definition set_IsReply v c := MkColumns (Ttags c) (GiftReceiver c) (HasImages c) (HasVideos c) (Expiration c)
  (HasReferences c) v (IsRootReply c) (IsQuote c) (Lang c).
Definition set_IsRootReply v c := MkColumns (Ttags c) (GiftReceiver c) (HasImages c) (HasVideos c) (Expiration c)
  (HasReferences c) (IsReply c) v (IsQuote c) (Lang c).
Definition set_IsQuote c := MkColumns (Ttags c) (GiftReceiver c) (HasImages c) (HasVideos c) (Expiration c)
  (HasReferences c) (IsReply c) (IsRootReply c) true (Lang c).
Definition set_Lang v c := MkColumns (Ttags c) (GiftReceiver c) (HasImages c) (HasVideos c) (Expiration c)
  (HasReferences c) (IsReply c) (IsRootReply c) (IsQuote c) v.

(* src: database/query/query.go 65-93 *)
Record databaseEvent : Type := MkRow {
  REvent : Event;
  SigAlg : string;
  KeyAlg : string;
  MasterPubKey : string;
  Dtag : string;
  Htag : string;
  Lookup : string;
  SaveMergeAction : string;
  Origin : string;
  SystemID : string;
  TagID : Z;
  Deleted : bool;
  HasEphemeralAttestation : bool;
  Columns : tagColumns
}.

Definition with_event (d : databaseEvent) (e : Event) : databaseEvent :=
  MkRow e (SigAlg d) (KeyAlg d) (MasterPubKey d) (Dtag d) (Htag d) (Lookup d) (SaveMergeAction d) (Origin d) (SystemID d)
    (TagID d) (Deleted d) (HasEphemeralAttestation d) (Columns d).
Definition with_attestation (d : databaseEvent) (b : bool) : databaseEvent :=
  MkRow (REvent d) (SigAlg d) (KeyAlg d) (MasterPubKey d) (Dtag d) (Htag d) (Lookup d) (SaveMergeAction d) (Origin d)
    (SystemID d) (TagID d) (Deleted d) b (Columns d).

(** ** Parameters *)

Class RowText := {
  (** gomoji *)
  RemoveEmojis : string -> string;
  (** [json.Unmarshal] into the names of a profile *)
  json_names : string -> option (string * string);
  (** the 128-bit digest of zeebo/xxh3, as 16 bytes *)
  xxh3_128 : string -> string
}.

Section Rows.
Context {N : Nostr} {G : GoText} {R : RichText} {T : RowText}.

(** ** Tags *)

(* src: database/query/query.go 29 *)
Definition replyMarkerIndex : nat := 3.

(* src: database/query/query.go 147-155 [FromTags] *)
Fixpoint imeta_media (vals : list string) (images videos : bool) : bool * bool :=
  match vals with
  | [] => (images, videos)
  | v :: vals =>
      if HasPrefix v "m image/" then imeta_media vals true videos
      else if HasPrefix v "m video/" then imeta_media vals images true
      else if images && videos then (images, videos)
      else imeta_media vals images videos
  end.

(* src: database/query/query.go 138-144 [FromTags] *)
Definition gift_target (tag : Tag) : outcome string :=
  if (3 <=? length tag)%nat then
    let! t3 := index tag 3 in Ok (if t3 ≠s? "" then t3 else Value tag)
  else Ok (Value tag).

(* src: database/query/query.go 157-161 [FromTags] *)
Definition earlier_expiration (tag : Tag) (current : option Z) : option Z :=
  match ParseTimestamp (Value tag) with
  | Some deadline =>
      if (0 <? deadline) && match current with Some x => TsBefore deadline x | None => true end
      then Some (UnixNano deadline) else current
  | None => current
  end.

(** The columns, and the values of the first root and reply tags. *)
(* src: database/query/query.go 163-171 [FromTags] *)
Definition reference_tag (tag : Tag) (c : tagColumns) (rootOf replyOf : string) : tagColumns * string * string :=
  let c := set_references c in
  match tag !! replyMarkerIndex with
  | None => (c, rootOf, replyOf)
  | Some marker =>
      if EqualFold marker TagMarkerReply && (replyOf =s? "") then (set_IsReply true c, rootOf, Value tag)
      else if EqualFold marker TagMarkerRoot && (rootOf =s? "") then (c, Value tag, replyOf)
      else (c, rootOf, replyOf)
  end.

(* src: database/query/query.go 129-179 [FromTags] *)
Definition column_of (kind : Z) (s : tagColumns * string * string) (tag : Tag) :
    outcome (tagColumns * string * string) :=
  let '(c, rootOf, replyOf) := s in
  let key := Key tag in
  if key =s? "t" then
    Ok (if Value tag ≠s? "" then set_Ttags (Ttags c ++ [Value tag]) c else c, rootOf, replyOf)
  else if key =s? "p" then
    if kind =? KindGiftWrap then
      let! target := gift_target tag in
      Ok (if target ≠s? "" then set_GiftReceiver (Some target) c else c, rootOf, replyOf)
    else Ok s
  else if key =s? "imeta" then
    let '(images, videos) := imeta_media tag (HasImages c) (HasVideos c) in
    Ok (set_media images videos c, rootOf, replyOf)
  else if key =s? "expiration" then Ok (set_Expiration (earlier_expiration tag (Expiration c)) c, rootOf, replyOf)
  else if (key =s? "a") || (key =s? "e") then Ok (reference_tag tag c rootOf replyOf)
  else if key =s? "l" then
    Ok (if (2 <? length tag)%nat && (Value tag ≠s? "") && (default "" (tag !! 2%nat) =s? LangISO)
        then set_Lang (Value tag) c else c, rootOf, replyOf)
  else if (key =s? "q") || (key =s? CustomIONTagAddressableQ) then Ok (set_IsQuote c, rootOf, replyOf)
  else Ok s.

(* src: database/query/query.go 125-184 *)
Definition FromTags (kind : Z) (c : tagColumns) (tags : Tags) : outcome tagColumns :=
  let! (c, rootOf, replyOf) := for_state tags (c, "", "") (column_of kind) in
  Ok (set_IsRootReply ((rootOf ≠s? "") && (replyOf ≠s? "") && (rootOf =s? replyOf)) c).

(** ** System identifiers *)

(* src: database/query/query.go 186-188 *)
Definition generateGiftWrapSystemID (e : Event) : string := ID e.

(* src: database/query/query.go 190-197 *)
Definition findReferenceTagValue (tags : Tags) : string :=
  fold_left (fun val t => if ((Key t =s? "e") || (Key t =s? "a")) && (Value t ≠s? "") then Value t else val) tags "".

(** [binary.Write(h, binary.BigEndian, uint32(kind))] *)
Definition big_endian32 (kind : Z) : string :=
  bytes (map (fun i => Z.to_nat ((kind `mod` 2 ^ 32) / 2 ^ i `mod` 256)) [24; 16; 8; 0]).

(** A digest is the text written to it so far. *)
(* src: database/query/query.go 199-204 *)
Definition newBaseDigestSystemID (e : Event) : string := GetMasterPublicKey e +:+ big_endian32 (Kind e).

(* src: database/query/query.go 206-218 *)
Definition generateReferenceBasedIDSystemID (e : Event) : string :=
  Hex.EncodeToString (xxh3_128 (newBaseDigestSystemID e +:+
    (if Kind e =? CustomIONKindPollVote then "" else Content e) +:+ findReferenceTagValue (EvTags e))).

(* src: database/query/query.go 227-229 [writeGenericTagsSystemID] *)
Definition tag_le (a b : Tag) : bool := compare_le (Key a) (Key b).

(* src: database/query/query.go 231-247 [writeGenericTagsSystemID] *)
Fixpoint write_tags (digest : string) (seen : gset string) (tags : Tags) : string :=
  match tags with
  | [] => digest
  | t :: tags =>
      let text := Join t "" in
      let hash := xxh3_128 text in
      if bool_decide (hash ∈ seen) then write_tags digest seen tags
      else write_tags (digest +:+ text) ({[hash]} ∪ seen) tags
  end.

(* src: database/query/query.go 220-248 *)
Definition writeGenericTagsSystemID (digest : string) (tags : Tags) : string :=
  write_tags digest ∅ (Slices.SortStableFunc tag_le tags).

(* src: database/query/query.go 250-256 *)
Definition generateGenericIDSystemID (e : Event) : string :=
  Hex.EncodeToString (xxh3_128 (writeGenericTagsSystemID (newBaseDigestSystemID e +:+ Content e) (EvTags e))).

(* src: database/query/query.go 258-267 *)
Definition generateSystemID (e : Event) : string :=
  if Kind e =? KindGiftWrap then generateGiftWrapSystemID e
  else if (Kind e =? CustomIONKindPollVote) || (Kind e =? KindReaction) then generateReferenceBasedIDSystemID e
  else generateGenericIDSystemID e.

(** ** Search text *)

(* src: database/query/query_text_search.go 15-29 *)
Definition extractProfileContentMetadata (contentJSON : string) : list string :=
  match json_names contentJSON with
  | None => []
  | Some (name, display) =>
      if EqualFold name display then [ToLower name] else [ToLower name; ToLower display]
  end.

(* src: database/query/query_text_search.go 31-50 *)
Definition prepareSearchContent (e : Event) : string :=
  if Kind e =? KindProfileMetadata then Join (extractProfileContentMetadata (Content e)) " "
  else if bool_decide (Kind e ∈ [KindTextNote; KindArticle; KindDraftArticle; CustomIONKindEditableTextNote]) then
    let data := if Content e ≠s? "" then Content e
                else if ExtractRichTextContent e ≠s? "" then ExtractRichTextContent e else "" in
    Join [TrimSpace (RemoveEmojis data)] " "
  else "".

(** ** Rows *)

(* src: database/query/query.go 290-293 [toDatabaseEvent] *)
Definition soft_deleted (e : Event) : bool :=
  if (len (Content e) <? 1)%nat && is_nil (GetTag e CustomIONTagRichText) && is_nil (GetTag e CustomIONTagAddressableQ)
  then match ParseTimestamp (Value (GetTag e "published_at")) with
       | Some val => TsAfter (CreatedAt e) val
       | None => false
       end
  else false.

(** The lookup text and the columns, from the event or the one it reposts. *)
(* src: database/query/query.go 287-301 [toDatabaseEvent] *)
Definition kind_columns (e : Event) (lookup : string) (c : tagColumns) : outcome (string * bool * tagColumns) :=
  if bool_decide (Kind e ∈ [KindArticle; KindDraftArticle; CustomIONKindEditableTextNote]) then
    Ok (lookup, soft_deleted e, c)
  else if bool_decide (Kind e ∈ [KindRepost; KindGenericRepost]) then
    match UnmarshalJSON (Content e) with
    | Some original =>
        let! c := FromTags (Kind e) c (EvTags original) in
        Ok (prepareSearchContent original, false, set_IsReply false c)
    | None => Ok (lookup, false, c)
    end
  else Ok (lookup, false, c).

(* src: database/query/query.go 426-433 *)
Definition parseSigKeyAlg (e : Event) : outcome (string * string) :=
  let! (sAlg, kAlg, _) := ExtractSignature e in Ok (sAlg, kAlg).

(* src: database/query/query.go 269-308 *)
Definition toDatabaseEvent (e : Event) : outcome databaseEvent :=
  let! (sigAlg, keyAlg) := parseSigKeyAlg e in
  let! c := FromTags (Kind e) no_columns (EvTags e) in
  let! (lookup, deleted, c) := kind_columns e (prepareSearchContent e) c in
  let c := set_Expiration (UnixNano <$> Expiration c) c in
  Ok (MkRow e sigAlg keyAlg (GetMasterPublicKey e) (GetD (EvTags e)) (GetHTag e) lookup "" "" (generateSystemID e) 0
        deleted false c).
End Rows.

(** ** Theorems *)

Section Theorems.
Context {N : Nostr} {NS : NostrSpec N} {G : GoText} {R : RichText} {T : RowText}.

(** *** Panics *)

(** A [p] tag of three elements: the code tests for three and reads the
    fourth. *)
Definition short_receiver (t : Tag) : Prop := Key t = "p" /\ length t = 3%nat.

Lemma gift_target_runs t : length t ≠ 3%nat -> exists target, gift_target t = Ok target.
Proof.
  unfold gift_target. destruct t as [|a [|b [|c [|d t]]]]; cbn; try done; eauto.
Qed.

Lemma column_of_cases kind s t :
  (exists s', column_of kind s t = Ok s' /\ ~ (kind = KindGiftWrap /\ short_receiver t)) \/
  (column_of kind s t = Panic /\ kind = KindGiftWrap /\ short_receiver t).
Proof.
  destruct s as [[c rootOf] replyOf]. unfold short_receiver. cbn [column_of].
  destruct (String.eqb_spec (Key t) "p") as [Hp|Hp].
  - rewrite Hp. cbn. destruct (Z.eqb_spec kind KindGiftWrap) as [->|]; [|left; eexists; split; [done|naive_solver]].
    destruct (decide (length t = 3%nat)) as [Hl|Hl].
    + right. split; [|done]. unfold gift_target. rewrite Hl. cbn. unfold index.
      by rewrite (proj2 (lookup_ge_None t 3)) by lia.
    + left. destruct (gift_target_runs t Hl) as [target ->]. eexists. split; [done|]. naive_solver.
  - left. destruct (imeta_media t (HasImages c) (HasVideos c)).
    repeat case_match; (eexists; split; [done|naive_solver]).
Qed.

Lemma columns_run kind tags s :
  (exists s', for_state tags s (column_of kind) = Ok s' /\ ~ (kind = KindGiftWrap /\ Exists short_receiver tags)) \/
  (for_state tags s (column_of kind) = Panic /\ kind = KindGiftWrap /\ Exists short_receiver tags).
Proof.
  revert s. induction tags as [|t tags IH]; intros s; cbn [for_state].
  - left. eexists. split; [done|]. intros [_ H%Exists_nil]. done.
  - setoid_rewrite Exists_cons. destruct (column_of_cases kind s t) as [(s' & -> & Hn)|(-> & -> & Hs)]; cbn.
    + destruct (IH s') as [(s2 & -> & Hn2)|(-> & -> & Hs)]; [left|right; by auto]. eexists. split; [done|]. intros [Hk [H|H]]; [apply Hn|apply Hn2]; split; assumption.
    + right. by auto.
Qed.

Lemma FromTags_cases kind c tags :
  (exists c', FromTags kind c tags = Ok c' /\ ~ (kind = KindGiftWrap /\ Exists short_receiver tags)) \/
  (FromTags kind c tags = Panic /\ kind = KindGiftWrap /\ Exists short_receiver tags).
Proof.
  unfold FromTags. destruct (columns_run kind tags (c, "", "")) as [([[c' r1] r2] & -> & H)|[-> H]]; cbn; eauto.
Qed.

Lemma kind_columns_runs e lookup c : exists r, kind_columns e lookup c = Ok r.
Proof.
  unfold kind_columns. case_bool_decide; [eauto|]. case_bool_decide as Hk; [|eauto].
  destruct (UnmarshalJSON (Content e)) as [o|]; [|eauto].
  destruct (FromTags_cases (Kind e) c (EvTags o)) as [(c' & -> & _)|(_ & Hg & _)]; [cbn; eauto|].
  pose proof kinds_spec as K. injection K. intros. exfalso. rewrite Hg in Hk. set_solver by lia.
Qed.
Lemma toDatabaseEvent_spec e algs :
  parseSigKeyAlg e = Ok algs ->
  match toDatabaseEvent e with
  | Ok row => ~ (Kind e = KindGiftWrap /\ Exists short_receiver (EvTags e)) /\ REvent row = e
  | Panic => Kind e = KindGiftWrap /\ Exists short_receiver (EvTags e)
  | _ => False
  end.
Proof.
  intros Ha. unfold toDatabaseEvent. rewrite Ha. destruct algs as [a k]. cbn.
  destruct (FromTags_cases (Kind e) no_columns (EvTags e)) as [(c & -> & H)|(-> & H)]; cbn; [|done].
  destruct (kind_columns_runs e (prepareSearchContent e) c) as [[[l d] c'] ->]. by cbn.
Qed.

(** *** Expiration *)

(** The deadlines of the expiration tags, and the tags a row is made of. *)
Definition deadlines (tags : Tags) : list Timestamp :=
  filter (fun t => 0 < t) (omap (fun t => if Key t =s? "expiration" then ParseTimestamp (Value t) else None) tags).
Definition row_tags (e : Event) : Tags :=
  EvTags e ++ if bool_decide (Kind e ∈ [KindRepost; KindGenericRepost])
              then match UnmarshalJSON (Content e) with Some o => EvTags o | None => [] end else [].

(** Seconds from 2001 to 2262, or nanoseconds. *)
Definition precise (t : Timestamp) : Prop :=
  1000000000 <= t <= 9223372036 \/ 1000000000000000000 <= t <= max_int64.

Lemma UnixNano_precise t :
  precise t -> UnixNano t = TsTime t /\ TsTime (TsTime t) = TsTime t /\ precise (TsTime t).
Proof.
  intros [H|H]; unfold UnixNano.
  - rewrite (TsTime_seconds t) by lia. assert (Hn : 1000000000000000000 <= t * 1000000000 <= max_int64)
      by (unfold max_int64; lia).
    rewrite int64_id by (unfold is_int64, min_int64; lia). rewrite TsTime_nano by done. split_and!; [done..|by right].
  - rewrite (TsTime_nano t) by done. rewrite int64_id by (unfold is_int64, min_int64; lia).
    rewrite TsTime_nano by done. split_and!; [done..|by right].
Qed.

Lemma column_expiration kind s t s' :
  column_of kind s t = Ok s' ->
  Expiration s'.1.1 = if Key t =s? "expiration" then earlier_expiration t (Expiration s.1.1) else Expiration s.1.1.
Proof.
  destruct s as [[c rootOf] replyOf]. cbn [column_of]. destruct (imeta_media t (HasImages c) (HasVideos c)) as [i v].
  destruct (String.eqb_spec (Key t) "expiration") as [->|Hne]; cbn; [by intros [= <-]|].
  unfold reference_tag. intros H. repeat case_match; simplify_go; repeat case_match; simplify_go; done.
Qed.
(** The least of a list, if any. *)
Definition earliest (o : option Z) (l : list Z) : Prop :=
  match o with None => l = [] | Some m => m ∈ l /\ Forall (fun x => m <= x) l end.

Lemma earliest_snoc o l x :
  earliest o l -> earliest (Some (match o with Some m => if x <? m then x else m | None => x end)) (l ++ [x]).
Proof.
  unfold earliest. destruct o as [m|]; [intros [Hin Hall]|intros ->].
  - rewrite Forall_app, Forall_singleton, elem_of_app, list_elem_of_singleton.
    destruct (Z.ltb_spec x m); split_and!; auto; try lia. eapply Forall_impl; [exact Hall|]. cbn. lia.
  - split; [left|]. by constructor.
Qed.

Lemma columns_expiration kind tags pre s s' :
  for_state tags s (column_of kind) = Ok s' -> Forall precise (deadlines tags) ->
  earliest (Expiration s.1.1) pre -> Forall (fun x => TsTime x = x) pre ->
  earliest (Expiration s'.1.1) (pre ++ (TsTime <$> deadlines tags)).
Proof.
  revert pre s. induction tags as [|t tags IH]; intros pre s H Hp He Hn; cbn [for_state] in H.
  { simplify_eq. cbn. by rewrite List.app_nil_r. }
  apply bind_Ok in H as (s1 & H1 & H). apply column_expiration in H1.
  unfold deadlines in *. cbn [omap list_omap] in *.
  destruct (Key t =s? "expiration"); [|apply (IH pre s1); [done|done|by rewrite H1|done]].
  unfold earlier_expiration in H1. destruct (ParseTimestamp (Value t)) as [d|] eqn:Hd;
    [|apply (IH pre s1); [done|done|by rewrite H1|done]].
  rewrite filter_cons in *. destruct (Z.ltb_spec 0 d) as [Hpos|]; cbn [andb] in H1.
  2: { rewrite decide_False in * by lia. apply (IH pre s1); [done|done|by rewrite H1|done]. }
  rewrite decide_True in * by done. apply Forall_cons in Hp as [Hd1 Hp].
  destruct (UnixNano_precise d Hd1) as (Hu & Hid & _). rewrite fmap_cons, (cons_middle _ pre), (assoc_L (++)).
  apply (IH _ s1); [done..| |].
  - rewrite H1, Hu. pose proof (earliest_snoc _ _ (TsTime d) He) as Hs.
    destruct (Expiration s.1.1) as [m|] eqn:Hm; [|done]. rewrite TsBefore_spec.
    assert (TsTime m = m) as ->; [|by destruct (TsTime d <? m)].
    destruct He as [Hin _]. rewrite Forall_forall in Hn. by apply Hn.
  - rewrite Forall_app, Forall_singleton. done.
Qed.

Lemma FromTags_expiration kind c c' tags pre :
  FromTags kind c tags = Ok c' -> Forall precise (deadlines tags) ->
  earliest (Expiration c) pre -> Forall (fun x => TsTime x = x) pre ->
  earliest (Expiration c') (pre ++ (TsTime <$> deadlines tags)).
Proof.
  unfold FromTags. intros (s & H & Hc)%bind_Ok Hp He Hn. pose proof (columns_expiration _ _ pre _ _ H Hp He Hn) as Hr.
  destruct s as [[c1 r] r']. simplify_eq. exact Hr.
Qed.

Lemma earliest_fixed o l :
  earliest o l -> Forall (fun x => TsTime x = x /\ precise x) l -> UnixNano <$> o = o.
Proof.
  destruct o as [m|]; [|done]. intros [Hin _] Hf. rewrite Forall_forall in Hf. destruct (Hf m Hin) as [Hm Hp].
  cbn. f_equal. destruct (UnixNano_precise m Hp) as [-> _]. done.
Qed.

(** The column of the expiration is the earliest of the deadlines of the
    event and of the event it reposts, in nanoseconds, although it is
    converted twice on the way: times in seconds from 2001 to 2262 and times
    in nanoseconds are told apart by their number of digits. *)
Lemma toDatabaseEvent_expiration e row :
  toDatabaseEvent e = Ok row -> Forall precise (deadlines (row_tags e)) ->
  match Expiration (Columns row) with
  | None => deadlines (row_tags e) = []
  | Some m => (exists t, t ∈ deadlines (row_tags e) /\ TsTime t = m) /\
              forall t, t ∈ deadlines (row_tags e) -> m <= TsTime t
  end.
Proof.
  unfold toDatabaseEvent. intros H Hp. apply bind_Ok in H as ([a k] & _ & H). apply bind_Ok in H as (c & Hc & H).
  apply bind_Ok in H as ([[l d] c'] & Hk & H). simplify_eq. cbn [Columns].
  assert (He : earliest (Expiration c') (TsTime <$> deadlines (row_tags e))).
  { unfold row_tags, kind_columns in *. revert Hk Hp. unfold deadlines. rewrite omap_app, filter_app, fmap_app.
    intros Hk Hp. apply Forall_app in Hp as [Hp1 Hp2].
    pose proof (FromTags_expiration _ _ _ _ [] Hc Hp1 eq_refl (Forall_nil_2 _)) as He. cbn [app] in He.
    assert (Hn : Forall (fun x => TsTime x = x) (TsTime <$> deadlines (EvTags e))).
    { apply Forall_fmap. eapply Forall_impl; [exact Hp1|]. intros t Ht. by destruct (UnixNano_precise t Ht) as (_ & ? & _). }
    destruct (decide (Kind e ∈ [KindArticle; KindDraftArticle; CustomIONKindEditableTextNote])) as [Hk1|Hk1];
      [rewrite (bool_decide_true _ Hk1) in Hk|rewrite (bool_decide_false _ Hk1) in Hk; case_bool_decide as Hk2].
    - simplify_eq. rewrite bool_decide_false
        by (pose proof kinds_spec as K; injection K; intros; unfold CustomIONKindEditableTextNote in *; set_solver by lia).
      cbn. by rewrite List.app_nil_r.
    - destruct (UnmarshalJSON (Content e)) as [o|]; [|simplify_eq; cbn; by rewrite List.app_nil_r].
      apply bind_Ok in Hk as (c2 & Hc2 & Hk). simplify_eq. cbn.
      exact (FromTags_expiration _ _ _ _ _ Hc2 Hp2 He Hn).
    - simplify_eq. cbn. by rewrite List.app_nil_r. }
  cbn [set_Expiration Expiration]. rewrite (earliest_fixed _ _ He).
  - destruct (Expiration c') as [m|]; [|by apply fmap_nil_inv in He].
    destruct He as [(t & -> & Ht)%list_elem_of_fmap Hall]. split; [by exists t|].
    intros t' Ht'. rewrite Forall_forall in Hall. apply Hall. by apply list_elem_of_fmap_2.
  - apply Forall_fmap. eapply Forall_impl; [exact Hp|]. intros t Ht. cbn. by destruct (UnixNano_precise t Ht) as (_ & ? & ?).
Qed.
(** *** System identifiers *)

Lemma tag_le_total a b : tag_le a b = true \/ tag_le b a = true.
Proof. apply compare_le_total. Qed.
Lemma tag_le_trans a b c : tag_le a b = true -> tag_le b c = true -> tag_le a c = true.
Proof. apply compare_le_trans. Qed.
Lemma tag_le_key a b : tag_le a b = true /\ tag_le b a = true <-> Key b = Key a.
Proof.
  unfold tag_le. split; [intros [H1 H2]; by apply compare_le_antisym|]. intros ->.
  destruct (compare_le_total (Key a) (Key a)); auto.
Qed.

Lemma tag_class (a : Tag) (l : Tags) :
  filter (fun x => tag_le a x = true /\ tag_le x a = true) l = filter (fun t => Key t = Key a) l.
Proof. apply list_filter_iff. intros x. apply tag_le_key. Qed.

Abbreviation sorted_tags := (Slices.SortStableFunc tag_le).

(** Sorting only depends on the order of the tags of each key. *)
Lemma sorted_tags_keys l1 l2 :
  (forall k, filter (fun t => Key t = k) l1 = filter (fun t => Key t = k) l2) -> sorted_tags l1 = sorted_tags l2.
Proof.
  intros H. apply Slices.SortStableFunc_classes; [apply tag_le_total|apply tag_le_trans|]. intros a.
  rewrite !tag_class. apply H.
Qed.

Lemma sorted_tags_class l k : filter (fun t => Key t = k) (sorted_tags l) = filter (fun t => Key t = k) l.
Proof.
  destruct (decide (k ∈ (Key <$> l))) as [(a & -> & _)%list_elem_of_fmap|Hk].
  - rewrite <- !tag_class. apply Slices.SortStableFunc_class, tag_le_trans.
  - assert (Hnone : forall l', l' ≡ₚ l -> filter (fun t => Key t = k) l' = []).
    { intros l' Hl. destruct (filter _ l') as [|t f] eqn:Hf; [done|]. exfalso.
      assert (Ht : t ∈ filter (fun t => Key t = k) l') by (rewrite Hf; left).
      apply list_elem_of_filter in Ht as [<- Ht]. apply Hk, list_elem_of_fmap_2. by rewrite <- Hl. }
    rewrite !Hnone by (done || apply Slices.SortStableFunc_perm). done.
Qed.

(** An element of a filtered list splits the list. *)
Lemma filter_split {A} (P : A -> Prop) {D : forall x, Decision (P x)} (l f1 f2 : list A) x :
  filter P l = f1 ++ x :: f2 ->
  exists l1 l2, l = l1 ++ x :: l2 /\ filter P l1 = f1 /\ filter P l2 = f2 /\ P x.
Proof.
  revert f1. induction l as [|y l IH]; intros f1 Hf; [by destruct f1|]. rewrite filter_cons in Hf. case_decide as Hy.
  - destruct f1 as [|z f1]; injection Hf as -> Hf.
    + by exists [], l.
    + destruct (IH f1 Hf) as (l1 & l2 & -> & H1 & H2 & Hx). exists (z :: l1), l2. split_and!; [done| |done..].
      by rewrite filter_cons, decide_True, H1.
  - destruct (IH f1 Hf) as (l1 & l2 & -> & H1 & H2 & Hx). exists (y :: l1), l2. split_and!; [done| |done..].
    by rewrite filter_cons, decide_False.
Qed.

Lemma StronglySorted_drop_middle {A} (Q : A -> A -> Prop) l1 x l2 :
  Sorted.StronglySorted Q (l1 ++ x :: l2) -> Sorted.StronglySorted Q (l1 ++ l2).
Proof.
  induction l1 as [|y l1 IH]; cbn; intros H; [by inversion H|]. inversion H as [|? ? Hs Hy]; subst.
  constructor; [by apply IH|]. rewrite Forall_app, Forall_cons in Hy. rewrite Forall_app. tauto.
Qed.

Lemma sorted_tags_repeat l1 t l2 :
  t ∈ l1 -> exists s1 s2, sorted_tags (l1 ++ t :: l2) = s1 ++ t :: s2 /\ sorted_tags (l1 ++ l2) = s1 ++ s2 /\ t ∈ s1.
Proof.
  intros Hin. pose proof (sorted_tags_class (l1 ++ t :: l2) (Key t)) as Hc.
  rewrite filter_app, filter_cons, decide_True in Hc by done.
  destruct (filter_split _ _ _ _ _ Hc) as (s1 & s2 & Hs & H1 & H2 & _). exists s1, s2. split; [done|]. split.
  - apply (Slices.sorted_classes tag_le tag_le_total).
    + apply Slices.SortStableFunc_sorted; [apply tag_le_total|apply tag_le_trans].
    + eapply (StronglySorted_drop_middle _ s1 t s2). rewrite <- Hs.
      apply Slices.SortStableFunc_sorted; [apply tag_le_total|apply tag_le_trans].
    + intros a. rewrite !tag_class, sorted_tags_class, !filter_app. destruct (decide (Key t = Key a)) as [<-|Hne]; [by rewrite H1, H2|].
      pose proof (sorted_tags_class (l1 ++ t :: l2) (Key a)) as Ha.
      rewrite Hs, !filter_app, !filter_cons, !decide_False in Ha by done. done.
  - assert (Ht : t ∈ filter (fun x => Key x = Key t) l1) by (by apply list_elem_of_filter).
    rewrite <- H1, list_elem_of_filter in Ht. by destruct Ht.
Qed.
Definition hash_of (t : Tag) : string := xxh3_128 (Join t "").

Lemma write_tags_seen d (seen1 seen2 : gset string) tags :
  seen1 = seen2 -> write_tags d seen1 tags = write_tags d seen2 tags.
Proof. by intros ->. Qed.

Lemma write_tags_repeat d seen s1 t s2 :
  t ∈ s1 \/ hash_of t ∈ seen -> write_tags d seen (s1 ++ t :: s2) = write_tags d seen (s1 ++ s2).
Proof.
  revert d seen. induction s1 as [|x s1 IH]; intros d seen Ht; cbn [app write_tags].
  - destruct Ht as [H|H]; [by apply elem_of_nil in H|]. by rewrite bool_decide_true.
  - assert (Hnext : forall seen', hash_of x ∈ seen' -> seen ⊆ seen' -> t ∈ s1 \/ hash_of t ∈ seen').
    { intros seen' Hx Hsub. destruct Ht as [[->|Ht]%elem_of_cons|Ht]; [right|left|right]; set_solver. }
    case_bool_decide as Hx; apply IH, Hnext; set_solver.
Qed.

(** Tags that differ in the order of different keys and in repetitions. *)
Inductive republished : Tags -> Tags -> Prop :=
  | swapped l1 a b l2 : Key a ≠ Key b -> republished (l1 ++ a :: b :: l2) (l1 ++ b :: a :: l2)
  | repeated l1 t l2 : t ∈ l1 -> republished (l1 ++ t :: l2) (l1 ++ l2).

Lemma republished_digest d l1 l2 :
  republished l1 l2 -> writeGenericTagsSystemID d l1 = writeGenericTagsSystemID d l2.
Proof.
  unfold writeGenericTagsSystemID. intros [l a b l' Hk | l t l' Ht].
  - erewrite sorted_tags_keys; [done|]. intros k. rewrite !filter_app, !filter_cons.
    repeat case_decide; simplify_eq; done.
  - destruct (sorted_tags_repeat l t l' Ht) as (s1 & s2 & -> & -> & Hin). apply write_tags_repeat. by left.
Qed.

(** The identifier under which duplicates of an event are found does not
    change when the event is signed again, by another device, at another time,
    with its tags of different keys in another order or with tags repeated or
    repetitions left out. *)
Lemma generateSystemID_republished e1 e2 :
  GetMasterPublicKey e1 = GetMasterPublicKey e2 -> Kind e1 = Kind e2 -> Content e1 = Content e2 ->
  Kind e1 ≠ KindGiftWrap -> Kind e1 ≠ CustomIONKindPollVote -> Kind e1 ≠ KindReaction ->
  rtsc republished (EvTags e1) (EvTags e2) ->
  generateSystemID e1 = generateSystemID e2.
Proof.
  intros Hm Hk Hc Hg Hp Hr Hrel. unfold generateSystemID. rewrite <- Hk.
  rewrite (proj2 (Z.eqb_neq _ _) Hg), (proj2 (Z.eqb_neq _ _) Hp), (proj2 (Z.eqb_neq _ _) Hr). cbn [orb].
  unfold generateGenericIDSystemID, newBaseDigestSystemID. rewrite Hm, Hk, Hc. do 2 f_equal. clear -Hrel NS.
  induction Hrel as [l|l1 l2 l3 Hs _ IH]; [done|]. rewrite <- IH.
  destruct Hs as [Hs|Hs]; [|symmetry]; by apply republished_digest.
Qed.

(** The values of a tag are written without separators: tags of one key whose
    texts agree, such as [["q","ab","c"]] and [["q","a","bc"]], are taken for
    the same. *)
Lemma conflated_tags d k v1 v2 rest :
  k ≠ "" -> Join v1 "" = Join v2 "" ->
  writeGenericTagsSystemID d ((k :: v1) :: rest) = writeGenericTagsSystemID d ((k :: v2) :: rest).
Proof.
  intros Hk Hj. unfold writeGenericTagsSystemID.
  assert (Hle : forall t, tag_le (k :: v1) t = tag_le (k :: v2) t) by (intros t; unfold tag_le; by rewrite !Key_cons).
  assert (Hle' : forall t, tag_le t (k :: v1) = tag_le t (k :: v2)) by (intros t; unfold tag_le; by rewrite !Key_cons).
  assert (Htext : Join (k :: v1) "" = Join (k :: v2) "").
  { destruct v1 as [|x v1], v2 as [|y v2]; cbn in *; rewrite ?app_nil_r; [done|by rewrite <- Hj, app_nil_r| |by rewrite Hj].
    by rewrite Hj, app_nil_r. }
  cbn [Slices.SortStableFunc fold_right]. set (l := fold_right _ _ rest). clearbody l.
  assert (Hw : forall d seen, write_tags d seen (Slices.insert_stable tag_le (k :: v1) l) =
                              write_tags d seen (Slices.insert_stable tag_le (k :: v2) l)).
  { clear d. induction l as [|t l IH]; intros d seen; cbn [Slices.insert_stable].
    - cbn [write_tags]. by rewrite Htext.
    - rewrite Hle. destruct (tag_le (k :: v2) t); cbn [write_tags]; rewrite ?Htext; [done|].
      case_bool_decide; apply IH. }
  apply Hw.
Qed.
End Theorems.

(** ** Concrete inputs *)
Module RowPlain.
Export Plain AsciiText.
#[export] Instance rich : RichText := {|
  json_delta _ := None; json_delta_Marshal _ := None; json_insert _ := None; json_string _ := None;
  json_string_Marshal s := s; quill_Render _ := None; bluemonday_Sanitize s := s;
  html_UnescapeString s := s; nip19_Decode _ := None |}.
(** A digest that keeps the text, and a scheme whose signature is the message. *)
#[export] Instance rows : RowText := {| RemoveEmojis s := s; json_names _ := None; xxh3_128 s := s |}.
#[export] Instance crypto : Crypto := {|
  sha256_Sum256 s := s; ed25519_sign sk msg := msg;
  ed25519_verify pk msg sig := msg =s? sig; ed25519_valid_key sk := True |}.
#[export] Instance crypto_spec : CryptoSpec.
Proof. constructor. intros. cbn. apply String.eqb_refl. Qed.
End RowPlain.

Module RowsWitness.
Import RowPlain.

Definition expiring : Event :=
  MkEvent None "n1" "aa" 1700000000 1 [["expiration"; "1800000000"]; ["expiration"; "1750000000"]] "hi" "sig".
Definition row_of (e : Event) : databaseEvent :=
  match toDatabaseEvent e with
  | Ok r => r
  | _ => MkRow e "" "" "" "" "" "" "" "" "" 0 false false no_columns
  end.

Example expiring_row : Expiration (Columns (row_of expiring)) = Some 1750000000000000000.
Proof. vm_compute. reflexivity. Qed.

Lemma toDatabaseEvent_expiration_witness :
  match Expiration (Columns (row_of expiring)) with
  | None => deadlines (row_tags expiring) = []
  | Some m => (exists t, t ∈ deadlines (row_tags expiring) /\ TsTime t = m) /\
              forall t, t ∈ deadlines (row_tags expiring) -> m <= TsTime t
  end.
Proof.
  apply (toDatabaseEvent_expiration expiring (row_of expiring)); [vm_compute; reflexivity|].
  replace (deadlines (row_tags expiring)) with [1800000000; 1750000000] by (vm_compute; reflexivity).
  constructor; [left; lia|]. constructor; [left; lia|constructor].
Defined.

Definition signed_again : Event :=
  MkEvent None "n2" "aa" 1700000500 1 [["t"; "x"]; ["e"; "y"]] "hi" "other".
Definition first_signed : Event :=
  MkEvent None "n1" "aa" 1700000000 1 [["e"; "y"]; ["t"; "x"]; ["e"; "y"]] "hi" "sig".

Lemma generateSystemID_republished_witness : generateSystemID first_signed = generateSystemID signed_again.
Proof.
  apply (generateSystemID_republished first_signed signed_again);
    [reflexivity..|by intros H; vm_compute in H|by intros H; vm_compute in H|by intros H; vm_compute in H|].
  apply (rtc_l _ _ [["e"; "y"]; ["t"; "x"]]).
  - left. apply (repeated [["e"; "y"]; ["t"; "x"]] ["e"; "y"] []). by left.
  - apply rtc_once. left. by apply (swapped [] ["e"; "y"] ["t"; "x"] []).
Defined.

(** A gift wrap for a device, and one whose receiver has three elements. *)
Definition gift (receiver : Tag) : Event := MkEvent None "g1" "aa" 1700000000 1059 [receiver] "?" "sig".
Example gift_for_device : GiftReceiver (Columns (row_of (gift ["p"; "owner"; ""; "device"]))) = Some "device".
Proof. vm_compute. reflexivity. Qed.
Example gift_without_device_panics : toDatabaseEvent (gift ["p"; "owner"; ""]) = Panic.
Proof. vm_compute. reflexivity. Qed.
End RowsWitness.
