(* ===== verification/Status.v ===== *)
(** * Package query: the health of the database

    src/database/query/status.go.  The worker is one goroutine that takes the
    reports of a bounded channel in order; a report to a full channel is
    dropped, a request for the status is answered between two reports.  The
    read and the write health are machines of package statefsm. *)

From S2P Require Import Prelude GoStd Nostr StateFSM.

(* src: database/query/status.go 15-16 *)
Definition consecutiveOperationThreshold : Z := 3.
(* src: database/query/status.go 17-18 *)
Definition consecutiveWindow : Z := 60 * 1000000000.

(** Any other number is logged and ignored. *)
(* src: database/query/status.go 43-46 *)
Inductive operationType : Set := operationTypeRead | operationTypeWrite.

(* src: database/query/status.go 31-36 *)
Record operationStatus : Type := MkReport { OpTimestamp : Z; OpErr : option error; OpType : operationType }.

(* src: database/query/status.go 22-27 *)
Record Status : Type := MkStatus { LastWrite : Z; LastRead : Z; InReadErrorState : bool; InWriteErrorState : bool }.

(** The tracker: its channel and the variables of its worker. *)
(* src: database/query/status.go 37-40 *)
Record statusTracker : Type := MkTracker {
  In : list operationStatus;
  lastReadTime : Z;
  lastWriteTime : Z;
  readFSM : FSM;
  writeFSM : FSM
}.

(* src: database/query/status.go 50-50 [newStatusTracker] *)
Definition channel_size : Z := 100.

(* src: database/query/status.go 48-53 [newStatusTracker] *)
Definition newStatusTracker : outcome statusTracker :=
  let! fsm := New consecutiveWindow consecutiveOperationThreshold in
  Ok (MkTracker [] 0 0 fsm fsm).

(** [Submit] never waits: a report to a full channel is lost. *)
(* src: database/query/status.go 110-126 [submitOp] *)
Definition submitOp (t : statusTracker) (op : operationStatus) : statusTracker * bool :=
  if zlen (In t) <? channel_size
  then (MkTracker (In t ++ [op]) (lastReadTime t) (lastWriteTime t) (readFSM t) (writeFSM t), true)
  else (t, false).

(* src: database/query/status.go 71-82 [worker] *)
Definition take_report (t : statusTracker) (op : operationStatus) : statusTracker :=
  let failed := bool_decide (is_Some (OpErr op)) in
  match OpType op with
  | operationTypeRead =>
      MkTracker (In t) (OpTimestamp op) (lastWriteTime t) (Push (readFSM t) failed (OpTimestamp op)).1 (writeFSM t)
  | operationTypeWrite =>
      MkTracker (In t) (lastReadTime t) (OpTimestamp op) (readFSM t) (Push (writeFSM t) failed (OpTimestamp op)).1
  end.

(** One turn of the worker on a report. *)
(* src: database/query/status.go 70-85 [worker] *)
Definition worker (t : statusTracker) : statusTracker :=
  match In t with
  | [] => t
  | op :: ops => take_report (MkTracker ops (lastReadTime t) (lastWriteTime t) (readFSM t) (writeFSM t)) op
  end.

(* src: database/query/status.go 87-98 [worker] *)
Definition Get (t : statusTracker) : Status :=
  MkStatus (lastWriteTime t) (lastReadTime t) (InError (readFSM t)) (InError (writeFSM t)).

(** ** Runs *)

(** Reports and turns of the worker, in any order. *)
Inductive tracker_step : Set := Report (at_ : Z) (e : option error) (op : operationType) | Turn.
Definition step (t : statusTracker) (s : tracker_step) : statusTracker :=
  match s with
  | Report at_ e op => (submitOp t (MkReport at_ e op)).1
  | Turn => worker t
  end.
Definition steps (t : statusTracker) (l : list tracker_step) : statusTracker := fold_left step l t.

Definition reads_success (s : tracker_step) : Prop := exists at_, s = Report at_ None operationTypeRead.
Definition read_success (op : operationStatus) : Prop := OpType op = operationTypeRead /\ OpErr op = None.

Lemma push_error_sticks s now : inError s = true -> inError (push_error s now) = true.
Proof.
  unfold inError. rewrite !bool_decide_eq_true. intros Hs. unfold push_error. repeat case_match; done.
Qed.

Lemma step_sticks t s :
  Forall (fun op => ~ read_success op) (In t) -> ~ reads_success s -> inError (readFSM t) = true ->
  Forall (fun op => ~ read_success op) (In (step t s)) /\ inError (readFSM (step t s)) = true.
Proof.
  intros Hq Hs He. destruct s as [at_ e op|]; cbn [step].
  - unfold submitOp. destruct (zlen (In t) <? channel_size); cbn; [|done]. split; [|done].
    apply Forall_app. split; [done|]. apply Forall_singleton. intros [Ho Hn]. cbn in *. subst op e.
    apply Hs. by eexists.
  - unfold worker. destruct (In t) as [|op ops] eqn:Hin; [by rewrite Hin|].
    apply Forall_cons in Hq as [Hop Hq]. unfold take_report. destruct (OpType op) eqn:Ho; cbn; split; try done.
    destruct (OpErr op) as [x|] eqn:Hx; [|by destruct Hop].
    rewrite bool_decide_true by done. by apply push_error_sticks.
Qed.
