(* ===== verification/Selection.v ===== *)
(** * Package query: reading events

    src/database/query/query.go, from the rows of a query to the events a
    client is given.  Rows are pointers of their own: a change of one is a new
    value here.  A range over a map visits its keys in an order that is a
    parameter.  The printed form of an event and the arithmetic of timestamps
    (go-nostr) are parameters. *)

From S2P Require Import Prelude GoStd Nostr Model Filters Content Validator QueryFilter QueryBuilder QuerySafety StateFSM Connector Rows Status.
Import Strings.

(** ** Parameters *)

Class EventText := {
  (** [event.String()]: its JSON *)
  event_String : Event -> string;
  (** [t.Add(d)] of a duration in nanoseconds, [t.String()] *)
  TsAdd : Timestamp -> Z -> Timestamp;
  TsString : Timestamp -> string;
  (** the order in which a range visits a set of keys *)
  range_set : gset string -> list string
}.
Class EventTextSpec `{EventText} : Prop := {
  (** a range visits every key once *)
  range_set_perm : forall m, range_set m ≡ₚ elements m
}.

(* src: database/query/query.go 32 *)
Definition ephemeralEmbeddingBit : Z := Z.shiftl 1 17.

(* src: model/model.go 182 *)
Definition DVMJobResultExpiration : Z := 300000000000.

Section Selection.
Context {N : Nostr} {C : Crypto} {E : Env} {T : EventText}.

(** ** Errors *)

(* src: database/query/query.go 1274-1304 *)
Definition handleError (e : option dbError) : option error :=
  match e with
  | None => None
  | Some e =>
      if db_is e ErrException then
        match pg e with
        | Some p =>
            if Message p =s? "attestation list update must be linear" then Some (err ErrAttestationUpdateRejected)
            else if Message p =s? "onbehalf permission denied" then Some (err ErrOnBehalfAccessDenied)
            else if Message p =s? "repost of deleted post" then Some (err ErrRepostOfDeletedPost)
            else Some (sentinels e)
        | None => Some (sentinels e)
        end
      else if db_is e ErrInvalidData then Some (err ErrInvalidEvent)
      else if db_is e ErrInternal then Some (err ErrInvalidRequest)
      else if db_is e ErrDuplicate || db_is e ErrExclusionViolation then Some (err ErrRaceCondition)
      else Some (sentinels e)
  end.

(** ** Signing *)

Context (relayPrivateKey relayURL : string).

(* src: database/query/query.go 1202-1207 *)
Definition mustSignDatabaseEvent (e : Event) : outcome Event :=
  match SignWithAlg e relayPrivateKey SignAlgEDDSA KeyAlgCurve25519 with
  | Ok e => Ok e
  | OutOfFuel => OutOfFuel
  | _ => Panic
  end.

(** [append(tags, tag)] of an event *)
Definition append_tags (e : Event) (tags : Tags) : Event := with_Tags e (EvTags e ++ tags).

(** [pubkey, _ := model.GetPublicKey(db.relayPrivateKey)] *)
Definition relay_pubkey : string := match GetPublicKey relayPrivateKey with Ok k => k | _ => "" end.

(* src: database/query/query.go 1033-1045 *)
Definition MustSignEvent (d : databaseEvent) : outcome databaseEvent :=
  let e := REvent d in
  let e1 := if PubKey e ≠s? "" then append_tags e [["p"; PubKey e]] else e in
  let e2 := if (MasterPubKey d ≠s? "") && (MasterPubKey d ≠s? PubKey e)
            then append_tags e1 [[CustomIONTagOnBehalfOf; MasterPubKey d]]
            else if is_nil (GetTag e1 CustomIONTagOnBehalfOf)
            then append_tags e1 [[CustomIONTagOnBehalfOf; relay_pubkey]] else e1 in
  let! e := mustSignDatabaseEvent e2 in Ok (with_event d e).

(** [new(model.Event)] with some fields. *)
Definition new_event (kind : Z) (createdAt : Timestamp) (content : string) (tags : Tags) : Event :=
  MkEvent None "" "" createdAt kind tags content "".
Definition no_row : databaseEvent := MkRow (new_event 0 0 "" []) "" "" "" "" "" "" "" "" "" 0 false false no_columns.

(** The signer is always that of the client. *)
(* src: database/query/query.go 1047-1079 *)
Definition newEphemeralEmbeddingEvent (kind : Z) (masterKey id : string) (at_ : Timestamp) : outcome databaseEvent :=
  let at_ := if at_ =? 0 then Now now else at_ in
  let hint := new_event kind at_ "" ([["p"; masterKey]] ++ if kind =? KindFollowList then [["b"; masterKey]] else []) in
  let! hint := mustSignDatabaseEvent hint in
  let ev := new_event CustomIONKindEphemeralEmbedding at_ (event_String hint)
    ([["p"; masterKey]] ++ if id ≠s? "" then [["e"; id]] else []) in
  let! ev := mustSignDatabaseEvent ev in
  Ok (with_event no_row ev).

(* src: database/query/query.go 1081-1096 *)
Definition packEventIntoEphemeralEmbedding (d : databaseEvent) : outcome databaseEvent :=
  let e := REvent d in
  let ev := new_event CustomIONKindEphemeralEmbedding (CreatedAt e) (event_String e)
    [["p"; cmp_Or (GetMasterPublicKey e) (PubKey e)]; ["e"; ID e]; ["k"; Strconv.Itoa (Kind e)]] in
  let! ev := mustSignDatabaseEvent ev in
  Ok (with_event no_row ev).

Definition with_Kind (e : Event) (k : Z) : Event :=
  MkEvent (Previous e) (ID e) (PubKey e) (CreatedAt e) k (EvTags e) (Content e) (Sig e).

(** The answer to a count request: it carries the request, signed as well. *)
(* src: database/query/query.go 1124-1141 [eventTransform] *)
Definition count_response (d : databaseEvent) : outcome databaseEvent :=
  let e := REvent d in
  let request := new_event KindJobNostrEventCount (CreatedAt e) (Dtag d)
    (EvTags e ++ [["param"; "relay"; relayURL]; [CustomIONTagOnBehalfOf; relay_pubkey]]) in
  let! request := MustSignEvent (with_event no_row request) in
  MustSignEvent (with_event d (with_Tags e
    [["request"; event_String (REvent request)]; ["e"; ID (REvent request); relayURL];
     ["expiration"; TsString (TsAdd (Now now) DVMJobResultExpiration)]])).

(* src: database/query/query.go 1098-1145 *)
Definition eventTransform (d : databaseEvent) : outcome databaseEvent :=
  let e := REvent d in
  if negb (Z.land (Kind e) ephemeralEmbeddingBit =? 0) then
    packEventIntoEphemeralEmbedding (with_event d (with_Kind e (Z.ldiff (Kind e) ephemeralEmbeddingBit)))
  else if Sig e =s? "PACK" then
    newEphemeralEmbeddingEvent (Kind e) (cmp_Or (MasterPubKey d) (PubKey e)) (ID e) (CreatedAt e)
  else if Sig e =s? "ENRICH" then
    newEphemeralEmbeddingEvent (Kind e) (cmp_Or (MasterPubKey d) (PubKey e)) "" (CreatedAt e)
  else if Sig e ≠s? "" then Ok d
  else if Kind e =? CustomIONKindRelayListMetadata then MustSignEvent d
  else if Kind e =? KindDVMCountResponse then count_response d
  else Ok d.

(** ** Missing profiles *)

(* src: database/query/query.go 104-109 *)
Record byAuthorEventEnricher : Type := MkEnricher {
  EOrigin : gset string;
  KindOrigin : gset string;
  EKind : Z
}.

(* src: database/query/query.go 1151-1158 *)
Definition newByAuthorKind0EventEnricher : byAuthorEventEnricher := MkEnricher ∅ ∅ KindProfileMetadata.

(* src: database/query/query.go 1147-1149 [CanUse] *)
Definition CanUse (e : byAuthorEventEnricher) (dep : filterDependency) : bool :=
  match RKinds (DReduce dep) with
  | [k] => (k =? EKind e) && (ReduceTag (DReduce dep) =s? "") && (Author (DReduce dep) =s? "")
  | _ => false
  end.

(* src: database/query/query.go 1160-1170 [Track] *)
Definition Track (e : byAuthorEventEnricher) (origin depOrigin : string) : byAuthorEventEnricher :=
  MkEnricher ({[origin]} ∪ EOrigin e) ({[depOrigin]} ∪ KindOrigin e) (EKind e).

(* src: database/query/query.go 1172-1174 [Empty] *)
Definition enricher_Empty (e : byAuthorEventEnricher) : bool := bool_decide (EOrigin e = ∅) && bool_decide (KindOrigin e = ∅).

(** The authors of the rows of an origin. *)
(* src: database/query/query.go 1177-1191 [EnrichEvents] *)
Definition authors_of (origins : gset string) (events : list databaseEvent) : gset string :=
  list_to_set ((fun d => GetMasterPublicKey (REvent d)) <$> filter (fun d => Origin d ∈ origins) events).

(* src: database/query/query.go 1176-1200 *)
Definition EnrichEvents (e : byAuthorEventEnricher) (events : list databaseEvent) : outcome (list databaseEvent) :=
  let unknownKeys := authors_of (EOrigin e) events ∖ authors_of (KindOrigin e) events in
  for_state (range_set unknownKeys) [] (fun result key =>
    let! ev := newEphemeralEmbeddingEvent (EKind e) key "" (Now now) in Ok (result ++ [ev])).

(** The one enricher there is, told the origins of the dependencies it can
    complete. *)
(* src: database/query/query.go 1214-1223 [postProcessEvents] *)
Definition track_all (filters : gmap string databaseFilterTree) (e : byAuthorEventEnricher) : byAuthorEventEnricher :=
  map_fold (fun origin tree e =>
    map_fold (fun leafOrigin dep e => if CanUse e dep then Track e origin leafOrigin else e) e (Leafs tree)) e filters.

(* src: database/query/query.go 1209-1239 *)
Definition postProcessEvents (r : queryBuildResult) (events : list databaseEvent) : outcome (list databaseEvent) :=
  let enricher := track_all (Filters_ r) newByAuthorKind0EventEnricher in
  if enricher_Empty enricher then Ok events
  else let! enriched := EnrichEvents enricher events in Ok (events ++ enriched).

(** ** Queries *)

Section Queries.
Context {G : GoText} {TM : TagMaps} {U : Unicode} {TK : Tokenizer}.
Context (Unquote : string -> option string) (filters_base64 : list Filter -> string).
Context {D : Type} (attempts : nat).
(** A replica or the master runs a statement with its named parameters. *)
Context (run_rows : string -> gmap string any -> D -> D * (list databaseEvent * option driverError)).
Context (run_count : string -> gmap string any -> D -> D * (option Z * option driverError)).
Context (run_string : string -> gmap string any -> D -> D * (option string * option driverError)).
(** The reporter of operations the client was given. *)
Context (operationReporter : operationType -> option error -> D -> D).

(** One item of an iteration: an event, or nil, and an error. *)
Abbreviation item := (option Event * option error)%type.

(* src: database/query/query.go 1710-1715 *)
Definition trackEventReadError (e : option error) (d : D) : D :=
  operationReporter operationTypeRead
    (match e with Some x => if error_is x ErrRaceCondition then None else e | None => None end) d.

(* src: database/query/query.go 1364-1367 *)
Definition generateSelectEventsSQL (filters : list Filter) : outcome queryBuildResult :=
  let! (r, _) := Build Unquote filters_base64 filters newQueryBuilder in Ok r.

(** The events of the rows, up to a panic. *)
(* src: database/query/query.go 1261-1270 [SelectEvents] *)
Fixpoint yield_events (rows : list databaseEvent) : list item * outcome unit :=
  match rows with
  | [] => ([], Ok ())
  | row :: rows =>
      match eventTransform row with
      | Ok ev => let '(items, r) := yield_events rows in ((Some (REvent ev), None) :: items, r)
      | Err x => ([], Err x)
      | Panic => ([], Panic)
      | OutOfFuel => ([], OutOfFuel)
      end
  end.

(** What the iteration yields when it is not stopped, and how it ends. *)
(* src: database/query/query.go 1241-1272 *)
Definition SelectEvents (filters : list Filter) (d : D) : D * (list item * outcome unit) :=
  match generateSelectEventsSQL filters with
  | Err x => (d, ([(None, Some x)], Ok ()))
  | Panic => (d, ([], Panic))
  | OutOfFuel => (d, ([], OutOfFuel))
  | Ok result =>
      let '(d, (data, e)) := read_retried attempts (run_rows (Statement result) (ResultParams result)) [] d in
      match e with
      | Some _ =>
          let x := handleError e in
          let x := match x with Some y => if error_is y ErrNoRecord then None else x | None => None end in
          (trackEventReadError x d, ([(None, x)], Ok ()))
      | None =>
          match postProcessEvents result data with
          | Ok data => (d, yield_events data)
          | Err x => (d, ([], Err x))
          | Panic => (d, ([], Panic))
          | OutOfFuel => (d, ([], OutOfFuel))
          end
      end
  end.

(** ** Counting *)

(** The precalculated counters when they cover the filters, or a count of the
    events. *)
(* src: database/query/query.go 1306-1322 *)
Definition generateEventsCountClause (filters : list Filter) :
    outcome (string * gmap string any) :=
  let count_all :=
    let! (_, b) := BuildSingleWhere Unquote filters newQueryBuilder in
    Ok ("select count(id) from events e where " +:+ text b, Params b) in
  match filters with
  | [] => count_all
  | _ =>
      match BuildForPrecalculatedCounters filters newQueryBuilder with
      | Ok (_, b) => Ok ("select coalesce(sum(value), 0) from event_counters where " +:+ text b, Params b)
      | Err x => if error_is x errUnsupportedCombination then count_all else Err x
      | Panic => Panic
      | OutOfFuel => OutOfFuel
      end
  end.

(** [-1] with an error. *)
(* src: database/query/query.go 1324-1338 *)
Definition CountEvents (filters : list Filter) (d : D) : D * outcome Z :=
  match generateEventsCountClause filters with
  | Ok (sql, params) =>
      let '(d, (count, e)) := read_retried attempts (run_count sql params) None d in
      (d, match e with
          | Some x => if db_is x ErrNoRecord then Ok (default 0 count) else Err (sentinels x)
          | None => Ok (default 0 count)
          end)
  | Err x => (d, Err x)
  | Panic => (d, Panic)
  | OutOfFuel => (d, OutOfFuel)
  end.

(* src: database/query/query.go 1340-1362 *)
Definition CountGroupedEventReactions (filters : list Filter) (d : D) : D * outcome string :=
  match BuildForPrecalculatedCounters filters newQueryBuilder with
  | Ok (_, b) =>
      let where_ := if text b =s? "" then "true" else text b in
      let sql := "WITH cte AS (SELECT COALESCE(NULLIF(f.reference_type, ''), '+') AS key, sum(f.value) as val from event_counters f where kind = 7 AND "
        +:+ where_ +:+ "group by reference_type) SELECT jsonb_object_agg(cte.KEY, cte.val) FROM cte" in
      let '(d, (result, e)) := read_retried attempts (run_string sql (Params b)) None d in
      (d, match e with
          | Some x => if db_is x ErrNoRecord then Ok (default "" result) else Err (sentinels x)
          | None => Ok (default "" result)
          end)
  | Err x => (d, Err x)
  | Panic => (d, Panic)
  | OutOfFuel => (d, OutOfFuel)
  end.
End Queries.
End Selection.

(** ** Theorems *)

Section Theorems.
Context {N : Nostr} {NS : NostrSpec N} {C : Crypto} {CS : CryptoSpec} {E : Env} {T : EventText} {TS : EventTextSpec}.
Context (relayPrivateKey relayURL : string) (sk : string).
Context (Hhex : Hex.DecodeString relayPrivateKey = Some sk) (Hlen : len sk = 64%nat) (Hvalid : ed25519_valid_key sk).

(** Signed with the key of the relay. *)
Definition relay_signed (e : Event) : Prop :=
  CheckSignature e = Ok true /\ PubKey e = Hex.EncodeToString (drop 32 sk).

Lemma must_sign e :
  exists e', mustSignDatabaseEvent relayPrivateKey e = Ok e' /\ relay_signed e' /\ Kind e' = Kind e /\ EvTags e' = EvTags e.
Proof.
  destruct (SignWithAlg_spec e sk relayPrivateKey Hhex Hlen Hvalid) as (e' & Hs & Hc & Hp & _ & Ht & Hk & _).
  exists e'. unfold mustSignDatabaseEvent. by rewrite Hs.
Qed.

Lemma MustSignEvent_runs d :
  exists d', MustSignEvent relayPrivateKey d = Ok d' /\ relay_signed (REvent d').
Proof.
  unfold MustSignEvent. edestruct must_sign as (e' & -> & Hs & _). cbn. by eexists.
Qed.

Lemma newEphemeralEmbeddingEvent_runs kind key id at_ :
  exists d, newEphemeralEmbeddingEvent relayPrivateKey kind key id at_ = Ok d /\ relay_signed (REvent d) /\
    Kind (REvent d) = CustomIONKindEphemeralEmbedding /\ Value (GetTag (REvent d) "p") = key.
Proof.
  unfold newEphemeralEmbeddingEvent. edestruct must_sign as (hint & -> & _). cbn [mbind outcome_bind].
  edestruct must_sign as (e & -> & Hs & Hk & Ht). cbn.
  eexists. split; [done|]. cbn. split_and!; [done..|]. unfold GetTag. rewrite Ht. cbn [new_event EvTags app GetTag_loop].
  rewrite Key_cons. cbn. by rewrite Value_cons.
Qed.

(** A row that is passed on as it is stored. *)
Definition stored_row (d : databaseEvent) : Prop :=
  Z.land (Kind (REvent d)) ephemeralEmbeddingBit = 0 /\ Sig (REvent d) ≠ "PACK" /\ Sig (REvent d) ≠ "ENRICH".

Lemma eventTransform_runs d :
  exists d', eventTransform relayPrivateKey relayURL d = Ok d' /\
    ((d' = d /\ stored_row d) \/ relay_signed (REvent d')).
Proof.
  unfold eventTransform. destruct (Z.eqb_spec (Z.land (Kind (REvent d)) ephemeralEmbeddingBit) 0) as [Hb|Hb]; cbn [negb].
  2: { unfold packEventIntoEphemeralEmbedding. edestruct must_sign as (e & -> & Hs & _).
       cbn. eexists. split; [done|]. by right. }
  destruct (String.eqb_spec (Sig (REvent d)) "PACK") as [|Hp].
  { edestruct newEphemeralEmbeddingEvent_runs as (d' & -> & Hs & _). eauto. }
  destruct (String.eqb_spec (Sig (REvent d)) "ENRICH") as [|He].
  { edestruct newEphemeralEmbeddingEvent_runs as (d' & -> & Hs & _). eauto. }
  destruct (Sig (REvent d) ≠s? ""); [eexists; split; [done|]; by left|].
  destruct (Kind (REvent d) =? CustomIONKindRelayListMetadata).
  { destruct (MustSignEvent_runs d) as (d' & -> & Hs). eauto. }
  destruct (Kind (REvent d) =? KindDVMCountResponse); [|eexists; split; [done|]; by left].
  unfold count_response. edestruct MustSignEvent_runs as (r & -> & _). cbn [mbind outcome_bind].
  edestruct MustSignEvent_runs as (d' & -> & Hs). eauto.
Qed.

Lemma yield_events_runs rows :
  exists items, yield_events relayPrivateKey relayURL rows = (items, Ok ()) /\
    Forall2 (fun row it => exists e, it = (Some e, None) /\ ((e = REvent row /\ stored_row row) \/ relay_signed e)) rows items.
Proof.
  induction rows as [|row rows (items & IH & Hf)]; [by exists []|]. cbn [yield_events].
  destruct (eventTransform_runs row) as (d' & -> & Hd). rewrite IH. eexists. split; [done|]. constructor; [|done].
  exists (REvent d'). split; [done|]. destruct Hd as [[-> Hs]|Hs]; auto.
Qed.

(** The hints of an enricher, one per author whose event is missing. *)
Lemma EnrichEvents_runs e events :
  exists result, EnrichEvents relayPrivateKey e events = Ok result /\
    ((fun d => Value (GetTag (REvent d) "p")) <$> result) ≡ₚ
      elements (authors_of (EOrigin e) events ∖ authors_of (KindOrigin e) events) /\
    Forall (fun d => relay_signed (REvent d) /\ Kind (REvent d) = CustomIONKindEphemeralEmbedding) result.
Proof.
  unfold EnrichEvents. pose proof (range_set_perm (authors_of (EOrigin e) events ∖ authors_of (KindOrigin e) events)) as Hperm.
  revert Hperm. generalize (range_set (authors_of (EOrigin e) events ∖ authors_of (KindOrigin e) events)). intros keys Hperm. enough (forall acc, Forall (fun d => relay_signed (REvent d) /\ Kind (REvent d) = CustomIONKindEphemeralEmbedding) acc ->
    exists result, for_state keys acc (fun result key =>
      let! ev := newEphemeralEmbeddingEvent relayPrivateKey (EKind e) key "" (Now now) in Ok (result ++ [ev])) = Ok result /\
    ((fun d => Value (GetTag (REvent d) "p")) <$> result) = ((fun d => Value (GetTag (REvent d) "p")) <$> acc) ++ keys /\
    Forall (fun d => relay_signed (REvent d) /\ Kind (REvent d) = CustomIONKindEphemeralEmbedding) result) as H.
  { destruct (H [] (Forall_nil_2 _)) as (result & -> & Hk & Hf). exists result. split_and!; [done|by rewrite Hk|done]. }
  clear Hperm.
  induction keys as [|key keys IH]; intros acc Hacc; cbn [for_state].
  { exists acc. by rewrite List.app_nil_r. }
  destruct (newEphemeralEmbeddingEvent_runs (EKind e) key "" (Now now)) as (ev & -> & Hs & Hk & Hp). cbn [mbind outcome_bind].
  destruct (IH (acc ++ [ev])) as (result & -> & Hr & Hf).
  { apply Forall_app. split; [done|]. by constructor. }
  exists result. split_and!; [done| |done]. rewrite Hr, fmap_app. cbn. by rewrite Hp, <- (assoc_L (++)).
Qed.
Section Reads.
Context {G : GoText} {TM : TagMaps} {U : Unicode} {TK : Tokenizer}.
Context (Unquote : string -> option string) (filters_base64 : list Filter -> string).
Context {D : Type} (attempts : nat).
Context (run_rows : string -> gmap string any -> D -> D * (list databaseEvent * option driverError)).
Context (operationReporter : operationType -> option error -> D -> D).
Abbreviation select := (SelectEvents relayPrivateKey relayURL Unquote filters_base64 attempts run_rows operationReporter).
Abbreviation generate := (generateSelectEventsSQL Unquote filters_base64).

Lemma postProcessEvents_runs r rows :
  exists hints, postProcessEvents relayPrivateKey r rows = Ok (rows ++ hints) /\
    Forall (fun d => relay_signed (REvent d) /\ Kind (REvent d) = CustomIONKindEphemeralEmbedding) hints /\
    let e := track_all (Filters_ r) newByAuthorKind0EventEnricher in
    ((fun d => Value (GetTag (REvent d) "p")) <$> hints) ≡ₚ elements (authors_of (EOrigin e) rows ∖ authors_of (KindOrigin e) rows).
Proof.
  unfold postProcessEvents. cbv zeta. set (e := track_all _ _).
  destruct (enricher_Empty e) eqn:He.
  - exists []. rewrite List.app_nil_r. split_and!; [done|constructor|].
    unfold enricher_Empty in He. apply andb_true_iff in He as [Ho _]. apply bool_decide_eq_true in Ho. rewrite Ho.
    unfold authors_of. rewrite (list_filter_iff _ (fun _ => False)) by set_solver.
    assert (Hn : forall l : list databaseEvent, filter (fun _ => False) l = []).
    { intros l. induction l as [|x l IH]; [done|]. rewrite filter_cons. by case_decide. }
    rewrite Hn. cbn. replace (∅ ∖ _) with (∅ : gset string) by set_solver. by rewrite elements_empty.
  - destruct (EnrichEvents_runs e rows) as (hints & -> & Hp & Hf). cbn. by exists hints.
Qed.

(** A query that succeeds gives one event per row, in order: the stored
    event as it is, or one the relay signed; then, for the dependencies that
    load profiles, one signed hint for every author of the origin without a
    profile among the rows, and no other. With a valid key of the relay nothing
    panics on the way. *)
Lemma SelectEvents_events filters d d' r rows :
  generate filters = Ok r ->
  read_retried attempts (run_rows (Statement r) (ResultParams r)) [] d = (d', (rows, None)) ->
  exists items hints,
    select filters d = (d', (items ++ ((fun h => (Some h, None)) <$> hints), Ok ())) /\
    Forall2 (fun row it => exists e, it = (Some e, None) /\ ((e = REvent row /\ stored_row row) \/ relay_signed e)) rows items /\
    Forall relay_signed hints /\ length hints = size (let e := track_all (Filters_ r) newByAuthorKind0EventEnricher in
      authors_of (EOrigin e) rows ∖ authors_of (KindOrigin e) rows).
Proof.
  intros Hg Hr. unfold SelectEvents. rewrite Hg, Hr. destruct (postProcessEvents_runs r rows) as (hs & -> & Hs & Hk).
  destruct (yield_events_runs (rows ++ hs)) as (all & -> & Hall).
  apply Forall2_app_inv_l in Hall as (items & more & Hi & Hm & ->).
  assert (Hmore : exists hints, more = (fun h => (Some h, None)) <$> hints /\ Forall relay_signed hints /\ length hints = length hs).
  { clear -Hs Hm. revert more Hm. induction Hs as [|h hs [Hh _] _ IH]; intros more Hm.
    - inversion Hm. by exists [].
    - inversion Hm as [|? it ? more' (e & -> & He) Hm']; subst. destruct (IH _ Hm') as (hints & -> & Hf & Hl).
      exists (e :: hints). split_and!; [done| |by cbn; rewrite Hl]. constructor; [|done]. by destruct He as [[-> _]|He]. }
  destruct Hmore as (hints & -> & Hf & Hl). exists items, hints. split_and!; [done..|].
  rewrite Hl. apply Permutation_length in Hk. rewrite length_fmap in Hk. by rewrite Hk.
Qed.

(** *** Reports on reads *)

(** An error of a read that is reported as one. *)
Definition failure (e : driverError) : Prop :=
  exists x, handleError (Some (parseError e)) = Some x /\ error_is x ErrNoRecord = false /\ error_is x ErrRaceCondition = false.

(** A read keeps what the statements and the reports of failures keep: no
    success is ever reported. *)
Lemma SelectEvents_keeps (P : D -> Prop) filters d :
  (forall sql params d, P d -> P (run_rows sql params d).1 /\ forall e, (run_rows sql params d).2.2 = Some e -> failure e) ->
  (forall x d, P d -> P (operationReporter operationTypeRead (Some x) d)) ->
  P d -> P (select filters d).1.
Proof.
  intros Hrun Hrep Hd. unfold SelectEvents. destruct (generate filters) as [r| | |]; [|done..].
  pose proof (read_retried_inv attempts P failure (run_rows (Statement r) (ResultParams r)) [] d (Hrun _ _) Hd) as [H1 H2].
  destruct (read_retried _ _ _ _) as [d1 [rows e]]. cbn in *. destruct e as [y|].
  - destruct (H2 y eq_refl) as (e & -> & x & -> & Hn & Hr). cbn. rewrite Hn. unfold trackEventReadError. rewrite Hr. by apply Hrep.
  - by destruct (postProcessEvents relayPrivateKey r rows).
Qed.
End Reads.

(** ** The health of reads *)

Section Health.
Context {G : GoText} {TM : TagMaps} {U : Unicode} {TK : Tokenizer}.
Context (Unquote : string -> option string) (filters_base64 : list Filter -> string) (attempts : nat).
(** The tracker beside the rest of the state, which statements change. *)
Context {X : Type} (run : string -> gmap string any -> X -> X * (list databaseEvent * option driverError)) (clock : X -> Z).
Definition run_beside (sql : string) (params : gmap string any) (d : statusTracker * X) :=
  let '(x, r) := run sql params d.2 in ((d.1, x), r).
Definition reporter (op : operationType) (e : option error) (d : statusTracker * X) : statusTracker * X :=
  ((submitOp d.1 (MkReport (clock d.2) e op)).1, d.2).

(** Queries, reports of writes and turns of the worker. *)
Inductive activity : Type := Select_ (filters : list Filter) | Wrote (e : option error) | Works.
Definition act (d : statusTracker * X) (a : activity) : statusTracker * X :=
  match a with
  | Select_ filters => (SelectEvents relayPrivateKey relayURL Unquote filters_base64 attempts run_beside reporter filters d).1
  | Wrote e => reporter operationTypeWrite e d
  | Works => (worker d.1, d.2)
  end.

(** A read that succeeds is never reported, so once the reads of the
    database count as failed (three failures in a row) they do so for ever,
    whatever succeeds later; a report of a success would be the only way back. *)
Lemma failed_reads_stay t x l :
  (forall sql params x e, (run sql params x).2.2 = Some e -> failure e) ->
  Forall (fun op => ~ read_success op) (In t) -> InReadErrorState (Get t) = true ->
  InReadErrorState (Get (fold_left act l (t, x)).1) = true.
Proof.
  intros Hrun Hq He.
  set (P := fun d : statusTracker * X => Forall (fun op => ~ read_success op) (In d.1) /\ InReadErrorState (Get d.1) = true).
  enough (P (fold_left act l (t, x))) as [_ H] by exact H.
  assert (H0 : P (t, x)) by done. revert H0. generalize (t, x). clear Hq He. induction l as [|a l IH]; intros d Hd; [done|].
  cbn [fold_left]. apply IH. destruct a as [fs|e|]; cbn [act].
  - apply SelectEvents_keeps; [|intros y d' [Hq He]|done].
    + intros sql params d' Hd'. unfold run_beside. pose proof (Hrun sql params d'.2) as Hr.
      destruct (run sql params d'.2) as [x' r]. by split.
    + apply (step_sticks d'.1 (Report (clock d'.2) (Some y) operationTypeRead) Hq); [by intros [? ?]|done].
  - destruct Hd as [Hq He]. apply (step_sticks d.1 (Report (clock d.2) e operationTypeWrite) Hq); [by intros [? ?]|done].
  - destruct Hd as [Hq He]. apply (step_sticks d.1 Turn Hq); [by intros [? ?]|done].
Qed.
End Health.
End Theorems.

(** ** Concrete inputs *)
Module SelectionPlain.
Export RowPlain QueryPlain.
#[export] Instance tokenizer : Tokenizer := QueryFilterWitness.tokens.
#[export] Instance event_text : EventText := {|
  event_String e := ID e; TsAdd t d := t + d; TsString t := ""; range_set m := elements m |}.
#[export] Instance event_text_spec : EventTextSpec.
Proof. by constructor. Qed.
Definition key : string := Strings.bytes (repeat 7%nat 64).
Definition key_hex : string := Hex.EncodeToString key.
Definition unquote (s : string) : option string := None.
Definition no_base64 (l : list Filter) : string := "".
End SelectionPlain.

Module SelectionWitness.
Import SelectionPlain.

Definition stored_note : databaseEvent := RowsWitness.row_of RowsWitness.expiring.
Definition notes : list Filter := [MkFilter None (Some [1]) None None None None None 10 ""].
Definition one_row (sql : string) (params : gmap string any) (d : unit) : unit * (list databaseEvent * option driverError) :=
  (d, ([stored_note], None)).
Definition no_report (op : operationType) (e : option error) (d : unit) : unit := d.
Definition statement_of : queryBuildResult :=
  match generateSelectEventsSQL unquote no_base64 notes with Ok r => r | _ => MkResult ∅ ∅ "" end.

Lemma SelectEvents_events_witness :
  exists items hints,
    SelectEvents key_hex "wss://relay" unquote no_base64 0 one_row no_report notes () =
      ((), (items ++ ((fun h => (Some h, None)) <$> hints), Ok ())) /\
    Forall2 (fun row it => exists e, it = (Some e, None) /\ ((e = REvent row /\ stored_row row) \/ relay_signed key e)) [stored_note] items /\
    Forall (relay_signed key) hints /\ length hints = size (let e := track_all (Filters_ statement_of) newByAuthorKind0EventEnricher in
      authors_of (EOrigin e) [stored_note] ∖ authors_of (KindOrigin e) [stored_note]).
Proof.
  apply (SelectEvents_events key_hex "wss://relay" key); [vm_compute; reflexivity|reflexivity|exact I| |reflexivity].
  vm_compute. reflexivity.
Defined.

Definition broken (sql : string) (params : gmap string any) (d : unit) : unit * (list databaseEvent * option driverError) :=
  (d, ([], Some NetOp)).
(** A tracker whose reads have failed three times. *)
Definition failing : statusTracker :=
  match newStatusTracker with
  | Ok t => Nat.iter 3 (fun t => worker (submitOp t (MkReport 1 (Some opaque_error) operationTypeRead)).1) t
  | _ => MkTracker [] 0 0 (MkFSM 0 0 0 0 0 stateHealthy) (MkFSM 0 0 0 0 0 stateHealthy)
  end.

Lemma failed_reads_stay_witness :
  InReadErrorState (Get (fold_left (act key_hex "wss://relay" unquote no_base64 0 broken (fun _ => 7))
    [Select_ notes; Works; Wrote None; Works] (failing, ())).1) = true.
Proof.
  apply (failed_reads_stay key_hex "wss://relay" unquote no_base64 0 broken (fun _ => 7) failing ());
    [|vm_compute; constructor|vm_compute; reflexivity].
  intros sql params x e [= <-]. by exists opaque_error.
Defined.
End SelectionWitness.
