(* ===== verification/Store.v ===== *)
(** * Package query: storing, deleting and rolling back events

    src/database/query/query.go.  A batch of events is turned into rows and
    deletions, which the database executes; what has to be undone if the other
    relays of the user refuse the batch is remembered under its hash.  The
    database is not part of the repository: it runs statements with named
    parameters and returns rows or an error of the driver; its triggers and
    its locks are its own.  The shared map of batches to roll back is a field of
    the client; an event and the row made of it share the previous version that
    is found when it is stored. *)

From S2P Require Import Prelude GoStd Nostr Model OnBehalf Filters Content Validator QueryFilter QueryBuilder Connector Rows Status Selection.
Import Strings.

(** ** Requests *)

(* src: database/query/query.go 115-123 *)
Record databaseBatchRequest : Type := MkBatch {
  EventsHash : option string;
  Rollback : gmap string bool;
  InsertOrReplace : list databaseEvent;
  Delete : list databaseFilterDelete
}.
Definition empty_batch : databaseBatchRequest := MkBatch None ∅ [] [].

(* src: database/query/query.go 94-97 *)
Record databaseRollbackRequest : Type := MkRollback {
  ReplaceableEvents : gmap string bool;
  undo : databaseBatchRequest
}.

(* src: database/query/client.go 22-29 *)
Record dbClient (D : Type) : Type := MkClient {
  db : D;
  rollbackableEvents : gmap string databaseRollbackRequest
}.
Arguments MkClient {D}.
Arguments db {D}.
Arguments rollbackableEvents {D}.

Definition with_Previous (e : Event) (old : Event) : Event :=
  MkEvent (Some old) (ID e) (PubKey e) (CreatedAt e) (Kind e) (EvTags e) (Content e) (Sig e).

Section Requests.
Context {N : Nostr} {G : GoText} {R : RichText} {T : RowText} {C : Crypto}.

(* src: database/query/query.go 310-319 *)
Definition Save (req : databaseBatchRequest) (e : Event) (ephemeralAttestation : bool) : outcome databaseBatchRequest :=
  let! dbEvent := toDatabaseEvent e in
  Ok (MkBatch (EventsHash req) (Rollback req) (InsertOrReplace req ++ [with_attestation dbEvent ephemeralAttestation])
        (Delete req)).

(* src: database/query/query.go 321-336 *)
Definition Remove (req : databaseBatchRequest) (e : Event) : outcome databaseBatchRequest :=
  let f := parseEventAsFilterForDelete e in
  reject (err ErrInvalidRequest) when AccountDelete f && negb (is_nil (Delete req)) ;;
  reject (err ErrInvalidRequest) when match Delete req with g :: _ => AccountDelete g | [] => false end ;;
  Ok (MkBatch (EventsHash req) (Rollback req) (InsertOrReplace req) (Delete req ++ [f])).

(* src: database/query/query.go 338-340 *)
Definition batch_Empty (req : databaseBatchRequest) : bool :=
  is_nil (InsertOrReplace req) && is_nil (Delete req) && bool_decide (Rollback req = ∅).

(* src: database/query/client.go 122-132 *)
Definition hashEvents (events : list Event) : string := sha256_Sum256 (Join (Serialize <$> events) "").

(** *** Attestations sent with a batch *)

(* src: database/query/query.go 50-59 *)
Definition validKindsForEphemeralAttestation : list Z :=
  [CustomIONKindDeviceRegistration; CustomIONKindTokenizedCommunityAction; CustomIONKindTokenizedCommunityDefinition;
   KindFollowList; KindReaction; CustomIONKindPollVote; KindGenericRepost; KindRepost].

(** A reply, a quote or a mention. *)
(* src: database/query/query.go 1503-1518 [eventValidForEphemeralAttestation] *)
Definition refers (tag : Tag) : bool :=
  if Key tag =s? "e" then match tag !! 3%nat with Some m => m =s? TagMarkerReply | None => false end
  else bool_decide (Key tag ∈ ["p"; "a"; "q"; "Q"]) && (Value tag ≠s? "").

(* src: database/query/query.go 1525-1537 [eventValidForEphemeralAttestation] *)
Definition deletes_attestable (e : Event) : bool :=
  let kTag := GetTag e "k" in
  if is_nil kTag then false
  else match Strconv.Atoi (Value kTag) with
       | None => false
       | Some k => bool_decide (k ∈ [CustomIONKindEditableTextNote; KindTextNote; KindArticle; KindFollowList;
                                     KindReaction; KindGenericRepost; KindRepost])
       end.

(** An empty text without rich text is possibly a soft delete. *)
(* src: database/query/query.go 1482-1540 *)
Definition eventValidForEphemeralAttestation (e : Event) : bool :=
  if bool_decide (Kind e ∈ validKindsForEphemeralAttestation) then true
  else if bool_decide (Kind e ∈ [CustomIONKindEditableTextNote; KindTextNote; KindArticle;
                                 CustomIONKindRepostOfTokenizedCommunityDefinition]) then
    if existsb refers (EvTags e) then true
    else if (len (Content e) <? 1)%nat && negb (existsb (fun t => Key t =s? CustomIONTagRichText) (EvTags e)) then
      match ParseTimestamp (Value (GetTag e "published_at")) with
      | Some val => TsAfter (CreatedAt e) val
      | None => false
      end
    else false
  else if Kind e =? KindDeletion then deletes_attestable e
  else false.

Context {E : Env}.

(* src: database/query/query.go 1456-1480 *)
Definition verifyEphemeralAttestation (e : Event) (embeddings : list EphemeralEmbeddingEvent) : outcome bool :=
  let targetMasterKey := GetMasterPublicKey e in
  if targetMasterKey =s? PubKey e then Ok true
  else
    match list_find (fun m => Kind (ContentEvent m) = CustomIONKindAttestation /\ PubKey (ContentEvent m) = targetMasterKey)
            embeddings with
    | None => Ok false
    | Some (_, m) => OnBehalfIsAccessAllowed (EvTags (ContentEvent m)) (PubKey e) (Kind e) (Now now)
    end.

(** *** The order of rows *)

(* src: database/query/query.go 597-606 *)
Definition getPriorityForKind (kind : Z) : Z :=
  if kind =? KindBadgeDefinition then 0 else if kind =? KindBadgeAward then 1 else 2.

(* src: database/query/query.go 608-614 *)
Definition databaseEventsReoder (events : list databaseEvent) : list databaseEvent :=
  Slices.SortStableFunc (fun a b => getPriorityForKind (Kind (REvent a)) <=? getPriorityForKind (Kind (REvent b))) events.

(** *** The statement that stores rows *)

(* src: model/model.go 146 *)
Definition ConsensusReplayCtxKey : string := "replay".

(* src: database/query/query.go 636-666 [saveEvents] *)
Definition save_fields : list string :=
  ["kind"; "created_at"; "id"; "system_id"; "address"; "pubkey"; "master_pubkey"; "gift_receiver_pubkey"; "sig";
   "sig_alg"; "key_alg"; "content"; "lang"; "tags"; "t_tags"; "d_tag"; "h_tag"; "deleted"; "has_images";
   "has_videos"; "is_reply"; "is_root_reply"; "is_quote"; "has_ephemeral_attestation"; "has_references";
   "hidden"; "lookup"; "expiration"; "replaced_by_id"].

(* src: database/query/query.go 686-822 [saveEvents] *)
Definition save_values (isReplay : string) (d : databaseEvent) : list queryBuilderValue :=
  let e := REvent d in
  let c := Columns d in
  [MkValue (AInt (Kind e)) "kind" "integer" "";
   MkValue (AInt (CreatedAt e)) "created_at" "bigint" "";
   MkValue (AString (ID e)) "id" "" "";
   MkValue (AString (SystemID d)) "system_id" "" "";
   MkValue (AString (Address e)) "address" "" "";
   MkValue (AString (PubKey e)) "pubkey" "" "";
   MkValue (AString (MasterPubKey d)) "master_pubkey" "" "";
   MkValue (ANullString (GiftReceiver c)) "gift_receiver_pubkey" "" "";
   MkValue (AString (Sig e)) "sig" "" "";
   MkValue (AString (SigAlg d)) "sig_alg" "" "";
   MkValue (AString (KeyAlg d)) "key_alg" "" "";
   MkValue (AString (Content e)) "content" "" "";
   MkValue (AString (Lang c)) "lang" "" "";
   MkValue (ATags (EvTags e)) "tags" "jsonb" "";
   MkValue (AStrings (Ttags c)) "t_tags" "text[]" "";
   MkValue (AString (Dtag d)) "d_tag" "" "";
   MkValue (AString (Htag d)) "h_tag" "" "";
   MkValue (ABool (Deleted d)) "deleted" "bool" "";
   MkValue (ABool (HasImages c)) "has_images" "bool" "";
   MkValue (ABool (HasVideos c)) "has_videos" "bool" "";
   MkValue (ABool (IsReply c)) "is_reply" "bool" "";
   MkValue (ABool (IsRootReply c)) "is_root_reply" "bool" "";
   MkValue (ABool (IsQuote c)) "is_quote" "bool" "";
   MkValue (ABool (HasEphemeralAttestation d)) "has_ephemeral_attestation" "bool" "";
   MkValue (ABool (HasReferences c)) "has_references" "bool" "";
   MkValue (ABool false) "hidden" "bool" "";
   MkValue (AString (Lookup d)) "lookup" "" "";
   MkValue (ANullInt (Expiration c)) "expiration" "bigint" "";
   MkValue (AString isReplay) "replaced_by_id" "" ""].

(* src: database/query/query.go 825-923 [saveEvents] *)
Definition save_update : string := "),
pre_update_data AS (SELECT t.* FROM source_data sd LEFT JOIN events AS t ON t.address = sd.address),
update_data AS (
	INSERT INTO events (
		id, system_id, kind, created_at,
		pubkey, master_pubkey,
		gift_receiver_pubkey,
		sig, sig_alg, key_alg,
		content, lang,
		tags, t_tags,
		d_tag, h_tag,
		deleted,
		has_images, has_videos,
		is_reply, is_root_reply, is_quote,
		has_ephemeral_attestation,
		has_references,
		hidden,
		lookup,
		expiration
	)
	SELECT
		sd.id, sd.system_id, sd.kind, sd.created_at,
		sd.pubkey, sd.master_pubkey,
		sd.gift_receiver_pubkey,
		sd.sig, sd.sig_alg, sd.key_alg,
		sd.content, sd.lang,
		sd.tags, sd.t_tags,
		sd.d_tag, sd.h_tag,
		sd.deleted,
		sd.has_images, sd.has_videos,
		sd.is_reply, sd.is_root_reply, sd.is_quote,
		sd.has_ephemeral_attestation,
		sd.has_references,
		sd.hidden,
		sd.lookup,
		sd.expiration
	FROM source_data sd
	ON CONFLICT (address) DO UPDATE SET
		id = EXCLUDED.id,
		system_id = EXCLUDED.system_id,
		kind = EXCLUDED.kind,
		created_at = EXCLUDED.created_at,
		pubkey = EXCLUDED.pubkey,
		master_pubkey = EXCLUDED.master_pubkey,
		gift_receiver_pubkey = EXCLUDED.gift_receiver_pubkey,
		sig = EXCLUDED.sig,
		sig_alg = EXCLUDED.sig_alg,
		key_alg = EXCLUDED.key_alg,
		content = EXCLUDED.content,
		lang = EXCLUDED.lang,
		tags = EXCLUDED.tags,
		t_tags = EXCLUDED.t_tags,
		d_tag = EXCLUDED.d_tag,
		h_tag = EXCLUDED.h_tag,
		deleted = EXCLUDED.deleted,
		has_images = EXCLUDED.has_images,
		has_videos = EXCLUDED.has_videos,
		is_reply = EXCLUDED.is_reply,
		is_root_reply = EXCLUDED.is_root_reply,
		is_quote = EXCLUDED.is_quote,
		has_ephemeral_attestation = EXCLUDED.has_ephemeral_attestation,
		has_references = EXCLUDED.has_references,
		hidden = EXCLUDED.hidden,
		lookup = EXCLUDED.lookup,
		expiration = EXCLUDED.expiration
	RETURNING
		kind,
		created_at,
		id,
		pubkey,
		sig,
		content,
		tags,
		CASE 
			WHEN xmax = 0 THEN 'INSERT'
			ELSE 'UPDATE'
		END as savemergeaction
)
SELECT
	*
FROM
	update_data AS ud
UNION ALL
SELECT
	pud.kind,
	pud.created_at,
	pud.id,
	pud.pubkey,
	pud.sig,
	pud.content,
	pud.tags,
	'OLD' as savemergeaction
FROM
	pre_update_data pud
WHERE
	pud.id is not null
".

(* src: database/query/query.go 621-923 [saveEvents] *)
Definition save_statement (replay : bool) (events : list databaseEvent) (replaceableEventsIDs : list string) : B unit :=
  let isReplay := if replay then ConsensusReplayCtxKey else "" in
  PushValue "model" "_consensuskey" (AString ConsensusReplayCtxKey) ;;
  replaceableID ← PushValue "merge" "replaceableID" (AStrings replaceableEventsIDs);
  WriteString ("
WITH replaced AS (
	DELETE FROM replaceable_events_before_update
	WHERE
		replaced_by_id = ANY(:" +:+ replaceableID +:+ ")
	RETURNING ") ;;
  WriteFields save_fields ;;
  WriteString "), source_data (" ;;
  WriteFields save_fields ;;
  WriteString ") AS (SELECT * from replaced " ;;
  (if is_nil events then skip else WriteString "UNION ALL VALUES ") ;;
  for_i 0 events (fun i d =>
    (if (0 <? i)%nat then WriteString ("," +:+ newline) else skip) ;;
    WriteValues ("merge_event" +:+ Strconv.Itoa (Z.of_nat i)) (save_values isReplay d)) ;;
  WriteString save_update.

(** Which failures of the statement are tried again. *)
(* src: database/query/query.go 927-937 [saveEvents] *)
Definition save_retry (e : dbError) : bool :=
  if db_is e ErrExclusionViolation || db_is e ErrSerializationFailure then true
  else match as_duplicate_pointer e with
       | Some constraint => constraint ≠s? "uniq_events_system_id"
       | None => false
       end.

(** What a deleted or stored event is deleted by. *)
(* src: database/query/query.go 510-520 [deleteEventsWithDependencies] *)
Definition deletion_of (e : Event) : databaseFilterDelete :=
  if IsRegular e then MkDelete (PubKey e) [ID e] [] false else MkDelete (PubKey e) [] [Address e] false.

(** *** The events that depend on deleted ones *)

(** All the filters made for the addresses of one deletion share two maps. *)
(* src: database/query/query.go 460-482 [deleteEventsWithDependencies] *)
Definition dependent_filters (f : databaseFilterDelete) : list Filter :=
  let tagged k values := MkFilter None None None None
    (Some (fold_left (fun m v => TagMap_Append m k [Some v]) values ∅)) None None 0 "" in
  if negb (is_nil (DIDs f)) then [tagged "e" (DIDs f)]
  else concat (map (fun _ => [tagged "a" (DAddresses f); tagged "Q" (DAddresses f)]) (DAddresses f)).
End Requests.

Definition tokenization_statement : string := "select exists(select 1 from events e where e.hidden=false and e.master_pubkey = :key and e.kind in (1175, 31175))".
Definition delete_statement (where_ : string) : string := "delete from events as e where " +:+ where_ +:+ " returning
	kind,
	created_at,
	id,
	pubkey,
	sig,
	content,
	tags
".
Definition committed_statement : string := "DELETE from replaceable_events_before_update WHERE replaced_by_id = ANY($1)
RETURNING
	kind,
	created_at,
	id,
	pubkey,
	sig,
	content,
	tags".
Definition expired_statement : string := "
	WITH expired_events AS (
		SELECT
			id
		FROM
			events
		WHERE
			expiration <= :cutoff
			and hidden = false
			and deleted = false
		ORDER BY lookup_created_at ASC
		LIMIT :batch_size
		FOR UPDATE SKIP LOCKED
	)
	DELETE FROM events AS de
		USING expired_events AS ee
	WHERE
		de.id = ee.id
	RETURNING
		de.kind,
		de.created_at,
		de.id,
		de.pubkey,
		de.sig,
		de.content,
		de.tags".

(** ** The client *)

Section Client.
Context {N : Nostr} {G : GoText} {R : RichText} {RT : RowText} {C : Crypto} {E : Env} {T : EventText}.
Context {TM : TagMaps} {U : Unicode} {TK : Tokenizer}.
Context (Unquote : string -> option string) (filters_base64 : list Filter -> string).
Context (relayPrivateKey relayURL : string).
Context {D : Type} (attempts : nat).
(** Statements with named parameters on a replica, and on the master. *)
Context (run_rows : string -> gmap string any -> D -> D * (list databaseEvent * option driverError)).
Context (run_bool : string -> gmap string any -> D -> D * (option bool * option driverError)).
Context (exec_rows : string -> gmap string any -> D -> D * (list databaseEvent * option driverError)).
Context (exec_events : string -> gmap string any -> D -> D * (list Event * option driverError)).
(** A statement whose one parameter is a list of ids. *)
Context (exec_ids : string -> list string -> D -> D * (list Event * option driverError)).
(** The switch of a dead master. *)
Context (switch : D -> D * option dbError).
Context (operationReporter : operationType -> option error -> D -> D).

Abbreviation M := (ST (dbClient D)).
Definition on_db {A} (f : D -> D * A) : M A := fun s =>
  let '(d, a) := f (db s) in (MkClient d (rollbackableEvents s), Ok a).
Definition rollbackable : M (gmap string databaseRollbackRequest) := fun s => (s, Ok (rollbackableEvents s)).
Definition set_rollbackable (m : gmap string databaseRollbackRequest) : M unit := fun s => (MkClient (db s) m, Ok ()).
(** [handleError] of a failed statement, or its rows. *)
Definition rows_or_error {A} (r : A * option dbError) : outcome A :=
  match handleError r.2 with Some x => Err x | None => Ok r.1 end.

(** *** Storing *)

(* src: database/query/query.go 616-941 *)
Definition saveEvents (replay : bool) (events : list databaseEvent) (ids : list string) : M (list databaseEvent * option dbError) :=
  sql ← lift_st (save_statement replay events ids newQueryBuilder);
  on_db (exec_custom attempts save_retry switch (exec_rows (text sql.2) (Params sql.2)) []).

Definition is_old (d : databaseEvent) : bool := SaveMergeAction d =s? "OLD".

(** The ids of the stored events that can be replaced; true for new ones. *)
(* src: database/query/query.go 951-959 [executeSave] *)
Definition replaceable_rows (rows : list databaseEvent) : gmap string bool :=
  fold_left (fun m d =>
    if is_old d then m
    else if IsReplaceable (REvent d) || IsAddressable (REvent d)
    then <[ID (REvent d) := (SaveMergeAction d =s? "INSERT")]> m else m) rows ∅.

(* src: database/query/query.go 952-955 [executeSave] *)
Definition old_rows (rows : list databaseEvent) : gmap string Event :=
  fold_left (fun m d => if is_old d then <[Address (REvent d) := REvent d]> m else m) rows ∅.

(* src: database/query/query.go 960-965 [executeSave] *)
Definition set_previous (old : gmap string Event) (d : databaseEvent) : databaseEvent :=
  match old !! Address (REvent d) with Some e => with_event d (with_Previous (REvent d) e) | None => d end.

(** [slices.DeleteFunc] with a predicate that strikes new events off the map. *)
(* src: database/query/query.go 966-978 [executeSave] *)
Fixpoint keepOnlyInsertedEvents (replaceable : gmap string bool) (rows : list databaseEvent) :
    list databaseEvent * gmap string bool :=
  match rows with
  | [] => ([], replaceable)
  | d :: rows =>
      match replaceable !! ID (REvent d) with
      | Some false => keepOnlyInsertedEvents replaceable rows
      | Some true => let '(l, m) := keepOnlyInsertedEvents (delete (ID (REvent d)) replaceable) rows in (d :: l, m)
      | None => let '(l, m) := keepOnlyInsertedEvents replaceable rows in (d :: l, m)
      end
  end.

(** The rows the statement returned, the error, and what executeSave makes of
    them: the updated events, and the deletions that undo the rest. *)
(* src: database/query/query.go 951-998 [executeSave] *)
Definition saved (replay : bool) (req : databaseBatchRequest) (rows : list databaseEvent) (sErr : option error) :
    gmap string bool * list databaseFilterDelete * option error :=
  let replaceable := replaceable_rows rows in
  let old := old_rows rows in
  let '(rows, replaceable) :=
    if bool_decide (replaceable = ∅) then (rows, replaceable) else keepOnlyInsertedEvents replaceable rows in
  let sErr := match sErr with
              | Some x => Some x
              | None => if zlen rows + Z.of_nat (size replaceable) <? Z.of_nat (size (Rollback req))
                        then Some (err ErrUnexpectedRowsAffected) else None
              end in
  let inserted :=
    if bool_decide (sErr = None) && bool_decide (is_Some (EventsHash req)) && (0 <? zlen rows - Z.of_nat (size old))
    then (fun d => deletion_of (REvent d)) <$> rows else [] in
  (if replay then ∅ else replaceable, inserted, sErr).

(** The rows of the request are sorted in place and told their previous
    versions. *)
(* src: database/query/query.go 943-999 *)
Definition executeSave (replay : bool) (req : databaseBatchRequest) :
    M (databaseBatchRequest * gmap string bool * list databaseFilterDelete * option error) :=
  if is_nil (InsertOrReplace req) && bool_decide (Rollback req = ∅) then mret (req, ∅, [], None)
  else
    let events := databaseEventsReoder (InsertOrReplace req) in
    r ← saveEvents replay events (range_set (dom (Rollback req)));
    let sErr := handleError r.2 in
    let rows := r.1 in
    let req := MkBatch (EventsHash req) (Rollback req) (set_previous (old_rows rows) <$> events) (Delete req) in
    let '(replaceable, inserted, sErr) := saved replay req rows sErr in
    mret (req, replaceable, inserted, sErr).

(** *** Deleting *)

(* src: database/query/query.go 443-457 [deleteEventsWithDependencies] *)
Definition check_tokenization (filters : list databaseFilterDelete) : M unit :=
  match filters with
  | [f] =>
      if AccountDelete f && (DAuthor f ≠s? "") then
        r ← on_db (read_retried attempts (run_bool tokenization_statement {["key" := AString (DAuthor f)]}) None);
        match r with
        | (_, Some x) => lift_st (Err (sentinels x))
        | (Some true, None) => lift_st (Err (err ErrForbidden))
        | _ => mret ()
        end
      else mret ()
  | _ => mret ()
  end.

(* src: database/query/query.go 441-490 [deleteEventsWithDependencies] *)
Definition delete_where (doAccessCheck : bool) (filters : list databaseFilterDelete) : M queryBuilder :=
  if doAccessCheck then
    check_tokenization filters ;;
    r ← lift_st (BuildForDelete filters newQueryBuilder); mret r.2
  else
    let genericFilters := concat (map dependent_filters filters) in
    if is_nil genericFilters then lift_st Panic
    else r ← lift_st (BuildSingleWhere Unquote genericFilters newQueryBuilder); mret r.2.

(* src: database/query/query.go 435-523 *)
Definition deleteEventsWithDependencies (doAccessCheck : bool) (filters : list databaseFilterDelete) :
    M (list Event * list databaseFilterDelete) :=
  w ← delete_where doAccessCheck filters;
  r ← on_db (exec_retried attempts switch (exec_events (delete_statement (text w)) (Params w)) []);
  deleted ← lift_st (rows_or_error r);
  mret (deleted, deletion_of <$> deleted).

(** [eventsToRollback.Save] of every deleted event, when the batch is kept. *)
(* src: database/query/query.go 568-574 [deleteEvents] *)
Definition save_deleted (keep : bool) (roll : databaseRollbackRequest) (deleted : list Event) :
    outcome databaseRollbackRequest :=
  if keep then
    let! b := for_state deleted (undo roll) (fun b e => Save b e false) in Ok (MkRollback (ReplaceableEvents roll) b)
  else Ok roll.

(** The batches of one round: an error ends the round and is forgotten, as the
    variable it is assigned to is that of the inner scope. *)
(* src: database/query/query.go 576-589 [deleteEvents] *)
Fixpoint delete_batches (keep : bool) (batches : list (list databaseFilterDelete)) (roll : databaseRollbackRequest)
    (dependencies : list databaseFilterDelete) : M (databaseRollbackRequest * list databaseFilterDelete) :=
  match batches with
  | [] => mret (roll, dependencies)
  | batch :: batches =>
      r ← attempt_st (deleteEventsWithDependencies false batch);
      match r with
      | inr _ => mret (roll, dependencies)
      | inl (deleted, deps) =>
          roll ← lift_st (save_deleted keep roll deleted);
          delete_batches keep batches roll (dependencies ++ deps)
      end
  end.

(** Rounds until nothing depends on what was deleted. *)
(* src: database/query/query.go 575-592 [deleteEvents] *)
Fixpoint delete_rounds (fuel : nat) (keep : bool) (filtersToDelete : list databaseFilterDelete) (roll : databaseRollbackRequest) :
    M databaseRollbackRequest :=
  match filtersToDelete with
  | [] => mret roll
  | _ =>
      match fuel with
      | O => lift_st OutOfFuel
      | S fuel =>
          batches ← lift_st (SplitBatch (S (length filtersToDelete)) filtersToDelete 100 []);
          r ← delete_batches keep batches roll [];
          delete_rounds fuel keep r.2 r.1
      end
  end.

(* src: database/query/query.go 563-595 *)
Definition deleteEvents (fuel : nat) (req : databaseBatchRequest) (roll : databaseRollbackRequest) : M databaseRollbackRequest :=
  r ← deleteEventsWithDependencies true (Delete req);
  let keep := bool_decide (is_Some (EventsHash req)) in
  roll ← lift_st (save_deleted keep roll r.1);
  delete_rounds fuel keep r.2 roll.

(** *** Batches *)

Definition no_rollback : databaseRollbackRequest := MkRollback ∅ empty_batch.
Definition add_deletes (roll : databaseRollbackRequest) (l : list databaseFilterDelete) : databaseRollbackRequest :=
  let b := undo roll in
  MkRollback (ReplaceableEvents roll) (MkBatch (EventsHash b) (Rollback b) (InsertOrReplace b) (Delete b ++ l)).
Definition join_errors (a b : option error) : option error :=
  match a, b with
  | None, e => e
  | e, None => e
  | Some a, Some b => Some (join_error a b)
  end.

(** Deletions of a request, their error as a value. *)
(* src: database/query/query.go 1011-1015 [executeBatch] *)
Definition run_deletes (fuel : nat) (req : databaseBatchRequest) (roll : databaseRollbackRequest) :
    M (databaseRollbackRequest * option error) :=
  if is_nil (Delete req) then mret (roll, None)
  else
    r ← attempt_st (deleteEvents fuel req roll);
    mret match r with inl roll => (roll, None) | inr x => (roll, Some x) end.

(** A batch of a client is stored before its deletions are executed, a rollback
    deletes first. *)
(* src: database/query/query.go 1005-1026 [executeBatch] *)
Definition run_batch (fuel : nat) (replay : bool) (req : databaseBatchRequest) :
    M (databaseBatchRequest * databaseRollbackRequest * option error) :=
  match EventsHash req with
  | Some _ =>
      s ← executeSave replay req;
      let '(req, replaced, toRollbackDeleteOp, sErr) := s in
      let roll := add_deletes (MkRollback replaced empty_batch) toRollbackDeleteOp in
      d ← run_deletes fuel req roll;
      mret (req, d.1, join_errors sErr d.2)
  | None =>
      d ← run_deletes fuel req no_rollback;
      s ← executeSave replay req;
      let '(req, _, toRollbackDeleteOp, sErr) := s in
      mret (req, add_deletes d.1 toRollbackDeleteOp, join_errors d.2 sErr)
  end.

Definition rollback_Empty (roll : databaseRollbackRequest) : bool :=
  batch_Empty (undo roll) && bool_decide (ReplaceableEvents roll = ∅).

(** The events are returned with their previous versions. *)
(* src: database/query/query.go 1001-1031 *)
Definition executeBatch (fuel : nat) (replay : bool) (req : databaseBatchRequest) : M databaseBatchRequest :=
  if batch_Empty req then mret req
  else
    r ← run_batch fuel replay req;
    let '(req, roll, e) := r in
    (if bool_decide (e = None) && negb (rollback_Empty roll) then
       match EventsHash req with
       | Some hash => m ← rollbackable; set_rollbackable (<[hash := roll]> m)
       | None => lift_st Panic
       end
     else mret ()) ;;
    on_db (fun d => (operationReporter operationTypeWrite e d, ())) ;;
    match e with Some x => lift_st (Err x) | None => mret req end.

(** *** Accepting, committing, rolling back *)

(* src: database/query/query.go 1444-1451 [prepareCommunityDeleteFilters] *)
Fixpoint collect_deletes (items : list (option Event * option error)) (r : outcome unit) (filters : list databaseFilterDelete) :
    outcome (list databaseFilterDelete) :=
  match items with
  | [] => let! _ := r in Ok filters
  | (_, Some x) :: _ => Err x
  | (ev, None) :: items =>
      let! ev := deref ev in
      collect_deletes items r (filters ++ [MkDelete (GetMasterPublicKey ev) [ID ev] [] false])
  end.

(* src: database/query/query.go 1430-1454 *)
Definition prepareCommunityDeleteFilters (incomingEvent : Event) : M (list databaseFilterDelete) :=
  let ids := Value <$> GetTags incomingEvent "e" in
  if is_nil ids then mret []
  else
    let f := MkFilter (Some ids) None None None (Some (TagMap_Set ∅ CustomIONTagCommunity [])) None None 0 "" in
    r ← on_db (SelectEvents relayPrivateKey relayURL Unquote filters_base64 attempts run_rows operationReporter [f]);
    lift_st (collect_deletes r.1 r.2 []).

(* src: database/query/query.go 368-369 [AcceptEvents] *)
Definition attested_by_batch (embs : gmap string (list EphemeralEmbeddingEvent)) (e : Event) : option (list EphemeralEmbeddingEvent) :=
  match embs !! Address e with
  | Some l => if eventValidForEphemeralAttestation e then Some l else None
  | None => None
  end.

(** One event of the batch. *)
(* src: database/query/query.go 350-389 [AcceptEvents] *)
Definition accept_event (embs : gmap string (list EphemeralEmbeddingEvent)) (req : databaseBatchRequest) (e : Event) : M databaseBatchRequest :=
  if IsEphemeral e || IsJobRequest e || IsJobResponse e || (Kind e =? KindJobFeedback) then mret req
  else if Kind e =? KindDeletion then
    communityFilters ← prepareCommunityDeleteFilters e;
    if negb (is_nil communityFilters) then
      mret (MkBatch (EventsHash req) (Rollback req) (InsertOrReplace req) (Delete req ++ communityFilters))
    else
      match attested_by_batch embs e with
      | Some l =>
          allowed ← lift_st (verifyEphemeralAttestation e l);
          if negb allowed then lift_st (Err (err ErrOnBehalfAccessDenied)) else lift_st (Remove req e)
      | None => lift_st (Remove req e)
      end
  else
    allowed ← match attested_by_batch embs e with
              | Some l => lift_st (verifyEphemeralAttestation e l)
              | None => mret false
              end;
    lift_st (Save req e allowed).

Fixpoint accept_all (embs : gmap string (list EphemeralEmbeddingEvent)) (req : databaseBatchRequest) (events : list Event) : M databaseBatchRequest :=
  match events with
  | [] => mret req
  | e :: events => req ← accept_event embs req e; accept_all embs req events
  end.

(* src: database/query/query.go 342-392 *)
Definition AcceptEvents (fuel : nat) (replay : bool) (events : list Event) : M databaseBatchRequest :=
  embs ← lift_st (ParseEphemeralEmbeddingEvents events);
  req ← accept_all embs (MkBatch (Some (hashEvents events)) ∅ [] []) events;
  executeBatch fuel replay req.

(** The events come back with the versions they replaced. *)
(* src: database/query/query.go 550-559 [deleteCommittedReplaceableEvents] *)
Definition set_replaced (deleted : list Event) (events : list Event) : list Event :=
  let oldEvents := fold_left (fun m e => <[Address e := e]> m) deleted (∅ : gmap string Event) in
  (fun e => match oldEvents !! Address e with Some old => with_Previous e old | None => e end) <$> events.

(* src: database/query/query.go 525-561 *)
Definition deleteCommittedReplaceableEvents (replaceable : gmap string bool) (events : list Event) : M (list Event) :=
  if bool_decide (replaceable = ∅) then mret events
  else
    r ← on_db (exec_retried attempts switch (exec_ids committed_statement (range_set (dom replaceable))) []);
    deleted ← lift_st (rows_or_error r);
    if negb (length deleted =? size replaceable)%nat then lift_st (Err (err ErrUnexpectedRowsAffected))
    else mret (set_replaced deleted events).

(* src: database/query/query.go 394-408 *)
Definition CommitEvents (replay : bool) (events : list Event) : M (list Event) :=
  let hash := hashEvents events in
  m ← rollbackable;
  match m !! hash with
  | None => mret events
  | Some roll =>
      set_rollbackable (delete hash m) ;;
      if replay then mret events
      else deleteCommittedReplaceableEvents (ReplaceableEvents roll) events
  end.

(* src: database/query/query.go 410-424 *)
Definition RollbackEvents (fuel : nat) (replay : bool) (events : list Event) : M unit :=
  m ← rollbackable;
  match m !! hashEvents events with
  | None => mret ()
  | Some roll =>
      executeBatch fuel replay
        (MkBatch None (ReplaceableEvents roll) (InsertOrReplace (undo roll)) (Delete (undo roll))) ;; mret ()
  end.

(** *** Expired events *)

(** The callback that is told of expired events; its error is only logged. *)
Context (notifyExpiredEvents : option (list Event -> D -> D)).
Context (ctx_done : D -> bool).

(* src: database/query/query.go 1370-1370 [deleteExpiredEvents] *)
Definition expired_batch : nat := 100.

(** The waits between the rounds are left out; a cancelled context ends them
    without an error. *)
(* src: database/query/query.go 1403-1425 [deleteExpiredEvents] *)
Fixpoint expire_rounds (fuel : nat) (params : gmap string any) : M unit :=
  match fuel with
  | O => lift_st OutOfFuel
  | S fuel =>
      stop ← on_db (fun d => (d, ctx_done d));
      if (stop : bool) then mret ()
      else
        r ← on_db (exec_retried attempts switch (exec_events expired_statement params) []);
        events ← lift_st (rows_or_error r);
        on_db (fun d => (match notifyExpiredEvents with Some f => f events d | None => d end, ())) ;;
        stop ← on_db (fun d => (d, ctx_done d));
        if (length events <? expired_batch)%nat || (stop : bool) then mret ()
        else expire_rounds fuel params
  end.

(* src: database/query/query.go 1369-1428 *)
Definition deleteExpiredEvents (fuel : nat) : M unit :=
  expire_rounds fuel {["batch_size" := AInt (Z.of_nat expired_batch); "cutoff" := AInt now]}.
End Client.
