(* ===== verification/Rollback.v ===== *)
(** * What is undone when a batch is refused by the other relays

    Theorems about src/database/query/query.go (file Store): what storing a batch
    records, what committing and rolling back do to the record, which deletions
    undo a stored batch, and that the deletions of dependent events end. *)

From S2P Require Import Prelude GoStd Nostr Model OnBehalf Filters Content Validator QueryFilter QueryBuilder QuerySafety QueryDelete Connector Rows Status Selection Store.
Import Strings.

(** ** The deletions that undo a batch *)

Section Undo.
Context {N : Nostr}.

(** A row of a new version of a replaceable or addressable event. *)
Definition replaces (d : databaseEvent) : bool :=
  negb (is_old d) && (IsReplaceable (REvent d) || IsAddressable (REvent d)) && (SaveMergeAction d ≠s? "INSERT").
Definition row_id (d : databaseEvent) : string := ID (REvent d).
Definition replaced_ids (rows : list databaseEvent) : list string := row_id <$> filter (fun d => replaces d = true) rows.
(** The rows that are left without the new versions. *)
Definition kept_rows (rows : list databaseEvent) : list databaseEvent :=
  filter (fun d => row_id d ∉ replaced_ids rows) rows.
(** Each id is stored once. *)
Definition stored_once (rows : list databaseEvent) : Prop := NoDup (row_id <$> filter (fun d => is_old d = false) rows).

(** What the map of replaceable rows is filled with. *)
Definition replaceable_entry (d : databaseEvent) : option (string * bool) :=
  if is_old d then None
  else if IsReplaceable (REvent d) || IsAddressable (REvent d) then Some (row_id d, SaveMergeAction d =s? "INSERT") else None.

Lemma keepOnly_spec rows : forall m,
  keepOnlyInsertedEvents m rows =
    (filter (fun d => m !! row_id d ≠ Some false) rows,
     filter (fun p => p.2 = true -> p.1 ∉ row_id <$> rows) m).
Proof.
  induction rows as [|d rows IH]; intros m; cbn [keepOnlyInsertedEvents fmap list_fmap].
  - f_equal. symmetry. apply map_filter_id. intros i x _ _. apply not_elem_of_nil.
  - unfold row_id in *. destruct (m !! ID (REvent d)) as [[]|] eqn:E; rewrite IH; rewrite filter_cons.
    + rewrite decide_True by (rewrite E; congruence). f_equal; [f_equal|].
      * apply list_filter_iff. intros x. destruct (decide (ID (REvent x) = ID (REvent d))) as [->|H];
          [by rewrite lookup_delete_eq, E|by rewrite lookup_delete_ne].
      * apply map_eq. intros i. apply option_eq. intros b. rewrite !map_lookup_filter_Some. cbn.
        rewrite lookup_delete_Some, not_elem_of_cons. split; [intros ((Hi & Hm) & H)|intros (Hm & H)].
        -- split; [done|]. intros ->. split; [done|]. by apply H.
        -- destruct b; [|split; [split; [congruence|done]|done]]. destruct (H eq_refl). by split; [split; [congruence|]|].
    + rewrite decide_False by (rewrite E; naive_solver). f_equal.
      apply map_filter_ext. intros i b Hb. cbn. rewrite not_elem_of_cons. split; [|naive_solver].
      intros H ->. split; [congruence|]. by apply H.
    + rewrite decide_True by (rewrite E; congruence). f_equal.
      apply map_filter_ext. intros i b Hb. cbn. rewrite not_elem_of_cons. split; [|naive_solver].
      intros H ->. split; [congruence|]. by apply H.
Qed.

Lemma replaceable_rows_entries rows (m : gmap string bool) :
  fold_left (fun m d => if is_old d then m
      else if IsReplaceable (REvent d) || IsAddressable (REvent d)
      then <[ID (REvent d) := (SaveMergeAction d =s? "INSERT")]> m else m) rows m =
  (list_to_map (rev (omap replaceable_entry rows)) : gmap string bool) ∪ m.
Proof.
  revert m. induction rows as [|d rows IH]; intros m; cbn [fold_left omap list_omap]; [cbn; by rewrite map_empty_union|].
  rewrite IH. unfold replaceable_entry at 2, row_id. destruct (is_old d); [done|].
  destruct (_ || _); [|done]. cbn [rev]. rewrite list_to_map_app, <- map_union_assoc. cbn.
  by rewrite insert_union_singleton_l.
Qed.

Lemma entries_ids rows : (omap replaceable_entry rows).*1 `sublist_of` (row_id <$> filter (fun d => is_old d = false) rows).
Proof.
  induction rows as [|d rows IH]; cbn [omap list_omap]; [done|]. rewrite filter_cons. unfold replaceable_entry at 1.
  destruct (is_old d); [by rewrite decide_False|]. rewrite decide_True by done.
  destruct (_ || _); cbn; [by apply sublist_skip|by apply sublist_cons].
Qed.

Lemma replaceable_rows_Some rows id b : stored_once rows ->
  replaceable_rows rows !! id = Some b <-> (id, b) ∈ omap replaceable_entry rows.
Proof.
  intros Hn. unfold replaceable_rows. rewrite replaceable_rows_entries, map_union_empty.
  rewrite <- elem_of_list_to_map; [by rewrite !list_elem_of_In, <- in_rev|].
  rewrite <- Permutation_rev. eapply sublist_NoDup; [exact Hn|apply entries_ids].
Qed.

Lemma replaceable_rows_false rows id : stored_once rows ->
  replaceable_rows rows !! id = Some false <-> id ∈ replaced_ids rows.
Proof.
  intros Hn. rewrite replaceable_rows_Some, list_elem_of_omap by done. unfold replaced_ids. rewrite list_elem_of_fmap.
  unfold replaceable_entry. split.
  - intros (d & Hd & He). exists d. rewrite list_elem_of_filter. unfold replaces.
    destruct (is_old d); [done|]. destruct (_ || _); [|done]. injection He as <- ->. done.
  - intros (d & -> & [Hr Hd]%list_elem_of_filter). exists d. split; [done|]. revert Hr. unfold replaces.
    destruct (is_old d); [done|]. destruct (_ || _); [|done]. cbn. by intros ->%negb_true_iff.
Qed.

Lemma kept_rows_spec rows : stored_once rows ->
  keepOnlyInsertedEvents (replaceable_rows rows) rows =
    (kept_rows rows, filter (fun p => p.2 = false) (replaceable_rows rows)).
Proof.
  intros Hn. rewrite keepOnly_spec. f_equal.
  - apply list_filter_iff. intros d. by rewrite (replaceable_rows_false rows (row_id d) Hn).
  - apply map_filter_ext. intros id b Hb%replaceable_rows_Some; [|done]. cbn. destruct b; [|naive_solver].
    split; [|done]. intros H. destruct (H eq_refl). apply list_elem_of_omap in Hb as (d & Hd & He).
    revert He. unfold replaceable_entry. destruct (is_old d); [done|]. destruct (_ || _); [|done].
    intros [= <- _]. apply list_elem_of_fmap. eauto.
Qed.

Lemma replaced_dom rows : stored_once rows ->
  dom (filter (fun p => p.2 = false) (replaceable_rows rows)) = list_to_set (C := gset string) (replaced_ids rows).
Proof.
  intros Hn. apply leibniz_equiv. intros id. rewrite elem_of_dom, elem_of_list_to_set, <- (replaceable_rows_false rows id Hn).
  split.
  - intros [b [Hb Hf]%map_lookup_filter_Some]. cbn in Hf. by subst b.
  - intros H. exists false. by apply map_lookup_filter_Some.
Qed.

Lemma replaces_new d : replaces d = true -> is_old d = false.
Proof. unfold replaces. by destruct (is_old d). Qed.

Lemma replaced_NoDup rows : stored_once rows -> NoDup (replaced_ids rows).
Proof.
  intros Hn. eapply sublist_NoDup; [exact Hn|]. unfold replaced_ids. induction rows as [|d rows IH]; [done|].
  rewrite !filter_cons.
  assert (Hn' : stored_once rows).
  { revert Hn. unfold stored_once. rewrite filter_cons. destruct (decide _); [|done]. by intros [_ ?]%NoDup_cons. }
  specialize (IH Hn'). destruct (decide (replaces d = true)) as [Hr|_].
  - rewrite decide_True by by apply replaces_new. by apply sublist_skip.
  - case_decide; [by apply sublist_cons|done].
Qed.

Lemma no_rows_replaced rows : stored_once rows -> replaceable_rows rows = ∅ -> replaced_ids rows = [].
Proof.
  intros Hn He. apply elem_of_nil_inv. intros id. rewrite <- replaceable_rows_false, He by done. by rewrite lookup_empty.
Qed.

(** [saved], with the rows that are left in place of the computation. *)
Lemma saved_spec replay req rows : stored_once rows ->
  exists replaceable, dom replaceable = list_to_set (C := gset string) (replaced_ids rows) /\
    saved replay req rows None =
      (let ok := zlen (kept_rows rows) + zlen (replaced_ids rows) <? Z.of_nat (size (Rollback req)) in
       (if replay then ∅ else replaceable,
        if negb ok && bool_decide (is_Some (EventsHash req)) && (0 <? zlen (kept_rows rows) - Z.of_nat (size (old_rows rows)))
        then (fun d => deletion_of (REvent d)) <$> kept_rows rows else [],
        if ok then Some (err ErrUnexpectedRowsAffected) else None)).
Proof.
  intros Hn. exists (filter (fun p => p.2 = false) (replaceable_rows rows)). split; [by apply replaced_dom|].
  assert (Hs : size (filter (fun p => p.2 = false) (replaceable_rows rows)) = length (replaced_ids rows)).
  { by rewrite <- (size_dom (D := gset string)), replaced_dom, size_list_to_set by (try done; by apply replaced_NoDup). }
  unfold saved. case_bool_decide as He.
  - rewrite He in Hs |- *. assert (Hk : kept_rows rows = rows).
    { unfold kept_rows. rewrite no_rows_replaced by done. clear. induction rows as [|d rows IH]; [done|].
      rewrite filter_cons_True by apply not_elem_of_nil. by rewrite IH. }
    rewrite Hk, map_filter_empty, (no_rows_replaced rows Hn He). change (Z.of_nat (size ∅)) with (zlen (@nil string)).
    by destruct (_ <? Z.of_nat (size (Rollback req))).
  - rewrite kept_rows_spec by done. rewrite Hs. by destruct (_ <? Z.of_nat (size (Rollback req))).
Qed.

(** A stored batch is undone by putting back the versions it replaced and,
    only when more rows are left than previous versions were found, by deleting
    every row that is left: the new ones, the regular ones that were stored again
    and the previous versions alike. *)
Lemma saved_undo replay req rows hash replaceable undo :
  stored_once rows -> EventsHash req = Some hash -> saved replay req rows None = (replaceable, undo, None) ->
  dom replaceable = (if replay then ∅ else list_to_set (replaced_ids rows)) /\
  undo = if 0 <? zlen (kept_rows rows) - Z.of_nat (size (old_rows rows))
         then (fun d => deletion_of (REvent d)) <$> kept_rows rows else [].
Proof.
  intros Hn Hh Hs. destruct (saved_spec replay req rows Hn) as (m & Hm & He). rewrite Hs in He. cbv zeta in He.
  destruct (_ <? Z.of_nat (size (Rollback req))); [done|]. injection He as -> ->. split.
  - destruct replay; [apply dom_empty_L|done].
  - rewrite Hh. rewrite (bool_decide_eq_true_2 (is_Some (Some hash))) by eauto. done.
Qed.
End Undo.

(** ** The record of stored batches *)

Create HintDb quiet.

Section Record.
Context {N : Nostr} {G : GoText} {R : RichText} {RT : RowText} {C : Crypto} {E : Env} {T : EventText}.
Context {TM : TagMaps} {U : Unicode} {TK : Tokenizer}.
Context (Unquote : string -> option string) (filters_base64 : list Filter -> string).
Context (relayPrivateKey relayURL : string).
Context {D : Type} (attempts : nat).
Context (run_rows : string -> gmap string any -> D -> D * (list databaseEvent * option driverError)).
Context (run_bool : string -> gmap string any -> D -> D * (option bool * option driverError)).
Context (exec_rows : string -> gmap string any -> D -> D * (list databaseEvent * option driverError)).
Context (exec_events : string -> gmap string any -> D -> D * (list Event * option driverError)).
Context (exec_ids : string -> list string -> D -> D * (list Event * option driverError)).
Context (switch : D -> D * option dbError).
Context (operationReporter : operationType -> option error -> D -> D).

Abbreviation M := (ST (dbClient D)).
Abbreviation execute := (executeBatch Unquote attempts run_bool exec_rows exec_events switch operationReporter).
Abbreviation accept := (AcceptEvents Unquote filters_base64 relayPrivateKey relayURL attempts run_rows run_bool exec_rows exec_events switch operationReporter).
Abbreviation commit := (CommitEvents attempts exec_ids switch).
Abbreviation rollback := (RollbackEvents Unquote attempts run_bool exec_rows exec_events switch operationReporter).

(** The record of stored batches is left as it is. *)
Definition quiet {A} (m : M A) : Prop := forall s, rollbackableEvents (m s).1 = rollbackableEvents s.

Lemma quiet_ret {A} (a : A) : quiet (mret a).
Proof. done. Qed.
Lemma quiet_lift {A} (m : outcome A) : quiet (lift_st m).
Proof. done. Qed.
Lemma quiet_on_db {A} (f : D -> D * A) : quiet (on_db f).
Proof. intros s. unfold on_db. by destruct (f (db s)). Qed.
Lemma quiet_bind {A B} (m : M A) (f : A -> M B) : quiet m -> (forall a, quiet (f a)) -> quiet (mbind f m).
Proof.
  intros Hm Hf s. specialize (Hm s). unfold mbind, ST_bind. destruct (m s) as [s1 [a| | |]]; cbn in *; try done.
  by rewrite Hf.
Qed.
Lemma quiet_attempt {A} (m : M A) : quiet m -> quiet (attempt_st m).
Proof. intros Hm s. specialize (Hm s). unfold attempt_st. by destruct (m s) as [s1 [a| | |]]. Qed.
#[local] Hint Resolve quiet_ret quiet_lift quiet_on_db quiet_bind quiet_attempt : quiet.
#[local] Hint Extern 2 (quiet (match ?x with _ => _ end)) => destruct x : quiet.
#[local] Hint Extern 2 (quiet (let '(_, _) := ?x in _)) => destruct x : quiet.

Lemma quiet_deleteEventsWithDependencies b filters :
  quiet (deleteEventsWithDependencies Unquote attempts run_bool exec_events switch b filters).
Proof.
  unfold deleteEventsWithDependencies, delete_where, check_tokenization.
  repeat first [apply quiet_bind; [|intros ?]|progress auto 2 with quiet|case_match].
Qed.
#[local] Hint Resolve quiet_deleteEventsWithDependencies : quiet.

Lemma quiet_delete_batches keep batches roll deps :
  quiet (delete_batches Unquote attempts run_bool exec_events switch keep batches roll deps).
Proof.
  revert roll deps. induction batches as [|b batches IH]; intros roll deps; cbn [delete_batches]; [done|].
  apply quiet_bind; [auto with quiet|intros [[]|]]; [|done]. apply quiet_bind; auto with quiet.
Qed.

Lemma quiet_delete_rounds fuel keep filters roll :
  quiet (delete_rounds Unquote attempts run_bool exec_events switch fuel keep filters roll).
Proof.
  revert filters roll. induction fuel as [|fuel IH]; intros [|f filters] roll; cbn [delete_rounds]; try done.
  apply quiet_bind; [done|intros batches]. apply quiet_bind; [apply quiet_delete_batches|auto].
Qed.
#[local] Hint Resolve quiet_delete_rounds : quiet.

Lemma quiet_run_deletes fuel req roll : quiet (run_deletes Unquote attempts run_bool exec_events switch fuel req roll).
Proof.
  unfold run_deletes, deleteEvents. case_match; [done|]. apply quiet_bind; [|auto with quiet].
  apply quiet_attempt. apply quiet_bind; [auto with quiet|intros r]. apply quiet_bind; auto with quiet.
Qed.

Lemma quiet_executeSave replay req : quiet (executeSave attempts exec_rows switch replay req).
Proof.
  unfold executeSave, saveEvents. case_match; [done|]. apply quiet_bind; [apply quiet_bind; auto with quiet|].
  intros r. by destruct (saved _ _ _ _) as [[]].
Qed.

Lemma quiet_run_batch fuel replay req :
  quiet (run_batch Unquote attempts run_bool exec_rows exec_events switch fuel replay req).
Proof.
  unfold run_batch. case_match; (apply quiet_bind; [first [apply quiet_executeSave|apply quiet_run_deletes]|]).
  - intros [[[req' replaced] l] e]. apply quiet_bind; [apply quiet_run_deletes|done].
  - intros d. apply quiet_bind; [apply quiet_executeSave|]. by intros [[[]]].
Qed.

(** *** Undoing *)

(** Deletions without a hash do not record what they delete. *)
Lemma delete_batches_without batches roll deps s s' r :
  delete_batches Unquote attempts run_bool exec_events switch false batches roll deps s = (s', Ok r) -> r.1 = roll.
Proof.
  revert deps s. induction batches as [|b batches IH]; intros deps s; cbn [delete_batches]; [by intros [= <- <-]|].
  intros (s1 & x & _ & Hx)%bind_st_Ok. destruct x as [[deleted l]|]; [|by injection Hx as <- <-].
  cbn in Hx. by apply IH in Hx.
Qed.

Lemma delete_rounds_without fuel filters roll s s' roll' :
  delete_rounds Unquote attempts run_bool exec_events switch fuel false filters roll s = (s', Ok roll') -> roll' = roll.
Proof.
  revert filters roll s. induction fuel as [|fuel IH]; intros [|f filters] roll s; cbn [delete_rounds]; try (by intros [= <- <-]).
  intros (s1 & batches & _ & (s2 & r & Hr%delete_batches_without & Hs)%bind_st_Ok)%bind_st_Ok.
  apply IH in Hs. by subst.
Qed.

Lemma run_deletes_without fuel req roll s s' d : EventsHash req = None ->
  run_deletes Unquote attempts run_bool exec_events switch fuel req roll s = (s', Ok d) -> d.1 = roll.
Proof.
  intros Hn. unfold run_deletes. case_match; [by intros [= <- <-]|].
  intros (s1 & r & Hr%attempt_st_Ok & [= <- <-])%bind_st_Ok. destruct r as [roll'|]; [|done]. cbn.
  revert Hr. unfold deleteEvents. rewrite Hn. cbn [bool_decide]. rewrite bool_decide_eq_false_2 by (by intros [? ?]).
  intros (s2 & del & _ & Hd)%bind_st_Ok. cbn in Hd. by apply delete_rounds_without in Hd.
Qed.

Lemma executeSave_hash replay req s s' r :
  executeSave attempts exec_rows switch replay req s = (s', Ok r) ->
  EventsHash r.1.1.1 = EventsHash req /\ (EventsHash req = None -> r.1.2 = []).
Proof.
  unfold executeSave. case_match; [by intros [= <- <-]|].
  intros (s1 & x & _ & Hx)%bind_st_Ok. cbv zeta in Hx. destruct (saved _ _ _ _) as [[m l] e] eqn:Hs.
  injection Hx as <- <-. split; [done|]. cbn. intros Hn. revert Hs. unfold saved.
  destruct (if bool_decide (_ = ∅) then _ else _). cbn [EventsHash]. rewrite Hn.
  rewrite (bool_decide_eq_false_2 (is_Some None)) by (by intros [? ?]). rewrite andb_false_r. by intros [= _ <- _].
Qed.

(** An undoing batch has no hash: it does not record anything, and nothing is
    left to undo. *)
Lemma run_batch_hash fuel replay req s s' req' roll e :
  run_batch Unquote attempts run_bool exec_rows exec_events switch fuel replay req s = (s', Ok (req', roll, e)) ->
  EventsHash req' = EventsHash req /\ (EventsHash req = None -> rollback_Empty roll = true).
Proof.
  unfold run_batch. destruct (EventsHash req) as [h|] eqn:Hn.
  - intros (s1 & [[[req1 m] l] se] & Hx%executeSave_hash & (s2 & d & _ & [= _ <- <- _])%bind_st_Ok)%bind_st_Ok.
    destruct Hx as [Hx _]. cbn in Hx. by rewrite Hx.
  - intros (s1 & d & Hd%run_deletes_without & (s2 & [[[req1 m] l] se] & Hx%executeSave_hash & [= _ <- <- _])%bind_st_Ok)%bind_st_Ok; [|done].
    destruct Hx as [Hh Hl]. cbn in Hh, Hl. rewrite Hl, Hd by done. by rewrite Hh.
Qed.

(** What the execution of a batch does to the record. *)
Lemma execute_record fuel replay req s :
  rollbackableEvents (execute fuel replay req s).1 = rollbackableEvents s \/
  exists h roll req', EventsHash req = Some h /\ rollback_Empty roll = false /\
    (execute fuel replay req s).2 = Ok req' /\
    rollbackableEvents (execute fuel replay req s).1 = <[h := roll]> (rollbackableEvents s).
Proof.
  destruct (execute fuel replay req s) as [s' r] eqn:Hx. revert Hx. unfold executeBatch.
  case_match; [intros [= <- <-]; by left|]. pose proof (quiet_run_batch fuel replay req s) as Hq.
  unfold mbind at 1, ST_bind.
  destruct (run_batch _ _ _ _ _ _ _ _ _ s) as [s1 [[[req' roll] e]| | |]] eqn:Hr; cbn in Hq; try (intros [= <- <-]; by left).
  destruct (run_batch_hash _ _ _ _ _ _ _ _ Hr) as [Hh Hroll]. rewrite Hh.
  case_bool_decide as He; cbn [andb]; [subst e|by destruct e; intros [= <- <-]; left].
  destruct (rollback_Empty roll) eqn:Hempty; cbn; [intros [= <- <-]; by left|].
  destruct (EventsHash req) as [h|]; [|by specialize (Hroll eq_refl)]. intros [= <- <-]. right. exists h, roll, req'.
  cbn. by rewrite Hq.
Qed.

(** *** Accepting *)

Lemma quiet_prepare e :
  quiet (prepareCommunityDeleteFilters Unquote filters_base64 relayPrivateKey relayURL attempts run_rows operationReporter e).
Proof.
  unfold prepareCommunityDeleteFilters. case_match; [done|]. apply quiet_bind; auto with quiet.
Qed.

Lemma quiet_accept_event embs req e :
  quiet (accept_event Unquote filters_base64 relayPrivateKey relayURL attempts run_rows operationReporter embs req e).
Proof.
  unfold accept_event. case_match; [done|]. case_match.
  - apply quiet_bind; [apply quiet_prepare|intros l]. case_match; [done|]. case_match; [|done].
    apply quiet_bind; auto with quiet.
  - apply quiet_bind; [|auto with quiet]. case_match; auto with quiet.
Qed.

Lemma quiet_accept_all embs req events :
  quiet (accept_all Unquote filters_base64 relayPrivateKey relayURL attempts run_rows operationReporter embs req events).
Proof.
  revert req. induction events as [|e events IH]; intros req; cbn [accept_all]; [done|].
  apply quiet_bind; [apply quiet_accept_event|done].
Qed.

(** The batch that is executed keeps the hash it was given. *)
Lemma accept_event_hash embs req e s s' req' :
  accept_event Unquote filters_base64 relayPrivateKey relayURL attempts run_rows operationReporter embs req e s = (s', Ok req') ->
  EventsHash req' = EventsHash req.
Proof.
  assert (Hsave : forall b s s' req', lift_st (S := dbClient D) (Save req e b) s = (s', Ok req') -> EventsHash req' = EventsHash req).
  { intros b s1 s2 req1 [= <- (d & _ & [= <-])%bind_Ok]. done. }
  assert (Hrem : forall s s' req', lift_st (S := dbClient D) (Remove req e) s = (s', Ok req') -> EventsHash req' = EventsHash req).
  { intros s1 s2 req1 [= <- Hr]. revert Hr. unfold Remove. cbv zeta. do 2 (case_match; [done|]). by intros [= <-]. }
  unfold accept_event. case_match; [by intros [= <- <-]|]. case_match.
  - intros (s1 & l & _ & Hl)%bind_st_Ok. revert Hl. case_match; [by intros [= <- <-]|].
    case_match; [|by apply Hrem]. intros (s2 & b & _ & Hb)%bind_st_Ok. revert Hb. case_match; [done|]. apply Hrem.
  - intros (s1 & b & _ & Hb)%bind_st_Ok. by apply Hsave in Hb.
Qed.

Lemma accept_all_hash embs req events s s' req' :
  accept_all Unquote filters_base64 relayPrivateKey relayURL attempts run_rows operationReporter embs req events s = (s', Ok req') ->
  EventsHash req' = EventsHash req.
Proof.
  revert req s. induction events as [|e events IH]; intros req s; cbn [accept_all]; [by intros [= <- <-]|].
  intros (s1 & req1 & Hr%accept_event_hash & H1)%bind_st_Ok. apply IH in H1. congruence.
Qed.

(** *** The operations on the record *)

Inductive client_op : Type := OpAccept (events : list Event) | OpCommit (events : list Event) | OpRollback (events : list Event).
Definition op_events (op : client_op) : list Event :=
  match op with OpAccept l => l | OpCommit l => l | OpRollback l => l end.

Definition perform (fuel : nat) (replay : bool) (op : client_op) : M unit :=
  match op with
  | OpAccept events => accept fuel replay events ;; mret ()
  | OpCommit events => commit replay events ;; mret ()
  | OpRollback events => rollback fuel replay events
  end.

(** What is promised of the record: a batch is recorded only when it was
    accepted, a commit forgets it, a rollback keeps it. *)
Inductive ledger_step (m : gmap string databaseRollbackRequest) : client_op -> outcome unit -> gmap string databaseRollbackRequest -> Prop :=
  | recorded events roll : rollback_Empty roll = false ->
      ledger_step m (OpAccept events) (Ok ()) (<[hashEvents events := roll]> m)
  | not_recorded events r : ledger_step m (OpAccept events) r m
  | forgotten events r : ledger_step m (OpCommit events) r (delete (hashEvents events) m)
  | kept events r : ledger_step m (OpRollback events) r m.

Lemma accept_step fuel replay events s s' r : accept fuel replay events s = (s', r) ->
  rollbackableEvents s' = rollbackableEvents s \/
  exists roll req, rollback_Empty roll = false /\ r = Ok req /\
    rollbackableEvents s' = <[hashEvents events := roll]> (rollbackableEvents s).
Proof.
  unfold AcceptEvents. unfold mbind at 1, ST_bind, lift_st at 1.
  destruct (ParseEphemeralEmbeddingEvents events) as [embs| | |]; try (intros [= <- <-]; by left).
  unfold mbind at 1, ST_bind. pose proof (quiet_accept_all embs (MkBatch (Some (hashEvents events)) ∅ [] []) events s) as Hq.
  destruct (accept_all _ _ _ _ _ _ _ _ _ _ s) as [s1 [req| | |]] eqn:Ha; cbn in Hq; try (intros [= <- <-]; by left).
  apply accept_all_hash in Ha. intros Hx. pose proof (execute_record fuel replay req s1) as He. rewrite Hx in He. cbn in He.
  rewrite Hq in He. destruct He as [He|(h & roll & req' & Hh & Hroll & Hr & He)]; [by left|right].
  rewrite Ha in Hh. injection Hh as <-. by exists roll, req'.
Qed.

Lemma commit_step replay events s :
  rollbackableEvents (commit replay events s).1 = delete (hashEvents events) (rollbackableEvents s).
Proof.
  unfold CommitEvents, rollbackable. unfold mbind at 1, ST_bind.
  destruct (rollbackableEvents s !! hashEvents events) as [roll|] eqn:Hh; [|cbn; by rewrite delete_id].
  unfold mbind at 1, ST_bind, set_rollbackable. destruct replay; [done|].
  enough (quiet (deleteCommittedReplaceableEvents attempts exec_ids switch (ReplaceableEvents roll) events)) as Hq
    by (rewrite Hq; done).
  unfold deleteCommittedReplaceableEvents. case_match; [done|]. apply quiet_bind; [auto with quiet|intros x].
  apply quiet_bind; [done|intros l]. by case_match.
Qed.

Lemma rollback_step fuel replay events s : rollbackableEvents (rollback fuel replay events s).1 = rollbackableEvents s.
Proof.
  unfold RollbackEvents, rollbackable. unfold mbind at 1, ST_bind. destruct (_ !! _) as [roll|]; [|done].
  unfold mbind at 1, ST_bind. match goal with |- context [execute ?f ?p ?req s] => pose proof (execute_record f p req s) as He end.
  destruct (execute _ _ _ s) as [s1 x]. cbn in He. assert (Hs : rollbackableEvents s1 = rollbackableEvents s).
  { destruct He as [He|(h & _ & _ & Hh & _)]; [done|discriminate]. }
  by destruct x.
Qed.

Lemma client_step fuel replay op s :
  ledger_step (rollbackableEvents s) op (perform fuel replay op s).2 (rollbackableEvents (perform fuel replay op s).1).
Proof.
  destruct op as [events|events|events]; cbn [perform].
  - unfold mbind, ST_bind. destruct (accept fuel replay events s) as [s' r] eqn:Ha. apply accept_step in Ha.
    destruct Ha as [Ha|(roll & req & Hroll & -> & Ha)]; [destruct r; cbn; rewrite Ha; by constructor|].
    cbn. rewrite Ha. by constructor.
  - unfold mbind, ST_bind. pose proof (commit_step replay events s) as Hc.
    destruct (commit replay events s) as [s' r]. cbn in Hc. destruct r; cbn; rewrite Hc; constructor.
  - rewrite rollback_step. constructor.
Qed.

(** A run of the client, with its results. *)
Fixpoint perform_all (fuel : nat) (replay : bool) (ops : list client_op) (s : dbClient D) : dbClient D * list (outcome unit) :=
  match ops with
  | [] => (s, [])
  | op :: ops =>
      let '(s, r) := perform fuel replay op s in
      let '(s, rs) := perform_all fuel replay ops s in (s, r :: rs)
  end.

(** Whether a batch was accepted and not committed since. *)
Fixpoint still_open (h : string) (b : bool) (trace : list (client_op * outcome unit)) : bool :=
  match trace with
  | [] => b
  | (op, r) :: trace =>
      still_open h (match op with
                    | OpAccept l => b || (bool_decide (hashEvents l = h) && match r with Ok _ => true | _ => false end)
                    | OpCommit l => b && negb (bool_decide (hashEvents l = h))
                    | OpRollback _ => b
                    end) trace
  end.

Lemma still_open_mono h trace (b c : bool) : (b -> c) -> still_open h b trace -> still_open h c trace.
Proof.
  revert b c. induction trace as [|[op r] trace IH]; intros b c Hbc; cbn [still_open]; [done|].
  apply IH. destruct op, b, c; cbn; try done; try tauto; naive_solver.
Qed.

Lemma perform_all_record fuel replay ops s h :
  is_Some (rollbackableEvents (perform_all fuel replay ops s).1 !! h) ->
  still_open h (bool_decide (is_Some (rollbackableEvents s !! h))) (zip ops (perform_all fuel replay ops s).2).
Proof.
  revert s. induction ops as [|op ops IH]; intros s; cbn [perform_all]; [intros Hs; cbn; by apply bool_decide_pack|].
  pose proof (client_step fuel replay op s) as Hstep. destruct (perform fuel replay op s) as [s1 r]. cbn in Hstep.
  specialize (IH s1). destruct (perform_all fuel replay ops s1) as [s2 rs]. cbn in IH |- *. intros Hs. apply IH in Hs.
  clear IH. eapply still_open_mono; [|exact Hs]. intros Hb%bool_decide_unpack. inversion Hstep as [l roll Hroll He H1 H2|l r' He H1 H2|l r' He H1 H2|l r' He H1 H2]; subst.
  - rewrite <- H2 in Hb. destruct (decide (hashEvents l = h)) as [->|Hne].
    + rewrite (bool_decide_eq_true_2 (h = h)) by done. by rewrite orb_true_r.
    + rewrite lookup_insert_ne in Hb by done. by rewrite bool_decide_eq_true_2.
  - by rewrite (bool_decide_eq_true_2 (is_Some _)) by congruence.
  - rewrite <- H2 in Hb. destruct (decide (hashEvents l = h)) as [Heq|Hne]; [rewrite Heq, lookup_delete_eq in Hb; by destruct Hb|].
    rewrite lookup_delete_ne in Hb by done. rewrite bool_decide_eq_true_2 by done. by rewrite bool_decide_eq_false_2.
  - by rewrite bool_decide_eq_true_2 by congruence.
Qed.

(** *** Theorems *)

(** C18: accepting, committing and rolling back are steps of the ledger of
    batches to undo: a batch enters it only when it was accepted (a failed one is
    never recorded, whatever of it was stored), a commit removes it, even a failed
    one, and a rollback leaves it in place. *)
Theorem client_refines fuel replay op s s' r :
  perform fuel replay op s = (s', r) -> ledger_step (rollbackableEvents s) op r (rollbackableEvents s').
Proof. intros Hp. pose proof (client_step fuel replay op s) as Hs. by rewrite Hp in Hs. Qed.

(** Only a batch that was accepted, and not committed since, is ever undone:
    after any run of a client that starts with nothing to undo, rolling back
    another batch returns without touching the database. *)
Lemma only_open_batches_undone fuel fuel' replay replay' ops d events s rs :
  perform_all fuel replay ops (MkClient d ∅) = (s, rs) ->
  still_open (hashEvents events) false (zip ops rs) = false ->
  rollback fuel' replay' events s = (s, Ok ()).
Proof.
  intros Hrun Hopen. pose proof (perform_all_record fuel replay ops (MkClient d ∅) (hashEvents events)) as Hr.
  rewrite Hrun in Hr. cbn in Hr. rewrite lookup_empty, bool_decide_eq_false_2, Hopen in Hr by (by intros [? ?]).
  unfold RollbackEvents, rollbackable, mbind, ST_bind.
  destruct (rollbackableEvents s !! hashEvents events); [|done]. by destruct Hr.
Qed.
End Record.

(** ** The rows of an accepted batch *)

Section Rows.
Context {N : Nostr} {G : GoText} {R : RichText} {RT : RowText} {C : Crypto} {E : Env} {T : EventText}.
Context {TM : TagMaps} {U : Unicode} {TK : Tokenizer}.
Context (Unquote : string -> option string) (filters_base64 : list Filter -> string).
Context (relayPrivateKey relayURL : string).
Context {D : Type} (attempts : nat).
Context (run_rows : string -> gmap string any -> D -> D * (list databaseEvent * option driverError)).
Context (operationReporter : operationType -> option error -> D -> D).

Abbreviation accept_event := (accept_event Unquote filters_base64 relayPrivateKey relayURL attempts run_rows operationReporter).
Abbreviation accept_all := (accept_all Unquote filters_base64 relayPrivateKey relayURL attempts run_rows operationReporter).

(** The events a batch stores: neither ephemeral ones, nor jobs, nor deletions. *)
Definition storable (e : Event) : bool :=
  negb (IsEphemeral e || IsJobRequest e || IsJobResponse e || (Kind e =? KindJobFeedback)) && negb (Kind e =? KindDeletion).

(** The owner of the event attested its author in the same batch. *)
Definition attested_by_owner (embs : gmap string (list EphemeralEmbeddingEvent)) (e : Event) : Prop :=
  exists l, embs !! Address e = Some l /\ eventValidForEphemeralAttestation e = true /\
    (PubKey e = GetMasterPublicKey e \/
     exists m, m ∈ l /\ Kind (ContentEvent m) = CustomIONKindAttestation /\
       PubKey (ContentEvent m) = GetMasterPublicKey e /\
       OnBehalfIsAccessAllowed (EvTags (ContentEvent m)) (PubKey e) (Kind e) (Now now) = Ok true).

Definition attested_row (embs : gmap string (list EphemeralEmbeddingEvent)) (d : databaseEvent) : Prop :=
  HasEphemeralAttestation d = true -> attested_by_owner embs (REvent d).

(** An embedding of the batch that refers to the address. *)
Definition embedded_in (events : list Event) (addr : string) (content : Event) : Prop :=
  exists ev refs, ev ∈ events /\ Kind ev = CustomIONKindEphemeralEmbedding /\
    ParseEphemeralEmbeddingEventRef ev = Ok (refs, content) /\ addr ∈ refs.

Lemma fold_embeddings emb refs m addr l x :
  fold_left (add_embedding emb) refs m !! addr = Some l -> x ∈ l ->
  (exists l', m !! addr = Some l' /\ x ∈ l') \/ (addr ∈ refs /\ x = emb).
Proof.
  revert m. induction refs as [|r refs IH]; intros m; cbn [fold_left]; [eauto|].
  intros Hl Hx. destruct (IH _ Hl Hx) as [(l' & Hl' & Hx')|[Hr ->]]; [|right; split; [by right|done]].
  unfold add_embedding in Hl'. destruct (decide (r = addr)) as [->|Hne].
  - rewrite lookup_insert_eq in Hl'. injection Hl' as <-. apply elem_of_app in Hx' as [Hx'|Hx'%list_elem_of_singleton].
    + left. destruct (m !! addr) as [l'|]; [by exists l'|]. by apply elem_of_nil in Hx'.
    + right. split; [by left|done].
  - rewrite lookup_insert_ne in Hl' by done. left. eauto.
Qed.

Lemma embeddings_of_batch events embs addr l m :
  ParseEphemeralEmbeddingEvents events = Ok embs -> embs !! addr = Some l -> m ∈ l ->
  embedded_in events addr (ContentEvent m).
Proof.
  unfold ParseEphemeralEmbeddingEvents. intros Hp Hl Hm.
  enough (forall evs acc, for_state evs acc (fun m ev => if negb (Kind ev =? CustomIONKindEphemeralEmbedding) then Ok m
      else let! (refs, content) := ParseEphemeralEmbeddingEventRef ev in
           Ok (fold_left (add_embedding (MkEmbedding content ev)) refs m)) = Ok embs ->
      (exists l, acc !! addr = Some l /\ m ∈ l) \/ embedded_in evs addr (ContentEvent m)) as Hall.
  { destruct (Hall _ _ Hp) as [(l' & Hl' & _)|]; [by rewrite lookup_empty in Hl'|done]. }
  induction evs as [|ev evs IH]; intros acc; cbn [for_state]; [intros [= ->]; left; eauto|].
  intros (acc' & Hev & Hrest)%bind_Ok. apply IH in Hrest. clear IH. destruct Hrest as [(l' & Hl' & Hm')|Hrest].
  - revert Hev. case_match eqn:Hk; [intros [= ->]; left; eauto|].
    intros ([refs content] & Hr & [= <-])%bind_Ok. destruct (fold_embeddings _ _ _ _ _ _ Hl' Hm') as [?|[Ha ->]]; [by left|right].
    exists ev, refs. split_and!; [by left|lia|done..].
  - right. destruct Hrest as (ev' & refs & Hin & ?). exists ev', refs. split; [by right|done].
Qed.

Lemma verify_attested e l : verifyEphemeralAttestation e l = Ok true ->
  PubKey e = GetMasterPublicKey e \/
  exists m, m ∈ l /\ Kind (ContentEvent m) = CustomIONKindAttestation /\ PubKey (ContentEvent m) = GetMasterPublicKey e /\
    OnBehalfIsAccessAllowed (EvTags (ContentEvent m)) (PubKey e) (Kind e) (Now now) = Ok true.
Proof.
  unfold verifyEphemeralAttestation. destruct (GetMasterPublicKey e =s? PubKey e) eqn:He; [left; symmetry; by apply String.eqb_eq|].
  destruct (list_find _ l) as [[i m]|] eqn:Hf; [|done]. intros Ha. right. exists m.
  apply list_find_Some in Hf as (Hi & [Hk Hp] & _). split_and!; [by eapply list_elem_of_lookup_2|done..].
Qed.

Lemma attested_by_batch_Some embs e l : attested_by_batch embs e = Some l ->
  embs !! Address e = Some l /\ eventValidForEphemeralAttestation e = true.
Proof.
  unfold attested_by_batch. destruct (embs !! Address e); [|done].
  destruct (eventValidForEphemeralAttestation e); [by intros [= ->]|done].
Qed.

Lemma Save_row req e b req' : Save req e b = Ok req' ->
  exists d, REvent d = e /\ HasEphemeralAttestation d = b /\
    req' = MkBatch (EventsHash req) (Rollback req) (InsertOrReplace req ++ [d]) (Delete req).
Proof.
  intros (row & Hrow & [= <-])%bind_Ok. exists (with_attestation row b). split_and!; [|done..].
  unfold toDatabaseEvent in Hrow. apply bind_Ok in Hrow as ([sa ka] & _ & Hrow).
  apply bind_Ok in Hrow as (c & _ & Hrow). apply bind_Ok in Hrow as ([[lookup deleted] c'] & _ & [= <-]). done.
Qed.

(** What one event adds to the rows of a batch. *)
Definition adds (embs : gmap string (list EphemeralEmbeddingEvent)) (req : databaseBatchRequest) (events : list Event)
    (req' : databaseBatchRequest) : Prop :=
  Rollback req' = Rollback req /\
  exists rows, InsertOrReplace req' = InsertOrReplace req ++ rows /\
    REvent <$> rows = filter (fun e => storable e = true) events /\ Forall (attested_row embs) rows.

Lemma adds_none embs req req' events : Rollback req' = Rollback req -> InsertOrReplace req' = InsertOrReplace req ->
  filter (fun e => storable e = true) events = [] -> adds embs req events req'.
Proof. intros Hr Hi He. split; [done|]. exists []. rewrite Hi, He, List.app_nil_r. by repeat split. Qed.

Lemma accept_event_adds embs req e s s' req' :
  accept_event embs req e s = (s', Ok req') -> adds embs req [e] req'.
Proof.
  intros Ha. assert (Hstore : storable e = false -> filter (fun e => storable e = true) [e] = []).
  { intros Hs. rewrite filter_cons, decide_False by congruence. done. }
  revert Ha. unfold Store.accept_event. unfold storable in Hstore.
  case_match eqn:Hj; [intros [= <- <-]; by apply adds_none; auto|]. case_match eqn:Hk.
  - intros (s1 & l & _ & Hl)%bind_st_Ok. revert Hl.
    assert (Hrem : forall s, lift_st (S := dbClient D) (Remove req e) s = (s', Ok req') -> adds embs req [e] req').
    { intros s2 [= _ Hr]. revert Hr. unfold Remove. cbv zeta. do 2 (case_match; [done|]). intros [= <-].
      apply adds_none; [done..|]. apply Hstore. by rewrite andb_false_r. }
    case_match; [intros [= <- <-]; apply adds_none; [done..|]; apply Hstore; by rewrite andb_false_r|].
    case_match; [|by apply Hrem]. intros (s2 & b & _ & Hb)%bind_st_Ok. revert Hb. case_match; [done|]. apply Hrem.
  - intros (s1 & b & Hb & [= _ Hsave])%bind_st_Ok. apply Save_row in Hsave as (d & Hd & Hatt & ->). split; [done|].
    exists [d]. split; [done|]. rewrite filter_cons, decide_True by (unfold storable; by rewrite Hj, Hk). cbn. rewrite Hd.
    split; [done|]. repeat constructor. intros Ht. rewrite Hatt in Ht. rewrite Hd, Ht in *.
    destruct (attested_by_batch embs e) as [l|] eqn:Hl; [|injection Hb; congruence].
    apply attested_by_batch_Some in Hl as [Hl Hv]. exists l. split_and!; [done..|]. injection Hb as _ Hb.
    by apply verify_attested.
Qed.

Lemma accept_all_adds embs req events s s' req' :
  accept_all embs req events s = (s', Ok req') -> adds embs req events req'.
Proof.
  revert req s. induction events as [|e events IH]; intros req s; cbn [Store.accept_all].
  - intros [= <- <-]. by apply adds_none.
  - intros (s1 & req1 & (Hr1 & rows1 & Hi1 & He1 & Hf1)%accept_event_adds & (Hr2 & rows2 & Hi2 & He2 & Hf2)%IH)%bind_st_Ok.
    split; [congruence|]. exists (rows1 ++ rows2). rewrite Hi2, Hi1, List.app_assoc, fmap_app, He1, He2.
    split_and!; [done| |by apply Forall_app]. change (e :: events) with ([e] ++ events). by rewrite filter_app.
Qed.

(** The owner of the event attested its author in the batch. *)
Definition attested_in (events : list Event) (e : Event) : Prop :=
  PubKey e = GetMasterPublicKey e \/
  exists att, embedded_in events (Address e) att /\ Kind att = CustomIONKindAttestation /\
    PubKey att = GetMasterPublicKey e /\ OnBehalfIsAccessAllowed (EvTags att) (PubKey e) (Kind e) (Now now) = Ok true.

(** The rows a batch stores are its events in their order, without the
    ephemeral ones, the jobs and the deletions; a row is marked as attested only
    when its author owns it or the owner's attestation, embedded in the same
    batch, gives its author access to its kind at that moment. *)
Lemma accepted_rows events embs hash s s' req :
  ParseEphemeralEmbeddingEvents events = Ok embs ->
  accept_all embs (MkBatch hash ∅ [] []) events s = (s', Ok req) ->
  REvent <$> InsertOrReplace req = filter (fun e => storable e = true) events /\ Rollback req = ∅ /\
  Forall (fun d => HasEphemeralAttestation d = true -> attested_in events (REvent d)) (InsertOrReplace req).
Proof.
  intros Hp (Hr & rows & -> & He & Hf)%accept_all_adds. split_and!; [done..|].
  eapply Forall_impl; [exact Hf|]. intros d Hd Ht. destruct (Hd Ht) as (l & Hl & _ & [Ho|(m & Hm & Hk & Hpk & Ha)]); [by left|right].
  exists (ContentEvent m). split; [by eapply embeddings_of_batch|done].
Qed.
End Rows.

(** ** Concrete inputs *)
Module RollbackWitness.
Import SelectionPlain.

Definition row (e : Event) (action : string) : databaseEvent :=
  let d := RowsWitness.row_of e in
  MkRow (REvent d) (SigAlg d) (KeyAlg d) (MasterPubKey d) (Dtag d) (Htag d) (Lookup d) action (Origin d) (SystemID d)
    (TagID d) (Deleted d) (HasEphemeralAttestation d) (Columns d).
Definition note : Event := MkEvent None "n1" "aa" 1700000000 1 [] "hi" "sig".
Definition article (id : string) (at_ : Z) : Event := MkEvent None id "aa" at_ 30023 [["d"; "post"]] "text" "sig".
(** A new note and a new version of an article, with the one it replaced. *)
Definition mixed : list databaseEvent :=
  [row note "INSERT"; row (article "a2" 1700000001) "UPDATE"; row (article "a1" 1600000000) "OLD"].
Definition request : databaseBatchRequest := MkBatch (Some "h") ∅ [] [].

(** The undo deletes the article that was updated as well. *)
Lemma saved_undo_witness :
  dom (list_to_map [("a2", false)] : gmap string bool) = (if false then ∅ else list_to_set (replaced_ids mixed)) /\
  [MkDelete "aa" ["n1"] [] false; MkDelete "aa" [] ["30023:aa:post"] false] =
    if 0 <? zlen (kept_rows mixed) - Z.of_nat (size (old_rows mixed))
    then (fun d => deletion_of (REvent d)) <$> kept_rows mixed else [].
Proof.
  apply (saved_undo false request mixed "h" (list_to_map [("a2", false)])); [|reflexivity|vm_compute; reflexivity].
  apply (bool_decide_unpack _). vm_compute. exact I.
Defined.

(** A database that stores nothing but says it did. *)
Definition inserted (sql : string) (params : gmap string any) (d : unit) : unit * (list databaseEvent * option driverError) :=
  (d, ([row note "INSERT"], None)).
Definition no_rows (sql : string) (params : gmap string any) (d : unit) : unit * (list databaseEvent * option driverError) :=
  (d, ([], None)).
Definition no_bool (sql : string) (params : gmap string any) (d : unit) : unit * (option bool * option driverError) := (d, (None, None)).
Definition no_events (sql : string) (params : gmap string any) (d : unit) : unit * (list Event * option driverError) := (d, ([], None)).
Definition no_ids (sql : string) (ids : list string) (d : unit) : unit * (list Event * option driverError) := (d, ([], None)).
Definition no_switch (d : unit) : unit * option dbError := (d, None).

Abbreviation perform_one := (perform unquote no_base64 key_hex "wss://relay" 0 no_rows no_bool inserted no_events no_ids no_switch
  SelectionWitness.no_report 1 false).
Abbreviation perform_list := (perform_all unquote no_base64 key_hex "wss://relay" 0 no_rows no_bool inserted no_events no_ids no_switch
  SelectionWitness.no_report 1 false).
Definition fresh_client : dbClient unit := MkClient () ∅.

Lemma client_refines_witness :
  ledger_step (rollbackableEvents fresh_client) (OpAccept [note]) (perform_one (OpAccept [note]) fresh_client).2
    (rollbackableEvents (perform_one (OpAccept [note]) fresh_client).1).
Proof.
  apply (client_refines unquote no_base64 key_hex "wss://relay" 0 no_rows no_bool inserted no_events no_ids no_switch
    SelectionWitness.no_report 1 false (OpAccept [note]) fresh_client). by destruct (perform _ _ _ _ _ _ _ _ _ _ _ _ _ _ _).
Defined.

Example accepted_note_recorded :
  Delete <$> (undo <$> rollbackableEvents (perform_one (OpAccept [note]) fresh_client).1 !! hashEvents [note]) =
  Some [MkDelete "aa" ["n1"] [] false].
Proof. vm_compute. reflexivity. Qed.

Lemma only_open_batches_undone_witness :
  let s := (perform_list [OpAccept [note]; OpCommit [note]] fresh_client).1 in
  RollbackEvents unquote 0 no_bool inserted no_events no_switch SelectionWitness.no_report 1 false [note] s = (s, Ok ()).
Proof.
  apply (only_open_batches_undone unquote no_base64 key_hex "wss://relay" 0 no_rows no_bool inserted no_events no_ids no_switch
    SelectionWitness.no_report 1 1 false false [OpAccept [note]; OpCommit [note]] () [note] _
    (perform_list [OpAccept [note]; OpCommit [note]] fresh_client).2); [by destruct (perform_all _ _ _ _ _ _ _ _ _ _ _ _ _ _ _)|].
  vm_compute. reflexivity.
Defined.

(** A note signed by its owner. *)
Lemma accepted_rows_witness :
  let s := accept_all unquote no_base64 key_hex "wss://relay" 0 no_rows SelectionWitness.no_report ∅ (MkBatch (Some "h") ∅ [] []) [note] fresh_client in
  match s.2 with
  | Ok req =>
      REvent <$> InsertOrReplace req = filter (fun e => storable e = true) [note] /\ Rollback req = ∅ /\
      Forall (fun d => HasEphemeralAttestation d = true -> attested_in [note] (REvent d)) (InsertOrReplace req)
  | _ => False
  end.
Proof.
  cbv zeta. destruct (accept_all _ _ _ _ _ _ _ _ _ _ _) as [s' r] eqn:Hs. pose proof Hs as Hs'. vm_compute in Hs'.
  destruct r as [req|x| |]; [|discriminate Hs'..].
  apply (accepted_rows unquote no_base64 key_hex "wss://relay" 0 no_rows SelectionWitness.no_report [note] ∅ (Some "h") fresh_client s' req);
    [vm_compute; reflexivity|exact Hs].
Defined.
End RollbackWitness.
