(* ===== verification/Cascade.v ===== *)
(** * Deleting events and all that depends on them

    Theorems about the deletions of src/database/query/query.go (file Store) and the
    retries of src/database/query/internal/connector (file Connector): which failed
    statements are tried again, and that the deletion of dependent events ends. *)

From S2P Require Import Prelude GoStd Nostr Model OnBehalf Filters Content Validator QueryFilter QueryBuilder QuerySafety QueryDelete Connector Rows Status Selection Store Rollback.
Import Strings.

(** ** Retries *)

Section Retries.
Context {S : Type} (attempts : nat) {A : Type} (switch : S -> S * option dbError).

(** A statement that always fails with an error worth another attempt runs once
    more than it may be tried again. *)
Lemma exec_retried_again (op : S -> S * (A * option driverError)) (none : A) e s :
  (forall s, (op s).2.2 = Some e) -> isInstanceDead (Some (parseError e)) = false -> IsUnexpected (Some (parseError e)) = true ->
  exec_retried attempts switch op none s =
    (Nat.iter (Datatypes.S attempts) (fun s => (op s).1) s, (none, Some (parseError e))).
Proof.
  intros Hop Hd Hu. unfold exec_retried. revert s. induction attempts as [|n IH]; intros s; cbn [withRetry];
    pose proof (Hop s) as He; destruct (op s) as [s1 [a x]] eqn:Ho; cbn in He; subst x; cbn [fmap option_fmap option_map].
  - rewrite Hd, Hu. cbn. by rewrite Ho.
  - rewrite Hd, Hu, IH. rewrite (Nat.iter_succ_r (Datatypes.S n)), Ho. done.
Qed.

(** One that fails with any other error runs once. *)
Lemma exec_custom_once retryIf (op : S -> S * (A * option driverError)) (none : A) e s s' a :
  op s = (s', (a, Some e)) -> isInstanceDead (Some (parseError e)) = false -> retryIf (parseError e) = false ->
  exec_custom attempts retryIf switch op none s = (s', (none, Some (parseError e))).
Proof.
  intros Ho Hd Hr. unfold exec_custom. destruct attempts; cbn [withRetry]; rewrite Ho; cbn [fmap option_fmap option_map]; by rewrite Hd, Hr.
Qed.
End Retries.

Section Client.
Context {N : Nostr} {G : GoText} {R : RichText} {RT : RowText} {C : Crypto} {E : Env} {T : EventText}.
Context {TM : TagMaps} {U : Unicode} {TK : Tokenizer}.
Context (Unquote : string -> option string).
Context {D : Type} (attempts : nat).
Context (run_bool : string -> gmap string any -> D -> D * (option bool * option driverError)).
Context (exec_rows : string -> gmap string any -> D -> D * (list databaseEvent * option driverError)).
Context (exec_events : string -> gmap string any -> D -> D * (list Event * option driverError)).
Context (switch : D -> D * option dbError).

Abbreviation delete_dependent := (deleteEventsWithDependencies Unquote attempts run_bool exec_events switch false).
Abbreviation delete_rounds := (delete_rounds Unquote attempts run_bool exec_events switch).

(** Events that collide with stored ones on a unique constraint are refused
    at once as a race, whatever the constraint is: the retry of other duplicates
    that the code intends looks for a pointer no error ever holds. *)
Lemma duplicates_refused_at_once replay events ids sql s d' rows p :
  save_statement replay events ids newQueryBuilder = Ok ((), sql) ->
  exec_rows (text sql) (Params sql) (db s) = (d', (rows, Some (PgErr p))) -> SQLState p = UniqueViolation ->
  saveEvents attempts exec_rows switch replay events ids s =
    (MkClient d' (rollbackableEvents s), Ok ([], Some (parseError (PgErr p)))) /\
  handleError (Some (parseError (PgErr p))) = Some (err ErrRaceCondition).
Proof.
  intros Hsql Hrun Hp. assert (Hparse : parseError (PgErr p) = MkDbError (err ErrDuplicate) (Some p) (Some (ConstraintName p)) false false).
  { cbn. unfold parse_pg. by rewrite Hp. }
  split; [|by rewrite Hparse].
  unfold saveEvents. rewrite Hsql. unfold mbind, ST_bind, lift_st, on_db. cbn [snd].
  erewrite exec_custom_once; [done|exact Hrun|rewrite Hparse; cbn; by rewrite Hp|by rewrite Hparse].
Qed.

(** A deletion that the database refuses with an exception of its own, such as
    a missing permission, is executed again as long as the time allows, and only
    then reported. *)
Lemma refused_deletion_retried filters b s p :
  delete_where Unquote attempts run_bool true filters s = (s, Ok b) ->
  (forall d, (exec_events (delete_statement (text b)) (Params b) d).2.2 = Some (PgErr p)) ->
  SQLState p = RaiseException -> Message p = "onbehalf permission denied" ->
  deleteEventsWithDependencies Unquote attempts run_bool exec_events switch true filters s =
    (MkClient (Nat.iter (Datatypes.S attempts) (fun d => (exec_events (delete_statement (text b)) (Params b) d).1) (db s))
       (rollbackableEvents s), Err (err ErrOnBehalfAccessDenied)).
Proof.
  intros Hw Hop Hp Hm. assert (Hparse : parseError (PgErr p) = with_driver (err ErrException) (Some p)).
  { cbn. unfold parse_pg. by rewrite Hp. }
  unfold deleteEventsWithDependencies. unfold mbind at 1, ST_bind. rewrite Hw. unfold mbind at 1, ST_bind, on_db.
  rewrite (exec_retried_again attempts switch _ _ (PgErr p)); [|done|rewrite Hparse; cbn; by rewrite Hp|rewrite Hparse; cbn; by rewrite Hp].
  unfold mbind, ST_bind, lift_st, rows_or_error. rewrite Hparse. cbn [snd]. unfold handleError. cbn. by rewrite Hm.
Qed.
End Client.

(** ** The statement that deletes dependent events *)

Section Dependents.
Context {N : Nostr} {G : GoText} {LS : LowerSpec} {TM : TagMaps} {U : Unicode} {TK : Tokenizer} {E : Env}.
Context (Unquote : string -> option string).

(** A filter without search text has nothing to parse. *)
Lemma parse_without_search filter : Search filter = "" ->
  exists f, parseNostrFilter Unquote filter = Ok f /\ SFilter f = filter.
Proof.
  intros Hs. set (f0 := new_search filter). assert (Hf0 : FSearch f0 = "") by done.
  assert (Hl : ToLower (FSearch f0) = "") by (rewrite Hf0; by rewrite ToLower_ascii).
  exists (with_search (with_rank f0 rankUndef) ""). split; [|by destruct filter; cbn in Hs |- *; subst].
  unfold parseNostrFilter. fold f0.
  assert (Htext : parseNostrFilterText Unquote f0 = Ok f0) by (unfold parseNostrFilterText; by rewrite Hf0).
  assert (Hflags : parseNostrFilterFlags f0 = Ok f0).
  { assert (Hstep : forall name fl, flag_step f0 (name, fl) = Ok f0).
    { intros name fl. unfold flag_step. rewrite Hl. by destruct name. }
    unfold parseNostrFilterFlags, flags. cbn [for_state]. by repeat (rewrite Hstep; cbn [mbind outcome_bind]). }
  assert (Hmarkers : parseNostrFilterTagMarkers f0 = Ok f0).
  { unfold parseNostrFilterTagMarkers. cbn [marker_loop]. unfold marker_step. by rewrite Hf0. }
  assert (Hdeps : parseNostrFilterDependencies f0 = Ok f0).
  { unfold parseNostrFilterDependencies. cbn [dependency_loop]. by rewrite Hf0. }
  rewrite Htext. cbn [mbind outcome_bind]. rewrite Hflags. cbn [mbind outcome_bind]. rewrite Hmarkers.
  cbn [mbind outcome_bind]. rewrite Hdeps. cbn [mbind outcome_bind]. set (f1 := with_rank f0 rankUndef).
  assert (Hr : FSearch f1 = "") by done.
  assert (Hstep : forall name r, name ≠ "" -> rank_step f1 (name, r) = Ok f1).
  { intros name r Hn. unfold rank_step. rewrite Hr. by destruct name. }
  unfold parseRank. fold f1. cbn [for_state]. repeat (rewrite Hstep by done; cbn [mbind outcome_bind]). by rewrite Hr.
Qed.

#[local] Hint Resolve total_ApplyFilterAddresses total_ApplySpecialKinds total_ApplyFilterKinds
  total_ApplyFilterForExtensions total_ApplyFilterTtags total_ApplyFilterLang total_ApplyFilterSoftDeleted
  total_MaybeApplyTextSearch total_ApplyFilterGiftWrap total_ApplyFilterTags total_ApplyFilterTagMarkers : total.

(** The clause of a filter without an empty range of time is written in any
    context. *)
Lemma total_BuildWhere f :
  bad_range (SFilter f) = false -> total (BuildWhere f).
Proof.
  intros Hr. pose proof (total_ApplyTimeRange (FID f) (SFilter f) Hr).
  assert (Ha : total (ApplyFilter f)).
  { unfold ApplyFilter. cbv zeta. destruct (isFilterEmpty f); [apply total_skip|]. solve_total. }
  unfold BuildWhere. solve_total.
Qed.

(** The clause of filters without search texts and ranges of time. *)
Lemma BuildSingleWhere_plain filters : filters ≠ [] ->
  Forall (fun m => Search m = "" /\ bad_range m = false) filters ->
  exists b, BuildSingleWhere Unquote filters newQueryBuilder = Ok ((), b).
Proof.
  intros Hne Hf. unfold BuildSingleWhere.
  assert (Hparse : forall i, exists fs, parse_filters Unquote i filters = Ok fs /\ length fs = length filters /\
            Forall (fun f => bad_range (SFilter f) = false) fs).
  { clear Hne. induction Hf as [|m filters [Hs Hb] _ IH]; intros i; cbn [parse_filters]; [by exists []|].
    destruct (parse_without_search m Hs) as (f & -> & Hf). destruct (IH (S i)) as (fs & -> & Hl & Hfs).
    eexists. split; [done|]. split; [cbn; by rewrite Hl|]. constructor; [|done]. cbn. by rewrite Hf. }
  destruct (Hparse 0%nat) as (fs & Hp & Hl & Hfs). destruct filters as [|m filters]; [done|].
  destruct fs as [|f fs]; [done|]. unfold ParseFilters. rewrite Hp. unfold mbind at 1, B_bind, lift.
  apply Forall_cons in Hfs as [Hf1 Hfs]. cbn [mbind outcome_bind].
  match goal with |- exists b, for_i 0 (f :: fs) ?step _ = _ =>
    assert (Hall : total ((BuildWhere f ;; WriteString ")") ;; for_i 1 fs step)) end.
  { assert (Hfor : forall i, total (for_i i fs (fun i f => (if (0 <? i)%nat then WriteString " OR " else skip) ;;
                       WriteString "(" ;; BuildWhere f ;; WriteString ")"))).
    { clear -Hfs. induction Hfs as [|f fs Hf _ IH]; intros i; cbn [for_i]; [apply total_skip|].
      pose proof (total_BuildWhere f Hf). apply total_bind; [solve_total|auto]. }
    pose proof (total_BuildWhere f Hf1). apply total_bind; [solve_total|auto]. }
  destruct (Hall (MkBuilder ∅ "(")) as ([] & b & Hr & _); [by left|]. exists b. exact Hr.
Qed.

(** Programs that start an empty builder. *)
Definition begins {A} (m : B A) : Prop := forall b, text b = "" -> exists a b', m b = Ok (a, b') /\ started b'.

Lemma begins_WriteString s : (2 <= len s)%nat -> begins (WriteString s).
Proof. intros Hs b Hb. eexists _, _. split; [done|]. right. cbn. by rewrite Hb. Qed.
Lemma begins_open : begins (WriteString "(").
Proof. intros b Hb. eexists _, _. split; [done|]. left. cbn. by rewrite Hb. Qed.
Lemma begins_push {A} id name v (k : string -> B A) : (forall s, begins (k s)) -> begins (mbind k (PushValue id name v)).
Proof. intros Hk b Hb. unfold mbind, B_bind, PushValue. cbn. by apply Hk. Qed.
Lemma begins_bind {A A'} (m : B A) (k : A -> B A') : begins m -> (forall a, total (k a)) -> begins (mbind k m).
Proof.
  intros Hm Hk b Hb. destruct (Hm b Hb) as (a & b' & Hr & Hs). destruct (Hk a b' Hs) as (a' & b2 & Hr2 & Hs2).
  exists a', b2. split; [|done]. unfold mbind, B_bind. by rewrite Hr.
Qed.
Lemma begins_MaybeOR {A} (k : unit -> B A) : begins (k ()) -> begins (mbind k MaybeOR).
Proof.
  intros Hk b Hb. destruct (Hk b Hb) as (a & b' & Hr & Hs). exists a, b'. split; [|done].
  rewrite <- Hr. unfold MaybeOR, Len, mbind, B_bind. cbn. by rewrite Hb.
Qed.

#[local] Hint Resolve inner_total : total.
Lemma total_delete_access id f : total (delete_access id f).
Proof. unfold delete_access. solve_total. Qed.
Lemma total_delete_targets id f : total (delete_targets id f).
Proof. unfold delete_targets. solve_total. Qed.
#[local] Hint Resolve total_delete_access total_delete_targets : total.

(** The clause of a deletion is written, or there is nothing to delete. *)
Lemma BuildForDelete_returns filters :
  match BuildForDelete filters newQueryBuilder with Ok _ | Err _ => True | _ => False end.
Proof.
  unfold BuildForDelete. destruct (match filters with [f] => _ | _ => None end) as [author|] eqn:Ha.
  - enough (begins (BuildForAccountDelete author)) as Hb by (destruct (Hb newQueryBuilder eq_refl) as (a & b & -> & _); done).
    unfold BuildForAccountDelete. apply begins_push. intros s. apply begins_WriteString. cbn. lia.
  - clear Ha. destruct filters as [|f filters]; [done|].
    match goal with |- match ?m _ with _ => _ end => enough (begins m \/ exists e, m newQueryBuilder = Err e) as Hm end.
    { destruct Hm as [Hb|[e ->]]; [|done]. destruct (Hb newQueryBuilder eq_refl) as (a & b & -> & _). done. }
    left. cbn [for_i]. set (rest := for_i 1 filters _).
    assert (Hr : total rest) by (unfold rest, ApplyDeleteFilter; solve_total).
    intros b Hb. assert (Hbegin : begins (mbind (fun _ => rest) (mbind (fun _ => ApplyDeleteFilter 0 f) MaybeOR))).
    { apply begins_bind; [|done]. apply begins_MaybeOR. unfold ApplyDeleteFilter. apply begins_bind; [apply begins_open|].
      intros []. solve_total. }
    destruct (Hbegin b Hb) as ([] & b1 & Hr1 & Hs1). erewrite bind_run by exact Hr1.
    assert (Hl : (zlen_s (text b1) =? 0) = false) by (unfold zlen_s; destruct Hs1 as [->|?]; cbn; lia).
    erewrite bind_run by reflexivity. rewrite Hl. by apply total_WriteString.
Qed.

Lemma save_statement_runs replay events ids : exists b, save_statement replay events ids newQueryBuilder = Ok ((), b).
Proof.
  enough (begins (save_statement replay events ids)) as Hb
    by (destruct (Hb newQueryBuilder eq_refl) as ([] & b & Hr & _); eauto).
  unfold save_statement. cbv zeta. apply begins_push. intros _. apply begins_push. intros id.
  apply begins_bind; [apply begins_WriteString; cbn; lia|]. intros _.
  assert (Hf : total (WriteFields save_fields)) by (unfold WriteFields; solve_total).
  assert (Hv : forall i d, total (WriteValues ("merge_event" +:+ Strconv.Itoa (Z.of_nat i)) (save_values (if replay then ConsensusReplayCtxKey else "") d))).
  { intros i d. unfold WriteValues, save_values. solve_total. }
  solve_total.
Qed.
End Dependents.

(** ** The rounds of deletions end *)

Section Rounds.
Context {N : Nostr} {G : GoText} {LS : LowerSpec} {R : RichText} {RT : RowText} {C : Crypto} {E : Env} {T : EventText}.
Context {TM : TagMaps} {U : Unicode} {TK : Tokenizer}.
Context (Unquote : string -> option string).
Context {D : Type} (attempts : nat).
Context (run_bool : string -> gmap string any -> D -> D * (option bool * option driverError)).
Context (exec_events : string -> gmap string any -> D -> D * (list Event * option driverError)).
Context (switch : D -> D * option dbError).

Abbreviation delete_dependent := (deleteEventsWithDependencies Unquote attempts run_bool exec_events switch false).
Abbreviation delete_batches := (delete_batches Unquote attempts run_bool exec_events switch).
Abbreviation delete_rounds := (delete_rounds Unquote attempts run_bool exec_events switch).

(** A deletion returns events that were stored and are not any more. *)
Context (stored : D -> nat).
Hypothesis Hexec : forall sql params d,
  (stored (exec_events sql params d).1 +
     match (exec_events sql params d).2 with (l, None) => length l | _ => 0 end <= stored d)%nat.
Hypothesis Hswitch : forall d, (stored (switch d).1 <= stored d)%nat.

Lemma exec_retried_stored sql params d :
  let '(d', (l, e)) := exec_retried attempts switch (exec_events sql params) [] d in
  (stored d' + match e with None => length l | Some _ => 0 end <= stored d)%nat.
Proof.
  unfold exec_retried. revert d. induction attempts as [|n IH]; intros d; cbn [withRetry];
    pose proof (Hexec sql params d) as Hd; destruct (exec_events sql params d) as [d1 [l [e|]]]; cbn in Hd;
    cbn [fmap option_fmap option_map]; try lia.
  all: destruct (isInstanceDead _); [pose proof (Hswitch d1); destruct (switch d1) as [d2 y]; cbn in *|destruct (IsUnexpected _)]; cbn; try lia.
  - specialize (IH d2). destruct (withRetry _ _ _) as [d3 [l' e']]. lia.
  - specialize (IH d1). destruct (withRetry _ _ _) as [d3 [l' e']]. lia.
Qed.

(** The deletions of stored events have targets. *)
Definition targeted (f : databaseFilterDelete) : Prop := DIDs f ≠ [] \/ DAddresses f ≠ [].

Lemma deletion_of_targeted e : targeted (deletion_of e).
Proof. unfold deletion_of. destruct (IsRegular e); [by left|by right]. Qed.

Lemma dependent_filters_plain f : targeted f ->
  dependent_filters f ≠ [] /\ Forall (fun m => Search m = "" /\ bad_range m = false) (dependent_filters f).
Proof.
  unfold dependent_filters, targeted. intros Ht. destruct (DIDs f) as [|id ids]; cbn [is_nil negb].
  - destruct Ht as [?|Ht]; [done|]. split; [by destruct (DAddresses f)|].
    apply Forall_forall. intros m Hm%list_elem_of_In. apply in_concat in Hm as (l & Hl & Hm).
    apply in_map_iff in Hl as (a & <- & _). by destruct Hm as [<-|[<-|[]]].
  - split; [done|]. by repeat constructor.
Qed.

Lemma delete_where_dependent filters s : filters ≠ [] -> Forall targeted filters ->
  exists b, delete_where Unquote attempts run_bool false filters s = (s, Ok b).
Proof.
  intros Hne Hf. unfold delete_where. cbv zeta.
  assert (Hp : Forall (fun m => Search m = "" /\ bad_range m = false) (concat (map dependent_filters filters))).
  { clear Hne. induction Hf as [|f filters Ht _ IH]; cbn; [constructor|].
    apply Forall_app. split; [by apply dependent_filters_plain|done]. }
  destruct (concat _) as [|m ms] eqn:Hc.
  - destruct filters as [|f filters]; [done|]. apply Forall_cons in Hf as [Ht _]. cbn in Hc.
    apply app_eq_nil in Hc as [Hc _]. by apply dependent_filters_plain in Ht as [Ht _].
  - cbn [is_nil]. destruct (BuildSingleWhere_plain Unquote (m :: ms)) as [b Hb]; [done..|].
    exists b. unfold mbind, ST_bind, lift_st. by rewrite Hb.
Qed.

(** The deletion of dependent events reads no state but the database's, and does
    not panic. *)
Lemma delete_dependent_cases filters s : filters ≠ [] -> Forall targeted filters ->
  exists d, (delete_dependent filters s).1 = MkClient d (rollbackableEvents s) /\
    match (delete_dependent filters s).2 with
    | Ok (deleted, deps) => deps = deletion_of <$> deleted /\ (stored d + length deleted <= stored (db s))%nat
    | Err _ => (stored d <= stored (db s))%nat
    | _ => False
    end.
Proof.
  intros Hne Hf. destruct (delete_where_dependent filters s Hne Hf) as [b Hb].
  destruct (delete_dependent filters s) as [s' r] eqn:Hx. revert Hx. unfold deleteEventsWithDependencies.
  unfold mbind at 1, ST_bind. rewrite Hb. unfold mbind at 1, ST_bind, on_db.
  pose proof (exec_retried_stored (delete_statement (text b)) (Params b) (db s)) as Hs.
  destruct (exec_retried _ _ _ _ (db s)) as [d [l e]]. unfold mbind, ST_bind, lift_st, rows_or_error. cbn [snd fst].
  destruct e as [x|]; [|intros [= <- <-]; exists d; split; [done|]; split; [done|lia]].
  assert (Hy : exists y, handleError (Some x) = Some y) by (unfold handleError; repeat case_match; eauto).
  destruct Hy as [y ->]. intros [= <- <-]. exists d. split; [done|]. lia.
Qed.

Lemma FromTags_runs kind c tags : runs (FromTags kind c tags).
Proof.
  unfold FromTags. apply runs_bind; [|intros [[c' r1] r2]; done]. apply runs_for_state.
  intros [[c' r1] r2] t. unfold column_of, gift_target. solve_runs.
Qed.

Lemma Save_runs req e b : runs (Save req e b).
Proof.
  unfold Save, toDatabaseEvent, parseSigKeyAlg. pose proof FromTags_runs. unfold ExtractSignature, kind_columns. solve_runs.
Qed.

(** Recording what was deleted ends, and cannot fail when nothing is kept. *)
Lemma save_deleted_cases keep roll deleted :
  match save_deleted keep roll deleted with
  | Ok roll' => keep = true \/ roll' = roll
  | OutOfFuel => False
  | _ => keep = true
  end.
Proof.
  unfold save_deleted. destruct keep; [|by right].
  assert (Hr : runs (for_state deleted (undo roll) (fun b e => Save b e false))).
  { apply runs_for_state. intros. apply Save_runs. }
  destruct (for_state _ _ _); [by left|done..].
Qed.

(** What a round promises: it returns, with the deletions of what it deleted, or
    fails when a deleted event cannot be made a row again. *)
Lemma delete_batches_cases keep batches roll deps s :
  Forall (fun b => b ≠ []) batches -> Forall (Forall targeted) batches -> Forall targeted deps ->
  let '(s', r) := delete_batches keep batches roll deps s in
  match r with
  | Ok (roll', deps') =>
      (keep = true \/ roll' = roll) /\ Forall targeted deps' /\
      (stored (db s') + length deps' <= stored (db s) + length deps)%nat
  | OutOfFuel => False
  | _ => keep = true
  end.
Proof.
  revert roll deps s. induction batches as [|b batches IH]; intros roll deps s Hne Ht Hd; cbn [Store.delete_batches].
  { cbn. split; [by right|]. split; [done|lia]. }
  apply Forall_cons in Hne as [Hb Hne]. apply Forall_cons in Ht as [Htb Ht].
  destruct (delete_dependent_cases b s Hb Htb) as (d & Hs1 & Hr). unfold mbind at 1, ST_bind, attempt_st.
  destruct (delete_dependent b s) as [s1 [[deleted l]|x| |]]; cbn in Hs1, Hr; [|subst s1; cbn; split; [by right|]; split; [done|lia]|done..].
  destruct Hr as [-> Hl]. unfold mbind, ST_bind, lift_st. pose proof (save_deleted_cases keep roll deleted) as Hsave.
  destruct (save_deleted keep roll deleted) as [roll'| | |]; [|done..].
  assert (Hd' : Forall targeted (deps ++ (deletion_of <$> deleted))).
  { apply Forall_app. split; [done|]. apply Forall_fmap, Forall_forall. intros. apply deletion_of_targeted. }
  specialize (IH roll' _ s1 Hne Ht Hd'). destruct (delete_batches _ _ _ _ _) as [s2 [[roll2 deps2]| | |]]; [|done..].
  subst s1. cbn in IH. rewrite length_app, length_fmap in IH. destruct IH as (Hk & Hd2 & Hlen).
  split; [destruct Hk, Hsave; subst; auto|]. split; [done|]. lia.
Qed.

(** The batches of a round: none is empty. *)
Lemma split_rounds filters : filters ≠ [] -> Forall targeted filters ->
  exists batches, SplitBatch (S (length filters)) filters 100 [] = Ok batches /\
    Forall (fun b => b ≠ []) batches /\ Forall (Forall targeted) batches.
Proof.
  intros Hne Ht. destruct (SplitBatch_terminates filters 100) as (full & last & Hs & Hc & Hf & _ & Hl); [lia|].
  exists (full ++ [last]). split; [done|]. rewrite <- Hc in Ht. apply Forall_app in Ht as [Ht Htl]. split.
  - apply Forall_app. split; [|repeat constructor; by apply Hl]. eapply Forall_impl; [exact Hf|].
    intros b Hb ->. unfold zlen in Hb. cbn in Hb. lia.
  - apply Forall_app. split; [|by repeat constructor]. clear -Ht. induction full as [|b full IH]; [done|].
    cbn in Ht. apply Forall_app in Ht as [Hb Ht]. constructor; auto.
Qed.

(** The rounds end, as [delete_rounds_ends] states. *)
Lemma rounds_end fuel keep filters roll s :
  Forall targeted filters -> (stored (db s) < fuel)%nat ->
  match (delete_rounds fuel keep filters roll s).2 with
  | Ok roll' => keep = true \/ roll' = roll
  | OutOfFuel => False
  | _ => keep = true
  end.
Proof.
  revert filters roll s. induction fuel as [|fuel IH]; intros filters roll s Ht Hf; [lia|].
  destruct filters as [|f filters]; [by right|].
  destruct (split_rounds (f :: filters)) as (batches & Hb & Hne & Hts); [done..|].
  destruct (delete_rounds (S fuel) keep (f :: filters) roll s) as [s' r] eqn:Hx. revert Hx. cbn [Store.delete_rounds].
  unfold mbind at 1, ST_bind, lift_st. rewrite Hb. unfold mbind, ST_bind.
  pose proof (delete_batches_cases keep batches roll [] s Hne Hts (Forall_nil_2 _)) as Hr.
  destruct (delete_batches _ _ _ _ s) as [s1 [[roll1 deps]| | |]]; [|by intros [= <- <-]..].
  destruct Hr as (Hk & Hd & Hl). cbn in Hl. cbn [fst snd]. intros Hx.
  assert (Hres : match (delete_rounds fuel keep deps roll1 s1).2 with
                 | Ok roll' => keep = true \/ roll' = roll1 | OutOfFuel => False | _ => keep = true end).
  { destruct deps as [|g deps]; [destruct fuel; by right|]. apply IH; [done|]. cbn in Hl. lia. }
  rewrite Hx in Hres. cbn in *. destruct r; [|done..]. destruct Hk, Hres; subst; auto.
Qed.

(** Deleting what depends on deleted events ends: as many rounds are enough as
    there are events stored, the deletions never lack a target, and the whole
    succeeds although each failed statement only ends its own round (unless a
    deleted event that has to be remembered cannot be made a row again). *)
Lemma delete_rounds_ends fuel keep filters roll s :
  Forall targeted filters -> (stored (db s) < fuel)%nat ->
  match (delete_rounds fuel keep filters roll s).2 with
  | Ok roll' => keep = true \/ roll' = roll
  | OutOfFuel => False
  | _ => keep = true
  end.
Proof. apply rounds_end. Qed.

(** *** Undoing a batch returns *)

Context (exec_rows : string -> gmap string any -> D -> D * (list databaseEvent * option driverError)).
Context (operationReporter : operationType -> option error -> D -> D).
(** Reading stores nothing. *)
Hypothesis Hread : forall sql params d, (stored (run_bool sql params d).1 <= stored d)%nat.

Definition settled {A} (r : outcome A) : Prop := match r with Ok _ | Err _ => True | _ => False end.

Lemma check_tokenization_settled filters s :
  let '(s', r) := check_tokenization attempts run_bool filters s in
  settled r /\ (stored (db s') <= stored (db s))%nat.
Proof.
  unfold check_tokenization. destruct filters as [|f [|g filters]]; try by split.
  destruct (AccountDelete f && (DAuthor f ≠s? "")); [|by split]. unfold mbind, ST_bind, on_db.
  match goal with |- context [read_retried attempts ?op None (db s)] =>
    destruct (read_retried_inv attempts (fun d => (stored d <= stored (db s))%nat) (fun _ => True) op None (db s)) as [Hs _] end.
  { intros d Hd. split; [|done]. etrans; [apply Hread|done]. }
  { done. }
  destruct (read_retried _ _ _ _) as [d [[[]|] [x|]]]; by split.
Qed.

Lemma delete_where_settled filters s :
  let '(s', r) := delete_where Unquote attempts run_bool true filters s in
  settled r /\ (stored (db s') <= stored (db s))%nat.
Proof.
  unfold delete_where. unfold mbind at 1, ST_bind. pose proof (check_tokenization_settled filters s) as Hc.
  destruct (check_tokenization _ _ _ s) as [s1 [[]|x| |]]; [|done|by destruct Hc..].
  unfold mbind, ST_bind, lift_st. pose proof (BuildForDelete_returns filters) as Hb.
  destruct Hc as [_ Hc].
  destruct (BuildForDelete filters newQueryBuilder) as [[[] b]|x| |]; [by split|by split|done..].
Qed.

(** The rows a deletion of events returned, when it did. *)
Lemma delete_first_cases filters s :
  let '(s', r) := deleteEventsWithDependencies Unquote attempts run_bool exec_events switch true filters s in
  settled r /\ (stored (db s') <= stored (db s))%nat /\
  match r with Ok (_, deps) => Forall targeted deps | _ => True end.
Proof.
  unfold deleteEventsWithDependencies. unfold mbind at 1, ST_bind. pose proof (delete_where_settled filters s) as Hw.
  destruct (delete_where _ _ _ _ _ s) as [s1 [b|x| |]]; [|naive_solver..]. destruct Hw as [_ Hw].
  unfold mbind at 1, ST_bind, on_db. pose proof (exec_retried_stored (delete_statement (text b)) (Params b) (db s1)) as Hs.
  destruct (exec_retried _ _ _ _ (db s1)) as [d [l e]]. unfold mbind, ST_bind, lift_st, rows_or_error. cbn [snd fst].
  destruct (handleError e) as [y|]; [split; [done|]; split; [|done]; destruct e; cbn; lia|].
  split; [done|]. split; [destruct e; cbn; lia|]. apply Forall_fmap, Forall_forall. intros. apply deletion_of_targeted.
Qed.

Lemma run_deletes_settled fuel req roll s : EventsHash req = None -> (stored (db s) < fuel)%nat ->
  exists s' d, run_deletes Unquote attempts run_bool exec_events switch fuel req roll s = (s', Ok d).
Proof.
  intros Hn Hf. unfold run_deletes. case_match; [eauto|]. unfold mbind, ST_bind, attempt_st, deleteEvents. rewrite Hn.
  rewrite bool_decide_eq_false_2 by (by intros [? ?]). cbn [save_deleted].
  unfold mbind at 1, ST_bind. pose proof (delete_first_cases (Delete req) s) as Hd.
  destruct (deleteEventsWithDependencies _ _ _ _ _ _ _ s) as [s1 [[deleted deps]|x| |]]; [|by eauto|by destruct Hd..].
  destruct Hd as (_ & Hs & Ht). unfold mbind, ST_bind, lift_st. cbn [snd fst].
  pose proof (rounds_end fuel false deps roll s1 Ht ltac:(lia)) as Hr.
  destruct (delete_rounds fuel false deps roll s1) as [s2 [roll'| | |]]; [eauto|done..].
Qed.

Lemma executeSave_settled replay req s : exists s' r, executeSave attempts exec_rows switch replay req s = (s', Ok r).
Proof.
  unfold executeSave, saveEvents. case_match; [eauto|].
  destruct (save_statement_runs replay (databaseEventsReoder (InsertOrReplace req)) (range_set (dom (Rollback req)))) as [b Hb].
  unfold mbind at 1, ST_bind. unfold mbind at 1, ST_bind, lift_st. rewrite Hb. unfold on_db.
  destruct (exec_custom _ _ _ _ _ (db s)) as [d r]. cbv zeta. destruct (saved _ _ _ _) as [[m l] e]. eauto.
Qed.

(** Undoing a batch returns, with or without an error: the database has as
    many rounds of dependent events to delete as it has events, and the hash the
    undoing request does not have is never read. *)
Lemma RollbackEvents_returns fuel replay events s :
  (stored (db s) < fuel)%nat ->
  settled (RollbackEvents Unquote attempts run_bool exec_rows exec_events switch operationReporter fuel replay events s).2.
Proof.
  intros Hf. unfold RollbackEvents, rollbackable. unfold mbind at 1, ST_bind.
  destruct (_ !! _) as [roll|]; [|done]. set (req := MkBatch None _ _ _).
  assert (Hb : exists s' x, run_batch Unquote attempts run_bool exec_rows exec_events switch fuel replay req s = (s', Ok x)).
  { unfold run_batch. cbn [EventsHash req].
    destruct (run_deletes_settled fuel req no_rollback s eq_refl Hf) as (s1 & d & Hd). unfold mbind at 1, ST_bind. rewrite Hd.
    destruct (executeSave_settled replay req s1) as (s2 & [[[req' m] l] e] & Hs). unfold mbind, ST_bind. rewrite Hs. eauto. }
  destruct Hb as (s1 & [[req' roll'] e] & Hb). pose proof (run_batch_hash _ _ _ _ _ _ _ _ _ _ _ _ _ _ Hb) as [_ Hempty].
  unfold mbind at 1, ST_bind, executeBatch. destruct (batch_Empty req); [done|]. unfold mbind at 1, ST_bind. rewrite Hb.
  rewrite Hempty, andb_false_r by done. by destruct e.
Qed.
End Rounds.

(** ** Concrete inputs *)
Module CascadeWitness.
Import SelectionPlain.
#[local] Instance lower : LowerSpec := QueryFilterWitness.lower_spec.

(** A unique violation of PostgreSQL, and an exception raised by a trigger. *)
Definition duplicate_of (constraint : string) : PgError := MkPg UniqueViolation "duplicate key value" "" "events" constraint.
Definition denied : PgError := MkPg RaiseException "onbehalf permission denied" "" "" "".

(** A database that counts its statements. *)
Definition counted (e : PgError) (sql : string) (params : gmap string any) (d : nat) : nat * (list databaseEvent * option driverError) :=
  (S d, ([], Some (PgErr e))).
Definition counted_events (e : PgError) (sql : string) (params : gmap string any) (d : nat) : nat * (list Event * option driverError) :=
  (S d, ([], Some (PgErr e))).
Definition no_bool (sql : string) (params : gmap string any) (d : nat) : nat * (option bool * option driverError) := (d, (None, None)).
Definition no_switch (d : nat) : nat * option dbError := (d, None).
Definition client : dbClient nat := MkClient 0%nat ∅.
Definition rows : list databaseEvent := [RollbackWitness.row RollbackWitness.note ""].
Definition statement_of_rows : queryBuilder :=
  match save_statement false rows [] newQueryBuilder with Ok (_, b) => b | _ => newQueryBuilder end.

Lemma duplicates_refused_at_once_witness :
  saveEvents 9 (counted (duplicate_of "events_pkey")) no_switch false rows [] client =
    (MkClient 1%nat ∅, Ok ([], Some (parseError (PgErr (duplicate_of "events_pkey"))))) /\
  handleError (Some (parseError (PgErr (duplicate_of "events_pkey")))) = Some (err ErrRaceCondition).
Proof.
  apply (duplicates_refused_at_once 9 (counted (duplicate_of "events_pkey")) no_switch false rows [] statement_of_rows client 1%nat []
    (duplicate_of "events_pkey")); [vm_compute; reflexivity|reflexivity|reflexivity].
Defined.

Definition by_id : databaseFilterDelete := MkDelete "aa" ["n1"] [] false.
Definition where_by_id : queryBuilder :=
  match BuildForDelete [by_id] newQueryBuilder with Ok (_, b) => b | _ => newQueryBuilder end.

(** With time for nine more attempts the statement runs ten times. *)
Lemma refused_deletion_retried_witness :
  deleteEventsWithDependencies unquote 9 no_bool (counted_events denied) no_switch true [by_id] client =
    (MkClient 10%nat ∅, Err (err ErrOnBehalfAccessDenied)).
Proof.
  apply (refused_deletion_retried unquote 9 no_bool (counted_events denied) no_switch [by_id] where_by_id client denied);
    [vm_compute; reflexivity|reflexivity|reflexivity|reflexivity].
Defined.

(** A database whose statements delete, one after the other, lists of events. *)
Definition scripted (sql : string) (params : gmap string any) (d : list (list Event)) :
    list (list Event) * (list Event * option driverError) :=
  match d with [] => ([], ([], None)) | l :: d => (d, (l, None)) end.
Definition script : list (list Event) := [[RollbackWitness.note]; [RollbackWitness.article "a1" 1600000000]; []].
Definition script_size (d : list (list Event)) : nat := length (concat d).
Definition no_bool_l (sql : string) (params : gmap string any) (d : list (list Event)) :
    list (list Event) * (option bool * option driverError) := (d, (None, None)).
Definition no_switch_l (d : list (list Event)) : list (list Event) * option dbError := (d, None).
Definition no_rows_l (sql : string) (params : gmap string any) (d : list (list Event)) :
    list (list Event) * (list databaseEvent * option driverError) := (d, ([], None)).
Definition no_report_l (op : operationType) (e : option error) (d : list (list Event)) : list (list Event) := d.

Lemma scripted_size sql params d :
  (script_size (scripted sql params d).1 + match (scripted sql params d).2 with (l, None) => length l | _ => 0 end <= script_size d)%nat.
Proof. destruct d as [|l d]; unfold script_size; cbn; [lia|]. rewrite length_app. lia. Qed.

Lemma delete_rounds_ends_witness :
  match (delete_rounds unquote 0 no_bool_l scripted no_switch_l 3 false [by_id] no_rollback (MkClient script ∅)).2 with
  | Ok roll' => false = true \/ roll' = no_rollback
  | OutOfFuel => False
  | _ => false = true
  end.
Proof.
  apply (delete_rounds_ends unquote 0 no_bool_l scripted no_switch_l script_size scripted_size (fun d => le_n _)
    3 false [by_id] no_rollback (MkClient script ∅)); [constructor; [by left|by constructor]|cbn; lia].
Defined.

Lemma RollbackEvents_returns_witness :
  settled (RollbackEvents unquote 0 no_bool_l no_rows_l scripted no_switch_l no_report_l 3 false [RollbackWitness.note]
    (MkClient script {[hashEvents [RollbackWitness.note] := MkRollback ∅ (MkBatch None ∅ [] [by_id])]})).2.
Proof.
  apply (RollbackEvents_returns unquote 0 no_bool_l scripted no_switch_l script_size scripted_size (fun d => le_n _)
    no_rows_l no_report_l (fun sql params d => le_n _)). cbn. lia.
Defined.
End CascadeWitness.
