(* ===== verification/Consensus.v ===== *)
(** * Package command: agreeing on events with the other relays of a user

    src/database/command/command.go.  A batch of events a client sent is mapped to
    transactions, one per chain of its owner, which a fork of CometBFT (not part
    of the repository) broadcasts to the relays of the owner; it answers with an
    error or none and calls back to accept, commit, replay or undo transactions.
    The callbacks main registers (the database accepting, committing and rolling
    back events) and the client of the network change a state that is a
    parameter; so are the JSON of an envelope, the fingerprints of chains and the
    addresses of keys.  Logging is left out. *)

From S2P Require Import Prelude GoStd Nostr Model Filters Content Selection.
Import Strings.

(** ** Parameters *)

Class CometBFT := {
  (** [nostr.EventEnvelope]: its JSON; the events read before an error are kept *)
  env_UnmarshalJSON : string -> list Event * option error;
  env_MarshalJSON : list Event -> option string;
  GetFingerprint : string -> string;
  PubKeyToAddress : string -> option string
}.

Record Transaction : Type := MkTx { Data : string; Fingerprint : string }.

(** What arrives first: the answer of the network or the end of the request. *)
Inductive verdict : Set := Notified (e : option error) | Cancelled.

(** [context.Canceled] *)
Definition Canceled : error := opaque_error.

Section Mapping.
Context {N : Nostr} {G : GoText} {T : EventText} {B : CometBFT}.

(** ** Events and transactions *)

(* src: database/command/command.go 464-474 *)
Definition mapTxToEvent (tx : Transaction) : list Event * option error := env_UnmarshalJSON (Data tx).

(* src: database/command/command.go 431-462 *)
Definition mapEventKindToChainFingerprint (event : Event) : outcome string :=
  if bool_decide (Kind event ∈ [KindRelayListMetadata; CustomIONKindAttestation; KindFileStorageServerList; KindDMRelayList])
  then Ok (GetFingerprint "metadata")
  else if Kind event =? KindGiftWrap then
    let kTag := GetTag event "k" in
    if is_nil kTag then Err opaque_error
    else match Strconv.Atoi (Value kTag) with
         | None => Err opaque_error
         | Some k =>
             if bool_decide (k ∈ [KindDirectMessage; CustomIONKindDirectMessage; KindReaction; KindDeletion])
             then Ok (GetFingerprint "tmp")
             else Ok (GetFingerprint (Strconv.Itoa (Kind event) +:+ Strconv.Itoa k))
         end
  else if bool_decide (Kind event ∈ [KindBadgeDefinition; KindBadgeAward])
  then Ok (GetFingerprint (Strconv.Itoa KindBadgeAward))
  else
    let kTag := GetTag event "k" in
    let kTagValue := if is_nil kTag then "" else "_" +:+ Value kTag in
    Ok (GetFingerprint (Strconv.Itoa (Kind event) +:+ kTagValue)).

(** The events embedded for an event that are sent along. *)
(* src: database/command/command.go 493-500 [mapEventsToTXs] *)
Definition sent_along (acks : list EphemeralEmbeddingEvent) : list Event :=
  EmbeddingEvent <$> filter (fun e => Kind (ContentEvent e) ∈
    [CustomIONKindAttestation; KindProfileMetadata; KindBadgeDefinition; KindBadgeAward]) acks.

(* src: database/command/command.go 480-482 [mapEventsToTXs] *)
Definition not_sent (ev : Event) : bool := IsEphemeral ev && negb (Kind ev =? CustomIONKindEphemeralEmbedding).

(* src: database/command/command.go 480-505 [mapEventsToTXs] *)
Definition encode_event (ackEvents : gmap string (list EphemeralEmbeddingEvent))
    (encodedEvents : gmap string (list Event)) (ev : Event) : outcome (gmap string (list Event)) :=
  if not_sent ev then Ok encodedEvents
  else
    let! fingerprint := mapEventKindToChainFingerprint ev in
    let env := default [] (encodedEvents !! fingerprint) in
    Ok (<[fingerprint := env ++ ev :: sent_along (default [] (ackEvents !! Address ev))]> encodedEvents).

(* src: database/command/command.go 507-516 [mapEventsToTXs] *)
Definition encode_txs (encodedEvents : gmap string (list Event)) : outcome (list Transaction) :=
  for_state (range_set (dom encodedEvents)) [] (fun txs f =>
    match env_MarshalJSON (default [] (encodedEvents !! f)) with
    | Some jBytes => Ok (txs ++ [MkTx jBytes f])
    | None => Err opaque_error
    end).

(* src: database/command/command.go 476-519 *)
Definition mapEventsToTXs (events : list Event) (ackEvents : gmap string (list EphemeralEmbeddingEvent)) :
    outcome (list Transaction) :=
  let! encodedEvents := for_state events ∅ (encode_event ackEvents) in
  encode_txs encodedEvents.

(* src: database/command/command.go 521-538 *)
Definition convertRelaysToBroadcastEndpoints (relays : list string) : list string :=
  omap (fun relay =>
    match url_Parse relay with
    | None => None
    | Some u =>
        match Strconv.ParseUint (Port u) 64 with
        | None => None
        | Some port => Some (Hostname u +:+ ":" +:+ Strconv.Itoa ((port + 10000) mod 2 ^ 64))
        end
    end) relays.
End Mapping.

(** ** The consensus of a relay *)

Section Consensus.
Context {N : Nostr} {G : GoText} {T : EventText} {B : CometBFT} {S : Type}.
(** The stored events of a query, with the errors of the iterator. *)
Context (Query : list Filter -> S -> S * list (Event + error)).
(** The callbacks main registers; a replay is told by the context. *)
Context (consensusEventListener commitEventListener : bool -> list Event -> ST S unit) (rollback : list Event -> ST S unit).
(** The client of the network: a broadcast of transactions and the removal of the
    chains of a user. *)
Context (BroadcastTx : string -> list string -> list Transaction -> S -> S * verdict).
Context (BroadcastTxRemoval : string -> list string -> S -> S * option error).

(** *** Callbacks of the network *)

(** The events of transactions, in order. *)
(* src: database/command/command.go 68-75 [CommitBroadcastTx] *)
Definition tx_events (transactions : list Transaction) : outcome (list Event) :=
  for_state transactions [] (fun events tx =>
    match mapTxToEvent tx with
    | (_, Some x) => Err x
    | (evs, None) => Ok (events ++ evs)
    end).

(** A listener is called when there is something to tell. *)
(* src: database/command/command.go 77-88 [CommitBroadcastTx] *)
Definition tell (listener : list Event -> ST S unit) (events : list Event) : ST S unit :=
  if is_nil events then mret () else listener events.

(* src: database/command/command.go 67-90 *)
Definition CommitBroadcastTx (transactions : list Transaction) : ST S unit :=
  events ← lift_st (tx_events transactions); tell (commitEventListener false) events.

(* src: database/command/command.go 96-119 *)
Definition AcceptBroadcastTx (transactions : list Transaction) : ST S unit :=
  events ← lift_st (tx_events transactions); tell (consensusEventListener false) events.

(* src: database/command/command.go 121-145 *)
Definition ReplayBroadcastTxBatch (transactions : list Transaction) : ST S unit :=
  events ← lift_st (tx_events transactions);
  tell (consensusEventListener true) events ;;
  tell (commitEventListener true) events.

(* src: database/command/command.go 147-158 *)
Definition RollbackTx (transactions : list Transaction) : ST S unit :=
  events ← lift_st (tx_events transactions); rollback events.

(** *** Whose events these are *)

(** The first item of an iterator. *)
Definition first_event (f : Filter) : ST S (option Event) := fun s =>
  let '(s, items) := Query [f] s in
  match items with
  | [] => (s, Ok None)
  | inl e :: _ => (s, Ok (Some e))
  | inr x :: _ => (s, Err x)
  end.

(* src: database/command/command.go 244-259 *)
Definition fetchUserRelays (userMasterKey : string) : ST S (list string) :=
  ev ← first_event (MkFilter None (Some [KindRelayListMetadata]) (Some [userMasterKey]) None None None None 0 "");
  mret match ev with Some ev => CollectRelaysFromRelayEvent ev | None => [] end.

(** The event found and the key of its owner. *)
(* src: database/command/command.go 414-429 *)
Definition getEvent (address : string) : ST S (option Event * string) :=
  event ← first_event (MkFilter None None None (Some [address]) None None None 0 "");
  mret (event, match event with Some e => GetMasterPublicKey e | None => "" end).

(** The tags that refer to events, until one is found. *)
(* src: database/command/command.go 379-390 [broadcastMasterKey] *)
Fixpoint referenced (ev : Event) (refTags : list string) (linked : option Event * string) : ST S (option Event * string) :=
  match refTags with
  | [] => mret linked
  | tagName :: refTags =>
      let tag := GetTag ev tagName in
      if Value tag ≠s? "" then
        linked ← getEvent (Value tag);
        if bool_decide (is_Some linked.1) && (linked.2 ≠s? "") then mret linked else referenced ev refTags linked
      else referenced ev refTags linked
  end.

Definition no_link : option Event * string := (None, "").

(* src: database/command/command.go 367-390 [broadcastMasterKey] *)
Definition linked_text (ev : Event) : ST S (option Event * string) :=
  let pTag := GetTag ev "p" in
  let eTag := GetTag ev "e" in
  mentioned ← (if Value pTag ≠s? "" then
                 relays ← attempt_st (fetchUserRelays (Value pTag));
                 mret match relays with inl (_ :: _) => (None, Value pTag) | _ => no_link end
               else mret no_link);
  replied ← (if (Value eTag ≠s? "") && (match eTag !! 3%nat with Some m => m =s? TagMarkerReply | None => false end)
             then getEvent (Value eTag) else mret mentioned);
  referenced ev ["q"; "Q"; "a"] replied.

(** The event another one depends on, and whose chains it belongs to. *)
(* src: database/command/command.go 339-393 [broadcastMasterKey] *)
Definition linked_event (ev : Event) : ST S (option Event * string) :=
  if bool_decide (Kind ev ∈ [KindRepost; KindGenericRepost]) then
    match UnmarshalJSON (Content ev) with
    | None => lift_st (Err opaque_error)
    | Some reposted => mret (Some reposted, GetMasterPublicKey reposted)
    end
  else if Kind ev =? KindFollowList then
    let pTag := GetTag ev "p" in
    mret (None, if (2 <? length pTag)%nat then Value pTag else "")
  else if Kind ev =? KindReaction then
    linked ← (if Value (GetTag ev "e") ≠s? "" then getEvent (Value (GetTag ev "e")) else mret no_link);
    (if Value (GetTag ev "a") ≠s? "" then getEvent (Value (GetTag ev "a")) else mret linked)
  else if bool_decide (Kind ev ∈ [KindTextNote; CustomIONKindEditableTextNote; KindArticle]) then linked_text ev
  else mret (None, GetMasterPublicKey ev).

(** Events nobody embedded anything for: [None] goes on to the linked event. *)
(* src: database/command/command.go 310-338 [broadcastMasterKey] *)
Definition plain_key (ev : Event) (incomingEvents : list Event) : outcome (option string) :=
  if Kind ev =? KindGiftWrap then
    let pTag := GetTag ev "p" in
    Ok (if (2 <? length pTag)%nat then Some (Value pTag) else None)
  else if Kind ev =? KindBadgeAward then Ok (Some (Value (GetTag ev "p")))
  else if Kind ev =? KindBadgeDefinition then
    match list_find (fun e => Kind e = KindBadgeAward) incomingEvents with
    | None => Err (err ErrUserIsNotPresentedOnRelay)
    | Some (_, award) => Ok (Some (Value (GetTag award "p")))
    end
  else Ok (Some (GetMasterPublicKey ev)).

(** The key of a missing event is read for the message of the error. *)
(* src: database/command/command.go 394-411 [broadcastMasterKey] *)
Definition acknowledged_key (ev : Event) (acks : list EphemeralEmbeddingEvent) (linked : option Event * string) : outcome string :=
  reject (err ErrUserIsNotPresentedOnRelay) when bool_decide (linked.1 = None) && (linked.2 =s? "") ;;
  if existsb (fun a => GetMasterPublicKey ev ≠s? GetMasterPublicKey (EmbeddingEvent a)) acks then
    match linked.1 with
    | Some _ => Err (err ErrUserIsNotPresentedOnRelay)
    | None => Panic
    end
  else Ok linked.2.

(* src: database/command/command.go 307-412 *)
Definition broadcastMasterKey (ephemeralAckEvents : gmap string (list EphemeralEmbeddingEvent)) (incomingEvents : list Event)
    (ev : Event) : ST S string :=
  let acks := default [] (ephemeralAckEvents !! Address ev) in
  plain ← (if is_nil acks then lift_st (plain_key ev incomingEvents) else mret None);
  match plain with
  | Some key => mret key
  | None => linked ← linked_event ev; lift_st (acknowledged_key ev acks linked)
  end.

(** *** The owner of a batch *)

(** The keys found, the last relay list seen ([None] is the [nil] slice) and
    whether a profile is deleted. *)
(* src: database/command/command.go 262-264 [getUserAndRelaysForBroadcast] *)
Record owners : Type := MkOwners {
  userMasterKeys : gmap string (option (list string));
  seen_relays : option (list string);
  profileDeletion : bool
}.
Definition no_owners : owners := MkOwners ∅ None false.

(** An event is not broadcast to anybody: it is skipped. *)
(* src: database/command/command.go 267-269 [getUserAndRelaysForBroadcast] *)
Definition not_owned (ev : Event) : bool := IsEphemeral ev || IsJobResponse ev || IsJobRequest ev.

(** A key without relays yet gets those seen last. *)
(* src: database/command/command.go 283-285 [getUserAndRelaysForBroadcast] *)
Definition add_owner (o : owners) (key : string) : owners :=
  match userMasterKeys o !! key with
  | Some (Some _) => o
  | _ => MkOwners (<[key := seen_relays o]> (userMasterKeys o)) (seen_relays o) (profileDeletion o)
  end.

(* src: database/command/command.go 270-275 [getUserAndRelaysForBroadcast] *)
Definition observe (o : owners) (ev : Event) : owners :=
  MkOwners (userMasterKeys o)
    (if Kind ev =? KindRelayListMetadata then Some (CollectRelaysFromRelayEvent ev) else seen_relays o)
    (profileDeletion o || ((Kind ev =? KindDeletion) && is_nil (EvTags ev) && (PubKey ev =s? GetMasterPublicKey ev))).

(* src: database/command/command.go 266-286 [getUserAndRelaysForBroadcast] *)
Fixpoint find_owners (acks : gmap string (list EphemeralEmbeddingEvent)) (incomingEvents events : list Event) (o : owners) :
    ST S owners :=
  match events with
  | [] => mret o
  | ev :: events =>
      if not_owned ev then find_owners acks incomingEvents events o
      else
        let o := observe o ev in
        key ← attempt_st (broadcastMasterKey acks incomingEvents ev);
        match key with
        | inl key => find_owners acks incomingEvents events (add_owner o key)
        | inr x =>
            if error_is x ErrUserIsNotPresentedOnRelay then find_owners acks incomingEvents events o
            else lift_st (Err x)
        end
  end.

(** What is broadcast to whom. *)
Record recipients : Type := MkRecipients {
  masterKey : string;
  to_relays : list string;
  ackEvents : gmap string (list EphemeralEmbeddingEvent);
  isProfileDeletion : bool
}.

(** The embeddings of a batch; a malformed one leaves none, its error is
    overwritten. *)
(* src: database/command/command.go 264 [getUserAndRelaysForBroadcast] *)
Definition batch_acks (events : list Event) : gmap string (list EphemeralEmbeddingEvent) :=
  match ParseEphemeralEmbeddingEvents events with Ok acks => acks | _ => ∅ end.

(* src: database/command/command.go 261-305 *)
Definition getUserAndRelaysForBroadcast (events : list Event) : ST S recipients :=
  let acks := batch_acks events in
  o ← find_owners acks events events no_owners;
  match map_to_list (userMasterKeys o) with
  | [] => mret (MkRecipients "" [] ∅ false)
  | [(key, relays)] =>
      relays ← (if is_nil (default [] relays) then fetchUserRelays key else mret (default [] relays));
      mret (MkRecipients key relays acks (profileDeletion o))
  | _ => lift_st (Err (err ErrMultipleMasterKeys))
  end.

(** *** Broadcasting *)

(* src: database/command/command.go 207-242 *)
Definition rollbackIfErr (v : verdict) (events : list Event) : ST S unit :=
  match v with
  | Notified None => mret ()
  | Notified (Some x) => r ← attempt_st (rollback events);
      lift_st (Err match r with inl _ => x | inr y => join_error x y end)
  | Cancelled => r ← attempt_st (rollback events);
      lift_st (Err match r with inl _ => Canceled | inr y => join_error Canceled y end)
  end.

(** The transactions of a batch and the address of their chains. *)
(* src: database/command/command.go 186-200 [broadcastUserEvents] *)
Definition prepared (r : recipients) (events : list Event) : outcome (option (string * list Transaction)) :=
  let! txs := mapEventsToTXs events (ackEvents r) in
  match Hex.DecodeString (masterKey r) with
  | None => Err opaque_error
  | Some userMasterKeyBytes =>
      if is_nil txs then Ok None
      else match PubKeyToAddress userMasterKeyBytes with
           | None => Err opaque_error
           | Some userAddr => Ok (Some (userAddr, txs))
           end
  end.

(** The two calls of the client of the network, and their answers. *)
(* src: database/command/command.go 182-184 [broadcastUserEvents] *)
Definition remove_chains (key : string) (endpoints : list string) : ST S unit := fun s =>
  let '(s, e) := BroadcastTxRemoval key endpoints s in (s, match e with Some x => Err x | None => Ok () end).
Definition call_broadcast (userAddr : string) (endpoints : list string) (txs : list Transaction) : ST S verdict := fun s =>
  let '(s, v) := BroadcastTx userAddr endpoints txs s in (s, Ok v).

(* src: database/command/command.go 167-205 *)
Definition broadcastUserEvents (events : list Event) : ST S unit :=
  r ← getUserAndRelaysForBroadcast events;
  if masterKey r =s? "" then mret ()
  else if is_nil (to_relays r) then lift_st (Err (err ErrUserIsNotPresentedOnRelay))
  else
    let endpoints := convertRelaysToBroadcastEndpoints (to_relays r) in
    if isProfileDeletion r then remove_chains (masterKey r) endpoints
    else
      p ← lift_st (prepared r events);
      match p with
      | None => mret ()
      | Some (userAddr, txs) => v ← call_broadcast userAddr endpoints txs; rollbackIfErr v events
      end.

(** The consensus is off unless it was initialised. *)
(* src: database/command/global.go 179-187 *)
Definition AcceptEvents (disabled : bool) (events : list Event) : ST S unit :=
  if disabled then mret () else broadcastUserEvents events.
End Consensus.
