(* ===== verification/Agreement.v ===== *)
(** * Agreement on events: what is sent, to whom, and what is undone

    Theorems about src/database/command/command.go (file Consensus), alone and with
    the database as its callbacks (files Store and Rollback). *)

From S2P Require Import Prelude GoStd Nostr Model Filters Content Validator QueryFilter QueryBuilder QuerySafety Connector Rows Status Selection Store Rollback Consensus.
Import Strings.

(** The JSON of an envelope can be read back. *)
Class CometBFTSpec `{CometBFT} : Prop := {
  env_roundtrip : forall l j, env_MarshalJSON l = Some j -> env_UnmarshalJSON j = (l, None)
}.

(** ** Transactions *)

Section Transactions.
Context {N : Nostr} {T : EventText} {TS : EventTextSpec} {B : CometBFT} {BS : CometBFTSpec}.

(** The events of one chain, each followed by what was embedded for it. *)
Definition chain_events (acks : gmap string (list EphemeralEmbeddingEvent)) (f : string) (events : list Event) : list Event :=
  concat (map (fun ev =>
    if negb (not_sent ev) && bool_decide (mapEventKindToChainFingerprint ev = Ok f)
    then ev :: sent_along (default [] (acks !! Address ev)) else []) events).

(** An event sent on a chain. *)
Definition sent_on (f : string) (ev : Event) : Prop := not_sent ev = false /\ mapEventKindToChainFingerprint ev = Ok f.

Lemma encode_events acks events : forall m m',
  for_state events m (encode_event acks) = Ok m' ->
  forall f, default [] (m' !! f) = default [] (m !! f) ++ chain_events acks f events /\
    (is_Some (m' !! f) <-> is_Some (m !! f) \/ Exists (sent_on f) events).
Proof.
  induction events as [|ev events IH]; intros m m' Hm f; cbn [for_state] in Hm.
  - injection Hm as <-. cbn. rewrite List.app_nil_r. split; [done|]. rewrite Exists_nil. tauto.
  - apply bind_Ok in Hm as (m1 & He & Hm). destruct (IH _ _ Hm f) as [Hd Hs]. clear IH Hm.
    unfold encode_event in He. unfold chain_events in *. cbn [map concat]. rewrite Hd, Hs, Exists_cons. unfold sent_on at 2.
    destruct (not_sent ev) eqn:Hn; cbn [negb andb].
    + injection He as <-. split; [done|naive_solver].
    + apply bind_Ok in He as (f' & Hf & [= <-]). rewrite Hf. destruct (decide (f' = f)) as [->|Hne].
      * rewrite bool_decide_eq_true_2, lookup_insert_eq by done. cbn. rewrite <- List.app_assoc. split; [done|]. split; [naive_solver|eauto].
      * rewrite bool_decide_eq_false_2, lookup_insert_ne by congruence. split; [done|]. split; [naive_solver|].
        intros [?|[[_ [= ?]]|?]]; [by left|done|by right].
Qed.

Lemma encode_txs_all (m : gmap string (list Event)) fs : forall acc txs,
  for_state fs acc (fun txs f => match env_MarshalJSON (default [] (m !! f)) with
    | Some jBytes => Ok (txs ++ [MkTx jBytes f]) | None => Err opaque_error end) = Ok txs ->
  exists new, txs = acc ++ new /\ Fingerprint <$> new = fs /\
    Forall (fun tx => mapTxToEvent tx = (default [] (m !! Fingerprint tx), None)) new.
Proof.
  induction fs as [|f fs IH]; intros acc txs H; cbn [for_state] in H.
  - injection H as <-. exists []. by rewrite List.app_nil_r.
  - apply bind_Ok in H as (acc' & Hf & H). destruct (env_MarshalJSON _) as [j|] eqn:Hj; [|done]. injection Hf as <-.
    destruct (IH _ _ H) as (new & -> & Hn & Hall). exists (MkTx j f :: new). rewrite <- List.app_assoc. cbn. rewrite Hn.
    split_and!; [done..|]. constructor; [|done]. cbn. by apply env_roundtrip.
Qed.

End Transactions.

(** ** Endpoints *)

Section Endpoints.
Context {G : GoText}.

(** A relay is contacted on the port of its URL plus ten thousand; a relay
    whose URL does not name a port, such as one on the standard port, or cannot be
    parsed is not contacted at all. *)
Lemma endpoints_of_ports relays e :
  e ∈ convertRelaysToBroadcastEndpoints relays <->
  exists relay u port, relay ∈ relays /\ url_Parse relay = Some u /\ Port u ≠ "" /\
    Strconv.ParseUint (Port u) 64 = Some port /\ e = Hostname u +:+ ":" +:+ Strconv.Itoa ((port + 10000) mod 2 ^ 64).
Proof.
  unfold convertRelaysToBroadcastEndpoints. rewrite list_elem_of_omap. split.
  - intros (relay & Hr & He). destruct (url_Parse relay) as [u|] eqn:Hu; [|done].
    destruct (Strconv.ParseUint (Port u) 64) as [port|] eqn:Hp; [|done]. injection He as <-.
    exists relay, u, port. split_and!; try done. intros Hn. by rewrite Hn in Hp.
  - intros (relay & u & port & Hr & Hu & _ & Hp & ->). exists relay. by rewrite Hu, Hp.
Qed.
End Endpoints.

(** ** Owners and broadcasts *)

Create HintDb reads.

Section Broadcast.
Context {N : Nostr} {G : GoText} {T : EventText} {B : CometBFT} {S : Type}.
Context (Query : list Filter -> S -> S * list (Event + error)).
(** Reading stored events changes nothing. *)
Hypothesis Query_reads : forall fs s, (Query fs s).1 = s.

Abbreviation master_key := (broadcastMasterKey Query).
Abbreviation recipients_of := (getUserAndRelaysForBroadcast Query).

(** Programs that change nothing. *)
Definition reads {A} (m : ST S A) : Prop := forall s, (m s).1 = s.

Lemma reads_ret {A} (a : A) : reads (mret a).
Proof. done. Qed.
Lemma reads_lift {A} (m : outcome A) : reads (lift_st m).
Proof. done. Qed.
Lemma reads_bind {A A'} (m : ST S A) (k : A -> ST S A') : reads m -> (forall a, reads (k a)) -> reads (mbind k m).
Proof.
  intros Hm Hk s. specialize (Hm s). unfold mbind, ST_bind. destruct (m s) as [s1 [a| | |]]; cbn in Hm; subst; [apply Hk|done..].
Qed.
Lemma reads_attempt {A} (m : ST S A) : reads m -> reads (attempt_st m).
Proof. intros Hm s. specialize (Hm s). unfold attempt_st. by destruct (m s) as [s1 [a| | |]]. Qed.
Lemma reads_if {A} (b : bool) (m1 m2 : ST S A) : reads m1 -> reads m2 -> reads (if b then m1 else m2).
Proof. by destruct b. Qed.
Lemma reads_first_event f : reads (first_event Query f).
Proof.
  intros s. unfold first_event. pose proof (Query_reads [f] s) as Hq. destruct (Query [f] s) as [s1 items]. cbn in Hq. subst.
  by destruct items as [|[e|x] items].
Qed.
#[local] Hint Resolve reads_ret reads_lift reads_attempt reads_first_event : reads.

Lemma reads_fetch key : reads (fetchUserRelays Query key).
Proof. apply reads_bind; auto with reads. Qed.
Lemma reads_getEvent a : reads (getEvent Query a).
Proof. apply reads_bind; auto with reads. Qed.
#[local] Hint Resolve reads_fetch reads_getEvent : reads.

Lemma reads_referenced ev tags linked : reads (referenced Query ev tags linked).
Proof.
  revert linked. induction tags as [|t tags IH]; intros linked; cbn [referenced]; [done|].
  apply reads_if; [|apply IH]. apply reads_bind; [auto with reads|]. intros l. apply reads_if; auto with reads.
Qed.

Lemma reads_master_key acks incoming ev : reads (master_key acks incoming ev).
Proof.
  unfold broadcastMasterKey. apply reads_bind; [apply reads_if; auto with reads|]. intros [key|]; [done|].
  apply reads_bind; [|auto with reads]. unfold linked_event.
  repeat apply reads_if; auto with reads.
  - by destruct (UnmarshalJSON _).
  - apply reads_bind; [apply reads_if; auto with reads|]. intros l. apply reads_if; auto with reads.
  - unfold linked_text. apply reads_bind; [apply reads_if; [|auto with reads]; apply reads_bind; auto with reads|].
    intros l. apply reads_bind; [apply reads_if; auto with reads|]. intros l'. apply reads_referenced.
Qed.
#[local] Hint Resolve reads_master_key : reads.

(** What an event says about the owner of its batch: a key, or nothing. *)
Definition says (acks : gmap string (list EphemeralEmbeddingEvent)) (incoming : list Event) (s : S) (keys : gset string) (ev : Event) : Prop :=
  not_owned ev = false ->
  (exists key, (master_key acks incoming ev s).2 = Ok key /\ key ∈ keys) \/
  (exists x, (master_key acks incoming ev s).2 = Err x /\ error_is x ErrUserIsNotPresentedOnRelay = true).

Lemma add_owner_dom o key : dom (userMasterKeys (add_owner o key)) = {[key]} ∪ dom (userMasterKeys o).
Proof.
  unfold add_owner. destruct (userMasterKeys o !! key) as [[r|]|] eqn:Hk; cbn; rewrite ?dom_insert_L; try done.
  apply leibniz_equiv. assert (key ∈ dom (userMasterKeys o)) by (apply elem_of_dom; eauto). set_solver.
Qed.

Lemma find_owners_says acks incoming events : forall o s s' o',
  find_owners Query acks incoming events o s = (s', Ok o') ->
  s' = s /\ dom (userMasterKeys o) ⊆ dom (userMasterKeys o') /\
  Forall (says acks incoming s (dom (userMasterKeys o'))) events.
Proof.
  induction events as [|ev events IH]; intros o s s' o'; cbn [find_owners]; [by intros [= <- <-]|].
  destruct (not_owned ev) eqn:Hn.
  - intros Hf. apply IH in Hf as (-> & Hd & Hall). split_and!; [done..|]. constructor; [|done]. unfold says. congruence.
  - intros (s1 & key & Hk & Hf)%bind_st_Ok. apply attempt_st_Ok in Hk.
    assert (Hs : s1 = s). { pose proof (reads_master_key acks incoming ev s) as Hr. destruct key; rewrite Hk in Hr; done. }
    subst s1. destruct key as [key|x].
    + apply IH in Hf as (-> & Hd & Hall). rewrite add_owner_dom in Hd. split_and!; [done|set_solver|]. constructor; [|done].
      intros _. left. exists key. rewrite Hk. split; [done|set_solver].
    + destruct (error_is x _) eqn:Hx; [|done]. apply IH in Hf as (-> & Hd & Hall). split_and!; [done..|]. constructor; [|done].
      intros _. right. exists x. by rewrite Hk.
Qed.

Lemma reads_find_owners acks incoming events o : reads (find_owners Query acks incoming events o).
Proof.
  revert o. induction events as [|ev events IH]; intros o; cbn [find_owners]; [done|]. apply reads_if; [apply IH|].
  apply reads_bind; [auto with reads|]. intros [key|x]; [apply IH|]. apply reads_if; [apply IH|done].
Qed.

Lemma reads_recipients events : reads (recipients_of events).
Proof.
  unfold getUserAndRelaysForBroadcast. apply reads_bind; [apply reads_find_owners|]. intros o.
  destruct (map_to_list _) as [|[key relays] [|]]; [done| |done]. apply reads_bind; [apply reads_if; auto with reads|done].
Qed.

(** An event of a batch is the account's, as far as this relay knows its owner. *)
Definition owned_by (key : string) (events : list Event) (s : S) (ev : Event) : Prop :=
  (broadcastMasterKey Query (batch_acks events) events ev s).2 = Ok key \/
  exists x, (broadcastMasterKey Query (batch_acks events) events ev s).2 = Err x /\ error_is x ErrUserIsNotPresentedOnRelay = true.


(** An event of a kind that links to no other, for which something was embedded
    by another account, brings the relay down: the message of the refusal reads the
    owner of the event it is linked to, which does not exist. *)
Lemma foreign_embedding_panics acks incoming ev a l s :
  acks !! Address ev = Some l -> a ∈ l -> GetMasterPublicKey (EmbeddingEvent a) ≠ GetMasterPublicKey ev ->
  Kind ev ∉ [KindRepost; KindGenericRepost; KindFollowList; KindReaction; KindTextNote; CustomIONKindEditableTextNote; KindArticle] ->
  GetMasterPublicKey ev ≠ "" ->
  (master_key acks incoming ev s).2 = Panic.
Proof.
  intros Ha Hin Hm Hk Hne. unfold broadcastMasterKey. rewrite Ha. cbn [default from_option].
  destruct l as [|a0 l]; [by apply elem_of_nil in Hin|]. cbn [is_nil]. rewrite !not_elem_of_cons in Hk.
  assert (Hl : linked_event Query ev = mret (None, GetMasterPublicKey ev)).
  { unfold linked_event. rewrite bool_decide_eq_false_2 by set_solver. rewrite (proj2 (Z.eqb_neq _ _)) by naive_solver.
    rewrite (proj2 (Z.eqb_neq _ _)) by naive_solver. rewrite bool_decide_eq_false_2 by set_solver. done. }
  unfold mbind at 1, ST_bind. cbn [mret ST_ret]. rewrite Hl. cbn [snd].
  change (acknowledged_key ev (a0 :: l) (None, GetMasterPublicKey ev) = Panic). unfold acknowledged_key. cbn [fst snd].
  rewrite (proj2 (String.eqb_neq _ _) Hne), andb_false_r.
  assert (Hx : existsb (fun a => GetMasterPublicKey ev ≠s? GetMasterPublicKey (EmbeddingEvent a)) (a0 :: l) = true); [|by rewrite Hx].
  apply existsb_exists. exists a. split; [by apply list_elem_of_In|]. apply negb_true_iff. apply String.eqb_neq. congruence.
Qed.

(** What the batch is handed to. *)
Context (rollback : list Event -> ST S unit).
Context (BroadcastTx : string -> list string -> list Transaction -> S -> S * verdict).
Context (BroadcastTxRemoval : string -> list string -> S -> S * option error).
Abbreviation broadcast := (broadcastUserEvents Query rollback BroadcastTx BroadcastTxRemoval).

(** How an attempt to agree ends. *)
Inductive ending (events : list Event) (s : S) : S -> outcome unit -> Prop :=
  | nothing_sent r : ending events s s r
  | chains_removed key endpoints s' e :
      BroadcastTxRemoval key endpoints s = (s', e) ->
      ending events s s' (match e with Some x => Err x | None => Ok () end)
  | agreed addr endpoints txs s' :
      BroadcastTx addr endpoints txs s = (s', Notified None) -> ending events s s' (Ok ())
  | refused_undone addr endpoints txs s1 v s' r x :
      BroadcastTx addr endpoints txs s = (s1, v) -> v ≠ Notified None -> rollback events s1 = (s', r) ->
      (r = Ok () \/ exists y, r = Err y) -> ending events s s' (Err x)
  | undo_failed addr endpoints txs s1 v s' r :
      BroadcastTx addr endpoints txs s = (s1, v) -> v ≠ Notified None -> rollback events s1 = (s', r) ->
      r = Panic \/ r = OutOfFuel -> ending events s s' (match r with Panic => Panic | _ => OutOfFuel end).

Lemma rollbackIfErr_ends v addr endpoints txs events s s1 s' r :
  BroadcastTx addr endpoints txs s = (s1, v) -> rollbackIfErr rollback v events s1 = (s', r) -> ending events s s' r.
Proof.
  intros Hb. unfold rollbackIfErr, mbind, ST_bind, attempt_st. destruct v as [[x|]|].
  - destruct (rollback events s1) as [s2 [[]|y| |]] eqn:Hr; intros [= <- <-].
    + eapply refused_undone; eauto.
    + eapply refused_undone; eauto.
    + eapply (undo_failed events s addr endpoints txs s1 _ s2 Panic); eauto.
    + eapply (undo_failed events s addr endpoints txs s1 _ s2 OutOfFuel); eauto.
  - intros [= <- <-]. by eapply agreed.
  - destruct (rollback events s1) as [s2 [[]|y| |]] eqn:Hr; intros [= <- <-].
    + eapply refused_undone; eauto.
    + eapply refused_undone; eauto.
    + eapply (undo_failed events s addr endpoints txs s1 _ s2 Panic); eauto.
    + eapply (undo_failed events s addr endpoints txs s1 _ s2 OutOfFuel); eauto.
Qed.

(** An attempt to agree on a batch ends in one of four ways: nothing was sent,
    and nothing is undone even when it is an error; the chains of a deleted account
    were asked to be removed, which is never undone; the network agreed; or it
    refused or did not answer, and the batch was rolled back before the error was
    returned. *)
Lemma broadcastUserEvents_ends events s s' r : broadcast events s = (s', r) -> ending events s s' r.
Proof.
  unfold broadcastUserEvents. unfold mbind at 1, ST_bind. pose proof (reads_recipients events s) as Hs.
  destruct (recipients_of events s) as [s1 [rc|x| |]]; cbn in Hs; subst s1; try (intros [= <- <-]; constructor).
  destruct (masterKey rc =s? ""); [intros [= <- <-]; constructor|]. destruct (is_nil (to_relays rc)); [intros [= <- <-]; constructor|].
  cbv zeta. destruct (isProfileDeletion rc).
  - unfold remove_chains. destruct (BroadcastTxRemoval _ _ s) as [s1 e] eqn:Hb. intros [= <- <-]. by eapply chains_removed.
  - unfold mbind at 1, ST_bind, lift_st. destruct (prepared rc events) as [[[addr txs]|]|x| |]; try (intros [= <- <-]; constructor).
    unfold mbind, ST_bind, call_broadcast. destruct (BroadcastTx _ _ _ s) as [s1 v] eqn:Hb. intros Hv. exact (rollbackIfErr_ends _ _ _ _ _ _ _ _ _ Hb Hv).
Qed.

End Broadcast.

(** ** The callbacks of main *)

Section Callbacks.
Context {N : Nostr} {G : GoText} {R : RichText} {RT : RowText} {C : Crypto} {E : Env} {T : EventText} {B : CometBFT}.
Context {TM : TagMaps} {U : Unicode} {TK : Tokenizer}.
Context (Unquote : string -> option string) (filters_base64 : list Filter -> string).
Context (relayPrivateKey relayURL : string).
Context {D : Type} (attempts : nat).
Context (run_rows : string -> gmap string any -> D -> D * (list databaseEvent * option driverError)).
Context (run_bool : string -> gmap string any -> D -> D * (option bool * option driverError)).
Context (exec_rows : string -> gmap string any -> D -> D * (list databaseEvent * option driverError)).
Context (exec_events : string -> gmap string any -> D -> D * (list Event * option driverError)).
Context (exec_ids : string -> list string -> D -> D * (list Event * option driverError)).
Context (switch : D -> D * option dbError).
Context (operationReporter : operationType -> option error -> D -> D).
(** [storage.AcceptEvents], the fuel of deletions. *)
Context (storage : list Event -> ST (dbClient D) unit) (fuel : nat).

(* src: cmd/subzero-ion-connect/subzero_ion_connect.go 133-138 [init] *)
Definition accept_listener (replay : bool) (events : list Event) : ST (dbClient D) unit :=
  Store.AcceptEvents Unquote filters_base64 relayPrivateKey relayURL attempts run_rows run_bool exec_rows exec_events switch
    operationReporter fuel replay events ;;
  mret ().

(** New events are then sent to subscribers in the background. *)
(* src: cmd/subzero-ion-connect/subzero_ion_connect.go 139-151 [init] *)
Definition commit_listener (replay : bool) (events : list Event) : ST (dbClient D) unit :=
  events ← CommitEvents attempts exec_ids switch replay events; storage events.

Hypothesis storage_quiet : forall events, quiet (storage events).

Lemma accept_listener_record replay events s s' r : accept_listener replay events s = (s', r) ->
  rollbackableEvents s' = rollbackableEvents s \/
  exists roll, rollbackableEvents s' = <[hashEvents events := roll]> (rollbackableEvents s).
Proof.
  unfold accept_listener. unfold mbind at 1, ST_bind.
  destruct (Store.AcceptEvents _ _ _ _ _ _ _ _ _ _ _ _ _ _ s) as [s1 x] eqn:Ha. apply accept_step in Ha. intros Hx.
  assert (s' = s1) as -> by (by destruct x; injection Hx).
  destruct Ha as [Ha|(roll & req & _ & _ & Ha)]; eauto.
Qed.

Lemma commit_listener_record replay events s :
  rollbackableEvents (commit_listener replay events s).1 = delete (hashEvents events) (rollbackableEvents s).
Proof.
  unfold commit_listener. pose proof (commit_step attempts exec_ids switch replay events s) as Hc. unfold mbind, ST_bind.
  destruct (CommitEvents _ _ _ _ _ s) as [s1 [evs| | |]]; [|done..]. by rewrite storage_quiet.
Qed.

(** Replaying the blocks of a chain leaves nothing to undo: transactions that
    are accepted and committed are not in the record of batches to undo, whatever
    was recorded before, and a batch that is not accepted leaves the record as it
    was or with itself. *)
Lemma replay_leaves_nothing_to_undo transactions events s s' r :
  tx_events transactions = Ok events -> events ≠ [] ->
  ReplayBroadcastTxBatch accept_listener commit_listener transactions s = (s', r) ->
  (r = Ok () -> rollbackableEvents s' = delete (hashEvents events) (rollbackableEvents s)) /\
  delete (hashEvents events) (rollbackableEvents s') = delete (hashEvents events) (rollbackableEvents s).
Proof.
  intros Ht Hne. unfold ReplayBroadcastTxBatch. unfold mbind at 1, ST_bind, lift_st. rewrite Ht.
  unfold tell. destruct events as [|e events]; [done|]. cbn [is_nil]. set (l := e :: events). unfold mbind at 1, ST_bind.
  destruct (accept_listener true l s) as [s1 x] eqn:Ha. apply accept_listener_record in Ha.
  assert (Hd : delete (hashEvents l) (rollbackableEvents s1) = delete (hashEvents l) (rollbackableEvents s)).
  { destruct Ha as [->|[roll ->]]; [done|apply delete_insert_eq]. }
  destruct x as [[]|x| |]; try (intros [= <- <-]; by split).
  intros Hc. pose proof (commit_listener_record true l s1) as Hr. rewrite Hc in Hr. cbn in Hr. rewrite Hr, Hd.
  split; [done|]. apply delete_delete_eq.
Qed.
End Callbacks.

(** ** Concrete inputs *)
Module AgreementWitness.
Import SelectionPlain.

Definition owner : string := "aabb".
Definition note : Event := MkEvent None "n1" owner 1700000000 1 [] "hi" "sig".
Definition is_note (e : Event) : bool :=
  match e with
  | MkEvent None id pk at_ k [] c sg =>
      (id =s? "n1") && (pk =s? owner) && (at_ =? 1700000000) && (k =? 1) && (c =s? "hi") && (sg =s? "sig")
  | _ => false
  end.

(** The JSON of one envelope. *)
#[local] Instance comet : CometBFT := {|
  env_UnmarshalJSON j := if j =s? "[note]" then ([note], None) else ([], Some opaque_error);
  env_MarshalJSON l := match l with [e] => if is_note e then Some "[note]" else None | _ => None end;
  GetFingerprint s := s; PubKeyToAddress s := Some s |}.
#[local] Instance comet_spec : CometBFTSpec.
Proof.
  constructor. intros l j. cbn. destruct l as [|e [|]]; try done. destruct (is_note e) eqn:He; [|done]. intros [= <-]. cbn.
  revert He. unfold is_note. destruct e as [[prev|] id pk at_ k [|t ts] c sg]; try done.
  rewrite !andb_true_iff, !String.eqb_eq, !Z.eqb_eq. intros (((((-> & ->) & ->) & ->) & ->) & ->). done.
Qed.
#[local] Instance text : GoText := {|
  ToLower s := s; EqualFold := String.eqb;
  url_Parse s := if s =s? "wss://relay.example:443" then Some (MkURL "wss" "" "relay.example" "443")
                 else if s =s? "wss://relay.example" then Some (MkURL "wss" "" "relay.example" "") else None;
  url_without_port s := s |}.


Example only_named_ports : convertRelaysToBroadcastEndpoints ["wss://relay.example"; "wss://relay.example:443"] = ["relay.example:10443"].
Proof. vm_compute. reflexivity. Qed.

(** The state is the list of batches that were rolled back. *)
Definition stored_relays (fs : list Filter) (s : list (list Event)) : list (list Event) * list (Event + error) :=
  (s, [inl (MkEvent None "r1" owner 1600000000 10002 [["r"; "wss://relay.example:443"]] "" "sig")]).
Definition undone (events : list Event) : ST (list (list Event)) unit := fun s => (s ++ [events], Ok ()).
Definition refuse (addr : string) (endpoints : list string) (txs : list Transaction) (s : list (list Event)) :
    list (list Event) * verdict := (s, Notified (Some opaque_error)).
Definition removed (addr : string) (endpoints : list string) (s : list (list Event)) : list (list Event) * option error := (s, None).


Lemma broadcastUserEvents_ends_witness :
  ending undone refuse removed [note] [] [[note]] (Err opaque_error).
Proof.
  apply (broadcastUserEvents_ends stored_relays (fun fs s => eq_refl) undone refuse removed [note] [] [[note]] (Err opaque_error)).
  vm_compute. reflexivity.
Defined.

(** A registration of a device, and an embedding made by another account. *)
Definition registration : Event := MkEvent None "d1" owner 1700000000 31751 [["d"; "x"]] "" "sig".
Definition foreign : EphemeralEmbeddingEvent :=
  MkEmbedding note (MkEvent None "e1" "cc" 1700000000 21750 [["a"; Address registration]] "" "sig").

Lemma foreign_embedding_panics_witness :
  (broadcastMasterKey stored_relays {[Address registration := [foreign]]} [registration] registration []).2 = Panic.
Proof.
  apply (foreign_embedding_panics stored_relays (fun fs s => eq_refl) {[Address registration := [foreign]]} [registration] registration foreign [foreign]);
    [apply lookup_singleton_eq|by left|vm_compute; congruence| |vm_compute; congruence].
  apply (bool_decide_unpack _). vm_compute. exact I.
Defined.

(** Replaying the note into a database that stores nothing but says it did. *)
Abbreviation accept_plain := (accept_listener unquote no_base64 key_hex "wss://relay" 0 RollbackWitness.no_rows
  RollbackWitness.no_bool RollbackWitness.inserted RollbackWitness.no_events RollbackWitness.no_switch SelectionWitness.no_report 1).
Definition no_subscribers (events : list Event) : ST (dbClient unit) unit := fun d => (d, Ok ()).
Abbreviation commit_plain := (commit_listener 0 RollbackWitness.no_ids RollbackWitness.no_switch no_subscribers).

Lemma replay_leaves_nothing_to_undo_witness :
  let s := RollbackWitness.fresh_client in
  let s' := (ReplayBroadcastTxBatch accept_plain commit_plain [MkTx "[note]" "1"] s).1 in
  let r := (ReplayBroadcastTxBatch accept_plain commit_plain [MkTx "[note]" "1"] s).2 in
  (r = Ok () -> rollbackableEvents s' = delete (hashEvents [note]) (rollbackableEvents s)) /\
  delete (hashEvents [note]) (rollbackableEvents s') = delete (hashEvents [note]) (rollbackableEvents s).
Proof.
  cbv zeta. destruct (ReplayBroadcastTxBatch _ _ _ _) as [s' r] eqn:Hr.
  apply (replay_leaves_nothing_to_undo unquote no_base64 key_hex "wss://relay" 0 RollbackWitness.no_rows RollbackWitness.no_bool
    RollbackWitness.inserted RollbackWitness.no_events RollbackWitness.no_ids RollbackWitness.no_switch SelectionWitness.no_report
    no_subscribers 1 (fun _ _ => eq_refl) [MkTx "[note]" "1"] [note] RollbackWitness.fresh_client s' r);
    [vm_compute; reflexivity|done|exact Hr].
Defined.

(** The note is recorded while it is accepted, and forgotten when it is committed. *)
Example replayed_note_forgotten :
  rollbackableEvents (accept_plain true [note] RollbackWitness.fresh_client).1 !! hashEvents [note] <> None /\
  rollbackableEvents (ReplayBroadcastTxBatch accept_plain commit_plain [MkTx "[note]" "1"] RollbackWitness.fresh_client).1 = ∅.
Proof. vm_compute. split; congruence. Qed.
End AgreementWitness.
