(* ===== verification/Auth.v ===== *)
(** * Packages server/auth and server/ws: who a connection speaks for

    src/server/auth/auth.go and src/server/ws/auth.go: the AUTH message binds a
    connection to a key, and a device that speaks for an account to what the
    account allows it.  What the connection remembers is a map of untyped
    values under string keys (internal/adapters/metadata.go); [sync.Map] makes
    every operation on it one atomic step. *)

From S2P Require Import Prelude GoStd Nostr Model OnBehalf Filters Content Validator TagRules Validate.
Import Strings.

(** ** What a connection remembers *)

(** A pointer to a subscription is its number. *)
Inductive metadata_value : Type :=
  | MString (s : string)
  | MUser (u : UserDataContext)
  | MSubscription (p : nat).
Abbreviation Metadata := (gmap string metadata_value).

(* src: server/ws/contract.go 31-34 *)
Definition connMetadataChallengeKey : string := "conn_auth_challenge".
Definition connMetadataAuthKey : string := "conn_auth_data".

(* src: server/ws/internal/adapters/metadata.go 9-11 *)
Definition Set_ (m : Metadata) (key : string) (value : metadata_value) : Metadata := <[key := value]> m.
(* src: server/ws/internal/adapters/metadata.go 33-35 *)
Definition GetOrSet (m : Metadata) (key : string) (value : metadata_value) : metadata_value * Metadata :=
  match m !! key with Some v => (v, m) | None => (value, <[key := value]> m) end.

(** [x.(string)], without a second result: panics on another type. *)
Definition as_string (v : metadata_value) : outcome string := match v with MString s => Ok s | _ => Panic end.

(* src: server/ws/auth.go 34-40 *)
Definition authConnGetChallenge (m : Metadata) : outcome string :=
  match m !! connMetadataChallengeKey with None => Ok "" | Some v => as_string v end.

(* src: server/ws/auth.go 42-53 *)
Definition authConnGetState (m : Metadata) : UserDataContext :=
  match m !! connMetadataAuthKey with Some (MUser u) => u | _ => no_user end.

(** [fresh] is the random challenge generated for the connection. *)
(* src: server/ws/auth.go 67-76 *)
Definition authConnGenerateChallenge (fresh : string) (m : Metadata) : outcome (string * Metadata) :=
  let '(actual, m) := GetOrSet m connMetadataChallengeKey (MString fresh) in
  let! s := as_string actual in Ok (s, m).

(* src: server/ws/auth.go 78-80 *)
Definition authConnSet (m : Metadata) (u : UserDataContext) : Metadata := Set_ m connMetadataAuthKey (MUser u).

(** ** The library's check of AUTH events (go-nostr/nip42) *)

Class Nip42 := {
  (** event, challenge, relay, and the verificator and the relay matcher given as options *)
  ValidateAuthEvent : Event -> string -> string -> (Event -> outcome bool) -> (URL -> URL -> bool) -> check
}.
Definition KindClientAuthentication : Z := 22242.
Definition answers_challenge `{Nostr} (e : Event) (challenge : string) : Prop :=
  exists t, t ∈ EvTags e /\ Key t = "challenge" /\ Value t = challenge.
(** NIP-42: an accepted event is of kind 22242, answers the challenge and has a
    signature the verificator accepts. *)
Class Nip42Spec (W : Nip42) `{N : Nostr} : Prop := {
  ValidateAuthEvent_Ok : forall e challenge relay verify matcher,
    ValidateAuthEvent e challenge relay verify matcher = pass ->
    Kind e = KindClientAuthentication /\ verify e = Ok true /\ answers_challenge e challenge
}.

Section Auth.
Context {N : Nostr} {G : GoText} {J : GoJSON} {C : Crypto} {R : RichText} {E : Env} {GJ : GoGJSON}.
Context (GetAll_is_nil : Tags -> list string -> bool).
(** The global validator, and the fuel of its validations. *)
Context (global : eventValidator) (fuel : nat).

(** ** Access on behalf of an account *)

(* src: server/auth/auth.go 20-23 *)
Definition tagNameAttestation : string := "attestation".
Definition tagNameRelayListMetadata : string := "relay-list-metadata".

(* src: server/auth/auth.go 25-31 *)
Definition kindsToMap (kinds : list Z) : gset Z := list_to_set kinds.

(* src: server/auth/auth.go 34-58 *)
Definition ValidateUserAttestation (e attestationEvent : Event) : outcome (gset Z) :=
  reject opaque_error when negb (Kind attestationEvent =? CustomIONKindAttestation) ;;
  reject opaque_error when PubKey attestationEvent ≠s? GetMasterPublicKey e ;;
  try Validate GetAll_is_nil global fuel global [attestationEvent] [] ;;
  let! records := ParseAttestationTags (EvTags attestationEvent) in
  let! allowed := IsAccessAllowed records (PubKey e) (-1) ((Now now)) in
  reject opaque_error when negb allowed ;;
  Ok (kindsToMap (AllowedKinds records (PubKey e))).

(* src: server/auth/auth.go 60-71 *)
Definition ValidateUserAccessAuthoritative (relayURL : string) (e : Event) : outcome (gset Z) :=
  let! (authoritative, kinds) := IsRelayAuthoritativeForUser global relayURL (GetMasterPublicKey e) (PubKey e) in
  reject (err ErrRelayNotAuthoritative) when negb authoritative ;;
  Ok (kindsToMap kinds).

(* src: server/auth/auth.go 73-105 *)
Definition validateUserAccessFromTags (relayURL : string) (e attestation : Event) (relayMetadata : option Event) :
    outcome (gset Z * bool) :=
  let! allowedKinds :=
    (if GetMasterPublicKey e ≠s? PubKey e then ValidateUserAttestation e attestation else Ok ∅) in
  match relayMetadata with
  | None => Ok (allowedKinds, false)
  | Some relayMetadata =>
      reject opaque_error when negb (Kind relayMetadata =? KindRelayListMetadata) ;;
      reject opaque_error when GetMasterPublicKey relayMetadata ≠s? GetMasterPublicKey e ;;
      try Validate GetAll_is_nil global fuel global [relayMetadata] [] ;;
      Ok (allowedKinds,
          existsb (fun tag => (Key tag =s? "r") && CompareRelaysURLs (Value tag) relayURL) (EvTags relayMetadata))
  end.

(** [ev.UnmarshalJSON] *)
Definition embedded_event (s : string) : outcome Event :=
  match UnmarshalJSON s with Some e => Ok e | None => Err opaque_error end.

(* src: server/auth/auth.go 107-130 *)
Definition ValidateUserAccess (relayURL : string) (e : Event) : outcome (gset Z * bool) :=
  let attestation := Value (GetTag e tagNameAttestation) in
  if attestation =s? "" then
    let! allowedKinds := ValidateUserAccessAuthoritative relayURL e in Ok (allowedKinds, true)
  else
    let! attestationEvent := embedded_event attestation in
    let relayMetadataValue := Value (GetTag e tagNameRelayListMetadata) in
    let! relayMetadataEvent :=
      (if relayMetadataValue ≠s? "" then let! ev := embedded_event relayMetadataValue in Ok (Some ev) else Ok None) in
    validateUserAccessFromTags relayURL e attestationEvent relayMetadataEvent.

(** ** The AUTH message *)

(* src: server/ws/auth.go 24-26 *)
Definition authEventVerifier (e : Event) : outcome bool := CheckSignature e.

(* src: server/ws/auth.go 28-32 *)
Definition authEventRelayMatcher (expected found : URL) : bool :=
  EqualFold (Scheme expected) (Scheme found) && EqualFold (Path expected) (Path found) &&
  EqualFold (Hostname expected) (Hostname found).

(** [Reason] is the text of the answer without the message of [Cause]. *)
Record OKEnvelope : Type := MkOK { EventID : string; OK_ : bool; Reason : string; Cause : option error }.
Definition not_ok (e : Event) (reason : string) (cause : option error) : OKEnvelope := MkOK (ID e) false reason cause.

(* src: server/auth/auth.go 15-18 *)
Definition ErrRelayNotAuthoritative_text : string :=
  "relay-is-not-authoritative: relay is not authoritative for the user".

Context `{W : Nip42} (RelayURL : string).

(** The access of the key of an AUTH event, or the answer that refuses it. *)
(* src: server/ws/auth.go 115-125 [handleAuth] *)
Definition auth_access (e : Event) : outcome (OKEnvelope + gset Z * bool) :=
  if PubKey e =s? GetMasterPublicKey e then Ok (inr (∅, false))
  else
    match ValidateUserAccess RelayURL e with
    | Ok access => Ok (inr access)
    | Err x => Ok (inl
        (if error_is x ErrAttestationRecordNotFound || error_is x ErrRelayNotAuthoritative
         then not_ok e ErrRelayNotAuthoritative_text None
         else not_ok e "failed to validate on-behalf access: " (Some x)))
    | Panic => Panic
    | OutOfFuel => OutOfFuel
    end.

(** A connection stays with the key it authenticated first. *)
(* src: server/ws/auth.go 91-98 [handleAuth] *)
Definition other_key (m : Metadata) (e : Event) : outcome bool :=
  match m !! connMetadataAuthKey with
  | None => Ok false
  | Some (MUser state) => Ok (Authenticated state && (UPublicKey state ≠s? PubKey e))
  | Some _ => Panic
  end.

(* src: server/ws/auth.go 127-130 [handleAuth] *)
Definition user_data (e : Event) (kinds : gset Z) (authoritative : bool) : UserDataContext :=
  MkUserData kinds (PubKey e) (GetMasterPublicKey e) (Value (GetTag e "user-agent")) true authoritative.

(* src: server/ws/auth.go 82-137 *)
Definition handleAuth (m : Metadata) (e : Event) : outcome (OKEnvelope * Metadata) :=
  let! challenge := authConnGetChallenge m in
  if challenge =s? "" then Ok (not_ok e "received unexpected auth message: no challenge was sent" None, m)
  else
    let! other := other_key m e in
    if (other : bool) then
      Ok (not_ok e "received unexpected auth message: already authenticated with a different public key" None, m)
    else
      match ValidateAuthEvent e challenge RelayURL authEventVerifier authEventRelayMatcher with
      | Err x => Ok (not_ok e "failed to validate auth event: " (Some x), m)
      | Panic => Panic
      | OutOfFuel => OutOfFuel
      | Ok _ =>
          let! access := auth_access e in
          match access with
          | inl resp => Ok (resp, m)
          | inr (kinds, authoritative) =>
              Ok (MkOK (ID e) true "" None, authConnSet m (user_data e kinds authoritative))
          end
      end.
End Auth.

(** ** What an accepted AUTH message shows *)

Section Theorems.
Context {N : Nostr} {NS : NostrSpec N} {G : GoText} {J : GoJSON} {C : Crypto} {R : RichText} {E : Env} {GJ : GoGJSON}.
Context (GetAll_is_nil : Tags -> list string -> bool) (global : eventValidator) (fuel : nat).

(** The attestation an access rests on: sent with the message and signed by
    the account, or the one the database returned. *)
Definition sent_attestation (e att : Event) : Prop :=
  UnmarshalJSON (Value (GetTag e tagNameAttestation)) = Some att /\
  PubKey att = GetMasterPublicKey e /\ CheckID att = true /\ CheckSignature att = Ok true.
Definition stored_attestation (att : Event) : Prop :=
  exists filters, (Some att, None) ∈ QueryFunc global filters.

(** A device with an activation in force, and the kinds it is limited to. *)
Definition attested (att : Event) (device : string) (kinds : gset Z) : Prop :=
  Kind att = CustomIONKindAttestation /\
  exists records entry start, ParseAttestationTags (EvTags att) = Ok records /\ records !! device = Some entry /\
    (forall t, Revoked entry = Some t -> TsTime (Now now) < TsTime t) /\
    (forall t, End_ entry = Some t -> TsTime (Now now) <= TsTime t) /\
    Start entry = Some start /\ TsTime start <= TsTime (Now now) /\ kinds = list_to_set (EKinds entry).

Lemma allowed_attested att records device :
  Kind att = CustomIONKindAttestation -> ParseAttestationTags (EvTags att) = Ok records ->
  IsAccessAllowed records device (-1) ((Now now)) = Ok true ->
  attested att device (kindsToMap (AllowedKinds records device)).
Proof.
  intros Hk Hp (_ & entry & start & He & Hr & Hen & Hs & Hst & _)%IsAccessAllowed_spec. split; [done|].
  exists records, entry, start. split_and!; try done. unfold AllowedKinds. by rewrite He.
Qed.

Lemma validated_one e : Validate GetAll_is_nil global fuel global [e] [] = pass -> CheckID e = true /\ CheckSignature e = Ok true.
Proof.
  unfold Validate. cbn [for_each]. rewrite bind_Ok_unit. intros [H _].
  apply validate_pass in H as (? & _ & [] & _). done.
Qed.

Lemma ValidateUserAttestation_spec e att kinds :
  ValidateUserAttestation GetAll_is_nil global fuel e att = Ok kinds ->
  PubKey att = GetMasterPublicKey e /\ CheckID att = true /\ CheckSignature att = Ok true /\ attested att (PubKey e) kinds.
Proof.
  unfold ValidateUserAttestation. rewrite !reject_Ok, bind_Ok_unit. intros (Hk & Hp & Hv & H).
  apply bind_Ok in H as (records & Hr & H). apply bind_Ok in H as ([] & Ha & H); [|done]. injection H as <-.
  apply negb_false_iff in Hk, Hp. apply Z.eqb_eq in Hk. apply String.eqb_eq in Hp.
  destruct (validated_one _ Hv). split_and!; [done..|]. by apply allowed_attested.
Qed.

(** The events of an iterator: what is kept was yielded. *)
Lemma user_events_stored it a r :
  user_events it = Ok (Some a, r) -> (Some a, None) ∈ it /\ Kind a = CustomIONKindAttestation.
Proof.
  intros H. enough (forall x, Some x = (Some a, r).1 -> (Some x, None) ∈ it /\ Kind x = CustomIONKindAttestation) as Hx by by apply Hx.
  eapply (for_state_invariant (fun pre s => forall x, Some x = s.1 -> (Some x, None) ∈ pre /\ Kind x = CustomIONKindAttestation));
    [|intros pre [ev o] s s' _ IH Hs|exact H]; [done|].
  destruct s as [s1 s2], o as [o|]; [done|]. destruct ev as [ev|]; [|done]. cbn in Hs. intros x Hx.
  destruct (Z.eqb_spec (Kind ev) CustomIONKindAttestation) as [Hk|Hk].
  - injection Hs as <-. injection Hx as ->. split; [|done]. apply elem_of_app. right. by left.
  - assert (Hin : (Some x, None) ∈ pre /\ Kind x = CustomIONKindAttestation).
    { apply IH. destruct (Kind ev =? KindRelayListMetadata); injection Hs as <-; exact Hx. }
    destruct Hin. split; [apply elem_of_app; by left|done].
Qed.

Lemma ValidateUserAccessAuthoritative_spec relayURL e kinds :
  PubKey e ≠ "" -> ValidateUserAccessAuthoritative global relayURL e = Ok kinds ->
  exists att, stored_attestation att /\ attested att (PubKey e) kinds.
Proof.
  intros Hne ([authoritative ks] & Hr & H)%bind_Ok. rewrite reject_Ok in H. destruct H as [Ha [= <-]].
  apply negb_false_iff in Ha. subst authoritative. unfold IsRelayAuthoritativeForUser in Hr. cbv zeta in Hr.
  apply bind_Ok in Hr as ([att rel] & Hu & Hr). destruct rel as [rel|], att as [att|]; try done.
  apply user_events_stored in Hu as [Hin Hk]. apply bind_Ok in Hr as (records & Hp & Hr).
  rewrite (proj2 (String.eqb_neq _ _) Hne) in Hr. apply bind_Ok in Hr as (allowed & Hal & Hr).
  rewrite reject_Ok in Hr. destruct Hr as [Hn [= <-]]. apply negb_false_iff in Hn. subst allowed.
  exists att. split; [by eexists|]. by apply allowed_attested.
Qed.

Lemma ValidateUserAccess_spec relayURL e kinds authoritative :
  PubKey e ≠ "" -> GetMasterPublicKey e ≠ PubKey e ->
  ValidateUserAccess GetAll_is_nil global fuel relayURL e = Ok (kinds, authoritative) ->
  exists att, (sent_attestation e att \/ stored_attestation att) /\ attested att (PubKey e) kinds.
Proof.
  intros Hne Hm. unfold ValidateUserAccess. destruct (_ =s? "").
  - intros (ks & Hk & [= <- <-])%bind_Ok. apply ValidateUserAccessAuthoritative_spec in Hk as (att & ? & ?); [|done].
    exists att. auto.
  - intros (att & Ha & H)%bind_Ok. apply bind_Ok in H as (rel & _ & H).
    unfold embedded_event in Ha. destruct (UnmarshalJSON _) as [att'|] eqn:Hu; [|done]. injection Ha as ->.
    apply bind_Ok in H as (ks & Hk & H). rewrite (proj2 (String.eqb_neq _ _) Hm) in Hk. cbn [negb] in Hk.
    apply ValidateUserAttestation_spec in Hk as (Hpk & Hid & Hsig & Hatt).
    assert (ks = kinds) as ->.
    { destruct rel as [rel|]; [|by injection H]. rewrite !reject_Ok, bind_Ok_unit in H. by destruct H as (_ & _ & _ & [= ->]). }
    exists att. split; [by left|done].
Qed.


Context `{W : Nip42} {WS : Nip42Spec W} (RelayURL : string).
#[local] Abbreviation handleAuth := (handleAuth GetAll_is_nil global fuel RelayURL).

(** What a connection is authenticated as by an event. *)
Definition authenticated_by (e : Event) (u : UserDataContext) : Prop :=
  Authenticated u = true /\ UPublicKey u = PubKey e /\ MasterPublicKey u = GetMasterPublicKey e /\
  (PubKey e = GetMasterPublicKey e /\ UKinds u = ∅ \/
   exists att, (sent_attestation e att \/ stored_attestation att) /\ attested att (PubKey e) (UKinds u)).

Lemma handleAuth_spec m e resp m' :
  PubKey e ≠ "" -> handleAuth m e = Ok (resp, m') ->
  if OK_ resp then
    exists challenge u, m !! connMetadataChallengeKey = Some (MString challenge) /\ challenge ≠ "" /\
      Kind e = KindClientAuthentication /\ answers_challenge e challenge /\
      CheckSignature e = Ok true /\
      (Authenticated (authConnGetState m) = true -> UPublicKey (authConnGetState m) = PubKey e) /\
      m' = authConnSet m u /\ authenticated_by e u
  else m' = m.
Proof.
  intros Hne. unfold Auth.handleAuth. intros (challenge & Hc & H)%bind_Ok.
  destruct (String.eqb_spec challenge "") as [|Hch]; [by injection H as <- <-|].
  apply bind_Ok in H as (other & Ho & H). destruct other; [by injection H as <- <-|].
  destruct (ValidateAuthEvent _ _ _ _ _) as [[]|x| |] eqn:Hv; [|by injection H as <- <-|done..].
  apply ValidateAuthEvent_Ok in Hv as (Hk & Hsig & Htag).
  apply bind_Ok in H as (access & Ha & H). destruct access as [r|[kinds authoritative]].
  { injection H as <- <-. unfold auth_access in Ha. destruct (_ =s? _); [done|].
    destruct (ValidateUserAccess _ _ _ _ _) as [|x| |]; try done. injection Ha as <-. by destruct (_ || _). }
  injection H as <- <-. cbn [OK_]. exists challenge, (user_data e kinds authoritative).
  split_and!; try done.
  - unfold authConnGetChallenge in Hc. destruct (m !! connMetadataChallengeKey) as [[]|]; cbn in Hc; congruence.
  - unfold other_key in Ho. unfold authConnGetState. destruct (m !! connMetadataAuthKey) as [[|u|]|]; try done.
    injection Ho as Ho. intros Hau. rewrite Hau in Ho. by apply negb_false_iff, String.eqb_eq in Ho.
  - split_and!; try done. unfold auth_access in Ha. destruct (String.eqb_spec (PubKey e) (GetMasterPublicKey e)) as [Heq|Hpm].
    + left. injection Ha as <- <-. done.
    + right. destruct (ValidateUserAccess _ _ _ _ _) as [[ks au]|x| |] eqn:Hacc; try done. injection Ha as -> ->.
      eapply ValidateUserAccess_spec; [done| |exact Hacc]. by intros Heq; apply Hpm.
Qed.

(** C14: an AUTH message is answered with OK only when the connection was sent
    a challenge, the event is a signed client authentication that answers that
    challenge, and the connection is not authenticated with another key; the
    connection then stands for that key, with the account it may speak for and
    the kinds it is limited to.  Any other answer leaves the connection as it
    was. *)
Theorem handleAuth_sound m e resp m' :
  PubKey e ≠ "" -> handleAuth m e = Ok (resp, m') ->
  if OK_ resp then
    exists challenge u, m !! connMetadataChallengeKey = Some (MString challenge) /\ challenge ≠ "" /\
      Kind e = KindClientAuthentication /\ answers_challenge e challenge /\
      CheckSignature e = Ok true /\
      (Authenticated (authConnGetState m) = true -> UPublicKey (authConnGetState m) = PubKey e) /\
      m' = authConnSet m u /\ authenticated_by e u
  else m' = m.
Proof. apply handleAuth_spec. Qed.

(** AUTH messages of one connection, in the order they are handled. *)
Definition auth_messages (es : list Event) (m : Metadata) : outcome Metadata :=
  for_state es m (fun m e => let! (_, m) := handleAuth m e in Ok m).

(** The key of a session is fixed: whatever AUTH messages follow, an
    authenticated connection stays authenticated with the same key. *)
Lemma session_key es m m' :
  Forall (fun e => PubKey e ≠ "") es -> Authenticated (authConnGetState m) = true -> auth_messages es m = Ok m' ->
  Authenticated (authConnGetState m') = true /\ UPublicKey (authConnGetState m') = UPublicKey (authConnGetState m).
Proof.
  unfold auth_messages. intros Hes. revert m. induction Hes as [|e es He _ IH]; intros m Ha; cbn [for_state].
  { by intros [= <-]. }
  intros (m1 & ([resp m2] & Hh & [= <-])%bind_Ok & H)%bind_Ok. apply handleAuth_spec in Hh; [|done].
  destruct (OK_ resp); [|subst m2; by apply IH].
  destruct Hh as (challenge & u & _ & _ & _ & _ & _ & Hsame & -> & Hau & Hk & _).
  assert (Hs : authConnGetState (authConnSet m u) = u) by (unfold authConnGetState, authConnSet, Set_; by rewrite lookup_insert_eq).
  destruct (IH (authConnSet m u)) as [Ha' Hk']; [by rewrite Hs|done|]. split; [done|]. rewrite Hk', Hs, Hk. symmetry. by apply Hsame.
Qed.
End Theorems.

(** ** Concrete inputs *)
Module AuthWitness.
Import AsciiText Plain.
#[local] Instance C : Crypto := {|
  sha256_Sum256 s := s; ed25519_sign sk msg := msg;
  ed25519_verify pk msg sig := String.eqb msg sig; ed25519_valid_key sk := True |}.
#[local] Instance R : RichText := {|
  json_delta _ := None; json_delta_Marshal _ := None; json_insert _ := None; json_string _ := None;
  json_string_Marshal s := s; quill_Render _ := None; bluemonday_Sanitize s := s;
  html_UnescapeString s := s; nip19_Decode _ := None |}.
#[local] Instance J : GoJSON := {|
  json_Valid _ := false; json_profile _ := None; json_strings _ := None; json_ints _ := None;
  json_event _ := None; json_from _ := None; json_to _ := None |}.
#[local] Instance GJ : GoGJSON := {| gjson_array _ := []; json_filter _ := None; json_event_ptr _ := None |}.
#[local] Instance E : Env := {| user := Filters.no_user; now := 100 * 1000000000 |}.

(** A library that accepts what the law asks for. *)
#[local] Instance W : Nip42 := {|
  ValidateAuthEvent e challenge _ verify _ :=
    reject opaque_error when negb ((Kind e =? 22242) &&
      existsb (fun t => (Key t =s? "challenge") && (Value t =s? challenge)) (EvTags e)) ;;
    let! ok := verify e in reject opaque_error when negb ok ;; pass |}.
#[local] Instance WS : Nip42Spec W.
Proof.
  constructor. intros e challenge relay verify matcher. cbn. rewrite reject_Ok. intros [Hc Hv].
  apply negb_false_iff, andb_true_iff in Hc as [Hk Ht]. apply Z.eqb_eq in Hk.
  apply bind_Ok in Hv as (ok & Hok & Hv). rewrite reject_Ok in Hv. destruct Hv as [Hn _]. apply negb_false_iff in Hn. subst ok.
  split_and!; [done..|]. apply existsb_exists in Ht as (t & Hin%list_elem_of_In & Ht). simplify_go. by exists t.
Qed.

(** A device of an account whose attestation and relays are stored. *)
Definition attestation : Event := MkEvent None "at" "master" 10 10100 [["p"; "de01"; ""; "active:5:1,7"]] "" "".
Definition relays : Event := MkEvent None "rl" "master" 10 10002 [["r"; "wss://relay"]] "" "".
Definition global : eventValidator := MkValidator None (fun _ => [(Some attestation, None); (Some relays, None)]) [].
Definition login : Event := MkEvent None "a1" "de01" 90 22242 [["b"; "master"]; ["challenge"; "xyz"]] "" "00".
Definition challenged : Metadata := {[ connMetadataChallengeKey := MString "xyz" ]}.


Definition answer : OKEnvelope * Metadata :=
  (MkOK "a1" true "" None, authConnSet challenged (user_data login (kindsToMap [1; 7]) true)).

Lemma handleAuth_sound_witness :
  if OK_ answer.1 then
    exists challenge u, challenged !! connMetadataChallengeKey = Some (MString challenge) /\ challenge ≠ "" /\
      Kind login = KindClientAuthentication /\ answers_challenge login challenge /\
      CheckSignature login = Ok true /\
      (Authenticated (authConnGetState challenged) = true -> UPublicKey (authConnGetState challenged) = PubKey login) /\
      answer.2 = authConnSet challenged u /\ authenticated_by global login u
  else answer.2 = challenged.
Proof.
  apply (handleAuth_sound (fun _ _ => true) global 1 "wss://relay" challenged login (answer.1) (answer.2));
    [discriminate|vm_compute; reflexivity].
Defined.

Lemma session_key_witness :
  Authenticated (authConnGetState answer.2) = true /\
  UPublicKey (authConnGetState answer.2) = UPublicKey (authConnGetState answer.2).
Proof.
  apply (session_key (fun _ _ => true) global 1 "wss://relay" [login] answer.2 answer.2);
    [repeat constructor; discriminate|reflexivity|vm_compute; reflexivity].
Defined.
End AuthWitness.
