(* ===== verification/HttpAuth.v ===== *)
(** * Package nip98: who a request over HTTP speaks for

    src/server/http/nip98/auth_nip98.go.  A request carries an event in its
    Authorization header, encoded in base64 ([encoding/base64], file GoStd);
    [net/url] is a parameter, as are the JSON of events (go-nostr) and the
    signatures. *)

From S2P Require Import Prelude GoStd Nostr Model OnBehalf Filters Content Validator TagRules Validate Auth QueryFilter QueryBuilder QuerySafety Connector Rows Status Selection.
Import Strings.

(** [url.URL]: what the program reads of it, and the rest. *)
Record FullURL : Type := MkFullURL {
  UScheme : string; UHost : string; UPath : string; URawQuery : string; UFragment : string; URest : string
}.
Class HttpText := {
  url_ParseFull : string -> option FullURL;
  url_String : FullURL -> string
}.

Section Tokens.
Context {N : Nostr} {G : GoText} {J : GoJSON} {C : Crypto} {R : RichText} {E : Env} {GJ : GoGJSON} {T : EventText} {H : HttpText}.
Context (GetAll_is_nil : Tags -> list string -> bool) (global : eventValidator) (fuel : nat).

(** Fifteen minutes, in nanoseconds. *)
(* src: server/http/nip98/auth_nip98.go 39 *)
Definition tokenExpirationWindow : Z := 900000000000.
(* src: server/http/nip98/auth_nip98.go 40 *)
Definition NostrHttpAuthKind : Z := 27235.

(* src: server/http/nip98/auth_nip98.go 30-33 *)
Record nostrToken : Type := MkToken { TokEv : Event; ExpectedHash : string }.

(* src: server/http/nip98/auth_nip98.go 55-59 [DetectAuthHeader] *)
Fixpoint detect_type (knownTypes : list string) (val : string) : string :=
  match knownTypes with
  | [] => ""
  | t :: ts => if HasPrefix val t then TrimSpace (TrimPrefix val t) else detect_type ts val
  end.

(* src: server/http/nip98/auth_nip98.go 52-61 *)
Definition DetectAuthHeader (val : string) : string := detect_type ["Bearer"; "Nostr"; "IONConnect"] val.

(** A tag that was found and has a value. *)
Definition valued (tag : option Tag) : option string :=
  match tag with Some (k :: v :: t) => Some (Value (k :: v :: t)) | _ => None end.

(* src: server/http/nip98/auth_nip98.go 89-100 [VerifyToken] *)
Definition check_url (event : Event) (fullReqUrl : FullURL) : check :=
  match valued (GetFirst (EvTags event) ["u"]) with
  | None => Err (err ErrTokenInvalid)
  | Some v => match url_ParseFull v with
              | None => Err (err ErrTokenInvalid)
              | Some urlValue => reject (err ErrTokenInvalid) when url_String urlValue ≠s? url_String fullReqUrl ;; pass
              end
  end.

(* src: server/http/nip98/auth_nip98.go 102-109 [VerifyToken] *)
Definition check_method (event : Event) (reqMethod : string) : check :=
  match valued (GetFirst (EvTags event) ["method"]) with
  | None => Err (err ErrTokenInvalid)
  | Some method => reject (err ErrTokenInvalid) when method ≠s? reqMethod ;; pass
  end.

(* src: server/http/nip98/auth_nip98.go 63-115 *)
Definition VerifyToken (fullReqUrl : FullURL) (reqMethod token : string) (now : Z) : outcome nostrToken :=
  reject (err ErrTokenInvalid) when token =s? "" ;;
  match Base64.DecodeString token with
  | None => Err opaque_error
  | Some bToken =>
      match UnmarshalJSON bToken with
      | None => Err opaque_error
      | Some event =>
          let! ok := CheckSignature event in
          reject (err ErrTokenInvalid) when negb ok ;;
          reject (err ErrTokenInvalid) when negb (Kind event =? NostrHttpAuthKind) ;;
          reject (err ErrTokenExpired)
            when (now + tokenExpirationWindow <? TsTime (CreatedAt event))
                 || (TsTime (CreatedAt event) <? now - tokenExpirationWindow) ;;
          try check_url event fullReqUrl ;;
          try check_method event reqMethod ;;
          Ok (MkToken event (default "" (valued (GetFirst (EvTags event) ["payload"]))))
      end
  end.

(* src: server/http/nip98/auth_nip98.go 116-118 [PubKey] *)
Definition TokPubKey (t : nostrToken) : string := PubKey (TokEv t).
(* src: server/http/nip98/auth_nip98.go 119-121 *)
Definition MasterPubKey (t : nostrToken) : string := GetMasterPublicKey (TokEv t).

(* src: server/http/nip98/auth_nip98.go 131-145 [ValidateAttestation] *)
Definition token_relay (t : nostrToken) : outcome string :=
  match valued (GetFirst (EvTags (TokEv t)) ["u"]) with
  | None => Ok ""
  | Some v => match url_ParseFull v with
              | None => Err (err ErrTokenInvalid)
              | Some u => Ok ((if UScheme u =s? "http" then "ws" else "wss") +:+ "://" +:+ UHost u)
              end
  end.

(* src: server/http/nip98/auth_nip98.go 126-154 *)
Definition ValidateAttestation (t : nostrToken) (kind : Z) : check :=
  if TokPubKey t =s? MasterPubKey t then pass
  else
    let! relayUrl := token_relay t in
    let! (kinds, _) := ValidateUserAccess GetAll_is_nil global fuel relayUrl (TokEv t) in
    reject (err ErrOnBehalfAccessDenied) when negb (bool_decide (kinds = ∅)) && negb (bool_decide (kind ∈ kinds)) ;;
    pass.

(** [nostr.Now()] is that of the instant [at_]. *)
(* src: server/http/nip98/auth_nip98.go 161-181 [GenerateAuthHeader] *)
Definition header_event (at_ : Z) (pk method fileHash : string) (urlValue : FullURL) (masterPubkey : list string) : Event :=
  let b := match masterPubkey with m :: _ => if m ≠s? "" then [["b"; m]] else [] | [] => [] end in
  MkEvent None "" pk (Now at_) NostrHttpAuthKind
    ([["u"; url_String (MkFullURL "https" (UHost urlValue) (UPath urlValue) (URawQuery urlValue) (UFragment urlValue) "")];
      ["method"; method]; ["payload"; fileHash]] ++ b) "" "".

(* src: server/http/nip98/auth_nip98.go 156-187 *)
Definition GenerateAuthHeader (at_ : Z) (sk method fileHash : string) (urlValue : FullURL) (masterPubkey : list string) : outcome string :=
  let! pk := GetPublicKey sk in
  let! event := SignWithAlg (header_event at_ pk method fileHash urlValue masterPubkey) sk SignAlgEDDSA KeyAlgCurve25519 in
  Ok ("Nostr " +:+ Base64.EncodeToString (event_String event)).
End Tokens.

(** ** What a token shows *)

Section TokenTheorems.
Context {N : Nostr} {NS : NostrSpec N} {C : Crypto} {H : HttpText}.

(** The signed event of a request: its key signed it, for this URL and method,
    at most fifteen minutes from now. *)
Definition speaks_for (fullReqUrl : FullURL) (reqMethod : string) (now : Z) (event : Event) : Prop :=
  CheckSignature event = Ok true /\ Kind event = NostrHttpAuthKind /\
  now - tokenExpirationWindow <= TsTime (CreatedAt event) <= now + tokenExpirationWindow /\
  (exists v u, valued (GetFirst (EvTags event) ["u"]) = Some v /\ url_ParseFull v = Some u /\ url_String u = url_String fullReqUrl) /\
  valued (GetFirst (EvTags event) ["method"]) = Some reqMethod.

Lemma check_url_Ok event u : check_url event u = pass <->
  exists v u', valued (GetFirst (EvTags event) ["u"]) = Some v /\ url_ParseFull v = Some u' /\ url_String u' = url_String u.
Proof.
  unfold check_url. destruct (valued _) as [v|]; [|split; [done|naive_solver]].
  destruct (url_ParseFull v) as [u'|] eqn:Hu; [|split; [done|naive_solver]]. rewrite reject_Ok, negb_false_iff, String.eqb_eq.
  split; [intros [? _]; eauto|]. intros (? & ? & [= <-] & Hv & ?). rewrite Hu in Hv. by injection Hv as ->.
Qed.

Lemma check_method_Ok event m : check_method event m = pass <-> valued (GetFirst (EvTags event) ["method"]) = Some m.
Proof.
  unfold check_method. destruct (valued _) as [v|]; [|done]. rewrite reject_Ok, negb_false_iff, String.eqb_eq. naive_solver.
Qed.

Lemma VerifyToken_spec u m token now t :
  VerifyToken u m token now = Ok t <->
  token ≠ "" /\ speaks_for u m now (TokEv t) /\
  (exists b, Base64.DecodeString token = Some b /\ UnmarshalJSON b = Some (TokEv t)) /\
  ExpectedHash t = default "" (valued (GetFirst (EvTags (TokEv t)) ["payload"])).
Proof.
  unfold VerifyToken, speaks_for. rewrite reject_Ok, String.eqb_neq. apply and_iff_compat_l.
  destruct (Base64.DecodeString token) as [b|]; [|split; [done|]; intros (_ & (? & [? _]) & _); done].
  destruct (UnmarshalJSON b) as [e|] eqn:He; [|split; [done|]; intros (_ & (? & [= <-] & Hu) & _); congruence].
  split.
  - intros (ok & Hs & Ht)%bind_Ok. rewrite !reject_Ok, !bind_Ok_unit, check_url_Ok, check_method_Ok in Ht.
    destruct Ht as (Hok & Hk & [Ha Hb]%orb_false_iff & Hu & Hm & [= <-]). apply negb_false_iff in Hok. subst ok.
    apply negb_false_iff, Z.eqb_eq in Hk. apply Z.ltb_ge in Ha, Hb. cbn. split_and!; try done. eauto.
  - intros ((Hs & Hk & [Ha Hb] & Hu & Hm) & (? & [= <-] & He') & Hh). rewrite He in He'. injection He' as ->.
    apply bind_Ok. exists true. rewrite !reject_Ok, !bind_Ok_unit, check_url_Ok, check_method_Ok, Hk, Z.eqb_refl.
    rewrite orb_false_iff, !Z.ltb_ge. destruct t. cbn in *. by subst.
Qed.

(** A request is accepted exactly when its token is an event its key signed
    for this URL and this method, at most fifteen minutes from now; the hash it
    vouches for is the one its event names. *)
Lemma VerifyToken_Ok u m token now t :
  VerifyToken u m token now = Ok t <->
  token ≠ "" /\ speaks_for u m now (TokEv t) /\
  (exists b, Base64.DecodeString token = Some b /\ UnmarshalJSON b = Some (TokEv t)) /\
  ExpectedHash t = default "" (valued (GetFirst (EvTags (TokEv t)) ["payload"])).
Proof. apply VerifyToken_spec. Qed.
End TokenTheorems.

(** ** Round trip of a header *)

(** Visible ASCII characters, of which no encoding of a space consists. *)
Definition visible (c : ascii) : bool := let n := Z.of_nat (nat_of_ascii c) in (33 <=? n) && (n <? 128).
Definition hidden_head (e : string) : bool := match e with String c _ => negb (visible c) | "" => false end.

Lemma strip_space_visible encs c s :
  forallb hidden_head encs = true -> visible c = true -> strip_space encs (String c s) = None.
Proof.
  intros He Hc. induction encs as [|e encs IH]; [done|]. cbn [forallb] in He. apply andb_true_iff in He as [He Hes]. cbn [strip_space].
  assert (HasPrefix (String c s) e = false) as ->; [|by apply IH].
  destruct e as [|d e]; [done|]. cbn in *. destruct (ascii_dec d c) as [->|]; [|done]. by rewrite Hc in He.
Qed.

Lemma trim_left_visible fuel encs s :
  forallb hidden_head encs = true -> match s with String c _ => visible c = true | "" => True end -> trim_left fuel encs s = s.
Proof.
  intros He Hs. destruct fuel as [|fuel]; [done|]. cbn [trim_left]. destruct s as [|c s].
  - assert (strip_space encs "" = None) as ->; [|done]. clear Hs. induction encs as [|[|d e] encs IH]; cbn in *; try done.
    apply IH. by apply andb_true_iff in He as [_ ?].
  - by rewrite strip_space_visible.
Qed.

Fixpoint all_visible (s : string) : bool := match s with String c s => visible c && all_visible s | "" => true end.

Lemma all_visible_list s : all_visible s = forallb visible (String.list_ascii_of_string s).
Proof. induction s as [|c s IH]; [done|]. cbn. by rewrite IH. Qed.

Lemma rev_string_involutive s : rev_string (rev_string s) = s.
Proof. unfold rev_string. by rewrite String.list_ascii_of_string_of_list_ascii, reverse_involutive, String.string_of_list_ascii_of_string. Qed.

Lemma rev_string_visible s : all_visible s = true -> match rev_string s with String c _ => visible c = true | "" => True end.
Proof.
  intros Hs. rewrite all_visible_list in Hs. unfold rev_string.
  assert (Hr : forallb visible (reverse (String.list_ascii_of_string s)) = true).
  { apply forallb_forall. intros c Hc. rewrite forallb_forall in Hs. apply Hs. apply list_elem_of_In. apply list_elem_of_In in Hc.
    by rewrite elem_of_reverse in Hc. }
  destruct (reverse _) as [|c l]; [done|]. cbn in *. by apply andb_true_iff in Hr as [? _].
Qed.

Lemma TrimSpace_visible s : all_visible s = true -> TrimSpace s = s.
Proof.
  intros Hs. unfold TrimSpace. rewrite (trim_left_visible _ space_encodings s);
    [|by vm_compute|destruct s; [done|]; cbn in Hs; by apply andb_true_iff in Hs as [? _]].
  rewrite trim_left_visible; [apply rev_string_involutive|by vm_compute|by apply rev_string_visible].
Qed.

Lemma TrimSpace_padded s : all_visible s = true -> TrimSpace (" " +:+ s) = s.
Proof.
  intros Hs. unfold TrimSpace. assert (Hl : trim_left (len (" " +:+ s)) space_encodings (" " +:+ s) = s).
  { cbn [String.append String.length]. cbn [trim_left].
    replace (strip_space space_encodings (String " " s)) with (Some s) by (cbn; by destruct s).
    apply trim_left_visible; [by vm_compute|]. destruct s; [done|]. cbn in Hs. by apply andb_true_iff in Hs as [? _]. }
  rewrite Hl. rewrite trim_left_visible; [apply rev_string_involutive|by vm_compute|by apply rev_string_visible].
Qed.

Lemma base64_visible s : all_visible (Base64.EncodeToString s) = true.
Proof.
  assert (Hd : forall n, 0 <= n < 64 -> visible (Base64.b64_digit n) = true).
  { intros n Hn. rewrite <- (Z2Nat.id n) by lia. assert (Hm : (Z.to_nat n < 64)%nat) by lia. revert Hm. generalize (Z.to_nat n). clear.
    intros n Hn. do 64 (destruct n as [|n]; [by vm_compute|]). lia. }
  enough (forall n s, (len s <= n)%nat -> all_visible (Base64.EncodeToString s) = true) as Hx by exact (Hx _ s (le_n _)).
  clear s. induction n as [|n IH]; intros [|a [|b [|c s]]] Hs; cbn [Base64.EncodeToString all_visible]; cbn [String.length] in Hs; try done; try lia;
    rewrite !Hd by (pose proof (Base64.code_range a); try pose proof (Base64.code_range b); try pose proof (Base64.code_range c);
      Z.to_euclidean_division_equations; lia); cbn [andb]; try done. apply IH. lia.
Qed.

Section RoundTrip.
Context {N : Nostr} {NS : NostrSpec N} {C : Crypto} {CS : CryptoSpec} {T : EventText} {H : HttpText}.

End RoundTrip.

(** ** Concrete inputs *)
Module HttpPlain.
Export SelectionPlain.

(** A URL is its host followed by its path. *)
Definition parse (s : string) : option FullURL :=
  if HasPrefix s "https://" then
    let rest := TrimPrefix s "https://" in
    match SplitN2 rest "/" with
    | [host; path] => Some (MkFullURL "https" host ("/" +:+ path) "" "" "")
    | _ => Some (MkFullURL "https" rest "" "" "" "")
    end
  else None.
#[export] Instance http_text : HttpText := {|
  url_ParseFull := parse; url_String u := UScheme u +:+ "://" +:+ UHost u +:+ UPath u |}.
Definition upload_url : FullURL := MkFullURL "https" "relay" "/files" "" "" "".
End HttpPlain.

Module HttpAuthWitness.
Import HttpPlain.


Example header_of_known_type : DetectAuthHeader "Bearer  Zm9v " = "Zm9v" /\ Base64.DecodeString "Zm9v" = Some "foo" /\ DetectAuthHeader "Basic Zm9v" = "".
Proof. vm_compute. auto. Qed.
End HttpAuthWitness.
