(* ===== verification/Files.v ===== *)
(** * Package storage: the files of users

    src/storage/*.go.  The files of a user are kept in one folder and shared as
    one torrent, whose header names them.  The library of torrents, the key-value
    database, the file system, the CDN, the JSON of headers and the database of
    events are operations of a world that is a parameter; the state of the client
    itself (files that are not in a header yet, downloads, health) is modelled.
    Request contexts do not expire.  Logging is left out. *)

From S2P Require Import Prelude GoStd Nostr Model OnBehalf Filters Content Validator StateFSM QueryFilter QueryBuilder QuerySafety Connector Rows Status Selection TagRules Validate Auth HttpAuth.
Import Strings.

(** ** Data *)

(* src: storage/storage.go 67-76 *)
Record FileMetaInput : Type := MkMeta {
  Caption : string; Alt : string; Owner : string; MContentType : string; Filename : string;
  MHash : string; MCreatedAt : Z; FileSize : Z
}.
Definition with_Owner (m : FileMetaInput) (o : string) : FileMetaInput :=
  MkMeta (Caption m) (Alt m) o (MContentType m) (Filename m) (MHash m) (MCreatedAt m) (FileSize m).
Definition with_Filename (m : FileMetaInput) (n : string) : FileMetaInput :=
  MkMeta (Caption m) (Alt m) (Owner m) (MContentType m) n (MHash m) (MCreatedAt m) (FileSize m).
Definition with_Caption (m : FileMetaInput) (c : string) : FileMetaInput :=
  MkMeta c (Alt m) (Owner m) (MContentType m) (Filename m) (MHash m) (MCreatedAt m) (FileSize m).
Definition with_Alt (m : FileMetaInput) (a : string) : FileMetaInput :=
  MkMeta (Caption m) a (Owner m) (MContentType m) (Filename m) (MHash m) (MCreatedAt m) (FileSize m).
Definition new_meta (createdAt : Z) : FileMetaInput := MkMeta "" "" "" "" "" "" createdAt 0.

(* src: storage/storage.go 62-66 *)
Record headerData : Type := MkHeader {
  FileMetadata : gmap string FileMetaInput;
  FileHash : gmap string string;
  Master : string
}.
Definition no_header : headerData := MkHeader ∅ ∅ "".

(** A torrent of the library: its header, when it has been fetched. *)
Record TorrentHeader : Type := MkTorrentHeader { FilesCount : Z; HData : string }.
Record Torrent : Type := MkTorrent { BagID : string; THeader : option TorrentHeader }.

(* src: storage/storage.go 103-108 *)
Record queueItem : Type := MkItem { tor : Torrent; bootstrap : option string; user : option string; version : Z }.

(** A part of a multipart request: its data, up to an error of the connection. *)
Record part : Type := MkPart { FormName : string; FileName : string; PData : string; PErr : option error }.

(** What [SaveFile] reads: a request (nil when it is not multipart) or the name in
    the context. *)
Inductive source : Type :=
  | FromRequest (parts : option (list (part + error))) (maxSize : Z)
  | FromContext (fileName : string).

Record Config : Type := MkConfig {
  PrivateKey : string; RelayURL : string; rootStoragePath : string;
  IONLibertyDisabled : bool; URLUpload : string; AccessKey : string; has_cdn : bool
}.

(** NIP-94, a constant of go-nostr. *)
Definition KindFileMetadata : Z := 1063.

(** ** The world *)

Class StorageWorld (W : Type) := {
  (** leveldb: [None] is its not-found error *)
  db_Get : string -> ST W (option string);
  db_Put : string -> string -> ST W unit;
  db_Delete : list string -> ST W unit;
  (** torrents *)
  GetTorrent : string -> W -> option Torrent;
  RemoveTorrent : Torrent -> ST W unit;
  SetTorrent : Torrent -> ST W unit;
  Stop : Torrent -> W -> W;
  Start : Torrent -> bool -> bool -> ST W unit;
  IsDownloadAll : Torrent -> W -> bool;
  IsCompleted : Torrent -> W -> bool;
  NewTorrent : string -> W -> W * Torrent;
  (** the name and the size of a file of a torrent *)
  GetFileOffsets : Torrent -> string -> W -> outcome (string * Z);
  ListTorrentFiles : Torrent -> ST W (list string);
  FileRef : Type;
  GetSingleFileRef : string -> ST W FileRef;
  (** master, header and files; the torrent is made and started *)
  CreateTorrent : string -> string -> list FileRef -> ST W Torrent;
  Bootstrap : Type;
  buildBootstrapNodeInfo : Torrent -> ST W Bootstrap;
  json_bootstraps : list Bootstrap -> option string;
  (** the file system *)
  os_Remove : string -> ST W unit;
  os_RemoveAll : string -> ST W unit;
  os_MkdirAll : string -> ST W unit;
  os_ReadDir : string -> ST W (list string);
  os_Rename : string -> string -> ST W unit;
  OpenRoot : string -> ST W unit;
  OpenFile : string -> string -> ST W unit;
  os_Open : string -> ST W unit;
  (** appends to an open file; reads one *)
  io_Copy : string -> string -> ST W unit;
  io_Read : string -> ST W string;
  (** the CDN *)
  cdn_FileDelete : string -> ST W unit;
  cdn_HealthCheck : ST W unit;
  cdn_FileUpload : string -> string -> string -> ST W unit;
  cdn_FileUploadAsync : string -> string -> string -> ST W unit;
  (** the database of events, time *)
  GetStoredEvents : list Filter -> W -> W * list (Event + error);
  time_Now : W -> W * Z
}.

(** JSON of a header (read into a header, as [json.Unmarshal] does), MIME types. *)
Class StorageText := {
  header_Unmarshal : headerData -> string -> headerData * option error;
  header_Marshal : headerData -> option string;
  TypeByExtension : string -> string
}.

(** ** The client *)

(** What the pointers of the files that are not in a header yet point to is kept
    apart: [SaveFile] hands out the pointer it stored. *)
(* src: storage/storage.go 81-102 [client] *)
Record client (W : Type) : Type := MkStorage {
  newFiles : gmap string (gmap string nat);
  metas : gmap nat FileMetaInput;
  downloadQueue : list queueItem;
  activeDownloads : gset string;
  healthReadFSM : FSM; healthWriteFSM : FSM;
  lastRead : option Z; lastWrite : option Z;
  world : W
}.
Arguments MkStorage {W}.
Arguments newFiles {W}. Arguments metas {W}. Arguments downloadQueue {W}. Arguments activeDownloads {W}.
Arguments healthReadFSM {W}. Arguments healthWriteFSM {W}. Arguments lastRead {W}. Arguments lastWrite {W}. Arguments world {W}.

Section Storage.
Context {N : Nostr} {G : GoText} {J : GoJSON} {T : EventText} {C : Crypto} {H : HttpText} {X : StorageText} {W : Type} {SW : StorageWorld W}.
Context (config : Config).
Abbreviation M := (ST (client W)).

Definition with_world (s : client W) (w : W) : client W :=
  MkStorage (newFiles s) (metas s) (downloadQueue s) (activeDownloads s) (healthReadFSM s) (healthWriteFSM s) (lastRead s) (lastWrite s) w.
Definition with_newFiles (s : client W) (nf : gmap string (gmap string nat)) : client W :=
  MkStorage nf (metas s) (downloadQueue s) (activeDownloads s) (healthReadFSM s) (healthWriteFSM s) (lastRead s) (lastWrite s) (world s).
Definition with_metas (s : client W) (m : gmap nat FileMetaInput) : client W :=
  MkStorage (newFiles s) m (downloadQueue s) (activeDownloads s) (healthReadFSM s) (healthWriteFSM s) (lastRead s) (lastWrite s) (world s).
Definition with_downloads (s : client W) (q : list queueItem) (a : gset string) : client W :=
  MkStorage (newFiles s) (metas s) q a (healthReadFSM s) (healthWriteFSM s) (lastRead s) (lastWrite s) (world s).

(** An operation of the world; a read of it; a step of the client. *)
Definition outside {A} (m : ST W A) : M A := fun s => let '(w, r) := m (world s) in (with_world s w, r).
Definition observe {A} (f : W -> A) : M A := fun s => (s, Ok (f (world s))).
Definition step (f : client W -> client W) : M unit := fun s => (f s, Ok ()).
Definition gets {A} (f : client W -> A) : M A := fun s => (s, Ok (f s)).
Definition fail {A} (e : error) : M A := lift_st (Err e).

(** ** Health *)

(* src: storage/storage.go 402-407 *)
Definition RecordReadOperation (e : option error) : M unit := step (fun s =>
  let '(w, now) := time_Now (world s) in
  MkStorage (newFiles s) (metas s) (downloadQueue s) (activeDownloads s)
    (Push (healthReadFSM s) (bool_decide (is_Some e)) now).1 (healthWriteFSM s) (Some now) (lastWrite s) w).
(* src: storage/storage.go 410-415 *)
Definition RecordWriteOperation (e : option error) : M unit := step (fun s =>
  let '(w, now) := time_Now (world s) in
  MkStorage (newFiles s) (metas s) (downloadQueue s) (activeDownloads s)
    (healthReadFSM s) (Push (healthWriteFSM s) (bool_decide (is_Some e)) now).1 (lastRead s) (Some now) w).

(** [if c.RecordWriteOperation(err) != nil { return err }] after an operation. *)
Definition recorded (record : option error -> M unit) {A} (m : M A) : M A :=
  r ← attempt_st m;
  match r with
  | inl a => record None ;; mret a
  | inr e => record (Some e) ;; fail e
  end.
Abbreviation read m := (recorded RecordReadOperation m).
Abbreviation written m := (recorded RecordWriteOperation m).

(* src: storage/storage.go 52-57 *)
Record HealthStatus : Type := MkHealth { HLastRead : option Z; HLastWrite : option Z; HInReadErrorState : bool; HInWriteErrorState : bool }.

(* src: storage/storage.go 389-399 *)
Definition Health (s : client W) : HealthStatus :=
  MkHealth (lastRead s) (lastWrite s) (InError (healthReadFSM s)) (InError (healthWriteFSM s)).

(** ** What is known of a user *)

(** A key of [n] bytes: cut, or padded with zeros. *)
Definition padded (n : nat) (s : string) : string := take n s +:+ bytes (repeat 0%nat (n - len s)).

(* src: storage/storage.go 180-182 [bagByUser] *)
Definition user_key (userPubKey : string) : string := "ub:" +:+ padded 64 userPubKey.
(* src: storage/storage.go 205-207 [bootstrapForBag] *)
Definition bootstrap_key (bagID : string) : string := "bs:" +:+ padded 32 bagID.
(* src: storage/storage.go 215-217 [latestHeaderForBag] *)
Definition header_key (bagID : string) : string := "th:" +:+ padded 32 bagID.

(* src: storage/storage.go 178-203 *)
Definition bagByUser (userPubKey : string) : M (option Torrent * Z) :=
  v ← outside (db_Get (user_key userPubKey));
  idv ← match v with
        | None | Some "" => mret ("", 0)
        | Some v =>
            if (len v <? 32)%nat then lift_st Panic
            else
              let versionStr := drop 32 v in
              if versionStr =s? "" then mret (take 32 v, 0)
              else match Strconv.ParseInt versionStr 64 with
                   | None => fail opaque_error
                   | Some version => mret (take 32 v, version)
                   end
        end;
  tr ← observe (GetTorrent idv.1);
  mret (tr, match tr with
            | Some t => match THeader t with Some h => if idv.2 =? 0 then FilesCount h else idv.2 | None => idv.2 end
            | None => idv.2
            end).

(* src: storage/storage.go 204-213 *)
Definition bootstrapForBag (bagID : string) : M string :=
  bs ← outside (db_Get (bootstrap_key bagID)); mret (default "" bs).

(* src: storage/storage.go 214-223 *)
Definition latestHeaderForBag (bagID : string) : M (option string) := outside (db_Get (header_key bagID)).

(** [json.Unmarshal]: what was read before an error is kept. *)
Definition unmarshal_header (md : headerData) (data : string) : outcome headerData :=
  match header_Unmarshal md data with (md, None) => Ok md | (_, Some e) => Err e end.

(** A nil torrent is dereferenced. *)
(* src: storage/storage.go 123-146 *)
Definition fileMeta (bag : option Torrent) : M headerData :=
  match bag with
  | None => lift_st Panic
  | Some bag =>
      hData ← match THeader bag with
              | Some h => mret (HData h)
              | None => h ← latestHeaderForBag (BagID bag);
                        match h with None => fail (err errLatestBagNotDownloadedYet) | Some h => mret h end
              end;
      lift_st (unmarshal_header no_header (if hData =s? "" then "{}" else hData))
  end.

(** The metadata is changed in place, by what is stored, when the file is not in it. *)
(* src: storage/storage.go 156-176 *)
Definition detectFileFromMeta (bag : Torrent) (metadata : headerData) (fileHash : string) : M (headerData * (string + error)) :=
  found ← match FileHash metadata !! fileHash with
          | Some name => mret (metadata, inl name)
          | None =>
              h ← attempt_st (latestHeaderForBag (BagID bag));
              match h with
              | inr _ => mret (metadata, inr (err ErrFileNotExist))
              | inl h =>
                  mret match header_Unmarshal metadata (default "" h) with
                       | (md, Some e) => (md, inr e)
                       | (md, None) => (md, match FileHash md !! fileHash with Some name => inl name | None => inr (err ErrFileNotExist) end)
                       end
              end
          end;
  match found with
  | (md, inr e) => mret (md, inr e)
  | (md, inl name) =>
      f ← observe (GetFileOffsets bag name);
      match f with
      | Ok f => mret (md, inl f.1)
      | Err e => mret (md, inr e)
      | Panic => lift_st Panic
      | OutOfFuel => lift_st OutOfFuel
      end
  end.

(* src: storage/storage.go 148-154 *)
Definition detectFile (bag : Torrent) (fileHash : string) : M string :=
  metadata ← fileMeta (Some bag);
  r ← detectFileFromMeta bag metadata fileHash;
  match r.2 with inl f => mret f | inr e => fail e end.

(** [filepath.Join] of the root and a user *)
(* src: storage/storage.go 225-228 *)
Definition BuildUserPath (userPubKey contentType : string) : string * string :=
  (Filepath.Join [rootStoragePath config; userPubKey], default "" (head (Split contentType "/"))).

(* src: storage/upload.go 285-287 *)
Definition buildFileName (masterPubkey fileHash fileName : string) : string :=
  masterPubkey +:+ ":" +:+ fileHash +:+ Filepath.Ext fileName.

(* src: storage/upload.go 289-302 *)
Definition buildUrl (bagID relativePath masterPubkey fileHash bootstrap : string) : outcome (string * string) :=
  let fName := buildFileName masterPubkey fileHash relativePath in
  if IONLibertyDisabled config then
    match url_Parse (RelayURL config) with
    | None => Err opaque_error
    | Some relayUrl => Ok ("https://" +:+ Hostname relayUrl +:+ ":" +:+ Port relayUrl +:+ "/files/" +:+ fName, fName)
    end
  else Ok ("http://" +:+ bagID +:+ ".bag/" +:+ relativePath +:+ "?bootstrap=" +:+ bootstrap, fName).

(** ** Reading *)

(** The base64 of the JSON of one bootstrap node. *)
(* src: storage/storage.go 263-267 [ListFiles] *)
Definition bootstrap_text (bs : Bootstrap) : outcome string :=
  match json_bootstraps [bs] with Some b => Ok (Base64.EncodeToString b) | None => Err opaque_error end.

(* src: storage/download.go 30-53 *)
Definition DownloadUrl (masterPubkey fileHash : string) : M string :=
  b ← read (bagByUser masterPubkey);
  match b.1 with
  | None => fail (err ErrFileNotExist)
  | Some bag =>
      bs ← read (outside (buildBootstrapNodeInfo bag));
      file ← read (detectFile bag fileHash);
      bootstrap ← read (lift_st (bootstrap_text bs));
      u ← read (lift_st (buildUrl (Hex.EncodeToString (BagID bag)) file masterPubkey fileHash bootstrap));
      mret u.1
  end.

(* src: storage/storage.go 285-317 *)
Definition FilePath (masterKey fileHash ext : string) : M string :=
  b ← bagByUser masterKey;
  match b.1 with
  | None => fail (err ErrFileNotExist)
  | Some bag =>
      let userPath := (BuildUserPath masterKey "").1 in
      let plain := Filepath.Join [userPath; fileHash +:+ ext] in
      metadata ← attempt_st (fileMeta (Some bag));
      match metadata with
      | inr e => if error_is e errLatestBagNotDownloadedYet || error_is e Prelude.SyntaxError then mret plain else fail e
      | inl metadata =>
          r ← detectFileFromMeta bag metadata fileHash;
          match r.2 with
          | inr e => if error_is e ErrFileNotExist then mret plain else fail e
          | inl file => mret (Filepath.Join [userPath; file])
          end
      end
  end.

(** A file of a list: what [nip94] writes as tags, and its age in seconds. *)
(* src: storage/storage.go 77-80 *)
Record FileMetadataEntry : Type := MkEntryOf {
  FSize : string; FSummary : string; FURL : string; FM : string; FOX : string; FTorrentInfoHash : string; FContent : string;
  FCreatedAt : Z
}.

(** [uint32] *)
Definition uint32 (z : Z) : Z := z `mod` 2 ^ 32.

(** The offset [i] of a file in its page; a file the torrent does not have is a nil
    pointer, dereferenced. *)
(* src: storage/storage.go 256-281 [ListFiles] *)
Fixpoint list_page (bag : Torrent) (metadata : headerData) (bs : Bootstrap) (files all : list string) (i base : Z) : M (list FileMetadataEntry) :=
  match files with
  | [] => mret []
  | f :: fs =>
      info ← observe (GetFileOffsets bag f);
      file ← match info with Ok file => mret file | Err _ | Panic => lift_st Panic | OutOfFuel => lift_st OutOfFuel end;
      match FileMetadata metadata !! file.1 with
      | None => list_page bag metadata bs fs all (i + 1) base
      | Some md =>
          bootstrap ← lift_st (bootstrap_text bs);
          let url := match buildUrl (Hex.EncodeToString (BagID bag)) f (Master metadata) (Hex.EncodeToString (MHash md)) bootstrap with
                     | Ok u => u.1 | _ => "" end in
          path ← lift_st (index all (Z.to_nat (uint32 (base + i))));
          let entry := MkEntryOf (Strconv.Itoa file.2) (Alt md) url
            (TypeByExtension (Filepath.Ext path)) (Hex.EncodeToString (MHash md)) (Hex.EncodeToString (BagID bag)) (Caption md)
            ((int64 (MCreatedAt md) / 1000000000) `mod` 2 ^ 64) in
          rest ← list_page bag metadata bs fs all (i + 1) base; mret (entry :: rest)
      end
  end.

(** [files[i:j]] panics unless [i <= j <= len(files)] (here [cap = len]). *)
Definition slice_list {A} (l : list A) (i j : Z) : outcome (list A) :=
  if (i <=? j) && (j <=? zlen l) then Ok (list.take (Z.to_nat (j - i)) (list.drop (Z.to_nat i) l)) else Panic.

(* src: storage/storage.go 230-283 *)
Definition ListFiles (userPubKey : string) (page limit : Z) : M (Z * list FileMetadataEntry) :=
  b ← bagByUser userPubKey;
  metadata ← fileMeta b.1;
  match b.1 with
  | Some bag =>
      match THeader bag with
      | None => lift_st Panic
      | Some h =>
          let startOffset := uint32 (page * limit) in
          if FilesCount h <=? startOffset then mret (FilesCount h, [])
          else
            let endOffset := uint32 (uint32 (page * limit) + limit) in
            let endOffset := if FilesCount h <=? endOffset then FilesCount h else endOffset in
            bs ← outside (buildBootstrapNodeInfo bag);
            files ← outside (ListTorrentFiles bag);
            part ← lift_st (slice_list files startOffset endOffset);
            res ← list_page bag metadata bs part files 0 (uint32 (page * limit));
            mret (FilesCount h, res)
      end
  | None => lift_st Panic
  end.
(** ** Uploading *)

(* src: storage/upload.go 155-157 *)
Definition cdnEnabled : bool := (URLUpload config ≠s? "") && (AccessKey config ≠s? "") && has_cdn config.

(** The value a pointer of a new file points to. *)
Definition meta_at (s : client W) (p : nat) : FileMetaInput := default (new_meta 0) (metas s !! p).
Definition update_meta (p : nat) (f : FileMetaInput -> FileMetaInput) : M unit :=
  step (fun s => with_metas s (<[p := f (meta_at s p)]> (metas s))).
(** [&FileMetaInput{...}] *)
Definition alloc_meta (m : FileMetaInput) : M nat := fun s =>
  let p := fresh (dom (metas s)) in (with_metas s (<[p := m]> (metas s)), Ok p).

(** The new file is added to the header, or the deleted one removed; files that
    are not in a header yet are added after it. *)
(* src: storage/upload.go 161-185 [upload] *)
Definition new_header (s : client W) (master user relativePath hash : string) (fileMeta : option nat) (old : headerData) : client W * headerData :=
  let '(s, md) := match fileMeta with
                  | Some p =>
                      let m := with_Owner (meta_at s p) user in
                      (with_metas s (<[p := m]> (metas s)),
                       MkHeader (<[relativePath := m]> (FileMetadata old)) (<[Hex.EncodeToString (MHash m) := relativePath]> (FileHash old)) master)
                  | None => (s, MkHeader (delete relativePath (FileMetadata old)) (delete hash (FileHash old)) master)
                  end in
  (s, map_fold (fun key p md =>
         let m := meta_at s p in
         MkHeader (<[key := m]> (FileMetadata md)) (<[Hex.EncodeToString (MHash m) := key]> (FileHash md)) (Master md))
       md (default ∅ (newFiles s !! master))).

(** Files that are not there any more leave the metadata (and not the hashes). *)
(* src: storage/upload.go 187-198 [upload] *)
Fixpoint file_refs (rootUserPath : string) (names : list string) (md : headerData) (refs : list FileRef) : M (headerData * list FileRef) :=
  match names with
  | [] => mret (md, refs)
  | relativeFilePath :: names =>
      r ← attempt_st (outside (GetSingleFileRef (Filepath.Join [rootUserPath; relativeFilePath])));
      match r with
      | inl ref => file_refs rootUserPath names md (refs ++ [ref])
      | inr e =>
          if error_is e ErrNotExist
          then file_refs rootUserPath names (MkHeader (delete relativeFilePath (FileMetadata md)) (FileHash md) (Master md)) refs
          else fail e
      end
  end.

(* src: storage/download.go 327-341 *)
Definition saveBagPerUser (bagID : string) (ver : option Z) (userPubKey : option string) : M unit :=
  match userPubKey with
  | None | Some "" => mret ()
  | Some u => outside (db_Put (user_key u) (bagID +:+ match ver with Some v => Strconv.Itoa v | None => "" end))
  end.

(** Whether the torrent becomes the one of its user. *)
(* src: storage/download.go 286-301 [saveTorrent] *)
Definition replaces_bag (tr : Torrent) (newCount : Z) (existing : option Torrent * Z) (deletion : bool) (newVersion : option Z) : bool :=
  let f := uint32 newCount in
  let maxVal := match existing.1 with
                | None => f
                | Some t => match THeader t with Some h => Z.max f (FilesCount h) | None => Z.max f (uint32 existing.2) end
                end in
  deletion ||
  match THeader tr with
  | None => match newVersion with Some v => maxVal <=? v | None => false end
  | Some h => maxVal <=? FilesCount h
  end.

(* src: storage/download.go 278-325 *)
Definition saveTorrent (tr : Torrent) (userPubKey bs : option string) (deletion : bool) (newVersion : option Z) : M unit :=
  written (
    outside (SetTorrent tr) ;;
    match userPubKey with
    | None | Some "" => mret ()
    | Some u =>
        f ← gets (fun s => zlen (map_to_list (default ∅ (newFiles s !! u))));
        existing ← bagByUser u;
        if replaces_bag tr f existing deletion newVersion then saveBagPerUser (BagID tr) newVersion userPubKey else mret ()
    end ;;
    match bs with None => mret () | Some bs => outside (db_Put (bootstrap_key (BagID tr)) bs) end ;;
    match THeader tr with
    | Some h => if HData h =s? "" then mret () else outside (db_Put (header_key (BagID tr)) (HData h))
    | None => mret ()
    end).

(** A new file that is in the header of the torrent is not new any more. *)
(* src: storage/upload.go 308-317 [saveUploadTorrent] *)
Fixpoint forget_new (tr : Torrent) (userPubKey : string) (names : list string) : M unit :=
  match names with
  | [] => mret ()
  | k :: names =>
      f ← observe (GetFileOffsets tr k);
      match f with
      | Ok _ =>
          meta ← attempt_st (fileMeta (Some tr));
          match meta with
          | inr _ => lift_st Panic
          | inl meta =>
              (if bool_decide (is_Some (FileMetadata meta !! k))
               then step (fun s => with_newFiles s (<[userPubKey := delete k (default ∅ (newFiles s !! userPubKey))]> (newFiles s)))
               else mret ()) ;;
              forget_new tr userPubKey names
          end
      | Err _ => forget_new tr userPubKey names
      | Panic => lift_st Panic
      | OutOfFuel => lift_st OutOfFuel
      end
  end.

(* src: storage/upload.go 304-319 *)
Definition saveUploadTorrent (tr : Torrent) (userPubKey : string) (deletion : bool) : M unit :=
  saveTorrent tr (Some userPubKey) None deletion None ;;
  names ← gets (fun s => range_set (dom (default ∅ (newFiles s !! userPubKey))));
  forget_new tr userPubKey names.

(* src: storage/upload.go 159-256 *)
Definition upload (user master relativePath hash : string) (fileMeta : option nat) (headerMetadata : headerData) : M (Torrent * list Bootstrap) :=
  headerMD ← (fun s => let '(s, md) := new_header s master user relativePath hash fileMeta headerMetadata in (s, Ok md));
  refs ← file_refs (BuildUserPath master "").1 (range_set (dom (FileMetadata headerMD))) headerMD [];
  headerMDSerialized ← lift_st (match header_Marshal refs.1 with Some j => Ok j | None => Err opaque_error end);
  tr ← outside (CreateTorrent master headerMDSerialized refs.2);
  outside (Start tr true false) ;;
  saveUploadTorrent tr master (bool_decide (fileMeta = None)) ;;
  bootstrapNode ← outside (buildBootstrapNodeInfo tr);
  mret (tr, [bootstrapNode]).

(** [SyncCdnUpload(ctx)] is an argument. *)
(* src: storage/upload.go 131-153 *)
Definition cdnUpload (sync : bool) (masterPubKey relativePathToFileForUrl fileNameForCdn : string) (newFile : FileMetaInput) : M unit :=
  outside cdn_HealthCheck ;;
  let fullFilePath := Filepath.Join [rootStoragePath config; masterPubKey; relativePathToFileForUrl] in
  let async := outside (cdn_FileUploadAsync (TrimPrefix fullFilePath (rootStoragePath config)) (MContentType newFile) fileNameForCdn) in
  if negb sync then async
  else
    written (outside (os_Open fullFilePath)) ;;
    r ← attempt_st (written (outside (cdn_FileUpload fullFilePath (MContentType newFile) fileNameForCdn)));
    match r with inl _ => mret () | inr _ => async end.

(** The header a user's torrent has, or the one stored for it. *)
(* src: storage/upload.go 39-54 [StartUpload] *)
Definition existing_header (existing : option Torrent) : M headerData :=
  match existing with
  | None => mret no_header
  | Some bag =>
      data ← match THeader bag with
             | Some h => if HData h =s? "" then d ← written (latestHeaderForBag (BagID bag)); mret (default "" d) else mret (HData h)
             | None => d ← written (latestHeaderForBag (BagID bag)); mret (default "" d)
             end;
      if data =s? "" then mret no_header else written (lift_st (unmarshal_header no_header data))
  end.

(** The identifier of a torrent as clients see it. *)
(* src: storage/upload.go 128 [StartUpload] *)
Definition bag_text (bagID bootstrap : string) (version : Z) : string :=
  bagID +:+ ":" +:+ bootstrap +:+ ":" +:+ Strconv.Itoa version.

(** A file that is there already, unless it cannot be found in the torrent. *)
(* src: storage/upload.go 55-88 [StartUpload] *)
Definition already_uploaded (existing : option Torrent) (existed : bool) (masterPubKey hash : string) (newFile : option nat) :
    M (bool * option (string * string)) :=
  match existing, newFile with
  | Some bag, Some _ =>
      if existed then
        r ← attempt_st (DownloadUrl masterPubKey hash);
        match r with
        | inr e => if error_is e ErrFileNotExist then mret (false, None) else RecordWriteOperation (Some e) ;; fail e
        | inl url =>
            bs ← outside (buildBootstrapNodeInfo bag);
            bootstrap ← written (lift_st (bootstrap_text bs));
            let version := match THeader bag with Some h => FilesCount h | None => 0 end in
            mret (true, Some (bag_text (Hex.EncodeToString (BagID bag)) bootstrap version, url))
        end
      else mret (false, None)
  | _, _ => mret (existed, None)
  end.

(** The statistics of a debug run are left out. *)
(* src: storage/upload.go 34-129 *)
Definition StartUpload (sync : bool) (userPubKey masterPubKey relativePathToFileForUrl hash : string) (newFile : option nat) :
    M (string * string * bool) :=
  existing ← written (bagByUser masterPubKey);
  existingHD ← existing_header existing.1;
  present ← already_uploaded existing.1 (bool_decide (is_Some (FileHash existingHD !! hash))) masterPubKey hash newFile;
  match present with
  | (existed, Some (bagID, url)) => mret (bagID, url, existed)
  | (existed, None) =>
      up ← written (upload userPubKey masterPubKey relativePathToFileForUrl hash newFile existingHD);
      let bagID := Hex.EncodeToString (BagID up.1) in
      count ← lift_st (match THeader up.1 with Some h => Ok (FilesCount h) | None => Panic end);
      bootstrap ← written (lift_st (match json_bootstraps up.2 with Some b => Ok (Base64.EncodeToString b) | None => Err opaque_error end));
      u ← lift_st (buildUrl bagID relativePathToFileForUrl masterPubKey hash bootstrap);
      let answer := (bag_text bagID bootstrap count, u.1, existed) in
      match newFile with
      | Some p =>
          if cdnEnabled then
            m ← gets (fun s => meta_at s p);
            written (cdnUpload sync masterPubKey relativePathToFileForUrl u.2 m) ;; mret answer
          else mret answer
      | None => mret answer
      end
  end.
(** ** Saving what a request carries *)

(** The pointer stored, and the digest; or the pointer and the error returned. *)
Inductive saved_file : Type :=
  | Saved (path : string) (input : nat) (hash : string)
  | NotSaved (input : option nat) (e : error).

(* src: storage/storage.go 120 *)
Definition MediaTypeAvatar : string := "avatar".
(* src: storage/storage.go 121 *)
Definition MediaTypeBanner : string := "banner".

(** At most 1024 bytes are read. *)
(* src: storage/upload.go 454-461 *)
Definition readString (p : part) : outcome string :=
  match PErr p with
  | Some e => if (len (PData p) <? 1024)%nat then Err e else Ok (take 1024 (PData p))
  | None => Ok (take 1024 (PData p))
  end.

(** The variables of the loop over the parts. *)
Record saving : Type := MkSaving { s_name : string; s_type : string; s_size : Z; s_data : string; s_caption : string; s_alt : string }.

(* src: storage/upload.go 344-394 [SaveFile] *)
Definition save_file_part (storagePath : string) (maxSize : Z) (p : part) (v : saving) : M (saving + saved_file) :=
  if (FileName p =? "")%string || negb (Filepath.IsLocal (FileName p)) then mret (inr (NotSaved None (err ErrValidationFailed)))
  else
    let ct := if s_type v =s? "" then TypeByExtension (Filepath.Ext (FileName p)) else s_type v in
    let path := Filepath.Join [storagePath; FileName p] in
    r ← attempt_st (
      written (outside (os_MkdirAll (Filepath.Dir path))) ;;
      written (outside (OpenRoot storagePath)) ;;
      written (outside (OpenFile storagePath (FileName p))) ;;
      written (outside (io_Copy path (PData p)) ;; lift_st (match PErr p with Some e => Err e | None => Ok () end)));
    match r with
    | inr e => mret (inr (NotSaved None e))
    | inl _ =>
        let size := s_size v + Z.of_nat (len (PData p)) in
        if maxSize <? size then
          RecordWriteOperation (Some (err ErrFileTooBig)) ;;
          q ← alloc_meta (MkMeta "" "" "" "" "" "" 0 size);
          attempt_st (outside (os_Remove path)) ;;
          mret (inr (NotSaved (Some q) (err ErrFileTooBig)))
        else mret (inl (MkSaving (FileName p) ct size (s_data v +:+ PData p) (s_caption v) (s_alt v)))
    end.

(* src: storage/upload.go 395-415 [SaveFile] *)
Definition save_field (p : part) (v : saving) : saving + saved_file :=
  let value := match readString p with Ok x => x | _ => "" end in
  let stop := match readString p with Err e => Some (NotSaved None e) | _ => None end in
  let go v := match stop with Some r => inr r | None => inl v end in
  if FormName p =s? "media_type" then
    if (value ≠s? "") && (value ≠s? MediaTypeAvatar) && (value ≠s? MediaTypeBanner) then inr (NotSaved None (err ErrValidationFailed)) else go v
  else if FormName p =s? "content_type" then
    let ct := if (value =s? "") && (s_name v ≠s? "") then TypeByExtension (Filepath.Ext (s_name v)) else value in
    go (MkSaving (s_name v) ct (s_size v) (s_data v) (s_caption v) (s_alt v))
  else if FormName p =s? "caption" then go (MkSaving (s_name v) (s_type v) (s_size v) (s_data v) value (s_alt v))
  else if FormName p =s? "alt" then go (MkSaving (s_name v) (s_type v) (s_size v) (s_data v) (s_caption v) value)
  else inl v.

(* src: storage/upload.go 335-417 [SaveFile] *)
Fixpoint save_parts (storagePath : string) (maxSize : Z) (parts : list (part + error)) (v : saving) : M (saving + saved_file) :=
  match parts with
  | [] => mret (inl v)
  | inr e :: _ => mret (inr (NotSaved None e))
  | inl p :: parts =>
      r ← (if FormName p =s? "file" then save_file_part storagePath maxSize p v else mret (save_field p v));
      match r with inl v => save_parts storagePath maxSize parts v | inr r => mret (inr r) end
  end.

(** The file becomes one that is not in a header yet. *)
(* src: storage/upload.go 444-451 [SaveFile] *)
Definition remember_file (masterPubKey newName hash : string) (input : FileMetaInput) : M saved_file :=
  p ← alloc_meta (with_Filename input newName);
  step (fun s => with_newFiles s (<[masterPubKey := <[newName := p]> (default ∅ (newFiles s !! masterPubKey))]> (newFiles s))) ;;
  mret (Saved (Filepath.Join [(BuildUserPath masterPubKey "").1; newName]) p hash).

(* src: storage/upload.go 320-452 *)
Definition SaveFile (now : Z) (masterPubKey : string) (r : source) : M saved_file :=
  let storagePath := (BuildUserPath masterPubKey "").1 in
  match r with
  | FromContext fileName => remember_file masterPubKey fileName "" (new_meta now)
  | FromRequest None _ => mret (NotSaved None opaque_error)
  | FromRequest (Some parts) maxSize =>
      v ← save_parts storagePath maxSize parts (MkSaving "" "" 0 "" "" "");
      match v with
      | inr r => mret r
      | inl v =>
          let hash := sha256_Sum256 (s_data v) in
          let newName := Hex.EncodeToString hash +:+ Filepath.Ext (s_name v) in
          r ← attempt_st (written (outside (os_Rename (Filepath.Join [storagePath; s_name v]) (Filepath.Join [storagePath; newName]))));
          match r with
          | inr e => mret (NotSaved None e)
          | inl _ => remember_file masterPubKey newName hash (MkMeta (s_caption v) (s_alt v) "" (s_type v) "" hash now (s_size v))
          end
      end
  end.
(** ** Deleting *)

(** [hex.DecodeString] keeps what it decoded before an error. *)
Fixpoint hex_prefix (s : string) : string :=
  match s with
  | String a (String b s) =>
      match Hex.DecodeString (String a (String b "")) with Some c => c +:+ hex_prefix s | None => "" end
  | _ => ""
  end.

(** The files of an account under a hash: at most two are asked for. *)
Definition files_filter (masterKey fileHash : string) (limit : Z) : Filter :=
  MkFilter None (Some [KindFileMetadata]) (Some [masterKey]) None (Some (TagMap_Append ∅ "ox" [Some fileHash])) None None limit "".

(** How many events name a file; an error ends the count. *)
(* src: storage/delete.go 22-39 [Delete] *)
Definition count_files (masterKey fileHash : string) : M nat :=
  items ← outside (fun w => let '(w, items) := GetStoredEvents [files_filter masterKey fileHash 2] w in (w, Ok items));
  match omap (fun i => match i with inr e => Some e | inl _ => None end) items with
  | e :: _ => fail e
  | [] => mret (length items)
  end.

(** A file that is already gone is not an error. *)
Definition remove_file (path : string) : M unit :=
  r ← attempt_st (outside (os_Remove path));
  match r with inr e => if error_is e ErrNotExist then mret () else fail e | inl _ => mret () end.

(* src: storage/delete.go 21-78 *)
Definition Delete (userPubKey masterKey fileHash : string) : M unit :=
  count ← count_files masterKey fileHash;
  if (2 <=? count)%nat then mret ()
  else
    b ← bagByUser masterKey;
    match b.1 with
    | None => fail (err ErrFileNotExist)
    | Some bag =>
        metadata ← fileMeta (Some bag);
        r ← detectFileFromMeta bag metadata fileHash;
        file ← match r.2 with
               | inl file => mret file
               | inr e => if error_is e ErrFileNotExist then mret fileHash else fail e
               end;
        if (userPubKey ≠s? masterKey) && match FileMetadata r.1 !! file with Some md => Owner md =s? masterKey | None => false end
        then fail (err ErrFileForbidden)
        else
          remove_file (Filepath.Join [(BuildUserPath masterKey "").1; file]) ;;
          if cdnEnabled then outside (cdn_FileDelete (buildFileName masterKey fileHash file)) else mret ()
    end.

(** Files the CDN keeps of a user: errors are logged. *)
(* src: storage/delete.go 93-98 [DeleteUser] *)
Fixpoint cdn_delete_all (masterKey : string) (files : list string) : M unit :=
  match files with
  | [] => mret ()
  | f :: files => attempt_st (outside (cdn_FileDelete (buildFileName masterKey f f))) ;; cdn_delete_all masterKey files
  end.

(* src: storage/delete.go 80-118 *)
Definition DeleteUser (masterKey : string) : M unit :=
  b ← bagByUser masterKey;
  let userPath := (BuildUserPath masterKey "").1 in
  (if cdnEnabled then
     files ← attempt_st (outside (os_ReadDir userPath));
     cdn_delete_all masterKey (match files with inl fs => fs | inr _ => [] end)
   else mret ()) ;;
  match b.1 with
  | None => mret ()
  | Some bag =>
      step (fun s => with_world s (Stop bag (world s))) ;;
      outside (RemoveTorrent bag) ;;
      outside (db_Delete ["ub:" +:+ BagID bag; "bs:" +:+ BagID bag; "th:" +:+ BagID bag])
  end ;;
  outside (os_RemoveAll userPath).

(** ** Downloading what other relays have *)

(* src: storage/download.go 139-186 *)
Definition download (bagID userKey : string) (bootstap : option string) (newVersion : Z) : M unit :=
  read (match Hex.DecodeString bagID with
        | None => fail opaque_error
        | Some bag =>
            if negb (len bag =? 32)%nat then mret ()
            else
              active ← gets (fun s => bool_decide (bagID ∈ activeDownloads s));
              if (active : bool) then mret ()
              else
                t ← observe (GetTorrent bag);
                match t with
                | None =>
                    t ← outside (fun w => let '(w, t) := NewTorrent bag w in (w, Ok t));
                    saveTorrent t (Some userKey) bootstap false (Some newVersion) ;;
                    step (fun s => with_downloads s (downloadQueue s ++ [MkItem t bootstap (Some userKey) newVersion]) (activeDownloads s))
                | Some t =>
                    completed ← observe (IsCompleted t);
                    if (completed : bool) then mret () else outside (Start t true true)
                end
        end).

(** The torrent of the user gives way to a newer one. *)
(* src: storage/download.go 105-126 [newBagIDPromoted] *)
Definition replace_bag (existing : option Torrent * Z) (bagID : string) (newVersion : Z) : M bool :=
  match existing.1 with
  | None => mret true
  | Some t =>
      let older := match THeader t with Some h => FilesCount h <? newVersion | None => existing.2 <? newVersion end in
      if (Hex.EncodeToString (BagID t) ≠s? bagID) && older then
        downloading ← observe (IsDownloadAll t);
        step (fun s => with_world s (Stop t (world s))) ;;
        step (fun s => with_downloads s (downloadQueue s) (activeDownloads s ∖ {[Hex.EncodeToString (BagID t)]})) ;;
        (if (downloading : bool) then outside (RemoveTorrent t) else mret ()) ;;
        mret true
      else mret false
  end.

(* src: storage/download.go 100-137 *)
Definition newBagIDPromoted (userKey bagID : string) (bootstap : option string) (newVersion : Z) : M unit :=
  existing ← bagByUser userKey;
  replaceBagPerUser ← replace_bag existing bagID newVersion;
  (if replaceBagPerUser && (userKey ≠s? "") then saveBagPerUser (hex_prefix bagID) (Some newVersion) (Some userKey) else mret ()) ;;
  download bagID userKey bootstap newVersion.

(* src: storage/download.go 73-98 *)
Definition StartDownloadNewBag (fileHash userMasterKey infohash : string) : M unit :=
  read (match Split infohash ":" with
        | [infohash; bootstrap; v] =>
            match Strconv.ParseInt v 64 with
            | None => fail opaque_error
            | Some version => newBagIDPromoted userMasterKey infohash (Some bootstrap) version
            end
        | _ => fail opaque_error
        end).

(* src: storage/download.go 55-71 *)
Definition acceptNewBag (event : Event) (acceptor : string -> string -> string -> M unit) : M unit :=
  let infohash := Value (GetTag event "i") in
  if infohash =s? "" then fail opaque_error
  else
    let fileHash := Value (GetTag event "ox") in
    if fileHash =s? "" then fail opaque_error
    else acceptor fileHash (GetMasterPublicKey event) infohash.

(* src: storage/download.go 500-515 *)
Definition fetchUserRelays (userMasterKey : string) : M (list string) :=
  items ← outside (fun w => let '(w, items) := GetStoredEvents
      [MkFilter None (Some [KindRelayListMetadata]) (Some [userMasterKey]) None None None None 0 ""] w in (w, Ok items));
  match items with
  | [] => mret []
  | inr e :: _ => fail e
  | inl ev :: _ => mret (CollectRelaysFromRelayEvent ev)
  end.

(** The request to a relay is a parameter; the requests are made at once, here in
    the order of the relays, and every one is made. *)
Context (triggerDownloadOnRelay : string -> string -> string -> string -> M unit).

Fixpoint trigger_all (relays : list string) (fileHash userMasterKey infohash : string) (e : option error) : M unit :=
  match relays with
  | [] => match e with None => mret () | Some e => fail e end
  | r :: relays =>
      res ← attempt_st (triggerDownloadOnRelay r fileHash userMasterKey infohash);
      trigger_all relays fileHash userMasterKey infohash (match e with Some e => Some e | None => match res with inr x => Some x | inl _ => None end end)
  end.

(* src: storage/download.go 402-436 *)
Definition triggerDownloadOnAllPeers (events : list Event) (fileHash userMasterKey infohash : string) : M unit :=
  let relays := match List.find (fun e => Kind e =? KindRelayListMetadata) events with
                | Some e => CollectRelaysFromRelayEvent e | None => [] end in
  relays ← (if is_nil relays then
              r ← attempt_st (fetchUserRelays userMasterKey);
              match r with inl rs => mret rs | inr _ => fail (err ErrNoRelays) end
            else mret relays);
  if is_nil relays then fail (err ErrNoRelays) else trigger_all relays fileHash userMasterKey infohash None.

(** ** Events *)

(** [errors.Join] of errors that may be nil. *)
Definition join (e1 e2 : option error) : option error :=
  match e1, e2 with
  | None, e | e, None => e
  | Some e1, Some e2 => Some (join_error e1 e2)
  end.
Definition failure {A} (r : A + error) : option error := match r with inl _ => None | inr e => Some e end.

(** A file whose event is deleted leaves the torrent, which is made again. *)
(* src: storage/global.go 198-251 *)
Definition processEventDeletion (fileHash masterPubkey pubkey ext : string) : M unit :=
  count ← count_files masterPubkey fileHash;
  if (2 <=? count)%nat then mret ()
  else
    b ← bagByUser masterPubkey;
    match b.1 with
    | None => fail opaque_error
    | Some bag =>
        let userRoot := (BuildUserPath masterPubkey "").1 in
        file ← attempt_st (detectFile bag fileHash);
        match file with
        | inr e =>
            if error_is e ErrFileNotExist || error_is e errLatestBagNotDownloadedYet
            then outside (os_Remove (Filepath.Join [userRoot; fileHash +:+ ext])) else fail e
        | inl file =>
            remove_file (Filepath.Join [userRoot; file]) ;;
            StartUpload false pubkey masterPubkey file fileHash None ;;
            mret ()
        end
    end.

(** The first stored event a deletion refers to that has files. *)
(* src: storage/global.go 138-152 [acceptDeletion] *)
Fixpoint file_event (event : Event) (items : list (Event + error)) : outcome (option Event) :=
  match items with
  | [] => Ok None
  | inr e :: _ => Err e
  | inl fileEvent :: items =>
      if negb (Kind fileEvent =? KindFileMetadata) && is_nil (GetTag fileEvent "imeta") then file_event event items
      else
        reject opaque_error when GetMasterPublicKey fileEvent ≠s? GetMasterPublicKey event ;;
        Ok (Some fileEvent)
  end.

(* src: storage/global.go 125-155 [acceptDeletion] *)
Definition original_event (event : Event) : M (option Event) :=
  if Kind event =? KindDeletion then
    refs ← lift_st (ParseEventReference (EvTags event));
    items ← outside (fun w => let '(w, items) := GetStoredEvents (reference_filter <$> refs) w in (w, Ok items));
    lift_st (file_event event items)
  else if bool_decide (Kind event ∈ [KindArticle; KindDraftArticle; CustomIONKindEditableTextNote]) then mret (Previous event)
  else mret None.

(** The hashes of the files of an event and their URLs. *)
(* src: storage/global.go 164-180 [acceptDeletion] *)
Definition file_hashes (e : Event) : outcome (gmap string string) :=
  let xTag := GetTag e "ox" in
  if (Kind e =? KindFileMetadata) && (Value xTag ≠s? "") then Ok {[Value xTag := Value (GetTag e "url")]}
  else for_state (GetAll (EvTags e) ["imeta"]) ∅ (fun m imeta =>
    let! values := ParseIMeta imeta in
    let hash := default "" (values !! "ox") in
    reject opaque_error when hash =s? "" ;;
    Ok (<[hash := default "" (values !! "url")]> m)).

(** The error of a file is forgotten when the URL of the next one is parsed. *)
(* src: storage/global.go 181-195 [acceptDeletion] *)
Fixpoint delete_files (original : Event) (hashes : gmap string string) (keys : list string) (e : option error) : M unit :=
  match keys with
  | [] => match e with None => mret () | Some e => fail e end
  | fh :: keys =>
      match url_Parse (default "" (hashes !! fh)) with
      | None => fail opaque_error
      | Some u =>
          r ← attempt_st (processEventDeletion fh (GetMasterPublicKey original) (PubKey original) (Filepath.Ext (Path u)));
          let deleteErr := match r with
                           | inr x => if error_is x ErrNotExist || error_is x ErrFileNotExist then None else Some x
                           | inl _ => None
                           end in
          delete_files original hashes keys deleteErr
      end
  end.

(* src: storage/global.go 124-196 *)
Definition acceptDeletion (event : Event) : M unit :=
  original ← original_event event;
  match original with
  | None => mret ()
  | Some original =>
      hashes ← lift_st (file_hashes original);
      delete_files original hashes (range_set (dom hashes)) None
  end.

(** A deletion that names nothing. *)
(* src: storage/global.go 92 [acceptEvents] *)
Definition is_profile_deletion (event : Event) : bool :=
  ((length (EvTags event) =? 0)%nat || ((length (EvTags event) =? 1)%nat && (Value (GetTag event "b") ≠s? "")))
  && (GetMasterPublicKey event ≠s? "").

(** One event, with the error so far: parsing the date of a post replaces it. *)
(* src: storage/global.go 87-110 [acceptEvents] *)
Definition accept_event (acceptor : string -> string -> string -> M unit) (event : Event) (e : option error) : M (option error) :=
  let joined (m : M unit) (e : option error) : M (option error) := r ← attempt_st m; mret (join e (failure r)) in
  if Kind event =? KindFileMetadata then joined (acceptNewBag event acceptor) e
  else if Kind event =? KindDeletion then
    if is_profile_deletion event then joined (DeleteUser (GetMasterPublicKey event)) e
    else if (1 <? length (EvTags event))%nat && bool_decide (is_Some (valued (GetFirst (EvTags event) ["k"]))) then joined (acceptDeletion event) e
    else mret e
  else if bool_decide (Kind event ∈ [KindArticle; KindDraftArticle; CustomIONKindEditableTextNote]) then
    if (Content event =? "")%string && is_nil (GetTag event CustomIONTagRichText) then
      match ParseTimestamp (Value (GetTag event "published_at")) with
      | None => mret (Some opaque_error)
      | Some val => if TsAfter (CreatedAt event) val then joined (acceptDeletion event) None else mret None
      end
    else mret e
  else mret e.

Fixpoint accept_all (acceptor : string -> string -> string -> M unit) (events : list Event) (e : option error) : M (option error) :=
  match events with
  | [] => mret e
  | event :: events => e ← accept_event acceptor event e; accept_all acceptor events e
  end.

(* src: storage/global.go 85-113 *)
Definition acceptEvents (acceptor : string -> string -> string -> M unit) (events : list Event) : M unit :=
  e ← accept_all acceptor events None;
  match e with None => mret () | Some e => fail e end.

(* src: storage/global.go 81-83 *)
Definition AcceptEvents (events : list Event) : M unit := acceptEvents StartDownloadNewBag events.

(* src: storage/global.go 115-122 [ReplicateFileOnPeers] *)
Fixpoint replicate_all (all events : list Event) (e : option error) : M (option error) :=
  match events with
  | [] => mret e
  | event :: events =>
      if Kind event =? KindFileMetadata then
        r ← attempt_st (acceptNewBag event (triggerDownloadOnAllPeers all)); replicate_all all events (join e (failure r))
      else replicate_all all events e
  end.
Definition ReplicateFileOnPeers (events : list Event) : M unit :=
  e ← replicate_all events events None;
  match e with None => mret () | Some e => fail e end.

(** What is returned is the error of the last event. *)
(* src: storage/global.go 469-501 [DeleteExpiredFiles] *)
Fixpoint expire_files (events : list Event) (e : option error) : M unit :=
  match events with
  | [] => match e with None => mret () | Some e => fail e end
  | ev :: events =>
      if negb (Kind ev =? KindFileMetadata) then expire_files events e
      else
        let fileHash := Value (GetTag ev "ox") in
        ext ← (if Value (GetTag ev "url") ≠s? "" then
                 match url_Parse (Value (GetTag ev "url")) with Some u => mret (Filepath.Ext (Path u)) | None => fail opaque_error end
               else mret "");
        if fileHash =s? "" then fail opaque_error
        else
          r ← attempt_st (processEventDeletion fileHash (GetMasterPublicKey ev) (PubKey ev) ext);
          let x := match r with
                   | inr x => if error_is x ErrNotExist || error_is x ErrFileNotExist then None else Some x
                   | inl _ => None
                   end in
          expire_files events (join x x)
  end.
Definition DeleteExpiredFiles (events : list Event) : M unit := expire_files events None.

(** ** Who may have a file copied *)

(* src: storage/global.go 71 *)
Definition allowedTimeLagForFileReplication : Z := 60000000000.

(** The first attestation and the first list of relays. *)
(* src: storage/global.go 540-554 [verifyFileOwnershipAndAttestationForFileReplication] *)
Fixpoint owner_events (items : list (Event + error)) (attestation relays : option Event) : outcome (option Event * option Event) :=
  match items with
  | [] => Ok (attestation, relays)
  | inr e :: _ => Err e
  | inl e :: items =>
      let '(attestation, relays) :=
        if (Kind e =? CustomIONKindAttestation) && bool_decide (attestation = None) then (Some e, relays)
        else if (Kind e =? KindRelayListMetadata) && bool_decide (relays = None) then (attestation, Some e)
        else (attestation, relays) in
      match attestation, relays with Some _, Some _ => Ok (attestation, relays) | _, _ => owner_events items attestation relays end
  end.

(* src: storage/global.go 507-587 *)
Definition VerifyFileOwnershipAndAttestationForFileReplication (now : Z) (fileHash masterPubkey senderUrl : string) : M unit :=
  items ← outside (fun w => let '(w, items) := GetStoredEvents [files_filter masterPubkey fileHash 0] w in (w, Ok items));
  file ← match items with
         | inr e :: _ => fail e
         | inl e :: _ => if Kind e =? KindFileMetadata then mret e else fail opaque_error
         | [] => fail opaque_error
         end;
  if (TsTime (CreatedAt file) + allowedTimeLagForFileReplication <? now) || (now <? TsTime (CreatedAt file) - allowedTimeLagForFileReplication)
  then fail opaque_error
  else
    items ← outside (fun w => let '(w, items) := GetStoredEvents
        [MkFilter None (Some [KindRelayListMetadata]) (Some [masterPubkey]) None None None None 0 "";
         MkFilter None (Some [CustomIONKindAttestation]) (Some [masterPubkey]) None (Some (SetLiterals ∅ "p" [PubKey file])) None None 0 ""] w
        in (w, Ok items));
    found ← lift_st (owner_events items None None);
    match found with
    | (Some attestation, Some relays) =>
        allowed ← lift_st (OnBehalfIsAccessAllowed (EvTags attestation) (PubKey file) KindFileMetadata (CreatedAt file));
        if negb allowed then fail (err ErrOnBehalfAccessDenied)
        else
          let relaysList := CollectRelaysFromRelayEvent relays in
          if existsb (fun r => CompareRelaysURLs r senderUrl) relaysList && existsb (fun r => CompareRelaysURLs r (RelayURL config)) relaysList
          then mret () else fail opaque_error
    | _ => fail opaque_error
    end.
End Storage.
