(* ===== verification/FileServer.v ===== *)
(** * Package nip96: files over HTTP

    src/server/http/nip96/storage_nip96.go and storage_tus.go.  A handler takes a
    request of the gin library to a status and a body, over the state of the client
    of package storage (file Files), which it knows by its interface; what gin binds
    of a request, the information document of another relay and the library of
    resumable uploads are parameters.  Marshalling an answer made of strings does
    not fail. *)

From S2P Require Import Prelude GoStd Nostr Model OnBehalf Filters Content Validator TagRules Validate Auth StateFSM QueryFilter QueryBuilder QuerySafety Connector Rows Status Selection HttpAuth Files.
Import Strings.

(** ** The interface of package storage *)

(* src: storage/storage.go 37-51 *)
Class StorageClient (S : Type) := {
  sc_SaveFile : Z -> string -> source -> ST S saved_file;
  (** [SyncCdnUpload] of the context first; the file is a pointer *)
  sc_StartUpload : bool -> string -> string -> string -> string -> option nat -> ST S (string * string * bool);
  sc_DownloadUrl : string -> string -> ST S string;
  sc_FilePath : string -> string -> string -> ST S string;
  sc_ListFiles : string -> Z -> Z -> ST S (Z * list FileMetadataEntry);
  sc_Delete : string -> string -> string -> ST S unit;
  sc_StartDownloadNewBag : string -> string -> string -> ST S unit;
  sc_VerifyReplication : Z -> string -> string -> string -> ST S unit;
  (** the values of pointers *)
  sc_meta : nat -> S -> FileMetaInput;
  sc_alloc : FileMetaInput -> ST S nat
}.

#[export] Instance files_client {N : Nostr} {G : GoText} {T : EventText} {C : Crypto} {X : StorageText} {W : Type}
    {SW : StorageWorld W} (config : Config) : StorageClient (client W) := {|
  sc_SaveFile := SaveFile config; sc_StartUpload := StartUpload config; sc_DownloadUrl := DownloadUrl config;
  sc_FilePath := FilePath config; sc_ListFiles := ListFiles config; sc_Delete := Delete config;
  sc_StartDownloadNewBag := StartDownloadNewBag; sc_VerifyReplication := VerifyFileOwnershipAndAttestationForFileReplication config;
  sc_meta p s := meta_at s p; sc_alloc := alloc_meta
|}.

(** ** Requests and answers *)

(** What the handlers read of a request; [None] is a query gin cannot bind. *)
Record Request : Type := MkRequest {
  ReqMethod : string; ReqHost : string; ReqPath : string; ReqRawQuery : string; ReqFragment : string;
  GetHeader : string -> string; param_file : string;
  query_page : option (Z * Z); query_i : option string;
  multipart : option (list (part + error))
}.

Inductive body : Type :=
  | NoBody
  | Failed (message : string)
  | Uploaded (content : string) (tags : Tags)
  | Removed
  | Redirected (url : string)
  | ServedFile (path : string)
  | Listed (total page : Z) (files : list (string * Tags * Z)).
Record Response : Type := MkResponse { status : Z; content : body }.

(* src: server/http/nip96/storage_nip96.go 436-438 *)
Definition uploadErr (message : string) : body := Failed message.
(* src: server/http/nip96/storage_nip96.go 59 *)
Definition maxUploadSize : Z := 1048576.

Section Handlers.
Context {N : Nostr} {G : GoText} {J : GoJSON} {C : Crypto} {R : RichText} {E : Env} {GJ : GoGJSON} {T : EventText} {H : HttpText}.
Context (GetAll_is_nil : Tags -> list string -> bool) (global : eventValidator) (fuel : nat).
Context {S : Type} {SC : StorageClient S}.
(** nip94's tags of a file; the key in the information document of a relay. *)
Context (ToTags : FileMetadataEntry -> Tags) (Fetch : string -> ST S string).
Context (os_Remove : string -> S -> S).

Definition answer (code : Z) (b : body) : ST S Response := mret (MkResponse code b).
(** What a pointer points to; a change of the file system. *)
Definition with_meta {A} (p : nat) (k : FileMetaInput -> ST S A) : ST S A := fun s => k (sc_meta p s) s.
Definition change (f : S -> S) : ST S unit := fun s => (f s, Ok ()).

(* src: server/http/nip96/storage_nip96.go 94-99 [Upload] *)
Definition request_url (req : Request) : FullURL :=
  MkFullURL "https" (ReqHost req) (ReqPath req) (ReqRawQuery req) (ReqFragment req) "".

(** The token of a request; an attestation that allows files. *)
(* src: server/http/nip96/storage_nip96.go 93-100 [Upload] *)
Definition request_token (req : Request) (now : Z) : outcome nostrToken :=
  VerifyToken (request_url req) (ReqMethod req) (DetectAuthHeader (GetHeader req "Authorization")) now.
Definition may_change_files (token : nostrToken) : check := ValidateAttestation GetAll_is_nil global fuel token KindFileMetadata.

(** What a handler does with an accepted token; [Ok None] is a refusal. *)
Definition authorized (refusal : Z -> ST S Response) (m : outcome nostrToken) (k : nostrToken -> ST S Response) : ST S Response :=
  match m with
  | Ok token => k token
  | Err _ => refusal 401
  | Panic => lift_st Panic
  | OutOfFuel => lift_st OutOfFuel
  end.
Definition unauthorized (code : Z) : ST S Response := answer code (uploadErr "Unauthorized").
Definition attested_or (refusal : ST S Response) (m : check) (k : ST S Response) : ST S Response :=
  match m with
  | Ok _ => k
  | Err _ => refusal
  | Panic => lift_st Panic
  | OutOfFuel => lift_st OutOfFuel
  end.
Definition forbidden : ST S Response := answer 403 (uploadErr "Forbidden: on-behalf attestation failed").

(** The tags of an uploaded file. *)
(* src: server/http/nip96/storage_nip96.go 171-178 [Upload] *)
Definition nip94_tags (url hashHex bagID : string) (input : FileMetaInput) : Tags :=
  [["url"; url]; ["ox"; hashHex]; ["m"; MContentType input]; ["i"; bagID]; ["alt"; Alt input]; ["size"; Strconv.Itoa (FileSize input)]].

(** A file that could not be saved. *)
(* src: server/http/nip96/storage_nip96.go 124-136 [Upload] *)
Definition not_saved (input : option nat) (e : error) : ST S Response :=
  if error_is e ErrValidationFailed then answer 400 (uploadErr "failed validate upload request")
  else if error_is e ErrFileTooBig then
    match input with
    | Some p => with_meta p (fun input => answer 413 (uploadErr ("file too large: " +:+ Strconv.Itoa (FileSize input))))
    | None => lift_st Panic
    end
  else answer 400 (uploadErr "failed to store temporary file").

(** A file that was saved: its digest is the one the token vouches for. *)
(* src: server/http/nip96/storage_nip96.go 144-182 [Upload] *)
Definition publish_file (token : nostrToken) (path : string) (p : nat) (hash : string) : ST S Response :=
  let hashHex := Hex.EncodeToString hash in
  if hashHex ≠s? ExpectedHash token then change (os_Remove path) ;; answer 403 (uploadErr "Unauthorized")
  else
    with_meta p (fun input =>
      r ← attempt_st (sc_StartUpload true (TokPubKey token) (MasterPubKey token) (Filename input) hashHex (Some p));
      match r with
      | inr _ => change (os_Remove path) ;; answer 500 (uploadErr "oops, error occurred!")
      | inl (bagID, url, existed) =>
          with_meta p (fun input =>
            answer (if (existed : bool) then 200 else 201) (Uploaded (Caption input) (nip94_tags url hashHex bagID input)))
      end).

(* src: server/http/nip96/storage_nip96.go 88-183 *)
Definition Upload (now : Z) (req : Request) : ST S Response :=
  authorized unauthorized (request_token req now) (fun token =>
    attested_or forbidden (may_change_files token) (
      saved ← sc_SaveFile now (MasterPubKey token) (FromRequest (multipart req) maxUploadSize);
      match saved with
      | NotSaved input e => not_saved input e
      | Saved path p hash => publish_file token path p hash
      end)).

(** [strings.SplitN(file, ":", 2)]: the account and the file, or the file alone. *)
(* src: server/http/nip96/storage_nip96.go 206-211 [redirectToDistributedStorageUrl] *)
Definition split_owner (default_owner file : string) : string * string :=
  match SplitN2 file ":" with [owner; f] => (owner, f) | _ => (default_owner, file) end.

(* src: server/http/nip96/storage_nip96.go 185-224 *)
Definition redirectToDistributedStorageUrl (now : Z) (req : Request) : ST S Response :=
  authorized unauthorized (request_token req now) (fun token =>
    if TrimSpace (param_file req) =s? "" then answer 400 (uploadErr "filename is required")
    else
      let '(masterPubkey, file) := split_owner (MasterPubKey token) (param_file req) in
      r ← attempt_st (sc_DownloadUrl masterPubkey file);
      match r with
      | inl url => answer 302 (Redirected url)
      | inr e => if error_is e ErrFileNotExist then answer 404 NoBody else answer 500 (uploadErr "oops, error occurred!")
      end).

(** [strings.TrimSuffix] *)
Definition TrimSuffix (s p : string) : string := if HasSuffix s p then take (len s - len p) s else s.

(* src: server/http/nip96/storage_nip96.go 225-254 *)
Definition serveFileFromStorage (req : Request) : ST S Response :=
  if TrimSpace (param_file req) =s? "" then answer 400 (uploadErr "filename is required")
  else
    let '(masterPubkey, file) := split_owner "" (param_file req) in
    let fileHash := if Contains file "." then TrimSuffix file (Filepath.Ext file) else file in
    r ← attempt_st (sc_FilePath masterPubkey fileHash (Filepath.Ext file));
    match r with
    | inl path => answer 200 (ServedFile path)
    | inr e => if error_is e ErrFileNotExist then answer 404 NoBody else answer 500 (uploadErr "oops, error occurred!")
    end.

(* src: server/http/nip96/storage_nip96.go 256-261 *)
Definition Download (ionLibertyDisabled : bool) (now : Z) (req : Request) : ST S Response :=
  if ionLibertyDisabled then serveFileFromStorage req else redirectToDistributedStorageUrl now req.

(* src: server/http/nip96/storage_nip96.go 262-305 [Delete] *)
Definition DeleteHandler (now : Z) (req : Request) : ST S Response :=
  authorized unauthorized (request_token req now) (fun token =>
    attested_or forbidden (may_change_files token) (
      if TrimSpace (param_file req) =s? "" then answer 400 (uploadErr "filehash is required")
      else
        r ← attempt_st (sc_Delete (TokPubKey token) (MasterPubKey token) (param_file req));
        match r with
        | inl _ => answer 200 Removed
        | inr e => if error_is e ErrFileNotExist || error_is e ErrFileForbidden
                   then answer 403 (uploadErr "user do not own file") else answer 500 (uploadErr "oops, error occurred!")
        end)).

(* src: server/http/nip96/storage_nip96.go 307-359 [ListFiles] *)
Definition ListFilesHandler (now : Z) (req : Request) : ST S Response :=
  authorized unauthorized (request_token req now) (fun token =>
    match query_page req with
    | None => answer 400 (uploadErr "invalid data")
    | Some (page, count) =>
        r ← attempt_st (sc_ListFiles (MasterPubKey token) page (if count =? 0 then 10 else count));
        match r with
        | inr _ => answer 500 (uploadErr "oops, error occurred!")
        | inl (total, files) => answer 200 (Listed total page ((fun f => (FContent f, ToTags f, FCreatedAt f)) <$> files))
        end
    end).

(* src: server/http/nip96/storage_nip96.go 365-430 *)
Definition CrossRelayDownload (now : Z) (req : Request) : ST S Response :=
  authorized unauthorized (request_token req now) (fun token =>
    let senderUrl := GetHeader req "Referer" in
    if senderUrl =s? "" then answer 400 (uploadErr "unknown sender")
    else
      senderNIP11 ← attempt_st (Fetch senderUrl);
      match senderNIP11 with
      | inr _ => answer 500 (uploadErr "oops, error occurred")
      | inl key =>
          if TokPubKey token ≠s? key then answer 401 (uploadErr "sender pubkey mismatch")
          else
            let '(masterPubkey, file) := split_owner "" (param_file req) in
            v ← attempt_st (sc_VerifyReplication now file masterPubkey senderUrl);
            match v with
            | inr _ => answer 409 (uploadErr "relay does not own the file")
            | inl _ =>
                match query_i req with
                | None => answer 400 (uploadErr "invalid data")
                | Some "" => answer 400 (uploadErr "invalid data: i tag not passed")
                | Some i =>
                    r ← attempt_st (sc_StartDownloadNewBag file masterPubkey i);
                    match r with inr _ => answer 500 (uploadErr "oops, error occurred!") | inl _ => answer 202 NoBody end
                end
            end
      end).

(** ** Resumable uploads *)

(** What the hooks of tusd see of an upload. *)
Record HookEvent : Type := MkHook {
  HookURI : string; HookMethod : string; HookHeader : string -> string;
  IsFinal : bool; MetaData : gmap string string; UpStorage : gmap string string; UpSize : Z; PartialUploads : list string
}.
(** [hook.Upload.StopUpload]; a file read to its end or an error; the part of an
    upload that is removed. *)
Context (StopUpload : Response -> S -> S) (read_file : string -> ST S (string * option error)) (terminate : string -> ST S unit).
Context (TypeByExtension : string -> string).

(** An answer with an error or none. *)
Record hook_result : Type := MkResult { resp : option Response; changes : gmap string string * gmap string string; hook_error : bool }.
Definition no_changes : gmap string string * gmap string string := (∅, ∅).
Definition stopped (r : Response) : ST S hook_result := fun s => (StopUpload r s, Ok (MkResult (Some r) no_changes true)).

(** The URL of a hook: its host and scheme are filled in. *)
(* src: server/http/nip96/storage_tus.go 40-49 [PreUploadCreateCallback] *)
Definition hook_url (hook : HookEvent) : option FullURL :=
  u ← url_ParseFull (HookURI hook);
  Some (MkFullURL (if UScheme u =s? "" then "https" else UScheme u) (if UHost u =s? "" then HookHeader hook "Host" else UHost u)
          (UPath u) (URawQuery u) (UFragment u) (URest u)).

(* src: server/http/nip96/storage_tus.go 38-61 [PreUploadCreateCallback] *)
Definition hook_token (hook : HookEvent) (now : Z) (k : nostrToken -> ST S hook_result) : ST S hook_result :=
  match hook_url hook with
  | None => mret (MkResult None no_changes true)
  | Some uri =>
      match VerifyToken uri (HookMethod hook) (DetectAuthHeader (HookHeader hook "Authorization")) now with
      | Ok tok => k tok
      | Err _ => stopped (MkResponse 401 (uploadErr "Unauthorized"))
      | Panic => lift_st Panic
      | OutOfFuel => lift_st OutOfFuel
      end
  end.

Definition meta_value (hook : HookEvent) (k : string) : string := default "" (MetaData hook !! k).

(** The upload remembers whose it is; a final one where it is written. *)
(* src: server/http/nip96/storage_tus.go 88-111 [PreUploadCreateCallback] *)
Definition accept_upload (hook : HookEvent) (tok : nostrToken) : ST S hook_result :=
  let md := <["expectedHash" := ExpectedHash tok]> (<["user" := TokPubKey tok]> (<["master" := MasterPubKey tok]> (MetaData hook))) in
  let fileName := default "" (md !! "fileName") in
  if IsFinal hook then
    if fileName =s? "" then stopped (MkResponse 400 (uploadErr ("failed validate upload request: invalid filename " +:+ fileName)))
    else
      let md := if default "" (md !! "contentType") =s? "" then <["contentType" := TypeByExtension (Filepath.Ext fileName)]> md else md in
      mret (MkResult None (md, <["Path" := Filepath.Join [MasterPubKey tok; ExpectedHash tok +:+ Filepath.Ext fileName]]> (UpStorage hook)) false)
  else mret (MkResult None (md, UpStorage hook) false).

(* src: server/http/nip96/storage_tus.go 37-112 *)
Definition PreUploadCreateCallback (now : Z) (hook : HookEvent) : ST S hook_result :=
  hook_token hook now (fun tok =>
    match may_change_files tok with
    | Err _ => stopped (MkResponse 401 (uploadErr "on-behalf attestation failed"))
    | Panic => lift_st Panic
    | OutOfFuel => lift_st OutOfFuel
    | Ok _ =>
        let mediaType := meta_value hook "mediaType" in
        if (mediaType ≠s? "") && (mediaType ≠s? MediaTypeAvatar) && (mediaType ≠s? MediaTypeBanner)
        then stopped (MkResponse 400 (uploadErr "failed validate upload request"))
        else accept_upload hook tok
    end).

Definition oops (e : bool) : ST S hook_result := mret (MkResult (Some (MkResponse 500 (uploadErr "oops, something went wrong"))) no_changes e).

Fixpoint terminate_parts (parts : list string) (k : ST S hook_result) : ST S hook_result :=
  match parts with
  | [] => k
  | p :: parts => r ← attempt_st (terminate p); match r with inr _ => oops true | inl _ => terminate_parts parts k end
  end.

(** The file of an upload whose digest was checked. *)
(* src: server/http/nip96/storage_tus.go 183-250 [PreFinishResponseCallback] *)
Definition publish_upload (now : Z) (hook : HookEvent) (tok : nostrToken) (input : FileMetaInput) (hashHex : string) : ST S hook_result :=
  let input := with_Filename input (hashHex +:+ Filepath.Ext (Filename input)) in
  attempt_st (sc_SaveFile now (MasterPubKey tok) (FromContext (Filename input))) ;;
  p ← sc_alloc input;
  r ← attempt_st (sc_StartUpload false (TokPubKey tok) (MasterPubKey tok) (Filename input) hashHex (Some p));
  match r with
  | inr _ => oops true
  | inl (bagID, url, existed) =>
      terminate_parts (PartialUploads hook) (with_meta p (fun input =>
        mret (MkResult (Some (MkResponse (if (existed : bool) then 200 else 201)
                (Uploaded (Caption input) (nip94_tags url hashHex bagID input)))) no_changes false)))
  end.

(* src: server/http/nip96/storage_tus.go 113-251 *)
Definition PreFinishResponseCallback (now : Z) (hook : HookEvent) : ST S hook_result :=
  if negb (IsFinal hook) then mret (MkResult None no_changes false)
  else
    hook_token hook now (fun tok =>
      let filePath := default "" (UpStorage hook !! "Path") in
      f ← attempt_st (read_file filePath);
      match f with
      | inr _ => mret (MkResult None no_changes true)
      | inl (data, e) =>
          if negb (Z.of_nat (len data) =? UpSize hook) then
            change (os_Remove filePath) ;; mret (MkResult (Some (MkResponse 206 NoBody)) no_changes (bool_decide (is_Some e)))
          else
            let hash := sha256_Sum256 data in
            let hashHex := Hex.EncodeToString hash in
            let input := MkMeta (meta_value hook "caption") (meta_value hook "alt") (TokPubKey tok) (meta_value hook "contentType")
                           (meta_value hook "fileName") hash now (UpSize hook) in
            if (hashHex ≠s? ExpectedHash tok) || (hashHex ≠s? meta_value hook "expectedHash")
            then stopped (MkResponse 403 (uploadErr "Unauthorized"))
            else publish_upload now hook tok input hashHex
      end).
End Handlers.
