(* ===== verification/FileAccess.v ===== *)
(** * Files: who changes them, and what is served

    Theorems about src/server/http/nip96 (file FileServer) and src/storage (file
    Files), alone and together. *)

From S2P Require Import Prelude GoStd Nostr Model OnBehalf Filters Content Validator TagRules Validate Auth StateFSM QueryFilter QueryBuilder QuerySafety Connector Rows Status Selection HttpAuth Files FileServer.
Import Strings.

(** ** Changes *)

Section Changes.
Context {N : Nostr} {NS : NostrSpec N} {G : GoText} {J : GoJSON} {C : Crypto} {R : RichText} {E : Env} {GJ : GoGJSON} {T : EventText} {H : HttpText}.
Context (GetAll_is_nil : Tags -> list string -> bool) (global : eventValidator) (fuel : nat).
(** A schnorr signature is checked against a key. *)
Hypothesis schnorr_key : forall e, nostr_CheckSignature e = Ok true -> PubKey e ≠ "".

(** The event of a request may change the files of its account: the account
    signed it, or allows the key that did to write files. *)
Definition entitled (e : Event) : Prop :=
  PubKey e = GetMasterPublicKey e \/
  exists att kinds, (sent_attestation e att \/ stored_attestation global att) /\ attested att (PubKey e) kinds /\
    (kinds = ∅ \/ KindFileMetadata ∈ kinds).

Lemma signed_key e : CheckSignature e = Ok true -> PubKey e ≠ "".
Proof.
  intros ([[a k] sign] & _ & Hs)%bind_Ok. destruct (Hex.DecodeString (PubKey e)) as [pk|] eqn:Hpk; [|done].
  destruct (Hex.DecodeString sign); [|done]. destruct (_ && _).
  - unfold ed25519_Verify in Hs. destruct (Nat.eqb_spec (len pk) 32) as [Hl|]; [|done]. intros He. rewrite He in Hpk. injection Hpk as <-. done.
  - destruct (_ || _); [|done]. by apply schnorr_key.
Qed.

Lemma may_change_spec token :
  CheckSignature (TokEv token) = Ok true -> may_change_files GetAll_is_nil global fuel token = pass -> entitled (TokEv token).
Proof.
  intros Hs. unfold may_change_files, ValidateAttestation, TokPubKey, MasterPubKey.
  destruct (String.eqb_spec (PubKey (TokEv token)) (GetMasterPublicKey (TokEv token))) as [Heq|Hne]; [by left|].
  intros (relay & _ & Hv)%bind_Ok. apply bind_Ok in Hv as ([kinds authoritative] & Hv & Hk). rewrite reject_Ok in Hk. destruct Hk as [Hk _].
  apply ValidateUserAccess_spec in Hv as (att & Hatt & Hkinds); [|by apply signed_key|congruence].
  right. exists att, kinds. split_and!; [done..|]. apply andb_false_iff in Hk as [Hk|Hk]; apply negb_false_iff, bool_decide_eq_true in Hk; auto.
Qed.

Context {S : Type} {SC : StorageClient S} (os_Remove : string -> S -> S).

(** The signed event of a request. *)
Definition request_event (req : Request) (now : Z) (e : Event) : Prop :=
  speaks_for (request_url req) (ReqMethod req) now e /\ entitled e /\
  exists b, Base64.DecodeString (DetectAuthHeader (GetHeader req "Authorization")) = Some b /\ UnmarshalJSON b = Some e.

Lemma accepted_request req now token :
  request_token req now = Ok token -> may_change_files GetAll_is_nil global fuel token = pass -> request_event req now (TokEv token).
Proof.
  intros Ht Hm. apply VerifyToken_spec in Ht as (_ & Hs & Hb & _). split; [done|]. split; [|done].
  by apply may_change_spec; [apply Hs|].
Qed.

(** A guarded handler leaves the state alone unless the request is accepted. *)
Lemma guarded (refusal : Z -> ST S Response) (refusal' : ST S Response) req now k s s' r :
  (forall c s, (refusal c s).1 = s) -> (forall s, (refusal' s).1 = s) ->
  authorized refusal (request_token req now) (fun token => attested_or refusal' (may_change_files GetAll_is_nil global fuel token) (k token)) s = (s', r) ->
  s' = s \/ exists token, request_token req now = Ok token /\ request_event req now (TokEv token) /\ k token s = (s', r).
Proof.
  intros H1 H2. unfold authorized. destruct (request_token req now) as [token|x| |] eqn:Ht.
  - unfold attested_or. destruct (may_change_files _ _ _ token) as [[]|x| |] eqn:Hm.
    + intros Hk. right. exists token. split_and!; [done| |done]. by apply accepted_request.
    + intros Hr. left. specialize (H2 s). by rewrite Hr in H2.
    + by intros [= <- _]; left.
    + by intros [= <- _]; left.
  - intros Hr. left. specialize (H1 401 s). by rewrite Hr in H1.
  - by intros [= <- _]; left.
  - by intros [= <- _]; left.
Qed.


(** What a successful upload shows: the request's event is accepted, the file
    was saved for its account, the digest of what was received is the one the event
    vouches for, and the answer names it. *)
Lemma uploaded_file now req s s' r :
  Upload GetAll_is_nil global fuel os_Remove now req s = (s', Ok r) -> status r = 200 \/ status r = 201 ->
  exists e path p hash s1 bagID url existed, request_event req now e /\
    sc_SaveFile now (GetMasterPublicKey e) (FromRequest (multipart req) maxUploadSize) s = (s1, Ok (Saved path p hash)) /\
    Hex.EncodeToString hash = default "" (valued (GetFirst (EvTags e) ["payload"])) /\
    sc_StartUpload true (PubKey e) (GetMasterPublicKey e) (Filename (sc_meta p s1)) (Hex.EncodeToString hash) (Some p) s1 =
      (s', Ok (bagID, url, existed)) /\
    content r = Uploaded (Caption (sc_meta p s')) (nip94_tags url (Hex.EncodeToString hash) bagID (sc_meta p s')).
Proof.
  intros Hu Hst. unfold Upload, authorized in Hu. destruct (request_token req now) as [token|x| |] eqn:Ht; try done;
    [|injection Hu as <- <-; cbn in Hst; lia].
  unfold attested_or in Hu. destruct (may_change_files _ _ _ token) as [[]|x| |] eqn:Hm; try done; [|injection Hu as <- <-; cbn in Hst; lia].
  pose proof (accepted_request _ _ _ Ht Hm) as He. apply VerifyToken_spec in Ht as (_ & _ & _ & Hh).
  exists (TokEv token). apply bind_st_Ok in Hu as (s1 & saved & Hs & Hu). destruct saved as [path p hash|input x].
  - unfold publish_file in Hu. destruct (String.eqb_spec (Hex.EncodeToString hash) (ExpectedHash token)) as [Heq|Hne]; cbn [negb] in Hu;
      [|injection Hu as <- <-; cbn in Hst; lia].
    unfold with_meta at 1 in Hu. apply bind_st_Ok in Hu as (s2 & [[[bagID url] existed]|x] & Hup & Hu);
      [|injection Hu as <- <-; cbn in Hst; lia].
    apply attempt_st_Ok in Hup. unfold with_meta in Hu. injection Hu as <- <-.
    exists path, p, hash, s1, bagID, url, existed. rewrite <- Hh, <- Heq. by split_and!.
  - unfold not_saved in Hu. repeat (case_match; try done); try (injection Hu as <- <-; cbn in Hst; lia).
Qed.
End Changes.

(** ** Copies for other relays *)

Section Copies.
Context {N : Nostr} {NS : NostrSpec N} {G : GoText} {J : GoJSON} {C : Crypto} {R : RichText} {E : Env} {GJ : GoGJSON} {T : EventText} {H : HttpText}.
Context {X : StorageText} {W : Type} {SW : StorageWorld W} (config : Config).
Context (Fetch : string -> ST (client W) string).

(** An event the database has returned. *)
Definition returned (filters : list Filter) (e : Event) : Prop := exists w, inl e ∈ (GetStoredEvents filters w).2.

(** A file of an account that a relay may have copied now. *)
Record replicable (now : Z) (fileHash masterPubkey senderUrl : string) (file : Event) : Prop := {
  file_returned : returned [files_filter masterPubkey fileHash 0] file;
  file_kind : Kind file = KindFileMetadata;
  file_recent : TsTime (CreatedAt file) - allowedTimeLagForFileReplication <= now <= TsTime (CreatedAt file) + allowedTimeLagForFileReplication;
  file_attested : exists att fs, returned fs att /\ Kind att = CustomIONKindAttestation /\
    OnBehalfIsAccessAllowed (EvTags att) (PubKey file) KindFileMetadata (CreatedAt file) = Ok true;
  both_relays : exists rel fs r1 r2, returned fs rel /\ Kind rel = KindRelayListMetadata /\
    r1 ∈ CollectRelaysFromRelayEvent rel /\ CompareRelaysURLs r1 senderUrl = true /\
    r2 ∈ CollectRelaysFromRelayEvent rel /\ CompareRelaysURLs r2 (RelayURL config) = true
}.

Lemma owner_events_spec items : forall a r a' r',
  owner_events items a r = Ok (a', r') ->
  (forall e, a' = Some e -> a = Some e \/ (inl e ∈ items /\ Kind e = CustomIONKindAttestation)) /\
  (forall e, r' = Some e -> r = Some e \/ (inl e ∈ items /\ Kind e = KindRelayListMetadata)).
Proof.
  induction items as [|[e|x] items IH]; intros a r a' r' Ho; cbn [owner_events] in Ho; [injection Ho as <- <-; auto| |done].
  set (st := if (Kind e =? CustomIONKindAttestation) && _ then _ else _) in Ho.
  assert (Hst : (st.1 = a \/ (st.1 = Some e /\ Kind e = CustomIONKindAttestation)) /\ (st.2 = r \/ (st.2 = Some e /\ Kind e = KindRelayListMetadata))).
  { subst st. destruct (Z.eqb_spec (Kind e) CustomIONKindAttestation), (bool_decide (a = None)); cbn; auto;
      destruct (Z.eqb_spec (Kind e) KindRelayListMetadata), (bool_decide (r = None)); cbn; auto. }
  destruct st as [a1 r1]. cbn [fst snd] in Hst.
  assert (Hrest : owner_events items a1 r1 = Ok (a', r') \/ (a', r') = (a1, r1)) by (destruct a1, r1; try (by left); right; by injection Ho as -> ->).
  assert (Hfin : (forall x, a' = Some x -> a1 = Some x \/ (inl x ∈ items /\ Kind x = CustomIONKindAttestation)) /\
                 (forall x, r' = Some x -> r1 = Some x \/ (inl x ∈ items /\ Kind x = KindRelayListMetadata))).
  { destruct Hrest as [Hr|[= -> ->]]; [by apply IH|auto]. }
  destruct Hfin as [Ha Hr]. split; intros y Hy.
  - destruct (Ha y Hy) as [->|[? ?]]; [|right; split; [by right|done]]. destruct Hst as [[Hx|[Hx ?]] _]; [by left|].
    injection Hx as ->. right. split; [by left|done].
  - destruct (Hr y Hy) as [->|[? ?]]; [|right; split; [by right|done]]. destruct Hst as [_ [Hx|[Hx ?]]]; [by left|].
    injection Hx as ->. right. split; [by left|done].
Qed.

Lemma stored_events_Ok fs (s s1 : client W) items :
  outside (fun w => let '(w, items) := GetStoredEvents fs w in (w, Ok items)) s = (s1, Ok items) ->
  exists w, items = (GetStoredEvents fs w).2.
Proof.
  unfold outside. destruct (GetStoredEvents fs (world s)) as [w l] eqn:Hq. intros [= _ <-]. exists (world s). by rewrite Hq.
Qed.

Lemma replication_spec now fileHash masterPubkey senderUrl s s' :
  VerifyFileOwnershipAndAttestationForFileReplication config now fileHash masterPubkey senderUrl s = (s', Ok ()) ->
  exists file, replicable now fileHash masterPubkey senderUrl file.
Proof.
  intros (s1 & items & Hq & Hv)%bind_st_Ok. apply stored_events_Ok in Hq as (w1 & ->).
  apply bind_st_Ok in Hv as (s2 & file & Hf & Hv).
  assert (Hfile : returned [files_filter masterPubkey fileHash 0] file /\ Kind file = KindFileMetadata).
  { destruct (GetStoredEvents _ w1).2 as [|[e|x] items] eqn:Hi; [done| |done]. destruct (Z.eqb_spec (Kind e) KindFileMetadata); [|done].
    injection Hf as _ <-. split; [|done]. exists w1. rewrite Hi. by left. }
  destruct Hfile as [Hret Hkind]. destruct (_ || _) eqn:Ht; [done|]. apply orb_false_iff in Ht as [Ht1%Z.ltb_ge Ht2%Z.ltb_ge].
  apply bind_st_Ok in Hv as (s3 & items & Hq & Hv). apply stored_events_Ok in Hq as (w2 & ->).
  apply bind_st_Ok in Hv as (s4 & [att rel] & Ho & Hv). injection Ho as _ Ho. apply owner_events_spec in Ho as [Ha Hr].
  destruct att as [att|]; [|done]. destruct rel as [rel|]; [|done].
  destruct (Ha att eq_refl) as [?|[Hain Hak]]; [done|]. destruct (Hr rel eq_refl) as [?|[Hrin Hrk]]; [done|].
  apply bind_st_Ok in Hv as (s5 & allowed & Hal & Hv). injection Hal as _ Hal. destruct allowed; [|done]. cbn [negb] in Hv.
  destruct (_ && _) eqn:Hboth; [|done]. apply andb_true_iff in Hboth as [H1 H2].
  apply existsb_exists in H1 as (r1 & Hr1%list_elem_of_In & Hc1). apply existsb_exists in H2 as (r2 & Hr2%list_elem_of_In & Hc2).
  exists file. split; [done|done|lia| |].
  - eexists att, _. split_and!; [by exists w2|done|done].
  - eexists rel, _, r1, r2. split_and!; [by exists w2|done..].
Qed.

(** A relay that is told to copy a file of an account was told so by a relay of
    that account: the request is signed with the key the sender's information
    document names, the account's relay list has both relays, and the file is one
    the account stored here at most a minute ago, signed by a key that could. *)
Lemma copied_for_relay_of_owner now req s s' r :
  CrossRelayDownload Fetch (SC := files_client config) now req s = (s', Ok r) -> status r = 202 ->
  exists e s1 s2 file, speaks_for (request_url req) (ReqMethod req) now e /\
    Fetch (GetHeader req "Referer") s1 = (s2, Ok (PubKey e)) /\
    replicable now (split_owner "" (param_file req)).2 (split_owner "" (param_file req)).1 (GetHeader req "Referer") file.
Proof.
  intros Hc Hst. unfold CrossRelayDownload, authorized in Hc.
  destruct (request_token req now) as [token|x| |] eqn:Ht; try done; [|injection Hc as <- <-; done].
  apply VerifyToken_spec in Ht as (_ & Hs & _ & _). destruct (_ =s? ""); [injection Hc as <- <-; done|].
  apply bind_st_Ok in Hc as (s1 & key & Hf & Hc). apply attempt_st_Ok in Hf. destruct key as [key|x]; [|injection Hc as <- <-; done].
  destruct (String.eqb_spec (TokPubKey token) key) as [<-|]; cbn [negb] in Hc; [|injection Hc as <- <-; done].
  destruct (split_owner "" (param_file req)) as [m f]. apply bind_st_Ok in Hc as (s2 & v & Hv & Hc). apply attempt_st_Ok in Hv.
  destruct v as [[]|x]; [|injection Hc as <- <-; done]. apply replication_spec in Hv as [file Hfile].
  exists (TokEv token), s, s1, file. by split_and!.
Qed.
End Copies.

(** ** Paths *)

(** The name of a folder, not of the one it is in. *)
Definition plain_name (p : string) : Prop := p ≠ "" /\ p ≠ "." /\ p ≠ ".." /\ in_string "/" p = false.

Lemma clean_parts_app l1 l2 : forall st,
  Filepath.clean_parts true st (l1 ++ l2) = Filepath.clean_parts true (reverse (Filepath.clean_parts true st l1)) l2.
Proof.
  induction l1 as [|p l1 IH]; intros st; cbn [app Filepath.clean_parts]; [by rewrite reverse_involutive|].
  destruct (_ || _); [apply IH|]. destruct (_ =? "..")%string; [|apply IH]. destruct st as [|t st]; [apply IH|]. destruct (_ =? "..")%string; apply IH.
Qed.

Lemma clean_parts_plain l : forall st, Forall plain_name l -> Filepath.clean_parts true st l = reverse st ++ l.
Proof.
  induction l as [|p l IH]; intros st Hl; cbn [Filepath.clean_parts]; [by rewrite List.app_nil_r|].
  apply Forall_cons in Hl as [(H1 & H2 & H3 & _) Hl]. rewrite !(proj2 (String.eqb_neq _ _)) by done. cbn [orb].
  rewrite IH by done. by rewrite reverse_cons, <- List.app_assoc.
Qed.

Lemma clean_parts_out l : forall st,
  Forall plain_name st -> Forall (fun p => in_string "/" p = false) l -> Forall plain_name (Filepath.clean_parts true st l).
Proof.
  induction l as [|p l IH]; intros st Hst Hl; cbn [Filepath.clean_parts]; [by apply Forall_reverse|].
  apply Forall_cons in Hl as [Hp Hl]. destruct (String.eqb_spec p ""), (String.eqb_spec p "."); cbn [orb]; try by apply IH.
  destruct (String.eqb_spec p ".."); [|apply IH; [by constructor|done]].
  destruct st as [|t st]; [by apply IH|]. apply Forall_cons in Hst as [(_ & _ & H3 & _) Hst]. rewrite (proj2 (String.eqb_neq _ _)) by done. by apply IH.
Qed.

Lemma Split_cat s t sep : Split (s +:+ String sep t) sep = Split s sep ++ Split t sep.
Proof.
  induction s as [|c s IH]; cbn [String.append Split]; [by rewrite Ascii.eqb_refl|]. destruct (Ascii.eqb sep c); [by rewrite IH|].
  rewrite IH. pose proof (Split_ne s sep). by destruct (Split s sep).
Qed.

(** The elements of a path from the root. *)
Definition elements_of (path : string) : list string := Filepath.clean_parts true [] (Split path "/").

Lemma Clean_rooted path : HasPrefix path "/" = true -> Filepath.Clean path = "/" +:+ Join (elements_of path) "/".
Proof. unfold Filepath.Clean. intros Hp. destruct (String.eqb_spec path "") as [->|]; [done|]. by rewrite Hp. Qed.

Lemma elements_of_Clean path : HasPrefix path "/" = true -> elements_of (Filepath.Clean path) = elements_of path.
Proof.
  intros Hp. rewrite Clean_rooted by done. set (cs := elements_of path).
  assert (Hcs : Forall plain_name cs) by (apply clean_parts_out; [done|apply Split_parts]).
  unfold elements_of. change ("/" +:+ ?x) with ("" +:+ String "/" x). rewrite Split_cat. cbn [Split app Filepath.clean_parts String.eqb orb].
  destruct (decide (cs = [])) as [->|Hne]; [done|]. rewrite Split_Join; [|done|].
  - by rewrite clean_parts_plain.
  - eapply Forall_impl; [exact Hcs|]. by intros ? (_ & _ & _ & ?).
Qed.

Lemma elements_of_join path l : elements_of (path +:+ "/" +:+ l) = Filepath.clean_parts true (reverse (elements_of path)) (Split l "/").
Proof. unfold elements_of. change ("/" +:+ l) with (String "/" l). by rewrite Split_cat, clean_parts_app. Qed.

Lemma rooted_app p q : HasPrefix p "/" = true -> HasPrefix (p +:+ q) "/" = true.
Proof. intros [t ->]%HasPrefix_spec. rewrite app_assoc. apply HasPrefix_app. Qed.

(** The folder of a user's folder is the root. *)
Lemma parent_of_user root master :
  HasPrefix root "/" = true -> plain_name master ->
  Filepath.Join [Filepath.Join [root; master]; ".."] = Filepath.Clean root.
Proof.
  intros Hr Hm. assert (Hne : root ≠ "") by (by destruct root). pose proof Hm as (H1 & H2 & H3 & H4).
  cbn [Filepath.Join]. rewrite (proj2 (String.eqb_neq root "")) by done. cbn [Join].
  assert (Hin : HasPrefix (root +:+ "/" +:+ master) "/" = true) by by apply rooted_app.
  assert (Hc : HasPrefix (Filepath.Clean (root +:+ "/" +:+ master)) "/" = true) by (rewrite Clean_rooted by done; apply HasPrefix_app).
  rewrite (proj2 (String.eqb_neq (Filepath.Clean _) "")) by (by intros He; rewrite He in Hc).
  set (u := Filepath.Clean (root +:+ "/" +:+ master)) in *. rewrite !Clean_rooted by (done || by apply rooted_app). do 2 f_equal. subst u. rewrite elements_of_join, elements_of_Clean by done.
  rewrite elements_of_join, (Split_no_sep master) by done. cbn [Split Ascii.eqb Bool.eqb Filepath.clean_parts String.eqb orb].
  rewrite !(proj2 (String.eqb_neq master _)) by done. cbn [orb]. cbn [Filepath.clean_parts]. rewrite reverse_involutive.
  rewrite (proj2 (String.eqb_neq master "..")) by done. cbn [Filepath.clean_parts]. by rewrite reverse_involutive.
Qed.

Lemma all_visible_app s t : all_visible (s +:+ t) = all_visible s && all_visible t.
Proof. induction s as [|c s IH]; [done|]. cbn. by rewrite IH, andb_assoc. Qed.

Section Served.
Context {N : Nostr} {NS : NostrSpec N} {G : GoText} {C : Crypto} {T : EventText} {X : StorageText} {W : Type} {SW : StorageWorld W} (config : Config).

(** Without distributed storage anyone is served files, without a token, and a
    name may leave the folder of its account: under the name [..] of an account that
    has a torrent the server reads the folder that holds the folders of all accounts. *)
Lemma root_folder_served req master (s s1 s2 : client W) bag v :
  HasPrefix (rootStoragePath config) "/" = true -> plain_name master -> in_string ":" master = false -> all_visible master = true ->
  param_file req = master +:+ ":.." ->
  bagByUser master s = (s1, Ok (Some bag, v)) ->
  (fileMeta (Some bag) s1 = (s2, Err (err errLatestBagNotDownloadedYet)) \/
   exists md s' md', fileMeta (Some bag) s1 = (s', Ok md) /\ detectFileFromMeta bag md "." s' = (s2, Ok (md', inr (err ErrFileNotExist)))) ->
  serveFileFromStorage (SC := files_client config) req s =
    (s2, Ok (MkResponse 200 (ServedFile (Filepath.Clean (rootStoragePath config))))).
Proof.
  intros Hroot Hm Hcolon Hvis Hfile Hbag Hmd. unfold serveFileFromStorage. rewrite Hfile.
  rewrite TrimSpace_visible by (rewrite all_visible_app, Hvis; done).
  rewrite (proj2 (String.eqb_neq _ "")) by (by destruct master).
  unfold split_owner, SplitN2. change (master +:+ ":..") with (master +:+ String ":" ".."). rewrite IndexRune_app by done.
  rewrite take_app, drop_S_app. change (Contains ".." ".") with true. cbv iota.
  change (TrimSuffix ".." (Filepath.Ext "..")) with ".". change (Filepath.Ext "..") with ".".
  assert (Hp : sc_FilePath (StorageClient := files_client config) master "." "." s = (s2, Ok (Filepath.Clean (rootStoragePath config)))).
  { cbn [sc_FilePath files_client]. unfold FilePath. unfold mbind at 1, ST_bind. rewrite Hbag. cbn [fst].
    rewrite <- (parent_of_user (rootStoragePath config) master) by done.
    destruct Hmd as [Hmd|(md & s' & md' & Hmd & Hd)]; unfold mbind at 1, ST_bind, attempt_st; rewrite Hmd; [done|].
    unfold mbind, ST_bind. rewrite Hd. done. }
  unfold mbind, ST_bind, attempt_st. by rewrite Hp.
Qed.
End Served.

(** ** Headers and lists *)

Section Headers.
Context {N : Nostr} {NS : NostrSpec N} {G : GoText} {C : Crypto} {T : EventText} {X : StorageText} {W : Type} {SW : StorageWorld W} (config : Config).

(** Files that are not in a header yet replace what the header says of them. *)
Lemma new_header_files (s s' : client W) master user relativePath hash p old md key q :
  new_header s master user relativePath hash p old = (s', md) ->
  default ∅ (newFiles s !! master) !! key = Some q -> FileMetadata md !! key = Some (meta_at s' q).
Proof.
  unfold new_header. set (st := match p with Some _ => _ | None => _ end).
  assert (Hnf : newFiles st.1 = newFiles s) by (subst st; by destruct p).
  destruct st as [s1 md1]. cbn [fst] in Hnf. intros [= <- <-]. rewrite Hnf.
  apply (map_fold_weak_ind (fun md m => m !! key = Some q -> FileMetadata md !! key = Some (meta_at s1 q))).
  - by rewrite lookup_empty.
  - intros k p' m md' _ IH Hk. cbn [FileMetadata]. destruct (decide (key = k)) as [->|Hne].
    + rewrite lookup_insert_eq in Hk. injection Hk as ->. by rewrite lookup_insert_eq.
    + rewrite lookup_insert_ne in Hk by done. rewrite lookup_insert_ne by done. auto.
Qed.

(** What a client says of a large file is lost: the file is saved again under
    its name without what is known of it, and the header that is then made has
    neither its caption, its description, its owner nor its digest. *)
Lemma large_file_metadata_lost now master name user hash input old (s s1 s2 : client W) saved p :
  SaveFile config now master (FromContext name) s = (s1, Ok saved) -> alloc_meta input s1 = (s2, Ok p) ->
  FileMetadata (new_header s2 master user name hash (Some p) old).2 !! name = Some (MkMeta "" "" "" "" name "" now 0).
Proof.
  cbn [SaveFile]. unfold remember_file, mbind, ST_bind, mret, ST_ret, alloc_meta, step. intros [= <- _]. cbn [metas with_newFiles with_metas].
  set (q := fresh (dom (metas s))). intros [= <- <-].
  set (p' := fresh _). assert (Hpq : p' ≠ q).
  { intros He. pose proof (is_fresh (dom (<[q := with_Filename (new_meta now) name]> (metas s)))) as Hf. fold p' in Hf. rewrite He in Hf.
    apply Hf. rewrite dom_insert_L. set_solver. }
  match goal with |- context [new_header ?s0 ?m ?u ?n ?h ?p ?o] => destruct (new_header s0 m u n h p o) as [s3 md] eqn:Hh end.
  pose proof Hh as Hm. apply (new_header_files _ _ _ _ _ _ _ _ _ name q) in Hm.
  - cbn [snd]. rewrite Hm. unfold new_header in Hh. injection Hh as <- _. unfold meta_at. cbn [metas with_metas].
    rewrite !lookup_insert_ne by done. by rewrite lookup_insert_eq.
  - cbn [newFiles with_metas with_newFiles]. rewrite lookup_insert_eq. cbn [default from_option id]. apply lookup_insert_eq.
Qed.

(** The list of an account without a torrent brings the request down as well. *)
Lemma ListFiles_no_torrent master page limit v (s s1 : client W) :
  bagByUser master s = (s1, Ok (None, v)) -> ListFiles config master page limit s = (s1, Panic).
Proof. intros Hb. unfold ListFiles. unfold mbind at 1, ST_bind. by rewrite Hb. Qed.

Lemma list_page_length bag md bs files all base : forall i (s s' : client W) res,
  list_page config bag md bs files all i base s = (s', Ok res) -> (length res <= length files)%nat.
Proof.
  induction files as [|f files IH]; intros i s s' res; cbn [list_page]; [by intros [= _ <-]|].
  intros (s1 & info & _ & H1)%bind_st_Ok. apply bind_st_Ok in H1 as (s2 & file & _ & H1).
  destruct (FileMetadata md !! file.1) as [m|]; [|apply IH in H1; cbn; lia].
  apply bind_st_Ok in H1 as (s3 & b & _ & H1). cbv zeta in H1. apply bind_st_Ok in H1 as (s4 & path & _ & H1).
  apply bind_st_Ok in H1 as (s5 & rest & Hr & H1). injection H1 as _ <-. apply IH in Hr. cbn. lia.
Qed.

End Headers.

(** ** Resumable uploads *)

Section Resumable.
Context {N : Nostr} {NS : NostrSpec N} {G : GoText} {J : GoJSON} {C : Crypto} {R : RichText} {E : Env} {GJ : GoGJSON} {T : EventText} {H : HttpText}.
Context (GetAll_is_nil : Tags -> list string -> bool) (global : eventValidator) (fuel : nat).
Hypothesis schnorr_key : forall e, nostr_CheckSignature e = Ok true -> PubKey e ≠ "".
Context {S : Type} (StopUpload : Response -> S -> S) (TypeByExtension : string -> string).

(** A path of two names. *)
Lemma other_folder master victim name ext :
  plain_name master -> plain_name victim -> plain_name (name +:+ ext) ->
  Filepath.Join [master; ("../" +:+ victim +:+ "/" +:+ name) +:+ ext] = victim +:+ "/" +:+ name +:+ ext.
Proof.
  intros (M1 & M2 & M3 & M4) (V1 & V2 & V3 & V4) (F1 & F2 & F3 & F4). cbn [Filepath.Join]. rewrite (proj2 (String.eqb_neq master "")) by done.
  cbn [Join]. unfold Filepath.Clean. rewrite !app_assoc.
  assert (Hp : HasPrefix (master +:+ "/" +:+ "../" +:+ victim +:+ "/" +:+ name +:+ ext) "/" = false).
  { destruct master as [|c m]; [done|]. cbn [in_string] in M4. apply orb_false_iff in M4 as [M4%Ascii.eqb_neq _].
    unfold HasPrefix. cbn [String.append String.prefix]. by destruct (ascii_dec "/" c). }
  rewrite (proj2 (String.eqb_neq _ "")) by (by destruct master). rewrite Hp.
  change (master +:+ "/" +:+ "../" +:+ victim +:+ "/" +:+ name +:+ ext) with (master +:+ String "/" (".." +:+ String "/" (victim +:+ String "/" (name +:+ ext)))).
  rewrite !Split_cat, !(Split_no_sep _ "/") by done.
  assert (Hc : Filepath.clean_parts false [] ([master] ++ [".."] ++ [victim] ++ [name +:+ ext]) = [victim; name +:+ ext]).
  { cbn [app]. cbn [Filepath.clean_parts]. rewrite !(proj2 (String.eqb_neq master _)) by done. cbn.
    rewrite !(proj2 (String.eqb_neq victim _)) by done. cbn. by rewrite !(proj2 (String.eqb_neq (name +:+ ext) _)) by done. }
  rewrite Hc. cbn [Join]. by rewrite (proj2 (String.eqb_neq _ "")) by (by destruct victim).
Qed.

End Resumable.

(** ** Concrete inputs *)
Module FileAccessWitness.
Import HttpPlain.

(** Three requests of the owner of the key of [SelectionPlain], signed. *)
Definition signed (method payload : string) (u : FullURL) : Event :=
  match SignWithAlg (header_event 100000000000 (Hex.EncodeToString (drop 32 key)) method payload u []) key_hex SignAlgEDDSA KeyAlgCurve25519 with
  | Ok e => e | _ => new_event 0 0 "" [] end.
Definition files_url : FullURL := MkFullURL "https" "relay" "/files" "" "" "".
Definition copy_url : FullURL := MkFullURL "https" "relay" "/files/bb:cafe" "" "" "".
Definition hook_uri : FullURL := MkFullURL "https" "relay" "/xfiles" "" "" "".
Definition posted : Event := signed "POST" (Hex.EncodeToString "hello") files_url.
Definition copied : Event := signed "HEAD" "" copy_url.
Definition resumed : Event := signed "POST" "../victim/photo" hook_uri.
Definition tokens : list Event := [posted; copied; resumed].

#[local] Instance nostr : Nostr := Reference.nostr (fun s => List.find (fun e => ID e =s? s) tokens) (fun _ => Ok false).
#[local] Instance nostr_spec : NostrSpec nostr := Reference.nostr_spec _ _ (fun _ => or_intror eq_refl).
#[local] Instance json : GoJSON := {|
  json_Valid _ := false; json_profile _ := None; json_strings _ := None; json_ints _ := None;
  json_event _ := None; json_from _ := None; json_to _ := None |}.
#[local] Instance gjson : GoGJSON := {| gjson_array _ := []; json_filter _ := None; json_event_ptr _ := None |}.
Definition schnorr_key : forall e, nostr_CheckSignature e = Ok true -> PubKey e ≠ "".
Proof. done. Defined.
Definition nobody : eventValidator := MkValidator None (fun _ => []) [].

(** A world that remembers what was written. *)
Definition bag_a : string := bytes (repeat 65%nat 32).
Definition bag_b : string := bytes (repeat 66%nat 32).
Definition did (x : string) : ST (list string) unit := fun w => (w ++ [x], Ok ()).
Definition image : Event := MkEvent None "f1" "cc" 100 1063 [["ox"; "cafe"]; ["b"; "bb"]] "" "".
Definition device : Event := MkEvent None "at" "bb" 90 10100 [["p"; "cc"; ""; "active:5"]] "" "".
Definition relays : Event := MkEvent None "rl" "bb" 90 10002 [["r"; "wss://peer"]; ["r"; "wss://me"]] "" "".
#[local] Instance world : StorageWorld (list string) := {|
  db_Get k w := (w, Ok (if k =s? user_key "victim" then Some bag_a else if k =s? user_key "lister" then Some bag_b else None));
  db_Put k v := did ("put " +:+ k); db_Delete ks := did "delete";
  GetTorrent id w := if id =s? bag_a then Some (MkTorrent bag_a None)
                     else if id =s? bag_b then Some (MkTorrent bag_b (Some (MkTorrentHeader 2 "{}"))) else None;
  RemoveTorrent _ := did "remove torrent"; SetTorrent _ := did "set torrent"; Stop _ w := w; Start _ _ _ := did "start";
  IsDownloadAll _ _ := false; IsCompleted _ _ := false; NewTorrent id w := (w, MkTorrent id None);
  GetFileOffsets _ name _ := Ok (name, 5); ListTorrentFiles _ w := (w, Ok ["a"; "b"]);
  FileRef := string; GetSingleFileRef p w := (w, Ok p);
  CreateTorrent m h refs w := (w ++ refs, Ok (MkTorrent bag_b (Some (MkTorrentHeader (zlen refs) h))));
  Bootstrap := unit; buildBootstrapNodeInfo _ w := (w, Ok ()); json_bootstraps _ := Some "[]";
  os_Remove p := did ("remove " +:+ p); os_RemoveAll p := did "remove all"; os_MkdirAll p := did "mkdir"; os_ReadDir _ w := (w, Ok []);
  os_Rename a b := did ("rename " +:+ b); OpenRoot _ := did "root"; OpenFile _ _ := did "open"; os_Open _ := did "open";
  io_Copy p d := did ("write " +:+ p); io_Read _ w := (w, Ok "");
  cdn_FileDelete _ := did "cdn"; cdn_HealthCheck := did "cdn"; cdn_FileUpload _ _ _ := did "cdn"; cdn_FileUploadAsync _ _ _ := did "cdn";
  GetStoredEvents fs w := (w, match fs with
                              | [f] => match Authors f with Some ["bb"] => [inl image] | _ => [] end
                              | _ => [inl relays; inl device]
                              end);
  time_Now w := (w, 100000000000) |}.
#[local] Instance headers : StorageText := {|
  header_Unmarshal md s := (md, None); header_Marshal _ := Some "{}"; TypeByExtension e := "text/plain" |}.
Definition config : Config := MkConfig key_hex "wss://me" "/srv" false "" "" false.
Definition machine : FSM := match New 60000000000 3 with Ok m => m | _ => MkFSM 0 0 0 0 0 stateHealthy end.
Definition idle : client (list string) := MkStorage ∅ ∅ [] ∅ machine machine None None [].
Abbreviation handlers := (files_client config).
Definition os_rm (p : string) (s : client (list string)) : client (list string) := with_world s (Files.world s ++ ["remove " +:+ p]).

Definition request (method path file : string) (e : Event) (parts : option (list (part + error))) : Request :=
  MkRequest method "relay" path "" "" (fun h => if h =s? "Authorization" then "Nostr " +:+ Base64.EncodeToString (ID e) else if h =s? "Referer" then "wss://peer" else "")
    file (Some (0, 10)) (Some (Hex.EncodeToString bag_a +:+ ":boot:3")) parts.
Definition upload_request : Request :=
  request "POST" "/files" "" posted (Some [inl (MkPart "file" "a.txt" "hello" None); inl (MkPart "caption" "" "hi" None)]).

Definition now_ : Z := 100000000000.
Abbreviation upload_now := (Upload (SC := handlers) (fun _ _ => true) nobody 1 os_rm now_ upload_request idle).
Definition uploaded : client (list string) := upload_now.1.
Definition upload_answer : Response := match upload_now.2 with Ok r => r | _ => MkResponse 0 NoBody end.


Lemma uploaded_file_witness :
  exists e path p hash s1 bagID url existed, request_event nobody upload_request now_ e /\
    sc_SaveFile (StorageClient := handlers) now_ (GetMasterPublicKey e) (FromRequest (multipart upload_request) maxUploadSize) idle = (s1, Ok (Saved path p hash)) /\
    Hex.EncodeToString hash = default "" (valued (GetFirst (EvTags e) ["payload"])) /\
    sc_StartUpload (StorageClient := handlers) true (PubKey e) (GetMasterPublicKey e) (Filename (sc_meta (StorageClient := handlers) p s1))
      (Hex.EncodeToString hash) (Some p) s1 = (uploaded, Ok (bagID, url, existed)) /\
    content upload_answer = Uploaded (Caption (sc_meta (StorageClient := handlers) p uploaded))
      (nip94_tags url (Hex.EncodeToString hash) bagID (sc_meta (StorageClient := handlers) p uploaded)).
Proof.
  apply (uploaded_file (fun _ _ => true) nobody 1 schnorr_key (SC := handlers) os_rm now_ upload_request idle uploaded upload_answer);
    [vm_compute; reflexivity|right; vm_compute; reflexivity].
Defined.

Definition copy_request : Request := request "HEAD" "/files/bb:cafe" "bb:cafe" copied None.
Definition fetch (url : string) : ST (client (list string)) string := fun s => (s, Ok (PubKey copied)).
Abbreviation copy_now := (CrossRelayDownload fetch (SC := handlers) now_ copy_request idle).

Lemma copied_for_relay_of_owner_witness :
  exists e s1 s2 file, speaks_for (request_url copy_request) (ReqMethod copy_request) now_ e /\
    fetch (GetHeader copy_request "Referer") s1 = (s2, Ok (PubKey e)) /\
    replicable config now_ (split_owner "" (param_file copy_request)).2 (split_owner "" (param_file copy_request)).1
      (GetHeader copy_request "Referer") file.
Proof.
  apply (copied_for_relay_of_owner config fetch now_ copy_request idle copy_now.1 (MkResponse 202 NoBody));
    [vm_compute; reflexivity|reflexivity].
Defined.

Definition escape : Request := request "GET" "/files/victim:.." "victim:.." posted None.
Lemma root_folder_served_witness :
  serveFileFromStorage (SC := handlers) escape idle = (idle, Ok (MkResponse 200 (ServedFile (Filepath.Clean (rootStoragePath config))))).
Proof.
  apply (root_folder_served config escape "victim" idle idle idle (MkTorrent bag_a None) 0);
    [reflexivity|done|reflexivity|reflexivity|reflexivity|vm_compute; reflexivity|left; vm_compute; reflexivity].
Defined.

Definition large : FileMetaInput := MkMeta "a film" "described" "cc" "video/mp4" "film.mp4" "digest" 5 1000000.
Definition resaved : client (list string) := (SaveFile config now_ "bb" (FromContext "cafe.mp4") idle).1.
Lemma large_file_metadata_lost_witness :
  FileMetadata (new_header (alloc_meta large resaved).1 "bb" "cc" "cafe.mp4" "cafe" (Some 1%nat) no_header).2 !! "cafe.mp4" =
    Some (MkMeta "" "" "" "" "cafe.mp4" "" now_ 0).
Proof.
  apply (large_file_metadata_lost config now_ "bb" "cafe.mp4" "cc" "cafe" large no_header idle resaved
    (alloc_meta large resaved).1 (Saved "/srv/bb/cafe.mp4" 0 "") 1); vm_compute; reflexivity.
Defined.


Definition hook : HookEvent :=
  MkHook "https://relay/xfiles" "POST" (fun h => if h =s? "Authorization" then "Nostr " +:+ Base64.EncodeToString (ID resumed) else "")
    true {["fileName" := "x.png"]} ∅ 3 [].
Definition stop (r : Response) (s : unit) : unit := s.
Abbreviation begin_now := (PreUploadCreateCallback (fun _ _ => true) nobody 1 stop (fun _ => "image/png") now_ hook ()).
Definition begun : hook_result := match begin_now.2 with Ok r => r | _ => MkResult None no_changes true end.

Example written_to_victim : (changes begun).2 !! "Path" = Some "victim/photo.png".
Proof. vm_compute. reflexivity. Qed.
End FileAccessWitness.
