(* ===== verification/Prices.v ===== *)
(** * Package query: subscriptions to prices

    src/database/query/query_pn_price.go.  The statements are those of the source;
    the connector (file Connector) runs them, and decimal numbers are a library:
    both are parameters. *)

From S2P Require Import Prelude GoStd Nostr Model Filters Content Validator QueryFilter QueryBuilder Selection.
Import Strings.

(** github.com/shopspring/decimal *)
Class Decimal := {
  decimal : Type;
  Zero : decimal;
  NewFromString : string -> option decimal;
  IsZero : decimal -> bool;
  (** panics on a zero divisor *)
  Div : decimal -> decimal -> outcome decimal;
  decimal_String : decimal -> string
}.

(* src: database/query/query_pn_price.go 70-112 [RegisterPriceChangeSubscriber] *)
Definition insertQuery : string := "
WITH latest_event AS (
	SELECT e.id, to_timestamp_seconds(e.lookup_created_at) AS ts
	FROM events e
	WHERE
		:tokenAddress != ''
		AND e.kind = 1175
		AND e.hidden = false
		AND subzero_get_first_a_tag_value(e.tags, 31175) = :tokenAddress
	ORDER BY e.lookup_created_at DESC
	LIMIT 1
)
INSERT INTO pn_price_changes (
	tc_definition_address,
	user_master_pubkey, user_device_pubkey, user_device_uuid,
	request, request_event_id,
	last_tc_action_event_id, last_tc_action_timestamp,
	cfg_time_window, cfg_delta_percentage
)
SELECT
	:tokenAddress,
	:userMasterPubkey, :userDevicePubkey, :deviceUUID,
	CAST(:request AS JSONB), :requestID,
	(SELECT id FROM latest_event),
	(SELECT ts FROM latest_event),
	CAST(:timeWindow AS INTEGER),
	CAST(:deltaPercentage AS INTEGER)
WHERE
	-- Allow entries with specific token address OR generic/wildcard entries without token address, but not both for the same device.
	:tokenAddress = ''
	OR EXISTS (SELECT 1 FROM events where address = :tokenAddress AND hidden = false)
ON CONFLICT (tc_definition_address, user_device_pubkey)
DO UPDATE SET
	cfg_time_window          = EXCLUDED.cfg_time_window,
	user_device_uuid         = EXCLUDED.user_device_uuid,
	cfg_delta_percentage     = EXCLUDED.cfg_delta_percentage,
	request                  = EXCLUDED.request,
	request_event_id         = EXCLUDED.request_event_id,
	last_notified_at         = NULL,
	last_tc_action_event_id  = EXCLUDED.last_tc_action_event_id,
	last_tc_action_timestamp = EXCLUDED.last_tc_action_timestamp
RETURNING id
".

(* src: database/query/query_pn_price.go 206-239 [CollectPriceChangeSubscribersCandidates] *)
Definition candidatesQuery : string := "
WITH latest_trade_event AS (
	SELECT
		id,
		subzero_get_token_price_from_tx(tags) AS token_usd_price
	FROM events
	WHERE
		kind = 1175
		AND hidden = false
		AND subzero_get_first_a_tag_value(tags, 31175) = :tokenAddress
		AND id <> :priceEventID
	ORDER BY lookup_created_at DESC
	LIMIT 1
)
SELECT
	l.id,
	l.user_device_pubkey
FROM pn_price_changes l
JOIN latest_trade_event lte ON true
WHERE
	(
		l.tc_definition_address = :tokenAddress
		OR (l.tc_definition_address = '' AND l.user_master_pubkey = :tokenMasterPubkey)
	)
	AND l.id > :startID
	AND (l.last_tc_action_timestamp IS NULL OR :priceEventTs >= l.last_tc_action_timestamp)
	AND COALESCE(l.last_tc_action_event_id, '') <> :priceEventID
	AND (l.last_notified_at IS NULL OR :priceEventTs >= l.last_notified_at + l.cfg_time_window)
	AND lte.token_usd_price > 0
	AND ABS((:currentPrice - lte.token_usd_price) / lte.token_usd_price) >= ABS(CAST(l.cfg_delta_percentage AS NUMERIC) / 100.0)
ORDER BY l.id
LIMIT :limit
FOR UPDATE SKIP LOCKED
".

(* src: database/query/query_pn_price.go 307-384 [FetchAndUpdatePriceChangeNotification] *)
Definition notifyQuery : string := "
WITH latest_trade_event AS (
	SELECT
		e.id,
		subzero_get_token_price_from_tx(e.tags) AS token_usd_price
	FROM events e
	WHERE
		e.kind = 1175
		AND e.hidden = false
		AND subzero_get_first_a_tag_value(e.tags, 31175) = :tokenAddress
		AND e.id <> :priceEventID
	ORDER BY e.lookup_created_at DESC
	LIMIT 1
),
to_notify AS (
	SELECT
		l.id,
		lte.id AS latest_trade_event_id,
		l.user_device_pubkey,
		l.user_device_uuid,
		l.request,
		l.last_notified_at,
		l.cfg_time_window
	FROM pn_price_changes l
	JOIN latest_trade_event lte ON true
	WHERE
		l.user_device_pubkey = ANY(:targetDevices)
		AND (
			l.tc_definition_address = :tokenAddress
			OR (l.tc_definition_address = '' AND l.user_master_pubkey = :tokenMasterPubkey)
		)
		AND COALESCE(l.last_tc_action_event_id, '') <> :priceEventID
		AND (l.last_tc_action_timestamp IS NULL OR :priceEventTs >= l.last_tc_action_timestamp)
		AND lte.token_usd_price > 0
		AND (
			(l.cfg_delta_percentage > 0 AND (:currentPrice - lte.token_usd_price) / lte.token_usd_price >= CAST(l.cfg_delta_percentage AS NUMERIC) / 100.0)
			OR
			(l.cfg_delta_percentage < 0 AND (:currentPrice - lte.token_usd_price) / lte.token_usd_price <= CAST(l.cfg_delta_percentage AS NUMERIC) / 100.0)
		)
		AND (l.last_notified_at IS NULL OR :priceEventTs >= l.last_notified_at + l.cfg_time_window)
	ORDER BY l.id
	FOR UPDATE SKIP LOCKED
),
update_actions AS (
	UPDATE pn_price_changes l
	SET
		last_tc_action_event_id = :priceEventID,
		last_tc_action_timestamp = :priceEventTs,
		last_notified_at = :priceEventTs
	FROM to_notify tn
	WHERE l.id = tn.id
	RETURNING
		l.id,
		l.user_device_pubkey,
		l.user_master_pubkey,
		l.user_device_uuid,
		l.request,
		l.request_event_id,
		tn.latest_trade_event_id
)
SELECT
	ua.user_device_pubkey,
	ua.user_device_uuid,
	ua.user_master_pubkey as master_pubkey,
	ua.request,
	ua.request_event_id as requestid,
	jsonb_build_object(
		'id', e.id,
		'pubkey', e.pubkey,
		'created_at', e.created_at,
		'kind', e.kind,
		'tags', e.tags,
		'content', e.content,
		'sig', e.sig
	) AS old_event
FROM update_actions ua
JOIN events e ON e.id = ua.latest_trade_event_id;
	".

(** A row of the last statement. *)
(* src: database/query/query_pn_price.go 271-278 [FetchAndUpdatePriceChangeNotification] *)
Record subscriptionInfo : Type := MkSubscription {
  SDevicePubKey : string; SOldEvent : string; SRequest : string; SRequestID : string; SDeviceUUID : string; SMasterPubKey : string
}.
(* src: database/query/query_pn_price.go 20-27 *)
Record PriceChangeData : Type := MkPriceChange {
  PreviousEvent : Event; PRequest : string; PRequestID : string; DeviceUUID : string; DevicePubKey : string; PMasterPubKey : string
}.

Section Prices.
Context {N : Nostr} {G : GoText} {T : EventText} {D : Decimal} {W : Type}.
(** [connector.ExecNamed] of ids and of rows, [connector.SelectNamedIterator]. *)
Context (ExecIDs : string -> gmap string any -> ST W (list Z)).
Context (ExecRows : string -> gmap string any -> ST W (list subscriptionInfo)).
Context (SelectRows : string -> gmap string any -> ST W (list ((Z * string) + error))).

(** The window, the percentage and the token of a subscription. *)
(* src: database/query/query_pn_price.go 44-65 [RegisterPriceChangeSubscriber] *)
Definition subscription_param (st : Z * Z * string) (tag : Tag) : outcome (Z * Z * string) :=
  let '(timeWindow, deltaPercentage, tokenAddress) := st in
  if (Key tag ≠s? "param") || (length tag <? 3)%nat then Ok st
  else
    let name := ToLower (Value tag) in
    if name =s? "timewindow" then
      let! v := index tag 2 in
      match Strconv.ParseInt v 32 with Some n => Ok (n, deltaPercentage, tokenAddress) | None => Err opaque_error end
    else if name =s? "deltapercentage" then
      let! v := index tag 2 in
      match Strconv.ParseInt v 32 with Some n => Ok (timeWindow, n, tokenAddress) | None => Err opaque_error end
    else if name =s? "token" then let! v := index tag 2 in Ok (timeWindow, deltaPercentage, v)
    else Ok st.

(* src: database/query/query_pn_price.go 40-128 *)
Definition RegisterPriceChangeSubscriber (deviceUUID : string) (ev : Event) : ST W unit :=
  st ← lift_st (for_state (EvTags ev) (0, 0, "") subscription_param);
  let '(timeWindow, deltaPercentage, tokenAddress) := st in
  if (timeWindow =? 0) || (deltaPercentage =? 0) then lift_st (Err opaque_error)
  else
    vals ← ExecIDs insertQuery (list_to_map [("tokenAddress", AString tokenAddress); ("userMasterPubkey", AString (GetMasterPublicKey ev));
      ("userDevicePubkey", AString (PubKey ev)); ("request", AString (event_String ev)); ("requestID", AString (ID ev));
      ("timeWindow", AInt timeWindow); ("deltaPercentage", AInt deltaPercentage); ("deviceUUID", AString deviceUUID)]);
    if (length vals =? 1)%nat then mret () else lift_st (Err (err ErrNoRecord)).

(** The symbol of the token and the first amount of every currency. *)
(* src: database/query/query_pn_price.go 138-159 [calculateUSDPriceFromTxEvent] *)
Definition price_tag (st : string * gmap string decimal) (tag : Tag) : outcome (string * gmap string decimal) :=
  let '(tokenSymbol, txAmounts) := st in
  if Key tag =s? "token_symbol" then Ok (if tokenSymbol =s? "" then Value tag else tokenSymbol, txAmounts)
  else if Key tag =s? "tx_amount" then
    match tag with
    | _ :: _ :: currency :: _ =>
        match NewFromString (Value tag) with
        | None => Err opaque_error
        | Some amount => Ok (tokenSymbol, match txAmounts !! currency with Some _ => txAmounts | None => <[currency := amount]> txAmounts end)
        end
    | _ => Ok st
    end
  else Ok st.

(* src: database/query/query_pn_price.go 130-176 *)
Definition calculateUSDPriceFromTxEvent (ev : option Event) : outcome decimal :=
  match ev with
  | None => Ok Zero
  | Some ev =>
      let! (tokenSymbol, txAmounts) := for_state (EvTags ev) ("", ∅) price_tag in
      match txAmounts !! "USD", txAmounts !! tokenSymbol with
      | Some usdAmount, Some tokenAmount =>
          if (tokenSymbol =s? "") || IsZero usdAmount || IsZero tokenAmount then Ok Zero else Div usdAmount tokenAmount
      | _, _ => Ok Zero
      end
  end.

(** [strings.SplitN(s, ":", 3)], its second part, when there are three. *)
(* src: database/query/query_pn_price.go 195-203 [CollectPriceChangeSubscribersCandidates] *)
Definition token_owner (tokenAddress : string) : option string :=
  match SplitN2 tokenAddress ":" with
  | [_; rest] => match SplitN2 rest ":" with [owner; _] => if owner =s? "" then None else Some owner | _ => None end
  | _ => None
  end.

(** The price and the owner of the token of an event that has both. *)
(* src: database/query/query_pn_price.go 179-203 [CollectPriceChangeSubscribersCandidates] *)
Definition priced_token (ev : Event) : outcome (option (decimal * string * string)) :=
  let! currentPrice := calculateUSDPriceFromTxEvent (Some ev) in
  let tokenAddress := Value (GetTag ev "a") in
  if IsZero currentPrice || (tokenAddress =s? "") then Ok None
  else Ok ((fun owner => (currentPrice, tokenAddress, owner)) <$> token_owner tokenAddress).

(** [ev.CreatedAt.Time().Unix()] *)
Definition event_seconds (ev : Event) : Z := TsTime (CreatedAt ev) / 1000000000.
Definition price_params (ev : Event) (currentPrice : decimal) (tokenAddress owner : string) : list (string * any) :=
  [("tokenAddress", AString tokenAddress); ("tokenMasterPubkey", AString owner); ("currentPrice", AString (decimal_String currentPrice));
   ("priceEventID", AString (ID ev)); ("priceEventTs", AInt (event_seconds ev))].

(* src: database/query/query_pn_price.go 257-267 [CollectPriceChangeSubscribersCandidates] *)
Fixpoint collect_candidates (items : list ((Z * string) + error)) (candidates : list string) (lastID : Z) : outcome (list string * Z) :=
  match items with
  | [] => Ok (candidates, lastID)
  | inr e :: _ => Err e
  | inl (id, device) :: items => collect_candidates items (candidates ++ [device]) id
  end.

(* src: database/query/query_pn_price.go 178-268 *)
Definition CollectPriceChangeSubscribersCandidates (ev : Event) (startID limit : Z) : ST W (list string * Z) :=
  p ← lift_st (priced_token ev);
  match p with
  | None => mret ([], 0)
  | Some (currentPrice, tokenAddress, owner) =>
      items ← SelectRows candidatesQuery
        (list_to_map (price_params ev currentPrice tokenAddress owner ++ [("limit", AInt limit); ("startID", AInt startID)]));
      lift_st (collect_candidates items [] startID)
  end.

(** Rows without a device or with an event that cannot be read are left out. *)
(* src: database/query/query_pn_price.go 403-430 [FetchAndUpdatePriceChangeNotification] *)
Definition price_change (info : subscriptionInfo) : option PriceChangeData :=
  if SDevicePubKey info =s? "" then None
  else
    previous ← UnmarshalJSON (SOldEvent info);
    Some (MkPriceChange previous (SRequest info) (SRequestID info) (SDeviceUUID info) (SDevicePubKey info) (SMasterPubKey info)).

(* src: database/query/query_pn_price.go 270-432 *)
Definition FetchAndUpdatePriceChangeNotification (ev : Event) (targetDevices : list string) : ST W (list PriceChangeData) :=
  p ← lift_st (priced_token ev);
  match p with
  | None => mret []
  | Some (currentPrice, tokenAddress, owner) =>
      data ← ExecRows notifyQuery
        (list_to_map (price_params ev currentPrice tokenAddress owner ++ [("targetDevices", AStrings targetDevices)]));
      mret (omap price_change data)
  end.

(* src: database/query/query_pn_price.go 434-459 *)
Definition DeletePriceChangeSubscriber (devicePubKey deviceUUID token eventID : string) : ST W unit :=
  let deleteQuery := "DELETE FROM pn_price_changes WHERE user_device_pubkey = :devicePubKey"
    +:+ (if token ≠s? "" then " AND tc_definition_address = :token" else "")
    +:+ (if eventID ≠s? "" then " AND request_event_id = :eventID" else "")
    +:+ (if deviceUUID ≠s? "" then " AND user_device_uuid = :deviceUUID" else "") in
  r ← attempt_st (ExecIDs deleteQuery (list_to_map [("token", AString token); ("eventID", AString eventID);
    ("deviceUUID", AString deviceUUID); ("devicePubKey", AString devicePubKey)]));
  match r with
  | inl _ => mret ()
  | inr e => if error_is e ErrNoRecord then mret () else lift_st (Err e)
  end.
End Prices.
