(* ===== verification/Jobs.v ===== *)
(** * Package dvm: jobs

    src/dvm/*.go.  A request for a job is run in a goroutine of its own; its result
    is kept for those who ask for it, and handed to a listener main registers.
    Other relays (a client of go-nostr), the database, the job queue and the JSON of
    filters and counts are parameters.  An entry of the map of jobs is a pointer; a
    run of a job is one step here, in any order with the steps of other jobs.
    Direct jobs, whose results are sent to a channel, are never submitted by the
    program: their channel is left out.  A request context that ends is a job that
    was stopped.  Logging is left out. *)

From S2P Require Import Prelude GoStd Nostr Model Filters Content Validator QueryFilter QueryBuilder Selection Prices.
Import Strings.

(** ** The world *)

(** How an event sent to a relay ended. *)
Inductive publish_outcome : Set := Published | AuthRequired | NotPublished (e : error).

Class DVMWorld (W : Type) := {
  (** the database; the listener of results; the queue of notifications *)
  CountEvents : list Filter -> ST W Z;
  CountGroupedEventReactions : list Filter -> ST W string;
  StoredEvents : list Filter -> W -> W * list (Event + error);
  PriceChangeCandidates : Event -> Z -> Z -> ST W (list string * Z);
  FetchPriceChange : Event -> list string -> ST W (list PriceChangeData);
  EventListener : Event -> ST W unit;
  RQ_Push : Z -> Event -> list string -> ST W unit;
  (** relays, by the number of a connection *)
  Connect : string -> ST W nat;
  Close : nat -> W -> W;
  Count : nat -> list Filter -> ST W Z;
  QueryEventsMany : nat -> list Filter -> ST W (list Event);
  (** the events of relays that the collecting goroutine has not yet appended when
      the channel is closed and the slice is read *)
  Uncollected : W -> nat;
  Publish : nat -> Event -> W -> W * publish_outcome;
  Auth : nat -> ST W unit
}.
Class DVMText := {
  json_filters : string -> option (list Filter);
  json_counts : gmap string Z -> string;
  (** [strconv.ParseFloat], and the comparison; [None] is an error *)
  ParseFloat_ge : string -> string -> bool;
  json_events : list Event -> option string;
  nostr_FiltersMatch : list Filter -> Event -> bool
}.

(* src: dvm/dvm.go 28-31 *)
Record Config : Type := MkConfig { PrivateKey : string; RelayURL : string }.

(** A job: its request, whether it was stopped. *)
(* src: dvm/dvm.go 41-45 *)
Record jobInfo : Type := MkJob { JEvent : Event; Cancelled : bool }.

(* src: dvm/dvm.go 49-56 *)
Record dvm (W : Type) : Type := MkDVM {
  Jobs : gmap string nat;
  infos : gmap nat jobInfo;
  ResponseCache : gmap string (gmap string Event);
  outer : W
}.
Arguments MkDVM {W}. Arguments Jobs {W}. Arguments infos {W}. Arguments ResponseCache {W}. Arguments outer {W}.

(** ** Counting *)

Section Counting.
Context {N : Nostr}.

(* src: dvm/nostr_event_count.go 22-22 *)
Definition NostrEventCountGroupContent : string := "content".
(* src: dvm/nostr_event_count.go 23-23 *)
Definition NostrEventCountGroupPubkey : string := "pubkey".

Definition bump (m : gmap string Z) (k : string) : gmap string Z := <[k := default 0 (m !! k) + 1]> m.

(** The values of an event under a group. *)
(* src: dvm/nostr_event_count.go 214-237 [countBasedOnGroups] *)
Definition group_values (group : string) (ev : Event) : list string :=
  if group =s? NostrEventCountGroupContent then [Content ev]
  else if group =s? NostrEventCountGroupPubkey then [GetMasterPublicKey ev]
  else if (group =s? TagMarkerRoot) || (group =s? TagMarkerReply) then
    Value <$> filter (fun tag => Key tag = "e" /\ tag !! 3%nat = Some group) (EvTags ev)
  else Value <$> filter (fun tag => Key tag = group) (EvTags ev).

(* src: dvm/nostr_event_count.go 210-242 *)
Definition countBasedOnGroups (evList : list Event) (groups : list string) : gmap string Z :=
  fold_left (fun m group => fold_left (fun m ev => fold_left bump (group_values group ev) m) evList m) groups ∅.
End Counting.

Section Jobs.
Context {N : Nostr} {G : GoText} {T : EventText} {C : Crypto} {E : Env} {TM : TagMaps} {X : DVMText} {W : Type} {DW : DVMWorld W}.
Context (config : Config).
Abbreviation M := (ST (dvm W)).

Definition with_outer (d : dvm W) (w : W) : dvm W := MkDVM (Jobs d) (infos d) (ResponseCache d) w.
Definition outside {A} (m : ST W A) : M A := fun d => let '(w, r) := m (outer d) in (with_outer d w, r).
Definition step (f : dvm W -> dvm W) : M unit := fun d => (f d, Ok ()).
Definition gets {A} (f : dvm W -> A) : M A := fun d => (d, Ok (f d)).
Definition fail {A} (e : error) : M A := lift_st (Err e).

(** One count is a number, several are an object. *)
(* src: dvm/nostr_event_count.go 197-208 *)
Definition countBasedOnGroupsFromEvents (events : list Event) (groups : list string) : string :=
  let result := countBasedOnGroups (DeduplicateSlice events ID) groups in
  match map_to_list result with
  | [(_, count)] => Strconv.Itoa count
  | _ => json_counts result
  end.

(** ** Relays *)

(* src: dvm/dvm.go 538-550 *)
Definition collectSourceRelayURLsFromEvent (e : Event) (selfURL : string) : list string :=
  concat (map (fun tag =>
    if (Key tag =s? "param") && (Value tag =s? "relay")
    then filter (fun relayURL => negb ((selfURL ≠s? "") && CompareRelaysURLs relayURL selfURL) = true) (list.drop 2 tag)
    else []) (EvTags e)).

(* src: dvm/dvm.go 552-561 *)
Definition collectTargetRelayURLsFromEvent (e : Event) : list string :=
  concat (map (fun tag => if Key tag =s? "relays" then list.drop 1 tag else []) (EvTags e)).

(* src: dvm/dvm.go 488-507 *)
Fixpoint connectToRelays (relayList : list string) : M (list nat) :=
  match relayList with
  | [] => mret []
  | url :: urls =>
      r ← attempt_st (outside (Connect url));
      rs ← connectToRelays urls;
      mret (match r with inl relay => relay :: rs | inr _ => rs end)
  end.

(* src: dvm/dvm.go 525-536 *)
Definition closeRelays (relays : list nat) : M unit := step (fun d => with_outer d (fold_left (fun w r => Close r w) relays (outer d))).

(** ** Results that are kept *)

(* src: dvm/events_storage.go 72-74 *)
Definition tagCacheKey (tag value : string) : string := tag +:+ value.

(* src: dvm/events_storage.go 76-89 *)
Definition acceptDVMResponseEvent (event : Event) : M unit :=
  let pTag := Value (GetTag event "p") in
  if pTag =s? "" then mret ()
  else step (fun d =>
    let key := tagCacheKey "p" pTag in
    MkDVM (Jobs d) (infos d) (<[key := <[ID event := event]> (default ∅ (ResponseCache d !! key))]> (ResponseCache d)) (outer d)).

(** An entry whose time is over. *)
Definition expire_responses (key : string) : M unit := step (fun d =>
  MkDVM (Jobs d) (infos d) (delete key (ResponseCache d)) (outer d)).

(** The events of an entry, in the order of a range. *)
Definition entry_events (m : gmap string Event) : list Event := omap (fun k => m !! k) (range_set (dom m)).

(* src: dvm/events_storage.go 54-70 *)
Definition findByFilterTag (d : dvm W) (filters : list Filter) (f : Filter) (tagName : string) : list Event :=
  concat (map (fun pk => match ResponseCache d !! tagCacheKey "p" pk with
                         | None => []
                         | Some entry => filter (fun value => nostr_FiltersMatch filters value = true) (entry_events entry)
                         end) (All (default ∅ (FTags f)) tagName)).

(** What a reader that takes everything is given. *)
(* src: dvm/events_storage.go 16-52 *)
Definition searchDVMEvents (d : dvm W) (filters : list Filter) : list Event :=
  concat (map (fun f =>
    if HasValues (default ∅ (FTags f)) "p" then findByFilterTag d filters f "p"
    else concat (map (fun key => filter (fun value => FiltersMatch filters value "" "" = true)
                        (entry_events (default ∅ (ResponseCache d !! key)))) (range_set (dom (ResponseCache d))))) filters).

(** Errors of the listener are logged. *)
(* src: dvm/dvm.go 110-146 *)
Definition SubmitResult (result : Event) : M unit :=
  acceptDVMResponseEvent result ;;
  attempt_st (outside (EventListener result)) ;;
  mret ().

(** A relay that asks for authentication is sent the event again after it. *)
(* src: dvm/dvm.go 409-433 [publishJobResult] *)
Definition publish_to (result : Event) (relay : nat) : M bool := fun d =>
  let '(w, r) := Publish relay result (outer d) in
  match r with
  | Published => (with_outer d w, Ok true)
  | NotPublished _ => (with_outer d w, Ok false)
  | AuthRequired =>
      match Auth relay w with
      | (w, Ok _) => let '(w, r) := Publish relay result w in (with_outer d w, Ok (match r with Published => true | _ => false end))
      | (w, Err _) => (with_outer d w, Ok false)
      | (w, Panic) => (with_outer d w, Panic)
      | (w, OutOfFuel) => (with_outer d w, OutOfFuel)
      end
  end.

(* src: dvm/dvm.go 404-436 [publishJobResult] *)
Fixpoint publish_all (result : Event) (relays : list nat) : M nat :=
  match relays with
  | [] => mret 0%nat
  | r :: rs => ok ← publish_to result r; n ← publish_all result rs; mret (if (ok : bool) then S n else n)
  end.

(* src: dvm/dvm.go 382-442 *)
Definition publishJobResult (request result : Event) : M unit :=
  SubmitResult result ;;
  let relayList := collectTargetRelayURLsFromEvent request in
  if negb (is_nil relayList) then mret ()
  else
    relays ← connectToRelays relayList;
    if is_nil relays then mret ()
    else
      n ← publish_all result relays;
      closeRelays relays ;;
      if (n =? 0)%nat then fail opaque_error else mret ().

(** The public key of the relay, and the amount of a price above zero. *)
Definition PublicKey : string := match GetPublicKey (PrivateKey config) with Ok k => k | _ => "" end.
Definition amount_tag (amount : option string) : Tags := match amount with Some a => [["amount"; a]] | None => [] end.

(* src: dvm/dvm.go 357-380 *)
Definition finalizeJob (at_ : Timestamp) (incomingEvent : Event) (payload : string) (amount : option string) : outcome Event :=
  SignWithAlg (new_event (Kind incomingEvent + 1000) at_ payload
    ([["request"; event_String incomingEvent]; ["e"; ID incomingEvent; RelayURL config];
      ["expiration"; TsString (TsAdd at_ DVMJobResultExpiration)]; ["p"; GetMasterPublicKey incomingEvent];
      [CustomIONTagOnBehalfOf; PublicKey]] ++ amount_tag amount)) (PrivateKey config) SignAlgEDDSA KeyAlgCurve25519.

(* src: dvm/dvm.go 463-486 *)
Definition publishJobFeedback (request : Event) (at_ : Timestamp) (status payload : string) (amount : option string) : M unit :=
  event ← lift_st (SignWithAlg (new_event KindJobFeedback at_ payload
    ([["status"; status]; ["expiration"; TsString (TsAdd at_ DVMJobResultExpiration)]; ["e"; ID request];
      ["p"; GetMasterPublicKey request]; [CustomIONTagOnBehalfOf; PublicKey]] ++ amount_tag amount))
    (PrivateKey config) SignAlgEDDSA KeyAlgCurve25519);
  publishJobResult request event.

(** ** The job that counts events *)

(* src: dvm/nostr_event_count.go 98-121 *)
Definition doCountMRF (f : Filter) : M string :=
  if negb (Authenticated user) then fail (err ErrNotAuthorized)
  else if negb (IsFilterAllowed user [f]) then fail (err ErrNotAuthorized)
  else
    items ← outside (fun w => let '(w, items) := StoredEvents
        [MkFilter None (Some [KindFollowList]) (Some [UPublicKey user; MasterPublicKey user]) None None None None (Limit f)
           ("include:dependencies:kind3>kind0+p+|" +:+ Join (All (default ∅ (FTags f)) "p") "," +:+ "|")] w in (w, Ok items));
    total ← lift_st (for_state items 0 (fun total item =>
        match item with
        | inr e => Err e
        | inl ev => Ok (if bool_decide (Kind ev ∈ [KindProfileMetadata; CustomIONKindEphemeralEmbedding]) then total + 1 else total)
        end));
    mret (Strconv.Itoa total).

(** Every event an iterator yields, or its first error. *)
Fixpoint all_events (items : list (Event + error)) : outcome (list Event) :=
  match items with
  | [] => Ok []
  | inr e :: _ => Err e
  | inl ev :: items => let! evs := all_events items in Ok (ev :: evs)
  end.

(* src: dvm/nostr_event_count.go 123-149 *)
Definition doCountLocal (filters : list Filter) (groupBy : string) : M string :=
  match List.find (fun f => EqualFold (Search f) ExtensionTextMRF) filters with
  | Some f => doCountMRF f
  | None =>
      if groupBy =s? "" then count ← outside (CountEvents filters); mret (Strconv.Itoa count)
      else if match filters with [f] => bool_decide (elems (Kinds f) = [KindReaction]) | _ => false end && (groupBy =s? NostrEventCountGroupContent)
      then outside (CountGroupedEventReactions filters)
      else
        items ← outside (fun w => let '(w, items) := StoredEvents filters w in (w, Ok items));
        events ← lift_st (all_events items);
        mret (countBasedOnGroupsFromEvents events [groupBy])
  end.

(** The first relay that answers; events of all of them, one relay after the other. *)
(* src: dvm/nostr_event_count.go 155-161 [doCountRemote] *)
Fixpoint first_count (filters : list Filter) (relays : list nat) : M string :=
  match relays with
  | [] => fail opaque_error
  | r :: rs => c ← attempt_st (outside (Count r filters)); match c with inl n => mret (Strconv.Itoa n) | inr _ => first_count filters rs end
  end.
(* src: dvm/nostr_event_count.go 172-190 [doCountRemote] *)
Fixpoint relay_events (filters : list Filter) (relays : list nat) : M (list Event) :=
  match relays with
  | [] => mret []
  | r :: rs =>
      evs ← attempt_st (outside (QueryEventsMany r filters));
      rest ← relay_events filters rs;
      mret (match evs with inl evs => evs ++ rest | inr _ => rest end)
  end.

(* src: dvm/nostr_event_count.go 151-195 *)
Definition doCountRemote (filters : list Filter) (relays : list nat) (groupBy : string) : M string :=
  if groupBy =s? "" then first_count filters relays
  else
    events ← relay_events filters relays;
    late ← gets (fun d => Uncollected (outer d));
    mret (countBasedOnGroupsFromEvents (list.take (length events - late) events) [groupBy]).

(** The group a request names. *)
(* src: dvm/nostr_event_count.go 60-66 [doCount] *)
Fixpoint group_by (tags : Tags) : string :=
  match tags with
  | [] => ""
  | tag :: tags =>
      match tag with
      | _ :: _ :: g :: _ => if (Key tag =s? "param") && (Value tag =s? "group") then g else group_by tags
      | _ => group_by tags
      end
  end.

(* src: dvm/nostr_event_count.go 59-96 *)
Definition doCount (e : Event) (filters : list Filter) : M string :=
  let groupBy := group_by (EvTags e) in
  let sourceList := collectSourceRelayURLsFromEvent e (RelayURL config) in
  if is_nil sourceList then doCountLocal filters groupBy
  else
    queryRelays ← connectToRelays sourceList;
    r ← attempt_st (if is_nil queryRelays then doCountLocal filters groupBy else doCountRemote filters queryRelays groupBy);
    closeRelays queryRelays ;;
    match r with inl s => mret s | inr e => fail e end.

(* src: dvm/nostr_event_count.go 36-57 *)
Definition Process (e : Event) : M string :=
  match json_filters (Content e) with
  | None => fail opaque_error
  | Some filters => doCount e filters
  end.

(** The job is free. *)
(* src: dvm/nostr_event_count.go 244-246 *)
Definition RequiredPaymentAmount : option string := None.
(* src: dvm/nostr_event_count.go 248-264 *)
Definition IsBidAmountEnough (amount : string) : bool :=
  match RequiredPaymentAmount with
  | Some required => if TrimSpace amount =s? "" then false else ParseFloat_ge amount required
  | None => true
  end.

(** ** Jobs *)

(** The request of a job and whether it was stopped. *)
Definition job_at (d : dvm W) (p : nat) : jobInfo := default (MkJob (new_event 0 0 "" []) true) (infos d !! p).

(** Feedback that cannot be published is logged. *)
Definition feedback (request : Event) (at_ : Timestamp) (status payload : string) : M unit :=
  attempt_st (publishJobFeedback request at_ status payload RequiredPaymentAmount) ;; mret ().
(** The text of an error is a parameter: it is part of the feedback. *)
Context (error_text : error -> string).

(* src: dvm/dvm.go 275-355 *)
Definition execute (p : nat) : M unit :=
  job ← gets (fun d => job_at d p);
  let request := JEvent job in
  let at_ := Now now in
  if negb (Kind request =? KindJobNostrEventCount) then mret ()
  else if negb (IsBidAmountEnough (Value (GetTag request "bid")))
  then feedback request at_ JobFeedbackStatusPaymentRequired "Bid amount is not enough"
  else
    result ← attempt_st (Process request);
    stopped ← gets (fun d => Cancelled (job_at d p));
    if (stopped : bool) then mret ()
    else
      match result with
      | inr e => feedback request at_ JobFeedbackStatusError ("error: " +:+ error_text e)
      | inl payload =>
          final ← attempt_st (lift_st (finalizeJob at_ request payload RequiredPaymentAmount));
          match final with
          | inr e => feedback request at_ JobFeedbackStatusError ("error: " +:+ error_text e)
          | inl result =>
              r ← attempt_st (publishJobResult request result);
              match r with
              | inr e => feedback request at_ JobFeedbackStatusError ("error: " +:+ error_text e)
              | inl _ => mret ()
              end
          end
      end.

Definition with_jobs (d : dvm W) (js : gmap string nat) (ps : gmap nat jobInfo) : dvm W := MkDVM js ps (ResponseCache d) (outer d).
Definition cancel (p : nat) : M unit := step (fun d => with_jobs d (Jobs d) (<[p := MkJob (JEvent (job_at d p)) true]> (infos d))).

(** The goroutine of a job: it is run, and leaves the map of jobs. *)
(* src: dvm/dvm.go 193-202 [AcceptEvents] *)
Definition run_job (p : nat) : M unit :=
  r ← attempt_st (execute p);
  cancel p ;;
  step (fun d => with_jobs d (delete (ID (JEvent (job_at d p))) (Jobs d)) (infos d)).

(* src: dvm/dvm.go 444-461 *)
Definition stopEvent (stopJobID : string) : M unit :=
  j ← gets (fun d => Jobs d !! stopJobID);
  match j with
  | None => mret ()
  | Some p =>
      step (fun d => with_jobs d (delete stopJobID (Jobs d)) (infos d)) ;;
      cancel p ;;
      request ← gets (fun d => JEvent (job_at d p));
      publishJobFeedback request (Now now) JobFeedbackStatusError ("Job " +:+ stopJobID +:+ " has been stopped") None
  end.

(* src: dvm/dvm.go 249-273 *)
Definition handleDeletionEvent (event : Event) : M unit :=
  let stopEventID := Value (GetTag event "e") in
  let kTag := Value (GetTag event "k") in
  if (stopEventID =s? "") || (kTag =s? "") then mret ()
  else match Strconv.Atoi kTag with
       | None => fail opaque_error
       | Some stopEventKind => if (stopEventKind <? 5000) || (5999 <? stopEventKind) then mret () else stopEvent stopEventID
       end.

(* src: dvm/dvm.go 220-246 [handleTokenizedCommunityActionEvent] *)
Fixpoint push_batches (fuel : nat) (event : Event) (batch startID : Z) : M unit :=
  match fuel with
  | O => lift_st OutOfFuel
  | S fuel =>
      c ← outside (PriceChangeCandidates event startID 200);
      if is_nil c.1 then mret ()
      else
        outside (RQ_Push batch event c.1) ;;
        push_batches fuel event (batch + 1) c.2
  end.
(* src: dvm/dvm.go 208-247 *)
Definition handleTokenizedCommunityActionEvent (fuel : nat) (has_queue : bool) (event : Event) : M unit :=
  if has_queue then push_batches fuel event 1 0 else mret ().

(** A request becomes a job, which is started; the pointers of the jobs started. *)
(* src: dvm/dvm.go 148-206 *)
Fixpoint AcceptEvents (fuel : nat) (has_queue : bool) (events : list Event) : M (list nat) :=
  match events with
  | [] => mret []
  | event :: events =>
      if Kind event =? KindDeletion then handleDeletionEvent event ;; AcceptEvents fuel has_queue events
      else if Kind event =? CustomIONKindTokenizedCommunityAction
      then handleTokenizedCommunityActionEvent fuel has_queue event ;; AcceptEvents fuel has_queue events
      else if negb (IsJobRequest event) then AcceptEvents fuel has_queue events
      else
        p ← gets (fun d => fresh (dom (infos d)));
        step (fun d => with_jobs d (<[ID event := p]> (Jobs d)) (<[p := MkJob event false]> (infos d))) ;;
        ps ← AcceptEvents fuel has_queue events;
        mret (p :: ps)
  end.

(** ** Notifications of prices *)

(** A notification; signing it never fails with the relay's key, or the worker
    panics. *)
(* src: dvm/token_price_change_worker.go 48-80 [Work] *)
Definition notify_price (event : Event) (entry : PriceChangeData) : M unit :=
  match json_events [PreviousEvent entry; event] with
  | None => mret ()
  | Some content =>
      match SignWithAlg (new_event CustomIONKindDVMJobResponsePriceChange (Now now) content
              [["request"; PRequest entry]; ["e"; PRequestID entry]; ["p"; PMasterPubKey entry]; ["a"; Value (GetTag event "a")]])
              (PrivateKey config) SignAlgEDDSA KeyAlgCurve25519 with
      | Ok ev => SubmitResult ev
      | OutOfFuel => lift_st OutOfFuel
      | _ => lift_st Panic
      end
  end.
(* src: dvm/token_price_change_worker.go 48-80 [Work] *)
Fixpoint notify_all (event : Event) (data : list PriceChangeData) : M unit :=
  match data with [] => mret () | entry :: data => notify_price event entry ;; notify_all event data end.
(* src: dvm/token_price_change_worker.go 35-83 *)
Definition Work (event : Event) (devices : list string) : M unit :=
  data ← outside (FetchPriceChange event devices);
  notify_all event data.
End Jobs.
