(* ===== verification/JobLaws.v ===== *)
(** * Package dvm: what jobs answer, and to whom

    Theorems about src/dvm (file Jobs): counts, the results that are kept, who ends a
    job, and the batches of price notifications. *)

From stdpp Require Import sorting.
From S2P Require Import Prelude GoStd Nostr Model Filters Content Validator QueryFilter QueryBuilder Selection Prices Jobs.
Import Strings.

(** ** Counts *)

(** How often a value occurs. *)
Definition occurrences (k : string) (l : list string) : Z := zlen (filter (k =.) l).
Lemma occurrences_cons k x l : occurrences k (x :: l) = (if decide (k = x) then 1 else 0) + occurrences k l.
Proof. unfold occurrences. rewrite filter_cons. case_decide; unfold zlen; cbn [length]; lia. Qed.

Lemma occurrences_absent k l : k ∉ l -> occurrences k l = 0.
Proof. induction l as [|x l IH]; intros Hk; [done|]. rewrite occurrences_cons, decide_False by set_solver. rewrite IH by set_solver. lia. Qed.

Lemma bump_at m x k : bump m x !! k = if decide (k = x) then Some (default 0 (m !! k) + 1) else m !! k.
Proof. unfold bump. case_decide; subst; [by rewrite lookup_insert_eq|by rewrite lookup_insert_ne]. Qed.

Lemma fold_bump l m k :
  fold_left bump l m !! k = if decide (k ∈ l) then Some (default 0 (m !! k) + occurrences k l) else m !! k.
Proof.
  revert m. induction l as [|x l IH]; intros m; cbn [fold_left]; [by rewrite decide_False by set_solver|].
  rewrite IH, bump_at, occurrences_cons. destruct (decide (k = x)) as [->|Hk].
  - rewrite (decide_True (P := x ∈ x :: l)) by set_solver. case_decide; cbn; f_equal; [lia|]. by rewrite occurrences_absent.
  - by rewrite (decide_ext (k ∈ x :: l) (k ∈ l)) by set_solver.
Qed.

Section CountLaws.
Context {N : Nostr}.
(** Every value that a group finds in the events, with repetitions. *)
Definition grouped_values (evs : list Event) (groups : list string) : list string :=
  groups ≫= (fun group => evs ≫= group_values group).

Lemma fold_left_bind {A} (g : A -> list string) (l : list A) m :
  fold_left (fun m x => fold_left bump (g x) m) l m = fold_left bump (l ≫= g) m.
Proof. revert m. induction l as [|x l IH]; intros m; cbn [fold_left mbind list_bind]; [done|]. by rewrite IH, fold_left_app. Qed.

Lemma counts_fold evs groups : countBasedOnGroups evs groups = fold_left bump (grouped_values evs groups) ∅.
Proof.
  unfold countBasedOnGroups, grouped_values. rewrite <- fold_left_bind. generalize (∅ : gmap string Z). induction groups as [|g gs IH]; intros m; [done|].
  cbn [fold_left]. by rewrite fold_left_bind.
Qed.

End CountLaws.

(** ** Runs that maintain a property of the state *)

Section Keeps.
Context {W : Type} (P : dvm W -> Prop).
Lemma maintains_gets {A} (f : dvm W -> A) : maintains P (gets f). Proof. by intros d. Qed.
Lemma maintains_fail {A} (e : error) : maintains P (fail (A := A) e). Proof. by intros d. Qed.
Lemma maintains_step f : (forall d, P d -> P (f d)) -> maintains P (step f). Proof. intros Hf d. apply Hf. Qed.

(** What does not depend on the world outside is kept by what happens there. *)
Hypothesis inside : forall d w, P d -> P (with_outer d w).
Lemma maintains_outside {A} (m : ST W A) : maintains P (outside m).
Proof. intros d Hd. unfold outside. destruct (m (outer d)). by apply inside. Qed.
End Keeps.
#[export] Hint Resolve maintains_gets maintains_fail maintains_outside : maintains.

Section Runs.
Context {N : Nostr} {G : GoText} {T : EventText} {C : Crypto} {E : Env} {TM : TagMaps} {X : DVMText} {W : Type} {DW : DVMWorld W}.
Context (config : Config) (error_text : error -> string) (P : dvm W -> Prop).
Hypothesis inside : forall d w, P d -> P (with_outer d w).
#[local] Hint Extern 1 (forall d w, P d -> P (with_outer d w)) => exact inside : maintains.

Lemma maintains_relays urls : maintains P (connectToRelays urls).
Proof. induction urls as [|u us IH]; cbn [connectToRelays]; maintain. Qed.
Lemma maintains_close relays : maintains P (closeRelays relays).
Proof. apply maintains_step. intros d. apply inside. Qed.
Hint Resolve maintains_relays maintains_close : maintains.

Lemma maintains_Process e : maintains P (Process config e).
Proof.
  assert (Hm : forall f, maintains P (doCountMRF f)) by (intros f; unfold doCountMRF; maintain).
  assert (Hl : forall fs g, maintains P (doCountLocal fs g)) by (intros fs g; unfold doCountLocal; maintain).
  assert (Hf : forall fs rs, maintains P (first_count fs rs)) by (induction rs as [|r rs IH]; cbn [first_count]; maintain).
  assert (He : forall fs rs, maintains P (relay_events fs rs)) by (induction rs as [|r rs IH]; cbn [relay_events]; maintain).
  assert (Hr : forall fs rs g, maintains P (doCountRemote fs rs g)) by (intros fs rs g; unfold doCountRemote; maintain).
  unfold Process, doCount. maintain.
Qed.

(** A result is sent to no relay: it is kept and handed on. *)
Lemma publish_submits request result d : publishJobResult request result d = SubmitResult result d.
Proof.
  unfold publishJobResult. unfold mbind at 1, ST_bind at 1. destruct (SubmitResult result d) as [d' [[]|x| |]]; try done.
  cbv zeta. by destruct (collectTargetRelayURLsFromEvent request).
Qed.

(** What a result that is kept changes. *)
Hypothesis accepts : forall result d, P d -> P (acceptDVMResponseEvent result d).1.

Lemma maintains_Submit result : maintains P (SubmitResult result).
Proof. unfold SubmitResult. apply maintains_bind; [exact (accepts result)|]. maintain. Qed.
Lemma maintains_publish request result : maintains P (publishJobResult request result).
Proof. intros d Hd. rewrite publish_submits. by apply maintains_Submit. Qed.
Hint Resolve maintains_Submit maintains_publish maintains_Process : maintains.
Lemma maintains_feedback request t status payload : maintains P (feedback config request t status payload).
Proof. unfold feedback, publishJobFeedback. maintain. Qed.
Hint Resolve maintains_feedback : maintains.
Lemma maintains_execute p : maintains P (execute config error_text p).
Proof. unfold execute. maintain. Qed.
Lemma maintains_Work event devices : maintains P (Work config event devices).
Proof.
  assert (Hn : forall entry, maintains P (notify_price config event entry)) by (intros entry; unfold notify_price; maintain).
  assert (Ha : forall data, maintains P (notify_all config event data)) by (induction data as [|x xs IH]; cbn [notify_all]; maintain).
  unfold Work. maintain.
Qed.
Lemma maintains_push fuel event batch startID : maintains P (push_batches fuel event batch startID).
Proof. revert batch startID. induction fuel as [|fuel IH]; intros batch startID; cbn [push_batches]; maintain. Qed.
Hint Resolve maintains_push maintains_execute : maintains.

(** What jobs that begin and end change. *)
Hypothesis cancels : forall p d, P d -> P (cancel p d).1.
Hypothesis forgets : forall id d, P d -> P (with_jobs d (delete id (Jobs d)) (infos d)).
Hypothesis begins_ : forall event d, P d ->
  P (with_jobs d (<[ID event := fresh (dom (infos d))]> (Jobs d)) (<[fresh (dom (infos d)) := MkJob event false]> (infos d))).

Lemma maintains_run_job p : maintains P (run_job config error_text p).
Proof.
  unfold run_job. maintain; [exact (cancels p)|]. apply maintains_step. intros d Hd. by apply forgets.
Qed.
Lemma maintains_stop id : maintains P (stopEvent config id).
Proof.
  unfold stopEvent, publishJobFeedback. maintain; [|exact (cancels _)]. apply maintains_step. apply forgets.
Qed.
Hint Resolve maintains_stop : maintains.
Lemma maintains_deletion e : maintains P (handleDeletionEvent config e).
Proof. unfold handleDeletionEvent. maintain. Qed.
Hint Resolve maintains_deletion : maintains.
Lemma maintains_AcceptEvents fuel has_queue events : maintains P (AcceptEvents config fuel has_queue events).
Proof.
  induction events as [|e es IH]; cbn [AcceptEvents]; [maintain|].
  assert (Ht : maintains P (handleTokenizedCommunityActionEvent fuel has_queue e)) by (unfold handleTokenizedCommunityActionEvent; maintain).
  destruct (Kind e =? KindDeletion); [maintain|]. destruct (Kind e =? CustomIONKindTokenizedCommunityAction); [maintain|].
  destruct (negb (IsJobRequest e)); [maintain|]. intros d Hd. unfold mbind at 1 2, ST_bind at 1 2, gets, step.
  assert (Hk : maintains P (ps ← AcceptEvents config fuel has_queue es; mret (fresh (dom (infos d)) :: ps))) by maintain.
  apply Hk. by apply begins_.
Qed.
End Runs.

(** ** Results that are kept *)

Section Results.
Context {N : Nostr} {G : GoText} {T : EventText} {TS : EventTextSpec} {C : Crypto} {E : Env} {TM : TagMaps} {X : DVMText} {W : Type} {DW : DVMWorld W}.
Context (config : Config) (error_text : error -> string).

(** What the service does, and what happens around it. *)
Inductive dvm_step : dvm W -> dvm W -> Prop :=
| events_accepted fuel has_queue events d : dvm_step d (AcceptEvents config fuel has_queue events d).1
| job_run p d : dvm_step d (run_job config error_text p d).1
| prices_notified event devices d : dvm_step d (Work config event devices d).1
| responses_expired key d : dvm_step d (expire_responses key d).1
| world_changed w d : dvm_step d (with_outer d w).
Definition started (w : W) : dvm W := MkDVM ∅ ∅ ∅ w.
Definition reachable (d : dvm W) : Prop := exists w, rtc dvm_step (started w) d.

(** A result is kept under its id, in the entry of its addressee. *)
Definition filed (d : dvm W) : Prop := forall key entry id ev,
  ResponseCache d !! key = Some entry -> entry !! id = Some ev ->
  ID ev = id /\ key = tagCacheKey "p" (Value (GetTag ev "p")) /\ Value (GetTag ev "p") ≠ "".
Definition kept (d : dvm W) (ev : Event) : Prop := exists key entry, ResponseCache d !! key = Some entry /\ entry !! ID ev = Some ev.

Lemma accept_response_filed result d : filed d -> filed (acceptDVMResponseEvent result d).1.
Proof.
  intros Hd. unfold acceptDVMResponseEvent. destruct (String.eqb_spec (Value (GetTag result "p")) "") as [|Hp]; [done|].
  intros key entry id ev. cbn. rewrite lookup_insert_Some. intros [[<- <-]|[_ He]] Hev; [|by eapply Hd].
  apply lookup_insert_Some in Hev as [[<- <-]|[_ Hev]]; [done|].
  destruct (ResponseCache d !! _) as [entry|] eqn:He; [by eapply Hd|done].
Qed.

Lemma filed_reachable d : reachable d -> filed d.
Proof.
  intros [w Hw]. remember (started w) as d0 eqn:H0. assert (Hd : filed d0) by (subst; intros ???? Hk; cbn in Hk; by rewrite lookup_empty in Hk).
  clear H0. induction Hw as [d|d1 d2 d3 Hs _ IH]; [done|]. apply IH. clear IH.
  assert (Hi : forall d w, filed d -> filed (with_outer d w)) by done.
  destruct Hs as [fuel q events d|p d|event devices d|key d|w' d].
  - by apply (maintains_AcceptEvents config filed Hi accept_response_filed).
  - by apply (maintains_run_job config error_text filed Hi accept_response_filed).
  - by apply (maintains_Work config filed Hi accept_response_filed).
  - intros k entry id ev. cbn. rewrite lookup_delete_Some. intros [_ He]. by apply Hd.
  - done.
Qed.

Lemma entry_events_spec (m : gmap string Event) ev : ev ∈ entry_events m <-> exists id, m !! id = Some ev.
Proof.
  unfold entry_events. rewrite list_elem_of_omap. split; [intros (id & _ & Hid); by exists id|].
  intros [id Hid]. exists id. split; [|done]. rewrite range_set_perm. apply elem_of_elements. by apply elem_of_dom_2 in Hid.
Qed.

(** A search for the addressees of results finds exactly the kept results that
    are tagged with one of them and match the filters, whatever was accepted, run,
    stopped or expired before. *)
Lemma findByFilterTag_addressed filters f d ev : reachable d ->
  ev ∈ findByFilterTag d filters f "p" <->
    kept d ev /\ Value (GetTag ev "p") ∈ All (default ∅ (FTags f)) "p" /\ nostr_FiltersMatch filters ev = true.
Proof.
  intros Hd%filed_reachable. unfold findByFilterTag. rewrite list_elem_of_In, in_concat. setoid_rewrite in_map_iff. split.
  - intros (l & (pk & <- & Hpk) & Hev). apply list_elem_of_In in Hpk, Hev. destruct (ResponseCache d !! _) as [entry|] eqn:He; [|by apply not_elem_of_nil in Hev].
    apply list_elem_of_filter in Hev as [Hm [id Hev]%entry_events_spec]. destruct (Hd _ _ _ _ He Hev) as (<- & Hkey & _).
    injection Hkey as ->. split; [by exists (tagCacheKey "p" (Value (GetTag ev "p"))), entry|]. done.
  - intros ((key & entry & He & Hev) & Hp & Hm). destruct (Hd _ _ _ _ He Hev) as (_ & -> & _).
    eexists. split; [exists (Value (GetTag ev "p")); split; [reflexivity|by apply list_elem_of_In]|]. rewrite He. apply list_elem_of_In, list_elem_of_filter.
    split; [done|]. apply entry_events_spec. by eexists.
Qed.
End Results.

(** ** Who ends a job, and where results go *)

Section Ends.
Context {N : Nostr} {G : GoText} {T : EventText} {C : Crypto} {E : Env} {TM : TagMaps} {X : DVMText} {W : Type} {DW : DVMWorld W}.
Context (config : Config) (error_text : error -> string).

(** A result and the feedback of a job are kept and handed to the listener, and
    nothing else: no relay is connected to or sent the result, whether the request
    names relays or not. *)
Lemma results_stay_here request result d : publishJobResult request result d = SubmitResult result d.
Proof. apply publish_submits. Qed.

Lemma feedback_keeps_jobs request t status payload amount d :
  infos (publishJobFeedback config request t status payload amount d).1 = infos d /\
  Jobs (publishJobFeedback config request t status payload amount d).1 = Jobs d.
Proof.
  pose (P := fun d' : dvm W => infos d' = infos d /\ Jobs d' = Jobs d).
  assert (Hi : forall d w, P d -> P (with_outer d w)) by done.
  assert (Ha : forall result d, P d -> P (acceptDVMResponseEvent result d).1)
    by (intros result d' Hd; unfold acceptDVMResponseEvent; by destruct (_ =s? "")).
  enough (Hk : maintains P (publishJobFeedback config request t status payload amount)) by (by apply Hk).
  unfold publishJobFeedback. apply maintains_bind; [apply maintains_lift|]. intros ev. by apply maintains_publish.
Qed.

(** A job that was stopped leaves nothing. *)
Lemma stopped_silent p d : Cancelled (job_at d p) = true -> ResponseCache (run_job config error_text p d).1 = ResponseCache d.
Proof.
  intros Hc. pose (P := fun d' : dvm W => ResponseCache d' = ResponseCache d /\ infos d' = infos d).
  assert (Hi : forall d w, P d -> P (with_outer d w)) by done.
  assert (He : P (execute config error_text p d).1).
  { unfold execute. unfold mbind at 1, ST_bind at 1, gets. destruct (negb _); [done|]. unfold IsBidAmountEnough. cbn [RequiredPaymentAmount negb].
    unfold mbind at 1, ST_bind at 1. pose proof (maintains_attempt P _ (maintains_Process config P Hi (JEvent (job_at d p))) d (conj eq_refl eq_refl)) as Hp.
    destruct (attempt_st _ d) as [d' [r|x| |]]; try done. cbn in Hp. destruct Hp as [Hr Hf].
    unfold mbind at 1, ST_bind at 1. unfold job_at in *. rewrite Hf, Hc. done. }
  destruct He as [He _]. unfold run_job. unfold mbind at 1, ST_bind at 1, attempt_st.
  by destruct (execute config error_text p d) as [d' [r|x| |]].
Qed.

(** The state in which the feedback about a stopped job is published. *)
Definition stopping (id : string) (p : nat) (d : dvm W) : dvm W :=
  with_jobs d (delete id (Jobs d)) (<[p := MkJob (JEvent (job_at d p)) true]> (infos d)).
Lemma stop_found id p d : Jobs d !! id = Some p ->
  stopEvent config id d = publishJobFeedback config (JEvent (job_at (stopping id p d) p)) (Now now) JobFeedbackStatusError
    ("Job " +:+ id +:+ " has been stopped") None (stopping id p d).
Proof. intros Hj. unfold stopEvent. cbv [mbind ST_bind gets step cancel]. by rewrite Hj. Qed.

(** A deletion that names a job and a kind of jobs ends the job: it leaves the
    map, and its run keeps no result.  Who signed the deletion is not asked. *)
Lemma stopped_by_anyone (e : Event) p k d :
  Jobs d !! Value (GetTag e "e") = Some p -> Value (GetTag e "e") ≠ "" ->
  Value (GetTag e "k") ≠ "" -> Strconv.Atoi (Value (GetTag e "k")) = Some k -> 5000 <= k <= 5999 ->
  let d' := (handleDeletionEvent config e d).1 in
  Jobs d' !! Value (GetTag e "e") = None /\ ResponseCache (run_job config error_text p d').1 = ResponseCache d'.
Proof.
  intros Hj He Hk Ha Hr. cbv zeta. unfold handleDeletionEvent.
  rewrite (proj2 (String.eqb_neq _ _) He), (proj2 (String.eqb_neq _ _) Hk), Ha. cbn [orb].
  rewrite (proj2 (Z.ltb_ge k 5000)), (proj2 (Z.ltb_ge 5999 k)) by lia. cbn [orb].
  rewrite (stop_found _ p) by done.
  match goal with |- context [publishJobFeedback config ?r ?t ?s ?c None ?d1] => pose proof (feedback_keeps_jobs r t s c None d1) as [Hf Hg] end.
  split; [rewrite Hg; apply lookup_delete_eq|]. apply stopped_silent. unfold job_at at 1. rewrite Hf. cbn. by rewrite lookup_insert_eq.
Qed.
End Ends.

(** ** Batches of price notifications *)

Section Batches.
Context {N : Nostr} {G : GoText} {T : EventText} {C : Crypto} {E : Env} {TM : TagMaps} {X : DVMText} {D : Decimal} {W : Type} {DW : DVMWorld W}.
Context (SelectRows : string -> gmap string any -> ST W (list ((Z * string) + error))).
Context (event : Event) (price : decimal) (token owner : string) (rows : list (Z * string)) (pushed : W -> list (Z * list string)).

Lemma collect_rows (l : list (Z * string)) acc s : collect_candidates (inl <$> l) acc s = Ok (acc ++ l.*2, default s (last l.*1)).
Proof.
  revert acc s. induction l as [|[i dev] l IH]; intros acc s; cbn [fmap list_fmap collect_candidates]; [by rewrite List.app_nil_r|].
  rewrite IH, <- List.app_assoc. cbn [fst snd]. rewrite last_cons. by destruct (last l.*1).
Qed.

Lemma filter_none (P : Z * string -> Prop) `{!forall x, Decision (P x)} l : Forall (fun x => ~ P x) l -> filter P l = [].
Proof. induction 1 as [|x l Hx _ IH]; [done|]. by rewrite filter_cons_False. Qed.
Lemma filter_id (P : Z * string -> Prop) `{!forall x, Decision (P x)} l : Forall P l -> filter P l = l.
Proof. induction 1 as [|x l Hx _ IH]; [done|]. rewrite filter_cons_True by done. by f_equal. Qed.

(** The event has a price; the rows that follow an id are read in the order of their
    ids; the queue takes what it is given. *)
Hypothesis priced : priced_token event = Ok (Some (price, token, owner)).
Hypothesis sorted : StronglySorted (fun a b => a.1 < b.1) rows.
Hypothesis positive : Forall (fun r => 0 < r.1) rows.
Hypothesis selected : forall startID w,
  SelectRows candidatesQuery (list_to_map (price_params event price token owner ++ [("limit", AInt 200); ("startID", AInt startID)])) w =
    (w, Ok (inl <$> list.take 200 (filter (fun r => startID < r.1) rows))).
Hypothesis candidates : forall startID w,
  PriceChangeCandidates event startID 200 w = CollectPriceChangeSubscribersCandidates SelectRows event startID 200 w.
Hypothesis queued : forall batch devices w, exists w', RQ_Push batch event devices w = (w', Ok ()) /\ pushed w' = pushed w ++ [(batch, devices)].

Definition batches_of (b : Z) (l : list (Z * string)) (batches : list (Z * list string)) : Prop :=
  concat batches.*2 = l.*2 /\ Forall (fun x => 1 <= zlen x.2 <= 200) batches /\ batches.*1 = seqZ b (zlen batches).

(** The batch after an id ends at a larger id, which the rows that are left exceed. *)
Lemma next_batch pre rem startID : rows = pre ++ rem -> Forall (fun r => r.1 <= startID) pre -> rem ≠ [] ->
  exists L, default startID (last (list.take 200 rem).*1) = L /\
    Forall (fun r => r.1 <= L) (pre ++ list.take 200 rem) /\ Forall (fun r => L < r.1) (list.drop 200 rem).
Proof.
  intros Hrows Hpre Hne. destruct (exists_last (l := list.take 200 rem)) as (c & [L dev] & Hc); [by destruct rem|].
  exists L. rewrite Hc, fmap_app. cbn [fmap list_fmap fst]. rewrite last_snoc. split; [done|].
  pose proof sorted as Hs. rewrite Hrows, <- (List.firstn_skipn 200 rem), Hc in Hs.
  rewrite <- !List.app_assoc in Hs. cbn [app] in Hs.
  split; apply Forall_forall; intros x Hx.
  - rewrite List.app_assoc in Hs. rewrite List.app_assoc in Hx. apply elem_of_app in Hx as [Hx|Hx%list_elem_of_singleton]; [|subst; cbn; lia].
    assert ((x.1 < (L, dev).1)) as Hl by (by apply (StronglySorted_app_1_elem_of _ _ _ x (L, dev) Hs Hx); left). cbn in Hl. lia.
  - rewrite List.app_assoc in Hs. apply StronglySorted_app_1_r in Hs. apply StronglySorted_inv in Hs as [_ Hs]. rewrite Forall_forall in Hs. by apply Hs.
Qed.

Lemma candidates_after startID pre rem w : rows = pre ++ rem -> Forall (fun r => r.1 <= startID) pre -> Forall (fun r => startID < r.1) rem ->
  PriceChangeCandidates event startID 200 w = (w, Ok ((list.take 200 rem).*2, default startID (last (list.take 200 rem).*1))).
Proof.
  intros Hrows Hpre Hrem. rewrite candidates. unfold CollectPriceChangeSubscribersCandidates. rewrite priced.
  unfold mbind, ST_bind, lift_st. rewrite selected, collect_rows.
  assert (filter (fun r => startID < r.1) rows = rem) as ->; [|done].
  rewrite Hrows, filter_app, (filter_none _ pre), (filter_id _ rem); [done|done|].
  eapply Forall_impl; [exact Hpre|]. cbn. lia.
Qed.

Lemma batches_sent fuel pre rem b startID d : rows = pre ++ rem -> Forall (fun r => r.1 <= startID) pre -> Forall (fun r => startID < r.1) rem ->
  (length rem < fuel)%nat -> exists d' batches, push_batches fuel event b startID d = (d', Ok ()) /\
    pushed (outer d') = pushed (outer d) ++ batches /\ batches_of b rem batches.
Proof.
  revert pre rem b startID d. induction fuel as [|fuel IH]; intros pre rem b startID d Hrows Hpre Hrem Hlen; [lia|].
  cbn [push_batches]. unfold mbind at 1, ST_bind at 1, outside at 1. rewrite (candidates_after startID pre rem) by done. cbn [fst snd].
  destruct rem as [|r rem0] eqn:Hr; [by eexists _, []; split_and!; [done|cbn; by rewrite List.app_nil_r|done]|]. rewrite <- Hr in *.
  destruct (next_batch pre rem startID) as (L & Hlast & Hpre' & Hrem'); [done|done|by rewrite Hr|].
  replace (is_nil (list.take 200 rem).*2) with false by (by rewrite Hr). rewrite Hlast.
  destruct (queued b (list.take 200 rem).*2 (outer d)) as (w & Hw & Hp).
  unfold mbind, ST_bind, outside. cbn [outer with_outer]. rewrite Hw.
  destruct (IH (pre ++ list.take 200 rem) (list.drop 200 rem) (b + 1) L (with_outer (with_outer d (outer d)) w)) as (d' & batches & -> & Hb & Hs & Hf & Hn);
    [by rewrite <- List.app_assoc, List.firstn_skipn|done|done|rewrite length_drop; rewrite Hr in *; cbn [length] in *; lia|].
  exists d', ((b, (list.take 200 rem).*2) :: batches). split_and!; [done| |].
  - rewrite Hb. cbn. by rewrite Hp, <- List.app_assoc.
  - split_and!.
    + cbn [fmap list_fmap concat snd]. rewrite Hs, <- fmap_app. by rewrite List.firstn_skipn.
    + constructor; [|done]. unfold zlen. cbn [snd]. rewrite length_fmap, length_take. rewrite Hr. cbn [length]. lia.
    + cbn [fmap list_fmap fst]. rewrite Hn. unfold zlen. cbn [length]. rewrite Nat2Z.inj_succ, (seqZ_cons b) by lia. by rewrite Z.pred_succ.
Qed.

(** An event with a price ends with every candidate pushed to the queue once, in
    the order of the ids, in batches of at most two hundred numbered from one: more
    steps than candidates are enough. *)
Lemma candidates_pushed fuel d : (length rows < fuel)%nat ->
  exists d' batches, handleTokenizedCommunityActionEvent fuel true event d = (d', Ok ()) /\
    pushed (outer d') = pushed (outer d) ++ batches /\ batches_of 1 rows batches.
Proof. apply (batches_sent fuel [] rows 1 0 d); [done|constructor|done]. Qed.
End Batches.

(** ** Concrete inputs *)
Module JobLawsWitness.
Import SelectionPlain.

(** A world that remembers what was queued and handed on, over two hundred and one
    subscriptions. *)
Definition rows : list (Z * string) := (fun n => (Z.of_nat n, Strconv.Itoa (Z.of_nat n))) <$> seq 1 201.
Record outside_world : Type := MkOutside { queue : list (Z * list string); listener : list Event }.
#[local] Instance decimals : Decimal := {|
  decimal := Z; Zero := 0; NewFromString := Strconv.Atoi; IsZero z := z =? 0;
  Div a b := if b =? 0 then Panic else Ok (a / b); decimal_String := Strconv.Itoa |}.
Definition trade : Event := MkEvent None "t1" "bb" 100 1175
  [["a"; "31175:bb:x"]; ["token_symbol"; "X"]; ["tx_amount"; "10"; "USD"]; ["tx_amount"; "2"; "X"]] "" "".
Definition asked (params : gmap string any) : Z := match params !! "startID" with Some (AInt n) => n | _ => 0 end.
Definition select (sql : string) (params : gmap string any) : ST outside_world (list ((Z * string) + error)) := fun w =>
  (w, Ok (inl <$> list.take 200 (filter (fun r => asked params < r.1) rows))).
#[local] Instance world : DVMWorld outside_world := {|
  CountEvents _ w := (w, Ok 0); CountGroupedEventReactions _ w := (w, Ok ""); StoredEvents _ w := (w, []);
  PriceChangeCandidates e s n w := CollectPriceChangeSubscribersCandidates select e s n w;
  FetchPriceChange _ _ w := (w, Ok []);
  EventListener e w := (MkOutside (queue w) (listener w ++ [e]), Ok ());
  RQ_Push b e ds w := (MkOutside (queue w ++ [(b, ds)]) (listener w), Ok ());
  Connect _ w := (w, Err opaque_error); Close _ w := w; Count _ _ w := (w, Ok 0); QueryEventsMany _ _ w := (w, Ok []);
  Uncollected _ := 0%nat; Publish _ _ w := (w, Published); Jobs.Auth _ w := (w, Ok ()) |}.
#[local] Instance text : DVMText := {|
  json_filters _ := Some []; json_counts _ := ""; ParseFloat_ge _ _ := false; json_events _ := None;
  nostr_FiltersMatch fs e := negb (is_nil fs) |}.
Definition config : Config := MkConfig key_hex "wss://relay".
Definition error_text (e : error) : string := "".
Definition fresh_state : dvm outside_world := started (MkOutside [] []).

Definition request : Event := MkEvent None "j1" "bb" 100 5400 [] "" "[]".
Definition asking : Filter := MkFilter None None None None (Some {["p" := [[Some "bb"]]]}) None None 10 "".
Definition accepted : dvm outside_world := (AcceptEvents config 1 false [request] fresh_state).1.
Definition done_ : dvm outside_world := (run_job config error_text 0 accepted).1.

Lemma reached : reachable config error_text done_.
Proof. exists (MkOutside [] []). eapply rtc_l; [apply (events_accepted _ _ 1 false [request])|]. apply rtc_once, (job_run _ _ 0). Qed.
Definition answer : Event := hd request (findByFilterTag done_ [asking] asking "p").
Lemma findByFilterTag_addressed_witness :
  answer ∈ findByFilterTag done_ [asking] asking "p" <->
    kept done_ answer /\ Value (GetTag answer "p") ∈ All (default ∅ (FTags asking)) "p" /\ nostr_FiltersMatch [asking] answer = true.
Proof. apply (findByFilterTag_addressed config error_text [asking] asking done_ answer), reached. Defined.
Example answer_found : (Kind answer, Content answer, length (listener (outer done_))) = (6400, "0", 1%nat).
Proof. vm_compute. reflexivity. Qed.

Definition stranger : Event := MkEvent None "d1" "cc" 101 5 [["e"; "j1"]; ["k"; "5400"]] "" "".
Lemma stopped_by_anyone_witness :
  let d' := (handleDeletionEvent config stranger accepted).1 in
  Jobs d' !! Value (GetTag stranger "e") = None /\ ResponseCache (run_job config error_text 0 d').1 = ResponseCache d'.
Proof.
  apply (stopped_by_anyone config error_text stranger 0%nat 5400 accepted); [vm_compute; reflexivity|done|done|reflexivity|lia].
Defined.

Lemma sorted_rows : StronglySorted (fun a b => a.1 < b.1) rows.
Proof.
  unfold rows. generalize 1%nat at 1. generalize 201%nat. induction n as [|n IH]; intros m; cbn; constructor; [apply IH|].
  apply Forall_fmap, Forall_forall. intros k Hk%elem_of_seq. cbn. lia.
Qed.
Lemma candidates_pushed_witness :
  exists d' batches, handleTokenizedCommunityActionEvent 300 true trade fresh_state = (d', Ok ()) /\
    queue (outer d') = queue (outer fresh_state) ++ batches /\ batches_of 1 rows batches.
Proof.
  apply (candidates_pushed select trade (5 : @decimal decimals) "31175:bb:x" "bb" rows queue); [vm_compute; reflexivity|exact sorted_rows| |reflexivity|reflexivity| |].
  - apply Forall_fmap, Forall_forall. intros k Hk%elem_of_seq. cbn. lia.
  - intros b ds w. eexists. split; [reflexivity|done].
  - vm_compute. lia.
Defined.
End JobLawsWitness.
