(* ===== verification/Fcm.v ===== *)
(** * Package pushnotifications/internal: messages to devices

    src/push-notifications/internal/pushnotifications.go.  Firebase, nip44 and the
    exponential backoff are parameters: a call that fails for a while is sent again
    until the backoff ends, after a number of attempts that is a parameter.  The
    values of the data of a notification are strings in the program.  Options, the
    start of the client and logging are left out. *)

From S2P Require Import Prelude GoStd Nostr Model Filters.
Import Strings.

(** github.com/nbd-wtf/go-nostr/nip44 *)
Class Nip44 := {
  ConvertEd25519PublicKeyToX25519 : string -> option string;
  GenerateConversationKeyX25519 : string -> string -> option string;
  DecryptX25519 : string -> string -> option string
}.

(** An error of Firebase: its text and what package messaging says of it. *)
Record fcmError : Type := MkFcmError {
  Text : string; IsInvalidArgument : bool; IsUnregistered : bool; IsSenderIDMismatch : bool
}.

(** The errors a client of the package meets; the last has a text. *)
(* src: push-notifications/internal/pushnotifications.go 66-68 *)
Inductive pnError : Type := ErrInvalidDeviceToken | ErrMessageTooLarge | ErrDecryptToken | SendFailed (text : string).

(* src: push-notifications/internal/pushnotifications.go 42-49 *)
Record Notification (T : Type) : Type := MkNotification {
  Data : gmap string string; Target : T; Title : string; Body : string; ImageURL : string; SourceEvent : Event
}.
Arguments MkNotification {T}. Arguments Data {T}. Arguments Target {T}. Arguments Title {T}. Arguments Body {T}.
Arguments ImageURL {T}. Arguments SourceEvent {T}.

(** [messaging.Message] *)
Record Message : Type := MkMessage {
  Token : string; Topic : string; MData : gmap string string; MNotification : option (string * string * string)
}.

(* src: push-notifications/internal/pushnotifications.go 100-102 *)
Definition IsInvalidDeviceTokenError (e : pnError) : bool := match e with ErrInvalidDeviceToken => true | _ => false end.
(* src: push-notifications/internal/pushnotifications.go 104-106 *)
Definition IsDecryptTokenError (e : pnError) : bool := match e with ErrDecryptToken => true | _ => false end.
(* src: push-notifications/internal/pushnotifications.go 108-110 *)
Definition IsMessageTooLargeError (e : pnError) : bool := match e with ErrMessageTooLarge => true | _ => false end.

Section Errors.
Context {G : GoText}.

(** The error a text tells of. *)
(* src: push-notifications/internal/pushnotifications.go 326-341 *)
Definition getSpecificFCMError (text : string) : option pnError :=
  let errMsg := ToLower text in
  if Contains errMsg "registration token is not a valid fcm registration token" || Contains errMsg "requested entity was not found"
     || Contains errMsg "unregistered" || Contains errMsg "sender id mismatch" || Contains errMsg "invalid registration token"
  then Some ErrInvalidDeviceToken
  else if Contains errMsg "message too large" || Contains errMsg "payload too large" then Some ErrMessageTooLarge
  else None.

(* src: push-notifications/internal/pushnotifications.go 343-364 *)
Definition FcmErrorToReason (text : string) : string :=
  let errMsg := ToLower text in
  if Contains errMsg "registration token is not a valid fcm registration token" || Contains errMsg "invalid registration token"
  then "invalid_registration_token"
  else if Contains errMsg "requested entity was not found" then "not_found"
  else if Contains errMsg "unregistered" then "unregistered"
  else if Contains errMsg "sender id mismatch" then "sender_id_mismatch"
  else if Contains errMsg "message too large" || Contains errMsg "payload too large" then "message_too_large"
  else "other_error".

(** An error that is not tried again, [inl], or one that is. *)
(* src: push-notifications/internal/pushnotifications.go 314-324 *)
Definition permanentError (e : fcmError) : (pnError + string) + string :=
  if IsInvalidArgument e || IsUnregistered e || IsSenderIDMismatch e then inl (inl ErrInvalidDeviceToken)
  else match getSpecificFCMError (Text e) with
       | Some _ => inl (inr (Text e))
       | None => inr (Text e)
       end.

End Errors.

(** The title, the body and the image of a message, when there is one of them. *)
(* src: push-notifications/internal/pushnotifications.go 207-213 [createSingleMessage] *)
Definition shown {T} (n : Notification T) : option (string * string * string) :=
  if (Title n ≠s? "") || (Body n ≠s? "") || (ImageURL n ≠s? "") then Some (Title n, Body n, ImageURL n) else None.

(* src: push-notifications/internal/pushnotifications.go 234-256 *)
Definition createTopicMessage (n : Notification string) : Message := MkMessage "" (Target n) (Data n) (shown n).

Section Client.
Context {N : Nostr} {G : GoText} {K : Nip44} {W : Type}.
Context (fcm_Send : Message -> W -> W * (string + fcmError)) (fcm_text : Message -> string -> string).
(** The X25519 private key of the client; the attempts its backoff allows. *)
Context (privateKey : string) (attempts : nat).

(** The identifier of a message, or the error of the attempt that ended the backoff. *)
(* src: push-notifications/internal/pushnotifications.go 265-280 *)
Fixpoint retry (attempts : nat) (message : Message) (w : W) : W * (string + (pnError + string)) :=
  match fcm_Send message w with
  | (w, inl id) => (w, inl id)
  | (w, inr e) =>
      match permanentError e with
      | inl e => (w, inr e)
      | inr text => match attempts with O => (w, inr (inr text)) | S n => retry n message w end
      end
  end.

(* src: push-notifications/internal/pushnotifications.go 156-181 *)
Definition sendWithRetry (message : Message) (w : W) : W * (string + pnError) :=
  match retry attempts message w with
  | (w, inl id) => (w, inl id)
  | (w, inr (inl e)) => (w, inr e)
  | (w, inr (inr text)) =>
      (w, inr match getSpecificFCMError text with Some e => e | None => SendFailed (fcm_text message text) end)
  end.

(* src: push-notifications/internal/pushnotifications.go 282-301 *)
Definition DecryptToken (ev : Event) : string + pnError :=
  match GetTag ev "token" with
  | [] => inl ""
  | tag =>
      match ConvertEd25519PublicKeyToX25519 (PubKey ev) with
      | None => inr ErrDecryptToken
      | Some pubkeyX25519 =>
          match GenerateConversationKeyX25519 privateKey pubkeyX25519 with
          | None => inr ErrDecryptToken
          | Some conversationKey =>
              match DecryptX25519 (Value tag) conversationKey with None => inr ErrDecryptToken | Some t => inl t end
          end
      end
  end.

(** [None] is no message: the registration has no token. *)
(* src: push-notifications/internal/pushnotifications.go 183-216 *)
Definition createSingleMessage (n : Notification Event) : option Message + pnError :=
  if Value (GetTag (Target n) "token") =s? "" then inl None
  else match DecryptToken (Target n) with
       | inr e => inr e
       | inl token => inl (Some (MkMessage token "" (Data n) (shown n)))
       end.

(* src: push-notifications/internal/pushnotifications.go 218-232 *)
Definition SendSingle (n : Notification Event) (w : W) : W * option pnError :=
  match createSingleMessage n with
  | inr e => (w, Some e)
  | inl None => (w, None)
  | inl (Some message) =>
      let '(w, r) := sendWithRetry message w in (w, match r with inl _ => None | inr e => Some e end)
  end.

(* src: push-notifications/internal/pushnotifications.go 258-263 *)
Definition SendTopic (n : Notification string) (w : W) : W * option pnError :=
  let '(w, r) := sendWithRetry (createTopicMessage n) w in (w, match r with
      | inl _ => None
      | inr (SendFailed text) => Some (SendFailed ("failed to send topic notification: " +:+ text))
      | inr e => Some e
      end).
End Client.
