(* ===== verification/Devices.v ===== *)
(** * Package pushnotifications: devices and statistics

    src/push-notifications/devices.go, stats.go and the lookups of devices of
    pushnotifications.go, with src/database/query/query_device_registration.go.  The
    devices are values of the index of file Matcher, by the hash of their key, and
    events of a map, by their identifier and by their key; both are changed by one
    step each here.  The digest, the database and the JSON of filters are
    parameters; the statistics are logged by a timer that is left out. *)

From S2P Require Import Prelude GoStd Nostr Model Filters Matcher Content Validator Validate QueryFilter QueryBuilder Selection Fcm.
Import Strings.

(** ** Statistics *)

Definition uint64 (z : Z) : Z := z mod 2 ^ 64.

(* src: push-notifications/stats.go 21-28 *)
Record PushStats : Type := MkStats {
  successByKind : gmap string Z; errorsByKind : gmap string (gmap string Z); totalSuccess : Z; totalErrors : Z
}.
(* src: push-notifications/stats.go 39-47 *)
Definition newPushStats : PushStats := MkStats ∅ ∅ 0 0.

Section Stats.
Context {N : Nostr} {G : GoText}.

(* src: push-notifications/stats.go 49-65 *)
Definition getExtendedKind (event : Event) : string :=
  let plain := Strconv.Itoa (Kind event) in
  if Kind event =? KindGiftWrap then
    match GetTag event "k" with [] => plain | kTag => plain +:+ "+" +:+ Value kTag end
  else if Kind event =? KindGenericRepost then
    if Content event ≠s? "" then
      match UnmarshalJSON (Content event) with Some e => plain +:+ "+" +:+ Strconv.Itoa (Kind e) | None => plain end
    else plain
  else plain.

(* src: push-notifications/stats.go 183-194 *)
Definition classifyError (e : pnError) : string :=
  match e with
  | ErrDecryptToken => "decrypt_token_error"
  | ErrMessageTooLarge => "message_too_large"
  | ErrInvalidDeviceToken => "invalid_token"
  | SendFailed text => FcmErrorToReason text
  end.

Definition count_up (m : gmap string Z) (k : string) : gmap string Z := <[k := uint64 (default 0 (m !! k) + 1)]> m.

(* src: push-notifications/stats.go 67-79 *)
Definition RecordSuccess (s : PushStats) (event : Event) : PushStats :=
  MkStats (count_up (successByKind s) (getExtendedKind event)) (errorsByKind s) (uint64 (totalSuccess s + 1)) (totalErrors s).

(* src: push-notifications/stats.go 81-100 *)
Definition RecordError (s : PushStats) (event : Event) (e : option pnError) : PushStats :=
  match e with
  | None => s
  | Some e =>
      let extendedKind := getExtendedKind event in
      MkStats (successByKind s) (<[extendedKind := count_up (default ∅ (errorsByKind s !! extendedKind)) (classifyError e)]> (errorsByKind s))
        (totalSuccess s) (uint64 (totalErrors s + 1))
  end.
End Stats.

(** ** The registrations that are stored *)

Section Registrations.
Context {W : Type}.
(** The rows of a statement with the parameters after the relay: the last tag and the
    size of a batch. *)
Context (SelectRegistrations : Z -> Z -> ST W (list (Z * Event))) (UpdateTags : list string -> ST W Z).

(** Every event a reader that takes everything is given; an error ends the events. *)
(* src: database/query/query_device_registration.go 50-78 [collectDeviceRegistrationEvents] *)
Fixpoint collectDeviceRegistrationEvents (fuel : nat) (lastTagID : Z) : ST W (list (Event + error)) :=
  match fuel with
  | O => lift_st OutOfFuel
  | S fuel =>
      r ← attempt_st (SelectRegistrations lastTagID 1000);
      match r with
      | inr e => mret [inr e]
      | inl events =>
          if (length events <? 1000)%nat then mret ((fun x => inl x.2) <$> events)
          else
            rest ← collectDeviceRegistrationEvents fuel (default lastTagID (last (fst <$> events)));
            mret (((fun x => inl x.2) <$> events) ++ rest)
      end
  end.

(* src: database/query/query_device_registration.go 83-103 *)
Definition markTokenAsInvalidInEventTags (events : list Event) : ST W unit :=
  if is_nil events then mret ()
  else
    rowsAffected ← UpdateTags (ID <$> events);
    if rowsAffected =? 0 then lift_st (Err opaque_error) else mret ().
End Registrations.

(** ** Devices *)

(** A job of the queue (package rq). *)
(* src: push-notifications/broadcaster_user_notifier.go 17-22 [broadcasterPushNotificationWorkerArgs] *)
Inductive job : Type :=
| RelayFinder (BatchID : string) (Events : list Event)
| Broadcast (RelayURL BatchID : string) (EphemeralEvents : list Event)
| UserNotification (BatchID : string) (EphemeralEvents : list Event)
| PushNotification (Device : option Event) (MasterPublicKey BatchID : string) (Events : list Event).

(* src: push-notifications/devices.go 22-26 *)
Record deviceInfo : Type := MkDevice { DEvent : Event; DFilters : FiltersWithData (option Event); Remote : bool }.

Definition deviceIndexKeyTypeEventID : string := "event_id".
Definition deviceIndexKeyTypeDeviceKey : string := "device_key".

(** The database, the queue, the pool of goroutines, the client of Firebase and the
    connections to other relays. *)
Class PushWorld (W : Type) := {
  CollectDeviceRegistrationEvents : W -> W * list (Event + error);
  MarkTokenAsInvalidInEventTags : list Event -> ST W unit;
  RegisterPriceChangeSubscriber : string -> Event -> ST W unit;
  DeletePriceChangeSubscriber : string -> string -> string -> string -> ST W unit;
  StoredEvents : list Filter -> W -> W * list (Event + error);
  PushJobs : list job -> ST W unit;
  Submit : ST W unit;
  BroadcastTo : string -> list Event -> ST W unit
}.

(* src: push-notifications/pushnotifications.go 38-49 *)
Record PushNotificationManager (W : Type) : Type := MkManager {
  devicesFilterIndex : Storage deviceInfo;
  devicesEventMap : gmap (string * string) Event;
  stats : PushStats;
  outer : W
}.
Arguments MkManager {W}. Arguments devicesFilterIndex {W}. Arguments devicesEventMap {W}. Arguments stats {W}. Arguments outer {W}.

Section Devices.
Context {N : Nostr} {G : GoText} {GJ : GoGJSON} {W : Type} {PW : PushWorld W}.
Context (xxh3 : string -> Z) (relayURL : string).
Abbreviation M := (ST (PushNotificationManager W)).

Definition with_outer (pm : PushNotificationManager W) (w : W) : PushNotificationManager W :=
  MkManager (devicesFilterIndex pm) (devicesEventMap pm) (stats pm) w.
Definition with_map (pm : PushNotificationManager W) (m : gmap (string * string) Event) : PushNotificationManager W :=
  MkManager (devicesFilterIndex pm) m (stats pm) (outer pm).
Definition with_index (pm : PushNotificationManager W) (s : Storage deviceInfo) : PushNotificationManager W :=
  MkManager s (devicesEventMap pm) (stats pm) (outer pm).
Definition outside {A} (m : ST W A) : M A := fun pm => let '(w, r) := m (outer pm) in (with_outer pm w, r).
Definition step (f : PushNotificationManager W -> PushNotificationManager W) : M unit := fun pm => (f pm, Ok ()).
Definition gets {A} (f : PushNotificationManager W -> A) : M A := fun pm => (pm, Ok (f pm)).
Definition fail {A} (e : error) : M A := lift_st (Err e).
Fixpoint each {A} (l : list A) (f : A -> M unit) : M unit :=
  match l with [] => mret () | x :: l => f x ;; each l f end.

(* src: push-notifications/devices.go 29-31 *)
Definition calcDeviceKey (event : Event) : string := cmp_Or (GetD (EvTags event)) (ID event).
(* src: push-notifications/devices.go 33-35 [Hash] *)
Definition device_hash (d : deviceInfo) : Z := xxh3 (calcDeviceKey (DEvent d)).

(** The account, the device and whether the device is another relay's. *)
(* src: push-notifications/devices.go 60-72 *)
Definition notificationTarget (e : Event) : string * string * bool :=
  let dTag := GetD (EvTags e) in
  if Contains dTag "_" then
    match SplitN2 dTag "_" with
    | [master; device] => (master, device, true)
    | _ => (GetMasterPublicKey e, dTag, true)
    end
  else (GetMasterPublicKey e, dTag, false).

(* src: push-notifications/devices.go 74-81 *)
Definition filterDevices (devices : list Event) (event : Event) (fn : Event -> Event -> bool) : list Event :=
  filter (fun d => fn d event = true) devices.

(** The price changes a device asked for; errors of the database are logged. *)
(* src: push-notifications/devices.go 162-178 [removeDeviceFromCache] *)
Definition unsubscribe (deviceKey : string) (di : deviceInfo) : M unit :=
  if Remote di then mret ()
  else each (DataOf (DFilters di)) (fun ev =>
    ev ← lift_st (deref ev);
    if Kind ev =? CustomIONKindDVMJobRequestPriceChange
    then attempt_st (outside (DeletePriceChangeSubscriber (PubKey (DEvent di)) deviceKey "" (ID ev))) ;; mret ()
    else mret ()).
(* src: push-notifications/devices.go 112-133 [processDeviceRegistrationEvent] *)
Definition subscribe (deviceKey : string) (data : list (option Event)) : M unit :=
  each data (fun ev =>
    ev ← lift_st (deref ev);
    if Kind ev =? CustomIONKindDVMJobRequestPriceChange then outside (RegisterPriceChangeSubscriber deviceKey ev) else mret ()).

(* src: push-notifications/devices.go 150-179 *)
Definition removeDeviceFromCache (event : Event) : M unit :=
  let deviceKey := calcDeviceKey event in
  step (fun pm => with_map pm (delete (deviceIndexKeyTypeEventID, ID event) (devicesEventMap pm))) ;;
  oldEvent ← gets (fun pm => devicesEventMap pm !! (deviceIndexKeyTypeDeviceKey, deviceKey));
  step (fun pm => with_map pm (delete (deviceIndexKeyTypeDeviceKey, deviceKey) (devicesEventMap pm))) ;;
  match oldEvent with
  | None => mret ()
  | Some oldEvent =>
      step (fun pm => with_map pm (delete (deviceIndexKeyTypeEventID, ID oldEvent) (devicesEventMap pm))) ;;
      index ← gets devicesFilterIndex;
      r ← lift_st (StorageRemoveByHash index (device_hash (MkDevice oldEvent (MkFiltersWithData [] []) false)));
      step (fun pm => with_index pm r.1) ;;
      match r.2 with Some di => unsubscribe deviceKey di | None => mret () end
  end.

(* src: push-notifications/devices.go 83-146 *)
Definition processDeviceRegistrationEvent (event : Event) : M unit :=
  let '(masterPubKey, deviceID, remote) := notificationTarget event in
  if (masterPubKey =s? "") || (deviceID =s? "") then fail opaque_error
  else
    filters ← lift_st (FiltersWithData_UnmarshalJSON gjson_array json_filter json_event_ptr (MkFiltersWithData [] []) (Content event));
    removeDeviceFromCache event ;;
    if negb remote && negb (CompareRelaysURLs (Value (GetTag event "relay")) relayURL) then mret ()
    else
      let deviceKey := calcDeviceKey event in
      (if remote then mret () else subscribe deviceKey (DataOf filters)) ;;
      step (fun pm => with_map pm (<[(deviceIndexKeyTypeDeviceKey, deviceKey) := event]>
        (<[(deviceIndexKeyTypeEventID, ID event) := event]> (devicesEventMap pm)))) ;;
      index ← gets devicesFilterIndex;
      index ← lift_st (StorageIndex device_hash index (FiltersOf filters) (MkDevice event filters remote));
      step (fun pm => with_index pm index).

(** An event that cannot be processed is logged. *)
(* src: push-notifications/devices.go 38-50 [syncDevices] *)
Fixpoint sync_all (items : list (Event + error)) : M unit :=
  match items with
  | [] => mret ()
  | inr e :: _ => fail e
  | inl event :: items => attempt_st (processDeviceRegistrationEvent event) ;; sync_all items
  end.
(* src: push-notifications/devices.go 37-58 *)
Definition syncDevices : M unit :=
  items ← outside (fun w => let '(w, items) := CollectDeviceRegistrationEvents w in (w, Ok items));
  sync_all items.

(* src: push-notifications/devices.go 181-200 *)
Definition shouldProcessDeletionEvent (event : Event) : bool :=
  if negb (Kind event =? KindDeletion) then false
  else
    let ks := filter (fun tag => Key tag = "k") (EvTags event) in
    existsb (fun tag => Value tag =s? Strconv.Itoa CustomIONKindDeviceRegistration) ks || is_nil ks.

(* src: push-notifications/devices.go 202-231 *)
Definition removeDevicesIfAny (events : list Event) : M unit :=
  let deletionEvents := filter (fun e => shouldProcessDeletionEvent e = true) events in
  let eventIDs := concat (map (fun e => Value <$> filter (fun tag => Key tag = "e") (EvTags e)) deletionEvents) in
  each eventIDs (fun eventID =>
    regEvent ← gets (fun pm => devicesEventMap pm !! (deviceIndexKeyTypeEventID, eventID));
    match regEvent with Some regEvent => removeDeviceFromCache regEvent | None => mret () end).

(** Registrations in turn; their errors are joined. *)
(* src: push-notifications/devices.go 240-245 [ManageDeviceRegistrationEvents] *)
Fixpoint process_registrations (events : list Event) (errs : option error) : M unit :=
  match events with
  | [] => match errs with None => mret () | Some e => fail e end
  | event :: events =>
      if Kind event =? CustomIONKindDeviceRegistration then
        r ← attempt_st (processDeviceRegistrationEvent event);
        process_registrations events (match r with inl _ => errs | inr e => Some (match errs with Some x => join_error x e | None => e end) end)
      else process_registrations events errs
  end.
(* src: push-notifications/devices.go 233-248 *)
Definition ManageDeviceRegistrationEvents (events : list Event) : M unit :=
  if is_nil events then mret ()
  else removeDevicesIfAny events ;; process_registrations events None.

(* src: push-notifications/devices.go 250-254 *)
Definition removeInvalidTokenDevicesFromCache (deviceEvents : list Event) : M unit := each deviceEvents removeDeviceFromCache.

(** ** Lookups *)

(** The devices the index finds for an event. *)
Definition found_devices (pm : PushNotificationManager W) (event : Event) : list deviceInfo :=
  StorageLookup (devicesFilterIndex pm) event (fun acc d => (acc ++ [d], true)) [].

(* src: push-notifications/pushnotifications.go 948-975 *)
Definition collectUserDevices (pm : PushNotificationManager W) (pubKey : string) (remote : bool) (event : Event) : list Event :=
  DEvent <$> filter (fun d =>
    ((pubKey = "" \/ GetMasterPublicKey (DEvent d) = pubKey \/ PubKey (DEvent d) = pubKey) /\ Remote d = remote) /\
    FiltersMatch (FiltersOf (DFilters d)) event "" "" = true) (found_devices pm event).

(* src: push-notifications/pushnotifications.go 977-979 *)
Definition collectRemoteDevices (pm : PushNotificationManager W) (pubKey : string) (event : Event) : list Event :=
  collectUserDevices pm pubKey true event.
(* src: push-notifications/pushnotifications.go 981-983 *)
Definition collectLocalDevices (pm : PushNotificationManager W) (pubKey : string) (event : Event) : list Event :=
  collectUserDevices pm pubKey false event.
(* src: push-notifications/pushnotifications.go 988-993 *)
Definition collectTargetMasterKeys (pm : PushNotificationManager W) (event : Event) : list string :=
  DeduplicateStringSlice (GetMasterPublicKey <$> collectLocalDevices pm "" event).
End Devices.
