(* ===== verification/Push.v ===== *)
(** * Package pushnotifications: notifications

    src/push-notifications/pushnotifications.go and the files notification_*.go and
    broadcaster_*.go: which devices are notified of an event, what they are sent, and
    the jobs that carry events to the devices of other relays.  Goroutines of the
    pool are run one after the other; zlib, base64 and the libraries under
    package model are parameters; start-up and the test at start are left out. *)

From S2P Require Import Prelude GoStd Nostr Model Filters Matcher Content Validator TagRules Community Validate QueryFilter QueryBuilder Selection Fcm Devices.
Import Strings.

(** ** Types of notifications *)

(* src: push-notifications/pushnotifications.go 87 *)
Definition NotificationTypeReaction : string := "reaction".
(* src: push-notifications/pushnotifications.go 88 *)
Definition NotificationTypeRepost : string := "repost".
(* src: push-notifications/pushnotifications.go 89 *)
Definition NotificationTypeMentionReply : string := "mention_reply".
(* src: push-notifications/pushnotifications.go 90 *)
Definition NotificationTypeDirectMessage : string := "direct_message".
(* src: push-notifications/pushnotifications.go 91 *)
Definition NotificationTypeGroupChatMessage : string := "group_chat_message".
(* src: push-notifications/pushnotifications.go 92 *)
Definition NotificationTypeChannelMessage : string := "channel_message".
(* src: push-notifications/pushnotifications.go 93 *)
Definition NotificationTypePaymentRequest : string := "payment_request".
(* src: push-notifications/pushnotifications.go 94 *)
Definition NotificationTypePaymentReceived : string := "payment_received".
(* src: push-notifications/pushnotifications.go 95 *)
Definition NotificationTypeAnonymousPaymentReceived : string := "anonymous_payment_received".
(* src: push-notifications/pushnotifications.go 96 *)
Definition NotificationTypeSystem : string := "system".
(* src: push-notifications/pushnotifications.go 97 *)
Definition NotificationTypeNewFollower : string := "new_follower".
(* src: push-notifications/pushnotifications.go 99 *)
Definition NotificationTypeCreatorTokenCreated : string := "creator_token_created".
(* src: push-notifications/pushnotifications.go 100 *)
Definition NotificationTypeCreatorTokenSwapped : string := "creator_token_swapped".
(* src: push-notifications/pushnotifications.go 102 *)
Definition NotificationTypeContentTokenCreated : string := "content_token_created".
(* src: push-notifications/pushnotifications.go 103 *)
Definition NotificationTypeContentTokenSwapped : string := "content_token_swapped".
(* src: push-notifications/pushnotifications.go 105 *)
Definition NotificationTypeTokenPriceChange : string := "token_price_change".
(* src: push-notifications/pushnotifications.go 107 *)
Definition CompressionMethodZlib : string := "zlib".
(* src: push-notifications/pushnotifications.go 111 *)
Definition NotificationTypeSomeoneCreatorTokenCreated : string := "someone_creator_token_created".
(* src: push-notifications/pushnotifications.go 112 *)
Definition NotificationTypeSomeoneCreatorTokenSwapped : string := "someone_creator_token_swapped".
(* src: push-notifications/pushnotifications.go 114 *)
Definition NotificationTypeSomeoneContentTokenCreated : string := "someone_content_token_created".
(* src: push-notifications/pushnotifications.go 115 *)
Definition NotificationTypeSomeoneContentTokenSwapped : string := "someone_content_token_swapped".
(* src: push-notifications/pushnotifications.go 117 *)
Definition NotificationTypeSomeonePost : string := "someone_post".
(* src: push-notifications/pushnotifications.go 118 *)
Definition NotificationTypeSomeoneVideo : string := "someone_video".
(* src: push-notifications/pushnotifications.go 119 *)
Definition NotificationTypeSomeoneArticle : string := "someone_article".
(* src: push-notifications/pushnotifications.go 120 *)
Definition NotificationTypeSomeoneStory : string := "someone_story".

(* src: push-notifications/pushnotifications.go 58-62 *)
Record notificationTranslation : Type := MkTranslation { TTitle : string; TBody : string; TImageURL : string }.
Definition logo : string := "https://ice.io/wp-content/uploads/2024/04/ion-logo-2.png".

(* src: push-notifications/pushnotifications.go 124-245 *)
Definition defaultTranslations : gmap string notificationTranslation := list_to_map
  [(NotificationTypeReaction, MkTranslation "New reaction" "Someone reacted to your post" logo);
   (NotificationTypeRepost, MkTranslation "New repost" "Someone reposted your post" logo);
   (NotificationTypeMentionReply, MkTranslation "New mention/reply" "Someone mentioned/replied you" logo);
   (NotificationTypeDirectMessage, MkTranslation "New message" "You have a new message" logo);
   (NotificationTypeGroupChatMessage, MkTranslation "New group message" "New message in group" logo);
   (NotificationTypeChannelMessage, MkTranslation "New channel message" "New message in channel" logo);
   (NotificationTypePaymentRequest, MkTranslation "Payment request" "Someone requested a payment" logo);
   (NotificationTypePaymentReceived, MkTranslation "Payment received" "You received a payment" logo);
   (NotificationTypeAnonymousPaymentReceived, MkTranslation "Anonymous payment received" "You received a payment" logo);
   (NotificationTypeSystem, MkTranslation "System notification" "System notification" logo);
   (NotificationTypeNewFollower, MkTranslation "New follower" "Someone is now following you" logo);
   (NotificationTypeCreatorTokenCreated, MkTranslation "Creator Token Is Live" "Your token is now available for trading" logo);
   (NotificationTypeCreatorTokenSwapped, MkTranslation "Someone Bought Your Creator Token" "Someone Bought Your Creator Token" logo);
   (NotificationTypeContentTokenCreated, MkTranslation "Content Token Is Live" "Community launched a token for your post" logo);
   (NotificationTypeContentTokenSwapped, MkTranslation "Someone Bought Your Content Token" "Someone Bought Your Content Token" logo);
   (NotificationTypeSomeoneCreatorTokenCreated, MkTranslation "New Creator Token" "Someone just launched their token. Trade now!" logo);
   (NotificationTypeSomeoneContentTokenCreated, MkTranslation "New Content Token" "Community launched a token for someone's post" logo);
   (NotificationTypeSomeoneCreatorTokenSwapped, MkTranslation "Someone Bought Another Person's Creator Token" "Someone Bought Another Person's Creator Token" logo);
   (NotificationTypeSomeoneContentTokenSwapped, MkTranslation "Someone Bought Another Person's Content Token" "Someone Bought Another Person's Content Token" logo);
   (NotificationTypeSomeonePost, MkTranslation "New post" "New post from someone you enabled account notifications for" logo);
   (NotificationTypeSomeoneVideo, MkTranslation "New video" "New video from someone you enabled account notifications for" logo);
   (NotificationTypeSomeoneArticle, MkTranslation "New article is out" "New article from someone you enabled account notifications for" logo);
   (NotificationTypeSomeoneStory, MkTranslation "Quick update" "New story from someone you enabled account notifications for" logo);
   (NotificationTypeTokenPriceChange, MkTranslation "Token Price Changed" "Your token price changed" logo)].

Section Kinds.
Context {N : Nostr}.
(* src: push-notifications/pushnotifications.go 246-259 *)
Definition allowedPushEventKinds : list Z := [KindArticle; KindTextNote; CustomIONKindEditableTextNote; KindGenericRepost; KindReaction; KindGiftWrap; KindFollowList; CustomIONSystemMessage; CustomIONKindTokenizedCommunityDefinition; CustomIONKindTokenizedCommunityAction; CustomIONKindDVMJobResponsePriceChange; CustomIONKindFundSendNotify].
(* src: push-notifications/pushnotifications.go 260-267 *)
Definition allowedBroadcastKinds : list Z := [CustomIONKindTokenizedCommunityAction; CustomIONKindTokenizedCommunityDefinition; CustomIONKindEditableTextNote; KindArticle; KindTextNote; KindGenericRepost].
(* src: push-notifications/notification_gift_wrap.go 17-23 *)
Definition mapGiftWrapToNotificationType : gmap Z string := list_to_map
  [(KindDirectMessage, NotificationTypeDirectMessage); (CustomIONKindDirectMessage, NotificationTypeDirectMessage);
   (CustomIONKindFundReceive, NotificationTypePaymentReceived); (CustomIONKindFundSendNotify, NotificationTypePaymentRequest);
   (KindReaction, NotificationTypeReaction)].
End Kinds.

(* src: push-notifications/pushnotifications.go 1028-1043 *)
Definition getTranslation (notificationType : string) : notificationTranslation :=
  default (MkTranslation "Notification" "You have a new notification" logo) (defaultTranslations !! notificationType).

(** ** Relays *)

Section Relays.
Context {N : Nostr} {G : GoText}.

(* src: push-notifications/pushnotifications.go 1113-1121 *)
Definition collectRelaysFromDevice (ev : Event) : list string :=
  Value <$> filter (fun tag => Key tag = "relay" /\ Value tag ≠ "") (EvTags ev).

(* src: push-notifications/pushnotifications.go 1128-1131 [compactRelays] *)
Definition relay_key (relay : string) : string :=
  match url_Parse relay with Some parsed => ToLower (Hostname parsed) | None => ToLower relay end.

(** The relays that were kept, and all that were seen. *)
(* src: push-notifications/pushnotifications.go 1127-1153 [compactRelays] *)
Definition compact_relay (filterOut : list string) (st : list string * gmap string (list string)) (relay : string) :
    list string * gmap string (list string) :=
  let '(compacted, seen) := st in
  let key := relay_key relay in
  let seen_here := default [] (seen !! key) in
  if existsb (CompareRelaysURLs relay) seen_here then st
  else
    let seen := <[key := seen_here ++ [relay]]> seen in
    if existsb (CompareRelaysURLs relay) filterOut then (compacted, seen) else (compacted ++ [relay], seen).

(* src: push-notifications/pushnotifications.go 1123-1157 *)
Definition compactRelays (relays filterOut : list string) : list string :=
  (fold_left (compact_relay filterOut) relays ([], ∅)).1.
End Relays.

(** ** The client of the notifications *)

(* src: push-notifications/internal/pushnotifications.go 33-36 [Client] *)
Class PushClient (W : Type) := {
  SendSingle : Notification Event -> W -> W * option pnError;
  SendTopic : Notification string -> W -> W * option pnError
}.
(** The client of Firebase is one. *)
#[export] Instance fcm_client {N : Nostr} {G : GoText} {K : Nip44} {W : Type} (fcm_Send : Message -> W -> W * (string + fcmError))
    (fcm_text : Message -> string -> string) (privateKey : string) (attempts : nat) : PushClient W := {|
  SendSingle := Fcm.SendSingle fcm_Send fcm_text privateKey attempts;
  SendTopic := Fcm.SendTopic fcm_Send fcm_text attempts |}.

(** The order in which a range visits the devices of a job, their number and the
    digest of a batch. *)
Class PushText := {
  compressAndEncodeBase64 : string -> option string;
  events_Hash : list Event -> string;
  url_without_port : string -> option string
}.

Section Push.
Context {N : Nostr} {G : GoText} {J : GoJSON} {R : RichText} {C : Crypto} {E : Env} {T : EventText} {GJ : GoGJSON} {X : PushText}.
Context {W : Type} {PW : PushWorld W} {PC : PushClient W}.
Context (xxh3 : string -> Z) (relayURL privateKey : string).
(** The validator that finds the definition of a community. *)
Context (global : eventValidator).
Abbreviation M := (ST (PushNotificationManager W)).
Abbreviation notifications := (list (Notification Event)).

(** *** What a device is sent *)

(* src: push-notifications/pushnotifications.go 918-942 [createNotifications] *)
Definition notification_for (tr : notificationTranslation) (data : gmap string string) (incomingEvent device : Event) : Notification Event :=
  if Value (GetTag device "t") =s? DeviceTokenOSAndroid then MkNotification data device "" "" "" incomingEvent
  else MkNotification data device (TTitle tr) (TBody tr) (TImageURL tr) incomingEvent.

Definition compressed (s : string) : outcome string := match compressAndEncodeBase64 s with Some x => Ok x | None => Err opaque_error end.

(* src: push-notifications/pushnotifications.go 879-946 *)
Definition createNotifications (devices : list Event) (notificationType : string) (incomingEvent : Event) (relevantEvents : list Event) :
    outcome notifications :=
  if is_nil devices then Ok []
  else
    let! compressedEvent := compressed (event_String incomingEvent) in
    let data := <["event" := compressedEvent]> {["compression" := CompressionMethodZlib]} in
    let! data := (if is_nil relevantEvents then Ok data
                  else let! r := compressed ("[" +:+ Join (Content <$> relevantEvents) "," +:+ "]") in Ok (<["relevant_events" := r]> data)) in
    Ok (notification_for (getTranslation notificationType) data incomingEvent <$> devices).

(** Signing with the key of the relay: an error is a panic. *)
(* src: push-notifications/pushnotifications.go 581-601 *)
Definition createEphemeralEmbeddingEvent (contentEvent : Event) (source : option string) : outcome Event :=
  match SignWithAlg (MkEvent None "" "" (CreatedAt contentEvent) CustomIONKindEphemeralEmbedding
    ([["e"; ID contentEvent]; ["p"; GetMasterPublicKey contentEvent]; ["k"; Strconv.Itoa (Kind contentEvent)]] ++
     match source with
     | Some s => [["L"; "push-notification.broadcasting.tracing.id"; s]; ["l"; s; "push-notification.broadcasting.tracing.id"; s]]
     | None => []
     end) (event_String contentEvent) "") privateKey SignAlgEDDSA KeyAlgCurve25519 with
  | Ok ev => Ok ev
  | OutOfFuel => OutOfFuel
  | _ => Panic
  end.

(* src: push-notifications/pushnotifications.go 603-608 *)
Fixpoint packEventsForBroadcast (events : list Event) (batch : string) : outcome (list Event) :=
  match events with
  | [] => Ok []
  | e :: events =>
      let! x := createEphemeralEmbeddingEvent e (Some batch) in
      let! xs := packEventsForBroadcast events batch in
      Ok (x :: xs)
  end.

(** *** Who is notified *)

Definition local_devices (pubKey : string) (event : Event) : M (list Event) := gets (fun pm => collectLocalDevices pm pubKey event).
Definition notify (devices : list Event) (notificationType : string) (event : Event) (relevantEvents : list Event) : M notifications :=
  lift_st (createNotifications devices notificationType event relevantEvents).
Definition stored (filters : list Filter) : M (list (Event + error)) :=
  outside (fun w => let '(w, items) := StoredEvents filters w in (w, Ok items)).

(* src: push-notifications/pushnotifications.go 995-1003 *)
Definition handleEventWithPublicKey (event : Event) (notificationType : string) (relevantEvents : list Event) : M notifications :=
  let referencePubkey := Value (GetTag event "p") in
  if (referencePubkey =s? "") || (referencePubkey =s? GetMasterPublicKey event) then mret []
  else devices ← local_devices referencePubkey event; notify devices notificationType event relevantEvents.

(** The fourth value of a quote. *)
Definition quoted_key (tag : Tag) : string := match tag with _ :: _ :: _ :: k :: _ => k | _ => "" end.
(* src: push-notifications/pushnotifications.go 1005-1026 *)
Definition handleQuoteEvent (event : Event) (relevantEvents : list Event) : M notifications :=
  let referencePubkey := cmp_Or (quoted_key (GetTag event "q")) (quoted_key (GetTag event "Q")) in
  if referencePubkey =s? "" then mret []
  else devices ← local_devices referencePubkey event; notify devices NotificationTypeRepost event relevantEvents.

(* src: push-notifications/notification_community_message.go 33-49 *)
Definition getCommunityNotificationType (event : Event) : outcome string :=
  let! communityDefinition := getCommunityDefinition global (GetHTag event) in
  Ok (if existsb (fun setting => match setting with
                                 | _ :: _ :: x :: _ => (Value setting =s? CommentsEnabledSettings) && (x =s? "true")
                                 | _ => false
                                 end) (GetTags communityDefinition "settings")
      then NotificationTypeGroupChatMessage else NotificationTypeChannelMessage).

(* src: push-notifications/notification_community_message.go 15-31 *)
Definition handleCommunityMessageEvent (event : Event) (relevantEvents : list Event) : M notifications :=
  let referencePubkey := Value (GetTag event "p") in
  if (referencePubkey =s? "") || (referencePubkey =s? GetMasterPublicKey event) then mret []
  else
    notificationType ← lift_st (getCommunityNotificationType event);
    devices ← local_devices referencePubkey event;
    notify devices notificationType event relevantEvents.

(* src: push-notifications/notification_dvm.go 14-39 *)
Definition handleNewDVMEvent (event : Event) (relevantEvents : list Event) : M notifications :=
  devices ← local_devices "" event;
  if is_nil devices then mret []
  else if Kind event =? CustomIONKindDVMJobResponsePriceChange
  then notify devices NotificationTypeTokenPriceChange event relevantEvents
  else mret [].

(* src: push-notifications/notification_funds_transfer.go 12-24 *)
Definition handleAnonymousFundSendEvent (event : Event) (relevantEvents : list Event) : M notifications :=
  handleEventWithPublicKey event NotificationTypeAnonymousPaymentReceived relevantEvents.

(* src: push-notifications/notification_gift_wrap.go 26-68 *)
Definition handleGiftWrapEvent (event : Event) : M notifications :=
  let kTag := GetTag event "k" in
  if is_nil kTag then mret []
  else match Strconv.Atoi (Value kTag) with
  | None => fail opaque_error
  | Some kind =>
      let pTag := GetTag event "p" in
      let recipientMasterPubKey := Value pTag in
      if is_nil pTag || (recipientMasterPubKey =s? "") || (recipientMasterPubKey =s? GetMasterPublicKey event) then mret []
      else match pTag with
      | _ :: _ :: _ :: devicePubKey :: _ =>
          if devicePubKey =s? "" then mret []
          else
            registrations ← local_devices recipientMasterPubKey event;
            match List.find (fun ev => PubKey ev =s? devicePubKey) registrations with
            | None => mret []
            | Some device => notify [device] (default "" (mapGiftWrapToNotificationType !! kind)) event []
            end
      | _ => mret []
      end
  end.

(** The accounts in turn, each once; the author is left out. *)
(* src: push-notifications/notification_mention_reply.go 18-47 [handleMentionReplyEvent] *)
Fixpoint notify_accounts (keys : list string) (processedPubkeys : gset string) (event : Event) (relevantEvents : list Event) : M notifications :=
  match keys with
  | [] => mret []
  | pubkey :: keys =>
      if (pubkey =s? GetMasterPublicKey event) || bool_decide (pubkey ∈ processedPubkeys)
      then notify_accounts keys processedPubkeys event relevantEvents
      else
        devices ← local_devices pubkey event;
        ns ← notify devices NotificationTypeMentionReply event relevantEvents;
        rest ← notify_accounts keys ({[pubkey]} ∪ processedPubkeys) event relevantEvents;
        mret (ns ++ rest)
  end.
(* src: push-notifications/notification_mention_reply.go 12-50 *)
Definition handleMentionReplyEvent (event : Event) (relevantEvents : list Event) : M notifications :=
  mentionedPubkeys ← lift_st (ExtractMentionedPubkeys event);
  notify_accounts (mentionedPubkeys ++ (Value <$> GetTags event "p")) ∅ event relevantEvents.

(* src: push-notifications/notification_new_follower.go 30-42 *)
Definition createNewFollowerNotification (event : Event) (recipientPubKey : string) (relevantEvents : list Event) : M notifications :=
  if recipientPubKey =s? GetMasterPublicKey event then mret []
  else devices ← local_devices recipientPubKey event; notify devices NotificationTypeNewFollower event relevantEvents.

(* src: push-notifications/notification_new_follower.go 19-25 [handleNewFollowerEvent] *)
Fixpoint notify_followed (keys : list string) (event : Event) (relevantEvents : list Event) : M notifications :=
  match keys with
  | [] => mret []
  | k :: keys =>
      ns ← createNewFollowerNotification event k relevantEvents;
      rest ← notify_followed keys event relevantEvents;
      mret (ns ++ rest)
  end.
(* src: push-notifications/notification_new_follower.go 12-28 *)
Definition handleNewFollowerEvent (event : Event) (relevantEvents : list Event) : M notifications :=
  notify_followed (range_set (GetNewlyFollowedPubkeys event (Previous event))) event relevantEvents.

(** [""] is a kind that is left out. *)
(* src: push-notifications/notification_post.go 16-29 [handleNewPostEvent] *)
Definition post_type (event : Event) : string :=
  if Kind event =? KindArticle then NotificationTypeSomeoneArticle
  else if Kind event =? CustomIONKindEditableTextNote then
    if Value (GetTag event "expiration") ≠s? "" then NotificationTypeSomeoneStory
    else if HasVideoIMeta event then NotificationTypeSomeoneVideo else NotificationTypeSomeonePost
  else "".
(* src: push-notifications/notification_post.go 15-51 *)
Definition handleNewPostEvent (event : Event) (relevantEvents : list Event) : M notifications :=
  if post_type event =s? "" then mret []
  else
    found ← local_devices "" event;
    notify (filterDevices found event (fun device _ => GetMasterPublicKey device ≠s? GetMasterPublicKey event)) (post_type event) event relevantEvents.

(** The owner of a token and whether it is a creator's; [None] is no event named. *)
(* src: push-notifications/notification_tokenized_community.go 20-50 [handleTokenizedCommunityAction] *)
Definition token_of_action (event : Event) : M (option (string * bool)) :=
  let targetAddressTag := Value (GetTag event "a") in
  if targetAddressTag =s? "" then
    let eventID := Value (GetTag event "e") in
    if eventID =s? "" then mret None
    else
      items ← stored [MkFilter (Some [eventID]) (Some [CustomIONKindTokenizedCommunityDefinition]) None None None None None 1 ""];
      match items with
      | [] => mret (Some ("", false))
      | inr e :: _ => fail e
      | inl ev :: _ => mret (Some (GetMasterPublicKey ev, Value (GetTag ev "k") =s? Strconv.Itoa KindProfileMetadata))
      end
  else
    mret (Some match Split targetAddressTag ":" with
               | kind :: owner :: _ => (owner, kind =s? Strconv.Itoa KindProfileMetadata)
               | _ => ("", false)
               end).

(** The type for a device: one for the owner, one for the others. *)
(* src: push-notifications/notification_tokenized_community.go 57-87 [handleTokenizedCommunityAction] *)
Definition token_type (device event : Event) (ownerMasterKey creator content someone_creator someone_content : string) (isCreator : bool) : string :=
  let userMasterKey := GetMasterPublicKey device in
  if (userMasterKey =s? "") || (ownerMasterKey =s? "") then ""
  else if GetMasterPublicKey event =s? ownerMasterKey then ""
  else if userMasterKey =s? ownerMasterKey then (if isCreator then creator else content)
  else if isCreator then someone_creator else someone_content.

(* src: push-notifications/notification_tokenized_community.go 19-88 *)
Definition handleTokenizedCommunityAction (userDevice event : Event) : M string :=
  token ← token_of_action event;
  match token with
  | None => mret ""
  | Some (ownerMasterKey, isCreator) =>
      if Value (GetTag event "tx_type") ≠s? "buy" then mret ""
      else mret (token_type userDevice event ownerMasterKey NotificationTypeCreatorTokenSwapped NotificationTypeContentTokenSwapped
                   NotificationTypeSomeoneCreatorTokenSwapped NotificationTypeSomeoneContentTokenSwapped isCreator)
  end.

(* src: push-notifications/notification_tokenized_community.go 90-142 *)
Definition handleTokenizedCommunityCreation (userDevice event : Event) : string :=
  let isFirstBuy := existsb (fun tag => (Key tag =s? "t") && (Value tag =s? "community_token_action")) (EvTags event) in
  let isCreator := existsb (fun tag => (Key tag =s? "k") && (Value tag =s? Strconv.Itoa KindProfileMetadata)) (EvTags event) in
  let ownerMasterKey := default "" (List.find (fun v => v ≠s? "") (Value <$> filter (fun tag => Key tag = "p") (EvTags event))) in
  if negb isFirstBuy then ""
  else token_type userDevice event ownerMasterKey NotificationTypeCreatorTokenCreated NotificationTypeContentTokenCreated
         NotificationTypeSomeoneCreatorTokenCreated NotificationTypeSomeoneContentTokenCreated isCreator.

(* src: push-notifications/notification_tokenized_community.go 155-183 [handleTokenizedCommunityEvent] *)
Fixpoint notify_traders (devices : list Event) (event : Event) (relevantEvents : list Event) : M notifications :=
  match devices with
  | [] => mret []
  | device :: devices =>
      notifyType ← (if Kind event =? CustomIONKindTokenizedCommunityAction then handleTokenizedCommunityAction device event
                    else mret (handleTokenizedCommunityCreation device event));
      ns ← (if notifyType ≠s? "" then notify [device] notifyType event relevantEvents else mret []);
      rest ← notify_traders devices event relevantEvents;
      mret (ns ++ rest)
  end.
(* src: push-notifications/notification_tokenized_community.go 144-186 *)
Definition handleTokenizedCommunityEvent (event : Event) (relevantEvents : list Event) : M notifications :=
  devices ← local_devices "" event;
  if (Kind event =? CustomIONKindTokenizedCommunityAction) || (Kind event =? CustomIONKindTokenizedCommunityDefinition)
  then notify_traders devices event relevantEvents else mret [].

(** A topic per language. *)
(* src: push-notifications/notification_system.go 26-28 *)
Definition getAvailableLanguages : list string := ["en"; "zh"; "es"; "fr"; "de"; "ru"].
(* src: push-notifications/notification_system.go 10-24 *)
Definition handleSystemEvent (event : Event) : list (Notification string) :=
  (fun language => MkNotification {["event" := event_String event]} ("system_" +:+ language) "" "" "" event) <$> getAvailableLanguages.

(** *** From an event to its notifications *)

(* src: push-notifications/pushnotifications.go 666-668 *)
Definition shouldSkipEphemeralEvent (event : Event) : bool := (Kind event =? KindGiftWrap) || (Kind event =? CustomIONSystemMessage).

(** The last event of every kind. *)
(* src: push-notifications/pushnotifications.go 1090-1103 [getAuthoritativeEvents] *)
Definition authoritative_event (st : bool * option Event * option Event) (item : Event + error) : outcome (bool * option Event * option Event) :=
  let '(relay, profile, attestation) := st in
  match item with
  | inr e => Err e
  | inl ev =>
      Ok (if Kind ev =? KindRelayListMetadata then (true, profile, attestation)
          else if Kind ev =? KindProfileMetadata then (relay, Some ev, attestation)
          else if Kind ev =? CustomIONKindAttestation then (relay, profile, Some ev)
          else st)
  end.

(* src: push-notifications/pushnotifications.go 1062-1106 *)
Definition getAuthoritativeEvents (event : Event) : M (bool * option Event * option Event) :=
  let masterPubKey := GetMasterPublicKey event in
  let relayTag := TagMap_Set ∅ "r" [Some relayURL] in
  let relayTag := match url_without_port relayURL with Some u => TagMap_Append relayTag "r" [Some u] | None => relayTag end in
  items ← stored
    [MkFilter None (Some [KindRelayListMetadata]) (Some [masterPubKey]) None (Some relayTag) None None 1 "";
     MkFilter None (Some [KindProfileMetadata]) (Some [masterPubKey]) None None None None 1 "";
     MkFilter None (Some [CustomIONKindAttestation]) (Some [masterPubKey]) None (Some (TagMap_Set ∅ "p" [Some (PubKey event)])) None None 1 ""];
  lift_st (for_state items (false, None, None) authoritative_event).

(** The content [null] is a nil pointer. *)
(* src: push-notifications/pushnotifications.go 762-772 *)
Definition shouldProcessGenericRepostEvent (event : Event) : outcome bool :=
  match json_event_ptr (Content event) with
  | None => Err opaque_error
  | Some repostedEvent =>
      let! repostedEvent := deref repostedEvent in
      Ok ((Kind repostedEvent =? CustomIONKindEditableTextNote) || (Kind repostedEvent =? KindArticle))
  end.

(** The events that let a reader check the author of an event: those sent along, or
    the stored profile and attestation when this relay is the author's. *)
(* src: push-notifications/pushnotifications.go 674-699 [processEvent] *)
Definition relevant_for (event : Event) (relevantEvents : list Event) : M (list Event) :=
  if negb (IsJobResponse event) && is_nil relevantEvents && negb (shouldSkipEphemeralEvent event) then
    a ← getAuthoritativeEvents event;
    match a with
    | (false, _, _) => mret []
    | (true, Some profile, Some attestation) =>
        p ← lift_st (createEphemeralEmbeddingEvent profile None);
        a ← lift_st (createEphemeralEmbeddingEvent attestation None);
        mret [p; a]
    | _ => fail opaque_error
    end
  else mret relevantEvents.

(* src: push-notifications/pushnotifications.go 711-748 [processEvent] *)
Definition handle_kind (event : Event) (relevantEvents : list Event) : M notifications :=
  let k := Kind event in
  if (k =? KindTextNote) || (k =? CustomIONKindEditableTextNote) || (k =? KindGenericRepost) then
    let hTag := GetHTag event in
    if (hTag ≠s? "") && (hTag ≠s? ID event) then handleCommunityMessageEvent event relevantEvents
    else if ((k =? KindTextNote) && negb (is_nil (GetTag event "q")))
         || ((k =? CustomIONKindEditableTextNote) && negb (is_nil (GetTag event CustomIONTagAddressableQ)))
    then handleQuoteEvent event relevantEvents
    else if k =? KindGenericRepost then handleEventWithPublicKey event NotificationTypeRepost relevantEvents
    else if (k =? CustomIONKindEditableTextNote) && ((Value (GetTag event "expiration") ≠s? "") || (Value (GetTag event "p") =s? ""))
    then handleNewPostEvent event relevantEvents
    else handleMentionReplyEvent event relevantEvents
  else if k =? KindArticle then handleNewPostEvent event relevantEvents
  else if k =? CustomIONKindDVMJobResponsePriceChange then handleNewDVMEvent event relevantEvents
  else if k =? KindReaction then handleEventWithPublicKey event NotificationTypeReaction relevantEvents
  else if k =? KindGiftWrap then handleGiftWrapEvent event
  else if (k =? CustomIONKindTokenizedCommunityDefinition) || (k =? CustomIONKindTokenizedCommunityAction)
  then handleTokenizedCommunityEvent event relevantEvents
  else if k =? KindFollowList then handleNewFollowerEvent event relevantEvents
  else if k =? CustomIONKindFundSendNotify then handleAnonymousFundSendEvent event relevantEvents
  else mret [].

(* src: push-notifications/pushnotifications.go 670-760 *)
Definition processEvent (event : Event) (relevantEvents : list Event) : M notifications :=
  relevantEvents ← relevant_for event relevantEvents;
  go_on ← lift_st (if Kind event =? KindGenericRepost then shouldProcessGenericRepostEvent event else Ok true);
  if (go_on : bool) then handle_kind event relevantEvents else mret [].

(** Events in turn; the first error is the error of the batch. *)
(* src: push-notifications/pushnotifications.go 634-661 [collectNotifications] *)
Fixpoint collect_all (ephemeralByRef : gmap string (list EphemeralEmbeddingEvent)) (events : list Event) :
    M (notifications * list (Notification string)) :=
  match events with
  | [] => mret ([], [])
  | event :: events =>
      if (Kind event =? CustomIONKindEphemeralEmbedding) || negb (bool_decide (Kind event ∈ allowedPushEventKinds))
      then collect_all ephemeralByRef events
      else
        let topics := if Kind event =? CustomIONSystemMessage then handleSystemEvent event else [] in
        let relevantEvents := if shouldSkipEphemeralEvent event then []
                              else EmbeddingEvent <$> default [] (ephemeralByRef !! Address event) in
        ns ← processEvent event relevantEvents;
        rest ← collect_all ephemeralByRef events;
        mret (ns ++ rest.1, topics ++ rest.2)
  end.
(* src: push-notifications/pushnotifications.go 622-664 *)
Definition collectNotifications (events : list Event) : M (notifications * list (Notification string)) :=
  match ParseEphemeralEmbeddingEvents events with
  | Ok m => collect_all m events
  | Err _ => collect_all ∅ events
  | Panic => lift_st Panic
  | OutOfFuel => lift_st OutOfFuel
  end.

(** *** Sending *)

Definition record (f : PushStats -> PushStats) : M unit :=
  step (fun pm => MkManager (devicesFilterIndex pm) (devicesEventMap pm) (f (stats pm)) (outer pm)).
(** A call of the client. *)
Definition client_call (f : W -> W * option pnError) : M (option pnError) := fun pm =>
  let '(w, r) := f (outer pm) in (with_outer pm w, Ok r).

(** The errors of the tasks and the devices whose token is refused. *)
(* src: push-notifications/pushnotifications.go 799-824 [sendNotificationsAsync] *)
Fixpoint send_singles (ns : notifications) : M (list error * list Event) :=
  match ns with
  | [] => mret ([], [])
  | n :: ns =>
      submitted ← attempt_st (outside Submit);
      match submitted with
      | inr e => rest ← send_singles ns; mret (e :: rest.1, rest.2)
      | inl _ =>
          r ← client_call (SendSingle n);
          match r with
          | Some e =>
              record (fun s => RecordError s (SourceEvent n) (Some e)) ;;
              rest ← send_singles ns;
              mret (if IsInvalidDeviceTokenError e then (rest.1, Target n :: rest.2) else (opaque_error :: rest.1, rest.2))
          | None => record (fun s => RecordSuccess s (SourceEvent n)) ;; send_singles ns
          end
      end
  end.
(* src: push-notifications/pushnotifications.go 826-841 [sendNotificationsAsync] *)
Fixpoint send_topics (ns : list (Notification string)) : M (list error) :=
  match ns with
  | [] => mret []
  | n :: ns =>
      submitted ← attempt_st (outside Submit);
      match submitted with
      | inr e => rest ← send_topics ns; mret (e :: rest)
      | inl _ =>
          r ← client_call (SendTopic n);
          record (fun s => match r with Some e => RecordError s (SourceEvent n) (Some e) | None => RecordSuccess s (SourceEvent n) end) ;;
          rest ← send_topics ns;
          mret (match r with Some _ => opaque_error :: rest | None => rest end)
      end
  end.
(* src: push-notifications/pushnotifications.go 789-845 *)
Definition sendNotificationsAsync (singles : notifications) (topics : list (Notification string)) : M (list error * list Event) :=
  r ← send_singles singles;
  errs ← send_topics topics;
  mret (r.1 ++ errs, r.2).

(* src: push-notifications/pushnotifications.go 866-877 *)
Definition handleInvalidDeviceTokens (deviceEvents : list Event) : M unit :=
  if is_nil deviceEvents then mret ()
  else
    outside (MarkTokenAsInvalidInEventTags deviceEvents) ;;
    removeInvalidTokenDevicesFromCache xxh3 deviceEvents.

Definition join_errors (errs : list error) : option error :=
  match errs with [] => None | e :: es => Some (fold_left join_error es e) end.
(* src: push-notifications/pushnotifications.go 847-864 *)
Definition collectErrorsAndProcessInvalidDevices (receivedErrors : list error) (invalidDevices : list Event) : M unit :=
  r ← (if is_nil invalidDevices then mret (inl ()) else attempt_st (handleInvalidDeviceTokens invalidDevices));
  match join_errors (receivedErrors ++ match r with inr e => [e] | inl _ => [] end) with
  | None => mret ()
  | Some e => fail e
  end.

(* src: push-notifications/pushnotifications.go 774-787 *)
Definition sendNotifications (singles : notifications) (topics : list (Notification string)) : M unit :=
  if is_nil singles && is_nil topics then mret ()
  else
    r ← sendNotificationsAsync singles topics;
    collectErrorsAndProcessInvalidDevices r.1 r.2.

(** *** Batches of events *)

(* src: push-notifications/pushnotifications.go 610-620 [AcceptEvents] *)
Definition notify_batch (events : list Event) : M unit :=
  if is_nil events then mret ()
  else ns ← collectNotifications events; sendNotifications ns.1 ns.2.

(** The identifier of a batch of another relay. *)
(* src: push-notifications/pushnotifications.go 467-496 *)
Definition AcceptEventsFromBroadcast (events : list Event) : M unit :=
  match events with
  | [] => mret ()
  | first :: _ =>
      let lTag := GetTag first "l" in
      let batchID := match lTag with
                     | _ :: _ :: ns :: _ => if ns =s? "push-notification.broadcasting.tracing.id" then Value lTag else ""
                     | _ => ""
                     end in
      outside (PushJobs [UserNotification batchID events])
  end.

(* src: push-notifications/pushnotifications.go 561-579 *)
Definition AcceptEventsForBroadcast (events : list Event) : M unit :=
  if is_nil events then mret () else outside (PushJobs [RelayFinder (events_Hash events) events]).

(** The devices of other relays that an event is for. *)
(* src: push-notifications/pushnotifications.go 503-521 [AcceptEventsForRemotePush] *)
Definition remote_devices (pm : PushNotificationManager W) (events : list Event) : list Event :=
  concat (map (fun event => if IsEphemeral event then [] else collectRemoteDevices pm "" event) events).

(** The task that is submitted; an error of the queue is logged. *)
(* src: push-notifications/pushnotifications.go 499-557 [AcceptEventsForRemotePush] *)
Definition remote_push (events : list Event) : M unit :=
  devices ← gets (fun pm => remote_devices pm events);
  let uniqueRelays := compactRelays (concat (map (fun d => collectRelaysFromDevice d) devices)) [relayURL] in
  if is_nil uniqueRelays || is_nil devices then mret ()
  else
    let batchID := events_Hash events in
    packedEvents ← lift_st (packEventsForBroadcast events batchID);
    attempt_st (outside (PushJobs ((fun r => Broadcast r batchID packedEvents) <$> uniqueRelays))) ;;
    mret ().
(* src: push-notifications/pushnotifications.go 498-559 *)
Definition AcceptEventsForRemotePush (events : list Event) : M unit :=
  outside Submit ;; remote_push events.

(** Every step is tried; the errors are joined. *)
(* src: push-notifications/pushnotifications.go 457-463 [AcceptEvents] *)
Fixpoint try_all (ms : list (M unit)) (errs : list error) : M unit :=
  match ms with
  | [] => match join_errors errs with None => mret () | Some e => fail e end
  | m :: ms => r ← attempt_st m; try_all ms (match r with inl _ => errs | inr e => errs ++ [e] end)
  end.
(* src: push-notifications/pushnotifications.go 445-465 [AcceptEvents] *)
Definition AcceptEvents (events : list Event) : M unit :=
  let hasNonEphemeralEvent := existsb (fun e => negb (Kind e =? CustomIONKindEphemeralEmbedding)) events in
  if negb hasNonEphemeralEvent && negb (is_nil events) then AcceptEventsFromBroadcast events
  else try_all [notify_batch events; AcceptEventsForBroadcast events; AcceptEventsForRemotePush events;
                ManageDeviceRegistrationEvents xxh3 relayURL events] [].

(** *** Jobs *)

(* src: push-notifications/broadcaster_relay_finder.go 36-58 [Filter] *)
Definition broadcast_kind (event : Event) : bool :=
  if negb (bool_decide (Kind event ∈ allowedBroadcastKinds)) then false
  else if Kind event =? CustomIONKindTokenizedCommunityDefinition then Value (GetTag event "p") ≠s? ""
  else if Kind event =? KindGenericRepost then
    match Strconv.ParseInt (Value (GetTag event "k")) 16 with
    | None => false
    | Some k => (k =? CustomIONKindEditableTextNote) || (k =? KindArticle)
    end
  else true.
(* src: push-notifications/broadcaster_relay_finder.go 33-63 [Filter] *)
Definition broadcast_filter (events : list Event) : list Event := filter (fun e => broadcast_kind e = true) events.

(** At most thirty relays of an account. *)
(* src: push-notifications/broadcaster_relay_finder.go 90-118 [Work] *)
Fixpoint relays_of (items : list (Event + error)) : outcome (list string) :=
  match items with
  | [] => Ok []
  | inr e :: _ => Err e
  | inl ev :: items => let! rest := relays_of items in Ok (list.take 30 (CollectRelaysFromRelayEvent ev) ++ rest)
  end.

(* src: push-notifications/broadcaster_relay_finder.go 65-139 [Work] *)
Definition find_relays (batchID : string) (events : list Event) : M unit :=
  let events := broadcast_filter events in
  if is_nil events then mret ()
  else
    masterKeys ← gets (fun pm => concat (map (collectTargetMasterKeys pm) events));
    if is_nil masterKeys then mret ()
    else
      items ← stored [MkFilter None (Some [KindRelayListMetadata]) (Some masterKeys) None None None None (zlen masterKeys) ""];
      relays ← lift_st (relays_of items);
      broadcastEvents ← lift_st (packEventsForBroadcast events batchID);
      outside (PushJobs ((fun r => Broadcast r batchID broadcastEvents) <$> compactRelays relays [relayURL])).

(* src: push-notifications/broadcaster_broadcast.go 32-54 [Work] *)
Definition broadcast_job (relay : string) (events : list Event) : M unit := outside (BroadcastTo relay events).

(** The events of every device. *)
(* src: push-notifications/broadcaster_user_finder.go 55-70 [Work] *)
Definition add_target (event : Event) (targets : gmap string (Event * list Event)) (device : Event) : gmap string (Event * list Event) :=
  let '(d, evs) := default (device, []) (targets !! PubKey device) in <[PubKey device := (d, evs ++ [event])]> targets.
(* src: push-notifications/broadcaster_user_finder.go 30-85 [Work] *)
Definition find_users (batchID : string) (ephemeralEvents : list Event) : M unit :=
  let decodedEvents := omap (fun ev => UnmarshalJSON (Content ev)) ephemeralEvents in
  if is_nil decodedEvents then mret ()
  else
    targets ← gets (fun pm => fold_left (fun ts event => fold_left (add_target event) (collectLocalDevices pm "" event) ts) decodedEvents ∅);
    outside (PushJobs (omap (fun key => (fun t : Event * list Event => PushNotification (Some t.1) (GetMasterPublicKey t.1) batchID t.2) <$> targets !! key)
      (range_set (dom targets)))).

(** What is for other devices is left out. *)
(* src: push-notifications/broadcaster_user_notifier.go 40-87 [Work] *)
Definition notify_user (device : option Event) (events : list Event) : M unit :=
  if is_nil events then mret ()
  else
    ns ← collectNotifications events;
    let singles := match device with
                   | Some device => filter (fun n => PubKey (Target n) = PubKey device) ns.1
                   | None => ns.1
                   end in
    if is_nil singles then mret () else sendNotifications singles ns.2.

(** A job of the queue is one step. *)
Definition work (j : job) : M unit :=
  match j with
  | RelayFinder batch events => find_relays batch events
  | Broadcast relay _ events => broadcast_job relay events
  | UserNotification batch events => find_users batch events
  | PushNotification device _ _ events => notify_user device events
  end.
End Push.
