(* ===== verification/PushLaws.v ===== *)
(** * Package pushnotifications: which devices are notified

    Theorems about src/push-notifications (files Devices and Push): the registrations
    that are kept, the devices an event finds, the notifications of a batch, and the
    relays events are carried to. *)

From S2P Require Import Prelude GoStd Nostr Model Filters Matcher Content Validator TagRules Community Validate QueryFilter QueryBuilder Selection Fcm Devices Push.
Import Strings.

(** ** Registrations *)

Section Registrations.
Context {N : Nostr} {G : GoText} {GJ : GoGJSON} {W : Type} {PW : PushWorld W}.
Context (xxh3 : string -> Z) (relayURL : string) (handled : string -> Prop).
(** The keys of the devices that are handled have digests of their own. *)
Hypothesis no_collision : forall k1 k2, handled k1 -> handled k2 -> xxh3 k1 = xxh3 k2 -> k1 = k2.

Lemma maintains_pm_gets (P : PushNotificationManager W -> Prop) {A} (f : PushNotificationManager W -> A) : maintains P (gets f).
Proof. by intros pm. Qed.
Lemma maintains_pm_outside (P : PushNotificationManager W -> Prop) {A} (m : ST W A) :
  (forall pm w, P pm -> P (with_outer pm w)) -> maintains P (outside m).
Proof. intros Hi pm Hp. unfold outside. destruct (m (outer pm)). by apply Hi. Qed.
Lemma maintains_each (P : PushNotificationManager W -> Prop) {A} (l : list A) (f : A -> ST (PushNotificationManager W) unit) :
  (forall x, maintains P (f x)) -> maintains P (each l f).
Proof. intros Hf. induction l as [|x l IH]; cbn [each]; maintain. Qed.

(** A registration this relay serves. *)
Definition current (d : deviceInfo) : Prop :=
  exists master device, notificationTarget (DEvent d) = (master, device, Remote d) /\ master ≠ "" /\ device ≠ "" /\
    FiltersWithData_UnmarshalJSON gjson_array json_filter json_event_ptr (MkFiltersWithData [] []) (Content (DEvent d)) = Ok (DFilters d) /\
    (Remote d = false -> CompareRelaysURLs (Value (GetTag (DEvent d) "relay")) relayURL = true).

Abbreviation registry := (gmap Z (list Filter * deviceInfo)).
Abbreviation by_key m k := (m !! (deviceIndexKeyTypeDeviceKey, k)).
Abbreviation by_id m id := (m !! (deviceIndexKeyTypeEventID, id)).

(** The index and the map agree: a device is indexed under its key with the filters
    of the event that is kept for the key. *)
Record registered (pm : PushNotificationManager W) (reg : registry) : Prop := {
  reg_index : implemented (devicesFilterIndex pm) reg;
  reg_values : forall h fs d, reg !! h = Some (fs, d) ->
    h = device_hash xxh3 d /\ fs = FiltersOf (DFilters d) /\ current d /\
    by_key (devicesEventMap pm) (calcDeviceKey (DEvent d)) = Some (DEvent d);
  reg_keys : forall k e, by_key (devicesEventMap pm) k = Some e ->
    calcDeviceKey e = k /\ handled k /\ exists d, reg !! xxh3 k = Some (FiltersOf (DFilters d), d) /\ DEvent d = e;
  reg_ids : forall id e, by_id (devicesEventMap pm) id = Some e ->
    ID e = id /\ by_key (devicesEventMap pm) (calcDeviceKey e) = Some e
}.

Lemma registered_outside pm pm' reg : devicesFilterIndex pm' = devicesFilterIndex pm -> devicesEventMap pm' = devicesEventMap pm ->
  registered pm reg -> registered pm' reg.
Proof. intros Hi Hm [H1 H2 H3 H4]. split; rewrite ?Hi, ?Hm; done. Qed.

(** What is deleted with a device. *)
Definition forget (m : gmap (string * string) Event) (id k : string) (old : option Event) : gmap (string * string) Event :=
  let m := delete (deviceIndexKeyTypeDeviceKey, k) (delete (deviceIndexKeyTypeEventID, id) m) in
  match old with Some e => delete (deviceIndexKeyTypeEventID, ID e) m | None => m end.

Lemma forget_key m id k old k' : by_key (forget m id k old) k' = if decide (k = k') then None else by_key m k'.
Proof.
  unfold forget. destruct old; rewrite ?(lookup_delete_ne _ (deviceIndexKeyTypeEventID, _)) by done.
  all: case_decide as Hk; [subst; apply lookup_delete_eq|rewrite lookup_delete_ne by congruence; by rewrite lookup_delete_ne].
Qed.
Lemma forget_id m id k old id' e : by_id (forget m id k old) id' = Some e ->
  by_id m id' = Some e /\ id ≠ id' /\ forall o, old = Some o -> ID o ≠ id'.
Proof.
  unfold forget. destruct old as [o|]; rewrite ?lookup_delete_Some.
  - intros (Ho & _ & Hid & He). split_and!; [done|congruence|]. intros o' [= <-]. congruence.
  - intros (_ & Hid & He). split_and!; [done|congruence|done].
Qed.

(** A state with the same devices and statistics. *)
Definition same_devices (pm pm' : PushNotificationManager W) : Prop :=
  devicesFilterIndex pm' = devicesFilterIndex pm /\ devicesEventMap pm' = devicesEventMap pm /\ stats pm' = stats pm.
Lemma unsubscribe_same k di pm : same_devices pm (unsubscribe k di pm).1.
Proof.
  assert (Hk : maintains (same_devices pm) (unsubscribe k di)); [|by apply Hk].
  unfold unsubscribe. destruct (Remote di); [maintain|]. apply maintains_each. intros ev. maintain. by apply maintains_pm_outside.
Qed.
Lemma subscribe_same k data pm : same_devices pm (subscribe k data pm).1.
Proof.
  assert (Hk : maintains (same_devices pm) (subscribe k data)); [|by apply Hk].
  apply maintains_each. intros ev. maintain. by apply maintains_pm_outside.
Qed.

Lemma registered_forget pm reg e s : registered pm reg -> handled (calcDeviceKey e) ->
  implemented s (delete (xxh3 (calcDeviceKey e)) reg) ->
  forall pm', devicesFilterIndex pm' = s ->
    devicesEventMap pm' = forget (devicesEventMap pm) (ID e) (calcDeviceKey e) (by_key (devicesEventMap pm) (calcDeviceKey e)) ->
    registered pm' (delete (xxh3 (calcDeviceKey e)) reg).
Proof.
  intros [Hi Hv Hk Hid] He Hs pm' Hpi Hpm. split; rewrite ?Hpi, ?Hpm; [done| | |].
  - intros h fs d [Hne Hd]%lookup_delete_Some. destruct (Hv h fs d Hd) as (-> & -> & Hc & Hm). split_and!; [done..|].
    rewrite forget_key, decide_False; [done|]. intros Heq. apply Hne. unfold device_hash. by rewrite Heq.
  - intros k o. rewrite forget_key. case_decide as Hne; [done|]. intros Ho. destruct (Hk k o Ho) as (Hkey & Hh & d & Hd & <-).
    split_and!; [done..|]. exists d. split; [|done]. rewrite lookup_delete_ne; [done|]. intros Heq. by apply Hne, no_collision.
  - intros id o (Ho & Hne & Hold)%forget_id. destruct (Hid id o Ho) as [Hio Hko]. split; [done|].
    rewrite forget_key. case_decide as Heq; [|done]. rewrite Heq in Hold. by destruct (Hold o Hko).
Qed.

(** Removing a device: the map forgets its key, and so does the index. *)
Lemma remove_registered pm reg e : registered pm reg -> handled (calcDeviceKey e) ->
  registered (removeDeviceFromCache xxh3 e pm).1 (delete (xxh3 (calcDeviceKey e)) reg).
Proof.
  intros Hr He. pose proof Hr as [Hi Hv Hk Hid]. pose proof (registered_forget pm reg e) as Hf.
  destruct (StorageRemoveByHash_implemented _ reg (xxh3 (calcDeviceKey e)) Hi) as (s & Hs & Hs').
  unfold removeDeviceFromCache. cbv [mbind ST_bind step gets]. cbn [devicesEventMap with_map].
  rewrite (lookup_delete_ne _ (deviceIndexKeyTypeEventID, _)) by done.
  destruct (devicesEventMap pm !! (deviceIndexKeyTypeDeviceKey, calcDeviceKey e)) as [o|] eqn:Ho.
  - destruct (Hk _ _ Ho) as (Hko & _ & d & Hd & Hdo). cbn [devicesFilterIndex with_map]. unfold lift_st, device_hash. cbn [DEvent]. rewrite Hko, Hs.
    rewrite Hd. cbn [fmap option_fmap option_map fst snd].
    match goal with |- registered (unsubscribe ?k ?di ?st).1 _ => destruct (unsubscribe_same k di st) as (H1 & H2 & _) end.
    apply (Hf s Hr He Hs'); [by rewrite H1|by rewrite H2].
  - assert (delete (xxh3 (calcDeviceKey e)) reg = reg) as Hdel.
    { apply delete_id. destruct (reg !! _) as [[fs d]|] eqn:Hd; [|done]. destruct (Hv _ _ _ Hd) as (Heq & _ & _ & Hm).
      assert (handled (calcDeviceKey (DEvent d))) as Hh by (by destruct (Hk _ _ Hm) as (_ & ? & _)).
      apply no_collision in Heq; [|done..]. rewrite <- Heq in Hm. by rewrite Ho in Hm. }
    rewrite Hdel in Hf |- *. by apply (Hf (devicesFilterIndex pm) Hr He Hi).
Qed.

(** A registration that is kept: its key is new in the index and in the map. *)
Lemma insert_registered pm reg e d index : registered pm reg -> handled (calcDeviceKey e) -> DEvent d = e -> current d ->
  reg !! xxh3 (calcDeviceKey e) = None ->
  StorageIndex (device_hash xxh3) (devicesFilterIndex pm) (FiltersOf (DFilters d)) d = Ok index ->
  forall pm', devicesFilterIndex pm' = index ->
    devicesEventMap pm' = <[(deviceIndexKeyTypeDeviceKey, calcDeviceKey e) := e]> (<[(deviceIndexKeyTypeEventID, ID e) := e]> (devicesEventMap pm)) ->
    registered pm' (<[xxh3 (calcDeviceKey e) := (FiltersOf (DFilters d), d)]> reg).
Proof.
  intros [Hi Hv Hk Hid] He Hd Hc Hnew Hindex pm' Hpi Hpm.
  destruct (StorageIndex_implemented (device_hash xxh3) _ reg (FiltersOf (DFilters d)) d Hi) as (s & Hs & Hs').
  assert (s = index) as -> by congruence. unfold device_hash in Hs' at 1. rewrite Hd in Hs'.
  assert (Hother : forall k o, by_key (devicesEventMap pm) k = Some o -> k ≠ calcDeviceKey e).
  { intros k o Ho ->. destruct (Hk _ _ Ho) as (_ & _ & d' & Hd' & _). by rewrite Hnew in Hd'. }
  split; rewrite ?Hpi, ?Hpm; [done| | |].
  - intros h fs d' [[<- [= <- <-]]|[Hne Hd']]%lookup_insert_Some.
    + unfold device_hash. rewrite Hd. split_and!; [done..|]. by rewrite lookup_insert_eq.
    + destruct (Hv _ _ _ Hd') as (-> & -> & Hc' & Hm). split_and!; [done..|].
      rewrite lookup_insert_ne; [by rewrite lookup_insert_ne|]. intros [= Heq]. by apply (Hother _ _ Hm).
  - intros k o [[[= <-] <-]|[Hne Ho]]%lookup_insert_Some.
    + split_and!; [done..|]. exists d. by rewrite lookup_insert_eq.
    + rewrite lookup_insert_ne in Ho by done. destruct (Hk _ _ Ho) as (Hko & Hh & d' & Hd' & Hdo). split_and!; [done..|].
      exists d'. split; [|done]. rewrite lookup_insert_ne; [done|]. intros Heq. rewrite Heq in Hnew. by rewrite Hnew in Hd'.
  - intros id o. rewrite lookup_insert_ne by done. intros [[[= <-] <-]|[Hne Ho]]%lookup_insert_Some.
    + by rewrite lookup_insert_eq.
    + destruct (Hid _ _ Ho) as [Hio Hko]. split; [done|]. rewrite lookup_insert_ne; [by rewrite lookup_insert_ne|].
      intros [= Heq]. by apply (Hother _ _ Hko).
Qed.

Lemma process_registered pm reg e : registered pm reg -> handled (calcDeviceKey e) ->
  exists reg', registered (processDeviceRegistrationEvent xxh3 relayURL e pm).1 reg'.
Proof.
  intros Hr He. pose proof (remove_registered pm reg e Hr He) as Hrem. unfold processDeviceRegistrationEvent.
  destruct (notificationTarget e) as [[master device] remote] eqn:Ht.
  destruct (String.eqb_spec master "") as [|Hm]; [by exists reg|]. destruct (String.eqb_spec device "") as [|Hdev]; [by exists reg|]. cbn [orb].
  unfold mbind at 1, ST_bind at 1, lift_st at 1. destruct (FiltersWithData_UnmarshalJSON _ _ _ _ _) as [filters|x| |] eqn:Hf; [|by exists reg..].
  unfold mbind at 1, ST_bind at 1. destruct (removeDeviceFromCache xxh3 e pm) as [pm1 r] eqn:Hpm1. cbn [fst] in Hrem.
  destruct r; [|by eexists..]. destruct (negb remote && _) eqn:Hrel; [by eexists|].
  unfold mbind at 1, ST_bind at 1.
  assert (Hs : same_devices pm1 ((if remote then mret () else subscribe (calcDeviceKey e) (DataOf filters)) pm1).1)
    by (destruct remote; [done|apply subscribe_same]).
  destruct ((if remote then mret () else subscribe (calcDeviceKey e) (DataOf filters)) pm1) as [pm2 r2]. cbn [fst] in Hs. destruct Hs as (Hs1 & Hs2 & _).
  apply (registered_outside pm1 pm2) in Hrem; [|done..].
  destruct r2; [|by eexists..]. cbv [mbind ST_bind step gets lift_st]. cbn [devicesFilterIndex with_map].
  destruct (StorageIndex_implemented (device_hash xxh3) _ _ (FiltersOf filters) (MkDevice e filters remote) (reg_index _ _ Hrem)) as (index & Hindex & _).
  rewrite Hindex. eexists. eapply (insert_registered pm2 _ e (MkDevice e filters remote) index Hrem He); cbn; [done| |apply lookup_delete_eq|done..].
  exists master, device. split_and!; [done..|]. intros Hremote. cbn in Hremote. rewrite Hremote in Hrel. by apply negb_false_iff in Hrel.
Qed.

(** Whatever a run of these ends in, the key is forgotten or is the event's. *)
Lemma remove_key e pm : by_key (devicesEventMap (removeDeviceFromCache xxh3 e pm).1) (calcDeviceKey e) = None.
Proof.
  unfold removeDeviceFromCache. cbv [mbind ST_bind step gets lift_st]. cbn [devicesEventMap with_map].
  rewrite (lookup_delete_ne _ (deviceIndexKeyTypeEventID, _)) by done.
  destruct (by_key (devicesEventMap pm) (calcDeviceKey e)) as [o|]; cbn [fst devicesEventMap with_map]; [|by apply lookup_delete_eq].
  assert (Hgone : forall m : gmap (string * string) Event, by_key (delete (deviceIndexKeyTypeEventID, ID o) (delete (deviceIndexKeyTypeDeviceKey, calcDeviceKey e) m)) (calcDeviceKey e) = None)
    by (intros m; by rewrite lookup_delete_ne, lookup_delete_eq).
  destruct (StorageRemoveByHash _ _) as [[index [di|]]|x| |]; cbn [fst snd devicesEventMap with_map with_index]; try apply Hgone.
  match goal with |- context [(unsubscribe ?k ?d ?st).1] => destruct (unsubscribe_same k d st) as (_ & -> & _) end. apply Hgone.
Qed.
Lemma process_key e pm pm' : processDeviceRegistrationEvent xxh3 relayURL e pm = (pm', Ok ()) ->
  by_key (devicesEventMap pm') (calcDeviceKey e) = None \/ by_key (devicesEventMap pm') (calcDeviceKey e) = Some e.
Proof.
  unfold processDeviceRegistrationEvent. destruct (notificationTarget e) as [[master device] remote].
  destruct (_ || _); [done|]. intros (pm1 & filters & [= <- _] & Hpm)%bind_st_Ok. apply bind_st_Ok in Hpm as (pm2 & [] & Hrem & Hpm).
  pose proof (remove_key e pm) as Hk. rewrite Hrem in Hk. cbn [fst] in Hk.
  destruct (_ && _); [injection Hpm as <-; by left|]. right.
  apply bind_st_Ok in Hpm as (pm3 & [] & _ & Hpm). revert Hpm. cbv [mbind ST_bind step gets lift_st]. cbn [devicesEventMap with_map].
  destruct (StorageIndex _ _ _ _); [|done..]. intros [= <-]. cbn. by rewrite lookup_insert_eq.
Qed.

(** The registrations are in order. *)
Definition serves (pm : PushNotificationManager W) : Prop := exists reg, registered pm reg.

Lemma serves_same pm pm' : same_devices pm pm' -> serves pm -> serves pm'.
Proof. intros (H1 & H2 & _) [reg Hr]. exists reg. by apply (registered_outside pm). Qed.
Lemma serves_remove e pm : serves pm -> serves (removeDeviceFromCache xxh3 e pm).1.
Proof.
  intros [reg Hr]. destruct (by_key (devicesEventMap pm) (calcDeviceKey e)) as [o|] eqn:Ho.
  - destruct (reg_keys _ _ Hr _ _ Ho) as (_ & Hh & _). eexists. by apply remove_registered.
  - exists reg. destruct Hr as [Hi Hv Hk Hid].
    assert (Hs : same_devices (with_map pm (forget (devicesEventMap pm) (ID e) (calcDeviceKey e) None)) (removeDeviceFromCache xxh3 e pm).1).
    { unfold removeDeviceFromCache. cbv [mbind ST_bind step gets]. cbn [devicesEventMap with_map].
      rewrite (lookup_delete_ne _ (deviceIndexKeyTypeEventID, _)) by done. by rewrite Ho. }
    destruct Hs as (Hs1 & Hs2 & _). split; rewrite ?Hs1, ?Hs2; cbn [devicesFilterIndex devicesEventMap with_map]; [done| | |].
    + intros h fs d Hd. destruct (Hv _ _ _ Hd) as (-> & -> & Hc & Hm). split_and!; [done..|]. rewrite forget_key, decide_False; [done|]. intros Heq. by rewrite Heq, Hm in Ho.
    + intros k o. rewrite forget_key. case_decide; [done|apply Hk].
    + intros id o (Hio & _)%forget_id. destruct (Hid _ _ Hio) as [? Hko]. split; [done|]. rewrite forget_key, decide_False; [done|]. intros Heq. by rewrite Heq, Hko in Ho.
Qed.
Lemma serves_process e pm : handled (calcDeviceKey e) -> serves pm -> serves (processDeviceRegistrationEvent xxh3 relayURL e pm).1.
Proof. intros He [reg Hr]. by eapply process_registered. Qed.

Lemma maintains_serves_remove e : maintains serves (removeDeviceFromCache xxh3 e). Proof. intros pm. apply serves_remove. Qed.
Lemma maintains_serves_outside {A} (m : ST W A) : maintains serves (outside m).
Proof. apply maintains_pm_outside. intros pm w. by apply serves_same. Qed.
(** *** Lookups *)

Lemma until_collects {V} (vs acc : list V) : until_stopped vs (fun acc d => (acc ++ [d], true)) acc = acc ++ vs.
Proof. revert acc. induction vs as [|v vs IH]; intros acc; cbn; [by rewrite List.app_nil_r|]. by rewrite IH, <- List.app_assoc. Qed.
Lemma found_devices_found (pm : PushNotificationManager W) event : found_devices pm event = found (devicesFilterIndex pm) event.
Proof. unfold found_devices. by rewrite StorageLookup_found, until_collects. Qed.

(** The account or the device a key names. *)
Definition owned (pubKey : string) (e : Event) : Prop := pubKey = "" \/ GetMasterPublicKey e = pubKey \/ PubKey e = pubKey.

(** A device that is served and whose filters match the event. *)
Definition interested (pm : PushNotificationManager W) (remote : bool) (event : Event) (d : deviceInfo) : Prop :=
  by_key (devicesEventMap pm) (calcDeviceKey (DEvent d)) = Some (DEvent d) /\ current d /\ Remote d = remote /\
  FiltersMatch (FiltersOf (DFilters d)) event "" "" = true.

(** The filters of the devices, for an event: the index finds all that match. *)
Definition indexable (pm : PushNotificationManager W) (event : Event) : Prop :=
  event_kind event /\ forall d f, by_key (devicesEventMap pm) (calcDeviceKey (DEvent d)) = Some (DEvent d) -> current d ->
    f ∈ FiltersOf (DFilters d) -> uniform_tags f /\ own_keys_only f event "" "".

Lemma collected_interested pm pubKey remote event e : serves pm -> e ∈ collectUserDevices pm pubKey remote event ->
  exists d, DEvent d = e /\ owned pubKey e /\ interested pm remote event d.
Proof.
  intros [reg Hr]. unfold collectUserDevices. rewrite list_elem_of_fmap. intros (d & -> & Hd). apply list_elem_of_filter in Hd as [[[Ho Hrem] Hm] Hd].
  rewrite found_devices_found in Hd. apply (found_spec (device_hash xxh3) _ reg _ _ (reg_index _ _ Hr)) in Hd as (h & [fs d'] & Hd & <- & _).
  destruct (reg_values _ _ Hr _ _ _ Hd) as (_ & _ & Hc & Hk). by exists d'.
Qed.

Lemma current_filters d d' : current d -> current d' -> DEvent d = DEvent d' -> d = d'.
Proof.
  intros (m & dev & Ht & _ & _ & Hf & _) (m' & dev' & Ht' & _ & _ & Hf' & _) He. destruct d, d'; cbn in *. subst. congruence.
Qed.

Lemma interested_collected `{!NostrSpec N} pm pubKey remote event d : serves pm -> indexable pm event ->
  owned pubKey (DEvent d) -> interested pm remote event d -> DEvent d ∈ collectUserDevices pm pubKey remote event.
Proof.
  intros [reg Hr] [Hev Hix] Ho (Hk & Hc & Hrem & Hm). unfold collectUserDevices. apply list_elem_of_fmap. exists d. split; [done|].
  apply list_elem_of_filter. split; [done|]. rewrite found_devices_found. apply (found_spec (device_hash xxh3) _ reg _ _ (reg_index _ _ Hr)).
  destruct (reg_keys _ _ Hr _ _ Hk) as (_ & _ & d' & Hd' & He). destruct (reg_values _ _ Hr _ _ _ Hd') as (_ & _ & Hc' & _).
  rewrite (current_filters d' d Hc' Hc He) in Hd'. eexists _, (FiltersOf (DFilters d), d). split; [exact Hd'|]. split; [done|]. cbn.
  apply (prefilter_complete _ _ "" ""); [done..|]. intros f Hf. by apply (Hix d f).
Qed.
End Registrations.

(** ** Notifications *)

Section Ensures.
Context {S : Type} (P : S -> Prop).
(** A run that keeps a property of the state and whose result, if any, has another. *)
Definition ensures {A} (m : ST S A) (R : A -> Prop) : Prop := forall s, P s -> P (m s).1 /\ forall a, (m s).2 = Ok a -> R a.

Lemma ensures_ret {A} (a : A) (R : A -> Prop) : R a -> ensures (mret a) R.
Proof. intros Ha s Hs. split; [done|]. by intros b [= <-]. Qed.
Lemma ensures_lift {A} (m : outcome A) (R : A -> Prop) : (forall a, m = Ok a -> R a) -> ensures (lift_st m) R.
Proof. by intros Hm s Hs. Qed.
Lemma ensures_bind {A B} (m : ST S A) (k : A -> ST S B) Q R : ensures m Q -> (forall a, Q a -> ensures (k a) R) -> ensures (mbind k m) R.
Proof.
  intros Hm Hk s Hs. destruct (Hm s Hs) as [Hs' Ha]. unfold mbind, ST_bind. destruct (m s) as [s' [a|x| |]]; [by apply Hk; [apply Ha|]|done..].
Qed.
Lemma ensures_weaken {A} (m : ST S A) (Q R : A -> Prop) : ensures m Q -> (forall a, Q a -> R a) -> ensures m R.
Proof. intros Hm HR s Hs. destruct (Hm s Hs) as [? Ha]. eauto. Qed.
Lemma ensures_maintains {A} (m : ST S A) : maintains P m -> ensures m (fun _ => True).
Proof. intros Hm s Hs. split; [by apply Hm|done]. Qed.
End Ensures.

Section Notifications.
Context {N : Nostr} {G : GoText} {J : GoJSON} {R : RichText} {C : Crypto} {E : Env} {T : EventText} {TS : EventTextSpec} {GJ : GoGJSON} {X : PushText}.
Context {W : Type} {PW : PushWorld W} {PC : PushClient W}.
Context (relayURL privateKey : string) (global : eventValidator).
Context (pm0 : PushNotificationManager W).
Abbreviation same := (same_devices pm0).

(** Notifications of an event, for devices with a property. *)
Definition notifies (event : Event) (Q : Event -> Prop) (ns : list (Notification Event)) : Prop :=
  Forall (fun n => SourceEvent n = event /\ Q (Target n)) ns.

Lemma notifies_app event Q l1 l2 : notifies event Q l1 -> notifies event Q l2 -> notifies event Q (l1 ++ l2).
Proof. apply Forall_app_2. Qed.
Lemma same_outside {A} (m : ST W A) : maintains same (outside m).
Proof. by apply maintains_pm_outside. Qed.
Hint Resolve same_outside maintains_pm_gets : maintains.

Lemma created devices type event relevant ns (Q : Event -> Prop) : createNotifications devices type event relevant = Ok ns ->
  Forall Q devices -> notifies event Q ns.
Proof.
  unfold createNotifications. destruct (is_nil devices); [intros [= <-]; constructor|].
  intros (c & _ & (data & _ & [= <-])%bind_Ok)%bind_Ok HQ. apply Forall_fmap. eapply Forall_impl; [exact HQ|].
  intros d Hd. cbn. unfold notification_for. by destruct (_ =s? _).
Qed.
Lemma ensures_notify devices type event relevant (Q : Event -> Prop) : Forall Q devices ->
  ensures same (notify devices type event relevant) (notifies event Q).
Proof. intros HQ. apply ensures_lift. intros ns Hns. by eapply created. Qed.

Lemma collect_owned (pm : PushNotificationManager W) k event e : e ∈ collectLocalDevices pm k event -> owned k e /\ e ∈ collectLocalDevices pm "" event.
Proof.
  unfold collectLocalDevices, collectUserDevices. rewrite !list_elem_of_fmap. intros (d & -> & [[[Ho Hr] Hm] Hd]%list_elem_of_filter).
  split; [done|]. exists d. split; [done|]. apply list_elem_of_filter. split; [|done]. split; [|done]. split; [by left|done].
Qed.
Lemma same_collect pm k remote event : same pm -> collectUserDevices pm k remote event = collectUserDevices pm0 k remote event.
Proof. intros [Hi _]. unfold collectUserDevices, found_devices. by rewrite Hi. Qed.

(** The local devices of a key whose filters match the event. *)
Definition local_to (k : string) (event e : Event) : Prop := e ∈ collectLocalDevices pm0 "" event /\ owned k e.
Lemma ensures_local k event : ensures same (local_devices k event) (Forall (local_to k event)).
Proof.
  intros pm Hpm. split; [done|]. intros ds [= <-]. unfold collectLocalDevices. rewrite (same_collect pm k false event Hpm).
  apply Forall_forall. intros e He%collect_owned. split; [apply He|apply He].
Qed.

(** To notify the local devices of a key. *)
Lemma ensures_local_notify k type event relevant :
  ensures same (devices ← local_devices k event; notify devices type event relevant) (notifies event (local_to k event)).
Proof. eapply ensures_bind; [apply ensures_local|]. intros ds Hds. by apply ensures_notify. Qed.
Lemma ensures_none event Q : ensures same (mret []) (notifies event Q).
Proof. apply ensures_ret. constructor. Qed.
Lemma ensures_weak event (m : ST (PushNotificationManager W) (list (Notification Event))) (Q Q' : Event -> Prop) :
  ensures same m (notifies event Q) -> (forall d, Q d -> Q' d) -> ensures same m (notifies event Q').
Proof. intros Hm HQ. eapply ensures_weaken; [exact Hm|]. intros ns Hns. eapply Forall_impl; [exact Hns|]. intros n [? ?]. eauto. Qed.

(** *** Handlers *)

(** A key other than the author's that a device answers to. *)
Definition named (event : Event) (k : string) (e : Event) : Prop := k ≠ "" /\ k ≠ GetMasterPublicKey event /\ owned k e.

Lemma with_public_key event type relevant :
  ensures same (handleEventWithPublicKey event type relevant)
    (notifies event (fun d => local_to "" event d /\ named event (Value (GetTag event "p")) d)).
Proof.
  unfold handleEventWithPublicKey. cbv zeta.
  destruct (String.eqb_spec (Value (GetTag event "p")) "") as [|Hp]; [apply ensures_none|].
  destruct (String.eqb_spec (Value (GetTag event "p")) (GetMasterPublicKey event)) as [|Hm]; [apply ensures_none|].
  eapply ensures_weak; [apply ensures_local_notify|]. intros d [Hd Ho]. split; [split; [done|by left]|done].
Qed.

Lemma community_message event relevant :
  ensures same (handleCommunityMessageEvent global event relevant)
    (notifies event (fun d => local_to "" event d /\ named event (Value (GetTag event "p")) d)).
Proof.
  unfold handleCommunityMessageEvent. cbv zeta.
  destruct (String.eqb_spec (Value (GetTag event "p")) "") as [|Hp]; [apply ensures_none|].
  destruct (String.eqb_spec (Value (GetTag event "p")) (GetMasterPublicKey event)) as [|Hm]; [apply ensures_none|].
  eapply ensures_bind; [apply ensures_maintains; maintain|]. intros type _.
  eapply ensures_weak; [apply ensures_local_notify|]. intros d [Hd Ho]. split; [split; [done|by left]|done].
Qed.

Lemma gift_wrap event :
  ensures same (handleGiftWrapEvent event)
    (fun ns => (length ns <= 1)%nat /\ notifies event (fun d => local_to "" event d /\ named event (Value (GetTag event "p")) d /\
      PubKey d = quoted_key (GetTag event "p")) ns).
Proof.
  assert (Hnone : forall Q, ensures same (mret []) (fun ns => (length ns <= 1)%nat /\ notifies event Q ns))
    by (intros Q; apply ensures_ret; split; [cbn; lia|constructor]).
  unfold handleGiftWrapEvent. cbv zeta. destruct (is_nil (GetTag event "k")); [apply Hnone|].
  destruct (Strconv.Atoi _) as [kind|]; [|by apply ensures_lift].
  destruct (is_nil (GetTag event "p")); [apply Hnone|].
  destruct (String.eqb_spec (Value (GetTag event "p")) "") as [|Hp]; [apply Hnone|].
  destruct (String.eqb_spec (Value (GetTag event "p")) (GetMasterPublicKey event)) as [|Hm]; [apply Hnone|]. cbn [orb].
  destruct (GetTag event "p") as [|t0 [|t1 [|t2 [|device t4]]]] eqn:Ht; try apply Hnone. destruct (String.eqb_spec device "") as [|Hdev]; [apply Hnone|].
  eapply ensures_bind; [apply ensures_local|]. intros ds Hds. cbv beta.
  destruct (List.find _ ds) as [d|] eqn:Hfind; [|apply Hnone]. apply find_some in Hfind as [Hd Hpk]. apply String.eqb_eq in Hpk.
  rewrite Forall_forall in Hds. destruct (Hds d) as [Hl Ho]; [by apply list_elem_of_In|].
  apply ensures_lift. intros ns Hns. split.
  - revert Hns. unfold createNotifications. cbn [is_nil]. by intros (c & _ & (data & _ & [= <-])%bind_Ok)%bind_Ok.
  - eapply created; [exact Hns|]. apply Forall_singleton. split; [by split; [|left]|by split; [split|]].
Qed.

Lemma new_post event relevant :
  ensures same (handleNewPostEvent event relevant)
    (notifies event (fun d => local_to "" event d /\ GetMasterPublicKey d ≠ GetMasterPublicKey event)).
Proof.
  unfold handleNewPostEvent. destruct (_ =s? ""); [apply ensures_none|]. eapply ensures_bind; [apply ensures_local|]. intros ds Hds. cbv beta.
  apply ensures_notify. rewrite Forall_forall in Hds |- *. intros d [Hne Hd]%list_elem_of_filter. split; [by apply Hds|].
  apply negb_true_iff in Hne. by apply String.eqb_neq.
Qed.

Lemma mention_reply event relevant : ensures same (handleMentionReplyEvent event relevant) (notifies event (local_to "" event)).
Proof.
  unfold handleMentionReplyEvent. eapply ensures_bind; [apply ensures_maintains; maintain|]. intros keys _.
  generalize (keys ++ (Value <$> GetTags event "p")), (∅ : gset string). clear keys.
  intros keys. induction keys as [|k keys IH]; intros seen; cbn [notify_accounts]; [apply ensures_none|].
  destruct (_ || _); [apply IH|]. eapply ensures_bind; [apply ensures_local|]. intros ds Hds.
  eapply ensures_bind; [apply (ensures_notify _ _ _ _ (local_to "" event))|].
  { eapply Forall_impl; [exact Hds|]. intros d [Hd _]. split; [done|by left]. }
  intros ns Hns. eapply ensures_bind; [apply IH|]. intros rest Hrest. apply ensures_ret. by apply notifies_app.
Qed.

Lemma new_follower event relevant :
  ensures same (handleNewFollowerEvent event relevant)
    (notifies event (fun d => local_to "" event d /\
      exists k, k ∈ GetNewlyFollowedPubkeys event (Previous event) /\ k ≠ GetMasterPublicKey event /\ owned k d)).
Proof.
  unfold handleNewFollowerEvent.
  assert (Hin : Forall (fun k => k ∈ GetNewlyFollowedPubkeys event (Previous event)) (range_set (GetNewlyFollowedPubkeys event (Previous event)))).
  { apply Forall_forall. intros k. rewrite range_set_perm. by rewrite elem_of_elements. }
  induction Hin as [|k keys Hk _ IH]; cbn [notify_followed]; [apply ensures_none|].
  eapply ensures_bind; [|intros ns Hns; eapply ensures_bind; [apply IH|]; intros rest Hrest; apply ensures_ret; by apply notifies_app].
  unfold createNewFollowerNotification. destruct (String.eqb_spec k (GetMasterPublicKey event)) as [|Hne]; [apply ensures_none|].
  eapply ensures_weak; [apply ensures_local_notify|]. intros d [Hd Ho]. split; [split; [done|by left]|eauto].
Qed.

Lemma tokenized event relevant : ensures same (handleTokenizedCommunityEvent event relevant) (notifies event (local_to "" event)).
Proof.
  unfold handleTokenizedCommunityEvent. eapply ensures_bind; [apply ensures_local|]. intros ds Hds.
  destruct (_ || _); [|apply ensures_none]. induction Hds as [|d ds Hd _ IH]; cbn [notify_traders]; [apply ensures_none|].
  eapply ensures_bind; [apply ensures_maintains|].
  { unfold handleTokenizedCommunityAction, token_of_action, stored. destruct (_ =? _); maintain. }
  intros type _. eapply ensures_bind; [|intros ns Hns; eapply ensures_bind; [apply IH|]; intros rest Hrest; apply ensures_ret; by apply (notifies_app _ _ _ _ Hns)].
  destruct (type ≠s? ""); [|apply ensures_none]. apply ensures_notify. by apply Forall_singleton.
Qed.

(** *** Who is notified of an event *)

(** The devices an event may notify: local, served, with filters that match it; and
    by kind, of the account the event names, which is not its author's. *)
Record addressed (event e : Event) : Prop := {
  addressed_local : e ∈ collectLocalDevices pm0 "" event;
  addressed_account : Kind event = KindReaction \/ Kind event = KindGenericRepost \/ Kind event = CustomIONKindFundSendNotify ->
    named event (Value (GetTag event "p")) e;
  addressed_wrap : Kind event = KindGiftWrap -> named event (Value (GetTag event "p")) e /\ PubKey e = quoted_key (GetTag event "p");
  addressed_article : Kind event = KindArticle -> GetMasterPublicKey e ≠ GetMasterPublicKey event;
  addressed_follow : Kind event = KindFollowList ->
    exists k, k ∈ GetNewlyFollowedPubkeys event (Previous event) /\ k ≠ GetMasterPublicKey event /\ owned k e
}.

Lemma quoted event relevant : ensures same (handleQuoteEvent event relevant) (notifies event (local_to "" event)).
Proof.
  unfold handleQuoteEvent. cbv zeta. destruct (_ =s? ""); [apply ensures_none|].
  eapply ensures_weak; [apply ensures_local_notify|]. intros d [Hd _]. split; [done|by left].
Qed.
Lemma new_dvm event relevant : ensures same (handleNewDVMEvent event relevant) (notifies event (local_to "" event)).
Proof.
  unfold handleNewDVMEvent. eapply ensures_bind; [apply ensures_local|]. intros ds Hds. cbv beta.
  destruct (is_nil ds); [apply ensures_none|]. destruct (_ =? _); [|apply ensures_none]. by apply ensures_notify.
Qed.

Lemma handled_kind `{!NostrSpec N} event relevant : ensures same (handle_kind global event relevant) (notifies event (addressed event)).
Proof.
  pose proof kinds_spec as K. injection K. intros. clear K.
  assert (CustomIONKindEditableTextNote = 30175 /\ CustomIONKindDVMJobResponsePriceChange = 6176 /\ CustomIONKindTokenizedCommunityDefinition = 31175 /\
    CustomIONKindTokenizedCommunityAction = 1175 /\ CustomIONKindFundSendNotify = 1756) as (? & ? & ? & ? & ?) by done.
  unfold handle_kind. cbv zeta.
  repeat match goal with |- ensures _ (if ?c then _ else _) _ => destruct c eqn:? end.
  all: (eapply ensures_weak; [first [apply community_message|apply quoted|apply with_public_key|apply new_post|apply mention_reply|apply new_dvm
    |eapply ensures_weaken; [apply gift_wrap|]; intros ns [_ Hns]; exact Hns|apply tokenized|apply new_follower|apply (ensures_none event (fun _ => False))]|]).
  all: intros d Hd'; rewrite ?orb_true_iff, ?andb_true_iff, ?orb_false_iff, ?Z.eqb_eq, ?Z.eqb_neq in *.
  all: try (destruct Hd' as [[Hl _] Hd']); try (destruct Hd' as [Hl _]); try done.
  all: split; [exact Hl|..]; intros Hkind; first [exact Hd'|tauto|exfalso; destruct_or?; destruct_and?; congruence].
Qed.

Lemma processed `{!NostrSpec N} event relevant :
  ensures same (processEvent relayURL privateKey global event relevant) (notifies event (addressed event)).
Proof.
  unfold processEvent. eapply ensures_bind; [apply ensures_maintains|].
  { unfold relevant_for, getAuthoritativeEvents, stored, fail. maintain. }
  intros r _. eapply ensures_bind; [apply ensures_maintains; maintain|]. intros [] _; [apply handled_kind|apply ensures_none].
Qed.

(** The notifications of a batch: each is for an event of the batch. *)
Definition of_batch (events : list Event) (ns : list (Notification Event) * list (Notification string)) : Prop :=
  Forall (fun n => SourceEvent n ∈ events /\ Kind (SourceEvent n) ∈ allowedPushEventKinds /\ addressed (SourceEvent n) (Target n)) ns.1 /\
  Forall (fun n => SourceEvent n ∈ events /\ Kind (SourceEvent n) = CustomIONSystemMessage) ns.2.

Lemma system_event event : Forall (fun n => SourceEvent n = event) (handleSystemEvent event).
Proof. apply Forall_fmap, Forall_forall. by intros l _. Qed.
Lemma collected_all `{!NostrSpec N} embedded events : ensures same (collect_all relayURL privateKey global embedded events) (of_batch events).
Proof.
  induction events as [|event events IH]; cbn [collect_all]; [apply ensures_ret; by split|].
  assert (Hmore : forall ns, of_batch events ns -> of_batch (event :: events) ns).
  { intros ns [H1 H2]. split; (eapply Forall_impl; [eassumption|]); cbv beta; intros n Hn; (split; [right|]; apply Hn). }
  destruct (_ || _) eqn:Hk; [eapply ensures_weaken; [apply IH|apply Hmore]|].
  apply orb_false_iff in Hk as [_ Hk]. apply negb_false_iff, bool_decide_eq_true in Hk. cbv zeta.
  eapply ensures_bind; [apply processed|]. intros ns Hns. eapply ensures_bind; [apply IH|]. intros rest [H1 H2]%Hmore. apply ensures_ret. split; cbn [fst snd].
  - apply Forall_app_2; [|done]. eapply Forall_impl; [exact Hns|]. intros n [-> Ha]. split_and!; [by left|done..].
  - apply Forall_app_2; [|done]. destruct (Z.eqb_spec (Kind event) CustomIONSystemMessage) as [Hs|]; [|constructor].
    eapply Forall_impl; [apply system_event|]. cbv beta. intros n ->. split; [by left|done].
Qed.

Lemma collected `{!NostrSpec N} events : ensures same (collectNotifications relayURL privateKey global events) (of_batch events).
Proof.
  unfold collectNotifications. destruct (ParseEphemeralEmbeddingEvents events); [apply collected_all..| |]; by apply ensures_lift.
Qed.


(** A gift wrap notifies at most one device, the one its p tag names in fourth
    place, which belongs to the account the tag names, and never its author. *)
Lemma gift_wrap_notified event pm' ns : handleGiftWrapEvent event pm0 = (pm', Ok ns) ->
  (length ns <= 1)%nat /\ Forall (fun n => named event (Value (GetTag event "p")) (Target n) /\
    PubKey (Target n) = quoted_key (GetTag event "p") /\ Target n ∈ collectLocalDevices pm0 "" event) ns.
Proof.
  intros Hg. destruct (gift_wrap event pm0) as [_ Ha]; [done|]. rewrite Hg in Ha. destruct (Ha ns eq_refl) as [Hl Hns].
  split; [done|]. eapply Forall_impl; [exact Hns|]. intros n (_ & [Hloc _] & Hn & Hp). done.
Qed.
End Notifications.

(** ** Statistics *)

Section Balance.
Context {N : Nostr} {G : GoText}.

Definition sum_values (m : gmap string Z) : Z := map_fold (fun _ v acc => acc + v) 0 m.
(** The totals are the sums of the counters, in 64 bits. *)
Record balanced (s : PushStats) : Prop := {
  balanced_success : totalSuccess s = uint64 (sum_values (successByKind s));
  balanced_errors : totalErrors s = uint64 (sum_values (sum_values <$> errorsByKind s))
}.

Lemma sum_insert m k v : sum_values (<[k := v]> m) = sum_values m - default 0 (m !! k) + v.
Proof.
  assert (Hfold : forall m' (x : Z), m' !! k = None -> sum_values (<[k := x]> m') = sum_values m' + x).
  { intros m' x Hx. apply (map_fold_insert_L (fun _ v acc => acc + v)); [intros; lia|done]. }
  rewrite <- insert_delete_eq, Hfold by apply lookup_delete_eq. destruct (m !! k) as [x|] eqn:Hk; cbn [default].
  - pose proof (Hfold (delete k m) x (lookup_delete_eq _ _)) as Hm. rewrite insert_delete_id in Hm by done. unfold id. lia.
  - rewrite delete_id by done. lia.
Qed.
Lemma uint64_add x y : uint64 (x + uint64 y) = uint64 (x + y).
Proof. unfold uint64. by rewrite Zplus_mod_idemp_r. Qed.

(** A counter is one up, in 64 bits. *)
Lemma sum_count_up m k : uint64 (sum_values (count_up m k)) = uint64 (sum_values m + 1).
Proof. unfold count_up. rewrite sum_insert, uint64_add. f_equal. lia. Qed.

Lemma balanced_RecordSuccess s event : balanced s -> balanced (RecordSuccess s event).
Proof.
  intros [Hs He]. split; cbn; [|done]. rewrite Hs, sum_count_up. rewrite Z.add_comm, uint64_add. f_equal. lia.
Qed.
Lemma balanced_RecordError s event e : balanced s -> balanced (RecordError s event e).
Proof.
  intros [Hs He]. destruct e as [e|]; [|done]. split; cbn; [done|]. rewrite He, fmap_insert, sum_insert, lookup_fmap.
  rewrite (Z.add_comm _ 1), uint64_add. set (m := default ∅ (errorsByKind s !! getExtendedKind event)).
  replace (default 0 (sum_values <$> errorsByKind s !! getExtendedKind event)) with (sum_values m) by (unfold m; by destruct (errorsByKind s !! _)).
  rewrite <- (uint64_add _ (sum_values (count_up m _))), sum_count_up, uint64_add. f_equal. lia.
Qed.
End Balance.

(** ** Relays *)

Section RelayLaws.
Context {N : Nostr} {G : GoText}.

(** A relay was seen: a relay of its host that the loop kept for comparison stands for
    it, and that one is in the result or left out. *)
Definition covered (filterOut kept : list string) (relay : string) : Prop :=
  exists s, relay_key s = relay_key relay /\ (s = relay \/ CompareRelaysURLs relay s = true) /\
    (s ∈ kept \/ existsb (CompareRelaysURLs s) filterOut = true).

Record compacted (filterOut relays kept : list string) (seen : gmap string (list string)) : Prop := {
  compacted_from : kept ⊆ relays;
  compacted_out : Forall (fun r => existsb (CompareRelaysURLs r) filterOut = false) kept;
  compacted_apart : forall i j a b, kept !! i = Some a -> kept !! j = Some b -> (i < j)%nat -> relay_key a = relay_key b ->
    CompareRelaysURLs b a = false;
  compacted_covered : Forall (covered filterOut kept) relays;
  compacted_seen : forall r, r ∈ kept -> r ∈ default [] (seen !! relay_key r);
  compacted_known : forall key s, s ∈ default [] (seen !! key) -> relay_key s = key /\ (s ∈ kept \/ existsb (CompareRelaysURLs s) filterOut = true)
}.

Lemma covered_more filterOut kept x r : covered filterOut kept r -> covered filterOut (kept ++ [x]) r.
Proof. intros (s & Hk & Hs & [Hin|Hout]); exists s; split_and!; [done..|left|done|done|by right]. apply elem_of_app. by left. Qed.

Lemma compact_relay_compacted filterOut relays kept seen relay : compacted filterOut relays kept seen ->
  compacted filterOut (relays ++ [relay]) (compact_relay filterOut (kept, seen) relay).1 (compact_relay filterOut (kept, seen) relay).2.
Proof.
  intros [Hfrom Hout Hapart Hcov Hseen Hknown]. unfold compact_relay.
  destruct (existsb (CompareRelaysURLs relay) (default [] (seen !! relay_key relay))) eqn:Hex; cbn [fst snd].
  { apply existsb_exists in Hex as (s & Hs & Hc). apply list_elem_of_In in Hs. destruct (Hknown _ _ Hs) as [Hk Hin].
    split; [set_solver|done|done| |done|done]. apply Forall_app_2; [done|]. apply Forall_singleton. exists s. auto. }
  destruct (existsb (CompareRelaysURLs relay) filterOut) eqn:Hf; cbn [fst snd]; split.
  - set_solver.
  - done.
  - done.
  - apply Forall_app_2; [done|]. apply Forall_singleton. exists relay. auto.
  - intros r Hr. specialize (Hseen r Hr). destruct (decide (relay_key relay = relay_key r)) as [->|Hne]; [|by rewrite lookup_insert_ne].
    rewrite lookup_insert_eq. apply elem_of_app. by left.
  - intros key s. destruct (decide (relay_key relay = key)) as [<-|Hne]; [|rewrite lookup_insert_ne by done; apply Hknown].
    rewrite lookup_insert_eq. cbn [default]. intros [Hs| ->%list_elem_of_singleton]%elem_of_app; [by apply Hknown|auto].
  - set_solver.
  - by apply Forall_app_2; [|apply Forall_singleton].
  - intros i j a b Hi Hj Hlt Hk. apply lookup_app_Some in Hj as [Hj|[Hle Hj]].
    { apply (Hapart i j); [|done..]. rewrite lookup_app_l in Hi; [done|]. apply lookup_lt_Some in Hj. lia. }
    apply list_lookup_singleton_Some in Hj as [Hj <-]. rewrite lookup_app_l in Hi by lia. apply list_elem_of_lookup_2 in Hi.
    apply not_true_is_false. intros Hc. apply not_true_iff_false in Hex. apply Hex, existsb_exists. exists a.
    split; [|done]. apply list_elem_of_In. rewrite <- Hk. by apply Hseen.
  - apply Forall_app_2; [eapply Forall_impl; [exact Hcov|]; intros r; apply covered_more|]. apply Forall_singleton. exists relay. set_solver.
  - intros r [Hr| ->%list_elem_of_singleton]%elem_of_app; [|rewrite lookup_insert_eq; set_solver].
    specialize (Hseen r Hr). destruct (decide (relay_key relay = relay_key r)) as [->|Hne]; [|by rewrite lookup_insert_ne].
    rewrite lookup_insert_eq. apply elem_of_app. by left.
  - intros key s. destruct (decide (relay_key relay = key)) as [<-|Hne].
    + rewrite lookup_insert_eq. cbn [default]. intros [Hs| ->%list_elem_of_singleton]%elem_of_app; [|split; [done|set_solver]].
      destruct (Hknown _ _ Hs) as [? [?|?]]; (split; [done|]); [left; set_solver|by right].
    + rewrite lookup_insert_ne by done. intros Hs. destruct (Hknown _ _ Hs) as [? [?|?]]; (split; [done|]); [left; set_solver|by right].
Qed.

Lemma compact_all_compacted filterOut relays past kept seen : compacted filterOut past kept seen ->
  exists seen', compacted filterOut (past ++ relays) (fold_left (compact_relay filterOut) relays (kept, seen)).1 seen'.
Proof.
  revert past kept seen. induction relays as [|r relays IH]; intros past kept seen H0; cbn [fold_left].
  - exists seen. by rewrite List.app_nil_r.
  - apply (compact_relay_compacted _ _ _ _ r) in H0. destruct (compact_relay _ _ _) as [kept' seen'].
    change (r :: relays) with ([r] ++ relays). rewrite List.app_assoc. by apply (IH _ kept' seen').
Qed.
Lemma compactRelays_compacted relays filterOut : exists seen, compacted filterOut relays (compactRelays relays filterOut) seen.
Proof.
  apply (compact_all_compacted filterOut relays [] [] ∅). split; [done|constructor|done|constructor|set_solver|].
  intros key s. rewrite lookup_empty. cbn. set_solver.
Qed.

(** CompactRelays gives relays of its input, none of which equals a relay to be
    left out, and no two of one host that are equal; and every relay of its input is
    one of them or left out, or equals one that is. *)
Lemma compactRelays_spec relays filterOut :
  let kept := compactRelays relays filterOut in
  kept ⊆ relays /\ Forall (fun r => existsb (CompareRelaysURLs r) filterOut = false) kept /\
  (forall i j a b, kept !! i = Some a -> kept !! j = Some b -> (i < j)%nat -> relay_key a = relay_key b -> CompareRelaysURLs b a = false) /\
  Forall (covered filterOut kept) relays.
Proof. cbv zeta. destruct (compactRelays_compacted relays filterOut) as [seen []]. done. Qed.
End RelayLaws.

(** ** A relay that runs *)

(** The registrations of a batch have keys that are handled. *)
Definition all_handled `{Nostr} (handled : string -> Prop) (events : list Event) : Prop :=
  Forall (fun e => Kind e = CustomIONKindDeviceRegistration -> handled (calcDeviceKey e)) events.

(** What every run keeps, once the pieces keep it. *)
Section Running.
Context {N : Nostr} {NS : NostrSpec N} {G : GoText} {J : GoJSON} {R : RichText} {C : Crypto} {E : Env} {T : EventText} {TS : EventTextSpec} {GJ : GoGJSON} {X : PushText}.
Context {W : Type} {PW : PushWorld W} {PC : PushClient W}.
Context (xxh3 : string -> Z) (relayURL privateKey : string) (global : eventValidator) (handled : string -> Prop).
Abbreviation manager := (PushNotificationManager W).
Context (P : manager -> Prop).
Hypothesis keeps_outside : forall pm w, P pm -> P (with_outer pm w).
Hypothesis keeps_collect : forall events, maintains P (collectNotifications relayURL privateKey global events).
Hypothesis keeps_record : forall pm event e, P pm ->
  P (MkManager (devicesFilterIndex pm) (devicesEventMap pm) (RecordSuccess (stats pm) event) (outer pm)) /\
  P (MkManager (devicesFilterIndex pm) (devicesEventMap pm) (RecordError (stats pm) event e) (outer pm)).
Hypothesis keeps_remove : forall event, maintains P (removeDeviceFromCache xxh3 event).
Hypothesis keeps_process : forall event, handled (calcDeviceKey event) -> maintains P (processDeviceRegistrationEvent xxh3 relayURL event).

Lemma keeps_outside_run {A} (m : ST W A) : maintains P (outside m).
Proof. by apply maintains_pm_outside. Qed.
Lemma keeps_client f : maintains P (client_call f).
Proof. intros pm Hpm. unfold client_call. destruct (f (outer pm)). by apply keeps_outside. Qed.
Lemma keeps_success event : maintains P (record (fun s => RecordSuccess s event)).
Proof. intros pm Hpm. by apply (keeps_record pm event None). Qed.
Lemma keeps_error event e : maintains P (record (fun s => RecordError s event e)).
Proof. intros pm Hpm. by apply keeps_record. Qed.
Lemma keeps_sent event (r : option pnError) :
  maintains P (record (fun s => match r with Some e => RecordError s event (Some e) | None => RecordSuccess s event end)).
Proof. destruct r; intros pm Hpm; [by apply keeps_record|by apply (keeps_record pm event None)]. Qed.
Hint Resolve maintains_pm_gets keeps_outside_run keeps_collect keeps_client keeps_success keeps_error keeps_sent keeps_remove : maintains.

Lemma keeps_send singles topics : maintains P (sendNotifications xxh3 singles topics).
Proof.
  unfold sendNotifications, sendNotificationsAsync, collectErrorsAndProcessInvalidDevices, handleInvalidDeviceTokens, removeInvalidTokenDevicesFromCache, fail.
  destruct (_ && _); [maintain|]. apply maintains_bind; [apply maintains_bind; [|intros [errs refused]; apply maintains_bind]|intros [errs refused]].
  - induction singles; cbn [send_singles]; maintain.
  - induction topics; cbn [send_topics]; maintain.
  - maintain.
  - maintain. apply maintains_each. maintain.
Qed.
Hint Resolve keeps_send : maintains.

Lemma keeps_work j : maintains P (work xxh3 relayURL privateKey global j).
Proof.
  destruct j; cbn [work]; unfold find_relays, broadcast_job, find_users, notify_user, stored; maintain.
Qed.

Lemma keeps_manage events : all_handled handled events -> maintains P (ManageDeviceRegistrationEvents xxh3 relayURL events).
Proof.
  intros Hall. unfold ManageDeviceRegistrationEvents. destruct (is_nil events); [maintain|]. apply maintains_bind.
  - apply maintains_each. maintain.
  - intros _. generalize (@None error). induction Hall as [|e es He _ IH]; intros errs; cbn [process_registrations]; [unfold fail; maintain|].
    destruct (Z.eqb_spec (Kind e) CustomIONKindDeviceRegistration) as [Hk|]; [|apply IH]. apply maintains_bind; [|intros r; apply IH].
    by apply maintains_attempt, keeps_process, He.
Qed.

Lemma keeps_sync pm : (forall e, inl e ∈ (CollectDeviceRegistrationEvents (outer pm)).2 -> handled (calcDeviceKey e)) ->
  P pm -> P (syncDevices xxh3 relayURL pm).1.
Proof.
  unfold syncDevices, mbind, ST_bind, outside. destruct (CollectDeviceRegistrationEvents (outer pm)) as [w items]. cbn [snd].
  intros Hall Hpm. assert (Hm : maintains P (sync_all xxh3 relayURL items)); [|by apply Hm, keeps_outside].
  induction items as [|[e|x] items IH]; cbn [sync_all]; [maintain| |unfold fail; maintain].
  apply maintains_bind; [apply maintains_attempt, keeps_process, Hall; by left|]. intros _. apply IH. intros e' He'. apply Hall. by right.
Qed.

Lemma keeps_try_all ms errs : Forall (maintains P) ms -> maintains P (try_all ms errs).
Proof. intros Hms. revert errs. induction Hms; intros errs; cbn [try_all]; unfold fail; maintain. Qed.

Lemma keeps_accept events : all_handled handled events -> maintains P (AcceptEvents xxh3 relayURL privateKey global events).
Proof.
  intros Hall. unfold AcceptEvents. destruct (_ && _).
  - unfold AcceptEventsFromBroadcast. maintain.
  - apply keeps_try_all. repeat constructor; [| | |by apply keeps_manage].
    + unfold notify_batch. maintain.
    + unfold AcceptEventsForBroadcast. maintain.
    + unfold AcceptEventsForRemotePush, remote_push. maintain.
Qed.
End Running.

Section StatsKept.
Context {N : Nostr} {G : GoText} {GJ : GoGJSON} {W : Type} {PW : PushWorld W}.
Context (xxh3 : string -> Z) (relayURL : string).

Definition same_stats (pm pm' : PushNotificationManager W) : Prop := stats pm' = stats pm.
Lemma stats_step pm f : (forall pm', stats (f pm') = stats pm') -> maintains (same_stats pm) (step f).
Proof. intros Hf pm' Hpm'. cbn. unfold same_stats. by rewrite Hf. Qed.
Lemma stats_outside pm {A} (m : ST W A) : maintains (same_stats pm) (outside m).
Proof. by apply maintains_pm_outside. Qed.
Hint Resolve maintains_pm_gets stats_step stats_outside : maintains.

Lemma stats_remove event pm : same_stats pm (removeDeviceFromCache xxh3 event pm).1.
Proof.
  assert (Hk : maintains (same_stats pm) (removeDeviceFromCache xxh3 event)); [|by apply Hk].
  unfold removeDeviceFromCache. maintain. intros pm' Hpm'. match goal with |- same_stats _ (unsubscribe ?k ?d _).1 => destruct (unsubscribe_same k d pm') as (_ & _ & Heq) end.
  unfold same_stats. by rewrite Heq.
Qed.
Lemma stats_process event pm : same_stats pm (processDeviceRegistrationEvent xxh3 relayURL event pm).1.
Proof.
  assert (Hk : maintains (same_stats pm) (processDeviceRegistrationEvent xxh3 relayURL event)); [|by apply Hk].
  unfold processDeviceRegistrationEvent, fail. destruct (notificationTarget event) as [[master device] remote]. maintain.
  - intros pm' Hpm'. unfold same_stats. by rewrite stats_remove.
  - intros pm' Hpm'. match goal with |- same_stats _ (subscribe ?k ?d _).1 => destruct (subscribe_same k d pm') as (_ & _ & Heq) end.
    unfold same_stats. by rewrite Heq.
Qed.
Lemma balanced_same pm pm' : same_stats pm pm' -> balanced (stats pm) -> balanced (stats pm').
Proof. unfold same_stats. by intros ->. Qed.
End StatsKept.

Section Reachable.
Context {N : Nostr} {NS : NostrSpec N} {G : GoText} {J : GoJSON} {R : RichText} {C : Crypto} {E : Env} {T : EventText} {TS : EventTextSpec} {GJ : GoGJSON} {X : PushText}.
Context {W : Type} {PW : PushWorld W} {PC : PushClient W}.
Context (xxh3 : string -> Z) (relayURL privateKey : string) (global : eventValidator) (handled : string -> Prop).
Abbreviation by_key m k := (m !! (deviceIndexKeyTypeDeviceKey, k)).

(** The states of a relay: the devices are read at its start and then from time to
    time, events come in, jobs are worked on, and the rest of the world moves on;
    each of these may end in an error. *)
Inductive reachable : PushNotificationManager W -> Prop :=
| reach_start cpus w : (0 < cpus)%nat -> reachable (MkManager (NewMatcherStorage cpus 0) ∅ newPushStats w)
| reach_sync pm : reachable pm -> (forall e, inl e ∈ (CollectDeviceRegistrationEvents (outer pm)).2 -> handled (calcDeviceKey e)) ->
    reachable (syncDevices xxh3 relayURL pm).1
| reach_accept pm events : reachable pm -> all_handled handled events -> reachable (AcceptEvents xxh3 relayURL privateKey global events pm).1
| reach_work pm j : reachable pm -> reachable (work xxh3 relayURL privateKey global j pm).1
| reach_world pm w : reachable pm -> reachable (with_outer pm w).

Lemma reachable_keeps (P : PushNotificationManager W -> Prop) :
  (forall cpus w, (0 < cpus)%nat -> P (MkManager (NewMatcherStorage cpus 0) ∅ newPushStats w)) ->
  (forall pm w, P pm -> P (with_outer pm w)) ->
  (forall pm pm', same_devices pm pm' -> P pm -> P pm') ->
  (forall pm event e, P pm ->
    P (MkManager (devicesFilterIndex pm) (devicesEventMap pm) (RecordSuccess (stats pm) event) (outer pm)) /\
    P (MkManager (devicesFilterIndex pm) (devicesEventMap pm) (RecordError (stats pm) event e) (outer pm))) ->
  (forall event, maintains P (removeDeviceFromCache xxh3 event)) ->
  (forall event, handled (calcDeviceKey event) -> maintains P (processDeviceRegistrationEvent xxh3 relayURL event)) ->
  forall pm, reachable pm -> P pm.
Proof.
  intros Hstart Hout Hsame Hrec Hrem Hproc.
  assert (Hcollect : forall events, maintains P (collectNotifications relayURL privateKey global events)).
  { intros events pm. apply Hsame. by apply (collected relayURL privateKey global pm events pm). }
  induction 1 as [cpus w Hc|pm _ IH Hs|pm events _ IH Ha|pm j _ IH|pm w _ IH]; [by apply Hstart|..|by apply Hout].
  - by eapply keeps_sync.
  - by eapply keeps_accept.
  - by eapply keeps_work.
Qed.

Hypothesis no_collision : forall k1 k2, handled k1 -> handled k2 -> xxh3 k1 = xxh3 k2 -> k1 = k2.

Lemma reachable_serves pm : reachable pm -> serves xxh3 relayURL handled pm.
Proof.
  apply reachable_keeps.
  - intros cpus w Hc. exists ∅. split; cbn; [by apply new_implemented|set_solver..].
  - intros pm' w. by apply serves_same.
  - intros. by eapply serves_same.
  - intros pm' event e Hs. split; (destruct Hs as [reg Hr]; exists reg; by apply (registered_outside _ _ _ pm')).
  - intros event pm'. by apply serves_remove.
  - intros event He pm'. by apply serves_process.
Qed.


(** Once a registration has been taken, every device that is found and has its
    key is that registration, whoever had registered the key before. *)
Lemma registration_replaces pm pm' reg : reachable pm -> handled (calcDeviceKey reg) ->
  processDeviceRegistrationEvent xxh3 relayURL reg pm = (pm', Ok ()) ->
  forall pubKey remote event e, e ∈ collectUserDevices pm' pubKey remote event -> calcDeviceKey e = calcDeviceKey reg -> e = reg.
Proof.
  intros Hr%reachable_serves Hh Hp pubKey remote event e He Hk.
  assert (Hs : serves xxh3 relayURL handled pm') by (pose proof (serves_process xxh3 relayURL handled no_collision reg pm Hh Hr) as Hs; by rewrite Hp in Hs).
  destruct (collected_interested xxh3 relayURL handled _ _ _ _ _ Hs He) as (d & <- & _ & Hd & _). rewrite Hk in Hd.
  destruct (process_key _ _ _ _ _ Hp) as [Hn|Hn]; congruence.
Qed.

(** A deletion of a registration by its identifier takes the device out of every
    lookup, whoever signed the deletion, also when the rest of the batch fails. *)
Lemma deletion_unregisters pm deletion reg : reachable pm ->
  devicesEventMap pm !! (deviceIndexKeyTypeEventID, ID reg) = Some reg ->
  shouldProcessDeletionEvent deletion = true -> Value <$> filter (fun tag => Key tag = "e") (EvTags deletion) = [ID reg] ->
  let pm' := (ManageDeviceRegistrationEvents xxh3 relayURL [deletion] pm).1 in
  forall pubKey remote event e, e ∈ collectUserDevices pm' pubKey remote event -> calcDeviceKey e ≠ calcDeviceKey reg.
Proof.
  intros Hr%reachable_serves Hid Hdel Htargets pm' pubKey remote event e He Hk.
  assert (Hpm' : pm' = (removeDeviceFromCache xxh3 reg pm).1).
  { unfold pm', ManageDeviceRegistrationEvents, removeDevicesIfAny. cbn [is_nil]. rewrite filter_cons_True by done. rewrite filter_nil. cbn [map concat].
    rewrite Htargets. cbn [app each]. cbv [mbind ST_bind gets]. rewrite Hid. destruct (removeDeviceFromCache xxh3 reg pm) as [pm1 [[]|x| |]]; [|done..].
    cbn [process_registrations]. destruct (Z.eqb_spec (Kind deletion) CustomIONKindDeviceRegistration) as [Heq|]; [|done].
    unfold shouldProcessDeletionEvent in Hdel. rewrite Heq in Hdel. pose proof kinds_spec as K. injection K. intros.
    destruct (Z.eqb_spec CustomIONKindDeviceRegistration KindDeletion) as [Hz|]; [|done]. exfalso. unfold CustomIONKindDeviceRegistration in Hz. lia. }
  assert (Hs : serves xxh3 relayURL handled pm') by (rewrite Hpm'; by apply serves_remove).
  destruct (collected_interested xxh3 relayURL handled _ _ _ _ _ Hs He) as (d & <- & _ & Hd & _). rewrite Hk, Hpm', remove_key in Hd. done.
Qed.

(** In every state a relay reaches, the totals of the statistics are the sums of
    the counters by kind and by reason, modulo two to the sixty-four. *)
Lemma statistics_add_up pm : reachable pm -> balanced (stats pm).
Proof.
  apply (reachable_keeps (fun pm => balanced (stats pm))).
  - done.
  - done.
  - intros pm1 pm2 (_ & _ & ->). done.
  - intros pm1 event e Hb. split; [by apply balanced_RecordSuccess|by apply balanced_RecordError].
  - intros event pm1. by apply balanced_same, stats_remove.
  - intros event _ pm1. by apply balanced_same, stats_process.
Qed.
End Reachable.

(** ** Concrete inputs *)
Module PushLawsWitness.
Import SelectionPlain.

#[local] Instance gjson : GoGJSON := {|
  gjson_array _ := [MkItem "{}" (fun k => k =s? "kinds") []];
  json_filter _ := Some (MkFilter None (Some [1059; 7]) None None None None None 0 ""); json_event_ptr _ := None |}.
#[local] Instance push_text : PushText := {|
  compressAndEncodeBase64 s := Some s; events_Hash _ := "batch"; url_without_port _ := None |}.
(** A world that remembers the jobs. *)
#[local] Instance push_world : PushWorld (list job) := {|
  CollectDeviceRegistrationEvents w := (w, []); MarkTokenAsInvalidInEventTags _ w := (w, Ok ());
  RegisterPriceChangeSubscriber _ _ w := (w, Ok ()); DeletePriceChangeSubscriber _ _ _ _ w := (w, Ok ());
  StoredEvents _ w := (w, []); PushJobs js w := (w ++ js, Ok ()); Submit w := (w, Ok ()); BroadcastTo _ _ w := (w, Ok ()) |}.
#[local] Instance client : PushClient (list job) := {| SendSingle _ w := (w, None); SendTopic _ w := (w, None) |}.
Definition digest (k : string) : Z := Z.of_nat (String.length k).
Definition nobody : eventValidator := MkValidator None (fun _ => []) [].
Definition handled (k : string) : Prop := k = "phone".
Lemma apart k1 k2 : handled k1 -> handled k2 -> digest k1 = digest k2 -> k1 = k2.
Proof. by intros -> ->. Qed.

(** A device of the account bb, and a message for it. *)
Definition phone : Event := MkEvent None "r1" "dd" 100 31751 [["d"; "phone"]; ["b"; "bb"]; ["relay"; "wss://me"]; ["token"; "t"]] "" "".
Definition wrap : Event := MkEvent None "w1" "zz" 101 1059 [["p"; "bb"; ""; "dd"]; ["k"; "14"]] "" "".
Definition start : PushNotificationManager (list job) := MkManager (NewMatcherStorage 4 0) ∅ newPushStats [].
Definition registered_phone : PushNotificationManager (list job) := (AcceptEvents digest "wss://me" key_hex nobody [phone] start).1.
Definition messaged : PushNotificationManager (list job) := (AcceptEvents digest "wss://me" key_hex nobody [wrap] registered_phone).1.
Abbreviation reached := (reachable digest "wss://me" key_hex nobody handled).

Lemma phone_reached : reached registered_phone.
Proof. apply reach_accept; [apply reach_start; lia|]. apply Forall_singleton. by intros _. Qed.
Lemma wrap_reached : reached messaged.
Proof. apply reach_accept; [apply phone_reached|]. apply Forall_singleton. by intros Hk. Qed.

Lemma phone_indexable : indexable "wss://me" registered_phone wrap.
Proof.
  split; [done|]. intros d f _ (m & dev & _ & _ & _ & Hf & _) Hin. injection Hf as Hf. rewrite <- Hf in Hin.
  apply list_elem_of_singleton in Hin as ->. split; [done|]. intros a Ha. by apply not_elem_of_nil in Ha.
Qed.

Example phone_found : collectUserDevices registered_phone "bb" false wrap = [phone].
Proof. vm_compute. reflexivity. Qed.

Definition told : list (Notification Event) := match (handleGiftWrapEvent wrap registered_phone).2 with Ok ns => ns | _ => [] end.
Lemma gift_wrap_notified_witness : (length told <= 1)%nat /\ Forall (fun n => named wrap (Value (GetTag wrap "p")) (Target n) /\
    PubKey (Target n) = quoted_key (GetTag wrap "p") /\ Target n ∈ collectLocalDevices registered_phone "" wrap) told.
Proof. apply (gift_wrap_notified registered_phone wrap registered_phone told). vm_compute. reflexivity. Defined.
Example phone_told : Target <$> told = [phone].
Proof. vm_compute. reflexivity. Qed.


(** The same key, by an account and a device of another's. *)
Definition impostor : Event := MkEvent None "r2" "ee" 102 31751 [["d"; "phone"]; ["b"; "cc"]; ["relay"; "wss://me"]; ["token"; "u"]] "" "".
Definition displaced : PushNotificationManager (list job) := (processDeviceRegistrationEvent digest "wss://me" impostor registered_phone).1.
Lemma registration_replaces_witness : phone ∉ collectUserDevices displaced "bb" false wrap.
Proof.
  intros Hin. assert (Heq : phone = impostor); [|discriminate Heq].
  refine (registration_replaces digest "wss://me" key_hex nobody handled apart registered_phone displaced impostor
    phone_reached eq_refl _ "bb" false wrap phone Hin eq_refl). vm_compute. reflexivity.
Defined.

Definition deletion : Event := MkEvent None "x1" "ee" 102 5 [["e"; "r1"]] "" "".
Lemma deletion_unregisters_witness :
  phone ∉ collectUserDevices (ManageDeviceRegistrationEvents digest "wss://me" [deletion] registered_phone).1 "bb" false wrap.
Proof.
  intros Hin. refine (deletion_unregisters digest "wss://me" key_hex nobody handled apart registered_phone deletion phone
    phone_reached _ _ _ "bb" false wrap phone Hin eq_refl); vm_compute; reflexivity.
Defined.

Lemma statistics_add_up_witness : balanced (stats messaged).
Proof. apply (statistics_add_up digest "wss://me" key_hex nobody handled messaged), wrap_reached. Defined.
Example message_counted : totalSuccess (stats messaged) = 1.
Proof. vm_compute. reflexivity. Qed.
End PushLawsWitness.
