(* ===== verification/Handler.v ===== *)
(** * Package server/ws: the messages of a connection

    src/server/ws/subscriptions.go, limiter.go and ws.go.  A handler runs over
    the state the goroutines of the server share: the index of live
    subscriptions, the subscriptions themselves (under the numbers their
    pointers stand for), what every connection remembers, and what was written
    to it.  The handlers are written in a state monad that keeps the state when
    an error is returned; each handler runs alone here, and [Delivery] looks at
    the interleaving of a REQ with the broadcast of new events. *)

From S2P Require Import Prelude GoStd Nostr Model OnBehalf Filters Subscription Matcher Content Validator TagRules Community Membership Validate QueryFilter QueryBuilder Auth.
Import Strings.

(** ** The limits of a subscription *)

(* src: server/ws/limiter.go 9-11 *)
Definition defaultLimitREQ : Z := 100.

Definition limited (f : Filter) (l : Z) : Filter :=
  MkFilter (IDs f) (Kinds f) (Authors f) (Addresses f) (FTags f) (Since f) (Until f) l (Search f).

(* src: server/ws/limiter.go 13-24 *)
Definition applySubscriptionLimit (filters : list Filter) : list Filter :=
  let filters := match filters with
                 | [] => [MkFilter None None None None None None None defaultLimitREQ ""]
                 | _ => filters
                 end in
  let limitPerFilter := Z.quot defaultLimitREQ (zlen filters) in
  (fun f => if (limitPerFilter <? Limit f) || (Limit f <=? 0) then limited f limitPerFilter else f) <$> filters.

(** ** Who receives an event *)

Section Forward.
Context {N : Nostr}.

(* src: server/ws/subscriptions.go 22-25 *)
Definition protectedEventKindsE2E : list Z := [KindGiftWrap].
(* src: server/ws/subscriptions.go 27-34 *)
Definition communityProtectedEventKinds : list Z :=
  [KindTextNote; KindArticle; KindDraftArticle; CustomIONKindEditableTextNote; KindRepost; KindGenericRepost].

(** The tags of a gift wrap that name a device, with its account or alone. *)
(* src: server/ws/subscriptions.go 62-77 [canForwardEvent] *)
Definition names_device (masterPubkey deviceKey : string) (tag : Tag) : bool :=
  (Key tag =s? "p") &&
  match tag with
  | [_; d] => d =s? deviceKey
  | [_; m; _; d] => (m =s? masterPubkey) && (d =s? deviceKey)
  | _ => false
  end.

(* src: server/ws/subscriptions.go 51-79 *)
Definition canForwardEvent (ev : Event) (currentkinds : gset Z) (masterPubkey deviceKey : string) : bool :=
  if negb (bool_decide (currentkinds = ∅)) && negb (bool_decide (Kind ev ∈ currentkinds)) then false
  else if negb (bool_decide (Kind ev ∈ protectedEventKindsE2E)) then true
  else existsb (names_device masterPubkey deviceKey) (EvTags ev).

Context (global : eventValidator).

(** An error of the checks is [Ok false]: the event is not forwarded. *)
(* src: server/ws/subscriptions.go 81-105 *)
Definition canForwardCommunityEvent (ev : Event) (masterPubkey : string) : outcome bool :=
  let hTag := Value (GetTag ev CustomIONTagCommunity) in
  if hTag =s? "" then Ok true
  else if negb (bool_decide (Kind ev ∈ communityProtectedEventKinds)) then Ok true
  else
    match GetCommunityDefinition global hTag with
    | Err _ => Ok false
    | Panic => Panic
    | OutOfFuel => OutOfFuel
    | Ok def =>
        if negb (is_nil (GetTag def "private")) then
          match IsUserPartOfCommunity global def masterPubkey with
          | Err _ => Ok false
          | Panic => Panic
          | OutOfFuel => OutOfFuel
          | Ok _ =>
              match IsUserBanned global masterPubkey hTag with
              | Err _ => Ok false
              | Panic => Panic
              | OutOfFuel => OutOfFuel
              | Ok _ => Ok true
              end
          end
        else Ok true
    end.

(* src: server/ws/subscriptions.go 450-454 *)
Definition canForwardLiveEvent (filters : list Filter) (ev : Event) (data : UserDataContext) : outcome bool :=
  if negb (FiltersMatch filters ev (MasterPublicKey data) (UPublicKey data)) then Ok false
  else if negb (canForwardEvent ev (UKinds data) (MasterPublicKey data) (UPublicKey data)) then Ok false
  else canForwardCommunityEvent ev (MasterPublicKey data).
End Forward.

(** ** The state of the server *)

(** A subscription, by its pointer, of a connection; [SourceID] is the id of
    the subscription, which never changes. *)
(* src: server/ws/contract.go 41-44 *)
Record subscriptionPair : Type := MkPair { Source : nat; SourceID : string; Writer : nat }.

(** What is written to a connection: the texts of errors are the errors
    themselves ([Cause]). *)
Inductive Envelope : Type :=
  | EventEnvelope (subscriptionID : string) (ev : Event)
  | EOSEEnvelope (subscriptionID : string)
  | ClosedEnvelope (subscriptionID reason : string) (cause : option error)
  | AuthEnvelope (challenge : string)
  | OKEnvelope_ (ok : OKEnvelope)
  | CountEnvelope (subscriptionID : string) (count : Z)
  | NoticeEnvelope (cause : error).
Inductive output : Type := Written (w : nat) (env : Envelope) | Closed (w : nat).

(* src: server/ws/contract.go 45-49 *)
Record Server : Type := MkServer {
  Subscriptions : Storage subscriptionPair;
  heap : gmap nat Subscription;
  conns : gmap nat Metadata;
  outputs : list output
}.
Definition with_subscriptions (s : Server) (x : Storage subscriptionPair) : Server := MkServer x (heap s) (conns s) (outputs s).
Definition with_sub (s : Server) (p : nat) (sub : Subscription) : Server :=
  MkServer (Subscriptions s) (<[p := sub]> (heap s)) (conns s) (outputs s).
Definition with_metadata (s : Server) (w : nat) (m : Metadata) : Server :=
  MkServer (Subscriptions s) (heap s) (<[w := m]> (conns s)) (outputs s).
Definition with_output (s : Server) (o : output) : Server :=
  MkServer (Subscriptions s) (heap s) (conns s) (outputs s ++ [o]).

(** *** Handlers *)

Definition H (A : Type) : Type := Server -> Server * outcome A.
#[export] Instance H_ret : MRet H := fun A a s => (s, Ok a).
#[export] Instance H_bind : MBind H := fun A A' f m s =>
  match m s with
  | (s, Ok a) => f a s
  | (s, Err x) => (s, Err x)
  | (s, Panic) => (s, Panic)
  | (s, OutOfFuel) => (s, OutOfFuel)
  end.
Definition done_ : H unit := mret ().
Definition lift_h {A} (m : outcome A) : H A := fun s => (s, m).
Definition fail {A} (x : error) : H A := lift_h (Err x).
(** The error of a call, as a value. *)
Definition attempt (m : H unit) : H (option error) := fun s =>
  match m s with
  | (s, Ok _) => (s, Ok None)
  | (s, Err x) => (s, Ok (Some x))
  | (s, Panic) => (s, Panic)
  | (s, OutOfFuel) => (s, OutOfFuel)
  end.
Fixpoint for_h {A S} (l : list A) (st : S) (f : S -> A -> H S) : H S :=
  match l with
  | [] => mret st
  | x :: l => st ← f st x; for_h l st f
  end.

(** A pointer that was never allocated is dereferenced by no handler. *)
Definition load (p : nat) : H Subscription := fun s =>
  match heap s !! p with Some sub => (s, Ok sub) | None => (s, Panic) end.
Definition store (p : nat) (sub : Subscription) : H unit := fun s => (with_sub s p sub, Ok ()).
Definition metadata (w : nat) : H Metadata := fun s => (s, Ok (default ∅ (conns s !! w))).
Definition set_metadata (w : nat) (m : Metadata) : H unit := fun s => (with_metadata s w m, Ok ()).
(** [new(model.Subscription)] *)
Definition allocate (sub : Subscription) : H nat := fun s =>
  let p := fresh (dom (heap s)) in (with_sub s p sub, Ok p).

Definition set_filters (s : Subscription) (fs : list Filter) : Subscription :=
  MkSubscription (addresses s) (reduce s) (SubID s) fs (pending s) (live s) (OneShot s).
Definition set_one_shot (s : Subscription) : Subscription :=
  MkSubscription (addresses s) (reduce s) (SubID s) (SubFilters s) (pending s) (live s) true.

Section Handlers.
Context {N : Nostr} {G : GoText} {J : GoJSON} {C : Crypto} {R : RichText} {GJ : GoGJSON} {TM : TagMaps} `{W : Nip42}.
Context (GetAll_is_nil : Tags -> list string -> bool).
(** The global validator, the fuel of validations and the time of the requests. *)
Context (global : eventValidator) (fuel : nat) (time : Z).
Context (RelayURL BroadcastPublicKey : string).
(** [conn.RemoteAddr().String()] and [xxh3.HashString] *)
Context (RemoteAddr : nat -> string) (xxh3 : string -> Z).
(** The challenge drawn for a connection, the errors of writes, and of the
    context of a request once it is cancelled. *)
Context (generateChallenge : nat -> Server -> string) (write_error : Server -> nat -> Envelope -> option error)
  (ctx_err : Server -> option error).
(** The database and the callbacks main registers. *)
Context (GetStoredEvents : list Filter -> EventIterator) (CountEvents : list Filter -> outcome Z).
Context (reqMustAuth : option (Subscription -> bool)) (eventMustAuth : option (list Event -> bool))
  (wsSubscriptionListeners : option (list (list Filter -> EventIterator)))
  (wsEventListener wsBroadcastEventListener : option (UserDataContext -> list Event -> H unit)).

(** The context of a request: its user data and the clock. *)
Definition request (u : UserDataContext) : Env := {| user := u; now := time |}.

(* src: server/ws/subscriptions.go 37-49 *)
Definition Hash (s : subscriptionPair) : Z := xxh3 (Join [RemoteAddr (Writer s); SourceID s] "|").

(* src: server/ws/ws.go 261-267 *)
Definition writeResponse (w : nat) (env : Envelope) : H unit := fun s =>
  match write_error s w env with
  | Some x => (s, Err x)
  | None => (with_output s (Written w env), Ok ())
  end.

(** *** The index of live subscriptions *)

Definition index_pair (fs : list Filter) (v : subscriptionPair) : H unit := fun s =>
  match StorageIndex Hash (Subscriptions s) fs v with
  | Ok x => (with_subscriptions s x, Ok ())
  | Err x => (s, Err x) | Panic => (s, Panic) | OutOfFuel => (s, OutOfFuel)
  end.
Definition remove_pair (v : subscriptionPair) : H bool := fun s =>
  match StorageRemove Hash (Subscriptions s) v with
  | Ok (x, ok) => (with_subscriptions s x, Ok ok)
  | Err x => (s, Err x) | Panic => (s, Panic) | OutOfFuel => (s, OutOfFuel)
  end.

(* src: server/ws/subscriptions.go 121-132 *)
Definition linkSubscription (w p : nat) : H unit :=
  sub ← load p;
  if OneShot sub then done_
  else
    index_pair (SubFilters sub) (MkPair p (SubID sub) w) ;;
    m ← metadata w; set_metadata w (Set_ m (SubID sub) (MSubscription p)).

(** [&model.Subscription{ID: *ID}] is compared by its hash only: its pointer
    is never used. *)
(* src: server/ws/subscriptions.go 134-158 *)
Definition unlinkSubscription (w : nat) (id : option string) : H bool :=
  m ← metadata w;
  match id with
  | None =>
      for_h (map_to_list m) () (fun _ '(_, v) =>
        match v with
        | MSubscription p => sub ← load p; remove_pair (MkPair p (SubID sub) w) ;; done_
        | _ => done_
        end) ;;
      set_metadata w ∅ ;; mret true
  | Some id =>
      ok ← remove_pair (MkPair 0 id w);
      (if (ok : bool) then m ← metadata w; set_metadata w (delete id m) else done_) ;; mret ok
  end.

(* src: server/ws/subscriptions.go 322-329 *)
Definition closeSubscriptionWithReason (w : nat) (id reason : string) (cause : option error) : H unit :=
  unlinkSubscription w (Some id) ;; writeResponse w (ClosedEnvelope id reason cause).

(* src: server/ws/contract.go 52-53 *)
Definition errAuthRequired_text : string := "auth-required: please authenticate first by sending AUTH message".

(** The challenge of a connection, kept once drawn. *)
(* src: server/ws/auth.go 67-76 *)
Definition challenge_of (w : nat) : H string := fun s =>
  match authConnGenerateChallenge (generateChallenge w s) (default ∅ (conns s !! w)) with
  | Ok (challenge, m) => (with_metadata s w m, Ok challenge)
  | Err x => (s, Err x) | Panic => (s, Panic) | OutOfFuel => (s, OutOfFuel)
  end.

(* src: server/ws/subscriptions.go 107-119 *)
Definition authRequiredReq (w : nat) (id : string) : H unit :=
  challenge ← challenge_of w;
  writeResponse w (AuthEnvelope challenge) ;;
  closeSubscriptionWithReason w id errAuthRequired_text None.

(** *** REQ *)

(** What a search for relevant followers is turned into; what it loads beside
    profiles is not sent on its own. *)
(* src: server/ws/subscriptions.go 174-182 [prepareSubscription] *)
Definition followers_filter (data : UserDataContext) (f : Filter) : Filter :=
  MkFilter None (Some [KindFollowList]) (Some [MasterPublicKey data; UPublicKey data]) None None None None (Limit f)
    ("include:dependencies:kind3>kind0+p+|" +:+ Join (All (tags_of f) "p") "," +:+ "|").
Definition followers_reduce (e : Event) : bool :=
  negb (Kind e =? KindProfileMetadata) && negb (Kind e =? CustomIONKindEphemeralEmbedding).

(* src: server/ws/subscriptions.go 161-183 [prepareSubscription] *)
Definition prepare_filter (data : UserDataContext) (sub : Subscription) (f : Filter) : Subscription * Filter :=
  if negb (Contains (Search f) ExtensionTextMRF && HasValues (tags_of f) "p") then (sub, f)
  else
    let sub := set_one_shot sub in
    if negb (Authenticated data) then (sub, f)
    else if negb (IsKindAllowed data KindFollowList) then (sub, f)
    else (WithReduce sub followers_reduce, followers_filter data f).
Fixpoint prepare_filters (data : UserDataContext) (sub : Subscription) (fs : list Filter) : Subscription * list Filter :=
  match fs with
  | [] => (sub, [])
  | f :: fs =>
      let '(sub, f) := prepare_filter data sub f in
      let '(sub, fs) := prepare_filters data sub fs in (sub, f :: fs)
  end.

(* src: server/ws/subscriptions.go 160-185 *)
Definition prepareSubscription (data : UserDataContext) (p : nat) : H unit :=
  sub ← load p;
  let '(sub, fs) := prepare_filters data sub (SubFilters sub) in
  store p (set_filters sub fs).

(** Events are written until one fails or the iterator yields an error. *)
(* src: server/ws/subscriptions.go 194-214 [streamGiftWrapEvents] *)
Definition stream_one (w p : nat) (st : Timestamp * Z) (ex : option Event * option error) : H (Timestamp * Z) :=
  match ex.2 with
  | Some x => fail x
  | None =>
      ev ← lift_h (deref ex.1);
      sub ← load p;
      let st := (CreatedAt ev, st.2 + 1) in
      if Reduce sub ev then mret st
      else writeResponse w (EventEnvelope (SubID sub) ev) ;; mret st
  end.

(* src: server/ws/subscriptions.go 221 [streamGiftWrapEvents] *)
Definition with_until (f : Filter) (t : Timestamp) : Filter :=
  MkFilter (IDs f) (Kinds f) (Authors f) (Addresses f) (FTags f) (Since f) (Some t) (Limit f) (Search f).
Definition return_ctx_err : H unit := fun s => match ctx_err s with Some x => (s, Err x) | None => (s, Ok ()) end.
Definition cancelled : H bool := fun s => (s, Ok (bool_decide (is_Some (ctx_err s)))).

(* src: server/ws/subscriptions.go 187-229 [streamGiftWrapEvents] *)
Fixpoint gift_wrap_pages (n : nat) (w p : nat) (f : Filter) : H unit :=
  match n with
  | O => lift_h OutOfFuel
  | S n =>
      stop ← cancelled;
      if (stop : bool) then return_ctx_err
      else
        st ← for_h (GetStoredEvents [f]) (0, 0) (stream_one w p);
        let '(oldestTimestamp, eventCount) := st in
        if eventCount <? Limit f then return_ctx_err
        else
          let f := with_until f oldestTimestamp in
          if match Since f with Some since => TsAfter since oldestTimestamp | None => false end then return_ctx_err
          else gift_wrap_pages n w p f
  end.

(* src: server/ws/subscriptions.go 187-188 [streamGiftWrapEvents] *)
Definition streamGiftWrapEvents (n : nat) (w p : nat) (f : Filter) : H unit := gift_wrap_pages n w p (limited f 1000).

(* src: server/ws/subscriptions.go 234-238 [getGiftWrapFilterIndex] *)
Definition is_gift_wrap_filter (f : Filter) : bool :=
  bool_decide (elems (Kinds f) = [KindGiftWrap]) && (size (tags_of f) =? 1)%nat &&
  match default [] (tags_of f !! "p") with [values] => (length values =? 3)%nat | _ => false end.
(* src: server/ws/subscriptions.go 231-240 *)
Definition getGiftWrapFilterIndex (fs : list Filter) : option nat :=
  fst <$> list_find (fun f => is_gift_wrap_filter f = true) fs.

(** [slices.CompareFunc(filter.Tags["p"][0], ...) == 0] *)
(* src: server/ws/subscriptions.go 242-245 *)
Definition isValidGiftWrapFilter (f : Filter) (master device : string) : bool :=
  bool_decide (head (default [] (tags_of f !! "p")) = Some [Some master; Some ""; Some device]).

(* src: server/ws/subscriptions.go 258-320 *)
Definition streamEvents (n : nat) (u : UserDataContext) (w p : nat)
    (listeners : list (list Filter -> EventIterator)) : H unit :=
  sub ← load p;
  store p (set_filters sub (applySubscriptionLimit (SubFilters sub))) ;;
  let filters := applySubscriptionLimit (SubFilters sub) in
  let rest (filters : list Filter) :=
    for_h listeners () (fun _ getter => for_h (getter filters) (0, 0) (stream_one w p) ;; done_) in
  match getGiftWrapFilterIndex filters with
  | Some idx =>
      f ← lift_h (index filters idx);
      if isValidGiftWrapFilter f (MasterPublicKey u) (UPublicKey u) then
        streamGiftWrapEvents n w p f ;;
        if (length filters =? 1)%nat then done_ else rest (list.take idx filters ++ list.drop (S idx) filters)
      else rest filters
  | None => rest filters
  end.

(* src: server/ws/subscriptions.go 331-360 *)
Definition streamEventsBuffered (w p : nat) : H unit :=
  sub ← load p;
  let '(bufferedEvents, sub) := GetPending sub in
  store p sub ;;
  for_h bufferedEvents () (fun _ ev => writeResponse w (EventEnvelope (SubID sub) ev)).

(** From the linked subscription on; the error closes the subscription. *)
(* src: server/ws/subscriptions.go 384-405 [handleReq] *)
Definition stream_req (n : nat) (u : UserDataContext) (w p : nat) : H unit :=
  sub ← load p;
  e ← match wsSubscriptionListeners with
      | Some listeners => attempt (streamEvents n u w p listeners)
      | None => mret None
      end;
  match e with
  | Some x =>
      e ← attempt (closeSubscriptionWithReason w (SubID sub) "" (Some x));
      fail (match e with Some y => join_error x y | None => x end)
  | None =>
      writeResponse w (EOSEEnvelope (SubID sub)) ;;
      if OneShot sub then
        closeSubscriptionWithReason w (SubID sub) "processed: single request only subscription" None
      else
        sub ← load p;
        store p (SetLive sub) ;; streamEventsBuffered w p
  end.

(** [defer]: an error unlinks a subscription that stays. *)
(* src: server/ws/subscriptions.go 378-382 [handleReq] *)
Definition unlink_on_error (w p : nat) (m : H unit) : H unit :=
  e ← attempt m;
  match e with
  | None => done_
  | Some x =>
      sub ← load p;
      (if OneShot sub then done_ else unlinkSubscription w (Some (SubID sub)) ;; done_) ;; fail x
  end.

(** Some connections may not read what the subscription asks for. *)
(* src: server/ws/subscriptions.go 363-373 [handleReq] *)
Definition refused_req (w p : nat) : H (option (H unit)) :=
  sub ← load p;
  match reqMustAuth with
  | Some must =>
      if must sub then
        m ← metadata w;
        let status := authConnGetState m in
        if negb (Authenticated status) then mret (Some (authRequiredReq w (SubID sub)))
        else if negb (IsFilterAllowed status (SubFilters sub)) then
          mret (Some (closeSubscriptionWithReason w (SubID sub) "error: not allowed to access the requested data" None))
        else mret None
      else mret None
  | None => mret None
  end.

(* src: server/ws/subscriptions.go 362-406 *)
Definition handleReq (n : nat) (u : UserDataContext) (w p : nat) : H unit :=
  refused ← refused_req w p;
  match refused with
  | Some answer => answer
  | None =>
      prepareSubscription u p ;; linkSubscription w p ;;
      unlink_on_error w p (stream_req n u w p)
  end.

(** *** EVENT *)

(* src: server/ws/subscriptions.go 409-425 [handleEvents] *)
Definition events_refused (w : nat) (events : list Event) : H unit :=
  match eventMustAuth with
  | Some must =>
      if must events then
        m ← metadata w;
        let status := authConnGetState m in
        if negb (Authenticated status) then
          challenge ← challenge_of w;
          writeResponse w (AuthEnvelope challenge) ;; fail (err errAuthRequired)
        else if negb (IsEventAllowed status events) then fail opaque_error
        else done_
      else done_
  | None => done_
  end.

Definition validate_batch (u : UserDataContext) (events : list Event) (rules : list Rule) : check :=
  Validate (E := request u) GetAll_is_nil global fuel global events rules.

(* src: server/ws/subscriptions.go 408-448 *)
Definition handleEvents (u : UserDataContext) (w : nat) (events : list Event) : H unit :=
  events_refused w events ;;
  match validate_batch u events [] with
  | Err x => fail (if error_is x ErrEphemeralForbidden then err ErrRelayAuthoritative else x)
  | Panic => lift_h Panic
  | OutOfFuel => lift_h OutOfFuel
  | Ok _ =>
      match wsEventListener with
      | None => lift_h Panic
      | Some listener =>
          e ← attempt (listener u events);
          match e with
          | None => done_
          | Some x => fail (if error_is x ErrReadOnly then err errRelayReadOnly
                            else if error_is x ErrRaceCondition then err errDuplicate else x)
          end
      end
  end.

(** *** The broadcast of new events *)

(** One subscription the index found; the number counts the subscriptions. *)
(* src: server/ws/subscriptions.go 459-479 [BroadcastNewEvents] *)
Definition broadcast_to (ev : Event) (number : Z) (pair : subscriptionPair) : H Z :=
  m ← metadata (Writer pair);
  sub ← load (Source pair);
  ok ← lift_h (canForwardLiveEvent global (SubFilters sub) ev (authConnGetState m));
  if negb ok then mret number
  else
    (if IsLive sub then attempt (writeResponse (Writer pair) (EventEnvelope (SourceID pair) ev)) ;; done_
     else sub ← lift_h (Push sub ev); store (Source pair) sub) ;;
    mret (number + 1).

(** The callback of the iteration goes on unless it panics. *)
(* src: server/ws/subscriptions.go 458-480 [BroadcastNewEvents] *)
Definition broadcast_event (number : Z) (ev : Event) : H Z := fun s =>
  StorageLookup (Subscriptions s) ev (fun '(s, r) pair =>
    match r with
    | Ok number => match broadcast_to ev number pair s with (s, Ok n) => ((s, Ok n), true) | (s, r) => ((s, r), false) end
    | _ => ((s, r), false)
    end) (s, Ok number).

(* src: server/ws/subscriptions.go 456-483 *)
Definition BroadcastNewEvents (events : list Event) : H Z := for_h events 0 broadcast_event.

(* src: server/ws/ws.go 231-259 *)
Definition handleBroadcast (u : UserDataContext) (events : list Event) : H unit :=
  if negb (Authenticated u) then done_
  else if UPublicKey u ≠s? BroadcastPublicKey then done_
  else
    match validate_batch u events [RuleWithBroadcastMode; RuleWithSkipProfileMetadataProofEventsVerify;
      RuleWithSkipRootContentNFTCollectionsValidation] with
    | Err _ => done_
    | Panic => lift_h Panic
    | OutOfFuel => lift_h OutOfFuel
    | Ok _ => match wsBroadcastEventListener with Some listener => attempt (listener u events) ;; done_ | None => done_ end
    end.

(** *** Messages *)

(** What [nostr.ParseMessage] returns. *)
Inductive message : Type :=
  | EventMessage (events : list Event)
  | AuthMessage (e : Event)
  | ReqMessage (subscriptionID : string) (filters : list Filter)
  | CountMessage (subscriptionID : string) (filters : list Filter)
  | CloseMessage (subscriptionID : string)
  | BroadcastMessage (relay : string) (events : list Event)
  | OtherMessage.

(* src: server/ws/ws.go 115-121 *)
Definition populateContext (w : nat) : H UserDataContext :=
  m ← metadata w;
  let state := authConnGetState m in
  mret (if Authenticated state then state else no_user).

(** One answer per event, until a write fails. *)
(* src: server/ws/ws.go 172-188 [Handle] *)
Fixpoint answer_events (w : nat) (x : option error) (events : list Event) : H unit :=
  match events with
  | [] => done_
  | ev :: events =>
      let ok := MkOK (ID ev) (bool_decide (x = None)) "" x in
      e ← attempt (writeResponse w (OKEnvelope_ ok));
      match e with None => answer_events w x events | Some _ => done_ end
  end.

(* src: server/ws/auth.go 82-137 *)
Definition handle_auth (w : nat) (e : Event) : H OKEnvelope := fun s =>
  match handleAuth (E := request no_user) GetAll_is_nil global fuel RelayURL (default ∅ (conns s !! w)) e with
  | Ok (resp, m) => (with_metadata s w m, Ok resp)
  | Err x => (s, Err x) | Panic => (s, Panic) | OutOfFuel => (s, OutOfFuel)
  end.

Definition close_conn (w : nat) : H unit := fun s => (with_output s (Closed w), Ok ()).

(** The error of a message, and whether the connection is closed when the
    handler returns. *)
(* src: server/ws/ws.go 160-222 [Handle] *)
Definition handle_message (n : nat) (w : nat) (input : message) : H (option error * bool) :=
  let keep (m : H unit) : H (option error * bool) := e ← attempt m; mret (e, false) in
  match input with
  | EventMessage events =>
      u ← populateContext w;
      x ← attempt (handleEvents u w events); keep (answer_events w x events)
  | AuthMessage e => resp ← handle_auth w e; keep (writeResponse w (OKEnvelope_ resp))
  | ReqMessage id filters =>
      u ← populateContext w;
      sub ← lift_h (NewSubscription id filters); p ← allocate sub; keep (handleReq n u w p)
  | CountMessage id filters =>
      match CountEvents filters with
      | Ok count => keep (writeResponse w (CountEnvelope id count))
      | Err x => e ← attempt (writeResponse w (ClosedEnvelope id "" (Some x))); mret (e, true)
      | Panic => lift_h Panic
      | OutOfFuel => lift_h OutOfFuel
      end
  | CloseMessage id => unlinkSubscription w (Some id) ;; mret (None, false)
  | BroadcastMessage relay events => u ← populateContext w; keep (handleBroadcast u events)
  | OtherMessage => mret (Some opaque_error, false)
  end.

Context (ParseMessage : string -> outcome message).

Definition notice (w : nat) (x : error) : H unit := attempt (writeResponse w (NoticeEnvelope x)) ;; done_.

(** The errors of a message are told to the client and to the log. *)
(* src: server/ws/ws.go 150-229 *)
Definition Handle (n : nat) (w : nat) (msgBytes : string) : H unit :=
  match ParseMessage msgBytes with
  | Err x => notice w x
  | Panic => lift_h Panic
  | OutOfFuel => lift_h OutOfFuel
  | Ok input =>
      r ← handle_message n w input;
      (match fst r with None => done_ | Some x => notice w x end) ;;
      (if (snd r : bool) then close_conn w else done_)
  end.

(** The messages of a connection, then its end; every message is handled in a
    goroutine of its own: this is the run in which each one finishes before
    the next is read. *)
(* src: server/ws/ws.go 85-113 *)
Definition Read (n : nat) (w : nat) (messages : list string) : H unit :=
  for_h messages () (fun _ m => Handle n w m) ;;
  unlinkSubscription w None ;; done_.
End Handlers.
