(* ===== verification/Forwarding.v ===== *)
(** * Package server/ws: what is written to a connection

    Theorems about src/server/ws/limiter.go and subscriptions.go: the limits of
    a REQ, who receives a new event, who may read and write, and what a
    subscription with a reserved id does to its connection. *)

From S2P Require Import Prelude GoStd Nostr Model OnBehalf Filters Subscription Matcher Content Validator TagRules Community Membership Validate QueryFilter QueryBuilder QuerySafety Auth Handler.
Import Strings.

(** ** The limits of a REQ *)

Definition total_limit (fs : list Filter) : Z := foldr (fun f n => Limit f + n) 0 fs.

Lemma total_limit_bound l fs : Forall (fun f => 1 <= Limit f <= l) fs -> total_limit fs <= zlen fs * l.
Proof.
  unfold zlen. induction 1 as [|f fs Hf _ IH]; [done|]. cbn [total_limit foldr length]. fold (total_limit fs). lia.
Qed.

Lemma limits_spec fs :
  fs ≠ [] -> let l := Z.quot 100 (zlen fs) in
  Forall (fun f => if l =? 0 then Limit f = 0 else 1 <= Limit f <= l) (applySubscriptionLimit fs) /\
  Forall2 (fun f g => g = limited f (Limit g)) fs (applySubscriptionLimit fs).
Proof.
  intros Hne l. assert (Hp : 0 < zlen fs) by (destruct fs; [done|unfold zlen; cbn; lia]).
  assert (Hl : 0 <= l) by (apply Z.quot_pos; lia). clear Hp.
  assert (Heq : applySubscriptionLimit fs = (fun f => if (l <? Limit f) || (Limit f <=? 0) then limited f l else f) <$> fs).
  { unfold applySubscriptionLimit, defaultLimitREQ. destruct fs; done. }
  rewrite Heq. clear Heq Hne. clearbody l. split.
  - apply Forall_fmap, Forall_true. intros f. unfold compose.
    destruct (Z.ltb_spec l (Limit f)), (Z.leb_spec (Limit f) 0), (Z.eqb_spec l 0); cbn; lia.
  - induction fs as [|f fs IH]; constructor; [|done]. destruct (_ || _); [done|]. by destruct f.
Qed.

(** Without a limit a statement reads 300 events. *)
Lemma BuildCTE_unlimited {N : Nostr} {G : GoText} {E : Env} {TM : TagMaps} {U : Unicode} f b cte b' :
  Limit (SFilter f) = 0 -> BuildCTE f b = Ok (cte, b') -> Params b' !! (FID f +:+ "limit") = Some (AInt 300).
Proof.
  intros Hl. unfold BuildCTE. intros ([u w] & _ & H)%bind_Ok. rewrite Hl in H. cbn [Z.eqb] in H. cbv zeta in H.
  apply bind_Ok in H as ([[[j o] fields] b1] & _ & H). change (FID (with_limit f whereBuilderDefaultLimit)) with (FID f) in H.
  destruct (if _ && _ then _ else _) as [o' fields']. cbn in H. injection H as _ <-. cbn. by rewrite lookup_insert_eq.
Qed.

(** The limits of a REQ of one to a hundred filters (none counts as one)
    are positive and together at most a hundred; with more filters every limit
    is 0, and the statement of each filter is limited to 300 events instead. *)
Lemma applySubscriptionLimit_bounds {N : Nostr} {G : GoText} {E : Env} {TM : TagMaps} {U : Unicode} fs :
  if (length fs <=? 100)%nat then
    Forall (fun f => 1 <= Limit f <= 100) (applySubscriptionLimit fs) /\ total_limit (applySubscriptionLimit fs) <= 100
  else Forall (fun f => Limit f = 0 /\ forall search b cte b', SFilter search = f -> BuildCTE search b = Ok (cte, b') ->
      Params b' !! (FID search +:+ "limit") = Some (AInt 300)) (applySubscriptionLimit fs).
Proof.
  destruct fs as [|f0 fs0]; [cbn; split; [by repeat constructor|done]|].
  set (fs := f0 :: fs0). assert (Hne : fs ≠ []) by done. clearbody fs. clear f0 fs0.
  destruct (limits_spec fs Hne) as [Hl Hf]. pose proof (Forall2_length _ _ _ Hf) as Hlen. revert Hl.
  assert (Hpos : (0 < length fs)%nat) by (destruct fs; [done|cbn; lia]).
  destruct (Nat.leb_spec (length fs) 100) as [Hle|Hgt].
  - assert (H1 : 1 <= 100 ÷ zlen fs).
    { rewrite Z.quot_div_nonneg by (unfold zlen; lia). apply Z.div_le_lower_bound; unfold zlen; lia. }
    rewrite (proj2 (Z.eqb_neq _ _)) by lia. intros Hl.
    assert (H2 : zlen fs * (100 ÷ zlen fs) <= 100).
    { rewrite Z.quot_div_nonneg by (unfold zlen; lia). apply Z.mul_div_le. unfold zlen. lia. }
    split.
    + eapply Forall_impl; [exact Hl|]. intros f Hb. cbn beta in Hb. unfold zlen in *. nia.
    + pose proof (total_limit_bound _ _ Hl) as Ht. unfold zlen in *. rewrite <- Hlen in Ht. lia.
  - assert (100 ÷ zlen fs = 0) as -> by (apply Z.quot_small; unfold zlen; lia). cbn.
    intros Hl. eapply Forall_impl; [exact Hl|]. intros f Hz. split; [done|]. intros search b cte b' Hs.
    apply BuildCTE_unlimited. by rewrite Hs.
Qed.

(** ** New events *)

Section Broadcast.
Context {N : Nostr} (global : eventValidator).
Context (write_error : Server -> nat -> Envelope -> option error).
#[local] Abbreviation broadcast_to := (broadcast_to global write_error).
#[local] Abbreviation broadcast_event := (broadcast_event global write_error).
#[local] Abbreviation BroadcastNewEvents := (BroadcastNewEvents global write_error).

Definition conn_state (s : Server) (w : nat) : UserDataContext := authConnGetState (default ∅ (conns s !! w)).

(** The index found the subscription [p] of the connection [w] for the event,
    and the connection may receive it. *)
Definition receives (s : Server) (ev : Event) (p : nat) (id : string) (w : nat) (sub : Subscription) : Prop :=
  MkPair p id w ∈ found (Subscriptions s) ev /\ heap s !! p = Some sub /\
  canForwardLiveEvent global (SubFilters sub) ev (conn_state s w) = Ok true.

(** What a broadcast over [events] may have done to [s0]. *)
Record broadcast_from (events : list Event) (s0 s : Server) : Prop := {
  bf_index : Subscriptions s = Subscriptions s0;
  bf_conns : conns s = conns s0;
  bf_outputs : exists new, outputs s = outputs s0 ++ new /\
    Forall (fun o => exists ev p id w sub, o = Written w (EventEnvelope id ev) /\ ev ∈ events /\
      receives s0 ev p id w sub /\ live sub = true) new;
  bf_heap : forall p sub, heap s !! p = Some sub -> exists sub0, heap s0 !! p = Some sub0 /\
    SubFilters sub = SubFilters sub0 /\ live sub = live sub0 /\
    forall ev, ev ∈ pending sub -> ev ∈ pending sub0 \/
      (ev ∈ events /\ live sub0 = false /\ exists id w, receives s0 ev p id w sub0)
}.

Lemma broadcast_from_refl events s : broadcast_from events s s.
Proof.
  split; [done..|exists []; by rewrite List.app_nil_r|]. intros p sub Hp. exists sub. split_and!; auto.
Qed.

Lemma Push_pending sub ev sub' : Push sub ev = Ok sub' ->
  SubFilters sub' = SubFilters sub /\ live sub' = live sub /\
  forall e, e ∈ pending sub' -> e ∈ pending sub \/ e = ev.
Proof.
  unfold Push. destruct (Reduce sub ev); [intros [= <-]; auto|]. destruct (addresses sub !! _) as [i|].
  - destruct (_ <? _)%nat; [|done]. intros [= <-]. cbn. split_and!; [done..|]. intros e He.
    apply list_elem_of_lookup in He as [j Hj]. destruct (decide (i = j)) as [->|Hij].
    + rewrite list_lookup_insert_eq in Hj; [right; congruence|]. apply lookup_lt_Some in Hj. by rewrite length_insert in Hj.
    + rewrite list_lookup_insert_ne in Hj by done. left. by eapply list_elem_of_lookup_2.
  - intros [= <-]. cbn. split_and!; [done..|]. intros e He%elem_of_app. set_solver.
Qed.

Lemma broadcast_to_spec events s0 s ev n pair :
  ev ∈ events -> pair ∈ found (Subscriptions s0) ev -> broadcast_from events s0 s ->
  broadcast_from events s0 (broadcast_to ev n pair s).1.
Proof.
  intros Hev Hpair [Hi Hc Ho Hh]. destruct pair as [p id w]. unfold Handler.broadcast_to, mbind, H_bind, metadata, load.
  cbn [Writer Source SourceID]. destruct (heap s !! p) as [sub|] eqn:Hp; [|by split].
  destruct (Hh p sub Hp) as (sub0 & Hp0 & Hf & Hl & Hq).
  unfold lift_h. destruct (canForwardLiveEvent _ _ _ _) as [ok|x| |] eqn:Hok; try by split.
  destruct ok; cbn [negb]; [|by split].
  assert (Hrec : receives s0 ev p id w sub0).
  { split_and!; [done..|]. unfold conn_state. by rewrite <- Hf, <- Hc. }
  unfold IsLive. destruct (live sub) eqn:Hlive.
  - unfold attempt, writeResponse, mret, H_ret. destruct (write_error _ _ _); cbn; [by split|]. split; [done..| |done].
    destruct Ho as (new & Hn & Hgood). exists (new ++ [Written w (EventEnvelope id ev)]). cbn. rewrite Hn, <- List.app_assoc.
    split; [done|]. apply Forall_app. split; [done|]. constructor; [|constructor].
    exists ev, p, id, w, sub0. split_and!; [done..|congruence].
  - destruct (Push sub ev) as [sub'|x| |] eqn:Hpush; [|by split..]. cbn.
    apply Push_pending in Hpush as (Hf' & Hl' & Hq'). split; [done..|]. cbn. intros p' sub1 Hp1.
    destruct (decide (p' = p)) as [->|Hne]; [|rewrite lookup_insert_ne in Hp1 by done; by apply Hh].
    rewrite lookup_insert_eq in Hp1. injection Hp1 as <-. exists sub0. split_and!; [done|congruence|congruence|].
    intros e [He|He]%Hq'; [by apply Hq|]. subst e. right. split_and!; [done|congruence|by exists id, w].
Qed.

Lemma broadcast_event_spec events s0 s ev n :
  ev ∈ events -> broadcast_from events s0 s -> broadcast_from events s0 (broadcast_event n ev s).1.
Proof.
  intros Hev Hs. unfold Handler.broadcast_event. rewrite StorageLookup_found, (bf_index _ _ _ Hs).
  assert (Hsub : forall pair, pair ∈ found (Subscriptions s0) ev -> pair ∈ found (Subscriptions s0) ev) by done.
  revert Hsub. generalize (found (Subscriptions s0) ev) at 1 3. intros pairs. revert n s Hs.
  induction pairs as [|pair pairs IH]; intros n s Hs Hsub; cbn [until_stopped]; [done|].
  pose proof (broadcast_to_spec events s0 s ev n pair Hev (Hsub pair ltac:(by left)) Hs) as Hb.
  destruct (broadcast_to ev n pair s) as [s' [n'|x| |]]; [|exact Hb..].
  apply IH; [exact Hb|]. intros pair' Hin. apply Hsub. by right.
Qed.

Lemma BroadcastNewEvents_spec events s : broadcast_from events s (BroadcastNewEvents events s).1.
Proof.
  enough (forall es s' n, es ⊆ events -> broadcast_from events s s' ->
    broadcast_from events s (for_h es n broadcast_event s').1) as H by (apply H; [done|apply broadcast_from_refl]).
  intros es s' n Hsub Hs. revert s' n Hs Hsub.
  induction es as [|ev es IH]; intros s' n Hs Hsub; cbn [for_h]; [done|].
  pose proof (broadcast_event_spec events s s' ev n (Hsub ev ltac:(by left)) Hs) as Hb.
  unfold mbind, H_bind. destruct (broadcast_event n ev s') as [s1 [n'|x| |]]; [|exact Hb..].
  apply IH; [exact Hb|]. intros e He. apply Hsub. by right.
Qed.


Lemma canForwardLiveEvent_gift_wrap filters ev data :
  Kind ev = KindGiftWrap -> canForwardLiveEvent global filters ev data = Ok true ->
  exists t, t ∈ EvTags ev /\ names_device (MasterPublicKey data) (UPublicKey data) t = true.
Proof.
  intros Hk. unfold canForwardLiveEvent. destruct (FiltersMatch _ _ _ _); [|done]. cbn [negb].
  destruct (canForwardEvent _ _ _ _) eqn:Hc; [|done]. intros _. revert Hc. unfold canForwardEvent.
  destruct (_ && _); [done|]. rewrite bool_decide_eq_true_2 by (unfold protectedEventKindsE2E; rewrite Hk; by left).
  cbn [negb]. intros (t & Hin & Ht)%existsb_exists. exists t. by apply list_elem_of_In in Hin.
Qed.

(** A broadcast writes a gift wrap only to connections authenticated as a
    device that one of its tags names, alone or with its account. *)
Lemma gift_wrap_private events s new w id ev :
  outputs (BroadcastNewEvents events s).1 = outputs s ++ new ->
  Written w (EventEnvelope id ev) ∈ new -> Kind ev = KindGiftWrap ->
  exists t, t ∈ EvTags ev /\
    names_device (MasterPublicKey (conn_state s w)) (UPublicKey (conn_state s w)) t = true.
Proof.
  intros Ho Hin Hk. destruct (bf_outputs _ _ _ (BroadcastNewEvents_spec events s)) as (new' & Ho' & Hnew).
  rewrite Ho in Ho'. apply app_inv_head in Ho'. subst new'. rewrite Forall_forall in Hnew.
  destruct (Hnew _ Hin) as (ev' & p & id' & w' & sub & [= <- <- <-] & _ & (_ & _ & Hok) & _).
  by eapply canForwardLiveEvent_gift_wrap.
Qed.
End Broadcast.

(** ** What a connection may publish and read *)

Section Requests.
Context {N : Nostr} {G : GoText} {J : GoJSON} {C : Crypto} {R : RichText} {GJ : GoGJSON} {TM : TagMaps} `{W : Nip42}.
Context (GetAll_is_nil : Tags -> list string -> bool) (global : eventValidator) (fuel : nat) (time : Z).
Context (RelayURL : string) (RemoteAddr : nat -> string) (xxh3 : string -> Z).
Context (generateChallenge : nat -> Server -> string) (write_error : Server -> nat -> Envelope -> option error)
  (ctx_err : Server -> option error) (GetStoredEvents : list Filter -> EventIterator).
Context (reqMustAuth : option (Subscription -> bool)) (eventMustAuth : option (list Event -> bool))
  (wsSubscriptionListeners : option (list (list Filter -> EventIterator)))
  (wsEventListener : option (UserDataContext -> list Event -> H unit)).
#[local] Abbreviation handleEvents :=
  (handleEvents GetAll_is_nil global fuel time generateChallenge write_error eventMustAuth wsEventListener).
#[local] Abbreviation handleReq :=
  (handleReq RemoteAddr xxh3 generateChallenge write_error ctx_err GetStoredEvents reqMustAuth wsSubscriptionListeners).

(** The connection may publish the events. *)
Definition may_publish (s : Server) (w : nat) (events : list Event) : Prop :=
  match eventMustAuth with
  | Some must => must events = true ->
      Authenticated (conn_state s w) = true /\ IsEventAllowed (conn_state s w) events = true
  | None => True
  end.

Lemma events_refused_spec s w events :
  match events_refused generateChallenge write_error eventMustAuth w events s with
  | (s', Ok _) => s' = s /\ may_publish s w events
  | (s', _) => ~ may_publish s w events
  end.
Proof.
  unfold events_refused, may_publish. destruct eventMustAuth as [must|]; [|done].
  destruct (must events); [|done]. unfold mbind, H_bind, metadata. fold (conn_state s w).
  destruct (Authenticated (conn_state s w)) eqn:Ha; cbn [negb].
  - destruct (IsEventAllowed (conn_state s w) events) eqn:He; cbn [negb]; [done|]. cbn. intros H. by destruct (H eq_refl).
  - destruct (challenge_of _ _ _) as [s1 [c|x| |]]; try (intros H; by destruct (H eq_refl)).
    destruct (writeResponse _ _ _ _) as [s2 [[]|x| |]]; cbn; intros H; by destruct (H eq_refl).
Qed.

(** Events reach the listener exactly when the connection may publish
    them (authenticated and with their kinds allowed, where main asks for it)
    and the whole batch is valid for it; success is the listener's. *)
Lemma handleEvents_accepts u w events s s' :
  handleEvents u w events s = (s', Ok ()) <->
  may_publish s w events /\ validate_batch GetAll_is_nil global fuel time u events [] = pass /\
  exists listener, wsEventListener = Some listener /\ listener u events s = (s', Ok ()).
Proof.
  unfold Handler.handleEvents. unfold mbind at 1, H_bind at 1. pose proof (events_refused_spec s w events) as Hr.
  destruct (events_refused _ _ _ _ _ _) as [s1 [[]|x| |]];
    [|split; [done|intros [? _]; done]..]. destruct Hr as [-> Hp].
  destruct (validate_batch _ _ _ _ _ _ _) as [[]|x| |]; try (split; [done|by intros (_ & ? & _)]).
  destruct wsEventListener as [listener|]; [|split; [done|by intros (_ & _ & ? & ? & _)]].
  unfold mbind, H_bind, attempt. split.
  - destruct (listener u events s) as [s2 [[]|x| |]] eqn:Hl; try done. intros H. injection H as <-.
    split_and!; [done..|]. by exists listener.
  - intros (_ & _ & l & [= <-] & Hl). by rewrite Hl.
Qed.

(** The answers to a REQ that is refused. *)
Definition refusal (w : nat) (id : string) (o : output) : Prop :=
  exists e, o = Written w e /\ match e with AuthEnvelope _ => True | ClosedEnvelope id' _ _ => id' = id | _ => False end.

(** Messages were added, all of them answers. *)
Definition answers (w : nat) (id : string) (s s' : Server) : Prop :=
  heap s' = heap s /\ exists new, outputs s' = outputs s ++ new /\ Forall (refusal w id) new.
Lemma answers_silent w id s s' : heap s' = heap s -> outputs s' = outputs s -> answers w id s s'.
Proof. intros Hh Ho. split; [done|]. exists []. by rewrite List.app_nil_r. Qed.
Lemma answers_trans w id s1 s2 s3 : answers w id s1 s2 -> answers w id s2 s3 -> answers w id s1 s3.
Proof.
  intros [H1 (n1 & O1 & F1)] [H2 (n2 & O2 & F2)]. split; [congruence|]. exists (n1 ++ n2).
  rewrite O2, O1, List.app_assoc. split; [done|]. by apply Forall_app.
Qed.
Lemma answers_bind {A A'} w id (m : H A) (k : A -> H A') s :
  answers w id s (m s).1 -> (forall a s', answers w id s' (k a s').1) -> answers w id s ((mbind k m) s).1.
Proof.
  intros Hm Hk. unfold mbind, H_bind. destruct (m s) as [s' [a|x| |]]; cbn in *; [|done..].
  by eapply answers_trans.
Qed.
Lemma writeResponse_answers w id e s : refusal w id (Written w e) -> answers w id s (writeResponse write_error w e s).1.
Proof.
  intros He. unfold writeResponse. destruct (write_error _ _ _); cbn; [by apply answers_silent|].
  split; [done|]. exists [Written w e]. by repeat constructor.
Qed.
Lemma closeSubscription_answers w id reason cause s :
  answers w id s (closeSubscriptionWithReason RemoteAddr xxh3 write_error w id reason cause s).1.
Proof.
  unfold closeSubscriptionWithReason. apply answers_bind.
  - unfold unlinkSubscription, mbind, H_bind, metadata, remove_pair.
    destruct (StorageRemove _ _ _) as [[x []]|x| |]; cbn; by apply answers_silent.
  - intros _ s'. apply writeResponse_answers. by eexists.
Qed.

(** Where main asks for authentication, a REQ of a connection that is not
    authenticated, or not for all the kinds the filters name, is answered with
    a challenge or the end of the subscription only: nothing is read, no
    subscription changes and no event is written. *)
Lemma handleReq_refused n u w p s must sub :
  reqMustAuth = Some must -> heap s !! p = Some sub -> must sub = true ->
  Authenticated (conn_state s w) && IsFilterAllowed (conn_state s w) (SubFilters sub) = false ->
  answers w (SubID sub) s (handleReq n u w p s).1.
Proof.
  intros Hm Hp Hs Hr. unfold Handler.handleReq, refused_req, load, metadata. rewrite Hm.
  unfold mbind at 1, H_bind at 1. unfold mbind at 1, H_bind at 1. rewrite Hp, Hs.
  unfold mbind at 1, H_bind at 1. fold (conn_state s w).
  destruct (Authenticated (conn_state s w)); cbn [negb andb] in *.
  - rewrite Hr. cbn [negb]. apply closeSubscription_answers.
  - apply answers_bind.
    + unfold challenge_of. destruct (authConnGenerateChallenge _ _) as [[c m]|x| |]; cbn; by apply answers_silent.
    + intros c s'. apply answers_bind; [apply writeResponse_answers; by eexists|]. intros _ s2.
      apply closeSubscription_answers.
Qed.
End Requests.

(** ** Concrete inputs *)
Module ForwardingWitness.
Import QueryPlain.

Definition writes : Server -> nat -> Envelope -> option error := fun _ _ _ => None.
Definition none : eventValidator := MkValidator None (fun _ => []) [].
Definition wraps : Filter := MkFilter None (Some [1059]) None None None None None 0 "".
Definition subscription : Subscription := MkSubscription ∅ None "s" [wraps] [] true false.
Definition pair : subscriptionPair := MkPair 0 "s" 7.
Definition device : UserDataContext := MkUserData ∅ "dev" "master" "" true true.
Definition index_of : Storage subscriptionPair :=
  match StorageIndex (fun _ => 1) (NewMatcherStorage 1 1) [wraps] pair with Ok s => s | _ => NewMatcherStorage 1 1 end.
Definition server (m : Metadata) : Server := MkServer index_of {[ 0%nat := subscription ]} {[ 7%nat := m ]} [].
Definition session : Metadata := {[ connMetadataAuthKey := MUser device ]}.
Definition wrap : Event := MkEvent None "g" "x" 5 1059 [["p"; "dev"]] "" "".

Lemma gift_wrap_private_witness :
  exists t, t ∈ EvTags wrap /\
    names_device (MasterPublicKey (conn_state (server session) 7)) (UPublicKey (conn_state (server session) 7)) t = true.
Proof.
  apply (gift_wrap_private none writes [wrap] (server session) [Written 7 (EventEnvelope "s" wrap)] 7 "s" wrap);
    [vm_compute; reflexivity|by left|reflexivity].
Defined.

Lemma handleReq_refused_witness :
  answers 7 "s" (server ∅)
    (handleReq (fun _ => "addr") (fun _ => 1) (fun _ _ => "xyz") writes (fun _ => None) (fun _ => [])
      (Some (fun _ => true)) None 5 no_user 7 0 (server ∅)).1.
Proof.
  apply (handleReq_refused (fun _ => "addr") (fun _ => 1) (fun _ _ => "xyz") writes (fun _ => None) (fun _ => [])
    (Some (fun _ => true)) None 5 no_user 7 0 (server ∅) (fun _ => true) subscription); reflexivity.
Defined.

Example asked_to_authenticate :
  outputs (handleReq (fun _ => "addr") (fun _ => 1) (fun _ _ => "xyz") writes (fun _ => None) (fun _ => [])
      (Some (fun _ => true)) None 5 no_user 7 0 (server ∅)).1 =
  [Written 7 (AuthEnvelope "xyz"); Written 7 (ClosedEnvelope "s" errAuthRequired_text None)].
Proof. vm_compute. reflexivity. Qed.
End ForwardingWitness.
