(* ===== verification/Delivery.v ===== *)
(** * Package server/ws: streams, and the hand-over to live events

    Theorems about src/server/ws/subscriptions.go: the paging of gift wraps, a
    subscription under a reserved id, and the interleaving of a REQ that goes
    live with broadcasts of new events. *)

From S2P Require Import Prelude GoStd Nostr Model OnBehalf Filters Subscription Matcher Content Validator TagRules Community Membership Validate QueryFilter QueryBuilder Auth Handler.
Import Strings.

Lemma default_last {A B} (f : A -> B) d x l : default (f x) (f <$> last l) = default d (f <$> last (x :: l)).
Proof.
  destruct l as [|y l]; [done|]. rewrite last_cons_cons. destruct (last (y :: l)) eqn:Hl; [done|]. by apply last_None in Hl.
Qed.

Section Streams.
Context {N : Nostr}.
Context (write_error : Server -> nat -> Envelope -> option error) (ctx_err : Server -> option error)
  (GetStoredEvents : list Filter -> EventIterator).
#[local] Abbreviation stream_one := (stream_one write_error).
#[local] Abbreviation gift_wrap_pages := (gift_wrap_pages write_error ctx_err GetStoredEvents).

(** ** One page *)

(** An iterator that yields no error. *)
Definition yields (it : EventIterator) (evs : list Event) : Prop := it = (fun e => (Some e, None)) <$> evs.

Lemma stream_one_Ok w p st ex s s' st' :
  stream_one w p st ex s = (s', Ok st') -> exists ev, ex = (Some ev, None) /\ st' = (CreatedAt ev, st.2 + 1).
Proof.
  destruct ex as [oe ox]. unfold Handler.stream_one, fail, lift_h, mbind, H_bind, load. cbn.
  destruct ox; [done|]. destruct oe as [ev|]; [|done]. cbn. destruct (heap s !! p) as [sub|]; [|done].
  destruct (Reduce sub ev); [intros [= <- <-]; by eexists|].
  destruct (writeResponse _ _ _ _) as [s1 [[]|x| |]]; try done. intros [= <- <-]. by eexists.
Qed.

Lemma page_Ok w p it st s s' st' :
  for_h it st (stream_one w p) s = (s', Ok st') ->
  exists evs, yields it evs /\ st' = (default st.1 (CreatedAt <$> last evs), st.2 + zlen evs).
Proof.
  revert st s. induction it as [|ex it IH]; intros st s; cbn [for_h].
  { intros [= <- <-]. exists []. split; [done|]. cbn. by rewrite Z.add_0_r, <- surjective_pairing. }
  unfold mbind, H_bind. destruct (stream_one w p st ex s) as [s1 [st1|x| |]] eqn:H1; try done. intros H2.
  apply stream_one_Ok in H1 as (ev & -> & ->). apply IH in H2 as (evs & Hy & ->).
  exists (ev :: evs). split; [by rewrite Hy|]. cbn [fst snd]. f_equal; [|unfold zlen; cbn [length]; lia].
  apply default_last.
Qed.

Lemma stream_one_fuel w p st ex s : (stream_one w p st ex s).2 ≠ OutOfFuel.
Proof.
  destruct ex as [oe ox]. unfold Handler.stream_one, fail, lift_h, mbind, H_bind, load, writeResponse. cbn.
  destruct ox; [done|]. destruct oe as [ev|]; [|done]. cbn. destruct (heap s !! p) as [sub|]; [|done].
  destruct (Reduce sub ev); [done|]. by destruct (write_error _ _ _).
Qed.

Lemma page_fuel w p it st s : (for_h it st (stream_one w p) s).2 ≠ OutOfFuel.
Proof.
  revert st s. induction it as [|ex it IH]; intros st s; cbn [for_h]; [done|]. unfold mbind, H_bind.
  pose proof (stream_one_fuel w p st ex s) as H1.
  destruct (stream_one w p st ex s) as [s1 [st1|x| |]]; cbn in *; [apply IH|done..].
Qed.

(** A page of a connection that can be written to. *)
Lemma stream_one_run w p ev st s sub :
  (forall s env, write_error s w env = None) -> heap s !! p = Some sub ->
  exists s', stream_one w p st (Some ev, None) s = (s', Ok (CreatedAt ev, st.2 + 1)) /\ heap s' = heap s.
Proof.
  intros Hw Hp. unfold Handler.stream_one, lift_h, mbind, H_bind, load, writeResponse. cbn. rewrite Hp.
  destruct (Reduce sub ev); [by eexists|]. rewrite Hw. by eexists.
Qed.

Lemma page_run w p evs st s sub :
  (forall s env, write_error s w env = None) -> heap s !! p = Some sub ->
  exists s', for_h ((fun e => (Some e, None)) <$> evs) st (stream_one w p) s =
    (s', Ok (default st.1 (CreatedAt <$> last evs), st.2 + zlen evs)) /\ heap s' = heap s.
Proof.
  intros Hw. revert st s. induction evs as [|ev evs IH]; intros st s Hp; cbn [fmap list_fmap for_h].
  { exists s. split; [|done]. cbn. by rewrite Z.add_0_r, <- surjective_pairing. }
  destruct (stream_one_run w p ev st s sub Hw Hp) as (s1 & H1 & Hh1).
  destruct (IH (CreatedAt ev, st.2 + 1) s1) as (s2 & H2 & Hh2); [by rewrite Hh1|].
  exists s2. split; [|congruence]. unfold mbind, H_bind. rewrite H1.
  transitivity (s2, Ok (default (CreatedAt ev) (CreatedAt <$> last evs), st.2 + 1 + zlen evs)); [exact H2|].
  do 3 f_equal; [apply default_last|unfold zlen; cbn [length]; lia].
Qed.

(** ** The pages of gift wraps *)

(** Gift wraps are paged by the time of the last one: a filter bounded by
    a time at which at least a whole page of them was created is asked for the
    same page over and over, and the REQ never answers. *)
Lemma gift_wrap_stuck n w p f s sub t evs e :
  (forall s env, write_error s w env = None) -> (forall s, ctx_err s = None) -> heap s !! p = Some sub ->
  Until f = Some t -> (forall since, Since f = Some since -> TsAfter since t = false) ->
  yields (GetStoredEvents [f]) evs -> Limit f <= zlen evs -> last evs = Some e -> CreatedAt e = t ->
  (gift_wrap_pages n w p f s).2 = OutOfFuel.
Proof.
  intros Hw Hc Hp Hu Hs Hy Hl He Ht.
  assert (Hf : with_until f t = f) by (destruct f; cbn in *; by rewrite Hu).
  revert s Hp. induction n as [|n IH]; intros s Hp; [done|]. cbn [Handler.gift_wrap_pages].
  destruct (page_run w p evs (0, 0) s sub Hw Hp) as (s1 & H1 & Hh).
  unfold mbind, H_bind, cancelled. rewrite Hc. cbn. rewrite Hy, H1, He. cbn.
  rewrite (proj2 (Z.ltb_ge _ _)) by lia. rewrite Ht, Hf.
  destruct (Since f) as [since|] eqn:Hsi; [rewrite (Hs since eq_refl)|]; apply IH; by rewrite Hh.
Qed.

(** Where the page of a filter starts, in an order [rank] of the times: the
    numbers themselves, or the instants they stand for. *)
Definition page_bound (rank : Timestamp -> Z) (top : Z) (f : Filter) : Z :=
  match Until f with Some t => rank t | None => top + 1 end.

(** In any order of the times by which full pages end before the bound of
    their filter, the paging of gift wraps ends: one page per rank up to the
    bound is enough. *)
Lemma gift_wrap_terminates rank top w p f s n :
  (forall f evs, yields (GetStoredEvents [f]) evs ->
     Forall (fun e => 0 <= rank (CreatedAt e) <= top) evs /\
     (Limit f <= zlen evs -> forall e, last evs = Some e -> rank (CreatedAt e) < page_bound rank top f)) ->
  0 < Limit f -> page_bound rank top f + 1 <= Z.of_nat n -> (0 < n)%nat ->
  (gift_wrap_pages n w p f s).2 ≠ OutOfFuel.
Proof.
  intros Hpage. revert f s. induction n as [|n IH]; intros f s Hl Hn Hpos; [lia|]. cbn [Handler.gift_wrap_pages].
  unfold mbind, H_bind, cancelled, return_ctx_err. destruct (ctx_err s) as [x|] eqn:Hx; cbn; [by rewrite Hx|].
  pose proof (page_fuel w p (GetStoredEvents [f]) (0, 0) s) as Hfuel.
  destruct (for_h _ _ _ _) as [s1 [st|x| |]] eqn:Hrun; cbn in *; try done.
  apply page_Ok in Hrun as (evs & Hy & ->). destruct (Hpage f evs Hy) as [Hall Hlast]. cbn. rewrite Z.add_0_l.
  destruct (Z.ltb_spec (zlen evs) (Limit f)) as [|Hfull]; [by destruct (ctx_err s1)|].
  destruct (last evs) as [e|] eqn:He; cbn; [|apply last_None in He; subst evs; unfold zlen in Hfull; cbn in Hfull; lia].
  specialize (Hlast Hfull e eq_refl). rewrite Forall_forall in Hall.
  pose proof (Hall e (last_Some_elem_of _ _ He)) as Hb.
  assert (Hnext : (gift_wrap_pages n w p (with_until f (CreatedAt e)) s1).2 ≠ OutOfFuel).
  { apply IH; cbn; [done|lia|lia]. }
  destruct (Since f) as [since|]; [|exact Hnext].
  destruct (TsAfter since (CreatedAt e)); [by destruct (ctx_err s1)|exact Hnext].
Qed.
End Streams.

(** ** A subscription under a reserved id *)

Section Reserved.
Context {N : Nostr} {G : GoText} {J : GoJSON} {C : Crypto} {R : RichText} {GJ : GoGJSON} `{W : Nip42}.
Context (GetAll_is_nil : Tags -> list string -> bool) (global : eventValidator) (fuel : nat) (time : Z).
Context (RelayURL : string) (RemoteAddr : nat -> string) (xxh3 : string -> Z) (generateChallenge : nat -> Server -> string).

Lemma linkSubscription_metadata w p s s' sub :
  heap s !! p = Some sub -> OneShot sub = false -> linkSubscription RemoteAddr xxh3 w p s = (s', Ok ()) ->
  default ∅ (conns s' !! w) = Set_ (default ∅ (conns s !! w)) (SubID sub) (MSubscription p).
Proof.
  intros Hp Ho. unfold linkSubscription, mbind, H_bind, load, index_pair. rewrite Hp, Ho.
  destruct (StorageIndex _ _ _ _) as [x|x| |]; try done. unfold metadata, set_metadata, with_metadata. cbn.
  intros [= <-]. cbn. by rewrite lookup_insert_eq.
Qed.

(** Subscriptions share the keys of a connection's own data: once a REQ
    under the id of the challenge is linked, every AUTH message and every
    demand for authentication on that connection panics; under the id of the
    authentication the connection is no longer authenticated. *)
Lemma reserved_id w p s s' sub :
  heap s !! p = Some sub -> OneShot sub = false -> linkSubscription RemoteAddr xxh3 w p s = (s', Ok ()) ->
  (SubID sub = connMetadataChallengeKey ->
     (forall e, (handle_auth GetAll_is_nil global fuel time RelayURL w e s').2 = Panic) /\
     (challenge_of generateChallenge w s').2 = Panic) /\
  (SubID sub = connMetadataAuthKey -> authConnGetState (default ∅ (conns s' !! w)) = no_user).
Proof.
  intros Hp Ho Hl. pose proof (linkSubscription_metadata w p s s' sub Hp Ho Hl) as Hm.
  unfold handle_auth, challenge_of. rewrite Hm. split; intros ->; unfold Set_.
  - split; [intros e|]; unfold handleAuth, authConnGetChallenge, authConnGenerateChallenge, GetOrSet;
      by rewrite lookup_insert_eq.
  - unfold authConnGetState. by rewrite lookup_insert_eq.
Qed.
End Reserved.

(** ** Going live while events are broadcast *)

Section Live.
Context {N : Nostr}.

(** Where the REQ is: sending stored events, between [SetLive] and
    [GetPending], sending what it took, done. *)
Inductive req_phase : Type := Streaming | Flushing | Sending (l : list Event) | Answered.
(** Where the broadcast of an event to the subscription is: before [IsLive],
    after it with either answer, done. *)
Inductive task : Type := Looked (ev : Event) | SawLive (ev : Event) | SawQueue (ev : Event) | Told.

Record world : Type := MkWorld { wsub : Subscription; phase : req_phase; tasks : list task; delivered : list Event }.

(** The atomic steps: the operations of the subscription, under its lock, and
    the writes.
    src/server/ws/subscriptions.go: [handleReq], [streamEventsBuffered] and
    [BroadcastNewEvents]. *)
Inductive step : world -> world -> Prop :=
  | step_set_live sub ts d : step (MkWorld sub Streaming ts d) (MkWorld (SetLive sub) Flushing ts d)
  | step_get_pending sub ts d :
      step (MkWorld sub Flushing ts d) (MkWorld (GetPending sub).2 (Sending (GetPending sub).1) ts d)
  | step_send sub ev l ts d : step (MkWorld sub (Sending (ev :: l)) ts d) (MkWorld sub (Sending l) ts (d ++ [ev]))
  | step_answered sub ts d : step (MkWorld sub (Sending []) ts d) (MkWorld sub Answered ts d)
  | step_is_live sub ph ts d i ev : ts !! i = Some (Looked ev) ->
      step (MkWorld sub ph ts d) (MkWorld sub ph (<[i := if IsLive sub then SawLive ev else SawQueue ev]> ts) d)
  | step_write sub ph ts d i ev : ts !! i = Some (SawLive ev) ->
      step (MkWorld sub ph ts d) (MkWorld sub ph (<[i := Told]> ts) (d ++ [ev]))
  | step_push sub sub' ph ts d i ev : ts !! i = Some (SawQueue ev) -> Push sub ev = Ok sub' ->
      step (MkWorld sub ph ts d) (MkWorld sub' ph (<[i := Told]> ts) d).

(** The world in which a subscription was linked and events are looked up. *)
Definition start (id : string) (fs : list Filter) (r : option (Event -> bool)) (evs : list Event) : world :=
  MkWorld (MkSubscription ∅ r id fs [] false false) Streaming (Looked <$> evs) [].

(** Events on their way: written, taken from the queue, or in it. *)
Definition taken (ph : req_phase) : list Event := match ph with Sending l => l | _ => [] end.
Definition on_the_way (w : world) : list Event := delivered w ++ taken (phase w) ++ pending (wsub w).

Definition task_event (t : task) : option Event := match t with Looked e | SawLive e | SawQueue e => Some e | Told => None end.

(** An event the subscription does not skip is still being told, or the last
    event of its address is on the way. *)
Definition accounted (evs : list Event) (w : world) : Prop :=
  queue_wf (wsub w) /\ length (tasks w) = length evs /\
  forall i ev, evs !! i = Some ev ->
    (exists t, tasks w !! i = Some t /\ task_event t = Some ev) \/
    Reduce (wsub w) ev = true \/ Address ev ∈ Address <$> on_the_way w.

Lemma upsert_keeps q e a : a ∈ Address <$> q \/ a = Address e -> a ∈ Address <$> upsert q e.
Proof.
  rewrite upsert_Address. case_bool_decide as Hin; [intros [?| ->]; done|]. rewrite elem_of_app, list_elem_of_singleton. tauto.
Qed.

(** A step that keeps the subscription's filter and what is on the way, and
    finishes at most tasks that put their event on the way, keeps the account. *)
Lemma accounted_mono evs w w' :
  accounted evs w -> queue_wf (wsub w') -> length (tasks w') = length (tasks w) ->
  reduce (wsub w') = reduce (wsub w) ->
  (forall a, a ∈ Address <$> on_the_way w -> a ∈ Address <$> on_the_way w') ->
  (forall i t ev, tasks w !! i = Some t -> task_event t = Some ev ->
     (exists t', tasks w' !! i = Some t' /\ task_event t' = Some ev) \/
     Reduce (wsub w') ev = true \/ Address ev ∈ Address <$> on_the_way w') ->
  accounted evs w'.
Proof.
  intros (_ & Hlen & Hacc) Hwf Hl Hr Ha Ht. split_and!; [done|congruence|]. intros i ev Hi.
  destruct (Hacc i ev Hi) as [(t & Hti & Hte)|[Hred|Hin]]; [by eapply Ht| |auto].
  right. left. unfold Reduce in *. by rewrite Hr.
Qed.

(** The tasks other than the one that moved stay. *)
Lemma task_moved (ts : list task) (i : nat) t' (P : nat -> Event -> Prop) :
  (forall ev, (ts !! i ≫= task_event) = Some ev -> task_event t' = Some ev \/ P i ev) ->
  forall j t ev, ts !! j = Some t -> task_event t = Some ev ->
    (exists t1, <[i := t']> ts !! j = Some t1 /\ task_event t1 = Some ev) \/ P j ev.
Proof.
  intros Hi j t ev Hj Ht. destruct (decide (i = j)) as [<-|Hne].
  - destruct (Hi ev) as [He|HP]; [by rewrite Hj| |by right]. left. exists t'. split; [|done].
    apply list_lookup_insert_eq. by eapply lookup_lt_Some.
  - left. exists t. by rewrite list_lookup_insert_ne.
Qed.

Ltac on_way := rewrite ?fmap_app, ?elem_of_app; cbn; rewrite ?elem_of_cons, ?elem_of_nil; tauto.

(** A push keeps the addresses of the queue and adds the one it pushes. *)
Lemma push_way sub ev sub' :
  queue_wf sub -> Push sub ev = Ok sub' ->
  queue_wf sub' /\ reduce sub' = reduce sub /\ (forall a, a ∈ Address <$> pending sub -> a ∈ Address <$> pending sub') /\
  (Reduce sub' ev = true \/ Address ev ∈ Address <$> pending sub').
Proof.
  intros Hwf Hp. destruct (Push_refines sub ev Hwf) as (s & Hp' & Hwf' & Hr & Hq).
  rewrite Hp in Hp'. injection Hp' as <-. split_and!; [done..| |]; rewrite Hq.
  - intros a Ha. destruct (Reduce sub ev); [done|]. apply upsert_keeps. by left.
  - unfold Reduce. rewrite Hr. fold (Reduce sub ev). destruct (Reduce sub ev); [by left|]. right. apply upsert_keeps. by right.
Qed.

Lemma step_accounted evs w w' : accounted evs w -> step w w' -> accounted evs w'.
Proof.
  intros Hacc Hstep. pose proof Hacc as (Hwf & _ & _).
  destruct Hstep as [| | | |sub ph ts d i ev Hi|sub ph ts d i ev Hi|sub sub' ph ts d i ev Hi Hp]; cbn [wsub] in Hwf;
    eapply (accounted_mono evs _ _ Hacc); cbn [wsub tasks];
    rewrite ?length_insert; try done; try (by left; eexists); unfold on_the_way;
    cbn [wsub delivered phase taken GetPending fst snd pending with_queue].
  - apply GetPending_wf.
  - intros a. on_way.
  - intros a. on_way.
  - apply (task_moved ts i _ (fun _ _ => _ \/ _)). intros e He. rewrite Hi in He. injection He as <-. left. by destruct (IsLive sub).
  - intros a. on_way.
  - apply (task_moved ts i _ (fun _ e => Reduce sub e = true \/ Address e ∈ Address <$> (d ++ [ev]) ++ taken ph ++ pending sub)).
    intros e He. rewrite Hi in He. injection He as <-. right. right. on_way.
  - by eapply push_way.
  - by eapply push_way.
  - destruct (push_way sub ev sub' Hwf Hp) as (_ & _ & Hk & _). intros a Ha. specialize (Hk a). revert Ha. on_way.
  - destruct (push_way sub ev sub' Hwf Hp) as (_ & _ & _ & Hin).
    apply (task_moved ts i _ (fun _ e => Reduce sub' e = true \/ Address e ∈ Address <$> d ++ taken ph ++ pending sub')).
    intros e He. rewrite Hi in He. injection He as <-. right. revert Hin. on_way.
Qed.

Lemma start_accounted id fs r evs : accounted evs (start id fs r evs).
Proof.
  split_and!; [by apply queue_wf_empty|cbn; by rewrite length_fmap|]. intros i ev Hi. left. exists (Looked ev).
  cbn. by rewrite list_lookup_fmap, Hi.
Qed.

Lemma step_reduce w w' : queue_wf (wsub w) -> step w w' -> reduce (wsub w') = reduce (wsub w).
Proof. intros Hwf Hstep. destruct Hstep as [| | | | | |sub sub' ph ts d i ev Hi Hp]; try done. by eapply push_way. Qed.

Lemma reachable_accounted id fs r evs w : rtc step (start id fs r evs) w -> accounted evs w /\ reduce (wsub w) = r.
Proof.
  revert w. apply rtc_ind_r; [split; [apply start_accounted|done]|]. intros w1 w2 _ Hstep [Hacc Hred].
  split; [by eapply step_accounted|]. rewrite (step_reduce w1 w2); [done|apply Hacc|done].
Qed.


(** The world in which a broadcast saw the subscription before it went live
    and queued its event after the queue was taken. *)
Definition stranded (id : string) (fs : list Filter) (ev : Event) : world :=
  MkWorld (MkSubscription {[ Address ev := 0%nat ]} None id fs [ev] true false) Answered [Told] [].

Lemma stranded_reachable id fs ev : rtc step (start id fs None [ev]) (stranded id fs ev).
Proof.
  eapply rtc_l; [by eapply step_is_live with (i := 0%nat) (ev := ev)|]. cbn.
  eapply rtc_l; [apply step_set_live|]. eapply rtc_l; [apply step_get_pending|].
  eapply rtc_l; [apply step_answered|]. cbn.
  eapply rtc_l; [by eapply step_push with (i := 0%nat) (ev := ev)|]. cbn. reflexivity.
Qed.

(** The check whether a subscription is live and the push into its queue
    are two steps: an event whose broadcast is between them while the REQ goes
    live and takes the queue is never written, although nothing is left to
    do. *)
Lemma live_event_lost id fs ev :
  rtc step (start id fs None [ev]) (stranded id fs ev) /\ (forall w, ~ step (stranded id fs ev) w) /\
  ev ∉ delivered (stranded id fs ev).
Proof.
  split_and!; [apply stranded_reachable|intros w Hs; inversion Hs; by destruct i|by apply not_elem_of_nil].
Qed.
End Live.

(** ** Concrete inputs *)
Module DeliveryWitness.
Import Plain AsciiText.

Definition writes : Server -> nat -> Envelope -> option error := fun _ _ _ => None.
Definition running : Server -> option error := fun _ => None.
Definition subscription (id : string) : Subscription := MkSubscription ∅ None id [] [] false false.
Definition server (id : string) : Server := MkServer (NewMatcherStorage 1 1) {[ 0%nat := subscription id ]} ∅ [].
Definition wrap : Event := MkEvent None "g" "x" 5 1059 [] "" "".
Definition wraps (until : option Timestamp) : Filter := MkFilter None (Some [1059]) None None None None until 1 "".

Lemma gift_wrap_stuck_witness :
  (gift_wrap_pages writes running (fun _ => [(Some wrap, None)]) 9 7 0 (wraps (Some 5)) (server "s")).2 = OutOfFuel.
Proof.
  apply (gift_wrap_stuck writes running (fun _ => [(Some wrap, None)]) 9 7 0 (wraps (Some 5)) (server "s")
    (subscription "s") 5 [wrap] wrap); done.
Defined.

(** The first page is full, the second empty. *)
Definition stored (fs : list Filter) : EventIterator :=
  match fs with [f] => match Until f with None => [(Some wrap, None)] | Some _ => [] end | _ => [] end.

Lemma gift_wrap_terminates_witness :
  (gift_wrap_pages writes running stored 8 7 0 (wraps None) (server "s")).2 ≠ OutOfFuel.
Proof.
  apply (gift_wrap_terminates writes running stored id 5 7 0 (wraps None) (server "s") 8); [|cbn; lia..].
  intros f evs Hy. unfold yields, stored, page_bound in *. destruct (Until f) as [t|].
  - destruct evs; [|done]. by split.
  - destruct evs as [|e [|]]; [done| |done]. injection Hy as <-. split; [by repeat constructor|].
    intros _ e [= <-]. cbn. lia.
Defined.

#[local] Instance C : Crypto := {|
  sha256_Sum256 s := s; ed25519_sign sk msg := msg;
  ed25519_verify pk msg sig := String.eqb msg sig; ed25519_valid_key sk := True |}.
#[local] Instance R : RichText := {|
  json_delta _ := None; json_delta_Marshal _ := None; json_insert _ := None; json_string _ := None;
  json_string_Marshal s := s; quill_Render _ := None; bluemonday_Sanitize s := s;
  html_UnescapeString s := s; nip19_Decode _ := None |}.
#[local] Instance J : GoJSON := {|
  json_Valid _ := false; json_profile _ := None; json_strings _ := None; json_ints _ := None;
  json_event _ := None; json_from _ := None; json_to _ := None |}.
#[local] Instance GJ : GoGJSON := {| gjson_array _ := []; json_filter _ := None; json_event_ptr _ := None |}.
#[local] Instance W : Nip42 := {| ValidateAuthEvent _ _ _ _ _ := pass |}.
Definition none : eventValidator := MkValidator None (fun _ => []) [].
Definition addr (w : nat) : string := "127.0.0.1".
Definition hash (s : string) : Z := Z.of_nat (len s).
Definition reserved : Server := (linkSubscription addr hash 7 0 (server connMetadataChallengeKey)).1.

Lemma reserved_id_witness :
  (connMetadataChallengeKey = connMetadataChallengeKey ->
     (forall e, (handle_auth (fun _ _ => true) none 1 0 "" 7 e reserved).2 = Panic) /\
     (challenge_of (fun _ _ => "xyz") 7 reserved).2 = Panic) /\
  (connMetadataChallengeKey = connMetadataAuthKey -> authConnGetState (default ∅ (conns reserved !! 7%nat)) = no_user).
Proof.
  apply (reserved_id (fun _ _ => true) none 1 0 "" addr hash (fun _ _ => "xyz") 7 0 (server connMetadataChallengeKey)
    reserved (subscription connMetadataChallengeKey)); reflexivity.
Defined.

End DeliveryWitness.
