(* ===== verification/Broadcaster.v ===== *)
(** * Package broadcaster: events for the other relays of their users

    src/server/broadcaster/broadcast.go and src/model/broadcast.go: the relays a batch
    is carried to, the connections that are kept open to them, and the message
    that carries it.  Relays are reached through a world that is a parameter, by the
    numbers of connections; a connection that two goroutines ask for at once is made
    once (singleflight), so each call is one step here, and the goroutines that
    publish run one after the other.  The JSON of the message is a parameter. *)

From S2P Require Import Prelude GoStd Nostr Model Filters Validator QueryFilter QueryBuilder Selection Auth.
Import Strings.

(** ** The message *)

(* src: model/broadcast.go 18-21 *)
Record BroadcastEnvelope : Type := MkBroadcast { Relay : string; Events : list Event }.

(** tidwall/gjson: the texts of the elements of an array, the string a text stands
    for; easyjson: the text of an event. *)
Class BroadcastJSON := {
  gjson_Array : string -> list string;
  gjson_String : string -> option string;
  event_Marshal : Event -> string;
  event_Unmarshal : string -> option Event
}.

Section Envelope.
Context {J : BroadcastJSON}.

Definition quoted (s : string) : string := String "034" (s +:+ String "034" "").

(* src: model/broadcast.go 45-51 [UnmarshalJSON] *)
Fixpoint unmarshal_events (raws : list string) : outcome (list Event) :=
  match raws with
  | [] => Ok []
  | raw :: raws =>
      match event_Unmarshal raw with
      | None => Err opaque_error
      | Some e => let! es := unmarshal_events raws in Ok (e :: es)
      end
  end.

(* src: model/broadcast.go 32-54 [UnmarshalJSON] *)
Definition BroadcastEnvelope_UnmarshalJSON (v : BroadcastEnvelope) (data : string) : outcome BroadcastEnvelope :=
  match gjson_Array data with
  | _ :: relay :: ((_ :: _) as jsonEvents) =>
      let! events := unmarshal_events jsonEvents in
      Ok (MkBroadcast (default (Relay v) (gjson_String relay)) events)
  | _ => Err opaque_error
  end.

(* src: model/broadcast.go 66-71 [MarshalJSON] *)
Fixpoint marshal_events (events : list Event) : string :=
  match events with
  | [] => ""
  | [e] => event_Marshal e
  | e :: events => event_Marshal e +:+ "," +:+ marshal_events events
  end.
(** The URL of the relay is written as it is. *)
(* src: model/broadcast.go 57-75 [MarshalJSON] *)
Definition BroadcastEnvelope_MarshalJSON (v : BroadcastEnvelope) : string :=
  "[" +:+ quoted "BROADCAST" +:+ "," +:+ quoted (Relay v) +:+ (if is_nil (Events v) then "" else ",") +:+ marshal_events (Events v) +:+ "]".
End Envelope.

(** ** Connections *)

(** The relays of the network and the database. *)
Class RelayWorld (W : Type) := {
  clock : W -> Z;
  QueryFunc : list Filter -> W -> W * list (Event + error);
  (** a new connection; its number *)
  Connect : string -> ST W nat;
  Close : nat -> W -> W;
  (** the text of the error, if any *)
  Publish : nat -> Event -> W -> W * option string;
  (** the answer to a challenge, signed by the function *)
  Authenticate : nat -> (Event -> outcome Event) -> ST W unit;
  PublishEnvelope : nat -> BroadcastEnvelope -> ST W unit
}.

(* src: server/broadcaster/broadcast.go 31-35 *)
Record Config : Type := MkConfig { RelayURL : string; PrivateKey : string }.
(* src: server/broadcaster/broadcast.go 25-30 *)
Record Broadcaster (W : Type) : Type := MkBroadcaster { relays : gmap string nat; outer : W }.
Arguments MkBroadcaster {W}. Arguments relays {W}. Arguments outer {W}.

Section Broadcaster.
Context {N : Nostr} {G : GoText} {C : Crypto} {T : EventText} {W : Type} {RW : RelayWorld W}.
(** The operating system and the version of Go. *)
Context (conf : Config) (platform : string).
Abbreviation M := (ST (Broadcaster W)).

Definition outside {A} (m : ST W A) : M A := fun b => let '(w, r) := m (outer b) in (MkBroadcaster (relays b) w, r).
Definition gets {A} (f : Broadcaster W -> A) : M A := fun b => (b, Ok (f b)).
Definition fail {A} (e : error) : M A := lift_st (Err e).
Definition set_relays (f : gmap string nat -> gmap string nat) : M unit := fun b => (MkBroadcaster (f (relays b)) (outer b), Ok ()).
Definition hang_up (c : nat) : M unit := outside (fun w => (Close c w, Ok ())).

(* src: server/broadcaster/broadcast.go 38-46 *)
Definition New (w : W) : Broadcaster W := MkBroadcaster ∅ w.

(* src: server/broadcaster/broadcast.go 48-61 *)
Definition newInitAuthEvent (now : Z) : outcome Event :=
  match SignWithAlg (MkEvent None "" "" (Now now) KindClientAuthentication [["challenge"; "init"]] "" "") (PrivateKey conf) SignAlgEDDSA KeyAlgCurve25519 with
  | Ok ev => Ok ev
  | OutOfFuel => OutOfFuel
  | _ => Panic
  end.

(* src: server/broadcaster/broadcast.go 78-89 [newRelay] *)
Definition sign_challenge (event : Event) : outcome Event :=
  SignWithAlg (with_Tags event (EvTags event ++ [["user-agent"; platform +:+ " subzero/1.0 (" +:+ RelayURL conf +:+ ")"]]))
    (PrivateKey conf) SignAlgEDDSA KeyAlgCurve25519.

(* src: server/broadcaster/broadcast.go 63-101 *)
Definition newRelay (url : string) : M nat :=
  relay ← outside (Connect url);
  now ← gets (fun b => clock (outer b));
  init ← lift_st (newInitAuthEvent now);
  published ← outside (fun w => let '(w, r) := Publish relay init w in (w, Ok r));
  match published with
  | None => mret relay
  | Some text =>
      authenticated ← (if Contains text "auth-required:" then attempt_st (outside (Authenticate relay sign_challenge)) else mret (inr opaque_error));
      match authenticated with
      | inl _ => mret relay
      | inr e => hang_up relay ;; fail e
      end
  end.

(** An error is logged: there is no connection. *)
(* src: server/broadcaster/broadcast.go 113-122 *)
Definition ensureRelay (url : string) : M (option nat) :=
  stored ← gets (fun b => relays b !! url);
  match stored with
  | Some r => mret (Some r)
  | None =>
      made ← attempt_st (newRelay url);
      match made with
      | inl r => set_relays <[url := r]> ;; mret (Some r)
      | inr _ => mret None
      end
  end.

(** ** Targets *)

(** What the events of a batch ask for: whether the relay answers for the accounts,
    authors, targets, addresses, receivers. *)
Record demand : Type := MkDemand {
  authoritative : bool; authors : list string; targets : gmap string (list string); addresses : list string; receivers : list string
}.

Definition relays_of (event : Event) : list string := DeduplicateSlice (CollectRelaysFromRelayEvent event) ToLower.
Definition add_relays (key : string) (event : Event) (targets : gmap string (list string)) : gmap string (list string) :=
  if is_nil (CollectRelaysFromRelayEvent event) then targets else <[key := relays_of event]> targets.

(* src: server/broadcaster/broadcast.go 129-158 [collectTargets] *)
Definition collect_event (d : demand) (event : Event) : outcome demand :=
  if (Kind event =? KindGiftWrap) || (Kind event =? KindBadgeAward) then
    let v := Value (GetTag event "p") in
    Ok (if v ≠s? "" then MkDemand (authoritative d) (authors d) (targets d) (addresses d) (receivers d ++ [v]) else d)
  else if Kind event =? CustomIONKindEphemeralEmbedding then
    match UnmarshalJSON (Content event) with
    | None => Err opaque_error
    | Some content =>
        Ok (MkDemand false (authors d)
          (if Kind content =? KindRelayListMetadata then add_relays (GetMasterPublicKey event) content (targets d) else targets d)
          (addresses d) (receivers d))
    end
  else
    Ok (MkDemand (authoritative d) (authors d ++ [GetMasterPublicKey event]) (targets d)
      (addresses d ++ (Value <$> filter (fun tag => (Key tag = "a" \/ Key tag = "e") /\ Value tag ≠ "") (EvTags event))) (receivers d)).

Definition relay_lists (keys : list string) : Filter := MkFilter None (Some [KindRelayListMetadata]) (Some keys) None None None None (zlen keys) "".
Definition any_kind : Z := MaxUint16.

(* src: server/broadcaster/broadcast.go 160-196 [collectTargets] *)
Definition target_filters (d : demand) : list Filter :=
  (if is_nil (receivers d) then [] else [relay_lists (receivers d)]) ++
  (if authoritative d then
     let lookup := filter (fun author => targets d !! author = None) (authors d) in
     if is_nil lookup then [] else [relay_lists lookup]
   else if is_nil (addresses d) then []
   else [MkFilter None None None (Some (addresses d)) None None None 0 ("include:dependencies:kind" +:+ Strconv.Itoa any_kind +:+ ">kind10002")]).

(* src: server/broadcaster/broadcast.go 199-210 [collectTargets] *)
Fixpoint add_found (items : list (Event + error)) (ts : gmap string (list string)) : outcome (gmap string (list string)) :=
  match items with
  | [] => Ok ts
  | inr e :: _ => Err e
  | inl event :: items =>
      add_found items (if Kind event =? KindRelayListMetadata then add_relays (GetMasterPublicKey event) event ts else ts)
  end.

(* src: server/broadcaster/broadcast.go 124-212 *)
Definition collectTargets (events : list Event) : M (gmap string (list string)) :=
  d ← lift_st (for_state events (MkDemand true [] ∅ [] []) collect_event);
  let filters := target_filters d in
  if is_nil filters then mret (targets d)
  else
    items ← outside (fun w => let '(w, items) := QueryFunc filters w in (w, Ok items));
    lift_st (add_found items (targets d)).

(** ** Broadcasts *)

(* src: server/broadcaster/broadcast.go 214-232 *)
Definition BroadcastTo (target : string) (events : list Event) : M unit :=
  relay ← ensureRelay target;
  match relay with
  | None => fail opaque_error
  | Some relay =>
      published ← attempt_st (outside (PublishEnvelope relay (MkBroadcast (RelayURL conf) events)));
      match published with
      | inl _ => mret ()
      | inr e =>
          stored ← gets (fun b => relays b !! target);
          set_relays (delete target) ;;
          match stored with Some c => hang_up c | None => mret () end ;;
          fail e
      end
  end.

(** The relays of the targets but this one. *)
(* src: server/broadcaster/broadcast.go 264-268 [Broadcast] *)
Definition destinations (ts : gmap string (list string)) : list string :=
  filter (fun relay => CompareRelaysURLs relay (RelayURL conf) = false) (concat (map (fun key => default [] (ts !! key)) (range_set (dom ts)))).

(** Every destination is tried; the errors are joined. *)
(* src: server/broadcaster/broadcast.go 269-296 [Broadcast] *)
Fixpoint broadcast_all (urls : list string) (events : list Event) (errs : option error) : M unit :=
  match urls with
  | [] => match errs with None => mret () | Some e => fail e end
  | url :: urls =>
      r ← attempt_st (BroadcastTo url events);
      broadcast_all urls events (match r with inl _ => errs | inr e => Some (match errs with Some x => join_error x e | None => e end) end)
  end.

(* src: server/broadcaster/broadcast.go 234-297 *)
Definition Broadcast (events : list Event) : M unit :=
  if is_nil events then mret ()
  else
    ts ← collectTargets events;
    broadcast_all (destinations ts) events None.

(** Every connection is closed, in some order. *)
(* src: server/broadcaster/broadcast.go 299-310 [Close] *)
Definition CloseAll (b : Broadcaster W) : Broadcaster W :=
  MkBroadcaster ∅ (fold_left (fun w c => Close c w) (map_to_list (relays b)).*2 (outer b)).
End Broadcaster.

(** ** Theorems: the message *)

Section EnvelopeLaws.
Context {J : BroadcastJSON}.

(** The texts of JSON values; an array of them is taken apart again. *)
Class BroadcastJSONSpec : Type := {
  is_json : string -> Prop;
  array_spec : forall raws, raws ≠ [] -> Forall is_json raws -> gjson_Array ("[" +:+ Join raws "," +:+ "]") = raws
}.
Context {JS : BroadcastJSONSpec}.

(** A string whose JSON is itself between quotes. *)
Definition plain_text (s : string) : Prop := is_json (quoted s) /\ gjson_String (quoted s) = Some s.
Definition readable (e : Event) : Prop := is_json (event_Marshal e) /\ event_Unmarshal (event_Marshal e) = Some e.

Lemma marshal_events_Join events : marshal_events events = Join (event_Marshal <$> events) ",".
Proof. induction events as [|e [|e' es] IH]; cbn in *; [done..|]. by rewrite IH. Qed.

Lemma marshal_text v : Events v ≠ [] ->
  BroadcastEnvelope_MarshalJSON v = "[" +:+ Join (quoted "BROADCAST" :: quoted (Relay v) :: (event_Marshal <$> Events v)) "," +:+ "]".
Proof.
  intros Hne. unfold BroadcastEnvelope_MarshalJSON. rewrite marshal_events_Join.
  destruct (Events v) as [|e es]; [done|]. cbn [is_nil fmap list_fmap Join]. by rewrite !app_assoc.
Qed.

Lemma unmarshal_readable events : Forall readable events -> unmarshal_events (event_Marshal <$> events) = Ok events.
Proof. induction 1 as [|e es [_ He] _ IH]; cbn; [done|]. by rewrite He, IH. Qed.

(** A broadcast that has events is read as it was written, when the URL of the
    relay needs no escapes. *)
Lemma broadcast_roundtrip v0 v : Events v ≠ [] -> is_json (quoted "BROADCAST") -> plain_text (Relay v) -> Forall readable (Events v) ->
  BroadcastEnvelope_UnmarshalJSON v0 (BroadcastEnvelope_MarshalJSON v) = Ok v.
Proof.
  intros Hne Hlabel [Hrelay Hurl] Hev. rewrite marshal_text by done. unfold BroadcastEnvelope_UnmarshalJSON. rewrite array_spec; [|done|].
  - pose proof (unmarshal_readable _ Hev) as Hun. destruct v as [relay [|e es]]; [done|]. cbn [Events Relay fmap list_fmap] in *.
    rewrite Hun. cbn. by rewrite Hurl.
  - repeat constructor; [done..|]. apply Forall_fmap. eapply Forall_impl; [exact Hev|]. by intros e [He _].
Qed.
End EnvelopeLaws.

(** ** Theorems: targets and connections *)

Section BroadcastLaws.
Context {N : Nostr} {G : GoText} {C : Crypto} {T : EventText} {TS : EventTextSpec} {W : Type} {RW : RelayWorld W}.
Context (conf : Config) (platform : string).

(** The relays of a key, from a relay list: one an event of the batch embeds, under
    the account of that event, or one that is stored, under its own. *)
Definition listed (events : list Event) (items : list (Event + error)) (key : string) (rs : list string) : Prop :=
  exists e content, key = GetMasterPublicKey e /\ rs = relays_of content /\ CollectRelaysFromRelayEvent content ≠ [] /\
    Kind content = KindRelayListMetadata /\
    ((e ∈ events /\ Kind e = CustomIONKindEphemeralEmbedding /\ UnmarshalJSON (Content e) = Some content) \/ (inl e ∈ items /\ content = e)).

Lemma add_relays_Some key e ts k rs : add_relays key e ts !! k = Some rs ->
  (k = key /\ rs = relays_of e /\ CollectRelaysFromRelayEvent e ≠ []) \/ ts !! k = Some rs.
Proof.
  unfold add_relays. destruct (CollectRelaysFromRelayEvent e) eqn:Hr; cbn [is_nil]; [by right|].
  intros [[<- <-]|[_ H]]%lookup_insert_Some; [by left|by right].
Qed.

Lemma collected_listed events d : for_state events (MkDemand true [] ∅ [] []) collect_event = Ok d ->
  forall k rs, targets d !! k = Some rs -> listed events [] k rs.
Proof.
  apply (for_state_invariant (fun pre d => forall k rs, targets d !! k = Some rs -> listed pre [] k rs)); [done|].
  intros pre e d1 d2 _ Hpre Hstep k rs Hk.
  assert (Hmore : forall k rs, listed pre [] k rs -> listed (pre ++ [e]) [] k rs).
  { intros k' rs' (e' & c & Hke & Hrs & Hne & Hkind & Hor). exists e', c. split_and!; [done..|]. destruct Hor as [(Hin & H1 & H2)|[Hin _]];
      [left; split_and!; [apply elem_of_app; by left|done..]|by apply not_elem_of_nil in Hin]. }
  unfold collect_event in Hstep. destruct (_ || _); [injection Hstep as <-; apply Hmore, Hpre; by destruct (_ ≠s? _)|].
  destruct (Z.eqb_spec (Kind e) CustomIONKindEphemeralEmbedding) as [He|]; [|injection Hstep as <-; by apply Hmore, Hpre].
  destruct (UnmarshalJSON (Content e)) as [content|] eqn:Hc; [|done]. injection Hstep as <-. cbn [targets] in Hk.
  destruct (Z.eqb_spec (Kind content) KindRelayListMetadata) as [Hkind|]; [|by apply Hmore, Hpre].
  apply add_relays_Some in Hk as [(-> & -> & Hne)|Hk]; [|by apply Hmore, Hpre].
  exists e, content. split_and!; [done..|]. left. split_and!; [apply elem_of_app; right; by left|done..].
Qed.

Lemma found_listed events items ts ts' : add_found items ts = Ok ts' -> (forall k rs, ts !! k = Some rs -> listed events items k rs) ->
  forall k rs, ts' !! k = Some rs -> listed events items k rs.
Proof.
  assert (Hgen : forall l, l ⊆ items -> forall ts, add_found l ts = Ok ts' -> (forall k rs, ts !! k = Some rs -> listed events items k rs) ->
    forall k rs, ts' !! k = Some rs -> listed events items k rs); [|by intros Hf; apply (Hgen items)].
  induction l as [|[e|x] l IH]; intros Hsub ts0 Hf Hts k rs; cbn [add_found] in Hf; [by injection Hf as <-; apply Hts| |done].
  refine (IH _ _ Hf _ k rs); [set_solver|]. intros k' rs'. destruct (Z.eqb_spec (Kind e) KindRelayListMetadata) as [Hkind|]; [|apply Hts].
  intros [(-> & -> & Hne)|H]%add_relays_Some; [|by apply Hts]. exists e, e. split_and!; [done..|]. right. split; [set_solver|done].
Qed.

(** What a batch asks the database for. *)
Definition asked (events : list Event) : list Filter :=
  match for_state events (MkDemand true [] ∅ [] []) collect_event with Ok d => target_filters d | _ => [] end.

(** The relays a batch is carried to are those of relay lists: the lists its
    events embed and the stored ones it asks for. *)
Lemma targets_listed events b b' ts : collectTargets events b = (b', Ok ts) ->
  forall key rs, ts !! key = Some rs -> listed events (QueryFunc (asked events) (outer b)).2 key rs.
Proof.
  unfold collectTargets, asked. intros (b1 & d & [= <- Hd] & Hrun)%bind_st_Ok. rewrite Hd.
  assert (Hmore : forall items k rs, listed events [] k rs -> listed events items k rs).
  { intros items k rs (e & c & Hke & Hrs & Hne & Hkind & [Hor|[Hin _]]); [|by apply not_elem_of_nil in Hin].
    exists e, c. split_and!; [done..|by left]. }
  destruct (is_nil (target_filters d)).
  - injection Hrun as _ <-. intros k rs Hk. eapply Hmore, collected_listed; [exact Hd|done].
  - apply bind_st_Ok in Hrun as (b2 & items & Hq & Hrun). unfold outside in Hq.
    destruct (QueryFunc (target_filters d) (outer b)) as [w items']. injection Hq as <- <-. injection Hrun as _ Hf. cbn [snd].
    eapply found_listed; [exact Hf|]. intros k rs Hk. eapply Hmore, collected_listed; [exact Hd|done].
Qed.
End BroadcastLaws.

(** ** Theorems: connections *)

(** What a call ends in. *)
Definition returns {A} (r : outcome A) : Prop := match r with Ok _ | Err _ => True | _ => False end.

(** The connections that are open, and what the calls do to them. *)
Class RelayWorldSpec (W : Type) `{RelayWorld W} : Type := {
  open : W -> gset nat;
  Connect_spec : forall url w, match Connect url w with
    | (w', Ok c) => (c ∉ open w) /\ open w' = ({[c]} ∪ open w)
    | (w', _) => open w' = open w
    end;
  Close_spec : forall c w, open (Close c w) = open w ∖ {[c]};
  QueryFunc_open : forall fs w, open (QueryFunc fs w).1 = open w;
  Publish_open : forall c e w, open (Publish c e w).1 = open w;
  Authenticate_open : forall c f w, open (Authenticate c f w).1 = open w;
  Authenticate_returns : forall c f w, (forall e, returns (f e)) -> returns (Authenticate c f w).2;
  PublishEnvelope_open : forall c v w, open (PublishEnvelope c v w).1 = open w
}.

Section Connections.
Context {N : Nostr} {G : GoText} {C : Crypto} {T : EventText} {W : Type} {RW : RelayWorld W} {RS : RelayWorldSpec W}.
Context (conf : Config) (platform key : string).
Hypothesis private_key : Hex.DecodeString (PrivateKey conf) = Some key.
Hypothesis key_length : len key = 64%nat.

Lemma signs e : exists e', SignWithAlg e (PrivateKey conf) SignAlgEDDSA KeyAlgCurve25519 = Ok e'.
Proof.
  unfold SignWithAlg. rewrite private_key. cbn [String.eqb negb andb orb]. unfold ed25519_Public, ed25519_Sign. rewrite key_length.
  cbn -[drop take]. eauto.
Qed.

(** The connections that are open are those that are kept, each for one relay; the
    relays have a property. *)
Record kept (Q : string -> Prop) (b : Broadcaster W) : Prop := {
  kept_open : forall c, c ∈ open (outer b) <-> exists url, relays b !! url = Some c;
  kept_once : forall url1 url2 c, relays b !! url1 = Some c -> relays b !! url2 = Some c -> url1 = url2;
  kept_for : forall url c, relays b !! url = Some c -> Q url
}.

Lemma kept_new Q w : open w = ∅ -> kept Q (New w).
Proof. intros Hw. split; cbn; [|done..]. rewrite Hw. intros c. set_solver. Qed.
Lemma kept_outside {A} Q (m : ST W A) : (forall w, open (m w).1 = open w) -> maintains (kept Q) (outside m).
Proof.
  intros Hm b [Ho H1 H2]. unfold outside. specialize (Hm (outer b)). destruct (m (outer b)) as [w r]. cbn [fst] in *.
  split; cbn; [|done..]. intros c. rewrite Hm. apply Ho.
Qed.

(** A new connection: it is open and not kept yet, or nothing has changed. *)
Lemma newRelay_new url b : match newRelay conf platform url b with
  | (b', Ok c) => (c ∉ open (outer b)) /\ open (outer b') = ({[c]} ∪ open (outer b)) /\ relays b' = relays b
  | (b', _) => open (outer b') = open (outer b) /\ relays b' = relays b
  end.
Proof.
  unfold newRelay. unfold mbind at 1, ST_bind at 1, outside at 1. pose proof (Connect_spec url (outer b)) as Hc.
  destruct (Connect url (outer b)) as [w1 [c|x| |]]; [|done..]. destruct Hc as [Hnew Hopen].
  unfold mbind at 1, ST_bind at 1, gets. cbn [outer]. unfold mbind at 1, ST_bind at 1, lift_st at 1, newInitAuthEvent.
  match goal with |- context [SignWithAlg ?e _ _ _] => destruct (signs e) as [init ->] end.
  unfold mbind at 1, ST_bind at 1, outside at 1. cbn [outer relays]. pose proof (Publish_open c init w1) as Hp.
  destruct (Publish c init w1) as [w2 [text|]]; cbn [fst] in Hp; [|split; [done|cbn; split; [congruence|done]]].
  assert (Hhang : forall w, open w = open w1 -> open (Close c w) = open (outer b)) by (intros w Hw; rewrite Close_spec, Hw, Hopen; set_solver).
  destruct (Contains text "auth-required:"); cbv [mbind ST_bind attempt_st hang_up outside fail lift_st mret ST_ret]; cbn [outer relays]; [|by rewrite Hhang].
  pose proof (Authenticate_open c (sign_challenge conf platform) w2) as Ha.
  pose proof (Authenticate_returns c (sign_challenge conf platform) w2) as Hr.
  destruct (Authenticate c (sign_challenge conf platform) w2) as [w3 [[]|x| |]]; cbn [fst snd outer relays] in *.
  - split_and!; [done|congruence|done].
  - rewrite Hhang by congruence. done.
  - destruct Hr. intros e. unfold sign_challenge. by match goal with |- context [SignWithAlg ?e _ _ _] => destruct (signs e) as [? ->] end.
  - destruct Hr. intros e. unfold sign_challenge. by match goal with |- context [SignWithAlg ?e _ _ _] => destruct (signs e) as [? ->] end.
Qed.

Lemma ensureRelay_kept Q url b b' r : Q url -> kept Q b -> ensureRelay conf platform url b = (b', r) ->
  kept Q b' /\ (forall c, r = Ok (Some c) -> relays b' !! url = Some c) /\ (r = Ok None -> relays b' !! url = None).
Proof.
  intros Hq Hb. unfold ensureRelay. cbv [mbind ST_bind gets]. destruct (relays b !! url) as [c|] eqn:Hurl.
  { intros [= <- <-]. split_and!; [done| |done]. intros c' [= <-]. done. }
  unfold attempt_st. pose proof (newRelay_new url b) as Hn. destruct Hb as [Ho H1 H2].
  destruct (newRelay conf platform url b) as [b1 [c|x| |]].
  - destruct Hn as (Hnew & Hopen & Hrel). cbv [set_relays mret ST_ret]. intros [= <- <-]. cbn [relays outer].
    assert (Hfresh : forall u, relays b !! u ≠ Some c) by (intros u Hu; apply Hnew, Ho; eauto).
    rewrite Hrel. split_and!; [split; cbn [relays outer]|intros c' [= <-]; apply lookup_insert_eq|done].
    + intros c'. rewrite Hopen, elem_of_union, elem_of_singleton, Ho. split.
      * intros [->|[u Hu]]; [exists url; apply lookup_insert_eq|]. exists u. rewrite lookup_insert_ne; [done|]. intros <-. congruence.
      * intros [u [[_ <-]|[_ Hu]]%lookup_insert_Some]; eauto.
    + intros u1 u2 c' [[<- <-]|[Hne1 Hu1]]%lookup_insert_Some [[<- Hc]|[Hne2 Hu2]]%lookup_insert_Some; [done|by apply Hfresh in Hu2| |by eapply H1].
      rewrite <- Hc in Hu1. by apply Hfresh in Hu1.
    + intros u c' [[<- _]|[_ Hu]]%lookup_insert_Some; [done|by eapply H2].
  - destruct Hn as [Hopen Hrel]. intros [= <- <-]. cbn. rewrite Hrel. split_and!; [|done|done]. split; rewrite ?Hrel; [|done..]. intros c. rewrite Hopen. apply Ho.
  - destruct Hn as [Hopen Hrel]. intros [= <- <-]. split_and!; [|done|done]. split; rewrite ?Hrel; [|done..]. intros c. rewrite Hopen. apply Ho.
  - destruct Hn as [Hopen Hrel]. intros [= <- <-]. split_and!; [|done|done]. split; rewrite ?Hrel; [|done..]. intros c. rewrite Hopen. apply Ho.
Qed.

(** Hanging up on a relay. *)
Lemma kept_delete Q b url c : kept Q b -> relays b !! url = Some c -> kept Q (MkBroadcaster (delete url (relays b)) (Close c (outer b))).
Proof.
  intros [Ho H1 H2] Hc. split; cbn [relays outer].
  - intros c'. rewrite Close_spec, elem_of_difference, elem_of_singleton, Ho. split.
    + intros [[u Hu] Hne]. exists u. rewrite lookup_delete_ne; [done|]. intros <-. congruence.
    + intros [u [Hne Hu]%lookup_delete_Some]. split; [eauto|]. intros ->. by apply Hne, (H1 _ _ c).
  - intros u1 u2 c' [_ Hu1]%lookup_delete_Some [_ Hu2]%lookup_delete_Some. by eapply H1.
  - intros u c' [_ Hu]%lookup_delete_Some. by eapply H2.
Qed.

(** What a message to a relay ends in. *)
Lemma BroadcastTo_kept Q target events b b' r : Q target -> kept Q b -> BroadcastTo conf platform target events b = (b', r) ->
  kept Q b' /\
  match r with
  | Ok _ => exists c w w', relays b' !! target = Some c /\ PublishEnvelope c (MkBroadcast (RelayURL conf) events) w = (w', Ok ()) /\ outer b' = w'
  | Err _ => relays b' !! target = None
  | _ => True
  end.
Proof.
  intros Hq Hb. unfold BroadcastTo. unfold mbind at 1, ST_bind at 1. destruct (ensureRelay conf platform target b) as [b1 r1] eqn:He.
  destruct (ensureRelay_kept Q target b b1 r1 Hq Hb He) as (Hb1 & Hsome & Hnone).
  destruct r1 as [[c|]|x| |]; [|intros [= <- <-]; split; [done|by apply Hnone]|intros [= <- <-]..]; [|exfalso|done..].
  2:{ clear -He. revert He. unfold ensureRelay. cbv [mbind ST_bind gets]. destruct (relays b !! target); [done|].
      unfold attempt_st. by destruct (newRelay conf platform target b) as [? [?|?| |]]. }
  specialize (Hsome c eq_refl). cbv [mbind ST_bind attempt_st outside].
  pose proof (PublishEnvelope_open c (MkBroadcast (RelayURL conf) events) (outer b1)) as Hp.
  assert (Hkept : forall w, open w = open (outer b1) -> kept Q (MkBroadcaster (relays b1) w)).
  { intros w Hw. destruct Hb1 as [Ho ? ?]. split; cbn; [|done..]. intros c'. rewrite Hw. apply Ho. }
  destruct (PublishEnvelope c (MkBroadcast (RelayURL conf) events) (outer b1)) as [w [[]|x| |]] eqn:Hpub; cbn [fst] in Hp.
  - intros [= <- <-]. split; [by apply Hkept|]. exists c, (outer b1), w. done.
  - cbv [gets set_relays hang_up outside fail lift_st mret ST_ret]. cbn [relays outer]. rewrite Hsome. intros [= <- <-].
    cbn [relays outer]. split; [|apply lookup_delete_eq]. by apply (kept_delete Q (MkBroadcaster (relays b1) w)), Hsome; apply Hkept.
  - intros [= <- <-]. split; [by apply Hkept|done].
  - intros [= <- <-]. split; [by apply Hkept|done].
Qed.

Lemma broadcast_all_kept Q urls events errs : Forall Q urls -> maintains (kept Q) (broadcast_all conf platform urls events errs).
Proof.
  intros Hq. revert errs. induction Hq as [|url urls Hurl _ IH]; intros errs; cbn [broadcast_all]; [unfold fail; maintain|].
  apply maintains_bind; [|intros r; apply IH]. apply maintains_attempt. intros b Hb.
  destruct (BroadcastTo conf platform url events b) as [b' r] eqn:Hr. by apply (BroadcastTo_kept Q url events b b' r).
Qed.

Lemma collectTargets_kept Q events : maintains (kept Q) (collectTargets events).
Proof.
  unfold collectTargets. maintain. apply kept_outside. intros w.
  match goal with |- context [QueryFunc ?fs w] => pose proof (QueryFunc_open fs w); by destruct (QueryFunc fs w) end.
Qed.

(** The states of a broadcaster: batches are carried to other relays, packets of
    notifications to those with a property, and it may be closed. *)
Inductive broadcasting (Q : string -> Prop) : Broadcaster W -> Prop :=
| started w : open w = ∅ -> broadcasting Q (New w)
| broadcast b events : broadcasting Q b -> broadcasting Q (Broadcast conf platform events b).1
| packet b target events : broadcasting Q b -> Q target -> broadcasting Q (BroadcastTo conf platform target events b).1
| moved b w : broadcasting Q b -> open w = open (outer b) -> broadcasting Q (MkBroadcaster (relays b) w)
| closed b : broadcasting Q b -> broadcasting Q (CloseAll b).

Lemma close_all_open (cs : list nat) w : forall c, c ∈ open (fold_left (fun w c => Close c w) cs w) <-> c ∈ open w /\ c ∉ cs.
Proof.
  revert w. induction cs as [|c0 cs IH]; intros w c; cbn [fold_left]; [set_solver|]. rewrite IH, Close_spec. set_solver.
Qed.

Definition elsewhere (url : string) : Prop := CompareRelaysURLs url (RelayURL conf) = false.

Lemma broadcasting_kept b : broadcasting elsewhere b -> kept elsewhere b.
Proof.
  induction 1 as [w Hw|b events _ IH|b target events _ IH Ht|b w _ IH Hw|b _ IH].
  - by apply kept_new.
  - assert (Hm : maintains (kept elsewhere) (Broadcast conf platform events)); [|by apply Hm].
    unfold Broadcast. destruct (is_nil events); [maintain|]. apply maintains_bind; [apply collectTargets_kept|]. intros ts.
    apply broadcast_all_kept, Forall_forall. by intros url [Hu _]%list_elem_of_filter.
  - destruct (BroadcastTo conf platform target events b) as [b' r] eqn:Hr. by apply (BroadcastTo_kept elsewhere target events b b' r).
  - destruct IH as [Ho ? ?]. split; cbn; [|done..]. intros c. rewrite Hw. apply Ho.
  - destruct IH as [Ho ? ?]. unfold CloseAll. split; cbn [relays outer]; [|done..]. intros c. rewrite close_all_open, Ho. split; [|by intros [u Hu]].
    intros [[u Hu] Hnot]. destruct Hnot. apply list_elem_of_fmap. exists (u, c). split; [done|]. by apply elem_of_map_to_list.
Qed.

(** C26: in every state of a broadcaster the connections that are open are those it
    keeps, one for each relay, and none is to the relay itself. *)
Theorem connections_kept b : broadcasting elsewhere b ->
  (forall c, c ∈ open (outer b) <-> exists url, relays b !! url = Some c) /\
  (forall url1 url2 c, relays b !! url1 = Some c -> relays b !! url2 = Some c -> url1 = url2) /\
  (forall url c, relays b !! url = Some c -> elsewhere url).
Proof. by intros [? ? ?]%broadcasting_kept. Qed.

(** A message to a relay is handed to the connection that is kept to it, or ends
    in an error after which no connection to it is kept. *)
Lemma message_ends target events b b' r : broadcasting elsewhere b -> elsewhere target -> BroadcastTo conf platform target events b = (b', r) ->
  match r with
  | Ok _ => exists c w w', relays b' !! target = Some c /\ PublishEnvelope c (MkBroadcast (RelayURL conf) events) w = (w', Ok ()) /\ outer b' = w'
  | Err _ => relays b' !! target = None
  | _ => True
  end.
Proof. intros Hb%broadcasting_kept Ht Hr. by destruct (BroadcastTo_kept elsewhere target events b b' r Ht Hb Hr). Qed.
End Connections.

(** ** Concrete inputs *)
Module BroadcasterWitness.
Import SelectionPlain.

(** Arrays of values without commas. *)
Definition note : Event := MkEvent None "n1" "aa" 100 1 [["b"; "bb"]] "hi" "".
#[local] Instance json : BroadcastJSON := {|
  gjson_Array s := match s with String _ s => Split (take (len s - 1) s) "," | _ => [] end;
  gjson_String s := match s with String _ s => Some (take (len s - 1) s) | _ => None end;
  event_Marshal := ID; event_Unmarshal s := if s =s? "n1" then Some note else None |}.
#[local] Instance json_spec : BroadcastJSONSpec.
Proof.
  refine {| is_json raw := in_string "," raw = false |}. intros raws Hne Hall. cbn.
  rewrite len_app. replace (len (Join raws ",") + len "]" - 1)%nat with (len (Join raws ",")) by (cbn; lia).
  rewrite take_app. by apply Split_Join.
Defined.
Lemma broadcast_roundtrip_witness :
  BroadcastEnvelope_UnmarshalJSON (MkBroadcast "" []) (BroadcastEnvelope_MarshalJSON (MkBroadcast "wss://me" [note])) = Ok (MkBroadcast "wss://me" [note]).
Proof. apply broadcast_roundtrip; [done|reflexivity|by split|]. apply Forall_singleton. by split. Defined.

(** A network that answers, but for one relay that has no connection. *)
Record network : Type := MkNetwork { next : nat; opened : gset nat }.
Definition listing : Event := MkEvent None "l1" "bb" 90 10002 [["r"; "wss://me"]; ["r"; "wss://peer"]; ["r"; "wss://gone"]] "" "".
#[local] Instance relays_world : RelayWorld network := {|
  clock _ := 0; QueryFunc _ w := (w, [inl listing]);
  Connect url w := if url =s? "wss://gone" then (w, Err opaque_error) else (MkNetwork (S (next w)) ({[fresh (opened w)]} ∪ opened w), Ok (fresh (opened w)));
  Close c w := MkNetwork (next w) (opened w ∖ {[c]}); Publish _ _ w := (w, Some "auth-required: sign in");
  Authenticate _ f w := (w, match f note with Ok _ => Ok () | Err e => Err e | Panic => Panic | OutOfFuel => OutOfFuel end);
  PublishEnvelope _ _ w := (w, Ok ()) |}.
#[local] Instance network_spec : RelayWorldSpec network.
Proof.
  refine {| open := opened |}.
  - intros url w. cbn. destruct (url =s? "wss://gone"); [done|]. split; [apply is_fresh|done].
  - done.
  - done.
  - done.
  - done.
  - intros c f w Hf. specialize (Hf note). cbn. by destruct (f note).
  - done.
Defined.
Definition conf : Config := MkConfig "wss://me" key_hex.
Lemma key_decoded : Hex.DecodeString (PrivateKey conf) = Some key. Proof. vm_compute. reflexivity. Qed.
Lemma key_long : len key = 64%nat. Proof. reflexivity. Qed.

Definition idle : Broadcaster network := New (MkNetwork 0 ∅).
Definition carried : Broadcaster network := (Broadcast conf "linux/go1.25" [note] idle).1.
Lemma carried_on : broadcasting conf "linux/go1.25" (elsewhere conf) carried.
Proof. apply broadcast, started. reflexivity. Qed.
Example to_peer : dom (relays carried) = {["wss://peer"]}.
Proof. vm_compute. reflexivity. Qed.

Lemma connections_kept_witness :
  (forall c, c ∈ open (outer carried) <-> exists url, relays carried !! url = Some c) /\
  (forall url1 url2 c, relays carried !! url1 = Some c -> relays carried !! url2 = Some c -> url1 = url2) /\
  (forall url c, relays carried !! url = Some c -> elsewhere conf url).
Proof. apply (connections_kept conf "linux/go1.25" key key_decoded key_long carried carried_on). Defined.

Definition sent : Broadcaster network := (BroadcastTo conf "linux/go1.25" "wss://other" [note] carried).1.
Lemma message_ends_witness :
  exists c w w', relays sent !! "wss://other" = Some c /\ PublishEnvelope c (MkBroadcast (RelayURL conf) [note]) w = (w', Ok ()) /\ outer sent = w'.
Proof.
  refine (message_ends conf "linux/go1.25" key key_decoded key_long "wss://other" [note] carried sent (Ok ()) carried_on _ _); vm_compute; reflexivity.
Defined.

Definition found : gmap string (list string) := match (collectTargets [note] idle).2 with Ok ts => ts | _ => ∅ end.
Lemma targets_listed_witness : listed [note] (QueryFunc (asked [note]) (outer idle)).2 "bb" ["wss://me"; "wss://peer"; "wss://gone"].
Proof. apply (targets_listed [note] idle idle found); vm_compute; reflexivity. Defined.
End BroadcasterWitness.
