(* ===== verification/Preview.v ===== *)
(** * Package events: previews of events over HTTP

    src/server/http/events/handler.go.  The events a preview is made of are those one
    query yields, in its order.  The database, the JSON of counts and their requests
    and of events are parameters; gin is an answer. *)

From S2P Require Import Prelude GoStd Nostr Model Filters Content Validator.
Import Strings.

(* src: server/http/events/handler.go 22-29 *)
Record CommunityPostAuthor : Type := MkAuthor {
  AName : string; ADisplayName : string; Avatar : string; Verified : bool; masterKey : string; verifiedBadgePTag : string
}.
(* src: server/http/events/handler.go 30-34 *)
Record PostMedia : Type := MkMedia { Thumbnail : option string; MURL : string; MType : string }.
(* src: server/http/events/handler.go 35-44 *)
Record PostPreview : Type := MkPreview {
  PCreatedAt : Z; Media : list PostMedia; Author : CommunityPostAuthor; PType : string;
  Comments : Z; Reposts : Z; Likes : Z; PContent : string
}.
Definition no_preview : PostPreview := MkPreview 0 [] (MkAuthor "" "" "" false "" "") "" 0 0 0 "".

Definition with_author (f : CommunityPostAuthor -> CommunityPostAuthor) (p : PostPreview) : PostPreview :=
  MkPreview (PCreatedAt p) (Media p) (f (Author p)) (PType p) (Comments p) (Reposts p) (Likes p) (PContent p).
Definition set_verified (a : CommunityPostAuthor) : CommunityPostAuthor :=
  MkAuthor (AName a) (ADisplayName a) (Avatar a) true (masterKey a) (verifiedBadgePTag a).
Definition set_badge (k : string) (a : CommunityPostAuthor) : CommunityPostAuthor :=
  MkAuthor (AName a) (ADisplayName a) (Avatar a) (Verified a) (masterKey a) k.
Definition set_key (k : string) (a : CommunityPostAuthor) : CommunityPostAuthor :=
  MkAuthor (AName a) (ADisplayName a) (Avatar a) (Verified a) k (verifiedBadgePTag a).

(** What the handlers answer. *)
Inductive answer (A : Type) : Type := BadRequest | InternalServerError | NotFound | OK (a : A).
Arguments BadRequest {A}. Arguments InternalServerError {A}. Arguments NotFound {A}. Arguments OK {A}.

(** The kinds of the first filter of a request for a count (nil and empty lists are
    the same here), and counts by content. *)
Class PreviewJSON := {
  json_request_kinds : string -> option (list (list Z));
  json_reactions : string -> option (gmap string Z)
}.

Section Preview.
Context {N : Nostr} {R : RichText} {J : GoJSON} {PJ : PreviewJSON}.
(** The order [sort.Slice] gives to replacements that start at one position. *)
Context (sort_overrides : list override -> list override).

(* src: server/http/events/handler.go 216-239 *)
Definition convertMediaToPreview (media : gmap string string) : PostMedia :=
  let url := default "" (media !! "url") in
  let by_url := if HasSuffix url "mp4" then "video" else "image" in
  MkMedia (media !! "thumb") url
    match media !! "m" with
    | Some m => if HasPrefix m "image/" then "image" else if HasPrefix m "video/" then "video" else by_url
    | None => by_url
    end.

(* src: server/http/events/handler.go 241-248 *)
Definition extractProfileContentMetadata (contentJSON : string) : outcome ProfileMetadataContent :=
  match json_profile contentJSON with Some c => Ok c | None => Err opaque_error end.

(* src: server/http/events/handler.go 108-119 [updatePreviewWithEvent] *)
Definition preview_profile (p : PostPreview) (ev : Event) : outcome PostPreview :=
  let! c := extractProfileContentMetadata (Content ev) in
  let key := GetMasterPublicKey ev in
  Ok (with_author (fun a => MkAuthor (Name c) (DisplayName c) (Picture c) (Verified a || (verifiedBadgePTag a =s? key)) key (verifiedBadgePTag a)) p).

(** The address of the badge of an issuer that verifies accounts. *)
Definition verified_badge (ev : Event) : string := Strconv.Itoa KindBadgeDefinition +:+ ":" +:+ PubKey ev +:+ ":verified".
(* src: server/http/events/handler.go 121-135 [updatePreviewWithEvent] *)
Fixpoint preview_badge (aTags : Tags) (ev : Event) (p : PostPreview) : outcome PostPreview :=
  match aTags with
  | [] => Ok p
  | aTag :: aTags =>
      match aTag with
      | _ :: address :: _ =>
          if address =s? verified_badge ev then
            let eventAuthor := masterKey (Author p) in
            let pTag := GetFirst (EvTags ev) ["p"] in
            if (eventAuthor ≠s? "") && match pTag with Some t => Value t =s? eventAuthor | None => false end
            then Ok (with_author set_verified p)
            else if eventAuthor =s? "" then
              let! t := deref pTag in
              preview_badge aTags ev (with_author (set_badge (Value t)) p)
            else preview_badge aTags ev p
          else preview_badge aTags ev p
      | _ => preview_badge aTags ev p
      end
  end.

(** Mentions are shown as the name of the account. *)
(* src: server/http/events/handler.go 139-148 [updatePreviewWithEvent] *)
Definition replace_mention (orig replace : string) : bool * string :=
  if HasPrefix orig "ion:nprofile" || HasPrefix orig "nostr:npub" then
    if HasPrefix replace "[@" then
      match IndexRune replace "]" with
      | Some i => (true, take (i - 1) (drop 1 replace))
      | None => (true, replace)
      end
    else (true, replace)
  else (false, "").

(* src: server/http/events/handler.go 171-177 [updatePreviewWithEvent] *)
Fixpoint preview_media (imetas : Tags) : outcome (list PostMedia) :=
  match imetas with
  | [] => Ok []
  | imeta :: imetas =>
      let! media := ParseIMeta imeta in
      let! rest := preview_media imetas in
      Ok (convertMediaToPreview media :: rest)
  end.

(* src: server/http/events/handler.go 136-177 [updatePreviewWithEvent] *)
Definition preview_post (p : PostPreview) (ev : Event) : outcome PostPreview :=
  let! content := (if Content ev ≠s? "" then ReplacePMO sort_overrides ev replace_mention
                   else let richTextContent := ExtractRichTextContent ev in
                        Ok (if richTextContent ≠s? "" then richTextContent else PContent p)) in
  let key := GetMasterPublicKey ev in
  let p := MkPreview (TsTime (CreatedAt ev)) (Media p) (Author p) (PType p) (Comments p) (Reposts p) (Likes p) content in
  let p := if masterKey (Author p) =s? "" then
             let p := with_author (set_key key) p in
             if negb (Verified (Author p)) && (verifiedBadgePTag (Author p) =s? key) then with_author set_verified p else p
           else p in
  let type := if Kind ev =? KindArticle then "article" else if HasVideoIMeta ev then "video" else "post" in
  let! media := preview_media (GetAll (EvTags ev) ["imeta"]) in
  Ok (MkPreview (PCreatedAt p) (Media p ++ media) (Author p) type (Comments p) (Reposts p) (Likes p) (PContent p)).

(* src: server/http/events/handler.go 178-211 [updatePreviewWithEvent] *)
Definition preview_count (p : PostPreview) (ev : Event) : outcome PostPreview :=
  let! requestPayload := deref (GetFirst (EvTags ev) ["request"]) in
  match UnmarshalJSON (Value requestPayload) with
  | None => Err opaque_error
  | Some dvmReq =>
      if Kind dvmReq =? KindJobNostrEventCount then
        match json_request_kinds (Content dvmReq) with
        | Some ((kind :: _) :: _) =>
            let! counter := match Strconv.Atoi (Content ev) with
                            | Some n => Ok n
                            | None => match json_reactions (Content ev) with Some m => Ok (default 0 (m !! "+")) | None => Err opaque_error end
                            end in
            Ok (if (kind =? KindGenericRepost) || (kind =? KindRepost) then
                  MkPreview (PCreatedAt p) (Media p) (Author p) (PType p) (Comments p) counter (Likes p) (PContent p)
                else if (kind =? CustomIONKindEditableTextNote) || (kind =? KindTextNote) then
                  MkPreview (PCreatedAt p) (Media p) (Author p) (PType p) counter (Reposts p) (Likes p) (PContent p)
                else if kind =? KindReaction then
                  MkPreview (PCreatedAt p) (Media p) (Author p) (PType p) (Comments p) (Reposts p) counter (PContent p)
                else p)
        | _ => Err opaque_error
        end
      else Ok p
  end.

(* src: server/http/events/handler.go 106-214 *)
Definition updatePreviewWithEvent (p : PostPreview) (ev : Event) : outcome PostPreview :=
  let k := Kind ev in
  if k =? KindProfileMetadata then preview_profile p ev
  else if k =? KindBadgeAward then preview_badge (GetAll (EvTags ev) ["a"]) ev p
  else if (k =? KindTextNote) || (k =? CustomIONKindEditableTextNote) || (k =? KindArticle) then preview_post p ev
  else if k =? KindJobNostrEventCount + 1000 then preview_count p ev
  else Ok p.

(* src: server/http/events/handler.go 250-264 *)
Definition eventPreviewFilters (eventAddress : string) : Filter :=
  MkFilter None (Some [CustomIONKindEditableTextNote; KindTextNote; KindRepost; CustomIONKindRepostOfEditableTextNote; CustomIONKindRepostOfArticle; KindArticle])
    None (Some [eventAddress]) None None None 1
    "include:dependencies:kind30175>kind6400+kind30175+group+reply include:dependencies:kind30175>kind6400+kind16+group+e include:dependencies:kind30175>kind6400+kind30175+group+q include:dependencies:kind30175>kind6400+kind7+group+content include:dependencies:kind30175>kind6400+kind1754+group+content include:dependencies:kind30175>kind0 include:dependencies:kind30175>kind30008+profile_badges>kind30009>kind8 include:dependencies:kind30175>kind10000 include:dependencies:kind1>kind6400+kind30175+group+reply include:dependencies:kind1>kind6400+kind16+group+e include:dependencies:kind1>kind6400+kind30175+group+q include:dependencies:kind1>kind6400+kind7+group+content include:dependencies:kind1>kind6400+kind1754+group+content include:dependencies:kind1>kind0 include:dependencies:kind1>kind30008+profile_badges>kind30009>kind8 include:dependencies:kind1>kind10000 include:dependencies:kind30023>kind6400+kind30175+group+reply include:dependencies:kind30023>kind6400+kind16+group+e include:dependencies:kind30023>kind6400+kind30175+group+q include:dependencies:kind30023>kind6400+kind7+group+content include:dependencies:kind30023>kind6400+kind1754+group+content include:dependencies:kind30023>kind0 include:dependencies:kind30023>kind30008+profile_badges>kind30009>kind8 include:dependencies:kind30023>kind10000 include:dependencies:kind16>kind6400+kind30175+group+reply include:dependencies:kind16>kind6400+kind16+group+e include:dependencies:kind16>kind6400+kind30175+group+q include:dependencies:kind16>kind6400+kind7+group+content include:dependencies:kind16>kind6400+kind1754+group+content references:false expiration:false !amarker:reply !emarker:reply include:dependencies:kind30175>kind31175 include:dependencies:kind1>kind31175 include:dependencies:kind30023>kind31175".

(** The database: the events a filter yields. *)
Context (GetStoredEvents : list Filter -> list (Event + error)).

(* src: server/http/events/handler.go 47-76 *)
Definition GetEventByAddress (addressStr : string) : answer Event :=
  if addressStr =s? "" then BadRequest
  else match GetStoredEvents [MkFilter None None None (Some [addressStr]) None None None 1 ""] with
       | inr e :: _ => InternalServerError
       | inl ev :: _ => OK ev
       | [] => NotFound
       end.

(* src: server/http/events/handler.go 86-98 [GetEventPreview] *)
Fixpoint preview_of (items : list (Event + error)) (p : PostPreview) : outcome PostPreview :=
  match items with
  | [] => Ok p
  | inr e :: _ => Err e
  | inl ev :: items => let! p := updatePreviewWithEvent p ev in preview_of items p
  end.
(* src: server/http/events/handler.go 78-104 *)
Definition GetEventPreview (addressStr : string) : outcome (answer PostPreview) :=
  if addressStr =s? "" then Ok BadRequest
  else
    let items := GetStoredEvents [eventPreviewFilters addressStr] in
    match preview_of items no_preview with
    | Ok p => Ok (if is_nil items then NotFound else OK p)
    | Err _ => Ok InternalServerError
    | Panic => Panic
    | OutOfFuel => OutOfFuel
    end.
End Preview.

(** ** Theorems *)

Section PreviewLaws.
Context {N : Nostr} {R : RichText} {J : GoJSON} {PJ : PreviewJSON}.
Context (sort_overrides : list override -> list override).

(** An award of a badge that verifies accounts, by whoever issues the badge, to an
    account. *)
Definition awards (ev : Event) (account : string) : Prop :=
  Kind ev = KindBadgeAward /\ exists aTag t, aTag ∈ GetAll (EvTags ev) ["a"] /\ aTag !! 1%nat = Some (verified_badge ev) /\
    GetFirst (EvTags ev) ["p"] = Some t /\ Value t = account.
(** An event that names the author of the preview. *)
Definition names_author (ev : Event) : Prop :=
  Kind ev = KindProfileMetadata \/ Kind ev = KindTextNote \/ Kind ev = CustomIONKindEditableTextNote \/ Kind ev = KindArticle.

(** What is known of the author after some events. *)
Record explained (past : list Event) (a : CommunityPostAuthor) : Prop := {
  explained_key : masterKey a = "" \/ exists e, e ∈ past /\ names_author e /\ masterKey a = GetMasterPublicKey e;
  explained_badge : verifiedBadgePTag a = "" \/ exists e, e ∈ past /\ awards e (verifiedBadgePTag a);
  explained_mark : Verified a = true -> exists e e', e ∈ past /\ e' ∈ past /\ names_author e' /\ awards e (GetMasterPublicKey e')
}.

Lemma explained_more past ev a : explained past a -> explained (past ++ [ev]) a.
Proof.
  intros [Hk Hb Hm]. split.
  - destruct Hk as [|(e & He & Hn & Hk)]; [by left|right]. exists e. split_and!; [apply elem_of_app; by left|done..].
  - destruct Hb as [|(e & He & Hb)]; [by left|right]. exists e. split; [apply elem_of_app; by left|done].
  - intros Hv. destruct (Hm Hv) as (e & e' & He & He' & H). exists e, e'. split_and!; [apply elem_of_app; by left..| |]; apply H.
Qed.

(** The author becomes known, and verified when a badge was kept for it. *)
Lemma explained_author past ev a key : explained past a -> names_author ev -> key = GetMasterPublicKey ev -> key ≠ "" ->
  forall name display avatar verified,
  (verified = true -> Verified a = true \/ verifiedBadgePTag a = key) ->
  explained (past ++ [ev]) (MkAuthor name display avatar verified key (verifiedBadgePTag a)).
Proof.
  intros Ha Hn -> Hne name display avatar verified Hv. pose proof (explained_more _ ev _ Ha) as [Hk Hb Hm]. destruct Ha as [_ Hb0 _].
  split; cbn; [right|done|].
  - exists ev. split_and!; [apply elem_of_app; right; by left|done..].
  - intros [Hold|Hbadge]%Hv; [by apply Hm|]. destruct Hb0 as [He|(e & He & Haw)]; [congruence|]. rewrite Hbadge in Haw.
    exists e, ev. split_and!; [apply elem_of_app; by left|apply elem_of_app; right; by left|done..].
Qed.

Lemma badge_explained past ev p p' aTags : Kind ev = KindBadgeAward -> aTags ⊆ GetAll (EvTags ev) ["a"] ->
  explained (past ++ [ev]) (Author p) -> preview_badge aTags ev p = Ok p' -> explained (past ++ [ev]) (Author p').
Proof.
  intros Hkind. revert p. induction aTags as [|aTag aTags IH]; intros p Hsub Hp; cbn [preview_badge]; [by intros [= <-]|].
  destruct aTag as [|x [|address rest]]; [apply IH; [set_solver|done]..|].
  destruct (String.eqb_spec address (verified_badge ev)) as [->|]; [|apply IH; [set_solver|done]]. cbv zeta.
  assert (Haward : forall t, GetFirst (EvTags ev) ["p"] = Some t -> awards ev (Value t)).
  { intros t Ht. split; [done|]. exists (x :: verified_badge ev :: rest), t. split_and!; [set_solver|done..]. }
  destruct (_ && _) eqn:Hmatch.
  - apply andb_true_iff in Hmatch as [Hne Hmatch]. intros [= <-]. destruct Hp as [Hk Hb Hm]. split; cbn; [done..|]. intros _.
    destruct (GetFirst (EvTags ev) ["p"]) as [t|]; [|done]. apply String.eqb_eq in Hmatch.
    destruct Hk as [He|(e & He & Hn & Hk)]; [rewrite He in Hne; by destruct (String.eqb_spec "" "")|].
    exists ev, e. split_and!; [apply elem_of_app; right; by left|done..|]. rewrite <- Hk, <- Hmatch. by apply Haward.
  - destruct (masterKey (Author p) =s? ""); [|apply IH; [set_solver|done]].
    destruct (GetFirst (EvTags ev) ["p"]) as [t|]; [|done]. cbn [deref]. apply IH; [set_solver|].
    destruct Hp as [Hk Hb Hm]. split; cbn; [done| |done]. right. exists ev. split; [apply elem_of_app; right; by left|by apply Haward].
Qed.

Lemma update_explained past ev p p' : GetMasterPublicKey ev ≠ "" -> explained past (Author p) ->
  updatePreviewWithEvent sort_overrides p ev = Ok p' -> explained (past ++ [ev]) (Author p').
Proof.
  intros Hkey Hp. unfold updatePreviewWithEvent. cbv zeta. pose proof (explained_more _ ev _ Hp) as Hmore.
  destruct (Z.eqb_spec (Kind ev) KindProfileMetadata) as [Hk|].
  { unfold preview_profile. intros (c & _ & [= <-])%bind_Ok. cbn. apply (explained_author past ev (Author p)); [done|by left|done..|].
    intros [Hv|Hv%String.eqb_eq]%orb_true_iff; auto. }
  destruct (Z.eqb_spec (Kind ev) KindBadgeAward) as [Hk|]; [by apply badge_explained|].
  destruct (_ || _) eqn:Hpost.
  { assert (Hn : names_author ev) by (unfold names_author; rewrite !orb_true_iff, !Z.eqb_eq in Hpost; tauto).
    unfold preview_post. intros (content & _ & Hrun)%bind_Ok. apply bind_Ok in Hrun as (media & _ & [= <-]). cbn [Author].
    cbn [Author with_author masterKey]. destruct (String.eqb_spec (masterKey (Author p)) ""); [|done].
    cbn [Author with_author masterKey Verified verifiedBadgePTag set_key].
    destruct (negb (Verified (Author p)) && _) eqn:Hv; cbn [Author with_author set_verified set_key].
    - apply andb_true_iff in Hv as [_ Hv%String.eqb_eq]. apply (explained_author past ev (Author p)); auto.
    - apply (explained_author past ev (Author p)); auto. }
  destruct (Kind ev =? KindJobNostrEventCount + 1000); [|by intros [= <-]].
  unfold preview_count. intros (t & _ & Hrun)%bind_Ok. destruct (UnmarshalJSON (Value t)) as [req|]; [|done].
  destruct (Kind req =? KindJobNostrEventCount); [|by injection Hrun as <-].
  destruct (json_request_kinds (Content req)) as [[|[|kind ks] fs]|]; [done..| |done].
  apply bind_Ok in Hrun as (count & _ & [= <-]). repeat (destruct (_ || _) || destruct (_ =? _)); done.
Qed.

(** A preview shows its author as verified only when, among the events it is made
    of, a badge called "verified" is awarded, by the one who issues the badge, to an
    account that a profile or a post of the preview is of.  Any account may issue
    such a badge. *)
Lemma verified_by_award items p : (forall ev, inl ev ∈ items -> GetMasterPublicKey ev ≠ "") ->
  preview_of sort_overrides items no_preview = Ok p -> Verified (Author p) = true ->
  exists award e, inl award ∈ items /\ inl e ∈ items /\ names_author e /\ awards award (GetMasterPublicKey e).
Proof.
  intros Hkeys Hrun Hv.
  assert (Hgen : forall l past p0, (forall e, e ∈ past -> inl e ∈ items) -> l ⊆ items -> explained past (Author p0) -> preview_of sort_overrides l p0 = Ok p ->
    exists past', (forall e, e ∈ past' -> inl e ∈ items) /\ explained past' (Author p)).
  { induction l as [|[ev|x] l IH]; intros past p0 Hpast Hsub Hp Hl; cbn [preview_of] in Hl; [injection Hl as <-; eauto| |done].
    apply bind_Ok in Hl as (p1 & Hup & Hl). apply (IH (past ++ [ev]) p1); [|set_solver| |done].
    - intros e [He| ->%list_elem_of_singleton]%elem_of_app; [by apply Hpast|set_solver].
    - eapply update_explained; [|done..]. apply Hkeys. set_solver. }
  destruct (Hgen items [] no_preview) as (past & Hpast & [_ _ Hm]); [by intros e He%not_elem_of_nil|done|by split; [left|left|]|done|].
  destruct (Hm Hv) as (e & e' & He & He' & Hn & Ha). exists e, e'. auto.
Qed.
End PreviewLaws.

(** ** Concrete inputs *)
Module PreviewWitness.
Import AsciiText Plain.

#[local] Instance rich : RichText := {|
  json_delta _ := None; json_delta_Marshal _ := None; json_insert _ := None; json_string _ := None;
  json_string_Marshal s := s; quill_Render _ := None; bluemonday_Sanitize s := s;
  html_UnescapeString s := s; nip19_Decode _ := None |}.
#[local] Instance json : GoJSON := {|
  json_Valid _ := false; json_profile _ := None; json_strings _ := None; json_ints _ := None;
  json_event _ := None; json_from _ := None; json_to _ := None |}.
#[local] Instance counts : PreviewJSON := {| json_request_kinds _ := None; json_reactions _ := None |}.

(** A post of bb, and an award of a badge that zz issues to verify it. *)
Definition post : Event := MkEvent None "p1" "bb" 100 1 [] "hello" "".
Definition award : Event := MkEvent None "a1" "zz" 90 8 [["a"; "30009:zz:verified"]; ["p"; "bb"]] "" "".
Definition items : list (Event + error) := [inl award; inl post].
Definition shown : PostPreview := match preview_of (fun l => l) items no_preview with Ok p => p | _ => no_preview end.
Example shown_text : (PContent shown, PType shown, Verified (Author shown)) = ("hello", "post", true).
Proof. vm_compute. reflexivity. Qed.

Lemma verified_by_award_witness : exists award e, inl award ∈ items /\ inl e ∈ items /\ names_author e /\ awards award (GetMasterPublicKey e).
Proof.
  apply (verified_by_award (fun l => l) items shown); [|vm_compute; reflexivity|vm_compute; reflexivity].
  intros ev Hev. unfold items in Hev. apply elem_of_cons in Hev as [[= ->]|Hev%list_elem_of_singleton]; [done|]. injection Hev as ->. done.
Defined.
End PreviewWitness.
