(* ===== verification/Senders.v ===== *)
(** * Packages hashtagssender, nftcontentsender, followerssender, ionidentitypubkeys

    src/hashtags-sender, src/nft-content-sender, src/followers-sender: events that are
    reported to other services, at once or from a queue; and
    src/validation/internal/ion-identity-pubkeys: the keys of a service, fetched
    again and again.  The HTTP client, which repeats a request under a condition, and
    the database are parameters; a mutex makes the changes of the queue atomic steps.
    Reading the configuration and starting goroutines are left out. *)

From S2P Require Import Prelude GoStd Nostr Model Filters Content Validator.
Import Strings.

(** The services and the database. [Post] sends events to a path, again while the
    condition holds of the status, [None] an error; it ends in an error or a status. *)
Class Services (W : Type) := {
  Post : string -> (option Z -> bool) -> list Event -> ST W Z;
  GetPubKeys : string -> ST W (Z * string * string);
  GetStoredEvents : list Filter -> W -> W * list (Event + error)
}.

Definition StatusOK : Z := 200.
Definition StatusAccepted : Z := 202.
Definition StatusNoContent : Z := 204.

Section Reports.
Context {N : Nostr} {G : GoText} {J : GoJSON} {W : Type} {SV : Services W}.
Abbreviation M := (ST W).
Definition fail {A} (e : error) : M A := lift_st (Err e).
Definition stored (filters : list Filter) : M (list (Event + error)) := fun w => let '(w, items) := GetStoredEvents filters w in (w, Ok items).

(** Again after an error or a status of the server's. *)
(* src: nft-content-sender/nftcontentsender.go 222-224 [sendEvents] *)
Definition again_500 (r : option Z) : bool := match r with None => true | Some status => 500 <=? status end.
(* src: nft-content-sender/nftcontentsender.go 192-241 [sendEvents] *)
Definition nft_sendEvents (events : list Event) : M unit :=
  if is_nil events then mret ()
  else status ← Post "/v1/statistics/nft-content" again_500 events; if status =? StatusAccepted then mret () else fail opaque_error.
(* src: followers-sender/followers.go 131-181 [sendEvents] *)
Definition followers_sendEvents (events : list Event) : M unit :=
  if is_nil events then mret ()
  else status ← Post "/v1/statistics/followers" again_500 events; if status =? StatusAccepted then mret () else fail opaque_error.

(** *** Followers *)

(* src: followers-sender/followers.go 103-112 *)
Definition findFollowerListEvent (events : list Event) : option Event := List.find (fun event => Kind event =? KindFollowList) events.

(* src: followers-sender/followers.go 114-129 *)
Definition getAttestationEventFromStorage (masterPubkey : string) : M (option Event) :=
  items ← stored [MkFilter None (Some [CustomIONKindAttestation]) (Some [masterPubkey]) None None None None 1 ""];
  match items with
  | [] => mret None
  | inl evt :: _ => mret (Some evt)
  | inr e :: _ => fail e
  end.

(* src: followers-sender/followers.go 65-101 [processEvents] *)
Definition followers_processEvents (events : list Event) : M unit :=
  if is_nil events || existsb (fun event => Kind event =? CustomIONKindEphemeralEmbedding) events then mret ()
  else match findFollowerListEvent events with
  | None => mret ()
  | Some followersEvent =>
      if bool_decide (GetNewlyFollowedPubkeys followersEvent (Previous followersEvent) = ∅) then mret ()
      else
        attestationEvent ← getAttestationEventFromStorage (GetMasterPublicKey followersEvent);
        match attestationEvent with
        | None => mret ()
        | Some attestationEvent => followers_sendEvents [followersEvent; attestationEvent]
        end
  end.

(** *** Contents *)

(* src: nft-content-sender/nftcontentsender.go 44-49 *)
Definition contentEventKinds : list Z := [KindProfileMetadata; KindTextNote; CustomIONKindEditableTextNote; KindArticle].

(** The first of the wallets, in the order of the range. *)
(* src: nft-content-sender/nftcontentsender.go 73-81 *)
Definition getBSCWalletAddress (wallets : list (string * string)) : string :=
  match List.find (fun w => EqualFold w.1 "bsc" || EqualFold w.1 "bsctestnet") wallets with Some w => w.2 | None => "" end.

(* src: nft-content-sender/nftcontentsender.go 136-153 *)
Definition findContentEvent (events : list Event) : option Event :=
  if existsb (fun event => Kind event =? CustomIONKindEphemeralEmbedding) events then None
  else List.find (fun event => bool_decide (Kind event ∈ contentEventKinds) && negb (IsComment event || IsCommunityPost event || IsStory event)) events.

(** The profile and the attestation that are read last. *)
(* src: nft-content-sender/nftcontentsender.go 166-178 [getRequiredEventsFromStorage] *)
Definition required (st : option Event * option Event) (item : Event + error) : outcome (option Event * option Event) :=
  match item with
  | inr e => Err e
  | inl evt => Ok (if Kind evt =? KindProfileMetadata then (Some evt, st.2)
                   else if Kind evt =? CustomIONKindAttestation then (st.1, Some evt) else st)
  end.
(* src: nft-content-sender/nftcontentsender.go 155-181 *)
Definition getRequiredEventsFromStorage (masterPubkey : string) (contentEvent : Event) : M (option Event * option Event) :=
  items ← stored [MkFilter None (Some (CustomIONKindAttestation :: (if Kind contentEvent =? KindProfileMetadata then [] else [KindProfileMetadata])))
    (Some [masterPubkey]) None None None None 0 ""];
  lift_st (for_state items (None, None) required).

(* src: nft-content-sender/nftcontentsender.go 183-190 *)
Definition buildEventsToSend (contentEvent : Event) (profileMetadataEvent : option Event) (attestationEvent : Event) : list Event :=
  [contentEvent; attestationEvent] ++
  (if Kind contentEvent =? KindProfileMetadata then [] else match profileMetadataEvent with Some e => [e] | None => [] end).

(** A profile that was stored before is reported again when it has its first
    collections or another wallet; other contents once. *)
(* src: nft-content-sender/nftcontentsender.go 93-123 [processEvents] *)
Definition reported_again (contentEvent previous : Event) : outcome bool :=
  if Kind contentEvent =? KindProfileMetadata then
    match json_profile (Content contentEvent) with
    | None => Err opaque_error
    | Some parsedContent =>
        match json_profile (Content previous) with
        | None => Err opaque_error
        | Some previousContent =>
            let nftCollectionsAdded := is_nil (IONContentNFTCollections previousContent) && negb (is_nil (IONContentNFTCollections parsedContent)) in
            let bscWalletChanged := getBSCWalletAddress (Wallets parsedContent) ≠s? getBSCWalletAddress (Wallets previousContent) in
            Ok (nftCollectionsAdded || bscWalletChanged)
        end
    end
  else Ok false.

(* src: nft-content-sender/nftcontentsender.go 83-134 [processEvents] *)
Definition nft_processEvents (events : list Event) : M unit :=
  match findContentEvent events with
  | None => mret ()
  | Some contentEvent =>
      go_on ← lift_st (match Previous contentEvent with Some previous => reported_again contentEvent previous | None => Ok true end);
      if negb (go_on : bool) then mret ()
      else
        r ← getRequiredEventsFromStorage (GetMasterPublicKey contentEvent) contentEvent;
        match r.2 with
        | None => mret ()
        | Some attestationEvent =>
            if negb (Kind contentEvent =? KindProfileMetadata) && bool_decide (r.1 = None) then mret ()
            else nft_sendEvents (buildEventsToSend contentEvent r.1 attestationEvent)
        end
  end.
End Reports.

(** ** Hashtags *)

Definition word_char (c : ascii) : bool :=
  let n := nat_of_ascii c in
  ((48 <=? n)%nat && (n <=? 57)%nat) || ((65 <=? n)%nat && (n <=? 90)%nat) || ((97 <=? n)%nat && (n <=? 122)%nat) || (n =? 95)%nat.
(** A match of the expression is found in the text. *)
(* src: hashtags-sender/hashtagssender.go 47 *)
Fixpoint hashtagRegex (s : string) : bool :=
  match s with
  | String c ((String d _) as rest) => (Ascii.eqb c "#" && word_char d) || hashtagRegex rest
  | _ => false
  end.

(* src: hashtags-sender/hashtagssender.go 21-27 [Config] *)
Record HashtagsConfig : Type := MkHashtagsConfig { MaxEventsQueueSize : nat; SendInterval : Z }.
(* src: hashtags-sender/hashtagssender.go 31-38 [sender] *)
Record hashtagsSender : Type := MkHashtags { lastSent : Z; eventsToSend : list (list Event); eventsQueue : list Event }.

Section Hashtags.
Context {N : Nostr} {W : Type} {SV : Services W}.

(** The configuration with its defaults. *)
(* src: hashtags-sender/hashtagssender.go 56-61 [MustInit] *)
Definition hashtags_defaults (maxSize interval : Z) : HashtagsConfig :=
  MkHashtagsConfig (if maxSize <=? 0 then 1000 else Z.to_nat maxSize) (if interval <=? 0 then 3600000000000 else interval).
(* src: hashtags-sender/hashtagssender.go 62-69 [MustInit] *)
Definition hashtags_init (now : Z) : hashtagsSender := MkHashtags now [] [].

(* src: hashtags-sender/hashtagssender.go 82-89 *)
Definition hasHashtagInRichText (e : Event) : bool :=
  match GetTag e CustomIONTagRichText with
  | _ :: protocol :: text :: _ => (protocol =s? QuillDeltaProtocol) && hashtagRegex text
  | _ => false
  end.

(* src: hashtags-sender/hashtagssender.go 93-107 [processEvents] *)
Definition has_hashtag (event : Event) : bool :=
  ((Kind event =? KindTextNote) || (Kind event =? CustomIONKindEditableTextNote) || (Kind event =? KindArticle)) &&
  (if Content event ≠s? "" then hashtagRegex (Content event) else hasHashtagInRichText event).

(** A channel that is full takes no batch: the batch is gone. *)
(* src: hashtags-sender/hashtagssender.go 91-136 [processEvents] *)
Definition hashtags_processEvents (config : HashtagsConfig) (now : Z) (events : list Event) (p : hashtagsSender) : hashtagsSender :=
  let validEvents := filter (fun event => has_hashtag event = true) events in
  if is_nil validEvents then p
  else
    let queue := eventsQueue p ++ validEvents in
    if (length queue <? MaxEventsQueueSize config)%nat && (now - lastSent p <? SendInterval config)
    then MkHashtags (lastSent p) (eventsToSend p) queue
    else if (length (eventsToSend p) <? MaxEventsQueueSize config)%nat
    then MkHashtags now (eventsToSend p ++ [queue]) []
    else MkHashtags (lastSent p) (eventsToSend p) [].

(* src: hashtags-sender/hashtagssender.go 185-187 [sendEvents] *)
Definition again_202 (r : option Z) : bool := match r with None => true | Some status => negb (status =? StatusAccepted) end.
(* src: hashtags-sender/hashtagssender.go 154-204 [sendEvents] *)
Definition hashtags_sendEvents (events : list Event) : ST W unit :=
  if is_nil events then mret ()
  else status ← Post "/v1/statistics/hashtags" again_202 events; if status =? StatusAccepted then mret () else lift_st (Err opaque_error).

(** The goroutine takes one batch; an error is logged. *)
(* src: hashtags-sender/hashtagssender.go 138-152 [startSender] *)
Definition send_next (p : hashtagsSender) (w : W) : hashtagsSender * W :=
  match eventsToSend p with
  | [] => (p, w)
  | events :: batches => (MkHashtags (lastSent p) batches (eventsQueue p), (hashtags_sendEvents events w).1)
  end.
End Hashtags.

(** ** Identity keys *)

(* src: validation/internal/ion-identity-pubkeys/ion_identity_pubkeys.go 25-28 *)
Record publicKeys : Type := MkKeys { Version : string; Keys : list string }.

Section IdentityKeys.
Context {J : GoJSON} {W : Type} {SV : Services W}.

(* src: validation/internal/ion-identity-pubkeys/ion_identity_pubkeys.go 57-64 *)
Definition PublicKeys (f : option publicKeys) : list string := match f with Some data => Keys data | None => [] end.
(* src: validation/internal/ion-identity-pubkeys/ion_identity_pubkeys.go 82-88 *)
Definition GetCurrentVersion (f : option publicKeys) : string := match f with Some data => Version data | None => "0" end.

(** [None] when nothing has changed; the service answers with a status, a body and
    the version. *)
(* src: validation/internal/ion-identity-pubkeys/ion_identity_pubkeys.go 111-172 *)
Definition fetchPubKeys (version : string) : ST W (option publicKeys) :=
  resp ← GetPubKeys version;
  let '(status, body, header) := resp in
  if negb (status =? StatusOK) then
    if status =? StatusNoContent then mret None else lift_st (Err opaque_error)
  else match json_strings body with
       | None => lift_st (Err opaque_error)
       | Some keys => mret (Some (MkKeys header keys))
       end.

(* src: validation/internal/ion-identity-pubkeys/ion_identity_pubkeys.go 90-106 *)
Definition syncPubKeys (f : option publicKeys) (w : W) : W * outcome (option publicKeys) :=
  (keys ← fetchPubKeys (GetCurrentVersion f); mret (match keys with Some keys => Some keys | None => f end)) w.

(** A tick of the clock; an error is logged and the keys stay. *)
(* src: validation/internal/ion-identity-pubkeys/ion_identity_pubkeys.go 66-80 [backgroundSync] *)
Definition tick (f : option publicKeys) (w : W) : option publicKeys * W :=
  match syncPubKeys f w with (w, Ok f') => (f', w) | (w, _) => (f, w) end.
End IdentityKeys.

(** ** Theorems *)

Section HashtagLaws.
Context {N : Nostr}.
Context (config : HashtagsConfig).

(** Events that come in, and batches that the goroutine takes. *)
Inductive hashtags_op : Type := Accepts (now : Z) (events : list Event) | Takes.
(** The state with the batches that were taken. *)
Definition hashtags_step (st : hashtagsSender * list (list Event)) (op : hashtags_op) : hashtagsSender * list (list Event) :=
  let '(p, taken) := st in
  match op with
  | Accepts now events => (hashtags_processEvents config now events p, taken)
  | Takes => match eventsToSend p with
             | [] => st
             | batch :: batches => (MkHashtags (lastSent p) batches (eventsQueue p), taken ++ [batch])
             end
  end.
Definition with_hashtags (op : hashtags_op) : list Event :=
  match op with Accepts _ events => filter (fun event => has_hashtag event = true) events | Takes => [] end.

(** All that was taken, is on its way or waits. *)
Definition held (st : hashtagsSender * list (list Event)) : list Event := concat st.2 ++ concat (eventsToSend st.1) ++ eventsQueue st.1.

Record queued (st : hashtagsSender * list (list Event)) (offered : list Event) : Prop := {
  queued_held : held st `sublist_of` offered;
  queued_length : (length (eventsQueue st.1) < MaxEventsQueueSize config)%nat;
  queued_batches : (length (eventsToSend st.1) <= MaxEventsQueueSize config)%nat;
  queued_full : Forall (fun batch => batch ≠ []) (st.2 ++ eventsToSend st.1)
}.

Lemma sublist_prefix {A} (a b c d : list A) : a ++ b `sublist_of` c -> a ++ b ++ d `sublist_of` c ++ d.
Proof. rewrite List.app_assoc. intros H. by apply sublist_app. Qed.

Lemma accepts_queued p taken now events offered : (0 < MaxEventsQueueSize config)%nat -> queued (p, taken) offered ->
  queued (hashtags_processEvents config now events p, taken) (offered ++ with_hashtags (Accepts now events)).
Proof.
  intros Hpos [Hh Hl Hb Hf]. unfold held in Hh. cbn [fst snd with_hashtags] in *. unfold hashtags_processEvents. cbv zeta.
  destruct (filter (fun event => has_hashtag event = true) events) as [|v vs] eqn:Hv; cbn [is_nil].
  { rewrite List.app_nil_r. by split. }
  rewrite List.app_assoc in Hh. pose proof (sublist_app _ _ _ _ Hh (reflexivity (v :: vs))) as Hall. rewrite <- !List.app_assoc in Hall.
  rewrite <- List.app_assoc in Hh. destruct (_ && _) eqn:Hwait.
  - apply andb_true_iff in Hwait as [Hlt%Nat.ltb_lt _]. split; unfold held; cbn [fst snd eventsToSend eventsQueue]; done.
  - destruct (Nat.ltb_spec (length (eventsToSend p)) (MaxEventsQueueSize config)) as [Hroom|Hfull]; split; unfold held; cbn [fst snd eventsToSend eventsQueue length].
    + rewrite List.concat_app. cbn [concat]. rewrite !List.app_nil_r, <- ?List.app_assoc. done.
    + done.
    + rewrite length_app. cbn. lia.
    + rewrite List.app_assoc. apply Forall_app_2; [done|]. apply Forall_singleton. by destruct (eventsQueue p).
    + rewrite List.app_nil_r. rewrite List.app_assoc in Hh. etransitivity; [by apply sublist_inserts_r, reflexivity|]. etransitivity; [exact Hh|]. by apply sublist_inserts_r.
    + done.
    + done.
    + done.
Qed.

(** Whatever comes in and however slowly batches are taken, the events that were
    taken, are on their way or wait are, in order and each once, events with a
    hashtag that came in; the queue stays below its size, the channel within it, and
    no batch is empty. *)
Lemma hashtags_queued ops now : (0 < MaxEventsQueueSize config)%nat ->
  queued (fold_left hashtags_step ops (hashtags_init now, [])) (concat (map with_hashtags ops)).
Proof.
  intros Hpos.
  assert (Hgen : forall ops st offered, queued st offered -> queued (fold_left hashtags_step ops st) (offered ++ concat (map with_hashtags ops))).
  { clear ops. induction ops as [|op ops IH]; intros [p taken] offered Hq; cbn [fold_left map concat]; [by rewrite List.app_nil_r|].
    rewrite List.app_assoc. apply IH. destruct op as [t events|]; [by apply accepts_queued|]. cbn [hashtags_step with_hashtags]. rewrite List.app_nil_r.
    destruct (eventsToSend p) as [|batch batches] eqn:Hb; [done|]. destruct Hq as [Hh Hl Hn Hf]. unfold held in Hh. cbn [fst snd] in *. rewrite Hb in *.
    split; unfold held; cbn [fst snd eventsToSend eventsQueue].
    - rewrite List.concat_app. cbn [concat]. rewrite List.app_nil_r, <- List.app_assoc. cbn [concat] in Hh. by rewrite <- List.app_assoc in Hh.
    - done.
    - cbn in Hn. lia.
    - by rewrite <- List.app_assoc. }
  apply (Hgen ops (hashtags_init now, []) []). split; cbn; [constructor|lia|lia|constructor].
Qed.
End HashtagLaws.

Section KeyLaws.
Context {J : GoJSON} {W : Type} {SV : Services W}.

(** The keys in use are those of the last answer that had some; other answers and
    errors leave them. *)
Lemma tick_keys f w : (tick f w).1 = f \/ exists w0 version status body keys,
  GetPubKeys (GetCurrentVersion f) w = (w0, Ok (status, body, version)) /\ status = StatusOK /\ json_strings body = Some keys /\ (tick f w).1 = Some (MkKeys version keys).
Proof.
  unfold tick, syncPubKeys, fetchPubKeys. cbv [mbind ST_bind]. destruct (GetPubKeys (GetCurrentVersion f) w) as [w0 [[[status body] version]|x| |]] eqn:Hget; [|by left..].
  destruct (Z.eqb_spec status StatusOK) as [Hok|]; cbn [negb].
  - destruct (json_strings body) as [keys|] eqn:Hkeys; [|by left]. right. by exists w0, version, status, body, keys.
  - destruct (status =? StatusNoContent); by left.
Qed.
End KeyLaws.

(** ** Concrete inputs *)
Module SendersWitness.
Import AsciiText Plain.

#[local] Instance json : GoJSON := {|
  json_Valid _ := false; json_profile s := Some (MkProfile [] (if s =? "ab" then [("bsc", "a"); ("bsctestnet", "b")] else [("bsctestnet", "b"); ("bsc", "a")])%string "" "" "");
  json_strings _ := None; json_ints _ := None; json_event _ := None; json_from _ := None; json_to _ := None |}.

Definition tagged : Event := MkEvent None "t1" "aa" 100 1 [] "see #here" "".
Definition plain_note : Event := MkEvent None "t2" "aa" 100 1 [] "no tag: # here" "".
Definition config : HashtagsConfig := hashtags_defaults 2 0.
Definition ops : list hashtags_op := [Accepts 1 [tagged; plain_note]; Accepts 2 [tagged]; Takes; Accepts 3 [tagged]].
Lemma hashtags_queued_witness : queued config (fold_left (hashtags_step config) ops (hashtags_init 0, [])) (concat (map with_hashtags ops)).
Proof. apply (hashtags_queued config ops 0). cbn. lia. Defined.
Example one_batch_taken : (fold_left (hashtags_step config) ops (hashtags_init 0, [])).2 = [[tagged; tagged]].
Proof. vm_compute. reflexivity. Qed.

(** One profile, whose two wallets a range visits in either order: it is reported
    again though nothing has changed. *)
Definition before : Event := MkEvent None "m1" "aa" 100 0 [] "ab" "".
Definition after : Event := MkEvent (Some before) "m2" "aa" 101 0 [] "ba" "".
Example unchanged_reported : reported_again after before = Ok true.
Proof. vm_compute. reflexivity. Qed.
End SendersWitness.
