(* ===== verification/Info.v ===== *)
(** * Package nip11: what a relay says of itself

    src/server/http/nip11/nip11.go, system_status.go and fetcher/*.go: the information
    document, the state of the system it holds, how that state is kept up to date,
    and how the documents of other relays are read.  The measurements of the
    machine, the database, package storage (by its interface in file FileServer), the
    HTTP client, JSON and the cache with expiry are parameters.  The goroutines that
    tick are steps of the collector; the start of them is left out. *)

From S2P Require Import Prelude GoStd Nostr Model Filters Validator StateFSM Status Files HttpAuth FileServer.
Import Strings.

Definition uint64 (z : Z) : Z := z mod 2 ^ 64.
Definition second : Z := 1000000000.
Definition minute : Z := 60 * second.

(** ** The document *)

(* src: server/http/nip11/fetcher/info.go 10-15 *)
Record FCMConfig : Type := MkFCMConfig { ApiKey : string; AppID : string; MessagingSenderID : string; ProjectID : string }.
(* src: server/http/nip11/fetcher/info.go 16-23 *)
Record SystemMetrics : Type := MkMetrics {
  UsedFileStorage : Z; UsedDatabaseStorage : Z; UsedTotalStorage : Z; UsedMemory : Z; UsedCPU : Z; UsedBandwidth : Z
}.
(* src: server/http/nip11/fetcher/info.go 43-45 *)
Inductive SystemStatusState : Set := SystemStatusStateOK | SystemStatusStateError | SystemStatusStateMaintenance.
#[export] Instance SystemStatusState_eq_dec : EqDecision SystemStatusState.
Proof. solve_decision. Defined.
(* src: server/http/nip11/fetcher/info.go 25-32 *)
Record SystemStatus : Type := MkSystemStatus {
  EventsWrite : SystemStatusState; EventsRead : SystemStatusState; DVM : SystemStatusState;
  FilesWrite : SystemStatusState; FilesRead : SystemStatusState; PushesSend : SystemStatusState
}.
(* src: server/http/nip11/fetcher/info.go 33-40 *)
Record RelayInformationDocument : Type := MkDocument {
  URL_ : string; DName : string; Description : string; DPubKey : string; Contact : string; SupportedNIPs : list Z; Software : string;
  MinPowDifficulty : Z; FCMAndroidConfigs : list FCMConfig; FCMIOSConfigs : list FCMConfig; FCMWebConfigs : list FCMConfig;
  Status_ : option SystemStatus; Metrics : option SystemMetrics
}.

(** JSON of documents and of configurations. *)
Class InfoJSON := {
  json_fcm : string -> option FCMConfig;
  json_document : string -> option RelayInformationDocument
}.

(* src: server/http/nip11/nip11.go 35-41 *)
Record Config : Type := MkConfig {
  PrivateKey : string; AndroidConfigs : list string; IOSConfigs : list string; WebConfigs : list string; MinLeadingZeroBits : Z
}.

Section Document.
Context {J : InfoJSON}.

(* src: server/http/nip11/nip11.go 172-177 *)
Definition isValidFCMConfig (config : FCMConfig) : bool :=
  (ApiKey config ≠s? "") && (AppID config ≠s? "") && (MessagingSenderID config ≠s? "") && (ProjectID config ≠s? "").

(** Texts that are no configuration are left out; one that misses a field panics. *)
(* src: server/http/nip11/nip11.go 105-116 [info] *)
Fixpoint fcm_configs (texts : list string) : outcome (list FCMConfig) :=
  match texts with
  | [] => Ok []
  | text :: texts =>
      match json_fcm text with
      | None => fcm_configs texts
      | Some config =>
          if isValidFCMConfig config then let! rest := fcm_configs texts in Ok (config :: rest) else Panic
      end
  end.

(** A key that cannot be read gives no public key. *)
(* src: server/http/nip11/nip11.go 143-150 [info] *)
Definition info_pubkey (privateKey : string) : string :=
  if privateKey ≠s? "" then match GetPublicKey privateKey with Ok k => k | _ => "" end else "~".

(* src: server/http/nip11/nip11.go 100-170 *)
Definition info (cfg : Config) (status : option SystemStatus) (metrics : option SystemMetrics) : outcome RelayInformationDocument :=
  let! androidConfigs := fcm_configs (AndroidConfigs cfg) in
  let! iosConfigs := fcm_configs (IOSConfigs cfg) in
  let! webConfigs := fcm_configs (WebConfigs cfg) in
  Ok (MkDocument "" "subzero" "subzero" (info_pubkey (PrivateKey cfg)) "~"
    [1; 2; 9; 10; 11; 13; 18; 23; 24; 25; 32; 40; 45; 50; 51; 56; 58; 65; 90; 92; 96; 98] "subzero" (MinLeadingZeroBits cfg)
    androidConfigs iosConfigs webConfigs status metrics).

(** A status alone, or the document. *)
(* src: server/http/nip11/nip11.go 83-98 *)
Definition ServeHTTP (cfg : Config) (accept : string) (status : option SystemStatus) (metrics : option SystemMetrics) :
    outcome (Z + RelayInformationDocument) :=
  if accept ≠s? "application/nostr+json" then Ok (inl 400) else let! doc := info cfg status metrics in Ok (inr doc).
End Document.

(** ** Metrics *)

(** What was measured last: the bytes of the network and when. *)
(* src: server/http/nip11/nip11.go 50-52 [nip11handler] *)
Record bandwidth : Type := MkBandwidth { lastBandwidthBytes : Z; lastBandwidthBytesAt : Z }.
(** A counter of a network interface. *)
Record IOCountersStat : Type := MkCounters { CounterName : string; BytesRecv : Z; BytesSent : Z }.

(** Integers of 64 bits; a division by zero panics. *)
(* src: server/http/nip11/nip11.go 249-263 *)
Definition calcBandwidth (now : Z) (counters : list IOCountersStat) (b : bandwidth) : bandwidth * outcome Z :=
  match List.find (fun c => CounterName c =? "all")%string counters with
  | None => (b, Ok 0)
  | Some c =>
      let totalBytes := uint64 (BytesRecv c + BytesSent c) in
      (MkBandwidth totalBytes now,
       let elapsed := uint64 (now - lastBandwidthBytesAt b) in
       if elapsed =? 0 then Panic else Ok (uint64 (uint64 (totalBytes - lastBandwidthBytes b) * second) / elapsed))
  end.

(** Measurements: the use of the processors, of memory, of the disk by files and by the
    consensus, of the database, the counters; each may fail. *)
Record measurements : Type := MkMeasurements {
  cpu : outcome Z; memory : outcome Z; file_storage : Z; command_storage : Z; counters : outcome (list IOCountersStat); database_storage : Z
}.
(* src: server/http/nip11/nip11.go 209-247 *)
Definition collectMetrics (now : Z) (m : measurements) (b : bandwidth) : bandwidth * outcome SystemMetrics :=
  match cpu m, memory m, counters m with
  | Ok used_cpu, Ok used_memory, Ok io =>
      let '(b, rate) := calcBandwidth now io b in
      (b, let! rate := rate in
          Ok (MkMetrics (file_storage m) (database_storage m) (uint64 (file_storage m + database_storage m + command_storage m)) used_memory used_cpu rate))
  | _, _, _ => (b, Err opaque_error)
  end.

(** The metrics of the document after a tick; none after an error. *)
(* src: server/http/nip11/nip11.go 200-206 [startSystemMetricsCollector] *)
Definition metrics_tick (now : Z) (m : measurements) (b : bandwidth) : bandwidth * outcome (option SystemMetrics) :=
  let '(b, r) := collectMetrics now m b in
  (b, match r with Ok metrics => Ok (Some metrics) | Err _ => Ok None | Panic => Panic | OutOfFuel => OutOfFuel end).

(** ** The state of the system *)

(** The parts of the system that are looked at, over the state of package storage. *)
Class SystemWorld (S : Type) := {
  time_Now : S -> Z;
  Health : S -> HealthStatus;
  databaseReportGetter : ST S Status;
  query_AcceptEvents : list Event -> ST S unit;
  query_GetStoredEvents : list Filter -> S -> S * list (Event + error);
  (** new keys, a random text, the content of a file, ten seconds (or the end of the check) *)
  GenerateKeyPair : ST S (string * string);
  rand_Text : ST S string;
  os_ReadFile : string -> ST S string;
  wait : ST S bool
}.

(* src: server/http/nip11/system_status.go 31 *)
Definition forceDatabaseCheckInterval : Z := 5 * minute.
(* src: server/http/nip11/system_status.go 32 *)
Definition forceStorageCheckInterval : Z := 10 * minute.

Definition state_of (failed : bool) : SystemStatusState := if failed then SystemStatusStateError else SystemStatusStateOK.
Definition with_events (w r d : SystemStatusState) (s : SystemStatus) : SystemStatus :=
  MkSystemStatus w r d (FilesWrite s) (FilesRead s) (PushesSend s).
Definition with_files (w r : SystemStatusState) (s : SystemStatus) : SystemStatus :=
  MkSystemStatus (EventsWrite s) (EventsRead s) (DVM s) w r (PushesSend s).

(* src: server/http/nip11/nip11.go 68-76 [NewNIP11Handler] *)
Definition healthy : SystemStatus :=
  MkSystemStatus SystemStatusStateOK SystemStatusStateOK SystemStatusStateOK SystemStatusStateOK SystemStatusStateOK SystemStatusStateOK.

Section SystemStatus.
Context {N : Nostr} {C : Crypto} {S : Type} {SC : StorageClient S} {SW : SystemWorld S}.
(** Whether there is a storage client; the decimal text of the clock in base 16; the
    text of a timestamp after a number of nanoseconds. *)
Context (has_storage : bool) (file_name : Z -> string) (expiration_text : Timestamp -> Z -> string).
Abbreviation M := (ST S).
Definition look {A} (f : S -> A) : M A := fun s => (s, Ok (f s)).

(** The time since an instant, unless there was none yet. *)
Definition since (now : Z) (t : option Z) (interval : Z) : bool := match t with Some t => interval <? now - t | None => true end.

(* src: server/http/nip11/system_status.go 35-58 *)
Definition collectStorageStatus (s : S) (rep : SystemStatus) : SystemStatus * bool :=
  if negb has_storage then (rep, false)
  else
    let report := Health s in
    (with_files (state_of (HInWriteErrorState report)) (state_of (HInReadErrorState report)) rep,
     since (time_Now s) (HLastWrite report) forceStorageCheckInterval || since (time_Now s) (HLastRead report) forceStorageCheckInterval).

(** Without a report nothing changes. *)
(* src: server/http/nip11/system_status.go 60-88 *)
Definition collectDatabaseStatus (rep : SystemStatus) : M (SystemStatus * bool) :=
  r ← attempt_st databaseReportGetter;
  match r with
  | inr _ => mret (rep, false)
  | inl report =>
      now ← look time_Now;
      mret (with_events (state_of (InWriteErrorState report)) (state_of (InReadErrorState report))
              (state_of (InReadErrorState report || InWriteErrorState report)) rep,
            since now (Some (LastWrite report)) forceDatabaseCheckInterval || since now (Some (LastRead report)) forceDatabaseCheckInterval)
  end.

(** *** Checks *)

(** A form with one file of a random text: its parts, the name, the digest. *)
(* src: server/http/nip11/system_status.go 90-117 *)
Definition createStorageUploadRequest : M (list (part + error) * string * string) :=
  text ← rand_Text;
  now ← look time_Now;
  let name := "subzero_storage_healthcheck_" +:+ file_name now +:+ ".txt" in
  mret ([inl (MkPart "file" name text None)], name, sha256_Sum256 text).

(** The upload that is checked; whether the file could be written and read. *)
(* src: server/http/nip11/system_status.go 158-206 [RunStorageStatusCheck] *)
Definition upload_and_read (masterPubKey filename expectedHash : string) (saved : saved_file) : M (bool * bool) :=
  match saved with
  | NotSaved _ _ => mret (false, false)
  | Saved path input hash =>
      let hashHex := Hex.EncodeToString hash in
      started ← attempt_st (sc_StartUpload false masterPubKey masterPubKey path hashHex (Some input));
      match started with
      | inr _ => mret (false, false)
      | inl _ =>
          fullPath ← attempt_st (sc_FilePath masterPubKey hashHex (Filepath.Ext filename));
          match fullPath with
          | inr _ => mret (true, false)
          | inl fullPath =>
              data ← attempt_st (os_ReadFile fullPath);
              mret (true, match data with inl data => sha256_Sum256 data =s? expectedHash | inr _ => false end)
          end
      end
  end.

(** A file that was saved with the right digest is deleted at the end; an error of
    that is logged. *)
(* src: server/http/nip11/system_status.go 119-207 *)
Definition RunStorageStatusCheck (rep : SystemStatus) : M SystemStatus :=
  let down := with_files SystemStatusStateError SystemStatusStateError rep in
  if negb has_storage then mret down
  else
    r ← createStorageUploadRequest;
    let '(parts, filename, expectedHash) := r in
    keys ← GenerateKeyPair;
    let masterPubKey := keys.2 in
    now ← look time_Now;
    saved ← sc_SaveFile now masterPubKey (FromRequest (Some parts) (2 ^ 20));
    match saved with
    | NotSaved _ _ => mret down
    | Saved path input hash =>
        if hash ≠s? expectedHash then mret down
        else
          r ← upload_and_read masterPubKey filename expectedHash saved;
          attempt_st (sc_Delete masterPubKey masterPubKey (Hex.EncodeToString hash)) ;;
          mret (with_files (state_of (negb r.1)) (state_of (negb r.2)) rep)
    end.

(** The kind of the events of a check; they expire after two minutes. *)
Definition testEventKind : Z := 9998.
(* src: server/http/nip11/system_status.go 214-226 [RunDatabaseStatusCheck] *)
Definition test_event (i : Z) : M Event :=
  keys ← GenerateKeyPair;
  now ← look time_Now;
  let at_ := Now now in
  lift_st (let e := MkEvent None "" "" at_ testEventKind [["expiration"; expiration_text at_ (2 * minute)]] ("status check event " +:+ Strconv.Itoa i) "" in
        match SignWithAlg e keys.1 SignAlgEDDSA KeyAlgCurve25519 with Ok e => Ok e | Err _ => Ok e | Panic => Panic | OutOfFuel => OutOfFuel end).

(** The events before the first error. *)
(* src: server/http/nip11/system_status.go 242-249 [RunDatabaseStatusCheck] *)
Fixpoint received (items : list (Event + error)) : list Event :=
  match items with inl ev :: items => ev :: received items | _ => [] end.

Definition stored_events (filters : list Filter) : M (list (Event + error)) :=
  fun s => let '(s, items) := query_GetStoredEvents filters s in (s, Ok items).
(** The events are asked for again until all are there, a number of times; [None]
    when the check ends while waiting. *)
(* src: server/http/nip11/system_status.go 240-263 [RunDatabaseStatusCheck] *)
Fixpoint read_back (attempts : nat) (events : list Event) : M (option (list Event)) :=
  match attempts with
  | O => mret (Some [])
  | Datatypes.S n =>
      items ← stored_events [MkFilter (Some (ID <$> events)) None None None None None None 0 ""];
      let got := received items in
      if (length got =? length events)%nat then mret (Some got)
      else match n with
           | O => mret (Some got)
           | Datatypes.S _ => go_on ← wait; if (go_on : bool) then read_back n events else mret None
           end
  end.

(* src: server/http/nip11/system_status.go 209-269 *)
Definition RunDatabaseStatusCheck (rep : SystemStatus) : M SystemStatus :=
  e0 ← test_event 0; e1 ← test_event 1; e2 ← test_event 2;
  let events := [e0; e1; e2] in
  accepted ← attempt_st (query_AcceptEvents events);
  match accepted with
  | inr _ => mret (with_events SystemStatusStateError SystemStatusStateError SystemStatusStateError rep)
  | inl _ =>
      got ← read_back 3 events;
      let failed := match got with Some got => negb (length got =? length events)%nat | None => true end in
      mret (with_events SystemStatusStateOK (state_of failed) (state_of failed) rep)
  end.

(** *** The collector *)

(** The status that is shown and the checks that wait; a channel holds one of each. *)
(* src: server/http/nip11/system_status.go 271-308 [startSystemStatusCollector] *)
Record collector : Type := MkCollector { shown : SystemStatus; databaseCheck : bool; storageCheck : bool }.
(** What the collector takes next. *)
Inductive work : Set := RegularTick | DatabaseCheck | StorageCheck.
(* src: server/http/nip11/system_status.go 310-351 [startSystemStatusCollector] *)
Definition collect (c : collector) (w : work) : M collector :=
  match w with
  | RegularTick =>
      r ← collectDatabaseStatus (shown c);
      f ← look (fun s => collectStorageStatus s r.1);
      mret (MkCollector f.1 (databaseCheck c || r.2) (storageCheck c || f.2))
  | DatabaseCheck => status ← RunDatabaseStatusCheck (shown c); mret (MkCollector status false (storageCheck c))
  | StorageCheck => status ← RunStorageStatusCheck (shown c); mret (MkCollector status (databaseCheck c) false)
  end.
End SystemStatus.

(** ** Documents of other relays *)

(** A cache whose entries expire, and the HTTP client: the status and the body. *)
Class FetchWorld (W : Type) := {
  Cache_Get : string -> W -> W * option (RelayInformationDocument * bool);
  Cache_Set : string -> RelayInformationDocument -> Z -> W -> W;
  http_Get : string -> ST W (Z * string)
}.

Section Fetcher.
Context {HT : HttpText} {J : InfoJSON} {W : Type} {FW : FetchWorld W}.

(* src: server/http/nip11/fetcher/fetcher.go 35 *)
Definition cacheDuration : Z := minute.

Definition with_url (u : string) (d : RelayInformationDocument) : RelayInformationDocument :=
  MkDocument u (DName d) (Description d) (DPubKey d) (Contact d) (SupportedNIPs d) (Software d) (MinPowDifficulty d)
    (FCMAndroidConfigs d) (FCMIOSConfigs d) (FCMWebConfigs d) (Status_ d) (Metrics d).
Definition with_scheme (scheme : string) (u : FullURL) : FullURL := MkFullURL scheme (UHost u) (UPath u) (URawQuery u) (UFragment u) (URest u).

(* src: server/http/nip11/fetcher/fetcher.go 86-141 *)
Definition requestNIP11 (relayUrl : string) : ST W RelayInformationDocument :=
  match url_ParseFull relayUrl with
  | None => lift_st (Err opaque_error)
  | Some u =>
      let scheme := if UScheme u =s? "ws" then Some "http" else if UScheme u =s? "wss" then Some "https" else None in
      match scheme with
      | None => lift_st (Err opaque_error)
      | Some scheme =>
          resp ← http_Get (url_String (with_scheme scheme u));
          if negb (resp.1 =? 200) then lift_st (Err opaque_error)
          else match json_document resp.2 with
               | None => lift_st (Err opaque_error)
               | Some doc => mret (if URL_ doc =s? "" then with_url relayUrl doc else doc)
               end
      end
  end.

Definition cached (relayUrl : string) : ST W (option (RelayInformationDocument * bool)) :=
  fun w => let '(w, item) := Cache_Get relayUrl w in (w, Ok item).
Definition keep_document (relayUrl : string) (doc : RelayInformationDocument) : ST W unit :=
  fun w => (Cache_Set relayUrl doc cacheDuration w, Ok ()).
(* src: server/http/nip11/fetcher/fetcher.go 62-75 *)
Definition Fetch (relayUrl : string) : ST W RelayInformationDocument :=
  item ← cached relayUrl;
  match item with
  | Some (doc, false) => mret doc
  | _ =>
      nip11Data ← requestNIP11 relayUrl;
      keep_document relayUrl nip11Data ;;
      mret nip11Data
  end.
End Fetcher.

(** ** Theorems: bandwidth *)

Section BandwidthLaws.

Lemma uint64_id z : 0 <= z < 2 ^ 64 -> uint64 z = z.
Proof. intros Hz. unfold uint64. by apply Z.mod_small. Qed.
Lemma uint64_wraps z : 2 ^ 64 <= z -> 0 <= uint64 z <= z - 2 ^ 64.
Proof.
  intros Hz. unfold uint64. pose proof (Z.mod_pos_bound z (2 ^ 64)) as Hb. split; [lia|].
  rewrite Z.mod_eq by lia. assert (1 <= z / 2 ^ 64) by (apply Z.div_le_lower_bound; lia). nia.
Qed.

(** The bytes since the last measurement, and the time. *)
Definition transferred (c : IOCountersStat) (b : bandwidth) : Z := BytesRecv c + BytesSent c - lastBandwidthBytes b.

(** With counters that grow and a clock that moves on, the bandwidth is the
    number of bytes per second as long as the bytes since the last measurement, times
    10^9, fit into 64 bits (18 gigabytes); beyond, it is too small by 2^64
    nano-bytes per second or more; two measurements at one instant panic. *)
Lemma calcBandwidth_bounds now counters c b : List.find (fun c => CounterName c =? "all")%string counters = Some c ->
  0 <= lastBandwidthBytes b -> 0 <= transferred c b -> BytesRecv c + BytesSent c < 2 ^ 64 ->
  0 <= now - lastBandwidthBytesAt b < 2 ^ 64 ->
  let rate := (calcBandwidth now counters b).2 in
  let elapsed := now - lastBandwidthBytesAt b in
  (elapsed = 0 -> rate = Panic) /\
  (0 < elapsed -> transferred c b * second < 2 ^ 64 -> rate = Ok (transferred c b * second / elapsed)) /\
  (0 < elapsed -> 2 ^ 64 <= transferred c b * second ->
     exists r, rate = Ok r /\ 0 <= r <= transferred c b * second / elapsed - 2 ^ 64 / elapsed).
Proof.
  intros Hc Hlast Htr Htotal He rate elapsed. unfold rate, calcBandwidth. rewrite Hc. cbn [snd]. unfold transferred in *.
  rewrite (uint64_id (BytesRecv c + BytesSent c)) by lia. rewrite (uint64_id (now - _)) by done. fold elapsed.
  rewrite (uint64_id (BytesRecv c + BytesSent c - lastBandwidthBytes b)) by lia.
  set (n := (BytesRecv c + BytesSent c - lastBandwidthBytes b) * second). assert (0 <= n) by (unfold n, second; lia).
  destruct (Z.eqb_spec elapsed 0) as [Hz|]; split_and!; try done; try (intros; lia).
  - intros _ Hn. by rewrite (uint64_id n) by lia.
  - intros Hpos Hn. pose proof (uint64_wraps n Hn) as [Hlo Hhi]. exists (uint64 n / elapsed). split; [done|]. split; [apply Z.div_pos; lia|].
    transitivity ((n - 2 ^ 64) / elapsed); [apply Z.div_le_mono; lia|].
    assert ((n - 2 ^ 64) / elapsed + 2 ^ 64 / elapsed <= n / elapsed); [|lia].
    apply Z.div_le_lower_bound; [lia|]. pose proof (Z.mul_div_le (n - 2 ^ 64) elapsed). pose proof (Z.mul_div_le (2 ^ 64) elapsed). lia.
Qed.
End BandwidthLaws.

(** ** Theorems: the state that is shown *)

Section StatusLaws.
Context {N : Nostr} {C : Crypto} {S : Type} {SC : StorageClient S} {SW : SystemWorld S}.
Context (has_storage : bool) (file_name : Z -> string) (expiration_text : Timestamp -> Z -> string).
Abbreviation collect := (collect has_storage file_name expiration_text).

(** Jobs work when events are read and written; pushes are never looked at. *)
Record coherent (s : SystemStatus) : Prop := {
  coherent_jobs : DVM s = SystemStatusStateOK <-> EventsRead s = SystemStatusStateOK /\ EventsWrite s = SystemStatusStateOK;
  coherent_pushes : PushesSend s = SystemStatusStateOK
}.

Lemma coherent_files w r s : coherent s -> coherent (with_files w r s).
Proof. intros [H1 H2]. by split. Qed.
Lemma coherent_events (failed_read failed_write : bool) s : PushesSend s = SystemStatusStateOK ->
  coherent (with_events (state_of failed_write) (state_of failed_read) (state_of (failed_read || failed_write)) s).
Proof. intros Hp. split; [|done]. destruct failed_read, failed_write; cbn; naive_solver. Qed.

(** What a check of the database tells. *)
Lemma database_checked rep s s' rep' : RunDatabaseStatusCheck expiration_text rep s = (s', Ok rep') ->
  exists failed_write failed_read, (failed_write = true -> failed_read = true) /\
    rep' = with_events (state_of failed_write) (state_of failed_read) (state_of failed_read) rep.
Proof.
  unfold RunDatabaseStatusCheck. intros (s0 & e0 & _ & Hrun)%bind_st_Ok. apply bind_st_Ok in Hrun as (s1 & e1 & _ & Hrun).
  apply bind_st_Ok in Hrun as (s2 & e2 & _ & Hrun). apply bind_st_Ok in Hrun as (s3 & [[]|x] & _ & Hrun).
  - apply bind_st_Ok in Hrun as (s4 & got & _ & [= _ <-]). by exists false, (match got with Some got => negb (length got =? 3)%nat | None => true end).
  - injection Hrun as _ <-. by exists true, true.
Qed.

Lemma collected_coherent c w s s' c' : coherent (shown c) -> collect c w s = (s', Ok c') -> coherent (shown c').
Proof.
  intros Hc. destruct w; cbn [Info.collect].
  - intros (s1 & r & Hr & Hrun)%bind_st_Ok. apply bind_st_Ok in Hrun as (s2 & f & [= <- <-] & [= <- <-]). cbn [shown].
    assert (Hdb : coherent r.1).
    { unfold collectDatabaseStatus in Hr. apply bind_st_Ok in Hr as (s3 & [report|x] & _ & Hr); [|injection Hr as _ <-; done].
      apply bind_st_Ok in Hr as (s4 & now & _ & [= _ <-]). apply coherent_events, Hc. }
    unfold collectStorageStatus. destruct (negb has_storage); [done|by apply coherent_files].
  - intros (s1 & status & Hst & [= _ <-])%bind_st_Ok. cbn [shown]. destruct (database_checked _ _ _ _ Hst) as (fw & fr & Hf & ->).
    replace (state_of fr) with (state_of (fr || fw)) at 2 by (destruct fw; [by rewrite Hf|by rewrite orb_false_r]). apply coherent_events, Hc.
  - intros (s1 & status & Hst & [= _ <-])%bind_st_Ok. cbn [shown]. revert Hst. unfold RunStorageStatusCheck.
    destruct (negb has_storage); [intros [= _ <-]; by apply coherent_files|].
    intros (s2 & [[parts name] digest] & _ & Hrun)%bind_st_Ok. apply bind_st_Ok in Hrun as (s3 & keys & _ & Hrun).
    apply bind_st_Ok in Hrun as (s4 & now & _ & Hrun). apply bind_st_Ok in Hrun as (s5 & [path input hash|input e] & _ & Hrun);
      [|injection Hrun as _ <-; by apply coherent_files].
    destruct (hash ≠s? digest); [injection Hrun as _ <-; by apply coherent_files|].
    apply bind_st_Ok in Hrun as (s6 & r & _ & Hrun). apply bind_st_Ok in Hrun as (s7 & [[]|x] & _ & [= _ <-]); by apply coherent_files.
Qed.

(** The states of the collector: it takes up ticks and checks that wait, in any order,
    while the rest of the system moves on. *)
Inductive collecting : S -> collector -> Prop :=
| collecting_start s : collecting s (MkCollector healthy false false)
| collecting_step s c w s' c' : collecting s c -> (w = DatabaseCheck -> databaseCheck c = true) -> (w = StorageCheck -> storageCheck c = true) ->
    collect c w s = (s', Ok c') -> collecting s' c'
| collecting_moved s c s' : collecting s c -> collecting s' c.

(** Whatever ticks and checks find, in any order, the state that is shown says of
    jobs that they work exactly when it says so of reading and writing events, and of
    push notifications that they work. *)
Lemma shown_coherent s c : collecting s c -> coherent (shown c).
Proof. induction 1 as [s|s c w s' c' _ IH _ _ Hstep|s c s' _ IH]; [by split|by eapply collected_coherent|done]. Qed.
End StatusLaws.

(** ** Theorems: documents of other relays *)

(** The entries of the cache: a hit that has not expired starts the time of the entry
    anew, as the library does unless it is told not to. *)
Class FetchWorldSpec (W : Type) `{FetchWorld W} : Type := {
  clock : W -> Z;
  entry : string -> W -> option (RelayInformationDocument * Z);
  Cache_Get_hit : forall u w doc expires, entry u w = Some (doc, expires) -> clock w <= expires ->
    exists w', Cache_Get u w = (w', Some (doc, false)) /\ clock w' = clock w /\ entry u w' = Some (doc, clock w + cacheDuration)
}.

Section FetchLaws.
Context {HT : HttpText} {J : InfoJSON} {W : Type} {FW : FetchWorld W} {FS : FetchWorldSpec W}.

(** Time passes, less than the cache keeps its entries. *)
Definition soon (u : string) (w w' : W) : Prop := entry u w' = entry u w /\ clock w <= clock w' <= clock w + cacheDuration.

(** A number of fetches, each soon after the last, and what they answer. *)
Inductive fetches (u : string) : W -> list (outcome RelayInformationDocument) -> Prop :=
| fetches_none w : fetches u w []
| fetches_more w w1 w2 r rs : soon u w w1 -> Fetch u w1 = (w2, r) -> fetches u w2 rs -> fetches u w (r :: rs).

Lemma Fetch_hit u w doc expires : entry u w = Some (doc, expires) -> clock w <= expires ->
  exists w', Fetch u w = (w', Ok doc) /\ clock w' = clock w /\ entry u w' = Some (doc, clock w + cacheDuration).
Proof.
  intros He Hc. destruct (Cache_Get_hit u w doc expires He Hc) as (w' & Hget & Hclock & Hentry).
  unfold Fetch, cached. cbv [mbind ST_bind]. rewrite Hget. by exists w'.
Qed.

(** A document that is fetched again within a minute each time is never read
    again from its relay: all answers are the first one. *)
Lemma Fetch_stale u w doc rs : entry u w = Some (doc, clock w + cacheDuration) -> fetches u w rs -> Forall (fun r => r = Ok doc) rs.
Proof.
  intros He Hf. induction Hf as [|w w1 w2 r rs [Hsame [Hlo Hhi]] Hfetch _ IH]; [constructor|].
  rewrite He in Hsame. destruct (Fetch_hit u w1 doc _ Hsame Hhi) as (w' & Hw' & Hclock & Hentry). rewrite Hw' in Hfetch. injection Hfetch as <- <-.
  constructor; [done|]. apply IH. by rewrite Hclock.
Qed.
End FetchLaws.

(** ** Concrete inputs *)
Module InfoWitness.
Import HttpPlain.

(** Twenty gigabytes in half a minute. *)
Definition all_interfaces : list IOCountersStat := [MkCounters "lo" 5 5; MkCounters "all" 12000000000 8000000000].
Lemma calcBandwidth_bounds_witness :
  exists r, (calcBandwidth (30 * second) all_interfaces (MkBandwidth 0 0)).2 = Ok r /\
    0 <= r <= 20000000000 * second / (30 * second) - 2 ^ 64 / (30 * second).
Proof.
  refine (proj2 (proj2 (calcBandwidth_bounds (30 * second) all_interfaces (MkCounters "all" 12000000000 8000000000) (MkBandwidth 0 0) eq_refl _ _ _ _)) _ _);
    vm_compute; first [done|by split|discriminate].
Defined.

(** A system that works but for its storage. *)
#[local] Instance storage : StorageClient unit := {|
  sc_SaveFile _ _ _ s := (s, Ok (NotSaved None opaque_error)); sc_StartUpload _ _ _ _ _ _ s := (s, Err opaque_error);
  sc_DownloadUrl _ _ s := (s, Err opaque_error); sc_FilePath _ _ _ s := (s, Err opaque_error); sc_ListFiles _ _ _ s := (s, Err opaque_error);
  sc_Delete _ _ _ s := (s, Err opaque_error); sc_StartDownloadNewBag _ _ _ s := (s, Err opaque_error);
  sc_VerifyReplication _ _ _ _ s := (s, Err opaque_error); sc_meta _ _ := new_meta 0; sc_alloc _ s := (s, Ok 0%nat) |}.
#[local] Instance system : SystemWorld unit := {|
  time_Now _ := 0; Info.Health _ := MkHealth None None false true; databaseReportGetter s := (s, Ok (Status.MkStatus 0 0 false false));
  query_AcceptEvents _ s := (s, Ok ()); query_GetStoredEvents _ s := (s, []); GenerateKeyPair s := (s, Ok (key_hex, "pub"));
  rand_Text s := (s, Ok "random"); os_ReadFile _ s := (s, Err opaque_error); wait s := (s, Ok true) |}.
Definition tick_result : collector := match (Info.collect true (fun _ => "0") (fun _ _ => "0") (MkCollector healthy false false) RegularTick tt).2 with
  | Ok c => c | _ => MkCollector healthy false false end.
Definition checked : collector := match (Info.collect true (fun _ => "0") (fun _ _ => "0") (MkCollector (shown tick_result) true true) DatabaseCheck tt).2 with
  | Ok c => c | _ => MkCollector healthy false false end.
Lemma ticked : collecting true (fun _ => "0") (fun _ _ => "0") tt tick_result.
Proof.
  eapply (collecting_step _ _ _ tt (MkCollector healthy false false) RegularTick tt); [apply collecting_start|done|done|]. vm_compute. reflexivity.
Qed.
Lemma shown_coherent_witness : coherent (shown tick_result).
Proof. apply (shown_coherent true (fun _ => "0") (fun _ _ => "0") tt tick_result ticked). Defined.
Example storage_down : (FilesWrite (shown tick_result), storageCheck tick_result, EventsRead (shown checked), DVM (shown checked)) =
  (SystemStatusStateError, true, SystemStatusStateError, SystemStatusStateError).
Proof. vm_compute. reflexivity. Qed.

(** A cache with one entry, and a clock. *)
Definition document : RelayInformationDocument := MkDocument "wss://peer" "subzero" "" "aa" "" [] "" 0 [] [] [] None None.
#[local] Instance json : InfoJSON := {| json_fcm _ := None; json_document _ := None |}.
#[local] Instance fetched : FetchWorld (Z * option (string * RelayInformationDocument * Z)) := {|
  Cache_Get u w := match w with
                   | (now, Some (u', doc, expires)) =>
                       if (u' =? u)%string && (now <=? expires) then ((now, Some (u', doc, now + cacheDuration)), Some (doc, false)) else (w, None)
                   | _ => (w, None)
                   end;
  Cache_Set u doc ttl w := (w.1, Some (u, doc, w.1 + ttl)); http_Get _ w := (w, Err opaque_error) |}.
#[local] Instance fetched_spec : FetchWorldSpec (Z * option (string * RelayInformationDocument * Z)).
Proof.
  refine {| clock := fst; entry u w := match w.2 with Some (u', doc, expires) => if (u' =? u)%string then Some (doc, expires) else None | None => None end |}.
  intros u [now [[[u' doc'] expires']|]] doc expires; cbn; [|done]. destruct (u' =? u)%string eqn:Hu; [|done]. intros [= <- <-] Hle%Z.leb_le. rewrite Hle.
  eexists. split; [reflexivity|]. cbn. by rewrite Hu.
Defined.
Lemma Fetch_stale_witness : Forall (fun r => r = Ok document) [Ok document; Ok document].
Proof.
  refine (Fetch_stale "wss://peer" (0, Some ("wss://peer", document, cacheDuration)) document _ eq_refl _).
  eapply (fetches_more _ _ (50 * second, Some ("wss://peer", document, cacheDuration))); [split; [reflexivity|by split]|vm_compute; reflexivity|].
  eapply (fetches_more _ _ (100 * second, Some ("wss://peer", document, 50 * second + cacheDuration))); [split; [reflexivity|by split]|vm_compute; reflexivity|].
  constructor.
Defined.
End InfoWitness.
