(* ===== verification/Cdn.v ===== *)
(** * Package storage/internal: copies of the files on a CDN

    src/storage/internal: uploads and deletions at the CDN, the job that uploads a file
    that was stored, and the health of both.  The HTTP client sends a request; how often
    it is sent again is the source's.  The file system, the job queue, the clock and
    net/url's JoinPath are parameters. *)

From S2P Require Import Prelude GoStd.
Import Strings.

(* src: storage/internal/bcdn.go 30-35 *)
Record CDNConfig : Type := MkCDNConfig { AccessKey : string; URLUpload : string; URLDownload : string; JobMaxTimeout : Z }.

(** A request of the client: its method, headers, address and body. *)
Record request : Type := MkRequest { Method : string; Headers : list (string * string); Address : string; Body : string }.

Class CDNWorld (W : Type) := {
  clock : W -> Z;                                   (** nanoseconds *)
  JoinPath : string -> string -> option string;
  NewString : W -> W * string;                      (** a random identifier *)
  (** one attempt: a status, or an error *)
  attempt : request -> W -> W * (Z + error);
  (** a file: what it holds; [None]: it does not exist *)
  ReadFile : string -> W -> W * (option string + error);
  (** the job queue *)
  Enqueue : string -> list (string * string) -> ST W unit;
  QueueHealth : ST W unit
}.

Definition StatusNotFound : Z := 404.
Definition StatusTooManyRequests : Z := 429.
Definition StatusInternalServerError : Z := 500.
(** [resp.IsSuccessState] *)
Definition IsSuccessState (status : Z) : bool := (199 <? status) && (status <? 300).

Section Cdn.
Context {G : GoText} {W : Type} {CW : CDNWorld W}.
Context (config : CDNConfig).
Definition fail {A} (e : error) : ST W A := lift_st (Err e).

(* src: storage/internal/bcdn.go 74-80 *)
Definition cdnUploadURL (filename : string) : string :=
  if HasPrefix filename (URLUpload config) then filename else default "" (JoinPath (URLUpload config) filename).

(* src: storage/internal/bcdn.go 158-160 [cdnReq] *)
Definition again (r : Z + error) : bool :=
  match r with inr _ => true | inl status => (status =? StatusTooManyRequests) || (StatusInternalServerError <=? status) end.
(* src: storage/internal/bcdn.go 157-157 [cdnReq] *)
Definition RetryCount : nat := 25.

(** A request is sent again while the condition holds. *)
(* src: storage/internal/bcdn.go 139-162 [cdnReq] *)
Fixpoint send (retries : nat) (r : request) : ST W Z := fun w =>
  let '(w, answer) := attempt r w in
  match retries with
  | S retries => if again answer then send retries r w
                 else match answer with inl status => (w, Ok status) | inr e => (w, Err e) end
  | O => match answer with inl status => (w, Ok status) | inr e => (w, Err e) end
  end.
Definition cdnReq (method : string) (headers : list (string * string)) (address body : string) : ST W Z :=
  send RetryCount (MkRequest method (("AccessKey", AccessKey config) :: headers) address body).

(* src: storage/internal/bcdn.go 90-114 *)
Definition doCdnUpload (contentType fileName fileData : string) : ST W unit :=
  status ← cdnReq "PUT" [("Content-Type", contentType)] (cdnUploadURL fileName) fileData;
  if IsSuccessState status then mret () else fail opaque_error.

(** The data that was read, or the error of the reader. *)
(* src: storage/internal/bcdn.go 82-88 *)
Definition FileUpload (data : string + error) (contentType fileName : string) : ST W unit :=
  match data with
  | inr e => fail e
  | inl fileData => doCdnUpload contentType fileName fileData
  end.

(* src: storage/internal/bcdn.go 116-137 *)
Definition FileDelete (name : string) : ST W unit :=
  if name =s? "" then mret ()
  else
    status ← cdnReq "DELETE" [] (cdnUploadURL name) "";
    if IsSuccessState status || (status =? StatusNotFound) then mret () else fail opaque_error.

(** ** The health of the CDN and of the job queue *)

(** The mutex of the check, and the time of the last that passed, in seconds. *)
(* src: storage/internal/bcdn.go 37-44 [client] *)
Record client : Type := MkClient { HealthCheckMux : bool; HealthCheckPassedAt : Z }.
Definition second : Z := 1000000000.

(* src: storage/internal/bcdn.go 176-185 [HealthCheck] *)
Definition probe : ST W unit :=
  name ← (fun w => let '(w, name) := NewString w in (w, Ok name));
  status ← cdnReq "DELETE" [] (cdnUploadURL (name +:+ ".jpg")) "";
  if negb (status =? StatusNotFound) then fail opaque_error else QueueHealth.

(** [TryLock] takes the mutex when it is free; the [defer] that releases it is reached
    only after the first return. *)
(* src: storage/internal/bcdn.go 164-188 *)
Definition HealthCheck (c : client) (w : W) : client * (W * outcome unit) :=
  let locked := negb (HealthCheckMux c) in
  let c := MkClient true (HealthCheckPassedAt c) in
  if negb locked || (clock w - HealthCheckPassedAt c * second <=? 30 * second) then (c, (w, Ok ()))
  else match probe w with
       | (w, Ok _) => (MkClient false (clock w / second), (w, Ok ()))
       | (w, r) => (MkClient false (HealthCheckPassedAt c), (w, r))
       end.

(** A client whose first check fails does not start. *)
(* src: storage/internal/bcdn.go 51-72 *)
Definition NewCDNClient (w : W) : W * outcome client :=
  match HealthCheck (MkClient false 0) w with
  | (c, (w, Ok _)) => (w, Ok c)
  | (_, (w, _)) => (w, Panic)
  end.

(** ** Jobs *)

(* src: storage/internal/file_upload_worker.go 20-25 *)
Record cdnUploadWorkerArgs : Type := MkArgs { ContentType : string; FileName : string; FilePath : string; ArgsRelayURL : string }.
(* src: storage/internal/file_upload_worker.go 35-37 *)
Definition ArgsKind : string := "storage_cdn_upload_worker_args".

Context (RelayURL RootPath : string).

(* src: storage/internal/bcdn.go 190-202 *)
Definition FileUploadAsync (expired : option error) (filePath contentType fileName : string) : ST W unit :=
  match expired with
  | Some e => fail e
  | None => Enqueue ArgsKind [("ContentType", contentType); ("FileName", fileName); ("FilePath", filePath); ("RelayURL", RelayURL)]
  end.

(* src: storage/internal/file_upload_worker.go 39-41 *)
Definition Timeout (JobTimeout : Z) : Z := if JobTimeout =? 0 then 10 * 60 * second else JobTimeout.

(** A file that is gone needs no upload where it was to be; elsewhere the job is
    tried again. *)
(* src: storage/internal/file_upload_worker.go 43-69 *)
Definition Work (args : cdnUploadWorkerArgs) : ST W unit := fun w =>
  let '(w, opened) := ReadFile (Filepath.Join [RootPath; FilePath args]) w in
  match opened with
  | inl None => if EqualFold (ArgsRelayURL args) RelayURL then (w, Ok ()) else (w, Err (err ErrNotExist))
  | inr e => (w, Err e)
  | inl (Some data) => FileUpload (inl data) (ContentType args) (FileName args) w
  end.
End Cdn.

(** ** Theorems *)

Section CdnLaws.
Context {G : GoText} {W : Type} {CW : CDNWorld W}.
Context (config : CDNConfig).

(** The status a request ends with was given to one of its attempts. *)
Lemma send_answered n r w w' status : send n r w = (w', Ok status) -> exists w0, attempt r w0 = (w', inl status).
Proof.
  revert w. induction n as [|n IH]; intros w; cbn [send]; destruct (attempt r w) as [w1 answer] eqn:Ha.
  - destruct answer; intros [= <- <-]; eauto.
  - destruct (again answer); [apply IH|]. destruct answer; intros [= <- <-]; eauto.
Qed.

(** A job of uploads that succeeds has sent the file, as it was when the job ran,
    to its address at the CDN, which took it; or the file is gone from the relay the
    job is for. *)
Lemma Work_uploads RelayURL RootPath args w w' : Work config RelayURL RootPath args w = (w', Ok ()) ->
  let path := Filepath.Join [RootPath; FilePath args] in
  (exists w1 data w0 status, ReadFile path w = (w1, inl (Some data)) /\ IsSuccessState status = true /\
     attempt (MkRequest "PUT" [("AccessKey", AccessKey config); ("Content-Type", ContentType args)] (cdnUploadURL config (FileName args)) data) w0 = (w', inl status)) \/
  (ReadFile path w = (w', inl None) /\ EqualFold (ArgsRelayURL args) RelayURL = true).
Proof.
  cbv zeta. unfold Work. destruct (ReadFile _ w) as [w1 [[data|]|e]]; [left|right|done].
  - unfold FileUpload, doCdnUpload, cdnReq in H. unfold mbind, ST_bind in H.
    destruct (send _ _ w1) as [w2 [status|x| |]] eqn:Hs; try done.
    destruct (IsSuccessState status) eqn:Hok; [|done]. injection H as <-. apply send_answered in Hs as [w0 Hw]. exists w1, data, w0, status. done.
  - destruct (EqualFold _ _); [|done]. by injection H as <-.
Qed.

(** The checks at several times, each in the world as it is then. *)
Fixpoint checks (c : client) (ws : list W) : list (W * outcome unit) :=
  match ws with
  | [] => []
  | w :: ws => let '(c, r) := HealthCheck config c w in r :: checks c ws
  end.

Lemma checks_held passed ws : checks (MkClient true passed) ws = map (fun w => (w, Ok ())) ws.
Proof. induction ws as [|w ws IH]; [done|]. cbn. by rewrite IH. Qed.

(** A check of the health within thirty seconds of one that passed keeps the
    mutex: that check and every later one passes, at any time, and asks neither the
    CDN nor the job queue. *)
Lemma HealthCheck_blind c w ws : HealthCheckMux c = false -> clock w - HealthCheckPassedAt c * second <= 30 * second ->
  checks c (w :: ws) = map (fun w => (w, Ok ())) (w :: ws).
Proof.
  intros Hc Hw. cbn [checks]. unfold HealthCheck. cbn [HealthCheckMux HealthCheckPassedAt]. rewrite Hc, (proj2 (Z.leb_le _ _) Hw). cbn [negb orb]. by rewrite checks_held.
Qed.
End CdnLaws.

(** ** Concrete inputs *)
Module CdnWitness.
Import AsciiText.

(** A world that is the time; a CDN and a queue that have been down since the second
    minute, a folder with one file. *)
#[local] Instance world : CDNWorld Z := {|
  clock := id; JoinPath a b := Some (a +:+ "/" +:+ b); NewString w := (w, "u");
  attempt r w := (w, if w <? 120 * second then inl (if Method r =s? "PUT" then 201 else 404) else inr opaque_error);
  ReadFile name w := (w, inl (if name =s? "/data/a" then Some "text" else None));
  Enqueue _ _ w := (w, Ok ()); QueueHealth w := (w, if w <? 120 * second then Ok () else Err opaque_error) |}.
Definition conf : CDNConfig := MkCDNConfig "key" "https://cdn" "https://cdn" 0.
Definition started : client := (HealthCheck conf (MkClient false 0) (60 * second)).1.

Example started_passed : started = MkClient false 60. Proof. reflexivity. Qed.
(** The outage is seen when no check came too soon. *)
Example outage_seen : checks conf started [180 * second] = [(180 * second, Err opaque_error)]. Proof. vm_compute. reflexivity. Qed.

Lemma HealthCheck_blind_witness : checks conf started [70 * second; 180 * second; 900 * second] = map (fun w => (w, Ok ())) [70 * second; 180 * second; 900 * second].
Proof. apply (HealthCheck_blind conf started); [reflexivity|vm_compute; discriminate]. Defined.

Definition job : cdnUploadWorkerArgs := MkArgs "text/plain" "k/a" "a" "wss://me".
Lemma Work_uploads_witness : exists status, IsSuccessState status = true /\
  attempt (MkRequest "PUT" [("AccessKey", "key"); ("Content-Type", "text/plain")] "https://cdn/k/a" "text") (60 * second) = (60 * second, inl status).
Proof.
  assert (H : Work conf "wss://me" "/data" job (60 * second) = (60 * second, Ok ())) by (vm_compute; reflexivity).
  destruct (Work_uploads conf "wss://me" "/data" job (60 * second) (60 * second) H) as [(w1 & data & w0 & status & Hr & Hs & Ha)|[Hr _]].
  - exists status. split; [exact Hs|]. vm_compute in Hr. injection Hr as <- <-. assert (w0 = 60 * second) as -> by (by injection Ha). exact Ha.
  - vm_compute in Hr. discriminate Hr.
Defined.
End CdnWitness.
