(* ===== verification/Queue.v ===== *)
(** * Package rq: the queue of jobs

    src/rq: a client of River, a queue of jobs in PostgreSQL.  River and pgx are
    parameters; the choice of the master, the name of the queue, and the retries of a
    push are the package's.  The locks make [trySwitchMaster] one step.  The context of
    a push is part of the world: it ends at some time.  Logging, the registration of
    workers and the listener of signals are left out. *)

From S2P Require Import Prelude GoStd Connector Masters.
Import Strings.

(** ** The name of a queue *)

(** [range] over a string: the first rune and its width; a byte that begins no encoding
    is read as U+FFFD. *)
Module Utf8.
Definition code (c : ascii) : nat := nat_of_ascii c.
Definition between (lo hi : nat) (c : ascii) : bool := ((lo <=? code c) && (code c <=? hi))%nat.
Definition cont : ascii -> bool := between 128 191.
(** The range of the second byte, and the bytes that follow it, for a first byte. *)
Definition shape (c : ascii) : option ((ascii -> bool) * nat) :=
  if between 194 223 c then Some (cont, 0%nat)
  else if between 224 224 c then Some (between 160 191, 1%nat)
  else if between 237 237 c then Some (between 128 159, 1%nat)
  else if between 225 239 c then Some (cont, 1%nat)
  else if between 240 240 c then Some (between 144 191, 2%nat)
  else if between 241 243 c then Some (cont, 2%nat)
  else if between 244 244 c then Some (between 128 143, 2%nat)
  else None.
Fixpoint conts (n : nat) (s : string) : bool :=
  match n, s with
  | O, _ => true
  | S n, String c s => cont c && conts n s
  | _, "" => false
  end.
Definition replacement : string := bytes [239; 191; 189]%nat.
Definition first_rune (c : ascii) (s : string) : string * nat :=
  if (code c <? 128)%nat then (String c "", 1%nat)
  else match shape c, s with
       | Some (second, n), String d s' => if second d && conts n s' then (take (2 + n) (String c s), (2 + n)%nat) else (replacement, 1%nat)
       | _, _ => (replacement, 1%nat)
       end.
(** The runes with their offsets; every rune is at least one byte long. *)
Fixpoint runes (fuel i : nat) (s : string) : list (nat * string) :=
  match fuel, s with
  | S fuel, String c s' => let '(r, n) := first_rune c s' in (i, r) :: runes fuel (i + n) (drop n s)
  | _, _ => []
  end.
Definition range (s : string) : list (nat * string) := runes (len s) 0 s.
End Utf8.

(* src: rq/client.go 362-367 [formatQueueName] *)
Definition is_separator (r : string) : bool := bool_decide (r ∈ [":"; "/"; "."; "_"]).

(* src: rq/client.go 371-383 [formatQueueName] *)
Fixpoint format_runes (last : nat) (lastReplaced : bool) (rs : list (nat * string)) : string :=
  match rs with
  | [] => ""
  | (i, r) :: rs =>
      if is_separator r then
        (if negb lastReplaced && negb (i =? last)%nat && negb (i =? 0)%nat then "_" else "") +:+ format_runes last true rs
      else r +:+ format_runes last false rs
  end.

(** [len(name)-1] is -1 for the empty name, which has no runes. *)
(* src: rq/client.go 359-385 *)
Definition formatQueueName (name : string) : string := "rq_" +:+ format_runes (len name - 1) false (Utf8.range name).

(** ** Configuration *)

(** The part of the configuration that is the database's. *)
Record databaseConfig : Type := MkDatabaseConfig {
  Username : string; Password : string; RelayURL : string; WriteURLs : list string; ReadURLs : list string
}.
(* src: rq/client.go 38-44 *)
Record Config : Type := MkConfig {
  database : databaseConfig; QueueName : string; ID : string; MaxQueueWorkers : Z; JobMaxTimeout : Z
}.
Definition minute : Z := 60 * 1000000000.
(* src: rq/client.go 69 *)
Definition defaultJobTimeout : Z := 10 * minute.
(* src: rq/client.go 70 *)
Definition defaultWorkers : Z := 95.

Section Options.
(** The configuration file, and the validation of struct tags. *)
Context (loaded : outcome Config) (dbConf : option databaseConfig) (Validate : Config -> check).

(* src: rq/client.go 130-173 *)
Definition initOptions (given : option Config) : outcome Config :=
  let! c := match given with Some c => Ok c | None => loaded end in
  let c := if bool_decide (WriteURLs (database c) = []) && bool_decide (ReadURLs (database c) = []) then
      match dbConf with
      | Some d => if negb (bool_decide (WriteURLs d = [])) || negb (bool_decide (ReadURLs d = [])) || (RelayURL d ≠s? "")
                  then MkConfig d (QueueName c) (ID c) (MaxQueueWorkers c) (JobMaxTimeout c) else c
      | None => c
      end
    else c in
  try Validate c ;;
  reject opaque_error when (QueueName c =s? "") && (ID c =s? "") && (RelayURL (database c) =s? "") ;;
  Ok (MkConfig (database c)
        (if QueueName c =s? "" then formatQueueName (Join [RelayURL (database c); ID c] "_") else QueueName c) (ID c)
        (if MaxQueueWorkers c <=? 0 then defaultWorkers else MaxQueueWorkers c)
        (if JobMaxTimeout c <=? 0 then defaultJobTimeout else JobMaxTimeout c)).
End Options.

(** ** Errors *)

(** The errors of a lost connection that have a value of their own. *)
(* src: rq/database.go 187-194 [shouldSwitchMaster] *)
Inductive lost : Set := DeadlineExceeded | ErrClosedPool | ErrUnexpectedEOF | EOF | EPIPE | ErrClosed.
(** An error of River or of a context: what [errors.As] and [errors.IsAny] find. *)
Record pushError : Type := MkPushError { net_op : bool; connect : bool; pg : option string; lost_as : option lost }.

(* src: rq/database.go 163-195 *)
Definition shouldSwitchMaster (e : option pushError) : bool :=
  match e with
  | None => false
  | Some e =>
      net_op e || connect e ||
      match pg e with
      | Some code => dead_class code
      | None => bool_decide (is_Some (lost_as e))
      end
  end.
Definition ErrNotConnected : pushError := MkPushError false false None None.

(** ** The databases *)

(** A job: its kind and its arguments. *)
Record job : Type := MkJob { JobKind : string; JobArgs : string }.

Class QueueWorld (W : Type) `{PoolWorld W} := {
  (** [url.Parse], the user in the URL if any, and the URL with another *)
  set_user : string -> string -> string -> outcome string;
  RiverMigrate : option nat -> ST W unit;
  (** a client of River over a pool: queue, workers, timeout of a job, identifier *)
  RiverNew : option nat -> string -> Z -> Z -> string -> ST W nat;
  RiverStart : nat -> ST W unit;
  RiverStop : nat -> ST W unit;
  RiverStopAndCancel : nat -> ST W unit;
  (** jobs are put into a queue, those that are there already are left out *)
  RiverInsert : nat -> string -> list job -> W -> W * option pushError;
  (** the context of the push *)
  ctx_Err : W -> option pushError;
  (** waits; [true] when the context ended before *)
  wait : Z -> W -> W * bool
}.

(* src: rq/database.go 29-35 *)
Record databaseClient : Type := MkClient { Closed : bool; DActive : option nat; DMasters : list string; DCurrentIndex : nat }.
(* src: rq/client.go 58-65 *)
Record riverq (W : Type) : Type := MkRiverq { DB : databaseClient; River : option nat; outer : W }.
Arguments MkRiverq {W}. Arguments DB {W}. Arguments River {W}. Arguments outer {W}.

(* src: rq/database.go 248-266 *)
Definition calculateConnectOrder (addresses : list string) (currentIndex : nat) : outcome (list nat) :=
  match addresses with
  | [] => Ok []
  | [_] => Ok [0%nat]
  | [_; _] => Ok [((currentIndex + 1) mod 2)%nat; currentIndex]
  | _ =>
      let all := seq 0 (length addresses) in
      if (currentIndex <? length addresses)%nat
      then Ok (list.drop (S currentIndex) all ++ list.take currentIndex all ++ [currentIndex]) else Panic
  end.

Section Queue.
Context {G : GoText} {W : Type} {PW : PoolWorld W} {QW : QueueWorld W}.
Context (Cfg : Config).
Abbreviation M := (ST (riverq W)).

Definition outside {A} (m : ST W A) : M A := fun q => let '(w, r) := m (outer q) in (MkRiverq (DB q) (River q) w, r).
Definition gets {A} (f : riverq W -> A) : M A := fun q => (q, Ok (f q)).
Definition set_DB (f : databaseClient -> databaseClient) : M unit := fun q => (MkRiverq (f (DB q)) (River q) (outer q), Ok ()).
Definition set_River (r : option nat) : M unit := fun q => (MkRiverq (DB q) r (outer q), Ok ()).
Definition fail {A} (e : error) : M A := lift_st (Err e).

(* src: rq/database.go 268-283 *)
Definition createPgURL (username password target : string) : outcome string :=
  set_user username password (if HasPrefix target "postgres://" || HasPrefix target "postgresql://" then target else "postgres://" +:+ target).

(** The settings are those of the connector. *)
(* src: rq/database.go 82-105 [poolConnect] *)
Definition connect_pool (connectionString : string) : ST W nat := poolConnect connectionString.

Fixpoint create_urls (username password : string) (urls : list string) : outcome (list string) :=
  match urls with
  | [] => Ok []
  | url :: urls => let! u := createPgURL username password url in let! us := create_urls username password urls in Ok (u :: us)
  end.

(** The first master a pool is opened for. *)
(* src: rq/database.go 60-73 [newDatabaseClient] *)
Fixpoint first_master (i : nat) (masters : list string) : ST W (option (nat * nat)) :=
  match masters with
  | [] => mret None
  | connectionString :: masters =>
      r ← attempt_st (connect_pool connectionString);
      match r with inl c => mret (Some (i, c)) | inr _ => first_master (S i) masters end
  end.

(* src: rq/database.go 42-80 *)
Definition newDatabaseClient (username password : string) (urls : list string) : ST W databaseClient :=
  if bool_decide (urls = []) then lift_st (Err opaque_error)
  else
    masters ← lift_st (create_urls username password urls);
    found ← first_master 0 masters;
    match found with
    | Some (i, c) => mret (MkClient false (Some c) masters i)
    | None => lift_st (Err opaque_error)
    end.

(* src: rq/database.go 148-154 [Close] *)
Definition database_Close : M unit :=
  db ← gets DB;
  set_DB (fun db => MkClient true None (DMasters db) (DCurrentIndex db)) ;;
  outside (close_pool (DActive db)).

(* src: rq/database.go 156-161 *)
Definition Get (db : databaseClient) : option nat := if bool_decide (DMasters db = []) then None else DActive db.

(* src: rq/database.go 285-291 [Ping] *)
Definition database_Ping : M unit :=
  db ← gets DB;
  match Get db with
  | None => fail opaque_error
  | Some c => t ← outside (PoolPing c); mret ()
  end.

(** The first master, in the order, that a pool is opened for and that answers. *)
(* src: rq/database.go 209-237 [switchMaster] *)
Fixpoint first_answering (masters : list string) (order : list nat) : ST W (option (nat * nat)) :=
  match order with
  | [] => mret None
  | i :: order =>
      url ← lift_st (index masters i);
      connected ← attempt_st (connect_pool url);
      match connected with
      | inr _ => first_answering masters order
      | inl c =>
          pinged ← attempt_st (PoolPing c);
          match pinged with
          | inr _ => close_pool (Some c) ;; first_answering masters order
          | inl _ => mret (Some (i, c))
          end
      end
  end.

(** The active pool cannot have changed since it was loaded: the caller holds its lock,
    too. *)
(* src: rq/database.go 197-246 *)
Definition switchMaster : M unit :=
  db ← gets DB;
  order ← lift_st (calculateConnectOrder (DMasters db) (DCurrentIndex db));
  target ← outside (first_answering (DMasters db) order);
  match target with
  | None => fail opaque_error
  | Some (i, c) =>
      set_DB (fun db => MkClient (Closed db) (Some c) (DMasters db) i) ;;
      match DActive db with
      | None => fail opaque_error
      | Some oldMaster => outside (close_pool (Some oldMaster))
      end
  end.

(** ** The client *)

(* src: rq/client.go 213-229 *)
Definition initDatabaseClient : M unit :=
  db ← gets DB;
  outside (RiverMigrate (Get db)).

(** The new client of River takes the place of the old one, which is stopped. *)
(* src: rq/client.go 175-211 *)
Definition initRiverClient : M unit :=
  q ← gets id;
  rClient ← outside (RiverNew (Get (DB q)) (QueueName Cfg) (MaxQueueWorkers Cfg) (JobMaxTimeout Cfg)
                       (if ID Cfg =s? "" then formatQueueName (RelayURL (database Cfg)) else ID Cfg));
  set_River (Some rClient) ;;
  match River q with
  | None => mret ()
  | Some old => r ← attempt_st (outside (RiverStopAndCancel old)); mret ()
  end.

(* src: rq/client.go 239-245 *)
Definition Start : M unit :=
  r ← gets River;
  match r with None => fail opaque_error | Some o => outside (RiverStart o) end.

(* src: rq/client.go 231-237 *)
Definition Stop : M unit :=
  r ← gets River;
  match r with None => mret () | Some o => outside (RiverStop o) end.

(* src: rq/client.go 122-124 [Close] *)
Definition Close : M unit :=
  stopped ← attempt_st Stop;
  database_Close ;;
  match stopped with inl _ => mret () | inr e => fail e end.

(* src: rq/client.go 247-271 *)
Definition trySwitchMaster : M unit := switchMaster ;; initDatabaseClient ;; initRiverClient ;; Start.

(* src: rq/client.go 351-357 *)
Definition HealthCheck : M unit :=
  r ← gets River;
  match r with None => fail opaque_error | Some _ => database_Ping end.

(* src: rq/client.go 302-349 [push] *)
Definition push (jobs : list job) : M (option pushError) :=
  if bool_decide (jobs = []) then mret None
  else
    r ← gets River;
    match r with
    | None => mret (Some ErrNotConnected)
    | Some o => outside (fun w => let '(w, e) := RiverInsert o (QueueName Cfg) jobs w in (w, Ok e))
    end.

(** Again after half a second, on another master unless this one answers, up to the end
    of the context. *)
(* src: rq/client.go 273-300 *)
Fixpoint Push (fuel : nat) (jobs : list job) : M (option pushError) :=
  match fuel with
  | O => lift_st OutOfFuel
  | S fuel =>
      ended ← gets (fun q => ctx_Err (outer q));
      match ended with
      | Some e => mret (Some e)
      | None =>
          e ← push jobs;
          if negb (shouldSwitchMaster e) then mret e
          else
            ended ← outside (fun w => let '(w, b) := wait 500000000 w in (w, Ok b));
            if (ended : bool) then gets (fun q => ctx_Err (outer q))
            else
              healthy ← attempt_st HealthCheck;
              match healthy with
              | inl _ => Push fuel jobs
              | inr _ => r ← attempt_st trySwitchMaster; Push fuel jobs
              end
      end
  end.
End Queue.

(** A client over the first master that is found. *)
(* src: rq/client.go 78-106 *)
Definition newClient {G : GoText} {W : Type} {PW : PoolWorld W} {QW : QueueWorld W} (options : outcome Config) (w : W) : W * outcome (Config * riverq W) :=
  match options with
  | Ok Cfg =>
      match newDatabaseClient (Username (database Cfg)) (Password (database Cfg)) (WriteURLs (database Cfg)) w with
      | (w, Ok db) =>
          let '(q, r) := (initDatabaseClient ;; initRiverClient Cfg) (MkRiverq db None w) in
          (outer q, let! started := r in Ok (Cfg, q))
      | (w, r) => (w, let! db := r in Err opaque_error)
      end
  | o => (w, let! c := o in Err opaque_error)
  end.

(** ** Theorems: the name of a queue *)

(** The bytes of a rune: one of ASCII, or none of it. *)
Definition whole (r : string) : Prop := (exists c, r = String c "") \/ (r ≠ "" /\ forall c, (Utf8.code c < 128)%nat -> in_string c r = false).

Lemma between_spec lo hi c : Utf8.between lo hi c = true -> (lo <= Utf8.code c <= hi)%nat.
Proof. by intros [H1%Nat.leb_le H2%Nat.leb_le]%andb_true_iff. Qed.

Lemma conts_high n s c : Utf8.conts n s = true -> (Utf8.code c < 128)%nat -> in_string c (take n s) = false.
Proof.
  intros H Hc. revert s H. induction n as [|n IH]; intros [|d s] H; try done. cbn in *. apply andb_true_iff in H as [Hd Hs].
  rewrite IH by done. apply orb_false_iff. split; [|done]. apply Ascii.eqb_neq. intros <-. apply between_spec in Hd. lia.
Qed.

Lemma shape_high c second n d : Utf8.shape c = Some (second, n) -> second d = true -> (128 <= Utf8.code c)%nat /\ (128 <= Utf8.code d)%nat.
Proof.
  unfold Utf8.shape. intros Hs Hd.
  repeat match type of Hs with (if ?b then _ else _) = _ =>
    destruct b eqn:Hb; [injection Hs as <- <-; apply between_spec in Hb; apply between_spec in Hd; split; lia|clear Hb] end. done.
Qed.

Lemma first_rune_whole c s : whole (Utf8.first_rune c s).1 /\ (0 < (Utf8.first_rune c s).2)%nat.
Proof.
  unfold Utf8.first_rune. destruct (Nat.ltb_spec (Utf8.code c) 128) as [Hc|Hc]; [split; [left; by exists c|cbn; lia]|].
  assert (Hr : whole Utf8.replacement).
  { right. split; [done|]. intros d Hd. apply Nat.ltb_lt in Hd. destruct (in_string d Utf8.replacement) eqn:Hin; [|done]. exfalso. cbn in Hin. apply orb_true_iff in Hin as [He|[He|[He|He]%orb_true_iff]%orb_true_iff]; try done;
      apply Ascii.eqb_eq in He as ->; vm_compute in Hd; discriminate. }
  destruct (Utf8.shape c) as [[second n]|] eqn:Hs; [|split; [done|cbn; lia]]. destruct s as [|d s']; [split; [done|cbn; lia]|].
  destruct (second d && Utf8.conts n s') eqn:Hb; [|split; [done|cbn; lia]]. apply andb_true_iff in Hb as [Hd Hn].
  destruct (shape_high _ _ _ _ Hs Hd) as [Hc1 Hd1]. split; [right|cbn; lia]. split; [done|]. intros a Ha. cbn. rewrite (conts_high n s' a Hn Ha), orb_false_r.
  apply orb_false_iff. split; apply Ascii.eqb_neq; intros <-; lia.
Qed.

Lemma runes_whole fuel i s : Forall (fun p => whole p.2) (Utf8.runes fuel i s).
Proof.
  revert i s. induction fuel as [|fuel IH]; intros i [|c s]; cbn [Utf8.runes]; try constructor.
  destruct (first_rune_whole c s) as [Hr _]. destruct (Utf8.first_rune c s) as [r n]. by constructor.
Qed.

(** No underscore follows another. *)
Fixpoint single_underscores (s : string) : bool :=
  match s with
  | String c s => negb (Ascii.eqb c "_" && HasPrefix s "_") && single_underscores s
  | "" => true
  end.

Lemma single_underscores_app r s : in_string "_" r = false -> single_underscores (r +:+ s) = single_underscores s.
Proof.
  induction r as [|c r IH]; [done|]. cbn [in_string String.append single_underscores]. intros [Hc Hr]%orb_false_iff. rewrite IH by done.
  by rewrite Ascii.eqb_sym in Hc; rewrite Hc.
Qed.

Lemma whole_no_separator r c : whole r -> is_separator r = false -> is_separator (String c "") = true -> (Utf8.code c < 128)%nat -> in_string c r = false.
Proof.
  intros [[d ->]|[_ Hr]] Hno Hc Hlt; [|by apply Hr]. cbn. rewrite orb_false_r. apply Ascii.eqb_neq. intros <-. congruence.
Qed.

Lemma format_runes_spec last rs : Forall (fun p => whole p.2) rs -> forall replaced,
  let s := format_runes last replaced rs in
  in_string ":" s = false /\ in_string "/" s = false /\ in_string "." s = false /\ single_underscores s = true /\ (replaced = true -> HasPrefix s "_" = false).
Proof.
  induction 1 as [|[i r] rs Hr _ IH]; intros replaced; cbn [format_runes]; [done|]. cbn [snd] in Hr. destruct (is_separator r) eqn:Hsep.
  - destruct (IH true) as (H1 & H2 & H3 & H4 & H5). destruct (negb replaced && _ && _) eqn:Hb; cbn [String.append]; [|by split_and!; try done; intros _; apply H5].
    cbn. rewrite H1, H2, H3, H4. specialize (H5 eq_refl). unfold HasPrefix in *. rewrite H5. split_and!; try done. by destruct replaced.
  - destruct (IH false) as (H1 & H2 & H3 & H4 & _). rewrite !in_string_app, H1, H2, H3.
    assert (Hno : forall c, is_separator (String c "") = true -> (Utf8.code c <? 128)%nat = true -> in_string c r = false).
    { intros c Hc Hlt%Nat.ltb_lt. by apply whole_no_separator. }
    rewrite !Hno by (vm_compute; reflexivity). assert (Hu : in_string "_" r = false) by (apply Hno; vm_compute; reflexivity).
    rewrite single_underscores_app, H4 by done. split_and!; try done. intros _.
    destruct r as [|c r]; [by destruct Hr as [[? ?]|[? _]]|]. cbn [in_string] in Hu. apply orb_false_iff in Hu as [Hc _]. apply Ascii.eqb_neq in Hc.
    unfold HasPrefix. cbn [String.append String.prefix]. by destruct (ascii_dec "_" c).
Qed.

(** The name of a queue made of an address holds no colon, slash or dot, and no
    underscore that follows another. *)
Lemma formatQueueName_name name : let s := formatQueueName name in
  in_string ":" s = false /\ in_string "/" s = false /\ in_string "." s = false /\ single_underscores s = true.
Proof.
  cbv zeta. unfold formatQueueName.
  assert (Hfirst : forall last, format_runes last false (Utf8.range name) = format_runes last true (Utf8.range name)).
  { intros last. unfold Utf8.range. destruct name as [|c name]; [done|]. cbn [String.length Utf8.runes]. destruct (Utf8.first_rune c name) as [r n].
    cbn [format_runes]. by rewrite andb_false_r. }
  rewrite Hfirst. destruct (format_runes_spec (len name - 1) (Utf8.range name) (runes_whole _ _ _) true) as (H1 & H2 & H3 & H4 & H5).
  rewrite !in_string_app, H1, H2, H3. split_and!; [done..|]. set (body := format_runes _ _ _) in *. specialize (H5 eq_refl).
  unfold HasPrefix in H5. cbn. unfold HasPrefix. by rewrite H5, H4.
Qed.

(** ** Theorems: the order of the masters *)

Lemma calculateConnectOrder_last addresses i : (i < length addresses)%nat ->
  exists order, calculateConnectOrder addresses i = Ok order /\ order ≡ₚ seq 0 (length addresses) /\ last order = Some i.
Proof.
  intros Hi. destruct addresses as [|a [|b [|c addresses]]]; [cbn in Hi; lia| | |].
  - exists [0%nat]. cbn in Hi. by replace i with 0%nat by lia.
  - exists [((i + 1) mod 2)%nat; i]. split; [done|]. cbn in Hi. destruct i as [|[|i]]; [|done|lia]. split; [constructor|done].
  - set (n := length (a :: b :: c :: addresses)) in *.
    assert (Hlt : (i <? n)%nat = true) by by apply Nat.ltb_lt.
    exists (list.drop (S i) (seq 0 n) ++ list.take i (seq 0 n) ++ [i]).
    split; [by unfold calculateConnectOrder; fold n; rewrite Hlt|]. split; [|by rewrite List.app_assoc, last_snoc].
    assert (Hs : seq 0 n !! i = Some i) by (rewrite lookup_seq_lt; by f_equal).
    rewrite Permutation_app_comm, <- List.app_assoc. cbn [app]. by rewrite take_drop_middle.
Qed.

(** ** Theorems: a push ends *)

(** Steps that return, keep an invariant, and go on along a preorder. *)
Section Fine.
Context {S : Type} (I : S -> Prop) (R : S -> S -> Prop) `{!PreOrder R}.
Definition fine {A} (P : A -> Prop) (m : ST S A) : Prop := forall s, I s ->
  I (m s).1 /\ R s (m s).1 /\ match (m s).2 with Ok a => P a | Err _ => True | _ => False end.

Lemma fine_ret {A} (P : A -> Prop) a : P a -> fine P (mret a).
Proof. by intros Ha s Hs. Qed.
Lemma fine_lift {A} (P : A -> Prop) (m : outcome A) : match m with Ok a => P a | Err _ => True | _ => False end -> fine P (lift_st m).
Proof. by intros Hm s Hs. Qed.
Lemma fine_bind {A B} (P : A -> Prop) (Q : B -> Prop) (m : ST S A) (k : A -> ST S B) :
  fine P m -> (forall a, P a -> fine Q (k a)) -> fine Q (mbind k m).
Proof.
  intros Hm Hk s Hs. specialize (Hm s Hs). unfold mbind, ST_bind. destruct (m s) as [s1 [a|x| |]]; cbn in *; [|by destruct Hm..].
  destruct Hm as (H1 & H2 & H3). destruct (Hk a H3 s1 H1) as (H4 & H5 & H6). split_and!; [done|by etransitivity|done].
Qed.
Lemma fine_attempt_any {A} (m : ST S A) : fine (fun _ => True) m -> fine (fun _ => True) (attempt_st m).
Proof. intros Hm s Hs. specialize (Hm s Hs). unfold attempt_st. by destruct (m s) as [s1 [a|x| |]]. Qed.
End Fine.

(** Follows the text of a run whose values are arbitrary. *)
Ltac fine_steps :=
  repeat match goal with
  | |- forall _, _ => intros ?
  | |- fine _ _ _ (mret _) => solve [apply fine_ret; [apply _|done]]
  | |- fine _ _ _ (mbind _ _) => apply fine_bind with (P := fun _ => True); [apply _| |intros ? _]
  | |- fine _ _ _ (match ?x with _ => _ end) => destruct x
  | |- fine _ _ _ _ => solve [eauto 3 with fine]
  end.
Create HintDb fine.

(** What the program relies on: calls return and time does not go back; a wait that was
    not cut short lasts; the context has ended at its deadline and when a wait was cut
    short; an insertion without an error has put the jobs into the queue. *)
Class QueueWorldSpec (W : Type) `{QueueWorld W} : Type := {
  clock : W -> Z;
  deadline : W -> Z;
  queued : W -> string -> list job;
  later (w w' : W) : Prop := clock w <= clock w' /\ deadline w' = deadline w;
  set_user_returns : forall u p url, match set_user u p url with Ok _ | Err _ => True | _ => False end;
  ParseConfig_ends : forall url, match ParseConfig url with Ok _ | Err _ => True | _ => False end;
  NewWithConfig_later : forall url conf, fine (fun _ => True) later (fun _ => True) (NewWithConfig url conf);
  PoolPing_later : forall c, fine (fun _ => True) later (fun _ => True) (PoolPing c);
  PoolClose_later : forall c w, later w (PoolClose c w);
  RiverMigrate_later : forall c, fine (fun _ => True) later (fun _ => True) (RiverMigrate c);
  RiverNew_later : forall c name n t id, fine (fun _ => True) later (fun _ => True) (RiverNew c name n t id);
  RiverStart_later : forall o, fine (fun _ => True) later (fun _ => True) (RiverStart o);
  RiverStopAndCancel_later : forall o, fine (fun _ => True) later (fun _ => True) (RiverStopAndCancel o);
  RiverInsert_later : forall o name jobs w, later w (RiverInsert o name jobs w).1;
  RiverInsert_queued : forall o name jobs w j, (RiverInsert o name jobs w).2 = None -> j ∈ jobs -> j ∈ queued (RiverInsert o name jobs w).1 name;
  ctx_Err_deadline : forall w, deadline w <= clock w -> is_Some (ctx_Err w);
  wait_later : forall d w, 0 <= d -> later w (wait d w).1 /\
    if (wait d w).2 then is_Some (ctx_Err (wait d w).1) else clock w + d <= clock (wait d w).1
}.

Section PushEnds.
Context {G : GoText} {W : Type} {PW : PoolWorld W} {QW : QueueWorld W} {QS : QueueWorldSpec W} (Cfg : Config).
Implicit Type q : riverq W.

#[local] Instance later_preorder : PreOrder later.
Proof. split; [done|]. intros w1 w2 w3 [H1 H2] [H3 H4]. split; [lia|congruence]. Qed.

(** The current master is one of the configuration's. *)
Definition index_ok q : Prop := (DCurrentIndex (DB q) < length (DMasters (DB q)))%nat.
Definition qlater q q' : Prop := later (outer q) (outer q').
#[local] Instance qlater_preorder : PreOrder qlater.
Proof. split; [intros q; apply later_preorder|]. intros q1 q2 q3. unfold qlater. apply transitivity. Qed.
Abbreviation qfine := (fine index_ok qlater).

Lemma fine_outside {A} (P : A -> Prop) (m : ST W A) : fine (fun _ => True) later P m -> qfine P (outside m).
Proof. intros Hm q Hq. destruct (Hm (outer q) I) as (_ & H2 & H3). unfold outside. by destruct (m (outer q)) as [w r]. Qed.
Lemma fine_gets {A} (f : riverq W -> A) : qfine (fun _ => True) (gets f).
Proof. by intros q Hq. Qed.
Lemma fine_set_River r : qfine (fun _ => True) (set_River r).
Proof. by intros q Hq. Qed.
Lemma fine_fail {A} (P : A -> Prop) e : qfine P (fail e).
Proof. apply fine_lift; [apply _|done]. Qed.
Lemma fine_close_pool c : fine (fun _ => True) later (fun _ : unit => True) (close_pool c).
Proof. intros w _. cbn. split_and!; [done| |done]. destruct c; [apply PoolClose_later|done]. Qed.

#[local] Hint Resolve fine_outside fine_gets fine_set_River fine_fail fine_close_pool RiverMigrate_later RiverNew_later RiverStart_later
  RiverStopAndCancel_later NewWithConfig_later PoolPing_later : fine.
#[local] Hint Resolve fine_attempt_any : fine.

Lemma first_answering_fine masters order : Forall (fun i => (i < length masters)%nat) order ->
  fine (fun _ => True) later (fun t => match t with Some (i, _) => (i < length masters)%nat | None => True end) (first_answering masters order).
Proof.
  assert (Hconn : forall url, fine (fun _ => True) later (fun _ : nat => True) (connect_pool url)).
  { intros url. unfold connect_pool, poolConnect. apply fine_bind with (P := fun _ => True); [apply _| |intros; apply NewWithConfig_later].
    apply fine_lift; [apply _|]. pose proof (ParseConfig_ends url). by destruct (ParseConfig url). }
  induction 1 as [|i order Hi _ IH]; cbn [first_answering]; [apply fine_ret; [apply _|done]|].
  apply fine_bind with (P := fun _ => True); [apply _| |intros url _].
  { apply fine_lift; [apply _|]. destruct (index_lt masters i Hi) as [x ->]. done. }
  apply fine_bind with (P := fun _ => True); [apply _|apply fine_attempt_any, Hconn|intros [c|e] _; [|done]].
  apply fine_bind with (P := fun _ => True); [apply _|apply fine_attempt_any, PoolPing_later|intros [t|e] _].
  - apply fine_ret; [apply _|done].
  - apply fine_bind with (P := fun _ => True); [apply _|apply fine_close_pool|done].
Qed.

Lemma switchMaster_fine : qfine (fun _ => True) switchMaster.
Proof.
  intros q Hq. destruct (calculateConnectOrder_last _ _ Hq) as (order & Hord & Hperm & _).
  assert (Hin : Forall (fun i => (i < length (DMasters (DB q)))%nat) order).
  { rewrite Hperm. apply Forall_forall. intros i [_ Hi]%elem_of_seq. lia. }
  destruct (first_answering_fine _ _ Hin (outer q) I) as (_ & Hl & Hr).
  unfold switchMaster, mbind, ST_bind, gets, lift_st, outside. rewrite Hord.
  destruct (first_answering (DMasters (DB q)) order (outer q)) as [w [[[i c]|]| | |]]; cbn in *; try done.
  destruct (DActive (DB q)) as [old|]; cbn; split_and!; try done.
  unfold qlater. cbn. etransitivity; [exact Hl|apply PoolClose_later].
Qed.

Lemma trySwitchMaster_fine : qfine (fun _ => True) (trySwitchMaster Cfg).
Proof.
  unfold trySwitchMaster, initDatabaseClient, initRiverClient, Start.
  apply fine_bind with (P := fun _ => True); [apply _|apply switchMaster_fine|intros _ _]. fine_steps.
Qed.

Lemma HealthCheck_fine : qfine (fun _ => True) HealthCheck.
Proof. unfold HealthCheck, database_Ping. fine_steps. Qed.

Definition stored q (jobs : list job) : Prop := forall j, j ∈ jobs -> j ∈ queued (outer q) (QueueName Cfg).

Lemma push_returns jobs q : index_ok q -> exists q' e, push Cfg jobs q = (q', Ok e) /\ index_ok q' /\ qlater q q' /\ (e = None -> stored q' jobs).
Proof.
  intros Hq. unfold push. destruct (bool_decide_reflect (jobs = [])) as [->|Hne].
  - exists q, None. split_and!; [done|done|done|]. intros _ j Hj%elem_of_nil. done.
  - unfold mbind, ST_bind, gets, outside. destruct (River q) as [o|].
    + pose proof (RiverInsert_later o (QueueName Cfg) jobs (outer q)) as Hl.
      pose proof (fun j => RiverInsert_queued o (QueueName Cfg) jobs (outer q) j) as Hj.
      destruct (RiverInsert o (QueueName Cfg) jobs (outer q)) as [w e]. exists (MkRiverq (DB q) (River q) w), e.
      split_and!; [done|done|done|]. intros He j. by apply Hj.
    + by exists q, (Some ErrNotConnected).
Qed.

(** How a push ends: the jobs are in the queue, or the error is not one of a lost
    connection, or it is the context's. *)
Definition push_end q (jobs : list job) (e : option pushError) : Prop :=
  match e with
  | None => stored q jobs
  | Some e => shouldSwitchMaster (Some e) = false \/ ctx_Err (outer q) = Some e
  end.

(** What a round does when the push failed for a lost connection and the wait was not
    cut short. *)
Definition recover : ST (riverq W) unit :=
  healthy ← attempt_st HealthCheck;
  match healthy with inl _ => mret () | inr _ => r ← attempt_st (trySwitchMaster Cfg); mret () end.

Lemma recover_fine : qfine (fun _ => True) recover.
Proof.
  unfold recover. apply fine_bind with (P := fun _ => True); [apply _|apply fine_attempt_any, HealthCheck_fine|intros [u|x] _]; [fine_steps|].
  apply fine_bind with (P := fun _ => True); [apply _|apply fine_attempt_any, trySwitchMaster_fine|intros r _; fine_steps].
Qed.

Lemma recover_Push fuel jobs q q' : recover q = (q', Ok ()) ->
  (healthy ← attempt_st HealthCheck;
   match healthy with
   | inl _ => Push Cfg fuel jobs
   | inr _ => r ← attempt_st (trySwitchMaster Cfg); Push Cfg fuel jobs
   end) q = Push Cfg fuel jobs q'.
Proof.
  unfold recover. unfold mbind, ST_bind. destruct (attempt_st HealthCheck q) as [q1 [[u|x]| | |]]; [by intros [= ->]| |done..].
  by destruct (attempt_st (trySwitchMaster Cfg) q1) as [q2 [r| | |]]; [intros [= ->]|done..].
Qed.

Lemma recover_returns q : index_ok q -> exists q', recover q = (q', Ok ()) /\ index_ok q' /\ qlater q q'.
Proof.
  intros Hq. destruct (recover_fine q Hq) as (H1 & H2 & H3). exists (recover q).1. split_and!; [|done..].
  assert (Hno : forall x, (recover q).2 ≠ Err x).
  { intros x. unfold recover, mbind, ST_bind, attempt_st. destruct (HealthCheck q) as [q1 [u|y| |]]; try done. by destruct (trySwitchMaster Cfg q1) as [q2 [v|y'| |]]. }
  destruct (recover q) as [q' [[]|x| |]]; cbn in *; [done|by destruct (Hno x)|done..].
Qed.

(** C20: a push ends: half a second for every round up to the deadline of its context is
    enough.  Without an error its jobs are in the queue; otherwise the error is the
    context's or one that is not a lost connection's. *)
Theorem Push_ends jobs : forall fuel q, index_ok q -> deadline (outer q) - clock (outer q) <= 500000000 * Z.of_nat fuel ->
  exists q' e, Push Cfg (S fuel) jobs q = (q', Ok e) /\ push_end q' jobs e.
Proof.
  induction fuel as [|fuel IH]; intros q Hq Hd.
  - destruct (ctx_Err_deadline (outer q)) as [e He]; [lia|]. exists q, (Some e).
    cbn [Push]. unfold mbind, ST_bind, gets. rewrite He. split; [done|by right].
  - set (F := S fuel) in *. cbn [Push].
    unfold mbind at 1, ST_bind at 1, gets at 1. destruct (ctx_Err (outer q)) as [e|] eqn:He; [exists q, (Some e); split; [done|by right]|].
    destruct (push_returns jobs q Hq) as (q1 & e & Hp & Hq1 & [Hc1 Hd1] & Hstored).
    unfold mbind at 1, ST_bind at 1. rewrite Hp. destruct (shouldSwitchMaster e) eqn:Hs; cbn [negb].
    2: { exists q1, e. split; [done|]. destruct e as [e|]; [by left|by apply Hstored]. }
    destruct (wait_later 500000000 (outer q1)) as [[Hc2 Hd2] Hw]; [lia|].
    unfold mbind at 1, ST_bind at 1, outside at 1. destruct (wait 500000000 (outer q1)) as [w ended]; cbn [fst snd] in *. destruct ended.
    + destruct Hw as [x Hx]. eexists _, (Some x). unfold gets. cbn. rewrite Hx. split; [done|by right].
    + destruct (recover_returns (MkRiverq (DB q1) (River q1) w) Hq1) as (q2 & Hr & Hq2 & [Hc3 Hd3]).
      rewrite (recover_Push F jobs _ _ Hr). apply IH; [done|]. cbn in *. lia.
Qed.

(** The client of River fails for a lost connection, while the active pool answers. *)
Definition stuck (P : W -> Prop) (o c : nat) (jobs : list job) : Prop :=
  (forall w, P w -> P (RiverInsert o (QueueName Cfg) jobs w).1 /\ shouldSwitchMaster (RiverInsert o (QueueName Cfg) jobs w).2 = true) /\
  (forall w, P w -> P (wait 500000000 w).1) /\
  (forall w, P w -> P (PoolPing c w).1 /\ exists t, (PoolPing c w).2 = Ok t).

(** A client of River that fails is not replaced while the pool answers: once a
    switch has left River on the pool it closed, no push succeeds any more, and each
    tries up to the end of its context. *)
Lemma Push_stuck P o c jobs : jobs ≠ [] -> stuck P o c jobs -> forall fuel q, P (outer q) -> River q = Some o -> Get (DB q) = Some c ->
  match Push Cfg fuel jobs q with
  | (q', Ok e) => DB q' = DB q /\ River q' = Some o /\ is_Some e
  | (_, r) => r = OutOfFuel
  end.
Proof.
  intros Hne (Hins & Hwait & Hping). induction fuel as [|fuel IH]; intros [db r w] HP HR HG; cbn in HP, HR, HG; subst r; [done|].
  cbn [Push]. unfold mbind at 1, ST_bind at 1, gets at 1. cbn [outer]. destruct (ctx_Err w) as [x|]; [by cbn|].
  unfold mbind at 1, ST_bind at 1, push. rewrite bool_decide_eq_false_2 by done. unfold mbind at 1, ST_bind at 1, gets at 1, outside at 1. cbn [outer River DB].
  destruct (Hins w HP) as [HP1 Hs]. destruct (RiverInsert o (QueueName Cfg) jobs w) as [w1 e]. cbn in HP1, Hs. rewrite Hs. cbn [negb].
  specialize (Hwait w1 HP1). destruct (wait_later 500000000 w1) as [_ Hw]; [lia|]. unfold mbind at 1, ST_bind at 1, outside at 1. cbn [outer DB River].
  destruct (wait 500000000 w1) as [w2 ended]. cbn in Hwait, Hw. destruct ended; [unfold gets; by cbn|].
  destruct (Hping w2 Hwait) as [HP3 [t Ht]]. rewrite (recover_Push fuel jobs _ (MkRiverq db (Some o) (PoolPing c w2).1)).
  - by apply IH.
  - unfold recover, attempt_st, HealthCheck, database_Ping, mbind, ST_bind, gets, outside. cbn [outer DB River]. rewrite HG. cbn [outer DB River].
    destruct (PoolPing c w2) as [w3 r3]. cbn in Ht. by subst r3.
Qed.
End PushEnds.

(** ** Witnesses *)

Module QueueWitness.
Import AsciiText.

(** Masters, some down and some that cannot be migrated; what was put into queues. *)
Record servers : Type := MkServers {
  time : Z; limit : Z; opened : gmap nat string; clients : list (option nat); down : list string; broken : list string; rows : list (string * job)
}.
Definition answers (w : servers) (c : option nat) : bool :=
  match c with Some c => match opened w !! c with Some url => bool_decide (url ∉ down w) | None => false end | None => false end.
Definition with_opened (w : servers) (o : gmap nat string) : servers := MkServers (time w) (limit w) o (clients w) (down w) (broken w) (rows w).
#[local] Instance servers_pools : PoolWorld servers := {|
  ParseConfig _ := Ok (MkPoolConfig 512 0 0 300 60 0 3600 0 None);
  NewWithConfig url _ w := (with_opened w (<[fresh (dom (opened w)) := url]> (opened w)), Ok (fresh (dom (opened w))));
  PoolPing c w := (w, if answers w (Some c) then Ok 1 else Err opaque_error); PoolClose c w := with_opened w (delete c (opened w));
  PoolReset _ w := w; PoolBusy _ _ := false; ConnExec _ _ w := (w, Ok ()); ConnQuery _ _ w := (w, Ok []);
  Acquire c w := (w, inl c); Release _ w := w; NewMigrator _ w := (w, None); LoadMigrations _ w := (w, None); GetCurrentVersion _ w := w;
  Migrate _ w := (w, None) |}.
Definition ClosedPool : pushError := MkPushError false false None (Some ErrClosedPool).
Definition TimedOut : pushError := MkPushError false false None (Some DeadlineExceeded).
#[local] Instance servers_queue : QueueWorld servers := {|
  set_user u p url := Ok (u +:+ "@" +:+ url);
  RiverMigrate c w := (w, if answers w c && bool_decide (default "" (c ≫= (opened w !!.)) ∉ broken w) then Ok () else Err opaque_error);
  RiverNew c _ _ _ _ w := (MkServers (time w) (limit w) (opened w) (clients w ++ [c]) (down w) (broken w) (rows w), Ok (length (clients w)));
  RiverStart _ w := (w, Ok ()); RiverStop _ w := (w, Ok ()); RiverStopAndCancel _ w := (w, Ok ());
  RiverInsert o name jobs w :=
    if answers w (mjoin (clients w !! o)) then (MkServers (time w) (limit w) (opened w) (clients w) (down w) (broken w) (rows w ++ map (pair name) jobs), None)
    else (w, Some ClosedPool);
  ctx_Err w := if limit w <=? time w then Some TimedOut else None;
  wait d w := (MkServers (time w + d) (limit w) (opened w) (clients w) (down w) (broken w) (rows w), limit w <=? time w + d) |}.
#[local] Instance servers_spec : QueueWorldSpec servers.
Proof.
  refine {| clock := time; deadline := limit; queued w name := map snd (filter (fun r => r.1 = name) (rows w)) |}; unfold fine; cbn; try done.
  - intros c w _. split_and!; [done|lia|done|]. repeat case_match; naive_solver.
  - intros c w _. split_and!; [done|lia|done|]. repeat case_match; naive_solver.
  - intros o name jobs w. destruct (answers _ _); cbn; split; lia || done.
  - intros o name jobs w j. destruct (answers _ _); cbn; [|done]. intros _ Hj. rewrite filter_app, map_app, elem_of_app. right.
    apply list_elem_of_fmap. exists (name, j). split; [done|]. apply list_elem_of_filter. split; [done|]. by apply list_elem_of_fmap_2.
  - intros w Hw. apply Z.leb_le in Hw. rewrite Hw. by eexists.
  - intros d w Hd. split; [split; [lia|done]|]. destruct (Z.leb_spec (limit w) (time w + d)) as [Hl|Hl]; [by eexists|lia].
Defined.

Definition configuration : Config :=
  MkConfig (MkDatabaseConfig "user" "secret" "wss://relay.io" ["m0"; "m1"] []) "" "" 0 0.
Definition cfg : outcome Config := initOptions (Err opaque_error) None (fun _ => Ok ()) (Some configuration).
Definition Cfg : Config := match cfg with Ok c => c | _ => configuration end.
Definition world_is (ds bs : list string) (q : riverq servers) : riverq servers :=
  MkRiverq (DB q) (River q) (MkServers (time (outer q)) (limit (outer q)) (opened (outer q)) (clients (outer q)) ds bs (rows (outer q))).
Definition begun : riverq servers :=
  match newClient cfg (MkServers 0 10000000000 ∅ [] [] [] []) with (_, Ok (_, q)) => q | (w, _) => MkRiverq (MkClient true None [] 0) None w end.
Definition m0 : string := "user@postgres://m0".
Definition m1 : string := "user@postgres://m1".
Definition work : job := MkJob "upload" "{}".

Example configured : (QueueName Cfg, MaxQueueWorkers Cfg, DMasters (DB begun), River begun) = ("rq_wss_relay_io", 95, [m0; m1], Some 0%nat).
Proof. vm_compute. reflexivity. Qed.
(** Addresses of different hosts give one name. *)
Example names_collapse : formatQueueName "wss://a.b/c" = formatQueueName "wss://a/b.c" /\ formatQueueName "wss://a.b/c" = "rq_wss_a_b_c".
Proof. vm_compute. done. Qed.

(** The first master is lost: the job is put into the queue on the second. *)
Definition lost_master : riverq servers := world_is [m0] [] begun.
Lemma Push_ends_witness : exists q' e, Push Cfg 21 [work] lost_master = (q', Ok e) /\ push_end Cfg q' [work] e.
Proof. apply (Push_ends Cfg [work] 20 lost_master); vm_compute; [lia|discriminate]. Defined.
Example pushed_on_second : let '(q, e) := Push Cfg 21 [work] lost_master in
  (e, rows (outer q), DCurrentIndex (DB q), time (outer q)) = (Ok None, [("rq_wss_relay_io", work)], 1%nat, 500000000).
Proof. vm_compute. reflexivity. Qed.

(** The second master answers, but its migration fails once. *)
Definition half_switched : riverq servers := world_is [m0] [] (trySwitchMaster Cfg (world_is [m0] [m1] begun)).1.
Lemma Push_stuck_witness : match Push Cfg 21 [work] half_switched with
  | (q', Ok e) => DB q' = DB half_switched /\ River q' = Some 0%nat /\ is_Some e
  | (_, r) => r = OutOfFuel
  end.
Proof.
  apply (Push_stuck Cfg (fun w => opened w = opened (outer half_switched) /\ clients w = clients (outer half_switched) /\ down w = [m0]) 0 1 [work]);
    [discriminate| |split_and!; reflexivity|vm_compute; reflexivity|vm_compute; reflexivity].
  split_and!; intros w (Ho & Hc & Hd).
  - unfold RiverInsert, servers_queue, answers. rewrite Hc, Ho. vm_compute (mjoin _). vm_compute (opened _). done.
  - done.
  - unfold PoolPing, servers_pools, answers. rewrite Ho, Hd. vm_compute. eauto.
Defined.
(** Every master answers again, and the push ends with its context all the same. *)
Example stuck_for_good : let '(q, e) := Push Cfg 21 [work] (world_is [] [] half_switched) in
  (e, rows (outer q), answers (outer q) (DActive (DB q))) = (Ok (Some TimedOut), [], true).
Proof. vm_compute. reflexivity. Qed.
End QueueWitness.
