(* ===== verification/Frames.v ===== *)
(** * Packages pool and server/ws/internal/adapters: compressed frames

    src/pool/pool.go and src/server/ws/internal/adapters/websocket_compression.go: a
    pool of compressors, each with a buffer of its own, and the compression of a frame.
    [bytes.Buffer] is modelled with the arrays behind it: the payload of a compressed
    frame is a slice of the compressor's buffer.  Goroutines are interleaved at the calls
    of the pool.  compress/flate and wsflate are parameters: what is written to the
    buffer for a payload, and the bit that is set in a header. *)

From S2P Require Import Prelude GoStd.

(** ** The pool *)

(** The buffered channel is a list of bounded length; the constructor and the function
    called before an item is handed out change the memory. *)
Module Pool.
Section Pool.
Context {W T : Type}.
(* src: pool/pool.go 8-12 *)
Record Pool : Type := MkPool { ch : list T; capacity : nat; new : W -> W * T; beforeGet : T -> W -> W * T }.
(* src: pool/pool.go 14-18 *)
Record config : Type := MkConfig { DesiredNumberOfItems : Z; PreFill : bool; BeforeGet : option (T -> W -> W * T) }.

(* src: pool/pool.go 23-27 *)
Definition WithDesiredNumberOfItems (n : Z) (c : config) : config := MkConfig n (PreFill c) (BeforeGet c).
(* src: pool/pool.go 30-34 *)
Definition WithPreFill (preFill : bool) (c : config) : config := MkConfig (DesiredNumberOfItems c) preFill (BeforeGet c).
(* src: pool/pool.go 37-41 *)
Definition WithBeforeGet (fn : T -> W -> W * T) (c : config) : config := MkConfig (DesiredNumberOfItems c) (PreFill c) (Some fn).

(* src: pool/pool.go 66-68 [New] *)
Fixpoint fill (n : nat) (constructor : W -> W * T) (w : W) : W * list T :=
  match n with
  | O => (w, [])
  | S n => let '(w, item) := constructor w in let '(w, items) := fill n constructor w in (w, item :: items)
  end.

(* src: pool/pool.go 44-72 *)
Definition New (constructor : W -> W * T) (opts : list (config -> config)) (w : W) : W * Pool :=
  let cfg := fold_left (fun cfg opt => opt cfg) opts (MkConfig 0 false None) in
  let before := default (fun item w => (w, item)) (BeforeGet cfg) in
  let n := Z.to_nat (Z.max 0 (DesiredNumberOfItems cfg)) in
  let '(w, items) := if PreFill cfg then fill n constructor w else (w, []) in
  (w, MkPool items n constructor before).

Definition with_ch (p : Pool) (items : list T) : Pool := MkPool items (capacity p) (new p) (beforeGet p).

(* src: pool/pool.go 74-81 *)
Definition get (p : Pool) (w : W) : W * (Pool * T) :=
  match ch p with
  | item :: items => (w, (with_ch p items, item))
  | [] => let '(w, item) := new p w in (w, (p, item))
  end.

(* src: pool/pool.go 84-86 *)
Definition Get (p : Pool) (w : W) : W * (Pool * T) :=
  let '(w, (p, item)) := get p w in let '(w, item) := beforeGet p item w in (w, (p, item)).

(* src: pool/pool.go 89-95 *)
Definition Put (p : Pool) (item : T) : Pool :=
  if (length (ch p) <? capacity p)%nat then with_ch p (ch p ++ [item]) else p.
End Pool.
Arguments Pool : clear implicits.
Arguments config : clear implicits.
End Pool.
Import Pool.

(** ** Buffers *)

Abbreviation bytes := (list ascii).

(** A buffer that is never read from: its array and how much of it is written. *)
Record Buffer : Type := MkBuffer { array : option nat; written : nat }.
Record memory : Type := MkMemory { arrays : gmap nat bytes; compressors : gmap nat Buffer }.

Definition array_of (m : memory) (a : nat) : bytes := default [] (arrays m !! a).
Definition smallBufferSize : nat := 64.

(** ** Frames *)

(** A payload: bytes of the caller, or a slice of an array. *)
Inductive payload : Type := Own (data : bytes) | View (a : option nat) (n : nat).
(** The header of gobwas/ws, and the payload. *)
Record header : Type := MkHeader { Fin : bool; Rsv : Z; OpCode : Z; Length : Z }.
Record frame : Type := MkFrame { Header : header; Payload : payload }.

Definition read (m : memory) (p : payload) : bytes :=
  match p with
  | Own data => data
  | View (Some a) n => take n (array_of m a)
  | View None _ => []
  end.

Class Flate := {
  (** what is written to the buffer for a payload, call by call, and the error *)
  deflate : bytes -> list bytes * option error;
  SetBit : header -> outcome header;
  (** the capacity of a slice that is grown to a length: its size class *)
  size_class : nat -> nat
}.

Section Compression.
Context {F : Flate}.

Definition zero : ascii := "000"%char.

(** [bytes.Buffer.Write]: into the array when there is room, otherwise into a new one of
    twice the capacity that begins with the same bytes. *)
Definition buffer_write (c : nat) (data : bytes) (m : memory) : memory :=
  match compressors m !! c with
  | None => m
  | Some b =>
      let old := from_option (array_of m) [] (array b) in
      let n := (written b + length data)%nat in
      if (n <=? length old)%nat then
        MkMemory (match array b with Some a => <[a := list_inserts (written b) data old]> (arrays m) | None => arrays m end)
                 (<[c := MkBuffer (array b) n]> (compressors m))
      else
        let size := if bool_decide (array b = None) && (length data <=? smallBufferSize)%nat then smallBufferSize
                    else size_class (n `max` (2 * length old))%nat in
        let a := fresh (dom (arrays m)) in
        MkMemory (<[a := take (written b) old ++ data ++ replicate (size - n) zero]> (arrays m))
                 (<[c := MkBuffer (Some a) n]> (compressors m))
  end.

(* src: server/ws/internal/adapters/websocket_compression.go 30-42 [compressorPool] *)
Definition new_compressor (m : memory) : memory * nat :=
  let c := fresh (dom (compressors m)) in (MkMemory (arrays m) (<[c := MkBuffer None 0]> (compressors m)), c).

(** [Buf.Reset] keeps the array. *)
(* src: server/ws/internal/adapters/websocket_compression.go 45-49 [compressorPool] *)
Definition reset (c : nat) (m : memory) : memory * nat :=
  (MkMemory (arrays m) (alter (fun b => MkBuffer (array b) 0) c (compressors m)), c).

(* src: server/ws/internal/adapters/websocket_compression.go 23 *)
Definition WebSocketCompressorKeepInMemory : Z := 200.

(* src: server/ws/internal/adapters/websocket_compression.go 28-50 *)
Definition compressorPool (m : memory) : memory * Pool memory nat :=
  New new_compressor [WithDesiredNumberOfItems WebSocketCompressorKeepInMemory; WithPreFill true; WithBeforeGet reset] m.

(* src: server/ws/internal/adapters/websocket_compression.go 53-61 *)
Definition Compress (c : nat) (p : bytes) (m : memory) : memory * outcome payload :=
  let '(chunks, e) := deflate p in
  let m := fold_left (fun m data => buffer_write c data m) chunks m in
  (m, match e with
      | Some e => Err e
      | None => match compressors m !! c with Some b => Ok (View (array b) (written b)) | None => Panic end
      end).

(** The compression of a frame with the compressor that was taken. *)
(* src: server/ws/internal/adapters/websocket_compression.go 67-77 [compressFrame] *)
Definition compress_with (c : nat) (f : frame) (m : memory) : memory * outcome frame :=
  let '(m, r) := Compress c (read m (Payload f)) m in
  (m, let! data := r in
      let! h := SetBit (MkHeader (Fin (Header f)) (Rsv (Header f)) (OpCode (Header f)) (Z.of_nat (length (read m data)))) in
      Ok (MkFrame h data)).

(** *** Goroutines *)

(** The memory, the pool, the compressors that were taken and not put back, by
    goroutine, and the frames that were compressed and not yet written. *)
Record state : Type := MkState { mem : memory; pool : Pool memory nat; held : gmap nat nat; frames : gmap nat frame }.

(** The steps of [compressFrame] in a goroutine, and the return of its frame: the
    compressor is put back before the caller sees the frame. *)
Inductive action : Type := Take (g : nat) | Deflate (g : nat) (f : frame) | Release (g : nat).

(* src: server/ws/internal/adapters/websocket_compression.go 63-78 [compressFrame] *)
Definition act (s : state) (x : action) : state :=
  match x with
  | Take g =>
      match held s !! g with
      | Some _ => s
      | None => let '(m, (p, c)) := Get (pool s) (mem s) in MkState m p (<[g := c]> (held s)) (frames s)
      end
  | Deflate g f =>
      match held s !! g with
      | None => s
      | Some c =>
          let '(m, r) := compress_with c f (mem s) in
          MkState m (pool s) (held s) (match r with Ok f => <[g := f]> (frames s) | _ => delete g (frames s) end)
      end
  | Release g =>
      match held s !! g with
      | None => s
      | Some c => MkState (mem s) (Put (pool s) c) (delete g (held s)) (frames s)
      end
  end.
Definition run (s : state) (l : list action) : state := fold_left act l s.
(** One call of [compressFrame]. *)
Definition compressFrame (g : nat) (f : frame) : list action := [Take g; Deflate g f; Release g].

Definition start : state := let '(m, p) := compressorPool (MkMemory ∅ ∅) in MkState m p ∅ ∅.
End Compression.

(** ** Theorems *)

(** *** One buffer *)

(** Buffers have arrays of their own, which exist. *)
Record own (m : memory) : Prop := MkOwn {
  own_inj : forall c1 c2 b1 b2 a, compressors m !! c1 = Some b1 -> compressors m !! c2 = Some b2 -> array b1 = Some a -> array b2 = Some a -> c1 = c2;
  own_dom : forall c b a, compressors m !! c = Some b -> array b = Some a -> exists data, arrays m !! a = Some data /\ (written b <= length data)%nat;
  own_none : forall c b, compressors m !! c = Some b -> array b = None -> written b = 0%nat
}.

Definition owns (m : memory) (c a : nat) : Prop := exists b, compressors m !! c = Some b /\ array b = Some a.

(** What a step on the buffer of [c] leaves alone. *)
Record spares (c : nat) (m m' : memory) : Prop := MkSpares {
  spares_own : own m -> own m';
  spares_others : forall c', c' ≠ c -> compressors m' !! c' = compressors m !! c';
  spares_dom : is_Some (compressors m !! c) -> is_Some (compressors m' !! c);
  spares_arrays : forall a, a ∈ dom (arrays m) -> ~ owns m c a -> arrays m' !! a = arrays m !! a /\ ~ owns m' c a
}.

Lemma arrays_dom m a : a ∈ dom (arrays m) <-> is_Some (arrays m !! a). Proof. apply elem_of_dom. Qed.

Lemma spares_refl c m : spares c m m. Proof. by constructor. Qed.
Lemma spares_trans c m1 m2 m3 : spares c m1 m2 -> spares c m2 m3 -> spares c m1 m3.
Proof.
  intros H1 H2. constructor.
  - intros. by apply (spares_own _ _ _ H2), (spares_own _ _ _ H1).
  - intros. by rewrite (spares_others _ _ _ H2), (spares_others _ _ _ H1).
  - intros. by apply (spares_dom _ _ _ H2), (spares_dom _ _ _ H1).
  - intros a Ha Hn. destruct (spares_arrays _ _ _ H1 a Ha Hn) as [He Hn2]. rewrite <- He. apply (spares_arrays _ _ _ H2); [|done].
    apply arrays_dom. rewrite He. by apply arrays_dom.
Qed.

Section CompressionLaws.
Context {F : Flate}.

(** What the buffer of a compressor holds. *)
Definition contents (m : memory) (c : nat) : bytes :=
  match compressors m !! c with Some b => read m (View (array b) (written b)) | None => [] end.

Lemma take_inserts i (data old : bytes) : (i + length data <= length old)%nat -> take (i + length data) (list_inserts i data old) = take i old ++ data.
Proof.
  intros Hlen. apply list_eq. intros j. destruct (Nat.lt_ge_cases j (i + length data)) as [Hj|Hj].
  - rewrite lookup_take_lt by lia. destruct (Nat.lt_ge_cases j i) as [Hi|Hi].
    + rewrite list_lookup_inserts_lt by lia. rewrite lookup_app_l by (rewrite length_take; lia). by rewrite lookup_take_lt by lia.
    + rewrite list_lookup_inserts by lia. rewrite lookup_app_r by (rewrite length_take; lia). rewrite length_take. f_equal. lia.
  - rewrite lookup_take_ge by lia. symmetry. apply lookup_ge_None. rewrite length_app, length_take. lia.
Qed.

Lemma written_fits c b m : own m -> compressors m !! c = Some b -> (written b <= length (from_option (array_of m) [] (array b)))%nat.
Proof.
  intros [_ Hd Hn] Hc. destruct (array b) as [a|] eqn:Hab; cbn; [|rewrite (Hn _ _ Hc Hab); lia].
  destruct (Hd _ _ _ Hc Hab) as (d & Hd1 & Hd2). unfold array_of. by rewrite Hd1.
Qed.

(** A buffer gets the contents of an array that was its own, or is new. *)
Lemma update_spares c b0 b a data m : compressors m !! c = Some b0 -> array b0 = Some a \/ a ∉ dom (arrays m) ->
  array b = Some a -> (own m -> (written b <= length data)%nat) ->
  spares c m (MkMemory (<[a := data]> (arrays m)) (<[c := b]> (compressors m))).
Proof.
  intros Hc Hor Hb Hlen.
  assert (Hno : own m -> forall c' b', c' ≠ c -> compressors m !! c' = Some b' -> array b' ≠ Some a).
  { intros [Hi Hd _] c' b' Hne Hc' Ha. destruct Hor as [Hab|Hfresh]; [by destruct (Hne (Hi _ _ _ _ _ Hc' Hc Ha Hab))|].
    destruct (Hd _ _ _ Hc' Ha) as (d & Hd1 & _). apply Hfresh, arrays_dom. by exists d. }
  constructor; cbn.
  - intros Hown. specialize (Hno Hown). specialize (Hlen Hown). destruct Hown as [Hi Hd Hn]. constructor; cbn.
    + intros c1 c2 b1 b2 x [[<- <-]|[? H1]]%lookup_insert_Some [[<- <-]|[? H2]]%lookup_insert_Some Ha1 Ha2; [done| | |eauto].
      * rewrite Hb in Ha1. injection Ha1 as <-. by destruct (Hno _ _ (not_eq_sym H) H2).
      * rewrite Hb in Ha2. injection Ha2 as <-. by destruct (Hno _ _ (not_eq_sym H) H1).
    + intros c' b' x [[<- <-]|[Hne Hc']]%lookup_insert_Some Ha.
      * rewrite Hb in Ha. injection Ha as <-. rewrite lookup_insert_eq. eauto.
      * rewrite lookup_insert_ne; [eauto|]. intros <-. by destruct (Hno _ _ (not_eq_sym Hne) Hc').
    + intros c' b' [[<- <-]|[Hne Hc']]%lookup_insert_Some Ha; [congruence|eauto].
  - intros c' Hne. by rewrite lookup_insert_ne.
  - by rewrite lookup_insert_eq.
  - intros x Hx Hn. assert (a ≠ x).
    { intros <-. destruct Hor as [Hab|Hfresh]; [|done]. apply Hn. by exists b0. }
    split; [by rewrite lookup_insert_ne|]. intros (b' & Hb' & He). cbn in Hb'. rewrite lookup_insert_eq in Hb'. injection Hb' as <-. congruence.
Qed.

Lemma buffer_write_spares c data m : spares c m (buffer_write c data m).
Proof.
  unfold buffer_write. destruct (compressors m !! c) as [b|] eqn:Hc; [|apply spares_refl].
  destruct (Nat.leb_spec (written b + length data) (length (from_option (array_of m) [] (array b)))) as [Hfit|Hbig].
  - destruct (array b) as [a|] eqn:Hab; cbn in Hfit.
    + apply (update_spares c b); [done|by left|done|]. intros _. by rewrite length_inserts.
    + replace (written b + length data)%nat with (written b) by lia. destruct b as [ar n]. cbn in *. subst ar. rewrite insert_id by done. by destruct m.
  - apply (update_spares c b); [done|right; apply is_fresh|done|]. intros Hown. cbn. rewrite !length_app, length_take.
    pose proof (written_fits c b m Hown Hc). lia.
Qed.

Lemma buffer_write_contents c data m : own m -> is_Some (compressors m !! c) -> contents (buffer_write c data m) c = contents m c ++ data.
Proof.
  intros Hown [b Hc]. pose proof (written_fits c b m Hown Hc) as Hw. unfold contents, buffer_write. rewrite Hc.
  destruct (Nat.leb_spec (written b + length data) (length (from_option (array_of m) [] (array b)))) as [Hfit|Hbig]; cbn; rewrite lookup_insert_eq; cbn.
  - destruct (array b) as [a|] eqn:Hab; cbn in *.
    + unfold array_of at 1. cbn. rewrite lookup_insert_eq. cbn. by apply take_inserts.
    + assert (length data = 0)%nat as ->%nil_length_inv by lia. done.
  - unfold array_of at 1. cbn. rewrite lookup_insert_eq. cbn.
    assert (Hr : take (written b) (from_option (array_of m) [] (array b)) = match array b with Some a => take (written b) (array_of m a) | None => [] end).
    { destruct (array b); [done|]. cbn. apply take_nil. }
    rewrite <- Hr, List.app_assoc, take_app_length'; [done|]. rewrite length_app, length_take. lia.
Qed.

(** *** One compression *)

Lemma writes_spares c chunks m : spares c m (fold_left (fun m data => buffer_write c data m) chunks m).
Proof. revert m. induction chunks as [|data chunks IH]; intros m; [apply spares_refl|]. cbn. eapply spares_trans; [apply buffer_write_spares|apply IH]. Qed.

Lemma writes_contents c chunks m : own m -> is_Some (compressors m !! c) ->
  contents (fold_left (fun m data => buffer_write c data m) chunks m) c = contents m c ++ concat chunks.
Proof.
  revert m. induction chunks as [|data chunks IH]; intros m Hm Hc; cbn; [by rewrite List.app_nil_r|]. destruct (buffer_write_spares c data m) as [Ho _ Hd _].
  rewrite IH, buffer_write_contents, List.app_assoc by auto. done.
Qed.

Lemma compress_with_spares c f m : spares c m (compress_with c f m).1.
Proof.
  unfold compress_with, Compress. destruct (deflate _) as [chunks e]. cbn. apply writes_spares.
Qed.

(** A frame that was compressed in an empty buffer is a view of what the payload was
    compressed to. *)
Lemma compress_with_frame c f m ar m' fr : own m -> compressors m !! c = Some (MkBuffer ar 0) -> compress_with c f m = (m', Ok fr) ->
  exists b, compressors m' !! c = Some b /\ Payload fr = View (array b) (written b) /\
    read m' (Payload fr) = concat (deflate (read m (Payload f))).1.
Proof.
  intros Hm Hc. unfold compress_with, Compress. destruct (deflate (read m (Payload f))) as [chunks e]. cbn.
  pose proof (writes_contents c chunks m Hm (mk_is_Some _ _ Hc)) as Hcont. pose proof (spares_dom _ _ _ (writes_spares c chunks m) (mk_is_Some _ _ Hc)) as [b Hb].
  unfold contents in Hcont. rewrite Hc, Hb in Hcont. destruct e as [e|]; [done|]. rewrite Hb. cbn.
  destruct (SetBit _) as [h| | |]; [|done..]. intros [= <- <-]. exists b. split_and!; [done|done|]. etransitivity; [exact Hcont|]. by destruct ar.
Qed.

(** *** Goroutines that share the pool *)

(** Every compressor is in the pool once, or in one goroutine, or was discarded. *)
Record wf (s : state) : Prop := MkWf {
  wf_new : new (pool s) = new_compressor;
  wf_before : beforeGet (pool s) = reset;
  wf_own : own (mem s);
  wf_nodup : NoDup (ch (pool s));
  wf_free : forall g c, held s !! g = Some c -> c ∉ ch (pool s);
  wf_inj : forall g g' c, held s !! g = Some c -> held s !! g' = Some c -> g = g';
  wf_pooled : forall c, c ∈ ch (pool s) -> is_Some (compressors (mem s) !! c);
  wf_taken : forall g c, held s !! g = Some c -> is_Some (compressors (mem s) !! c)
}.

Lemma reset_spares c m : spares c m (reset c m).1.
Proof.
  constructor; cbn.
  - intros [Hi Hd Hn].
    assert (Hback : forall c' b', alter (fun b => MkBuffer (array b) 0) c (compressors m) !! c' = Some b' ->
      exists b, compressors m !! c' = Some b /\ array b' = array b /\ (written b' <= written b)%nat).
    { intros c' b' [(-> & b & Hb & ->)|[? ?]]%lookup_alter_Some; [exists b|exists b']; split_and!; cbn; done || lia. }
    constructor; cbn.
    + intros c1 c2 b1 b2 a (x & Hx & -> & _)%Hback (y & Hy & -> & _)%Hback. eauto.
    + intros c' b' a (x & Hx & -> & Hle)%Hback Ha. destruct (Hd _ _ _ Hx Ha) as (d & ? & ?). exists d. split; [done|lia].
    + intros c' b' (x & Hx & -> & Hle)%Hback Ha. specialize (Hn _ _ Hx Ha). lia.
  - intros c' Hne. by rewrite lookup_alter_ne.
  - intros [b Hb]. rewrite lookup_alter_eq, Hb. by eexists.
  - intros a _ Hn. split; [done|]. intros (b' & Hb' & Ha). cbn in Hb'. rewrite lookup_alter_eq in Hb'. destruct (compressors m !! c) as [b|] eqn:Hb; [|done].
    injection Hb' as <-. apply Hn. by exists b.
Qed.

Lemma new_compressor_spares m : spares (new_compressor m).2 m (new_compressor m).1.
Proof.
  constructor; cbn.
  - intros [Hi Hd Hn]. constructor; cbn.
    + intros c1 c2 b1 b2 a [[<- <-]|[? H1]]%lookup_insert_Some [[<- <-]|[? H2]]%lookup_insert_Some Ha1 Ha2; try done. eauto.
    + intros c' b' a [[<- <-]|[? H1]]%lookup_insert_Some Ha; [done|eauto].
    + intros c' b' [[<- <-]|[? H1]]%lookup_insert_Some Ha; [done|eauto].
  - intros c' Hne. by rewrite lookup_insert_ne.
  - by rewrite lookup_insert_eq.
  - intros a _ _. split; [done|]. intros (b & Hb & Ha). cbn in Hb. rewrite lookup_insert_eq in Hb. by injection Hb as <-.
Qed.

(** What a goroutine gets: the first compressor of the pool, or a new one; its buffer is
    empty. *)
Lemma pool_Get_spec s m p c : wf s -> Get (pool s) (mem s) = (m, (p, c)) ->
  spares c (mem s) m /\ (exists ar, compressors m !! c = Some (MkBuffer ar 0)) /\ new p = new_compressor /\ beforeGet p = reset /\ capacity p = capacity (pool s) /\
  (ch (pool s) = c :: ch p \/ ch (pool s) = [] /\ ch p = [] /\ compressors (mem s) !! c = None).
Proof.
  intros Hwf. unfold Get, get. pose proof (wf_pooled _ Hwf) as Hp. destruct (ch (pool s)) as [|c0 l] eqn:Hch; cbn [with_ch beforeGet].
  - rewrite (wf_new _ Hwf). destruct (new_compressor (mem s)) as [m1 c1] eqn:Hn. rewrite (wf_before _ Hwf). unfold reset. intros [= <- <- <-].
    pose proof (new_compressor_spares (mem s)) as Hs. rewrite Hn in Hs. cbn in Hs.
    unfold new_compressor in Hn. injection Hn as <- <-. split_and!.
    + eapply spares_trans; [exact Hs|]. apply reset_spares.
    + cbn. rewrite lookup_alter_eq, lookup_insert_eq. by eexists.
    + by apply wf_new.
    + by apply wf_before.
    + done.
    + right. split_and!; [done|done|]. apply not_elem_of_dom, is_fresh.
  - rewrite (wf_before _ Hwf). unfold reset. intros [= <- <- <-]. split_and!.
    + apply reset_spares.
    + cbn. rewrite lookup_alter_eq. destruct (Hp c0) as [b ->]; [left|]. by eexists.
    + by apply wf_new.
    + by apply wf_before.
    + done.
    + by left.
Qed.

Lemma spares_known c c' m m' : spares c m m' -> is_Some (compressors m !! c') -> is_Some (compressors m' !! c').
Proof. intros H Hc. destruct (decide (c' = c)) as [->|Hne]; [by apply (spares_dom _ _ _ H)|by rewrite (spares_others _ _ _ H)]. Qed.

Lemma act_wf s x : wf s -> wf (act s x).
Proof.
  intros Hwf. pose proof Hwf as [Hnew Hbef Hown Hnd Hfree Hinj Hpool Htaken]. destruct x as [g|g f|g]; cbn; destruct (held s !! g) as [c0|] eqn:Hg; try done.
  - destruct (Get (pool s) (mem s)) as [m [p c]] eqn:Hget. destruct (pool_Get_spec _ _ _ _ Hwf Hget) as (Hs & [ar Har] & Hn & Hb & _ & Hor).
    assert (Hc : (c ∉ ch p) /\ (forall g', held s !! g' ≠ Some c) /\ NoDup (ch p) /\ forall c', c' ∈ ch p -> c' ∈ ch (pool s)).
    { destruct Hor as [Hor|(Hor & Hp & Hfr)].
      - rewrite Hor in *. apply NoDup_cons in Hnd as [? ?]. split_and!; [done| |done|by right].
        intros g' Hg'. apply (Hfree _ _ Hg'). left.
      - rewrite Hp. split_and!; [by apply not_elem_of_nil| |constructor|by intros c' ?%elem_of_nil].
        intros g' Hg'. destruct (Htaken _ _ Hg') as [b Hb']. congruence. }
    destruct Hc as (Hc1 & Hc2 & Hc3 & Hc4). constructor; cbn; try done.
    + by apply (spares_own _ _ _ Hs).
    + intros g' c' [[<- <-]|[? Hg']]%lookup_insert_Some; [done|]. intros Hin%Hc4. by apply (Hfree _ _ Hg').
    + intros g1 g2 c' [[<- <-]|[? H1]]%lookup_insert_Some [[<- ?]|[? H2]]%lookup_insert_Some; subst; try done; [by destruct (Hc2 g2)|by destruct (Hc2 g1)|eauto].
    + intros c' Hc'%Hc4%Hpool. by eapply spares_known.
    + intros g' c' [[<- <-]|[? Hg']]%lookup_insert_Some; [by eexists|]. eapply spares_known; [done|eauto].
  - pose proof (compress_with_spares c0 f (mem s)) as Hs. destruct (compress_with c0 f (mem s)) as [m r]. cbn in Hs. constructor; cbn; try done.
    + by apply (spares_own _ _ _ Hs).
    + intros c' Hc'. eapply spares_known; [done|by apply Hpool].
    + intros g' c' Hg'. eapply spares_known; [done|by eapply Htaken].
  - unfold Put. assert (Hrest : forall g' c', delete g (held s) !! g' = Some c' -> held s !! g' = Some c' /\ c' ≠ c0).
    { intros g' c' [Hne Hg']%lookup_delete_Some. split; [done|]. intros ->. by apply Hne, (Hinj _ _ c0). }
    destruct (_ <? _)%nat; constructor; cbn; try done; try (intros g' c' [Hg' Hne]%Hrest; eauto).
    + apply NoDup_app. split_and!; [done| |apply NoDup_singleton]. intros c' Hc' ->%list_elem_of_singleton. by apply (Hfree _ _ Hg).
    + intros [Hin| ->%list_elem_of_singleton]%elem_of_app; [by apply (Hfree _ _ Hg')|done].
    + intros g1 g2 c' [H1 _]%Hrest [H2 _]%Hrest. eauto.
    + intros c' [Hin| ->%list_elem_of_singleton]%elem_of_app; [by apply Hpool|by eapply Htaken].
    + intros g1 g2 c' [H1 _]%Hrest [H2 _]%Hrest. eauto.
Qed.

Definition is_take (x : action) : nat := match x with Take _ => 1 | _ => 0 end.
Fixpoint takes (l : list action) : nat := match l with [] => 0 | x :: l => (is_take x + takes l)%nat end.

(** A compressor that no goroutine has, and that comes to its turn only after [k] others. *)
Record waiting (k c : nat) (s : state) : Prop := MkWaiting {
  waiting_wf : wf s;
  waiting_known : is_Some (compressors (mem s) !! c);
  waiting_free : forall g, held s !! g ≠ Some c;
  waiting_turn : forall i, ch (pool s) !! i = Some c -> (k <= i)%nat
}.

(** Its buffer and its array are left alone. *)
Record untouched (c : nat) (m m' : memory) : Prop := MkUntouched {
  same_buffer : compressors m' !! c = compressors m !! c;
  same_array : forall a, owns m c a -> arrays m' !! a = arrays m !! a
}.

Lemma untouched_refl c m : untouched c m m. Proof. by constructor. Qed.
Lemma untouched_trans c m1 m2 m3 : untouched c m1 m2 -> untouched c m2 m3 -> untouched c m1 m3.
Proof.
  intros [Hb1 Ha1] [Hb2 Ha2]. constructor; [congruence|]. intros a Ha. rewrite Ha2, Ha1; [done|done|].
  destruct Ha as (b & Hb & Hab). exists b. by rewrite Hb1.
Qed.

Lemma spares_untouched c c' m m' : own m -> c' ≠ c -> spares c m m' -> untouched c' m m'.
Proof.
  intros Hm Hne Hs. constructor; [by apply (spares_others _ _ _ Hs)|]. intros a (b & Hb & Ha). apply (spares_arrays _ _ _ Hs).
  - destruct (own_dom _ Hm _ _ _ Hb Ha) as (d & Hd & _). apply arrays_dom. by exists d.
  - intros (b' & Hb' & Ha'). apply Hne. by eapply own_inj.
Qed.

Lemma waiting_act k c s x : waiting (is_take x + k) c s -> waiting k c (act s x) /\ untouched c (mem s) (mem (act s x)).
Proof.
  intros [Hwf Hc Hfree Hturn]. pose proof (act_wf s x Hwf) as Hwf'. assert (Hskip : waiting k c s).
  { constructor; try done. intros i Hi. specialize (Hturn i Hi). lia. }
  destruct x as [g|g f|g]; cbn in *; destruct (held s !! g) as [c0|] eqn:Hg; try (split; [done|apply untouched_refl]).
  - destruct (Get (pool s) (mem s)) as [m [p c1]] eqn:Hget. destruct (pool_Get_spec _ _ _ _ Hwf Hget) as (Hs & _ & _ & _ & _ & Hor). cbn.
    assert (Hne : c ≠ c1).
    { intros ->. destruct Hor as [Hch|(_ & _ & Hno)]; [|destruct Hc as [b Hb]; congruence]. rewrite Hch in Hturn. specialize (Hturn 0%nat eq_refl). lia. }
    pose proof (spares_untouched _ _ _ _ (wf_own _ Hwf) Hne Hs) as Hu. split; [|done]. constructor; cbn; [done|rewrite (same_buffer _ _ _ Hu); done| |].
    + intros g' [[<- <-]|[_ Hg']]%lookup_insert_Some; [done|by apply (Hfree g')].
    + intros i Hi. destruct Hor as [Hch|(_ & Hp & _)]; [|by rewrite Hp in Hi]. rewrite Hch in Hturn. specialize (Hturn (S i) Hi). lia.
  - assert (Hne : c ≠ c0) by (intros ->; by apply (Hfree g)). pose proof (compress_with_spares c0 f (mem s)) as Hs.
    destruct (compress_with c0 f (mem s)) as [m r]. cbn in *. pose proof (spares_untouched _ _ _ _ (wf_own _ Hwf) Hne Hs) as Hu.
    split; [|done]. constructor; cbn; try done. by rewrite (same_buffer _ _ _ Hu).
  - assert (Hne : c ≠ c0) by (intros ->; by apply (Hfree g)). split; [|apply untouched_refl]. constructor; cbn; [done|done| |].
    + intros g' [_ Hg']%lookup_delete_Some. by apply (Hfree g').
    + unfold Put. intros i. destruct (_ <? _)%nat; cbn; [|apply Hturn]. intros [Hi|[_ Hi]]%lookup_app_Some; [by apply Hturn|].
      by apply list_lookup_singleton_Some in Hi as [_ ->].
Qed.

Lemma waiting_run l : forall k c s, waiting (takes l + k) c s -> waiting k c (run s l) /\ untouched c (mem s) (mem (run s l)).
Proof.
  induction l as [|x l IH]; intros k c s Hw; cbn in *; [split; [done|apply untouched_refl]|].
  rewrite <- Nat.add_assoc in Hw. apply waiting_act in Hw as [Hw Hu]. apply IH in Hw as [Hw Hu2]. split; [done|]. by eapply untouched_trans.
Qed.

Lemma run_wf l s : wf s -> wf (run s l).
Proof. revert s. induction l as [|x l IH]; intros s Hs; cbn; [done|]. by apply IH, act_wf. Qed.

Lemma fill_new n : forall m, own m -> let '(m', l) := fill n new_compressor m in own m' /\ NoDup l /\
  (forall c, c ∈ l -> compressors m !! c = None /\ is_Some (compressors m' !! c)) /\ (forall c, is_Some (compressors m !! c) -> is_Some (compressors m' !! c)) /\ length l = n.
Proof.
  induction n as [|n IH]; intros m Hm; cbn [fill]; [split_and!; [done|constructor|by intros c ?%elem_of_nil|done|done]|].
  pose proof (new_compressor_spares m) as Hs. assert (Hfr : compressors m !! (new_compressor m).2 = None) by apply not_elem_of_dom, is_fresh.
  assert (H0 : is_Some (compressors (new_compressor m).1 !! (new_compressor m).2)) by (cbn; rewrite lookup_insert_eq; by eexists).
  destruct (new_compressor m) as [m1 c0]. cbn in Hs, Hfr, H0. specialize (IH m1 (spares_own _ _ _ Hs Hm)).
  destruct (fill n new_compressor m1) as [m' l]. destruct IH as (H1 & H2 & H3 & H4 & H5). cbn. split_and!; [done| | | |lia].
  - apply NoDup_cons. split; [|done]. intros [Hno _]%H3. rewrite Hno in H0. by destruct H0.
  - intros c [->|Hc]%elem_of_cons; [split; [done|by apply H4]|]. destruct (H3 c Hc) as [Hno Hk]. split; [|done].
    destruct (decide (c = c0)) as [->|Hne]; [done|]. by rewrite <- (spares_others _ _ _ Hs).
  - intros c Hc. apply H4. by eapply spares_known.
Qed.

Lemma start_wf : wf start /\ length (ch (pool start)) = 200%nat.
Proof.
  assert (Hown : own (MkMemory ∅ ∅)) by (by constructor).
  pose proof (fill_new 200 (MkMemory ∅ ∅) Hown) as H. unfold start, compressorPool, New. cbn [fold_left WithDesiredNumberOfItems WithPreFill WithBeforeGet PreFill DesiredNumberOfItems BeforeGet].
  change (Z.to_nat (Z.max 0 WebSocketCompressorKeepInMemory)) with 200%nat. destruct (fill 200 new_compressor (MkMemory ∅ ∅)) as [m l].
  destruct H as (H1 & H2 & H3 & _ & H5). split; [|done]. constructor; cbn; try done. intros c Hc. by apply H3.
Qed.

(** What is left in the state once a frame was compressed. *)
Lemma compressed s g h data fr : wf s -> held s !! g = None ->
  let s1 := run s [Take g; Deflate g (MkFrame h (Own data))] in frames s1 !! g = Some fr ->
  exists c b, held s1 !! g = Some c /\ compressors (mem s1) !! c = Some b /\ Payload fr = View (array b) (written b) /\
    read (mem s1) (Payload fr) = concat (deflate data).1.
Proof.
  intros Hwf Hg. cbn. rewrite Hg. destruct (Get (pool s) (mem s)) as [m [p c]] eqn:Hget. destruct (pool_Get_spec _ _ _ _ Hwf Hget) as (Hs & [ar Har] & _).
  cbn. rewrite lookup_insert_eq. destruct (compress_with c _ m) as [m' r] eqn:Hc. cbn. destruct r as [fr'| | |]; cbn; [|by rewrite lookup_delete_eq..].
  rewrite lookup_insert_eq. intros [= ->]. destruct (compress_with_frame _ _ _ _ _ _ (spares_own _ _ _ Hs (wf_own _ Hwf)) Har Hc) as (b & H1 & H2 & H3).
  exists c, b. split_and!; [by rewrite lookup_insert_eq|done|done|exact H3].
Qed.

Lemma release_waiting s g c : wf s -> held s !! g = Some c -> waiting (length (ch (pool s))) c (act s (Release g)).
Proof.
  intros Hwf Hg. pose proof (act_wf s (Release g) Hwf) as Hwf'. cbn in *. rewrite Hg in *. constructor; cbn; [done|by eapply wf_taken| |].
  - intros g' [Hne Hg']%lookup_delete_Some. by apply Hne, (wf_inj _ Hwf _ _ c).
  - pose proof (wf_free _ Hwf _ _ Hg) as Hno. unfold Put. destruct (_ <? _)%nat; cbn; intros i Hi.
    + apply lookup_app_Some in Hi as [Hi|[Hi _]]; [by destruct Hno; eapply list_elem_of_lookup_2|done].
    + destruct Hno. by eapply list_elem_of_lookup_2.
Qed.

Lemma release_mem s g : mem (act s (Release g)) = mem s. Proof. cbn. by destruct (held s !! g). Qed.

Lemma untouched_read c b m m' : compressors m !! c = Some b -> untouched c m m' -> read m' (View (array b) (written b)) = read m (View (array b) (written b)).
Proof. intros Hb [_ Ha]. destruct (array b) as [a|] eqn:Hab; [|done]. cbn. unfold array_of. rewrite Ha; [done|by exists b]. Qed.

(** C39: the payload of a compressed frame is what its message was compressed to, as long
    as no more goroutines take a compressor than the pool holds when the compressor of
    the frame is put back: whatever other goroutines do meanwhile, in any order. *)
Theorem payload_kept before g h data fr after : let s := run start before in let s1 := run s [Take g; Deflate g (MkFrame h (Own data))] in
  held s !! g = None -> frames s1 !! g = Some fr -> (takes after <= length (ch (pool s1)))%nat ->
  read (mem (run s1 (Release g :: after))) (Payload fr) = concat (deflate data).1.
Proof.
  intros s s1 Hg Hfr Hle. assert (Hwf : wf s) by apply run_wf, start_wf. destruct (compressed s g h data fr Hwf Hg Hfr) as (c & b & Hc & Hb & Hp & Hr).
  fold s1 in Hc, Hb, Hr. rewrite <- Hr, Hp. apply (untouched_read c); [done|]. cbn [run fold_left].
  assert (Hw : waiting (length (ch (pool s1))) c (act s1 (Release g))) by (apply release_waiting; [by apply run_wf|done]).
  replace (length (ch (pool s1))) with (takes after + (length (ch (pool s1)) - takes after))%nat in Hw by lia.
  apply waiting_run in Hw as [_ Hu]. by rewrite release_mem in Hu.
Qed.

(** *** A pool whose compressors are all in it *)

Record idle (s : state) : Prop := MkIdle { idle_wf : wf s; idle_held : held s = ∅; idle_full : length (ch (pool s)) = capacity (pool s) }.

Lemma cycle s g f c l : idle s -> ch (pool s) = c :: l -> idle (run s (compressFrame g f)) /\ ch (pool (run s (compressFrame g f))) = l ++ [c] /\
  held (run s [Take g; Deflate g f]) !! g = Some c.
Proof.
  intros [Hwf Hh Hfull] Hch. pose proof (run_wf (compressFrame g f) s Hwf) as Hwf'. revert Hwf'. unfold compressFrame. cbn. rewrite Hh, lookup_empty.
  destruct (Get (pool s) (mem s)) as [m [p c']] eqn:Hget. destruct (pool_Get_spec _ _ _ _ Hwf Hget) as (_ & _ & _ & _ & Hcap & Hor). cbn. rewrite lookup_insert_eq.
  destruct (compress_with c' f m) as [m' r]. cbn. rewrite lookup_insert_eq. intros Hwf'. rewrite Hch in Hor, Hfull.
  destruct Hor as [[= <- Hl]|(? & _)]; [|done]. assert (Hlt : (length (ch p) <? capacity p)%nat = true) by (apply Nat.ltb_lt; rewrite <- Hl, Hcap, <- Hfull; cbn; lia).
  unfold Put in *. rewrite Hlt in *. cbn in *. split_and!; [|by rewrite Hl|done]. constructor; cbn; [done|by rewrite delete_insert_eq, delete_empty|].
  rewrite length_app, <- Hl, Hcap, <- Hfull. cbn. lia.
Qed.

Definition cycles (l : list (nat * frame)) : list action := concat (map (fun '(g, f) => compressFrame g f) l).

Lemma cycles_takes l : takes (cycles l) = length l.
Proof. induction l as [|[g f] l IH]; [done|]. unfold cycles in *. cbn. by rewrite IH. Qed.

Lemma cycles_rotate l : forall s l1 l2, idle s -> ch (pool s) = l1 ++ l2 -> length l = length l1 ->
  idle (run s (cycles l)) /\ ch (pool (run s (cycles l))) = l2 ++ l1.
Proof.
  induction l as [|[g f] l IH]; intros s [|c l1] l2 Hidle Hch Hlen; try done; cbn in Hlen.
  - cbn. by rewrite List.app_nil_r.
  - cbn in Hch. destruct (cycle s g f c _ Hidle Hch) as (Hi & Hc & _). change (cycles ((g, f) :: l)) with (compressFrame g f ++ cycles l).
    unfold run in *. rewrite fold_left_app. rewrite <- List.app_assoc in Hc. destruct (IH _ l1 (l2 ++ [c]) Hi Hc) as [Hi2 Hc2]; [lia|]. split; [done|].
    by rewrite Hc2, <- List.app_assoc.
Qed.

Lemma inserts_0 (z old : bytes) n : (length z <= n)%nat -> (n <= length old)%nat -> take n (list_inserts 0 z old) = z ++ drop (length z) (take n old).
Proof.
  intros Hz Hn. pose proof (take_inserts 0 z old ltac:(lia)) as Ht. cbn in Ht.
  rewrite <- (take_drop (length z) (list_inserts 0 z old)), Ht. rewrite take_app_ge by done. f_equal. rewrite skipn_firstn_comm. f_equal.
  apply list_eq. intros i. rewrite !lookup_drop. by rewrite list_lookup_inserts_ge by lia.
Qed.

Lemma view_length m c b : own m -> compressors m !! c = Some b -> length (read m (View (array b) (written b))) = written b.
Proof.
  intros Hm Hb. pose proof (written_fits c b m Hm Hb) as Hw. destruct (array b) as [a|] eqn:Hab; cbn in *; [rewrite length_take; lia|].
  by rewrite (own_none _ Hm _ _ Hb Hab).
Qed.

(** What a new message that fits leaves of the one before. *)
Lemma overwritten m c b z : own m -> compressors m !! c = Some b -> (length z <= written b)%nat ->
  read (buffer_write c z (reset c m).1) (View (array b) (written b)) = z ++ drop (length z) (read m (View (array b) (written b))).
Proof.
  intros Hm Hb Hz. pose proof (written_fits c b m Hm Hb) as Hw. unfold buffer_write, reset. cbn [fst compressors arrays]. rewrite lookup_alter_eq, Hb. cbn [fmap option_fmap option_map array written].
  destruct (array b) as [a|]; cbn in Hw.
  - cbn [from_option]. change (array_of (MkMemory (arrays m) _) a) with (array_of m a). rewrite (proj2 (Nat.leb_le _ _)) by lia. cbn.
    unfold array_of at 1. cbn. rewrite lookup_insert_eq. by apply inserts_0.
  - assert (length z = 0)%nat as ->%nil_length_inv by lia. cbn. done.
Qed.

(** C40: a frame that is still being written when as many others have been compressed as
    the pool holds loses its payload to the last of them: the compressor is put back
    before the frame is written, and the payload is a slice of its buffer. *)
Theorem payload_lost before g h data fr others g' h' data' z : let s := run start before in let s1 := run s (compressFrame g (MkFrame h (Own data))) in
  idle s -> frames s1 !! g = Some fr -> S (length others) = length (ch (pool s)) ->
  deflate data' = ([z], None) -> (length z <= length (concat (deflate data).1))%nat ->
  read (mem (run s1 (cycles others ++ [Take g'; Deflate g' (MkFrame h' (Own data'))]))) (Payload fr) = z ++ drop (length z) (concat (deflate data).1).
Proof.
  intros s s1 Hidle Hfr Hlen Hz Hle. destruct (ch (pool s)) as [|c rest] eqn:Hch; [done|]. pose proof (idle_wf _ Hidle) as Hwf.
  destruct (cycle s g (MkFrame h (Own data)) c rest Hidle Hch) as (Hi1 & Hch1 & Hheld). fold s1 in Hi1, Hch1.
  assert (Hfr0 : frames (run s [Take g; Deflate g (MkFrame h (Own data))]) !! g = Some fr).
  { unfold s1, compressFrame in Hfr. cbn in *. by rewrite Hheld in Hfr. }
  assert (Hg : held s !! g = None) by (rewrite (idle_held _ Hidle); apply lookup_empty).
  destruct (compressed s g h data fr Hwf Hg Hfr0) as (c' & b & Hc' & Hb & Hp & Hr). rewrite Hheld in Hc'. injection Hc' as <-.
  assert (Hmem : mem s1 = mem (run s [Take g; Deflate g (MkFrame h (Own data))])) by apply release_mem. rewrite <- Hmem in Hb, Hr.
  assert (Hw : waiting (takes (cycles others) + 0) c s1).
  { constructor; [by apply idle_wf|by eexists|intros g0; by rewrite (idle_held _ Hi1), lookup_empty|]. intros i Hi. rewrite cycles_takes.
    pose proof (wf_nodup _ (idle_wf _ Hi1)) as Hnd. rewrite Hch1 in Hi, Hnd. apply NoDup_app in Hnd as (_ & Hnd & _).
    apply lookup_app_Some in Hi as [Hi|[Hi _]]; [|cbn in Hlen; lia]. destruct (Hnd c); [by eapply list_elem_of_lookup_2|by left]. }
  destruct (cycles_rotate others s1 rest [c] Hi1 Hch1 ltac:(cbn in Hlen; lia)) as [Hi2 Hch2]. apply waiting_run in Hw as [_ Hu].
  unfold run in *. rewrite fold_left_app. set (s2 := fold_left act (cycles others) s1) in *. cbn [fold_left act]. rewrite (idle_held _ Hi2), lookup_empty.
  unfold Get, get. cbn in Hch2. rewrite Hch2. cbn [with_ch beforeGet]. rewrite (wf_before _ (idle_wf _ Hi2)). destruct (reset c (mem s2)) as [m0 c0] eqn:Hreset.
  assert (c0 = c) as -> by (unfold reset in Hreset; by injection Hreset). cbn [held frames pool mem]. rewrite lookup_insert_eq.
  unfold compress_with, Compress. cbn [Payload read]. rewrite Hz. cbn [fold_left mem fst]. rewrite Hp.
  rewrite Hp, <- (untouched_read c b _ _ Hb Hu) in Hr. rewrite <- (same_buffer _ _ _ Hu) in Hb. pose proof (wf_own _ (idle_wf _ Hi2)) as Hown.
  rewrite <- Hr in Hle |- *. rewrite (view_length _ _ _ Hown Hb) in Hle. rewrite <- (overwritten _ c) by done. by rewrite Hreset.
Qed.
End CompressionLaws.

(** ** Witnesses *)

Module FramesWitness.
(** Payloads are stored as they are. *)
#[local] Instance stored : Flate := {|
  deflate p := ([p], None); SetBit h := Ok (MkHeader (Fin h) 4 (OpCode h) (Length h)); size_class n := n |}.
Definition ascii_of (n : nat) : bytes := replicate n "b"%char.
Definition h : header := MkHeader true 0 1 0.
Definition long : bytes := replicate 5 "a"%char.
Definition other (g : nat) : nat * frame := (g, MkFrame h (Own (ascii_of 3))).
Definition fr : frame := MkFrame (MkHeader true 4 1 5) (View (Some 0%nat) 5).

Definition others : list (nat * frame) := map other (seq 1 199).

Lemma payload_kept_witness :
  read (mem (run (run (run start []) [Take 0; Deflate 0 (MkFrame h (Own long))]) (Release 0 :: cycles others))) (Payload fr) = concat (deflate long).1.
Proof.
  pose proof (payload_kept [] 0 h long fr (cycles others)) as H. cbv zeta in H. apply H; [vm_compute; reflexivity|vm_compute; reflexivity|apply Nat.leb_le; vm_compute; reflexivity].
Defined.

Lemma begun_idle : idle (run start []).
Proof. constructor; [apply start_wf|reflexivity|vm_compute; reflexivity]. Qed.

(** The 200th message after it is written over the first. *)
Lemma payload_lost_witness :
  read (mem (run (run (run start []) (compressFrame 0 (MkFrame h (Own long)))) (cycles others ++ [Take 200; Deflate 200 (MkFrame h (Own (ascii_of 3)))]))) (Payload fr) =
  ascii_of 3 ++ drop (length (ascii_of 3)) (concat (deflate long).1).
Proof.
  pose proof (payload_lost [] 0 h long fr others 200 h (ascii_of 3) (ascii_of 3)) as H. cbv zeta in H.
  apply H; [exact begun_idle|vm_compute; reflexivity|vm_compute; reflexivity|reflexivity|apply Nat.leb_le; vm_compute; reflexivity].
Defined.
Example mixed : ascii_of 3 ++ drop (length (ascii_of 3)) (concat (deflate long).1) = ["b"; "b"; "b"; "a"; "a"]%char. Proof. reflexivity. Qed.
End FramesWitness.
