(* ===== verification/Transport.v ===== *)
(** * Package server/ws/internal/adapters: WebSocket and WebTransport connections

    src/server/ws/internal/adapters: the writers and readers of connections.  A
    connection is a parameter: how it answers the frames that are written to it, and
    what is read from it.  A [select] takes one of the cases that are ready, and
    messages of different goroutines are interleaved at the channel.  Deadlines,
    addresses and logging are left out; metadata is modelled with the handler that uses
    it. *)

From S2P Require Import Prelude GoStd Frames.
Import Strings.
Abbreviation bytes := (list ascii).

(** ** Errors of connections *)

(** An error: the sentinels it wraps, and its text. *)
Inductive sentinel : Set := EPIPE | ECONNRESET | Http2errClientDisconnected | Http2errStreamClosed | Canceled | DeadlineExceeded.
#[export] Instance sentinel_eq_dec : EqDecision sentinel. Proof. solve_decision. Defined.
Record connError : Type := MkConnError { Is : list sentinel; Text : string }.

(* src: server/ws/internal/adapters/websocket.go 282-291 *)
Definition isConnClosedErr (e : option connError) : bool :=
  match e with
  | None => false
  | Some e =>
      bool_decide (EPIPE ∈ Is e) || bool_decide (ECONNRESET ∈ Is e) || bool_decide (Http2errClientDisconnected ∈ Is e) ||
      bool_decide (Http2errStreamClosed ∈ Is e) || Contains (Text e) "convert stream error 386759528" ||
      Contains (Text e) "canceled by remote with error code 256" || Contains (Text e) "use of closed network connection"
  end.

(** ** The context of a connection *)

(** A channel that is only ever closed, by its number; [None] is the nil channel. *)
(* src: server/ws/internal/adapters/contract.go 109-113 *)
Record customCancelContext : Type := MkContext { ctx_ch : option nat; ctx_shutdownCh : option nat }.
(* src: server/ws/internal/adapters/context.go 9-11 *)
Definition NewCustomCancelContext (ch shutdownCh : option nat) : customCancelContext := MkContext ch None.
(* src: server/ws/internal/adapters/context.go 13-15 *)
Definition Done (c : customCancelContext) : option nat := ctx_ch c.
Definition is_closed (closed : gset nat) (ch : option nat) : bool := match ch with Some n => bool_decide (n ∈ closed) | None => false end.
(* src: server/ws/internal/adapters/context.go 17-26 *)
Definition ctx_Err (closed : gset nat) (c : customCancelContext) : option sentinel :=
  if is_closed closed (ctx_ch c) || is_closed closed (ctx_shutdownCh c) then Some Canceled else None.

(** ** WebSocket: writing *)

Definition OpText : Z := 1.
Definition OpBinary : Z := 2.
Definition OpPing : Z := 9.
(* src: server/ws/internal/adapters/websocket.go 28 *)
Definition WebSocketWriteBufferSize : nat := 50.
(* src: server/ws/internal/adapters/websocket.go 30 *)
Definition WebSocketCompressThresholdBytes : Z := 256.

(** [ws.NewFrame] of gobwas: a header without extension bits. *)
Definition NewFrame (opCode : Z) (data : bytes) : frame := MkFrame (MkHeader true 0 opCode (Z.of_nat (length data))) (Own data).

Section Framer.
Context {F : Flate}.
(** The frames of the goroutine [g] that writes to the connection. *)
(* src: server/ws/internal/adapters/websocket.go 52-60 [initCompression] *)
Definition framer_compressed (g : nat) (opCode : Z) (data : bytes) (s : state) : state * outcome frame :=
  let f := NewFrame opCode data in
  if (opCode =? OpText) || (opCode =? OpBinary) && (WebSocketCompressThresholdBytes <? Z.of_nat (length data)) then
    let s := run s (compressFrame g f) in
    (s, match frames s !! g with Some f => Ok f | None => Err opaque_error end)
  else (s, Ok f).
(* src: server/ws/internal/adapters/websocket.go 42-44 [NewWebSocketAdapter] *)
Definition framer_plain (opCode : Z) (data : bytes) (s : state) : state * outcome frame := (s, Ok (NewFrame opCode data)).
(* src: server/ws/internal/adapters/websocket.go 62-74 *)
Definition initExtensions (Extensions : list string) (g : nat) : Z -> bytes -> state -> state * outcome frame :=
  if bool_decide ("permessage-deflate" ∈ Extensions) then framer_compressed g else framer_plain.
End Framer.

(* src: server/ws/internal/adapters/contract.go 114-117 *)
Record wsWrite : Type := MkWrite { opCode : Z; data : bytes }.

(** The adapter: [closeChannel] is closed with [closed]; [writes]: the frames that were
    given to the connection, with the bytes their payload held then. *)
(* src: server/ws/internal/adapters/contract.go 77-88 *)
Record WebsocketAdapter : Type := MkWebsocket {
  out : list wsWrite; closed : bool; wrErr : option connError; compressors_ : state; writes : list (wsWrite * (header * bytes)); conn_closed : bool
}.

(** How a call ends: it returns, or it waits for room in the channel. *)
Inductive called (A : Type) : Type := Returns (r : A) | Waits.
Arguments Returns {A}. Arguments Waits {A}.

Section WebSocket.
Context (framer : Z -> bytes -> state -> state * outcome frame).
(** How the connection answers the next frame, the close frame and its closing. *)
Context (answer : list (wsWrite * (header * bytes)) -> option connError) (close_frame conn_Close : option connError).

Definition unless_closed (e : option connError) : option connError := if isConnClosedErr e then None else e.

(* src: server/ws/internal/adapters/websocket.go 84-119 *)
Definition writeMessageToWebsocket (m : wsWrite) (w : WebsocketAdapter) : WebsocketAdapter * outcome unit :=
  if closed w then (w, Ok ())
  else
    let '(s, f) := framer (opCode m) (data m) (compressors_ w) in
    match f with
    | Ok f =>
        let sent := writes w ++ [(m, (Header f, read (mem s) (Payload f)))] in
        let e := answer (writes w) in
        (MkWebsocket (out w) false e s sent (conn_closed w), match unless_closed e with None => Ok () | Some _ => Err opaque_error end)
    | r => (MkWebsocket (out w) false (wrErr w) s (writes w) (conn_closed w), let! f := r in Ok ())
    end.

(* src: server/ws/internal/adapters/websocket.go 256-280 *)
Definition Close (w : WebsocketAdapter) : WebsocketAdapter * outcome unit :=
  if closed w then (w, Ok ())
  else
    let wErr := if isConnClosedErr (wrErr w) then None else unless_closed close_frame in
    (MkWebsocket (out w) true (wrErr w) (compressors_ w) (writes w) true,
     match wErr, unless_closed conn_Close with None, None => Ok () | _, _ => Err opaque_error end).

Definition queue (w : WebsocketAdapter) (m : wsWrite) : WebsocketAdapter :=
  MkWebsocket (out w ++ [m]) (closed w) (wrErr w) (compressors_ w) (writes w) (conn_closed w).
Definition room (w : WebsocketAdapter) : bool := (length (out w) <? WebSocketWriteBufferSize)%nat.

(** [done]: the context has ended; [choose]: which of two ready cases a [select] takes.
    A call that waits selects again when the channel has room or the context ends. *)
(* src: server/ws/internal/adapters/websocket.go 136-144 [WriteMessage] *)
Definition select_out (done choose : bool) (m : wsWrite) (w : WebsocketAdapter) : WebsocketAdapter * called (outcome unit) :=
  if room w && (choose || negb done) then (queue w m, Returns (Ok ()))
  else if done then (w, Returns (Err opaque_error))
  else (w, Waits).

(* src: server/ws/internal/adapters/websocket.go 121-148 *)
Definition WriteMessage (done choose : bool) (m : wsWrite) (w : WebsocketAdapter) : WebsocketAdapter * called (outcome unit) :=
  if closed w && (choose || negb done) then (w, Returns (Ok ()))
  else if done then (w, Returns (Err opaque_error))
  else if isConnClosedErr (wrErr w) then let '(w, r) := Close w in (w, Returns r)
  else select_out done choose m w.

(** The loop of the writer stops, or goes on. *)
Inductive round : Type := Stops | GoesOn.
(** The cases of its select. *)
Inductive event : Type := Tick | Message.

(** One round of the loop; with nothing in the channel it waits for the next tick. *)
(* src: server/ws/internal/adapters/websocket.go 157-184 [Write] *)
Definition Write_round (e : event) (w : WebsocketAdapter) : WebsocketAdapter * round :=
  if closed w then (w, Stops)
  else
    match e, out w with
    | Tick, _ => (if room w then queue w (MkWrite OpPing []) else w, GoesOn)
    | Message, [] => (w, GoesOn)
    | Message, m :: rest =>
        let w := MkWebsocket rest (closed w) (wrErr w) (compressors_ w) (writes w) (conn_closed w) in
        if isConnClosedErr (wrErr w) then (w, Stops)
        else let '(w, r) := writeMessageToWebsocket m w in (w, GoesOn)
    end.
End WebSocket.

(** ** WebSocket: reading *)

(** A frame that was read: whether its payload is compressed is told by its header. *)
Record incoming : Type := MkIncoming { InOp : Z; Compressed : bool; Body : bytes }.
(** [OpText | OpBinary] *)
Definition want : Z := Z.lor OpText OpBinary.
Definition IsControl (op : Z) : bool := 8 <=? op.

Section Reading.
(** The handler of control frames, and what a compressed payload unpacks to. *)
Context (controlHandler : incoming -> option error) (inflate : bytes -> bytes * option error).
(** How the connection answers a pong. *)
Context (pong : option connError).

(** The frames that are left, and the payload and kind of the first message. *)
(* src: server/ws/internal/adapters/websocket.go 187-230 *)
Fixpoint readFrame (closed : bool) (frames : list incoming) : list incoming * outcome (bytes * Z) :=
  if closed then (frames, Err opaque_error)
  else
    match frames with
    | [] => ([], Err opaque_error)
    | f :: frames =>
        if IsControl (InOp f) then
          match controlHandler f with Some e => (frames, Err e) | None => readFrame closed frames end
        else if Z.land (InOp f) want =? 0 then readFrame closed frames
        else let '(b, e) := if Compressed f then inflate (Body f) else (Body f, None) in
             (frames, match e with Some e => Err e | None => Ok (b, InOp f) end)
    end.

(** A ping that came here would be answered, and the next message read. *)
(* src: server/ws/internal/adapters/websocket.go 232-250 *)
Fixpoint ReadMessage (fuel : nat) (closed : bool) (frames : list incoming) : list incoming * outcome (bytes * Z) :=
  match readFrame closed frames with
  | (rest, Ok (b, typ)) =>
      if typ =? OpPing then
        match pong, fuel with
        | Some _, _ => (rest, Err opaque_error)
        | None, S fuel => ReadMessage fuel closed rest
        | None, O => (rest, OutOfFuel)
        end
      else (rest, Ok (b, typ))
  | r => r
  end.

End Reading.

(** ** WebTransport *)

Definition nul : ascii := "000"%char.

(** The adapter: what was written to the stream, and whether its channels are closed. *)
(* src: server/ws/internal/adapters/contract.go 63-75 *)
Record WebtransportAdapter : Type := MkWebtransport { stream : bytes; wt_closed : bool; wt_out_closed : bool; wt_wrErr : option connError }.

Section WebTransport.
(** How many bytes of the next write the stream takes, and its error; how the session and the stream are closed. *)
Context (stream_answer : bytes -> bytes -> nat * option connError) (CloseWithError : option (option connError)) (stream_Close : option connError).

(* src: server/ws/internal/adapters/webtransport.go 63-85 *)
Definition WriteMessageToStream (done : option error) (choose : bool) (data : bytes) (w : WebtransportAdapter) : WebtransportAdapter * outcome unit :=
  let data := data ++ [nul] in
  if wt_closed w && (choose || bool_decide (done = None)) then (w, Ok ())
  else
    match done with
    | Some e => (w, Err e)
    | None =>
        let '(n, e) := stream_answer (stream w) data in
        let written := stream w ++ list.take n data in
        match e with
        | Some _ => (MkWebtransport written (wt_closed w) (wt_out_closed w) e, if isConnClosedErr e then Ok () else Err opaque_error)
        | None => (MkWebtransport written (wt_closed w) (wt_out_closed w) (wt_wrErr w), Ok ())
        end
    end.

(** The loop over the messages that were received, up to the end of the context: [done]
    is what it is before a message. *)
(* src: server/ws/internal/adapters/webtransport.go 87-96 [Write] *)
Fixpoint wt_Write (choose : bool) (msgs : list (option error * bytes)) (w : WebtransportAdapter) : WebtransportAdapter :=
  match msgs with
  | [] => w
  | (done, m) :: msgs =>
      if negb (bool_decide (done = None)) || isConnClosedErr (wt_wrErr w) then w
      else wt_Write choose msgs (WriteMessageToStream done choose m w).1
  end.

(** A session that is nil or does not close leaves the stream to be closed. *)
(* src: server/ws/internal/adapters/webtransport.go 102-128 [Close] *)
Definition wt_Close (w : WebtransportAdapter) : WebtransportAdapter * outcome unit :=
  if wt_closed w then (w, Ok ())
  else
    (MkWebtransport (stream w) true true (wt_wrErr w),
     match CloseWithError with
     | Some None => Ok ()
     | _ => match stream_Close with
            | None => Ok ()
            | Some e => if Contains (Text e) "close called for canceled stream" then Ok () else Err opaque_error
            end
     end).

(** The check of a message before its [select], and the [select]: [None] when it was
    decided before; a message is passed on when the writer receives. *)
(* src: server/ws/internal/adapters/webtransport.go 40-50 [WriteMessage] *)
Definition check_open (w : WebtransportAdapter) : WebtransportAdapter * option (outcome unit) :=
  if wt_closed w then (w, Some (Ok ()))
  else if isConnClosedErr (wt_wrErr w) then let '(w, r) := wt_Close w in (w, Some r)
  else (w, None).

(** The cases: the channel, [closeChannel], the context.  Sending on a closed channel
    panics, and a closed channel is ready. *)
Inductive wt_case : Type := CaseOut | CaseClosed | CaseDone.
(* src: server/ws/internal/adapters/webtransport.go 52-60 [WriteMessage] *)
Definition wt_select (c : wt_case) (receiving done : bool) (w : WebtransportAdapter) : option (outcome bool) :=
  match c with
  | CaseOut => if wt_out_closed w then Some Panic else if receiving then Some (Ok true) else None
  | CaseClosed => if wt_closed w then Some (Ok false) else None
  | CaseDone => if done then Some (Err opaque_error) else None
  end.

(** Without another goroutine in between. *)
(* src: server/ws/internal/adapters/webtransport.go 39-61 [WriteMessage] *)
Definition wt_WriteMessage (c : wt_case) (receiving done : bool) (w : WebtransportAdapter) : WebtransportAdapter * option (outcome bool) :=
  match check_open w with
  | (w, Some r) => (w, Some (let! u := r in Ok false))
  | (w, None) => (w, wt_select c receiving done w)
  end.
End WebTransport.

(** [bufio.Reader.ReadBytes]: up to the delimiter, which is included; an error when the
    stream ends before it. *)
Fixpoint ReadBytes (delim : ascii) (s : bytes) : bytes * (bytes * bool) :=
  match s with
  | [] => ([], ([], false))
  | c :: s => if Ascii.eqb c delim then (s, ([c], true)) else let '(rest, (b, ok)) := ReadBytes delim s in (rest, (c :: b, ok))
  end.

(* src: server/ws/internal/adapters/webtransport.go 130-143 [ReadMessage] *)
Definition wt_ReadMessage (s : bytes) : bytes * outcome (Z * bytes) :=
  let '(rest, (readValue, ok)) := ReadBytes nul s in
  if negb ok then (rest, Err opaque_error)
  else
    let n := length readValue in
    (rest, Ok (1, if (0 <? n)%nat && bool_decide (readValue !! (n - 1)%nat = Some nul) then list.take (n - 1) readValue else readValue)).

(** ** Theorems: WebSocket *)

Section WebSocketLaws.
Context (framer : Z -> bytes -> state -> state * outcome frame).
Context (answer : list (wsWrite * (header * bytes)) -> option connError) (close_frame conn_Close : option connError).

(** What goroutines do with an adapter: senders, the writer, whoever closes it. *)
Inductive ws_action : Type := Send (done choose : bool) (m : wsWrite) | Resume (done choose : bool) (m : wsWrite) | Round (e : event) | CloseIt.

(** Whether the writer still runs, and the messages and pings that were queued. *)
Definition ws_state : Type := WebsocketAdapter * bool * list wsWrite.
Definition queued_by (w w' : WebsocketAdapter) (m : wsWrite) : list wsWrite := if (length (out w) <? length (out w'))%nat then [m] else [].
Definition ws_act (s : ws_state) (a : ws_action) : ws_state :=
  let '(w, running, accepted) := s in
  match a with
  | Send done choose m => let w' := (WriteMessage close_frame conn_Close done choose m w).1 in (w', running, accepted ++ queued_by w w' m)
  | Resume done choose m => let w' := (select_out done choose m w).1 in (w', running, accepted ++ queued_by w w' m)
  | Round e =>
      if running then
        let '(w', r) := Write_round framer answer e w in
        (w', match r with GoesOn => true | Stops => false end, accepted ++ match e with Tick => queued_by w w' (MkWrite OpPing []) | Message => [] end)
      else s
  | CloseIt => ((Close close_frame conn_Close w).1, running, accepted)
  end.

(** What was given to the connection, and what waits, is what was queued, in order. *)
Record in_order (s : ws_state) : Prop := MkInOrder {
  order_prefix : map fst (writes s.1.1) `prefix_of` s.2;
  order_all : s.1.2 = true -> s.2 = map fst (writes s.1.1) ++ out s.1.1;
  order_room : (length (out s.1.1) <= WebSocketWriteBufferSize)%nat
}.

Hypothesis framer_frames : forall op d s, exists s' f, framer op d s = (s', Ok f).

Lemma queue_order w b acc m : room w = true -> in_order (w, b, acc) -> in_order (queue w m, b, acc ++ queued_by w (queue w m) m).
Proof.
  intros Hroom%Nat.ltb_lt [Hp Ha Hr]. unfold queued_by. assert (Hlen : length (out (queue w m)) = S (length (out w))) by (cbn; rewrite length_app; cbn; lia).
  rewrite Hlen, (proj2 (Nat.ltb_lt _ _)) by lia. constructor; cbn in *; [by apply prefix_app_r| |rewrite length_app; cbn; lia].
  intros Hb. by rewrite (Ha Hb), <- List.app_assoc.
Qed.

(** Steps that queue nothing and keep the channel and the frames. *)
Lemma same_order w w' b acc m : out w' = out w -> writes w' = writes w -> in_order (w, b, acc) -> in_order (w', b, acc ++ queued_by w w' m).
Proof.
  intros Ho Hw [Hp Ha Hr]. unfold queued_by. rewrite Ho, Nat.ltb_irrefl, List.app_nil_r. constructor; cbn in *; by rewrite ?Ho, ?Hw.
Qed.

Lemma Close_keeps w : out (Close close_frame conn_Close w).1 = out w /\ writes (Close close_frame conn_Close w).1 = writes w.
Proof. unfold Close. by destruct (closed w). Qed.

Lemma select_out_order done choose m w b acc : in_order (w, b, acc) ->
  in_order ((select_out done choose m w).1, b, acc ++ queued_by w (select_out done choose m w).1 m).
Proof.
  intros H. unfold select_out. destruct (room w) eqn:Hroom; cbn.
  - destruct (choose || negb done); [by apply queue_order|]. by destruct done; apply same_order.
  - by destruct done; apply same_order.
Qed.

Lemma WriteMessage_order done choose m w b acc : in_order (w, b, acc) ->
  let w' := (WriteMessage close_frame conn_Close done choose m w).1 in in_order (w', b, acc ++ queued_by w w' m).
Proof.
  intros H. cbv zeta. unfold WriteMessage. destruct (closed w && _); [by apply same_order|]. destruct done; [by apply same_order|].
  destruct (isConnClosedErr (wrErr w)); [|by apply select_out_order]. destruct (Close_keeps w) as [Ho Hw].
  destruct (Close close_frame conn_Close w) as [w' r]. by apply same_order.
Qed.

Lemma Write_round_order e w acc : in_order (w, true, acc) ->
  let '(w', r) := Write_round framer answer e w in
  in_order (w', match r with GoesOn => true | Stops => false end, acc ++ match e with Tick => queued_by w w' (MkWrite OpPing []) | Message => [] end).
Proof.
  intros H. unfold Write_round. destruct (closed w) eqn:Hc.
  - assert (Hs : in_order (w, false, acc)) by (destruct H; by constructor). destruct e; [by apply same_order|by rewrite List.app_nil_r].
  - destruct e; [destruct (room w) eqn:Hr; [by apply queue_order|by apply same_order]|]. rewrite List.app_nil_r. destruct (out w) as [|m rest] eqn:Ho; [done|].
    destruct H as [Hp Ha Hr]. cbn in *. rewrite Ho in *. specialize (Ha eq_refl).
    destruct (isConnClosedErr (wrErr w)); [constructor; cbn in *; done || lia|].
    unfold writeMessageToWebsocket. cbn. destruct (framer_frames (opCode m) (data m) (compressors_ w)) as (s' & f & ->). cbn in *.
    constructor; cbn; [|intros _|lia]; rewrite map_app; cbn; [rewrite Ha; exists rest; by rewrite <- List.app_assoc|by rewrite Ha, <- List.app_assoc].
Qed.

Lemma fold_left_keeps {A B} (P : A -> Prop) (f : A -> B -> A) l a : P a -> (forall a b, P a -> P (f a b)) -> P (fold_left f l a).
Proof. intros Ha Hf. revert a Ha. induction l as [|b l IH]; intros a Ha; [done|]. by apply IH, Hf. Qed.

Definition ws_start (s : state) : ws_state := (MkWebsocket [] false None s [] false, true, []).

End WebSocketLaws.

(** ** Theorems: reading *)

(** Control frames are handled where they are read. *)
Lemma readFrame_data controlHandler inflate closed frames rest b typ :
  readFrame controlHandler inflate closed frames = (rest, Ok (b, typ)) -> IsControl typ = false.
Proof.
  revert rest. induction frames as [|f frames IH]; intros rest; cbn; destruct closed; try done. destruct (IsControl (InOp f)) eqn:Hc.
  - destruct (controlHandler f); [done|]. apply IH.
  - destruct (_ =? 0); [apply IH|]. destruct (Compressed f); [destruct (inflate (Body f)) as [b' [e|]]|]; by intros [= _ _ <-].
Qed.

Lemma ReadMessage_readFrame controlHandler inflate pong fuel closed frames :
  ReadMessage controlHandler inflate pong fuel closed frames = readFrame controlHandler inflate closed frames.
Proof.
  pose proof (readFrame_data controlHandler inflate closed frames) as Hd. destruct fuel; cbn [ReadMessage]; destruct (readFrame _ _ closed frames) as [rest [[b typ]|e| |]]; try done;
    specialize (Hd _ _ _ eq_refl); unfold IsControl, OpPing in *; apply Z.leb_gt in Hd; by rewrite (proj2 (Z.eqb_neq typ 9)) by lia.
Qed.

(** ** Theorems: WebTransport *)

(** The next messages of a stream. *)
Fixpoint wt_reads (n : nat) (s : bytes) : bytes * list (outcome (Z * bytes)) :=
  match n with
  | O => (s, [])
  | S n => let '(s, r) := wt_ReadMessage s in let '(s, rs) := wt_reads n s in (s, r :: rs)
  end.

Lemma ReadBytes_line m s : nul ∉ m -> ReadBytes nul (m ++ nul :: s) = (s, (m ++ [nul], true)).
Proof.
  induction m as [|c m IH]; intros Hm; [done|]. apply not_elem_of_cons in Hm as [Hc Hm]. cbn [app ReadBytes].
  destruct (Ascii.eqb_spec c nul) as [->|_]; [done|]. by rewrite IH.
Qed.

Lemma wt_ReadMessage_line m s : nul ∉ m -> wt_ReadMessage (m ++ nul :: s) = (s, Ok (1, m)).
Proof.
  intros Hm. unfold wt_ReadMessage. rewrite ReadBytes_line by done. cbn [negb]. rewrite length_app. cbn [length].
  replace (length m + 1 - 1)%nat with (length m) by lia. rewrite bool_decide_eq_true_2 by apply list_lookup_middle, eq_refl.
  destruct (Nat.ltb_spec 0 (length m + 1)) as [_|?]; [|lia]. cbn [andb]. by rewrite take_app_length.
Qed.

Section WebTransportLaws.
Context (stream_answer : bytes -> bytes -> nat * option connError).

Lemma wt_Write_lines choose msgs w : (forall s d, stream_answer s d = (length d, None)) -> wt_closed w = false -> isConnClosedErr (wt_wrErr w) = false ->
  stream (wt_Write stream_answer choose (map (pair None) msgs) w) = stream w ++ concat (map (fun m => m ++ [nul]) msgs).
Proof.
  intros Hans. revert w. induction msgs as [|m msgs IH]; intros w Hc He; cbn [map wt_Write concat]; [by rewrite List.app_nil_r|].
  rewrite bool_decide_eq_true_2 by done. cbn [negb orb]. rewrite He. unfold WriteMessageToStream. rewrite Hc, Hans. cbn [andb fst]. rewrite IH by done. cbn [stream].
  by rewrite firstn_all, <- List.app_assoc.
Qed.

(** C35: messages without a NUL byte that are written to a WebTransport stream, which
    takes every byte, are read from it as they were, one by one and in order. *)
Theorem webtransport_roundtrip choose msgs w : (forall s d, stream_answer s d = (length d, None)) ->
  stream w = [] -> wt_closed w = false -> isConnClosedErr (wt_wrErr w) = false -> Forall (fun m => nul ∉ m) msgs ->
  wt_reads (length msgs) (stream (wt_Write stream_answer choose (map (pair None) msgs) w)) = ([], map (fun m => Ok (1, m)) msgs).
Proof.
  intros Hans Hs Hc He Hall. rewrite wt_Write_lines, Hs by done. cbn [app]. clear He Hc Hs. induction Hall as [|m msgs Hm _ IH]; [done|].
  cbn [length wt_reads map concat]. rewrite <- List.app_assoc. cbn [app]. by rewrite wt_ReadMessage_line, IH.
Qed.
End WebTransportLaws.

(** ** Witnesses *)

Module TransportWitness.
Definition start_state : state := MkState (MkMemory ∅ ∅) (Pool.MkPool [] 0 (fun m => (m, 0%nat)) (fun c m => (m, c))) ∅ ∅.
Definition text (s : string) : wsWrite := MkWrite OpText (String.list_ascii_of_string s).
Definition broken : connError := MkConnError [EPIPE] "broken pipe".
(** The third frame finds the connection closed. *)
Definition answer (l : list (wsWrite * (header * bytes))) : option connError := if (length l =? 2)%nat then Some broken else None.
Definition acts : list ws_action :=
  [Send false true (text "a"); Send false true (text "b"); Round Message; Round Tick; Round Message; Send false true (text "c"); Round Message; Round Message].
Lemma framer_plain_frames op d s : exists s' f, framer_plain op d s = (s', Ok f). Proof. by eexists _, _. Qed.

(** The third frame is the ping; the message after it is dropped, and the next sender
    closes the connection. *)
Example lost_after_error : let '(w, running, accepted) := fold_left (ws_act framer_plain answer None None) (acts ++ [Send false true (text "d")]) (ws_start start_state) in
  (map (fun x => opCode x.1) (writes w), running, length accepted, closed w) = ([OpText; OpText; OpPing], false, 4%nat, true).
Proof. vm_compute. reflexivity. Qed.

Definition takes_all (s d : bytes) : nat * option connError := (length d, None).
Definition open_stream : WebtransportAdapter := MkWebtransport [] false false None.
Definition hello : list bytes := map String.list_ascii_of_string ["[EOSE]"; EmptyString; "[]"].
Lemma webtransport_roundtrip_witness : wt_reads 3 (stream (wt_Write takes_all true (map (pair None) hello) open_stream)) = ([], map (fun m => Ok (1, m)) hello).
Proof.
  apply (webtransport_roundtrip takes_all true hello open_stream); [reflexivity|reflexivity|reflexivity|reflexivity|].
  repeat constructor; apply (bool_decide_unpack _); vm_compute; exact I.
Defined.

(** A write that is cut short leaves the stream open: the next message is glued to it. *)
Definition cut (s d : bytes) : nat * option connError := if bool_decide (s = []) then (3%nat, Some (MkConnError [DeadlineExceeded] "timeout")) else (length d, None).
Example glued : (wt_reads 1 (stream (wt_Write cut true (map (fun s => (None, String.list_ascii_of_string s)) ["[1,2]"; "[3]"]) open_stream))).2 =
  [Ok (1, String.list_ascii_of_string "[1,[3]")].
Proof. vm_compute. reflexivity. Qed.

(** The connection is closed between the check of a message and its select. *)
Example send_after_close : let '(w, r) := check_open (Some None) None open_stream in
  (r, wt_select CaseOut false false (wt_Close (Some None) None w).1) = (None, Some Panic).
Proof. reflexivity. Qed.

(** A shutdown does not end the context of a connection. *)
Example shutdown_unseen : ctx_Err {[7%nat]} (NewCustomCancelContext (Some 3%nat) (Some 7%nat)) = None. Proof. vm_compute. reflexivity. Qed.

(** A text of two bytes is compressed, a binary message of two is not. *)
#[local] Instance stored : Flate := {|
  deflate p := ([p], None); SetBit h := Ok (MkHeader (Fin h) 4 (Frames.OpCode h) (Frames.Length h)); size_class n := n |}.
Definition rsv (op : Z) : option Z := match (framer_compressed 0 op ["h"; "i"]%char start).2 with Ok f => Some (Rsv (Header f)) | _ => None end.
Example short_text_compressed : (rsv OpText, rsv OpBinary) = (Some 4, Some 0). Proof. vm_compute. reflexivity. Qed.
End TransportWitness.
