(* ===== verification/Downloads.v ===== *)
(** * Package storage: the queue of downloads

    src/storage/download.go: the goroutine that starts the downloads that were queued,
    what it does when a torrent is resolved or complete, the nodes of a file event it
    connects to, and the requests that make other relays download.  Files models the
    rest of the package; the library of torrents and the HTTP client are parameters.  A
    torrent's pointer is the torrent as it is when it is used.  A panic of the goroutine
    ends the program's context (src/appcontext).  Logging is left out. *)

From S2P Require Import Prelude GoStd Nostr Model OnBehalf Filters Content Validator StateFSM QueryFilter QueryBuilder QuerySafety Connector Rows Status Selection TagRules Validate Auth HttpAuth Files.
Import Strings.

(** ** Data *)

(** What [json.Unmarshal] reads for the identifier of an overlay node: an object, with
    the string under [Key] if there is one, or something else. *)
Inductive json_id : Type := Object (key : option string) | NoObject.
(** A bootstrap node: its pointers may be nil. *)
(* src: storage/storage.go 58-61 *)
Record BootstrapNode : Type := MkBootstrap { Overlay : option json_id; AddrList : option (option (list string)) }.

(** The events of a torrent. *)
Inductive torrentEvent : Set := EventDone | EventBagResolved | EventFileDownloaded | EventErr.

Class DownloadWorld (W : Type) `{StorageWorld W} := {
  (** whether it downloads, whether it uploads *)
  IsActive : Torrent -> W -> bool * bool;
  StartWithCallback : Torrent -> bool -> bool -> ST W unit;
  SetActiveFiles : Torrent -> W -> W;
  bootstraps_Unmarshal : string -> option (list BootstrapNode);
  ConnectToNode : Torrent -> string -> option (list string) -> ST W unit;
  url_JoinPath : string -> string -> outcome string;
  (** the query of an address with a value added, encoded *)
  query_with : FullURL -> string -> string -> string;
  (** a HEAD request to an address with headers: a status, or an error *)
  Head : string -> list (string * string) -> W -> W * (Z + error)
}.

Section Downloads.
Context {N : Nostr} {G : GoText} {J : GoJSON} {T : EventText} {C : Crypto} {H : HttpText} {X : StorageText} {W : Type} {SW : StorageWorld W} {DW : DownloadWorld W}.
Context (config : Config).
(** [runtime.NumCPU() * 10] *)
Context (ConcurrentBagsDownloading : nat).
Abbreviation M := (ST (client W)).
Abbreviation read m := (recorded RecordReadOperation m).

(** ** Bootstrap nodes *)

(* src: storage/download.go 263-274 [connectToBootstrap] *)
Fixpoint connect_all (t : Torrent) (bootstraps : list BootstrapNode) : M unit :=
  match bootstraps with
  | [] => mret ()
  | bs :: bootstraps =>
      match Overlay bs with
      | Some (Object (Some pk)) =>
          match Base64.DecodeString pk with
          | None => fail opaque_error
          | Some pubKey =>
              match AddrList bs with
              | None => lift_st Panic
              | Some addresses =>
                  r ← attempt_st (outside (ConnectToNode t pubKey addresses));
                  match r with
                  | inl _ => connect_all t bootstraps
                  | inr _ => match addresses with Some (_ :: _) => fail opaque_error | _ => lift_st Panic end
                  end
              end
          end
      | _ => lift_st Panic
      end
  end.

(* src: storage/download.go 254-276 *)
Definition connectToBootstrap (t : Torrent) (bootstrap : string) : M unit :=
  match Base64.DecodeString bootstrap with
  | None => fail opaque_error
  | Some b64 => match bootstraps_Unmarshal b64 with None => fail opaque_error | Some bootstraps => connect_all t bootstraps end
  end.

(** ** Events of a torrent *)

Definition header_count (t : Torrent) : outcome Z := match THeader t with Some h => Ok (FilesCount h) | None => Panic end.

(** The user is the one of the header, once there is one. *)
(* src: storage/download.go 232-240 [torrentStateCallback] *)
Definition resolved_user (t : Torrent) (user : option string) : M (option string) :=
  match user with
  | None => mret None
  | Some u => m ← attempt_st (fileMeta (Some t)); mret (Some (match m with inl m => Master m | inr _ => u end))
  end.

(** The new user is kept in the pointer that is shared with the callback. *)
(* src: storage/download.go 188-252 *)
Definition torrentStateCallback (t : Torrent) (user : option string) (event : torrentEvent) : M (option string) :=
  match event with
  | EventDone =>
      step (fun s => with_world s (Stop t (SetActiveFiles t (world s)))) ;;
      ver ← lift_st (header_count t);
      started ← attempt_st (read (outside (Start t true false)));
      step (fun s => with_downloads s (downloadQueue s) (activeDownloads s ∖ {[Hex.EncodeToString (BagID t)]})) ;;
      saved ← attempt_st (saveTorrent t user None false (Some ver)); mret user
  | EventBagResolved =>
      active ← observe (IsActive t);
      if (active.2 : bool) then mret user
      else
        ver ← lift_st (header_count t);
        started ← attempt_st (read (outside (StartWithCallback t true true)));
        user ← resolved_user t user;
        saved ← attempt_st (read (saveTorrent t user None false (Some ver))); mret user
  | _ => mret user
  end.

(** ** The queue *)

(** One item of the queue: whether it counts. *)
(* src: storage/download.go 355-392 [startDownloadsFromQueue] *)
Definition start_download (q : queueItem) : M bool :=
  t ← observe (GetTorrent (BagID (tor q)));
  match t with
  | None => mret false
  | Some t =>
      active ← observe (IsActive t);
      completed ← observe (IsCompleted t);
      if active.1 || completed then mret false
      else
        started ← attempt_st (outside (StartWithCallback t false true));
        (match bootstrap q with
         | None | Some "" => mret ()
         | Some b => r ← attempt_st (connectToBootstrap t b); mret ()
         end) ;;
        saved ← attempt_st (saveTorrent t (user q) (bootstrap q) false (Some (version q)));
        step (fun s => with_downloads s (downloadQueue s) (activeDownloads s ∪ {[Hex.EncodeToString (BagID t)]})) ;;
        mret true
  end.

(** The items that are in the queue, up to the limit; [fuel] counts them. *)
(* src: storage/download.go 350-397 [startDownloadsFromQueue] *)
Fixpoint take_downloads (fuel l : nat) : M unit :=
  match fuel with
  | O => lift_st OutOfFuel
  | S fuel =>
      if (l <? ConcurrentBagsDownloading)%nat then
        queue ← gets downloadQueue;
        match queue with
        | [] => mret ()
        | q :: rest =>
            step (fun s => with_downloads s rest (activeDownloads s)) ;;
            counted ← start_download q;
            take_downloads fuel (if (counted : bool) then S l else l)
        end
      else mret ()
  end.

(** A round of the loop. *)
(* src: storage/download.go 346-399 [startDownloadsFromQueue] *)
Definition download_round : M unit :=
  s ← gets id;
  take_downloads (S (length (downloadQueue s))) (size (activeDownloads s)).

(** Whether the program's context was cancelled by the deferred [Recover]. *)
(* src: appcontext/context.go 69-79 *)
Definition Recover (r : outcome unit) : bool := match r with Panic => true | _ => false end.

(* src: storage/download.go 343-400 *)
Fixpoint startDownloadsFromQueue (rounds : nat) (s : client W) : client W * bool :=
  match rounds with
  | O => (s, false)
  | S rounds => let '(s, r) := download_round s in if Recover r then (s, true) else startDownloadsFromQueue rounds s
  end.

(** ** Requests to other relays *)

Definition StatusAccepted : Z := 202.

(** Five more times, unless the answer is [202]. *)
Fixpoint send_head (retries : nat) (address : string) (headers : list (string * string)) : M (Z + error) :=
  r ← (fun s => let '(w, r) := Head address headers (world s) in (with_world s w, Ok r));
  match retries with
  | O => mret r
  | S retries => match r with inl status => if status =? StatusAccepted then mret r else send_head retries address headers | inr _ => send_head retries address headers end
  end.

(* src: storage/download.go 438-498 *)
Definition triggerDownloadOnRelay (at_ : Z) (relayUrl fileHash masterPubkey infohash : string) : M unit :=
  fullStrUrl ← lift_st (url_JoinPath relayUrl ("/files/" +:+ masterPubkey +:+ ":" +:+ fileHash));
  match url_ParseFull fullStrUrl with
  | None => fail opaque_error
  | Some u =>
      scheme ← lift_st (if UScheme u =s? "wss" then Ok "https" else if UScheme u =s? "ws" then Ok "http" else Err opaque_error);
      let u := MkFullURL scheme (UHost u) (UPath u) (URawQuery u) (UFragment u) (URest u) in
      let rawQuery := query_with u "i" infohash in
      let q := MkFullURL scheme (UHost u) (UPath u) rawQuery (UFragment u) (URest u) in
      auth ← lift_st (GenerateAuthHeader at_ (PrivateKey config) "HEAD" "" q []);
      resp ← send_head 5 (url_String u +:+ "?" +:+ rawQuery) [("Authorization", auth); ("Referer", RelayURL config)];
      match resp with
      | inr e => fail e
      | inl status => if status =? StatusAccepted then mret () else fail opaque_error
      end
  end.
End Downloads.

(** ** Theorems: how many downloads run *)

Section Bounded.
Context {N : Nostr} {G : GoText} {J : GoJSON} {T : EventText} {C : Crypto} {H : HttpText} {X : StorageText} {W : Type} {SW : StorageWorld W} {DW : DownloadWorld W}.
Context (limit : nat).
Implicit Type s : client W.

(** Steps that start no download. *)
Definition few (n : nat) s : Prop := (size (activeDownloads s) <= n)%nat.

Section Keeps.
Context (n : nat).
Abbreviation keeps := (maintains (few n)).

Lemma keeps_outside {A} (m : ST W A) : keeps (outside m).
Proof. intros s Hs. unfold outside. by destruct (m (world s)) as [w r]. Qed.
Lemma keeps_observe {A} (f : W -> A) : keeps (observe f). Proof. by intros s. Qed.
Lemma keeps_gets {A} (f : client W -> A) : keeps (gets f). Proof. by intros s. Qed.
Lemma keeps_fail {A} e : keeps (fail (A := A) e). Proof. by intros s. Qed.
Lemma keeps_RecordRead e : keeps (RecordReadOperation e).
Proof. intros s Hs. unfold RecordReadOperation, step. by destruct (time_Now (world s)). Qed.
Lemma keeps_RecordWrite e : keeps (RecordWriteOperation e).
Proof. intros s Hs. unfold RecordWriteOperation, step. by destruct (time_Now (world s)). Qed.
Lemma keeps_recorded record {A} (m : ST (client W) A) : (forall e, keeps (record e)) -> keeps m -> keeps (recorded record m).
Proof. intros Hr Hm. unfold recorded. maintain; auto using keeps_fail. Qed.
Lemma keeps_queue f : keeps (step (fun s => with_downloads s (f s) (activeDownloads s))). Proof. by intros s. Qed.
Lemma keeps_less (A : gset string) : keeps (step (fun s => with_downloads s (downloadQueue s) (activeDownloads s ∖ A))).
Proof. intros s Hs. unfold few in *. cbn. etransitivity; [|exact Hs]. apply subseteq_size. set_solver. Qed.
Lemma keeps_world f : keeps (step (fun s => with_world s (f s))). Proof. by intros s. Qed.
#[local] Hint Resolve keeps_outside keeps_observe keeps_gets keeps_fail keeps_RecordRead keeps_RecordWrite keeps_recorded keeps_queue keeps_less keeps_world : maintains.

Lemma keeps_bagByUser u : keeps (bagByUser u). Proof. unfold bagByUser. maintain. Qed.
#[local] Hint Resolve keeps_bagByUser : maintains.
Lemma keeps_saveBagPerUser b v u : keeps (saveBagPerUser b v u). Proof. unfold saveBagPerUser. maintain. Qed.
#[local] Hint Resolve keeps_saveBagPerUser : maintains.
Lemma keeps_saveTorrent t u b d v : keeps (saveTorrent t u b d v).
Proof. unfold saveTorrent. apply keeps_recorded; [auto with maintains|]. maintain. Qed.
#[local] Hint Resolve keeps_saveTorrent : maintains.
Lemma keeps_fileMeta t : keeps (fileMeta t). Proof. unfold fileMeta. maintain. Qed.
#[local] Hint Resolve keeps_fileMeta : maintains.
Lemma keeps_resolved_user t u : keeps (resolved_user t u). Proof. unfold resolved_user. maintain. Qed.
#[local] Hint Resolve keeps_resolved_user : maintains.
Lemma keeps_callback t u e : keeps (torrentStateCallback t u e).
Proof. unfold torrentStateCallback. maintain. Qed.
Lemma keeps_replace_bag x b v : keeps (replace_bag x b v). Proof. unfold replace_bag. maintain. Qed.
#[local] Hint Resolve keeps_replace_bag : maintains.
Lemma keeps_download b u bs v : keeps (download b u bs v).
Proof. unfold download. apply keeps_recorded; [auto with maintains|]. maintain. Qed.
#[local] Hint Resolve keeps_download : maintains.
Lemma keeps_newBagIDPromoted u b bs v : keeps (newBagIDPromoted u b bs v). Proof. unfold newBagIDPromoted. maintain. Qed.
#[local] Hint Resolve keeps_newBagIDPromoted : maintains.
Lemma keeps_StartDownloadNewBag f u i : keeps (StartDownloadNewBag f u i).
Proof. unfold StartDownloadNewBag. apply keeps_recorded; [auto with maintains|]. maintain. Qed.
Lemma keeps_connect_all t bs : keeps (connect_all t bs).
Proof. induction bs as [|b bs IH]; cbn [connect_all]; maintain; auto. Qed.
#[local] Hint Resolve keeps_connect_all : maintains.
Lemma keeps_connectToBootstrap t b : keeps (connectToBootstrap t b). Proof. unfold connectToBootstrap. maintain. Qed.
#[local] Hint Resolve keeps_connectToBootstrap : maintains.

(** An item that counts makes one more. *)
Definition adds (m : ST (client W) bool) : Prop := forall s, few n s -> few (S n) (m s).1 /\ ((m s).2 = Ok false -> few n (m s).1).

Lemma few_S s : few n s -> few (S n) s. Proof. unfold few. lia. Qed.
Lemma adds_bind {A} (m : ST (client W) A) k : keeps m -> (forall a, adds (k a)) -> adds (mbind k m).
Proof.
  intros Hm Hk s Hs. specialize (Hm s Hs). unfold mbind, ST_bind. destruct (m s) as [s' [a|x| |]]; [by apply Hk|..]; cbn in *; by split; [apply few_S|].
Qed.
Lemma adds_ret b : adds (mret b). Proof. intros s Hs. cbn. by split; [apply few_S|]. Qed.
Lemma adds_one x : adds (step (fun s => with_downloads s (downloadQueue s) (activeDownloads s ∪ {[x]})) ;; mret true).
Proof.
  intros s Hs. cbn. split; [|done]. unfold few in *. cbn [activeDownloads fst with_downloads]. cbn. change (size (activeDownloads s ∪ {[x]}) <= S n)%nat. rewrite size_union_alt. pose proof (subseteq_size ({[x]} ∖ activeDownloads s) {[x]} ltac:(set_solver)) as Hx.
  rewrite size_singleton in Hx. lia.
Qed.

Lemma start_download_adds q : adds (start_download q).
Proof.
  unfold start_download. apply adds_bind; [auto with maintains|intros [t|]; [|apply adds_ret]].
  do 2 (apply adds_bind; [auto with maintains|intros ?]). destruct (_ || _); [apply adds_ret|].
  do 3 (apply adds_bind; [maintain|intros ?]). apply adds_one.
Qed.
End Keeps.

Lemma take_downloads_few fuel : forall l s, few l s -> (l <= limit)%nat -> few limit (take_downloads limit fuel l s).1.
Proof.
  induction fuel as [|fuel IH]; intros l s Hs Hl; cbn [take_downloads]; [cbn; unfold few in *; lia|].
  destruct (Nat.ltb_spec l limit) as [Hlt|_]; [|cbn; unfold few in *; lia].
  unfold mbind at 1, ST_bind at 1, gets at 1. destruct (downloadQueue s) as [|q rest]; [cbn; unfold few in *; lia|].
  unfold mbind at 1, ST_bind at 1, step at 1. set (s1 := with_downloads s rest (activeDownloads s)). assert (Hs1 : few l s1) by done.
  destruct (start_download_adds l q s1 Hs1) as [H1 H2]. unfold mbind at 1, ST_bind at 1.
  destruct (start_download q s1) as [s2 [[|]|x| |]]; cbn in H1, H2; [by apply IH; [|lia]|by apply IH; [apply H2|]|..]; cbn; unfold few in *; lia.
Qed.

(** What the program does with the downloads.  The goroutine of the queue is outside its
    inner loop, or inside with the number it counts; between two items of a round, and
    between rounds, torrents have events, files are announced, and the world does
    anything else. *)
Inductive dstep : client W * option nat -> client W * option nat -> Prop :=
  | a_round s : dstep (s, None) ((download_round limit s).1, None)
  | enters s : dstep (s, None) (s, Some (size (activeDownloads s)))
  | an_item s l q rest : (l < limit)%nat -> downloadQueue s = q :: rest ->
      let r := start_download q (with_downloads s rest (activeDownloads s)) in
      dstep (s, Some l) (r.1, match r.2 with Ok true => Some (S l) | Ok false => Some l | _ => None end)
  | leaves s l : dstep (s, Some l) (s, None)
  | an_event t user e s l : dstep (s, l) ((torrentStateCallback t user e s).1, l)
  | a_file hash master infohash s l : dstep (s, l) ((StartDownloadNewBag hash master infohash s).1, l)
  | a_world w s l : dstep (s, l) (with_world s w, l).

Definition counted (x : client W * option nat) : Prop := few limit x.1 /\ match x.2 with Some l => few l x.1 /\ (l <= limit)%nat | None => True end.

Lemma dstep_counted x y : dstep x y -> counted x -> counted y.
Proof.
  intros [s|s|s l q rest Hlt Hq r|s l|t user e s l|hash master i s l|w s l] [Hs Hl]; cbn in *.
  - split; [|done]. unfold download_round, mbind, ST_bind, gets, id. apply take_downloads_few; [by unfold few|exact Hs].
  - split; [done|]. split; [by unfold few|exact Hs].
  - destruct Hl as [Hl _]. subst r. destruct (start_download_adds l q (with_downloads s rest (activeDownloads s)) Hl) as [H1 H2].
    unfold counted, few in *. destruct (start_download q _) as [s1 [[|]| | |]]; cbn in *; try specialize (H2 eq_refl); split; lia || done.
  - by split.
  - split; [by apply keeps_callback|]. destruct l as [n|]; [|done]. destruct Hl. split; [by apply keeps_callback|done].
  - split; [by apply keeps_StartDownloadNewBag|]. destruct l as [n|]; [|done]. destruct Hl. split; [by apply keeps_StartDownloadNewBag|done].
  - done.
Qed.

End Bounded.

(** ** Theorems: what a file event brings with it *)

(** The key-value database and the torrents as the program sees them; starting a torrent
    and reading the clock change neither. *)
Class DownloadWorldSpec (W : Type) `{DownloadWorld W} : Type := {
  db : W -> gmap string string;
  alike (w w' : W) : Prop := db w' = db w /\ forall id, GetTorrent id w' = GetTorrent id w;
  db_Get_spec : forall k w, db_Get k w = (w, Ok (db w !! k));
  db_Put_spec : forall k v w, exists w', db_Put k v w = (w', Ok ()) /\ db w' = <[k := v]> (db w) /\ forall id, GetTorrent id w' = GetTorrent id w;
  SetTorrent_spec : forall t w, exists w', SetTorrent t w = (w', Ok ()) /\ db w' = db w /\ forall id, id ≠ BagID t -> GetTorrent id w' = GetTorrent id w;
  StartWithCallback_spec : forall t up all w, alike w (StartWithCallback t up all w).1 /\
    match (StartWithCallback t up all w).2 with Ok _ | Err _ => True | _ => False end;
  time_Now_spec : forall w, alike w (time_Now w).1
}.

Section Announced.
Context {N : Nostr} {G : GoText} {J : GoJSON} {T : EventText} {C : Crypto} {H : HttpText} {X : StorageText} {W : Type} {SW : StorageWorld W} {DW : DownloadWorld W} {DS : DownloadWorldSpec W}.
Context (limit : nat).
Implicit Type s : client W.

(** A node whose overlay identifier is not an object with a key. *)
Definition malformed (b : BootstrapNode) : Prop := forall pk, Overlay b ≠ Some (Object (Some pk)).

Lemma start_attempt t up all s : exists s' r, attempt_st (outside (StartWithCallback t up all)) s = (s', Ok r) /\
  newFiles s' = newFiles s /\ alike (world s) (world s').
Proof.
  destruct (StartWithCallback_spec t up all (world s)) as [Ha Hr]. unfold attempt_st, outside.
  destruct (StartWithCallback t up all (world s)) as [w [u|e| |]]; cbn in *; try done; eexists _, _; split; done.
Qed.

(** C33: a file event whose bootstrap node is malformed ends the program: the goroutine
    of the queue panics on it, and its deferred recovery cancels the program's context. *)
Theorem malformed_bootstrap_ends rounds q rest t b j bs more s :
  downloadQueue s = q :: rest -> (size (activeDownloads s) < limit)%nat -> GetTorrent (BagID (tor q)) (world s) = Some t ->
  (IsActive t (world s)).1 = false -> IsCompleted t (world s) = false ->
  bootstrap q = Some b -> b ≠ "" -> Base64.DecodeString b = Some j -> bootstraps_Unmarshal j = Some (bs :: more) -> malformed bs ->
  (startDownloadsFromQueue limit (S rounds) s).2 = true.
Proof.
  intros Hq Hlt Ht Ha Hc Hb Hne Hj Hu Hm. cbn [startDownloadsFromQueue]. enough (Hp : (download_round limit s).2 = Panic).
  { destruct (download_round limit s) as [s' r]. cbn in Hp. by rewrite Hp. }
  unfold download_round, id. unfold mbind at 1, ST_bind at 1, gets at 1. rewrite Hq. cbn [take_downloads length].
  rewrite (proj2 (Nat.ltb_lt _ _) Hlt). unfold mbind at 1, ST_bind at 1, gets at 1. rewrite Hq. unfold mbind at 1, ST_bind at 1, step at 1.
  set (s1 := with_downloads s rest (activeDownloads s)). enough (Hs : (start_download q s1).2 = Panic).
  { unfold mbind, ST_bind. destruct (start_download q s1) as [s2 r]. cbn in Hs. by rewrite Hs. }
  unfold start_download. unfold mbind at 1, ST_bind at 1, observe at 1. change (world s1) with (world s). rewrite Ht.
  do 2 (unfold mbind at 1, ST_bind at 1, observe at 1). change (world s1) with (world s). rewrite Ha, Hc. cbn [orb].
  destruct (start_attempt t false true s1) as (s2 & r & Hst & _). unfold mbind at 1, ST_bind at 1. rewrite Hst. rewrite Hb.
  enough (Hcon : (connectToBootstrap t b s2).2 = Panic).
  { destruct b as [|c b]; [done|]. unfold mbind, ST_bind, attempt_st. destruct (connectToBootstrap t (String c b) s2) as [s3 r3]. cbn in Hcon. by rewrite Hcon. }
  unfold connectToBootstrap. rewrite Hj, Hu. cbn [connect_all]. destruct (Overlay bs) as [[[pk|]|]|] eqn:Ho; try done. by destruct (Hm pk).
Qed.

(** *** Whose bag it is *)

Lemma record_read e s : exists s', RecordReadOperation e s = (s', Ok ()) /\ newFiles s' = newFiles s /\ alike (world s) (world s').
Proof. unfold RecordReadOperation, step. pose proof (time_Now_spec (world s)) as Ht. destruct (time_Now (world s)) as [w now]. by eexists. Qed.
Lemma record_write e s : exists s', RecordWriteOperation e s = (s', Ok ()) /\ newFiles s' = newFiles s /\ alike (world s) (world s').
Proof. unfold RecordWriteOperation, step. pose proof (time_Now_spec (world s)) as Ht. destruct (time_Now (world s)) as [w now]. by eexists. Qed.

Lemma alike_trans (w1 w2 w3 : W) : alike w1 w2 -> alike w2 w3 -> alike w1 w3.
Proof. intros [Hd1 Ht1] [Hd2 Ht2]. split; [congruence|]. intros id. by rewrite Ht2, Ht1. Qed.

Lemma read_start t up all s : exists s' r, attempt_st (recorded RecordReadOperation (outside (StartWithCallback t up all))) s = (s', Ok r) /\
  newFiles s' = newFiles s /\ alike (world s) (world s').
Proof.
  destruct (start_attempt t up all s) as (s1 & r & Hs & Hn1 & Ha1). destruct r as [u|e].
  - destruct (record_read None s1) as (s2 & Hr & Hn2 & Ha2). exists s2, (inl u). split; [|by split; [congruence|eapply alike_trans]].
    unfold recorded, attempt_st at 1, mbind, ST_bind. by rewrite Hs, Hr.
  - destruct (record_read (Some e) s1) as (s2 & Hr & Hn2 & Ha2). exists s2, (inr e). split; [|by split; [congruence|eapply alike_trans]].
    unfold recorded, attempt_st at 1, mbind, ST_bind. by rewrite Hs, Hr.
Qed.

(** The bag a user has, in the database and among the torrents. *)
Record has_bag (w : W) (u v : string) (t0 : Torrent) : Prop := MkHasBag {
  bag_stored : db w !! user_key u = Some v;
  bag_long : (32 <= len v)%nat;
  bag_version : drop 32 v = "" \/ is_Some (Strconv.ParseInt (drop 32 v) 64);
  bag_known : GetTorrent (take 32 v) w = Some t0
}.

Lemma bagByUser_has s u v t0 : has_bag (world s) u v t0 -> exists ver, bagByUser u s = (s, Ok (Some t0, ver)).
Proof.
  intros [Hv Hlen Hver Ht]. unfold bagByUser. unfold mbind at 1, ST_bind at 1, outside at 1. rewrite db_Get_spec, Hv.
  replace (with_world s (world s)) with s by (by destruct s). destruct v as [|c v']; [cbn in Hlen; lia|]. cbv beta iota. set (v := String c v') in *.
  rewrite (proj2 (Nat.ltb_ge _ _) Hlen). unfold mbind, ST_bind, observe. destruct (String.eqb_spec (drop 32 v) "") as [He|He]; [cbn [mret ST_ret fst]; rewrite Ht; eauto|].
  destruct Hver as [?|[n Hn]]; [done|]. rewrite Hn. cbn [mret ST_ret fst]. rewrite Ht. eauto.
Qed.

Lemma recorded_Ok record {A} (m : ST (client W) A) s s1 a :
  (forall e s, exists s', record e s = (s', Ok ()) /\ newFiles s' = newFiles s /\ alike (world s) (world s')) ->
  m s = (s1, Ok a) -> exists s2, recorded record m s = (s2, Ok a) /\ alike (world s1) (world s2).
Proof.
  intros Hrec Hm. destruct (Hrec None s1) as (s2 & Hr & _ & Ha). exists s2. split; [|done]. unfold recorded, attempt_st, mbind, ST_bind. by rewrite Hm, Hr.
Qed.

Lemma put_db k v s : exists s', outside (db_Put k v) s = (s', Ok ()) /\ db (world s') = <[k := v]> (db (world s)).
Proof. destruct (db_Put_spec k v (world s)) as (w & Hp & Hd & _). exists (with_world s w). unfold outside. by rewrite Hp. Qed.

Lemma other_key u b : user_key u ≠ header_key b. Proof. done. Qed.

Lemma saveTorrent_takes t h u v t0 h0 s : u ≠ "" -> THeader t = Some h -> HData h ≠ "" -> has_bag (world s) u v t0 -> take 32 v ≠ BagID t ->
  THeader t0 = Some h0 -> FilesCount h0 <= FilesCount h -> uint32 (zlen (map_to_list (default ∅ (newFiles s !! u)))) <= FilesCount h ->
  exists s', saveTorrent t (Some u) None false (Some (FilesCount h)) s = (s', Ok ()) /\
    db (world s') !! user_key u = Some (BagID t +:+ Strconv.Itoa (FilesCount h)).
Proof.
  intros Hu Hh Hd [Hv Hlen Hver Ht] Hne Hh0 Hle Hnew. destruct (SetTorrent_spec t (world s)) as (w1 & Hset & Hdb1 & Hts1).
  set (s1 := with_world s w1). assert (Hbag : has_bag (world s1) u v t0) by (constructor; cbn; [by rewrite Hdb1|done|done|by rewrite Hts1]).
  destruct (bagByUser_has _ _ _ _ Hbag) as [ver Hby]. destruct (put_db (user_key u) (BagID t +:+ Strconv.Itoa (FilesCount h)) s1) as (s2 & Hp2 & Hd2).
  destruct (put_db (header_key (BagID t)) (HData h) s2) as (s3 & Hp3 & Hd3).
  assert (Hrep : replaces_bag t (zlen (map_to_list (default ∅ (newFiles s !! u)))) (Some t0, ver) false (Some (FilesCount h)) = true).
  { unfold replaces_bag. cbn. rewrite Hh0, Hh. apply Z.leb_le. lia. }
  enough (Hbody : exists s', saveTorrent t (Some u) None false (Some (FilesCount h)) s = (s', Ok ()) /\ alike (world s3) (world s')).
  { destruct Hbody as (s' & Hs & Ha & _). exists s'. split; [done|]. rewrite Ha, Hd3, lookup_insert_ne, Hd2 by (symmetry; apply other_key). apply lookup_insert_eq. }
  unfold saveTorrent. apply recorded_Ok; [apply record_write|]. unfold mbind at 1, ST_bind at 1, outside at 1. rewrite Hset. fold s1.
  destruct u as [|c u]; [done|]. unfold mbind at 1 2 3, ST_bind at 1 2 3, gets at 1. change (newFiles s1) with (newFiles s).
  unfold mbind at 1, ST_bind at 1. rewrite Hby, Hrep. unfold saveBagPerUser. rewrite Hp2. unfold mbind, ST_bind. cbn [mret ST_ret]. rewrite Hh.
  by destruct (String.eqb_spec (HData h) "") as [?|_].
Qed.

(** C32: whose bag a torrent is, is what its own header says: a torrent that is resolved
    becomes the bag of the user its header names, in place of the bag that user had, when
    it has at least as many files - whoever announced it. *)
Theorem header_decides_owner t h md announced v t0 h0 s :
  (IsActive t (world s)).2 = false -> THeader t = Some h -> HData h ≠ "" -> header_Unmarshal no_header (HData h) = (md, None) -> Master md ≠ "" ->
  has_bag (world s) (Master md) v t0 -> take 32 v ≠ BagID t -> THeader t0 = Some h0 -> FilesCount h0 <= FilesCount h ->
  uint32 (zlen (map_to_list (default ∅ (newFiles s !! Master md)))) <= FilesCount h ->
  db (world (torrentStateCallback t (Some announced) EventBagResolved s).1) !! user_key (Master md) = Some (BagID t +:+ Strconv.Itoa (FilesCount h)).
Proof.
  intros Ha Hh Hd Hj Hu [Hv Hlen Hver Ht] Hne Hh0 Hle Hnew. destruct (read_start t true true s) as (s1 & r & Hst & Hn1 & Hdb1 & Hts1).
  assert (Hbag : has_bag (world s1) (Master md) v t0) by (constructor; [by rewrite Hdb1|done|done|by rewrite Hts1]).
  destruct (saveTorrent_takes t h (Master md) v t0 h0 s1) as (s2 & Hsave & Hend); [done..|by rewrite Hn1|].
  destruct (recorded_Ok RecordReadOperation _ _ _ _ record_read Hsave) as (s3 & Hread & Hdb3 & _).
  unfold torrentStateCallback. unfold mbind at 1, ST_bind at 1, observe at 1. rewrite Ha. unfold header_count. rewrite Hh.
  unfold mbind at 1, ST_bind at 1, lift_st at 1. unfold mbind at 1, ST_bind at 1. rewrite Hst.
  assert (Hres : resolved_user t (Some announced) s1 = (s1, Ok (Some (Master md)))).
  { unfold resolved_user, fileMeta, attempt_st, mbind, ST_bind, lift_st. rewrite Hh. cbn [mret ST_ret].
    rewrite (proj2 (String.eqb_neq _ _) Hd). unfold unmarshal_header. by rewrite Hj. }
  unfold mbind at 1, ST_bind at 1. rewrite Hres. unfold mbind at 1, ST_bind at 1, attempt_st at 1. rewrite Hread. cbn. by rewrite Hdb3.
Qed.
End Announced.

(** ** Concrete inputs *)
Module DownloadsWitness.
Import HttpPlain.

#[local] Instance nostr : Nostr := Reference.nostr (fun _ => None) (fun _ => Ok false).
#[local] Instance json : GoJSON := {|
  json_Valid _ := false; json_profile _ := None; json_strings _ := None; json_ints _ := None;
  json_event _ := None; json_from _ := None; json_to _ := None |}.

(** A world that keeps the database and the torrents; no torrent is active. *)
Record disk : Type := MkDisk { stored : gmap string string; torrents : gmap string Torrent }.
Definition done : ST disk unit := fun w => (w, Ok ()).
#[local] Instance storage_world : StorageWorld disk := {|
  db_Get k w := (w, Ok (stored w !! k)); db_Put k v w := (MkDisk (<[k := v]> (stored w)) (torrents w), Ok ());
  db_Delete ks w := (MkDisk (foldr delete (stored w) ks) (torrents w), Ok ());
  GetTorrent id w := torrents w !! id; RemoveTorrent t w := (MkDisk (stored w) (delete (BagID t) (torrents w)), Ok ());
  SetTorrent t w := (MkDisk (stored w) (<[BagID t := t]> (torrents w)), Ok ());
  Stop _ w := w; Start _ _ _ := done; IsDownloadAll _ _ := false; IsCompleted _ _ := false; NewTorrent id w := (w, MkTorrent id None);
  GetFileOffsets _ name _ := Ok (name, 5); ListTorrentFiles _ w := (w, Ok []);
  FileRef := unit; GetSingleFileRef _ w := (w, Ok ()); CreateTorrent _ _ _ w := (w, Ok (MkTorrent "" None));
  Bootstrap := unit; buildBootstrapNodeInfo _ w := (w, Ok ()); json_bootstraps _ := Some "[]";
  os_Remove _ := done; os_RemoveAll _ := done; os_MkdirAll _ := done; os_ReadDir _ w := (w, Ok []);
  os_Rename _ _ := done; OpenRoot _ := done; OpenFile _ _ := done; os_Open _ := done;
  io_Copy _ _ := done; io_Read _ w := (w, Ok "");
  cdn_FileDelete _ := done; cdn_HealthCheck := done; cdn_FileUpload _ _ _ := done; cdn_FileUploadAsync _ _ _ := done;
  GetStoredEvents _ w := (w, []); time_Now w := (w, 100000000000) |}.
#[local] Instance download_world : DownloadWorld disk := {|
  IsActive _ _ := (false, false); StartWithCallback _ _ _ := done; SetActiveFiles _ w := w;
  bootstraps_Unmarshal j := if j =s? "[{}]" then Some [MkBootstrap None None] else None;
  ConnectToNode _ _ _ := done; url_JoinPath a b := Ok (a +:+ b); query_with _ k v := k +:+ "=" +:+ v; Head _ _ w := (w, inl 202) |}.
#[local] Program Instance download_spec : DownloadWorldSpec disk := {| db := stored |}.
Solve Obligations with (intros; first [done | split; done | eexists; repeat split; intros; cbn; rewrite ?lookup_insert_ne by done; done]).

(** The header names the victim. *)
#[local] Instance headers : StorageText := {|
  header_Unmarshal md s := (MkHeader ∅ ∅ "victim", None); header_Marshal _ := Some "{}"; TypeByExtension _ := "text/plain" |}.
Definition old_id : string := bytes (repeat 65%nat 32).
Definition new_id : string := bytes (repeat 66%nat 32).
Definition old_bag : Torrent := MkTorrent old_id (Some (MkTorrentHeader 2 "{}")).
Definition new_bag : Torrent := MkTorrent new_id (Some (MkTorrentHeader 3 "{}")).
Definition bare_bag : Torrent := MkTorrent new_id None.
Definition machine : FSM := match New 60000000000 3 with Ok m => m | _ => MkFSM 0 0 0 0 0 stateHealthy end.
Definition node (q : list queueItem) (ts : gmap string Torrent) : client disk :=
  MkStorage ∅ ∅ q ∅ machine machine None None (MkDisk {[user_key "victim" := old_id +:+ "2"]} ts).
Definition announced_bag : client disk := node [] {[old_id := old_bag; new_id := new_bag]}.

Lemma header_decides_owner_witness :
  db (world (torrentStateCallback new_bag (Some "mallory") EventBagResolved announced_bag).1) !! user_key "victim" = Some (new_id +:+ "3").
Proof.
  apply (header_decides_owner new_bag (MkTorrentHeader 3 "{}") (MkHeader ∅ ∅ "victim") "mallory" (old_id +:+ "2") old_bag (MkTorrentHeader 2 "{}") announced_bag);
    [reflexivity|reflexivity|discriminate|reflexivity|discriminate|split; [reflexivity|cbn; lia|right; vm_compute; by eexists|vm_compute; reflexivity]
    |vm_compute; discriminate|reflexivity|cbn; lia|vm_compute; discriminate].
Defined.

Definition boot : string := Base64.EncodeToString "[{}]".
Definition bad_item : queueItem := MkItem bare_bag (Some boot) (Some "mallory") 3.
Definition queued : client disk := node [bad_item] {[new_id := bare_bag]}.

Lemma malformed_bootstrap_ends_witness : (startDownloadsFromQueue 10 1 queued).2 = true.
Proof.
  apply (malformed_bootstrap_ends 10 0 bad_item [] bare_bag boot "[{}]" (MkBootstrap None None) [] queued);
    [reflexivity|vm_compute; lia|reflexivity|reflexivity|reflexivity|reflexivity|discriminate|vm_compute; reflexivity|reflexivity|discriminate].
Defined.

(** A file event is enough: it is accepted, its bag is queued, and the program ends. *)
Definition config : Config := MkConfig "" "wss://me" "/srv" false "" "" false.
Definition file_note : Event := MkEvent None "f1" "mallory" 100 KindFileMetadata [["i"; Hex.EncodeToString new_id +:+ ":" +:+ boot +:+ ":3"]; ["ox"; "cafe"]] "" "".
Example event_ends : let '(s, r) := AcceptEvents (N := nostr) (W := disk) config [file_note] (node [] {[old_id := old_bag]}) in
  r = Ok () /\ length (downloadQueue s) = 1%nat /\ (startDownloadsFromQueue 10 1 s).2 = true.
Proof. vm_compute. done. Qed.

Definition good_item (i : nat) : queueItem := MkItem (MkTorrent (bytes (repeat i 32)) None) None (Some "alice") 1.
Definition waiting : client disk :=
  node [good_item 66; good_item 67; good_item 68] (list_to_map ((fun i => (bytes (repeat i 32), MkTorrent (bytes (repeat i 32)) None)) <$> [66; 67; 68]%nat)).

Definition after_round : client disk * option nat := ((download_round 2 waiting).1, None).
(** Two of three are started; the third stays in the queue. *)
Example two_of_three : let s := (download_round 2 waiting).1 in size (activeDownloads s) = 2%nat /\ downloadQueue s = [good_item 68].
Proof. vm_compute. done. Qed.
(** A download that never ends keeps its place: nothing more is started. *)
Example place_kept : (startDownloadsFromQueue 2 5 waiting).1 = (download_round 2 waiting).1.
Proof. vm_compute. reflexivity. Qed.
End DownloadsWitness.
