(* ===== verification/Main.v ===== *)
(** * Package main: how the parts of the program are tied together

    src/cmd/subzero-ion-connect: the callbacks main registers with the server, the
    network and the jobs, and how the program ends (with src/appcontext).  The parts are
    an interface, class [Parts]; [relay_parts] implements it with the database of file
    Store and the files of file Files.  What is handed to the pool of goroutines
    (ants) is kept as a list of tasks, which run later, in any order; a task only logs
    its error.  Flags, the log and the order of the start are left out. *)

From S2P Require Import Prelude GoStd Nostr Model OnBehalf Filters Content Validator StateFSM QueryFilter QueryBuilder QuerySafety Connector Rows Status Selection Store Rollback Consensus Agreement TagRules Validate Auth HttpAuth Files.
Import Strings.

(** ** The parts *)

Class Parts (P : Type) := {
  query_AcceptEvents : bool -> list Event -> ST P unit;
  query_RollbackEvents : bool -> list Event -> ST P unit;
  query_CommitEvents : bool -> list Event -> ST P (list Event);
  command_AcceptEvents : list Event -> ST P unit;
  storage_AcceptEvents : list Event -> ST P unit
}.

(** What is done in the background. *)
Inductive job : Set :=
  | webserver_BroadcastUserEvents | dvm_AcceptEvents | pushnotifications_AcceptEvents | storage_ReplicateFileOnPeers
  | hashtagssender_AcceptEvents | nftcontentsender_AcceptEvents | followerssender_AcceptEvents | webserver_BroadcastNewEvents.
Record task : Type := MkTask { does : job; on : list Event }.

Record program (P : Type) : Type := MkProgram { parts : P; tasks : list task }.
Arguments MkProgram {P}. Arguments parts {P}. Arguments tasks {P}.

Section Main.
Context {N : Nostr} {P : Type} {PP : Parts P}.
Abbreviation M := (ST (program P)).

Definition part {A} (m : ST P A) : M A := fun s => let '(p, r) := m (parts s) in (MkProgram p (tasks s), r).
(** [antsPool.Submit] *)
Definition Submit (j : job) (events : list Event) : M unit := fun s => (MkProgram (parts s) (tasks s ++ [MkTask j events]), Ok ()).

(** ** Who must authenticate *)

(* src: cmd/subzero-ion-connect/subzero_ion_connect.go 104-107 *)
Definition eventKindsNoAuth : list Z := [KindGiftWrap; KindFileMetadata].
(* src: cmd/subzero-ion-connect/subzero_ion_connect.go 152-155 [init] *)
Definition req_must_authenticate : bool := true.
(* src: cmd/subzero-ion-connect/subzero_ion_connect.go 156-163 [init] *)
Definition event_must_authenticate (events : list Event) : bool := existsb (fun e => negb (bool_decide (Kind e ∈ eventKindsNoAuth))) events.

(** ** Callbacks *)

(* src: cmd/subzero-ion-connect/subzero_ion_connect.go 133-138 [init] *)
Definition network_accepts (replay : bool) (events : list Event) : M unit := part (query_AcceptEvents replay events).
(* src: cmd/subzero-ion-connect/subzero_ion_connect.go 132 [init] *)
Definition network_rolls_back (replay : bool) (events : list Event) : M unit := part (query_RollbackEvents replay events).
(** The commit marks what was replaced in the events themselves. *)
(* src: cmd/subzero-ion-connect/subzero_ion_connect.go 139-151 [init] *)
Definition network_commits (replay : bool) (events : list Event) : M unit :=
  events ← part (query_CommitEvents replay events);
  part (storage_AcceptEvents events) ;;
  Submit webserver_BroadcastNewEvents events.

Definition sends_gift_wrap (u : UserDataContext) (events : list Event) : bool := existsb (fun e => (Kind e =? KindGiftWrap) && Authenticated u) events.

(** An EVENT message that was validated. *)
(* src: cmd/subzero-ion-connect/subzero_ion_connect.go 164-232 [init] *)
Definition event_listener (u : UserDataContext) (events : list Event) : M unit :=
  if sends_gift_wrap u events then lift_st (Err opaque_error)
  else
    part (query_AcceptEvents false events) ;;
    Submit webserver_BroadcastUserEvents events ;;
    Submit dvm_AcceptEvents events ;;
    part (command_AcceptEvents events) ;;
    part (storage_AcceptEvents events) ;;
    Submit pushnotifications_AcceptEvents events ;;
    Submit storage_ReplicateFileOnPeers events ;;
    Submit hashtagssender_AcceptEvents events ;;
    Submit nftcontentsender_AcceptEvents events ;;
    Submit followerssender_AcceptEvents events ;;
    Submit webserver_BroadcastNewEvents events.

(** Events of other relays and the results of jobs. *)
(* src: cmd/subzero-ion-connect/subzero_ion_connect.go 235-255 [init] *)
Definition push (events : list Event) : M unit :=
  Submit webserver_BroadcastNewEvents events ;;
  Submit pushnotifications_AcceptEvents events.
End Main.

(** ** The end of the program *)

(** The context of the program: whether it ended, the functions that wait for its end,
    those that are done; whether the signals of the system ended the process at once. *)
(* src: appcontext/context.go 14-19 *)
Record appContext : Type := MkContext { done : bool; waiting : gset nat; finished : gset nat; exited : bool }.
(* src: appcontext/context.go 47-56 *)
Definition NewAppContext : appContext := MkContext false ∅ ∅ false.

(** What happens to it: a function is registered, one of them runs, a panic is recovered
    from (file Downloads), a signal arrives. *)
Inductive occurrence : Type := Registers (f : nat) | Finishes (f : nat) | Recovers | Signal.

(* src: appcontext/context.go 60-67 *)
Definition OnShutdown (f : nat) (c : appContext) : appContext := MkContext (done c) ({[f]} ∪ waiting c) (finished c) (exited c).
Definition cancel (c : appContext) : appContext := MkContext true (waiting c) (finished c) (exited c).
(* src: cmd/subzero-ion-connect/subzero_ion_connect.go 260-280 [newContext] *)
Definition signalled (force : bool) (c : appContext) : appContext * bool :=
  if force then (MkContext (done c) (waiting c) (finished c) true, true) else (cancel c, true).

(** The second component: a signal has arrived. *)
Definition occurs (x : appContext * bool) (o : occurrence) : appContext * bool :=
  let '(c, force) := x in
  if exited c then x
  else
    match o with
    | Registers f => (OnShutdown f c, force)
    | Finishes f => if done c && bool_decide (f ∈ waiting c) then (MkContext true (waiting c ∖ {[f]}) ({[f]} ∪ finished c) false, force) else x
    | Recovers => (cancel c, force)
    | Signal => signalled force c
    end.

(** [WaitForShutdown] returns. *)
(* src: appcontext/context.go 57-59 *)
Definition shut_down (c : appContext) : bool := bool_decide (waiting c = ∅).

(** ** Theorems: what becomes of an event *)

Section Listener.
Context {N : Nostr} {P : Type} {PP : Parts P}.
Implicit Types (s : program P) (events : list Event).

(** What is handed to the pool before and after the network and the files have had their
    say. *)
Definition early events : list task := [MkTask webserver_BroadcastUserEvents events; MkTask dvm_AcceptEvents events].
Definition late events : list task :=
  (fun j => MkTask j events) <$> [pushnotifications_AcceptEvents; storage_ReplicateFileOnPeers; hashtagssender_AcceptEvents; nftcontentsender_AcceptEvents;
                                   followerssender_AcceptEvents; webserver_BroadcastNewEvents].

(** How the callback of EVENT messages ends. *)
Inductive heard (u : UserDataContext) events s : program P -> outcome unit -> Prop :=
| refused : sends_gift_wrap u events = true -> heard u events s s (Err opaque_error)
| not_stored p r : query_AcceptEvents false events (parts s) = (p, r) -> r <> Ok () -> heard u events s (MkProgram p (tasks s)) r
| not_agreed p1 p2 r : query_AcceptEvents false events (parts s) = (p1, Ok ()) -> command_AcceptEvents events p1 = (p2, r) -> r <> Ok () ->
    heard u events s (MkProgram p2 (tasks s ++ early events)) r
| not_kept p1 p2 p3 r : query_AcceptEvents false events (parts s) = (p1, Ok ()) -> command_AcceptEvents events p1 = (p2, Ok ()) ->
    storage_AcceptEvents events p2 = (p3, r) -> r <> Ok () -> heard u events s (MkProgram p3 (tasks s ++ early events)) r
| published p1 p2 p3 : sends_gift_wrap u events = false -> query_AcceptEvents false events (parts s) = (p1, Ok ()) ->
    command_AcceptEvents events p1 = (p2, Ok ()) -> storage_AcceptEvents events p2 = (p3, Ok ()) ->
    heard u events s (MkProgram p3 (tasks s ++ early events ++ late events)) (Ok ()).

Lemma event_listener_heard u events s s' r : event_listener u events s = (s', r) -> heard u events s s' r.
Proof.
  unfold event_listener. destruct (sends_gift_wrap u events) eqn:Hg; [intros [= <- <-]; by apply refused|].
  unfold mbind at 1, ST_bind at 1, part at 1. destruct (query_AcceptEvents false events (parts s)) as [p1 [[]|x| |]] eqn:Hq;
    [|by intros [= <- <-]; apply (not_stored u events s)..].
  cbv [mbind ST_bind Submit]. cbn [parts tasks]. unfold part at 1. cbn [parts tasks]. destruct (command_AcceptEvents events p1) as [p2 [[]|x| |]] eqn:Hc.
  2-4: intros [= <- <-]; rewrite <- List.app_assoc; by eapply not_agreed.
  unfold part at 1. cbn [parts tasks]. destruct (storage_AcceptEvents events p2) as [p3 [[]|x| |]] eqn:Hs.
  2-4: intros [= <- <-]; rewrite <- List.app_assoc; by eapply not_kept.
  intros [= <- <-]. rewrite <- !List.app_assoc. by eapply published.
Qed.

(** A run of the program: callbacks, and tasks that leave the pool when they run; what a
    task does to the parts is a parameter. *)
Context (run_task : task -> P -> P).
Inductive happening : Type :=
  | Listened (u : UserDataContext) (events : list Event)
  | NetworkAccepts (replay : bool) (events : list Event)
  | NetworkRollsBack (replay : bool) (events : list Event)
  | NetworkCommits (replay : bool) (events : list Event)
  | Pushed (events : list Event)
  | Runs (i : nat).

Definition happens (h : happening) s : program P * outcome unit :=
  match h with
  | Listened u events => event_listener u events s
  | NetworkAccepts replay events => network_accepts replay events s
  | NetworkRollsBack replay events => network_rolls_back replay events s
  | NetworkCommits replay events => network_commits replay events s
  | Pushed events => push events s
  | Runs i => match tasks s !! i with Some t => (MkProgram (run_task t (parts s)) (delete i (tasks s)), Ok ()) | None => (s, Ok ()) end
  end.

Fixpoint run (hs : list happening) s : program P :=
  match hs with [] => s | h :: hs => run hs (happens h s).1 end.

(** A callback that has the right to tell subscribers and devices of events. *)
Inductive announces : happening -> program P -> list Event -> Prop :=
| announced_by_user u events s p1 p2 p3 : sends_gift_wrap u events = false -> query_AcceptEvents false events (parts s) = (p1, Ok ()) ->
    command_AcceptEvents events p1 = (p2, Ok ()) -> storage_AcceptEvents events p2 = (p3, Ok ()) -> announces (Listened u events) s events
| announced_by_network replay events events' s p1 p2 : query_CommitEvents replay events (parts s) = (p1, Ok events') ->
    storage_AcceptEvents events' p1 = (p2, Ok ()) -> announces (NetworkCommits replay events) s events'
| announced_by_relay events s : announces (Pushed events) s events.

Definition tells (j : job) : bool := match j with webserver_BroadcastNewEvents | pushnotifications_AcceptEvents => true | _ => false end.

Lemma happens_tasks h s t : t ∈ tasks (happens h s).1 -> tells (does t) = true -> t ∈ tasks s \/ announces h s (on t).
Proof.
  intros Hin Ht. destruct h as [u events|replay events|replay events|replay events|events|i]; cbn [happens] in Hin.
  - destruct (event_listener u events s) as [s' r] eqn:He. apply event_listener_heard in He. cbn [fst] in Hin.
    destruct He; cbn [tasks] in Hin; [by left|by left|..]; rewrite ?elem_of_app in Hin; destruct Hin as [Hin|Hin]; try (by left); right.
    1-2: unfold early in Hin; rewrite !elem_of_cons, elem_of_nil in Hin; by destruct Hin as [->|[->|[]]].
    assert (on t = events) as ->; [|by eapply announced_by_user].
    destruct Hin as [Hin|Hin]; [unfold early in Hin|unfold late in Hin; cbn in Hin]; rewrite !elem_of_cons, elem_of_nil in Hin; naive_solver.
  - left. unfold network_accepts, part in Hin. by destruct (query_AcceptEvents _ _ _).
  - left. unfold network_rolls_back, part in Hin. by destruct (query_RollbackEvents _ _ _).
  - unfold network_commits, mbind, ST_bind, part in Hin. destruct (query_CommitEvents replay events (parts s)) as [p1 [events'|x| |]] eqn:Hc; [|by left..].
    cbn [parts tasks] in Hin. destruct (storage_AcceptEvents events' p1) as [p2 [[]|x| |]] eqn:Hs; [|by left..]. cbn in Hin.
    apply elem_of_app in Hin as [Hin|Hin]; [by left|right]. apply list_elem_of_singleton in Hin as ->. by eapply announced_by_network.
  - unfold push, mbind, ST_bind, Submit in Hin. cbn [fst tasks] in Hin. rewrite !elem_of_app, !list_elem_of_singleton in Hin. destruct Hin as [[Hin| ->]| ->]; [by left|right; constructor..].
  - left. destruct (tasks s !! i) as [t'|] eqn:Hi; [|done]. cbn [fst tasks] in Hin. rewrite (delete_Permutation _ _ _ Hi). by right.
Qed.

(** C7: subscribers and devices are told only of events that were stored, agreed on and
    kept for a user, that the network has committed, or that another relay or a job
    sent: whatever callbacks and tasks run, in any order. *)
Theorem announced_when_kept hs s t : tasks s = [] -> t ∈ tasks (run hs s) -> tells (does t) = true ->
  exists before h after, hs = before ++ h :: after /\ announces h (run before s) (on t).
Proof.
  intros Hs Hin Ht. enough (H : t ∈ tasks s \/ exists before h after, hs = before ++ h :: after /\ announces h (run before s) (on t)).
  { destruct H as [H|H]; [|done]. rewrite Hs in H. by apply not_elem_of_nil in H. }
  clear Hs. revert s Hin. induction hs as [|h hs IH]; intros s Hin; [by left|]. cbn [run] in Hin.
  destruct (IH _ Hin) as [H|(before & h' & after & -> & H)]; [|right; by exists (h :: before), h', after].
  apply happens_tasks in H as [H|H]; [by left| |done]. right. by exists [], h, hs.
Qed.
End Listener.

Section Shutdown.
(** Functions that wait for the end run after it; those that were registered are waiting
    or have run. *)
Definition orderly (fs : gset nat) (x : appContext * bool) : Prop :=
  (finished x.1 <> ∅ -> done x.1 = true) /\ (exited x.1 = true -> x.2 = true) /\ waiting x.1 ∪ finished x.1 = fs.

Definition registered (o : occurrence) : gset nat := match o with Registers f => {[f]} | _ => ∅ end.

Lemma occurs_orderly fs x o : exited x.1 = false -> orderly fs x -> orderly (registered o ∪ fs) (occurs x o).
Proof.
  destruct x as [c force]. cbn [fst]. intros He (Hd & _ & Hu). cbn [fst snd] in *. unfold occurs. rewrite He.
  destruct o as [f|f| |]; cbn [registered].
  - split_and!; cbn; [done|by rewrite He|set_solver].
  - destruct (_ && _) eqn:Hb; cbn.
    + apply andb_true_iff in Hb as [_ Hb%bool_decide_eq_true]. split_and!; cbn; [done|done|]. rewrite <- Hu.
      apply set_eq. intros y. destruct (decide (y = f)); set_solver.
    + split_and!; cbn; [done|by rewrite He|set_solver].
  - split_and!; cbn; [done|by rewrite He|set_solver].
  - destruct force; split_and!; cbn; [done|done|set_solver|done|by rewrite He|set_solver].
Qed.

Lemma exited_stays x o : exited x.1 = true -> exited (occurs x o).1 = true.
Proof. destruct x as [c force]. cbn [fst]. intros He. unfold occurs. by rewrite He. Qed.

(** When the program has waited for its end, every function that was registered has
    run, after the context ended; a second signal ends the process. *)
Lemma shutdown_complete os : let x := fold_left occurs os (NewAppContext, false) in exited x.1 = false -> shut_down x.1 = true ->
  finished x.1 = foldr (fun o fs => registered o ∪ fs) ∅ os /\ (finished x.1 <> ∅ -> done x.1 = true).
Proof.
  intros x He Hw. assert (Ho : orderly (foldr (fun o fs => registered o ∪ fs) ∅ os) x).
  { subst x. clear Hw. revert He. induction os as [|o os IH] using rev_ind; [split; [done|split; [done|apply (left_id_L ∅ (∪))]]|].
    rewrite fold_left_app. cbn [fold_left]. set (y := fold_left occurs os (NewAppContext, false)) in *. intros He.
    assert (Hy : exited y.1 = false) by (destruct (exited y.1) eqn:Hy; [|done]; by rewrite (exited_stays y o Hy) in He).
    rewrite foldr_app. cbn [foldr]. pose proof (occurs_orderly _ y o Hy (IH Hy)) as Hs. replace (foldr _ _ os) with (registered o ∪ foldr (fun o fs => registered o ∪ fs) ∅ os); [exact Hs|].
    clear. induction os as [|o' os IH]; cbn; set_solver. }
  destruct Ho as (Hd & _ & Hu). unfold shut_down in Hw. apply bool_decide_eq_true in Hw. rewrite Hw, (left_id_L ∅ (∪)) in Hu. by split.
Qed.

Lemma second_signal os c : fold_left occurs os (NewAppContext, false) = (c, true) -> exited (occurs (c, true) Signal).1 = true.
Proof. intros _. unfold occurs. by destruct (exited c) eqn:He. Qed.
End Shutdown.

(** ** The database and the files as parts *)

Record relay (D W : Type) : Type := MkRelay { database : dbClient D; files : client W }.
Arguments MkRelay {D W}. Arguments database {D W}. Arguments files {D W}.

Section Relay.
Context {N : Nostr} {G : GoText} {J : GoJSON} {R : RichText} {RT : RowText} {C : Crypto} {E : Env} {T : EventText}.
Context {TM : TagMaps} {U : Unicode} {TK : Tokenizer} {H : HttpText} {X : StorageText} {W : Type} {SW : StorageWorld W}.
Context (Unquote : string -> option string) (filters_base64 : list Filter -> string).
Context (relayPrivateKey relayURL : string).
Context {D : Type} (attempts : nat).
Context (run_rows : string -> gmap string any -> D -> D * (list databaseEvent * option driverError)).
Context (run_bool : string -> gmap string any -> D -> D * (option bool * option driverError)).
Context (exec_rows : string -> gmap string any -> D -> D * (list databaseEvent * option driverError)).
Context (exec_events : string -> gmap string any -> D -> D * (list Event * option driverError)).
Context (exec_ids : string -> list string -> D -> D * (list Event * option driverError)).
Context (switch : D -> D * option dbError).
Context (operationReporter : operationType -> option error -> D -> D).
(** The fuel of deletions; the agreement with other relays, which works on the database
    through its callbacks (file Agreement). *)
Context (fuel : nat) (agree : list Event -> ST (dbClient D) unit) (config : Files.Config).

Definition on_database {A} (m : ST (dbClient D) A) : ST (relay D W) A := fun s => let '(d, r) := m (database s) in (MkRelay d (files s), r).
Definition on_files {A} (m : ST (client W) A) : ST (relay D W) A := fun s => let '(f, r) := m (files s) in (MkRelay (database s) f, r).

Abbreviation store_events := (Store.AcceptEvents Unquote filters_base64 relayPrivateKey relayURL attempts run_rows run_bool exec_rows exec_events switch
  operationReporter fuel).

#[local] Instance relay_parts : Parts (relay D W) := {|
  query_AcceptEvents replay events := on_database (req ← store_events replay events; mret ());
  query_RollbackEvents replay events := on_database (Store.RollbackEvents Unquote attempts run_bool exec_rows exec_events switch
    operationReporter fuel replay events);
  query_CommitEvents replay events := on_database (CommitEvents attempts exec_ids switch replay events);
  command_AcceptEvents events := on_database (agree events);
  storage_AcceptEvents events := on_files (Files.AcceptEvents config events)
|}.

(** C28: a file event that names no bag is stored, carried to the other relays and given
    to the jobs although its sender is told that it was refused: what the database and
    the network have accepted is not undone when the files refuse it. *)
Theorem refused_but_stored u e d1 d2 req (s : program (relay D W)) :
  sends_gift_wrap u [e] = false -> Kind e = KindFileMetadata -> Value (GetTag e "i") = "" ->
  store_events false [e] (database (parts s)) = (d1, Ok req) -> agree [e] d1 = (d2, Ok ()) ->
  event_listener u [e] s = (MkProgram (MkRelay d2 (files (parts s))) (tasks s ++ early [e]), Err opaque_error).
Proof.
  intros Hg Hk Hi Hs Ha. unfold event_listener. rewrite Hg.
  unfold mbind at 1, ST_bind at 1, part at 1. cbn [query_AcceptEvents relay_parts]. unfold on_database at 1. unfold mbind at 1, ST_bind at 1. rewrite Hs.
  cbv [mbind ST_bind Submit mret ST_ret]. cbn [parts tasks]. unfold part at 1. cbn [parts tasks command_AcceptEvents relay_parts].
  unfold on_database. cbn [database files]. rewrite Ha. unfold part at 1. cbn [parts tasks storage_AcceptEvents relay_parts]. unfold on_files. cbn [database files].
  assert (Hf : Files.AcceptEvents config [e] (files (parts s)) = (files (parts s), Err opaque_error)).
  { unfold Files.AcceptEvents, acceptEvents. cbn [accept_all]. unfold accept_event. rewrite Hk. cbn [Z.eqb]. unfold acceptNewBag. rewrite Hi. done. }
  rewrite Hf. by rewrite <- List.app_assoc.
Qed.
End Relay.

(** ** Concrete inputs *)
Module MainWitness.
Import HttpPlain.
Import RollbackWitness.

#[local] Instance json : GoJSON := {|
  json_Valid _ := false; json_profile _ := None; json_strings _ := None; json_ints _ := None;
  json_event _ := None; json_from _ := None; json_to _ := None |}.
(** Files that are nowhere. *)
Definition nothing : ST unit unit := fun w => (w, Ok ()).
#[local] Instance storage_world : StorageWorld unit := {|
  db_Get k w := (w, Ok None); db_Put _ _ := nothing; db_Delete _ := nothing; GetTorrent _ _ := None; RemoveTorrent _ := nothing; SetTorrent _ := nothing;
  Stop _ w := w; Start _ _ _ := nothing; IsDownloadAll _ _ := false; IsCompleted _ _ := false; NewTorrent id w := (w, MkTorrent id None);
  GetFileOffsets _ name _ := Ok (name, 5); ListTorrentFiles _ w := (w, Ok []);
  FileRef := unit; GetSingleFileRef _ w := (w, Ok ()); CreateTorrent _ _ _ w := (w, Ok (MkTorrent "" None));
  Bootstrap := unit; buildBootstrapNodeInfo _ w := (w, Ok ()); json_bootstraps _ := Some "[]";
  os_Remove _ := nothing; os_RemoveAll _ := nothing; os_MkdirAll _ := nothing; os_ReadDir _ w := (w, Ok []);
  os_Rename _ _ := nothing; OpenRoot _ := nothing; OpenFile _ _ := nothing; os_Open _ := nothing; io_Copy _ _ := nothing; io_Read _ w := (w, Ok "");
  cdn_FileDelete _ := nothing; cdn_HealthCheck := nothing; cdn_FileUpload _ _ _ := nothing; cdn_FileUploadAsync _ _ _ := nothing;
  GetStoredEvents _ w := (w, []); time_Now w := (w, 100000000000) |}.
#[local] Instance headers : StorageText := {|
  header_Unmarshal md s := (md, None); header_Marshal _ := Some "{}"; TypeByExtension _ := "text/plain" |}.
Definition machine : FSM := match New 60000000000 3 with Ok m => m | _ => MkFSM 0 0 0 0 0 stateHealthy end.
Definition config : Files.Config := MkConfig "" "wss://me" "/srv" false "" "" false.
(** The network is off. *)
Definition off (events : list Event) : ST (dbClient unit) unit := fun d => (d, Ok ()).
Definition idle : program (relay unit unit) := MkProgram (MkRelay fresh_client (MkStorage ∅ ∅ [] ∅ machine machine None None ())) [].
Abbreviation plain_relay := (relay_parts unquote no_base64 key_hex "wss://relay" 0 no_rows no_bool inserted no_events no_ids no_switch
  SelectionWitness.no_report 1 off config).
Abbreviation store_plain := (Store.AcceptEvents unquote no_base64 key_hex "wss://relay" 0 no_rows no_bool inserted no_events no_switch
  SelectionWitness.no_report 1 false).

Definition bagless : Event := MkEvent None "f1" "aa" 1700000000 KindFileMetadata [["ox"; "cafe"]] "" "sig".
Definition stored : dbClient unit := (store_plain [bagless] fresh_client).1.
Definition request_of : databaseBatchRequest := match (store_plain [bagless] fresh_client).2 with Ok r => r | _ => request end.

Lemma refused_but_stored_witness :
  event_listener (PP := plain_relay) no_user [bagless] idle = (MkProgram (MkRelay stored (files (parts idle))) (early [bagless]), Err opaque_error).
Proof.
  apply (refused_but_stored unquote no_base64 key_hex "wss://relay" 0 no_rows no_bool inserted no_events no_ids no_switch
    SelectionWitness.no_report 1 off config no_user bagless stored stored request_of idle); [reflexivity|reflexivity|reflexivity|vm_compute; reflexivity|reflexivity].
Defined.

(** A note is published, and its batch stays in the record of batches to undo: without
    the network nothing commits it. *)
Definition after_note : program (relay unit unit) := (event_listener (PP := plain_relay) no_user [note] idle).1.
Example note_published : does <$> tasks after_note = does <$> early [note] ++ late [note]. Proof. vm_compute. reflexivity. Qed.
Example record_kept : size (rollbackableEvents (database (parts after_note))) = 1%nat. Proof. vm_compute. reflexivity. Qed.

Lemma announced_when_kept_witness :
  exists before h after, [Listened no_user [bagless]; Listened no_user [note]; Runs 2] = before ++ h :: after /\
    announces (PP := plain_relay) h (run (PP := plain_relay) (fun _ p => p) before idle) (on (MkTask webserver_BroadcastNewEvents [note])).
Proof.
  apply (announced_when_kept (PP := plain_relay) (fun _ p => p) [Listened no_user [bagless]; Listened no_user [note]; Runs 2] idle
    (MkTask webserver_BroadcastNewEvents [note])); [reflexivity| |reflexivity].
  apply (list_elem_of_lookup_2 _ 8). vm_compute. reflexivity.
Defined.

(** A user who is authenticated sends no gift wraps; nobody must authenticate for one. *)
Example wrap_refused : event_listener (PP := plain_relay) (MkUserData ∅ "aa" "aa" "" true false) [MkEvent None "g" "x" 5 KindGiftWrap [] "" "sig"] idle = (idle, Err opaque_error).
Proof. vm_compute. reflexivity. Qed.
Example no_auth : event_must_authenticate [bagless; MkEvent None "g" "x" 5 KindGiftWrap [] "" "sig"] = false. Proof. vm_compute. reflexivity. Qed.
End MainWitness.
